(* ===== verification/_CoqProject ===== *)
-Q . S2P
Prelude.v
Text.v
Reply.v
Builders.v
BuilderFacts.v
ReplyStream.v
Logger.v
ThreadPool.v
IoService.v
IoServiceFacts.v
IoServiceFlags.v
IoServiceTheorems.v
IoServiceSocket.v
TcpClientIo.v
TcpClientIoFacts.v
TcpClientIoTheorems.v
TcpClientIoPolled.v
Hoare.v
Socket.v
SocketFacts.v
SocketTheorems.v
TcpServer.v
TcpServerFacts.v
TcpServerTheorems.v
TcpClient.v
TcpClientRefines.v
NetworkAdaptor.v
Connection.v
ConnectionFacts.v
ConnectionWire.v
Client.v
ClientFacts.v
Sentinel.v
SentinelFacts.v
Subscriber.v
SubscriberFacts.v
CommandTypes.v
Commands.v
CommandFutures.v
CommandFacts.v
DB.v
RedisServer.v
ClientKill.v
DBRedis.v
DBRedisFacts.v
LocalDB.v
DMutex.v
DMutexFacts.v
DMutexRenewal.v
DMutexTheorems.v
DMutexSim.v
DBCommands.v
DMutexStack.v
DMutexLease.v
DMutexStackTheorems.v
DMutexStackRenewal.v
TimeoutQueue.v
TimeoutQueueWake.v
JsString.v
Dom.v
DocResults.v
DocResultsFacts.v
DocPageFacts.v
DocMenu.v
DocMenuInit.v
DocMenuFacts.v
DocIndex.v
DocIndexRedis.v
DocIndexTacopie.v
DocIndexOrphans.v
DocIndexFacts.v
DocPanel.v
DocPanelFacts.v
DocTheorems.v
DocReach.v
DocFolders.v
DocFoldersFacts.v
