(* ===== verification/Prelude.v ===== *)
(** * A verified model of the distributed lock manager

    The repository is a distributed lock over Redis databases (src/include,
    src/src), on a vendored Redis client (src/cpp_redis) that runs on a TCP
    library (src/cpp_redis/tacopie), with the browsable documentation of the two
    (src/cpp_redis/docs, src/cpp_redis/tacopie/docs), whose search and menu are
    JavaScript.  This development models the code from the lock down to the bytes
    on the connection, and the search scripts of the documentation.

    ** The parts and the files that model them

    The reply parser.  [Reply] is cpp_redis::reply (sources/core/reply.cpp);
    [Builders] the incremental parsers of sources/builders, one Module per
    builder, with [reply_builder]: [feed] is one [operator<<].  [BuilderFacts]
    shows, against the class [ParserStep], that every builder is resumable and
    never diverges; [ReplyStream] that a stream of replies comes out of any
    packeting as it went in, and what malformed input does.

    The callbacks.  [ThreadPool] is tacopie's thread_pool
    (sources/utils/thread_pool.cpp) and [IoService] its io_service
    (sources/network/io_service.cpp) with the self pipe, as step relations: the
    thread that selects, the table of sockets, the workers and any callers.
    [IoServiceFacts] and [IoServiceTheorems] have the properties, and
    [IoServiceSocket] what a step does to one socket; [IoServiceFlags] that a socket
    which is not watched has a callback on its way.  [TcpClientIo] is one
    connection of tacopie's tcp_client on [IoService], as a step relation: requests
    of any threads, the callbacks the workers run, disconnections, new connections;
    [TcpClientIoFacts] has its invariant, [TcpClientIoTheorems] its properties, and
    [TcpClientIoPolled] that no wake-up of it is lost.

    The sockets.  [Socket] is tcp_socket (sources/network/common/tcp_socket.cpp and
    sources/network/unix/unix_tcp_socket.cpp), over the system calls: the class [Os],
    with their documented behaviour in [OsLaws].  [Hoare] has postconditions per
    outcome for code in [M]; [SocketFacts] and [SocketTheorems] the properties, and
    a small system that satisfies the laws.  [TcpServer] is tcp_server
    (sources/network/tcp_server.cpp) over [Socket]; [TcpServerFacts] has its
    invariant and its specification, [TcpServerTheorems] its properties.

    The connection.  [TcpClient] has the interface tcp_client_iface as a class
    with laws, and tacopie's tcp_client (sources/network/tcp_client.cpp) as an
    instance, with the results of the system calls as explicit lists;
    [TcpClientRefines] that [TcpClientIo] does to a client what this one does.
    [NetworkAdaptor] is cpp_redis's tcp_client (sources/network/tcp_client.cpp), the
    same behind the interface with the callbacks of its requests.
    [Connection] is redis_connection.cpp, generic in that class; its callbacks
    into the client are events in order.  [ConnectionFacts] has the round trip of
    commands and the delivery of replies; [ConnectionWire] puts the connection on
    tacopie's client and follows the bytes from a command to the peer's parser.

    The client.  [Client] is the core of sources/core/client.cpp (lines 1 to
    425): pending commands, commit, reception, reconnection, the detached threads
    that fail callbacks.  It is generic in the TCP client and in the sentinel
    lookup ([SentinelLookup]); user callbacks are recorded in [trace].
    [ClientFacts] has its properties.  [Sentinel] is the class that looks a
    master's address up (sources/core/sentinel.cpp) and an instance of that
    interface; [SentinelFacts] has its properties, and those of a client on it.
    [Subscriber] is sources/core/subscriber.cpp, over the same two interfaces, and
    [SubscriberFacts] its properties.
    [CommandTypes], [Commands] and
    [CommandFutures] are the 568 command functions of the client (the rest of
    client.cpp), [CommandFacts] what they put on the wire; [ClientKill] is the variadic
    client_kill (includes/cpp_redis/impl/client.ipp) with the type traits it asks
    (helpers/variadic_template.hpp), on lists of types.

    The lock.  [DB] is db-interface.h as a class, with the laws the lock relies
    on ([DBLaws]); [LocalDB] an implementation in memory that satisfies them.
    [DMutex] is dmutex.cpp, generic in the database, the clock and the shuffle;
    [DMutexFacts] and [DMutexTheorems] its properties; [DMutexRenewal] its renewal,
    with the laws of the database this needs ([DBRenewLaws]).  [RedisServer] is the
    server, as a class, with the documented behaviour of the commands the lock
    sends ([RedisSpec]), where anything may happen between two commands: time, other
    clients; its instance [timed] is a server without other clients on which time
    passes before each command and each reading of the clock, by delays of any
    length.  [DBRedis] is db-redis.cpp over the client, connection and server models;
    [DBRedisFacts] shows that a call returns the server's answer, that [SetKeyValue]
    refines a conditional store, and the race of [DelKeyValue] with another client;
    [DBCommands] that every operation of [DBRedis] does what it does when the server
    executes each of its commands at once, on any server.  [DMutexSim] shows that the
    lock does the same over related worlds; [DMutexStack] relates [DMutex] over
    [DBRedis] to [DMutex] over these commands, and shows that on [timed] they satisfy
    [DBLaws] and [DBRenewLaws]; [DMutexLease] says what the lock does there when no
    delay is longer than a bound, and [DMutexStackTheorems] has the properties of the
    whole stack, [DMutexStackRenewal] that of its renewal.  [TimeoutQueue] is
    timeout-queue.h and timeout-queue.cc as a step relation of worker threads;
    [TimeoutQueueWake] has its notifications, and refines it.

    The documentation.  [JsString] and [Dom] are the strings and the document
    tree the scripts work on.  [DocResults] is the results page of
    search/search.js (createResults and the class SearchResults), [DocPanel] the
    panel (the class SearchBox, init_search) and the key handlers that act on
    both.  [DocIndex] says what a search index is and when it is well formed;
    [DocIndexRedis] and [DocIndexTacopie] are the tables of the two trees
    (searchdata.js, menudata.js and a table per results page), [DocIndexOrphans]
    those no section leads to; [DocIndexFacts] checks them.  [DocReach] says which
    pages a search leads to.  [DocMenu] is makeTree of menu.js, [DocMenuInit] its
    initMenu, [DocMenuFacts] what that makes of a page.  [DocFolders] is dynsections.js
    (the tables of directories, sections, inherited members), [DocFoldersFacts] its
    properties.  [DocResultsFacts],
    [DocPageFacts], [DocPanelFacts] and [DocTheorems] have the properties.

    [Logger] is the loggers of both libraries (misc/logger.cpp, utils/logger.cpp) and
    tacopie's error type; [Prelude] (this file) holds the outcomes of code, the state and outcome monad,
    machine integers and the shared facts on lists; [Text] is std::string.

    ** How code is modelled

    An operation over a state is in the monad [M], or returns the new state: an
    outcome is a value, a C++ or JavaScript exception ([Throw]), undefined
    behaviour ([Undef]), or the end of the fuel of a loop ([Timeout]).  Whatever
    the outcome, the state reached is kept.  Integers of a width are [Z] with
    their wrap-around written out; signed overflow is [Undef].  Where C++ code
    runs in threads, a step is one critical section, and the properties hold for
    every sequence of steps.

    ** What is shown

    The lock ([DMutexTheorems]): mutual exclusion by majority, on clocks that
    agree; what a successful attempt holds; the end of an attempt; unlocking; and
    three ways the code goes wrong (a stale majority, an unselectable database, a
    renewal that spins).  Mutual exclusion is always for an attempt that starts with an
    empty list, which the stale majority is about, and for keys that are kept, which
    an unlocking deletes.  Its renewal ([DMutexRenewal]): a lock excludes the others
    for as long as it is renewed and not released, whatever happens between renewals.
    The lock on the whole stack ([DMutexStackTheorems]): every operation, down to the
    bytes, does what it does when the server executes each command at once, on any
    server; then, on a server whose time passes: mutual exclusion of two locks with a
    connection each; a lock left behind is taken within an attempt, a pause and an
    attempt of its last deadline, or the call throws because a key lapsed between
    EXISTS and GET; what such a key does to a renewal and an unlocking; a renewal
    stores every key of the lock again, also one that had lapsed
    ([DMutexStackRenewal]).  The databases ([DBRedisFacts]): each call returns the
    server's own answer; a store refines its specification; the race between GET and
    DEL.  The client ([ClientFacts]): replies reach their own callbacks in order,
    every callback is accounted for, failed commits fail their callbacks, the
    reconnection loop ends; and what reconnections lose.  The sentinel
    ([SentinelFacts]): a lookup returns what the sentinel it reached answered; the
    client's reconnection ends when sentinels answer, and hangs on a silent one.
    The subscriber ([SubscriberFacts]): what is published reaches its callbacks in
    order; a reconnection subscribes to everything again, or gives up with empty
    tables.
    The commands
    ([CommandFacts]): one request each, round trips of optional arguments, and
    arguments that never reach the server; a client_kill that compiles carries its
    filters ([ClientKill]).  What is sent on a new connection is what the peer
    parses, and a short send is what breaks this ([ConnectionWire]).  The connection ([ConnectionFacts]) and
    the parser ([ReplyStream]): round trips, independence of packet boundaries,
    termination, well-formedness, overflow, and malformed input.  The pool
    ([ThreadPool]) runs its tasks in order, and dies when it is made smaller; the
    service ([IoServiceTheorems]) watches what its sockets ask for, calls each once,
    and none after its removal, and two ways it stops.  A client on the service
    ([TcpClientIoTheorems]) is watched for what it has requests of, calls their
    callbacks in order and loses none but by disconnections, and is left alone after
    a disconnection it waited for; it is in what select waits for exactly when it has
    requests that no callback is on its way for, and is then served
    ([TcpClientIoPolled]); whatever is interleaved, it is the client of [TcpClient]
    ([TcpClientRefines]); and three ways its disconnections go wrong.  A socket ([SocketTheorems]) keeps account
    of its descriptor on every outcome; what connect leaves; what an address loses.
    The server ([TcpServerTheorems]) keeps the clients it accepted and did not lose,
    and closes them when it stops; a descriptor and a connection it can leave behind.
    The queue
    ([TimeoutQueue]): events are conserved; workers stop after Quit; a notification
    can go to the wrong worker ([TimeoutQueueWake]).  The
    documentation ([DocTheorems]): the beginning of any symbol finds its row; a
    search leads to the pages of the index and to no others ([DocReach]); the
    walk of FindChildElement is a search in document order; the choice of a
    section and where it throws; the key handlers end; the table of a directory
    stays unfolded from the top ([DocFoldersFacts]); the menu of a page
    ([DocMenuFacts]).

    ** Fuel

    The parsing loops run on fuel computed from the buffer, and are shown to
    need no more ([feed_terminates]).  The reconnection loop has the number of
    attempts as fuel, and ends within it when attempts are limited
    ([reconnection_ends]).  An attempt of the lock is bounded by the databases and
    its time limit ([main_lock_terminates]).  A renewal takes two turns a database when
    no other client acts and no key lapses during it ([stack_renews]), and none are enough once another has taken
    the lock over ([keep_lock_spins]).  A wait that nothing can end is
    [Timeout] too: [sync_commit] on a connection whose server stays silent,
    or the lookup from a silent sentinel.  The
    loops of the search scripts have the number of elements of the document as
    fuel, which is always enough ([find_child_first], [keys_return]).

    ** What is not modelled, and why

    The calls of the loggers, which change nothing the models describe.  What the
    system calls answer: [Socket]
    has them as a parameter, and [TcpClient] and [TcpClientIo] as inputs.  The
    sources for Windows.  [TcpClient] has the table of [IoService] as two flags of a
    client, and its operations and callbacks come one after the other, in any order:
    [connection_refines_client] says that any interleaving does to a client what they
    do, but for a disconnection that others interrupt.  [TcpServer] has the
    service as the set of the sockets it tracks, and its events come one after the
    other, but for the interleaving of [stop_misses_connection].  A client
    of [TcpClientIo] that connects again gets the descriptor it had.  Promises are their
    documented behaviour.  The condition variables of [ThreadPool] and
    [TimeoutQueueWake] are
    explicit; those of [TimeoutQueue] wake at any time.
    JavaScript strings are those of code units below 0x100; layout is a parameter;
    the events that a script's own calls of focus() and blur() raise are not
    dispatched to its handlers.  jQuery is minified third-party code: the folding
    scripts and the menu are modelled on its documented behaviour.  The scripts of
    the two documentations are the same files, modelled once; their tables and menus
    are each their own.  A callback that calls back into the object that runs it is
    outside the models of the client and the subscriber.

    [stack_refines] is for any server.  The other properties of the whole stack are
    on the server [timed]: no other client acts during an operation
    ([del_key_value_steals] shows what one can do), the clocks of the client and the
    server agree, and time passes before commands and readings of the clock and in
    the pauses.  The delays are any natural numbers, except where a theorem bounds
    them.

    Smaller things.  std::isdigit of a character above 0x7f, undefined in the
    standard, is false.  In [TcpClientIo], a callback that finds no request reads the
    unset success of its result: this is flagged, and what the code does with it is
    not followed.  The callbacks of replies are made in the code before the next read
    is armed; [Connection] returns them as events to run after it, which differs only
    for callbacks that call back into the connection.  In [Sentinel] the answer of the
    peer to a lookup comes in one read; [Client] and [Subscriber] take any packeting. *)

From Stdlib Require Export ZArith Lia Ascii.
From stdpp Require Export base gmap strings list pretty.

#[global] Set Default Goal Selector "!".

(** * Outcomes of C++ code

    A C++ operation returns, throws, has undefined behaviour, or (only when
    the code itself loops) exhausts the fuel the model was given. *)

Inductive exn : Type :=
| redis_error (what : string)
| system_error (what : string)
| future_error (what : string)
| std_exception (what : string).

#[global] Instance exn_eq_dec : EqDecision exn.
Proof. solve_decision. Defined.

Inductive outcome (A : Type) : Type :=
| Ret (a : A)
| Throw (e : exn)
| Undef
| Timeout.
Arguments Ret {A} a.
Arguments Throw {A} e.
Arguments Undef {A}.
Arguments Timeout {A}.

#[global] Instance outcome_eq_dec {A} `{EqDecision A} : EqDecision (outcome A).
Proof. solve_decision. Defined.

(** An outcome passed through code that does not handle it. *)
Definition obind {A B : Type} (f : A -> outcome B) (o : outcome A) : outcome B :=
  match o with
  | Ret a => f a
  | Throw e => Throw e
  | Undef => Undef
  | Timeout => Timeout
  end.

Definition omap_outcome {A B : Type} (f : A -> B) (o : outcome A) : outcome B :=
  obind (fun a => Ret (f a)) o.

(** * The state and outcome monad

    [M S A]: code over a state [S].  A throw keeps the state reached so far,
    as the objects a C++ exception leaves behind keep theirs. *)

Definition M (S A : Type) : Type := S -> outcome A * S.

#[global] Instance M_ret S : MRet (M S) := fun A a s => (Ret a, s).
#[global] Instance M_bind S : MBind (M S) := fun A B f m s =>
  match m s with
  | (Ret a, s') => f a s'
  | (Throw e, s') => (Throw e, s')
  | (Undef, s') => (Undef, s')
  | (Timeout, s') => (Timeout, s')
  end.

Definition mthrow {S A} (e : exn) : M S A := fun s => (Throw e, s).
Definition mundef {S A} : M S A := fun s => (Undef, s).
Definition mtimeout {S A} : M S A := fun s => (Timeout, s).
Definition mget {S} : M S S := fun s => (Ret s, s).
Definition mput {S} (s : S) : M S unit := fun _ => (Ret tt, s).
Definition mmodify {S} (f : S -> S) : M S unit := fun s => (Ret tt, f s).
Definition mlift {S A} (o : outcome A) : M S A := fun s => (o, s).

(** Run [fin] whatever the outcome of [m]: a destructor at scope exit. *)
Definition mfinally {S A} (m : M S A) (fin : S -> S) : M S A :=
  fun s => let '(r, s') := m s in (r, fin s').

(** [try { m } catch (...) { h }]: undefined behaviour is not caught. *)
Definition mcatch {S A} (m : M S A) (h : exn -> M S A) : M S A :=
  fun s => match m s with
           | (Throw e, s') => h e s'
           | r => r
           end.

Lemma mbind_Ret {S A B} (m : M S A) (f : A -> M S B) s a s' :
  m s = (Ret a, s') -> (m ≫= f) s = f a s'.
Proof. intros H. unfold mbind, M_bind. by rewrite H. Qed.

Lemma mbind_inv {S A B} (m : M S A) (f : A -> M S B) s b s' :
  (m ≫= f) s = (Ret b, s') ->
  exists a s1, m s = (Ret a, s1) /\ f a s1 = (Ret b, s').
Proof.
  unfold mbind, M_bind. destruct (m s) as [[a|e| |] s1]; intros H; [|done..].
  eauto.
Qed.

Lemma mret_eq {S A} (a : A) (s : S) : (mret a : M S A) s = (Ret a, s).
Proof. done. Qed.

(** * Machine integers *)

Definition INT32_MIN : Z := (-2147483648)%Z.
Definition INT32_MAX : Z := 2147483647%Z.
Definition INT64_MIN : Z := (-9223372036854775808)%Z.
Definition INT64_MAX : Z := 9223372036854775807%Z.

Definition wrap_u64 (z : Z) : Z := (z mod 2 ^ 64)%Z.
Definition wrap_u32 (z : Z) : Z := (z mod 2 ^ 32)%Z.
(** Conversion to a signed w-bit integer (two's complement). *)
Definition wrap_s32 (z : Z) : Z := ((z + 2 ^ 31) mod 2 ^ 32 - 2 ^ 31)%Z.
Definition wrap_s64 (z : Z) : Z := ((z + 2 ^ 63) mod 2 ^ 64 - 2 ^ 63)%Z.

Lemma wrap_u64_id z : (0 <= z < 2 ^ 64)%Z -> wrap_u64 z = z.
Proof. apply Z.mod_small. Qed.

Lemma wrap_s32_id z : (INT32_MIN <= z <= INT32_MAX)%Z -> wrap_s32 z = z.
Proof.
  unfold wrap_s32, INT32_MIN, INT32_MAX. intros H.
  rewrite Z.mod_small by lia. lia.
Qed.

Lemma wrap_s32_le e : (e <= INT32_MAX)%Z -> (e <= wrap_s32 e)%Z.
Proof.
  unfold INT32_MAX. intros He. destruct (decide (INT32_MIN <= e)%Z); [rewrite wrap_s32_id; unfold INT32_MAX; lia|].
  unfold wrap_s32, INT32_MIN in *. pose proof (Z.mod_pos_bound (e + 2 ^ 31) (2 ^ 32)). lia.
Qed.

Lemma wrap_s64_id z : (INT64_MIN <= z <= INT64_MAX)%Z -> wrap_s64 z = z.
Proof.
  unfold wrap_s64, INT64_MIN, INT64_MAX. intros H.
  rewrite Z.mod_small by lia. lia.
Qed.

(** * Lists *)

(** Two halves and a bit of the same set meet. *)
Lemma majority_meets {A} `{EqDecision A} (l l1 l2 : list A) :
  NoDup l -> l1 ⊆+ l -> l2 ⊆+ l -> length l / 2 + 1 <= length l1 -> length l / 2 + 1 <= length l2 ->
  exists x, x ∈ l1 /\ x ∈ l2.
Proof.
  intros Hl H1 H2 Hn1 Hn2.
  destruct (decide (Exists (fun x => x ∈ l2) l1)) as [He|Hn].
  { apply Exists_exists in He as (x & ? & ?). by exists x. }
  assert (forall k, k ⊆+ l -> NoDup k) as Hnd.
  { intros k [k' Hk]%submseteq_Permutation. rewrite Hk in Hl. by apply NoDup_app in Hl as [? _]. }
  assert (NoDup (l1 ++ l2)) as Happ.
  { apply NoDup_app. split_and!; [by apply Hnd| |by apply Hnd].
    intros x Hx1 Hx2. apply Hn, Exists_exists. by exists x. }
  assert (l1 ++ l2 ⊆+ l) as Hsub.
  { apply NoDup_submseteq; [done|]. intros x [Hx|Hx]%elem_of_app;
      [by apply (elem_of_submseteq l1)|by apply (elem_of_submseteq l2)]. }
  apply submseteq_length in Hsub. rewrite length_app in Hsub.
  pose proof (Nat.div_mod_eq (length l) 2). pose proof (Nat.mod_upper_bound (length l) 2). lia.
Qed.
