(* ===== verification/Text.v ===== *)
(** [std::string] as [String.string]: the members the sources use ([size],
    [front], [substr], [erase], [find] of the line ending, [operator+=]) and
    [std::to_string], with the lemmas the parsers share.  The hint database
    [text] rewrites lengths and splits of concatenations. *)

From S2P Require Import Prelude.

Create Rewrite HintDb text.

#[global] Arguments String.append : simpl nomatch.

Definition CR : ascii := "013"%char.
Definition LF : ascii := "010"%char.
(** The two-character line ending the protocol uses. *)
Definition crlf : string := String CR (String LF EmptyString).

(** [s.substr(0, n)] *)
Fixpoint s_take (n : nat) (s : string) : string :=
  match n, s with
  | S n', String a s' => String a (s_take n' s')
  | _, _ => EmptyString
  end.

(** [s.erase(0, n)] *)
Fixpoint s_drop (n : nat) (s : string) : string :=
  match n, s with
  | S n', String _ s' => s_drop n' s'
  | _, _ => s
  end.

(** [s.find] of the line ending; [None] is [std::string::npos]. *)
Fixpoint find_crlf (s : string) : option nat :=
  match s with
  | EmptyString => None
  | String a r =>
    match r with
    | String b _ =>
      if (Ascii.eqb a CR && Ascii.eqb b LF)%bool then Some O
      else S <$> find_crlf r
    | EmptyString => None
    end
  end.

(** [std::isdigit] and the digit's value, [c - '0'] *)
Definition isdigit (c : ascii) : bool :=
  ((48 <=? N_of_ascii c) && (N_of_ascii c <=? 57))%N%bool.
Definition digit_value (c : ascii) : Z := (Z.of_N (N_of_ascii c) - 48)%Z.

(** [std::to_string] *)
Definition to_string (z : Z) : string := pretty z.

(** [s[i]], [None] out of range *)
Definition char_at (s : string) (i : Z) : option ascii :=
  if (i <? 0)%Z then None else String.get (Z.to_nat i) s.

Abbreviation slen s := (Z.of_nat (String.length s)).

(** ** Concatenation *)

Lemma s_app_nil_r s : s +:+ "" = s.
Proof. induction s; simpl; congruence. Qed.

Lemma s_app_assoc s t u : (s +:+ t) +:+ u = s +:+ (t +:+ u).
Proof. induction s; simpl; congruence. Qed.

Lemma s_length_app s t :
  String.length (s +:+ t) = String.length s + String.length t.
Proof. induction s; simpl; congruence. Qed.

Lemma s_take_app s t : s_take (String.length s) (s +:+ t) = s.
Proof. induction s; simpl; [by destruct t|congruence]. Qed.

Lemma s_drop_app s t : s_drop (String.length s) (s +:+ t) = t.
Proof. by induction s. Qed.

Lemma s_take_app_le n s t :
  n <= String.length s -> s_take n (s +:+ t) = s_take n s.
Proof.
  revert n; induction s as [|a s IH]; intros n Hn; simpl in *.
  - assert (n = 0) as -> by lia. by destruct t.
  - destruct n; simpl; [done|]. f_equal. apply IH. lia.
Qed.

Lemma s_drop_app_le n s t :
  n <= String.length s -> s_drop n (s +:+ t) = s_drop n s +:+ t.
Proof.
  revert n; induction s as [|a s IH]; intros n Hn; simpl in *.
  - assert (n = 0) as -> by lia. by destruct t.
  - destruct n; simpl; [done|]. apply IH. lia.
Qed.

Lemma s_length_drop n s : String.length (s_drop n s) = String.length s - n.
Proof. revert n; induction s; intros [|n]; simpl; auto. Qed.

Lemma s_get_app_l i s t :
  i < String.length s -> String.get i (s +:+ t) = String.get i s.
Proof.
  revert i; induction s as [|a s IH]; intros [|i] Hi; simpl in *; try lia; [done|].
  apply IH. lia.
Qed.

Lemma s_get_app_r i s t :
  String.get (String.length s + i) (s +:+ t) = String.get i t.
Proof. induction s; simpl; [done|]. done. Qed.

Lemma s_get_length i s c : String.get i s = Some c -> i < String.length s.
Proof.
  revert i; induction s as [|a s IH]; intros [|i] H; simpl in *; [done..|lia|].
  apply IH in H. lia.
Qed.

Lemma char_at_lt s i : (0 <= i < slen s)%Z -> exists c, char_at s i = Some c.
Proof.
  intros Hi. unfold char_at. destruct (Z.ltb_spec i 0); [lia|].
  assert (Z.to_nat i < String.length s) as Hn by lia. clear Hi. revert Hn.
  generalize (Z.to_nat i). induction s as [|a s IH]; intros [|n] Hn; simpl in *; try lia; eauto.
  apply IH. lia.
Qed.

Lemma char_at_app s t i c : char_at s i = Some c -> char_at (s +:+ t) i = Some c.
Proof.
  unfold char_at. case_match; [done|]. intros H2.
  rewrite s_get_app_l; [done|]. by apply s_get_length in H2.
Qed.

Lemma char_at_bound s i c : char_at s i = Some c -> (0 <= i < slen s)%Z.
Proof.
  unfold char_at. destruct (Z.ltb_spec i 0); [done|]. intros H2%s_get_length. lia.
Qed.

Lemma s_length_zero s : String.length s = 0 -> s = "".
Proof. by destruct s. Qed.

#[export] Hint Rewrite s_app_nil_r s_app_assoc s_length_app s_take_app s_drop_app
  s_length_drop : text.

(** ** The line ending *)

Definition no_crlf (s : string) : Prop := find_crlf s = None.

#[export] Instance no_crlf_dec s : Decision (no_crlf s).
Proof. unfold no_crlf. apply _. Defined.

Lemma find_crlf_cons2 a b s :
  find_crlf (String a (String b s)) =
  if (Ascii.eqb a CR && Ascii.eqb b LF)%bool then Some O
  else S <$> find_crlf (String b s).
Proof. done. Qed.

Lemma find_crlf_app s t i : find_crlf s = Some i -> find_crlf (s +:+ t) = Some i.
Proof.
  revert i; induction s as [|a [|b s] IH]; intros i H; [done..|].
  rewrite find_crlf_cons2 in H.
  change (String a (String b s) +:+ t) with (String a (String b (s +:+ t))).
  rewrite find_crlf_cons2. destruct (_ && _); [done|].
  apply fmap_Some in H as (j & H & ->).
  by rewrite (IH _ H : find_crlf (String b (s +:+ t)) = _).
Qed.

Lemma find_crlf_bound s i : find_crlf s = Some i -> i + 2 <= String.length s.
Proof.
  revert i; induction s as [|a [|b s] IH]; intros i H; [done..|].
  rewrite find_crlf_cons2 in H. destruct (_ && _); [simplify_eq; simpl; lia|].
  apply fmap_Some in H as (j & H & ->). apply IH in H. simpl in *. lia.
Qed.

Lemma find_crlf_first s t :
  no_crlf s -> find_crlf (s +:+ crlf +:+ t) = Some (String.length s).
Proof.
  unfold no_crlf. induction s as [|a [|b s] IH]; intros H; [done| |].
  - change (String a "" +:+ crlf +:+ t) with (String a (String CR (String LF t))).
    rewrite find_crlf_cons2. by rewrite andb_false_r.
  - rewrite find_crlf_cons2 in H.
    change (String a (String b s) +:+ crlf +:+ t) with
      (String a (String b (s +:+ crlf +:+ t))).
    rewrite find_crlf_cons2. destruct (_ && _); [done|].
    apply fmap_None in H.
    by rewrite (IH H : find_crlf (String b (s +:+ crlf +:+ t)) = _).
Qed.

(** Erasing a line with its ending. *)
Lemma s_drop_line s t : s_drop (String.length s + 2) (s +:+ crlf +:+ t) = t.
Proof. induction s; [done|]. done. Qed.

Lemma no_crlf_prefix s t : no_crlf (s +:+ t) -> no_crlf s.
Proof.
  unfold no_crlf. destruct (find_crlf s) eqn:E; [|done].
  by rewrite (find_crlf_app _ _ _ E).
Qed.

(** ** Decimal numerals *)

Fixpoint all_digits (s : string) : bool :=
  match s with
  | EmptyString => true
  | String c s' => isdigit c && all_digits s'
  end.

(** Horner evaluation of a numeral, most significant digit first. *)
Fixpoint dec_value (acc : Z) (s : string) : Z :=
  match s with
  | EmptyString => acc
  | String c s' => dec_value (acc * 10 + digit_value c) s'
  end.

Lemma digit_value_bound c : isdigit c = true -> (0 <= digit_value c <= 9)%Z.
Proof. unfold isdigit, digit_value. rewrite andb_true_iff, !N.leb_le. lia. Qed.

Lemma dec_value_mono s acc :
  all_digits s = true -> (0 <= acc)%Z -> (acc <= dec_value acc s)%Z.
Proof.
  revert acc; induction s as [|c s IH]; intros acc H Ha; simpl in *; [lia|].
  apply andb_true_iff in H as [Hc Hs]. pose proof (digit_value_bound c Hc).
  specialize (IH (acc * 10 + digit_value c)%Z Hs). lia.
Qed.

Lemma pretty_N_char_digit x : (x < 10)%N ->
  isdigit (pretty_N_char x) = true /\ digit_value (pretty_N_char x) = Z.of_N x.
Proof.
  intros H.
  assert (x = 0 \/ x = 1 \/ x = 2 \/ x = 3 \/ x = 4 \/ x = 5 \/ x = 6 \/ x = 7
          \/ x = 8 \/ x = 9)%N as Hx by lia.
  by repeat destruct Hx as [->|Hx]; subst.
Qed.

Lemma pretty_N_go_digits x s :
  all_digits s = true ->
  all_digits (pretty_N_go x s) = true /\
  dec_value 0 (pretty_N_go x s) = dec_value (Z.of_N x) s.
Proof.
  revert s; induction (N.lt_wf_0 x) as [x _ IH]; intros s Hs.
  destruct (decide (x = 0)%N) as [->|Hx]; [done|].
  rewrite pretty_N_go_step by lia.
  destruct (pretty_N_char_digit (x `mod` 10)) as [Hd Hv]; [by apply N.mod_lt|].
  destruct (IH (x `div` 10)%N (N.div_lt x 10 ltac:(lia) ltac:(lia))
    (String (pretty_N_char (x `mod` 10)) s)) as [H1 H2].
  { simpl. by rewrite Hd. }
  split; [done|]. rewrite H2. simpl. rewrite Hv. f_equal.
  pose proof (N.div_mod x 10). lia.
Qed.

Lemma pretty_N_digits (n : N) :
  all_digits (pretty n) = true /\ dec_value 0 (pretty n) = Z.of_N n.
Proof.
  unfold pretty, pretty_N. case_decide; [by subst|].
  by destruct (pretty_N_go_digits n "" eq_refl).
Qed.

Lemma pretty_N_nonempty (n : N) : pretty n <> "".
Proof.
  intros H. destruct (pretty_N_digits n) as [_ Hv]. rewrite H in Hv. simpl in Hv.
  assert (n = 0)%N as -> by lia. done.
Qed.

Lemma to_string_nonneg n : (0 <= n)%Z -> to_string n = pretty (Z.to_N n).
Proof. by destruct n. Qed.

Lemma to_string_neg n : (n < 0)%Z -> to_string n = String "-" (to_string (- n)).
Proof. by destruct n. Qed.

Lemma to_string_digits n : (0 <= n)%Z ->
  all_digits (to_string n) = true /\ dec_value 0 (to_string n) = n.
Proof.
  intros Hn. rewrite to_string_nonneg by done.
  destruct (pretty_N_digits (Z.to_N n)) as [? ->]. split; [done|lia].
Qed.

Lemma all_digits_no_crlf s : all_digits s = true -> no_crlf s.
Proof.
  unfold no_crlf. induction s as [|a [|b s] IH]; intros H; [done..|].
  rewrite find_crlf_cons2. simpl in H. apply andb_true_iff in H as [Ha Hs].
  rewrite IH by done. destruct (Ascii.eqb_spec a CR); [by subst|done].
Qed.

Lemma to_string_no_crlf n : no_crlf (to_string n).
Proof.
  destruct (decide (0 <= n)%Z) as [H|H].
  - by apply all_digits_no_crlf, to_string_digits.
  - rewrite to_string_neg by lia.
    destruct (to_string_digits (- n)) as [Hd _]; [lia|].
    apply all_digits_no_crlf in Hd. unfold no_crlf in *.
    destruct (to_string (- n)); [done|]. rewrite find_crlf_cons2. by rewrite Hd.
Qed.

(** ** Lengths of numbers *)

Lemma pretty_N_go_length x s :
  (N.of_nat (String.length (pretty_N_go x s)) <= N.of_nat (String.length s) + N.log2 x + 1)%N.
Proof.
  revert s; induction (N.lt_wf_0 x) as [x _ IH]; intros s.
  destruct (decide (x = 0)%N) as [->|Hx]; [rewrite pretty_N_go_0; simpl; lia|].
  rewrite pretty_N_go_step by lia.
  destruct (decide (x < 10)%N) as [Hlt|Hge].
  - rewrite (N.div_small x 10) by done. rewrite pretty_N_go_0. simpl String.length. lia.
  - assert (x / 10 < x)%N as Hd by (apply N.div_lt; lia).
    specialize (IH (x / 10)%N Hd (String (pretty_N_char (x `mod` 10)) s)).
    assert (N.log2 (x / 10) + 1 <= N.log2 x)%N as Hlog.
    { assert (N.log2 (2 * (x / 10)) = N.succ (N.log2 (x / 10)))%N by (apply N.log2_double, N.div_str_pos; lia).
      assert (N.log2 (2 * (x / 10)) <= N.log2 x)%N; [|lia].
      apply N.log2_le_mono. pose proof (N.Div0.mul_div_le x 10). lia. }
    simpl String.length in IH. lia.
Qed.

Lemma to_string_length z : (INT64_MIN <= z <= INT64_MAX)%Z -> (slen (to_string z) <= 66)%Z.
Proof.
  assert (forall n, (0 <= n <= 2 ^ 63)%Z -> (slen (to_string n) <= 65)%Z) as Hpos.
  { intros n Hn. rewrite to_string_nonneg by lia. unfold pretty, pretty_N.
    case_decide; [by simpl; lia|].
    pose proof (pretty_N_go_length (Z.to_N n) "") as Hl. simpl in Hl.
    assert (N.log2 (Z.to_N n) <= 63)%N; [|lia].
    change 63%N with (N.log2 (2 ^ 63)). apply N.log2_le_mono. lia. }
  unfold INT64_MIN, INT64_MAX. intros Hz. destruct (decide (0 <= z)%Z).
  - pose proof (Hpos z). lia.
  - rewrite to_string_neg by lia. pose proof (Hpos (- z)%Z ltac:(lia)). simpl String.length. lia.
Qed.
