(* ===== verification/Reply.v ===== *)
(** [cpp_redis::reply] (includes/cpp_redis/core/reply.hpp and
    sources/core/reply.cpp): the tagged record every command yields, its
    setters, predicates and checked accessors, and the stream operator.
    [rvalue] is the abstract reply; [reply_of] the canonical representation
    the parsers build for it. *)

From S2P Require Import Prelude Text.

(** reply::type; the numbers are the __CPP_REDIS_REPLY_* macros *)
Inductive reply_type : Type :=
| type_error
| type_bulk_string
| type_simple_string
| type_null
| type_integer
| type_array.

#[export] Instance reply_type_eq_dec : EqDecision reply_type.
Proof. solve_decision. Defined.

Inductive string_type : Type :=
| st_error
| st_bulk_string
| st_simple_string.

(** static_cast<type>(reply_type) *)
Definition type_of_string_type (t : string_type) : reply_type :=
  match t with
  | st_error => type_error
  | st_bulk_string => type_bulk_string
  | st_simple_string => type_simple_string
  end.

(** [m_intval] has no initialiser: [None] is the indeterminate value. *)
Inductive reply : Type := mk_reply {
  m_type : reply_type;
  m_rows : list reply;
  m_strval : string;
  m_intval : option Z }.

(** ** Constructors and setters *)

Definition reply_null : reply := mk_reply type_null [] "" None.
Definition reply_string (value : string) (t : string_type) : reply :=
  mk_reply (type_of_string_type t) [] value None.
Definition reply_integer (value : Z) : reply := mk_reply type_integer [] "" (Some value).
Definition reply_array (rows : list reply) : reply := mk_reply type_array rows "" None.

Definition set_null (r : reply) : reply :=
  mk_reply type_null (m_rows r) (m_strval r) (m_intval r).
Definition set_string (value : string) (t : string_type) (r : reply) : reply :=
  mk_reply (type_of_string_type t) (m_rows r) value (m_intval r).
Definition set_integer (value : Z) (r : reply) : reply :=
  mk_reply type_integer (m_rows r) (m_strval r) (Some value).
Definition set_array (rows : list reply) (r : reply) : reply :=
  mk_reply type_array rows (m_strval r) (m_intval r).
(** operator<<(const reply&) *)
Definition push_row (row : reply) (r : reply) : reply :=
  mk_reply type_array (m_rows r ++ [row]) (m_strval r) (m_intval r).

(** ** Predicates *)

Definition is_array (r : reply) : bool := bool_decide (m_type r = type_array).
Definition is_simple_string (r : reply) : bool := bool_decide (m_type r = type_simple_string).
Definition is_bulk_string (r : reply) : bool := bool_decide (m_type r = type_bulk_string).
Definition is_error (r : reply) : bool := bool_decide (m_type r = type_error).
Definition is_integer (r : reply) : bool := bool_decide (m_type r = type_integer).
Definition is_null (r : reply) : bool := bool_decide (m_type r = type_null).
Definition is_string (r : reply) : bool :=
  is_simple_string r || is_bulk_string r || is_error r.
Definition ok (r : reply) : bool := negb (is_error r).
Definition ko (r : reply) : bool := negb (ok r).
(** operator bool *)
Definition to_bool (r : reply) : bool := negb (is_error r) && negb (is_null r).

(** ** Checked accessors *)

Definition as_array (r : reply) : outcome (list reply) :=
  if is_array r then Ret (m_rows r) else Throw (redis_error "Reply is not an array").
Definition as_string (r : reply) : outcome string :=
  if is_string r then Ret (m_strval r) else Throw (redis_error "Reply is not a string").
Definition as_integer (r : reply) : outcome Z :=
  if is_integer r then
    match m_intval r with Some z => Ret z | None => Undef end
  else Throw (redis_error "Reply is not an integer").
Definition error (r : reply) : outcome string :=
  if is_error r then as_string r else Throw (redis_error "Reply is not an error").

(** std::ostream& operator<< : what it appends to the stream *)
Fixpoint print_reply (r : reply) : outcome string :=
  match m_type r with
  | type_error => error r
  | type_bulk_string | type_simple_string => as_string r
  | type_null => Ret "(nil)"
  | type_integer => omap_outcome to_string (as_integer r)
  | type_array =>
    (fix print_rows (l : list reply) : outcome string :=
       match l with
       | [] => Ret ""
       | x :: l' => obind (fun s => omap_outcome (String.append s) (print_rows l')) (print_reply x)
       end) (m_rows r)
  end.

(** ** Abstract replies *)

Inductive rvalue : Type :=
| VError (s : string)
| VBulk (s : string)
| VSimple (s : string)
| VNull
| VInt (z : Z)
| VArray (l : list rvalue).

Fixpoint reply_of (v : rvalue) : reply :=
  match v with
  | VError s => reply_string s st_error
  | VBulk s => reply_string s st_bulk_string
  | VSimple s => reply_string s st_simple_string
  | VNull => reply_null
  | VInt z => reply_integer z
  | VArray l => reply_array (reply_of <$> l)
  end.

Section rvalue_ind.
Variable P : rvalue -> Prop.
Hypothesis Herror : forall s, P (VError s).
Hypothesis Hbulk : forall s, P (VBulk s).
Hypothesis Hsimple : forall s, P (VSimple s).
Hypothesis Hnull : P VNull.
Hypothesis Hint : forall z, P (VInt z).
Hypothesis Harray : forall l, Forall P l -> P (VArray l).

Fixpoint rvalue_nested_ind (v : rvalue) : P v :=
  match v with
  | VError s => Herror s
  | VBulk s => Hbulk s
  | VSimple s => Hsimple s
  | VNull => Hnull
  | VInt z => Hint z
  | VArray l => Harray l
      ((fix go (l : list rvalue) : Forall P l :=
          match l with
          | [] => Forall_nil_2 P
          | x :: l' => Forall_cons_2 P x l' (rvalue_nested_ind x) (go l')
          end) l)
  end.
End rvalue_ind.

(** The well-formedness invariant of a reply: an integer reply holds an
    integer, at every depth. *)
Fixpoint reply_wf (r : reply) : bool :=
  (if decide (m_type r = type_integer) then bool_decide (is_Some (m_intval r)) else true)
  && forallb reply_wf (m_rows r).

(** ** Facts *)

Lemma reply_of_wf v : reply_wf (reply_of v) = true.
Proof.
  induction v as [| | | | |l IH] using rvalue_nested_ind; try done.
  simpl. induction IH as [|x l Hx _ IHl]; [done|]. simpl. by rewrite Hx.
Qed.

Lemma is_string_spec r :
  is_string r = true <->
  m_type r = type_simple_string \/ m_type r = type_bulk_string \/ m_type r = type_error.
Proof.
  unfold is_string, is_simple_string, is_bulk_string, is_error.
  rewrite !orb_true_iff, !bool_decide_eq_true. tauto.
Qed.

Lemma reply_wf_type r :
  reply_wf r = true -> m_type r = type_integer -> exists z, m_intval r = Some z.
Proof.
  destruct r as [t rows s i]; simpl. intros H ->. simpl in H.
  apply andb_true_iff in H as [H _]. apply bool_decide_eq_true in H as [z ->]. eauto.
Qed.

Lemma reply_wf_rows r : reply_wf r = true -> Forall (fun x => reply_wf x = true) (m_rows r).
Proof.
  destruct r as [t rows s i]; simpl. intros [_ H]%andb_true_iff.
  induction rows as [|x rows IH]; [done|]. simpl in H. apply andb_true_iff in H as [Hx H].
  constructor; auto.
Qed.

(** Every setter preserves the invariant. *)
Lemma reply_wf_set_null r : reply_wf r = true -> reply_wf (set_null r) = true.
Proof. destruct r; simpl. intros [_ H]%andb_true_iff. done. Qed.

Lemma reply_wf_set_string s t r : reply_wf r = true -> reply_wf (set_string s t r) = true.
Proof. destruct r, t; simpl; intros [_ H]%andb_true_iff; done. Qed.

Lemma reply_wf_set_integer z r : reply_wf r = true -> reply_wf (set_integer z r) = true.
Proof. destruct r; simpl. by intros [_ ->]%andb_true_iff. Qed.

Lemma reply_wf_push_row x r :
  reply_wf x = true -> reply_wf r = true -> reply_wf (push_row x r) = true.
Proof.
  destruct r; simpl. intros Hx [_ H]%andb_true_iff.
  rewrite forallb_app, H. simpl. by rewrite Hx.
Qed.

Create HintDb reply.
#[export] Hint Resolve reply_of_wf reply_wf_set_null reply_wf_set_string
  reply_wf_set_integer reply_wf_push_row : reply.

Section reply_ind.
Variable P : reply -> Prop.
Hypothesis Hmk : forall t rows s i, Forall P rows -> P (mk_reply t rows s i).

Fixpoint reply_nested_ind (r : reply) : P r :=
  match r with
  | mk_reply t rows s i =>
    Hmk t rows s i
      ((fix go (l : list reply) : Forall P l :=
          match l with
          | [] => Forall_nil_2 P
          | x :: l' => Forall_cons_2 P x l' (reply_nested_ind x) (go l')
          end) rows)
  end.
End reply_ind.

Lemma print_reply_total r : reply_wf r = true -> exists s, print_reply r = Ret s.
Proof.
  induction r as [t rows s i IH] using reply_nested_ind. intros Hwf.
  destruct t; simpl; eauto.
  - apply reply_wf_type in Hwf as [z Hz]; [|done]. simpl in Hz. subst. simpl. eauto.
  - simpl in Hwf. clear s i. induction IH as [|x rows Hx _ IHr]; [eauto|].
    simpl in Hwf. apply andb_true_iff in Hwf as [Hwx Hwr].
    destruct (Hx Hwx) as [sx ->]. destruct (IHr Hwr) as [sr Hr]. simpl. rewrite Hr. simpl. eauto.
Qed.
