(* ===== verification/Builders.v ===== *)
(** The incremental reply parsers of cpp_redis (sources/builders/): one
    builder per reply type, the factory that picks one from the type byte,
    and [reply_builder], which owns the receive buffer and the queue of
    complete replies.

    [operator<<] takes its buffer by reference and consumes what it parses:
    here it returns the builder, what is left of the buffer and the outcome.
    When it throws, the returned builder and buffer are the ones the C++
    objects are left with. *)

From S2P Require Import Prelude Text Reply.

(** What a call on a builder [B] with a buffer leaves behind. *)
Definition result (B A : Type) : Type := B * string * outcome A.

Definition chain {B C A D : Type} (r : result B A) (wrap : B -> C)
    (f : B -> string -> A -> result C D) : result C D :=
  match r with
  | (b, buffer, Ret a) => f b buffer a
  | (b, buffer, Throw e) => (wrap b, buffer, Throw e)
  | (b, buffer, Undef) => (wrap b, buffer, Undef)
  | (b, buffer, Timeout) => (wrap b, buffer, Timeout)
  end.

Module simple_string_builder.
Record t : Type := mk { m_str : string; m_reply_ready : bool; m_reply : reply }.

Definition init : t := mk "" false reply_null.

Definition push (b : t) (buffer : string) : result t unit :=
  if m_reply_ready b then (b, buffer, Ret tt)
  else match find_crlf buffer with
       | None => (b, buffer, Ret tt)
       | Some end_sequence =>
         let str := s_take end_sequence buffer in
         (mk str true (set_string str st_simple_string (m_reply b)),
          s_drop (end_sequence + 2) buffer, Ret tt)
       end.
End simple_string_builder.

Module error_builder.
Record t : Type := mk { m_string_builder : simple_string_builder.t; m_reply : reply }.

Definition init : t := mk simple_string_builder.init reply_null.

Definition reply_ready (b : t) : bool :=
  simple_string_builder.m_reply_ready (m_string_builder b).

Definition push (b : t) (buffer : string) : result t unit :=
  chain (simple_string_builder.push (m_string_builder b) buffer)
    (fun sb => mk sb (m_reply b))
    (fun sb buffer' _ =>
       (mk sb (if simple_string_builder.m_reply_ready sb
               then set_string (simple_string_builder.m_str sb) st_error (m_reply b)
               else m_reply b),
        buffer', Ret tt)).

Definition get_error (b : t) : string :=
  simple_string_builder.m_str (m_string_builder b).
End error_builder.

Module integer_builder.
Record t : Type := mk {
  m_nbr : Z;
  m_negative_multiplicator : Z;
  m_reply_ready : bool;
  m_reply : reply }.

Definition init : t := mk 0 1 false reply_null.

(** The loop over the characters before the line ending; [first] is [!i].
    A signed overflow of [m_nbr] is undefined behaviour. *)
Fixpoint scan (first : bool) (neg nbr : Z) (s : string) : Z * Z * outcome unit :=
  match s with
  | EmptyString => (neg, nbr, Ret tt)
  | String c s' =>
    if first && (neg =? 1)%Z && Ascii.eqb c "-" then scan false (-1) nbr s'
    else if negb (isdigit c) then
      (neg, nbr, Throw (redis_error "Invalid character for integer redis reply"))
    else if (INT64_MAX <? nbr * 10 + digit_value c)%Z then (neg, nbr, Undef)
    else scan false neg (nbr * 10 + digit_value c) s'
  end.

Definition push (b : t) (buffer : string) : result t unit :=
  if m_reply_ready b then (b, buffer, Ret tt)
  else match find_crlf buffer with
       | None => (b, buffer, Ret tt)
       | Some end_sequence =>
         match scan true (m_negative_multiplicator b) (m_nbr b)
                    (s_take end_sequence buffer) with
         | (neg, nbr, Ret _) =>
           (mk nbr neg true (set_integer (neg * nbr) (m_reply b)),
            s_drop (end_sequence + 2) buffer, Ret tt)
         | (neg, nbr, o) => (mk nbr neg false (m_reply b), buffer, o)
         end
       end.

Definition get_integer (b : t) : Z := (m_negative_multiplicator b * m_nbr b)%Z.
End integer_builder.

Module bulk_string_builder.
Record t : Type := mk {
  m_int_builder : integer_builder.t;
  m_str_size : Z;
  m_str : string;
  m_is_null : bool;
  m_reply_ready : bool;
  m_reply : reply }.

Definition init : t := mk integer_builder.init 0 "" false false reply_null.

Definition build_reply (b : t) : t :=
  mk (m_int_builder b) (m_str_size b) (m_str b) (m_is_null b) true
     (if m_is_null b then set_null (m_reply b)
      else set_string (m_str b) st_bulk_string (m_reply b)).

Definition with_int (b : t) (ib : integer_builder.t) : t :=
  mk ib (m_str_size b) (m_str b) (m_is_null b) (m_reply_ready b) (m_reply b).

(** [m_str_size = (int) m_int_builder.get_integer()] truncates to 32 bits. *)
Definition fetch_size (b : t) (buffer : string) : result t bool :=
  if integer_builder.m_reply_ready (m_int_builder b) then (b, buffer, Ret true)
  else
    chain (integer_builder.push (m_int_builder b) buffer) (with_int b)
      (fun ib buffer' _ =>
         if negb (integer_builder.m_reply_ready ib) then (with_int b ib, buffer', Ret false)
         else
           let size := wrap_s32 (integer_builder.get_integer ib) in
           if (size =? -1)%Z then
             (build_reply (mk ib size (m_str b) true (m_reply_ready b) (m_reply b)),
              buffer', Ret true)
           else
             (mk ib size (m_str b) (m_is_null b) (m_reply_ready b) (m_reply b),
              buffer', Ret true)).

(** [static_cast<std::size_t>(m_str_size) + 2] is computed modulo 2^64, so a
    size of -2 passes the length test and indexes outside the buffer;
    [m_str_size + 1] and [m_str_size + 2] are [int] additions. *)
Definition fetch_str (b : t) (buffer : string) : result t unit :=
  let size := m_str_size b in
  if (slen buffer <? wrap_u64 (wrap_u64 size + 2))%Z then (b, buffer, Ret tt)
  else if (INT32_MAX <? size + 2)%Z then (b, buffer, Undef)
  else
    match char_at buffer size, char_at buffer (size + 1) with
    | Some c1, Some c2 =>
      if negb (Ascii.eqb c1 CR && Ascii.eqb c2 LF)
      then (b, buffer, Throw (redis_error "Wrong ending sequence"))
      else
        (build_reply (mk (m_int_builder b) size (s_take (Z.to_nat size) buffer)
                         (m_is_null b) (m_reply_ready b) (m_reply b)),
         s_drop (Z.to_nat (size + 2)) buffer, Ret tt)
    | _, _ => (b, buffer, Undef)
    end.

Definition push (b : t) (buffer : string) : result t unit :=
  if m_reply_ready b then (b, buffer, Ret tt)
  else
    chain (fetch_size b buffer) id
      (fun b' buffer' fetched =>
         if negb fetched || m_reply_ready b' then (b', buffer', Ret tt)
         else fetch_str b' buffer').
End bulk_string_builder.

(** [array_builder] owns the builder of the row it is reading, one of the
    five implementations [B] of [builder_iface]. *)
Record array_builder_of (B : Type) : Type := mk_array {
  m_int_builder : integer_builder.t;
  m_array_size : Z;
  m_current_builder : option B;
  m_reply_ready : bool;
  m_reply : reply }.
Arguments mk_array {B}.
Arguments m_int_builder {B}.
Arguments m_array_size {B}.
Arguments m_current_builder {B}.
Arguments m_reply_ready {B}.
Arguments m_reply {B}.

Inductive builder : Type :=
| B_simple (b : simple_string_builder.t)
| B_error (b : error_builder.t)
| B_integer (b : integer_builder.t)
| B_bulk (b : bulk_string_builder.t)
| B_array (a : array_builder_of builder).

Abbreviation array_builder := (array_builder_of builder).

(** [m_array_size] has no initialiser; [fetch_array_size] assigns it before
    [build_row] reads it. *)
Definition array_builder_init : array_builder :=
  mk_array integer_builder.init 0 None false (reply_array []).

Definition create_builder (id : ascii) : outcome builder :=
  if Ascii.eqb id "+" then Ret (B_simple simple_string_builder.init)
  else if Ascii.eqb id "-" then Ret (B_error error_builder.init)
  else if Ascii.eqb id ":" then Ret (B_integer integer_builder.init)
  else if Ascii.eqb id "$" then Ret (B_bulk bulk_string_builder.init)
  else if Ascii.eqb id "*" then Ret (B_array array_builder_init)
  else Throw (redis_error "Invalid data").

(** builder_iface::reply_ready *)
Definition reply_ready (b : builder) : bool :=
  match b with
  | B_simple b => simple_string_builder.m_reply_ready b
  | B_error b => error_builder.reply_ready b
  | B_integer b => integer_builder.m_reply_ready b
  | B_bulk b => bulk_string_builder.m_reply_ready b
  | B_array a => m_reply_ready a
  end.

(** builder_iface::get_reply *)
Definition get_reply (b : builder) : reply :=
  match b with
  | B_simple b => simple_string_builder.m_reply b
  | B_error b => error_builder.m_reply b
  | B_integer b => integer_builder.m_reply b
  | B_bulk b => bulk_string_builder.m_reply b
  | B_array a => m_reply a
  end.

Definition fetch_array_size (a : array_builder) (buffer : string) : result array_builder bool :=
  if integer_builder.m_reply_ready (m_int_builder a) then (a, buffer, Ret true)
  else
    let with_int ib :=
      mk_array ib (m_array_size a) (m_current_builder a) (m_reply_ready a) (m_reply a) in
    chain (integer_builder.push (m_int_builder a) buffer) with_int
      (fun ib buffer' _ =>
         if negb (integer_builder.m_reply_ready ib) then (with_int ib, buffer', Ret false)
         else
           let size := integer_builder.get_integer ib in
           if (size <? 0)%Z then
             (mk_array ib (wrap_u64 size) (m_current_builder a) true (set_null (m_reply a)),
              buffer', Ret true)
           else
             (mk_array ib (wrap_u64 size) (m_current_builder a)
                       (if (size =? 0)%Z then true else m_reply_ready a) (m_reply a),
              buffer', Ret true)).

Definition with_current (a : array_builder) (cur : option builder) : array_builder :=
  mk_array (m_int_builder a) (m_array_size a) cur (m_reply_ready a) (m_reply a).

(** The end of [build_row], once the row's builder is ready. *)
Definition finish_row (a : array_builder) (row : reply) : array_builder :=
  let r := push_row row (m_reply a) in
  mk_array (m_int_builder a) (m_array_size a) None
           (if (Z.of_nat (length (m_rows r)) =? m_array_size a)%Z then true else m_reply_ready a) r.

(** The first lines of [build_row]: the row's builder, and the buffer without
    the type byte it was created from. *)
Definition current_or_create (a : array_builder) (buffer : string) : result builder unit :=
  match m_current_builder a with
  | Some cur => (cur, buffer, Ret tt)
  | None =>
    match buffer with
    | EmptyString => (B_array a, buffer, Undef) (* front() of an empty string *)
    | String c rest =>
      match create_builder c with
      | Ret b => (b, rest, Ret tt)
      | Throw e => (B_array a, buffer, Throw e)
      | Undef => (B_array a, buffer, Undef)
      | Timeout => (B_array a, buffer, Timeout)
      end
    end
  end.

(** [operator<<] of every builder, and the [while] loop of the array
    builder ([build_rows]).  [n] is the fuel, see [push]. *)
Fixpoint push_fuel (n : nat) (b : builder) (buffer : string) {struct n} : result builder unit :=
  match n with
  | O => (b, buffer, Timeout)
  | S n =>
    match b with
    | B_simple s => let '(s', buffer', o) := simple_string_builder.push s buffer in (B_simple s', buffer', o)
    | B_error e => let '(e', buffer', o) := error_builder.push e buffer in (B_error e', buffer', o)
    | B_integer i => let '(i', buffer', o) := integer_builder.push i buffer in (B_integer i', buffer', o)
    | B_bulk k => let '(k', buffer', o) := bulk_string_builder.push k buffer in (B_bulk k', buffer', o)
    | B_array a =>
      if m_reply_ready a then (b, buffer, Ret tt)
      else
        chain (fetch_array_size a buffer) B_array
          (fun a' buffer' fetched =>
             if negb fetched then (B_array a', buffer', Ret tt)
             else let '(a'', buffer'', o) := build_rows_fuel n a' buffer' in (B_array a'', buffer'', o))
    end
  end
with build_rows_fuel (n : nat) (a : array_builder) (buffer : string) {struct n}
    : result array_builder unit :=
  match n with
  | O => (a, buffer, Timeout)
  | S n =>
    if (String.length buffer =? 0)%nat || m_reply_ready a then (a, buffer, Ret tt)
    else
      chain (current_or_create a buffer) (fun _ => a)
        (fun cur buffer' _ =>
           chain (push_fuel n cur buffer') (fun cur' => with_current a (Some cur'))
             (fun cur' buffer'' _ =>
                if negb (reply_ready cur') then (with_current a (Some cur'), buffer'', Ret tt)
                else build_rows_fuel n (finish_row a (get_reply cur')) buffer''))
  end.

(** Nesting depth of the builders in progress. *)
Fixpoint depth (b : builder) : nat :=
  match b with
  | B_array a => S (match m_current_builder a with Some c => depth c | None => 0 end)
  | _ => 1
  end.

Definition depth_array (a : array_builder) : nat := depth (B_array a).

Definition push (b : builder) (buffer : string) : result builder unit :=
  push_fuel (2 * (String.length buffer + depth b)) b buffer.

Definition build_rows (a : array_builder) (buffer : string) : result array_builder unit :=
  build_rows_fuel (2 * (String.length buffer + depth_array a)) a buffer.

(** ** reply_builder *)

Record reply_builder : Type := mk_reply_builder {
  m_buffer : string;
  m_builder : option builder;
  m_available_replies : list reply }.

Definition reply_builder_init : reply_builder := mk_reply_builder "" None [].

(** [build_reply]: [true] when a reply was completed. *)
Definition build_reply (rb : reply_builder) : reply_builder * outcome bool :=
  match m_buffer rb with
  | EmptyString => (rb, Ret false)
  | String c rest =>
    let start :=
      match m_builder rb with
      | Some b => Ret (b, m_buffer rb)
      | None => omap_outcome (fun b => (b, rest)) (create_builder c)
      end in
    match start with
    | Ret (b, buffer) =>
      let '(b', buffer', o) := push b buffer in
      match o with
      | Ret _ =>
        if reply_ready b'
        then (mk_reply_builder buffer' None (m_available_replies rb ++ [get_reply b']), Ret true)
        else (mk_reply_builder buffer' (Some b') (m_available_replies rb), Ret false)
      | Throw e => (mk_reply_builder buffer' (Some b') (m_available_replies rb), Throw e)
      | Undef => (mk_reply_builder buffer' (Some b') (m_available_replies rb), Undef)
      | Timeout => (mk_reply_builder buffer' (Some b') (m_available_replies rb), Timeout)
      end
    | Throw e => (rb, Throw e)
    | Undef => (rb, Undef)
    | Timeout => (rb, Timeout)
    end
  end.

(** [while (build_reply());] *)
Fixpoint build_replies (n : nat) (rb : reply_builder) : reply_builder * outcome unit :=
  match n with
  | O => (rb, Timeout)
  | S n =>
    match build_reply rb with
    | (rb', Ret true) => build_replies n rb'
    | (rb', Ret false) => (rb', Ret tt)
    | (rb', Throw e) => (rb', Throw e)
    | (rb', Undef) => (rb', Undef)
    | (rb', Timeout) => (rb', Timeout)
    end
  end.

Definition append_data (data : string) (rb : reply_builder) : reply_builder :=
  mk_reply_builder (m_buffer rb +:+ data) (m_builder rb) (m_available_replies rb).

(** [operator<<(const std::string&)] *)
Definition feed (data : string) (rb : reply_builder) : reply_builder * outcome unit :=
  let rb' := append_data data rb in
  build_replies (String.length (m_buffer rb') + 2) rb'.

Definition reply_available (rb : reply_builder) : bool :=
  negb (length (m_available_replies rb) =? 0)%nat.

Definition get_front (rb : reply_builder) : outcome reply :=
  match m_available_replies rb with
  | [] => Throw (redis_error "No available reply")
  | r :: _ => Ret r
  end.

Definition pop_front (rb : reply_builder) : outcome reply_builder :=
  match m_available_replies rb with
  | [] => Throw (redis_error "No available reply")
  | _ :: rs => Ret (mk_reply_builder (m_buffer rb) (m_builder rb) rs)
  end.
