(* ===== verification/BuilderFacts.v ===== *)
(** Facts about the builders: no call diverges (the fuel of [push] and
    [feed] is enough), the buffer never grows, and parsing is resumable: a
    call on a buffer that later grows equals the call on the whole. *)

From S2P Require Import Prelude Text Reply Builders.

(** ** Interface of a parsing step *)

(** An outcome that ends the caller too. *)
Definition failed {A : Type} (o : outcome A) : Prop :=
  match o with Throw _ | Undef => True | _ => False end.

(** What [operator<<] promises on every builder: it ends, it resumes where it
    stopped when more characters arrive, and characters that arrive later do
    not change a failure. *)
Class ParserStep (B : Type) (step : B -> string -> result B unit) : Prop := {
  step_shrinks : forall b buffer b' buffer' o,
    step b buffer = (b', buffer', o) ->
    String.length buffer' <= String.length buffer /\ o <> Timeout;
  step_resumes : forall b buffer b' buffer' x,
    step b buffer = (b', buffer', Ret tt) ->
    step b (buffer +:+ x) = step b' (buffer' +:+ x);
  step_fails : forall b buffer b' buffer' o x,
    step b buffer = (b', buffer', o) -> failed o ->
    step b (buffer +:+ x) = (b', buffer' +:+ x, o) }.

(** ** The leaf builders *)

Ltac fold_lines := autorewrite with text in *.

#[export] Instance simple_string_step : ParserStep _ simple_string_builder.push.
Proof.
  unfold simple_string_builder.push. split.
  - intros [m r p] buffer b' buffer' o H; simpl in H.
    repeat case_match; simplify_eq; [auto| |auto].
    fold_lines. split; [lia|done].
  - intros [m r p] buffer b' buffer' x H; simpl in *.
    destruct r; [by simplify_eq/=|].
    destruct (find_crlf buffer) as [e|] eqn:E; simplify_eq/=; [|done].
    rewrite (find_crlf_app _ _ _ E). pose proof (find_crlf_bound _ _ E).
    rewrite s_take_app_le, s_drop_app_le by lia. done.
  - intros [m r p] buffer b' buffer' o x H Ho; simpl in H.
    repeat case_match; by simplify_eq.
Qed.

#[export] Instance error_step : ParserStep _ error_builder.push.
Proof.
  unfold error_builder.push. split.
  - intros [sb r] buffer b' buffer' o H; simpl in H.
    destruct (simple_string_builder.push sb buffer) as [[sb' buf] o'] eqn:E.
    destruct (step_shrinks _ _ _ _ _ E). destruct o'; simplify_eq/=; auto.
  - intros [[m rd p] r] buffer b' buffer' x H.
    unfold simple_string_builder.push in *; simpl in *.
    destruct rd; simplify_eq/=; [done|].
    destruct (find_crlf buffer) as [e|] eqn:E; simplify_eq/=; [|done].
    rewrite (find_crlf_app _ _ _ E). pose proof (find_crlf_bound _ _ E).
    simpl. rewrite s_take_app_le, s_drop_app_le by lia. done.
  - intros [[m rd p] r] buffer b' buffer' o x H Ho.
    unfold simple_string_builder.push in *; simpl in *.
    repeat case_match; by simplify_eq/=.
Qed.

#[export] Instance integer_step : ParserStep _ integer_builder.push.
Proof.
  unfold integer_builder.push. split.
  - intros [n m r p] buffer b' buffer' o H; simpl in H.
    destruct r; simplify_eq; [auto|].
    destruct (find_crlf buffer) as [e|] eqn:E; simplify_eq; [|auto].
    assert (forall s f neg nbr, (integer_builder.scan f neg nbr s).2 <> Timeout) as Hs.
    { intros s; induction s as [|c s IH]; intros f neg nbr; simpl; [done|].
      by repeat case_match. }
    specialize (Hs (s_take e buffer) true m n).
    destruct (integer_builder.scan _ _ _ _) as [[neg nbr] o']; simpl in Hs.
    destruct o'; simplify_eq; fold_lines; split; try done; lia.
  - intros [n m r p] buffer b' buffer' x H; simpl in *.
    destruct r; [by simplify_eq/=|].
    destruct (find_crlf buffer) as [e|] eqn:E; simplify_eq/=; [|done].
    rewrite (find_crlf_app _ _ _ E). pose proof (find_crlf_bound _ _ E).
    rewrite s_take_app_le by lia.
    destruct (integer_builder.scan _ _ _ _) as [[neg nbr] [[]| | |]]; simplify_eq/=.
    by rewrite s_drop_app_le by lia.
  - intros [n m r p] buffer b' buffer' o x H Ho; simpl in *.
    destruct r; [by simplify_eq/=|].
    destruct (find_crlf buffer) as [e|] eqn:E; [|by simplify_eq/=].
    rewrite (find_crlf_app _ _ _ E). pose proof (find_crlf_bound _ _ E).
    rewrite s_take_app_le by lia.
    destruct (integer_builder.scan _ _ _ _) as [[neg nbr] [[]| | |]]; by simplify_eq/=.
Qed.

(** A builder that is ready leaves the buffer alone. *)
Lemma integer_push_ready b buffer :
  integer_builder.m_reply_ready b = true -> integer_builder.push b buffer = (b, buffer, Ret tt).
Proof. unfold integer_builder.push. by intros ->. Qed.

(** An integer builder that is not ready after a call has not moved. *)
Lemma integer_push_wait b buffer b' buffer' :
  integer_builder.push b buffer = (b', buffer', Ret tt) ->
  integer_builder.m_reply_ready b' = false -> b' = b /\ buffer' = buffer.
Proof.
  unfold integer_builder.push. intros H Hr.
  repeat case_match; simplify_eq/=; auto.
Qed.

(** [fetch_str] waits without a trace, or completes and ignores what follows. *)
Lemma fetch_str_cases b buffer b' buffer' :
  bulk_string_builder.fetch_str b buffer = (b', buffer', Ret tt) ->
  (b' = b /\ buffer' = buffer) \/
  (bulk_string_builder.m_reply_ready b' = true /\
   forall x, bulk_string_builder.fetch_str b (buffer +:+ x) = (b', buffer' +:+ x, Ret tt)).
Proof.
  unfold bulk_string_builder.fetch_str.
  set (sz := bulk_string_builder.m_str_size b).
  intros H. destruct (_ <? _)%Z eqn:El in H; [simplify_eq; auto|].
  destruct (_ <? _)%Z eqn:Eo in H; [done|].
  destruct (char_at buffer sz) as [c1|] eqn:E1; [|done].
  destruct (char_at buffer (sz + 1)) as [c2|] eqn:E2; [|done].
  destruct (negb _) eqn:En in H; [done|]. simplify_eq. right.
  split; [by destruct (bulk_string_builder.m_is_null b)|]. intros x.
  apply char_at_bound in E1 as B1. apply char_at_bound in E2 as B2.
  rewrite (char_at_app _ _ _ _ E1), (char_at_app _ _ _ _ E2), En, Eo.
  rewrite s_length_app. apply Z.ltb_ge in El.
  destruct (Z.ltb_spec (Z.of_nat (String.length buffer + String.length x))
              (wrap_u64 (wrap_u64 sz + 2))); [lia|].
  rewrite s_take_app_le, s_drop_app_le by lia. done.
Qed.

Lemma fetch_str_shrinks b buffer b' buffer' o :
  bulk_string_builder.fetch_str b buffer = (b', buffer', o) ->
  String.length buffer' <= String.length buffer /\ o <> Timeout.
Proof.
  unfold bulk_string_builder.fetch_str. intros H.
  repeat case_match; simplify_eq; fold_lines; (split; [lia|done]).
Qed.

(** A failure of [fetch_str] does not depend on what follows. *)
Lemma fetch_str_fails b buffer b' buffer' o x :
  bulk_string_builder.fetch_str b buffer = (b', buffer', o) -> failed o ->
  bulk_string_builder.fetch_str b (buffer +:+ x) = (b', buffer' +:+ x, o).
Proof.
  unfold bulk_string_builder.fetch_str.
  set (sz := bulk_string_builder.m_str_size b). rewrite s_length_app. intros H Ho.
  destruct (Z.ltb_spec (slen buffer) (wrap_u64 (wrap_u64 sz + 2))); [by simplify_eq|].
  destruct (Z.ltb_spec (Z.of_nat (String.length buffer + String.length x))
              (wrap_u64 (wrap_u64 sz + 2))); [lia|].
  destruct (Z.ltb_spec INT32_MAX (sz + 2)) as [|Hmax]; [by simplify_eq|].
  destruct (decide (sz < 0)%Z) as [Hneg|Hpos].
  - unfold char_at in *. destruct (Z.ltb_spec sz 0); [|lia]. by simplify_eq.
  - assert (wrap_u64 (wrap_u64 sz + 2) = sz + 2)%Z as Hw.
    { unfold INT32_MAX in Hmax. rewrite (wrap_u64_id sz), wrap_u64_id; lia. }
    destruct (char_at_lt buffer sz ltac:(lia)) as [c1 E1].
    destruct (char_at_lt buffer (sz + 1) ltac:(lia)) as [c2 E2].
    rewrite E1, E2 in H. rewrite (char_at_app _ _ _ _ E1), (char_at_app _ _ _ _ E2).
    destruct (negb _); by simplify_eq.
Qed.

#[export] Instance bulk_string_step : ParserStep _ bulk_string_builder.push.
Proof.
  unfold bulk_string_builder.push. split.
  - intros b buffer b' buffer' o H.
    destruct (bulk_string_builder.m_reply_ready b); simplify_eq; [auto|].
    unfold bulk_string_builder.fetch_size in H.
    destruct (integer_builder.m_reply_ready _); simpl in H.
    { case_match; simplify_eq; [auto|]. by eapply fetch_str_shrinks. }
    destruct (integer_builder.push _ _) as [[ib buf] o1] eqn:E.
    destruct (step_shrinks _ _ _ _ _ E). destruct o1; simpl in H; simplify_eq; auto.
    repeat (case_match; simpl in *); simplify_eq; auto;
      apply fetch_str_shrinks in H as []; split; auto; lia.
  - intros b buffer b' buffer' x H.
    destruct (bulk_string_builder.m_reply_ready b) eqn:Er.
    { simplify_eq. by rewrite Er. }
    unfold bulk_string_builder.fetch_size in *.
    destruct (integer_builder.m_reply_ready (bulk_string_builder.m_int_builder b)) eqn:Ei.
    + simpl in H |- *. rewrite Er in H |- *; simpl in H |- *.
      destruct (fetch_str_cases _ _ _ _ H) as [[-> ->]|[Hr Hx]].
      * rewrite Er, Ei. simpl. by rewrite Er.
      * by rewrite Hx, Hr.
    + destruct (integer_builder.push _ buffer) as [[ib buf] o1] eqn:E.
      destruct o1 as [[]| | |]; simpl in H; try done.
      destruct (integer_builder.m_reply_ready ib) eqn:Ei1; simpl in H.
      * rewrite (step_resumes _ _ _ _ x E), (integer_push_ready _ _ Ei1). simpl.
        rewrite Ei1. simpl. destruct (_ =? -1)%Z; simpl in H |- *.
        { by simplify_eq/=. }
        rewrite Er in H |- *. simpl in H.
        destruct (fetch_str_cases _ _ _ _ H) as [[-> ->]|[Hr Hx]]; simpl.
        -- by rewrite Ei1.
        -- by rewrite Hx, Hr.
      * destruct (integer_push_wait _ _ _ _ E Ei1) as [-> ->].
        simplify_eq. destruct b; simpl in *. by rewrite Er, Ei.
  - intros b buffer b' buffer' o x H Ho.
    destruct (bulk_string_builder.m_reply_ready b) eqn:Er; [by simplify_eq|].
    unfold bulk_string_builder.fetch_size in *.
    destruct (integer_builder.m_reply_ready (bulk_string_builder.m_int_builder b)) eqn:Ei.
    + simpl in *. rewrite Er in *. simpl in *. by apply fetch_str_fails.
    + destruct (integer_builder.push _ buffer) as [[ib buf] o1] eqn:E.
      destruct o1 as [[]|e| |]; simpl in H; try by simplify_eq.
      2,3: rewrite (step_fails _ _ _ _ _ x E) by done; by simplify_eq/=.
      destruct (integer_builder.m_reply_ready ib) eqn:Ei1; simpl in H; [|by simplify_eq].
      rewrite (step_resumes _ _ _ _ x E), (integer_push_ready _ _ Ei1). simpl.
      rewrite Ei1. simpl. destruct (_ =? -1)%Z; simpl in *; [by simplify_eq|].
      rewrite Er in *. by apply fetch_str_fails.
Qed.

(** ** The array builder and the recursive [push] *)

Lemma create_builder_fresh c b : create_builder c = Ret b -> depth b = 1 /\ reply_ready b = false.
Proof. unfold create_builder. intros H. repeat case_match; by simplify_eq. Qed.

Lemma create_builder_total c : create_builder c <> Timeout /\ create_builder c <> Undef.
Proof. unfold create_builder. by repeat case_match. Qed.

Lemma fetch_array_size_shrinks a buffer a' buffer' o :
  fetch_array_size a buffer = (a', buffer', o) ->
  String.length buffer' <= String.length buffer /\ o <> Timeout /\
  m_current_builder a' = m_current_builder a.
Proof.
  unfold fetch_array_size. intros H. case_match; simplify_eq; [auto|].
  destruct (integer_builder.push _ _) as [[ib buf] o1] eqn:E.
  destruct (step_shrinks _ _ _ _ _ E) as [Hl Ho].
  destruct o1; simpl in H; repeat case_match; by simplify_eq.
Qed.

Lemma depth_array_current (a a' : array_builder) :
  m_current_builder a' = m_current_builder a -> depth_array a' = depth_array a.
Proof. unfold depth_array; simpl. by intros ->. Qed.

(** The builder of the row in progress is nested less deeply, or fresh with
    one character of the buffer spent on it. *)
Lemma current_or_create_measure a buffer cur buffer' :
  current_or_create a buffer = (cur, buffer', Ret tt) -> buffer <> "" ->
  String.length buffer' <= String.length buffer /\
  2 * (String.length buffer' + depth cur) + 2 <= 2 * (String.length buffer + depth_array a) /\
  2 * (String.length buffer' + 1) + 2 <= 2 * (String.length buffer + depth_array a).
Proof.
  unfold current_or_create, depth_array; simpl. destruct (m_current_builder a) as [c|] eqn:E.
  - intros H ?. simplify_eq. assert (1 <= depth cur) by (destruct cur; simpl; lia). lia.
  - destruct buffer as [|c rest]; [done|]. intros H _.
    destruct (create_builder c) as [b|?| |] eqn:Ec; simplify_eq.
    apply create_builder_fresh in Ec as [-> _]. simpl. lia.
Qed.

Lemma current_or_create_fail a buffer b buffer' o :
  current_or_create a buffer = (b, buffer', o) -> buffer <> "" ->
  (forall u, o <> Ret u) -> buffer' = buffer /\ o <> Timeout.
Proof.
  unfold current_or_create. intros H Hb Ho.
  destruct (m_current_builder a); [by simplify_eq; destruct (Ho tt)|].
  destruct buffer; [done|]. destruct (create_builder _) eqn:Ec; simplify_eq; try done.
  - by destruct (Ho tt).
  - by apply create_builder_total in Ec.
Qed.

Lemma finish_row_depth (a : array_builder) r : depth_array (finish_row a r) = 1.
Proof. done. Qed.

(** Closes the case of a leaf builder. *)
Ltac leaf_shrinks H :=
  lazymatch type of H with
  | (let '(_, _) := ?r in _) = _ =>
    let E := fresh "E" in
    destruct r as [[? ?] ?] eqn:E; simplify_eq; by apply step_shrinks in E
  end.

Ltac shrinks := solve [congruence | simplify_eq; split; [lia|done] | simplify_eq; split; [lia|congruence]].

(** The fuel of [push] and [build_rows] is enough. *)
Lemma push_fuel_enough n :
  (forall b buffer b' buffer' o,
     2 * (String.length buffer + depth b) <= n ->
     push_fuel n b buffer = (b', buffer', o) ->
     String.length buffer' <= String.length buffer /\ o <> Timeout) /\
  (forall a buffer a' buffer' o,
     2 * (String.length buffer + depth_array a) <= n + 1 ->
     build_rows_fuel n a buffer = (a', buffer', o) ->
     String.length buffer' <= String.length buffer /\ o <> Timeout).
Proof.
  induction n as [|n [IHp IHr]]; (split; [intros b|intros a]); intros buffer b' buffer' o Hn H.
  - assert (1 <= depth b) by (destruct b; simpl; lia). lia.
  - unfold depth_array in Hn; simpl in Hn. lia.
  - destruct b as [s|e|i|k|a]; simpl in H; [leaf_shrinks H..|].
    destruct (m_reply_ready a); [shrinks|].
    destruct (fetch_array_size a buffer) as [[a' buf] o'] eqn:E.
    apply fetch_array_size_shrinks in E as (Hl & Ho & Hc%depth_array_current).
    destruct o'; simpl in H; try shrinks.
    destruct (negb _); [shrinks|].
    destruct (build_rows_fuel n a' buf) as [[a2 buf2] o2] eqn:E2. simplify_eq.
    apply IHr in E2 as []; [|unfold depth_array in *; simpl in *; lia].
    split; [lia|done].
  - simpl in H. destruct (String.length buffer =? 0) eqn:El; simpl in H; [shrinks|].
    assert (buffer <> "") as Hne by (by intros ->).
    destruct (m_reply_ready a); [shrinks|]. simpl in H.
    destruct (current_or_create a buffer) as [[cur buf] o1] eqn:E1.
    destruct o1 as [[]| | |]; simpl in H.
    2-4: apply current_or_create_fail in E1 as [-> ?]; [shrinks|done..].
    destruct (current_or_create_measure _ _ _ _ E1 Hne) as (Hl & Hm & Hm1).
    destruct (push_fuel n cur buf) as [[cur' buf2] o2] eqn:E2.
    apply IHp in E2 as [Hl2 Ho2]; [|lia].
    destruct o2 as [[]| | |]; simpl in H; try shrinks.
    destruct (negb _); [shrinks|].
    apply IHr in H as []; [split; [lia|done]|]. rewrite finish_row_depth. lia.
Qed.

(** More fuel changes nothing once a call has ended. *)
Lemma push_fuel_mono n :
  (forall b buffer b' buffer' o m,
     push_fuel n b buffer = (b', buffer', o) -> o <> Timeout -> n <= m ->
     push_fuel m b buffer = (b', buffer', o)) /\
  (forall a buffer a' buffer' o m,
     build_rows_fuel n a buffer = (a', buffer', o) -> o <> Timeout -> n <= m ->
     build_rows_fuel m a buffer = (a', buffer', o)).
Proof.
  induction n as [|n [IHp IHr]]; (split; [intros b|intros a]);
    intros buffer b' buffer' o m H Ho Hm; try (by simpl in H; simplify_eq);
    (destruct m as [|m]; [lia|]).
  - destruct b as [s|e|i|k|a]; [done..|]. simpl in H |- *.
    destruct (m_reply_ready a); [done|].
    destruct (fetch_array_size a buffer) as [[a1 buf] o1]. destruct o1; simpl in *; try done.
    destruct (negb _); [done|].
    destruct (build_rows_fuel n a1 buf) as [[a2 buf2] o2] eqn:E2. simplify_eq.
    rewrite (IHr _ _ _ _ _ m E2); [done|done|lia].
  - simpl in H |- *. destruct (_ || _); [done|].
    destruct (current_or_create a buffer) as [[cur buf] o1]. destruct o1; simpl in *; try done.
    destruct (push_fuel n cur buf) as [[cur' buf2] o2] eqn:E2.
    destruct (decide (o2 = Timeout)) as [->|]; [by simpl in H; simplify_eq|].
    rewrite (IHp _ _ _ _ _ m E2) by (done || lia).
    destruct o2; simpl in *; try done. destruct (negb _); [done|].
    apply IHr; [done|done|lia].
Qed.

Lemma push_fuel_eq n b buffer :
  2 * (String.length buffer + depth b) <= n -> push_fuel n b buffer = push b buffer.
Proof.
  intros Hn. unfold push.
  destruct (push_fuel (2 * _) b buffer) as [[b' buf] o] eqn:E.
  destruct (proj1 (push_fuel_enough _) _ _ _ _ _ ltac:(reflexivity) E) as [_ Ho].
  by apply (proj1 (push_fuel_mono _) _ _ _ _ _ n E).
Qed.

Lemma build_rows_fuel_eq n a buffer :
  2 * (String.length buffer + depth_array a) <= n + 1 ->
  build_rows_fuel n a buffer = build_rows a buffer.
Proof.
  intros Hn. unfold build_rows.
  destruct (build_rows_fuel n a buffer) as [[a' buf] o] eqn:E.
  destruct (proj2 (push_fuel_enough _) _ _ _ _ _ Hn E) as [_ Ho].
  destruct (decide (n <= 2 * (String.length buffer + depth_array a))).
  - symmetry. by apply (proj2 (push_fuel_mono _) _ _ _ _ _ _ E).
  - set (k := 2 * (String.length buffer + depth_array a)) in *.
    destruct (build_rows_fuel k a buffer) as [[a2 buf2] o2] eqn:E2.
    destruct (proj2 (push_fuel_enough k) a buffer a2 buf2 o2 ltac:(lia) E2) as [_ Ho2].
    rewrite <- E. apply (proj2 (push_fuel_mono _) _ _ _ _ _ _ E2); [done|lia].
Qed.

Lemma push_array_eq a buffer :
  push (B_array a) buffer =
  if m_reply_ready a then (B_array a, buffer, Ret tt)
  else
    chain (fetch_array_size a buffer) B_array
      (fun a' buffer' fetched =>
         if negb fetched then (B_array a', buffer', Ret tt)
         else let '(a'', buffer'', o) := build_rows a' buffer' in (B_array a'', buffer'', o)).
Proof.
  unfold push at 1.
  destruct (2 * (String.length buffer + depth (B_array a))) as [|n] eqn:Hn; [simpl in Hn; lia|].
  simpl. destruct (m_reply_ready a); [done|].
  destruct (fetch_array_size a buffer) as [[a' buf] o] eqn:E.
  apply fetch_array_size_shrinks in E as (Hl & Ho & Hc%depth_array_current).
  destruct o; simpl; try done. destruct (negb _); [done|].
  rewrite build_rows_fuel_eq; [done|]. unfold depth_array in *. simpl in *. lia.
Qed.

Lemma build_rows_eq a buffer :
  build_rows a buffer =
  if (String.length buffer =? 0) || m_reply_ready a then (a, buffer, Ret tt)
  else
    chain (current_or_create a buffer) (fun _ => a)
      (fun cur buffer' _ =>
         chain (push cur buffer') (fun cur' => with_current a (Some cur'))
           (fun cur' buffer'' _ =>
              if negb (reply_ready cur') then (with_current a (Some cur'), buffer'', Ret tt)
              else build_rows (finish_row a (get_reply cur')) buffer'')).
Proof.
  unfold build_rows at 1.
  destruct (2 * (String.length buffer + depth_array a)) as [|n] eqn:Hn;
    [unfold depth_array in Hn; simpl in Hn; lia|].
  simpl. destruct (String.length buffer =? 0) eqn:El; [done|].
  assert (buffer <> "") as Hne by (by intros ->).
  destruct (m_reply_ready a); simpl; [done|].
  destruct (current_or_create a buffer) as [[cur buf] o1] eqn:E1.
  destruct o1 as [[]| | |]; simpl; [|done..].
  destruct (current_or_create_measure _ _ _ _ E1 Hne) as (Hl & Hm & Hm1).
  rewrite push_fuel_eq by lia.
  destruct (push cur buf) as [[cur' buf2] o2] eqn:E2.
  destruct (proj1 (push_fuel_enough _) _ _ _ _ _ ltac:(reflexivity) E2) as [Hl2 _].
  destruct o2; simpl; try done. destruct (negb _); [done|].
  rewrite build_rows_fuel_eq; [done|]. rewrite finish_row_depth. lia.
Qed.

(** The equations of [push] on the leaves. *)
Ltac push_leaf :=
  unfold push;
  lazymatch goal with
  | |- push_fuel ?k _ _ = _ => destruct k as [|?] eqn:?; [simpl in *; lia|done]
  end.

Lemma push_simple_eq s buffer :
  push (B_simple s) buffer =
  let '(s', buffer', o) := simple_string_builder.push s buffer in (B_simple s', buffer', o).
Proof. push_leaf. Qed.

Lemma push_error_eq e buffer :
  push (B_error e) buffer =
  let '(e', buffer', o) := error_builder.push e buffer in (B_error e', buffer', o).
Proof. push_leaf. Qed.

Lemma push_integer_eq i buffer :
  push (B_integer i) buffer =
  let '(i', buffer', o) := integer_builder.push i buffer in (B_integer i', buffer', o).
Proof. push_leaf. Qed.

Lemma push_bulk_eq k buffer :
  push (B_bulk k) buffer =
  let '(k', buffer', o) := bulk_string_builder.push k buffer in (B_bulk k', buffer', o).
Proof. push_leaf. Qed.

Create Rewrite HintDb push.
#[export] Hint Rewrite push_simple_eq push_error_eq push_integer_eq push_bulk_eq
  push_array_eq : push.

(** ** Resumption *)

Lemma push_ready b : reply_ready b = true ->
  exists b', forall buffer, push b buffer = (b', buffer, Ret tt).
Proof.
  destruct b as [s|[sb r]|i|k|a]; simpl; intros Hr; eexists; intros buffer;
    autorewrite with push;
    unfold simple_string_builder.push, integer_builder.push, bulk_string_builder.push;
    try (by rewrite Hr).
  unfold error_builder.push, simple_string_builder.push, error_builder.reply_ready in *.
  simpl in *. rewrite Hr. simpl. by rewrite Hr.
Qed.

Lemma build_rows_ready a buffer :
  m_reply_ready a = true -> build_rows a buffer = (a, buffer, Ret tt).
Proof. intros H. rewrite build_rows_eq, H. by rewrite orb_true_r. Qed.

Lemma build_rows_empty a : build_rows a "" = (a, "", Ret tt).
Proof. by rewrite build_rows_eq. Qed.

Lemma current_or_create_app a buffer cur buffer' x :
  current_or_create a buffer = (cur, buffer', Ret tt) ->
  current_or_create a (buffer +:+ x) = (cur, buffer' +:+ x, Ret tt).
Proof.
  unfold current_or_create. destruct (m_current_builder a); [by intros; simplify_eq|].
  destruct buffer as [|c rest]; [done|]. simpl.
  destruct (create_builder c); by intros; simplify_eq.
Qed.

(** The rows leave the size header alone. *)
Lemma build_rows_fuel_int n a buffer a' buffer' o :
  build_rows_fuel n a buffer = (a', buffer', o) -> m_int_builder a' = m_int_builder a.
Proof.
  revert a buffer; induction n as [|n IH]; intros a buffer H; simpl in H; [by simplify_eq|].
  destruct (_ || _); [by simplify_eq|].
  destruct (current_or_create a buffer) as [[cur buf] []]; simpl in H; try by simplify_eq.
  destruct (push_fuel n cur buf) as [[cur' buf2] []]; simpl in H; try by simplify_eq.
  destruct (negb _); [by simplify_eq|]. by apply IH in H.
Qed.

Lemma fetch_array_size_cases a buffer a' buffer' fetched :
  fetch_array_size a buffer = (a', buffer', Ret fetched) ->
  (fetched = false /\ a' = a /\ buffer' = buffer) \/
  (fetched = true /\ integer_builder.m_reply_ready (m_int_builder a') = true /\
   forall x, fetch_array_size a (buffer +:+ x) = (a', buffer' +:+ x, Ret true)).
Proof.
  unfold fetch_array_size. destruct (integer_builder.m_reply_ready (m_int_builder a)) eqn:Ei.
  { intros; simplify_eq; auto. }
  destruct (integer_builder.push _ _) as [[ib buf] [[]| | |]] eqn:E; simpl; [|done..].
  destruct (integer_builder.m_reply_ready ib) eqn:Er; simpl.
  - intros H. right.
    assert (forall x, integer_builder.push (m_int_builder a) (buffer +:+ x) =
                      (ib, buf +:+ x, Ret tt)) as Hx.
    { intros x. rewrite (step_resumes _ _ _ _ x E). by apply integer_push_ready. }
    destruct (_ <? 0)%Z eqn:Es; simplify_eq; (split_and!; [done|done|]);
      intros x; rewrite Hx; simpl; by rewrite Er; simpl; rewrite Es.
  - intros H. simplify_eq. destruct (integer_push_wait _ _ _ _ E Er) as [-> ->].
    left. by destruct a.
Qed.

Ltac leaf_fails H x :=
  lazymatch type of H with
  | (let '(_, _) := ?r in _) = _ =>
    let E := fresh "E" in
    destruct r as [[? ?] ?] eqn:E; simplify_eq; autorewrite with push;
    by rewrite (step_fails _ _ _ _ _ x E)
  end.

Ltac leaf_resumes H x :=
  lazymatch type of H with
  | (let '(_, _) := ?r in _) = _ =>
    let E := fresh "E" in
    destruct r as [[? ?] ?] eqn:E; simplify_eq; autorewrite with push;
    by rewrite (step_resumes _ _ _ _ x E)
  end.

(** The two halves of the resumption argument, by induction on the measure
    that bounds the recursion. *)
Lemma push_build_rows_resume n :
  (forall b buffer b' buffer' x,
     2 * (String.length buffer + depth b) <= n ->
     push b buffer = (b', buffer', Ret tt) -> push b (buffer +:+ x) = push b' (buffer' +:+ x)) /\
  (forall a buffer a' buffer' x,
     2 * (String.length buffer + depth_array a) <= n + 1 ->
     build_rows a buffer = (a', buffer', Ret tt) ->
     build_rows a (buffer +:+ x) = build_rows a' (buffer' +:+ x)).
Proof.
  induction n as [|n [IHp IHr]]; (split; [intros b|intros a]); intros buffer b' buffer' x Hn H.
  - destruct b; simpl in Hn; lia.
  - unfold depth_array in Hn; simpl in Hn; lia.
  - destruct b as [s|e|i|k|a]; autorewrite with push in H |- *; [leaf_resumes H x..|].
    destruct (m_reply_ready a) eqn:Ea.
    { simplify_eq. autorewrite with push. by rewrite Ea. }
    destruct (fetch_array_size a buffer) as [[a1 buf] o] eqn:E.
    destruct o as [fetched| | |]; simpl in H; [|done..].
    apply fetch_array_size_shrinks in E as Hs. destruct Hs as (Hl & _ & Hc%depth_array_current).
    destruct (fetch_array_size_cases _ _ _ _ _ E) as [(-> & -> & ->)|(-> & Hi & Hx)].
    { simpl in H. simplify_eq. autorewrite with push. by rewrite Ea. }
    rewrite Hx. simpl in H |- *.
    destruct (build_rows a1 buf) as [[a2 buf2] o2] eqn:E2. simplify_eq.
    rewrite (IHr a1 buf a2 buffer' x ltac:(unfold depth_array in *; simpl in *; lia) E2).
    autorewrite with push. destruct (m_reply_ready a2) eqn:Ea2.
    { by rewrite (build_rows_ready _ _ Ea2). }
    unfold fetch_array_size. rewrite (build_rows_fuel_int _ _ _ _ _ _ E2), Hi. done.
  - rewrite build_rows_eq in H.
    destruct (String.length buffer =? 0) eqn:El; simpl in H.
    { simplify_eq. done. }
    assert (buffer <> "") as Hne by (by intros ->).
    destruct (m_reply_ready a) eqn:Ea.
    { simplify_eq. by rewrite !build_rows_ready. }
    destruct (current_or_create a buffer) as [[cur buf] o1] eqn:E1.
    destruct o1 as [[]| | |]; simpl in H; [|done..].
    destruct (current_or_create_measure _ _ _ _ E1 Hne) as (Hl & Hm & Hm1).
    destruct (push cur buf) as [[cur' buf2] o2] eqn:E2.
    destruct (proj1 (push_fuel_enough _) _ _ _ _ _ ltac:(reflexivity) E2) as [Hl2 _].
    destruct o2 as [[]| | |]; simpl in H; [|done..].
    assert (forall y, push cur (buf +:+ y) = push cur' (buf2 +:+ y)) as Hy.
    { intros y. apply IHp; [lia|done]. }
    assert (push cur' buf2 = (cur', buf2, Ret tt)) as Hidem.
    { specialize (Hy ""). rewrite !s_app_nil_r in Hy. by rewrite <- Hy. }
    rewrite build_rows_eq, Ea, s_length_app.
    destruct (String.length buffer + _ =? 0) eqn:El2; [apply Nat.eqb_eq in El2; apply Nat.eqb_neq in El; lia|].
    rewrite (current_or_create_app _ _ _ _ x E1). simpl. rewrite Hy.
    destruct (reply_ready cur') eqn:Er; simpl in H.
    + destruct (push_ready _ Er) as [c Hc]. rewrite Hc in Hidem |- *. simplify_eq. simpl.
      rewrite Er. simpl. apply IHr; [|done]. rewrite finish_row_depth. lia.
    + simplify_eq. rewrite (build_rows_eq (with_current a (Some cur'))). simpl. rewrite Ea.
      destruct (String.length (buffer' +:+ x) =? 0) eqn:Ez.
      * apply Nat.eqb_eq, s_length_zero in Ez. rewrite Ez.
        destruct buffer'; [|done]. rewrite Hidem. simpl. by rewrite Er.
      * simpl. destruct (push cur' (buffer' +:+ x)) as [[c3 buf3] o3]. by destruct o3.
Qed.

Lemma current_or_create_fails_app a buffer b buffer' o x :
  current_or_create a buffer = (b, buffer', o) -> buffer <> "" -> failed o ->
  exists b1, current_or_create a (buffer +:+ x) = (b1, buffer' +:+ x, o).
Proof.
  unfold current_or_create. intros H Hb Ho.
  destruct (m_current_builder a); [by simplify_eq|]. destruct buffer as [|c rest]; [done|].
  simpl. destruct (create_builder c); simplify_eq; eauto; done.
Qed.

Lemma fetch_array_size_fails a buffer a' buffer' o x :
  fetch_array_size a buffer = (a', buffer', o) -> failed o ->
  fetch_array_size a (buffer +:+ x) = (a', buffer' +:+ x, o).
Proof.
  unfold fetch_array_size. intros H Ho. case_match; [by simplify_eq|].
  destruct (integer_builder.push _ buffer) as [[ib buf] [[]|e| |]] eqn:E; simpl in H;
    try by (repeat case_match; simplify_eq).
  - rewrite (step_fails _ _ _ _ _ x E) by done. by simplify_eq/=.
  - rewrite (step_fails _ _ _ _ _ x E) by done. by simplify_eq/=.
Qed.

Lemma push_build_rows_fails n :
  (forall b buffer b' buffer' o x,
     2 * (String.length buffer + depth b) <= n ->
     push b buffer = (b', buffer', o) -> failed o ->
     push b (buffer +:+ x) = (b', buffer' +:+ x, o)) /\
  (forall a buffer a' buffer' o x,
     2 * (String.length buffer + depth_array a) <= n + 1 ->
     build_rows a buffer = (a', buffer', o) -> failed o ->
     build_rows a (buffer +:+ x) = (a', buffer' +:+ x, o)).
Proof.
  induction n as [|n [IHp IHr]]; (split; [intros b|intros a]);
    intros buffer b' buffer' o x Hn H Ho.
  - destruct b; simpl in Hn; lia.
  - unfold depth_array in Hn; simpl in Hn; lia.
  - destruct b as [s|e|i|k|a]; autorewrite with push in H |- *; [leaf_fails H x..|].
    destruct (m_reply_ready a); [by simplify_eq|].
    destruct (fetch_array_size a buffer) as [[a1 buf] o1] eqn:E.
    destruct o1 as [fetched|e| |]; simpl in H; try by simplify_eq.
    2,3: rewrite (fetch_array_size_fails _ _ _ _ _ x E) by done; by simplify_eq/=.
    apply fetch_array_size_shrinks in E as Hs. destruct Hs as (Hl & _ & Hc%depth_array_current).
    destruct (fetch_array_size_cases _ _ _ _ _ E) as [(-> & -> & ->)|(-> & _ & Hx)];
      [by simplify_eq/=|].
    rewrite Hx. simpl in H |- *.
    destruct (build_rows a1 buf) as [[a2 buf2] o2] eqn:E2. simplify_eq.
    rewrite (IHr a1 buf a2 buffer' o x); [done| |done..].
    unfold depth_array in *; simpl in *; lia.
  - rewrite build_rows_eq in H.
    destruct (String.length buffer =? 0) eqn:El; simpl in H; [by simplify_eq|].
    assert (buffer <> "") as Hne by (by intros ->).
    destruct (m_reply_ready a) eqn:Ea; [by simplify_eq|].
    rewrite build_rows_eq, Ea, s_length_app. apply Nat.eqb_neq in El.
    destruct (String.length buffer + _ =? 0) eqn:El2; [apply Nat.eqb_eq in El2; lia|]. simpl.
    destruct (current_or_create a buffer) as [[cur buf] o1] eqn:E1.
    destruct o1 as [[]|e| |]; simpl in H; try by simplify_eq.
    2,3: destruct (current_or_create_fails_app _ _ _ _ _ x E1 Hne I) as [b1 ->]; by simplify_eq/=.
    destruct (current_or_create_measure _ _ _ _ E1 Hne) as (Hl & Hm & Hm1).
    rewrite (current_or_create_app _ _ _ _ x E1). simpl.
    destruct (push cur buf) as [[cur' buf2] o2] eqn:E2.
    destruct (proj1 (push_fuel_enough _) _ _ _ _ _ ltac:(reflexivity) E2) as [Hl2 _].
    destruct o2 as [[]|e| |]; simpl in H; try by simplify_eq.
    2,3: (erewrite (IHp cur buf); [|lia|exact E2|done]; by simplify_eq/=).
    rewrite (proj1 (push_build_rows_resume _) _ _ _ _ x ltac:(reflexivity) E2).
    destruct (reply_ready cur') eqn:Er; simpl in H; [|by simplify_eq].
    destruct (push_ready _ Er) as [c Hc].
    assert (push cur' buf2 = (cur', buf2, Ret tt)) as Hidem.
    { pose proof (proj1 (push_build_rows_resume _) _ _ _ _ "" ltac:(reflexivity) E2) as Hy.
      rewrite !s_app_nil_r in Hy. by rewrite <- Hy. }
    rewrite Hc in Hidem |- *. simplify_eq. simpl. rewrite Er. simpl.
    apply IHr; [|done..]. rewrite finish_row_depth. lia.
Qed.

#[export] Instance builder_step : ParserStep builder push.
Proof.
  split.
  - intros b buffer b' buffer' o H. by apply (proj1 (push_fuel_enough _)) in H.
  - intros b buffer b' buffer' x H. by apply (proj1 (push_build_rows_resume _) _ _ _ _ _ ltac:(reflexivity)).
  - intros b buffer b' buffer' o x H Ho.
    by apply (proj1 (push_build_rows_fails _) b buffer b' buffer' o x (le_n _)).
Qed.

(** ** The replies under construction are well formed *)

Fixpoint builder_wf (b : builder) : bool :=
  match b with
  | B_simple b => reply_wf (simple_string_builder.m_reply b)
  | B_error b => reply_wf (error_builder.m_reply b)
  | B_integer b => reply_wf (integer_builder.m_reply b)
  | B_bulk b => reply_wf (bulk_string_builder.m_reply b)
  | B_array a =>
    reply_wf (m_reply a) && match m_current_builder a with Some c => builder_wf c | None => true end
  end.

Lemma get_reply_wf b : builder_wf b = true -> reply_wf (get_reply b) = true.
Proof. destruct b; simpl; try done. by intros [? _]%andb_true_iff. Qed.

Lemma create_builder_wf c b : create_builder c = Ret b -> builder_wf b = true.
Proof. unfold create_builder. intros H. by repeat case_match; simplify_eq. Qed.

Ltac step_wf :=
  intros H Hwf; repeat case_match; simplify_eq;
  cbn [simple_string_builder.m_reply error_builder.m_reply integer_builder.m_reply
       bulk_string_builder.m_reply] in *; auto with reply.

Lemma simple_push_wf b buffer b' buffer' o :
  simple_string_builder.push b buffer = (b', buffer', o) ->
  reply_wf (simple_string_builder.m_reply b) = true ->
  reply_wf (simple_string_builder.m_reply b') = true.
Proof. unfold simple_string_builder.push. step_wf. Qed.

Lemma error_push_wf b buffer b' buffer' o :
  error_builder.push b buffer = (b', buffer', o) ->
  reply_wf (error_builder.m_reply b) = true -> reply_wf (error_builder.m_reply b') = true.
Proof.
  unfold error_builder.push.
  destruct (simple_string_builder.push _ _) as [[sb buf] []]; simpl; step_wf.
Qed.

Lemma integer_push_wf b buffer b' buffer' o :
  integer_builder.push b buffer = (b', buffer', o) ->
  reply_wf (integer_builder.m_reply b) = true -> reply_wf (integer_builder.m_reply b') = true.
Proof. unfold integer_builder.push. step_wf. Qed.

Lemma bulk_push_wf b buffer b' buffer' o :
  bulk_string_builder.push b buffer = (b', buffer', o) ->
  reply_wf (bulk_string_builder.m_reply b) = true ->
  reply_wf (bulk_string_builder.m_reply b') = true.
Proof.
  assert (forall k, reply_wf (bulk_string_builder.m_reply k) = true ->
    reply_wf (bulk_string_builder.m_reply (bulk_string_builder.build_reply k)) = true) as Hb.
  { intros k Hk. unfold bulk_string_builder.build_reply; simpl.
    destruct (bulk_string_builder.m_is_null k); auto with reply. }
  assert (forall k buf, reply_wf (bulk_string_builder.m_reply k) = true ->
    reply_wf (bulk_string_builder.m_reply (bulk_string_builder.fetch_str k buf).1.1) = true) as Hf.
  { intros k buf Hk. unfold bulk_string_builder.fetch_str.
    repeat case_match; simpl; auto; by case_match; auto with reply. }
  unfold bulk_string_builder.push. intros H Hwf.
  destruct (bulk_string_builder.m_reply_ready b); [by simplify_eq|].
  unfold bulk_string_builder.fetch_size in H.
  assert (forall k buf, reply_wf (bulk_string_builder.m_reply k) = true ->
    bulk_string_builder.fetch_str k buf = (b', buffer', o) ->
    reply_wf (bulk_string_builder.m_reply b') = true) as Hf'.
  { intros k buf Hk E. specialize (Hf k buf Hk). by rewrite E in Hf. }
  destruct (integer_builder.m_reply_ready _); simpl in H.
  { case_match; simplify_eq; eauto. }
  destruct (integer_builder.push _ _) as [[ib buf] []]; simpl in H; simplify_eq/=; auto.
  destruct (integer_builder.m_reply_ready ib); simpl in H; [|by simplify_eq/=].
  destruct (_ =? -1)%Z; simpl in H; [simplify_eq; by apply reply_wf_set_null|].
  destruct (bulk_string_builder.m_reply_ready b); [by simplify_eq/=|]. eapply Hf'; [|done]. done.
Qed.

Lemma fetch_array_size_wf a buffer a' buffer' o :
  fetch_array_size a buffer = (a', buffer', o) ->
  builder_wf (B_array a) = true -> builder_wf (B_array a') = true.
Proof.
  unfold fetch_array_size. simpl. intros H Hwf. destruct (integer_builder.m_reply_ready _); [by simplify_eq|].
  apply andb_true_iff in Hwf as [Hr Hc].
  destruct (integer_builder.push _ _) as [[ib buf] []]; simpl in H;
    [|by simplify_eq; simpl; rewrite Hr..].
  destruct (integer_builder.m_reply_ready ib); simpl in H; [|by simplify_eq; simpl; rewrite Hr].
  destruct (_ <? 0)%Z; simplify_eq; cbn [m_reply m_current_builder];
    by rewrite ?reply_wf_set_null, ?Hr by done.
Qed.

Lemma push_fuel_wf n :
  (forall b buffer b' buffer' o, push_fuel n b buffer = (b', buffer', o) ->
     builder_wf b = true -> builder_wf b' = true) /\
  (forall a buffer a' buffer' o, build_rows_fuel n a buffer = (a', buffer', o) ->
     builder_wf (B_array a) = true -> builder_wf (B_array a') = true).
Proof.
  induction n as [|n [IHp IHr]]; (split; [intros b|intros a]);
    intros buffer b' buffer' o H Hwf; [by simplify_eq/=..| |].
  - destruct b as [s|e|i|k|a]; simpl in H.
    1-4: lazymatch type of H with
         | (let '(_, _) := ?r in _) = _ => destruct r as [[? ?] ?] eqn:E
         end; simplify_eq/=;
         eauto using simple_push_wf, error_push_wf, integer_push_wf, bulk_push_wf.
    destruct (m_reply_ready a); [by simplify_eq|].
    destruct (fetch_array_size a buffer) as [[a' buf] o'] eqn:E.
    apply fetch_array_size_wf in E; [|done].
    destruct o'; simpl in H; simplify_eq; auto. destruct (negb _); [by simplify_eq|].
    destruct (build_rows_fuel n a' buf) as [[a2 buf2] o2] eqn:E2. simplify_eq. eauto.
  - simpl in H. destruct (_ || _); [by simplify_eq|].
    pose proof Hwf as Hwf0. simpl in Hwf0. apply andb_true_iff in Hwf0 as [Hr Hc].
    destruct (current_or_create a buffer) as [[cur buf] o1] eqn:E1.
    destruct o1 as [[]| | |]; simpl in H; try by simplify_eq.
    assert (builder_wf cur = true) as Hcur.
    { unfold current_or_create in E1. destruct (m_current_builder a); [by simplify_eq|].
      destruct buffer; [done|]. destruct (create_builder _) eqn:Ec; simplify_eq.
      by eapply create_builder_wf. }
    destruct (push_fuel n cur buf) as [[cur' buf2] o2] eqn:E2. apply IHp in E2; [|done].
    destruct o2 as [[]| | |]; simpl in H; simplify_eq/=; rewrite ?Hr, ?E2; auto.
    destruct (negb _); [simplify_eq/=; by rewrite Hr, E2|].
    eapply IHr; [done|]. cbn [builder_wf finish_row m_reply m_current_builder].
    rewrite andb_true_r. apply get_reply_wf in E2. auto with reply.
Qed.

Lemma push_wf b buffer b' buffer' o :
  push b buffer = (b', buffer', o) -> builder_wf b = true -> builder_wf b' = true.
Proof. apply push_fuel_wf. Qed.
