(* ===== verification/ReplyStream.v ===== *)
(** [reply_builder] against the wire format of replies: whatever the sizes
    of the packets that bring a well-formed stream, the replies come out in
    order and complete; a malformed stream is reported and never recovers. *)

From S2P Require Import Prelude Text Reply Builders BuilderFacts.

(** ** The wire format *)

Definition line (c : ascii) (s : string) : string := String c (s +:+ crlf).

Fixpoint encode (v : rvalue) : string :=
  match v with
  | VError s => line "-" s
  | VSimple s => line "+" s
  | VInt z => line ":" (to_string z)
  | VBulk s => line "$" (to_string (slen s)) +:+ s +:+ crlf
  | VNull => line "$" "-1"
  | VArray l =>
    line "*" (to_string (Z.of_nat (length l))) +:+
    foldr (fun x s => encode x +:+ s) "" l
  end.

Definition encode_all (l : list rvalue) : string := foldr (fun x s => encode x +:+ s) "" l.

(** What the parsers accept: lines without a line ending inside, integers
    whose absolute value fits in 63 bits, bulk strings whose size fits in an
    [int] together with the two characters that follow it. *)
Fixpoint wire_ok (v : rvalue) : bool :=
  match v with
  | VError s | VSimple s => bool_decide (no_crlf s)
  | VInt z => bool_decide (- INT64_MAX <= z <= INT64_MAX)%Z
  | VBulk s => bool_decide (slen s + 2 <= INT32_MAX)%Z
  | VNull => true
  | VArray l =>
    bool_decide (Z.of_nat (length l) <= INT64_MAX)%Z && forallb wire_ok l
  end.

(** ** Headers *)

Lemma scan_digits s first neg acc :
  all_digits s = true -> (0 <= acc)%Z -> (dec_value acc s <= INT64_MAX)%Z ->
  integer_builder.scan first neg acc s = (neg, dec_value acc s, Ret tt).
Proof.
  revert first acc; induction s as [|c s IH]; intros first acc Hd Ha Hm; [done|].
  simpl in *. apply andb_true_iff in Hd as [Hc Hs].
  pose proof (digit_value_bound c Hc). pose proof (dec_value_mono s (acc * 10 + digit_value c) Hs ltac:(lia)).
  destruct (Ascii.eqb_spec c "-"); [by subst|]. rewrite andb_false_r, Hc. simpl.
  destruct (Z.ltb_spec INT64_MAX (acc * 10 + digit_value c)); [lia|].
  apply IH; [done|lia|done].
Qed.

(** An integer line is read back, with its sign. *)
Lemma integer_push_line z rest :
  (- INT64_MAX <= z <= INT64_MAX)%Z ->
  exists ib, integer_builder.push integer_builder.init (to_string z +:+ crlf +:+ rest)
             = (ib, rest, Ret tt) /\
    integer_builder.m_reply_ready ib = true /\
    integer_builder.get_integer ib = z /\
    integer_builder.m_reply ib = reply_integer z.
Proof.
  intros Hz. unfold integer_builder.push.
  cbn [integer_builder.m_reply_ready integer_builder.init integer_builder.m_nbr
       integer_builder.m_negative_multiplicator integer_builder.m_reply].
  rewrite find_crlf_first by apply to_string_no_crlf. rewrite s_take_app, s_drop_line.
  destruct (decide (0 <= z)%Z).
  - destruct (to_string_digits z) as [Hd Hv]; [done|].
    rewrite scan_digits; rewrite ?Hv; [|done|lia..].
    eexists. split; [done|]. unfold integer_builder.get_integer; cbn -[Z.mul].
    rewrite !Z.mul_1_l. done.
  - rewrite to_string_neg by lia. destruct (to_string_digits (- z)) as [Hd Hv]; [lia|].
    cbn [integer_builder.scan].
    cbn [andb Z.eqb Pos.eqb Ascii.eqb Bool.eqb].
    rewrite scan_digits; rewrite ?Hv; [|done|lia..].
    eexists. split; [done|]. unfold integer_builder.get_integer; cbn -[Z.mul].
    replace (-1 * - z)%Z with z by lia. done.
Qed.

Lemma simple_push_line s rest :
  no_crlf s ->
  simple_string_builder.push simple_string_builder.init (s +:+ crlf +:+ rest) =
  (simple_string_builder.mk s true (reply_string s st_simple_string), rest, Ret tt).
Proof.
  intros Hs. unfold simple_string_builder.push.
  cbn [simple_string_builder.m_reply_ready simple_string_builder.init].
  rewrite find_crlf_first by done. by rewrite s_take_app, s_drop_line.
Qed.

Lemma char_at_crlf s rest :
  char_at (s +:+ crlf +:+ rest) (slen s) = Some CR /\
  char_at (s +:+ crlf +:+ rest) (slen s + 1) = Some LF.
Proof.
  unfold char_at. destruct (Z.ltb_spec (slen s) 0); [lia|].
  destruct (Z.ltb_spec (slen s + 1) 0); [lia|].
  replace (Z.to_nat (slen s)) with (String.length s + 0) by lia.
  replace (Z.to_nat (slen s + 1)) with (String.length s + 1) by lia.
  by rewrite !s_get_app_r.
Qed.

(** ** One reply *)

(** The builder created for the type byte of a well-formed reply consumes
    exactly that reply and holds it. *)
Definition parses (v : rvalue) : Prop :=
  forall rest, exists c body b b',
    encode v = String c body /\ create_builder c = Ret b /\
    push b (body +:+ rest) = (b', rest, Ret tt) /\
    reply_ready b' = true /\ get_reply b' = reply_of v.

Lemma parses_intro v c body b :
  encode v = String c body -> create_builder c = Ret b ->
  (forall rest, exists b', push b (body +:+ rest) = (b', rest, Ret tt) /\
                           reply_ready b' = true /\ get_reply b' = reply_of v) ->
  parses v.
Proof.
  intros He Hc H rest. destruct (H rest) as (b' & ? & ? & ?).
  exists c, body, b, b'. auto.
Qed.

Lemma parses_simple s : no_crlf s -> parses (VSimple s).
Proof.
  intros Hs. eapply parses_intro; [done|done|]. intros rest.
  rewrite push_simple_eq, s_app_assoc, simple_push_line by done. eauto.
Qed.

Lemma parses_error s : no_crlf s -> parses (VError s).
Proof.
  intros Hs. eapply parses_intro; [done|done|]. intros rest.
  rewrite push_error_eq, s_app_assoc. unfold error_builder.push. cbn [error_builder.m_string_builder error_builder.init].
  rewrite simple_push_line by done. eexists. split; [done|]. done.
Qed.

Lemma parses_int z : (- INT64_MAX <= z <= INT64_MAX)%Z -> parses (VInt z).
Proof.
  intros Hz. eapply parses_intro; [done|done|]. intros rest.
  destruct (integer_push_line z rest Hz) as (ib & H & Hr & Hg & Hm).
  rewrite push_integer_eq, s_app_assoc, H. eauto.
Qed.

Lemma parses_null : parses VNull.
Proof.
  eapply parses_intro; [done|done|]. intros rest.
  rewrite push_bulk_eq. unfold bulk_string_builder.push, bulk_string_builder.fetch_size.
  cbn [bulk_string_builder.m_reply_ready bulk_string_builder.init
       bulk_string_builder.m_int_builder integer_builder.m_reply_ready integer_builder.init].
  rewrite (s_app_assoc "-1" crlf). destruct (integer_push_line (-1) rest) as (ib & H & Hr & Hg & Hm).
  { unfold INT64_MAX; lia. }
  change (to_string (-1)) with "-1" in H. fold integer_builder.init. rewrite H. cbn [chain].
  rewrite Hr, Hg. eexists. split; [done|]. done.
Qed.

Lemma parses_bulk s : (slen s + 2 <= INT32_MAX)%Z -> parses (VBulk s).
Proof.
  intros Hs. eapply parses_intro; [done|done|]. intros rest.
  rewrite push_bulk_eq. unfold bulk_string_builder.push, bulk_string_builder.fetch_size.
  cbn [bulk_string_builder.m_reply_ready bulk_string_builder.init
       bulk_string_builder.m_int_builder].
  rewrite !s_app_assoc.
  destruct (integer_push_line (slen s) (s +:+ crlf +:+ rest)) as (ib & H & Hr & Hg & Hm).
  { unfold INT32_MAX, INT64_MAX in *; lia. }
  cbn [integer_builder.m_reply_ready integer_builder.init]. fold integer_builder.init.
  rewrite H. cbn [chain]. rewrite Hr, Hg. cbn [negb].
  rewrite wrap_s32_id by (unfold INT32_MIN, INT32_MAX in *; lia).
  destruct (Z.eqb_spec (slen s) (-1)); [lia|]. cbn [chain orb negb bulk_string_builder.m_reply_ready].
  unfold bulk_string_builder.fetch_str. cbn [bulk_string_builder.m_str_size].
  unfold INT32_MAX in *. rewrite (wrap_u64_id (slen s)), wrap_u64_id by lia.
  destruct (char_at_crlf s rest) as [-> ->].
  destruct (Z.ltb_spec (slen (s +:+ crlf +:+ rest)) (slen s + 2)) as [Hlt|_].
  { rewrite !s_length_app in Hlt. simpl in Hlt. lia. }
  destruct (Z.ltb_spec 2147483647 (slen s + 2)); [lia|]. cbn [negb andb Ascii.eqb].
  rewrite Nat2Z.id, s_take_app.
  replace (Z.to_nat (slen s + 2)) with (String.length s + 2) by lia.
  rewrite s_drop_line. eexists. split; [done|]. done.
Qed.

(** ** Arrays *)

Lemma encode_array_head l :
  encode (VArray l) = String "*" ((to_string (Z.of_nat (length l)) +:+ crlf) +:+ encode_all l).
Proof. done. Qed.

(** Reading the rows that remain, one by one. *)
Lemma build_rows_encode l2 : Forall parses l2 -> l2 <> [] ->
  forall l1 ib rest,
  let size := Z.of_nat (length l1 + length l2) in
  (size <= INT64_MAX)%Z ->
  exists a',
    build_rows (mk_array ib size None false (reply_array (reply_of <$> l1)))
      (encode_all l2 +:+ rest) = (a', rest, Ret tt) /\
    m_reply_ready a' = true /\ m_reply a' = reply_array (reply_of <$> (l1 ++ l2)).
Proof.
  induction 1 as [|v l2 Hv _ IH]; [done|]. intros _ l1 ib rest size Hsize.
  destruct (Hv (encode_all l2 +:+ rest)) as (c & body & b & b' & He & Hc & Hp & Hr & Hg).
  rewrite build_rows_eq. cbn [encode_all foldr]. fold (encode_all l2). rewrite He, s_app_assoc.
  cbn [String.append String.length Nat.eqb orb m_reply_ready].
  unfold current_or_create. cbn [m_current_builder]. rewrite Hc. cbn [chain].
  rewrite Hp. cbn [chain]. rewrite Hr, Hg. cbn [negb].
  unfold finish_row. cbn [m_reply m_rows push_row reply_array m_int_builder m_array_size m_reply_ready].
  rewrite length_app, length_fmap. cbn [length].
  destruct (decide (l2 = [])) as [->|Hne].
  - cbn [encode_all foldr]. cbn [length] in size.
    destruct (Z.eqb_spec (Z.of_nat (length l1 + 1)) size); [|lia].
    rewrite build_rows_ready by done. eexists. split_and!; [done|done|].
    by rewrite fmap_app.
  - destruct (Z.eqb_spec (Z.of_nat (length l1 + 1)) size) as [Heq|_].
    { subst size. destruct l2; [done|]. simpl in *. lia. }
    destruct (IH Hne (l1 ++ [v]) ib rest) as (a' & Ha & Har & Ham).
    { rewrite length_app. subst size. simpl in *. lia. }
    exists a'. rewrite <- app_assoc in Ham. split_and!; [|done|done].
    rewrite <- Ha. rewrite length_app, fmap_app.
    replace (length l1 + length [v] + length l2) with (length l1 + length (v :: l2)) by (simpl; lia).
    done.
Qed.

Lemma parses_array l :
  (Z.of_nat (length l) <= INT64_MAX)%Z -> Forall parses l -> parses (VArray l).
Proof.
  intros Hl Hall. eapply parses_intro; [apply encode_array_head|done|]. intros rest.
  rewrite push_array_eq. unfold fetch_array_size.
  cbn [m_reply_ready array_builder_init m_int_builder integer_builder.m_reply_ready integer_builder.init].
  fold integer_builder.init. rewrite !s_app_assoc.
  destruct (integer_push_line (Z.of_nat (length l)) (encode_all l +:+ rest)) as (ib & H & Hr & Hg & _).
  { unfold INT64_MAX in *; lia. }
  rewrite H. cbn [chain]. rewrite Hr, Hg. cbn [negb].
  destruct (Z.ltb_spec (Z.of_nat (length l)) 0); [lia|].
  cbn [chain negb m_array_size m_current_builder m_reply_ready m_reply array_builder_init].
  rewrite wrap_u64_id by (unfold INT64_MAX in *; lia).
  destruct (decide (l = [])) as [->|Hne].
  - cbn [length Z.of_nat Z.eqb]. rewrite build_rows_ready by done. eexists. split_and!; done.
  - destruct (Z.eqb_spec (Z.of_nat (length l)) 0) as [Hz|_]; [by destruct l|].
    destruct (build_rows_encode l Hall Hne [] ib rest Hl) as (a' & Ha & Har & Ham).
    change (reply_array []) with (reply_array (reply_of <$> [])).
    rewrite (Ha : build_rows (mk_array ib (Z.of_nat (length l)) None false _) _ = _).
    exists (B_array a'). split_and!; done.
Qed.

Lemma wire_ok_parses v : wire_ok v = true -> parses v.
Proof.
  induction v as [s|s|s| |z|l IH] using rvalue_nested_ind; simpl; intros H.
  - apply parses_error. by apply bool_decide_eq_true in H.
  - apply parses_bulk. by apply bool_decide_eq_true in H.
  - apply parses_simple. by apply bool_decide_eq_true in H.
  - apply parses_null.
  - apply parses_int. by apply bool_decide_eq_true in H.
  - apply andb_true_iff in H as [Hl H]. apply bool_decide_eq_true in Hl.
    apply parses_array; [done|].
    induction IH as [|x l Hx _ IHl]; [done|]. simpl in *. apply andb_true_iff in H as [? ?].
    constructor; [auto|]. apply IHl; (done || lia).
Qed.

(** ** The loop of reply_builder *)

Definition rb_measure (rb : reply_builder) : nat :=
  String.length (m_buffer rb) + match m_builder rb with Some _ => 1 | None => 0 end.

(** [while (build_reply());] with the fuel [feed] gives it. *)
Definition drain (rb : reply_builder) : reply_builder * outcome unit :=
  build_replies (String.length (m_buffer rb) + 2) rb.

Lemma feed_drain data rb : feed data rb = drain (append_data data rb).
Proof. done. Qed.

Lemma build_reply_measure rb rb' :
  build_reply rb = (rb', Ret true) ->
  rb_measure rb' < rb_measure rb /\ String.length (m_buffer rb') <= String.length (m_buffer rb).
Proof.
  unfold build_reply, rb_measure. destruct (m_buffer rb) as [|c rest] eqn:Eb; [done|].
  destruct (m_builder rb) as [b|] eqn:Em.
  - destruct (push b _) as [[b' buf] o] eqn:Ep. apply step_shrinks in Ep as [Hl _].
    intros H. destruct o; simplify_eq. destruct (reply_ready b'); simplify_eq. simpl in *. lia.
  - destruct (create_builder c) as [b| | |]; simpl; [|done..].
    destruct (push b rest) as [[b' buf] o] eqn:Ep. apply step_shrinks in Ep as [Hl _].
    intros H. destruct o; simplify_eq. destruct (reply_ready b'); simplify_eq. simpl in *. lia.
Qed.

Lemma build_reply_ends rb rb' o : build_reply rb = (rb', o) -> o <> Timeout.
Proof.
  unfold build_reply. destruct (m_buffer rb) as [|c rest]; [by intros; simplify_eq|].
  assert (forall b buf,
    (let '(b', buffer', o) := push b buf in
     match o with
     | Ret _ => if reply_ready b'
        then (mk_reply_builder buffer' None (m_available_replies rb ++ [get_reply b']), Ret true)
        else (mk_reply_builder buffer' (Some b') (m_available_replies rb), Ret false)
     | Throw e => (mk_reply_builder buffer' (Some b') (m_available_replies rb), Throw e)
     | Undef => (mk_reply_builder buffer' (Some b') (m_available_replies rb), Undef)
     | Timeout => (mk_reply_builder buffer' (Some b') (m_available_replies rb), Timeout)
     end) = (rb', o) -> o <> Timeout) as Hp.
  { intros b buf. destruct (push b buf) as [[b' buf'] o'] eqn:Ep.
    apply step_shrinks in Ep as [_ Ho]. destruct o'; try done; intros; try by simplify_eq.
    by case_match; simplify_eq. }
  destruct (m_builder rb); [apply Hp|].
  destruct (create_builder c) eqn:Ec; simpl; try (intros; by simplify_eq); [apply Hp|].
  by apply create_builder_total in Ec.
Qed.

Lemma build_replies_ends n rb rb' o :
  rb_measure rb < n -> build_replies n rb = (rb', o) -> o <> Timeout.
Proof.
  revert rb; induction n as [|n IH]; intros rb Hn H; [lia|]. simpl in H.
  destruct (build_reply rb) as [rb1 o1] eqn:E. pose proof (build_reply_ends _ _ _ E).
  destruct o1 as [[]| | |]; simplify_eq; try done.
  apply build_reply_measure in E as [? _]. eapply IH; [|done]. lia.
Qed.

Lemma build_replies_mono n m rb :
  rb_measure rb < n -> rb_measure rb < m -> build_replies n rb = build_replies m rb.
Proof.
  revert m rb; induction n as [|n IH]; intros [|m] rb Hn Hm; try lia. simpl.
  destruct (build_reply rb) as [rb1 [[]| | |]] eqn:E; try done.
  apply build_reply_measure in E as [? _]. apply IH; lia.
Qed.

Lemma rb_measure_bound rb : rb_measure rb < String.length (m_buffer rb) + 2.
Proof. unfold rb_measure. destruct (m_builder rb); lia. Qed.

Lemma drain_eq rb :
  drain rb =
  match build_reply rb with
  | (rb', Ret true) => drain rb'
  | (rb', Ret false) => (rb', Ret tt)
  | (rb', Throw e) => (rb', Throw e)
  | (rb', Undef) => (rb', Undef)
  | (rb', Timeout) => (rb', Timeout)
  end.
Proof.
  unfold drain at 1. destruct (String.length (m_buffer rb) + 2) as [|n] eqn:En; [lia|].
  simpl. destruct (build_reply rb) as [rb1 [[]| | |]] eqn:E; try done.
  apply build_reply_measure in E as [? _]. apply build_replies_mono; [|apply rb_measure_bound].
  pose proof (rb_measure_bound rb). lia.
Qed.

Lemma append_data_app a b rb :
  append_data (a +:+ b) rb = append_data b (append_data a rb).
Proof. unfold append_data; simpl. by rewrite s_app_assoc. Qed.

Lemma append_data_nil rb : append_data "" rb = rb.
Proof. destruct rb. unfold append_data; simpl. by rewrite s_app_nil_r. Qed.

(** The builder and the buffer [build_reply] works on. *)
Definition rb_start (rb : reply_builder) : option (outcome (builder * string)) :=
  match m_buffer rb with
  | EmptyString => None
  | String c rest =>
    Some (match m_builder rb with
          | Some b => Ret (b, m_buffer rb)
          | None => omap_outcome (fun b => (b, rest)) (create_builder c)
          end)
  end.

(** [build_reply] once its builder has been pushed. *)
Definition rb_result (av : list reply) (r : result builder unit) : reply_builder * outcome bool :=
  match r with
  | (b', buffer', Ret _) =>
    if reply_ready b' then (mk_reply_builder buffer' None (av ++ [get_reply b']), Ret true)
    else (mk_reply_builder buffer' (Some b') av, Ret false)
  | (b', buffer', Throw e) => (mk_reply_builder buffer' (Some b') av, Throw e)
  | (b', buffer', Undef) => (mk_reply_builder buffer' (Some b') av, Undef)
  | (b', buffer', Timeout) => (mk_reply_builder buffer' (Some b') av, Timeout)
  end.

Lemma build_reply_start rb :
  build_reply rb =
  match rb_start rb with
  | None => (rb, Ret false)
  | Some (Ret (b, buffer)) => rb_result (m_available_replies rb) (push b buffer)
  | Some (Throw e) => (rb, Throw e)
  | Some Undef => (rb, Undef)
  | Some Timeout => (rb, Timeout)
  end.
Proof.
  unfold build_reply, rb_start, rb_result. destruct (m_buffer rb) as [|c rest]; [done|].
  destruct (m_builder rb) as [b|]; [|destruct (create_builder c)]; simpl; try done;
    match goal with |- context [push ?b ?s] => destruct (push b s) as [[? ?] []] end; done.
Qed.

Lemma rb_start_app rb x :
  rb_start rb <> None ->
  rb_start (append_data x rb) =
  omap_outcome (fun p => (p.1, p.2 +:+ x)) <$> rb_start rb.
Proof.
  unfold rb_start, append_data; simpl. destruct (m_buffer rb) as [|c rest]; [done|]. intros _.
  destruct (m_builder rb) as [b|]; [done|]. simpl. by destruct (create_builder c).
Qed.

(** A push that completed a reply is not repeated by later characters. *)
Lemma push_done_app b buffer b' buffer' x :
  push b buffer = (b', buffer', Ret tt) -> reply_ready b' = true ->
  push b (buffer +:+ x) = (b', buffer' +:+ x, Ret tt).
Proof.
  intros H Hr. rewrite (step_resumes _ _ _ _ x H).
  destruct (push_ready _ Hr) as [c Hc]. rewrite Hc.
  pose proof (step_resumes _ _ _ _ "" H) as Hy. rewrite !s_app_nil_r, Hc, H in Hy.
  by simplify_eq.
Qed.

Lemma drain_resume rb rb' x :
  drain rb = (rb', Ret tt) -> drain (append_data x rb) = drain (append_data x rb').
Proof.
  remember (rb_measure rb) as n eqn:Hn. revert rb Hn.
  induction (lt_wf n) as [n _ IH]; intros rb -> H.
  rewrite drain_eq, build_reply_start in H.
  destruct (rb_start rb) as [start|] eqn:Es; [|by simplify_eq].
  rewrite drain_eq, build_reply_start, rb_start_app, Es by (by rewrite Es). simpl.
  destruct start as [[b buffer]| | |]; simpl in H |- *; [|by simplify_eq..].
  destruct (push b buffer) as [[b' buf] o] eqn:Ep.
  destruct o as [[]| | |]; simpl in H; [|by simplify_eq..].
  destruct (reply_ready b') eqn:Er.
  - rewrite (push_done_app _ _ _ _ x Ep Er). simpl. rewrite Er.
    set (rb1 := mk_reply_builder buf None _) in *.
    change (mk_reply_builder (buf +:+ x) None (m_available_replies rb ++ [get_reply b']))
      with (append_data x rb1).
    eapply IH; [|done|done].
    apply (build_reply_measure rb rb1). by rewrite build_reply_start, Es, Ep; simpl; rewrite Er.
  - simplify_eq. rewrite (step_resumes _ _ _ _ x Ep).
    rewrite (drain_eq (append_data x _)), (build_reply_start (append_data x _)).
    unfold rb_start, append_data; simpl. destruct (buf +:+ x) as [|c rest] eqn:Ex; [|done].
    destruct buf; [|done].
    pose proof (step_resumes _ _ _ _ "" Ep) as Hy. rewrite !s_app_nil_r, Ep in Hy.
    rewrite <- Hy. simpl. by rewrite Er.
Qed.

Lemma drain_fails rb rb' o x :
  drain rb = (rb', o) -> failed o -> drain (append_data x rb) = (append_data x rb', o).
Proof.
  remember (rb_measure rb) as n eqn:Hn. revert rb Hn.
  induction (lt_wf n) as [n _ IH]; intros rb -> H Ho.
  rewrite drain_eq, build_reply_start in H.
  destruct (rb_start rb) as [start|] eqn:Es; [|by simplify_eq].
  rewrite drain_eq, build_reply_start, rb_start_app, Es by (by rewrite Es). simpl.
  destruct start as [[b buffer]| | |]; simpl in H |- *; try by simplify_eq.
  destruct (push b buffer) as [[b' buf] o1] eqn:Ep.
  destruct o1 as [[]|e| |]; simpl in H; try by simplify_eq.
  2-3: rewrite (step_fails _ _ _ _ _ x Ep) by done; by simplify_eq/=.
  destruct (reply_ready b') eqn:Er; [|by simplify_eq].
  rewrite (push_done_app _ _ _ _ x Ep Er). simpl. rewrite Er.
  set (rb1 := mk_reply_builder buf None _) in *.
  change (mk_reply_builder (buf +:+ x) None (m_available_replies rb ++ [get_reply b']))
    with (append_data x rb1).
  eapply IH; [|done|done..].
  apply (build_reply_measure rb rb1). by rewrite build_reply_start, Es, Ep; simpl; rewrite Er.
Qed.

(** ** Packets *)

(** Successive packets: what the receive handler does with each. *)
Fixpoint feed_all (packets : list string) (rb : reply_builder) : reply_builder * outcome unit :=
  match packets with
  | [] => (rb, Ret tt)
  | p :: packets' =>
    match feed p rb with
    | (rb', Ret _) => feed_all packets' rb'
    | r => r
    end
  end.

Definition concat_packets (packets : list string) : string :=
  foldr String.append "" packets.

Lemma concat_packets_app l1 l2 : concat_packets (l1 ++ l2) = concat_packets l1 +:+ concat_packets l2.
Proof.
  unfold concat_packets. induction l1 as [|x l1 IH]; [done|]. cbn [app foldr]. by rewrite IH, s_app_assoc.
Qed.

(** Nothing is left to do before more data arrives. *)
Definition settled (rb : reply_builder) : Prop := drain rb = (rb, Ret tt).

Lemma drain_total rb : exists rb' o, drain rb = (rb', o) /\ (o = Ret tt \/ failed o).
Proof.
  destruct (drain rb) as [rb' o] eqn:E. exists rb', o. split; [done|].
  apply build_replies_ends in E; [|apply rb_measure_bound].
  destruct o as [[]| | |]; simpl; auto; done.
Qed.

Lemma drain_settled rb rb' : drain rb = (rb', Ret tt) -> settled rb'.
Proof.
  intros H. unfold settled. pose proof (drain_resume _ _ "" H) as Hx.
  rewrite !append_data_nil in Hx. by rewrite <- Hx.
Qed.

Lemma feed_all_feed packets rb rb' :
  settled rb -> feed (concat_packets packets) rb = (rb', Ret tt) ->
  feed_all packets rb = (rb', Ret tt).
Proof.
  revert rb; induction packets as [|p packets IH]; intros rb Hs H; simpl in *.
  - rewrite feed_drain, append_data_nil, Hs in H. done.
  - rewrite feed_drain, append_data_app in H.
    destruct (drain_total (append_data p rb)) as (rb1 & o & E & Ho).
    rewrite feed_drain, E. destruct Ho as [->|Ho].
    + apply IH; [by eapply drain_settled|]. rewrite feed_drain.
      by rewrite <- (drain_resume _ _ _ E).
    + rewrite (drain_fails _ _ _ _ E Ho) in H. by destruct o; simplify_eq.
Qed.

(** A whole stream in one packet. *)
Lemma drain_encode vs av rest :
  Forall parses vs ->
  drain (mk_reply_builder (encode_all vs +:+ rest) None av) =
  drain (mk_reply_builder rest None (av ++ (reply_of <$> vs))).
Proof.
  intros H. revert av; induction H as [|v vs Hv _ IH]; intros av.
  - simpl. by rewrite app_nil_r.
  - destruct (Hv (encode_all vs +:+ rest)) as (c & body & b & b' & He & Hc & Hp & Hr & Hg).
    rewrite drain_eq, build_reply_start. unfold rb_start. cbn [m_buffer m_builder].
    cbn [encode_all foldr]. fold (encode_all vs). rewrite He, s_app_assoc. cbn [String.append].
    rewrite Hc. cbn [omap_outcome obind m_available_replies]. rewrite Hp. cbn [rb_result]. rewrite Hr.
    rewrite IH. rewrite <- app_assoc. by rewrite Hg.
Qed.

Lemma settled_init av : settled (mk_reply_builder "" None av).
Proof. done. Qed.

Lemma feed_encode vs av :
  forallb wire_ok vs = true ->
  feed (encode_all vs) (mk_reply_builder "" None av) =
  (mk_reply_builder "" None (av ++ (reply_of <$> vs)), Ret tt).
Proof.
  intros Hok. rewrite feed_drain. unfold append_data; simpl.
  rewrite <- (s_app_nil_r (encode_all vs)), drain_encode; [apply settled_init|].
  apply Forall_forall. intros v Hv. apply wire_ok_parses.
  rewrite forallb_forall in Hok. apply Hok. by apply list_elem_of_In.
Qed.

Lemma feed_all_encode packets vs av :
  forallb wire_ok vs = true -> concat_packets packets = encode_all vs ->
  feed_all packets (mk_reply_builder "" None av) =
  (mk_reply_builder "" None (av ++ (reply_of <$> vs)), Ret tt).
Proof.
  intros Hok Hc. apply feed_all_feed; [apply settled_init|]. rewrite Hc. by apply feed_encode.
Qed.

(** Replies are only ever added at the back. *)
Lemma drain_available rb rb' o :
  drain rb = (rb', o) -> exists l, m_available_replies rb' = m_available_replies rb ++ l.
Proof.
  remember (rb_measure rb) as n eqn:Hn. revert rb Hn.
  induction (lt_wf n) as [n _ IH]; intros rb -> H.
  rewrite drain_eq in H. destruct (build_reply rb) as [rb1 o1] eqn:E.
  assert (exists l, m_available_replies rb1 = m_available_replies rb ++ l) as [l Hl].
  { rewrite build_reply_start in E. destruct (rb_start rb) as [[[b buf]| | |]|];
      try (simplify_eq; exists []; by rewrite app_nil_r).
    destruct (push b buf) as [[b' buf'] [[]| | |]]; simpl in E;
      try (simplify_eq; exists []; by rewrite app_nil_r).
    destruct (reply_ready b'); simplify_eq; simpl; [eauto|].
    exists []. by rewrite app_nil_r. }
  destruct o1 as [[]| | |]; simplify_eq; eauto.
  apply build_reply_measure in E as [Hm _].
  destruct (IH _ Hm _ eq_refl H) as [l' Hl']. exists (l ++ l').
  by rewrite Hl', Hl, app_assoc.
Qed.

Lemma feed_all_outcome packets rb :
  settled rb ->
  let r1 := feed_all packets rb in
  let r2 := feed (concat_packets packets) rb in
  r1.2 = r2.2 /\ m_available_replies r1.1 = m_available_replies r2.1 /\
  m_builder r1.1 = m_builder r2.1 /\ (r1.2 = Ret tt -> r1.1 = r2.1).
Proof.
  revert rb; induction packets as [|p packets IH]; intros rb Hs; cbn zeta.
  - simpl. rewrite feed_drain, append_data_nil, Hs. done.
  - cbn [feed_all concat_packets foldr]. fold (concat_packets packets).
    rewrite !feed_drain, append_data_app.
    destruct (drain_total (append_data p rb)) as (rb1 & o & E & Ho). rewrite E.
    destruct Ho as [->|Ho].
    + specialize (IH _ (drain_settled _ _ E)). cbn zeta in IH.
      by rewrite feed_drain, <- (drain_resume _ _ _ E) in IH.
    + rewrite (drain_fails _ _ _ _ E Ho). by destruct o.
Qed.

(** ** Malformed streams *)

(** The builder refuses the type byte at the front of its buffer, and keeps it. *)
Lemma drain_invalid c rest av e :
  create_builder c = Throw e ->
  drain (mk_reply_builder (String c rest) None av) =
  (mk_reply_builder (String c rest) None av, Throw e).
Proof.
  intros Hc. rewrite drain_eq, build_reply_start. unfold rb_start. simpl. by rewrite Hc.
Qed.

(** The first call of a loop that starts on a type byte. *)
Lemma drain_start c b rest av :
  create_builder c = Ret b ->
  drain (mk_reply_builder (String c rest) None av) =
  match rb_result av (push b rest) with
  | (rb', Ret true) => drain rb'
  | (rb', Ret false) => (rb', Ret tt)
  | (rb', Throw e) => (rb', Throw e)
  | (rb', Undef) => (rb', Undef)
  | (rb', Timeout) => (rb', Timeout)
  end.
Proof.
  intros Hc. rewrite drain_eq, build_reply_start. unfold rb_start.
  cbn [m_buffer m_builder m_available_replies]. by rewrite Hc.
Qed.

Lemma scan_overflow s first neg acc :
  all_digits s = true -> (0 <= acc)%Z -> (acc <= INT64_MAX)%Z ->
  (INT64_MAX < dec_value acc s)%Z ->
  exists nbr, integer_builder.scan first neg acc s = (neg, nbr, Undef).
Proof.
  revert first acc; induction s as [|c s IH]; intros first acc Hd Ha Hm Ho; [simpl in Ho; lia|].
  simpl in *. apply andb_true_iff in Hd as [Hc Hs].
  pose proof (digit_value_bound c Hc).
  destruct (Ascii.eqb_spec c "-"); [by subst|]. rewrite andb_false_r, Hc. simpl.
  destruct (Z.ltb_spec INT64_MAX (acc * 10 + digit_value c)); [eauto|].
  apply IH; [done|lia|lia|done].
Qed.

Lemma integer_push_overflow z rest :
  (INT64_MAX < Z.abs z)%Z ->
  exists ib, integer_builder.push integer_builder.init (to_string z +:+ crlf +:+ rest)
             = (ib, to_string z +:+ crlf +:+ rest, Undef).
Proof.
  intros Hz. unfold integer_builder.push.
  cbn [integer_builder.m_reply_ready integer_builder.init integer_builder.m_nbr
       integer_builder.m_negative_multiplicator integer_builder.m_reply].
  rewrite find_crlf_first by apply to_string_no_crlf. rewrite s_take_app.
  destruct (decide (0 <= z)%Z).
  - destruct (to_string_digits z) as [Hd Hv]; [done|].
    destruct (scan_overflow (to_string z) true 1 0 Hd) as [nbr ->]; unfold INT64_MAX in *; eauto; lia.
  - rewrite to_string_neg by lia. destruct (to_string_digits (- z)) as [Hd Hv]; [lia|].
    cbn [integer_builder.scan]. cbn [andb Z.eqb Pos.eqb Ascii.eqb Bool.eqb].
    destruct (scan_overflow (to_string (- z)) false (-1) 0 Hd) as [nbr ->];
      unfold INT64_MAX in *; eauto; lia.
Qed.

(** A bulk header with a negative size other than -1. *)
Lemma bulk_push_negative n data :
  (INT32_MIN <= n < -1)%Z ->
  exists k, bulk_string_builder.m_reply_ready k = false /\
            bulk_string_builder.push bulk_string_builder.init (to_string n +:+ crlf +:+ data) =
            (k, data, if (slen data <? wrap_u64 (n + 2))%Z then Ret tt else Undef).
Proof.
  intros Hn. unfold bulk_string_builder.push, bulk_string_builder.fetch_size.
  cbn [bulk_string_builder.m_reply_ready bulk_string_builder.init
       bulk_string_builder.m_int_builder].
  destruct (integer_push_line n data) as (ib & H & Hr & Hg & Hm).
  { unfold INT32_MIN, INT64_MAX in *; lia. }
  cbn [integer_builder.m_reply_ready integer_builder.init]. fold integer_builder.init.
  rewrite H. cbn [chain]. rewrite Hr, Hg. cbn [negb].
  rewrite wrap_s32_id by (unfold INT32_MIN, INT32_MAX in *; lia).
  destruct (Z.eqb_spec n (-1)); [lia|]. cbn [chain orb negb bulk_string_builder.m_reply_ready].
  unfold bulk_string_builder.fetch_str. cbn [bulk_string_builder.m_str_size].
  replace (wrap_u64 (wrap_u64 n + 2)) with (wrap_u64 (n + 2)).
  2: { unfold wrap_u64. by rewrite Zplus_mod_idemp_l. }
  eexists. split; [|destruct (slen data <? wrap_u64 (n + 2))%Z; [done|]].
  2: { destruct (Z.ltb_spec INT32_MAX (n + 2)); [unfold INT32_MAX in *; lia|].
       unfold char_at. destruct (Z.ltb_spec n 0); [done|lia]. }
  done.
Qed.

(** ** Invariant of reply_builder *)

Definition rb_wf (rb : reply_builder) : Prop :=
  Forall (fun r => reply_wf r = true) (m_available_replies rb) /\
  match m_builder rb with Some b => builder_wf b = true | None => True end.

Lemma build_reply_wf rb rb' o : build_reply rb = (rb', o) -> rb_wf rb -> rb_wf rb'.
Proof.
  rewrite build_reply_start. unfold rb_start, rb_wf. intros H [Hav Hb].
  destruct (m_buffer rb) as [|c rest]; [by simplify_eq|].
  assert (forall b buf, builder_wf b = true ->
            rb_result (m_available_replies rb) (push b buf) = (rb', o) -> rb_wf rb') as Hp.
  { intros b buf Hwf. destruct (push b buf) as [[b' buf'] o'] eqn:Ep.
    apply push_wf in Ep; [|done]. unfold rb_wf.
    destruct o'; [simpl; destruct (reply_ready b')|..]; intros; simplify_eq/=;
      (split; [|done]); try done.
    apply Forall_app. split; [done|]. constructor; [by apply get_reply_wf|done]. }
  destruct (m_builder rb) as [b|] eqn:Em; [by eapply Hp|].
  destruct (create_builder c) as [b| | |] eqn:Ec; simpl in H;
    [|simplify_eq; by rewrite Em..].
  apply create_builder_wf in Ec. by eapply Hp.
Qed.

Lemma build_replies_wf n rb rb' o : build_replies n rb = (rb', o) -> rb_wf rb -> rb_wf rb'.
Proof.
  revert rb; induction n as [|n IH]; intros rb H Hwf; simpl in H; [by simplify_eq|].
  destruct (build_reply rb) as [rb1 o1] eqn:E. apply build_reply_wf in E; [|done].
  destruct o1 as [[]| | |]; simplify_eq; eauto.
Qed.

Lemma feed_wf data rb rb' o : feed data rb = (rb', o) -> rb_wf rb -> rb_wf rb'.
Proof. unfold feed. intros H Hwf. by eapply build_replies_wf. Qed.

Lemma feed_all_wf packets rb rb' o : feed_all packets rb = (rb', o) -> rb_wf rb -> rb_wf rb'.
Proof.
  revert rb; induction packets as [|p packets IH]; intros rb H Hwf; simpl in H; [by simplify_eq|].
  destruct (feed p rb) as [rb1 o1] eqn:E. apply feed_wf in E; [|done].
  destruct o1; simplify_eq; eauto.
Qed.

(** ** Properties *)

(** C10: A well-formed stream of replies, cut into packets at any places, comes
    out of [reply_builder] as exactly those replies, in order, with an empty
    buffer and no builder in progress. *)
Theorem reply_stream_roundtrip packets vs :
  forallb wire_ok vs = true -> concat_packets packets = encode_all vs ->
  feed_all packets reply_builder_init = (mk_reply_builder "" None (reply_of <$> vs), Ret tt).
Proof. apply feed_all_encode. Qed.

(** C11: Packet boundaries are irrelevant on any stream, malformed ones
    included: the outcome, the replies and the builder in progress are those
    of the whole stream in one packet. *)
Theorem packet_boundaries_irrelevant packets rb :
  settled rb ->
  let r1 := feed_all packets rb in
  let r2 := feed (concat_packets packets) rb in
  r1.2 = r2.2 /\ m_available_replies r1.1 = m_available_replies r2.1 /\
  m_builder r1.1 = m_builder r2.1 /\ (r1.2 = Ret tt -> r1.1 = r2.1).
Proof. apply feed_all_outcome. Qed.

(** A well-formed stream cut short delivers a prefix of its replies and no
    error. *)
Theorem truncated_stream_prefix vs p q :
  forallb wire_ok vs = true -> encode_all vs = p +:+ q ->
  exists rb k, feed p reply_builder_init = (rb, Ret tt) /\
               m_available_replies rb = take k (reply_of <$> vs).
Proof.
  intros Hok He.
  destruct (feed_all_outcome [p; q] reply_builder_init (settled_init [])) as (Hout & Hav & _).
  unfold concat_packets in *. cbn [foldr] in *. rewrite s_app_nil_r, <- He in *.
  unfold reply_builder_init in *. rewrite (feed_encode vs [] Hok) in Hout, Hav.
  cbn [feed_all fst snd m_available_replies app] in *.
  rewrite !feed_drain in *.
  destruct (drain_total (append_data p (mk_reply_builder "" None []))) as (rb & o & E & Ho).
  rewrite E in *. destruct Ho as [->|Ho]; [|by destruct o; simplify_eq/=].
  destruct (feed q rb) as [rb2 o2] eqn:E2. rewrite feed_drain in E2.
  destruct (drain_available _ _ _ E2) as [l Hl]. simpl in Hl.
  exists rb, (length (m_available_replies rb)). split; [done|].
  assert (m_available_replies rb2 = reply_of <$> vs) as <-; [by destruct o2|].
  by rewrite Hl, take_app_length.
Qed.

(** C35: Parsing always ends: the fuel of the loops is enough for every state
    and every packet. *)
Theorem feed_terminates data rb : (feed data rb).2 <> Timeout.
Proof.
  destruct (feed data rb) as [rb' o] eqn:E. eapply build_replies_ends; [|exact E].
  apply rb_measure_bound.
Qed.

(** C36: Every reply the parser makes available is well formed, whatever the
    packets: reading the integer of an integer reply never reads an
    indeterminate value, at any depth, and printing it does not throw. *)
Theorem available_replies_well_formed packets r :
  r ∈ m_available_replies (feed_all packets reply_builder_init).1 ->
  reply_wf r = true /\ (is_integer r = true -> exists z, as_integer r = Ret z) /\
  exists s, print_reply r = Ret s.
Proof.
  destruct (feed_all packets reply_builder_init) as [rb o] eqn:E. simpl. intros Hr.
  apply feed_all_wf in E as [Hav _]; [|by split; [constructor|]].
  rewrite Forall_forall in Hav. specialize (Hav _ Hr).
  split_and!; [done| |by apply print_reply_total].
  unfold as_integer. intros Hi. rewrite Hi. apply bool_decide_eq_true in Hi.
  apply reply_wf_type in Hav as [z ->]; eauto.
Qed.

(** A type byte the factory does not know is never consumed: from then on
    every packet fails the same way and no reply is ever produced. *)
Theorem invalid_type_byte_is_permanent c rest av e packets :
  create_builder c = Throw e -> packets <> [] ->
  let r := feed_all packets (mk_reply_builder (String c rest) None av) in
  r.2 = Throw e /\ m_available_replies r.1 = av.
Proof.
  intros Hc Hp. destruct packets as [|p packets]; [done|]. simpl. rewrite feed_drain.
  unfold append_data. cbn [m_buffer m_builder m_available_replies String.append].
  by rewrite (drain_invalid _ _ _ _ Hc).
Qed.

(** An integer reply outside the symmetric 63-bit range makes the parser
    overflow a signed integer, and this includes the smallest 64-bit integer,
    which fits in the field it is stored in. *)
Theorem integer_reply_overflow z rest av :
  (INT64_MAX < Z.abs z)%Z ->
  (feed (encode (VInt z) +:+ rest) (mk_reply_builder "" None av)).2 = Undef.
Proof.
  intros Hz. rewrite feed_drain. unfold append_data, encode, line.
  cbn [m_buffer m_builder m_available_replies String.append]. rewrite s_app_assoc.
  erewrite drain_start by done. rewrite push_integer_eq.
  destruct (integer_push_overflow z rest Hz) as [ib ->]. done.
Qed.

(** A bulk string announced with size -2 indexes outside the receive
    buffer whatever follows, and one announced with a smaller size never
    completes: no error, and no reply, for any amount of data in memory. *)
Theorem bulk_string_negative_size n data av :
  (INT32_MIN <= n < -1)%Z -> (slen data < 2 ^ 64 + INT32_MIN)%Z ->
  let r := feed (line "$" (to_string n) +:+ data) (mk_reply_builder "" None av) in
  m_available_replies r.1 = av /\
  r.2 = if (n =? -2)%Z then Undef else Ret tt.
Proof.
  intros Hn Hd. rewrite feed_drain. unfold append_data, line.
  cbn [m_buffer m_builder m_available_replies String.append]. rewrite s_app_assoc.
  erewrite drain_start by done. rewrite push_bulk_eq.
  destruct (bulk_push_negative n data Hn) as (k & Hk & ->).
  destruct (Z.eqb_spec n (-2)) as [->|Hne].
  - change (wrap_u64 (-2 + 2)) with 0%Z. destruct (Z.ltb_spec (slen data) 0); [lia|]. done.
  - assert (wrap_u64 (n + 2) = 2 ^ 64 + n + 2)%Z as ->.
    { unfold wrap_u64, INT32_MIN in *. symmetry. apply Z.mod_unique with (q := (-1)%Z); lia. }
    destruct (Z.ltb_spec (slen data) (2 ^ 64 + n + 2)); [|lia].
    unfold rb_result, reply_ready. by rewrite Hk.
Qed.

(** ** Witnesses *)

(** The replies to [EVAL], [SELECT] and a failed command, in three packets
    that cut a size, a line ending and a nested array. *)
Definition sample_replies : list rvalue :=
  [VArray [VBulk "lock"; VArray [VInt (-12); VNull]]; VSimple "OK"; VError "ERR no"].

Definition sample_packets : list string :=
  [s_take 2 (encode_all sample_replies); s_take 17 (s_drop 2 (encode_all sample_replies));
   s_drop 19 (encode_all sample_replies)].

Lemma reply_stream_roundtrip_witness :
  feed_all sample_packets reply_builder_init =
  (mk_reply_builder "" None (reply_of <$> sample_replies), Ret tt).
Proof. apply reply_stream_roundtrip; vm_compute; reflexivity. Defined.

Lemma packet_boundaries_irrelevant_witness :
  let r1 := feed_all ["+O"; "K" +:+ crlf +:+ "?x"] reply_builder_init in
  let r2 := feed (concat_packets ["+O"; "K" +:+ crlf +:+ "?x"]) reply_builder_init in
  r1.2 = r2.2 /\ m_available_replies r1.1 = m_available_replies r2.1 /\
  m_builder r1.1 = m_builder r2.1 /\ (r1.2 = Ret tt -> r1.1 = r2.1).
Proof. apply packet_boundaries_irrelevant. reflexivity. Defined.

Lemma truncated_stream_prefix_witness :
  exists rb k,
    feed (s_take 25 (encode_all sample_replies)) reply_builder_init = (rb, Ret tt) /\
    m_available_replies rb = take k (reply_of <$> sample_replies).
Proof.
  apply (truncated_stream_prefix sample_replies _ (s_drop 25 (encode_all sample_replies)));
    vm_compute; reflexivity.
Defined.

Lemma available_replies_well_formed_witness :
  let r := reply_of (VArray [VBulk "lock"; VArray [VInt (-12); VNull]]) in
  reply_wf r = true /\ (is_integer r = true -> exists z, as_integer r = Ret z) /\
  exists s, print_reply r = Ret s.
Proof.
  apply (available_replies_well_formed sample_packets).
  assert (m_available_replies (feed_all sample_packets reply_builder_init).1 =
          reply_of <$> sample_replies) as -> by (vm_compute; reflexivity).
  apply list_elem_of_here.
Defined.

Lemma invalid_type_byte_is_permanent_witness :
  let r := feed_all ["+OK" +:+ crlf; ":1" +:+ crlf]
             (mk_reply_builder "?x" None [reply_of (VInt 7)]) in
  r.2 = Throw (redis_error "Invalid data") /\ m_available_replies r.1 = [reply_of (VInt 7)].
Proof.
  apply (invalid_type_byte_is_permanent "?" "x" [reply_of (VInt 7)]); [reflexivity|discriminate].
Defined.

Lemma integer_reply_overflow_witness :
  (feed (encode (VInt INT64_MIN) +:+ "") (mk_reply_builder "" None [])).2 = Undef.
Proof. apply (integer_reply_overflow INT64_MIN "" []). vm_compute. reflexivity. Defined.

Lemma bulk_string_negative_size_witness :
  let r := feed (line "$" (to_string (-2)) +:+ "+OK") (mk_reply_builder "" None []) in
  m_available_replies r.1 = [] /\ r.2 = if (-2 =? -2)%Z then Undef else Ret tt.
Proof. apply (bulk_string_negative_size (-2) "+OK" []); vm_compute; intuition discriminate. Defined.
