(* ===== verification/Logger.v ===== *)
(** The loggers of both libraries (cpp_redis/sources/misc/logger.cpp,
    tacopie/sources/utils/logger.cpp), which differ in the name they print, and the
    error type of tacopie (tacopie/sources/utils/error.cpp).

    The console is what has been written to the two streams.  The logger in use is a
    pointer: the functions of an interface, or none. *)

From S2P Require Import Prelude Text.

Inductive log_level : Type := error | warn | info | debug.

(** The values of the enumeration *)
Definition level_value (l : log_level) : Z := match l with error => 0 | warn => 1 | info => 2 | debug => 3 end.

Record console : Type := mk_console { cout : string; cerr : string }.

Definition esc (code : string) : string := String (Ascii.ascii_of_nat 27) ("[" +:+ code +:+ "m").
Definition black : string := esc "1;30".
Definition red : string := esc "1;31".
Definition yellow : string := esc "1;33".
Definition blue : string := esc "1;34".
Definition normal : string := esc "0;39".

Definition endl : string := String (Ascii.ascii_of_nat 10) "".

(** [logger_iface]: a virtual function for each level. *)
Record logger_iface : Type := mk_iface {
  log_at : log_level -> string -> string -> Z -> console -> console }.

(** ** The default logger *)

Section logger.
(** The name a library prints *)
Context (library : string).

Definition prefix (level : log_level) : string :=
  match level with
  | debug => "[" +:+ black +:+ "DEBUG" +:+ normal
  | info => "[" +:+ blue +:+ "INFO " +:+ normal
  | warn => "[" +:+ yellow +:+ "WARN " +:+ normal
  | error => "[" +:+ red +:+ "ERROR" +:+ normal
  end.

Definition line_of (level : log_level) (msg file : string) (line : Z) : string :=
  prefix level +:+ "][" +:+ library +:+ "][" +:+ file +:+ ":" +:+ to_string line +:+ "] " +:+ msg +:+ endl.

(** [logger::debug], [info] and [warn] write to [std::cout], [error] to [std::cerr]. *)
Definition logger_log (m_level level : log_level) (msg file : string) (line : Z) (c : console) : console :=
  if (level_value level <=? level_value m_level)%Z then
    match level with
    | error => mk_console (cout c) (cerr c +:+ line_of level msg file line)
    | _ => mk_console (cout c +:+ line_of level msg file line) (cerr c)
    end
  else c.

(** The constructor, and its default *)
Definition logger (level : log_level) : logger_iface := mk_iface (logger_log level).
Definition default_logger : logger_iface := logger info.

(** ** The logger in use *)

(** The functions [debug], [info], [warn] and [error] of the namespace *)
Definition log (active_logger : option logger_iface) (level : log_level) (msg file : string) (line : Z) (c : console) : console :=
  match active_logger with Some l => log_at l level msg file line c | None => c end.

(** The macros [__CPP_REDIS_LOG] and [__TACOPIE_LOG] *)
Definition LOG (logging_enabled : bool) (active_logger : option logger_iface) (level : log_level) (msg file : string) (line : Z)
    (c : console) : console :=
  if logging_enabled then log active_logger level msg file line c else c.

(** ** tacopie_error *)

Record tacopie_error : Type := mk_error { what : string; m_file : string; m_line : Z }.

Definition get_file (e : tacopie_error) : string := m_file e.
Definition get_line (e : tacopie_error) : Z := m_line e.

(** [__TACOPIE_THROW], at a place of the source *)
Definition THROW (logging_enabled : bool) (active_logger : option logger_iface) (level : log_level) (msg file : string) (line : Z)
    (c : console) : tacopie_error * console :=
  (mk_error msg file line, LOG logging_enabled active_logger level msg file line c).

(** ** Properties *)

(** A message is printed once, as a line of its stream, when its level is at least as
    severe as the logger's, and not at all otherwise; errors always are. *)
Theorem log_prints m_level level msg file line c :
  let c' := log (Some (logger m_level)) level msg file line c in
  (if decide (level_value level <= level_value m_level)%Z then
     match level with
     | error => cout c' = cout c /\ cerr c' = cerr c +:+ line_of error msg file line
     | l => cout c' = cout c +:+ line_of l msg file line /\ cerr c' = cerr c
     end
   else c' = c) /\
  (level = error -> cerr c' = cerr c +:+ line_of error msg file line).
Proof.
  cbn. unfold logger_log. case_decide as Hl.
  - rewrite (proj2 (Z.leb_le _ _) Hl). destruct level; (split; [done|]); by intros [=].
  - rewrite (proj2 (Z.leb_gt _ _)) by lia. split; [done|]. intros ->. destruct m_level; cbn in Hl; lia.
Qed.

(** A logger that is more verbose prints all that another prints. *)
Theorem verbose_prints_more l1 l2 level msg file line c :
  (level_value l1 <= level_value l2)%Z -> logger_log l1 level msg file line c <> c ->
  logger_log l2 level msg file line c = logger_log l1 level msg file line c.
Proof.
  unfold logger_log. intros Hle Hne. destruct (level_value level <=? level_value l1)%Z eqn:E; [|done].
  apply Z.leb_le in E. by rewrite (proj2 (Z.leb_le _ _)) by lia.
Qed.

(** What a throw of tacopie carries does not depend on the logging. *)
Theorem throw_carries_place enabled active level msg file line c :
  let '(e, c') := THROW enabled active level msg file line c in
  what e = msg /\ get_file e = file /\ get_line e = line /\ (enabled = false \/ active = None -> c' = c).
Proof. cbn. split_and!; try done. unfold LOG. by intros [-> | ->]; [|destruct enabled]. Qed.
End logger.

(** A warning of tacopie, with the default logger. *)
Lemma verbose_prints_more_witness :
  cout (logger_log "tacopie" info warn "write operation failure" "tcp_client.cpp" 181 (mk_console "" "")) =
    "[" +:+ yellow +:+ "WARN " +:+ normal +:+ "][tacopie][tcp_client.cpp:181] write operation failure" +:+ endl /\
  logger_log "tacopie" debug warn "write operation failure" "tcp_client.cpp" 181 (mk_console "" "") =
    logger_log "tacopie" info warn "write operation failure" "tcp_client.cpp" 181 (mk_console "" "").
Proof. split; [vm_compute; reflexivity|]. apply verbose_prints_more; [done|vm_compute; discriminate]. Defined.
