(* ===== verification/ThreadPool.v ===== *)
(** [tacopie::utils::thread_pool] (tacopie/sources/utils/thread_pool.cpp): a queue
    of tasks and the threads that run them, as a step relation.

    A step is a test or a critical section of a worker, the end of its task, an
    operation of a caller, or a wake-up without a notification, which condition
    variables allow.  A worker that has found nothing to do still owns the mutex
    until it sleeps: [Checked].  [stop] and [set_nb_threads] take no mutex, and are
    several steps. *)

From S2P Require Import Prelude.

Section thread_pool.
Context {task : Type}.

(** Where a worker is in [run] and [fetch_task]. *)
Inductive pool_worker : Type :=
| AtTest              (* at the test of the loop *)
| AtFetch             (* before the mutex of fetch_task, or woken up *)
| Checked             (* the predicate is false: about to sleep, the mutex held *)
| Asleep              (* in m_tasks_condvar.wait *)
| Running (t : task)  (* in the task *)
| Stopped.            (* run has returned *)

(** [m_workers] is the vector of threads, with those that have returned. *)
Record thread_pool : Type := mk_pool {
  m_workers : list pool_worker;
  m_nb_threads : nat;
  m_should_stop : bool;
  m_tasks : list task }.

Definition pool_init (nb_threads : nat) : thread_pool :=
  mk_pool (repeat AtTest nb_threads) nb_threads false [].

Definition set_workers (ws : list pool_worker) (s : thread_pool) : thread_pool :=
  mk_pool ws (m_nb_threads s) (m_should_stop s) (m_tasks s).

Definition set_tasks (ts : list task) (s : thread_pool) : thread_pool :=
  mk_pool (m_workers s) (m_nb_threads s) (m_should_stop s) ts.

Definition set_worker (i : nat) (w : pool_worker) (s : thread_pool) : thread_pool :=
  set_workers (<[i := w]> (m_workers s)) s.

Definition is_running (s : thread_pool) : bool := negb (m_should_stop s).

Definition should_stop (s : thread_pool) : bool := m_should_stop s || (m_nb_threads s <? length (m_workers s)).

(** [m_tasks_mtx] is free. *)
Definition mutex_free (s : thread_pool) : bool :=
  forallb (fun w => match w with Checked => false | _ => true end) (m_workers s).

(** [m_tasks_condvar.notify_all()] *)
Definition wake (w : pool_worker) : pool_worker := match w with Asleep => AtFetch | _ => w end.
Definition notify_all (s : thread_pool) : thread_pool := set_workers (wake <$> m_workers s) s.

(** ** The worker *)

(** The critical section of [fetch_task] up to the sleep or the return, which
    gives no task when the pool stops. *)
Definition fetch_task (i : nat) (s : thread_pool) : option thread_pool :=
  if mutex_free s then
    Some (if should_stop s then set_worker i AtTest s
          else match m_tasks s with
               | [] => set_worker i Checked s
               | t :: ts => set_worker i (Running t) (set_tasks ts s)
               end)
  else None.

(** The next step of worker [i] outside of a task. *)
Definition run_step (i : nat) (s : thread_pool) : option thread_pool :=
  match m_workers s !! i with
  | Some AtTest => Some (set_worker i (if should_stop s then Stopped else AtFetch) s)
  | Some AtFetch => fetch_task i s
  | Some Checked => Some (set_worker i Asleep s)
  | _ => None
  end.

(** Its task returns, or throws a [std::exception], which is caught. *)
Definition task_returns (i : nat) (s : thread_pool) : option thread_pool :=
  match m_workers s !! i with
  | Some (Running _) => Some (set_worker i AtTest s)
  | _ => None
  end.

Definition wake_up (i : nat) (s : thread_pool) : option thread_pool :=
  match m_workers s !! i with
  | Some Asleep => Some (set_worker i AtFetch s)
  | _ => None
  end.

(** ** The callers *)

Definition add_task (t : task) (s : thread_pool) : option thread_pool :=
  if mutex_free s then Some (notify_all (set_tasks (m_tasks s ++ [t]) s)) else None.

(** [stop], which returns at once when the pool is stopped: the flag, the
    notification, and the joins with [m_workers.clear()]. *)
Definition stop_flag (s : thread_pool) : option thread_pool :=
  if is_running s then Some (mk_pool (m_workers s) (m_nb_threads s) true (m_tasks s)) else None.

Definition stop_join (s : thread_pool) : option thread_pool :=
  if m_should_stop s && forallb (fun w => match w with Stopped => true | _ => false end) (m_workers s)
  then Some (set_workers [] s) else None.

(** [set_nb_threads]: the number, then the threads. *)
Definition set_nb (nb_threads : nat) (s : thread_pool) : thread_pool :=
  mk_pool (m_workers s) nb_threads (m_should_stop s) (m_tasks s).

Definition adjust (s : thread_pool) : thread_pool :=
  if length (m_workers s) <? m_nb_threads s
  then set_workers (m_workers s ++ repeat AtTest (m_nb_threads s - length (m_workers s))) s
  else notify_all s.

(** ** Runs *)

Inductive pool_label : Type :=
| PWork (i : nat)
| PReturn (i : nat)
| PSpurious (i : nat)
| PAdd (t : task)
| PStop
| PNotify
| PJoin
| PSetNb (n : nat)
| PAdjust.

Definition pool_step (l : pool_label) (s : thread_pool) : option thread_pool :=
  match l with
  | PWork i => run_step i s
  | PReturn i => task_returns i s
  | PSpurious i => wake_up i s
  | PAdd t => add_task t s
  | PStop => stop_flag s
  | PNotify => Some (notify_all s)
  | PJoin => stop_join s
  | PSetNb n => Some (set_nb n s)
  | PAdjust => Some (adjust s)
  end.

Fixpoint pool_run (ls : list pool_label) (s : thread_pool) : option thread_pool :=
  match ls with
  | [] => Some s
  | l :: ls => s' ← pool_step l s; pool_run ls s'
  end.

(** ** Observations *)

Definition added (l : pool_label) : list task := match l with PAdd t => [t] | _ => [] end.

(** The task a step starts. *)
Definition started (l : pool_label) (s : thread_pool) : list task :=
  match l, pool_step l s with
  | PWork i, Some s' => match m_workers s' !! i with Some (Running t) => [t] | _ => [] end
  | _, _ => []
  end.

Fixpoint started_all (ls : list pool_label) (s : thread_pool) : list task :=
  match ls with
  | [] => []
  | l :: ls => started l s ++ match pool_step l s with Some s' => started_all ls s' | None => [] end
  end.

(** Asleep, or about to be. *)
Definition sleepy (w : pool_worker) : bool := match w with Checked | Asleep => true | _ => false end.

(** ** Lemmas *)

#[local] Arguments set_worker _ _ !_ /.

Lemma Forall_wake (P : pool_worker -> Prop) ws : P AtFetch -> Forall P ws -> Forall P (wake <$> ws).
Proof. intros HP H. apply Forall_fmap. eapply Forall_impl; [exact H|]. by intros []. Qed.

(** A worker sleeps only when there is nothing to do. *)
Definition sleep_ok (s : thread_pool) : Prop := Exists (fun w => sleepy w = true) (m_workers s) -> m_tasks s = [].

Lemma mutex_free_spec s : mutex_free s = true <-> Checked ∉ m_workers s.
Proof.
  unfold mutex_free. rewrite forallb_forall. setoid_rewrite <- list_elem_of_In. split.
  - intros H Hin. by specialize (H _ Hin).
  - intros H w Hw. by destruct w.
Qed.

Lemma exists_insert (i : nat) w ws :
  Exists (fun w => sleepy w = true) (<[i := w]> ws) -> sleepy w = true \/ Exists (fun w => sleepy w = true) ws.
Proof.
  rewrite !Exists_exists. intros (x & Hx & Hs). apply list_elem_of_lookup in Hx as [j Hj].
  destruct (decide (i = j)) as [->|Hne].
  - destruct (decide (j < length ws)) as [Hlt|Hge].
    + rewrite list_lookup_insert_eq in Hj by done. simplify_eq. by left.
    + rewrite list_insert_ge in Hj by lia. right. exists x. split; [by eapply list_elem_of_lookup_2|done].
  - rewrite list_lookup_insert_ne in Hj by done. right. exists x. split; [by eapply list_elem_of_lookup_2|done].
Qed.

Lemma wake_sleepy ws : Checked ∉ ws -> ~ Exists (fun w => sleepy w = true) (wake <$> ws).
Proof.
  rewrite Exists_exists. intros Hc (w & Hw & Hs). apply list_elem_of_fmap in Hw as (w' & -> & Hw'). by destruct w'.
Qed.

Lemma exists_wake ws : Exists (fun w => sleepy w = true) (wake <$> ws) -> Exists (fun w => sleepy w = true) ws.
Proof.
  rewrite !Exists_exists. intros (w & Hw & Hs). apply list_elem_of_fmap in Hw as (w' & -> & Hw').
  exists w'. by destruct w'.
Qed.

Lemma step_sleep_ok l s s' : sleep_ok s -> pool_step l s = Some s' -> sleep_ok s'.
Proof.
  unfold sleep_ok. intros Hok. destruct l as [i|i|i|t| | | |n|]; cbn [pool_step].
  - unfold run_step. destruct (m_workers s !! i) as [w|] eqn:Hi; [|done].
    assert (sleepy w = true -> m_tasks s = []) as Hw.
    { intros Hw. apply Hok, Exists_exists. exists w. split; [by eapply list_elem_of_lookup_2|done]. }
    destruct w; intros Hs; simplify_eq/=.
    + by intros [Hs|Hs]%exists_insert; [destruct (should_stop s)|apply Hok].
    + unfold fetch_task in Hs. destruct (mutex_free s); [|done]. destruct (should_stop s); simplify_eq/=;
        [by intros [Hs|Hs]%exists_insert; [|apply Hok]|].
      destruct (m_tasks s) as [|t ts] eqn:Et; simplify_eq/=; [done|].
      intros [Hs|Hs]%exists_insert; [done|]. by specialize (Hok Hs).
    + by intros _; apply Hw.
  - unfold task_returns. destruct (m_workers s !! i) as [[]|]; intros Hs; simplify_eq/=.
    by intros [Hs|Hs]%exists_insert; [|apply Hok].
  - unfold wake_up. destruct (m_workers s !! i) as [[]|]; intros Hs; simplify_eq/=.
    by intros [Hs|Hs]%exists_insert; [|apply Hok].
  - unfold add_task. destruct (mutex_free s) eqn:Hm; intros Hs; simplify_eq/=.
    apply mutex_free_spec in Hm. by intros Hs%wake_sleepy.
  - unfold stop_flag. destruct (is_running s); intros Hs; by simplify_eq/=.
  - intros Hs; simplify_eq/=. intros Hs. by apply Hok, exists_wake.
  - unfold stop_join. destruct (_ && _); intros Hs; simplify_eq/=. by rewrite Exists_nil.
  - intros Hs; by simplify_eq/=.
  - intros Hs; simplify_eq/=. unfold adjust. destruct (_ <? _); cbn [set_workers m_workers m_tasks notify_all].
    + intros [Hs|Hs]%Exists_app; [by apply Hok|]. apply Exists_exists in Hs as (w & Hw & Hs).
      apply list_elem_of_In, repeat_spec in Hw. by subst.
    + intros Hs. by apply Hok, exists_wake.
Qed.

Lemma set_worker_same i w s : i < length (m_workers s) -> m_workers (set_worker i w s) !! i = Some w.
Proof. intros Hi. by apply list_lookup_insert_eq. Qed.

Lemma step_tasks l s s' : pool_step l s = Some s' -> started l s ++ m_tasks s' = m_tasks s ++ added l.
Proof.
  intros Hs. destruct l as [i|i|i|t| | | |n|]; unfold started; rewrite ?Hs; cbn [pool_step] in Hs.
  - unfold run_step in Hs. destruct (m_workers s !! i) as [w|] eqn:Hi; [|done]. apply lookup_lt_Some in Hi.
    rewrite app_nil_r. destruct w; simplify_eq; [by rewrite set_worker_same; [destruct (should_stop s)|]| |by rewrite set_worker_same].
    unfold fetch_task in Hs. destruct (mutex_free s); [|done].
    destruct (should_stop s); simplify_eq; [by rewrite set_worker_same|].
    by destruct (m_tasks s) as [|t ts] eqn:Et; simplify_eq; rewrite set_worker_same.
  - unfold task_returns in Hs. destruct (m_workers s !! i) as [[]|]; by simplify_eq; rewrite app_nil_r.
  - unfold wake_up in Hs. destruct (m_workers s !! i) as [[]|]; by simplify_eq; rewrite app_nil_r.
  - unfold add_task in Hs. by destruct (mutex_free s); simplify_eq.
  - unfold stop_flag in Hs. by destruct (is_running s); simplify_eq; rewrite app_nil_r.
  - simplify_eq. by rewrite app_nil_r.
  - unfold stop_join in Hs. by destruct (_ && _); simplify_eq; rewrite app_nil_r.
  - simplify_eq. by rewrite app_nil_r.
  - simplify_eq. unfold adjust. by destruct (_ <? _); rewrite app_nil_r.
Qed.

Lemma run_tasks ls s s' :
  pool_run ls s = Some s' -> started_all ls s ++ m_tasks s' = m_tasks s ++ concat (added <$> ls).
Proof.
  revert s. induction ls as [|l ls IH]; intros s Hrun; cbn [pool_run] in Hrun; [simplify_eq; by rewrite app_nil_r|].
  cbn [started_all fmap list_fmap concat]. destruct (pool_step l s) as [s1|] eqn:E; [|done].
  rewrite <- app_assoc, (IH s1 Hrun), !app_assoc. f_equal. by apply step_tasks.
Qed.

(** A property of the states of a run, by rule induction. *)
Lemma run_invariant (P : thread_pool -> Prop) (allowed : pool_label -> Prop) ls s s' :
  (forall l s s', allowed l -> P s -> pool_step l s = Some s' -> P s') ->
  Forall allowed ls -> P s -> pool_run ls s = Some s' -> P s'.
Proof.
  intros Hstep Hall. revert s. induction Hall as [|l ls Hl _ IH]; intros s HP Hrun; cbn [pool_run] in Hrun; [by simplify_eq|].
  destruct (pool_step l s) as [s1|] eqn:E; [|done]. by eapply IH, Hrun; eapply Hstep.
Qed.

Lemma reachable_sleep_ok n ls s : pool_run ls (pool_init n) = Some s -> sleep_ok s.
Proof.
  apply (run_invariant sleep_ok (fun _ => True)); [|by apply Forall_true|done].
  intros l s1 s2 _. apply step_sleep_ok.
Qed.

(** A worker at the mutex takes the next task. *)
Lemma fetch_takes i t ts s :
  m_workers s !! i = Some AtFetch -> Checked ∉ m_workers s -> should_stop s = false -> m_tasks s = t :: ts ->
  exists s', run_step i s = Some s' /\ m_workers s' !! i = Some (Running t) /\ m_tasks s' = ts.
Proof.
  intros Hi Hfree Hstop Ht. unfold run_step, fetch_task. rewrite Hi, (proj2 (mutex_free_spec s) Hfree), Hstop, Ht.
  eexists. split; [done|]. split; [|done]. by eapply set_worker_same, lookup_lt_Some.
Qed.

Lemma test_passes i s :
  m_workers s !! i = Some AtTest -> should_stop s = false -> run_step i s = Some (set_worker i AtFetch s).
Proof. intros Hi Hstop. unfold run_step. by rewrite Hi, Hstop. Qed.

Lemma set_worker_stop i w s : should_stop (set_worker i w s) = should_stop s.
Proof. unfold should_stop, set_worker. cbn [m_workers set_workers m_should_stop m_nb_threads]. by rewrite length_insert. Qed.

(** *** A pool with more threads than wanted *)

Definition overfull (s : thread_pool) : Prop := m_nb_threads s < length (m_workers s).

Lemma overfull_stops s : overfull s -> should_stop s = true.
Proof. intros Ho. unfold should_stop. by rewrite (proj2 (Nat.ltb_lt _ _)), orb_true_r. Qed.

(** What keeps at most [k] wanted threads, and the vector of threads. *)
Definition wants_at_most (k : nat) (l : pool_label) : Prop :=
  match l with PSetNb n => n <= k | PJoin => False | _ => True end.

Lemma step_length l s s' k :
  wants_at_most k l -> k <= length (m_workers s) -> m_nb_threads s <= k -> pool_step l s = Some s' ->
  length (m_workers s') = length (m_workers s) /\ m_nb_threads s' <= k.
Proof.
  intros Hl Hk Hn Hs. destruct l as [i|i|i|t| | | |n|]; cbn [pool_step wants_at_most] in *.
  - unfold run_step, fetch_task in Hs. repeat case_match; simplify_eq/=; by rewrite ?length_insert.
  - unfold task_returns in Hs. repeat case_match; simplify_eq/=; by rewrite ?length_insert.
  - unfold wake_up in Hs. repeat case_match; simplify_eq/=; by rewrite ?length_insert.
  - unfold add_task in Hs. case_match; simplify_eq/=. by rewrite length_fmap.
  - unfold stop_flag in Hs. case_match; by simplify_eq/=.
  - simplify_eq/=. by rewrite length_fmap.
  - done.
  - by simplify_eq/=.
  - simplify_eq/=. unfold adjust. rewrite (proj2 (Nat.ltb_ge _ _)) by lia. cbn. by rewrite length_fmap.
Qed.

Lemma stopping_starts_nothing l s : should_stop s = true -> started l s = [].
Proof.
  intros Hs. destruct l as [i| | | | | | | |]; try done. unfold started. cbn [pool_step]. unfold run_step.
  destruct (m_workers s !! i) as [w|] eqn:Hi; [|done]. apply lookup_lt_Some in Hi.
  destruct w; try done; [rewrite Hs; by rewrite set_worker_same| |by rewrite set_worker_same].
  unfold fetch_task. destruct (mutex_free s); [|done]. rewrite Hs. by rewrite set_worker_same.
Qed.

Lemma stopped_starts_nothing l s : Forall (eq Stopped) (m_workers s) -> started l s = [].
Proof.
  intros Hs. destruct l as [i| | | | | | | |]; try done. unfold started. cbn [pool_step]. unfold run_step.
  destruct (m_workers s !! i) as [w|] eqn:Hi; [|done]. rewrite Forall_lookup in Hs. by rewrite <- (Hs _ _ Hi).
Qed.

Lemma stopped_step l s s' :
  wants_at_most (length (m_workers s)) l -> m_nb_threads s <= length (m_workers s) ->
  Forall (eq Stopped) (m_workers s) -> pool_step l s = Some s' -> Forall (eq Stopped) (m_workers s').
Proof.
  intros Hl Hn Hst Hs. assert (forall i w, m_workers s !! i = Some w -> w = Stopped) as Hw.
  { rewrite Forall_lookup in Hst. intros i w Hi. symmetry. by eapply Hst. }
  destruct l as [i|i|i|t| | | |n|]; cbn [pool_step wants_at_most] in *.
  - unfold run_step in Hs. destruct (m_workers s !! i) as [w|] eqn:Hi; [|done]. by rewrite (Hw _ _ Hi) in Hs.
  - unfold task_returns in Hs. destruct (m_workers s !! i) as [w|] eqn:Hi; [|done]. by rewrite (Hw _ _ Hi) in Hs.
  - unfold wake_up in Hs. destruct (m_workers s !! i) as [w|] eqn:Hi; [|done]. by rewrite (Hw _ _ Hi) in Hs.
  - unfold add_task in Hs. case_match; simplify_eq/=. apply Forall_fmap. eapply Forall_impl; [exact Hst|]. by intros ? <-.
  - unfold stop_flag in Hs. case_match; by simplify_eq/=.
  - simplify_eq/=. apply Forall_fmap. eapply Forall_impl; [exact Hst|]. by intros ? <-.
  - done.
  - by simplify_eq/=.
  - simplify_eq/=. unfold adjust. rewrite (proj2 (Nat.ltb_ge _ _)) by lia. cbn. apply Forall_fmap.
    eapply Forall_impl; [exact Hst|]. by intros ? <-.
Qed.

(** *** A worker that sleeps *)

(** Steps that wake nobody up *)
Definition wakes_nobody (l : pool_label) : Prop :=
  match l with PSpurious _ | PNotify | PAdjust | PAdd _ => False | _ => True end.

Lemma asleep_step i l s s' :
  wakes_nobody l -> m_workers s !! i = Some Asleep -> pool_step l s = Some s' -> m_workers s' !! i = Some Asleep.
Proof.
  intros Hl Hi Hs. assert (forall j w w', m_workers s !! j = Some w -> w <> Asleep ->
    <[j := w']> (m_workers s) !! i = Some Asleep) as Hother.
  { intros j w w' Hj Hne. rewrite list_lookup_insert_ne; [done|]. intros ->. congruence. }
  destruct l as [j|j|j|t| | | |n|]; try done; cbn [pool_step] in Hs.
  - unfold run_step, fetch_task in Hs. repeat case_match; simplify_eq/=; by eapply Hother.
  - unfold task_returns in Hs. repeat case_match; simplify_eq/=; by eapply Hother.
  - unfold stop_flag in Hs. case_match; by simplify_eq/=.
  - unfold stop_join in Hs. case_match eqn:E; [|done]. apply andb_true_iff in E as [_ E]. rewrite forallb_forall in E.
    by apply list_elem_of_lookup_2, list_elem_of_In, E in Hi.
  - by simplify_eq/=.
Qed.

Lemma asleep_no_join i s : m_workers s !! i = Some Asleep -> stop_join s = None.
Proof.
  intros Hi. unfold stop_join. destruct (_ && _) eqn:E; [|done]. apply andb_true_iff in E as [_ E].
  rewrite forallb_forall in E. by apply list_elem_of_lookup_2, list_elem_of_In, E in Hi.
Qed.
End thread_pool.
Arguments pool_worker : clear implicits.
Arguments thread_pool : clear implicits.
Arguments pool_label : clear implicits.

(** ** Properties *)

(** C16: The queue of a pool is first in, first out, and no task waits for a
    sleeping worker: in every run the tasks started, in order, and then those
    queued are the tasks added, in order; while the pool is not stopping, the next
    task is started by any worker that is in no task and has not returned, in at
    most two of its own steps. *)
Theorem tasks_in_order {task} n ls (s : thread_pool task) :
  pool_run ls (pool_init n) = Some s ->
  started_all ls (pool_init n) ++ m_tasks s = concat (added <$> ls) /\
  forall t ts i w, should_stop s = false -> m_tasks s = t :: ts -> m_workers s !! i = Some w ->
    (exists t', w = Running t') \/ w = Stopped \/
    exists s', pool_run (match w with AtTest => [PWork i; PWork i] | _ => [PWork i] end) s = Some s' /\
      m_workers s' !! i = Some (Running t) /\ m_tasks s' = ts.
Proof.
  intros Hrun. split; [by apply run_tasks in Hrun|]. intros t ts i w Hstop Ht Hi.
  pose proof (reachable_sleep_ok _ _ _ Hrun) as Hok. unfold sleep_ok in Hok. rewrite Ht in Hok.
  assert (forall j w', m_workers s !! j = Some w' -> sleepy w' = false) as Hawake.
  { intros j w' Hj. destruct (sleepy w') eqn:E; [|done]. discriminate Hok.
    apply Exists_exists. exists w'. split; [by eapply list_elem_of_lookup_2|done]. }
  assert (Checked ∉ m_workers s) as Hfree.
  { intros [j Hj]%list_elem_of_lookup. by specialize (Hawake _ _ Hj). }
  specialize (Hawake _ _ Hi) as Hw. pose proof (lookup_lt_Some _ _ _ Hi) as Hlt.
  destruct w as [| | | |t'|]; try done; [right; right|right; right|left; by exists t'|right; by left].
  - destruct (fetch_takes i t ts (set_worker i AtFetch s)) as (s' & E & Hs'); [by apply set_worker_same| |by rewrite set_worker_stop|done|].
    { intros [j Hj]%list_elem_of_lookup. apply list_lookup_insert_Some in Hj as [(_ & ? & _)|[_ Hj]]; [done|].
      by apply list_elem_of_lookup_2, Hfree in Hj. }
    exists s'. split; [|done]. cbn [pool_run pool_step]. rewrite test_passes by done. cbn [mbind option_bind]. by rewrite E.
  - destruct (fetch_takes i t ts s) as (s' & E & Hs'); [done..|].
    exists s'. split; [|done]. cbn [pool_run pool_step]. by rewrite E.
Qed.

(** A pool told to have fewer threads loses them all: as long as fewer threads
    are wanted than the pool ever had, no task is started, whatever is added; and
    once they have returned, nothing is ever started again, even when as many as
    before are wanted. *)
Theorem smaller_pool_dies {task} ls (s s' : thread_pool task) :
  overfull s -> Forall (wants_at_most (length (m_workers s) - 1)) ls -> pool_run ls s = Some s' ->
  started_all ls s = [] /\ m_tasks s' = m_tasks s ++ concat (added <$> ls) /\
  (Forall (eq Stopped) (m_workers s') -> forall ls2 s2, Forall (wants_at_most (length (m_workers s))) ls2 ->
     pool_run ls2 s' = Some s2 -> started_all ls2 s' = [] /\ Forall (eq Stopped) (m_workers s2)).
Proof.
  intros Ho Hall Hrun. assert (started_all ls s = [] /\ length (m_workers s') = length (m_workers s) /\ overfull s') as (Hn & Hl & Ho').
  { remember (length (m_workers s)) as k eqn:Hk. revert s Hk Ho Hrun. induction Hall as [|l ls Hl _ IH]; intros s -> Ho Hrun;
      cbn [pool_run] in Hrun; [by simplify_eq|]. unfold overfull in *.
    destruct (pool_step l s) as [s1|] eqn:E; [|done].
    destruct (step_length l s s1 _ Hl ltac:(lia) ltac:(lia) E) as [Hl1 Hn1].
    destruct (IH s1) as (Hs1 & ? & ?); [done|lia|done|]. cbn [started_all]. rewrite E, Hs1.
    by rewrite stopping_starts_nothing by by apply overfull_stops. }
  pose proof (run_tasks _ _ _ Hrun) as Ht. rewrite Hn in Ht. split_and!; [done..|].
  intros Hst ls2 s2 Hall2 Hrun2. rewrite <- Hl in Hall2. unfold overfull in Ho'.
  assert (m_nb_threads s' <= length (m_workers s')) as Hle by lia. clear -Hst Hall2 Hrun2 Hle.
  remember (length (m_workers s')) as k eqn:Hk. revert s' Hk Hle Hst Hrun2. induction Hall2 as [|l ls Hl _ IH];
    intros s -> Hle Hst Hrun; cbn [pool_run] in Hrun; [by simplify_eq|].
  destruct (pool_step l s) as [s1|] eqn:E; [|done].
  destruct (step_length l s s1 _ Hl ltac:(lia) ltac:(lia) E) as [Hl1 Hn1].
  destruct (IH s1) as [Hs1 Hst1]; [done|lia|by eapply stopped_step|done|].
  cbn [started_all]. by rewrite E, Hs1, stopped_starts_nothing.
Qed.

(** [stop] can miss a worker: it takes no mutex, so a worker that has found
    nothing to do and is about to sleep gets neither the flag nor the notification;
    it then sleeps, and unless something else wakes it, the join never ends. *)
Theorem stop_misses_worker {task} (s : thread_pool task) i :
  m_workers s !! i = Some Checked -> is_running s = true ->
  exists s1, pool_run [PStop; PNotify; PWork i] s = Some s1 /\ m_should_stop s1 = true /\
    forall ls s2, Forall wakes_nobody ls -> pool_run ls s1 = Some s2 ->
      m_workers s2 !! i = Some Asleep /\ stop_join s2 = None.
Proof.
  intros Hi Hr. pose proof (lookup_lt_Some _ _ _ Hi) as Hlt. cbn [pool_run pool_step]. unfold stop_flag. rewrite Hr. cbn [mbind option_bind].
  set (s1 := notify_all _). assert (m_workers s1 !! i = Some Checked) as Hi1 by (cbn; by rewrite list_lookup_fmap, Hi).
  unfold run_step. rewrite Hi1. cbn [mbind option_bind]. eexists. split; [done|]. split; [done|].
  intros ls s2 Hall Hrun. assert (m_workers s2 !! i = Some Asleep) as Ha; [|split; [done|by eapply asleep_no_join]].
  eapply (run_invariant (fun s => m_workers s !! i = Some Asleep) wakes_nobody); [|exact Hall| |exact Hrun].
  - intros l s3 s4. apply asleep_step.
  - apply set_worker_same. by eapply lookup_lt_Some.
Qed.

(** ** Witnesses *)

(** Two workers; three tasks are added, two run at the same time. *)
Definition busy_labels : list (pool_label nat) :=
  [PWork 0; PWork 0; PWork 0; PAdd 7; PAdd 8; PAdd 9; PWork 0; PWork 1; PWork 1].

Definition busy_pool : thread_pool nat := mk_pool [Running 7; Running 8] 2 false [9].

Lemma tasks_in_order_witness :
  started_all busy_labels (pool_init 2) ++ m_tasks busy_pool = [7; 8; 9] /\
  forall t ts i w, should_stop busy_pool = false -> m_tasks busy_pool = t :: ts -> m_workers busy_pool !! i = Some w ->
    (exists t', w = Running t') \/ w = Stopped \/
    exists s', pool_run (match w with AtTest => [PWork i; PWork i] | _ => [PWork i] end) busy_pool = Some s' /\
      m_workers s' !! i = Some (Running t) /\ m_tasks s' = ts.
Proof. apply (tasks_in_order 2 busy_labels busy_pool). vm_compute. reflexivity. Defined.

(** Of two workers one is wanted; two tasks are added. *)
Definition shrunk_pool : thread_pool nat := mk_pool [AtFetch; AtFetch] 1 false [].

Definition dead_pool : thread_pool nat := mk_pool [Stopped; Stopped] 1 false [5; 6].

Lemma smaller_pool_dies_witness :
  started_all [PAdd 5; PWork 0; PWork 1; PWork 0; PWork 1; PAdd 6] shrunk_pool = [] /\
  m_tasks dead_pool = [] ++ [5; 6] /\
  (Forall (eq Stopped) (m_workers dead_pool) -> forall ls2 s2, Forall (wants_at_most 2) ls2 ->
     pool_run ls2 dead_pool = Some s2 -> started_all ls2 dead_pool = [] /\ Forall (eq Stopped) (m_workers s2)).
Proof.
  apply (smaller_pool_dies [PAdd 5; PWork 0; PWork 1; PWork 0; PWork 1; PAdd 6] shrunk_pool dead_pool).
  - vm_compute. apply le_n.
  - repeat constructor.
  - vm_compute. reflexivity.
Defined.

Lemma stop_misses_worker_witness :
  pool_run [PWork 0; PWork 0] (pool_init 1) = Some (mk_pool [@Checked nat] 1 false []) /\
  exists s1, pool_run [PStop; PNotify; PWork 0] (mk_pool [@Checked nat] 1 false []) = Some s1 /\ m_should_stop s1 = true /\
    forall ls s2, Forall wakes_nobody ls -> pool_run ls s1 = Some s2 ->
      m_workers s2 !! 0 = Some Asleep /\ stop_join s2 = None.
Proof.
  split; [vm_compute; reflexivity|]. apply stop_misses_worker; reflexivity.
Defined.
