(* ===== verification/IoService.v ===== *)
(** [tacopie::io_service] (tacopie/sources/network/io_service.cpp) with its
    self_pipe: the thread that selects, the sockets it tracks and the workers
    ([ThreadPool]) that run their callbacks, as a step relation.

    A step is a turn of the poll thread between two waits, a critical section of
    [m_tracked_sockets_mtx], the write to the pipe that ends one while the mutex is
    still held, a step of a worker, or the end of a callback.  What a callback does
    itself are steps of callers.  The order of the unordered map, what select
    reports and when callbacks end are given by the labels.  A callback is a
    number. *)

From S2P Require Import Prelude ThreadPool.

(** Reading or writing: the two halves of the code are the same. *)
Inductive direction : Type := Rd | Wr.

#[export] Instance direction_eq_dec : EqDecision direction.
Proof. solve_decision. Defined.

(** A task: the callback of a socket for a direction. *)
Record event : Type := mk_io_event { event_fd : Z; event_dir : direction; event_callback : nat }.

Record tracked_socket : Type := mk_socket {
  rd_callback : option nat;
  is_executing_rd_callback : bool;
  wr_callback : option nat;
  is_executing_wr_callback : bool;
  marked_for_untrack : bool }.

Definition new_socket : tracked_socket := mk_socket None false None false false.

Definition callback_of (d : direction) (x : tracked_socket) : option nat :=
  match d with Rd => rd_callback x | Wr => wr_callback x end.

Definition executing (d : direction) (x : tracked_socket) : bool :=
  match d with Rd => is_executing_rd_callback x | Wr => is_executing_wr_callback x end.

Definition set_executing (d : direction) (b : bool) (x : tracked_socket) : tracked_socket :=
  match d with
  | Rd => mk_socket (rd_callback x) b (wr_callback x) (is_executing_wr_callback x) (marked_for_untrack x)
  | Wr => mk_socket (rd_callback x) (is_executing_rd_callback x) (wr_callback x) b (marked_for_untrack x)
  end.

Definition set_callback (d : direction) (cb : option nat) (x : tracked_socket) : tracked_socket :=
  match d with
  | Rd => mk_socket cb (is_executing_rd_callback x) (wr_callback x) (is_executing_wr_callback x) (marked_for_untrack x)
  | Wr => mk_socket (rd_callback x) (is_executing_rd_callback x) cb (is_executing_wr_callback x) (marked_for_untrack x)
  end.

Definition set_marked (b : bool) (x : tracked_socket) : tracked_socket :=
  mk_socket (rd_callback x) (is_executing_rd_callback x) (wr_callback x) (is_executing_wr_callback x) b.

(** Where the poll thread is; [PollUndef]: a descriptor did not fit an fd_set. *)
Inductive poll_state : Type :=
| PollTest
| PollInit
| PollSelect (ndfs : Z)
| PollProcess
| PollStopped
| PollUndef.

(** Who holds [m_tracked_sockets_mtx], about to write to the pipe. *)
Inductive holder : Type :=
| Unlocked
| ByCaller
| ByWorker (i : nat).

#[export] Instance holder_eq_dec : EqDecision holder.
Proof. solve_decision. Defined.

Record io_service : Type := mk_io {
  m_tracked_sockets : gmap Z tracked_socket;
  m_polled_fds : list Z;
  m_rd_set : gset Z;
  m_wr_set : gset Z;
  io_should_stop : bool;
  poll_at : poll_state;
  m_notifier : nat;
  m_tracked_sockets_mtx : holder;
  m_callback_workers : thread_pool event }.

(** The constructor *)
Definition io_init (nb_threads : nat) : io_service :=
  mk_io ∅ [] ∅ ∅ false PollTest 0 Unlocked (pool_init nb_threads).

Definition set_sockets (m : gmap Z tracked_socket) (s : io_service) : io_service :=
  mk_io m (m_polled_fds s) (m_rd_set s) (m_wr_set s) (io_should_stop s) (poll_at s) (m_notifier s)
    (m_tracked_sockets_mtx s) (m_callback_workers s).

Definition set_polled (fds : list Z) (rd wr : gset Z) (s : io_service) : io_service :=
  mk_io (m_tracked_sockets s) fds rd wr (io_should_stop s) (poll_at s) (m_notifier s)
    (m_tracked_sockets_mtx s) (m_callback_workers s).

Definition set_poll (p : poll_state) (s : io_service) : io_service :=
  mk_io (m_tracked_sockets s) (m_polled_fds s) (m_rd_set s) (m_wr_set s) (io_should_stop s) p (m_notifier s)
    (m_tracked_sockets_mtx s) (m_callback_workers s).

Definition set_notifier (n : nat) (s : io_service) : io_service :=
  mk_io (m_tracked_sockets s) (m_polled_fds s) (m_rd_set s) (m_wr_set s) (io_should_stop s) (poll_at s) n
    (m_tracked_sockets_mtx s) (m_callback_workers s).

Definition set_mtx (h : holder) (s : io_service) : io_service :=
  mk_io (m_tracked_sockets s) (m_polled_fds s) (m_rd_set s) (m_wr_set s) (io_should_stop s) (poll_at s) (m_notifier s)
    h (m_callback_workers s).

Definition set_pool (p : thread_pool event) (s : io_service) : io_service :=
  mk_io (m_tracked_sockets s) (m_polled_fds s) (m_rd_set s) (m_wr_set s) (io_should_stop s) (poll_at s) (m_notifier s)
    (m_tracked_sockets_mtx s) p.

Definition set_stop (s : io_service) : io_service :=
  mk_io (m_tracked_sockets s) (m_polled_fds s) (m_rd_set s) (m_wr_set s) true (poll_at s) (m_notifier s)
    (m_tracked_sockets_mtx s) (m_callback_workers s).

Section io_service.
(** The read end of the pipe, and how many bytes the pipe holds. *)
Context (read_fd : Z) (pipe_size : nat).

(** ** self_pipe *)

(** [notify]: the write blocks while the pipe is full. *)
Definition notify (s : io_service) : option io_service :=
  if m_notifier s <? pipe_size then Some (set_notifier (S (m_notifier s)) s) else None.

Definition clr_buffer (s : io_service) : io_service := set_notifier (m_notifier s - 1024) s.

(** A critical section of [m_tracked_sockets_mtx]. *)
Definition locked {A} (s : io_service) (body : option A) : option A :=
  if decide (m_tracked_sockets_mtx s = Unlocked) then body else None.

(** ** init_poll_fds_info *)

Definition FD_SETSIZE : Z := 1024.
Definition fd_fits (fd : Z) : bool := (0 <=? fd)%Z && (fd <? FD_SETSIZE)%Z.

Definition should (d : direction) (x : tracked_socket) : bool :=
  match callback_of d x with Some _ => negb (executing d x) | None => false end.

(** The loop over the sockets, in the order of the map; [None] is [FD_SET] out of
    its bounds. *)
Fixpoint init_loop (order : list Z) (m : gmap Z tracked_socket) (fds : list Z) (rd wr : gset Z) (ndfs : Z)
    : option (list Z * gset Z * gset Z * Z) :=
  match order with
  | [] => Some (fds, rd, wr, ndfs)
  | fd :: order =>
    match m !! fd with
    | None => init_loop order m fds rd wr ndfs
    | Some x =>
      let should_rd := should Rd x in
      let should_wr := should Wr x in
      if (should_rd || should_wr) && negb (fd_fits fd) then None
      else
        init_loop order m
          (if should_rd || should_wr || marked_for_untrack x then fds ++ [fd] else fds)
          (if should_rd then {[fd]} ∪ rd else rd)
          (if should_wr then {[fd]} ∪ wr else wr)
          (if (should_rd || should_wr) && (ndfs <? fd)%Z then fd else ndfs)
    end
  end.

Definition init_poll_fds_info (order : list Z) (s : io_service) : io_service :=
  if fd_fits read_fd then
    match init_loop order (m_tracked_sockets s) [read_fd] {[read_fd]} ∅ read_fd with
    | Some (fds, rd, wr, ndfs) => set_poll (PollSelect (ndfs + 1)) (set_polled fds rd wr s)
    | None => set_poll PollUndef s
    end
  else set_poll PollUndef s.

(** An order of the sockets. *)
Definition enumerates (order : list Z) (m : gmap Z tracked_socket) : bool :=
  bool_decide (NoDup order) && bool_decide (list_to_set order =@{gset Z} dom m).

(** ** process_events *)

(** [process_rd_event] and [process_wr_event]: the task is the lambda. *)
Definition process_event (d : direction) (fd : Z) (cb : nat) (s : io_service) : option io_service :=
  pool ← add_task (mk_io_event fd d cb) (m_callback_workers s);
  Some (set_pool pool (set_sockets (alter (set_executing d true) fd (m_tracked_sockets s)) s)).

Definition process_ready (d : direction) (fd : Z) (ready : gset Z) (s : io_service) : option io_service :=
  match x ← m_tracked_sockets s !! fd; if executing d x then None else callback_of d x with
  | Some cb => if decide (fd ∈ ready) then process_event d fd cb s else Some s
  | None => Some s
  end.

(** The end of a turn of the loop *)
Definition remove_marked (fd : Z) (s : io_service) : io_service :=
  match m_tracked_sockets s !! fd with
  | Some x =>
    if marked_for_untrack x && negb (executing Rd x) && negb (executing Wr x)
    then set_sockets (delete fd (m_tracked_sockets s)) s else s
  | None => s
  end.

Definition process_fd (fd : Z) (s : io_service) : option io_service :=
  if decide (fd = read_fd /\ fd ∈ m_rd_set s) then Some (clr_buffer s)
  else
    match m_tracked_sockets s !! fd with
    | None => Some s
    | Some _ =>
      s ← process_ready Rd fd (m_rd_set s) s;
      s ← process_ready Wr fd (m_wr_set s) s;
      Some (remove_marked fd s)
    end.

Fixpoint process_fds (fds : list Z) (s : io_service) : option io_service :=
  match fds with
  | [] => Some s
  | fd :: fds => s ← process_fd fd s; process_fds fds s
  end.

Definition process_events (s : io_service) : option io_service := process_fds (m_polled_fds s) s.

(** ** poll *)

(** [select] reports some of the descriptors it was given, at least one, and the
    pipe when it holds something. *)
Definition select_returns (rd wr : gset Z) (s : io_service) : option io_service :=
  match poll_at s with
  | PollSelect ndfs =>
    if decide (rd ⊆ m_rd_set s /\ wr ⊆ m_wr_set s /\ set_Forall (fun fd => fd < ndfs)%Z (rd ∪ wr) /\ rd ∪ wr <> ∅ /\
               (read_fd ∈ rd <-> 0 < m_notifier s))
    then Some (set_poll PollProcess (set_polled (m_polled_fds s) rd wr s)) else None
  | _ => None
  end.

(** [select] fails, interrupted or on a closed descriptor. *)
Definition select_fails (s : io_service) : option io_service :=
  match poll_at s with PollSelect _ => Some (set_poll PollTest s) | _ => None end.

Definition poll_step (order : list Z) (s : io_service) : option io_service :=
  match poll_at s with
  | PollTest => Some (set_poll (if io_should_stop s then PollStopped else PollInit) s)
  | PollInit => locked s (if enumerates order (m_tracked_sockets s) then Some (init_poll_fds_info order s) else None)
  | PollProcess => locked s (s ← process_events s; Some (set_poll PollTest s))
  | _ => None
  end.
(** ** The callers

    The mutex is kept for the notification that ends the section. *)

(** [m_tracked_sockets[fd]] *)
Definition socket_at (fd : Z) (s : io_service) : tracked_socket := default new_socket (m_tracked_sockets s !! fd).

Definition track (fd : Z) (rd wr : option nat) (s : io_service) : option io_service :=
  locked s (Some (set_mtx ByCaller
    (set_sockets (<[fd := set_marked false (set_callback Wr wr (set_callback Rd rd (socket_at fd s)))]> (m_tracked_sockets s)) s))).

(** [set_rd_callback] and [set_wr_callback] *)
Definition set_event_callback (d : direction) (fd : Z) (cb : option nat) (s : io_service) : option io_service :=
  locked s (Some (set_mtx ByCaller
    (set_sockets (<[fd := set_callback d cb (socket_at fd s)]> (m_tracked_sockets s)) s))).

Definition untrack (fd : Z) (s : io_service) : option io_service :=
  locked s (Some
    match m_tracked_sockets s !! fd with
    | None => s
    | Some x =>
      set_mtx ByCaller
        (if executing Rd x || executing Wr x
         then set_sockets (<[fd := set_marked true x]> (m_tracked_sockets s)) s
         else set_sockets (delete fd (m_tracked_sockets s)) s)
    end).

(** The notification, and the end of the section. *)
Definition caller_notifies (s : io_service) : option io_service :=
  if decide (m_tracked_sockets_mtx s = ByCaller) then s ← notify s; Some (set_mtx Unlocked s) else None.

(** [wait_for_removal] returns. *)
Definition removed (fd : Z) (s : io_service) : bool :=
  bool_decide (m_tracked_sockets_mtx s = Unlocked) && bool_decide (m_tracked_sockets s !! fd = None).

(** ** The workers *)

Definition other (d : direction) : direction := match d with Rd => Wr | Wr => Rd end.

Definition pool_does (l : pool_label event) (s : io_service) : option io_service :=
  pool ← pool_step l (m_callback_workers s); Some (set_pool pool s).

(** What a step of the pool alone may be: tasks come from the poll thread, and
    end below. *)
Definition free_standing (l : pool_label event) : bool :=
  match l with PAdd _ | PReturn _ => false | _ => true end.

(** After the callback: the end of the lambda, up to the notification.  An
    exception of the callback leaves the lambda at once. *)
Definition callback_ends (i : nat) (threw : bool) (s : io_service) : option io_service :=
  match m_workers (m_callback_workers s) !! i with
  | Some (Running e) =>
    if decide (m_tracked_sockets_mtx s = ByWorker i) then None
    else if threw then pool_does (PReturn i) s
    else
      locked s
        match m_tracked_sockets s !! event_fd e with
        | None => pool_does (PReturn i) s
        | Some x =>
          Some (set_mtx (ByWorker i)
            (set_sockets
              (if marked_for_untrack x && negb (executing (other (event_dir e)) x)
               then delete (event_fd e) (m_tracked_sockets s)
               else <[event_fd e := set_executing (event_dir e) false x]> (m_tracked_sockets s)) s))
        end
  | _ => None
  end.

Definition worker_notifies (i : nat) (s : io_service) : option io_service :=
  if decide (m_tracked_sockets_mtx s = ByWorker i) then
    s ← notify s; pool_does (PReturn i) (set_mtx Unlocked s)
  else None.

(** ** The default service *)

Definition set_nb_workers (nb_threads : nat) (s : io_service) : io_service :=
  set_pool (adjust (set_nb nb_threads (m_callback_workers s))) s.

(** [io_service_default_instance], the null pointer before the first use. *)
Definition get_default_io_service (num_io_workers : nat) (instance : option io_service) : io_service :=
  match instance with
  | None => io_init num_io_workers
  | Some s => set_nb_workers num_io_workers s
  end.

(** ** Runs *)

Inductive io_label : Type :=
| IPoll (order : list Z)
| ISelect (rd wr : gset Z)
| ISelectFails
| ITrack (fd : Z) (rd wr : option nat)
| ISetCallback (d : direction) (fd : Z) (cb : option nat)
| IUntrack (fd : Z)
| INotify
| IPool (l : pool_label event)
| ICallback (i : nat) (threw : bool)
| IWorkerNotify (i : nat)
| IStop          (* the destructor sets the flag *)
| IStopNotify.   (* and writes to the pipe *)

Definition io_step (l : io_label) (s : io_service) : option io_service :=
  match l with
  | IPoll order => poll_step order s
  | ISelect rd wr => select_returns rd wr s
  | ISelectFails => select_fails s
  | ITrack fd rd wr => track fd rd wr s
  | ISetCallback d fd cb => set_event_callback d fd cb s
  | IUntrack fd => untrack fd s
  | INotify => caller_notifies s
  | IPool l => if free_standing l then pool_does l s else None
  | ICallback i threw => callback_ends i threw s
  | IWorkerNotify i => worker_notifies i s
  | IStop => Some (set_stop s)
  | IStopNotify => notify s
  end.

Fixpoint io_run (ls : list io_label) (s : io_service) : option io_service :=
  match ls with
  | [] => Some s
  | l :: ls => s' ← io_step l s; io_run ls s'
  end.

(** ** Observations *)

(** The callback worker [i] is in: not in the end of the lambda. *)
Definition in_callback (h : holder) (p : thread_pool event) (i : nat) : option event :=
  match m_workers p !! i with
  | Some (Running e) => if decide (h = ByWorker i) then None else Some e
  | _ => None
  end.

(** The callbacks queued and executing *)
Definition live_in (h : holder) (p : thread_pool event) : list event :=
  m_tasks p ++ omap (in_callback h p) (seq 0 (length (m_workers p))).

Definition live (s : io_service) : list event := live_in (m_tracked_sockets_mtx s) (m_callback_workers s).

Definition worker_event (i : nat) (s : io_service) : option event :=
  in_callback (m_tracked_sockets_mtx s) (m_callback_workers s) i.

(** Labels that neither set the callbacks of the socket [fd] nor untrack it *)
Definition foreign (fd : Z) (l : io_label) : bool :=
  match l with
  | ITrack fd' _ _ | ISetCallback _ fd' _ | IUntrack fd' => negb (fd' =? fd)%Z
  | _ => true
  end.

(** Those of one socket in one direction *)
Definition callbacks_on (fd : Z) (d : direction) (l : list event) : list event :=
  filter (fun e => event_fd e = fd /\ event_dir e = d) l.
End io_service.
