(* ===== verification/IoServiceFacts.v ===== *)
(** Facts about the io_service: a socket has one callback of a direction at a
    time, and none once it is removed; what [select] watches is current, or a
    notification is on its way; what an exception of a callback and a full pipe
    do. *)

From S2P Require Import Prelude ThreadPool IoService.

(** ** The callbacks of the workers *)

Definition running_event (h : holder) (i : nat) (w : pool_worker event) : list event :=
  match w with Running e => if decide (h = ByWorker i) then [] else [e] | _ => [] end.

Fixpoint running_from (h : holder) (k : nat) (ws : list (pool_worker event)) : list event :=
  match ws with
  | [] => []
  | w :: ws => running_event h k w ++ running_from h (S k) ws
  end.

Lemma live_in_eq h p : live_in h p = m_tasks p ++ running_from h 0 (m_workers p).
Proof.
  unfold live_in. f_equal. unfold in_callback. generalize (m_workers p) as ws.
  assert (forall k (ws ws' : list (pool_worker event)), (forall i, ws' !! (k + i) = ws !! i) ->
    omap (fun i => match ws' !! i with Some (Running e) => if decide (h = ByWorker i) then None else Some e | _ => None end)
      (seq k (length ws)) = running_from h k ws) as Hgen; [|by intros ws; apply Hgen].
  intros k ws. revert k. induction ws as [|w ws IH]; intros k ws' Hws; [done|]. cbn [length seq running_from].
  rewrite <- (IH (S k) ws'); [|intros i; cbn [plus]; rewrite <- Nat.add_succ_r; apply (Hws (S i))].
  cbn. pose proof (Hws 0) as H0. rewrite Nat.add_0_r in H0. rewrite H0. cbn. destruct w; try done.
  cbn. by case_decide.
Qed.

Lemma running_from_insert h k i w w' ws :
  ws !! i = Some w ->
  Permutation (running_event h (k + i) w ++ running_from h k (<[i := w']> ws))
              (running_event h (k + i) w' ++ running_from h k ws).
Proof.
  revert k ws. induction i as [|i IH]; intros k [|x ws] Hi; simplify_eq/=.
  - rewrite Nat.add_0_r. rewrite !app_assoc. f_equiv. apply Permutation_app_comm.
  - specialize (IH (S k) ws Hi). rewrite Nat.add_succ_r. change (S (k + i)) with (S k + i).
    rewrite !app_assoc, (Permutation_app_comm _ (running_event h k x)), (Permutation_app_comm _ (running_event h k x)).
    rewrite <- !app_assoc. by f_equiv.
Qed.

Lemma running_from_wake h k ws : running_from h k (wake <$> ws) = running_from h k ws.
Proof. revert k. induction ws as [|w ws IH]; intros k; [done|]. cbn. rewrite IH. by destruct w. Qed.

Lemma running_from_app h k ws1 ws2 :
  running_from h k (ws1 ++ ws2) = running_from h k ws1 ++ running_from h (k + length ws1) ws2.
Proof.
  revert k. induction ws1 as [|w ws IH]; intros k; cbn; [by rewrite Nat.add_0_r|].
  rewrite IH, <- app_assoc. do 3 f_equal. lia.
Qed.

Lemma running_from_idle h k n : running_from h k (repeat AtTest n) = [].
Proof. revert k. by induction n; intros k; cbn. Qed.

Lemma running_from_other h h' k ws :
  (forall i, h <> ByWorker i) -> (forall i, h' <> ByWorker i) -> running_from h k ws = running_from h' k ws.
Proof.
  intros Hh Hh'. revert k. induction ws as [|w ws IH]; intros k; [done|]. cbn. rewrite IH. f_equal.
  destruct w; try done. cbn. by rewrite !decide_False.
Qed.

(** [l] is part of [l'], in some order. *)
Lemma callbacks_on_submseteq fd d l l' : l ⊆+ l' -> length (callbacks_on fd d l) <= length (callbacks_on fd d l').
Proof.
  intros (k & Hk)%submseteq_Permutation. unfold callbacks_on. rewrite Hk, filter_app, length_app. lia.
Qed.

#[export] Instance callbacks_on_perm fd d : Proper ((≡ₚ) ==> (≡ₚ)) (callbacks_on fd d).
Proof. intros l l' Hl. unfold callbacks_on. by rewrite Hl. Qed.

(** A worker moves on: its event, if it had one, may go. *)
Lemma live_worker h i w w' ws ts :
  ws !! i = Some w -> running_event h i w' = [] ->
  ts ++ running_from h 0 (<[i := w']> ws) ⊆+ ts ++ running_from h 0 ws.
Proof.
  intros Hi Hw. apply submseteq_app; [done|]. pose proof (running_from_insert h 0 i w w' ws Hi) as Hp. cbn [plus] in Hp.
  rewrite Hw in Hp. rewrite <- Hp. by apply submseteq_inserts_l.
Qed.

Lemma pool_live h l p p' :
  free_standing l = true -> pool_step l p = Some p' -> live_in h p' ⊆+ live_in h p.
Proof.
  rewrite !live_in_eq. intros Hl Hs. destruct l as [i|i|i|t| | | |n|]; try done; cbn [pool_step] in Hs.
  - unfold run_step in Hs. destruct (m_workers p !! i) as [w|] eqn:Hi; [|done].
    destruct w; simplify_eq/=; try by eapply live_worker; [|try by destruct (should_stop p)].
    unfold fetch_task in Hs. destruct (mutex_free p); [|done]. destruct (should_stop p); simplify_eq/=; [by eapply live_worker|].
    destruct (m_tasks p) as [|t ts] eqn:Et; simplify_eq/=; [rewrite Et; by apply (live_worker h i AtFetch _ _ [])|].
    pose proof (running_from_insert h 0 i AtFetch (Running t) _ Hi) as Hp. cbn [plus app running_event] in Hp.
    rewrite Hp, Permutation_middle. apply submseteq_app; [done|].
    case_decide; cbn; [by apply submseteq_cons|done].
  - unfold wake_up in Hs. destruct (m_workers p !! i) as [[]|] eqn:Hi; simplify_eq/=. by eapply live_worker.
  - unfold stop_flag in Hs. destruct (is_running p); by simplify_eq/=.
  - simplify_eq/=. by rewrite running_from_wake.
  - unfold stop_join in Hs. destruct (_ && _); simplify_eq/=. apply submseteq_app; [done|]. apply submseteq_nil_l.
  - by simplify_eq/=.
  - simplify_eq/=. unfold adjust. destruct (_ <? _); cbn [set_workers m_tasks m_workers notify_all].
    + by rewrite running_from_app, running_from_idle, app_nil_r.
    + by rewrite running_from_wake.
Qed.

Lemma pool_return_live h i p p' : pool_step (PReturn i) p = Some p' -> live_in h p' ⊆+ live_in h p.
Proof.
  rewrite !live_in_eq. cbn [pool_step]. unfold task_returns. destruct (m_workers p !! i) as [[]|] eqn:Hi; intros; simplify_eq/=.
  by eapply live_worker.
Qed.

Lemma add_task_live h e p p' : add_task e p = Some p' -> Permutation (live_in h p') (e :: live_in h p).
Proof.
  rewrite !live_in_eq. unfold add_task. destruct (mutex_free p); intros; simplify_eq/=. rewrite running_from_wake.
  rewrite <- app_assoc. cbn [app]. by rewrite <- Permutation_middle.
Qed.

Lemma running_from_below h j k ws : j < k -> h = ByWorker j -> running_from h k ws = running_from Unlocked k ws.
Proof.
  intros Hj ->. revert k Hj. induction ws as [|w ws IH]; intros k Hj; [done|]. cbn. rewrite IH by lia. f_equal.
  destruct w; try done. cbn. rewrite decide_False by (intros [=]; lia). by rewrite decide_False.
Qed.

(** The callback of worker [i] is over while it holds the mutex. *)
Lemma running_from_ending k i e ws :
  ws !! i = Some (Running e) ->
  Permutation (running_from Unlocked k ws) (e :: running_from (ByWorker (k + i)) k ws).
Proof.
  revert k ws. induction i as [|i IH]; intros k [|w ws] Hi; try done; cbn [running_from].
  - injection Hi as ->. rewrite Nat.add_0_r. unfold running_event. rewrite decide_False, decide_True by done.
    by rewrite (running_from_below (ByWorker k) k) by (done || lia).
  - change (ws !! i = Some (Running e)) in Hi. rewrite (IH (S k) ws Hi). rewrite Nat.add_succ_r. change (S k + i) with (S (k + i)).
    assert (running_event Unlocked k w = running_event (ByWorker (S (k + i))) k w) as ->.
    { destruct w; try done. cbn. by rewrite !decide_False by (done || intros [=]; lia). }
    by rewrite Permutation_middle.
Qed.

Lemma live_ending p i e :
  m_workers p !! i = Some (Running e) -> Permutation (live_in Unlocked p) (e :: live_in (ByWorker i) p).
Proof.
  intros Hi. rewrite !live_in_eq, (running_from_ending 0 i e _ Hi). cbn [plus]. by rewrite Permutation_middle.
Qed.

Lemma live_ended p p' i :
  pool_step (PReturn i) p = Some p' -> Permutation (live_in Unlocked p') (live_in (ByWorker i) p).
Proof.
  cbn [pool_step]. unfold task_returns. destruct (m_workers p !! i) as [[]|] eqn:Hi; intros; simplify_eq/=.
  apply (Permutation_cons_inv (a := t)). rewrite <- live_ending by done. rewrite !live_in_eq. cbn [set_worker set_workers m_tasks m_workers].
  rewrite Permutation_middle. f_equiv. pose proof (running_from_insert Unlocked 0 i _ AtTest _ Hi) as Hp.
  cbn [plus running_event] in Hp. by rewrite decide_False in Hp.
Qed.

Lemma callbacks_on_cons fd d e l :
  length (callbacks_on fd d (e :: l)) =
  (if decide (event_fd e = fd /\ event_dir e = d) then 1 else 0) + length (callbacks_on fd d l).
Proof. unfold callbacks_on. rewrite filter_cons. by case_decide. Qed.

(** ** One callback at a time *)

Definition flag (d : direction) (fd : Z) (m : gmap Z tracked_socket) : nat :=
  match m !! fd with Some x => if executing d x then 1 else 0 | None => 0 end.

Definition count (s : io_service) (fd : Z) (d : direction) : nat := length (callbacks_on fd d (live s)).

(** The callbacks of a socket that are queued or execute are covered by its flag;
    no step makes a flag less than it covers. *)
Definition covers (s s' : io_service) : Prop :=
  forall fd d, count s' fd d + flag d fd (m_tracked_sockets s) <= count s fd d + flag d fd (m_tracked_sockets s').

#[export] Instance covers_preorder : PreOrder covers.
Proof.
  split; [intros s fd d; lia|]. intros s1 s2 s3 H12 H23 fd d. specialize (H12 fd d). specialize (H23 fd d). lia.
Qed.

Lemma covers_weaken s s' :
  live s' ⊆+ live s -> (forall fd d, flag d fd (m_tracked_sockets s) <= flag d fd (m_tracked_sockets s')) -> covers s s'.
Proof. intros Hl Hf fd d. pose proof (callbacks_on_submseteq fd d _ _ Hl). specialize (Hf fd d). unfold count. lia. Qed.

Lemma covers_same s s' : m_tracked_sockets s' = m_tracked_sockets s -> live s' = live s -> covers s s'.
Proof. intros Hm Hl. apply covers_weaken; [by rewrite Hl|by rewrite Hm]. Qed.

Lemma executing_set d d' b x : executing d (set_executing d' b x) = if decide (d = d') then b else executing d x.
Proof. by destruct d, d'. Qed.

Lemma flag_insert d fd fd' x m :
  flag d fd (<[fd' := x]> m) = if decide (fd' = fd) then (if executing d x then 1 else 0) else flag d fd m.
Proof.
  unfold flag. case_decide as Hd; [by subst; rewrite lookup_insert_eq|by rewrite lookup_insert_ne].
Qed.

Lemma flag_at d fd m x : m !! fd = Some x -> flag d fd m = if executing d x then 1 else 0.
Proof. unfold flag. by intros ->. Qed.

Lemma flag_same d fd fd' x m :
  (if executing d x then 1 else 0) = flag d fd' m -> flag d fd (<[fd' := x]> m) = flag d fd m.
Proof. intros Hx. rewrite flag_insert. case_decide; by subst. Qed.

Lemma flag_delete d fd fd' m : flag d fd' m = 0 -> flag d fd m <= flag d fd (delete fd' m).
Proof.
  unfold flag. intros Hz. destruct (decide (fd' = fd)) as [->|Hne]; [rewrite Hz; lia|by rewrite lookup_delete_ne].
Qed.

Section facts.
Context (read_fd : Z) (pipe_size : nat).

Abbreviation step := (io_step read_fd pipe_size).

Lemma locked_inv {A} (s : io_service) (body : option A) x : locked s body = Some x -> m_tracked_sockets_mtx s = Unlocked /\ body = Some x.
Proof. unfold locked. by case_decide. Qed.

Lemma covers_process_event d fd cb s s' x :
  m_tracked_sockets s !! fd = Some x -> executing d x = false -> process_event d fd cb s = Some s' -> covers s s'.
Proof.
  intros Hx Hd. unfold process_event. destruct (add_task _ _) as [p|] eqn:Ea; [|done]. intros [= <-] fd' d'.
  unfold count, live. cbn [set_pool set_sockets m_tracked_sockets_mtx m_callback_workers m_tracked_sockets].
  rewrite (add_task_live _ _ _ _ Ea), callbacks_on_cons. cbn [event_fd event_dir]. unfold flag.
  destruct (decide (fd = fd')) as [<-|Hne].
  - rewrite lookup_alter_eq, Hx. cbn [fmap option_fmap option_map]. rewrite executing_set.
    destruct (decide (d' = d)) as [->|Hne].
    + rewrite decide_True by done. rewrite Hd. lia.
    + rewrite decide_False by (intros [_ ?]; congruence). lia.
  - rewrite decide_False by (intros [? _]; congruence). rewrite lookup_alter_ne by done. lia.
Qed.

Lemma covers_process_ready d fd ready s s' : process_ready d fd ready s = Some s' -> covers s s'.
Proof.
  unfold process_ready. destruct (m_tracked_sockets s !! fd) as [x|] eqn:Hx; cbn; [|by intros [= <-]].
  destruct (executing d x) eqn:Hd; [intros; by simplify_eq|]. destruct (callback_of d x) as [cb|]; [|by intros [= <-]].
  case_decide; [|by intros [= <-]]. by apply (covers_process_event d fd cb s s' x).
Qed.

Lemma covers_remove_marked fd s : covers s (remove_marked fd s).
Proof.
  unfold remove_marked. destruct (m_tracked_sockets s !! fd) as [x|] eqn:Hx; [|done].
  destruct (marked_for_untrack x && _ && _) eqn:E; [|done]. apply andb_true_iff in E as [[_ E1]%andb_true_iff E2].
  apply covers_weaken; [done|]. intros fd' d. apply flag_delete. rewrite (flag_at _ _ _ _ Hx).
  apply negb_true_iff in E1, E2. by destruct d; rewrite ?E1, ?E2.
Qed.

Lemma covers_process_fd fd s s' : process_fd read_fd fd s = Some s' -> covers s s'.
Proof.
  unfold process_fd. case_decide; [intros [= <-]; by apply covers_same|].
  destruct (m_tracked_sockets s !! fd); [|by intros [= <-]].
  destruct (process_ready Rd fd (m_rd_set s) s) as [s1|] eqn:E1; [|done]. cbn.
  destruct (process_ready Wr fd (m_wr_set s1) s1) as [s2|] eqn:E2; [|done]. cbn. intros [= <-].
  etrans; [by eapply covers_process_ready|]. etrans; [by eapply covers_process_ready|]. apply covers_remove_marked.
Qed.

Lemma covers_process_fds fds s s' : process_fds read_fd fds s = Some s' -> covers s s'.
Proof.
  revert s. induction fds as [|fd fds IH]; intros s Hs; cbn [process_fds] in Hs; [by simplify_eq|].
  destruct (process_fd read_fd fd s) as [s1|] eqn:E; [|done]. etrans; [by eapply covers_process_fd|by apply IH].
Qed.

Lemma init_poll_same order s :
  m_tracked_sockets (init_poll_fds_info read_fd order s) = m_tracked_sockets s /\
  live (init_poll_fds_info read_fd order s) = live s.
Proof. unfold init_poll_fds_info. repeat case_match; by split. Qed.

Lemma live_caller s s' :
  m_callback_workers s' = m_callback_workers s -> (forall i, m_tracked_sockets_mtx s <> ByWorker i) ->
  (forall i, m_tracked_sockets_mtx s' <> ByWorker i) -> live s' = live s.
Proof.
  intros Hp Hh Hh'. unfold live. rewrite Hp, !live_in_eq. f_equal. by apply running_from_other.
Qed.
Lemma executing_socket_at d fd s : (if executing d (socket_at fd s) then 1 else 0) = flag d fd (m_tracked_sockets s).
Proof. unfold socket_at, flag. by destruct (m_tracked_sockets s !! fd), d. Qed.

(** A caller's section keeps the flags of the callbacks. *)
Lemma covers_section s m :
  m_tracked_sockets_mtx s = Unlocked -> (forall fd d, flag d fd (m_tracked_sockets s) <= flag d fd m) ->
  covers s (set_mtx ByCaller (set_sockets m s)).
Proof.
  intros Hu Hf. apply covers_weaken; [|done]. rewrite live_caller with (s := s); [done|done|by rewrite Hu|done].
Qed.

Lemma covers_untrack fd s s' : untrack fd s = Some s' -> covers s s'.
Proof.
  intros Hs. apply locked_inv in Hs as [Hu Hs]. apply (inj Some) in Hs as <-.
  destruct (m_tracked_sockets s !! fd) as [x|] eqn:Hx; [|done].
  destruct (executing Rd x || executing Wr x) eqn:E; apply covers_section; try done; intros fd' d.
  - rewrite flag_same; [done|]. rewrite (flag_at _ _ _ _ Hx). by destruct d.
  - apply flag_delete. rewrite (flag_at _ _ _ _ Hx). apply orb_false_iff in E as [E1 E2]. by destruct d; rewrite ?E1, ?E2.
Qed.

Lemma covers_return i s s' : pool_does (PReturn i) s = Some s' -> covers s s'.
Proof.
  unfold pool_does. destruct (pool_step _ _) as [p|] eqn:E; [|done]. intros [= <-].
  apply covers_weaken; [by apply (pool_return_live _ i)|done].
Qed.

Lemma covers_callback_ends i threw s s' : callback_ends i threw s = Some s' -> covers s s'.
Proof.
  unfold callback_ends. intros Hs. destruct (m_workers _ !! i) as [w|] eqn:Hi; [|done]. destruct w as [| | | |e|]; try done.
  case_decide as Hh; [done|]. destruct threw; [by eapply covers_return|]. apply locked_inv in Hs as [Hu Hs].
  destruct (m_tracked_sockets s !! event_fd e) as [x|] eqn:Hx; [|by eapply covers_return]. apply (inj Some) in Hs as <-.
  intros fd d. unfold count, live. rewrite Hu, (live_ending _ _ _ Hi), callbacks_on_cons.
  cbn [set_mtx set_sockets m_tracked_sockets_mtx m_callback_workers m_tracked_sockets].
  destruct (decide (event_fd e = fd)) as [<-|Hne].
  - rewrite (flag_at _ _ _ _ Hx). destruct (decide (event_dir e = d)) as [<-|Hd].
    + rewrite decide_True by done. destruct (executing (event_dir e) x); lia.
    + rewrite decide_False by (by intros [_ ?]).
      assert (other (event_dir e) = d) as <- by (by destruct (event_dir e), d).
      destruct (marked_for_untrack x && _) eqn:E.
      * apply andb_true_iff in E as [_ E]. apply negb_true_iff in E. rewrite E. lia.
      * rewrite flag_insert, decide_True by done. rewrite executing_set, decide_False by done. lia.
  - rewrite decide_False by (by intros [? _]).
    destruct (marked_for_untrack x && _); unfold flag; [by rewrite lookup_delete_ne|by rewrite lookup_insert_ne].
Qed.

Lemma covers_step l s s' : step l s = Some s' -> covers s s'.
Proof.
  intros Hs. destruct l as [order|rd wr| |fd rd wr|d fd cb|fd| |l|i threw|i| |]; cbn [io_step] in Hs.
  - unfold poll_step in Hs. destruct (poll_at s); try done; [simplify_eq; by apply covers_same| |].
    + apply locked_inv in Hs as [_ Hs]. destruct (enumerates _ _); simplify_eq. by apply covers_same; apply init_poll_same.
    + apply locked_inv in Hs as [_ Hs]. destruct (process_events read_fd s) as [s1|] eqn:E; simplify_eq/=.
      apply covers_process_fds in E. etrans; [exact E|by apply covers_same].
  - unfold select_returns in Hs. destruct (poll_at s); try done. case_decide; simplify_eq. by apply covers_same.
  - unfold select_fails in Hs. destruct (poll_at s); simplify_eq. by apply covers_same.
  - apply locked_inv in Hs as [Hu [= <-]]. apply covers_section; [done|]. intros fd' d.
    rewrite flag_same; [done|]. rewrite <- executing_socket_at. by destruct d.
  - apply locked_inv in Hs as [Hu [= <-]]. apply covers_section; [done|]. intros fd' d'.
    rewrite flag_same; [done|]. rewrite <- executing_socket_at. by destruct d, d'.
  - by eapply covers_untrack.
  - unfold caller_notifies, notify in Hs. case_decide as Hh; [|done]. destruct (_ <? _); simplify_eq/=.
    apply covers_weaken; [|done]. rewrite live_caller with (s := s); [done|done|by rewrite Hh|done].
  - destruct (free_standing l) eqn:Hl; [|done]. unfold pool_does in Hs. destruct (pool_step l _) as [p|] eqn:E; simplify_eq/=.
    apply covers_weaken; [by eapply pool_live|done].
  - by eapply covers_callback_ends.
  - unfold worker_notifies, notify in Hs. case_decide as Hh; [|done]. destruct (_ <? _); [|done]. cbn in Hs.
    unfold pool_does in Hs. cbn [set_mtx set_notifier m_callback_workers] in Hs.
    destruct (task_returns i _) as [p|] eqn:E; [|done]. injection Hs as <-.
    apply covers_weaken; [|done]. unfold live. cbn. rewrite Hh. by rewrite (live_ended _ _ _ E).
  - simplify_eq. by apply covers_same.
  - unfold notify in Hs. destruct (_ <? _); simplify_eq. by apply covers_same.
Qed.

(** A property of the states of a run, by rule induction. *)
Lemma io_invariant (P : io_service -> Prop) ls s s' :
  (forall l s s', P s -> step l s = Some s' -> P s') -> P s -> io_run read_fd pipe_size ls s = Some s' -> P s'.
Proof.
  intros Hstep. revert s. induction ls as [|l ls IH]; intros s HP Hrun; cbn [io_run] in Hrun; [by simplify_eq|].
  destruct (step l s) as [s1|] eqn:E; [|done]. eapply IH; [|exact Hrun]. by eapply Hstep.
Qed.

Lemma live_init n : live (io_init n) = [].
Proof. unfold live. rewrite live_in_eq. cbn. apply running_from_idle. Qed.

Lemma run_covers ls s s' : io_run read_fd pipe_size ls s = Some s' -> covers s s'.
Proof. apply (io_invariant (covers s)); [|done]. intros l s1 s2 H1 H2%covers_step. by etrans. Qed.

Lemma flag_le d fd m : flag d fd m <= 1.
Proof. unfold flag. repeat case_match; lia. Qed.

Lemma reachable_count n ls s fd d :
  io_run read_fd pipe_size ls (io_init n) = Some s -> count s fd d <= flag d fd (m_tracked_sockets s).
Proof. intros Hrun. specialize (run_covers _ _ _ Hrun fd d). unfold count. rewrite live_init. cbn. lia. Qed.

(** ** What select watches *)

(** The socket has a callback that is not executing. *)
Definition wanted (d : direction) (m : gmap Z tracked_socket) (fd : Z) : Prop :=
  exists x, m !! fd = Some x /\ should d x = true.

Lemma init_loop_spec order m fds rd wr ndfs fds' rd' wr' ndfs' :
  init_loop order m fds rd wr ndfs = Some (fds', rd', wr', ndfs') ->
  (forall fd, fd ∈ rd' <-> fd ∈ rd \/ (fd ∈ order /\ wanted Rd m fd)) /\
  (forall fd, fd ∈ wr' <-> fd ∈ wr \/ (fd ∈ order /\ wanted Wr m fd)) /\
  (ndfs <= ndfs')%Z /\
  (forall fd, fd ∈ order -> wanted Rd m fd \/ wanted Wr m fd -> (fd <= ndfs')%Z /\ fd ∈ fds') /\
  fds ⊆ fds'.
Proof.
  revert fds rd wr ndfs. induction order as [|fd order IH]; intros fds rd wr ndfs Hl; cbn [init_loop] in Hl.
  { simplify_eq. split_and!; try done; intros fd; rewrite elem_of_nil; tauto. }
  assert (forall d fd', wanted d m fd' -> fd' = fd -> exists x, m !! fd = Some x /\ should d x = true) as Hw by (intros d fd' ? ->; done).
  destruct (m !! fd) as [x|] eqn:Hx.
  - destruct (_ && negb _); [done|]. apply IH in Hl as (Hr & Hwr & Hn & Hf & Hs). clear IH.
    assert (forall d, wanted d m fd <-> should d x = true) as Hwd.
    { intros d. split; [intros (x' & E & ?); by rewrite Hx in E; simplify_eq|]. intros ?. by exists x. }
    split_and!.
    + intros fd'. rewrite Hr, elem_of_cons. specialize (Hwd Rd). destruct (should Rd x).
      * rewrite elem_of_union, elem_of_singleton. split; [intros [[->|?]|[? ?]]; tauto|intros [?|[[->|?] ?]]; tauto].
      * split; [tauto|]. intros [?|[[->|?] Hd]]; [tauto| |tauto]. by apply Hwd in Hd.
    + intros fd'. rewrite Hwr, elem_of_cons. specialize (Hwd Wr). destruct (should Wr x).
      * rewrite elem_of_union, elem_of_singleton. split; [intros [[->|?]|[? ?]]; tauto|intros [?|[[->|?] ?]]; tauto].
      * split; [tauto|]. intros [?|[[->|?] Hd]]; [tauto| |tauto]. by apply Hwd in Hd.
    + destruct (_ && (ndfs <? fd)%Z) eqn:E; [|done]. apply andb_true_iff in E as [_ E]. lia.
    + intros fd' [->|Hin]%elem_of_cons Hd; [|by apply Hf].
      assert (should Rd x || should Wr x = true) as Hsh by (rewrite !Hwd in Hd; apply orb_true_iff; tauto).
      rewrite Hsh in Hn, Hs. cbn [andb orb] in Hn, Hs. split.
      * destruct (ndfs <? fd)%Z eqn:E; lia.
      * apply Hs, elem_of_app. right. by left.
    + etrans; [|exact Hs]. destruct (should Rd x || should Wr x || marked_for_untrack x); [|done]. intros fd' ?. apply elem_of_app. by left.
  - apply IH in Hl as (Hr & Hwr & Hn & Hf & Hs). clear IH.
    assert (forall d, ~ wanted d m fd) as Hwd by (intros d (x & E & _); congruence).
    split_and!; try done.
    + intros fd'. rewrite Hr, elem_of_cons. split; [tauto|]. intros [?|[[->|?] Hd]]; [tauto|by apply Hwd in Hd|tauto].
    + intros fd'. rewrite Hwr, elem_of_cons. split; [tauto|]. intros [?|[[->|?] Hd]]; [tauto|by apply Hwd in Hd|tauto].
    + intros fd' [->|Hin]%elem_of_cons Hd; [|by apply Hf]. by destruct Hd as [?%Hwd|?%Hwd].
Qed.

(** [select] has been given exactly what the sockets now ask for. *)
Record watches (s : io_service) (ndfs : Z) : Prop := {
  watches_rd : forall fd, fd ∈ m_rd_set s <-> fd = read_fd \/ wanted Rd (m_tracked_sockets s) fd;
  watches_wr : forall fd, fd ∈ m_wr_set s <-> wanted Wr (m_tracked_sockets s) fd;
  watches_ndfs : forall fd, fd ∈ m_rd_set s ∪ m_wr_set s -> (fd < ndfs)%Z /\ fd ∈ m_polled_fds s }.

Definition current (s : io_service) : Prop :=
  forall ndfs, poll_at s = PollSelect ndfs ->
    0 < m_notifier s \/ m_tracked_sockets_mtx s <> Unlocked \/ watches s ndfs.

Lemma init_watches order s ndfs :
  enumerates order (m_tracked_sockets s) = true -> poll_at (init_poll_fds_info read_fd order s) = PollSelect ndfs ->
  watches (init_poll_fds_info read_fd order s) ndfs.
Proof.
  unfold enumerates, init_poll_fds_info. intros [_ Hd%bool_decide_eq_true]%andb_true_iff.
  destruct (fd_fits read_fd); [|done].
  destruct (init_loop _ _ _ _ _ _) as [[[[fds rd] wr] n]|] eqn:E; [|done]. cbn. intros [= <-].
  apply init_loop_spec in E as (Hr & Hw & Hn & Hf & Hs).
  assert (forall d fd, wanted d (m_tracked_sockets s) fd -> fd ∈ order) as Hin.
  { intros d fd (x & Hx & _). apply elem_of_dom_2 in Hx. by rewrite <- Hd, elem_of_list_to_set in Hx. }
  split; cbn.
  - intros fd. rewrite Hr, elem_of_singleton. pose proof (Hin Rd fd). tauto.
  - intros fd. rewrite Hw, elem_of_empty. pose proof (Hin Wr fd). tauto.
  - intros fd. rewrite elem_of_union, Hr, Hw, elem_of_singleton, elem_of_empty.
    intros [[->|[Ho Hwd]]|[[]|[Ho Hwd]]]; [split; [lia|apply Hs; by left]| |];
      (destruct (Hf fd Ho) as [? ?]; [tauto|]); split; [lia|done|lia|done].
Qed.
Lemma notify_inv s s' : notify pipe_size s = Some s' -> s' = set_notifier (S (m_notifier s)) s.
Proof. unfold notify. destruct (_ <? _); by intros [= <-]. Qed.

(** What a step of the workers does not touch. *)
Lemma pool_does_inv l s s' : pool_does l s = Some s' -> exists p, pool_step l (m_callback_workers s) = Some p /\ s' = set_pool p s.
Proof. unfold pool_does. destruct (pool_step l _) as [p|]; [|done]. intros [= <-]. by exists p. Qed.

(** The state of the poll thread is the same. *)
Lemma current_same s s' :
  poll_at s' = poll_at s -> m_notifier s' = m_notifier s -> m_tracked_sockets_mtx s' = m_tracked_sockets_mtx s ->
  m_tracked_sockets s' = m_tracked_sockets s -> m_rd_set s' = m_rd_set s -> m_wr_set s' = m_wr_set s ->
  m_polled_fds s' = m_polled_fds s -> current s -> current s'.
Proof.
  intros Hp Hn Hm Hs Hr Hw Hf Hc ndfs. rewrite Hp, Hn, Hm. intros Hpoll.
  destruct (Hc ndfs Hpoll) as [?|[?|[]]]; [by left|by right; left|right; right].
  split; by rewrite ?Hs, ?Hr, ?Hw, ?Hf.
Qed.

Lemma current_step l s s' : current s -> step l s = Some s' -> current s'.
Proof.
  intros Hc Hs. destruct l as [order|rd wr| |fd rd wr|d fd cb|fd| |l|i threw|i| |]; cbn [io_step] in Hs.
  - intros ndfs. unfold poll_step in Hs. destruct (poll_at s); try done.
    + simplify_eq/=. by destruct (io_should_stop s).
    + apply locked_inv in Hs as [_ Hs]. destruct (enumerates order _) eqn:E; simplify_eq.
      intros Hp. right. right. by apply init_watches.
    + apply locked_inv in Hs as [_ Hs]. destruct (process_events read_fd s); by simplify_eq/=.
  - intros ndfs. unfold select_returns in Hs. destruct (poll_at s); try done. case_decide; by simplify_eq.
  - intros ndfs. unfold select_fails in Hs. destruct (poll_at s); by simplify_eq.
  - apply locked_inv in Hs as [_ [= <-]]. intros ndfs _. right. by left.
  - apply locked_inv in Hs as [_ [= <-]]. intros ndfs _. right. by left.
  - apply locked_inv in Hs as [_ Hs]. apply (inj Some) in Hs as <-.
    destruct (m_tracked_sockets s !! fd); [|apply Hc]. intros ndfs _. right. by left.
  - unfold caller_notifies in Hs. case_decide; [|done]. destruct (notify pipe_size s) as [s1|] eqn:E; simplify_eq/=.
    apply notify_inv in E as ->. intros ndfs _. left. cbn. lia.
  - destruct (free_standing l); [|done]. apply pool_does_inv in Hs as (p & _ & ->). by apply (current_same s).
  - unfold callback_ends in Hs. destruct (m_workers _ !! i) as [[| | | |e|]|]; try done. case_decide; [done|].
    assert (forall s1, pool_does (PReturn i) s = Some s1 -> current s1) as Hret.
    { intros s1 (p & _ & ->)%pool_does_inv. by apply (current_same s). }
    destruct threw; [by apply Hret|]. apply locked_inv in Hs as [_ Hs].
    destruct (m_tracked_sockets s !! event_fd e); [|by apply Hret]. apply (inj Some) in Hs as <-.
    intros ndfs _. right. by left.
  - unfold worker_notifies in Hs. case_decide; [|done]. destruct (notify pipe_size s) as [s1|] eqn:E; [|done]. cbn [mbind option_bind] in Hs.
    apply pool_does_inv in Hs as (p & _ & ->). apply notify_inv in E as ->. intros ndfs _. left. cbn. lia.
  - simplify_eq. by apply (current_same s).
  - apply notify_inv in Hs as ->. intros ndfs _. left. cbn. lia.
Qed.

Lemma reachable_current n ls s : io_run read_fd pipe_size ls (io_init n) = Some s -> current s.
Proof. apply io_invariant; [by intros; eapply current_step|done]. Qed.

(** ** What a turn of the poll thread dispatches *)

Definition ready (d : direction) (s : io_service) : gset Z := match d with Rd => m_rd_set s | Wr => m_wr_set s end.

(** The socket's callback is to be run: it is ready, and no callback of it runs. *)
Definition due (s : io_service) (e : event) : Prop :=
  ~ (event_fd e = read_fd /\ event_fd e ∈ m_rd_set s) /\ event_fd e ∈ ready (event_dir e) s /\
  exists x, m_tracked_sockets s !! event_fd e = Some x /\ executing (event_dir e) x = false /\
    callback_of (event_dir e) x = Some (event_callback e).

(** [s'] comes after [s] when the events of [new] have been queued. *)
Record queues (new : list event) (s s' : io_service) : Prop := {
  queues_rd : m_rd_set s' = m_rd_set s;
  queues_wr : m_wr_set s' = m_wr_set s;
  queues_mtx : m_tracked_sockets_mtx s' = m_tracked_sockets_mtx s;
  queues_notifier : m_notifier s' <= m_notifier s;
  queues_stop : should_stop (m_callback_workers s') = should_stop (m_callback_workers s);
  queues_idle : forall i, m_workers (m_callback_workers s) !! i = Some AtTest -> m_workers (m_callback_workers s') !! i = Some AtTest;
  queues_free : mutex_free (m_callback_workers s) = true -> mutex_free (m_callback_workers s') = true;
  queues_tasks : m_tasks (m_callback_workers s') = m_tasks (m_callback_workers s) ++ new }.

Lemma queues_refl s s' :
  m_rd_set s' = m_rd_set s -> m_wr_set s' = m_wr_set s -> m_tracked_sockets_mtx s' = m_tracked_sockets_mtx s ->
  m_notifier s' <= m_notifier s -> m_callback_workers s' = m_callback_workers s -> queues [] s s'.
Proof. intros Hr Hw Hm Hn Hp. split; try done; rewrite Hp; try done. by rewrite app_nil_r. Qed.

Lemma queues_trans new1 new2 s1 s2 s3 : queues new1 s1 s2 -> queues new2 s2 s3 -> queues (new1 ++ new2) s1 s3.
Proof.
  intros [R1 W1 M1 N1 S1 I1 F1 T1] [R2 W2 M2 N2 S2 I2 F2 T2]. split; [congruence..|lia|congruence|auto|auto|]. by rewrite T2, T1, app_assoc.
Qed.

Lemma add_task_queues e (p : thread_pool event) :
  mutex_free p = true -> exists p', add_task e p = Some p' /\ m_tasks p' = m_tasks p ++ [e] /\ mutex_free p' = true /\
    should_stop p' = should_stop p /\ forall i, m_workers p !! i = Some AtTest -> m_workers p' !! i = Some AtTest.
Proof.
  intros Hf. unfold add_task. rewrite Hf. eexists. split; [done|]. split; [done|].
  split; [|split; [unfold should_stop; cbn; by rewrite length_fmap|intros i Hi; cbn; by rewrite list_lookup_fmap, Hi]].
  apply mutex_free_spec. apply mutex_free_spec in Hf. cbn. intros (w & E & Hw)%list_elem_of_fmap. by destruct w.
Qed.

Definition event_of (fd : Z) (d : direction) (e : event) : Prop := event_fd e = fd /\ event_dir e = d.

(** The end of one direction: its event is queued if it is due, and due no more. *)
Lemma process_ready_spec d fd s :
  mutex_free (m_callback_workers s) = true -> ~ (fd = read_fd /\ fd ∈ m_rd_set s) ->
  exists s' new, process_ready d fd (ready d s) s = Some s' /\ queues new s s' /\
    (forall e, e ∈ new <-> event_of fd d e /\ due s e) /\ (forall e, due s' e <-> due s e /\ ~ event_of fd d e).
Proof.
  intros Hf Hpipe. unfold process_ready.
  assert ((forall e, event_of fd d e -> ~ due s e) -> exists s' new, Some s = Some s' /\ queues new s s' /\
    (forall e, e ∈ new <-> event_of fd d e /\ due s e) /\ (forall e, due s' e <-> due s e /\ ~ event_of fd d e)) as Hnone.
  { intros Hno. exists s, []. split; [done|]. split; [by apply queues_refl|].
    split; intros e; rewrite ?elem_of_nil; specialize (Hno e); tauto. }
  destruct (m_tracked_sockets s !! fd) as [x|] eqn:Hx; cbn [mbind option_bind];
    [|apply Hnone; intros e [<- <-] (_ & _ & ? & ? & _); congruence].
  destruct (executing d x) eqn:Hd; [apply Hnone; intros e [<- <-] (_ & _ & ? & ? & ? & _); congruence|].
  destruct (callback_of d x) as [cb|] eqn:Hcb; [|apply Hnone; intros e [<- <-] (_ & _ & ? & ? & _ & ?); congruence].
  case_decide as Hr; [|apply Hnone; by intros e [<- <-] (_ & ? & _)].
  destruct (add_task_queues (mk_io_event fd d cb) _ Hf) as (p & Ha & Ht & Hm & Hst & Hid). unfold process_event. rewrite Ha. cbn [mbind option_bind].
  eexists _, [mk_io_event fd d cb]. split; [done|]. split; [by split|]. split.
  - intros e. rewrite list_elem_of_singleton. split.
    + intros ->. split; [done|]. by split_and!; [..|exists x].
    + intros [[<- <-] (_ & _ & x' & E & _ & E')]. destruct e. cbn in *. congruence.
  - intros e. unfold due, event_of, ready. cbn [set_pool set_sockets m_rd_set m_wr_set m_tracked_sockets].
    destruct (decide (event_fd e = fd)) as [->|Hne]; [|rewrite lookup_alter_ne by done; tauto].
    rewrite lookup_alter_eq, Hx. cbn [fmap option_fmap option_map]. split.
    + intros (H1 & H2 & y & [= <-] & H3 & H4). rewrite executing_set in H3. case_decide as Hde; [done|].
      split; [|tauto]. split_and!; [done..|]. exists x. by destruct d, (event_dir e).
    + intros [(H1 & H2 & y & [= <-] & H3 & H4) Hn]. split_and!; [done..|]. eexists. split; [done|].
      rewrite executing_set, decide_False by tauto. by destruct d, (event_dir e).
Qed.

Lemma remove_marked_spec fd s :
  queues [] s (remove_marked fd s) /\
  (forall e, event_fd e <> fd -> due (remove_marked fd s) e <-> due s e) /\
  (forall e, due (remove_marked fd s) e -> due s e).
Proof.
  unfold remove_marked. destruct (m_tracked_sockets s !! fd) as [x|]; [|by split_and!; [apply queues_refl|..]].
  destruct (_ && _ && _); [|by split_and!; [apply queues_refl|..]]. split_and!; [by apply queues_refl|..].
  - intros e Hne. unfold due, ready. cbn [set_sockets m_rd_set m_wr_set m_tracked_sockets]. by rewrite lookup_delete_ne.
  - intros e (H1 & H2 & y & Hy & H3). cbn in Hy. apply lookup_delete_Some in Hy as [_ Hy]. split_and!; [done..|]. by exists y.
Qed.

Lemma process_fd_spec fd s :
  mutex_free (m_callback_workers s) = true ->
  exists s' new, process_fd read_fd fd s = Some s' /\ queues new s s' /\
    (forall e, e ∈ new <-> event_fd e = fd /\ due s e) /\ (forall e, due s' e <-> due s e /\ event_fd e <> fd).
Proof.
  intros Hf. unfold process_fd. case_decide as Hpipe.
  { exists (clr_buffer s), []. split; [done|]. split; [apply queues_refl; try done; cbn; lia|].
    assert (forall e, event_fd e = fd -> ~ due s e) as Hno by (intros e <- [? _]; tauto).
    split; intros e; rewrite ?elem_of_nil; specialize (Hno e); [tauto|].
    assert (due (clr_buffer s) e <-> due s e) as -> by done. tauto. }
  destruct (m_tracked_sockets s !! fd) as [x|] eqn:Hx.
  2: { exists s, []. split; [done|]. split; [by apply queues_refl|].
    assert (forall e, event_fd e = fd -> ~ due s e) as Hno by (intros e <- (_ & _ & ? & ? & _); congruence).
    split; intros e; rewrite ?elem_of_nil; specialize (Hno e); tauto. }
  destruct (process_ready_spec Rd fd s Hf Hpipe) as (s1 & new1 & E1 & Q1 & N1 & D1). cbn [ready] in E1. rewrite E1. cbn [mbind option_bind].
  destruct (process_ready_spec Wr fd s1) as (s2 & new2 & E2 & Q2 & N2 & D2);
    [by apply (queues_free _ _ _ Q1)|by rewrite (queues_rd _ _ _ Q1)|]. cbn [ready] in E2. rewrite E2. cbn [mbind option_bind].
  destruct (remove_marked_spec fd s2) as (Q3 & D3 & D4).
  exists (remove_marked fd s2), (new1 ++ new2). split; [done|].
  split; [rewrite <- (app_nil_r (new1 ++ new2)); by eapply queues_trans, Q3; eapply queues_trans|].
  assert (forall e, event_fd e = fd <-> event_of fd Rd e \/ event_of fd Wr e) as Hdir.
  { intros e. unfold event_of. destruct (event_dir e); split; [by left|by intros [[]|[]]|by right|by intros [[]|[]]]. }
  split; intros e; specialize (N1 e); specialize (D1 e); specialize (N2 e); specialize (D2 e); specialize (Hdir e).
  - assert (~ (event_of fd Rd e /\ event_of fd Wr e)) by (intros [[_ ?] [_ ?]]; congruence). rewrite elem_of_app. tauto.
  - specialize (D4 e). destruct (decide (event_fd e = fd)) as [He|He]; [tauto|]. rewrite D3 by done. tauto.
Qed.

Lemma process_fds_spec fds s :
  mutex_free (m_callback_workers s) = true ->
  exists s' new, process_fds read_fd fds s = Some s' /\ queues new s s' /\ (forall e, e ∈ new <-> event_fd e ∈ fds /\ due s e).
Proof.
  revert s. induction fds as [|fd fds IH]; intros s Hf; cbn [process_fds].
  { exists s, []. split; [done|]. split; [by apply queues_refl|]. intros e. rewrite !elem_of_nil. tauto. }
  destruct (process_fd_spec fd s Hf) as (s1 & new1 & -> & Q1 & N1 & D1). cbn [mbind option_bind].
  destruct (IH s1 (queues_free _ _ _ Q1 Hf)) as (s2 & new2 & -> & Q2 & N2).
  exists s2, (new1 ++ new2). split; [done|]. split; [by eapply queues_trans|].
  intros e. rewrite elem_of_app, elem_of_cons, N1, N2, D1. destruct (decide (event_fd e = fd)); tauto.
Qed.

Lemma io_run_snoc ls l s s' : io_run read_fd pipe_size ls s = Some s' ->
  forall s2, step l s' = Some s2 -> io_run read_fd pipe_size (ls ++ [l]) s = Some s2.
Proof.
  revert s. induction ls as [|l1 ls IH]; intros s Hrun s2 Hs; cbn [app io_run] in *; [simplify_eq; by rewrite Hs|].
  destruct (step l1 s); [|done]. by apply IH.
Qed.

(** ** What goes wrong *)

(** A callback that throws is over, and nothing else has changed. *)
Lemma throw_drops i e s s' :
  m_workers (m_callback_workers s) !! i = Some (Running e) -> callback_ends i true s = Some s' ->
  S (count s' (event_fd e) (event_dir e)) <= count s (event_fd e) (event_dir e) /\
  m_tracked_sockets s' = m_tracked_sockets s.
Proof.
  intros Hi. unfold callback_ends. rewrite Hi. case_decide as Hh; [done|]. intros (p & E & ->)%pool_does_inv. split; [|done].
  unfold count, live. cbn [set_pool m_tracked_sockets_mtx m_callback_workers].
  assert (live_in (m_tracked_sockets_mtx s) (m_callback_workers s) ≡ₚ e :: live_in (m_tracked_sockets_mtx s) p) as ->;
    [|rewrite callbacks_on_cons, decide_True by done; lia].
  cbn [pool_step] in E. unfold task_returns in E. rewrite Hi in E. simplify_eq. rewrite !live_in_eq.
  cbn [set_worker set_workers m_tasks m_workers]. pose proof (running_from_insert (m_tracked_sockets_mtx s) 0 i _ AtTest _ Hi) as Hp.
  cbn [plus running_event] in Hp. rewrite decide_False in Hp by done. cbn [app] in Hp. by rewrite <- Hp, Permutation_middle.
Qed.

(** The mutex is held, and the pipe is full. *)
Record stuck_from (s s' : io_service) : Prop := {
  stuck_mtx : m_tracked_sockets_mtx s' = m_tracked_sockets_mtx s;
  stuck_notifier : m_notifier s' = m_notifier s;
  stuck_sockets : m_tracked_sockets s' = m_tracked_sockets s;
  stuck_live : live s' ⊆+ live s }.

Lemma locked_held {A} s (body : option A) : m_tracked_sockets_mtx s <> Unlocked -> locked s body = None.
Proof. intros Hm. unfold locked. by rewrite decide_False. Qed.

Lemma notify_full s : pipe_size <= m_notifier s -> notify pipe_size s = None.
Proof. intros Hp. unfold notify. by rewrite (proj2 (Nat.ltb_ge _ _)). Qed.

Lemma stuck_step l s s1 s2 :
  m_tracked_sockets_mtx s <> Unlocked -> pipe_size <= m_notifier s -> stuck_from s s1 -> step l s1 = Some s2 -> stuck_from s s2.
Proof.
  intros Hm Hp [E1 E2 E3 E4] Hs. rewrite <- E1 in Hm. rewrite <- E2 in Hp.
  destruct l as [order|rd wr| |fd rd wr|d fd cb|fd| |l|i threw|i| |]; cbn [io_step] in Hs;
    unfold track, set_event_callback, untrack, caller_notifies, worker_notifies in Hs;
    rewrite ?locked_held, ?notify_full in Hs by done; try done; try by case_decide.
  - unfold poll_step in Hs. destruct (poll_at s1); try done; [by simplify_eq| |]; by rewrite locked_held in Hs.
  - unfold select_returns in Hs. destruct (poll_at s1); try done. case_decide; by simplify_eq.
  - unfold select_fails in Hs. destruct (poll_at s1); by simplify_eq.
  - destruct (free_standing l) eqn:Hl; [|done]. apply pool_does_inv in Hs as (p & Hs & ->). split; try done.
    etrans; [by eapply pool_live|done].
  - unfold callback_ends in Hs. destruct (m_workers _ !! i) as [[| | | |e|]|]; try done. case_decide; [done|].
    destruct threw; [|by rewrite locked_held in Hs]. apply pool_does_inv in Hs as (p & Hs & ->). split; try done.
    etrans; [by eapply pool_return_live|done].
  - by simplify_eq.
Qed.
End facts.
