(* ===== verification/IoServiceFlags.v ===== *)
(** Facts about the io_service, the other way round: while the callbacks of a socket
    do not throw, the flag of a direction is set only when a callback of this
    direction is queued or executes, so that a socket that is not watched for what
    it asks is one whose callback is on its way. *)

From S2P Require Import Prelude ThreadPool IoService IoServiceFacts.

(** The worker that holds the mutex is at the end of its callback. *)
Definition holder_runs (h : holder) (p : thread_pool event) : Prop :=
  forall i, h = ByWorker i -> exists e, m_workers p !! i = Some (Running e).

Lemma holder_insert h i w w' p p' :
  holder_runs h p -> m_workers p !! i = Some w -> m_workers p' = <[i := w']> (m_workers p) ->
  (h = ByWorker i -> exists e, w' = Running e) -> holder_runs h p'.
Proof.
  intros Hh Hi Hp Hw j Hj. destruct (Hh j Hj) as [e He]. rewrite Hp. destruct (decide (i = j)) as [->|Hne].
  - destruct (Hw Hj) as [e' ->]. exists e'. apply list_lookup_insert_eq. by eapply lookup_lt_Some.
  - exists e. by rewrite list_lookup_insert_ne.
Qed.

Lemma holder_wake h p p' : holder_runs h p -> m_workers p' = wake <$> m_workers p -> holder_runs h p'.
Proof. intros Hh Hp j Hj. destruct (Hh j Hj) as [e He]. exists e. by rewrite Hp, list_lookup_fmap, He. Qed.

Lemma holder_free h p : (forall i, h <> ByWorker i) -> holder_runs h p.
Proof. intros Hh i Hi. by destruct (Hh i). Qed.

(** The callbacks that are there stay, and so does the worker that holds the mutex. *)
Lemma pool_live_kept h l p p' :
  free_standing l = true -> holder_runs h p -> pool_step l p = Some p' ->
  Permutation (live_in h p') (live_in h p) /\ holder_runs h p'.
Proof.
  rewrite !live_in_eq. intros Hl Hh Hs.
  assert (forall i w w', m_workers p !! i = Some w -> (forall e, w <> Running e) -> (forall e, w' <> Running e) ->
    Permutation (m_tasks p ++ running_from h 0 (<[i := w']> (m_workers p))) (m_tasks p ++ running_from h 0 (m_workers p)) /\
    holder_runs h (set_worker i w' p)) as Hset.
  { intros i w w' Hi Hw Hw'. split.
    - f_equiv. pose proof (running_from_insert h 0 i w w' _ Hi) as Hp. cbn [plus] in Hp.
      assert (forall x, (forall e, x <> Running e) -> running_event h i x = []) as Hx
        by (intros x Hx; unfold running_event; destruct x; try done; by destruct (Hx t)).
      by rewrite !Hx in Hp by done.
    - eapply holder_insert; [exact Hh|exact Hi|done|]. intros Hj. destruct (Hh i Hj) as [e He]. congruence. }
  destruct l as [i|i|i|t| | | |n|]; try done; cbn [pool_step] in Hs.
  - unfold run_step in Hs. destruct (m_workers p !! i) as [w|] eqn:Hi; [|done].
    destruct w; simplify_eq/=; try by eapply (Hset i); [exact Hi|done|try by destruct (should_stop p)].
    unfold fetch_task in Hs. destruct (mutex_free p); [|done]. destruct (should_stop p); [simplify_eq/=; by eapply (Hset i)|].
    destruct (m_tasks p) as [|t ts] eqn:Et; simplify_eq/=; [rewrite Et; by eapply (Hset i AtFetch)|].
    assert (h <> ByWorker i) as Hne by (intros Hj; destruct (Hh i Hj) as [e He]; congruence).
    pose proof (running_from_insert h 0 i AtFetch (Running t) _ Hi) as Hp. cbn [plus app running_event] in Hp.
    rewrite Hp, decide_False by done. split; [cbn [app]; by rewrite Permutation_middle|].
    eapply holder_insert; [exact Hh|exact Hi|done|done].
  - unfold wake_up in Hs. destruct (m_workers p !! i) as [[]|] eqn:Hi; simplify_eq/=. by eapply (Hset i).
  - unfold stop_flag in Hs. destruct (is_running p); by simplify_eq/=.
  - simplify_eq/=. rewrite running_from_wake. split; [done|]. by eapply holder_wake.
  - unfold stop_join in Hs. destruct (_ && _) eqn:E; simplify_eq/=. apply andb_true_iff in E as [_ E].
    assert (forall i e, m_workers p !! i <> Some (Running e)) as Hno.
    { intros i e Hi%list_elem_of_lookup_2%list_elem_of_In. by apply (proj1 (forallb_forall _ _) E) in Hi. }
    split; [|intros i Hi; by destruct (Hh i Hi) as [e He%Hno]]. f_equiv. clear -E.
    generalize 0 as k. induction (m_workers p) as [|w ws IH]; intros k; [done|]. cbn in E. destruct w; try done. apply (IH E).
  - by simplify_eq/=.
  - simplify_eq/=. unfold adjust. destruct (_ <? _); cbn [set_workers m_tasks m_workers notify_all].
    + rewrite running_from_app, running_from_idle, app_nil_r. split; [done|]. intros i Hi. destruct (Hh i Hi) as [e He].
      exists e. cbn. by apply lookup_app_l_Some.
    + rewrite running_from_wake. split; [done|]. by eapply holder_wake.
Qed.

Section facts.
Context (read_fd : Z) (pipe_size : nat) (fd : Z).

Abbreviation step := (io_step read_fd pipe_size).

(** A set flag of the socket is that of a callback of it. *)
Definition backed (s : io_service) : Prop :=
  holder_runs (m_tracked_sockets_mtx s) (m_callback_workers s) /\
  forall d, flag d fd (m_tracked_sockets s) <= count s fd d.

(** The callbacks stay, and the flags are set no more than they were. *)
Lemma backed_kept s s' :
  backed s -> holder_runs (m_tracked_sockets_mtx s') (m_callback_workers s') -> Permutation (live s') (live s) ->
  (forall d, flag d fd (m_tracked_sockets s') <= flag d fd (m_tracked_sockets s)) -> backed s'.
Proof. intros [_ Hc] Hh' Hl Hf. split; [done|]. intros d. unfold count. rewrite Hl. specialize (Hc d). specialize (Hf d). unfold count in Hc. lia. Qed.

Lemma backed_same s s' :
  backed s -> m_tracked_sockets s' = m_tracked_sockets s -> m_tracked_sockets_mtx s' = m_tracked_sockets_mtx s ->
  m_callback_workers s' = m_callback_workers s -> backed s'.
Proof. intros [Hh Hc] Hm Hx Hp. unfold backed, count, live. by rewrite Hm, Hx, Hp. Qed.

(** A section of a caller, or its end. *)
Lemma backed_section s s' :
  backed s -> m_callback_workers s' = m_callback_workers s -> (forall i, m_tracked_sockets_mtx s <> ByWorker i) ->
  (forall i, m_tracked_sockets_mtx s' <> ByWorker i) ->
  (forall d, flag d fd (m_tracked_sockets s') <= flag d fd (m_tracked_sockets s)) -> backed s'.
Proof.
  intros Hb Hp Hx Hx' Hf. apply (backed_kept s); [done|by apply holder_free| |done]. by rewrite (live_caller s).
Qed.

Lemma flag_deleted d fd' m : flag d fd (delete fd' m) <= flag d fd m.
Proof.
  unfold flag. destruct (decide (fd' = fd)) as [->|Hne]; [rewrite lookup_delete_eq; lia|by rewrite lookup_delete_ne].
Qed.

Lemma backed_process_event d fd' cb s s' : backed s -> process_event d fd' cb s = Some s' -> backed s'.
Proof.
  unfold process_event. intros [Hh Hc]. destruct (add_task _ _) as [p|] eqn:Ea; [|done]. intros [= <-]. split.
  - cbn. unfold add_task in Ea. destruct (mutex_free _); simplify_eq/=. by eapply holder_wake.
  - intros d'. specialize (Hc d'). unfold count, live in *. cbn [set_pool set_sockets m_tracked_sockets_mtx m_callback_workers m_tracked_sockets].
    rewrite (add_task_live _ _ _ _ Ea), callbacks_on_cons. cbn [event_fd event_dir]. unfold flag in *.
    destruct (decide (fd' = fd)) as [->|Hne].
    + rewrite lookup_alter_eq. destruct (m_tracked_sockets s !! fd) as [x|]; cbn [fmap option_fmap option_map]; [|lia].
      rewrite executing_set. destruct (decide (d' = d)) as [->|Hne]; [rewrite decide_True by done; lia|].
      rewrite decide_False by (intros [_ ?]; congruence). lia.
    + rewrite decide_False by (intros [? _]; congruence). by rewrite lookup_alter_ne.
Qed.

Lemma backed_process_ready d fd' ready s s' : backed s -> process_ready d fd' ready s = Some s' -> backed s'.
Proof.
  unfold process_ready. intros Hb. case_match; [|by intros [= <-]]. case_decide; [by apply backed_process_event|by intros [= <-]].
Qed.

Lemma backed_process_fd fd' s s' : backed s -> process_fd read_fd fd' s = Some s' -> backed s'.
Proof.
  unfold process_fd. intros Hb. case_decide; [intros [= <-]; by apply (backed_same s)|].
  destruct (m_tracked_sockets s !! fd'); [|by intros [= <-]].
  destruct (process_ready Rd fd' (m_rd_set s) s) as [s1|] eqn:E1; [|done]. cbn.
  destruct (process_ready Wr fd' (m_wr_set s1) s1) as [s2|] eqn:E2; [|done]. cbn. intros [= <-].
  apply backed_process_ready in E1; [|done]. apply backed_process_ready in E2; [|done].
  unfold remove_marked. destruct (m_tracked_sockets s2 !! fd'); [|done]. destruct (_ && _ && _); [|done].
  apply (backed_kept s2); [done|by destruct E2|done|]. intros d. apply flag_deleted.
Qed.

Lemma backed_process_fds fds s s' : backed s -> process_fds read_fd fds s = Some s' -> backed s'.
Proof.
  revert s. induction fds as [|f fds IH]; intros s Hb Hs; cbn [process_fds] in Hs; [by simplify_eq|].
  destruct (process_fd read_fd f s) as [s1|] eqn:E; [|done]. eapply IH; [|exact Hs]. by eapply backed_process_fd.
Qed.

(** The callback of worker [i] returns; when it is the socket's, its flag is not set. *)
Lemma backed_return i e s s' :
  backed s -> m_workers (m_callback_workers s) !! i = Some (Running e) -> m_tracked_sockets_mtx s <> ByWorker i ->
  (event_fd e = fd -> flag (event_dir e) fd (m_tracked_sockets s) = 0) -> pool_does (PReturn i) s = Some s' -> backed s'.
Proof.
  intros [Hh Hc] Hi Hx Hf (p & Hp & ->)%pool_does_inv. cbn [pool_step] in Hp. unfold task_returns in Hp. rewrite Hi in Hp. injection Hp as <-.
  split; [eapply holder_insert; [exact Hh|exact Hi|done|done]|]. intros d. specialize (Hc d). unfold count, live in *.
  rewrite live_in_eq in *. cbn [set_pool m_tracked_sockets_mtx m_callback_workers m_tracked_sockets set_worker set_workers m_tasks m_workers].
  pose proof (running_from_insert (m_tracked_sockets_mtx s) 0 i _ AtTest _ Hi) as Hp. cbn [plus running_event app] in Hp.
  rewrite decide_False in Hp by done. cbn [app] in Hp. rewrite <- Hp, Permutation_app_comm in Hc. cbn [app] in Hc.
  rewrite callbacks_on_cons, (Permutation_app_comm _ (m_tasks _)) in Hc.
  case_decide as Hd; [|exact Hc]. destruct Hd as [Hfd <-]. rewrite Hf by done. lia.
Qed.

Lemma backed_callback_ends i threw s s' :
  backed s -> (threw = true -> forall e, worker_event i s = Some e -> event_fd e <> fd) ->
  callback_ends i threw s = Some s' -> backed s'.
Proof.
  unfold callback_ends. intros Hb Ht Hs. destruct (m_workers _ !! i) as [w|] eqn:Hi; [|done]. destruct w as [| | | |e|]; try done.
  case_decide as Hx; [done|]. destruct threw.
  { eapply backed_return; [exact Hb|exact Hi|exact Hx| |exact Hs]. intros Hfd. exfalso. apply (Ht eq_refl e); [|done].
    unfold worker_event, in_callback. by rewrite Hi, decide_False. }
  apply locked_inv in Hs as [Hu Hs]. destruct (m_tracked_sockets s !! event_fd e) as [x|] eqn:Hm.
  2:{ eapply backed_return; [exact Hb|exact Hi|exact Hx| |exact Hs]. intros <-. unfold flag. by rewrite Hm. }
  apply (inj Some) in Hs as <-. destruct Hb as [Hh Hc]. split; [intros j [= <-]; by exists e|].
  intros d. specialize (Hc d). unfold count, live in *. rewrite Hu, (live_ending _ _ _ Hi), callbacks_on_cons in Hc.
  cbn [set_mtx set_sockets m_tracked_sockets_mtx m_callback_workers m_tracked_sockets]. case_decide as Hd.
  - destruct Hd as [<- <-]. etrans; [|apply Nat.le_0_l]. unfold flag.
    destruct (_ && _); [by rewrite lookup_delete_eq|]. by rewrite lookup_insert_eq, executing_set, decide_True.
  - etrans; [|exact Hc]. cbn [plus]. destruct (_ && _); [apply flag_deleted|]. rewrite flag_insert. case_decide as Hd'; [|done].
    subst fd. rewrite executing_set, decide_False by naive_solver. by rewrite (flag_at _ _ _ _ Hm).
Qed.

(** No step but a callback of the socket that throws leaves a flag behind. *)
Lemma backed_step l s s' :
  backed s -> (forall i e, l = ICallback i true -> worker_event i s = Some e -> event_fd e <> fd) ->
  step l s = Some s' -> backed s'.
Proof.
  intros Hb Ht Hs. destruct l as [order|rd wr| |fd' rd wr|d fd' cb|fd'| |l|i threw|i| |]; cbn [io_step] in Hs.
  - unfold poll_step in Hs. destruct (poll_at s); try done; [simplify_eq; by apply (backed_same s)| |].
    + apply locked_inv in Hs as [_ Hs]. destruct (enumerates _ _); simplify_eq. unfold init_poll_fds_info.
      repeat case_match; by apply (backed_same s).
    + apply locked_inv in Hs as [_ Hs]. destruct (process_events read_fd s) as [s1|] eqn:E; simplify_eq/=.
      apply backed_process_fds in E; [|done]. by apply (backed_same s1).
  - unfold select_returns in Hs. destruct (poll_at s); try done. case_decide; simplify_eq. by apply (backed_same s).
  - unfold select_fails in Hs. destruct (poll_at s); simplify_eq. by apply (backed_same s).
  - apply locked_inv in Hs as [Hu [= <-]]. apply (backed_section s); [done..|by rewrite Hu|done|]. intros d. cbn.
    rewrite flag_same; [done|]. rewrite <- executing_socket_at. by destruct d.
  - apply locked_inv in Hs as [Hu [= <-]]. apply (backed_section s); [done..|by rewrite Hu|done|]. intros d'. cbn.
    rewrite flag_same; [done|]. rewrite <- executing_socket_at. by destruct d, d'.
  - apply locked_inv in Hs as [Hu Hs]. apply (inj Some) in Hs as <-. destruct (m_tracked_sockets s !! fd') as [x|] eqn:Hx; [|done].
    apply (backed_section s); [done|by destruct (_ || _)|by rewrite Hu|done|]. intros d. destruct (_ || _); cbn; [|apply flag_deleted].
    rewrite flag_same; [done|]. rewrite (flag_at _ _ _ _ Hx). by destruct d.
  - unfold caller_notifies in Hs. case_decide as Hx; [|done]. destruct (notify pipe_size s) as [s1|] eqn:E; simplify_eq/=.
    apply notify_inv in E as ->. apply (backed_section s); [done..|by rewrite Hx|done|done].
  - destruct (free_standing l) eqn:Hl; [|done]. apply pool_does_inv in Hs as (p & Hp & ->). pose proof Hb as [Hh _].
    apply (pool_live_kept (m_tracked_sockets_mtx s)) in Hp as [Hp Hh']; [|done..]. by apply (backed_kept s).
  - eapply backed_callback_ends; [exact Hb| |exact Hs]. intros -> e. by apply Ht.
  - unfold worker_notifies in Hs. case_decide as Hx; [|done]. destruct (notify pipe_size s) as [s1|] eqn:E; [|done]. cbn [mbind option_bind] in Hs.
    apply notify_inv in E as ->. apply pool_does_inv in Hs as (p & Hp & ->). cbn [set_mtx set_notifier m_callback_workers] in Hp.
    apply (backed_kept s); [done|by apply holder_free| |done]. unfold live. cbn. rewrite Hx. by apply live_ended.
  - simplify_eq. by apply (backed_same s).
  - apply notify_inv in Hs as ->. by apply (backed_same s).
Qed.

(** Whether the callbacks of a direction can be started: the flag says so exactly. *)
Lemma backed_idle n ls s d x :
  io_run read_fd pipe_size ls (io_init n) = Some s -> backed s -> m_tracked_sockets s !! fd = Some x ->
  executing d x = false <-> forall e, e ∈ live s -> ~ (event_fd e = fd /\ event_dir e = d).
Proof.
  intros Hrun [_ Hc] Hx. pose proof (reachable_count _ _ _ _ _ fd d Hrun) as Hle. specialize (Hc d).
  rewrite (flag_at _ _ _ _ Hx) in *. unfold count in *. split.
  - intros He e Hin Hd. rewrite He in Hle. assert (e ∈ callbacks_on fd d (live s)) as Hcb by by apply list_elem_of_filter.
    destruct (callbacks_on _ _ _); [by apply not_elem_of_nil in Hcb|cbn in Hle; lia].
  - intros Hno. destruct (executing d x); [|done]. destruct (callbacks_on fd d (live s)) as [|e l] eqn:E; [cbn in Hc; lia|].
    assert (e ∈ callbacks_on fd d (live s)) as Hin by (rewrite E; by left). apply list_elem_of_filter in Hin as [Hd Hin].
    by destruct (Hno e).
Qed.
End facts.
