(* ===== verification/IoServiceTheorems.v ===== *)
(** The properties of the io_service, with their witnesses. *)

From S2P Require Import Prelude ThreadPool IoService IoServiceFacts.

Lemma callbacks_on_none fd d l : length (callbacks_on fd d l) = 0 -> forall e, e ∈ l -> ~ (event_fd e = fd /\ event_dir e = d).
Proof.
  intros Hl e He Hm. assert (e ∈ callbacks_on fd d l) as Hin by by apply list_elem_of_filter.
  apply length_zero_iff_nil in Hl. rewrite Hl in Hin. by apply not_elem_of_nil in Hin.
Qed.

Lemma callbacks_on_nodup l : (forall fd d, length (callbacks_on fd d l) <= 1) -> NoDup l.
Proof.
  induction l as [|e l IH]; intros Hl; constructor.
  - intros He. specialize (Hl (event_fd e) (event_dir e)). rewrite callbacks_on_cons, decide_True in Hl by done.
    by apply (callbacks_on_none (event_fd e) (event_dir e) l ltac:(lia) e He).
  - apply IH. intros fd d. specialize (Hl fd d). rewrite callbacks_on_cons in Hl. lia.
Qed.

Lemma removed_spec fd s : removed fd s = true -> m_tracked_sockets_mtx s = Unlocked /\ m_tracked_sockets s !! fd = None.
Proof. unfold removed. by intros [?%bool_decide_eq_true ?%bool_decide_eq_true]%andb_true_iff. Qed.

(** A client that asks the default service for fewer workers than it has ends them
    all ([smaller_pool_dies]): a pool of [n] threads becomes overfull. *)
Lemma smaller_default_service n k : k < n -> overfull (m_callback_workers (get_default_io_service k (Some (io_init n)))).
Proof.
  intros Hk. unfold overfull, get_default_io_service, set_nb_workers, adjust.
  cbn [m_callback_workers set_pool io_init set_nb m_workers m_nb_threads pool_init]. rewrite repeat_length.
  rewrite (proj2 (Nat.ltb_ge _ _)) by lia. cbn. by rewrite length_fmap, repeat_length.
Qed.

Section properties.
Context (read_fd : Z) (pipe_size : nat).

Abbreviation run := (io_run read_fd pipe_size).

(** C14: A socket has one callback of a direction at a time, and none after its
    removal: whatever callers, workers and the poll thread do, and in any order, at
    most one read callback and one write callback of a descriptor are queued or
    execute; and when [wait_for_removal] may return, none is, so that what the
    callbacks refer to can go. *)
Theorem removed_socket_is_quiet n ls s :
  run ls (io_init n) = Some s ->
  (forall fd d, length (callbacks_on fd d (live s)) <= 1) /\
  (forall fd e, removed fd s = true -> e ∈ live s -> event_fd e <> fd).
Proof.
  intros Hrun. pose proof (reachable_count read_fd pipe_size n ls s) as Hc. unfold count in Hc. split.
  - intros fd d. specialize (Hc fd d Hrun). pose proof (flag_le d fd (m_tracked_sockets s)). lia.
  - intros fd e [_ Hnone]%removed_spec He Hfd. specialize (Hc fd (event_dir e) Hrun).
    unfold flag in Hc. rewrite Hnone in Hc. by eapply (callbacks_on_none fd (event_dir e)); [|exact He|]; [lia|].
Qed.

(** The turn of the poll thread that follows an answer of [select]. *)
Lemma select_queues n ls s ndfs rd wr s1 order :
  run ls (io_init n) = Some s -> poll_at s = PollSelect ndfs -> m_notifier s = 0 -> m_tracked_sockets_mtx s = Unlocked ->
  select_returns read_fd rd wr s = Some s1 -> mutex_free (m_callback_workers s) = true ->
  exists s2 new, poll_step read_fd order s1 = Some s2 /\ poll_at s2 = PollTest /\ queues new s1 s2 /\ NoDup new /\
    forall e, e ∈ new <-> event_fd e ∈ (match event_dir e with Rd => rd | Wr => wr end) /\
      exists x, m_tracked_sockets s !! event_fd e = Some x /\ callback_of (event_dir e) x = Some (event_callback e).
Proof.
  intros Hrun Hp Hn Hu Hsel Hf. destruct (reachable_current _ _ _ _ _ Hrun ndfs Hp) as [?|[?|[Hr Hw Hb]]]; [lia|done|].
  pose proof (io_run_snoc read_fd pipe_size ls (ISelect rd wr) _ _ Hrun) as Hrun1. cbn [io_step] in Hrun1.
  unfold select_returns in *. rewrite Hp in *. case_decide as Hs; [|done]. destruct Hs as (Hrd & Hwr & _ & _ & Hpipe).
  rewrite Hn in Hpipe. apply (inj Some) in Hsel as <-. specialize (Hrun1 _ eq_refl).
  unfold poll_step. cbn [poll_at set_poll]. unfold locked. cbn [m_tracked_sockets_mtx set_poll set_polled]. rewrite decide_True by done.
  set (s1 := set_poll PollProcess (set_polled (m_polled_fds s) rd wr s)) in *.
  destruct (process_fds_spec read_fd (m_polled_fds s1) s1 Hf) as (s2 & new & E & Q & Hnew).
  unfold process_events. rewrite E. cbn [mbind option_bind]. exists (set_poll PollTest s2), new.
  split; [done|]. split; [done|]. split; [by destruct Q|].
  pose proof (io_run_snoc read_fd pipe_size _ (IPoll order) _ _ Hrun1 (set_poll PollTest s2)) as Hrun2.
  split.
  - apply callbacks_on_nodup. intros fd d.
    assert (run ((ls ++ [ISelect rd wr]) ++ [IPoll order]) (io_init n) = Some (set_poll PollTest s2)) as Hr2.
    { apply Hrun2. cbn [io_step]. unfold poll_step, locked. cbn [poll_at set_poll s1 m_tracked_sockets_mtx set_polled]. rewrite decide_True by done.
      unfold process_events. by rewrite E. }
    pose proof (reachable_count _ _ _ _ _ fd d Hr2) as Hc. pose proof (flag_le d fd (m_tracked_sockets (set_poll PollTest s2))).
    etrans; [|etrans; [exact Hc|done]]. apply callbacks_on_submseteq. unfold live, live_in. cbn [set_poll m_callback_workers].
    rewrite (queues_tasks _ _ _ Q). rewrite <- app_assoc. apply submseteq_inserts_l, submseteq_inserts_r. done.
  - intros e. rewrite Hnew. unfold due, ready. cbn [s1 set_poll set_polled m_rd_set m_wr_set m_tracked_sockets m_polled_fds].
    split; [intros (_ & _ & Hin & x & Hx & _ & Hcb); split; [done|by exists x]|].
    intros [Hin (x & Hx & Hcb)].
    assert (wanted (event_dir e) (m_tracked_sockets s) (event_fd e) /\ event_fd e ∈ m_polled_fds s) as [(x' & Hx' & Hsh) Hpo].
    { destruct (event_dir e).
      - pose proof (Hrd _ Hin) as Hin'. split; [|by apply Hb, elem_of_union; left]. apply Hr in Hin' as [E'|?]; [|done].
        rewrite E' in Hin. apply Hpipe in Hin. lia.
      - pose proof (Hwr _ Hin) as Hin'. split; [by apply Hw|by apply Hb, elem_of_union; right]. }
    split; [done|]. split; [intros [E' Hin']; rewrite E' in Hin'; apply Hpipe in Hin'; lia|]. split; [done|].
    exists x. rewrite Hx in Hx'. simplify_eq. unfold should in Hsh. rewrite Hcb in Hsh. apply negb_true_iff in Hsh. by split_and!.
Qed.

(** C15: What [select] waits for is current: while it waits on an empty pipe and no
    section is being left, it watches for reading the pipe and exactly the sockets
    that have a read callback that does not execute, and so for writing; and when it
    then reports descriptors, the next turn queues one callback for each of them,
    the one last set, and nothing else. *)
Theorem ready_callbacks_are_queued n ls s ndfs :
  run ls (io_init n) = Some s -> poll_at s = PollSelect ndfs -> m_notifier s = 0 ->
  m_tracked_sockets_mtx s = Unlocked ->
  (forall fd, fd ∈ m_rd_set s <-> fd = read_fd \/ wanted Rd (m_tracked_sockets s) fd) /\
  (forall fd, fd ∈ m_wr_set s <-> wanted Wr (m_tracked_sockets s) fd) /\
  forall rd wr s1 order, select_returns read_fd rd wr s = Some s1 -> mutex_free (m_callback_workers s) = true ->
    exists s2 new, poll_step read_fd order s1 = Some s2 /\ poll_at s2 = PollTest /\
      m_tasks (m_callback_workers s2) = m_tasks (m_callback_workers s) ++ new /\ NoDup new /\
      forall e, e ∈ new <-> event_fd e ∈ (match event_dir e with Rd => rd | Wr => wr end) /\
        exists x, m_tracked_sockets s !! event_fd e = Some x /\ callback_of (event_dir e) x = Some (event_callback e).
Proof.
  intros Hrun Hp Hn Hu. destruct (reachable_current _ _ _ _ _ Hrun ndfs Hp) as [?|[?|[Hr Hw _]]]; [lia|done|].
  split; [done|]. split; [done|]. intros rd wr s1 order Hsel Hf.
  destruct (select_queues n ls s ndfs rd wr s1 order Hrun Hp Hn Hu Hsel Hf) as (s2 & new & E & Hp2 & Q & Hnd & Hnew).
  exists s2, new. split_and!; try done. rewrite (queues_tasks _ _ _ Q). unfold select_returns in Hsel.
  rewrite Hp in Hsel. case_decide; [|done]. by injection Hsel as <-.
Qed.

(** A callback that throws wedges its socket: the flag that it executes is never
    cleared, so in every later state the socket is still tracked, [wait_for_removal]
    does not return, and no callback of that direction is queued again. *)
Theorem throwing_callback_wedges n ls s i e s1 :
  run ls (io_init n) = Some s -> m_workers (m_callback_workers s) !! i = Some (Running e) ->
  callback_ends i true s = Some s1 ->
  forall ls2 s2, run ls2 s1 = Some s2 ->
    (exists x, m_tracked_sockets s2 !! event_fd e = Some x /\ executing (event_dir e) x = true) /\
    removed (event_fd e) s2 = false /\ callbacks_on (event_fd e) (event_dir e) (live s2) = [].
Proof.
  intros Hrun Hi Hs ls2 s2 Hrun2. pose proof (reachable_count _ _ _ _ _ (event_fd e) (event_dir e) Hrun) as Hc.
  pose proof (run_covers _ _ _ _ _ Hrun2 (event_fd e) (event_dir e)) as Hcov.
  pose proof (flag_le (event_dir e) (event_fd e) (m_tracked_sockets s2)).
  assert (S (count s1 (event_fd e) (event_dir e)) <= count s (event_fd e) (event_dir e) /\ m_tracked_sockets s1 = m_tracked_sockets s) as [Hl Hm].
  { by apply (throw_drops i). }
  rewrite Hm in Hcov. assert (flag (event_dir e) (event_fd e) (m_tracked_sockets s2) = 1 /\ count s2 (event_fd e) (event_dir e) = 0) as [Hf Hz] by lia.
  unfold flag in Hf. destruct (m_tracked_sockets s2 !! event_fd e) as [x|] eqn:Hx; [|done]. destruct (executing (event_dir e) x) eqn:He; [|done].
  split; [by exists x|]. split; [|by apply length_zero_iff_nil].
  destruct (removed (event_fd e) s2) eqn:Hr; [|done]. apply removed_spec in Hr as [_ Hr]. congruence.
Qed.

(** A full pipe stops the service for good: the notifications are written with
    the mutex of the sockets held, and only a thread that takes this mutex empties
    the pipe; once the pipe is full in such a section, the mutex is never released,
    and no socket is polled, tracked or removed again. *)
Theorem full_pipe_deadlocks s ls s' :
  m_tracked_sockets_mtx s <> Unlocked -> pipe_size <= m_notifier s -> run ls s = Some s' ->
  m_tracked_sockets_mtx s' = m_tracked_sockets_mtx s /\ m_notifier s' = m_notifier s /\
  m_tracked_sockets s' = m_tracked_sockets s /\ live s' ⊆+ live s /\ forall fd, removed fd s' = false.
Proof.
  intros Hm Hp Hrun. apply (io_invariant read_fd pipe_size (stuck_from s)) in Hrun.
  - destruct Hrun as [E1 E2 E3 E4]. split_and!; try done. intros fd. destruct (removed fd s') eqn:E; [|done].
    apply removed_spec in E as [E _]. congruence.
  - intros l s1 s2. by apply stuck_step.
  - by split.
Qed.
End properties.

(** ** Witnesses

    A service with one worker; the pipe is descriptor 3.  Socket 5 waits for
    reading with callback 1. *)

Definition registering : list io_label := [ITrack 5 (Some 1) None; INotify; IPoll []; IPoll [5%Z]].

(** The pipe is read, and the descriptors are set again. *)
Definition waiting : list io_label := registering ++ [ISelect {[3%Z]} ∅; IPoll []; IPoll []; IPoll [5%Z]].

(** Data comes, and the worker is in the callback. *)
Definition calling : list io_label := waiting ++ [ISelect {[5%Z]} ∅; IPoll []; IPool (PWork 0); IPool (PWork 0)].

(** The callback untracks its socket and ends. *)
Definition untracking : list io_label := calling ++ [IUntrack 5; INotify; ICallback 0 false; IWorkerNotify 0].

Definition state_after (ls : list io_label) : io_service := default (io_init 1) (io_run 3 4 ls (io_init 1)).

Lemma removed_socket_is_quiet_witness :
  m_tracked_sockets (state_after calling) !! 5%Z = Some (mk_socket (Some 1) true None false false) /\
  removed 5 (state_after untracking) = true /\
  (forall fd d, length (callbacks_on fd d (live (state_after untracking))) <= 1) /\
  (forall fd e, removed fd (state_after untracking) = true -> e ∈ live (state_after untracking) -> event_fd e <> fd).
Proof.
  split; [vm_compute; reflexivity|]. split; [vm_compute; reflexivity|].
  apply (removed_socket_is_quiet 3 4 1 untracking). vm_compute. reflexivity.
Defined.

Definition waiting_service : io_service := state_after waiting.

Lemma ready_callbacks_are_queued_witness :
  select_returns 3 {[5%Z]} ∅ waiting_service <> None /\
  (forall fd, fd ∈ m_rd_set waiting_service <-> fd = 3%Z \/ wanted Rd (m_tracked_sockets waiting_service) fd) /\
  (forall fd, fd ∈ m_wr_set waiting_service <-> wanted Wr (m_tracked_sockets waiting_service) fd) /\
  forall rd wr s1 order, select_returns 3 rd wr waiting_service = Some s1 -> mutex_free (m_callback_workers waiting_service) = true ->
    exists s2 new, poll_step 3 order s1 = Some s2 /\ poll_at s2 = PollTest /\
      m_tasks (m_callback_workers s2) = m_tasks (m_callback_workers waiting_service) ++ new /\ NoDup new /\
      forall e, e ∈ new <-> event_fd e ∈ (match event_dir e with Rd => rd | Wr => wr end) /\
        exists x, m_tracked_sockets waiting_service !! event_fd e = Some x /\ callback_of (event_dir e) x = Some (event_callback e).
Proof.
  split; [vm_compute; discriminate|].
  apply (ready_callbacks_are_queued 3 4 1 waiting waiting_service 6); vm_compute; reflexivity.
Defined.

Lemma throwing_callback_wedges_witness :
  m_workers (m_callback_workers (state_after calling)) !! 0 = Some (Running (mk_io_event 5 Rd 1)) /\
  forall ls2 s2, io_run 3 4 ls2 (state_after (calling ++ [ICallback 0 true])) = Some s2 ->
    (exists x, m_tracked_sockets s2 !! 5%Z = Some x /\ executing Rd x = true) /\
    removed 5 s2 = false /\ callbacks_on 5 Rd (live s2) = [].
Proof.
  split; [vm_compute; reflexivity|].
  apply (throwing_callback_wedges 3 4 1 calling (state_after calling) 0 (mk_io_event 5 Rd 1)); vm_compute; reflexivity.
Defined.

(** A pipe of two bytes, and three sockets before the poll thread's turn. *)
Definition full_service : io_service :=
  default (io_init 1) (io_run 3 2 [ITrack 5 None None; INotify; ITrack 6 None None; INotify; ITrack 7 None None] (io_init 1)).

Lemma full_pipe_deadlocks_witness :
  exists s', io_run 3 2 [IPoll []; IPool (PWork 0)] full_service = Some s' /\
    m_tracked_sockets_mtx s' = ByCaller /\ m_notifier s' = 2 /\
    m_tracked_sockets s' = m_tracked_sockets full_service /\ live s' ⊆+ live full_service /\ forall fd, removed fd s' = false.
Proof.
  eexists. split; [vm_compute; reflexivity|].
  apply (full_pipe_deadlocks 3 2 full_service [IPoll []; IPool (PWork 0)]).
  - vm_compute. discriminate.
  - vm_compute. apply le_n.
  - vm_compute. reflexivity.
Defined.
