(* ===== verification/IoServiceSocket.v ===== *)
(** What a step of the io_service does to one socket: the client of that socket is
    the only one to set its callbacks, and its events come from them. *)

From S2P Require Import Prelude ThreadPool IoService IoServiceFacts.

(** ** The callbacks workers are in *)

Lemma worker_event_Some i s e :
  worker_event i s = Some e <->
  m_workers (m_callback_workers s) !! i = Some (Running e) /\ m_tracked_sockets_mtx s <> ByWorker i.
Proof.
  unfold worker_event, in_callback. destruct (m_workers _ !! i) as [[| | | |t|]|]; try (split; [done|by intros [? _]]).
  case_decide as Hd; split; [done|by intros [_ ?]|by intros [= ->]|by intros [[= ->] _]].
Qed.

Lemma worker_live i s e : worker_event i s = Some e -> e ∈ live s.
Proof.
  intros Hi. unfold live, live_in. apply elem_of_app. right. apply list_elem_of_omap. exists i.
  split; [|exact Hi]. apply worker_event_Some in Hi as [Hi _]. apply elem_of_seq.
  apply lookup_lt_Some in Hi. lia.
Qed.

(** Two workers in callbacks of the same direction of a socket count twice. *)
Lemma running_from_two h k ws i j ei ej fd d :
  i < j -> ws !! i = Some (Running ei) -> ws !! j = Some (Running ej) ->
  h <> ByWorker (k + i) -> h <> ByWorker (k + j) -> event_of fd d ei -> event_of fd d ej ->
  2 <= length (callbacks_on fd d (running_from h k ws)).
Proof.
  revert k i j. induction ws as [|w ws IH]; intros k i j Hij Hi Hj Hhi Hhj Ei Ej; [done|].
  destruct j as [|j]; [lia|]. cbn [running_from]. unfold callbacks_on. rewrite filter_app, length_app.
  destruct i as [|i].
  - cbn in Hi, Hj. injection Hi as ->. cbn [running_event]. rewrite Nat.add_0_r in Hhi. rewrite decide_False by done.
    rewrite filter_cons, decide_True by done. cbn [length].
    assert (ej ∈ filter (fun e => event_fd e = fd /\ event_dir e = d) (running_from h (S k) ws)) as Hin.
    { apply list_elem_of_filter. split; [done|]. clear -Hj Hhj. revert k j Hj Hhj.
      induction ws as [|w ws IH]; intros k j Hj Hh; [done|]. cbn [running_from]. apply elem_of_app.
      destruct j as [|j]; cbn in Hj.
      - injection Hj as ->. left. cbn. rewrite decide_False by (intros ->; apply Hh; f_equal; lia).
        by apply list_elem_of_singleton.
      - right. apply (IH (S k) j); [done|]. intros ->. apply Hh. f_equal. lia. }
    destruct (filter _ (running_from h (S k) ws)); [by apply not_elem_of_nil in Hin|cbn; lia].
  - cbn in Hi, Hj. specialize (IH (S k) i j ltac:(lia) Hi Hj).
    replace (k + S i) with (S k + i) in Hhi by lia. replace (k + S j) with (S k + j) in Hhj by lia.
    specialize (IH Hhi Hhj Ei Ej). unfold callbacks_on in IH. lia.
Qed.

Lemma workers_distinct s i j ei ej fd d :
  worker_event i s = Some ei -> worker_event j s = Some ej -> event_of fd d ei -> event_of fd d ej ->
  count s fd d <= 1 -> i = j.
Proof.
  intros [Hi Hhi]%worker_event_Some [Hj Hhj]%worker_event_Some Ei Ej Hc.
  unfold count, live in Hc. rewrite live_in_eq in Hc. unfold callbacks_on in Hc. rewrite filter_app, length_app in Hc.
  destruct (decide (i = j)) as [|Hne]; [done|]. exfalso. destruct (decide (i < j)) as [Hlt|Hge].
  - pose proof (running_from_two _ 0 _ i j ei ej fd d Hlt Hi Hj Hhi Hhj Ei Ej) as H2. unfold callbacks_on in H2. lia.
  - pose proof (running_from_two _ 0 _ j i ej ei fd d ltac:(lia) Hj Hi Hhj Hhi Ej Ei) as H2. unfold callbacks_on in H2. lia.
Qed.

(** ** Steps that leave a socket to its client *)

Record leaves (fd : Z) (s s' : io_service) : Prop := {
  leaves_socket : forall x', m_tracked_sockets s' !! fd = Some x' -> exists x, m_tracked_sockets s !! fd = Some x /\
    (forall d, callback_of d x' = callback_of d x) /\ marked_for_untrack x' = marked_for_untrack x;
  leaves_tracked : forall x, m_tracked_sockets s !! fd = Some x -> marked_for_untrack x = false ->
    is_Some (m_tracked_sockets s' !! fd);
  leaves_live : forall e, e ∈ live s' -> event_fd e = fd -> e ∈ live s \/
    exists x, m_tracked_sockets s !! fd = Some x /\ callback_of (event_dir e) x = Some (event_callback e) }.

#[export] Instance leaves_preorder fd : PreOrder (leaves fd).
Proof.
  split.
  - intros s. split; [intros x Hx; by exists x|by intros x ->|by left].
  - intros s1 s2 s3 [S1 T1 L1] [S2 T2 L2]. split.
    + intros x3 (x2 & Hx2 & Hc2 & Hm2)%S2. destruct (S1 x2 Hx2) as (x1 & Hx1 & Hc1 & Hm1).
      exists x1. split; [done|]. split; [intros d; by rewrite Hc2|by rewrite Hm2].
    + intros x1 Hx1 Hm1. destruct (T1 x1 Hx1 Hm1) as [x2 Hx2]. apply (T2 x2 Hx2).
      destruct (S1 x2 Hx2) as (x & Hx & _ & ->). by simplify_eq.
    + intros e He Hfd. destruct (L2 e He Hfd) as [He2|(x2 & Hx2 & Hc2)]; [by apply L1|].
      destruct (S1 x2 Hx2) as (x1 & Hx1 & Hc1 & _). right. exists x1. by rewrite <- Hc1.
Qed.

(** The table is the same for the socket, and no event is new. *)
Lemma leaves_same fd s s' :
  m_tracked_sockets s' !! fd = m_tracked_sockets s !! fd -> (forall e, e ∈ live s' -> e ∈ live s) -> leaves fd s s'.
Proof.
  intros Hm Hl. split; rewrite ?Hm; [intros x Hx; by exists x|by intros x ->|]. intros e He _. left. by apply Hl.
Qed.

Lemma live_sub s s' : live s' ⊆+ live s -> forall e, e ∈ live s' -> e ∈ live s.
Proof. intros Hs e He. by eapply elem_of_submseteq. Qed.

Lemma callback_of_set_executing d d' b x : callback_of d (set_executing d' b x) = callback_of d x.
Proof. by destruct d, d'. Qed.
Lemma marked_set_executing d b x : marked_for_untrack (set_executing d b x) = marked_for_untrack x.
Proof. by destruct d. Qed.

Section leaves.
Context (read_fd : Z) (pipe_size : nat) (fd : Z).

Lemma leaves_process_event d fd' cb s s' x :
  m_tracked_sockets s !! fd' = Some x -> callback_of d x = Some cb ->
  process_event d fd' cb s = Some s' -> leaves fd s s'.
Proof.
  intros Hx Hcb. unfold process_event. destruct (add_task _ _) as [p|] eqn:Ea; [|done]. intros [= <-].
  split; cbn [set_pool set_sockets m_tracked_sockets].
  - intros x'. destruct (decide (fd' = fd)) as [->|Hne]; [|rewrite lookup_alter_ne by done; intros; by exists x'].
    rewrite lookup_alter_eq, Hx. cbn. intros [= <-]. exists x. split; [done|].
    split; [intros d'; apply callback_of_set_executing|apply marked_set_executing].
  - intros y Hy _. destruct (decide (fd' = fd)) as [->|Hne]; [rewrite lookup_alter_eq, Hy; by eexists|].
    rewrite lookup_alter_ne by done. by eexists.
  - intros e He <-. unfold live in He. cbn [set_pool m_tracked_sockets_mtx m_callback_workers set_sockets] in He.
    rewrite (add_task_live _ _ _ _ Ea) in He. apply elem_of_cons in He as [->|He]; [|by left].
    right. by exists x.
Qed.

Lemma leaves_process_ready d fd' ready s s' : process_ready d fd' ready s = Some s' -> leaves fd s s'.
Proof.
  unfold process_ready. destruct (m_tracked_sockets s !! fd') as [x|] eqn:Hx; cbn [mbind option_bind]; [|by intros [= <-]].
  destruct (executing d x); [by intros [= <-]|]. destruct (callback_of d x) as [cb|] eqn:Hcb; [|by intros [= <-]].
  case_decide; [|by intros [= <-]]. by apply (leaves_process_event d fd' cb s s' x).
Qed.

Lemma leaves_remove_marked fd' s : leaves fd s (remove_marked fd' s).
Proof.
  unfold remove_marked. destruct (m_tracked_sockets s !! fd') as [x|] eqn:Hx; [|done].
  destruct (marked_for_untrack x && _ && _) eqn:E; [|done]. apply andb_true_iff in E as [[Em _]%andb_true_iff _].
  destruct (decide (fd' = fd)) as [->|Hne].
  - split; cbn [set_sockets m_tracked_sockets]; [by intros x'; rewrite lookup_delete_eq| |by left].
    intros y Hy Hm. congruence.
  - apply leaves_same; [|done]. cbn. by rewrite lookup_delete_ne.
Qed.

Lemma leaves_process_fds fds s s' : process_fds read_fd fds s = Some s' -> leaves fd s s'.
Proof.
  revert s. induction fds as [|fd' fds IH]; intros s Hs; cbn [process_fds] in Hs; [by simplify_eq|].
  destruct (process_fd read_fd fd' s) as [s1|] eqn:E; [|done]. etrans; [|by apply IH]. clear Hs IH.
  unfold process_fd in E. case_decide; [injection E as <-; by apply leaves_same|].
  destruct (m_tracked_sockets s !! fd'); [|by simplify_eq].
  destruct (process_ready Rd fd' (m_rd_set s) s) as [s2|] eqn:E1; [|done]. cbn in E.
  destruct (process_ready Wr fd' (m_wr_set s2) s2) as [s3|] eqn:E2; [|done]. cbn in E. injection E as <-.
  etrans; [by eapply leaves_process_ready|]. etrans; [by eapply leaves_process_ready|]. apply leaves_remove_marked.
Qed.

Lemma leaves_callback_ends i threw s s' : callback_ends i threw s = Some s' -> leaves fd s s'.
Proof.
  unfold callback_ends. intros Hs. destruct (m_workers _ !! i) as [[| | | |e|]|] eqn:Hi; try done.
  case_decide as Hh; [done|].
  assert (forall s1, pool_does (PReturn i) s = Some s1 -> leaves fd s s1) as Hret.
  { intros s1 (p & E & ->)%pool_does_inv. apply leaves_same; [done|]. apply live_sub. by apply (pool_return_live _ i). }
  destruct threw; [by apply Hret|]. apply locked_inv in Hs as [Hu Hs].
  destruct (m_tracked_sockets s !! event_fd e) as [x|] eqn:Hx; [|by apply Hret]. apply (inj Some) in Hs as <-.
  assert (forall m, forall e', e' ∈ live (set_mtx (ByWorker i) (set_sockets m s)) -> e' ∈ live s) as Hl.
  { intros m e' He. unfold live. rewrite Hu, (live_ending _ _ _ Hi). by apply elem_of_cons; right. }
  destruct (marked_for_untrack x && _) eqn:E.
  - destruct (decide (event_fd e = fd)) as [Hfd|Hne].
    + split; cbn [set_mtx set_sockets m_tracked_sockets]; rewrite ?Hfd; [by intros x'; rewrite lookup_delete_eq| |by left; eapply Hl].
      intros y Hy Hm. apply andb_true_iff in E as [E _]. rewrite Hfd in Hx. congruence.
    + apply leaves_same; [cbn; by rewrite lookup_delete_ne|apply Hl].
  - destruct (decide (event_fd e = fd)) as [Hfd|Hne].
    + split; cbn [set_mtx set_sockets m_tracked_sockets]; rewrite ?Hfd, ?lookup_insert_eq; [| |by left; eapply Hl].
      * intros x' [= <-]. exists x. rewrite Hfd in Hx. split; [done|].
        split; [intros d; apply callback_of_set_executing|apply marked_set_executing].
      * by eexists.
    + apply leaves_same; [cbn; by rewrite lookup_insert_ne|apply Hl].
Qed.

(** A caller's section on another socket. *)
Lemma leaves_section s m :
  m_tracked_sockets_mtx s = Unlocked -> m !! fd = m_tracked_sockets s !! fd ->
  leaves fd s (set_mtx ByCaller (set_sockets m s)).
Proof.
  intros Hu Hm. apply leaves_same; [done|].
  rewrite (live_caller s (set_mtx ByCaller (set_sockets m s))); [done|done|by rewrite Hu|done].
Qed.

Lemma leaves_step l s s' : foreign fd l = true -> io_step read_fd pipe_size l s = Some s' -> leaves fd s s'.
Proof.
  intros Hf Hs. destruct l as [order|rd wr| |fd' rd wr|d fd' cb|fd'| |l|i threw|i| |]; cbn [io_step foreign] in *.
  - unfold poll_step in Hs. destruct (poll_at s); try done; [simplify_eq; by apply leaves_same| |].
    + apply locked_inv in Hs as [_ Hs]. destruct (enumerates _ _); simplify_eq.
      destruct (init_poll_same read_fd order s) as [E1 E2]. apply leaves_same; [by rewrite E1|by rewrite E2].
    + apply locked_inv in Hs as [_ Hs]. destruct (process_events read_fd s) as [s1|] eqn:E; simplify_eq/=.
      apply leaves_process_fds in E. etrans; [exact E|by apply leaves_same].
  - unfold select_returns in Hs. destruct (poll_at s); try done. case_decide; simplify_eq. by apply leaves_same.
  - unfold select_fails in Hs. destruct (poll_at s); simplify_eq. by apply leaves_same.
  - apply locked_inv in Hs as [Hu [= <-]]. apply leaves_section; [done|]. apply lookup_insert_ne. lia.
  - apply locked_inv in Hs as [Hu [= <-]]. apply leaves_section; [done|]. apply lookup_insert_ne. lia.
  - apply locked_inv in Hs as [Hu Hs]. apply (inj Some) in Hs as <-. destruct (m_tracked_sockets s !! fd'); [|done].
    destruct (_ || _); apply leaves_section; try done; [apply lookup_insert_ne|apply lookup_delete_ne]; lia.
  - unfold caller_notifies in Hs. case_decide as Hh; [|done]. destruct (notify pipe_size s) as [s1|] eqn:E; simplify_eq/=.
    apply notify_inv in E as ->. apply leaves_same; [done|].
    rewrite (live_caller s (set_mtx Unlocked (set_notifier (S (m_notifier s)) s))); [done|done|by rewrite Hh|done].
  - destruct (free_standing l) eqn:Hl; [|done]. apply pool_does_inv in Hs as (p & Hp & ->).
    apply leaves_same; [done|]. apply live_sub. by eapply pool_live.
  - by eapply leaves_callback_ends.
  - unfold worker_notifies in Hs. case_decide as Hh; [|done]. destruct (notify pipe_size s) as [s1|] eqn:E; [|done].
    cbn [mbind option_bind] in Hs. apply notify_inv in E as ->. apply pool_does_inv in Hs as (p & Hp & ->).
    apply leaves_same; [done|]. intros e. unfold live. cbn. rewrite Hh. cbn in Hp. by rewrite (live_ended _ _ _ Hp).
  - simplify_eq. by apply leaves_same.
  - apply notify_inv in Hs as ->. by apply leaves_same.
Qed.

(** A worker stays in its callback but for the step that ends it. *)
Lemma set_worker_keeps (p : thread_pool event) i j w w' e :
  m_workers p !! j = Some w -> w <> Running e ->
  m_workers p !! i = Some (Running e) -> m_workers (set_worker j w' p) !! i = Some (Running e).
Proof.
  intros Hj Hw Hi. cbn. rewrite list_lookup_insert_ne; [done|]. intros ->. congruence.
Qed.

Lemma wake_keeps (p : thread_pool event) i e :
  m_workers p !! i = Some (Running e) -> m_workers (notify_all p) !! i = Some (Running e).
Proof. intros Hi. cbn. by rewrite list_lookup_fmap, Hi. Qed.

Lemma workers_pool_step l p p' i e :
  free_standing l = true -> pool_step l p = Some p' ->
  m_workers p !! i = Some (Running e) -> m_workers p' !! i = Some (Running e).
Proof.
  intros Hl Hs Hi. destruct l as [j|j|j|t| | | |n|]; try done; cbn [pool_step] in Hs.
  - unfold run_step in Hs. destruct (m_workers p !! j) as [[| | | |t|]|] eqn:Hj; try done.
    + injection Hs as <-. by eapply set_worker_keeps.
    + unfold fetch_task in Hs. destruct (mutex_free p); [|done]. destruct (should_stop p).
      { injection Hs as <-. by eapply set_worker_keeps. }
      destruct (m_tasks p); injection Hs as <-; by apply (set_worker_keeps _ i j AtFetch).
    + injection Hs as <-. by eapply set_worker_keeps.
  - unfold wake_up in Hs. destruct (m_workers p !! j) as [[]|] eqn:Hj; try done.
    injection Hs as <-. by eapply set_worker_keeps.
  - unfold stop_flag in Hs. destruct (is_running p); [|done]. by injection Hs as <-.
  - injection Hs as <-. by apply wake_keeps.
  - unfold stop_join in Hs. destruct (m_should_stop p && _) eqn:E; [|done]. exfalso.
    apply andb_true_iff in E as [_ E]. rewrite forallb_forall in E.
    specialize (E (Running e) ltac:(eapply list_elem_of_In, list_elem_of_lookup_2, Hi)). done.
  - by injection Hs as <-.
  - injection Hs as <-. unfold adjust. destruct (_ <? _); [|by apply wake_keeps].
    cbn. by apply lookup_app_l_Some.
Qed.

(** What a turn of the poll thread keeps: the mutex and the running workers. *)
Definition keeps_workers (s s' : io_service) : Prop :=
  m_tracked_sockets_mtx s' = m_tracked_sockets_mtx s /\
  forall i e, m_workers (m_callback_workers s) !! i = Some (Running e) ->
    m_workers (m_callback_workers s') !! i = Some (Running e).

#[export] Instance keeps_workers_preorder : PreOrder keeps_workers.
Proof.
  split; [by intros s|]. intros s1 s2 s3 [M1 W1] [M2 W2]. split; [congruence|]. intros i e Hi. by apply W2, W1.
Qed.

Lemma process_ready_workers d fd' ready s s' : process_ready d fd' ready s = Some s' -> keeps_workers s s'.
Proof.
  unfold process_ready.
  destruct (x ← m_tracked_sockets s !! fd'; if executing d x then None else callback_of d x) as [cb|]; [|by intros [= <-]].
  case_decide; [|by intros [= <-]]. unfold process_event, add_task.
  destruct (mutex_free _); [|done]. cbn [mbind option_bind]. intros [= <-]. split; [done|].
  intros i e Hi. by apply wake_keeps.
Qed.

Lemma process_fds_workers fds s s' : process_fds read_fd fds s = Some s' -> keeps_workers s s'.
Proof.
  revert s. induction fds as [|fd' fds IH]; intros s Hs; cbn [process_fds] in Hs; [by simplify_eq|].
  destruct (process_fd read_fd fd' s) as [s1|] eqn:E; [|done]. etrans; [|by apply IH]. clear Hs IH.
  unfold process_fd in E. case_decide; [by injection E as <-|].
  destruct (m_tracked_sockets s !! fd'); [|by simplify_eq].
  destruct (process_ready Rd fd' (m_rd_set s) s) as [s2|] eqn:E1; [|done]. cbn in E.
  destruct (process_ready Wr fd' (m_wr_set s2) s2) as [s3|] eqn:E2; [|done]. cbn in E. injection E as <-.
  etrans; [by eapply process_ready_workers|]. etrans; [by eapply process_ready_workers|].
  unfold remove_marked. by repeat case_match.
Qed.

Lemma worker_event_kept l s s' i e :
  io_step read_fd pipe_size l s = Some s' -> worker_event i s = Some e ->
  (forall threw, l <> ICallback i threw) -> worker_event i s' = Some e.
Proof.
  intros Hs [Hi Hh]%worker_event_Some Hl. apply worker_event_Some.
  destruct l as [order|rd wr| |fd' rd wr|d fd' cb|fd'| |l|j threw|j| |]; cbn [io_step] in *.
  - unfold poll_step in Hs. destruct (poll_at s); try done; [by injection Hs as <-| |].
    + apply locked_inv in Hs as [Hu Hs]. destruct (enumerates _ _); [|done]. injection Hs as <-.
      unfold init_poll_fds_info. by repeat case_match.
    + apply locked_inv in Hs as [Hu Hs]. destruct (process_events read_fd s) as [s1|] eqn:E; [|done].
      injection Hs as <-. apply process_fds_workers in E as [Em Ew]. cbn. rewrite Em. auto.
  - unfold select_returns in Hs. destruct (poll_at s); try done. case_decide; [|done]. by injection Hs as <-.
  - unfold select_fails in Hs. destruct (poll_at s); try done. by injection Hs as <-.
  - apply locked_inv in Hs as [Hu [= <-]]. done.
  - apply locked_inv in Hs as [Hu [= <-]]. done.
  - apply locked_inv in Hs as [Hu Hs]. apply (inj Some) in Hs as <-. destruct (m_tracked_sockets s !! fd'); [|done].
    by destruct (_ || _).
  - unfold caller_notifies in Hs. case_decide as Hd; [|done]. destruct (notify pipe_size s) as [s1|] eqn:E; [|done].
    injection Hs as <-. by apply notify_inv in E as ->.
  - destruct (free_standing l) eqn:Hfs; [|done]. apply pool_does_inv in Hs as (p & Hp & ->).
    split; [by eapply workers_pool_step|done].
  - unfold callback_ends in Hs. destruct (m_workers _ !! j) as [[| | | |ej|]|] eqn:Hj; try done.
    assert (i <> j) as Hij by (intros ->; by apply (Hl threw)). case_decide as Hd; [done|].
    assert (forall s1, pool_does (PReturn j) s = Some s1 ->
      m_workers (m_callback_workers s1) !! i = Some (Running e) /\ m_tracked_sockets_mtx s1 <> ByWorker i) as Hret.
    { intros s1 (p & E & ->)%pool_does_inv. split; [|done]. cbn in E. unfold task_returns in E. rewrite Hj in E.
      injection E as <-. cbn. by rewrite list_lookup_insert_ne by done. }
    destruct threw; [by apply Hret|]. apply locked_inv in Hs as [Hu Hs].
    destruct (m_tracked_sockets s !! event_fd ej) as [x|]; [|by apply Hret]. apply (inj Some) in Hs as <-.
    split; [done|]. cbn. congruence.
  - unfold worker_notifies in Hs. case_decide as Hd; [|done]. destruct (notify pipe_size s) as [s1|] eqn:E; [|done].
    cbn [mbind option_bind] in Hs. apply notify_inv in E as ->. apply pool_does_inv in Hs as (p & Hp & ->).
    cbn in Hp. unfold task_returns in Hp. cbn in Hp. destruct (m_workers _ !! j) as [[]|] eqn:Hj; try done.
    injection Hp as <-. cbn. split; [|done]. rewrite list_lookup_insert_ne; [done|]. congruence.
  - by injection Hs as <-.
  - by apply notify_inv in Hs as ->.
Qed.
End leaves.
