(* ===== verification/TcpClientIo.v ===== *)
(** One connection of [tacopie::tcp_client] (tacopie/sources/network/tcp_client.cpp)
    on the io_service ([IoService]): requests of any threads, the callbacks the
    workers run, and disconnections, interleaved.

    A step is a step of the service, a critical section of [m_read_requests_mtx] or
    [m_write_requests_mtx] with the one call of the service it makes, or one
    statement of [disconnect].  A section of the service and the notification that
    ends it are one step here.  A request is a number, in the order a caller chooses;
    what [recv] and [send] answer is given by the labels.  The connection is a
    descriptor that [connect] has put under the service.  A client that is connected
    again gets the descriptor it has closed, the lowest that is free, and does so
    when no thread is in [disconnect]. *)

From S2P Require Import Prelude ThreadPool IoService.

(** The thread that runs an operation: a caller's, or a worker in a callback. *)
Inductive thread : Type := User (n : nat) | Worker (i : nat).

#[export] Instance thread_eq_dec : EqDecision thread.
Proof. solve_decision. Defined.
#[export] Instance thread_countable : Countable thread.
Proof.
  refine (inj_countable' (fun t => match t with User n => inl n | Worker i => inr i end)
            (fun x => match x with inl n => User n | inr i => Worker i end) _).
  by intros [].
Defined.

(** Where a thread is in [disconnect], after the test of its first line. *)
Inductive stage : Type :=
| Tested           (* is_connected() was true *)
| Flagged          (* m_is_connected is false *)
| ReadsCleared     (* the read requests are cleared *)
| WritesCleared    (* and the write requests *)
| Untracked.       (* the socket is untracked: to wait if asked, and to close *)

(** Where a worker is in [on_read_available] or [on_write_available] once
    [process_read] or [process_write] has returned. *)
Inductive progress : Type :=
| NoRequest                    (* nothing was pending: result.success is not set *)
| Succeeded (r : nat)
| Failed (r : nat)             (* in disconnect() *)
| Disconnected (r : nat)       (* before the callback of the request *)
| CalledBack                   (* before the disconnection handler *)
| Over.

#[export] Instance progress_eq_dec : EqDecision progress.
Proof. solve_decision. Defined.

Record connection : Type := mk_connection {
  service : io_service;
  m_is_connected : bool;
  m_read_requests : list nat;
  m_write_requests : list nat;
  m_disconnection_handler : bool;
  closed : bool;                                    (** [m_socket] is closed *)
  disconnecting : gmap thread (stage * bool);       (** with [wait_for_removal] *)
  working : gmap nat (direction * progress);        (** by worker *)
  accepted : list (direction * nat);                (** requests pushed *)
  completed : list (direction * nat * bool);        (** callbacks called, with [success] *)
  dropped : list (direction * nat);                 (** requests cleared *)
  handler_calls : nat;
  indeterminate : bool }.                           (** an unset [success] was read *)

Definition requests (d : direction) (s : connection) : list nat :=
  match d with Rd => m_read_requests s | Wr => m_write_requests s end.

Definition set_service (io : io_service) (s : connection) : connection :=
  mk_connection io (m_is_connected s) (m_read_requests s) (m_write_requests s) (m_disconnection_handler s)
    (closed s) (disconnecting s) (working s) (accepted s) (completed s) (dropped s) (handler_calls s) (indeterminate s).

Definition set_connected (b : bool) (s : connection) : connection :=
  mk_connection (service s) b (m_read_requests s) (m_write_requests s) (m_disconnection_handler s)
    (closed s) (disconnecting s) (working s) (accepted s) (completed s) (dropped s) (handler_calls s) (indeterminate s).

Definition set_requests (d : direction) (l : list nat) (s : connection) : connection :=
  mk_connection (service s) (m_is_connected s)
    (match d with Rd => l | Wr => m_read_requests s end) (match d with Rd => m_write_requests s | Wr => l end)
    (m_disconnection_handler s) (closed s) (disconnecting s) (working s) (accepted s) (completed s)
    (dropped s) (handler_calls s) (indeterminate s).

Definition set_closed (b : bool) (s : connection) : connection :=
  mk_connection (service s) (m_is_connected s) (m_read_requests s) (m_write_requests s) (m_disconnection_handler s)
    b (disconnecting s) (working s) (accepted s) (completed s) (dropped s) (handler_calls s) (indeterminate s).

Definition set_disconnecting (m : gmap thread (stage * bool)) (s : connection) : connection :=
  mk_connection (service s) (m_is_connected s) (m_read_requests s) (m_write_requests s) (m_disconnection_handler s)
    (closed s) m (working s) (accepted s) (completed s) (dropped s) (handler_calls s) (indeterminate s).

Definition set_working (m : gmap nat (direction * progress)) (s : connection) : connection :=
  mk_connection (service s) (m_is_connected s) (m_read_requests s) (m_write_requests s) (m_disconnection_handler s)
    (closed s) (disconnecting s) m (accepted s) (completed s) (dropped s) (handler_calls s) (indeterminate s).

Definition accept (d : direction) (r : nat) (s : connection) : connection :=
  mk_connection (service s) (m_is_connected s) (m_read_requests s) (m_write_requests s) (m_disconnection_handler s)
    (closed s) (disconnecting s) (working s) (accepted s ++ [(d, r)]) (completed s) (dropped s) (handler_calls s) (indeterminate s).

Definition complete (d : direction) (r : nat) (success : bool) (s : connection) : connection :=
  mk_connection (service s) (m_is_connected s) (m_read_requests s) (m_write_requests s) (m_disconnection_handler s)
    (closed s) (disconnecting s) (working s) (accepted s) (completed s ++ [(d, r, success)]) (dropped s)
    (handler_calls s) (indeterminate s).

(** [clear_read_requests] and [clear_write_requests] *)
Definition clear_requests (d : direction) (s : connection) : connection :=
  set_requests d []
    (mk_connection (service s) (m_is_connected s) (m_read_requests s) (m_write_requests s) (m_disconnection_handler s)
       (closed s) (disconnecting s) (working s) (accepted s) (completed s) (dropped s ++ map (pair d) (requests d s))
       (handler_calls s) (indeterminate s)).

(** [call_disconnection_handler] *)
Definition call_handler (s : connection) : connection :=
  mk_connection (service s) (m_is_connected s) (m_read_requests s) (m_write_requests s) (m_disconnection_handler s)
    (closed s) (disconnecting s) (working s) (accepted s) (completed s) (dropped s)
    (if m_disconnection_handler s then S (handler_calls s) else handler_calls s) (indeterminate s).

Definition read_indeterminate (s : connection) : connection :=
  mk_connection (service s) (m_is_connected s) (m_read_requests s) (m_write_requests s) (m_disconnection_handler s)
    (closed s) (disconnecting s) (working s) (accepted s) (completed s) (dropped s) (handler_calls s) true.

Section connection.
Context (read_fd : Z) (pipe_size : nat) (fd : Z).

(** The numbers of the two member functions among the callbacks. *)
Definition on_available (d : direction) : nat := match d with Rd => 0 | Wr => 1 end.

(** A call of the service, with its notification. *)
Definition call_service (l : io_label) (s : connection) : option connection :=
  io ← io_step read_fd pipe_size l (service s);
  io ← (if decide (m_tracked_sockets_mtx io = ByCaller) then caller_notifies pipe_size io else Some io);
  Some (set_service io s).

(** [connect], once the socket is connected *)
Definition track_connection (handler : bool) (io : io_service) : option connection :=
  call_service (ITrack fd None None) (mk_connection io true [] [] handler false ∅ ∅ [] [] [] 0 false).

(** [connect] of a client that was connected before.  It throws, and changes nothing,
    on a client that is connected, and when the socket does not connect; between
    [track] and the flag nothing that other threads do tells it from before. *)
Definition connect_again (s : connection) : option connection :=
  if negb (m_is_connected s) && closed s && bool_decide (disconnecting s = ∅) then
    s ← call_service (ITrack fd None None) s;
    Some (set_connected true (set_closed false s))
  else None.

(** [async_read] and [async_write]; they throw, and change nothing, on a client that is
    not connected. *)
Definition async_request (d : direction) (r : nat) (s : connection) : option connection :=
  if m_is_connected s then
    s ← call_service (ISetCallback d fd (Some (on_available d))) s;
    Some (accept d r (set_requests d (requests d s ++ [r]) s))
  else None.

(** [process_read] and [process_write], in worker [i]. *)
Definition process (i : nat) (success : bool) (s : connection) : option connection :=
  match worker_event i (service s) with
  | Some e =>
    if decide (event_fd e = fd /\ working s !! i = None) then
      let d := event_dir e in
      match requests d s with
      | [] => Some (set_working (<[i := (d, NoRequest)]> (working s)) s)
      | r :: rest =>
        let s := set_requests d rest (set_working (<[i := (d, if success then Succeeded r else Failed r)]> (working s)) s) in
        match rest with [] => call_service (ISetCallback d fd None) s | _ => Some s end
      end
    else None
  | None => None
  end.

(** The test that begins [disconnect]. *)
Definition disconnect_test (t : thread) (wait_for_removal : bool) (s : connection) : option connection :=
  match disconnecting s !! t with
  | None =>
    Some (if m_is_connected s then set_disconnecting (<[t := (Tested, wait_for_removal)]> (disconnecting s)) s
          else match t with
               | User _ => s
               | Worker i =>
                 match working s !! i with
                 | Some (d, Failed r) => set_working (<[i := (d, Disconnected r)]> (working s)) s
                 | _ => s
                 end
               end)
  | Some _ => None
  end.

(** The end of [disconnect]: in a worker it goes on with the callback. *)
Definition disconnected (t : thread) (s : connection) : connection :=
  let s := set_disconnecting (delete t (disconnecting s)) s in
  match t with
  | User _ => s
  | Worker i =>
    match working s !! i with
    | Some (d, Failed r) => set_working (<[i := (d, Disconnected r)]> (working s)) s
    | _ => s
    end
  end.

(** The next statement of [disconnect]; a closed socket has no descriptor to untrack. *)
Definition disconnect_step (t : thread) (s : connection) : option connection :=
  match disconnecting s !! t with
  | None => None
  | Some (st, wait) =>
    let at_stage st := set_disconnecting (<[t := (st, wait)]> (disconnecting s)) in
    match st with
    | Tested => Some (set_connected false (at_stage Flagged s))
    | Flagged => Some (clear_requests Rd (at_stage ReadsCleared s))
    | ReadsCleared => Some (clear_requests Wr (at_stage WritesCleared s))
    | WritesCleared => if closed s then Some (at_stage Untracked s) else call_service (IUntrack fd) (at_stage Untracked s)
    | Untracked =>
      if wait && negb (closed s) && negb (removed fd (service s)) then None
      else Some (set_closed true (disconnected t s))
    end
  end.

(** The rest of [on_read_available] and [on_write_available], in worker [i]. *)
Definition continue (i : nat) (s : connection) : option connection :=
  match working s !! i with
  | Some (d, p) =>
    let goes_on p := set_working (<[i := (d, p)]> (working s)) in
    match p with
    | NoRequest => Some (read_indeterminate (goes_on Over s))
    | Succeeded r => Some (complete d r true (goes_on Over s))
    | Failed _ => None
    | Disconnected r => Some (complete d r false (goes_on CalledBack s))
    | CalledBack => Some (call_handler (goes_on Over s))
    | Over => None
    end
  | None => None
  end.

(** The callback of worker [i], when it is this connection's, is over; the callbacks
    of its requests do not throw. *)
Definition returned (i : nat) (threw : bool) (s : connection) : bool :=
  match worker_event i (service s) with
  | Some e => negb (event_fd e =? fd)%Z || (negb threw && bool_decide (snd <$> working s !! i = Some Over))
  | None => true
  end.

(** What the service does by itself and for others *)
Definition service_step (l : io_label) (s : connection) : option connection :=
  if foreign fd l && match l with ICallback i threw => returned i threw s | _ => true end then
    io ← io_step read_fd pipe_size l (service s);
    let s := set_service io s in
    Some (match l with ICallback i _ => set_working (delete i (working s)) s | _ => s end)
  else None.

Inductive label : Type :=
| LService (l : io_label)
| LRequest (d : direction) (r : nat)
| LProcess (i : nat) (success : bool)
| LContinue (i : nat)
| LDisconnect (n : nat) (wait_for_removal : bool)   (* a caller *)
| LFail (i : nat)                                   (* a worker whose operation failed *)
| LDisconnecting (t : thread)
| LConnect.

Definition step (l : label) (s : connection) : option connection :=
  match l with
  | LService l => service_step l s
  | LRequest d r => async_request d r s
  | LProcess i success => process i success s
  | LContinue i => continue i s
  | LDisconnect n wait => disconnect_test (User n) wait s
  | LFail i => match working s !! i with Some (_, Failed _) => disconnect_test (Worker i) false s | _ => None end
  | LDisconnecting t => disconnect_step t s
  | LConnect => connect_again s
  end.

Fixpoint run (ls : list label) (s : connection) : option connection :=
  match ls with
  | [] => Some s
  | l :: ls => s' ← step l s; run ls s'
  end.
End connection.
