(* ===== verification/TcpClientIoFacts.v ===== *)
(** Facts about a connection on the io_service: what the service watches follows the
    requests, a callback that runs finds one unless a disconnection began, and
    requests are accounted for and complete in order. *)

From S2P Require Import Prelude ThreadPool IoService IoServiceFacts IoServiceSocket TcpClientIo.

(** ** The requests of a direction *)

Definition on_direction {A} (d : direction) (l : list (direction * A)) : list A :=
  omap (fun x => if decide (x.1 = d) then Some x.2 else None) l.
Definition accepted_on (d : direction) (s : connection) : list nat := on_direction d (accepted s).
Definition completed_on (d : direction) (s : connection) : list nat :=
  on_direction d (map fst (completed s)).
Definition dropped_on (d : direction) (s : connection) : list nat := on_direction d (dropped s).

Lemma on_direction_snoc {A} d (l : list (direction * A)) d' x :
  on_direction d (l ++ [(d', x)]) = on_direction d l ++ (if decide (d' = d) then [x] else []).
Proof. unfold on_direction. rewrite omap_app. f_equal. cbn. by case_decide. Qed.

Lemma on_direction_app {A} d (l l' : list (direction * A)) :
  on_direction d (l ++ l') = on_direction d l ++ on_direction d l'.
Proof. unfold on_direction. by rewrite omap_app. Qed.

Lemma on_direction_pairs {A} d d' (l : list A) : on_direction d (map (pair d') l) = if decide (d' = d) then l else [].
Proof.
  induction l as [|x l IH]; [by case_decide|]. unfold on_direction in *. cbn. rewrite IH. by case_decide.
Qed.

Lemma sublist_full {A} (l k : list A) : l `sublist_of` k -> length k <= length l -> l = k.
Proof.
  induction 1 as [|x l k Hs IH|x l k Hs IH]; cbn; intros Hl; [done|f_equal; apply IH; lia|].
  apply sublist_length in Hs. lia.
Qed.

Lemma requests_set d d' l s : requests d (set_requests d' l s) = if decide (d = d') then l else requests d s.
Proof. by destruct d, d'. Qed.

(** The request a worker holds: popped, and its callback not called. *)
Definition held (p : progress) : option nat :=
  match p with Succeeded r | Failed r | Disconnected r => Some r | _ => None end.

Section facts.
Context (read_fd : Z) (pipe_size : nat) (fd : Z).

Abbreviation io_runs := (io_run read_fd pipe_size).
Abbreviation step := (step read_fd pipe_size fd).
Abbreviation run := (run read_fd pipe_size fd).
Abbreviation call := (call_service read_fd pipe_size).

(** ** Calls of the service *)

(** A section of a caller that leaves the table as [m]. *)
Record section (m : gmap Z tracked_socket) (io io' : io_service) : Prop := {
  section_table : m_tracked_sockets io' = m;
  section_live : forall e, e ∈ live io' -> e ∈ live io;
  section_workers : forall i, worker_event i io' = worker_event i io }.

Lemma notified_section m io io' :
  m_tracked_sockets_mtx io = Unlocked ->
  caller_notifies pipe_size (set_mtx ByCaller (set_sockets m io)) = Some io' -> section m io io'.
Proof.
  intros Hu. unfold caller_notifies. rewrite decide_True by done.
  destruct (notify pipe_size _) as [io1|] eqn:E; [|done]. cbn [mbind option_bind]. intros [= <-].
  apply notify_inv in E as ->. split; [done| |].
  - intros e. rewrite (live_caller io); [done|done|by rewrite Hu|done].
  - intros i. unfold worker_event, in_callback. cbn. by rewrite Hu.
Qed.

Lemma call_inv l s s' :
  call l s = Some s' -> exists io, s' = set_service io s /\ exists ls, io_runs (l :: ls) (service s) = Some io.
Proof.
  unfold call_service. cbn [io_run]. destruct (io_step read_fd pipe_size l (service s)) as [io1|]; [|done]. cbn [mbind option_bind].
  case_decide as Hd.
  - destruct (caller_notifies pipe_size io1) as [io2|] eqn:E; [|done]. intros [= <-].
    exists io2. split; [done|]. exists [INotify]. cbn. by rewrite E.
  - intros [= <-]. exists io1. split; [done|]. by exists [].
Qed.

Lemma call_set_callback d cb s s' :
  call (ISetCallback d fd cb) s = Some s' -> exists io, s' = set_service io s /\
    section (<[fd := set_callback d cb (socket_at fd (service s))]> (m_tracked_sockets (service s))) (service s) io.
Proof.
  unfold call_service. cbn [io_step]. destruct (set_event_callback d fd cb (service s)) as [io1|] eqn:E; [|done]. cbn [mbind option_bind].
  apply locked_inv in E as [Hu [= <-]]. rewrite decide_True by done.
  destruct (caller_notifies _ _) as [io2|] eqn:E; [|done]. intros [= <-].
  exists io2. split; [done|]. by apply notified_section.
Qed.

Lemma call_untrack s s' :
  call (IUntrack fd) s = Some s' -> exists io m, s' = set_service io s /\ section m (service s) io /\
    (m_tracked_sockets (service s) !! fd = None -> m !! fd = None).
Proof.
  unfold call_service. cbn [io_step]. destruct (untrack fd (service s)) as [io1|] eqn:E; [|done]. cbn [mbind option_bind].
  apply locked_inv in E as [Hu E]. apply (inj Some) in E as <-.
  destruct (m_tracked_sockets (service s) !! fd) as [x|] eqn:Hx.
  - set (m := if executing Rd x || executing Wr x
              then <[fd := set_marked true x]> (m_tracked_sockets (service s)) else delete fd (m_tracked_sockets (service s))).
    assert (set_mtx ByCaller (if executing Rd x || executing Wr x
         then set_sockets (<[fd := set_marked true x]> (m_tracked_sockets (service s))) (service s)
         else set_sockets (delete fd (m_tracked_sockets (service s))) (service s)) =
         set_mtx ByCaller (set_sockets m (service s))) as -> by (subst m; by destruct (_ || _)).
    rewrite decide_True by done. destruct (caller_notifies _ _) as [io2|] eqn:E; [|done]. intros [= <-].
    exists io2, m. split; [done|]. split; [by apply notified_section|done].
  - rewrite Hu, decide_False by done. intros [= <-]. exists (service s), (m_tracked_sockets (service s)).
    split; [done|]. by split.
Qed.

(** ** The invariant *)

Definition reachable (io : io_service) : Prop := exists n ls, io_runs ls (io_init n) = Some io.

Lemma reachable_run io ls io' : reachable io -> io_runs ls io = Some io' -> reachable io'.
Proof.
  intros (n & ls0 & H0) Hrun. exists n, (ls0 ++ ls). revert H0. generalize (io_init n) as s0.
  induction ls0 as [|l ls0 IH]; intros s0 H0; cbn [app io_run] in *; [by simplify_eq|].
  destruct (io_step read_fd pipe_size l s0); [|done]. by apply IH.
Qed.

Lemma reachable_one io d : reachable io -> count io fd d <= 1.
Proof.
  intros (n & ls & Hrun). etrans; [by apply (reachable_count read_fd pipe_size n ls)|apply flag_le].
Qed.

(** The service watches the connection for what it has requests of. *)
Definition watched (s : connection) : Prop :=
  exists x, m_tracked_sockets (service s) !! fd = Some x /\ marked_for_untrack x = false /\
    forall d, callback_of d x = match requests d s with [] => None | _ => Some (on_available d) end.

Definition stage_ok (st : stage) (s : connection) : Prop :=
  match st with
  | Tested => True
  | Flagged => m_is_connected s = false
  | ReadsCleared => m_is_connected s = false /\ m_read_requests s = []
  | WritesCleared | Untracked => m_is_connected s = false /\ m_read_requests s = [] /\ m_write_requests s = []
  end.

(** The request of a direction that a worker has in its hands. *)
Definition in_hand (d : direction) (s : connection) (hand : list nat) : Prop :=
  (hand = [] /\ forall i p, working s !! i = Some (d, p) -> held p = None) \/
  exists i p r, working s !! i = Some (d, p) /\ held p = Some r /\ hand = [r].

(** A direction's requests: called back, in a worker's hands, pending, or cleared. *)
Definition ordered (d : direction) (s : connection) : Prop :=
  exists hand, in_hand d s hand /\
    (completed_on d s ++ hand ++ requests d s) `sublist_of` accepted_on d s /\
    accepted_on d s ≡ₚ completed_on d s ++ hand ++ requests d s ++ dropped_on d s.

Record ok (s : connection) : Prop := {
  ok_service : reachable (service s);
  ok_watched : m_is_connected s = true -> watched s;
  ok_working : forall i d p, working s !! i = Some (d, p) ->
    exists e, worker_event i (service s) = Some e /\ event_of fd d e;
  ok_stage : forall t st wait, disconnecting s !! t = Some (st, wait) -> stage_ok st s;
  ok_closed : closed s = true -> stage_ok Untracked s;
  ok_ordered : forall d, ordered d s }.

(** While the client is connected a callback finds a request. *)
Definition fresh (s : connection) : Prop :=
  m_is_connected s = true ->
  (forall e, e ∈ live (service s) -> event_fd e = fd ->
     (exists i p, working s !! i = Some (event_dir e, p)) \/ requests (event_dir e) s <> []) /\
  indeterminate s = false /\ forall i d, working s !! i <> Some (d, NoRequest).

(** Every callback of the socket that is queued or executes has taken its request. *)
Definition clean (s : connection) : bool :=
  negb (indeterminate s) &&
  forallb (fun e => negb (event_fd e =? fd)%Z ||
    existsb (fun w => bool_decide (w.2.1 = event_dir e) && negb (bool_decide (w.2.2 = NoRequest))) (map_to_list (working s)))
    (live (service s)).

Lemma clean_spec s : clean s = true ->
  indeterminate s = false /\ forall e, e ∈ live (service s) -> event_fd e = fd ->
    exists i p, working s !! i = Some (event_dir e, p) /\ p <> NoRequest.
Proof.
  unfold clean. intros [Hi Hl]%andb_true_iff. apply negb_true_iff in Hi. split; [done|]. intros e He Hfd.
  apply list_elem_of_In in He. apply (proj1 (forallb_forall _ _) Hl) in He. rewrite Hfd, Z.eqb_refl in He. cbn [negb orb] in He.
  apply existsb_exists in He as ((i & d & p) & Hin & [Hd Hp]%andb_true_iff). cbn in Hd, Hp.
  apply bool_decide_eq_true in Hd as ->. apply negb_true_iff, bool_decide_eq_false in Hp.
  apply list_elem_of_In, elem_of_map_to_list in Hin. by exists i, p.
Qed.

(** Two workers are not in callbacks of the same direction. *)
Lemma working_unique s i j d p q :
  ok s -> working s !! i = Some (d, p) -> working s !! j = Some (d, q) -> i = j.
Proof.
  intros Hok Hi Hj. destruct (ok_working s Hok i d p Hi) as (e & He & Ed).
  destruct (ok_working s Hok j d q Hj) as (e' & He' & Ed').
  eapply workers_distinct; [exact He|exact He'|exact Ed|exact Ed'|]. by apply reachable_one, ok_service.
Qed.

(** A change of the workers' progress that keeps the requests they hold. *)
Lemma ordered_same d s s' :
  ordered d s -> requests d s' = requests d s ->
  accepted_on d s' = accepted_on d s -> completed_on d s' = completed_on d s -> dropped_on d s' = dropped_on d s ->
  (forall i p, working s' !! i = Some (d, p) -> held p <> None ->
     exists q, working s !! i = Some (d, q) /\ held q = held p) ->
  (forall i p, working s !! i = Some (d, p) -> held p <> None ->
     exists q, working s' !! i = Some (d, q) /\ held q = held p) ->
  ordered d s'.
Proof.
  intros (hand & Hh & Ho) Hr Ha Hc Hd Hback Hforth. exists hand. rewrite Ha, Hc, Hd, Hr. split; [|done].
  destruct Hh as [[-> Hnone]|(i & p & r & Hi & Hp & ->)].
  - left. split; [done|]. intros i p Hi. destruct (held p) as [r|] eqn:Hp; [|done].
    destruct (Hback i p Hi) as (q & Hq & E); [congruence|]. rewrite (Hnone i q Hq) in E. congruence.
  - right. destruct (Hforth i p Hi) as (q & Hq & E); [congruence|]. exists i, q, r. split_and!; congruence.
Qed.

(** The progress of the workers is the same but for one, that held no request. *)
Lemma ordered_working d s s' i :
  ordered d s -> requests d s' = requests d s ->
  accepted_on d s' = accepted_on d s -> completed_on d s' = completed_on d s -> dropped_on d s' = dropped_on d s ->
  (forall j, j <> i -> working s' !! j = working s !! j) ->
  (forall p, working s !! i = Some (d, p) -> held p = None) ->
  (forall p, working s' !! i = Some (d, p) -> held p = None) -> ordered d s'.
Proof.
  intros Ho Hr Ha Hc Hd Hw Hi Hi'. eapply ordered_same; [exact Ho|done..| |].
  - intros j p Hj Hp. assert (j <> i) as Hne by (intros ->; by apply Hp, Hi'). rewrite Hw in Hj by done. by exists p.
  - intros j p Hj Hp. assert (j <> i) as Hne by (intros ->; by apply Hp, Hi). exists p. by rewrite Hw.
Qed.

(** The pending requests are cleared. *)
Lemma ordered_cleared d s s' :
  ordered d s -> requests d s' = [] -> accepted_on d s' = accepted_on d s -> completed_on d s' = completed_on d s ->
  dropped_on d s' = dropped_on d s ++ requests d s -> working s' = working s -> ordered d s'.
Proof.
  intros (hand & Hh & Hsub & Hperm) Hr Ha Hc Hd Hw. exists hand. unfold in_hand. rewrite Ha, Hc, Hd, Hr, Hw. split; [done|]. split.
  - etrans; [|exact Hsub]. apply sublist_app; [done|]. apply sublist_app; [done|]. apply sublist_nil_l.
  - rewrite Hperm. cbn [app]. do 2 f_equiv. by rewrite (comm (++) (requests d s)).
Qed.

(** ** Steps of the service *)

Lemma callback_ends_drops i threw io io' e d :
  callback_ends i threw io = Some io' -> worker_event i io = Some e -> event_of fd d e ->
  count io fd d <= 1 -> forall e', e' ∈ live io' -> ~ event_of fd d e'.
Proof.
  intros Hs [Hi Hh]%worker_event_Some [<- <-] Hc e' He' Hev.
  assert (S (count io' (event_fd e) (event_dir e)) <= count io (event_fd e) (event_dir e)) as Hd.
  { destruct threw; [by apply (throw_drops i e io io')|].
    assert (forall s1, pool_does (PReturn i) io = Some s1 -> callback_ends i true io = Some s1) as Hret.
    { intros s1 H1. unfold callback_ends. rewrite Hi. by rewrite decide_False. }
    unfold callback_ends in Hs. rewrite Hi, decide_False in Hs by done. apply locked_inv in Hs as [Hu Hs].
    destruct (m_tracked_sockets io !! event_fd e) as [x|]; [|by apply (throw_drops i e io io'), Hret].
    apply (inj Some) in Hs as <-. unfold count, live. rewrite Hu, (live_ending _ _ _ Hi), callbacks_on_cons.
    rewrite decide_True by done. cbn. lia. }
  assert (e' ∈ callbacks_on (event_fd e) (event_dir e) (live io')) as Hin by by apply list_elem_of_filter.
  unfold count in *. destruct (callbacks_on _ _ (live io')); [by apply not_elem_of_nil in Hin|cbn in *; lia].
Qed.

(** What a step of the service does for the connection. *)
Lemma service_inv l s s' : service_step read_fd pipe_size fd l s = Some s' ->
  exists io, io_step read_fd pipe_size l (service s) = Some io /\ leaves fd (service s) io /\
    (s' = set_service io s /\ (forall i e, worker_event i (service s) = Some e -> worker_event i io = Some e) \/
     exists i threw, l = ICallback i threw /\ s' = set_working (delete i (working s)) (set_service io s) /\
       returned fd i threw s = true /\
       forall j e, j <> i -> worker_event j (service s) = Some e -> worker_event j io = Some e).
Proof.
  unfold service_step. destruct (foreign fd l && _) eqn:Ef; [|done]. apply andb_true_iff in Ef as [Hf Hr].
  destruct (io_step read_fd pipe_size l (service s)) as [io|] eqn:E; [|done]. cbn [mbind option_bind]. intros [= <-].
  exists io. split; [done|]. split; [by eapply leaves_step|].
  destruct l as [order|rd wr| |fd' rd wr|d fd' cb|fd'| |l|i threw|i| |];
    try (left; split; [done|]; intros j e He; by eapply worker_event_kept).
  right. exists i, threw. split_and!; [done..|]. intros j e Hne He. eapply worker_event_kept; [exact E|done|]. congruence.
Qed.

Lemma watched_leaves io s s' :
  leaves fd (service s) io -> service s' = io -> (forall d, requests d s' = requests d s) -> watched s -> watched s'.
Proof.
  intros [Hs Ht _] <- Hr (x & Hx & Hm & Hc). destruct (Ht x Hx Hm) as [x' Hx'].
  destruct (Hs x' Hx') as (x0 & Hx0 & Hc' & Hm'). simplify_eq. exists x'. split; [done|]. split; [by rewrite Hm'|].
  intros d. by rewrite Hc', Hc, Hr.
Qed.

(** An event is of before the step, or is of a direction with requests. *)
Lemma events_leaves io s e :
  leaves fd (service s) io -> watched s -> e ∈ live io -> event_fd e = fd ->
  e ∈ live (service s) \/ requests (event_dir e) s <> [].
Proof.
  intros [_ _ Hl] (x & Hx & _ & Hc) He Hfd. destruct (Hl e He Hfd) as [?|(x' & Hx' & Hcb)]; [by left|right].
  simplify_eq. rewrite Hc in Hcb. by destruct (requests (event_dir e) s).
Qed.

(** A worker whose callback ends was at its end, if it was the connection's. *)
Lemma returned_over s i threw d p :
  ok s -> returned fd i threw s = true -> working s !! i = Some (d, p) ->
  p = Over /\ exists e, worker_event i (service s) = Some e /\ event_of fd d e.
Proof.
  intros Hok Hret Hi. destruct (ok_working s Hok i d p Hi) as (e & He & Hd). split; [|by exists e].
  destruct Hd as [Hfd _]. unfold returned in Hret. rewrite He, Hfd, Z.eqb_refl in Hret.
  apply andb_true_iff in Hret as [_ Hret]. apply bool_decide_eq_true in Hret. rewrite Hi in Hret. by injection Hret.
Qed.

Lemma ok_service_step l s s' : ok s -> service_step read_fd pipe_size fd l s = Some s' -> ok s'.
Proof.
  intros Hok (io & E & Hl & Hcase)%service_inv.
  assert (reachable io) as Hreach.
  { eapply (reachable_run _ [l]); [by apply ok_service|]. cbn. by rewrite E. }
  destruct Hcase as [[-> Hw]|(i & threw & -> & -> & Hret & Hw)].
  - split; cbn [service set_service m_is_connected working disconnecting closed].
    + done.
    + intros Hc. eapply watched_leaves; [exact Hl|done|done|by apply ok_watched].
    + intros i d p Hi. destruct (ok_working s Hok i d p Hi) as (e & He & Hd). exists e. auto.
    + apply (ok_stage s Hok).
    + apply (ok_closed s Hok).
    + intros d. apply (ok_ordered s Hok).
  - split; cbn [service set_service set_working m_is_connected working disconnecting closed].
    + done.
    + intros Hc. eapply watched_leaves; [exact Hl|done|done|by apply ok_watched].
    + intros j d p [Hne Hj]%lookup_delete_Some. destruct (ok_working s Hok j d p Hj) as (e' & He' & Hd). exists e'. eauto.
    + apply (ok_stage s Hok).
    + apply (ok_closed s Hok).
    + intros d. apply (ordered_working d s _ i); try done; [by apply ok_ordered|..].
      * intros j Hne. cbn. by rewrite lookup_delete_ne.
      * intros p Hp. by destruct (returned_over s i threw d p Hok Hret Hp) as [-> _].
      * intros p. cbn. by rewrite lookup_delete_eq.
Qed.

Lemma fresh_service_step l s s' : ok s -> fresh s -> service_step read_fd pipe_size fd l s = Some s' -> fresh s'.
Proof.
  intros Hok Hf (io & E & Hl & Hcase)%service_inv.
  destruct Hcase as [[-> Hw]|(i & threw & -> & -> & Hret & Hw)]; intros Hc; destruct (Hf Hc) as (Hev & Hind & Hno);
    (split; [|split; [exact Hind|]]); cbn [service set_service set_working working].
  - intros e He Hfd. destruct (events_leaves io s e Hl (ok_watched s Hok Hc) He Hfd) as [He0|?]; [by apply Hev|by right].
  - exact Hno.
  - intros e' He' Hfd. destruct (events_leaves io s e' Hl (ok_watched s Hok Hc) He' Hfd) as [He0|?]; [|by right].
    destruct (Hev e' He0 Hfd) as [(j & p & Hj)|?]; [|by right].
    destruct (decide (i = j)) as [<-|Hne]; [|left; exists j, p; by rewrite lookup_delete_ne].
    destruct (returned_over s i threw _ p Hok Hret Hj) as (_ & e & He & Hd). exfalso. cbn [io_step] in E.
    eapply (callback_ends_drops i threw _ io e _ E He Hd); [by apply reachable_one, ok_service|exact He'|done].
  - intros j d [_ Hj]%lookup_delete_Some. by eapply Hno.
Qed.

(** ** Requests *)

Lemma call_reachable l s s' : reachable (service s) -> call l s = Some s' -> reachable (service s').
Proof. intros Hr (io & -> & ls & Hrun)%call_inv. by eapply reachable_run. Qed.

(** The callback of a direction set to match its requests, the other as it was. *)
Lemma watched_set_callback d io s s' cb :
  watched s -> section (<[fd := set_callback d cb (socket_at fd (service s))]> (m_tracked_sockets (service s))) (service s) io ->
  service s' = io -> (forall d', d' <> d -> requests d' s' = requests d' s) ->
  cb = match requests d s' with [] => None | _ => Some (on_available d) end -> watched s'.
Proof.
  intros (x & Hx & Hm & Hc) [Ht _ _] <- Hr ->. unfold watched. rewrite Ht, lookup_insert_eq.
  unfold socket_at. rewrite Hx. eexists. split; [done|]. split; [by destruct d|]. intros d'.
  destruct (decide (d' = d)) as [->|Hne]; [by destruct d|]. rewrite (Hr d') by done. rewrite <- Hc. by destruct d, d'.
Qed.

(** What a request leaves. *)
Lemma request_inv d r s s' : async_request read_fd pipe_size fd d r s = Some s' ->
  m_is_connected s = true /\ exists io,
    section (<[fd := set_callback d (Some (on_available d)) (socket_at fd (service s))]> (m_tracked_sockets (service s))) (service s) io /\
    (forall d', requests d' s' = if decide (d' = d) then requests d s ++ [r] else requests d' s) /\
    service s' = io /\ working s' = working s /\ disconnecting s' = disconnecting s /\
    m_is_connected s' = m_is_connected s /\ closed s' = closed s /\ indeterminate s' = indeterminate s /\
    completed s' = completed s /\ accepted s' = accepted s ++ [(d, r)] /\ dropped s' = dropped s.
Proof.
  unfold async_request. destruct (m_is_connected s) eqn:Hc; [|done].
  destruct (call _ s) as [s1|] eqn:E; [|done]. cbn [mbind option_bind]. intros [= <-]. split; [done|].
  apply call_set_callback in E as (io & -> & Hs). exists io. split; [exact Hs|]. split; [intros d'; by destruct d, d'|].
  cbn [m_is_connected set_service]. by destruct d; rewrite <- Hc.
Qed.

Lemma ok_request d r s s' : ok s -> async_request read_fd pipe_size fd d r s = Some s' -> ok s'.
Proof.
  intros Hok Hreqs. assert (reachable (service s')) as Hreach.
  { revert Hreqs. unfold async_request. destruct (m_is_connected s); [|done].
    destruct (call _ s) as [s1|] eqn:E; [|done]. cbn [mbind option_bind]. intros [= <-].
    pose proof (call_reachable _ _ _ (ok_service s Hok) E). by destruct d. }
  apply request_inv in Hreqs as (Hc & io & Hs & Hreq & Es & Ew & Ed & Ec & El & _ & Ecomp & Ea & Edr).
  pose proof (section_workers _ _ _ Hs) as Hw.
  assert (forall st, stage_ok st s -> st = Tested) as Hst by (intros []; cbn; intuition congruence).
  split.
  - done.
  - intros _. eapply watched_set_callback; [by apply ok_watched|exact Hs|done|..].
    + intros d' Hne. by rewrite Hreq, decide_False.
    + rewrite Hreq, decide_True by done. by destruct (requests d s).
  - rewrite Es, Ew. intros i d' p Hi. rewrite Hw. by apply (ok_working s Hok i d' p).
  - rewrite Ed. intros t st wait Ht. by rewrite (Hst st (ok_stage s Hok t st wait Ht)).
  - rewrite El. intros Hcl. specialize (Hst _ (ok_closed s Hok Hcl)). done.
  - intros d'. destruct (ok_ordered s Hok d') as (hand & Hh & Hsub & Hperm).
    assert (accepted_on d' s' = accepted_on d' s ++ (if decide (d' = d) then [r] else [])) as Ha.
    { unfold accepted_on. rewrite Ea, on_direction_snoc. f_equal. by destruct d, d'. }
    assert (requests d' s' = requests d' s ++ (if decide (d' = d) then [r] else [])) as Hr.
    { rewrite Hreq. case_decide as Hd; [by rewrite Hd|by rewrite app_nil_r]. }
    exists hand. unfold in_hand, completed_on, dropped_on in *. rewrite Ew, Ecomp, Edr, Ha, Hr. split; [done|]. split.
    + rewrite !app_assoc. apply sublist_app; [|done]. by rewrite <- app_assoc.
    + rewrite Hperm, <- !app_assoc. do 3 f_equiv. by rewrite (comm (++)).
Qed.

Lemma fresh_request d r s s' : fresh s -> async_request read_fd pipe_size fd d r s = Some s' -> fresh s'.
Proof.
  intros Hf (Hc & io & Hs & Hreq & Es & Ew & _ & _ & _ & Ei & _)%request_inv _. destruct (Hf Hc) as (Hev & Hind & Hno).
  rewrite Es, Ew, Ei. split; [|done]. intros e He Hfd.
  destruct (Hev e (section_live _ _ _ Hs e He) Hfd) as [?|Hne]; [by left|right].
  rewrite Hreq. case_decide; [by destruct (requests d s)|done].
Qed.

(** ** The callbacks *)

(** A callback that has not taken its request is the only one of its direction. *)
Lemma process_first s i e :
  ok s -> worker_event i (service s) = Some e -> event_fd e = fd -> working s !! i = None ->
  forall j p, working s !! j <> Some (event_dir e, p).
Proof.
  intros Hok He Hfd Hi j p Hj. destruct (ok_working s Hok j _ p Hj) as (e' & He' & Hd).
  assert (i = j) as ->; [|congruence].
  eapply (workers_distinct _ i j e e' fd (event_dir e)); [done..|]. by apply reachable_one, ok_service.
Qed.

(** A worker in the callback [e] has popped the request [r]. *)
Record popped (i : nat) (e : event) (r : nat) (rest : list nat) (success : bool) (s s' : connection) : Prop := {
  pop_found : requests (event_dir e) s = r :: rest;
  pop_requests : forall d', requests d' s' = if decide (d' = event_dir e) then rest else requests d' s;
  pop_working : working s' = <[i := (event_dir e, if success then Succeeded r else Failed r)]> (working s);
  pop_disconnecting : disconnecting s' = disconnecting s;
  pop_connected : m_is_connected s' = m_is_connected s;
  pop_closed : closed s' = closed s;
  pop_indeterminate : indeterminate s' = indeterminate s;
  pop_completed : completed s' = completed s;
  pop_accepted : accepted s' = accepted s;
  pop_dropped : dropped s' = dropped s;
  pop_reachable : reachable (service s) -> reachable (service s');
  pop_watched : watched s -> watched s';
  pop_live : forall e, e ∈ live (service s') -> e ∈ live (service s);
  pop_workers : forall j, worker_event j (service s') = worker_event j (service s) }.

Lemma process_inv i success s s' : process read_fd pipe_size fd i success s = Some s' ->
  exists e, worker_event i (service s) = Some e /\ event_fd e = fd /\ working s !! i = None /\
    (requests (event_dir e) s = [] /\ s' = set_working (<[i := (event_dir e, NoRequest)]> (working s)) s \/
     exists r rest, popped i e r rest success s s').
Proof.
  unfold process. destruct (worker_event i (service s)) as [e|] eqn:He; [|done].
  case_decide as Hd; [|done]. destruct Hd as [Hfd Hi]. cbn zeta. intros Hs. exists e. split_and!; [done..|].
  destruct (requests (event_dir e) s) as [|r rest] eqn:Hq; [left; by injection Hs as <-|right; exists r, rest].
  revert Hs. set (s1 := set_requests _ rest _). intros Hs.
  assert (popped i e r rest success s s1 \/ rest = []) as Hpop.
  { destruct rest as [|r2 rest]; [by right|left]. subst s1. split; try done; try (by destruct (event_dir e)).
    - intros d'. by destruct (event_dir e), d'.
    - intros (x & Hx & Hm & Hcb). exists x. split; [by destruct (event_dir e)|]. split; [done|]. intros d.
      rewrite Hcb. by destruct d, (event_dir e); cbn in *; rewrite ?Hq. }
  destruct rest as [|r2 rest]; [|injection Hs as <-; by destruct Hpop].
  assert (forall d', requests d' s1 = if decide (d' = event_dir e) then [] else requests d' s) as Hreq
    by (intros d'; subst s1; by destruct (event_dir e), d').
  assert (service s1 = service s /\
    working s1 = <[i := (event_dir e, if success then Succeeded r else Failed r)]> (working s) /\
    disconnecting s1 = disconnecting s /\ m_is_connected s1 = m_is_connected s /\ closed s1 = closed s /\
    indeterminate s1 = indeterminate s /\ completed s1 = completed s /\ accepted s1 = accepted s /\ dropped s1 = dropped s)
    as (Es & Ew & Ed & Ec & El & Ei & Ecomp & Ea & Edr) by (subst s1; by destruct (event_dir e)).
  clear Hpop. clearbody s1.
  assert (reachable (service s) -> reachable (service s')) as Hreach.
  { intros Hr. eapply call_reachable; [|exact Hs]. by rewrite Es. }
  apply call_set_callback in Hs as (io & -> & Hs). rewrite Es in Hs.
  assert (forall d, requests d (set_service io s1) = requests d s1) as Hreq1 by by intros [].
  split; try done.
  - intros Hw. eapply watched_set_callback; [exact Hw|exact Hs|done|..].
    + intros d' Hne. by rewrite Hreq1, Hreq, decide_False.
    + by rewrite Hreq1, Hreq, decide_True.
  - apply (section_live _ _ _ Hs).
  - apply (section_workers _ _ _ Hs).
Qed.

Lemma ok_popped i e r rest success s s' :
  ok s -> worker_event i (service s) = Some e -> event_fd e = fd -> working s !! i = None ->
  popped i e r rest success s s' -> ok s'.
Proof.
  intros Hok He Hfd Hi [Hq Hreq Ew Ed Ec El _ Ecomp Ea Edr Hreach Hwat _ Hw].
  pose proof (process_first s i e Hok He Hfd Hi) as Hfirst.
  assert (forall st, stage_ok st s -> stage_ok st s') as Hst.
  { assert (requests Rd s = [] -> requests Rd s' = []) by (rewrite Hreq; case_decide as Hd; [rewrite Hd, Hq; done|done]).
    assert (requests Wr s = [] -> requests Wr s' = []) by (rewrite Hreq; case_decide as Hd; [rewrite Hd, Hq; done|done]).
    intros []; cbn in *; rewrite ?Ec; tauto. }
  split; rewrite ?Ew, ?Ed, ?El, ?Ec.
  - by apply Hreach, ok_service.
  - intros Hc. by apply Hwat, ok_watched.
  - intros j d p. rewrite Hw. destruct (decide (i = j)) as [<-|Hne].
    + rewrite lookup_insert_eq. intros [= <- _]. by exists e.
    + rewrite lookup_insert_ne by done. apply ok_working, Hok.
  - intros t st wait Ht. by eapply Hst, ok_stage.
  - intros Hcl. by apply (Hst Untracked), ok_closed.
  - intros d. destruct (decide (d = event_dir e)) as [->|Hd].
    + destruct (ok_ordered s Hok (event_dir e)) as (hand & Hh & Hsub & Hperm).
      assert (hand = []) as -> by (destruct Hh as [[-> _]|(j & p & ? & Hj & _)]; [done|by destruct (Hfirst j p)]).
      exists [r]. split; [right; exists i, (if success then Succeeded r else Failed r), r; rewrite Ew, lookup_insert_eq; by destruct success|].
      unfold completed_on, accepted_on, dropped_on in *. rewrite Ecomp, Ea, Edr, Hreq, decide_True by done.
      by rewrite Hq in Hsub, Hperm.
    + apply (ordered_working d s s' i); [by apply ok_ordered|by rewrite Hreq, decide_False| | | |..].
      * unfold accepted_on. by rewrite Ea.
      * unfold completed_on. by rewrite Ecomp.
      * unfold dropped_on. by rewrite Edr.
      * intros j Hj. by rewrite Ew, lookup_insert_ne.
      * intros p. congruence.
      * intros p. rewrite Ew, lookup_insert_eq. congruence.
Qed.

Lemma fresh_popped i e r rest success s s' :
  fresh s -> working s !! i = None -> popped i e r rest success s s' -> fresh s'.
Proof.
  intros Hf Hi [Hq Hreq Ew _ Ec _ Ei _ _ _ _ _ Hlive _]. unfold fresh. rewrite Ec. intros Hc. destruct (Hf Hc) as (Hev & Hind & Hno).
  split; [|split; [congruence|]].
  - intros e' He' Hfd'. rewrite Ew. destruct (decide (event_dir e' = event_dir e)) as [Hd|Hd].
    + left. exists i. eexists. by rewrite lookup_insert_eq, Hd.
    + rewrite Hreq, decide_False by done. destruct (Hev e' (Hlive e' He') Hfd') as [(j & p & Hj)|?]; [left|by right].
      exists j, p. rewrite lookup_insert_ne; [done|]. intros ->. congruence.
  - rewrite Ew. intros j d [[_ Hj]|[_ Hj]]%lookup_insert_Some; [by destruct success|by eapply Hno].
Qed.

Lemma ok_process i success s s' : ok s -> process read_fd pipe_size fd i success s = Some s' -> ok s'.
Proof.
  intros Hok (e & He & Hfd & Hi & Hcase)%process_inv. destruct Hcase as [[Hq ->]|(r & rest & Hp)]; [|by eapply ok_popped].
  split; try apply Hok; cbn [service set_working working].
  - intros j d p. destruct (decide (i = j)) as [<-|Hne].
    + rewrite lookup_insert_eq. intros [= <- _]. by exists e.
    + rewrite lookup_insert_ne by done. apply ok_working, Hok.
  - intros d. apply (ordered_working d s _ i); try done; [by apply ok_ordered|..].
    + intros j Hne. cbn. by rewrite lookup_insert_ne.
    + intros p Hp. congruence.
    + intros p. cbn. rewrite lookup_insert_eq. by intros [= _ <-].
Qed.

Lemma fresh_process i success s s' : ok s -> fresh s -> process read_fd pipe_size fd i success s = Some s' -> fresh s'.
Proof.
  intros Hok Hf (e & He & Hfd & Hi & Hcase)%process_inv. destruct Hcase as [[Hq ->]|(r & rest & Hp)]; [|by eapply fresh_popped].
  intros Hc. exfalso. destruct (Hf Hc) as [Hev _].
  destruct (Hev e (worker_live _ _ _ He) Hfd) as [(j & p & Hj)|?]; [|done].
  by eapply (process_first s i e Hok He Hfd Hi).
Qed.

(** The rest of a callback: the worker's progress moves on, and what it held and does
    not hold any more has been given to its callback. *)
Record moved (i : nat) (d : direction) (p q : progress) (l : list (direction * nat * bool)) (s s' : connection) : Prop := {
  move_from : working s !! i = Some (d, p);
  move_service : service s' = service s;
  move_connected : m_is_connected s' = m_is_connected s;
  move_requests : forall d', requests d' s' = requests d' s;
  move_disconnecting : disconnecting s' = disconnecting s;
  move_closed : closed s' = closed s;
  move_working : working s' = <[i := (d, q)]> (working s);
  move_to : q <> NoRequest;
  move_indeterminate : p <> NoRequest -> indeterminate s' = indeterminate s;
  move_accepted : accepted s' = accepted s;
  move_dropped : dropped s' = dropped s;
  move_completed : completed s' = completed s ++ l;
  move_held : held q = held p /\ l = [] \/ held q = None /\ exists r b, held p = Some r /\ l = [(d, r, b)] }.

Lemma ok_moved s s' i d p q l : ok s -> moved i d p q l s s' -> ok s'.
Proof.
  intros Hok [Hi Es Ec Er Ed El Ew Hnq _ Ea Edr Ecomp Hl].
  assert (forall st, stage_ok st s -> stage_ok st s') as Hst.
  { pose proof (Er Rd) as Hr. pose proof (Er Wr) as Hw. cbn in Hr, Hw. intros []; cbn; by rewrite ?Ec, ?Hr, ?Hw. }
  split; rewrite ?Es, ?Ec, ?Ed, ?El, ?Ew.
  - apply ok_service, Hok.
  - intros Hc. destruct (ok_watched s Hok Hc) as (x & Hx & Hm & Hcb). exists x. rewrite Es. split_and!; [done..|].
    intros d'. by rewrite Er.
  - intros j d' p' [[<- [= <- <-]]|[_ Hj]]%lookup_insert_Some; [by apply (ok_working s Hok i d p)|by apply (ok_working s Hok j d' p')].
  - intros t st wait Ht. by eapply Hst, ok_stage.
  - intros Hcl. by apply (Hst Untracked), ok_closed.
  - intros d'. assert (accepted_on d' s' = accepted_on d' s /\ dropped_on d' s' = dropped_on d' s) as [Ha Hd]
      by (unfold accepted_on, dropped_on; by rewrite Ea, Edr).
    assert (completed_on d' s' = completed_on d' s ++ on_direction d' (map fst l)) as Hc
      by (unfold completed_on; by rewrite Ecomp, map_app, on_direction_app).
    destruct (decide (d = d')) as [<-|Hne].
    + destruct Hl as [[Hq ->]|(Hq & r & b & Hp & ->)].
      * eapply ordered_same; [by apply (ok_ordered s Hok)|apply Er|done| |done|..].
        -- by rewrite Hc, app_nil_r.
        -- rewrite Ew. intros j p' [[<- [= <-]]|[_ Hj]]%lookup_insert_Some Hp'; [by exists p|by exists p'].
        -- rewrite Ew. intros j p' Hj Hp'. destruct (decide (i = j)) as [<-|Hne]; [|exists p'; by rewrite lookup_insert_ne].
           exists q. rewrite lookup_insert_eq. split; congruence.
      * destruct (ok_ordered s Hok d) as (hand & Hh & Hsub & Hperm).
        assert (hand = [r]) as ->.
        { destruct Hh as [[_ Hn]|(j & p' & r' & Hj & Hp' & ->)]; [by rewrite (Hn i p Hi) in Hp|].
          assert (i = j) as <- by by eapply working_unique. congruence. }
        exists []. rewrite Ha, Hd, Er, Hc. cbn [map fst on_direction omap list_omap snd]. rewrite decide_True by done.
        rewrite <- !app_assoc. split; [|done]. left. split; [done|]. rewrite Ew.
        intros j p2 [[_ [= <-]]|[Hne Hj2]]%lookup_insert_Some; [done|]. by destruct Hne; eapply working_unique.
    + apply (ordered_working d' s s' i); [by apply ok_ordered|apply Er|done| |done|..].
      * rewrite Hc. destruct Hl as [[_ ->]|(_ & r & b & _ & ->)]; cbn; rewrite ?decide_False by done; by rewrite app_nil_r.
      * intros j Hji. rewrite Ew. by rewrite lookup_insert_ne.
      * intros p2 Hp2. congruence.
      * intros p2. rewrite Ew, lookup_insert_eq. congruence.
Qed.

Lemma fresh_moved s s' i d p q l : fresh s -> moved i d p q l s s' -> fresh s'.
Proof.
  intros Hf [Hi Es Ec Er _ _ Ew Hnq Ei _ _ _ _]. unfold fresh. rewrite Es, Ec, Ew. intros Hc. destruct (Hf Hc) as (Hev & Hind & Hno).
  split; [|split].
  - intros e He Hfd. rewrite Er. destruct (Hev e He Hfd) as [(j & p' & Hj)|?]; [left|by right].
    destruct (decide (i = j)) as [<-|Hne]; [|exists j, p'; by rewrite lookup_insert_ne].
    exists i, q. rewrite lookup_insert_eq. congruence.
  - rewrite Ei; [done|]. intros ->. by eapply Hno.
  - intros j d' [[_ [= _ ?]]|[_ Hj]]%lookup_insert_Some; [done|by eapply Hno].
Qed.

Lemma continue_moved i s s' : continue i s = Some s' -> exists d p q l, moved i d p q l s s'.
Proof.
  unfold continue. destruct (working s !! i) as [[d p]|] eqn:Hi; [|done].
  destruct p as [|r|r|r| |]; try done; intros Hs; injection Hs as <-; exists d.
  - exists NoRequest, Over, []. split; try done; [by cbn; rewrite app_nil_r|by left].
  - exists (Succeeded r), Over, [(d, r, true)]. split; try done. right. eauto.
  - exists (Disconnected r), CalledBack, [(d, r, false)]. split; try done. right. eauto.
  - exists CalledBack, Over, []. split; try done; [by cbn; rewrite app_nil_r|by left].
Qed.

(** ** Disconnection *)

(** The worker's progress is as it was, or has gone past a disconnection. *)
Lemma past_failure_moved s i d r :
  working s !! i = Some (d, Failed r) ->
  moved i d (Failed r) (Disconnected r) [] s (set_working (<[i := (d, Disconnected r)]> (working s)) s).
Proof. intros Hi. split; try done; [by cbn; rewrite app_nil_r|by left]. Qed.

(** A change of the threads that disconnect. *)
Lemma ok_disconnecting s m :
  ok s -> (forall t st wait, m !! t = Some (st, wait) -> stage_ok st s) -> ok (set_disconnecting m s).
Proof.
  intros Hok Hm. split; try apply Hok.
  intros t st wait Ht. by destruct st; apply (Hm t _ wait Ht).
Qed.

Lemma test_inv t wait s s' : disconnect_test t wait s = Some s' ->
  (m_is_connected s = true /\ s' = set_disconnecting (<[t := (Tested, wait)]> (disconnecting s)) s) \/
  s' = s \/ exists i d r, moved i d (Failed r) (Disconnected r) [] s s'.
Proof.
  unfold disconnect_test. destruct (disconnecting s !! t); [done|]. intros [= <-].
  destruct (m_is_connected s); [by left|right]. destruct t as [n|i]; [by left|].
  destruct (working s !! i) as [[d []]|] eqn:Hi; try by left. right. exists i, d, r. by apply past_failure_moved.
Qed.

Lemma ok_test t wait s s' : ok s -> disconnect_test t wait s = Some s' -> ok s'.
Proof.
  intros Hok [[_ ->]|[->|(i & d & r & Hm)]]%test_inv; [|done|by eapply ok_moved].
  apply ok_disconnecting; [done|]. intros t' st w [[_ [= <- _]]|[_ H]]%lookup_insert_Some; [done|by eapply ok_stage].
Qed.

Lemma fresh_test t wait s s' : fresh s -> disconnect_test t wait s = Some s' -> fresh s'.
Proof. intros Hf [[_ ->]|[->|(i & d & r & Hm)]]%test_inv; [exact Hf|done|by eapply fresh_moved]. Qed.

(** The client is no longer connected, and the requests are those it had, or cleared. *)
Lemma ok_cleared s s' :
  ok s -> m_is_connected s' = false -> service s' = service s -> working s' = working s ->
  (forall d, requests d s' = requests d s /\ dropped_on d s' = dropped_on d s \/
             requests d s' = [] /\ dropped_on d s' = dropped_on d s ++ requests d s) -> closed s' = closed s ->
  accepted s' = accepted s -> completed s' = completed s ->
  (forall t st wait, disconnecting s' !! t = Some (st, wait) -> stage_ok st s') -> ok s'.
Proof.
  intros Hok Hc Es Ew Hr El Ea Ecomp Hst. split; rewrite ?Es, ?Ew, ?El, ?Hc; try done.
  - apply ok_service, Hok.
  - apply ok_working, Hok.
  - intros Hcl. destruct (ok_closed s Hok Hcl) as (_ & Hrd & Hwr).
    assert (requests Rd s' = [] /\ requests Wr s' = []) as [? ?]; [|done].
    split; [destruct (Hr Rd) as [[-> _]|[-> _]]|destruct (Hr Wr) as [[-> _]|[-> _]]]; done.
  - intros d. assert (accepted_on d s' = accepted_on d s /\ completed_on d s' = completed_on d s) as [Ha Hcomp]
      by (unfold accepted_on, completed_on; by rewrite Ea, Ecomp).
    destruct (Hr d) as [[Hrd Hdr]|[Hrd Hdr]].
    + eapply ordered_same; [apply (ok_ordered s Hok)|done..| |]; rewrite Ew; intros i p Hi _; by exists p.
    + eapply ordered_cleared; [apply (ok_ordered s Hok)|done..].
Qed.

(** Stages of other threads, when requests are cleared. *)
Lemma stage_ok_less st s s' :
  stage_ok st s -> m_is_connected s' = false ->
  (forall d, requests d s' = requests d s \/ requests d s' = []) -> stage_ok st s'.
Proof.
  intros Hst Hc Hr. pose proof (Hr Rd) as H1. pose proof (Hr Wr) as H2. cbn in H1, H2.
  assert (m_read_requests s = [] -> m_read_requests s' = []) by (intros E; rewrite E in H1; by destruct H1).
  assert (m_write_requests s = [] -> m_write_requests s' = []) by (intros E; rewrite E in H2; by destruct H2).
  destruct st; cbn in *; tauto.
Qed.

(** A thread goes on to the next stage, and a direction's requests are cleared. *)
Lemma ok_advance t st wait s s' :
  ok s -> m_is_connected s' = false -> service s' = service s -> working s' = working s ->
  (forall d, requests d s' = requests d s /\ dropped_on d s' = dropped_on d s \/
             requests d s' = [] /\ dropped_on d s' = dropped_on d s ++ requests d s) -> closed s' = closed s ->
  accepted s' = accepted s -> completed s' = completed s ->
  disconnecting s' = <[t := (st, wait)]> (disconnecting s) -> stage_ok st s' -> ok s'.
Proof.
  intros Hok Hc Es Ew Hr El Ea Ecomp Ed Hst. apply (ok_cleared s s'); try done.
  rewrite Ed. intros t' st' w [[_ [= <- _]]|[_ H]]%lookup_insert_Some; [done|].
  eapply stage_ok_less; [by eapply ok_stage|done|]. intros d. destruct (Hr d) as [[? _]|[? _]]; [by left|by right].
Qed.

Lemma dropped_clear d d' s :
  dropped_on d (clear_requests d' s) = dropped_on d s ++ (if decide (d' = d) then requests d' s else []).
Proof.
  unfold dropped_on. destruct d'; cbn [dropped clear_requests set_requests]; by rewrite on_direction_app, on_direction_pairs.
Qed.

Lemma clear_requests_or d d' s m :
  let s' := clear_requests d' (set_disconnecting m s) in
  requests d s' = requests d s /\ dropped_on d s' = dropped_on d s \/
  requests d s' = [] /\ dropped_on d s' = dropped_on d s ++ requests d s.
Proof.
  cbn zeta. rewrite dropped_clear. unfold clear_requests. rewrite requests_set.
  destruct (decide (d = d')) as [<-|Hne].
  - right. split; [done|]. rewrite decide_True by done. by destruct d.
  - left. split; [by destruct d|]. rewrite decide_False by congruence. by rewrite app_nil_r.
Qed.

Lemma ok_disconnected t s : ok s -> ok (disconnected t s).
Proof.
  intros Hok. unfold disconnected.
  assert (ok (set_disconnecting (delete t (disconnecting s)) s)) as Hok1.
  { apply ok_disconnecting; [done|]. intros t' st w [_ H]%lookup_delete_Some. by eapply ok_stage. }
  destruct t as [n|i]; [done|]. cbn [working set_disconnecting].
  destruct (working s !! i) as [[d []]|] eqn:Hi; try done.
  eapply ok_moved; [exact Hok1|]. by apply (past_failure_moved (set_disconnecting (delete (Worker i) (disconnecting s)) s)).
Qed.

Lemma ok_close s : ok s -> stage_ok Untracked s -> ok (set_closed true s).
Proof. intros Hok Hst. split; try apply Hok. done. Qed.

Lemma ok_disconnect t s s' : ok s -> disconnect_step read_fd pipe_size fd t s = Some s' -> ok s'.
Proof.
  intros Hok. unfold disconnect_step. destruct (disconnecting s !! t) as [[st wait]|] eqn:Ht; [|done].
  pose proof (ok_stage s Hok t st wait Ht) as Hst. cbn zeta. destruct st.
  - intros [= <-]. eapply (ok_advance t Flagged wait s); try done. intros []; by left.
  - intros [= <-]. eapply (ok_advance t ReadsCleared wait s); try done. intros d. apply clear_requests_or.
  - destruct Hst as [Hc Hrd]. intros [= <-]. eapply (ok_advance t WritesCleared wait s); try done.
    intros d. apply clear_requests_or.
  - assert (ok (set_disconnecting (<[t := (Untracked, wait)]> (disconnecting s)) s)) as Hok1.
    { apply ok_disconnecting; [done|]. intros t' st w [[_ [= <- _]]|[_ H]]%lookup_insert_Some; [done|by eapply ok_stage]. }
    destruct (closed s); [by intros [= <-]|]. intros Hs.
    pose proof (call_reachable _ _ _ (ok_service _ Hok1) Hs) as Hreach.
    apply call_untrack in Hs as (io & m & -> & [_ Hlive Hw] & _). cbn [service set_disconnecting set_service] in *.
    destruct Hst as (Hc & Hrd & Hwr).
    split; cbn [service set_service set_disconnecting m_is_connected]; try (by rewrite Hc); try apply Hok1; [done|].
    intros i d p Hi. rewrite Hw. by apply (ok_working s Hok i d p).
  - destruct (wait && _ && _); [done|]. intros [= <-]. apply ok_close; [by apply ok_disconnected|].
    destruct Hst as (Hc & Hrd & Hwr). unfold disconnected.
    destruct t as [n|i]; [done|]. cbn [working set_disconnecting]. by destruct (working s !! i) as [[d []]|].
Qed.

(** A client that disconnects is not connected. *)
Lemma disconnect_unconnected t s s' :
  ok s -> disconnect_step read_fd pipe_size fd t s = Some s' -> m_is_connected s' = false.
Proof.
  intros Hok. unfold disconnect_step. destruct (disconnecting s !! t) as [[st wait]|] eqn:Ht; [|done].
  pose proof (ok_stage s Hok t st wait Ht) as Hst. cbn zeta. destruct st.
  - by intros [= <-].
  - by intros [= <-].
  - destruct Hst as [Hc _]. by intros [= <-].
  - destruct Hst as [Hc _]. destruct (closed s); [by intros [= <-]|].
    intros (io & m & -> & _)%call_untrack. done.
  - destruct Hst as [Hc _]. destruct (wait && _ && _); [done|]. intros [= <-]. unfold disconnected.
    destruct t as [n|i]; [done|]. cbn [working set_disconnecting]. by destruct (working s !! i) as [[d []]|].
Qed.

(** ** Another connection *)

Lemma connect_inv s s' : connect_again read_fd pipe_size fd s = Some s' ->
  m_is_connected s = false /\ closed s = true /\ disconnecting s = ∅ /\ exists io,
    section (<[fd := set_marked false (set_callback Wr None (set_callback Rd None (socket_at fd (service s))))]>
               (m_tracked_sockets (service s))) (service s) io /\
    (reachable (service s) -> reachable io) /\ s' = set_connected true (set_closed false (set_service io s)).
Proof.
  unfold connect_again. destruct (m_is_connected s); [done|]. destruct (closed s); [|done]. case_bool_decide as Hd; [|done].
  cbn [negb andb]. destruct (call _ s) as [s1|] eqn:E; [|done]. cbn [mbind option_bind]. intros [= <-].
  split_and!; [done..|]. pose proof (fun Hr => call_reachable _ s s1 Hr E) as Hreach. revert E. unfold call_service. cbn [io_step].
  destruct (track fd None None (service s)) as [io1|] eqn:E; [|done]. cbn [mbind option_bind].
  apply locked_inv in E as [Hu [= <-]]. rewrite decide_True by done.
  destruct (caller_notifies _ _) as [io2|] eqn:E; [|done]. intros [= <-].
  apply notified_section in E; [|done]. exists io2. by split_and!.
Qed.

Lemma ok_connect s s' : ok s -> connect_again read_fd pipe_size fd s = Some s' -> ok s'.
Proof.
  intros Hok (Hc & Hcl & Hd & io & [Ht _ Hw] & Hreach & ->)%connect_inv.
  destruct (ok_closed s Hok Hcl) as (_ & Hrd & Hwr).
  split; cbn [service set_service set_connected set_closed m_is_connected working disconnecting closed]; try done.
  - by apply Hreach, ok_service.
  - intros _. eexists. cbn [service set_service set_connected set_closed]. rewrite Ht, lookup_insert_eq. split; [done|]. split; [done|].
    intros d. by destruct d; cbn; rewrite ?Hrd, ?Hwr.
  - intros i d p Hi. rewrite Hw. by apply (ok_working s Hok i d p).
  - rewrite Hd. intros t st wait. by rewrite lookup_empty.
  - intros d. apply (ok_ordered s Hok d).
Qed.

Lemma fresh_connect s s' : ok s -> clean s = true -> connect_again read_fd pipe_size fd s = Some s' -> fresh s'.
Proof.
  intros Hok [Hind Hcl]%clean_spec (_ & _ & _ & io & [_ Hlive _] & _ & ->)%connect_inv _.
  cbn [service set_service set_connected set_closed working indeterminate]. split; [|split; [done|]].
  - intros e He Hfd. destruct (Hcl e (Hlive e He) Hfd) as (i & p & Hi & _). left. by exists i, p.
  - intros i d Hi. destruct (ok_working s Hok i d _ Hi) as (e & He & Hfd & Hd).
    destruct (Hcl e (worker_live _ _ _ He) Hfd) as (j & p & Hj & Hp). rewrite Hd in Hj.
    assert (i = j) as <- by by eapply working_unique. congruence.
Qed.

(** ** Runs *)

Lemma ok_step l s s' : ok s -> step l s = Some s' -> ok s'.
Proof.
  intros Hok. destruct l as [l|d r|i success|i|n wait|i|t|]; cbn [TcpClientIo.step].
  - by apply ok_service_step.
  - by apply ok_request.
  - by apply ok_process.
  - intros (d & p & q & l & Hm)%continue_moved. by eapply ok_moved.
  - by apply ok_test.
  - destruct (working s !! i) as [[d []]|]; try done. by apply ok_test.
  - by apply ok_disconnect.
  - by apply ok_connect.
Qed.

(** A connection made again where no callback of the last one is left that has not
    taken its request. *)
Definition clean_connect (l : label) (s : connection) : bool := match l with LConnect => clean s | _ => true end.

Lemma fresh_step l s s' : ok s -> fresh s -> clean_connect l s = true -> step l s = Some s' -> fresh s'.
Proof.
  intros Hok Hf Hcl. destruct l as [l|d r|i success|i|n wait|i|t|]; cbn [TcpClientIo.step].
  - by apply fresh_service_step.
  - by apply fresh_request.
  - by apply fresh_process.
  - intros (d & p & q & l & Hm)%continue_moved. by eapply fresh_moved.
  - by apply fresh_test.
  - destruct (working s !! i) as [[d []]|]; try done. by apply fresh_test.
  - intros Hs Hc. by rewrite (disconnect_unconnected t s s' Hok Hs) in Hc.
  - by apply fresh_connect.
Qed.

(** What holds of every label of a run where it is taken. *)
Fixpoint along (allowed : label -> connection -> bool) (ls : list label) (s : connection) : bool :=
  match ls with
  | [] => true
  | l :: ls => allowed l s && match step l s with Some s' => along allowed ls s' | None => true end
  end.

(** A property of the states of a run, by rule induction. *)
Lemma connection_run_invariant (P : connection -> Prop) allowed ls s s' :
  (forall l s s', P s -> allowed l s = true -> step l s = Some s' -> P s') ->
  P s -> along allowed ls s = true -> run ls s = Some s' -> P s'.
Proof.
  intros Hstep. revert s. induction ls as [|l ls IH]; intros s HP Hal Hrun; cbn [TcpClientIo.run along] in *; [by simplify_eq|].
  apply andb_true_iff in Hal as [Hl Hal]. destruct (step l s) as [s1|] eqn:E; [|done].
  eapply IH; [|exact Hal|exact Hrun]. by eapply Hstep.
Qed.

Lemma along_all ls s : along (fun _ _ => true) ls s = true.
Proof. revert s. induction ls as [|l ls IH]; intros s; cbn; [done|]. by destruct (step l s). Qed.

(** The connection that [connect] makes on a descriptor the service does not know. *)
Lemma ok_connected handler io s :
  reachable io -> m_tracked_sockets io !! fd = None ->
  track_connection read_fd pipe_size fd handler io = Some s -> ok s /\ fresh s.
Proof.
  intros Hreach Hnone Hs.
  pose proof (call_reachable _ (mk_connection io true [] [] handler false ∅ ∅ [] [] [] 0 false) _ Hreach Hs) as Hreach'.
  revert Hs. unfold track_connection, call_service. cbn [io_step service].
  destruct (track fd None None io) as [io1|] eqn:E; [|done]. cbn [mbind option_bind].
  apply locked_inv in E as [Hu [= <-]]. rewrite decide_True by done.
  destruct (caller_notifies _ _) as [io2|] eqn:E; [|done]. intros [= <-].
  apply notified_section in E as [Ht Hlive Hw]; [|done].
  assert (forall d, count io fd d = 0) as Hcount.
  { intros d. destruct Hreach as (n & ls & Hrun). pose proof (reachable_count _ _ _ _ _ fd d Hrun) as Hc.
    unfold flag in Hc. rewrite Hnone in Hc. lia. }
  split; [split; try done|].
  - intros _. unfold watched. cbn [service set_service]. rewrite Ht, lookup_insert_eq. eexists. split; [done|].
    unfold socket_at. rewrite Hnone. split; [done|]. by intros [].
  - intros d. exists []. split; [left; done|]. by destruct d.
  - intros _. split; [|done]. intros e He Hfd. exfalso. apply Hlive in He. specialize (Hcount (event_dir e)).
    unfold count in Hcount. assert (e ∈ callbacks_on fd (event_dir e) (live io)) as Hin by by apply list_elem_of_filter.
    destruct (callbacks_on _ _ _); [by apply not_elem_of_nil in Hin|done].
Qed.

Lemma ok_run ls s s' : ok s -> run ls s = Some s' -> ok s'.
Proof.
  intros Hok. apply (connection_run_invariant ok (fun _ _ => true)); [|done|apply along_all].
  intros l s1 s2 H1 _. by apply ok_step.
Qed.

Lemma fresh_run ls s s' : ok s -> fresh s -> along clean_connect ls s = true -> run ls s = Some s' -> fresh s'.
Proof.
  intros Hok Hf Hal Hrun.
  apply (connection_run_invariant (fun s => ok s /\ fresh s) clean_connect ls s s'); [|done..].
  intros l s1 s2 [H1 H2] Hl Hs. split; [by eapply ok_step|by eapply fresh_step].
Qed.
End facts.
