(* ===== verification/TcpClientIoTheorems.v ===== *)
(** The properties of a connection on the io_service, with their witnesses. *)

From S2P Require Import Prelude ThreadPool IoService IoServiceFacts IoServiceSocket TcpClientIo TcpClientIoFacts.

Section properties.
Context (read_fd : Z) (pipe_size : nat) (fd : Z).

Abbreviation step := (step read_fd pipe_size fd).
Abbreviation run := (run read_fd pipe_size fd).

(** A connection just made: [connect] has put its descriptor, new to a service that
    has run, under that service. *)
Definition connected_on (io : io_service) (handler : bool) (s : connection) : Prop :=
  reachable read_fd pipe_size io /\ m_tracked_sockets io !! fd = None /\
  track_connection read_fd pipe_size fd handler io = Some s.

Lemma connected_run io handler s0 ls s :
  connected_on io handler s0 -> run ls s0 = Some s -> ok read_fd pipe_size fd s.
Proof. intros (? & ? & Hs) Hrun. eapply ok_run; [by eapply ok_connected|exact Hrun]. Qed.

(** No request waits unnoticed, and no callback runs for nothing: while the client
    is connected, for the first time or again, whatever threads ask and workers do
    and in any order, its socket is tracked, with the callback of a direction set
    exactly when requests of this direction are pending; and when it was connected
    again only where every callback of the last connection had taken its request, a
    worker that enters the callback finds one. *)
Theorem pending_requests_watched io handler s0 ls s :
  connected_on io handler s0 -> run ls s0 = Some s -> m_is_connected s = true ->
  (exists x, m_tracked_sockets (service s) !! fd = Some x /\ marked_for_untrack x = false /\
     forall d, callback_of d x = match requests d s with [] => None | _ => Some (on_available d) end) /\
  (along read_fd pipe_size fd (clean_connect fd) ls s0 = true ->
    (forall i e, worker_event i (service s) = Some e -> event_fd e = fd -> working s !! i = None ->
       requests (event_dir e) s <> []) /\
    indeterminate s = false).
Proof.
  intros Hs0 Hrun Hc. pose proof (connected_run _ _ _ _ _ Hs0 Hrun) as Hok.
  split; [by apply (ok_watched _ _ _ s Hok)|]. intros Hal. destruct Hs0 as (Hr & Hn & Hs0).
  destruct (ok_connected _ _ _ _ _ _ Hr Hn Hs0) as [Hok0 Hf0].
  destruct (fresh_run _ _ _ _ _ _ Hok0 Hf0 Hal Hrun Hc) as (Hev & Hind & _). split; [|done].
  intros i e He Hfd Hi. destruct (Hev e (worker_live _ _ _ He) Hfd) as [(j & p & Hj)|?]; [|done].
  by destruct (process_first _ _ _ s i e Hok He Hfd Hi j p).
Qed.

(** C17: Requests are called back in order and none is lost: in each direction the
    requests called back, then at most one that a worker has in its hands, then
    those pending, are in the order they were accepted, over all connections of the
    client; and the others are those a disconnection has cleared, if there was one. *)
Theorem requests_complete_in_order io handler s0 ls s d :
  connected_on io handler s0 -> run ls s0 = Some s ->
  exists hand, length hand <= 1 /\
    (completed_on d s ++ hand ++ requests d s) `sublist_of` accepted_on d s /\
    accepted_on d s ≡ₚ completed_on d s ++ hand ++ requests d s ++ dropped_on d s /\
    (dropped_on d s = [] -> accepted_on d s = completed_on d s ++ hand ++ requests d s).
Proof.
  intros Hs0 Hrun. pose proof (connected_run _ _ _ _ _ Hs0 Hrun) as Hok.
  destruct (ok_ordered _ _ _ s Hok d) as (hand & Hh & Hsub & Hperm). exists hand.
  split; [destruct Hh as [[-> _]|(i & p & r & _ & _ & ->)]; cbn; lia|]. split_and!; [done..|].
  intros Hd. symmetry. apply sublist_full; [done|]. by rewrite Hperm, Hd, app_nil_r.
Qed.

(** ** After the removal *)

Definition gone (l : list (direction * nat * bool)) (n : nat) (b : bool) (s : connection) : Prop :=
  ok read_fd pipe_size fd s /\ closed s = true /\ m_tracked_sockets (service s) !! fd = None /\
  completed s = l /\ handler_calls s = n /\ indeterminate s = b.

Lemma untracked_quiet io :
  reachable read_fd pipe_size io -> m_tracked_sockets io !! fd = None -> forall e, e ∈ live io -> event_fd e <> fd.
Proof.
  intros (n & ls & Hrun) Hnone e He Hfd. pose proof (reachable_count _ _ _ _ _ fd (event_dir e) Hrun) as Hc.
  unfold flag, count in Hc. rewrite Hnone in Hc.
  assert (e ∈ callbacks_on fd (event_dir e) (live io)) as Hin by by apply list_elem_of_filter.
  destruct (callbacks_on _ _ _); [by apply not_elem_of_nil in Hin|cbn in Hc; lia].
Qed.

Lemma gone_idle l n b s : gone l n b s -> working s = ∅.
Proof.
  intros (Hok & _ & Hnone & _). apply map_eq. intros i. rewrite lookup_empty.
  destruct (working s !! i) as [[d p]|] eqn:Hi; [|done]. exfalso.
  destruct (ok_working _ _ _ s Hok i d p Hi) as (e & He & Hfd & _).
  by apply (untracked_quiet _ (ok_service _ _ _ s Hok) Hnone e (worker_live _ _ _ He)).
Qed.

Lemma gone_step l n b lb s s' : lb <> LConnect -> gone l n b s -> step lb s = Some s' -> gone l n b s'.
Proof.
  intros Hlb Hg Hs. pose proof (gone_idle _ _ _ _ Hg) as Hw. destruct Hg as (Hok & Hcl & Hnone & Hl & Hn & Hb).
  pose proof (ok_step _ _ _ _ _ _ Hok Hs) as Hok'. pose proof (ok_closed _ _ _ s Hok Hcl) as (Hc & _).
  split; [done|]. destruct lb as [lb|d r|i success|i|k wait|i|t|]; [..|done]; cbn [TcpClientIo.step] in Hs.
  - apply service_inv in Hs as (io & _ & Hleaves & Hcase).
    assert (m_tracked_sockets io !! fd = None) as Hnone'.
    { destruct (m_tracked_sockets io !! fd) as [x|] eqn:Hx; [|done]. destruct (leaves_socket fd _ _ Hleaves x Hx) as (y & Hy & _). congruence. }
    by destruct Hcase as [[-> _]|(i & threw & _ & -> & _)].
  - unfold async_request in Hs. by rewrite Hc in Hs.
  - unfold process in Hs. destruct (worker_event i (service s)) as [e|] eqn:He; [|done]. case_decide as Hd; [|done].
    destruct Hd as [Hfd _]. by destruct (untracked_quiet _ (ok_service _ _ _ s Hok) Hnone e (worker_live _ _ _ He)).
  - unfold continue in Hs. by rewrite Hw, lookup_empty in Hs.
  - unfold disconnect_test in Hs. destruct (disconnecting s !! User k); [done|]. rewrite Hc in Hs. by injection Hs as <-.
  - by rewrite Hw, lookup_empty in Hs.
  - unfold disconnect_step in Hs. destruct (disconnecting s !! t) as [[st wait]|]; [|done]. cbn zeta in Hs.
    destruct st; [by injection Hs as <-..| |].
    + rewrite Hcl in Hs. by injection Hs as <-.
    + rewrite Hcl, andb_false_r in Hs. injection Hs as <-. unfold disconnected. destruct t as [k|i]; [done|].
      cbn [working set_disconnecting]. by rewrite Hw, lookup_empty.
Qed.

(** C34: A client that has waited for its removal is left alone: once [disconnect(true)]
    has closed the socket, and until the client is connected again, no callback of
    the socket is queued or executes, the service does not track it, and no
    callback of a request and no disconnection handler is called any more; so that
    a new connection meets no callback of the last one. *)
Theorem waited_disconnect_is_final io handler s0 ls s t s1 :
  connected_on io handler s0 -> run ls s0 = Some s ->
  disconnecting s !! t = Some (Untracked, true) -> closed s = false -> step (LDisconnecting t) s = Some s1 ->
  forall ls2 s2, run ls2 s1 = Some s2 -> LConnect ∉ ls2 ->
    (forall e, e ∈ live (service s2) -> event_fd e <> fd) /\ m_tracked_sockets (service s2) !! fd = None /\
    working s2 = ∅ /\ completed s2 = completed s1 /\ handler_calls s2 = handler_calls s1 /\
    clean fd s2 = negb (indeterminate s1).
Proof.
  intros Hs0 Hrun Ht Hcl Hs ls2 s2 Hrun2 Hls2. pose proof (connected_run _ _ _ _ _ Hs0 Hrun) as Hok.
  pose proof (ok_step _ _ _ _ _ _ Hok Hs) as Hok1.
  assert (gone (completed s1) (handler_calls s1) (indeterminate s1) s1) as Hg.
  { split; [done|]. cbn [TcpClientIo.step] in Hs. unfold disconnect_step in Hs. rewrite Ht, Hcl in Hs. cbn in Hs.
    destruct (removed fd (service s)) eqn:Hrem; [|done]. injection Hs as <-.
    unfold removed in Hrem. apply andb_true_iff in Hrem as [_ Hrem]. apply bool_decide_eq_true in Hrem.
    split; [done|]. split; [|done]. unfold disconnected. destruct t as [k|i]; [done|].
    cbn [working set_disconnecting]. by destruct (working s !! i) as [[d []]|]. }
  assert (gone (completed s1) (handler_calls s1) (indeterminate s1) s2) as Hg2.
  { clear Hs Hok1 Hrun. revert Hg Hls2 Hrun2. generalize (completed s1), (handler_calls s1), (indeterminate s1). intros l n b.
    revert s1. induction ls2 as [|lb ls2 IH]; intros s1 Hg Hnot Hrun2; cbn [TcpClientIo.run] in Hrun2; [by simplify_eq|].
    apply not_elem_of_cons in Hnot as [Hlb Hnot]. destruct (step lb s1) as [s3|] eqn:E; [|done].
    eapply IH; [|exact Hnot|exact Hrun2]. by eapply gone_step. }
  pose proof (gone_idle _ _ _ _ Hg2). destruct Hg2 as (Hok2 & _ & Hnone & ? & ? & Hb).
  assert (forall e, e ∈ live (service s2) -> event_fd e <> fd) as Hquiet by (apply untracked_quiet; [by eapply ok_service|done]).
  split_and!; [done..|]. unfold clean. rewrite Hb. destruct (indeterminate s1); [done|]. cbn [negb andb].
  apply forallb_forall. intros e He. apply orb_true_iff. left. apply negb_true_iff, Z.eqb_neq, Hquiet. by apply list_elem_of_In.
Qed.
End properties.

(** ** Concrete runs

    The pipe is descriptor 3, the connection 5, with a disconnection handler; read
    request 7 and write request 8 are pending when the peer closes, and [select]
    reports the socket for both. *)

Definition start (workers : nat) : option connection := track_connection 3 64 5 true (io_init workers).
Definition work (i : nat) : label := LService (IPool (PWork i)).
Definition peer_closes : list label :=
  [LRequest Rd 7; LRequest Wr 8; LService (IPoll []); LService (IPoll [5%Z]);
   LService (ISelect {[3; 5]}%Z {[5]}%Z); LService (IPoll [])].
Definition disconnects (i : nat) : list label :=
  [LFail i] ++ replicate 5 (LDisconnecting (Worker i)).
Definition runs (workers : nat) (ls : list label) : option connection := s ← start workers; run 3 64 5 ls s.

(** Two workers: the read and the write both fail. *)
Definition both_fail : list label :=
  peer_closes ++ [work 0; work 0; work 1; work 1; LProcess 0 false; LProcess 1 false].

(** One lost connection is reported twice, or acted on without a result.  With two
    workers, a read and a write that both fail each call the disconnection handler;
    with one, the read that fails clears the write requests, and the write callback,
    already queued, reads a [result.success] that nothing has set. *)
Theorem lost_connection_reported_twice :
  (exists s, runs 2 (both_fail ++ disconnects 0 ++ [LFail 1; LContinue 0; LContinue 0; LContinue 1; LContinue 1]) = Some s /\
     completed s = [(Rd, 7, false); (Wr, 8, false)] /\ handler_calls s = 2) /\
  (exists s, runs 1 (peer_closes ++ [work 0; work 0; LProcess 0 false] ++ disconnects 0 ++
       [LContinue 0; LContinue 0; LService (ICallback 0 false); LService (IWorkerNotify 0); work 0; work 0;
        LProcess 0 true; LContinue 0]) = Some s /\
     completed s = [(Rd, 7, false)] /\ indeterminate s = true).
Proof. split; eexists; (split; [vm_compute; reflexivity|split; reflexivity]). Qed.

(** A failed read that has just set the flag, in [disconnect]; and its end. *)
Definition failing : option connection :=
  runs 1 (peer_closes ++ [work 0; work 0; LProcess 0 false; LFail 0; LDisconnecting (Worker 0)]).
Definition failed : option connection :=
  s ← failing; run 3 64 5 (replicate 4 (LDisconnecting (Worker 0)) ++ [LContinue 0; LContinue 0]) s.

(** The destructor of a client, [disconnect(true)], does not wait for a callback
    that is disconnecting already: a failed read has set [m_is_connected] to false,
    so the destructor returns at once, and the worker then goes on with the client
    that is no more: it closes its socket, calls the request back and the handler. *)
Theorem destructor_does_not_wait :
  (s ← failing; step 3 64 5 (LDisconnect 0 true) s) = failing /\
  (fun s => (working s !! 0, closed s)) <$> failing = Some (Some (Rd, Failed 7), false) /\
  (fun s => (closed s, completed s, handler_calls s)) <$> failed = Some (true, [(Rd, 7, false)], 1).
Proof. split_and!; vm_compute; reflexivity. Qed.

(** The handler of a lost connection connects again, while the write callback of that
    connection is queued. *)
Definition connect_in_handler : list label :=
  peer_closes ++ [work 0; work 0; LProcess 0 false] ++ disconnects 0 ++ [LContinue 0; LContinue 0; LConnect].

(** A callback of the last connection runs on the next: with one worker, a read fails,
    the disconnection handler connects again, and the write callback, which was queued
    for the lost connection, finds the client connected and no request, and goes by a
    [result.success] that nothing has set, to disconnect it or not. *)
Theorem stale_callback_meets_connection :
  exists s, runs 1 (connect_in_handler ++ [LService (ICallback 0 false); LService (IWorkerNotify 0); work 0; work 0;
                      LProcess 0 true; LContinue 0]) = Some s /\
    m_is_connected s = true /\ handler_calls s = 1 /\ indeterminate s = true.
Proof. eexists. split; [vm_compute; reflexivity|]. by split_and!. Qed.

(** ** Witnesses *)

Definition not_started : connection := mk_connection (io_init 0) false [] [] false true ∅ ∅ [] [] [] 0 false.
Definition started : connection := default not_started (start 1).
Definition after (ls : list label) : connection := default not_started (runs 1 ls).

Lemma started_connected : connected_on 3 64 5 (io_init 1) true started.
Proof. split; [by exists 1, []|]. split; [done|]. vm_compute. reflexivity. Qed.

(** A read that fails in a caller's disconnection; the client is connected again, and
    asks for a write and two reads, of which a worker has taken the first. *)
Definition asked : list label :=
  [LRequest Rd 7; LService (IPoll []); LService (IPoll [5%Z]); LService (ISelect {[3; 5]}%Z ∅); LService (IPoll []);
   work 0; work 0; LRequest Rd 8; LProcess 0 false; LDisconnect 0 false] ++ replicate 5 (LDisconnecting (User 0)) ++
  [LFail 0; LConnect; LRequest Wr 9; LRequest Rd 10; LRequest Rd 11; LContinue 0; LContinue 0;
   LService (ICallback 0 false); LService (IWorkerNotify 0);
   LService (IPoll []); LService (IPoll [5%Z]); LService (ISelect {[3; 5]}%Z ∅); LService (IPoll []); work 0; work 0;
   LProcess 0 true].

Lemma pending_requests_watched_witness :
  requests Rd (after asked) = [11] /\ requests Wr (after asked) = [9] /\
  (exists x, m_tracked_sockets (service (after asked)) !! 5%Z = Some x /\ marked_for_untrack x = false /\
     forall d, callback_of d x = match requests d (after asked) with [] => None | _ => Some (on_available d) end) /\
  indeterminate (after asked) = false.
Proof.
  split; [vm_compute; reflexivity|]. split; [vm_compute; reflexivity|].
  destruct (pending_requests_watched 3 64 5 (io_init 1) true started asked (after asked)) as [Hw Hc];
    [apply started_connected|vm_compute; reflexivity|vm_compute; reflexivity|].
  split; [exact Hw|]. apply Hc. vm_compute. reflexivity.
Defined.

Lemma requests_complete_in_order_witness :
  accepted_on Rd (after asked) = [7; 8; 10; 11] /\ completed_on Rd (after asked) = [7] /\
  requests Rd (after asked) = [11] /\ dropped_on Rd (after asked) = [8] /\
  exists hand, length hand <= 1 /\ ([7] ++ hand ++ [11]) `sublist_of` [7; 8; 10; 11].
Proof.
  split; [vm_compute; reflexivity|]. split; [vm_compute; reflexivity|]. split; [vm_compute; reflexivity|].
  split; [vm_compute; reflexivity|].
  destruct (requests_complete_in_order 3 64 5 (io_init 1) true started asked (after asked) Rd) as (hand & Hl & Hs & _);
    [apply started_connected|vm_compute; reflexivity|].
  exists hand. split; [exact Hl|exact Hs].
Defined.

(** A caller disconnects and waits while the worker is in the read callback, which
    then ends. *)
Definition waiting_to_close : list label :=
  [LRequest Rd 7; LService (IPoll []); LService (IPoll [5%Z]); LService (ISelect {[3; 5]}%Z ∅); LService (IPoll []);
   work 0; work 0; LProcess 0 true; LDisconnect 0 true] ++ replicate 4 (LDisconnecting (User 0)) ++
  [LContinue 0; LService (ICallback 0 false); LService (IWorkerNotify 0)].

Lemma waited_disconnect_is_final_witness :
  completed (after (waiting_to_close ++ [LDisconnecting (User 0)])) = [(Rd, 7, true)] /\
  forall ls2 s2, run 3 64 5 ls2 (after (waiting_to_close ++ [LDisconnecting (User 0)])) = Some s2 -> LConnect ∉ ls2 ->
    (forall e, e ∈ live (service s2) -> event_fd e <> 5%Z) /\ m_tracked_sockets (service s2) !! 5%Z = None /\
    working s2 = ∅ /\ completed s2 = completed (after (waiting_to_close ++ [LDisconnecting (User 0)])) /\
    handler_calls s2 = handler_calls (after (waiting_to_close ++ [LDisconnecting (User 0)])) /\
    clean 5 s2 = negb (indeterminate (after (waiting_to_close ++ [LDisconnecting (User 0)]))).
Proof.
  split; [vm_compute; reflexivity|].
  apply (waited_disconnect_is_final 3 64 5 (io_init 1) true started waiting_to_close (after waiting_to_close) (User 0));
    [apply started_connected|vm_compute; reflexivity..].
Defined.
