(* ===== verification/TcpClientIoPolled.v ===== *)
(** No wake-up is lost: what the thread that selects watches of a connection, and the
    callbacks that are on their way, are together exactly what is asked of it. *)

From S2P Require Import Prelude ThreadPool IoService IoServiceFacts IoServiceFlags IoServiceTheorems IoServiceSocket TcpClientIo TcpClientIoFacts TcpClientIoTheorems.

Section polled.
Context (read_fd : Z) (pipe_size : nat) (fd : Z).

Abbreviation step := (step read_fd pipe_size fd).
Abbreviation run := (run read_fd pipe_size fd).
Abbreviation call := (call_service read_fd pipe_size).

Lemma backed_call l s s' :
  (forall i threw, l <> ICallback i threw) -> backed fd (service s) -> call l s = Some s' -> backed fd (service s').
Proof.
  unfold call_service. intros Hl Hb. destruct (io_step read_fd pipe_size l (service s)) as [io|] eqn:E; [|done]. cbn [mbind option_bind].
  assert (backed fd io) as Hb1 by (eapply backed_step; [exact Hb| |exact E]; intros i e ?; by destruct (Hl i true)).
  case_decide as Hd.
  - destruct (caller_notifies pipe_size io) as [io2|] eqn:E2; [|done]. intros [= <-].
    by apply (backed_step read_fd pipe_size fd INotify io).
  - by intros [= <-].
Qed.

Lemma test_service t wait s s' : disconnect_test t wait s = Some s' -> service s' = service s.
Proof.
  unfold disconnect_test. destruct (disconnecting s !! t); [done|]. intros [= <-]. destruct (m_is_connected s); [done|].
  destruct t as [n|i]; [done|]. by destruct (working s !! i) as [[d []]|].
Qed.

Lemma backed_connection_step l s s' : backed fd (service s) -> step l s = Some s' -> backed fd (service s').
Proof.
  intros Hb Hs. destruct l as [lb|d r|i success|i|k wait|i|t|]; cbn [TcpClientIo.step] in Hs.
  - unfold service_step in Hs. destruct (foreign fd lb && _) eqn:Ef; [|done]. apply andb_true_iff in Ef as [_ Hr].
    destruct (io_step read_fd pipe_size lb (service s)) as [io|] eqn:E; [|done]. cbn [mbind option_bind] in Hs.
    apply (inj Some) in Hs as <-. assert (backed fd io) as Hb'; [|by destruct lb].
    eapply backed_step; [exact Hb| |exact E]. intros i e -> He Hfd. unfold returned in Hr. by rewrite He, Hfd, Z.eqb_refl in Hr.
  - unfold async_request in Hs. destruct (m_is_connected s); [|done].
    destruct (call _ s) as [s1|] eqn:E; [|done]. cbn [mbind option_bind] in Hs. injection Hs as <-.
    apply backed_call in E; [|done..]. by destruct d.
  - unfold process in Hs. destruct (worker_event i (service s)) as [e|]; [|done]. case_decide; [|done]. cbn zeta in Hs.
    destruct (requests (event_dir e) s) as [|r rest]; [by simplify_eq|].
    destruct rest; [|by destruct (event_dir e), success; simplify_eq].
    eapply backed_call; [|..|exact Hs]; [done|]. by destruct (event_dir e), success.
  - unfold continue in Hs. destruct (working s !! i) as [[d p]|]; [|done]. cbn zeta in Hs. by destruct p; simplify_eq.
  - by rewrite (test_service _ _ _ _ Hs).
  - destruct (working s !! i) as [[d []]|]; try done. by rewrite (test_service _ _ _ _ Hs).
  - unfold disconnect_step in Hs. destruct (disconnecting s !! t) as [[st wait]|]; [|done]. cbn zeta in Hs.
    destruct st; [by simplify_eq..| |].
    + destruct (closed s); [by simplify_eq|]. eapply backed_call; [|..|exact Hs]; done.
    + destruct (_ && _ && _); [done|]. simplify_eq. unfold disconnected. destruct t as [k|i]; [done|].
      cbn [working set_disconnecting]. by destruct (working s !! i) as [[d []]|].
  - unfold connect_again in Hs. destruct (_ && _ && _); [|done]. destruct (call _ s) as [s1|] eqn:E; [|done].
    cbn [mbind option_bind] in Hs. injection Hs as <-. by apply backed_call in E.
Qed.

Lemma backed_connected io handler s0 ls s :
  connected_on read_fd pipe_size fd io handler s0 -> run ls s0 = Some s -> backed fd (service s).
Proof.
  intros (Hr & Hnone & Hs0). assert (backed fd (service s0)) as Hb.
  { eapply backed_call; [|..|exact Hs0]; [done|]. cbn [service]. split.
    - apply holder_free. revert Hs0. unfold track_connection, call_service. cbn [io_step service].
      destruct (track fd None None io) as [io1|] eqn:E; [|done]. apply locked_inv in E as [-> _]. done.
    - intros d. unfold flag. rewrite Hnone. lia. }
  apply (connection_run_invariant read_fd pipe_size fd (fun s => backed fd (service s)) (fun _ _ => true)); [|done|apply along_all].
  intros l s1 s2 H1 _. by apply backed_connection_step.
Qed.

(** ** A request is served *)

(** What [select] answers when it reports the descriptor for a direction, and the steps
    that follow in worker [i]. *)
Definition reports (d : direction) : io_label := match d with Rd => ISelect {[fd]} ∅ | Wr => ISelect ∅ {[fd]} end.
Definition serve (d : direction) (i : nat) : list label :=
  (LService <$> [reports d; IPoll []; IPool (PWork i); IPool (PWork i)]) ++ [LProcess i true; LContinue i].

(** The pool has nothing to do, and worker [i] is about to look for a task. *)
Definition at_leisure (i : nat) (p : thread_pool event) : Prop :=
  m_tasks p = [] /\ mutex_free p = true /\ m_workers p !! i = Some AtTest /\ should_stop p = false.

Lemma only_one (new : list event) e : NoDup new -> (forall e', e' ∈ new <-> e' = e) -> new = [e].
Proof.
  intros Hnd Hnew. apply Permutation_singleton_r. symmetry. apply NoDup_Permutation; [apply NoDup_singleton|done|].
  intros e'. by rewrite Hnew, list_elem_of_singleton.
Qed.

(** Two turns of worker [i]: it takes the only task. *)
Lemma takes_task i e io :
  m_tasks (m_callback_workers io) = [e] -> mutex_free (m_callback_workers io) = true ->
  m_workers (m_callback_workers io) !! i = Some AtTest -> should_stop (m_callback_workers io) = false ->
  exists io', io_run read_fd pipe_size [IPool (PWork i); IPool (PWork i)] io = Some io' /\
    m_workers (m_callback_workers io') !! i = Some (Running e) /\ m_tracked_sockets_mtx io' = m_tracked_sockets_mtx io /\
    m_notifier io' = m_notifier io.
Proof.
  intros Ht Hf Hi Hs. cbn [io_run io_step free_standing]. unfold pool_does. cbn [pool_step]. unfold run_step. rewrite Hi, Hs.
  cbn [mbind option_bind set_pool m_callback_workers]. cbn [set_worker set_workers m_workers].
  rewrite list_lookup_insert_eq by (by eapply lookup_lt_Some). unfold fetch_task.
  assert (mutex_free (set_worker i AtFetch (m_callback_workers io)) = true) as ->.
  { apply mutex_free_spec. apply mutex_free_spec in Hf. intros (j & Hj)%list_elem_of_lookup. cbn in Hj.
    apply list_lookup_insert_Some in Hj as [(_ & [=] & _)|[_ Hj]]. by apply Hf, (list_elem_of_lookup_2 _ j). }
  assert (should_stop (set_worker i AtFetch (m_callback_workers io)) = false) as ->
    by (unfold should_stop in *; cbn; by rewrite length_insert).
  cbn [set_worker set_workers m_tasks m_workers]. rewrite Ht. cbn [mbind option_bind]. eexists. split; [done|].
  split; [|done]. cbn. apply list_lookup_insert_eq. rewrite length_insert. by eapply lookup_lt_Some.
Qed.


(** Labels of the service that concern no socket *)
Definition internal (l : io_label) : bool :=
  match l with IPoll _ | ISelect _ _ | IPool _ => true | _ => false end.

Lemma service_runs ls s io :
  forallb internal ls = true -> io_run read_fd pipe_size ls (service s) = Some io ->
  run (LService <$> ls) s = Some (set_service io s).
Proof.
  revert s. induction ls as [|l ls IH]; intros s Hl Hrun; cbn [io_run] in Hrun; [by destruct s; simplify_eq|].
  cbn [forallb] in Hl. apply andb_true_iff in Hl as [Hl Hls].
  destruct (io_step read_fd pipe_size l (service s)) as [io1|] eqn:E; [|done]. cbn [mbind option_bind] in Hrun.
  cbn [fmap list_fmap TcpClientIo.run TcpClientIo.step]. unfold service_step.
  assert ((foreign fd l && match l with ICallback i threw => returned fd i threw s | _ => true end) = true) as -> by by destruct l.
  rewrite E. cbn [mbind option_bind].
  assert (match l with ICallback i _ => set_working (delete i (working (set_service io1 s))) (set_service io1 s) | _ => set_service io1 s end =
    set_service io1 s) as -> by by destruct l.
  by apply (IH (set_service io1 s)).
Qed.

Lemma connection_run_app ls1 ls2 s : run (ls1 ++ ls2) s = s' ← run ls1 s; run ls2 s'.
Proof.
  revert s. induction ls1 as [|l ls1 IH]; intros s; [done|]. cbn [app TcpClientIo.run].
  destruct (step l s) as [s1|]; [apply IH|done].
Qed.

(** A call of the service that neither waits for the mutex nor for the pipe *)
Lemma call_returns d cb s :
  m_tracked_sockets_mtx (service s) = Unlocked -> m_notifier (service s) < pipe_size ->
  exists io, call (ISetCallback d fd cb) s = Some (set_service io s).
Proof.
  intros Hu Hn. unfold call_service. cbn [io_step]. unfold set_event_callback, locked. rewrite Hu, decide_True by done.
  cbn [mbind option_bind]. rewrite decide_True by done. unfold caller_notifies, notify. rewrite decide_True by done.
  cbn [m_notifier set_mtx set_sockets]. rewrite (proj2 (Nat.ltb_lt _ _) Hn). by eexists.
Qed.

(** A worker in a callback takes the first request, and calls it back. *)
Lemma callback_serves s i e r rest :
  worker_event i (service s) = Some e -> event_fd e = fd -> working s !! i = None -> requests (event_dir e) s = r :: rest ->
  m_tracked_sockets_mtx (service s) = Unlocked -> m_notifier (service s) < pipe_size ->
  exists s', run [LProcess i true; LContinue i] s = Some s' /\ completed s' = completed s ++ [(event_dir e, r, true)] /\
    requests (event_dir e) s' = rest /\ m_is_connected s' = m_is_connected s.
Proof.
  intros He Hfd Hi Hr Hu Hn. cbn [TcpClientIo.run TcpClientIo.step]. unfold process. rewrite He, decide_True by done. cbv zeta. rewrite Hr.
  set (s1 := set_requests (event_dir e) rest (set_working (<[i := (event_dir e, Succeeded r)]> (working s)) s)).
  assert (exists io, match rest with [] => call (ISetCallback (event_dir e) fd None) s1 | _ => Some s1 end = Some (set_service io s1)) as (io & ->).
  { destruct rest; [apply call_returns; by destruct (event_dir e)|]. exists (service s1). by destruct (event_dir e). }
  cbn [mbind option_bind]. unfold continue.
  assert (working (set_service io s1) !! i = Some (event_dir e, Succeeded r)) as ->
    by (subst s1; destruct (event_dir e); apply lookup_insert_eq).
  cbn [mbind option_bind]. eexists. split; [done|]. subst s1. by destruct (event_dir e).
Qed.

(** What [select] has been given for the descriptor *)
Lemma ready_spec io handler s0 ls s ndfs d :
  fd <> read_fd -> connected_on read_fd pipe_size fd io handler s0 -> run ls s0 = Some s -> m_is_connected s = true ->
  poll_at (service s) = PollSelect ndfs -> m_notifier (service s) = 0 -> m_tracked_sockets_mtx (service s) = Unlocked ->
  (fd ∈ ready d (service s) <->
     requests d s <> [] /\ forall e, e ∈ live (service s) -> ~ (event_fd e = fd /\ event_dir e = d)) /\
  (fd ∈ ready d (service s) -> (fd < ndfs)%Z /\ fd ∈ m_polled_fds (service s)).
Proof.
  intros Hne Hs0 Hrun Hc Hp Hn Hu. pose proof (connected_run _ _ _ _ _ _ _ _ Hs0 Hrun) as Hok.
  destruct (ok_service _ _ _ s Hok) as (n & ls' & Hio).
  destruct (reachable_current _ _ _ _ _ Hio ndfs Hp) as [Hn'|[Hu'|Hw]]; [lia|done|].
  destruct (ok_watched _ _ _ s Hok Hc) as (x & Hx & _ & Hcb).
  pose proof (backed_idle read_fd pipe_size fd n ls' _ d x Hio (backed_connected _ _ _ _ _ Hs0 Hrun) Hx) as Hidle.
  split.
  - assert (fd ∈ ready d (service s) <-> should d x = true) as ->.
    { assert (wanted d (m_tracked_sockets (service s)) fd <-> should d x = true) as Hwd.
      { split; [intros (x' & E & ?); congruence|by exists x]. }
      destruct d; cbn [ready]; rewrite (watches_rd _ _ _ Hw) || rewrite (watches_wr _ _ _ Hw); tauto. }
    unfold should. rewrite <- Hidle, Hcb. destruct (requests d s); [split; [done|by intros [? _]]|].
    rewrite negb_true_iff. split; [by intros ?|by intros [_ ?]].
  - intros Hin. apply (watches_ndfs _ _ _ Hw), elem_of_union. destruct d; [by left|by right].
Qed.

(** [select] may report one descriptor it watches. *)
Definition only_rd (d : direction) : gset Z := match d with Rd => {[fd]} | Wr => ∅ end.
Definition only_wr (d : direction) : gset Z := match d with Rd => ∅ | Wr => {[fd]} end.

Lemma select_accepts io ndfs d :
  fd <> read_fd -> poll_at io = PollSelect ndfs -> m_notifier io = 0 -> fd ∈ ready d io -> (fd < ndfs)%Z ->
  select_returns read_fd (only_rd d) (only_wr d) io =
  Some (set_poll PollProcess (set_polled (m_polled_fds io) (only_rd d) (only_wr d) io)).
Proof.
  intros Hne Hp Hn Hin Hlt. unfold select_returns. rewrite Hp. apply decide_True.
  assert (only_rd d ∪ only_wr d = {[fd]}) as -> by (destruct d; [apply (right_id_L ∅ (∪))|apply (left_id_L ∅ (∪))]).
  rewrite Hn. unfold only_rd, only_wr. split_and!.
  - destruct d; [by apply singleton_subseteq_l|apply empty_subseteq].
  - destruct d; [apply empty_subseteq|by apply singleton_subseteq_l].
  - intros fd' ->%elem_of_singleton. exact Hlt.
  - apply non_empty_singleton_L.
  - split; [|lia]. destruct d; [intros E%elem_of_singleton; congruence|by intros E%elem_of_empty].
Qed.

(** From the answer of [select] to the callback in worker [i]. *)
Lemma ready_dispatched n ls io ndfs d i x cb :
  io_run read_fd pipe_size ls (io_init n) = Some io -> fd <> read_fd ->
  poll_at io = PollSelect ndfs -> m_notifier io = 0 -> m_tracked_sockets_mtx io = Unlocked ->
  fd ∈ ready d io -> (fd < ndfs)%Z -> m_tracked_sockets io !! fd = Some x -> callback_of d x = Some cb ->
  at_leisure i (m_callback_workers io) ->
  exists io', io_run read_fd pipe_size [reports d; IPoll []; IPool (PWork i); IPool (PWork i)] io = Some io' /\
    worker_event i io' = Some (mk_io_event fd d cb) /\ m_tracked_sockets_mtx io' = Unlocked /\ m_notifier io' = 0.
Proof.
  intros Hrun Hne Hp Hn Hu Hin Hlt Hx Hcb (Ht & Hf & Hi & Hst).
  pose proof (select_accepts io ndfs d Hne Hp Hn Hin Hlt) as Hsel.
  assert (reports d = ISelect (only_rd d) (only_wr d)) as -> by by destruct d.
  set (io1 := set_poll PollProcess _) in Hsel.
  destruct (select_queues read_fd pipe_size n ls io ndfs _ _ io1 [] Hrun Hp Hn Hu Hsel Hf) as (io2 & new & E2 & _ & Q & Hnd & Hnew).
  assert (new = [mk_io_event fd d cb]) as ->.
  { apply only_one; [done|]. intros e. rewrite Hnew. split.
    - intros [Hr (x' & Hx' & Hcb')]. destruct e as [f d' c]. cbn in Hr, Hx', Hcb'.
      assert (f = fd /\ d' = d) as [-> ->]; [|congruence].
      by destruct d, d'; cbn [only_rd only_wr] in Hr; (apply elem_of_singleton in Hr as -> || apply elem_of_empty in Hr).
    - intros ->. cbn. split; [|by exists x]. destruct d; cbn [only_rd only_wr]; by apply elem_of_singleton. }
  destruct Q as [_ _ Qm Qn Qs Qi Qf Qt]. change (m_tracked_sockets_mtx io2 = m_tracked_sockets_mtx io) in Qm.
  change (m_notifier io2 <= m_notifier io) in Qn. cbn [io1 m_callback_workers set_poll set_polled] in Qs, Qi, Qf, Qt. rewrite Ht in Qt.
  destruct (takes_task i (mk_io_event fd d cb) io2) as (io3 & E3 & Hi3 & Hu3 & Hn3); [done|by apply Qf|by apply Qi|by rewrite Qs|].
  exists io3. change [_; _; _; _] with ([ISelect (only_rd d) (only_wr d); IPoll []] ++ [IPool (PWork i); IPool (PWork i)]).
  split; [|split_and!; [|congruence|lia]].
  - cbn [app io_run io_step]. rewrite Hsel. cbn [mbind option_bind]. rewrite E2. exact E3.
  - unfold worker_event, in_callback. by rewrite Hi3, Hu3, Qm, Hu, decide_False.
Qed.

(** C18: No wake-up is lost, and what is ready is served: while the client is connected,
    whatever threads have asked and workers have done and in any order, once the
    thread that selects is in select and no notification is on its way, the descriptor
    is in the set it has given for a direction exactly when requests of this direction
    are pending and no callback for them is queued or executes; and when select reports
    it then, an idle worker takes the oldest of these requests and calls it back, and
    the client is still connected. *)
Theorem pending_requests_polled io handler s0 ls s ndfs d :
  fd <> read_fd -> connected_on read_fd pipe_size fd io handler s0 -> run ls s0 = Some s -> m_is_connected s = true ->
  poll_at (service s) = PollSelect ndfs -> m_notifier (service s) = 0 -> m_tracked_sockets_mtx (service s) = Unlocked ->
  (fd ∈ ready d (service s) <->
     requests d s <> [] /\ forall e, e ∈ live (service s) -> ~ (event_fd e = fd /\ event_dir e = d)) /\
  forall i r rest, fd ∈ ready d (service s) -> requests d s = r :: rest ->
    at_leisure i (m_callback_workers (service s)) -> 0 < pipe_size ->
    exists s', run (serve d i) s = Some s' /\ completed s' = completed s ++ [(d, r, true)] /\
      requests d s' = rest /\ m_is_connected s' = true.
Proof.
  intros Hne Hs0 Hrun Hc Hp Hn Hu. destruct (ready_spec _ _ _ _ _ _ d Hne Hs0 Hrun Hc Hp Hn Hu) as [Hready Hlt].
  split; [exact Hready|]. intros i r rest Hin Hr Hl Hpipe. destruct (Hlt Hin) as [Hfd _].
  pose proof (connected_run _ _ _ _ _ _ _ _ Hs0 Hrun) as Hok. destruct (ok_service _ _ _ s Hok) as (n & ls' & Hio).
  destruct (ok_watched _ _ _ s Hok Hc) as (x & Hx & _ & Hcb). specialize (Hcb d). rewrite Hr in Hcb.
  destruct (ready_dispatched n ls' (service s) ndfs d i x _ Hio Hne Hp Hn Hu Hin Hfd Hx Hcb Hl) as (io1 & Hrun1 & He & Hu1 & Hn1).
  assert (working s !! i = None) as Hi.
  { destruct (working s !! i) as [[d' p]|] eqn:E; [|done]. destruct (ok_working _ _ _ s Hok i d' p E) as (e & He0 & _).
    apply worker_event_Some in He0 as [Hi0 _]. destruct Hl as (_ & _ & Hi1 & _). congruence. }
  unfold serve. rewrite connection_run_app, (service_runs _ _ io1); [|by destruct d|exact Hrun1]. cbn [mbind option_bind].
  destruct (callback_serves (set_service io1 s) i _ r rest He) as (s' & Hs' & Hd & Hrest & Hc'); [done..|cbn; lia|].
  exists s'. split_and!; [exact Hs'|exact Hd|exact Hrest|]. by rewrite Hc'.
Qed.
End polled.

(** ** Witness

    The worker is in the write callback, and the thread that selects waits again: it
    watches the descriptor for the read that is pending, not for the write. *)
Definition polling : list label :=
  [LRequest Rd 7; LRequest Wr 8; LRequest Wr 9; LService (IPoll []); LService (IPoll [5%Z]);
   LService (ISelect {[3]}%Z {[5]}%Z); LService (IPoll []); work 0; work 0;
   LService (IPoll []); LService (IPoll [5%Z])].

Lemma watched_for_read_only :
  requests Rd (after polling) = [7] /\ requests Wr (after polling) = [8; 9] /\
  live (service (after polling)) = [mk_io_event 5 Wr 1] /\
  m_rd_set (service (after polling)) = {[3; 5]}%Z /\ m_wr_set (service (after polling)) = ∅.
Proof. split_and!; vm_compute; reflexivity. Qed.

(** Two reads are pending, one is reported, and the worker idle. *)
Definition asking : list label :=
  [LRequest Rd 7; LRequest Rd 8; LService (IPoll []); LService (IPoll [5%Z]); LService (ISelect {[3]}%Z ∅);
   LService (IPoll []); LService (IPoll []); LService (IPoll [5%Z])].

Lemma pending_requests_polled_witness :
  5%Z ∈ ready Rd (service (after asking)) /\
  exists s', run 3 64 5 (serve 5 Rd 0) (after asking) = Some s' /\ completed s' = [(Rd, 7, true)] /\
    requests Rd s' = [8] /\ m_is_connected s' = true.
Proof.
  destruct (pending_requests_polled 3 64 5 (io_init 1) true started asking (after asking) 6 Rd) as [Hready Hserve];
    [discriminate|apply started_connected|vm_compute; reflexivity..|].
  assert (5%Z ∈ ready Rd (service (after asking))) as Hin.
  { apply Hready. split; [vm_compute; discriminate|]. intros e He. apply list_elem_of_In in He. vm_compute in He. destruct He. }
  split; [exact Hin|]. apply (Hserve 0 7 [8] Hin); [vm_compute; reflexivity| |lia].
  split; [vm_compute; reflexivity|]. split; [vm_compute; reflexivity|]. split; vm_compute; reflexivity.
Defined.
