(* ===== verification/Hoare.v ===== *)
(** What code of the monad [M] leaves behind, outcome by outcome: a predicate
    transformer, its rules, and the code that keeps a relation between the states
    before and after whatever its outcome. *)

From S2P Require Import Prelude.

(** ** Postconditions *)

(** From [s], [m] ends with an outcome and a state of which [Q] holds. *)
Definition ends {S A} (m : M S A) (s : S) (Q : outcome A -> S -> Prop) : Prop := Q (m s).1 (m s).2.

(** How [m ≫= f] goes on after an outcome of [m]. *)
Definition continues {S A B} (f : A -> M S B) (Q : outcome B -> S -> Prop) (r : outcome A) (s : S) : Prop :=
  match r with
  | Ret a => ends (f a) s Q
  | Throw e => Q (Throw e) s
  | Undef => Q Undef s
  | Timeout => Q Timeout s
  end.

Section rules.
Context {S : Type}.
Implicit Types s : S.

Lemma ends_bind {A B} (m : M S A) (f : A -> M S B) s Q :
  ends m s (continues f Q) -> ends (m ≫= f) s Q.
Proof. unfold ends, continues, mbind, M_bind. by destruct (m s) as [[] s']. Qed.

Lemma ends_weaken {A} (m : M S A) s (P Q : outcome A -> S -> Prop) :
  ends m s P -> (forall r s', P r s' -> Q r s') -> ends m s Q.
Proof. unfold ends. auto. Qed.

Lemma ends_step {A B} (m : M S A) (f : A -> M S B) s a s' Q :
  m s = (Ret a, s') -> ends (f a) s' Q -> ends (m ≫= f) s Q.
Proof. unfold ends, mbind, M_bind. by intros ->. Qed.

Lemma ends_fail {A B} (m : M S A) (f : A -> M S B) s e s' Q :
  m s = (Throw e, s') -> Q (Throw e) s' -> ends (m ≫= f) s Q.
Proof. unfold ends, mbind, M_bind. by intros ->. Qed.

(** The first two statements of a block, taken together. *)
Lemma ends_assoc {A B C} (m : M S A) (f : A -> M S B) (g : B -> M S C) s Q :
  ends ((m ≫= f) ≫= g) s Q -> ends (m ≫= fun a => f a ≫= g) s Q.
Proof. unfold ends, mbind, M_bind. by destruct (m s) as [[] s']. Qed.

Lemma ends_ret {A} (a : A) s (Q : outcome A -> S -> Prop) : Q (Ret a) s -> ends (mret a) s Q.
Proof. done. Qed.

Lemma ends_if {A} (b : bool) (m n : M S A) s Q :
  (b = true -> ends m s Q) -> (b = false -> ends n s Q) -> ends (if b then m else n) s Q.
Proof. destruct b; auto. Qed.

Lemma ends_and {A} (m : M S A) s (P Q : outcome A -> S -> Prop) :
  ends m s P -> ends m s Q -> ends m s (fun r s' => P r s' /\ Q r s').
Proof. done. Qed.
End rules.

(** ** Code that returns *)

(** A run that returns, and what holds of the result. *)
Definition lands {X A} (m : M X A) (x : X) (Q : A -> X -> Prop) : Prop :=
  exists a x', m x = (Ret a, x') /\ Q a x'.

Lemma lands_bind {X A B} (m : M X A) (f : A -> M X B) x Q :
  lands m x (fun a x' => lands (f a) x' Q) -> lands (m ≫= f) x Q.
Proof. intros (a & x' & E & b & x'' & E' & HQ). exists b, x''. split; [|done]. by rewrite (mbind_Ret _ _ _ _ _ E). Qed.

Lemma lands_weaken {X A} (m : M X A) x (Q Q' : A -> X -> Prop) :
  lands m x Q -> (forall a x', Q a x' -> Q' a x') -> lands m x Q'.
Proof. intros (a & x' & E & HQ) H. exists a, x'. auto. Qed.

Lemma lands_ret {X A} (a : A) (x : X) (Q : A -> X -> Prop) : Q a x -> lands (mret a) x Q.
Proof. intros HQ. by exists a, x. Qed.

Lemma lands_modify {X} (f : X -> X) x (Q : unit -> X -> Prop) : Q tt (f x) -> lands (mmodify f) x Q.
Proof. intros HQ. by exists tt, (f x). Qed.

Lemma lands_get {X} (x : X) (Q : X -> X -> Prop) : Q x x -> lands mget x Q.
Proof. intros HQ. by exists x, x. Qed.

(** ** Relations between the states before and after *)

(** Whatever its outcome, [m] goes from a state to one [R] relates to it. *)
Definition keeps {S A} (R : S -> S -> Prop) (m : M S A) : Prop := forall s, ends m s (fun _ s' => R s s').

Section keeps.
Context {S : Type} (R : S -> S -> Prop) `{!PreOrder R}.

Lemma keeps_ret {A} (a : A) : keeps R (mret a).
Proof. intros s. unfold ends. cbn. reflexivity. Qed.
Lemma keeps_throw {A} e : keeps R (mthrow e : M S A).
Proof. intros s. unfold ends. cbn. reflexivity. Qed.
Lemma keeps_undef {A} : keeps R (mundef : M S A).
Proof. intros s. unfold ends. cbn. reflexivity. Qed.
Lemma keeps_lift {A} (o : outcome A) : keeps R (mlift o).
Proof. intros s. unfold ends. cbn. reflexivity. Qed.
Lemma keeps_get : keeps R mget.
Proof. intros s. unfold ends. cbn. reflexivity. Qed.

Lemma keeps_bind {A B} (m : M S A) (f : A -> M S B) :
  keeps R m -> (forall a, keeps R (f a)) -> keeps R (m ≫= f).
Proof.
  intros Hm Hf s. apply ends_bind. eapply ends_weaken; [apply Hm|].
  intros [a|e| |] s' H; cbn; [|exact H..].
  eapply ends_weaken; [apply Hf|]. intros r s'' H'. by transitivity s'.
Qed.

Lemma keeps_if {A} (b : bool) (m n : M S A) : keeps R m -> keeps R n -> keeps R (if b then m else n).
Proof. by destruct b. Qed.

Lemma keeps_modify (f : S -> S) : (forall s, R s (f s)) -> keeps R (mmodify f).
Proof. intros H s. apply H. Qed.
End keeps.

Create HintDb keeps.
#[export] Hint Resolve keeps_ret keeps_throw keeps_undef keeps_lift keeps_get : keeps.

(** Follow the structure of the code down to what the hints know. *)
Ltac keeps :=
  intros;
  first [ solve [auto with keeps]
        | apply keeps_if; keeps
        | apply keeps_bind; [apply _|keeps|keeps] ].
