(* ===== verification/Socket.v ===== *)
(** [tacopie::tcp_socket] (tacopie/sources/network/common/tcp_socket.cpp and
    unix/unix_tcp_socket.cpp): a descriptor with its type and address, over the
    calls of the operating system ([Os]), whose documented behaviour is [OsLaws].

    A system call returns what C sees of it, -1 included; [errno] comes with the
    one call whose failure it tells apart.  The code of Windows is not modelled. *)

From S2P Require Import Prelude Text.

(** ** Addresses *)

Inductive family : Type := AF_UNIX | AF_INET | AF_INET6.

#[export] Instance family_eq_dec : EqDecision family.
Proof. solve_decision. Defined.

(** A [sockaddr_storage] the code has filled in.  [sin_port] is in network order;
    [sun_path] is the string its zero-terminated array holds. *)
Inductive sockaddr : Type :=
| sockaddr_un (sun_path : string)
| sockaddr_in (sin_addr sin_port : Z)
| sockaddr_in6 (sin6_addr : Z) (sin6_flowinfo sin6_port : Z).

#[export] Instance sockaddr_eq_dec : EqDecision sockaddr.
Proof. solve_decision. Defined.

(** The two bytes of a port in the other order; a [uint32_t] argument is first
    cut to 16 bits. *)
Definition htons (port : Z) : Z :=
  Z.lor (Z.shiftl (Z.land port 255) 8) (Z.land (Z.shiftr port 8) 255).
Definition ntohs (port : Z) : Z := htons port.

(** [reinterpret_cast<sockaddr_in*>(addr)->sin_addr]: the four bytes after the
    port, which hold the flow information of an IPv6 address. *)
Definition addr_as_in (a : sockaddr) : option Z :=
  match a with
  | sockaddr_in addr _ => Some addr
  | sockaddr_in6 _ flowinfo _ => Some flowinfo
  | sockaddr_un _ => None
  end.

(** What [accept] writes to its [sockaddr_storage]: the peer of a Unix socket has
    no address, only its family is written. *)
Inductive peer : Type :=
| peer_in (sin_addr sin_port : Z)
| peer_in6 (sin6_addr sin6_port : Z)
| peer_un.

(** ** The operating system *)

(** The hints of [getaddrinfo]: any family, or only [AF_INET]. *)
Inductive ai_hints : Type := no_hints | hints_inet.

Class Os (K : Type) : Type := {
  os_socket : family -> K -> Z * K;
  os_close : Z -> K -> K;
  os_getfl : Z -> K -> Z * K;                          (** [fcntl(fd, F_GETFL, 0)] *)
  os_setfl : Z -> Z -> K -> Z * K;                     (** [fcntl(fd, F_SETFL, flags)] *)
  os_connect : Z -> sockaddr -> K -> (Z * Z) * K;      (** the result and [errno] *)
  os_select : Z -> Z * Z -> K -> Z * K;                (** for writing, with [timeval] *)
  os_getsockopt : Z -> K -> (Z * Z) * K;               (** the result and [SO_ERROR] *)
  os_bind : Z -> sockaddr -> K -> Z * K;
  os_listen : Z -> Z -> K -> Z * K;
  os_accept : Z -> K -> (Z * peer) * K;
  os_recv : Z -> Z -> K -> (Z * string) * K;           (** the result and the buffer *)
  os_send : Z -> string -> Z -> K -> Z * K;
  os_getaddrinfo : ai_hints -> string -> K -> (Z * sockaddr) * K;  (** the first answer *)
  os_inet_pton : string -> Z * Z;                      (** for [AF_INET6] *)
  os_inet_ntop : family -> Z -> option string;
  O_NONBLOCK : Z;
  EINPROGRESS : Z;
  (** what the laws speak of: the open descriptors of the process, those that do
      not block, that are writable, those whose connection to an address was begun,
      and those that are connected to one *)
  os_fds : K -> gset Z;
  os_nonblocking : K -> Z -> bool;
  os_writable : K -> Z -> Prop;
  os_connecting : K -> Z -> sockaddr -> Prop;
  os_established : K -> Z -> sockaddr -> Prop }.

(** A call gives a new descriptor or fails. *)
Definition opens {K} `{Os K} (fd : Z) (k k' : K) : Prop :=
  (fd = (-1)%Z /\ os_fds k' = os_fds k) \/
  ((0 <= fd)%Z /\ (fd ∉ os_fds k) /\ os_fds k' = {[fd]} ∪ os_fds k).

Class OsLaws (K : Type) `{Os K} : Prop := {
  os_fds_valid : forall fd k, fd ∈ os_fds k -> (0 <= fd)%Z;
  os_socket_fds : forall f k, opens (os_socket f k).1 k (os_socket f k).2;
  os_accept_fds : forall fd k, opens (os_accept fd k).1.1 k (os_accept fd k).2;
  os_close_fds : forall fd k, os_fds (os_close fd k) = os_fds k ∖ {[fd]};
  os_getfl_fds : forall fd k, os_fds (os_getfl fd k).2 = os_fds k;
  os_setfl_fds : forall fd v k, os_fds (os_setfl fd v k).2 = os_fds k;
  os_connect_fds : forall fd a k, os_fds (os_connect fd a k).2 = os_fds k;
  os_select_fds : forall fd tv k, os_fds (os_select fd tv k).2 = os_fds k;
  os_getsockopt_fds : forall fd k, os_fds (os_getsockopt fd k).2 = os_fds k;
  os_bind_fds : forall fd a k, os_fds (os_bind fd a k).2 = os_fds k;
  os_listen_fds : forall fd n k, os_fds (os_listen fd n k).2 = os_fds k;
  os_recv_fds : forall fd n k, os_fds (os_recv fd n k).2 = os_fds k;
  os_send_fds : forall fd b n k, os_fds (os_send fd b n k).2 = os_fds k;
  os_getaddrinfo_fds : forall h n k, os_fds (os_getaddrinfo h n k).2 = os_fds k;
  (** [F_SETFL] sets the flag as it is in its argument *)
  os_setfl_flag : forall fd v k, (os_setfl fd v k).1 <> (-1)%Z ->
    os_nonblocking (os_setfl fd v k).2 fd = negb (Z.land v O_NONBLOCK =? 0)%Z;
  os_connect_flag : forall fd a k,
    os_nonblocking (os_connect fd a k).2 fd = os_nonblocking k fd;
  (** a connection is made when [connect] says so, or when one was begun, and the
      descriptor is writable and has no pending error; [connect] has begun one to its
      address when it is made or in progress, and only a non-blocking one is in progress *)
  os_connect_done : forall fd a k, (0 <= (os_connect fd a k).1.1)%Z ->
    os_established (os_connect fd a k).2 fd a;
  os_connect_begins : forall fd a k,
    (0 <= (os_connect fd a k).1.1)%Z \/ (os_connect fd a k).1.2 = EINPROGRESS ->
    os_connecting (os_connect fd a k).2 fd a;
  os_connect_blocking : forall fd a k, os_nonblocking k fd = false ->
    ((os_connect fd a k).1.1 < 0)%Z -> (os_connect fd a k).1.2 <> EINPROGRESS;
  os_select_writable : forall fd tv k, (os_select fd tv k).1 = 1%Z ->
    os_writable (os_select fd tv k).2 fd;
  os_select_connecting : forall fd tv a k, os_connecting k fd a -> os_connecting (os_select fd tv k).2 fd a;
  os_no_error : forall fd a k, os_connecting k fd a -> os_writable k fd -> (os_getsockopt fd k).1.1 <> (-1)%Z ->
    (os_getsockopt fd k).1.2 = 0%Z -> os_established (os_getsockopt fd k).2 fd a;
  os_getfl_established : forall fd a k, os_established k fd a -> os_established (os_getfl fd k).2 fd a;
  os_setfl_established : forall fd v a k, os_established k fd a -> os_established (os_setfl fd v k).2 fd a;
  (** [getaddrinfo] honours its hints and gives no address of another kind *)
  os_getaddrinfo_inet : forall n k, (os_getaddrinfo hints_inet n k).1.1 = 0%Z ->
    exists a, (os_getaddrinfo hints_inet n k).1.2 = sockaddr_in a 0;
  os_getaddrinfo_any : forall n k, (os_getaddrinfo no_hints n k).1.1 = 0%Z ->
    exists a, addr_as_in (os_getaddrinfo no_hints n k).1.2 = Some a }.

(** ** tcp_socket *)

Module tcp_socket.

(** [enum class type] *)
Inductive type : Type := CLIENT | SERVER | UNKNOWN.

#[export] Instance type_eq_dec : EqDecision type.
Proof. solve_decision. Defined.

Record tcp_socket : Type := mk {
  m_fd : Z;
  m_host : string;
  m_port : Z;
  m_type : type }.

Definition INVALID_FD : Z := -1.

(** [tcp_socket::tcp_socket(void)] *)
Definition new : tcp_socket := mk INVALID_FD "" 0 UNKNOWN.

(** The move constructor: the new socket, and what is left of the old one. *)
Definition move (socket : tcp_socket) : tcp_socket * tcp_socket :=
  (mk (m_fd socket) (m_host socket) (m_port socket) (m_type socket),
   mk INVALID_FD (m_host socket) (m_port socket) UNKNOWN).

Definition get_host (s : tcp_socket) : string := m_host s.
Definition get_port (s : tcp_socket) : Z := m_port s.
Definition get_type (s : tcp_socket) : type := m_type s.
Definition get_fd (s : tcp_socket) : Z := m_fd s.
Definition set_type (t : type) (s : tcp_socket) : tcp_socket := mk (m_fd s) (m_host s) (m_port s) t.
Definition set_fd (fd : Z) (s : tcp_socket) : tcp_socket := mk fd (m_host s) (m_port s) (m_type s).
Definition set_address (host : string) (port : Z) (s : tcp_socket) : tcp_socket :=
  mk (m_fd s) host port (m_type s).

(** [m_host.find(':') != npos] *)
Fixpoint contains (c : ascii) (s : string) : bool :=
  match s with EmptyString => false | String d s' => Ascii.eqb d c || contains c s' end.
Definition is_ipv6 (s : tcp_socket) : bool := contains ":" (m_host s).

(** [operator==] *)
Definition eqb (a b : tcp_socket) : bool := (m_fd a =? m_fd b)%Z && bool_decide (m_type a = m_type b).

Section operations.
Context {K : Type} `{Os K}.

(** A socket and the system below it. *)
Definition M_socket (A : Type) : Type := M (tcp_socket * K) A.

Definition this : M_socket tcp_socket := s ← mget; mret s.1.
Definition update (f : tcp_socket -> tcp_socket) : M_socket unit := mmodify (fun s => (f s.1, s.2)).
Definition sys {A} (call : K -> A * K) : M_socket A := fun s =>
  let '(a, k) := call s.2 in (Ret a, (s.1, k)).
(** [__TACOPIE_THROW] *)
Definition throw {A} (what : string) : M_socket A := mthrow (std_exception what).

Definition close : M_socket unit :=
  s ← this;
  _ ← (if (m_fd s =? INVALID_FD)%Z then mret tt
       else sys (fun k => (tt, os_close (m_fd s) k)));
  update (fun s => set_type UNKNOWN (set_fd INVALID_FD s)).

Definition create_socket_if_necessary : M_socket unit :=
  s ← this;
  if negb (m_fd s =? INVALID_FD)%Z then mret tt
  else
    let family := if (m_port s =? 0)%Z then AF_UNIX else if is_ipv6 s then AF_INET6 else AF_INET in
    fd ← sys (os_socket family);
    _ ← update (fun s => set_type UNKNOWN (set_fd fd s));
    if (fd =? INVALID_FD)%Z
    then throw "tcp_socket::create_socket_if_necessary: socket() failure" else mret tt.

Definition check_or_set_type (t : type) : M_socket unit :=
  s ← this;
  if negb (bool_decide (m_type s = UNKNOWN)) && negb (bool_decide (m_type s = t))
  then throw "trying to perform invalid operation on socket"
  else update (set_type t).

(** [strncpy(addr->sun_path, host.c_str(), sizeof(addr->sun_path) - 1)] into an
    array of zeros of 108 bytes *)
Fixpoint c_str (s : string) : string :=
  match s with
  | EmptyString => EmptyString
  | String c s' => if Ascii.eqb c "000" then EmptyString else String c (c_str s')
  end.
Definition sun_path_size : nat := 108.
Definition unix_path (host : string) : string := s_take (sun_path_size - 1) (c_str host).

(** The address [connect] and [bind] fill in; [inet_pton] is only checked for a
    negative result, and leaves the zeros of [ss] when the text is not an address. *)
Definition fill_address (hints : ai_hints) (host : string) (port : Z) : M_socket sockaddr :=
  s ← this;
  if (m_port s =? 0)%Z then mret (sockaddr_un (unix_path host))
  else if is_ipv6 s then
    let '(ret, addr) := os_inet_pton (c_str host) in
    if (ret <? 0)%Z then throw "inet_pton() failure"
    else mret (sockaddr_in6 (if (ret =? 1)%Z then addr else 0) 0 (htons port))
  else
    result ← sys (os_getaddrinfo hints (c_str host));
    if negb (result.1 =? 0)%Z then throw "getaddrinfo() failure"
    else
      match addr_as_in result.2 with
      | Some addr => mret (sockaddr_in addr (htons port))
      | None => mundef
      end.

(** [fcntl(m_fd, F_SETFL, fcntl(m_fd, F_GETFL, 0) op O_NONBLOCK)] *)
Definition set_flags (f : Z -> Z) (what : string) : M_socket unit :=
  s ← this;
  flags ← sys (os_getfl (m_fd s));
  r ← sys (os_setfl (m_fd s) (f flags));
  if (r =? -1)%Z then _ ← close; throw what else mret tt.
Definition set_non_blocking (what : string) : M_socket unit := set_flags (fun v => Z.lor v O_NONBLOCK) what.
Definition set_blocking (what : string) : M_socket unit :=
  set_flags (fun v => Z.land v (Z.lnot O_NONBLOCK)) what.

(** [tv_sec], [tv_usec] *)
Definition timeval (timeout_msecs : Z) : Z * Z :=
  let tv_sec := (timeout_msecs / 1000)%Z in
  (tv_sec, ((timeout_msecs - tv_sec * 1000) * 1000)%Z).

(** [FD_SET(fd, &set)] writes into the bits of an fd_set. *)
Definition fits_fd_set (fd : Z) : bool := (0 <=? fd)%Z && (fd <? 1024)%Z.

(** The wait for a connection in progress. *)
Definition wait_connected (timeout_msecs : Z) : M_socket unit :=
  s ← this;
  if negb (fits_fd_set (m_fd s)) then mundef
  else
    n ← sys (os_select (m_fd s) (timeval timeout_msecs));
    if (n =? 1)%Z then
      r ← sys (os_getsockopt (m_fd s));
      if (r.1 =? -1)%Z || negb (r.2 =? 0)%Z then _ ← close; throw "connect() failure"
      else set_blocking "connect() set blocking failure"
    else _ ← close; throw "connect() timed out".

Definition connect (host : string) (port timeout_msecs : Z) : M_socket unit :=
  _ ← update (set_address host port);
  _ ← create_socket_if_necessary;
  _ ← check_or_set_type CLIENT;
  ss ← fill_address hints_inet host port;
  _ ← (if (0 <? timeout_msecs)%Z then set_non_blocking "connect() set non-blocking failure"
       else set_blocking "connect() set blocking failure");
  s ← this;
  ret ← sys (os_connect (m_fd s) ss);
  if (ret.1 <? 0)%Z && negb (ret.2 =? EINPROGRESS)%Z then _ ← close; throw "connect() failure"
  else if (0 <? timeout_msecs)%Z then wait_connected timeout_msecs
  else mret tt.

Definition bind (host : string) (port : Z) : M_socket unit :=
  _ ← update (set_address host port);
  _ ← create_socket_if_necessary;
  _ ← check_or_set_type SERVER;
  ss ← fill_address no_hints host port;
  s ← this;
  r ← sys (os_bind (m_fd s) ss);
  if (r =? -1)%Z then throw "bind() failure" else mret tt.

Definition recv (size_to_read : Z) : M_socket string :=
  _ ← create_socket_if_necessary;
  _ ← check_or_set_type CLIENT;
  s ← this;
  r ← sys (os_recv (m_fd s) size_to_read);
  if (r.1 =? -1)%Z then throw "recv() failure"
  else if (r.1 =? 0)%Z then throw "nothing to read, socket has been closed by remote host"
  else mret (s_take (Z.to_nat r.1) r.2).

Definition send (data : string) (size_to_write : Z) : M_socket Z :=
  _ ← create_socket_if_necessary;
  _ ← check_or_set_type CLIENT;
  s ← this;
  wr_size ← sys (os_send (m_fd s) data size_to_write);
  if (wr_size =? -1)%Z then throw "send() failure" else mret wr_size.

Definition listen (max_connection_queue : Z) : M_socket unit :=
  _ ← create_socket_if_necessary;
  _ ← check_or_set_type SERVER;
  s ← this;
  r ← sys (os_listen (m_fd s) max_connection_queue);
  if (r =? -1)%Z then throw "listen() failure" else mret tt.

(** The host and port of a peer; reading the address of a Unix peer as an IPv4 one
    reads bytes nobody wrote. *)
Definition peer_address (p : peer) : outcome (string * Z) :=
  match p with
  | peer_in6 addr port =>
    Ret (match os_inet_ntop AF_INET6 addr with Some a => "[" +:+ a +:+ "]" | None => "" end, ntohs port)
  | peer_in addr port =>
    Ret (match os_inet_ntop AF_INET addr with Some a => a | None => "" end, ntohs port)
  | peer_un => Undef
  end.

Definition accept : M_socket tcp_socket :=
  _ ← create_socket_if_necessary;
  _ ← check_or_set_type SERVER;
  s ← this;
  r ← sys (os_accept (m_fd s));
  if (r.1 =? INVALID_FD)%Z then throw "accept() failure"
  else
    address ← mlift (peer_address r.2);
    mret (mk r.1 address.1 address.2 CLIENT).

End operations.
End tcp_socket.
