(* ===== verification/SocketFacts.v ===== *)
(** The properties of [tcp_socket]: the descriptors it opens and closes, what a
    connection that is made or refused leaves, and the addresses it uses. *)

From S2P Require Import Prelude Text Hoare Socket.

Import tcp_socket.

(** ** Ports and paths *)

Lemma lor_bytes a b : (0 <= b < 256)%Z -> Z.lor (Z.shiftl a 8) b = (256 * a + b)%Z.
Proof.
  intros Hb. rewrite <- Z.add_nocarry_lor; [rewrite Z.shiftl_mul_pow2; lia|].
  apply Z.bits_inj'. intros n Hn. rewrite Z.land_spec, Z.bits_0, Z.shiftl_spec by done.
  destruct (Z.ltb_spec n 8) as [H8|H8]; [by rewrite Z.testbit_neg_r by lia|].
  apply andb_false_intro2. destruct (decide (b = 0)%Z) as [->|]; [apply Z.bits_0|].
  apply Z.bits_above_log2; [lia|]. apply Z.lt_le_trans with 8%Z; [|done].
  apply Z.log2_lt_pow2; lia.
Qed.

Lemma htons_bytes p : htons p = (256 * (p mod 256) + (p / 256) mod 256)%Z.
Proof.
  unfold htons. change 255%Z with (Z.ones 8). rewrite !Z.land_ones by lia. rewrite (Z.shiftr_div_pow2 p 8) by lia.
  apply lor_bytes, Z.mod_pos_bound. lia.
Qed.

Lemma ntohs_htons p : ntohs (htons p) = (p mod 65536)%Z.
Proof.
  unfold ntohs. rewrite (htons_bytes (htons p)), (htons_bytes p).
  pose proof (Z.mod_pos_bound p 256). pose proof (Z.mod_pos_bound (p / 256) 256).
  set (a := (p mod 256)%Z) in *. set (b := ((p / 256) mod 256)%Z) in *.
  change 65536%Z with (256 * 256)%Z. rewrite Z.rem_mul_r by lia. fold a b.
  rewrite (Z.add_comm (256 * a) b), (Z.mul_comm 256 a), Z.mod_add, Z.div_add by lia.
  rewrite (Z.mod_small b), (Z.div_small b) by lia. rewrite Z.add_0_l, (Z.mod_small a) by lia. lia.
Qed.

(** A path holds the bytes of the host up to its first zero, at most 107 of them: it has
    no zero, and is the host, or what comes before one of its zeros, or 107 bytes of it. *)
Definition cut_path (host path : string) : Prop :=
  contains "000" path = false /\ String.length path <= 107 /\
  exists rest, host = path +:+ rest /\
    (rest = "" \/ (exists rest', rest = String "000" rest') \/ String.length path = 107).

Lemma unix_path_cut host : cut_path host (unix_path host).
Proof.
  unfold cut_path, unix_path. change (sun_path_size - 1) with 107. generalize 107 as n.
  induction host as [|c host IH]; intros n.
  { destruct n; cbn; (split_and!; [done|lia|]); exists ""; by split; [|left]. }
  cbn [c_str]. destruct (Ascii.eqb c "000") eqn:Ec.
  { apply Ascii.eqb_eq in Ec as ->. assert (s_take n "" = "") as -> by by destruct n.
    split_and!; [done|cbn; lia|]. exists (String "000" host). split; [done|]. right; left. by exists host. }
  destruct n as [|n]; cbn [s_take].
  { split_and!; [done|cbn; lia|]. exists (String c host). split; [done|]. by right; right. }
  destruct (IH n) as (Hc & Hl & rest & Hr & Hend). cbn [contains String.length]. rewrite Ec, Hc.
  split_and!; [done|lia|]. exists rest. split; [cbn; by rewrite <- Hr|].
  destruct Hend as [?|[?|Hn]]; [by left|by right; left|]. right; right. lia.
Qed.

(** A path that satisfies this is the code's. *)
Lemma cut_path_unique host p q : cut_path host p -> cut_path host q -> p = q.
Proof.
  intros (Cp & Lp & rp & Hp & Ep) (Cq & Lq & rq & Hq & Eq).
  remember 107 as n eqn:En. clear En. revert n host q Lp Lq Hp Hq Ep Eq Cp Cq.
  induction p as [|c p IH]; intros n host q Lp Lq Hp Hq Ep Eq Cp Cq.
  - destruct q as [|d q]; [done|]. exfalso. cbn in Hp. subst host. cbn in Hq.
    destruct Ep as [->|[[r ->]|Hn]]; [done|by simplify_eq/=|cbn in *; lia].
  - destruct q as [|d q].
    + exfalso. cbn in Hq. subst host. cbn in Hq. destruct Eq as [->|[[r ->]|Hn]]; [done|by simplify_eq/=|cbn in *; lia].
    + cbn in Hp, Hq. subst host. injection Hq as <- Hq. cbn in *. apply orb_false_iff in Cp as [_ Cp], Cq as [_ Cq].
      f_equal. destruct n as [|n]; [lia|]. eapply (IH n (p +:+ rp)); try done; try lia.
      * destruct Ep as [?|[?|?]]; [by left|by right; left|right; right; lia].
      * destruct Eq as [?|[?|?]]; [by left|by right; left|right; right; lia].
Qed.

Section descriptors.
Context {K : Type} `{OsLaws K}.

Abbreviation state := (tcp_socket * K)%type.

(** The socket has no descriptor, or one that is open. *)
Definition owned (s : state) : Prop := m_fd s.1 = INVALID_FD \/ m_fd s.1 ∈ os_fds s.2.
(** The descriptors of the process other than the socket's. *)
Definition others (s : state) : gset Z := os_fds s.2 ∖ {[m_fd s.1]}.

(** What a step of the socket does to the descriptors. *)
Definition own_only (s s' : state) : Prop := owned s -> owned s' /\ others s' = others s.

#[export] Instance own_only_preorder : PreOrder own_only.
Proof.
  split; [by intros s|]. intros s1 s2 s3 H12 H23 Ho. destruct (H12 Ho) as [Ho2 E2].
  destruct (H23 Ho2) as [? E3]. by rewrite E3.
Qed.

#[local] Hint Extern 0 (PreOrder own_only) => apply own_only_preorder : keeps.

Lemma elem_of_others s fd : fd ∈ others s <-> fd ∈ os_fds s.2 /\ fd <> m_fd s.1.
Proof. unfold others. by rewrite elem_of_difference, elem_of_singleton. Qed.

Lemma invalid_not_open k : INVALID_FD ∉ os_fds k.
Proof. intros Hin%os_fds_valid. unfold INVALID_FD in Hin. lia. Qed.
Lemma others_invalid (s : state) : m_fd s.1 = INVALID_FD -> others s = os_fds s.2.
Proof. unfold others. intros ->. by apply difference_disjoint_L, disjoint_singleton_r, invalid_not_open. Qed.

(** A new descriptor is none of the others. *)
Lemma difference_new (X : gset Z) fd : fd ∉ X -> ({[fd]} ∪ X) ∖ {[fd]} = X.
Proof.
  intros Hfd. rewrite difference_union_distr_l_L, difference_diag_L, (left_id_L ∅ (∪)).
  by apply difference_disjoint_L, disjoint_singleton_r.
Qed.

(** A call that keeps the table of descriptors. *)
Lemma keeps_sys {A} (call : K -> A * K) :
  (forall k, os_fds (call k).2 = os_fds k) -> keeps own_only (sys call).
Proof.
  intros Hc [s k]. unfold ends, sys. cbn. specialize (Hc k). destruct (call k) as [a k']; cbn in *.
  unfold own_only, owned, others. cbn. by rewrite Hc.
Qed.

Lemma keeps_update (f : tcp_socket -> tcp_socket) :
  (forall s, m_fd (f s) = m_fd s) -> keeps own_only (update f).
Proof.
  intros Hf. apply keeps_modify. intros [s k]. unfold own_only, owned, others. cbn. by rewrite Hf.
Qed.

Lemma keeps_this : keeps own_only this.
Proof. unfold this. keeps. Qed.

Lemma keeps_close : keeps own_only close.
Proof.
  intros [s k]. unfold ends, close, this, mbind, M_bind, mget, mret, M_ret, update, mmodify, sys. cbn.
  destruct (Z.eqb_spec (m_fd s) INVALID_FD) as [E|E]; cbn; intros Ho; split; try by left.
  - rewrite !others_invalid; done.
  - rewrite others_invalid by done. unfold others. cbn. by rewrite os_close_fds.
Qed.

Lemma this_eq s k : this (K:=K) (s, k) = (Ret s, (s, k)).
Proof. done. Qed.
Lemma sys_eq {A} (call : K -> A * K) s k : sys call (s, k) = (Ret (call k).1, (s, (call k).2)).
Proof. unfold sys. cbn. by destruct (call k). Qed.

Definition family_of (s : tcp_socket) : family :=
  if (m_port s =? 0)%Z then AF_UNIX else if is_ipv6 s then AF_INET6 else AF_INET.

Lemma create_eq s k :
  create_socket_if_necessary (s, k) =
  if (m_fd s =? INVALID_FD)%Z then
    let '(fd, k') := os_socket (family_of s) k in
    (if (fd =? INVALID_FD)%Z
     then Throw (std_exception "tcp_socket::create_socket_if_necessary: socket() failure") else Ret tt,
     (set_type UNKNOWN (set_fd fd s), k'))
  else (Ret tt, (s, k)).
Proof.
  unfold create_socket_if_necessary, this, mbind, M_bind, mget, mret, M_ret, update, mmodify, sys. cbn.
  destruct (m_fd s =? INVALID_FD)%Z; cbn; [|done]. fold (family_of s).
  destruct (os_socket (family_of s) k) as [fd k']. cbn. by destruct (fd =? INVALID_FD)%Z.
Qed.

(** Whether a socket can be used as one of type [t]. *)
Definition usable (t : type) (s : tcp_socket) : bool :=
  bool_decide (m_type s = UNKNOWN) || bool_decide (m_type s = t).
Lemma check_eq t s k :
  check_or_set_type (K:=K) t (s, k) =
  if usable t s then (Ret tt, (set_type t s, k))
  else (Throw (std_exception "trying to perform invalid operation on socket"), (s, k)).
Proof.
  unfold check_or_set_type, usable, this, mbind, M_bind, mget, mret, M_ret, update, mmodify. cbn.
  by destruct (bool_decide _), (bool_decide _).
Qed.

Lemma keeps_create : keeps own_only create_socket_if_necessary.
Proof.
  intros [s k]. unfold ends. rewrite create_eq.
  destruct (Z.eqb_spec (m_fd s) INVALID_FD) as [E|E]; [|done].
  pose proof (os_socket_fds (family_of s) k) as Hs.
  destruct (os_socket (family_of s) k) as [fd k']. cbn in Hs |- *.
  intros _. rewrite (others_invalid (s, k)) by done. unfold owned. cbn.
  destruct Hs as [[-> Hk]|(Hpos & Hnew & Hk)].
  - split; [by left|]. by rewrite others_invalid.
  - split; [right; rewrite Hk; by apply elem_of_union_l, elem_of_singleton|].
    unfold others. cbn. by rewrite Hk, difference_new.
Qed.

Lemma keeps_raise {A} what : keeps own_only (throw what : M_socket A).
Proof. unfold throw. auto with keeps. Qed.

#[local] Hint Resolve keeps_this keeps_close keeps_create keeps_raise : keeps.
#[local] Hint Resolve keeps_sys keeps_update : keeps.
#[local] Hint Resolve os_getfl_fds os_setfl_fds os_connect_fds os_select_fds os_getsockopt_fds : keeps.
#[local] Hint Resolve os_bind_fds os_listen_fds os_recv_fds os_send_fds os_getaddrinfo_fds : keeps.

Lemma keeps_check t : keeps own_only (check_or_set_type t).
Proof. keeps. Qed.

Lemma keeps_fill hints host port : keeps own_only (fill_address hints host port).
Proof.
  apply keeps_bind; [apply _|auto with keeps|]. intros s. apply keeps_if; [auto with keeps|].
  apply keeps_if; [destruct (os_inet_pton _); keeps|].
  apply keeps_bind; [apply _|auto with keeps|]. intros r.
  apply keeps_if; [auto with keeps|]. destruct (addr_as_in r.2); auto with keeps.
Qed.

Lemma keeps_set_flags f what : keeps own_only (set_flags f what).
Proof. keeps. Qed.
#[local] Hint Resolve keeps_check keeps_fill keeps_set_flags : keeps.

Lemma keeps_set_blocking what : keeps own_only (set_blocking what).
Proof. apply keeps_set_flags. Qed.
Lemma keeps_set_non_blocking what : keeps own_only (set_non_blocking what).
Proof. apply keeps_set_flags. Qed.
#[local] Hint Resolve keeps_set_blocking keeps_set_non_blocking : keeps.

Lemma keeps_wait_connected ms : keeps own_only (wait_connected ms).
Proof. keeps. Qed.
#[local] Hint Resolve keeps_wait_connected : keeps.

Lemma keeps_connect host port ms : keeps own_only (connect host port ms).
Proof. keeps. Qed.
Lemma keeps_bind_to host port : keeps own_only (bind host port).
Proof. keeps. Qed.
Lemma keeps_recv n : keeps own_only (recv n).
Proof. keeps. Qed.
Lemma keeps_send data n : keeps own_only (send data n).
Proof. keeps. Qed.
Lemma keeps_listen n : keeps own_only (listen n).
Proof. keeps. Qed.

(** ** accept *)

(** What [accept] leaves: on success, one more descriptor, which is the client's. *)
Definition accepted (s : state) (r : outcome tcp_socket) (s' : state) : Prop :=
  match r with
  | Ret c => owned s' /\ (m_fd c ∉ others s) /\ m_fd c <> m_fd s'.1 /\ (0 <= m_fd c)%Z /\ m_type c = CLIENT /\
             others s' = {[m_fd c]} ∪ others s
  | Throw _ => owned s' /\ others s' = others s
  | Undef => True
  | Timeout => False
  end.

Lemma accept_typed s :
  owned s -> ends (_ ← create_socket_if_necessary; check_or_set_type SERVER) s (fun r s1 =>
    match r with Undef | Timeout => False | _ => owned s1 /\ others s1 = others s end).
Proof.
  intros Ho.
  assert (keeps own_only (_ ← create_socket_if_necessary; check_or_set_type SERVER)) as Hk by keeps.
  specialize (Hk s). revert Hk. destruct s as [s k]. unfold ends, mbind, M_bind. rewrite create_eq.
  destruct (m_fd s =? INVALID_FD)%Z; [destruct (os_socket (family_of s) k) as [fd k'], (fd =? INVALID_FD)%Z|];
    cbn; rewrite ?check_eq; try destruct (usable _ _); cbn; auto.
Qed.

Lemma accept_ends s : owned s -> ends accept s (accepted s).
Proof.
  intros Ho. apply ends_assoc, ends_bind. eapply ends_weaken; [apply (accept_typed s Ho)|].
  intros [[]|e| |] [s2 k2]; [|done..].
  intros [Ho2 Hs2]. cbn. unfold ends.
  rewrite (mbind_Ret _ _ _ _ _ (this_eq s2 k2)), (mbind_Ret _ _ _ _ _ (sys_eq _ s2 k2)).
  pose proof (os_accept_fds (m_fd s2) k2) as Ha. destruct (os_accept (m_fd s2) k2) as [[fd p] k3]. cbn in Ha |- *.
  destruct Ha as [[-> Hk]|(Hpos & Hnew & Hk)].
  - cbn. rewrite <- Hs2. unfold owned, others in *. cbn in *. by rewrite Hk.
  - destruct (Z.eqb_spec fd INVALID_FD) as [->|_]; [by unfold INVALID_FD in Hpos|].
    unfold mbind, M_bind, mlift. cbn. destruct (peer_address p) as [[h n]|e| |] eqn:Ep; [|by destruct p..]. cbn.
    assert (fd <> m_fd s2) as Hne by (intros ->; destruct Ho2 as [E|]; [cbn in E; rewrite E in Hpos; by unfold INVALID_FD in Hpos|done]).
    rewrite <- Hs2. unfold owned, others in *. cbn in *. rewrite Hk. split_and!; [| |done..|].
    + destruct Ho2; [by left|right; by apply elem_of_union_r].
    + intros Hin%elem_of_difference. tauto.
    + rewrite difference_union_distr_l_L. f_equal.
      by apply difference_disjoint_L, disjoint_singleton_r, not_elem_of_singleton.
Qed.

(** ** Sequences of operations *)

Inductive operation : Type :=
| Connect (host : string) (port timeout_msecs : Z)
| Bind (host : string) (port : Z)
| Listen (max_connection_queue : Z)
| Accept
| Recv (size_to_read : Z)
| Send (data : string) (size_to_write : Z)
| SetType (t : type)
| Close.

(** The sockets an operation returns, at most one. *)
Definition perform (o : operation) : M_socket (K:=K) (list tcp_socket) :=
  match o with
  | Connect host port ms => _ ← connect host port ms; mret []
  | Bind host port => _ ← bind host port; mret []
  | Listen n => _ ← listen n; mret []
  | Accept => c ← accept; mret [c]
  | Recv n => _ ← recv n; mret []
  | Send data n => _ ← send data n; mret []
  | SetType t => _ ← update (set_type t); mret []
  | Close => _ ← close; mret []
  end.

(** The operations one after the other, whether they return or throw; [None] when
    one is undefined. *)
Fixpoint performs (ops : list operation) (s : state) : option (list tcp_socket * state) :=
  match ops with
  | [] => Some ([], s)
  | o :: ops =>
    let '(r, s) := perform o s in
    match r with
    | Ret clients => (fun x : list tcp_socket * state => (clients ++ x.1, x.2)) <$> performs ops s
    | Throw _ => performs ops s
    | Undef | Timeout => None
    end
  end.

#[local] Hint Resolve keeps_connect keeps_bind_to keeps_recv keeps_send keeps_listen : keeps.

Lemma perform_ends o s : owned s -> ends (perform o) s (fun r s' =>
  match r with
  | Ret clients => owned s' /\ NoDup (map m_fd clients) /\
      Forall (fun c => (m_fd c ∉ others s) /\ m_fd c <> m_fd s'.1) clients /\
      others s' = list_to_set (map m_fd clients) ∪ others s
  | Throw _ => owned s' /\ others s' = others s
  | _ => True
  end).
Proof.
  intros Ho. assert (o = Accept \/ o <> Accept) as [->|Hne] by (destruct o; auto).
  - apply ends_bind. eapply ends_weaken; [by apply accept_ends|]. intros [c|e| |] s'; cbn; [|tauto..].
    intros (Ho' & Hn & Hd & _ & _ & He). unfold ends. cbn. split_and!; [done|..].
    + apply NoDup_singleton.
    + by repeat constructor.
    + by rewrite (right_id_L ∅ (∪)).
  - assert (keeps own_only (perform o)) as Hk by (destruct o; [..|done| | | |]; keeps).
    assert (ends (perform o) s (fun r _ => forall clients, r = Ret clients -> clients = [])) as Hr.
    { destruct o; try done; apply ends_bind; eapply (ends_weaken _ _ (fun _ _ => True)); try done;
        intros [?|?| |] ? _; cbn; try done; by intros ? [= <-]. }
    specialize (Hk s). unfold ends in *. destruct (perform o s) as [[clients|e| |] s']; cbn in *; try by auto.
    rewrite (Hr clients eq_refl). destruct (Hk Ho) as [Ho' He]. split_and!; [done|constructor|constructor|].
    cbn [map]. by rewrite list_to_set_nil, (left_id_L ∅ (∪)).
Qed.

Lemma performs_ends ops s clients s' :
  owned s -> performs ops s = Some (clients, s') ->
  owned s' /\ NoDup (map m_fd clients) /\ Forall (fun c => m_fd c ∉ others s) clients /\
  others s' = list_to_set (map m_fd clients) ∪ others s.
Proof.
  revert s clients. induction ops as [|o ops IH]; intros s clients Ho Hp; cbn [performs] in Hp.
  - injection Hp as <- <-. split_and!; [done|constructor|constructor|].
    cbn [map]. by rewrite list_to_set_nil, (left_id_L ∅ (∪)).
  - pose proof (perform_ends o s Ho) as He. unfold ends in He.
    destruct (perform o s) as [[cs|e| |] s1]; cbn [fst snd] in He; [| |done..].
    + destruct He as (Ho1 & Hnd & Hnew & E1).
      destruct (performs ops s1) as [[cs' s2]|] eqn:Ep; [|done]. injection Hp as <- <-.
      destruct (IH s1 cs' Ho1 Ep) as (Ho2 & Hnd2 & Hnew2 & E2). cbn [fst snd].
      rewrite map_app, list_to_set_app_L, E2, E1. split_and!; [done| | |].
      * apply NoDup_app. split_and!; [done| |done]. intros fd Hin Hin2.
        apply list_elem_of_fmap in Hin2 as (c & -> & Hc).
        rewrite Forall_forall in Hnew2. apply (Hnew2 c Hc). rewrite E1.
        by apply elem_of_union_l, elem_of_list_to_set.
      * apply Forall_app. split.
        -- eapply Forall_impl; [exact Hnew|]. cbn. tauto.
        -- eapply Forall_impl; [exact Hnew2|]. cbn. intros c Hc Hin. apply Hc. rewrite E1.
           by apply elem_of_union_r.
      * rewrite (assoc_L (∪)). f_equal. apply (comm_L (∪)).
    + destruct He as [Ho1 E1]. destruct (IH s1 clients Ho1 Hp) as (Ho2 & Hnd2 & Hnew2 & E2).
      rewrite E1 in *. done.
Qed.

(** ** connect *)

(** The address [connect] and [bind] use. *)
Lemma fill_address_eq hints host port s k a s' :
  m_port s = port -> fill_address (K:=K) hints host port (s, k) = (Ret a, s') ->
  match a with
  | sockaddr_un path => port = 0%Z /\ path = unix_path host
  | sockaddr_in _ p | sockaddr_in6 _ _ p => port <> 0%Z /\ p = htons port
  end.
Proof.
  intros Hp. unfold fill_address. rewrite (mbind_Ret _ _ _ _ _ (this_eq s k)), Hp.
  destruct (Z.eqb_spec port 0) as [E|E]; [by intros [= <- <-]|]. destruct (is_ipv6 s).
  - destruct (os_inet_pton _) as [ret addr]. destruct (ret <? 0)%Z; by intros [= <- <-].
  - rewrite (mbind_Ret _ _ _ _ _ (sys_eq _ s k)). destruct (negb _); [done|].
    destruct (addr_as_in _); [|done]. by intros [= <- <-].
Qed.

(** A socket that has been closed. *)
Definition closed (s : tcp_socket) : Prop := m_fd s = INVALID_FD /\ m_type s = UNKNOWN.

Lemma close_eq s k : exists k', close (s, k) = (Ret tt, (set_type UNKNOWN (set_fd INVALID_FD s), k')).
Proof.
  unfold close. rewrite (mbind_Ret _ _ _ _ _ (this_eq s k)).
  destruct (m_fd s =? INVALID_FD)%Z; [by exists k|].
  rewrite (mbind_Ret _ _ _ _ _ (sys_eq _ s k)). by eexists.
Qed.

(** A failure that closes the socket first *)
Lemma close_throw {A} what s k : exists k',
  (_ ← close; throw (A:=A) what) (s, k) =
  (Throw (std_exception what), (set_type UNKNOWN (set_fd INVALID_FD s), k')).
Proof.
  destruct (close_eq s k) as [k' Hc]. exists k'. by rewrite (mbind_Ret _ _ _ _ _ Hc).
Qed.

Lemma cleared_flag v : Z.land (Z.land v (Z.lnot O_NONBLOCK)) O_NONBLOCK = 0%Z.
Proof. by rewrite <- Z.land_assoc, (Z.land_comm (Z.lnot _)), Z.land_lnot_diag, Z.land_0_r. Qed.

Lemma set_flags_ends f what s k : ends (set_flags f what) (s, k) (fun r s' =>
  match r with
  | Ret _ => exists k', s' = (s, k') /\ (forall a, os_established k (m_fd s) a -> os_established k' (m_fd s) a) /\
      exists v, os_nonblocking k' (m_fd s) = negb (Z.land (f v) O_NONBLOCK =? 0)%Z
  | Throw _ => s'.1 = set_type UNKNOWN (set_fd INVALID_FD s)
  | _ => False
  end).
Proof.
  unfold set_flags, ends. rewrite (mbind_Ret _ _ _ _ _ (this_eq s k)), (mbind_Ret _ _ _ _ _ (sys_eq _ s k)).
  set (g := os_getfl (m_fd s) k). rewrite (mbind_Ret _ _ _ _ _ (sys_eq _ s g.2)).
  set (h := os_setfl (m_fd s) (f g.1) g.2). destruct (Z.eqb_spec h.1 (-1)) as [E|E].
  - destruct (close_throw (A:=unit) what s h.2) as [k' ->]. done.
  - exists h.2. split_and!; [done| |].
    + intros a He. by apply os_setfl_established, os_getfl_established.
    + exists g.1. by apply os_setfl_flag.
Qed.

Lemma set_blocking_ends what s k : ends (set_blocking what) (s, k) (fun r s' =>
  match r with
  | Ret _ => exists k', s' = (s, k') /\ (forall a, os_established k (m_fd s) a -> os_established k' (m_fd s) a) /\
      os_nonblocking k' (m_fd s) = false
  | Throw _ => s'.1 = set_type UNKNOWN (set_fd INVALID_FD s)
  | _ => False
  end).
Proof.
  eapply ends_weaken; [apply set_flags_ends|]. intros [u|e| |] s'; [|done..].
  intros (k' & -> & He & v & Hv). exists k'. split_and!; [done..|]. by rewrite Hv, cleared_flag.
Qed.

(** The address of a host and a port: for the port 0 a Unix socket's, whose path is the
    host cut to what a path holds; for a host with a colon the IPv6 address it reads as
    (zero when it reads as none); for another an IPv4 address it resolves to.  Of the
    port, the low 16 bits. *)
Definition asked_for (host : string) (port : Z) (a : sockaddr) : Prop :=
  match a with
  | sockaddr_un path => port = 0%Z /\ cut_path host path
  | sockaddr_in addr p =>
      port <> 0%Z /\ ntohs p = (port mod 65536)%Z /\ contains ":" host = false /\
      exists k : K, (os_getaddrinfo hints_inet (c_str host) k).1 = (0%Z, sockaddr_in addr 0)
  | sockaddr_in6 addr flow p =>
      port <> 0%Z /\ ntohs p = (port mod 65536)%Z /\ contains ":" host = true /\ flow = 0%Z /\
      addr = if ((os_inet_pton (c_str host)).1 =? 1)%Z then (os_inet_pton (c_str host)).2 else 0%Z
  end.

Lemma fill_inet_ends host port s k :
  m_host s = host -> m_port s = port -> ends (fill_address hints_inet host port) (s, k) (fun r s' =>
  (exists k', s' = (s, k')) /\
  match r with
  | Ret a => asked_for host port a
  | Throw e => e = std_exception "inet_pton() failure" \/ e = std_exception "getaddrinfo() failure"
  | _ => False
  end).
Proof.
  intros Hh Hp. unfold fill_address, ends. rewrite (mbind_Ret _ _ _ _ _ (this_eq s k)), Hp. unfold is_ipv6. rewrite Hh.
  destruct (Z.eqb_spec port 0) as [E|E].
  { cbn. split; [eauto|]. split; [done|apply unix_path_cut]. }
  destruct (contains ":" host) eqn:Ev.
  { destruct (os_inet_pton (c_str host)) as [ret addr] eqn:Ei. destruct (ret <? 0)%Z; cbn; [eauto|]. split; [eauto|].
    rewrite ntohs_htons, Ei. by split_and!. }
  rewrite (mbind_Ret _ _ _ _ _ (sys_eq _ s k)). pose proof (os_getaddrinfo_inet (c_str host) k) as Ha.
  destruct (os_getaddrinfo hints_inet (c_str host) k) as [[ret a] k'] eqn:Ek. cbn [fst snd] in *.
  destruct (Z.eqb_spec ret 0) as [->|Er]; cbn [negb]; [|cbn; eauto].
  destruct (Ha eq_refl) as [addr ->]. cbn. split; [eauto|]. rewrite ntohs_htons. split_and!; [done..|]. exists k. by rewrite Ek.
Qed.

Lemma wait_connected_ends ms a s k : os_connecting k (m_fd s) a -> ends (wait_connected ms) (s, k) (fun r s' =>
  match r with
  | Ret _ => exists k', s' = (s, k') /\ os_established k' (m_fd s) a /\ os_nonblocking k' (m_fd s) = false
  | Throw _ => s'.1 = set_type UNKNOWN (set_fd INVALID_FD s)
  | Undef => s' = (s, k) /\ fits_fd_set (m_fd s) = false
  | Timeout => False
  end).
Proof.
  intros Hcon. unfold wait_connected, ends. rewrite (mbind_Ret _ _ _ _ _ (this_eq s k)).
  destruct (fits_fd_set (m_fd s)) eqn:Ef; cbn [negb]; [|by split].
  rewrite (mbind_Ret _ _ _ _ _ (sys_eq _ s k)). set (n := os_select (m_fd s) (timeval ms) k).
  destruct (Z.eqb_spec n.1 1) as [E|E].
  - rewrite (mbind_Ret _ _ _ _ _ (sys_eq _ s n.2)). set (g := os_getsockopt (m_fd s) n.2).
    destruct (Z.eqb_spec g.1.1 (-1)) as [Eg|Eg]; cbn [orb].
    { by destruct (close_throw (A:=unit) "connect() failure" s g.2) as [k' ->]. }
    destruct (Z.eqb_spec g.1.2 0) as [Ez|Ez]; cbn [negb].
    2:{ by destruct (close_throw (A:=unit) "connect() failure" s g.2) as [k' ->]. }
    pose proof (set_blocking_ends "connect() set blocking failure" s g.2) as Hb. unfold ends in Hb.
    destruct (set_blocking _ (s, g.2)) as [[u|e| |] s']; cbn [fst snd] in *; [|done..].
    destruct Hb as (k' & -> & He & Hn). exists k'. split_and!; [done| |done].
    apply He, os_no_error; [by apply os_select_connecting|by apply os_select_writable|done..].
  - by destruct (close_throw (A:=unit) "connect() timed out" s n.2) as [k' ->].
Qed.

(** Connected to what it was asked for: the descriptor is open and blocks. *)
Definition connected_to (host : string) (port : Z) (s : state) : Prop :=
  m_fd s.1 ∈ os_fds s.2 /\ m_host s.1 = host /\ m_port s.1 = port /\ m_type s.1 = CLIENT /\
  os_nonblocking s.2 (m_fd s.1) = false /\
  exists a, asked_for host port a /\ os_established s.2 (m_fd s.1) a.

(** What [connect] leaves, outcome by outcome. *)
Definition connect_result (host : string) (port ms : Z) (s : tcp_socket) (r : outcome unit) (s' : state) : Prop :=
  m_host s'.1 = host /\ m_port s'.1 = port /\
  match r with
  | Ret _ => m_type s'.1 = CLIENT /\ m_fd s'.1 <> INVALID_FD /\
      os_nonblocking s'.2 (m_fd s'.1) = false /\
      exists a, asked_for host port a /\ os_established s'.2 (m_fd s'.1) a
  | Throw e =>
      closed s'.1 \/
      (m_type s'.1 = CLIENT /\ m_fd s'.1 <> INVALID_FD /\
       (e = std_exception "inet_pton() failure" \/ e = std_exception "getaddrinfo() failure")) \/
      (m_type s = SERVER /\ m_fd s <> INVALID_FD /\ s'.1 = set_address host port s /\
       e = std_exception "trying to perform invalid operation on socket")
  | Undef => (0 < ms)%Z /\ fits_fd_set (m_fd s'.1) = false
  | Timeout => False
  end.

(** The part of [connect] after the address. *)
Definition connect_to (ms : Z) (ss : sockaddr) : M_socket (K:=K) unit :=
  _ ← (if (0 <? ms)%Z then set_non_blocking "connect() set non-blocking failure"
       else set_blocking "connect() set blocking failure");
  s ← this;
  ret ← sys (os_connect (m_fd s) ss);
  if (ret.1 <? 0)%Z && negb (ret.2 =? EINPROGRESS)%Z then _ ← close; throw "connect() failure"
  else if (0 <? ms)%Z then wait_connected ms
  else mret tt.

Lemma connect_to_ends ms ss s k : ends (connect_to ms ss) (s, k) (fun r s' =>
  match r with
  | Ret _ => s'.1 = s /\ os_nonblocking s'.2 (m_fd s) = false /\ os_established s'.2 (m_fd s) ss
  | Throw _ => s'.1 = set_type UNKNOWN (set_fd INVALID_FD s)
  | Undef => s'.1 = s /\ (0 < ms)%Z /\ fits_fd_set (m_fd s) = false
  | Timeout => False
  end).
Proof.
  apply ends_bind. destruct (Z.ltb_spec 0 ms) as [Hms|Hms].
  - eapply ends_weaken; [apply set_flags_ends|]. intros [u|e| |] s'; [|done..].
    intros (k' & -> & _). cbn. unfold ends.
    rewrite (mbind_Ret _ _ _ _ _ (this_eq s k')), (mbind_Ret _ _ _ _ _ (sys_eq _ s k')).
    pose proof (os_connect_begins (m_fd s) ss k') as Hb. set (c := os_connect (m_fd s) ss k') in *.
    destruct ((c.1.1 <? 0)%Z && negb (c.1.2 =? EINPROGRESS)%Z) eqn:Ec.
    { by destruct (close_throw (A:=unit) "connect() failure" s c.2) as [k'' ->]. }
    assert (os_connecting c.2 (m_fd s) ss) as Hcon.
    { apply Hb. apply andb_false_iff in Ec as [Ec|Ec]; [left; by apply Z.ltb_ge|right].
      by apply negb_false_iff, Z.eqb_eq in Ec. }
    pose proof (wait_connected_ends ms ss s c.2 Hcon) as Hw. unfold ends in Hw.
    destruct (wait_connected ms (s, c.2)) as [[u'|e| |] s']; cbn [fst snd] in *; [|done| |done].
    + destruct Hw as (k'' & -> & He & Hn). done.
    + by destruct Hw as [-> Hf].
  - eapply ends_weaken; [apply set_blocking_ends|]. intros [u|e| |] s'; [|done..].
    intros (k' & -> & _ & Hn). cbn. unfold ends.
    rewrite (mbind_Ret _ _ _ _ _ (this_eq s k')), (mbind_Ret _ _ _ _ _ (sys_eq _ s k')).
    pose proof (os_connect_flag (m_fd s) ss k') as Hf. pose proof (os_connect_done (m_fd s) ss k') as Hd.
    pose proof (os_connect_blocking (m_fd s) ss k' Hn) as Hb.
    destruct (os_connect (m_fd s) ss k') as [[ret err] k'']. cbn [fst snd] in *.
    destruct (Z.ltb_spec ret 0) as [Hr|Hr].
    + destruct (Z.eqb_spec err EINPROGRESS) as [E|E]; [by destruct (Hb Hr)|].
      cbn [andb negb]. by destruct (close_throw (A:=unit) "connect() failure" s k'') as [k3 ->].
    + cbn. split_and!; [done|by rewrite Hf|by apply Hd].
Qed.

(** The end of [connect], for a socket that has a descriptor and the right type. *)
Lemma connect_rest_ends host port ms s0 s k :
  m_host s = host -> m_port s = port -> m_type s = CLIENT -> m_fd s <> INVALID_FD ->
  ends (ss ← fill_address hints_inet host port; connect_to ms ss) (s, k) (connect_result host port ms s0).
Proof.
  intros Hh Hp Ht Hfd. apply ends_bind. eapply ends_weaken; [apply fill_inet_ends|].
  { done. } { done. }
  intros [ss|e| |] s' [[k' ->] Hr]; cbn [continues]; [|unfold connect_result; cbn; tauto|done..].
  eapply ends_weaken; [apply connect_to_ends|]. unfold connect_result.
  intros [u|e| |] [s1 k1]; cbn [fst snd]; [| | |done].
  - intros (-> & ? & ?). split_and!; try done. by exists ss.
  - intros ->. unfold closed. cbn. split; [done|]. split; [done|]. left. by split.
  - intros (-> & ? & ?). done.
Qed.

Lemma connect_ends host port ms s k :
  ends (connect host port ms) (s, k) (connect_result host port ms s).
Proof.
  eapply ends_step; [done|]. cbn [fst snd]. pose proof (create_eq (set_address host port s) k) as Hc.
  cbn [m_fd set_address] in Hc. destruct (Z.eqb_spec (m_fd s) INVALID_FD) as [E|E].
  - destruct (os_socket _ k) as [fd k1]. destruct (Z.eqb_spec fd INVALID_FD) as [->|Hfd].
    { eapply ends_fail; [exact Hc|]. unfold connect_result, closed. cbn. split_and!; [done..|]. left. done. }
    eapply ends_step; [exact Hc|]. eapply ends_step; [by rewrite check_eq|]. by apply connect_rest_ends.
  - eapply ends_step; [exact Hc|]. destruct (usable CLIENT (set_address host port s)) eqn:Eu.
    + eapply ends_step; [by rewrite check_eq, Eu|]. by apply connect_rest_ends.
    + eapply ends_fail; [by rewrite check_eq, Eu|].
      unfold usable in Eu. apply orb_false_iff in Eu as [E1 E2].
      apply bool_decide_eq_false in E1, E2. cbn in *. unfold connect_result. cbn.
      split_and!; [done..|]. do 2 right. by destruct (m_type s).
Qed.
End descriptors.
