(* ===== verification/SocketTheorems.v ===== *)
(** The properties of [tcp_socket], and a small operating system they are applied
    to. *)

From S2P Require Import Prelude Text Hoare Socket SocketFacts.

Import tcp_socket.

(** ** A client's connection

    The [try] block of [tcp_client::connect]. *)

Section client.
Context {K : Type} `{Os K}.

Definition client_connect (host : string) (port timeout_msecs : Z) : M_socket (K:=K) unit :=
  mcatch (connect host port timeout_msecs) (fun e => _ ← close; mthrow e).
End client.

(** ** A small operating system

    Descriptors are given out in order; every connection is made, at once or, on a
    non-blocking descriptor, when it is asked about, the ports
    below 1024 are refused to servers, every name
    resolves to the loopback address, the IPv6 one first. *)

Module Loopback.

Record kernel : Type := mk {
  next_fd : nat;
  closed_fds : gset Z;
  nonblocking : gset Z;
  begun : gmap Z sockaddr;
  established : gmap Z sockaddr }.

Definition boot : kernel := mk 3 ∅ ∅ ∅ ∅.
Definition fds (k : kernel) : gset Z := list_to_set (Z.of_nat <$> seq 0 (next_fd k)) ∖ closed_fds k.
Definition open (k : kernel) : Z * kernel :=
  let fd := Z.of_nat (next_fd k) in
  (fd, mk (S (next_fd k)) (closed_fds k ∖ {[fd]}) (nonblocking k) (begun k) (established k)).
Definition begin (fd : Z) (a : sockaddr) (k : kernel) : kernel :=
  mk (next_fd k) (closed_fds k) (nonblocking k) (<[fd := a]> (begun k)) (established k).
Definition establish (fd : Z) (k : kernel) : kernel :=
  mk (next_fd k) (closed_fds k) (nonblocking k) (begun k)
    (match begun k !! fd with Some a => <[fd := a]> (established k) | None => established k end).

#[export] Instance loopback : Os kernel := {|
  os_socket _ k := open k;
  os_close fd k := mk (next_fd k) ({[fd]} ∪ closed_fds k) (nonblocking k) (begun k) (established k);
  os_getfl fd k := ((if decide (fd ∈ nonblocking k) then 2050 else 2)%Z, k);
  os_setfl fd v k := (0%Z, mk (next_fd k) (closed_fds k)
    (if (Z.land v 2048 =? 0)%Z then nonblocking k ∖ {[fd]} else {[fd]} ∪ nonblocking k) (begun k) (established k));
  os_connect fd a k :=
    if decide (fd ∈ nonblocking k) then ((-1, 115)%Z, begin fd a k) else ((0, 0)%Z, establish fd (begin fd a k));
  os_select _ _ k := (1%Z, k);
  os_getsockopt fd k := ((0%Z, 0%Z), establish fd k);
  os_bind _ a k := (match a with
                    | sockaddr_in _ p => if (ntohs p <? 1024)%Z then -1 else 0 | _ => 0
                    end%Z, k);
  os_listen _ _ k := (0%Z, k);
  os_accept _ k := let '(fd, k) := open k in ((fd, peer_in 2130706433 (htons 40000)), k);
  os_recv _ _ k := ((2%Z, "hi"), k);
  os_send _ _ n k := (n, k);
  os_getaddrinfo h _ k :=
    ((0%Z, match h with hints_inet => sockaddr_in 2130706433 0 | no_hints => sockaddr_in6 1 0 0 end), k);
  os_inet_pton _ := (1%Z, 1%Z);
  os_inet_ntop f _ := Some (match f with AF_INET6 => "::1" | _ => "127.0.0.1" end);
  O_NONBLOCK := 2048;
  EINPROGRESS := 115;
  os_fds := fds;
  os_nonblocking k fd := bool_decide (fd ∈ nonblocking k);
  os_writable _ _ := True;
  os_connecting k fd a := begun k !! fd = Some a;
  os_established k fd a := established k !! fd = Some a |}.

Lemma open_opens k : opens (open k).1 k (open k).2.
Proof.
  right. unfold open, fds. cbn. split; [lia|]. split.
  - intros [Hin _]%elem_of_difference. apply elem_of_list_to_set, list_elem_of_fmap in Hin as (n & Hn & Hin).
    apply elem_of_seq in Hin. lia.
  - apply set_eq. intros fd. unfold fds. cbn [next_fd closed_fds].
    rewrite seq_S, fmap_app, list_to_set_app, !elem_of_difference, !elem_of_union, !elem_of_difference,
      elem_of_singleton. cbn. rewrite elem_of_union, elem_of_singleton, elem_of_empty.
    destruct (decide (fd = Z.of_nat (next_fd k))); tauto.
Qed.

#[export] Instance loopback_laws : OsLaws kernel.
Proof.
  split; try done.
  - intros fd k Hin. change (fd ∈ fds k) in Hin. apply elem_of_difference in Hin as [Hin _].
    apply elem_of_list_to_set, list_elem_of_fmap in Hin as (n & -> & _). lia.
  - intros f k. apply open_opens.
  - intros fd k. apply open_opens.
  - intros fd k. cbn. unfold fds. cbn [next_fd closed_fds]. apply set_eq. intros x.
    rewrite !elem_of_difference, elem_of_union. tauto.
  - intros fd a k. cbn. by case_decide.
  - intros fd v k _. cbn. destruct (Z.land v 2048 =? 0)%Z; cbn.
    + apply bool_decide_eq_false. intros [_ Hn]%elem_of_difference. by apply Hn, elem_of_singleton.
    + by apply bool_decide_eq_true, elem_of_union_l, elem_of_singleton.
  - intros fd a k. cbn. by case_decide.
  - intros fd a k. cbn. case_decide; [done|]. intros _. cbn. by rewrite !lookup_insert_eq.
  - intros fd a k _. cbn. case_decide; cbn; by rewrite lookup_insert_eq.
  - intros fd a k Hnb. cbn in *. apply bool_decide_eq_false in Hnb. by rewrite decide_False.
  - intros fd a k Hb _ _ _. cbn in *. rewrite Hb. by rewrite lookup_insert_eq.
  - intros n k _. by exists 2130706433%Z.
  - intros n k _. by exists 0%Z.
Qed.
End Loopback.

(** ** What is shown *)

Section theorems.
Context {K : Type} `{OsLaws K}.

(** C33: A socket opens and closes no descriptor but its own: after any operations on
    it, in any order, returning or throwing, the descriptors of the process are the
    ones it had, the accepted connections, all different and all new, and at most
    the socket's own, which closing the socket gives back. *)
Theorem socket_descriptors ops (s s' : tcp_socket * K) clients :
  owned s -> performs ops s = Some (clients, s') ->
  owned s' /\ NoDup (map m_fd clients) /\ Forall (fun c => m_fd c ∉ others s) clients /\
  others s' = list_to_set (map m_fd clients) ∪ others s /\
  os_fds (close s').2.2 = list_to_set (map m_fd clients) ∪ others s.
Proof.
  intros Ho Hp. destruct (performs_ends ops s clients s' Ho Hp) as (Ho' & Hnd & Hnew & He).
  split_and!; [done..|]. rewrite <- He. destruct (keeps_close s' Ho') as [_ Hc].
  rewrite <- Hc. symmetry. apply others_invalid. destruct s' as [s1 k1].
  by destruct (close_eq s1 k1) as [k2 ->].
Qed.

(** C32: Connecting a socket, on every outcome.  When [connect] returns, the socket's
    descriptor is open, blocking again, and connected to an address of the host and
    port that were asked for (one they resolve to, or the Unix path), whether the
    connection was made at once or within the time limit.  When it throws, the socket is closed,
    except that a host that does not resolve leaves the new descriptor open, and a
    listening socket is left alone but for its address.  It is undefined only with
    a time limit, on a descriptor that does not fit a set of [select].  Nothing
    else is opened or closed. *)
Theorem connect_outcomes host port ms (s s' : tcp_socket * K) r :
  owned s -> connect host port ms s = (r, s') ->
  connect_result host port ms s.1 r s' /\ owned s' /\ others s' = others s /\
  (r = Ret tt -> connected_to host port s').
Proof.
  intros Ho Hc. pose proof (connect_ends host port ms s.1 s.2) as He.
  replace (s.1, s.2) with s in He by (by destruct s). unfold ends in He. rewrite Hc in He. cbn [fst snd] in He.
  pose proof (keeps_connect host port ms s) as Hk. unfold ends in Hk. rewrite Hc in Hk.
  destruct (Hk Ho) as [Ho' Hr]. split_and!; [done..|]. intros ->.
  destruct He as (Hh & Hp & Ht & Hfd & Hn & He). unfold connected_to. split_and!; try done.
  by destruct Ho'.
Qed.

(** A client that fails to connect has no descriptor: whatever its socket throws,
    the client closes it and throws the same, and the descriptors of the process
    are those of the others. *)
Theorem failed_client_connect_closes host port ms (s s' : tcp_socket * K) e :
  owned s -> client_connect host port ms s = (Throw e, s') ->
  closed s'.1 /\ os_fds s'.2 = others s /\ exists s1, connect host port ms s = (Throw e, s1).
Proof.
  intros Ho. unfold client_connect, mcatch. destruct (connect host port ms s) as [[u|e'| |] s1] eqn:Ec; [done| |done..].
  pose proof (keeps_connect host port ms s) as Hk. unfold ends in Hk. rewrite Ec in Hk.
  destruct (Hk Ho) as [Ho1 H1]. cbn [snd] in *. destruct (keeps_close s1 Ho1) as [_ H2].
  destruct s1 as [x k]. destruct (close_eq x k) as [k' Hcl].
  rewrite (mbind_Ret _ _ _ _ _ Hcl), Hcl in *. cbn [snd] in H2. rewrite H1 in H2.
  intros [= -> <-]. cbn. split; [done|]. split; [|by eexists]. rewrite <- H2. symmetry. by apply others_invalid.
Qed.

(** C37: The address a socket connects to or is bound to is cut to what the system's
    structures hold: of the port, a 32-bit integer, the low 16 bits, although only
    the whole port decides whether the socket is a Unix one; of a Unix path, all the
    bytes before the first zero up to 107 of them, and none after: the path has no zero,
    and is the whole host, or what comes before a zero of it, or 107 bytes of it. *)
Theorem addresses_are_cut hints host port s k a s' :
  m_port s = port -> fill_address (K:=K) hints host port (s, k) = (Ret a, s') ->
  match a with
  | sockaddr_un path =>
      port = 0%Z /\ cut_path host path
  | sockaddr_in _ p | sockaddr_in6 _ _ p => port <> 0%Z /\ ntohs p = (port mod 65536)%Z
  end.
Proof.
  intros Hp Hf. pose proof (fill_address_eq hints host port s k a s' Hp Hf) as Ha.
  destruct a as [path|addr p|addr flow p].
  - destruct Ha as [? ->]. split; [done|apply unix_path_cut].
  - destruct Ha as [? ->]. by rewrite ntohs_htons.
  - destruct Ha as [? ->]. by rewrite ntohs_htons.
Qed.

(** A server asked for a host that resolves to an IPv6 address first is not bound
    to it: [bind] reads the answer as an IPv4 address, which gives it the bytes of
    its flow information, as a rule zero, the address of all interfaces. *)
Theorem bind_misreads_ipv6 host port s k k' addr flowinfo p :
  port <> 0%Z -> contains ":" host = false ->
  m_fd s <> INVALID_FD -> usable SERVER s = true ->
  os_getaddrinfo no_hints (c_str host) k = ((0%Z, sockaddr_in6 addr flowinfo p), k') ->
  let s' := mk (m_fd s) host port SERVER in
  bind host port (s, k) =
  (if ((os_bind (m_fd s) (sockaddr_in flowinfo (htons port)) k').1 =? -1)%Z
   then Throw (std_exception "bind() failure") else Ret tt,
   (s', (os_bind (m_fd s) (sockaddr_in flowinfo (htons port)) k').2)).
Proof.
  intros Hport Hc Hfd Hu Ha s'. unfold bind. rewrite (mbind_Ret _ _ _ tt (set_address host port s, k)) by done.
  assert (create_socket_if_necessary (set_address host port s, k) = (Ret tt, (set_address host port s, k))) as Hcr.
  { rewrite create_eq. cbn. by destruct (Z.eqb_spec (m_fd s) INVALID_FD). }
  rewrite (mbind_Ret _ _ _ _ _ Hcr).
  assert (check_or_set_type SERVER (set_address host port s, k) = (Ret tt, (s', k))) as Hch.
  { rewrite check_eq. change (usable SERVER (set_address host port s)) with (usable SERVER s). by rewrite Hu. }
  rewrite (mbind_Ret _ _ _ _ _ Hch).
  assert (fill_address no_hints host port (s', k) = (Ret (sockaddr_in flowinfo (htons port)), (s', k'))) as Hf.
  { unfold fill_address. rewrite (mbind_Ret _ _ _ _ _ (this_eq s' k)). unfold is_ipv6. cbn [m_port m_host s'].
    destruct (Z.eqb_spec port 0); [done|]. rewrite Hc, (mbind_Ret _ _ _ _ _ (sys_eq _ s' k)), Ha. done. }
  rewrite (mbind_Ret _ _ _ _ _ Hf), (mbind_Ret _ _ _ _ _ (this_eq s' k')), (mbind_Ret _ _ _ _ _ (sys_eq _ s' k')).
  change (m_fd s') with (m_fd s). by destruct (_ =? -1)%Z.
Qed.

(** A Unix socket that accepts reads bytes nobody wrote: the peer has no address. *)
Theorem accept_unix_undefined s k client k' :
  m_fd s <> INVALID_FD -> usable SERVER s = true ->
  os_accept (m_fd s) k = ((client, peer_un), k') -> client <> INVALID_FD ->
  accept (s, k) = (Undef, (set_type SERVER s, k')).
Proof.
  intros Hfd Hu Ha Hc. unfold accept.
  assert (create_socket_if_necessary (s, k) = (Ret tt, (s, k))) as Hcr.
  { rewrite create_eq. by destruct (Z.eqb_spec (m_fd s) INVALID_FD). }
  rewrite (mbind_Ret _ _ _ _ _ Hcr).
  assert (check_or_set_type SERVER (s, k) = (Ret tt, (set_type SERVER s, k))) as Hch by by rewrite check_eq, Hu.
  rewrite (mbind_Ret _ _ _ _ _ Hch), (mbind_Ret _ _ _ _ _ (this_eq _ k)), (mbind_Ret _ _ _ _ _ (sys_eq _ _ k)).
  cbn [m_fd set_type]. rewrite Ha. cbn [fst snd]. by destruct (Z.eqb_spec client INVALID_FD).
Qed.
End theorems.

(** ** Witnesses: the loopback system *)

Import Loopback.

(** A server that accepts two connections; [recv] on it throws. *)
Definition server_run : list operation :=
  [Bind "0.0.0.0" 6379; Listen 128; Accept; Recv 10; Accept].

Lemma socket_descriptors_witness :
  map m_fd (from_option fst [] (performs server_run (new, boot))) = [4; 5]%Z /\
  exists s', performs server_run (new, boot) <> None /\
    os_fds (close s').2.2 = list_to_set [4; 5]%Z ∪ others (new, boot).
Proof.
  split; [vm_compute; reflexivity|].
  destruct (performs server_run (new, boot)) as [[clients s']|] eqn:E; [|vm_compute in E; discriminate].
  exists s'. split; [discriminate|].
  assert (map m_fd clients = [4; 5]%Z) as <-.
  { change clients with (from_option fst [] (Some (clients, s'))). rewrite <- E. vm_compute. reflexivity. }
  apply (socket_descriptors server_run (new, boot) s' clients); [by left|exact E].
Defined.

(** A connection within a time limit. *)
Lemma connect_outcomes_witness :
  (connect "localhost" 6379 500 (new, boot)).1 = Ret tt /\
  connected_to "localhost" 6379 (connect "localhost" 6379 500 (new, boot)).2.
Proof.
  assert ((connect "localhost" 6379 500 (new, boot)).1 = Ret tt) as Hr by (vm_compute; reflexivity).
  split; [exact Hr|].
  eapply (connect_outcomes "localhost" 6379 500 (new, boot)); [by left|apply surjective_pairing|exact Hr].
Defined.

(** A client on a socket that was made a server's. *)
Definition bound : tcp_socket * kernel := (bind "0.0.0.0" 6379 (new, boot)).2.

Lemma failed_client_connect_closes_witness :
  fst bound = tcp_socket.mk 3 "0.0.0.0" 6379 SERVER /\
  exists e, (client_connect "localhost" 6379 500 bound).1 = Throw e /\
    os_fds (client_connect "localhost" 6379 500 bound).2.2 = others bound.
Proof.
  split; [vm_compute; reflexivity|].
  exists (std_exception "trying to perform invalid operation on socket"). split; [vm_compute; reflexivity|].
  eapply (failed_client_connect_closes "localhost" 6379 500 bound).
  - right. vm_compute. reflexivity.
  - vm_compute. reflexivity.
Defined.

(** A host with a zero in it, for a Unix socket; a port above 65535. *)
Definition zero_host : string := "/tmp/r" +:+ String "000" "x".

Lemma addresses_are_cut_witness :
  cut_path zero_host "/tmp/r" /\ ntohs (htons 71915) = (71915 mod 65536)%Z.
Proof.
  split.
  - apply (addresses_are_cut hints_inet zero_host 0 (tcp_socket.mk 3 zero_host 0 CLIENT) boot
      (sockaddr_un "/tmp/r") (tcp_socket.mk 3 zero_host 0 CLIENT, boot)); [reflexivity|vm_compute; reflexivity].
  - apply (addresses_are_cut hints_inet "localhost" 71915 (tcp_socket.mk 3 "localhost" 71915 CLIENT) boot
           (sockaddr_in 2130706433 (htons 71915)) (tcp_socket.mk 3 "localhost" 71915 CLIENT, boot));
    [reflexivity|vm_compute; reflexivity].
Defined.

(** A server asked for [localhost] listens on every interface. *)
Lemma bind_misreads_ipv6_witness :
  (bind "localhost" 6379 (tcp_socket.mk 3 "" 0 UNKNOWN, boot)).1 = Ret tt /\
  bind "localhost" 6379 (tcp_socket.mk 3 "" 0 UNKNOWN, boot) =
  (if ((os_bind 3 (sockaddr_in 0 (htons 6379)) boot).1 =? -1)%Z
   then Throw (std_exception "bind() failure") else Ret tt,
   (tcp_socket.mk 3 "localhost" 6379 SERVER, (os_bind 3 (sockaddr_in 0 (htons 6379)) boot).2)).
Proof.
  split; [vm_compute; reflexivity|].
  apply (bind_misreads_ipv6 "localhost" 6379 (tcp_socket.mk 3 "" 0 UNKNOWN) boot boot 1 0 0);
    [discriminate|reflexivity|discriminate|reflexivity|reflexivity].
Defined.
