(* ===== verification/TcpServer.v ===== *)
(** [tacopie::tcp_server] (tacopie/sources/network/tcp_server.cpp) over its socket
    ([Socket]): the clients it accepts, which it keeps or leaves to the callback it
    was started with, until they are lost or the server stops.

    Clients are objects shared by pointers, here numbers; the sockets of the
    io_service are the set [tracked], and [accepting] those with the server's read
    callback.  The callback for new connections answers with a boolean, which the
    label of a connection gives; [tcp_client]'s operations on a connection that the
    server uses are those of its source. *)

From S2P Require Import Prelude Text Hoare Socket.

Import tcp_socket.

Record client : Type := mk_client {
  c_socket : tcp_socket;
  c_connected : bool;
  c_handler : bool }.         (** the server's disconnection handler *)

Record tcp_server : Type := mk_server {
  m_socket : tcp_socket;
  m_is_running : bool;
  m_clients : list nat;
  objects : gmap nat client;
  tracked : gset Z;
  accepting : gset Z }.

Definition CONNECTION_QUEUE_SIZE : Z := 1024.

(** [tcp_server::tcp_server(void)], on an io_service that tracks [tracked] *)
Definition new_server (tracked : gset Z) : tcp_server := mk_server new false [] ∅ tracked ∅.

Definition set_socket (x : tcp_socket) (s : tcp_server) : tcp_server :=
  mk_server x (m_is_running s) (m_clients s) (objects s) (tracked s) (accepting s).
Definition set_running (b : bool) (s : tcp_server) : tcp_server :=
  mk_server (m_socket s) b (m_clients s) (objects s) (tracked s) (accepting s).
Definition set_clients (l : list nat) (s : tcp_server) : tcp_server :=
  mk_server (m_socket s) (m_is_running s) l (objects s) (tracked s) (accepting s).
Definition set_object (id : nat) (c : client) (s : tcp_server) : tcp_server :=
  mk_server (m_socket s) (m_is_running s) (m_clients s) (<[id := c]> (objects s)) (tracked s) (accepting s).
Definition track (fd : Z) (s : tcp_server) : tcp_server :=
  mk_server (m_socket s) (m_is_running s) (m_clients s) (objects s) ({[fd]} ∪ tracked s) (accepting s).
Definition set_rd_callback (fd : Z) (s : tcp_server) : tcp_server :=
  mk_server (m_socket s) (m_is_running s) (m_clients s) (objects s) ({[fd]} ∪ tracked s) ({[fd]} ∪ accepting s).
Definition untrack (fd : Z) (s : tcp_server) : tcp_server :=
  mk_server (m_socket s) (m_is_running s) (m_clients s) (objects s) (tracked s ∖ {[fd]}) (accepting s ∖ {[fd]}).

Section server.
Context {K : Type} `{Os K}.

Abbreviation state := (tcp_server * K)%type.

(** An operation of the server's socket. *)
Definition on_socket {A} (m : M_socket (K:=K) A) : M state A := fun s =>
  let '(r, (x, k)) := m (m_socket s.1, s.2) in (r, (set_socket x s.1, k)).
Definition modify (f : tcp_server -> tcp_server) : M state unit := mmodify (fun s => (f s.1, s.2)).
Definition this : M state tcp_server := s ← mget; mret s.1.

Definition is_running (s : tcp_server) : bool := m_is_running s.

(** ** start *)

Definition start (host : string) (port : Z) : M state unit :=
  s ← this;
  if is_running s then mthrow (std_exception "tcp_server is already running")
  else
    _ ← on_socket (bind host port);
    _ ← on_socket (listen CONNECTION_QUEUE_SIZE);
    s ← this;
    _ ← modify (track (m_fd (m_socket s)));
    _ ← modify (set_rd_callback (m_fd (m_socket s)));
    modify (set_running true).

(** ** A client *)

(** [client->disconnect(...)]: the wait for the removal ends when the io_service has
    nothing to run for the socket. *)
Definition disconnect (id : nat) : M state unit := fun s =>
  match objects s.1 !! id with
  | Some c =>
    if c_connected c then
      let '(r, (x, k)) := close (c_socket c, s.2) in
      (r, (set_object id (mk_client x false (c_handler c)) (untrack (m_fd (c_socket c)) s.1), k))
    else (Ret tt, s)
  | None => (Ret tt, s)
  end.

(** [for (auto& client : m_clients) client->disconnect(...)] *)
Fixpoint disconnect_all (ids : list nat) : M state unit :=
  match ids with
  | [] => mret tt
  | id :: ids => _ ← disconnect id; disconnect_all ids
  end.

(** ** stop *)

Definition stop : M state unit :=
  s ← this;
  if negb (is_running s) then mret tt
  else
    _ ← modify (set_running false);
    _ ← modify (untrack (m_fd (m_socket s)));
    _ ← on_socket close;
    s ← this;
    _ ← disconnect_all (m_clients s);
    modify (set_clients []).

(** ** The callbacks *)

(** [on_read_available]: the new client is the object [id]; [handled] is what the
    callback for new connections returns, false without one. *)
Definition new_client (id : nat) (c : tcp_socket) : M state unit :=
  _ ← modify (set_object id (mk_client c true false));
  modify (track (m_fd c)).
Definition keep_client (id : nat) (c : tcp_socket) : M state unit :=
  _ ← modify (set_object id (mk_client c true true));
  modify (fun s => set_clients (m_clients s ++ [id]) s).

Definition on_read_available (id : nat) (handled : bool) : M state unit :=
  mcatch
    (c ← on_socket accept;
     _ ← new_client id c;
     if handled then mret tt else keep_client id c)
    (fun _ => stop).

(** [on_read_available] of an accepted connection, with a [stop] of another thread
    before the [push_back], which takes no mutex *)
Definition accept_during_stop (id : nat) : M state unit :=
  c ← on_socket accept;
  _ ← new_client id c;
  _ ← stop;
  keep_client id c.

(** [std::find] and [erase]: the first one *)
Fixpoint erase (id : nat) (l : list nat) : list nat :=
  match l with
  | [] => []
  | x :: l => if Nat.eqb x id then l else x :: erase id l
  end.

Definition on_client_disconnected (id : nat) : M state unit :=
  s ← this;
  if negb (is_running s) then mret tt else modify (fun s => set_clients (erase id (m_clients s)) s).

(** A client whose operation failed: it disconnects, and calls its handler. *)
Definition client_lost (id : nat) : M state unit :=
  _ ← disconnect id;
  s ← this;
  match objects s !! id with
  | Some c => if c_handler c then on_client_disconnected id else mret tt
  | None => mret tt
  end.

(** ** Events *)

Inductive event : Type :=
| Start (host : string) (port : Z)
| Stop
| Connection (id : nat) (handled : bool)
| Lost (id : nat).

(** A connection comes only to a server that accepts, and is a new object. *)
Definition enabled (e : event) (s : tcp_server) : bool :=
  match e with
  | Connection id _ => bool_decide (m_fd (m_socket s) ∈ accepting s) && bool_decide (objects s !! id = None)
  | Lost id => match objects s !! id with Some c => c_connected c | None => false end
  | _ => true
  end.

Definition handle (e : event) : M state unit :=
  match e with
  | Start host port => start host port
  | Stop => stop
  | Connection id handled => on_read_available id handled
  | Lost id => client_lost id
  end.

(** The events one after the other, with what their caller sees. *)
Fixpoint handles (es : list event) (s : state) : option (list (outcome unit) * state) :=
  match es with
  | [] => Some ([], s)
  | e :: es =>
    if enabled e s.1 then
      let '(r, s) := handle e s in
      match r with
      | Undef | Timeout => None
      | _ => (fun x : list (outcome unit) * state => (r :: x.1, x.2)) <$> handles es s
      end
    else None
  end.
End server.
