(* ===== verification/TcpServerFacts.v ===== *)
(** The properties of [tcp_server]: the clients it keeps are those of a simple
    specification, and the descriptors and tracked sockets are accounted for. *)

From S2P Require Import Prelude Text Hoare Socket SocketFacts TcpServer.

Import tcp_socket.

(** ** What the operations do to the server's own descriptor *)

Section own_descriptor.
Context {K : Type} `{OsLaws K}.

(** An open descriptor stays the socket's. *)
Definition same_fd (s s' : tcp_socket * K) : Prop :=
  m_fd s.1 <> INVALID_FD -> m_fd s'.1 = m_fd s.1.

#[export] Instance same_fd_preorder : PreOrder same_fd.
Proof.
  split; [by intros s|]. intros s1 s2 s3 H12 H23 Hfd. rewrite H23 by (by rewrite H12). by apply H12.
Qed.

Lemma same_fd_sys {A} (call : K -> A * K) : keeps same_fd (sys call).
Proof. intros [s k] _. by rewrite sys_eq. Qed.
Lemma same_fd_create : keeps same_fd create_socket_if_necessary.
Proof. intros [s k] Hfd. rewrite create_eq. cbn in Hfd. by destruct (Z.eqb_spec (m_fd s) INVALID_FD). Qed.
Lemma same_fd_check t : keeps same_fd (check_or_set_type t).
Proof. intros [s k] _. rewrite check_eq. by destruct (usable t s). Qed.
Lemma same_fd_this : keeps same_fd this.
Proof. by intros s _. Qed.
Lemma same_fd_throw {A} what : keeps same_fd (throw what : M_socket A).
Proof. by intros s _. Qed.

#[local] Hint Resolve same_fd_sys same_fd_create same_fd_check same_fd_this same_fd_throw : keeps.
#[local] Hint Extern 0 (PreOrder same_fd) => apply same_fd_preorder : keeps.

Lemma same_fd_accept : keeps same_fd accept.
Proof. keeps. Qed.

(** A socket that listens has a descriptor. *)
Lemma listen_fd n s : ends (listen n) s (fun r s' => r = Ret tt -> m_fd s'.1 <> INVALID_FD).
Proof.
  destruct s as [s k]. unfold listen.
  assert (forall s1, m_fd s1.1 <> INVALID_FD ->
    ends (_ ← check_or_set_type SERVER; s ← this; r ← sys (os_listen (m_fd s) n);
          if (r =? -1)%Z then throw "listen() failure" else mret tt) s1
      (fun r s' => r = Ret tt -> m_fd s'.1 <> INVALID_FD)) as Hrest.
  { intros s1 Hfd. match goal with |- ends ?m _ _ => assert (keeps same_fd m) as Hk by keeps end.
    eapply ends_weaken; [apply Hk|]. intros r s' Hs _. by rewrite Hs. }
  pose proof (create_eq s k) as Hc. destruct (Z.eqb_spec (m_fd s) INVALID_FD) as [E|E].
  - destruct (os_socket (family_of s) k) as [fd k']. destruct (Z.eqb_spec fd INVALID_FD) as [Ef|Ef].
    + eapply ends_fail; [exact Hc|done].
    + eapply ends_step; [exact Hc|]. by apply Hrest.
  - eapply ends_step; [exact Hc|]. by apply Hrest.
Qed.

Lemma close_open x k : m_fd x <> INVALID_FD ->
  close (x, k) = (Ret tt, (set_type UNKNOWN (set_fd INVALID_FD x), os_close (m_fd x) k)).
Proof.
  intros Hfd. unfold close. rewrite (mbind_Ret _ _ _ _ _ (this_eq x k)).
  destruct (Z.eqb_spec (m_fd x) INVALID_FD); [done|]. by rewrite (mbind_Ret _ _ _ _ _ (sys_eq _ x k)).
Qed.
End own_descriptor.

(** ** The invariant *)

Section facts.
Context {K : Type} `{OsLaws K}.

Abbreviation state := (tcp_server * K)%type.

(** The socket of the server with the system. *)
Definition own (s : state) : tcp_socket * K := (m_socket s.1, s.2).

(** A descriptor of a client that is connected. *)
Definition client_fd (s : tcp_server) (fd : Z) : Prop :=
  exists id c, objects s !! id = Some c /\ c_connected c = true /\ m_fd (c_socket c) = fd.

(** The server started on a system with the descriptors [base], and an io_service
    that tracked some of them, [others_tracked]. *)
Context (base others_tracked : gset Z).

Record accounted (s : state) : Prop := {
  acc_owned : owned (own s);
  acc_fds : forall fd, fd ∈ others (own s) <-> fd ∈ base \/ client_fd s.1 fd;
  acc_new : forall fd, client_fd s.1 fd -> fd ∉ base;
  acc_distinct : forall i j ci cj, objects s.1 !! i = Some ci -> objects s.1 !! j = Some cj ->
    c_connected ci = true -> c_connected cj = true -> m_fd (c_socket ci) = m_fd (c_socket cj) -> i = j;
  acc_tracked : forall fd, fd ∈ tracked s.1 <->
    fd ∈ others_tracked \/ (m_is_running s.1 = true /\ fd = m_fd (m_socket s.1)) \/ client_fd s.1 fd }.

Record ok (s : state) : Prop := {
  ok_accounted : accounted s;
  ok_running : m_is_running s.1 = true -> m_fd (m_socket s.1) <> INVALID_FD;
  ok_accepting : accepting s.1 = if m_is_running s.1 then {[m_fd (m_socket s.1)]} else ∅;
  ok_stopped : m_is_running s.1 = false -> m_clients s.1 = [];
  ok_nodup : NoDup (m_clients s.1);
  ok_clients : forall id, id ∈ m_clients s.1 <->
    exists c, objects s.1 !! id = Some c /\ c_connected c = true /\ c_handler c = true }.

Hypothesis others_base : others_tracked ⊆ base.

Lemma own_not_base s : accounted s -> m_fd (m_socket s.1) ∉ base.
Proof.
  intros Hok Hin. assert (m_fd (m_socket s.1) ∈ others (own s)) as [_ Hn]%elem_of_others by (apply acc_fds; [done|by left]).
  done.
Qed.

Lemma own_not_client s : accounted s -> ~ client_fd s.1 (m_fd (m_socket s.1)).
Proof.
  intros Hok Hc. assert (m_fd (m_socket s.1) ∈ others (own s)) as [_ Hn]%elem_of_others by (apply acc_fds; [done|by right]).
  done.
Qed.

Lemma client_fd_valid s fd : accounted s -> client_fd s.1 fd -> fd <> INVALID_FD.
Proof.
  intros Hok Hc ->. assert (INVALID_FD ∈ others (own s)) as [Hin _]%elem_of_others by (apply acc_fds; [done|by right]).
  by apply invalid_not_open in Hin.
Qed.

(** The server's socket has changed while it was not running. *)
Lemma accounted_socket s x k :
  accounted s -> m_is_running s.1 = false -> owned (x, k) -> others (x, k) = others (own s) ->
  accounted (set_socket x s.1, k).
Proof.
  intros Hok Hr Ho He. split; try apply Hok.
  - exact Ho.
  - intros fd. change (fd ∈ others (x, k) <-> fd ∈ base \/ client_fd s.1 fd). rewrite He. apply Hok.
  - intros fd. cbn. rewrite (acc_tracked s Hok), Hr. split; intros [?|[[? _]|?]]; auto; done.
Qed.

Lemma ok_socket s x k :
  ok s -> m_is_running s.1 = false -> owned (x, k) -> others (x, k) = others (own s) ->
  ok (set_socket x s.1, k).
Proof.
  intros Hok Hr Ho He. split; try apply Hok.
  - apply accounted_socket; try done. apply Hok.
  - cbn. by rewrite Hr.
  - cbn. by rewrite (ok_accepting s Hok), Hr.
Qed.

(** The operations of the server's socket leave the other descriptors alone. *)
Lemma on_socket_eq {A} (m : M_socket (K:=K) A) s :
  on_socket m s = ((m (own s)).1, (set_socket (m (own s)).2.1 s.1, (m (own s)).2.2)).
Proof. unfold on_socket. fold (own s). by destruct (m (own s)) as [r [x k]]. Qed.

Lemma ok_on_socket {A} (m : M_socket (K:=K) A) s :
  keeps own_only m -> ok s -> m_is_running s.1 = false -> ends (on_socket m) s (fun _ s' => ok s' /\ m_is_running s'.1 = false).
Proof.
  intros Hm Hok Hr. unfold ends. rewrite on_socket_eq. specialize (Hm (own s)). unfold ends in Hm.
  destruct (m (own s)) as [r [x k]]. cbn [fst snd] in *. destruct (Hm (acc_owned s (ok_accounted s Hok))) as [Ho He].
  split; [by apply ok_socket|done].
Qed.

(** ** start *)

Lemma ok_started s :
  ok s -> m_is_running s.1 = false -> m_fd (m_socket s.1) <> INVALID_FD ->
  ok (set_running true (set_rd_callback (m_fd (m_socket s.1)) (track (m_fd (m_socket s.1)) s.1)), s.2).
Proof.
  intros Hok Hr Hfd. split; try apply Hok; try done.
  - split; try apply Hok. intros fd. cbn.
    rewrite !elem_of_union, elem_of_singleton, (acc_tracked s (ok_accounted s Hok)), Hr.
    split; [intros [->|[->|[?|[[? _]|?]]]]; auto; done|intros [?|[[_ ->]|?]]; auto].
  - cbn. rewrite (ok_accepting s Hok), Hr. by rewrite (right_id_L ∅ (∪)).
Qed.

Definition spec_state : Type := option (list nat).
Definition abstract (s : tcp_server) : spec_state := if m_is_running s then Some (m_clients s) else None.

(** What the server promises: the clients it keeps while it runs. *)
Inductive spec : spec_state -> event -> spec_state -> Prop :=
| spec_start host port : spec None (Start host port) (Some [])
| spec_start_fails a host port : spec a (Start host port) a
| spec_stop a : spec a Stop None
| spec_keep l id : id ∉ l -> spec (Some l) (Connection id false) (Some (l ++ [id]))
| spec_leave l id : spec (Some l) (Connection id true) (Some l)
| spec_refuse l id handled : spec (Some l) (Connection id handled) None
| spec_lost l id : spec (Some l) (Lost id) (Some (filter (.≠ id) l))
| spec_lost_late id : spec None (Lost id) None.

Lemma start_ends host port s : ok s -> ends (start host port) s (fun r s' => ok s' /\ spec (abstract s.1) (Start host port) (abstract s'.1) /\
  (r = Ret tt -> m_is_running s'.1 = true)).
Proof.
  intros Hok. unfold start. eapply ends_step; [done|]. unfold is_running. destruct (m_is_running s.1) eqn:Hr.
  { split; [done|]. split; [apply spec_start_fails|done]. }
  assert (forall s' : state, m_is_running s'.1 = false -> spec (abstract s.1) (Start host port) (abstract s'.1)) as Hfail.
  { intros s' Hr'. unfold abstract. rewrite Hr, Hr'. apply spec_start_fails. }
  apply ends_bind. eapply ends_weaken; [apply ok_on_socket; [apply keeps_bind_to|done..]|].
  intros [[]|e| |] s1 [Hok1 Hr1]; cbn; try (split; [done|]; split; [by auto|done]).
  apply ends_bind. eapply ends_weaken; [apply ends_and; [apply (ok_on_socket (listen CONNECTION_QUEUE_SIZE)); [apply keeps_listen|done..]|]|].
  { instantiate (1 := fun r (s' : state) => r = Ret tt -> m_fd (m_socket s'.1) <> INVALID_FD). unfold ends. rewrite on_socket_eq. cbn.
    apply (listen_fd CONNECTION_QUEUE_SIZE (own s1)). }
  intros [[]|e| |] s2 [[Hok2 Hr2] Hfd]; cbn; try (split; [done|]; split; [by auto|done]).
  pose proof (ok_started s2 Hok2 Hr2 (Hfd eq_refl)) as Hok3. do 3 (eapply ends_step; [done|]). unfold ends. cbn.
  split; [exact Hok3|]. split; [|done]. unfold abstract. cbn. rewrite Hr, (ok_stopped s2 Hok2 Hr2). apply spec_start.
Qed.

(** ** disconnect *)

(** A client after [disconnect] *)
Definition closed_client (c : client) : client :=
  if c_connected c then mk_client (set_type UNKNOWN (set_fd INVALID_FD (c_socket c))) false (c_handler c) else c.

Lemma disconnect_eq id s c :
  objects s.1 !! id = Some c -> c_connected c = true -> m_fd (c_socket c) <> INVALID_FD ->
  disconnect id s =
  (Ret tt, (set_object id (closed_client c) (untrack (m_fd (c_socket c)) s.1), os_close (m_fd (c_socket c)) s.2)).
Proof. intros Hc Hcon Hfd. unfold disconnect, closed_client. by rewrite Hc, Hcon, close_open. Qed.

(** What disconnecting clients changes: they are disconnected, and nothing else. *)
Record disconnects (ids : list nat) (s s' : state) : Prop := {
  dis_accounted : accounted s';
  dis_running : m_is_running s'.1 = m_is_running s.1;
  dis_clients : m_clients s'.1 = m_clients s.1;
  dis_socket : m_socket s'.1 = m_socket s.1;
  dis_accepting : accepting s.1 ⊆ {[m_fd (m_socket s.1)]} -> accepting s'.1 = accepting s.1;
  dis_objects : forall id, objects s'.1 !! id =
    if decide (id ∈ ids) then closed_client <$> objects s.1 !! id else objects s.1 !! id }.

Lemma client_fd_closed s id c fd :
  accounted s -> objects s.1 !! id = Some c -> c_connected c = true ->
  client_fd (set_object id (closed_client c) (untrack (m_fd (c_socket c)) s.1)) fd <->
  client_fd s.1 fd /\ fd <> m_fd (c_socket c).
Proof.
  intros Hacc Hc Hcon. split.
  - intros (j & cj & Hj & Hconj & Hfd). cbn in Hj. apply lookup_insert_Some in Hj as [[<- <-]|[Hne Hj]].
    + unfold closed_client in Hconj. by rewrite Hcon in Hconj.
    + split; [by exists j, cj|]. intros ->. apply Hne. symmetry. by eapply (acc_distinct s Hacc).
  - intros [(j & cj & Hj & Hconj & <-) Hne]. exists j, cj. split; [|done]. cbn.
    rewrite lookup_insert_ne; [done|]. intros <-. congruence.
Qed.

Lemma disconnect_one id s : accounted s -> exists s', disconnect id s = (Ret tt, s') /\ disconnects [id] s s'.
Proof.
  intros Hacc. destruct (objects s.1 !! id) as [c|] eqn:Hc; [destruct (c_connected c) eqn:Hcon|].
  2,3: exists s; split; [unfold disconnect; rewrite Hc; by rewrite ?Hcon|]; split; try done;
       intros j; case_decide as Hj; [apply list_elem_of_singleton in Hj as ->; rewrite Hc|done];
       cbn; unfold closed_client; by rewrite ?Hcon.
  set (fd := m_fd (c_socket c)).
  assert (client_fd s.1 fd) as Hcf by by exists id, c.
  pose proof (client_fd_valid s fd Hacc Hcf) as Hfd. eexists. split; [by apply disconnect_eq|]. fold fd.
  assert (fd <> m_fd (m_socket s.1)) as Hown by (intros E; apply (own_not_client s Hacc); by rewrite <- E).
  set (s' := (_, _)).
  assert (forall x, x ∈ others (own s') <-> x ∈ others (own s) /\ x <> fd) as Ho.
  { intros x. rewrite !elem_of_others. change (os_fds (own s').2) with (os_fds (os_close fd s.2)).
    rewrite os_close_fds, elem_of_difference, elem_of_singleton. cbn. tauto. }
  assert (forall x, client_fd s'.1 x <-> client_fd s.1 x /\ x <> fd) as Hcl.
  { intros x. exact (client_fd_closed s id c x Hacc Hc Hcon). }
  split; try done.
  - split.
    + destruct (acc_owned s Hacc) as [?|Hin]; [by left|right]. change (os_fds (own s').2) with (os_fds (os_close fd s.2)).
      rewrite os_close_fds. apply elem_of_difference. split; [exact Hin|]. rewrite elem_of_singleton. by apply not_eq_sym.
    + intros x. rewrite Ho, (acc_fds s Hacc), Hcl.
      split; [tauto|]. intros [Hb|?]; [|tauto]. split; [by left|]. intros ->. by apply (acc_new s Hacc fd Hcf).
    + intros x Hx%Hcl. apply (acc_new s Hacc). tauto.
    + intros i j ci cj Hi Hj Hci Hcj. cbn in Hi, Hj.
      apply lookup_insert_Some in Hi as [[<- <-]|[_ Hi]]; [unfold closed_client in Hci; by rewrite Hcon in Hci|].
      apply lookup_insert_Some in Hj as [[<- <-]|[_ Hj]]; [unfold closed_client in Hcj; by rewrite Hcon in Hcj|].
      by apply (acc_distinct s Hacc).
    + intros x. rewrite Hcl. cbn [fst s' tracked set_object untrack m_is_running m_socket]. fold fd.
      rewrite elem_of_difference, elem_of_singleton, (acc_tracked s Hacc).
      split; [tauto|]. intros [Ht|[[Hr ->]|?]]; [|by split; [auto|apply not_eq_sym]|tauto].
      split; [by left|]. intros ->. by apply (acc_new s Hacc fd Hcf), others_base.
  - intros Hsub. cbn. apply difference_disjoint_L, disjoint_singleton_r. intros Hin%Hsub.
    by apply elem_of_singleton in Hin.
  - intros j. cbn. case_decide as Hj.
    + apply list_elem_of_singleton in Hj as ->. by rewrite lookup_insert_eq, Hc.
    + rewrite lookup_insert_ne; [done|]. intros ->. by apply Hj, list_elem_of_singleton.
Qed.

Lemma disconnect_all_ends ids s :
  accounted s -> exists s', disconnect_all ids s = (Ret tt, s') /\ disconnects ids s s'.
Proof.
  revert s. induction ids as [|id ids IH]; intros s Hacc; cbn [disconnect_all].
  { exists s. split; [done|]. split; try done. }
  destruct (disconnect_one id s Hacc) as (s1 & E1 & D1). rewrite (mbind_Ret _ _ _ _ _ E1).
  destruct (IH s1 (dis_accounted _ _ _ D1)) as (s2 & E2 & D2). exists s2. split; [done|].
  pose proof (dis_socket _ _ _ D1) as Hs1. pose proof (dis_objects _ _ _ D1) as Ho1.
  destruct D2 as [A2 R2 C2 S2 X2 O2]. rewrite Hs1 in X2. split; try congruence.
  - by rewrite R2, (dis_running _ _ _ D1).
  - by rewrite C2, (dis_clients _ _ _ D1).
  - intros Hsub. pose proof (dis_accepting _ _ _ D1 Hsub) as Hx. rewrite Hx in X2. by apply X2.
  - intros j. rewrite O2, Ho1. destruct (decide (j ∈ ids)) as [Hj|Hj].
    + rewrite (decide_True (P := j ∈ id :: ids)) by (by apply elem_of_cons; right).
      case_decide; [|done]. rewrite <- option_fmap_compose. destruct (objects s.1 !! j) as [c|]; [|done].
      cbn. f_equal. unfold closed_client. destruct (c_connected c) eqn:E; cbn; [done|]. by rewrite E.
    + destruct (decide (j ∈ [id])) as [Hi|Hi].
      * by rewrite decide_True by (apply list_elem_of_singleton in Hi as ->; by apply elem_of_cons; left).
      * rewrite decide_False; [done|]. intros [->|?]%elem_of_cons; [by apply Hi, list_elem_of_singleton|done].
Qed.

(** ** stop *)

Lemma accounted_stopped s :
  accounted s -> accounted (untrack (m_fd (m_socket s.1)) (set_running false s.1), s.2).
Proof.
  intros Hacc. split; try apply Hacc. intros x. cbn. rewrite elem_of_difference, elem_of_singleton, (acc_tracked s Hacc).
  change (client_fd (untrack _ _) x) with (client_fd s.1 x). split.
  - intros [[?|[[_ ?]|?]] Hne]; [by left|done|by right; right].
  - intros [Ht|[[? _]|Hc]]; [|done|].
    + split; [by left|]. intros ->. by apply (own_not_base s Hacc), others_base.
    + split; [by right; right|]. intros ->. by apply (own_not_client s Hacc).
Qed.

Lemma stop_ends s : ok s -> exists s', stop s = (Ret tt, s') /\ ok s' /\ m_is_running s'.1 = false /\ m_clients s'.1 = [] /\
  (m_is_running s.1 = true -> m_fd (m_socket s'.1) = INVALID_FD) /\
  forall id, objects s'.1 !! id = if decide (id ∈ m_clients s.1) then closed_client <$> objects s.1 !! id else objects s.1 !! id.
Proof.
  intros Hok. unfold stop. rewrite (mbind_Ret _ _ _ s.1 s) by done. unfold is_running.
  destruct (m_is_running s.1) eqn:Hr; cbn [negb].
  2:{ exists s. rewrite (ok_stopped s Hok Hr). split_and!; [done..|]. intros id. by rewrite decide_False by apply not_elem_of_nil. }
  set (s1 := (untrack (m_fd (m_socket s.1)) (set_running false s.1), s.2)).
  pose proof (accounted_stopped s (ok_accounted s Hok)) as Hacc1. fold s1 in Hacc1.
  rewrite (mbind_Ret _ _ _ tt (set_running false s.1, s.2)) by done. rewrite (mbind_Ret _ _ _ tt s1) by done.
  assert (accepting s1.1 = ∅) as Hx1.
  { subst s1. cbn. rewrite (ok_accepting s Hok), Hr. apply difference_diag_L. }
  destruct (close_eq (m_socket s1.1) s1.2) as [k2 Hcl]. change (m_socket s1.1, s1.2) with (own s1) in Hcl.
  set (x2 := set_type UNKNOWN (set_fd INVALID_FD (m_socket s1.1))) in *.
  assert (on_socket close s1 = (Ret tt, (set_socket x2 s1.1, k2))) as Hon by by rewrite on_socket_eq, Hcl.
  rewrite (mbind_Ret _ _ _ _ _ Hon). set (s2 := (set_socket x2 s1.1, k2)).
  assert (accounted s2) as Hacc2.
  { pose proof (keeps_close (own s1) (acc_owned s1 Hacc1)) as [Ho He]. rewrite Hcl in Ho, He. by apply accounted_socket. }
  rewrite (mbind_Ret _ _ _ s2.1 s2) by done.
  destruct (disconnect_all_ends (m_clients s2.1) s2 Hacc2) as (s3 & E3 & [A3 R3 C3 S3 X3 O3]).
  rewrite (mbind_Ret _ _ _ _ _ E3). eexists. split; [done|].
  assert (m_is_running s3.1 = false) as Hr3 by by rewrite R3.
  split; [|split_and!; [done..| |exact O3]; intros _; cbn; by rewrite S3].
  split; cbn [fst snd m_clients set_clients]; try done.
  - split; apply A3.
  - cbn. by rewrite Hr3.
  - cbn. rewrite Hr3. change (accepting s2.1) with (accepting s1.1) in X3. rewrite Hx1 in X3. by apply X3.
  - constructor.
  - intros id. split; [by intros ?%not_elem_of_nil|]. intros (c & Hc & Hcon & Hh). exfalso. cbn in Hc. rewrite O3 in Hc.
    change (m_clients s2.1) with (m_clients s.1) in Hc. change (objects s2.1) with (objects s.1) in Hc.
    case_decide as Hin.
    + destruct (objects s.1 !! id) as [c0|]; [|done]. cbn in Hc. injection Hc as <-. unfold closed_client in Hcon.
      destruct (c_connected c0) eqn:E; [done|congruence].
    + apply Hin, (ok_clients s Hok). by exists c.
Qed.

(** ** on_read_available *)

(** The socket has been used, and has its descriptor. *)
Lemma ok_same_fd s x k :
  ok s -> m_fd x = m_fd (m_socket s.1) -> owned (x, k) -> others (x, k) = others (own s) -> ok (set_socket x s.1, k).
Proof.
  intros Hok Hfd Ho He. pose proof (ok_accounted s Hok) as Hacc. split; try apply Hok.
  - split; try apply Hacc; [exact Ho| |].
    + intros fd. change (fd ∈ others (x, k) <-> fd ∈ base \/ client_fd s.1 fd). rewrite He. apply Hacc.
    + intros fd. cbn. rewrite Hfd. apply Hacc.
  - cbn. rewrite Hfd. apply Hok.
  - cbn. rewrite Hfd. apply Hok.
Qed.

(** A client with a descriptor of its own. *)
Lemma ok_new_client s id c handled x k :
  ok s -> objects s.1 !! id = None -> m_is_running s.1 = true -> m_fd x = m_fd (m_socket s.1) -> owned (x, k) ->
  m_fd c ∉ others (own s) -> m_fd c <> m_fd x -> others (x, k) = {[m_fd c]} ∪ others (own s) ->
  ok (if handled : bool then (track (m_fd c) (set_object id (mk_client c true false) (set_socket x s.1)), k)
      else (set_clients (m_clients s.1 ++ [id])
              (set_object id (mk_client c true true) (track (m_fd c) (set_object id (mk_client c true false) (set_socket x s.1)))), k)).
Proof.
  intros Hok Hid Hrun Hfd Ho Hnew Hne He. pose proof (ok_accounted s Hok) as Hacc.
  set (s' := if handled then _ else _).
  assert (m_socket s'.1 = x /\ m_is_running s'.1 = m_is_running s.1 /\ accepting s'.1 = accepting s.1 /\
    tracked s'.1 = {[m_fd c]} ∪ tracked s.1 /\ objects s'.1 = <[id := mk_client c true (negb handled)]> (objects s.1) /\
    m_clients s'.1 = m_clients s.1 ++ (if handled then [] else [id]) /\ s'.2 = k)
    as (Es & Er & Ea & Et & Eo & Ec & Ek).
  { subst s'. destruct handled; cbn; [by rewrite app_nil_r|]. by rewrite insert_insert_eq. }
  clearbody s'. assert (own s' = (x, k)) as Eown by (unfold own; congruence).
  assert (id ∉ m_clients s.1) as Hnot.
  { intros Hin. apply (ok_clients s Hok) in Hin as (c0 & Hc0 & _). congruence. }
  assert (forall fd, client_fd s'.1 fd <-> fd = m_fd c \/ client_fd s.1 fd) as Hcl.
  { intros fd. unfold client_fd. rewrite Eo. split.
    - intros (j & cj & [[<- <-]|[_ Hj]]%lookup_insert_Some & Hcon & <-); [by left|right; by exists j, cj].
    - intros [->|(j & cj & Hj & Hcon & <-)]; [exists id; eexists; by rewrite lookup_insert_eq|].
      exists j, cj. rewrite lookup_insert_ne; [done|]. intros <-. congruence. }
  assert ((m_fd c ∉ base) /\ ~ client_fd s.1 (m_fd c)) as [Hnb Hnc].
  { split; intros Hx; apply Hnew, (acc_fds s Hacc); auto. }
  split; [split|..]; rewrite ?Eown, ?Er, ?Ea, ?Et, ?Eo, ?Es.
  - done.
  - intros fd. rewrite He, elem_of_union, elem_of_singleton, (acc_fds s Hacc), Hcl. tauto.
  - intros fd [->|Hc]%Hcl; [done|by apply (acc_new s Hacc)].
  - intros i j ci cj Hi Hj Hci Hcj Hij.
    apply lookup_insert_Some in Hi as [[<- <-]|[_ Hi]]; apply lookup_insert_Some in Hj as [[<- <-]|[_ Hj]].
    + done.
    + exfalso. apply Hnc. by exists j, cj.
    + exfalso. apply Hnc. by exists i, ci.
    + by apply (acc_distinct s Hacc i j ci cj).
  - intros fd. rewrite elem_of_union, elem_of_singleton, (acc_tracked s Hacc), Hcl, Hfd. tauto.
  - rewrite Hfd. apply Hok.
  - rewrite Hfd. apply Hok.
  - by rewrite Hrun.
  - rewrite Ec. apply NoDup_app. split_and!; [by apply Hok| |destruct handled; [constructor|apply NoDup_singleton]].
    intros y Hy Hy2. destruct handled; [by apply not_elem_of_nil in Hy2|]. apply list_elem_of_singleton in Hy2 as ->. done.
  - intros j. rewrite Ec, elem_of_app, (ok_clients s Hok). destruct (decide (j = id)) as [->|Hj].
    + rewrite lookup_insert_eq, Hid. destruct handled; cbn.
      * split; [intros [(? & ? & _)|?%not_elem_of_nil]; done|]. by intros (? & [= <-] & _ & ?).
      * split; [intros _; by eexists|]. intros _. right. by apply list_elem_of_singleton.
    + rewrite lookup_insert_ne by done. split; [|by left]. intros [?|Hin]; [done|].
      destruct handled; [by apply not_elem_of_nil in Hin|]. by apply list_elem_of_singleton in Hin.
Qed.

Lemma enabled_connection id handled s :
  ok s -> enabled (Connection id handled) s.1 = true -> m_is_running s.1 = true /\ objects s.1 !! id = None.
Proof.
  intros Hok [Hin%bool_decide_eq_true Hid%bool_decide_eq_true]%andb_true_iff. split; [|done].
  rewrite (ok_accepting s Hok) in Hin. destruct (m_is_running s.1); [done|]. by apply not_elem_of_empty in Hin.
Qed.

(** Postconditions of an event: the invariant, and a step of the specification. *)
Definition good (e : event) (s : state) (r : outcome unit) (s' : state) : Prop :=
  match r with Undef | Timeout => True | _ => ok s' /\ spec (abstract s.1) e (abstract s'.1) end.

Lemma connection_ends id handled s :
  ok s -> enabled (Connection id handled) s.1 = true ->
  ends (on_read_available id handled) s (good (Connection id handled) s).
Proof.
  intros Hok [Hrun Hid]%enabled_connection; [|done].
  pose proof (accept_ends (own s) (acc_owned s (ok_accounted s Hok))) as Ha.
  pose proof (same_fd_accept (own s) (ok_running s Hok Hrun)) as Hsame.
  unfold ends, on_read_available, mcatch, mbind, M_bind in *. rewrite on_socket_eq.
  destruct (accept (own s)) as [[c|e| |] [x k]]; cbn [fst snd] in *; [| |done|done].
  - destruct Ha as (Ho & Hnew & Hne & _ & _ & He).
    pose proof (ok_new_client s id c handled x k Hok Hid Hrun Hsame Ho Hnew Hne He) as Hok'.
    assert (id ∉ m_clients s.1) as Hnot.
    { intros Hin. apply (ok_clients s Hok) in Hin as (c0 & Hc0 & _). congruence. }
    assert (abstract s.1 = Some (m_clients s.1)) as Habs by (unfold abstract; by rewrite Hrun).
    destruct handled; (split; [exact Hok'|]); rewrite Habs.
    + match goal with |- spec _ _ ?a => assert (a = Some (m_clients s.1)) as -> by exact Habs end. apply spec_leave.
    + match goal with |- spec _ _ ?a => assert (a = if m_is_running s.1 then Some (m_clients s.1 ++ [id]) else None) as -> by reflexivity end.
      rewrite Hrun. by apply spec_keep.
  - destruct Ha as [Ho He]. destruct (stop_ends (set_socket x s.1, k)) as (s' & -> & Hok' & Hr' & _ & _);
      [by apply ok_same_fd|]. cbn. split; [done|]. unfold abstract. rewrite Hrun, Hr'. apply spec_refuse.
Qed.

(** ** A lost client *)

Lemma erase_filter id l : NoDup l -> erase id l = filter (.≠ id) l.
Proof.
  induction 1 as [|x l Hx Hl IH]; [done|]. cbn [erase]. rewrite filter_cons. destruct (Nat.eqb_spec x id) as [->|Hne].
  - rewrite decide_False by auto. symmetry. clear -Hx. induction l as [|y l IH]; [done|].
    apply not_elem_of_cons in Hx as [? ?]. rewrite filter_cons, decide_True by auto. by rewrite IH.
  - by rewrite decide_True, IH.
Qed.

Lemma filter_absent id (l : list nat) : id ∉ l -> filter (.≠ id) l = l.
Proof.
  induction l as [|x l IH]; [done|]. intros [? ?]%not_elem_of_cons.
  rewrite filter_cons, decide_True by auto. by rewrite IH.
Qed.

Lemma lost_ends id s : ok s -> enabled (Lost id) s.1 = true -> ends (client_lost id) s (good (Lost id) s).
Proof.
  intros Hok. cbn [enabled]. destruct (objects s.1 !! id) as [c|] eqn:Hc; [|done]. intros Hcon.
  destruct (disconnect_one id s (ok_accounted s Hok)) as (s1 & E1 & [A1 R1 C1 S1 X1 O1]).
  assert (objects s1.1 !! id = Some (closed_client c)) as Hc1.
  { rewrite O1, decide_True by (by apply list_elem_of_singleton). by rewrite Hc. }
  assert (c_handler (closed_client c) = c_handler c /\ c_connected (closed_client c) = false) as [Hh1 Hcon1].
  { unfold closed_client. by rewrite Hcon. }
  assert (id ∈ m_clients s.1 <-> c_handler c = true) as Hin.
  { rewrite (ok_clients s Hok). split; [intros (c' & Hc' & _ & ?); congruence|]. intros Hh. by exists c. }
  assert (accepting s1.1 = if m_is_running s1.1 then {[m_fd (m_socket s1.1)]} else ∅) as Hx1.
  { rewrite X1, R1, S1; [apply Hok|]. rewrite (ok_accepting s Hok). destruct (m_is_running s.1); [done|apply empty_subseteq]. }
  assert (forall j, j ∈ filter (.≠ id) (m_clients s.1) <->
    exists c, objects s1.1 !! j = Some c /\ c_connected c = true /\ c_handler c = true) as Hcls.
  { intros j. rewrite list_elem_of_filter, (ok_clients s Hok), O1. destruct (decide (j ∈ [id])) as [Hj|Hj].
    - apply list_elem_of_singleton in Hj as ->. split; [tauto|]. rewrite Hc. cbn. intros (? & [= <-] & ? & _). congruence.
    - rewrite list_elem_of_singleton in Hj. tauto. }
  unfold client_lost, ends. rewrite (mbind_Ret _ _ _ _ _ E1), (mbind_Ret _ _ _ s1.1 s1) by done. rewrite Hc1, Hh1.
  destruct (c_handler c) eqn:Hh.
  - assert (m_is_running s.1 = true) as Hrun.
    { destruct (m_is_running s.1) eqn:Hr; [done|]. rewrite (ok_stopped s Hok Hr) in Hin.
      by destruct (not_elem_of_nil id (proj2 Hin eq_refl)). }
    unfold on_client_disconnected. rewrite (mbind_Ret _ _ _ s1.1 s1) by done. unfold is_running. rewrite R1, Hrun. cbn [negb].
    unfold modify, mmodify. cbn [fst snd]. rewrite C1, erase_filter by apply Hok. cbn. split.
    + split; cbn [fst snd m_clients set_clients]; [split; apply A1| |exact Hx1| | |exact Hcls].
      * cbn. rewrite S1, R1. apply Hok.
      * cbn. by rewrite R1, Hrun.
      * apply NoDup_filter, Hok.
    + unfold abstract. cbn. rewrite R1, Hrun. apply spec_lost.
  - assert (id ∉ m_clients s.1) as Hnot by (rewrite Hin; done). cbn. rewrite (filter_absent _ _ Hnot) in Hcls. split.
    + split; [done|rewrite S1, R1; apply Hok|exact Hx1|rewrite R1, C1; apply Hok|rewrite C1; apply Hok|by rewrite C1].
    + unfold abstract. rewrite R1, C1. destruct (m_is_running s.1); [|apply spec_lost_late].
      rewrite <- (filter_absent id (m_clients s.1)) at 2 by done. apply spec_lost.
Qed.

(** ** Events *)

Lemma handle_ends e s : ok s -> enabled e s.1 = true -> ends (handle e) s (good e s).
Proof.
  intros Hok He. destruct e as [host port| |id handled|id]; cbn [handle].
  - eapply ends_weaken; [apply start_ends, Hok|]. by intros [[]|ex| |] s' (Hok' & Hs & _).
  - unfold ends. destruct (stop_ends s Hok) as (s' & -> & Hok' & Hr & _). cbn. split; [done|]. unfold abstract. rewrite Hr. apply spec_stop.
  - by apply connection_ends.
  - by apply lost_ends.
Qed.

(** The specification along a sequence of events. *)
Inductive spec_run : spec_state -> list event -> spec_state -> Prop :=
| spec_run_nil a : spec_run a [] a
| spec_run_cons a b c e es : spec a e b -> spec_run b es c -> spec_run a (e :: es) c.

Lemma handles_ends es s rs s' :
  ok s -> handles es s = Some (rs, s') -> ok s' /\ spec_run (abstract s.1) es (abstract s'.1).
Proof.
  revert s rs. induction es as [|e es IH]; intros s rs Hok Hh; cbn [handles] in Hh.
  { injection Hh as _ <-. split; [done|constructor]. }
  destruct (enabled e s.1) eqn:He; [|done]. pose proof (handle_ends e s Hok He) as Hg. unfold ends in Hg.
  destruct (handle e s) as [[u|ex| |] s1]; cbn [fst snd good] in Hg; [| |done|done];
    destruct Hg as [Hok1 Hs]; destruct (handles es s1) as [[rs' s2]|] eqn:E; try done; injection Hh as _ <-;
    destruct (IH s1 rs' Hok1 E) as [Hok2 Hr]; (split; [done|]); by econstructor.
Qed.

(** A new server. *)
Lemma ok_new k : os_fds k = base -> ok (new_server others_tracked, k).
Proof.
  intros Hk.
  assert (forall fd, ~ client_fd (new_server others_tracked) fd) as Hno.
  { intros fd (id & c & Hc & _). cbn in Hc. by rewrite lookup_empty in Hc. }
  split; [split| | | | |]; try done.
  - by left.
  - intros fd. rewrite others_invalid by done. cbn. rewrite Hk. split; [by left|]. intros [?|?%Hno]; done.
  - intros fd ?%Hno. done.
  - intros fd. cbn. split; [by left|]. intros [?|[[? _]|?%Hno]]; done.
  - constructor.
  - intros id. cbn. split; [by intros ?%not_elem_of_nil|]. intros (c & Hc & _). by rewrite lookup_empty in Hc.
Qed.
End facts.
