(* ===== verification/TcpServerTheorems.v ===== *)
(** The properties of [tcp_server], with their witnesses on the loopback system. *)

From S2P Require Import Prelude Text Hoare Socket SocketFacts SocketTheorems TcpServer TcpServerFacts.

Import tcp_socket.

Section theorems.
Context {K : Type} `{OsLaws K}.

Abbreviation state := (tcp_server * K)%type.

(** C20: The server keeps its promise on its clients: whatever events come, in any
    order, failures of its socket included, the clients it has while it runs are
    the connections it accepted since it started and did not leave to its callback,
    in order and without those lost; it has none when it does not run, and every
    one it has is connected. *)
Theorem server_refines es (k : K) io rs (s : state) :
  io ⊆ os_fds k -> handles es (new_server io, k) = Some (rs, s) ->
  spec_run None es (abstract s.1) /\ (m_is_running s.1 = false -> m_clients s.1 = []) /\
  forall id, id ∈ m_clients s.1 ->
    exists c, objects s.1 !! id = Some c /\ c_connected c = true /\ c_handler c = true.
Proof.
  intros Hio Hh. destruct (handles_ends (os_fds k) io Hio es _ rs s (ok_new _ _ k eq_refl) Hh) as [Hok Hs].
  split; [exact Hs|]. split; [apply (ok_stopped _ _ s Hok)|]. intros id. apply (ok_clients _ _ s Hok).
Qed.

(** C21: The server accounts for every descriptor and tracked socket: after any events
    the open descriptors are those there were before, the server's own, and one
    for each connected client, all different; the io_service tracks what it did,
    the server while it runs, and the connected clients.  Stopping a running server
    leaves of them only the clients it had left to its callback. *)
Theorem server_accounts es (k : K) io rs (s : state) :
  io ⊆ os_fds k -> handles es (new_server io, k) = Some (rs, s) ->
  (forall fd, fd ∈ os_fds s.2 <-> fd ∈ os_fds k \/ (fd = m_fd (m_socket s.1) /\ fd <> INVALID_FD) \/ client_fd s.1 fd) /\
  (forall fd, fd ∈ tracked s.1 <-> fd ∈ io \/ (m_is_running s.1 = true /\ fd = m_fd (m_socket s.1)) \/ client_fd s.1 fd) /\
  (m_is_running s.1 = true -> exists s', stop s = (Ret tt, s') /\
     (forall fd, fd ∈ os_fds s'.2 <-> fd ∈ os_fds k \/ client_fd s'.1 fd) /\
     (forall fd, fd ∈ tracked s'.1 <-> fd ∈ io \/ client_fd s'.1 fd) /\
     (forall id c, objects s'.1 !! id = Some c -> c_connected c = true -> c_handler c = false)).
Proof.
  intros Hio Hh. destruct (handles_ends (os_fds k) io Hio es _ rs s (ok_new _ _ k eq_refl) Hh) as [Hok _].
  assert (forall s : state, ok (os_fds k) io s -> forall fd, fd ∈ os_fds s.2 <->
    fd ∈ os_fds k \/ (fd = m_fd (m_socket s.1) /\ fd <> INVALID_FD) \/ client_fd s.1 fd) as Hfds.
  { clear s Hh Hok. intros s Hok fd. pose proof (acc_fds _ _ s (ok_accounted _ _ s Hok) fd) as Hf. rewrite elem_of_others in Hf.
    cbn in Hf. pose proof (acc_owned _ _ s (ok_accounted _ _ s Hok)) as Ho. cbn in Ho.
    destruct (decide (fd = m_fd (m_socket s.1))) as [->|Hne].
    - split.
      + intros Hin. right. left. split; [done|]. intros E. rewrite E in Hin. by apply invalid_not_open in Hin.
      + intros [?|[[_ Hv]|?]]; [tauto| |tauto]. by destruct Ho.
    - split; [tauto|]. intros [?|[[? _]|?]]; tauto. }
  split; [by apply Hfds|]. split; [apply (acc_tracked _ _ s (ok_accounted _ _ s Hok))|].
  intros Hrun. destruct (stop_ends (os_fds k) io Hio s Hok) as (s' & E & Hok' & Hr' & Hcl & Hfd & _). specialize (Hfd Hrun).
  exists s'. split; [exact E|]. split; [|split].
  - intros fd. rewrite (Hfds s' Hok'), Hfd. split; [intros [?|[[? ?]|?]]; auto; done|intros [?|?]; auto].
  - intros fd. rewrite (acc_tracked _ _ s' (ok_accounted _ _ s' Hok')), Hr'. split; [intros [?|[[? _]|?]]; auto; done|intros [?|?]; auto].
  - intros id c Hc Hcon. destruct (c_handler c) eqn:Hh'; [|done].
    assert (id ∈ m_clients s'.1) as Hin by (apply (ok_clients _ _ s' Hok'); by exists c).
    rewrite Hcl in Hin. by apply not_elem_of_nil in Hin.
Qed.

(** A server whose start fails keeps a descriptor nobody closes: when [start]
    throws once it has a descriptor, [stop], and with it the destructor, does
    nothing, and the descriptor stays open. *)
Theorem failed_start_leaks host port es (k : K) io rs (s s' : state) e :
  io ⊆ os_fds k -> handles es (new_server io, k) = Some (rs, s) ->
  m_is_running s.1 = false -> start host port s = (Throw e, s') -> m_fd (m_socket s'.1) <> INVALID_FD ->
  stop s' = (Ret tt, s') /\ m_fd (m_socket s'.1) ∈ os_fds s'.2.
Proof.
  intros Hio Hh Hr Hs Hfd. destruct (handles_ends (os_fds k) io Hio es _ rs s (ok_new _ _ k eq_refl) Hh) as [Hok _].
  pose proof (start_ends (os_fds k) io host port s Hok) as He. unfold ends in He. rewrite Hs in He.
  destruct He as (Hok' & _ & _). cbn [fst snd] in *.
  assert (m_is_running s'.1 = false) as Hr'.
  { destruct (m_is_running s'.1) eqn:Hr'; [|done]. exfalso. revert Hs. unfold start.
    rewrite (mbind_Ret _ _ _ s.1 s) by done. unfold is_running. rewrite Hr.
    unfold mbind at 1, M_bind. rewrite on_socket_eq. destruct (bind host port (own s)) as [[u|e1| |] [x k1]]; cbn [fst snd]; try done;
      [|by intros [= _ <-]; cbn in Hr'; rewrite Hr in Hr'].
    unfold mbind at 1, M_bind. rewrite on_socket_eq. destruct (listen _ _) as [[u2|e1| |] [x2 k2]]; cbn [fst snd]; try done.
    intros [= _ <-]. cbn in Hr'. by rewrite Hr in Hr'. }
  split.
  - unfold stop. rewrite (mbind_Ret _ _ _ s'.1 s') by done. unfold is_running. by rewrite Hr'.
  - destruct (acc_owned _ _ s' (ok_accounted _ _ s' Hok')) as [E|Hin]; [by destruct Hfd|exact Hin].
Qed.

(** A connection can survive the server: when [stop] runs in another thread between
    an accept and its [push_back], which takes no mutex, the stopped server has the
    client in its list, connected, tracked and with the handler of the server, and
    stopping again, the destructor included, does nothing about it. *)
Theorem stop_misses_connection es (k : K) io rs (s s' : state) id :
  io ⊆ os_fds k -> handles es (new_server io, k) = Some (rs, s) -> enabled (Connection id false) s.1 = true ->
  accept_during_stop id s = (Ret tt, s') ->
  m_is_running s'.1 = false /\ m_clients s'.1 = [id] /\
  (exists c, objects s'.1 !! id = Some c /\ c_connected c = true /\ c_handler c = true) /\
  stop s' = (Ret tt, s').
Proof.
  intros Hio Hh Hen. destruct (handles_ends (os_fds k) io Hio es _ rs s (ok_new _ _ k eq_refl) Hh) as [Hok _].
  destruct (enabled_connection (os_fds k) io id false s Hok Hen) as [Hrun Hid].
  pose proof (accept_ends (own s) (acc_owned _ _ s (ok_accounted _ _ s Hok))) as Ha.
  pose proof (same_fd_accept (own s) (ok_running _ _ s Hok Hrun)) as Hsame.
  unfold accept_during_stop. unfold mbind at 1, M_bind. unfold ends in Ha, Hsame. rewrite on_socket_eq.
  destruct (accept (own s)) as [[c|e| |] [x k1]]; cbn [fst snd] in *; [|done..].
  destruct Ha as (Ho & Hnew & Hne & _ & _ & He).
  pose proof (ok_new_client _ _ s id c true x k1 Hok Hid Hrun Hsame Ho Hnew Hne He) as Hok1. cbn in Hok1.
  set (s1 := (track (m_fd c) (set_object id (mk_client c true false) (set_socket x s.1)), k1)) in *.
  rewrite (mbind_Ret _ _ _ tt s1) by done.
  destruct (stop_ends _ _ Hio s1 Hok1) as (s2 & E2 & Hok2 & Hr2 & Hcl2 & _ & _).
  rewrite (mbind_Ret _ _ _ _ _ E2). unfold keep_client. rewrite (mbind_Ret _ _ _ tt (set_object id (mk_client c true true) s2.1, s2.2)) by done.
  intros [= <-]. cbn. rewrite Hcl2. split; [done|]. split; [done|]. split.
  - eexists. by rewrite lookup_insert_eq.
  - match goal with |- stop ?s' = _ => assert (m_is_running s'.1 = false) as Hr' by exact Hr2 end.
    unfold stop. erewrite mbind_Ret by reflexivity. unfold is_running. by rewrite Hr'.
Qed.
End theorems.

(** ** Witnesses *)

Import Loopback.

(** A server with two clients, one lost, and one left to the callback. *)
Definition serving : list event :=
  [Start "0.0.0.0" 6379; Connection 1 false; Connection 2 true; Connection 3 false; Lost 1].
Definition serves : option (list (outcome unit) * (tcp_server * kernel)) := handles serving (new_server ∅, boot).
Definition served : tcp_server * kernel := from_option snd (new_server ∅, boot) serves.

Lemma server_refines_witness :
  m_clients served.1 = [3] /\ spec_run None serving (abstract served.1).
Proof.
  split; [vm_compute; reflexivity|].
  apply (server_refines serving boot ∅ (from_option fst [] serves) served); [apply empty_subseteq|vm_compute; reflexivity].
Defined.

Lemma server_accounts_witness :
  m_is_running served.1 = true /\
  (forall fd, fd ∈ os_fds served.2 <-> fd ∈ os_fds boot \/ (fd = m_fd (m_socket served.1) /\ fd <> INVALID_FD) \/ client_fd served.1 fd).
Proof.
  split; [vm_compute; reflexivity|].
  apply (server_accounts serving boot ∅ (from_option fst [] serves) served); [apply empty_subseteq|vm_compute; reflexivity].
Defined.

(** A port that is refused. *)
Definition refused : outcome unit * (tcp_server * kernel) := start "0.0.0.0" 80 (new_server ∅, boot).

Lemma failed_start_leaks_witness :
  refused.1 = Throw (std_exception "bind() failure") /\ m_fd (m_socket refused.2.1) = 3%Z /\
  stop refused.2 = (Ret tt, refused.2) /\ m_fd (m_socket refused.2.1) ∈ os_fds refused.2.2.
Proof.
  split; [vm_compute; reflexivity|]. split; [vm_compute; reflexivity|].
  apply (failed_start_leaks "0.0.0.0" 80 [] boot ∅ [] (new_server ∅, boot) refused.2 (std_exception "bind() failure"));
    [apply empty_subseteq|reflexivity|reflexivity|vm_compute; reflexivity|vm_compute; discriminate].
Defined.

Definition missed : tcp_server * kernel := (accept_during_stop 4 served).2.

Lemma stop_misses_connection_witness :
  m_clients missed.1 = [4] /\ stop missed = (Ret tt, missed).
Proof.
  split; [vm_compute; reflexivity|].
  apply (stop_misses_connection serving boot ∅ (from_option fst [] serves) served missed 4);
    [apply empty_subseteq|vm_compute; reflexivity|vm_compute; reflexivity|vm_compute; reflexivity].
Defined.
