(* ===== verification/TcpClient.v ===== *)
(** The TCP clients below a connection: the interface
    [cpp_redis::network::tcp_client_iface], its implementation by
    [tacopie::tcp_client] (cpp_redis/tacopie/sources/network/tcp_client.cpp),
    and the laws a connection relies on.

    The operating system is explicit: [os_connects] holds the results of the
    coming connection attempts and [os_sends] how many bytes the coming
    [send] calls take; a missing entry is a failure. *)

From S2P Require Import Prelude Text.

(** ** tcp_client_iface *)

Class TcpClient (T : Type) : Type := {
  tc_connect : string -> Z -> Z -> T -> outcome unit * T;
  tc_disconnect : bool -> T -> T;
  tc_is_connected : T -> bool;
  tc_async_read : Z -> T -> outcome unit * T;
  tc_async_write : string -> T -> outcome unit * T;
  tc_set_on_disconnection_handler : T -> T;
  (** observations: bytes handed over for writing so far, reads pending *)
  tc_output : T -> string;
  tc_reads : T -> nat }.

Class TcpClientLaws (T : Type) `{TcpClient T} : Prop := {
  tc_connect_ok : forall h p ms t t',
    tc_connect h p ms t = (Ret tt, t') -> tc_is_connected t' = true;
  tc_connect_fail : forall h p ms t t' e,
    tc_connect h p ms t = (Throw e, t') -> tc_is_connected t' = tc_is_connected t;
  tc_connect_outcome : forall h p ms t,
    (tc_connect h p ms t).1 = Ret tt \/ exists e, (tc_connect h p ms t).1 = Throw e;
  tc_disconnected : forall w t, tc_is_connected (tc_disconnect w t) = false;
  tc_write_connected : forall s t, tc_is_connected t = true ->
    exists t', tc_async_write s t = (Ret tt, t') /\ tc_is_connected t' = true /\
               tc_output t' = tc_output t +:+ s /\ tc_reads t' = tc_reads t;
  tc_write_disconnected : forall s t, tc_is_connected t = false ->
    exists e, tc_async_write s t = (Throw e, t);
  tc_read_connected : forall n t, tc_is_connected t = true ->
    exists t', tc_async_read n t = (Ret tt, t') /\ tc_is_connected t' = true /\
               tc_output t' = tc_output t /\ tc_reads t' = S (tc_reads t);
  tc_read_disconnected : forall n t, tc_is_connected t = false ->
    exists e, tc_async_read n t = (Throw e, t);
  tc_handler_connected : forall t,
    tc_is_connected (tc_set_on_disconnection_handler t) = tc_is_connected t;
  tc_connect_output : forall h p ms t, tc_output (tc_connect h p ms t).2 = tc_output t;
  tc_handler_output : forall t, tc_output (tc_set_on_disconnection_handler t) = tc_output t }.

(** ** tacopie::tcp_client *)

Module tacopie.
(** [rd_callback] and [wr_callback]: what the io_service was last told to
    call for the socket; [tracked]: the socket is watched by the io_service. *)
Record tcp_client : Type := mk {
  m_is_connected : bool;
  m_read_requests : list Z;
  m_write_requests : list string;
  m_disconnection_handler : bool;
  tracked : bool;
  rd_callback : bool;
  wr_callback : bool;
  sent : string;
  handed_over : string;
  os_connects : list bool;
  os_sends : list (option nat) }.

Definition init (connects : list bool) (sends : list (option nat)) : tcp_client :=
  mk false [] [] false false false false "" "" connects sends.

Definition is_connected (t : tcp_client) : bool := m_is_connected t.

(** [m_socket.connect] is the operating system's; on failure the socket is
    closed and the exception passed on. *)
Definition connect (host : string) (port timeout_msecs : Z) (t : tcp_client)
    : outcome unit * tcp_client :=
  if is_connected t then (Throw (std_exception "tcp_client is already connected"), t)
  else
    match os_connects t with
    | true :: os =>
      (Ret tt, mk true (m_read_requests t) (m_write_requests t) (m_disconnection_handler t)
                  true false false (sent t) (handed_over t) os (os_sends t))
    | os =>
      (Throw (std_exception "connect() failure"),
       mk false (m_read_requests t) (m_write_requests t) (m_disconnection_handler t)
          (tracked t) (rd_callback t) (wr_callback t) (sent t) (handed_over t)
          (tail os) (os_sends t))
    end.

Definition clear_read_requests (t : tcp_client) : tcp_client :=
  mk (m_is_connected t) [] (m_write_requests t) (m_disconnection_handler t) (tracked t)
     (rd_callback t) (wr_callback t) (sent t) (handed_over t) (os_connects t) (os_sends t).

Definition clear_write_requests (t : tcp_client) : tcp_client :=
  mk (m_is_connected t) (m_read_requests t) [] (m_disconnection_handler t) (tracked t)
     (rd_callback t) (wr_callback t) (sent t) (handed_over t) (os_connects t) (os_sends t).

Definition set_connected (b : bool) (t : tcp_client) : tcp_client :=
  mk b (m_read_requests t) (m_write_requests t) (m_disconnection_handler t) (tracked t)
     (rd_callback t) (wr_callback t) (sent t) (handed_over t) (os_connects t) (os_sends t).

(** [m_io_service->untrack], then [m_socket.close] *)
Definition untrack (t : tcp_client) : tcp_client :=
  mk (m_is_connected t) (m_read_requests t) (m_write_requests t) (m_disconnection_handler t)
     false false false (sent t) (handed_over t) (os_connects t) (os_sends t).

Definition disconnect (wait_for_removal : bool) (t : tcp_client) : tcp_client :=
  if negb (is_connected t) then t
  else untrack (clear_write_requests (clear_read_requests (set_connected false t))).

Definition async_read (size : Z) (t : tcp_client) : outcome unit * tcp_client :=
  if is_connected t then
    (Ret tt, mk true (m_read_requests t ++ [size]) (m_write_requests t)
                (m_disconnection_handler t) (tracked t) true (wr_callback t)
                (sent t) (handed_over t) (os_connects t) (os_sends t))
  else (Throw (std_exception "tcp_client is disconnected"), t).

Definition async_write (buffer : string) (t : tcp_client) : outcome unit * tcp_client :=
  if is_connected t then
    (Ret tt, mk true (m_read_requests t) (m_write_requests t ++ [buffer])
                (m_disconnection_handler t) (tracked t) (rd_callback t) true
                (sent t) (handed_over t +:+ buffer) (os_connects t) (os_sends t))
  else (Throw (std_exception "tcp_client is disconnected"), t).

Definition set_on_disconnection_handler (t : tcp_client) : tcp_client :=
  mk (m_is_connected t) (m_read_requests t) (m_write_requests t) true (tracked t)
     (rd_callback t) (wr_callback t) (sent t) (handed_over t) (os_connects t) (os_sends t).

(** [m_socket.send] takes [min k size] bytes; the request is popped whatever
    that number is.  The first component is [result.success]: without a
    request it stays indeterminate, [None]. *)
Definition process_write (t : tcp_client) : option bool * tcp_client :=
  match m_write_requests t with
  | [] => (None, t)
  | buffer :: requests =>
    let taken := match os_sends t with Some k :: _ => Some (min k (String.length buffer)) | _ => None end in
    (Some (match taken with Some _ => true | None => false end),
     mk (m_is_connected t) (m_read_requests t) requests (m_disconnection_handler t) (tracked t)
        (rd_callback t) (match requests with [] => false | _ => wr_callback t end)
        (sent t +:+ match taken with Some k => s_take k buffer | None => "" end)
        (handed_over t) (os_connects t) (tail (os_sends t)))
  end.

(** The result tells whether the disconnection handler runs. *)
Definition on_write_available (t : tcp_client) : outcome bool * tcp_client :=
  match process_write t with
  | (Some true, t') => (Ret false, t')
  | (Some false, t') => (Ret (m_disconnection_handler t'), disconnect false t')
  | (None, t') => (Undef, t')
  end.

(** What [process_read] gives the callback of the request it pops: the data
    [m_socket.recv] returned, or a failure.  Without a request the flag
    [result.success] stays indeterminate. *)
Definition process_read (recv : option string) (t : tcp_client)
    : option (bool * string) * tcp_client :=
  match m_read_requests t with
  | [] => (None, t)
  | _ :: requests =>
    (Some (match recv with Some data => (true, data) | None => (false, "") end),
     mk (m_is_connected t) requests (m_write_requests t) (m_disconnection_handler t) (tracked t)
        (match requests with [] => false | _ => rd_callback t end) (wr_callback t)
        (sent t) (handed_over t) (os_connects t) (os_sends t))
  end.

(** The callback's argument, and whether the disconnection handler runs after
    the callback. *)
Definition on_read_available (recv : option string) (t : tcp_client)
    : outcome (bool * string * bool) * tcp_client :=
  match process_read recv t with
  | (Some (true, data), t') => (Ret (true, data, false), t')
  | (Some (false, data), t') => (Ret (false, data, m_disconnection_handler t'), disconnect false t')
  | (None, t') => (Undef, t')
  end.
End tacopie.

#[export] Instance tacopie_tcp_client : TcpClient tacopie.tcp_client := {|
  tc_connect := tacopie.connect;
  tc_disconnect := tacopie.disconnect;
  tc_is_connected := tacopie.is_connected;
  tc_async_read := tacopie.async_read;
  tc_async_write := tacopie.async_write;
  tc_set_on_disconnection_handler := tacopie.set_on_disconnection_handler;
  tc_output := tacopie.handed_over;
  tc_reads t := length (tacopie.m_read_requests t) |}.

#[export] Instance tacopie_laws : TcpClientLaws tacopie.tcp_client.
Proof.
  split; simpl; unfold tacopie.connect, tacopie.disconnect, tacopie.async_read,
    tacopie.async_write, tacopie.is_connected.
  - intros h p ms t t'. repeat case_match; intros; by simplify_eq/=.
  - intros h p ms t t' e. repeat case_match; intros; simplify_eq/=; congruence.
  - intros h p ms t. repeat case_match; simpl; eauto.
  - intros w t. destruct (tacopie.m_is_connected t) eqn:E; simpl; done.
  - intros s t ->. eauto.
  - intros s t ->. eauto.
  - intros n t ->. eexists. split_and!; [done..|]. simpl. rewrite length_app. simpl. lia.
  - intros n t ->. eauto.
  - done.
  - intros h p ms t. by repeat case_match.
  - done.
Qed.
