(* ===== verification/TcpClientRefines.v ===== *)
(** The two models of [tacopie::tcp_client] agree: every step of a connection on the
    io_service ([TcpClientIo]), whatever is interleaved, does to the client what one
    function of [TcpClient], or one statement of its [disconnect], does. *)

From S2P Require Import Prelude Text ThreadPool IoService IoServiceFacts IoServiceSocket TcpClientIo TcpClientIoFacts TcpClientIoTheorems TcpClient.

Section refines.
Context (read_fd : Z) (pipe_size : nat) (fd : Z).
(** What the requests ask for: how much to read, and what to write. *)
Context (size_of : nat -> Z) (data_of : nat -> string).
(** What a successful [recv] and [send] answer. *)
Context (received : string) (taken : nat).

Abbreviation step := (step read_fd pipe_size fd).
Abbreviation run := (run read_fd pipe_size fd).
Abbreviation client := tacopie.tcp_client.

(** The system answers next. *)
Definition answers_connect (t : client) : client :=
  tacopie.mk (tacopie.m_is_connected t) (tacopie.m_read_requests t) (tacopie.m_write_requests t) (tacopie.m_disconnection_handler t)
    (tacopie.tracked t) (tacopie.rd_callback t) (tacopie.wr_callback t) (tacopie.sent t) (tacopie.handed_over t)
    (true :: tacopie.os_connects t) (tacopie.os_sends t).
Definition answers_send (success : bool) (t : client) : client :=
  tacopie.mk (tacopie.m_is_connected t) (tacopie.m_read_requests t) (tacopie.m_write_requests t) (tacopie.m_disconnection_handler t)
    (tacopie.tracked t) (tacopie.rd_callback t) (tacopie.wr_callback t) (tacopie.sent t) (tacopie.handed_over t)
    (tacopie.os_connects t) ((if success then Some taken else None) :: tacopie.os_sends t).

(** The operations of the client for a direction; [result.success], when it is set. *)
Definition async (d : direction) (r : nat) (t : client) : outcome unit * client :=
  match d with Rd => tacopie.async_read (size_of r) t | Wr => tacopie.async_write (data_of r) t end.
Definition process_one (d : direction) (success : bool) (t : client) : option bool * client :=
  match d with
  | Rd => let '(result, t) := tacopie.process_read (if success then Some received else None) t in (fst <$> result, t)
  | Wr => tacopie.process_write (answers_send success t)
  end.

(** The statement of [disconnect] that ends a stage *)
Definition statement (st : stage) : client -> client :=
  match st with
  | Tested => tacopie.set_connected false
  | Flagged => tacopie.clear_read_requests
  | ReadsCleared => tacopie.clear_write_requests
  | WritesCleared => tacopie.untrack
  | Untracked => id
  end.

(** What a step of the connection does to the client. *)
Definition mirror (l : label) (s : connection) (t : client) : client :=
  match l with
  | LRequest d r => (async d r t).2
  | LProcess i success =>
    match worker_event i (service s) with Some e => (process_one (event_dir e) success t).2 | None => t end
  | LDisconnecting th => match disconnecting s !! th with Some (st, _) => statement st t | None => t end
  | LConnect => (tacopie.connect "" 0 0 (answers_connect t)).2
  | _ => t
  end.

Fixpoint mirror_run (ls : list label) (s : connection) (t : client) : client :=
  match ls with
  | [] => t
  | l :: ls => match step l s with Some s' => mirror_run ls s' (mirror l s t) | None => t end
  end.

Definition pends {A} (l : list A) : bool := match l with [] => false | _ => true end.

(** The client is what the connection is to its callers, and the two flags of the
    client are what the io_service has of the socket. *)
Record refines (s : connection) (t : client) : Prop := {
  refines_connected : tacopie.m_is_connected t = m_is_connected s;
  refines_reads : tacopie.m_read_requests t = size_of <$> m_read_requests s;
  refines_writes : tacopie.m_write_requests t = data_of <$> m_write_requests s;
  refines_flags : m_is_connected s = true ->
    tacopie.tracked t = true /\ tacopie.rd_callback t = pends (m_read_requests s) /\
    tacopie.wr_callback t = pends (m_write_requests s) }.

Lemma refines_same s s' t :
  refines s t -> m_is_connected s' = m_is_connected s -> m_read_requests s' = m_read_requests s ->
  m_write_requests s' = m_write_requests s -> refines s' t.
Proof. intros [Hc Hr Hw Hf] Ec Er Ew. split; by rewrite ?Ec, ?Er, ?Ew. Qed.

Lemma call_same l s s' : call_service read_fd pipe_size l s = Some s' -> exists io, s' = set_service io s.
Proof. intros (io & -> & _)%call_inv. by exists io. Qed.

Lemma refines_request d r s s' t :
  refines s t -> async_request read_fd pipe_size fd d r s = Some s' -> refines s' (async d r t).2 /\ (async d r t).1 = Ret tt.
Proof.
  intros [Hc Hr Hw Hf] (Hcon & io & _ & Hreq & _ & _ & _ & Ec & _)%request_inv.
  destruct (Hf Hcon) as (Ht & Hrd & Hwr). pose proof (Hreq Rd) as Er. pose proof (Hreq Wr) as Ew.
  destruct d; [rewrite decide_True in Er by done; rewrite decide_False in Ew by done
              |rewrite decide_False in Er by done; rewrite decide_True in Ew by done];
    cbn [requests] in Er, Ew; cbn [async]; unfold tacopie.async_read, tacopie.async_write, tacopie.is_connected;
    rewrite Hc, Hcon; (split; [|done]); split; cbn; rewrite ?Ec, ?Er, ?Ew, ?Hr, ?Hw, ?fmap_app; try done; intros _;
    (split; [exact Ht|]); split; try done; [by destruct (m_read_requests s)|by destruct (m_write_requests s)].
Qed.

(** What [process] tells the rest of the callback *)
Definition progress_of (result : option bool) (pending : list nat) : progress :=
  match result, pending with
  | Some true, r :: _ => Succeeded r
  | Some false, r :: _ => Failed r
  | _, _ => NoRequest
  end.

Lemma process_shape i success s s' :
  process read_fd pipe_size fd i success s = Some s' ->
  exists e, worker_event i (service s) = Some e /\
    working s' !! i = Some (event_dir e, progress_of (match requests (event_dir e) s with [] => None | _ => Some success end) (requests (event_dir e) s)) /\
    m_is_connected s' = m_is_connected s /\
    forall d, requests d s' = if decide (d = event_dir e) then tail (requests d s) else requests d s.
Proof.
  unfold process. destruct (worker_event i (service s)) as [e|]; [|done]. case_decide; [|done]. cbv zeta. intros Hs. exists e. split; [done|].
  destruct (requests (event_dir e) s) as [|r rest] eqn:Er.
  - injection Hs as <-. split; [apply lookup_insert_eq|]. split; [done|]. intros d. case_decide as Hd; [by subst d; rewrite Er|done].
  - assert (exists io, s' = set_service io (set_requests (event_dir e) rest
      (set_working (<[i := (event_dir e, if success then Succeeded r else Failed r)]> (working s)) s))) as (io & ->).
    { destruct rest; [by apply call_same in Hs|]. injection Hs as <-. eexists (service s). by destruct (event_dir e). }
    split; [by destruct (event_dir e), success; apply lookup_insert_eq|]. split; [by destruct (event_dir e)|].
    intros d. case_decide as Hd; [subst d; rewrite Er; by destruct (event_dir e)|by destruct (event_dir e), d].
Qed.

Lemma refines_process i success s s' t :
  refines s t -> process read_fd pipe_size fd i success s = Some s' ->
  exists e, worker_event i (service s) = Some e /\ refines s' (process_one (event_dir e) success t).2 /\
    working s' !! i = Some (event_dir e, progress_of (process_one (event_dir e) success t).1 (requests (event_dir e) s)).
Proof.
  intros [Hc Hr Hw Hf] (e & He & Hp & Ec & Hreq)%process_shape. exists e. split; [done|].
  pose proof (Hreq Rd) as Er. pose proof (Hreq Wr) as Ew. clear Hreq. rewrite Hp. clear Hp He.
  destruct (event_dir e); cbn [requests process_one] in *;
    [rewrite decide_True in Er by done; rewrite decide_False in Ew by done
    |rewrite decide_False in Er by done; rewrite decide_True in Ew by done].
  - unfold tacopie.process_read. rewrite Hr. destruct (m_read_requests s) as [|r rest]; cbn in *.
    + split; [|done]. split; cbn; rewrite ?Ec, ?Er, ?Ew; done.
    + split; [|by destruct success]. split; cbn; rewrite ?Ec, ?Er, ?Ew; try done.
      intros Hcon. destruct (Hf Hcon) as (Ht & Hrd & Hwr). split_and!; [done| |done]. by destruct rest.
  - unfold tacopie.process_write. cbn [tacopie.m_write_requests answers_send]. rewrite Hw.
    destruct (m_write_requests s) as [|r rest]; cbn in *.
    + split; [|done]. split; cbn; rewrite ?Ec, ?Er, ?Ew; done.
    + split; [|by destruct success]. split; cbn; rewrite ?Ec, ?Er, ?Ew; try done.
      intros Hcon. destruct (Hf Hcon) as (Ht & Hrd & Hwr). split_and!; [done|done|]. by destruct rest.
Qed.

Lemma refines_view s s' t :
  refines s t -> (m_is_connected s', m_read_requests s', m_write_requests s') = (m_is_connected s, m_read_requests s, m_write_requests s) ->
  refines s' t.
Proof. intros Hr [= ? ? ?]. by apply (refines_same s). Qed.

(** Steps that the callers of the client do not see *)
Lemma service_view l s s' : service_step read_fd pipe_size fd l s = Some s' ->
  (m_is_connected s', m_read_requests s', m_write_requests s') = (m_is_connected s, m_read_requests s, m_write_requests s).
Proof. by intros (io & _ & _ & [[-> _]|(i & threw & _ & -> & _)])%service_inv. Qed.

Lemma continue_view i s s' : continue i s = Some s' ->
  (m_is_connected s', m_read_requests s', m_write_requests s') = (m_is_connected s, m_read_requests s, m_write_requests s).
Proof. unfold continue. destruct (working s !! i) as [[d []]|]; intros; by simplify_eq. Qed.

Lemma test_view th wait s s' : disconnect_test th wait s = Some s' ->
  (m_is_connected s', m_read_requests s', m_write_requests s') = (m_is_connected s, m_read_requests s, m_write_requests s).
Proof.
  unfold disconnect_test. destruct (disconnecting s !! th); [done|]. intros [= <-]. destruct (m_is_connected s) eqn:E; [by cbn; rewrite E|].
  destruct th as [n|i]; [by rewrite E|]. destruct (working s !! i) as [[d []]|]; by rewrite ?E; cbn; rewrite ?E.
Qed.

(** A statement of [disconnect] *)
Lemma refines_disconnect th s s' t :
  ok read_fd pipe_size fd s -> refines s t -> disconnect_step read_fd pipe_size fd th s = Some s' ->
  refines s' (match disconnecting s !! th with Some (st, _) => statement st t | None => t end).
Proof.
  intros Hok Hr Hs. unfold disconnect_step in Hs. destruct (disconnecting s !! th) as [[st wait]|] eqn:Hth; [|done]. cbv zeta in Hs.
  pose proof (ok_stage _ _ _ s Hok th st wait Hth) as Hst. destruct Hr as [Hc Hrd Hwr Hf].
  destruct st; cbn [statement stage_ok] in *.
  - injection Hs as <-. by split.
  - injection Hs as <-. split; try done. cbn. by rewrite Hst.
  - injection Hs as <-. split; try done. cbn. by destruct Hst as [-> _].
  - destruct Hst as [Hst _]. assert (exists io m, s' = set_service io (set_disconnecting m s)) as (io & m & ->).
    { destruct (closed s); [injection Hs as <-; by exists (service s); eexists|]. apply call_same in Hs as [io ->]. by exists io; eexists. }
    split; try done. cbn. by rewrite Hst.
  - destruct Hst as [Hst _]. destruct (_ && _ && _); [done|]. injection Hs as <-. apply (refines_view s); [by split|].
    unfold disconnected. destruct th as [k|i]; [done|]. cbn [working set_disconnecting]. by destruct (working s !! i) as [[d []]|].
Qed.

Lemma refines_connect s s' t :
  ok read_fd pipe_size fd s -> refines s t -> connect_again read_fd pipe_size fd s = Some s' ->
  refines s' (tacopie.connect "" 0 0 (answers_connect t)).2 /\ (tacopie.connect "" 0 0 (answers_connect t)).1 = Ret tt.
Proof.
  intros Hok [Hc Hrd Hwr _] Hs. unfold connect_again in Hs. destruct (negb _ && _ && _) eqn:E; [|done].
  apply andb_true_iff in E as [[En Ecl]%andb_true_iff _]. apply negb_true_iff in En.
  destruct (ok_closed _ _ _ s Hok Ecl) as (_ & Er & Ew). destruct (call_service _ _ _ s) as [s1|] eqn:E; [|done].
  cbn [mbind option_bind] in Hs. injection Hs as <-. apply call_same in E as [io ->].
  unfold tacopie.connect, tacopie.is_connected. cbn [tacopie.m_is_connected answers_connect]. rewrite Hc, En. split; [|done].
  split; cbn; try done. intros _. by rewrite Er, Ew.
Qed.

Lemma refines_step l s s' t :
  ok read_fd pipe_size fd s -> refines s t -> step l s = Some s' -> refines s' (mirror l s t).
Proof.
  intros Hok Hr Hs. destruct l as [lb|d r|i success|i|k wait|i|th|]; cbn [TcpClientIo.step mirror] in *.
  - eapply refines_view; [exact Hr|by eapply service_view].
  - by apply (refines_request d r s s' t).
  - destruct (refines_process i success s s' t Hr Hs) as (e & -> & ? & _). done.
  - eapply refines_view; [exact Hr|by eapply continue_view].
  - eapply refines_view; [exact Hr|by eapply test_view].
  - destruct (working s !! i) as [[d []]|]; try done. eapply refines_view; [exact Hr|by eapply test_view].
  - by apply (refines_disconnect th s).
  - by apply (refines_connect s s' t).
Qed.

Lemma mirror_run_refines ls s s' t :
  ok read_fd pipe_size fd s -> refines s t -> run ls s = Some s' -> refines s' (mirror_run ls s t).
Proof.
  revert s t. induction ls as [|l ls IH]; intros s t Hok Hr Hrun; cbn [TcpClientIo.run mirror_run] in *; [by simplify_eq|].
  destruct (step l s) as [s1|] eqn:E; [|done]. apply (IH s1); [by eapply ok_step|by apply (refines_step l s)|done].
Qed.

(** ** A disconnection that nothing interrupts *)

Definition next_stage (st : stage) : option stage :=
  match st with
  | Tested => Some Flagged
  | Flagged => Some ReadsCleared
  | ReadsCleared => Some WritesCleared
  | WritesCleared => Some Untracked
  | Untracked => None
  end.

Lemma stage_advances th s s' st wait :
  disconnect_step read_fd pipe_size fd th s = Some s' -> disconnecting s !! th = Some (st, wait) ->
  disconnecting s' !! th = (fun st => (st, wait)) <$> next_stage st.
Proof.
  unfold disconnect_step. intros Hs Hth. rewrite Hth in Hs. cbv zeta in Hs. destruct st; cbn [next_stage].
  - injection Hs as <-. apply lookup_insert_eq.
  - injection Hs as <-. apply lookup_insert_eq.
  - injection Hs as <-. apply lookup_insert_eq.
  - destruct (closed s); [injection Hs as <-|apply call_same in Hs as [io ->]]; apply lookup_insert_eq.
  - destruct (_ && _ && _); [done|]. injection Hs as <-. unfold disconnected.
    destruct th as [k|i]; [apply lookup_delete_eq|]. cbn [working set_disconnecting].
    destruct (working s !! i) as [[d []]|]; apply lookup_delete_eq.
Qed.

(** The statements that are left from a stage on *)
Fixpoint statements (n : nat) (st : stage) (t : client) : client :=
  match n with
  | O => t
  | S n => match next_stage st with Some st' => statements n st' (statement st t) | None => statement st t end
  end.

Lemma mirror_disconnecting n th s s' st wait t :
  run (replicate n (LDisconnecting th)) s = Some s' -> disconnecting s !! th = Some (st, wait) ->
  mirror_run (replicate n (LDisconnecting th)) s t = statements n st t.
Proof.
  revert s st t. induction n as [|n IH]; intros s st t Hrun Hth; [done|].
  cbn [replicate TcpClientIo.run mirror_run TcpClientIo.step mirror statements] in *.
  destruct (disconnect_step read_fd pipe_size fd th s) as [s1|] eqn:E; [|done]. cbn [mbind option_bind] in Hrun. rewrite Hth.
  pose proof (stage_advances _ _ _ _ _ E Hth) as Hn. destruct (next_stage st) as [st'|]; cbn [fmap option_fmap option_map] in Hn.
  - by apply IH.
  - destruct n as [|n]; [done|]. cbn [replicate TcpClientIo.run TcpClientIo.step] in Hrun. unfold disconnect_step in Hrun. by rewrite Hn in Hrun.
Qed.

(** [disconnect] of caller [n], from its test to its end *)
Definition disconnects_alone (n : nat) (wait : bool) : list label :=
  LDisconnect n wait :: replicate 5 (LDisconnecting (User n)).

Lemma mirror_disconnect n wait s s' t :
  refines s t -> run (disconnects_alone n wait) s = Some s' ->
  mirror_run (disconnects_alone n wait) s t = tacopie.disconnect wait t.
Proof.
  intros [Hc _ _ _] Hrun. unfold disconnects_alone in *. cbn [TcpClientIo.run mirror_run TcpClientIo.step mirror] in *.
  destruct (disconnect_test (User n) wait s) as [s1|] eqn:E; [|done]. cbn [mbind option_bind] in Hrun.
  unfold disconnect_test in E. destruct (disconnecting s !! User n) eqn:Hn; [done|]. destruct (m_is_connected s) eqn:Econ.
  - injection E as <-. erewrite mirror_disconnecting; [|exact Hrun|apply lookup_insert_eq].
    unfold tacopie.disconnect, tacopie.is_connected. by rewrite Hc.
  - injection E as <-. cbn [replicate TcpClientIo.run TcpClientIo.step] in Hrun. unfold disconnect_step in Hrun. by rewrite Hn in Hrun.
Qed.

(** ** The property *)

Definition new_connection : client := (tacopie.connect "" 0 0 (tacopie.init [true] [])).2.

(** C19: The client that takes one operation at a time is the client of any threads:
    after any run of a connection on the io_service, its flag, its pending requests
    and what the service is told of the socket are those of the sequential client to
    which every step has done one of its functions, or one statement of its
    [disconnect]; requests return and throw alike, and a callback takes the same
    request and leaves the same result, set or not; and a disconnection that nothing
    interrupts is [disconnect] as a whole. *)
Theorem connection_refines_client io handler s0 ls s :
  connected_on read_fd pipe_size fd io handler s0 -> run ls s0 = Some s ->
  let t := mirror_run ls s0 new_connection in
  refines s t /\
  (m_is_connected s = true -> exists x, m_tracked_sockets (service s) !! fd = Some x /\ marked_for_untrack x = false /\
     tacopie.rd_callback t = bool_decide (callback_of Rd x = Some (on_available Rd)) /\
     tacopie.wr_callback t = bool_decide (callback_of Wr x = Some (on_available Wr))) /\
  (forall d r s', step (LRequest d r) s = Some s' -> (async d r t).1 = Ret tt) /\
  (forall d r, m_is_connected s = false -> step (LRequest d r) s = None /\ exists e, async d r t = (Throw e, t)) /\
  (forall i success s', step (LProcess i success) s = Some s' -> exists e, worker_event i (service s) = Some e /\
     working s' !! i = Some (event_dir e, progress_of (process_one (event_dir e) success t).1 (requests (event_dir e) s))) /\
  (forall n wait s', run (disconnects_alone n wait) s = Some s' ->
     mirror_run (disconnects_alone n wait) s t = tacopie.disconnect wait t).
Proof.
  intros Hs0 Hrun t. pose proof (connected_run _ _ _ _ _ _ _ _ Hs0 Hrun) as Hok.
  assert (refines s t) as Hr.
  { destruct Hs0 as (Hreach & Hnone & Htr). destruct (ok_connected _ _ _ _ _ _ Hreach Hnone Htr) as [Hok0 _].
    apply (mirror_run_refines ls s0); [done| |done]. by apply call_same in Htr as [io' ->]. }
  split; [exact Hr|]. split_and!.
  - intros Hc. destruct (ok_watched _ _ _ s Hok Hc) as (x & Hx & Hm & Hcb). exists x.
    destruct (refines_flags _ _ Hr Hc) as (_ & -> & ->). rewrite !Hcb. split_and!; [done..| |]; cbn [requests].
    + by destruct (m_read_requests s).
    + by destruct (m_write_requests s).
  - intros d r s' Hs. by apply (refines_request d r s s' t).
  - intros d r Hc. cbn [TcpClientIo.step]. unfold async_request. rewrite Hc. split; [done|].
    destruct d; cbn [async]; unfold tacopie.async_read, tacopie.async_write, tacopie.is_connected;
      rewrite (refines_connected _ _ Hr), Hc; by eexists.
  - intros i success s' Hs. destruct (refines_process i success s s' t Hr Hs) as (e & He & _ & Hp). by exists e.
  - intros n wait s' Hd. by apply (mirror_disconnect n wait s s').
Qed.
End refines.

(** ** Witness

    The run of [asked]: requests, a failed read, a disconnection by a caller while a
    worker holds a request, a new connection. *)
Lemma connection_refines_client_witness :
  tacopie.m_read_requests (mirror_run 3 64 5 Z.of_nat (fun _ => "request") "" 9 asked started new_connection) = [11%Z] /\
  refines Z.of_nat (fun _ => "request") (after asked)
    (mirror_run 3 64 5 Z.of_nat (fun _ => "request") "" 9 asked started new_connection).
Proof.
  split; [vm_compute; reflexivity|].
  apply (connection_refines_client 3 64 5 Z.of_nat (fun _ => "request") "" 9 (io_init 1) true started asked (after asked));
    [apply started_connected|vm_compute; reflexivity].
Defined.
