(* ===== verification/NetworkAdaptor.v ===== *)
(** [cpp_redis::network::tcp_client] (cpp_redis/sources/network/tcp_client.cpp):
    tacopie's client behind the interface [tcp_client_iface], with the callbacks
    of its requests.

    [TcpClient] has tacopie's client without the callbacks of its requests; they are
    here beside it, in the order of the requests.  A [std::function] is an option,
    and acts on a world [W] of its caller's. *)

From S2P Require Import Prelude Text ThreadPool IoService TcpClient.

(** ** The two libraries' records *)

Module tcp_client_iface.
Record read_result : Type := mk_read { success : bool; buffer : string }.
Record write_result : Type := mk_write { wr_success : bool; wr_size : Z }.
End tcp_client_iface.

Module tacopie_results.
Record read_result : Type := mk_read { success : bool; buffer : string }.
Record write_result : Type := mk_write { wr_success : bool; wr_size : Z }.
End tacopie_results.

Import tcp_client_iface.

Section adaptor.
Context {W : Type}.

Definition function (A : Type) : Type := option (A -> M W unit).

Record read_request : Type := mk_read_request { size : Z; async_read_callback : function read_result }.
Record write_request : Type := mk_write_request { data : string; async_write_callback : function write_result }.

Record tcp_client : Type := mk_client {
  m_client : tacopie.tcp_client;
  read_callbacks : list (tacopie_results.read_result -> M W unit);
  write_callbacks : list (tacopie_results.write_result -> M W unit) }.

Definition with_client (t : tacopie.tcp_client) (s : tcp_client) : tcp_client :=
  mk_client t (read_callbacks s) (write_callbacks s).

Definition new_client (t : tacopie.tcp_client) : tcp_client := mk_client t [] [].

Definition connect (addr : string) (port timeout_msecs : Z) (s : tcp_client) : outcome unit * tcp_client :=
  let '(r, t) := tacopie.connect addr port timeout_msecs (m_client s) in (r, with_client t s).

Definition is_connected (s : tcp_client) : bool := tacopie.is_connected (m_client s).

(** The requests tacopie clears go with their callbacks. *)
Definition disconnect (wait_for_removal : bool) (s : tcp_client) : tcp_client :=
  let t := tacopie.disconnect wait_for_removal (m_client s) in
  if is_connected s then mk_client t [] [] else with_client t s.

Definition set_on_disconnection_handler (s : tcp_client) : tcp_client :=
  with_client (tacopie.set_on_disconnection_handler (m_client s)) s.

(** The functions handed to tacopie, which are never empty. *)
Definition read_lambda (callback : function read_result) (result : tacopie_results.read_result) : M W unit :=
  match callback with
  | None => mret tt
  | Some callback => callback (mk_read (tacopie_results.success result) (tacopie_results.buffer result))
  end.
Definition write_lambda (callback : function write_result) (result : tacopie_results.write_result) : M W unit :=
  match callback with
  | None => mret tt
  | Some callback => callback (mk_write (tacopie_results.wr_success result) (tacopie_results.wr_size result))
  end.

(** The buffer and the callback are moved out of the caller's request, whether the
    call throws or not: the first is left empty, the second unspecified. *)
Definition async_read (request : read_request) (s : tcp_client) : outcome unit * tcp_client :=
  match tacopie.async_read (size request) (m_client s) with
  | (Ret tt, t) =>
    (Ret tt, mk_client t (read_callbacks s ++ [read_lambda (async_read_callback request)]) (write_callbacks s))
  | (r, t) => (r, with_client t s)
  end.
Definition async_write (request : write_request) (s : tcp_client) : outcome unit * tcp_client :=
  match tacopie.async_write (data request) (m_client s) with
  | (Ret tt, t) =>
    (Ret tt, mk_client t (read_callbacks s) (write_callbacks s ++ [write_lambda (async_write_callback request)]))
  | (r, t) => (r, with_client t s)
  end.

(** [on_read_available] of tacopie: the request it pops, with its callback.  The
    result says whether the disconnection handler runs after it. *)
Definition read_available (recv : option string) (s : tcp_client) (w : W) : outcome bool * (tcp_client * W) :=
  match tacopie.on_read_available recv (m_client s), read_callbacks s with
  | (Ret (ok, bytes, handler), t), callback :: callbacks =>
    let s' := if ok then mk_client t callbacks (write_callbacks s) else mk_client t [] [] in
    let '(r, w) := callback (tacopie_results.mk_read ok bytes) w in
    (omap_outcome (fun _ => handler) r, (s', w))
  | (_, t), _ => (Undef, (with_client t s, w))
  end.

(** ** Properties *)

(** A callback for each pending request, and none without a connection. *)
Definition aligned (s : tcp_client) : Prop :=
  length (read_callbacks s) = length (tacopie.m_read_requests (m_client s)) /\
  length (write_callbacks s) = length (tacopie.m_write_requests (m_client s)) /\
  (is_connected s = false -> read_callbacks s = [] /\ write_callbacks s = []).

Lemma aligned_new connects sends : aligned (new_client (tacopie.init connects sends)).
Proof. done. Qed.

Lemma aligned_connect addr port ms s : aligned s -> aligned (connect addr port ms s).2.
Proof.
  intros (? & ? & Hn). unfold connect, tacopie.connect. fold (is_connected s).
  destruct (is_connected s) eqn:E; [split_and!; [done..|]; intros Hf; exfalso; unfold is_connected in *; cbn in *; congruence|].
  specialize (Hn eq_refl) as [Hr Hw]. by destruct (tacopie.os_connects (m_client s)) as [|[] os].
Qed.

Lemma aligned_disconnect w s : aligned s -> aligned (disconnect w s).
Proof.
  intros (? & ? & Hn). unfold disconnect, tacopie.disconnect. fold (is_connected s).
  destruct (is_connected s) eqn:E; cbn; [done|]. split_and!; [done..|]. intros _. by apply Hn.
Qed.

Lemma aligned_async_read request s : aligned s -> aligned (async_read request s).2.
Proof.
  intros (Hr & Hw & Hn). unfold async_read, tacopie.async_read. fold (is_connected s).
  destruct (is_connected s) eqn:E; [|split_and!; [done..|]; intros _; by apply Hn]. split_and!; [|done..]. cbn. by rewrite !length_app, Hr.
Qed.

Lemma aligned_async_write request s : aligned s -> aligned (async_write request s).2.
Proof.
  intros (Hr & Hw & Hn). unfold async_write, tacopie.async_write. fold (is_connected s).
  destruct (is_connected s) eqn:E; [|split_and!; [done..|]; intros _; by apply Hn]. split_and!; [done| |done]. cbn. by rewrite !length_app, Hw.
Qed.

Lemma aligned_read_available recv s w : aligned s -> aligned (read_available recv s w).2.1.
Proof.
  intros (Hr & Hw & Hn). unfold read_available, tacopie.on_read_available, tacopie.process_read.
  destruct (tacopie.m_read_requests (m_client s)) as [|n requests] eqn:E.
  { cbn. unfold aligned. cbn. rewrite E. by split_and!. }
  destruct (read_callbacks s) as [|callback callbacks]; [done|].
  destruct (is_connected s) eqn:Econ; [|by destruct (Hn eq_refl)]. injection Hr as Hr.
  unfold is_connected, tacopie.is_connected in Econ.
  destruct recv as [bytes|]; destruct (callback _ w) as [r w'].
  - split_and!; [done..|]. intros Hf. cbn in Hf. congruence.
  - unfold tacopie.disconnect, tacopie.is_connected. cbn. rewrite Econ. done.
Qed.

(** The client of the interface: the same operations, on requests without callbacks. *)
#[export] Instance adaptor : TcpClient tcp_client := {|
  tc_connect := connect;
  tc_disconnect := disconnect;
  tc_is_connected := is_connected;
  tc_async_read n := async_read (mk_read_request n None);
  tc_async_write b := async_write (mk_write_request b None);
  tc_set_on_disconnection_handler := set_on_disconnection_handler;
  tc_output s := tacopie.handed_over (m_client s);
  tc_reads s := length (tacopie.m_read_requests (m_client s)) |}.

#[export] Instance adaptor_laws : TcpClientLaws tcp_client.
Proof.
  split; cbn; unfold connect, disconnect, async_read, async_write, is_connected; cbn [data size].
  - intros h p ms s s'. destruct (tacopie.connect h p ms (m_client s)) as [r t] eqn:E. intros [= -> <-].
    exact (tc_connect_ok h p ms (m_client s) t E).
  - intros h p ms s s' e. destruct (tacopie.connect h p ms (m_client s)) as [r t] eqn:E. intros [= -> <-].
    exact (tc_connect_fail h p ms (m_client s) t e E).
  - intros h p ms s. pose proof (tc_connect_outcome h p ms (m_client s)) as Ho. cbn in Ho.
    by destruct (tacopie.connect h p ms (m_client s)).
  - intros w s. pose proof (tc_disconnected w (m_client s)) as Hd. cbn in Hd. destruct (tacopie.is_connected (m_client s)); exact Hd.
  - intros b s Hc. destruct (@tc_write_connected _ _ tacopie_laws b (m_client s) Hc) as (t & E & ? & ? & ?). cbn in E. rewrite E.
    eexists. by split_and!.
  - intros b s Hc. destruct (@tc_write_disconnected _ _ tacopie_laws b (m_client s) Hc) as (e & E). cbn in E. rewrite E. exists e. by destruct s.
  - intros n s Hc. destruct (@tc_read_connected _ _ tacopie_laws n (m_client s) Hc) as (t & E & ? & ? & ?). cbn in E. rewrite E.
    eexists. by split_and!.
  - intros n s Hc. destruct (@tc_read_disconnected _ _ tacopie_laws n (m_client s) Hc) as (e & E). cbn in E. rewrite E. exists e. by destruct s.
  - done.
  - intros h p ms s. pose proof (tc_connect_output h p ms (m_client s)) as Ho. cbn in Ho.
    by destruct (tacopie.connect h p ms (m_client s)).
  - done.
Qed.
End adaptor.

(** ** The workers *)

(** [set_nb_workers]: those of the service of the client *)
Definition set_nb_workers (nb_threads : nat) (io : io_service) : io_service := IoService.set_nb_workers nb_threads io.
(** [set_default_nb_workers] *)
Definition set_default_nb_workers (nb_threads : nat) (instance : option io_service) : io_service :=
  get_default_io_service nb_threads instance.
