(* ===== verification/Connection.v ===== *)
(** [cpp_redis::network::redis_connection] (sources/network/redis_connection.cpp):
    the send buffer, the commit of pipelined commands, and the handlers the
    TCP client calls.  Generic in the TCP client.

    The callbacks into the client above are returned as events, in the order
    the handlers make them. *)

From S2P Require Import Prelude Text Reply Builders TcpClient.

(** ** Commands on the wire *)

(** [build_command]: the loop appends one bulk string per part. *)
Definition build_part (cmd_part : string) : string :=
  "$" +:+ to_string (slen cmd_part) +:+ crlf +:+ cmd_part +:+ crlf.

Definition build_command (redis_cmd : list string) : string :=
  fold_left (fun cmd cmd_part => cmd +:+ build_part cmd_part) redis_cmd
    ("*" +:+ to_string (Z.of_nat (length redis_cmd)) +:+ crlf).

(** ** The connection *)

(** What the connection calls in its owner. *)
Inductive connection_event : Type :=
| ReplyReceived (r : reply)
| Disconnected.

Definition READ_SIZE : Z := 4096.

Record redis_connection (T : Type) : Type := mk_connection {
  m_client : T;
  m_reply_callback : bool;
  m_disconnection_handler : bool;
  m_builder : reply_builder;
  m_buffer : string }.
Arguments mk_connection {T}.
Arguments m_client {T}.
Arguments m_reply_callback {T}.
Arguments m_disconnection_handler {T}.
Arguments m_builder {T}.
Arguments m_buffer {T}.

Section connection.
Context {T : Type} `{TcpClient T}.

Abbreviation connection := (redis_connection T).

Definition init (client : T) : connection := mk_connection client false false reply_builder_init "".

Definition set_tcp (c : T) (conn : connection) : connection :=
  mk_connection c (m_reply_callback conn) (m_disconnection_handler conn) (m_builder conn) (m_buffer conn).
Definition set_builder (b : reply_builder) (conn : connection) : connection :=
  mk_connection (m_client conn) (m_reply_callback conn) (m_disconnection_handler conn) b (m_buffer conn).
Definition set_buffer (s : string) (conn : connection) : connection :=
  mk_connection (m_client conn) (m_reply_callback conn) (m_disconnection_handler conn) (m_builder conn) s.

Definition what (e : exn) : string :=
  match e with
  | redis_error w | system_error w | future_error w | std_exception w => w
  end.

(** [connect]: the port is cut to 32 bits; the handlers are assigned only when nothing
    threw. *)
Definition connect (host : string) (port timeout_msecs : Z)
    (client_disconnection_handler client_reply_callback : bool) (conn : connection)
    : outcome unit * connection :=
  match tc_connect host (wrap_u32 port) timeout_msecs (m_client conn) with
  | (Ret _, c1) =>
    let c2 := tc_set_on_disconnection_handler c1 in
    match tc_async_read READ_SIZE c2 with
    | (Ret _, c3) =>
      (Ret tt, mk_connection c3 client_reply_callback client_disconnection_handler
                 (m_builder conn) (m_buffer conn))
    | (Throw e, c3) => (Throw (redis_error (what e)), set_tcp c3 conn)
    | (o, c3) => (o, set_tcp c3 conn)
    end
  | (Throw e, c1) => (Throw (redis_error (what e)), set_tcp c1 conn)
  | (o, c1) => (o, set_tcp c1 conn)
  end.

Definition disconnect (wait_for_removal : bool) (conn : connection) : connection :=
  set_buffer "" (set_tcp (tc_disconnect wait_for_removal (m_client conn)) conn).

Definition is_connected (conn : connection) : bool := tc_is_connected (m_client conn).

Definition send (redis_cmd : list string) (conn : connection) : connection :=
  set_buffer (m_buffer conn +:+ build_command redis_cmd) conn.

(** [commit]: the buffer is moved out before the write is attempted. *)
Definition commit (conn : connection) : outcome unit * connection :=
  let buffer := m_buffer conn in
  let conn := set_buffer "" conn in
  match tc_async_write buffer (m_client conn) with
  | (Throw e, c) => (Throw (redis_error (what e)), set_tcp c conn)
  | (o, c) => (o, set_tcp c conn)
  end.

Definition call_disconnection_handler (conn : connection) : list connection_event :=
  if m_disconnection_handler conn then [Disconnected] else [].

(** [while (m_builder.reply_available())]: every available reply is popped
    and given to the reply callback. *)
Fixpoint deliver (n : nat) (conn : connection) : connection * list connection_event :=
  match n with
  | O => (conn, [])
  | S n =>
    if reply_available (m_builder conn) then
      match get_front (m_builder conn), pop_front (m_builder conn) with
      | Ret r, Ret b =>
        let '(conn', events) := deliver n (set_builder b conn) in
        (conn', if m_reply_callback conn then ReplyReceived r :: events else events)
      | _, _ => (conn, [])
      end
    else (conn, [])
  end.

(** [tcp_client_receive_handler]; a failed read is ignored, the exception of
    the last [async_read] swallowed. *)
Definition tcp_client_receive_handler (success : bool) (data : string) (conn : connection)
    : outcome unit * connection * list connection_event :=
  if negb success then (Ret tt, conn, [])
  else
    match feed data (m_builder conn) with
    | (b, Ret _) =>
      let '(conn1, events) := deliver (length (m_available_replies b)) (set_builder b conn) in
      match tc_async_read READ_SIZE (m_client conn1) with
      | (Ret _, c) => (Ret tt, set_tcp c conn1, events)
      | (Throw _, c) => (Ret tt, set_tcp c conn1, events)
      | (o, c) => (o, set_tcp c conn1, events)
      end
    | (b, Throw (redis_error _)) =>
      (Ret tt, set_builder b conn, call_disconnection_handler conn)
    | (b, Throw e) => (Throw e, set_builder b conn, [])
    | (b, Undef) => (Undef, set_builder b conn, [])
    | (b, Timeout) => (Timeout, set_builder b conn, [])
    end.

Definition tcp_client_disconnection_handler (conn : connection) : connection * list connection_event :=
  let conn := set_buffer "" conn in
  (conn, call_disconnection_handler conn).
End connection.
