(* ===== verification/ConnectionFacts.v ===== *)
(** Facts about a connection: the wire form of commands, and the delivery of
    the replies a peer sends, packet by packet. *)

From S2P Require Import Prelude Text Reply Builders BuilderFacts ReplyStream TcpClient Connection.

(** ** Commands *)

(** A command as the array of bulk strings the protocol asks for. *)
Definition command_value (cmd : list string) : rvalue := VArray (VBulk <$> cmd).

Definition sendable (cmd : list string) : bool := wire_ok (command_value cmd).

Lemma build_command_encode cmd : build_command cmd = encode (command_value cmd).
Proof.
  unfold build_command, command_value. simpl. rewrite length_fmap.
  assert (forall s, fold_left (fun c p => c +:+ build_part p) cmd s =
                    s +:+ foldr (fun x s => encode x +:+ s) "" (VBulk <$> cmd)) as ->.
  { induction cmd as [|p cmd IH]; intros s; cbn [fold_left fmap list_fmap foldr].
    - by rewrite s_app_nil_r.
    - rewrite IH. unfold build_part, line.
      cbn [encode]. unfold line. rewrite !s_app_assoc. cbn [String.append].
      by rewrite !s_app_assoc. }
  done.
Qed.

(** Pipelined commands, as the peer's parser sees them. *)
Lemma build_commands_parse cmds :
  forallb sendable cmds = true ->
  feed (concat_packets (build_command <$> cmds)) reply_builder_init =
  (mk_reply_builder "" None ((fun c => reply_of (command_value c)) <$> cmds), Ret tt).
Proof.
  intros Hs. unfold reply_builder_init.
  replace (concat_packets (build_command <$> cmds)) with (encode_all (command_value <$> cmds)).
  - rewrite feed_encode; [by rewrite <- list_fmap_compose|].
    induction cmds as [|c cmds IH]; [done|]. cbn [forallb fmap list_fmap] in *.
    apply andb_true_iff in Hs as [Hc Hs]. unfold sendable in Hc. rewrite Hc. by apply IH.
  - clear. induction cmds as [|c cmds IH]; [done|]. cbn [fmap list_fmap].
    change (encode_all (command_value c :: (command_value <$> cmds))) with
      (encode (command_value c) +:+ encode_all (command_value <$> cmds)).
    change (concat_packets (build_command c :: (build_command <$> cmds))) with
      (build_command c +:+ concat_packets (build_command <$> cmds)).
    by rewrite IH, build_command_encode.
Qed.

Section connection_facts.
Context {T : Type} `{TcpClientLaws T}.

Implicit Types conn : redis_connection T.

Definition clear_replies (b : reply_builder) : reply_builder :=
  mk_reply_builder (Builders.m_buffer b) (Builders.m_builder b) [].

(** Every available reply is delivered, in order. *)
Lemma deliver_all conn :
  m_reply_callback conn = true ->
  deliver (length (m_available_replies (m_builder conn))) conn =
  (set_builder (clear_replies (m_builder conn)) conn,
   ReplyReceived <$> m_available_replies (m_builder conn)).
Proof.
  destruct conn as [c rc dh b s]; cbn [m_builder m_reply_callback]. intros ->.
  destruct b as [buf bld av]; cbn [m_available_replies].
  induction av as [|r av IH]; [done|].
  cbn [length deliver m_builder reply_available m_available_replies get_front pop_front].
  cbn [negb Nat.eqb]. unfold reply_available; cbn [m_available_replies length Nat.eqb negb].
  unfold set_builder in *; cbn [m_client m_reply_callback m_disconnection_handler m_builder m_buffer] in *.
  cbn [Builders.m_buffer Builders.m_builder]. rewrite IH. done.
Qed.

(** One successful read on a live connection. *)
Lemma receive_ok conn data b :
  m_reply_callback conn = true -> is_connected conn = true ->
  feed data (m_builder conn) = (b, Ret tt) ->
  exists c, tcp_client_receive_handler true data conn =
            (Ret tt, set_tcp c (set_builder (clear_replies b) conn),
             ReplyReceived <$> m_available_replies b) /\
            tc_is_connected c = true /\ tc_reads c = S (tc_reads (m_client conn)) /\
            tc_output c = tc_output (m_client conn).
Proof.
  intros Hr Hc Hf. unfold tcp_client_receive_handler. cbn [negb]. rewrite Hf.
  pose proof (deliver_all (set_builder b conn) Hr) as Hd. cbn [m_builder set_builder] in Hd.
  unfold set_builder in Hd |- *. rewrite Hd. clear Hd.
  cbn [m_client m_reply_callback m_disconnection_handler m_buffer].
  destruct (tc_read_connected READ_SIZE (m_client conn) Hc) as (c & Ht & Hcc & Ho & Hrd).
  rewrite Ht. exists c. split_and!; [done|done|congruence|congruence].
Qed.

(** A successful [connect] keeps the parser. *)
Lemma connect_fields h p ms dh rc conn conn' :
  connect h p ms dh rc conn = (Ret tt, conn') ->
  m_builder conn' = m_builder conn /\ m_reply_callback conn' = rc /\ is_connected conn' = true.
Proof.
  unfold connect, is_connected. destruct (tc_connect h (wrap_u32 p) ms (m_client conn)) as [[[]|e| |] c1] eqn:E; try done.
  apply tc_connect_ok in E. rewrite <- (tc_handler_connected c1) in E.
  destruct (tc_read_connected READ_SIZE _ E) as (c2 & -> & Hc & _). intros [= <-]. done.
Qed.

(** A packet the parser refuses: the owner is told of a disconnection, but
    the connection is still up and no read is armed any more. *)
Lemma receive_invalid conn data b w :
  feed data (m_builder conn) = (b, Throw (redis_error w)) ->
  tcp_client_receive_handler true data conn =
  (Ret tt, set_builder b conn, call_disconnection_handler conn).
Proof. intros Hf. unfold tcp_client_receive_handler. cbn [negb]. by rewrite Hf. Qed.

(** The reads of a stream of packets: each read pops the request the previous
    one armed. *)
Fixpoint receive_all (packets : list string) conn : outcome unit * redis_connection T * list connection_event :=
  match packets with
  | [] => (Ret tt, conn, [])
  | p :: packets' =>
    match tcp_client_receive_handler true p conn with
    | (Ret _, conn', ev) =>
      let '(o, conn'', ev') := receive_all packets' conn' in (o, conn'', ev ++ ev')
    | r => r
    end
  end.

Definition no_replies (b : reply_builder) : Prop := m_available_replies b = [].

(** The available replies do not influence parsing. *)
Lemma rb_result_available av r :
  rb_result av r =
  (mk_reply_builder (Builders.m_buffer (rb_result [] r).1) (Builders.m_builder (rb_result [] r).1)
     (av ++ m_available_replies (rb_result [] r).1), (rb_result [] r).2).
Proof.
  destruct r as [[b' buf] [[]| | |]]; simpl; try case_match; simpl; by rewrite ?app_nil_r.
Qed.

Lemma drain_with_available buf bld av :
  drain (mk_reply_builder buf bld av) =
  let '(rb', o) := drain (mk_reply_builder buf bld []) in
  (mk_reply_builder (Builders.m_buffer rb') (Builders.m_builder rb') (av ++ m_available_replies rb'), o).
Proof.
  assert (forall n rb av0, rb_measure rb < n ->
    drain (mk_reply_builder (Builders.m_buffer rb) (Builders.m_builder rb) (av0 ++ m_available_replies rb)) =
    let '(rb', o) := drain rb in
    (mk_reply_builder (Builders.m_buffer rb') (Builders.m_builder rb')
       (av0 ++ m_available_replies rb'), o)) as Hgen.
  { intros n. induction n as [|n IH]; intros rb av0 Hn; [lia|].
    rewrite (drain_eq rb), (drain_eq (mk_reply_builder _ _ _)), !build_reply_start.
    destruct rb as [bf bl av']; unfold rb_start; cbn [Builders.m_buffer Builders.m_builder m_available_replies].
    destruct bf as [|c rest]; [done|].
    set (start := match bl with Some _ => _ | None => _ end).
    destruct start as [[b buffer]| | |] eqn:Es; try done.
    rewrite (rb_result_available av'), (rb_result_available (av0 ++ av')).
    destruct (rb_result [] (push b buffer)) as [rb1 o1] eqn:E; cbn [fst snd].
    destruct o1 as [[]| | |]; cbn [Builders.m_buffer Builders.m_builder m_available_replies];
      rewrite <- ?app_assoc; try done.
    apply (IH (mk_reply_builder (Builders.m_buffer rb1) (Builders.m_builder rb1)
                 (av' ++ m_available_replies rb1))).
    assert (build_reply (mk_reply_builder (String c rest) bl av') =
            (mk_reply_builder (Builders.m_buffer rb1) (Builders.m_builder rb1)
               (av' ++ m_available_replies rb1), Ret true)) as Hb.
    { rewrite build_reply_start. unfold rb_start. cbn [Builders.m_buffer Builders.m_builder].
      fold start. rewrite Es. cbn [m_available_replies].
      rewrite rb_result_available, E. done. }
    apply build_reply_measure in Hb as [Hm _]. lia. }
  specialize (Hgen _ (mk_reply_builder buf bld []) av (Nat.lt_succ_diag_r _)).
  cbn [Builders.m_buffer Builders.m_builder m_available_replies] in Hgen.
  by rewrite app_nil_r in Hgen.
Qed.
Definition add_replies (av : list reply) (r : reply_builder * outcome unit) : reply_builder * outcome unit :=
  (mk_reply_builder (Builders.m_buffer r.1) (Builders.m_builder r.1)
     (av ++ m_available_replies r.1), r.2).

Lemma feed_with_available data buf bld av :
  feed data (mk_reply_builder buf bld av) = add_replies av (feed data (mk_reply_builder buf bld [])).
Proof.
  rewrite !feed_drain. unfold append_data; cbn [Builders.m_buffer Builders.m_builder m_available_replies].
  rewrite drain_with_available. by destruct (drain _).
Qed.

Lemma feed_all_with_available packets buf bld av :
  feed_all packets (mk_reply_builder buf bld av) =
  add_replies av (feed_all packets (mk_reply_builder buf bld [])).
Proof.
  revert buf bld av; induction packets as [|p packets IH]; intros buf bld av; cbn [feed_all].
  - unfold add_replies; simpl. by rewrite app_nil_r.
  - rewrite feed_with_available. destruct (feed p _) as [[bf bl av1] o]; unfold add_replies; simpl.
    destruct o; try done. rewrite (IH _ _ (av ++ av1)), (IH _ _ av1).
    unfold add_replies; simpl. by rewrite app_assoc.
Qed.

(** A stream of packets without a failure. *)
Lemma receive_all_ok packets conn b :
  m_reply_callback conn = true -> is_connected conn = true -> no_replies (m_builder conn) ->
  feed_all packets (m_builder conn) = (b, Ret tt) ->
  exists c, receive_all packets conn =
            (Ret tt, set_tcp c (set_builder (clear_replies b) conn),
             ReplyReceived <$> m_available_replies b) /\
            tc_is_connected c = true /\
            tc_reads c = length packets + tc_reads (m_client conn) /\
            tc_output c = tc_output (m_client conn).
Proof.
  revert conn b; induction packets as [|p packets IH]; intros conn b Hr Hc Hn Hf; cbn [feed_all] in Hf.
  - simplify_eq. exists (m_client conn). unfold no_replies in Hn. cbn [receive_all]. rewrite Hn.
    split_and!; [|done..]. destruct conn as [c rc dh [bf bl av] s]; simpl in *. by subst.
  - destruct (feed p (m_builder conn)) as [b1 o1] eqn:E1.
    destruct o1 as [[]| | |]; try by simplify_eq.
    destruct (receive_ok conn p b1 Hr Hc E1) as (c1 & Hrec & Hcc & Hrd & Ho).
    cbn [receive_all]. rewrite Hrec.
    destruct b1 as [bf bl av1]. unfold clear_replies in *; cbn [Builders.m_buffer Builders.m_builder m_available_replies] in *.
    rewrite feed_all_with_available in Hf. unfold add_replies in Hf.
    destruct (feed_all packets (mk_reply_builder bf bl [])) as [b2 o2] eqn:E2. simplify_eq/=.
    destruct (IH (set_tcp c1 (set_builder (mk_reply_builder bf bl []) conn)) b2) as (c2 & Hrec2 & ? & Hrd2 & ?);
      [done..|].
    rewrite Hrec2. exists c2. split_and!; [|done|simpl in *; lia|simpl in *; congruence].
    rewrite fmap_app. by destruct b2.
Qed.
End connection_facts.

(** ** Properties *)

(** Commands round-trip: any number of pipelined commands, built by
    [build_command] and written back to back, are parsed as exactly those
    arrays of bulk strings, byte for byte, whatever bytes the arguments hold. *)
Theorem commands_roundtrip cmds packets :
  forallb sendable cmds = true ->
  concat_packets packets = concat_packets (build_command <$> cmds) ->
  feed_all packets reply_builder_init =
  (mk_reply_builder "" None ((fun c => reply_of (command_value c)) <$> cmds), Ret tt).
Proof.
  intros Hs Hp. apply feed_all_feed; [apply settled_init|]. rewrite Hp.
  by apply build_commands_parse.
Qed.

(** C26: A connected connection delivers the replies of a well-formed stream to
    its owner exactly once and in order, whatever the packets, and arms one
    read for each packet it handled. *)
Theorem connection_delivers_stream {T} `{TcpClientLaws T} (conn : redis_connection T) packets vs :
  m_reply_callback conn = true -> is_connected conn = true ->
  m_builder conn = reply_builder_init ->
  forallb wire_ok vs = true -> concat_packets packets = encode_all vs ->
  exists conn',
    receive_all packets conn = (Ret tt, conn', ReplyReceived <$> (reply_of <$> vs)) /\
    m_builder conn' = reply_builder_init /\ is_connected conn' = true /\
    tc_reads (m_client conn') = length packets + tc_reads (m_client conn).
Proof.
  intros Hr Hc Hb Hok Hp.
  destruct (receive_all_ok packets conn (mk_reply_builder "" None (reply_of <$> vs)) Hr Hc)
    as (c & Hrec & Hcc & Hrd & _); rewrite ?Hb.
  - done.
  - by apply (feed_all_encode packets vs []).
  - eexists. split_and!; [exact Hrec|done..].
Qed.

(** After a packet with an unknown type byte the connection is neither
    closed nor read again: the owner hears of a disconnection, the TCP client
    stays connected with no read armed, and the invalid data is kept. *)
Theorem invalid_packet_stalls_connection {T} `{TcpClientLaws T} (conn : redis_connection T) c rest w :
  create_builder c = Throw (redis_error w) ->
  m_builder conn = reply_builder_init -> is_connected conn = true ->
  exists conn',
    tcp_client_receive_handler true (String c rest) conn =
      (Ret tt, conn', call_disconnection_handler conn) /\
    m_client conn' = m_client conn /\ is_connected conn' = true /\
    Builders.m_buffer (m_builder conn') = String c rest /\
    forall data, (feed data (m_builder conn')).2 = Throw (redis_error w).
Proof.
  intros Hc Hb Hcc.
  assert (feed (String c rest) (m_builder conn) =
          (mk_reply_builder (String c rest) None [], Throw (redis_error w))) as Hf.
  { rewrite Hb, feed_drain. by apply drain_invalid. }
  eexists. split; [exact (receive_invalid _ _ _ _ Hf)|]. split_and!; [done..|].
  intros data. rewrite feed_drain. cbn [m_builder set_builder].
  unfold append_data; cbn [Builders.m_buffer Builders.m_builder m_available_replies String.append].
  by rewrite (drain_invalid _ _ _ _ Hc).
Qed.

(** A reply that a disconnection cut short survives the reconnection: nothing
    resets the parser, so the first bytes of the new connection are taken as the
    rest of that reply, and what is delivered is what the two streams make
    together. *)
Theorem partial_reply_survives_reconnection {T} `{TcpClientLaws T} (conn conn' : redis_connection T)
    h p ms cut packets vs :
  feed cut reply_builder_init = (m_builder conn, Ret tt) -> m_available_replies (m_builder conn) = [] ->
  connect h p ms true true (tcp_client_disconnection_handler conn).1 = (Ret tt, conn') ->
  forallb wire_ok vs = true -> cut +:+ concat_packets packets = encode_all vs ->
  exists conn'', receive_all packets conn' = (Ret tt, conn'', ReplyReceived <$> (reply_of <$> vs)) /\
    m_builder conn'' = reply_builder_init.
Proof.
  intros Hf Hn Hconn Hok Hp.
  destruct (connect_fields _ _ _ _ _ _ _ Hconn) as (Hb & Hr & Hc).
  change (m_builder (tcp_client_disconnection_handler conn).1) with (m_builder conn) in Hb.
  destruct (receive_all_ok packets conn' (mk_reply_builder "" None (reply_of <$> vs)) Hr Hc) as (c & Hrec & _).
  - by rewrite Hb.
  - pose proof (feed_all_encode (cut :: packets) vs [] Hok Hp) as Hall. cbn [feed_all app] in Hall.
    change (mk_reply_builder "" None []) with reply_builder_init in Hall. rewrite Hf in Hall. by rewrite Hb.
  - by eexists.
Qed.

(** ** Witnesses *)

(** A connection that has been opened over a tacopie client. *)
Definition sample_connection : redis_connection tacopie.tcp_client :=
  (connect "127.0.0.1" 6379 0 true true (init (tacopie.init [true] []))).2.

Lemma commands_roundtrip_witness :
  feed_all ["*2" +:+ crlf +:+ "$3" +:+ crlf +:+ "GE";
            "T" +:+ crlf +:+ "$3" +:+ crlf +:+ "a" +:+ crlf +:+ crlf]
    reply_builder_init =
  (mk_reply_builder "" None
     ((fun c => reply_of (command_value c)) <$> [["GET"; "a" +:+ crlf]]), Ret tt).
Proof. apply commands_roundtrip; vm_compute; reflexivity. Defined.

Lemma connection_delivers_stream_witness :
  exists conn',
    receive_all sample_packets sample_connection =
      (Ret tt, conn', ReplyReceived <$> (reply_of <$> sample_replies)) /\
    m_builder conn' = reply_builder_init /\ is_connected conn' = true /\
    tc_reads (m_client conn') = length sample_packets + tc_reads (m_client sample_connection).
Proof. apply connection_delivers_stream; vm_compute; reflexivity. Defined.

Lemma invalid_packet_stalls_connection_witness :
  exists conn',
    tcp_client_receive_handler true "?boom" sample_connection =
      (Ret tt, conn', call_disconnection_handler sample_connection) /\
    m_client conn' = m_client sample_connection /\ is_connected conn' = true /\
    Builders.m_buffer (m_builder conn') = "?boom" /\
    forall data, (feed data (m_builder conn')).2 = Throw (redis_error "Invalid data").
Proof. apply invalid_packet_stalls_connection; vm_compute; reflexivity. Defined.

(** A bulk string of ten bytes, cut after three; the new connection then answers
    two commands, and one wrong reply is delivered for both. *)
Definition cut_connection : redis_connection tacopie.tcp_client :=
  let conn := (connect "127.0.0.1" 6379 0 true true (init (tacopie.init [true; true] []))).2 in
  let conn := (tcp_client_receive_handler true ("$10" +:+ crlf +:+ "abc") conn).1.2 in
  set_tcp (tc_disconnect false (m_client conn)) conn.

Lemma partial_reply_survives_reconnection_witness :
  exists conn'', receive_all ["+OK" +:+ crlf; "+1" +:+ crlf]
      (connect "127.0.0.1" 6379 0 true true (tcp_client_disconnection_handler cut_connection).1).2 =
    (Ret tt, conn'', ReplyReceived <$> (reply_of <$> [VBulk ("abc+OK" +:+ crlf +:+ "+1")])) /\
    m_builder conn'' = reply_builder_init.
Proof.
  apply (partial_reply_survives_reconnection cut_connection _ "127.0.0.1" 6379 0 ("$10" +:+ crlf +:+ "abc"));
    vm_compute; reflexivity.
Defined.
