(* ===== verification/ConnectionWire.v ===== *)
(** The bytes of the commands, from [redis_connection::send] to the socket: a
    connection over tacopie's client, with the callbacks the io_service makes for the
    socket, and what its peer parses. *)

From S2P Require Import Prelude Text Reply Builders BuilderFacts ReplyStream TcpClient Connection ConnectionFacts.

Abbreviation wired := (redis_connection tacopie.tcp_client).

(** What happens to a connection: its owner's calls, and the callbacks of the socket. *)
Inductive wire_op : Type :=
| WSend (redis_cmd : list string)
| WCommit
| WWritable
| WReadable (recv : option string).

(** The io_service has a write callback: [on_write_available], and the disconnection
    handler when it failed. *)
Definition writable (conn : wired) : wired :=
  if tacopie.wr_callback (m_client conn) then
    match tacopie.on_write_available (m_client conn) with
    | (Ret true, t) => (tcp_client_disconnection_handler (set_tcp t conn)).1
    | (_, t) => set_tcp t conn
    end
  else conn.

(** And a read callback: [on_read_available], with the handler bound to the request. *)
Definition readable (recv : option string) (conn : wired) : wired :=
  if tacopie.rd_callback (m_client conn) then
    match tacopie.on_read_available recv (m_client conn) with
    | (Ret (success, data, disconnection), t) =>
      let conn := (tcp_client_receive_handler success data (set_tcp t conn)).1.2 in
      if disconnection then (tcp_client_disconnection_handler conn).1 else conn
    | (_, t) => set_tcp t conn
    end
  else conn.

Definition wire_step (op : wire_op) (conn : wired) : wired :=
  match op with
  | WSend redis_cmd => send redis_cmd conn
  | WCommit => (commit conn).2
  | WWritable => writable conn
  | WReadable recv => readable recv conn
  end.

Definition wire_run (ops : list wire_op) (conn : wired) : wired := fold_left (fun conn op => wire_step op conn) ops conn.

Definition commands_of (ops : list wire_op) : list (list string) :=
  omap (fun op => match op with WSend cmd => Some cmd | _ => None end) ops.

(** ** Ideal sends

    The next [send] takes its whole buffer, and no read fails. *)
Definition whole_op (op : wire_op) (conn : wired) : bool :=
  match op with
  | WWritable =>
    match tacopie.m_write_requests (m_client conn), tacopie.os_sends (m_client conn) with
    | [], _ => true
    | buffer :: _, Some k :: _ => String.length buffer <=? k
    | _, _ => false
    end
  | WReadable recv => match recv with Some _ => true | None => false end
  | _ => true
  end.

Fixpoint whole (ops : list wire_op) (conn : wired) : bool :=
  match ops with
  | [] => true
  | op :: ops => whole_op op conn && whole ops (wire_step op conn)
  end.

(** The bytes sent, those of the requests that wait, and those not committed. *)
Definition pending (conn : wired) : string :=
  concat_packets (tacopie.m_write_requests (m_client conn)) +:+ m_buffer conn.
Definition outgoing (conn : wired) : string := tacopie.sent (m_client conn) +:+ pending conn.

(** The write callback is set exactly while requests wait. *)
Definition arms (t : tacopie.tcp_client) : Prop :=
  tacopie.wr_callback t = match tacopie.m_write_requests t with [] => false | _ => true end.

(** A connection that is up, whose service waits for what it has to write. *)
Definition up (conn : wired) : Prop := is_connected conn = true /\ arms (m_client conn).

(** What a read leaves alone. *)
Definition same_writes (conn conn' : wired) : Prop :=
  tacopie.m_is_connected (m_client conn') = tacopie.m_is_connected (m_client conn) /\
  tacopie.m_write_requests (m_client conn') = tacopie.m_write_requests (m_client conn) /\
  tacopie.wr_callback (m_client conn') = tacopie.wr_callback (m_client conn) /\
  tacopie.sent (m_client conn') = tacopie.sent (m_client conn) /\
  tacopie.os_sends (m_client conn') = tacopie.os_sends (m_client conn) /\
  m_buffer conn' = m_buffer conn.

Lemma deliver_tcp n (conn : wired) : m_client (deliver n conn).1 = m_client conn /\ m_buffer (deliver n conn).1 = m_buffer conn.
Proof.
  revert conn. induction n as [|n IH]; intros conn; [done|]. cbn [deliver].
  destruct (reply_available _); [|done]. destruct (get_front _) as [r| | |]; try done. destruct (pop_front _) as [b| | |]; try done.
  specialize (IH (set_builder b conn)). by destruct (deliver n _).
Qed.

Lemma receive_same success data (conn : wired) :
  same_writes conn (tcp_client_receive_handler success data conn).1.2.
Proof.
  unfold tcp_client_receive_handler. destruct success; [|done]. cbn [negb]. destruct (feed data _) as [b [[]|e| |]].
  - pose proof (deliver_tcp (length (m_available_replies b)) (set_builder b conn)) as [Hc Hb].
    destruct (deliver _ _) as [conn1 ev]. cbn [fst] in Hc, Hb. cbn [tc_async_read tacopie_tcp_client].
    change (m_client (set_builder b conn)) with (m_client conn) in Hc.
    change (m_buffer (set_builder b conn)) with (m_buffer conn) in Hb.
    unfold tacopie.async_read, tacopie.is_connected, same_writes. rewrite Hc.
    destruct (tacopie.m_is_connected (m_client conn)) eqn:E; cbn; by rewrite ?Hc, ?Hb, ?E.
  - by destruct e.
  - done.
  - done.
Qed.

Lemma readable_same data (conn : wired) : same_writes conn (readable (Some data) conn).
Proof.
  unfold readable. destruct (tacopie.rd_callback _); [|done].
  unfold tacopie.on_read_available, tacopie.process_read. destruct (tacopie.m_read_requests (m_client conn)) as [|n reqs]; [done|].
  match goal with |- context [set_tcp ?t conn] => exact (receive_same true data (set_tcp t conn)) end.
Qed.

(** ** Every step keeps the bytes *)

Lemma s_take_all k s : String.length s <= k -> s_take k s = s.
Proof. revert k. induction s as [|c s IH]; intros [|k] Hk; cbn in *; [done|done|lia|]. rewrite IH by lia. done. Qed.

Lemma wire_step_keeps op (conn : wired) :
  up conn -> whole_op op conn = true ->
  up (wire_step op conn) /\
  outgoing (wire_step op conn) = outgoing conn +:+ concat_packets (build_command <$> commands_of [op]).
Proof.
  unfold up, outgoing, pending, is_connected, arms. cbn [tc_is_connected tacopie_tcp_client]. unfold tacopie.is_connected.
  intros [Hc Ha] Hw. destruct op as [cmd| | |recv]; cbn [wire_step].
  - split; [done|]. cbn. by rewrite !s_app_assoc, s_app_nil_r.
  - unfold commit. cbn [tc_async_write tacopie_tcp_client]. unfold tacopie.async_write, tacopie.is_connected.
    change (m_client (set_buffer "" conn)) with (m_client conn). rewrite Hc. split; [split; [done|]|].
    + cbn. by destruct (tacopie.m_write_requests _).
    + cbn. rewrite concat_packets_app. cbn. by rewrite !s_app_nil_r.
  - unfold writable. rewrite Ha. cbn [whole_op] in Hw. change (concat_packets (build_command <$> commands_of [WWritable])) with "". rewrite s_app_nil_r.
    destruct (tacopie.m_write_requests (m_client conn)) as [|buffer reqs] eqn:Er; [by rewrite Hc, Ha, Er|].
    unfold tacopie.on_write_available, tacopie.process_write. rewrite Er.
    destruct (tacopie.os_sends (m_client conn)) as [|[k|] sends]; try done. apply Nat.leb_le in Hw.
    cbn. rewrite Nat.min_r, s_take_all by done. split; [split; [done|]|].
    + by destruct reqs.
    + change (concat_packets (buffer :: reqs)) with (buffer +:+ concat_packets reqs). by rewrite !s_app_assoc.
  - destruct recv as [data|]; [|done]. destruct (readable_same data conn) as (E1 & E2 & E3 & E4 & _ & E6).
    rewrite E1, E2, E3, E4, E6. split; [done|]. cbn. by rewrite s_app_nil_r.
Qed.

Lemma commands_of_cons op ops : commands_of (op :: ops) = commands_of [op] ++ commands_of ops.
Proof. by destruct op. Qed.

Lemma wire_run_keeps ops (conn : wired) :
  up conn -> whole ops conn = true ->
  up (wire_run ops conn) /\
  outgoing (wire_run ops conn) = outgoing conn +:+ concat_packets (build_command <$> commands_of ops).
Proof.
  revert conn. induction ops as [|op ops IH]; intros conn Hup Hw; [by rewrite s_app_nil_r|].
  cbn [whole] in Hw. apply andb_true_iff in Hw as [Hop Hw]. destruct (wire_step_keeps op conn Hup Hop) as [Hup1 Ho1].
  destruct (IH _ Hup1 Hw) as [Hup2 Ho2]. split; [exact Hup2|]. change (wire_run (op :: ops) conn) with (wire_run ops (wire_step op conn)).
  by rewrite Ho2, Ho1, s_app_assoc, (commands_of_cons op ops), fmap_app, concat_packets_app.
Qed.

(** A commit, and as many write callbacks as there are requests, leave nothing. *)
Lemma writable_drains n (conn : wired) :
  up conn -> whole (repeat WWritable n) conn = true -> m_buffer conn = "" ->
  length (tacopie.m_write_requests (m_client conn)) <= n ->
  pending (wire_run (repeat WWritable n) conn) = "".
Proof.
  revert conn. induction n as [|n IH]; intros conn Hup Hw Hb Hn.
  - unfold pending. cbn. destruct (tacopie.m_write_requests _); [done|cbn in Hn; lia].
  - cbn [repeat whole] in Hw. apply andb_true_iff in Hw as [Hop Hw]. destruct (wire_step_keeps WWritable conn Hup Hop) as [Hup1 _].
    apply (IH (wire_step WWritable conn)); [done|exact Hw| |]; clear IH Hw Hup1; destruct Hup as [_ Ha];
      cbn [wire_step whole_op] in *; unfold writable; rewrite Ha;
      destruct (tacopie.m_write_requests (m_client conn)) as [|buffer reqs] eqn:Er; try done; [| by rewrite Er; cbn in *; lia|];
      unfold tacopie.on_write_available, tacopie.process_write; rewrite Er;
      destruct (tacopie.os_sends (m_client conn)) as [|[k|] sends]; try done. cbn in *. lia.
Qed.

(** ** Properties *)

(** C25: What is sent is what the peer executes: on a connection that has just been
    made, whatever its owner sends and commits and in whatever order the socket
    becomes writable and readable, as long as each send of the system takes its whole
    buffer, the connection stays up, and the bytes sent, then those that wait, are the
    commands in order; and after a commit, and as many write callbacks as requests
    wait, the peer, however it reads the bytes, parses exactly those commands. *)
Theorem wire_carries_commands host port ms connects sends dh rc (conn : wired) ops :
  connect host port ms dh rc (init (tacopie.init connects sends)) = (Ret tt, conn) -> whole ops conn = true ->
  is_connected (wire_run ops conn) = true /\
  tacopie.sent (m_client (wire_run ops conn)) +:+ pending (wire_run ops conn) =
    concat_packets (build_command <$> commands_of ops) /\
  forall n packets, let flush := WCommit :: repeat WWritable n in
    length (tacopie.m_write_requests (m_client (wire_run ops conn))) < n -> whole flush (wire_run ops conn) = true ->
    forallb sendable (commands_of ops) = true ->
    concat_packets packets = tacopie.sent (m_client (wire_run flush (wire_run ops conn))) ->
    feed_all packets reply_builder_init =
      (mk_reply_builder "" None ((fun c => reply_of (command_value c)) <$> commands_of ops), Ret tt).
Proof.
  intros Hcon Hw. assert (up conn /\ outgoing conn = "") as [Hup Ho].
  { revert Hcon. unfold connect. cbn. by destruct connects as [|[] connects]; cbn; intros; simplify_eq. }
  destruct (wire_run_keeps ops conn Hup Hw) as [[Hc Ha] Ho']. rewrite Ho in Ho'. split; [exact Hc|]. split; [exact Ho'|].
  intros n packets flush Hn Hf Hs Hp. set (conn1 := wire_run ops conn) in *.
  destruct (wire_run_keeps flush conn1 (conj Hc Ha) Hf) as [_ Hflush].
  assert (commands_of flush = []) as Hcs by (subst flush; clear; by induction n).
  rewrite Hcs, s_app_nil_r, Ho' in Hflush.
  cbn [flush whole] in Hf. apply andb_true_iff in Hf as [Hop Hf].
  destruct (wire_step_keeps WCommit conn1 (conj Hc Ha) Hop) as [Hup1 _].
  assert (pending (wire_run flush conn1) = "") as Hnone.
  { change (wire_run flush conn1) with (wire_run (repeat WWritable n) (wire_step WCommit conn1)).
    apply writable_drains; [done|exact Hf|..]; cbn [wire_step]; unfold commit; cbn [tc_async_write tacopie_tcp_client];
      unfold tacopie.async_write; change (tacopie.is_connected (m_client (set_buffer "" conn1))) with (is_connected conn1); rewrite Hc.
    - done.
    - cbn. rewrite length_app. cbn. lia. }
  unfold outgoing in Hflush. rewrite Hnone, s_app_nil_r in Hflush. apply feed_all_feed; [apply settled_init|].
  rewrite Hp, Hflush. by apply build_commands_parse.
Qed.

(** A send that takes less than its buffer loses the rest: [process_write] pops the
    request whatever [send] has returned, the connection stays up, and the next
    request follows the cut one on the wire. *)
Theorem short_send_loses_rest (conn : wired) buffer reqs k sends :
  up conn -> tacopie.m_write_requests (m_client conn) = buffer :: reqs ->
  tacopie.os_sends (m_client conn) = Some k :: sends -> k < String.length buffer ->
  is_connected (writable conn) = true /\
  outgoing conn = tacopie.sent (m_client conn) +:+ buffer +:+ concat_packets reqs +:+ m_buffer conn /\
  outgoing (writable conn) = tacopie.sent (m_client conn) +:+ s_take k buffer +:+ concat_packets reqs +:+ m_buffer conn.
Proof.
  intros [Hc Ha] Hr Hs Hk. unfold writable. rewrite Ha, Hr. unfold tacopie.on_write_available, tacopie.process_write. rewrite Hr, Hs.
  split; [exact Hc|]. unfold outgoing, pending. split.
  - rewrite Hr. change (concat_packets (buffer :: reqs)) with (buffer +:+ concat_packets reqs). by rewrite !s_app_assoc.
  - cbn. rewrite Nat.min_l by lia. by rewrite !s_app_assoc.
Qed.

(** ** Witnesses *)

Definition wire_connection (sends : list (option nat)) : wired :=
  (connect "127.0.0.1" 6379 0 true true (init (tacopie.init [true] sends))).2.

(** Two commands in one request; a third while the first packet of replies comes. *)
Definition wire_ops : list wire_op :=
  [WSend ["SET"; "a"; "1"]; WSend ["GET"; "a"]; WCommit; WWritable; WSend ["DEL"; "a"]; WReadable (Some ("+OK" +:+ crlf))].

Lemma wire_carries_commands_witness :
  is_connected (wire_run wire_ops (wire_connection [Some 100; Some 100])) = true /\
  feed_all [concat_packets (build_command <$> commands_of wire_ops)] reply_builder_init =
    (mk_reply_builder "" None ((fun c => reply_of (command_value c)) <$> commands_of wire_ops), Ret tt).
Proof.
  destruct (wire_carries_commands "127.0.0.1" 6379 0 [true] [Some 100; Some 100] true true
    (wire_connection [Some 100; Some 100]) wire_ops) as (Hc & _ & Hf); [vm_compute; reflexivity..|].
  split; [exact Hc|]. apply (Hf 1); vm_compute; reflexivity.
Defined.

(** The system takes 30 bytes of the first of two requests: the peer takes bytes of the
    second for the rest of the value, and refuses what follows. *)
Definition short_connection : wired :=
  wire_run [WSend ["SET"; "a"; "some value"]; WCommit; WSend ["GET"; "a"]; WCommit] (wire_connection [Some 30; Some 100]).

Lemma short_send_loses_rest_witness :
  (feed (tacopie.sent (m_client (wire_run [WWritable; WWritable] short_connection))) reply_builder_init).2 =
    Throw (redis_error "Wrong ending sequence") /\
  is_connected (writable short_connection) = true.
Proof.
  split; [vm_compute; reflexivity|].
  apply (short_send_loses_rest short_connection (build_command ["SET"; "a"; "some value"]) [build_command ["GET"; "a"]] 30 [Some 100]);
    [by split|vm_compute; reflexivity..|]. vm_compute. lia.
Defined.
