(* ===== verification/Client.v ===== *)
(** [cpp_redis::client], its core (sources/core/client.cpp, lines 1 to 425, and
    [exec_cmd]): the queue of pending commands and their callbacks, the commit
    of pipelined commands, the reception of replies, and the reconnection
    flow.  Generic in the TCP client, in the sentinel that looks masters up,
    and in the user's callbacks.

    Every call of user code is recorded in [trace]: a callback with the reply
    it was given, or the connect callback with its state.  The detached
    threads of [clear_callbacks] are explicit: [threads] holds what each has
    still to run and [thread_step] runs one command of one of them.  The
    atomic counter [m_callbacks_running] is a 32-bit unsigned integer. *)

From S2P Require Import Prelude Text Reply Builders TcpClient Connection.

(** client::connect_state *)
Inductive connect_state : Type :=
| dropped | start | sleeping | connect_ok | connect_failed | lookup_failed | stopped.

#[export] Instance connect_state_eq_dec : EqDecision connect_state.
Proof. solve_decision. Defined.

(** What the client asks of its sentinel: the address of a master.  The pair is
    what [host] and [port], passed by reference, hold after the call, whatever
    its outcome. *)
Class SentinelLookup (S : Type) : Type := {
  get_master_addr_by_name : string -> S -> outcome bool * (string * Z) * S }.

(** The callbacks a command can carry: one of the user's, or one of the two
    lambdas of [re_auth] and [re_select]. *)
Inductive reply_callback (C : Type) : Type :=
| UserCallback (c : C)
| ReAuthCallback
| ReSelectCallback.
Arguments UserCallback {C}.
Arguments ReAuthCallback {C}.
Arguments ReSelectCallback {C}.

Record command_request (C : Type) : Type := mk_request {
  command : list string;
  callback : option (reply_callback C) }.
Arguments mk_request {C}.
Arguments command {C}.
Arguments callback {C}.

Inductive client_event (C : Type) : Type :=
| Called (c : C) (r : reply)
| ConnectCallback (host : string) (port : Z) (st : connect_state).
Arguments Called {C}.
Arguments ConnectCallback {C}.

(** The fields [connect] and the commands set for reconnections. *)
Record client_config : Type := mk_config {
  m_redis_server : string;
  m_redis_port : Z;
  m_master_name : string;
  m_password : string;
  m_database_index : Z;
  m_connect_timeout_msecs : Z;
  m_max_reconnects : Z;
  m_reconnect_interval_msecs : Z }.

Definition config_init : client_config := mk_config "" 0 "" "" 0 0 0 0.

Definition set_server (host : string) (port : Z) (c : client_config) : client_config :=
  mk_config host port (m_master_name c) (m_password c) (m_database_index c)
    (m_connect_timeout_msecs c) (m_max_reconnects c) (m_reconnect_interval_msecs c).
Definition set_reconnects (max interval : Z) (c : client_config) : client_config :=
  mk_config (m_redis_server c) (m_redis_port c) (m_master_name c) (m_password c)
    (m_database_index c) (m_connect_timeout_msecs c) max interval.
Definition set_master_name (name : string) (c : client_config) : client_config :=
  mk_config (m_redis_server c) (m_redis_port c) name (m_password c) (m_database_index c)
    (m_connect_timeout_msecs c) (m_max_reconnects c) (m_reconnect_interval_msecs c).
Definition set_password (password : string) (c : client_config) : client_config :=
  mk_config (m_redis_server c) (m_redis_port c) (m_master_name c) password (m_database_index c)
    (m_connect_timeout_msecs c) (m_max_reconnects c) (m_reconnect_interval_msecs c).
Definition set_database_index (index : Z) (c : client_config) : client_config :=
  mk_config (m_redis_server c) (m_redis_port c) (m_master_name c) (m_password c) index
    (m_connect_timeout_msecs c) (m_max_reconnects c) (m_reconnect_interval_msecs c).

Record client_state (T S C : Type) : Type := mk_client {
  m_config : client_config;
  m_client : redis_connection T;
  m_sentinel : S;
  m_current_reconnect_attempts : Z;
  m_reconnecting : bool;
  m_cancel : bool;
  m_commands : list (command_request C);
  m_connect_callback : bool;
  m_callbacks_running : Z;
  threads : list (list (command_request C));
  trace : list (client_event C) }.
Arguments mk_client {T S C}.
Arguments m_config {T S C}.
Arguments m_client {T S C}.
Arguments m_sentinel {T S C}.
Arguments m_current_reconnect_attempts {T S C}.
Arguments m_reconnecting {T S C}.
Arguments m_cancel {T S C}.
Arguments m_commands {T S C}.
Arguments m_connect_callback {T S C}.
Arguments m_callbacks_running {T S C}.
Arguments threads {T S C}.
Arguments trace {T S C}.

Section client.
Context {T S C : Type} `{TcpClient T} `{SentinelLookup S}.

Abbreviation client := (client_state T S C).
Abbreviation request := (command_request C).

Definition set_m_config (x : client_config) (s : client) : client :=
  mk_client x (m_client s) (m_sentinel s) (m_current_reconnect_attempts s)
    (m_reconnecting s) (m_cancel s) (m_commands s) (m_connect_callback s)
    (m_callbacks_running s) (threads s) (trace s).
Definition set_m_client (x : redis_connection T) (s : client) : client :=
  mk_client (m_config s) x (m_sentinel s) (m_current_reconnect_attempts s)
    (m_reconnecting s) (m_cancel s) (m_commands s) (m_connect_callback s)
    (m_callbacks_running s) (threads s) (trace s).
Definition set_m_sentinel (x : S) (s : client) : client :=
  mk_client (m_config s) (m_client s) x (m_current_reconnect_attempts s) (m_reconnecting s)
    (m_cancel s) (m_commands s) (m_connect_callback s) (m_callbacks_running s) (threads s)
    (trace s).
Definition set_m_current_reconnect_attempts (x : Z) (s : client) : client :=
  mk_client (m_config s) (m_client s) (m_sentinel s) x (m_reconnecting s) (m_cancel s)
    (m_commands s) (m_connect_callback s) (m_callbacks_running s) (threads s) (trace s).
Definition set_m_reconnecting (x : bool) (s : client) : client :=
  mk_client (m_config s) (m_client s) (m_sentinel s) (m_current_reconnect_attempts s) x
    (m_cancel s) (m_commands s) (m_connect_callback s) (m_callbacks_running s) (threads s)
    (trace s).
Definition set_m_cancel (x : bool) (s : client) : client :=
  mk_client (m_config s) (m_client s) (m_sentinel s) (m_current_reconnect_attempts s)
    (m_reconnecting s) x (m_commands s) (m_connect_callback s) (m_callbacks_running s)
    (threads s) (trace s).
Definition set_m_commands (x : list (command_request C)) (s : client) : client :=
  mk_client (m_config s) (m_client s) (m_sentinel s) (m_current_reconnect_attempts s)
    (m_reconnecting s) (m_cancel s) x (m_connect_callback s) (m_callbacks_running s)
    (threads s) (trace s).
Definition set_m_connect_callback (x : bool) (s : client) : client :=
  mk_client (m_config s) (m_client s) (m_sentinel s) (m_current_reconnect_attempts s)
    (m_reconnecting s) (m_cancel s) (m_commands s) x (m_callbacks_running s) (threads s)
    (trace s).
Definition set_m_callbacks_running (x : Z) (s : client) : client :=
  mk_client (m_config s) (m_client s) (m_sentinel s) (m_current_reconnect_attempts s)
    (m_reconnecting s) (m_cancel s) (m_commands s) (m_connect_callback s) x (threads s)
    (trace s).
Definition set_threads (x : list (list (command_request C))) (s : client) : client :=
  mk_client (m_config s) (m_client s) (m_sentinel s) (m_current_reconnect_attempts s)
    (m_reconnecting s) (m_cancel s) (m_commands s) (m_connect_callback s)
    (m_callbacks_running s) x (trace s).
Definition set_trace (x : list (client_event C)) (s : client) : client :=
  mk_client (m_config s) (m_client s) (m_sentinel s) (m_current_reconnect_attempts s)
    (m_reconnecting s) (m_cancel s) (m_commands s) (m_connect_callback s)
    (m_callbacks_running s) (threads s) x.

Definition init (tcp : T) (sentinel : S) : client :=
  mk_client config_init (Connection.init tcp) sentinel 0 false false [] false 0 [] [].

Definition emit (e : client_event C) (s : client) : client := set_trace (trace s ++ [e]) s.

(** [if (m_connect_callback) m_connect_callback(host, port, st)] *)
Definition call_connect_callback (host : string) (port : Z) (st : connect_state) (s : client) : client :=
  if m_connect_callback s then emit (ConnectCallback host port st) s else s.

(** The same, with the stored server. *)
Definition notify (st : connect_state) (s : client) : client :=
  call_connect_callback (m_redis_server (m_config s)) (m_redis_port (m_config s)) st s.

(** Running a callback.  The lambdas of [re_auth] and [re_select] log the
    reply, which throws when it is not a string. *)
Definition run_callback (cb : reply_callback C) (r : reply) (s : client) : outcome unit * client :=
  match cb with
  | UserCallback c => (Ret tt, emit (Called c r) s)
  | ReAuthCallback | ReSelectCallback =>
    (if is_string r && bool_decide (as_string r = Ret "OK") then Ret tt
     else omap_outcome (fun _ => tt) (as_string r), s)
  end.

Definition is_connected (s : client) : bool := Connection.is_connected (m_client s).
Definition is_reconnecting (s : client) : bool := m_reconnecting s.
Definition cancel_reconnect (s : client) : client := set_m_cancel true s.

Definition unprotected_send (redis_cmd : list string) (cb : option (reply_callback C)) (s : client) : client :=
  set_m_commands (m_commands s ++ [mk_request redis_cmd cb])
    (set_m_client (Connection.send redis_cmd (m_client s)) s).

Definition send (redis_cmd : list string) (cb : option (reply_callback C)) (s : client) : client :=
  unprotected_send redis_cmd cb s.

Definition unprotected_auth (password : string) (cb : option (reply_callback C)) (s : client) : client :=
  unprotected_send ["AUTH"; password] cb (set_m_config (set_password password (m_config s)) s).

Definition auth (password : string) (cb : option (reply_callback C)) (s : client) : client :=
  unprotected_auth password cb s.

Definition unprotected_select (index : Z) (cb : option (reply_callback C)) (s : client) : client :=
  unprotected_send ["SELECT"; to_string index] cb
    (set_m_config (set_database_index index (m_config s)) s).

Definition select (index : Z) (cb : option (reply_callback C)) (s : client) : client :=
  unprotected_select index cb s.

(** The queue is moved to a detached thread, and counted as running. *)
Definition clear_callbacks (s : client) : client :=
  match m_commands s with
  | [] => s
  | commands =>
    set_threads (threads s ++ [commands])
      (set_m_callbacks_running (wrap_u32 (m_callbacks_running s + Z.of_nat (length commands)))
         (set_m_commands [] s))
  end.

Definition network_failure : reply := reply_string "network failure" st_error.

(** One turn of the loop of detached thread [i].  The threads share the
    counter; a callback that throws would end the process. *)
Definition thread_step (i : nat) (s : client) : outcome unit * client :=
  match threads s !! i with
  | None | Some [] => (Ret tt, s)
  | Some (req :: commands) =>
    let '(o, s1) :=
      match callback req with
      | Some cb => run_callback cb network_failure s
      | None => (Ret tt, s)
      end in
    (o, set_threads (<[i := commands]> (threads s1))
          (set_m_callbacks_running (wrap_u32 (m_callbacks_running s1 - 1)) s1))
  end.

Definition try_commit (s : client) : outcome unit * client :=
  match Connection.commit (m_client s) with
  | (Throw (redis_error w), conn) => (Throw (redis_error w), clear_callbacks (set_m_client conn s))
  | (o, conn) => (o, set_m_client conn s)
  end.

Definition commit (s : client) : outcome unit * client :=
  if negb (is_reconnecting s) then try_commit s else (Ret tt, s).

(** [sync_commit] commits in the same way, then waits until [sync_done]. *)
Definition sync_commit (s : client) : outcome unit * client :=
  if negb (is_reconnecting s) then try_commit s else (Ret tt, s).

(** The predicate of both waits on [m_sync_condvar]. *)
Definition sync_done (s : client) : bool :=
  (m_callbacks_running s =? 0)%Z && match m_commands s with [] => true | _ => false end.

Definition connection_receive_handler (r : reply) (s : client) : outcome unit * client :=
  let s1 := set_m_callbacks_running (wrap_u32 (m_callbacks_running s + 1)) s in
  let '(cb, s2) :=
    match m_commands s1 with
    | [] => (None, s1)
    | req :: commands => (callback req, set_m_commands commands s1)
    end in
  let '(o, s3) :=
    match cb with
    | Some cb => run_callback cb r s2
    | None => (Ret tt, s2)
    end in
  match o with
  | Ret _ => (Ret tt, set_m_callbacks_running (wrap_u32 (m_callbacks_running s3 - 1)) s3)
  | _ => (o, s3)
  end.

(** The loop of [resend_failed_commands] over the moved queue [commands],
    with its own test: the member [m_commands], not the moved queue. *)
Fixpoint resend_loop (commands : list request) (s : client) : outcome unit * client :=
  match m_commands s with
  | [] => (Ret tt, s)
  | _ =>
    match commands with
    | [] => (Undef, s) (* front() of an empty queue *)
    | req :: commands' => resend_loop commands' (unprotected_send (command req) (callback req) s)
    end
  end.

Definition resend_failed_commands (s : client) : outcome unit * client :=
  match m_commands s with
  | [] => (Ret tt, s)
  | commands => resend_loop commands (set_m_commands [] s)
  end.

Definition disconnect (wait_for_removal : bool) (s : client) : client :=
  clear_callbacks (set_m_client (Connection.disconnect wait_for_removal (m_client s)) s).

(** [connect] to an address.  [timeout_msecs] is used for this attempt and
    not stored. *)
Definition connect (host : string) (port : Z) (connect_callback : bool)
    (timeout_msecs max_reconnects reconnect_interval_msecs : Z) (s : client)
    : outcome unit * client :=
  let s := set_m_config (set_reconnects max_reconnects reconnect_interval_msecs
                           (set_server host port (m_config s))) s in
  let s := set_m_connect_callback connect_callback s in
  let s := call_connect_callback host port start s in
  match Connection.connect host port timeout_msecs true true (m_client s) with
  | (Ret _, conn) => (Ret tt, notify connect_ok (set_m_client conn s))
  | (o, conn) => (o, set_m_client conn s)
  end.

(** [m_sentinel.get_master_addr_by_name(name, m_redis_server, m_redis_port, true)] *)
Definition lookup_master (name : string) (s : client) : outcome bool * client :=
  let '(o, (host, port), sen) := get_master_addr_by_name name (m_sentinel s) in
  (o, set_m_config (set_server host port (m_config s)) (set_m_sentinel sen s)).

(** [connect] to a named master. *)
Definition connect_master (name : string) (connect_callback : bool)
    (timeout_msecs max_reconnects reconnect_interval_msecs : Z) (s : client)
    : outcome unit * client :=
  match lookup_master name (set_m_config (set_master_name name (m_config s)) s) with
  | (Ret true, s) =>
    connect (m_redis_server (m_config s)) (m_redis_port (m_config s)) connect_callback
      timeout_msecs max_reconnects reconnect_interval_msecs s
  | (Ret false, s) =>
    (Throw (redis_error ("cpp_redis::client::connect() could not find master for name " +:+ name)), s)
  | (Throw e, s) => (Throw e, s)
  | (Undef, s) => (Undef, s)
  | (Timeout, s) => (Timeout, s)
  end.

(** [sleep_for] takes time only. *)
Definition sleep_before_next_reconnect_attempt (s : client) : client :=
  if (m_reconnect_interval_msecs (m_config s) <=? 0)%Z then s else notify sleeping s.

Definition should_reconnect (s : client) : bool :=
  negb (is_connected s) && negb (m_cancel s) &&
  ((m_max_reconnects (m_config s) =? -1)%Z ||
   (m_current_reconnect_attempts s <? m_max_reconnects (m_config s))%Z).

Definition re_auth (s : client) : client :=
  if (String.length (m_password (m_config s)) =? 0)%nat then s
  else unprotected_auth (m_password (m_config s)) (Some ReAuthCallback) s.

Definition re_select (s : client) : client :=
  if (m_database_index (m_config s) <=? 0)%Z then s
  else unprotected_select (m_database_index (m_config s)) (Some ReSelectCallback) s.

(** The end of [reconnect], once the connection is up again. *)
Definition reconnected (s : client) : outcome unit * client :=
  let s := notify connect_ok s in
  match resend_failed_commands (re_select (re_auth s)) with
  | (Ret _, s) => try_commit s
  | r => r
  end.

(** The attempt of [reconnect], whose exceptions are swallowed. *)
Definition reconnect_attempt (s : client) : outcome unit * client :=
  let cfg := m_config s in
  match connect (m_redis_server cfg) (m_redis_port cfg) (m_connect_callback s)
          (m_connect_timeout_msecs cfg) (m_max_reconnects cfg) (m_reconnect_interval_msecs cfg) s with
  | (Throw _, s) => (Ret tt, s)
  | r => r
  end.

(** The condition of [reconnect]: a client without a master's name keeps its
    server. *)
Definition lookup_server (s : client) : outcome bool * client :=
  if (String.length (m_master_name (m_config s)) =? 0)%nat then (Ret true, s)
  else lookup_master (m_master_name (m_config s)) s.

Definition reconnect (s : client) : outcome unit * client :=
  match lookup_server (set_m_current_reconnect_attempts (m_current_reconnect_attempts s + 1) s) with
  | (Ret false, s) => (Ret tt, notify lookup_failed s)
  | (Ret true, s) =>
    match reconnect_attempt s with
    | (Ret _, s) => if negb (is_connected s) then (Ret tt, notify connect_failed s) else reconnected s
    | r => r
    end
  | (Throw e, s) => (Throw e, s)
  | (Undef, s) => (Undef, s)
  | (Timeout, s) => (Timeout, s)
  end.

(** [while (should_reconnect())]; [n] is the fuel. *)
Fixpoint reconnect_loop (n : nat) (s : client) : outcome unit * client :=
  if should_reconnect s then
    match n with
    | O => (Timeout, s)
    | Datatypes.S n =>
      match reconnect (sleep_before_next_reconnect_attempt s) with
      | (Ret _, s) => reconnect_loop n s
      | r => r
      end
    end
  else (Ret tt, s).

(** An exception of [reconnect] leaves [m_reconnecting] set. *)
Definition connection_disconnection_handler (n : nat) (s : client) : outcome unit * client :=
  if is_reconnecting s then (Ret tt, s)
  else
    let s := set_m_current_reconnect_attempts 0 (set_m_reconnecting true s) in
    let s := notify dropped s in
    match reconnect_loop n s with
    | (Ret _, s) =>
      let s := if negb (is_connected s) then notify stopped (clear_callbacks s) else s in
      (Ret tt, set_m_reconnecting false s)
    | r => r
    end.

(** What the connection's handlers call. *)
Definition handle_event (n : nat) (e : connection_event) (s : client) : outcome unit * client :=
  match e with
  | ReplyReceived r => connection_receive_handler r s
  | Disconnected => connection_disconnection_handler n s
  end.

Fixpoint handle_events (n : nat) (es : list connection_event) (s : client) : outcome unit * client :=
  match es with
  | [] => (Ret tt, s)
  | e :: es' =>
    match handle_event n e s with
    | (Ret _, s') => handle_events n es' s'
    | r => r
    end
  end.

(** A read of the TCP client completes. *)
Definition on_read (n : nat) (success : bool) (data : string) (s : client) : outcome unit * client :=
  match tcp_client_receive_handler success data (m_client s) with
  | (Ret _, conn, events) => handle_events n events (set_m_client conn s)
  | (o, conn, _) => (o, set_m_client conn s)
  end.

(** The TCP client reports that it was disconnected. *)
Definition on_disconnected (n : nat) (s : client) : outcome unit * client :=
  let '(conn, events) := tcp_client_disconnection_handler (m_client s) in
  handle_events n events (set_m_client conn s).

(** [exec_cmd]: the command is issued with a callback that fulfils the
    promise [p] of the returned future. *)
Definition exec_cmd (f : option (reply_callback C) -> client -> client) (p : C) (s : client) : client :=
  f (Some (UserCallback p)) s.

Definition send_future (redis_cmd : list string) (p : C) (s : client) : client :=
  exec_cmd (send redis_cmd) p s.
End client.
