(* ===== verification/ClientFacts.v ===== *)
(** Facts about the client: the pairing of replies with callbacks, the
    accounting of callbacks over every sequence of operations, the end of the
    reconnection loop, and what a reconnection does to pending commands. *)

From S2P Require Import Prelude Text Reply Builders BuilderFacts ReplyStream TcpClient Connection ConnectionFacts Client.

(** ** Observations *)

Definition called {C} (e : client_event C) : option (C * reply) :=
  match e with Called c r => Some (c, r) | ConnectCallback _ _ _ => None end.

Definition user_callback {C} (req : command_request C) : option C :=
  match callback req with Some (UserCallback c) => Some c | _ => None end.

(** The callbacks of the user that have run, with their replies. *)
Definition calls {T S C} (s : client_state T S C) : list (C * reply) := omap called (trace s).

(** Those still waiting, in the queue and in the detached threads. *)
Definition pending {C} (q : list (command_request C)) : list C := omap user_callback q.

Definition owed {T S C} (s : client_state T S C) : list C :=
  (calls s).*1 ++ pending (m_commands s) ++ pending (concat (threads s)).

Lemma app_eq_inv_length {A B} (l : list A) (k : list B) :
  length k <= length l -> exists l1 l2, l = l1 ++ l2 /\ length l1 = length k.
Proof.
  intros Hl. exists (take (length k) l), (drop (length k) l). split.
  - by rewrite take_drop.
  - rewrite length_take. lia.
Qed.

Section client_facts.
Context {T S C : Type} `{TcpClientLaws T} `{SentinelLookup S}.

Abbreviation client := (client_state T S C).
Implicit Types s : client.

Lemma calls_emit_called c r s : calls (emit (Called c r) s) = calls s ++ [(c, r)].
Proof. unfold calls, emit; simpl. by rewrite omap_app. Qed.

Lemma pending_app (q1 q2 : list (command_request C)) : pending (q1 ++ q2) = pending q1 ++ pending q2.
Proof. apply omap_app. Qed.

Lemma pending_cons (req : command_request C) q :
  pending (req :: q) = from_option (fun c => [c]) [] (user_callback req) ++ pending q.
Proof. unfold pending. cbn [omap list_omap]. by destruct (user_callback req). Qed.

(** ** Connect callbacks

    They change the trace only, and not its calls. *)

Lemma call_connect_callback_eq h p st s :
  exists t, call_connect_callback h p st s = set_trace t s /\ omap called t = calls s.
Proof.
  unfold call_connect_callback, emit, calls. destruct (m_connect_callback s).
  - exists (trace s ++ [ConnectCallback h p st]). by rewrite omap_app, app_nil_r.
  - exists (trace s). by destruct s.
Qed.

(** What every attempt at a connection leaves alone. *)
Record same_work s s' : Prop := {
  same_commands : m_commands s' = m_commands s;
  same_threads : threads s' = threads s;
  same_running : m_callbacks_running s' = m_callbacks_running s;
  same_calls : calls s' = calls s }.

(** And the state of a reconnection. *)
Record same_attempt s s' : Prop := {
  same_work_of : same_work s s';
  same_attempts : m_current_reconnect_attempts s' = m_current_reconnect_attempts s;
  same_max : m_max_reconnects (m_config s') = m_max_reconnects (m_config s);
  same_cancel : m_cancel s' = m_cancel s;
  same_reconnecting : m_reconnecting s' = m_reconnecting s }.

#[local] Instance same_work_preorder : PreOrder same_work.
Proof.
  split; [by split|]. intros s1 s2 s3 [] []; split; congruence.
Qed.

#[local] Instance same_attempt_preorder : PreOrder same_attempt.
Proof.
  split; [by split|]. intros s1 s2 s3 [] []; split; try congruence. by etrans.
Qed.

Lemma same_work_owed s s' : same_work s s' -> owed s' = owed s.
Proof. intros [Hc Ht _ Hcalls]. unfold owed. by rewrite Hc, Ht, Hcalls. Qed.

Lemma call_connect_callback_same h p st s :
  same_attempt s (call_connect_callback h p st s) /\
  m_client (call_connect_callback h p st s) = m_client s /\
  m_config (call_connect_callback h p st s) = m_config s.
Proof.
  destruct (call_connect_callback_eq h p st s) as (t & -> & Ht).
  split; [|done]. by split; [split|..].
Qed.

Lemma notify_same st s :
  same_attempt s (notify st s) /\ m_client (notify st s) = m_client s /\
  m_config (notify st s) = m_config s.
Proof. apply call_connect_callback_same. Qed.

Lemma is_connected_notify st s : is_connected (notify st s) = is_connected s.
Proof. unfold is_connected. by rewrite (proj1 (proj2 (notify_same st s))). Qed.

(** ** [connect] *)

(** The connection's [connect] reports success only when connected. *)
Lemma connection_connect_spec h p ms b1 b2 conn :
  exists o conn', Connection.connect h p ms b1 b2 conn = (o, conn') /\
    match o with
    | Ret _ => Connection.is_connected conn' = true
    | Throw (redis_error _) => True
    | _ => False
    end.
Proof.
  unfold Connection.connect, Connection.is_connected.
  destruct (tc_connect h (wrap_u32 p) ms (Connection.m_client conn)) as [o1 c1] eqn:E1.
  pose proof (tc_connect_outcome h (wrap_u32 p) ms (Connection.m_client conn)) as Ho. rewrite E1 in Ho.
  destruct o1 as [[]|e| |].
  2: { by eexists _, _. }
  2,3: by destruct Ho as [|[]].
  apply tc_connect_ok in E1.
  rewrite <- (tc_handler_connected c1) in E1.
  destruct (tc_read_connected READ_SIZE _ E1) as (c2 & -> & Hc2 & _). eauto.
Qed.

Lemma connect_spec h p cb ms max itv s :
  exists o s', connect h p cb ms max itv s = (o, s') /\
    match o with
    | Ret _ => is_connected s' = true
    | Throw (redis_error _) => True
    | _ => False
    end /\
    same_work s s' /\ m_cancel s' = m_cancel s /\ m_reconnecting s' = m_reconnecting s /\
    m_current_reconnect_attempts s' = m_current_reconnect_attempts s /\
    m_max_reconnects (m_config s') = max.
Proof.
  unfold connect.
  set (s1 := set_m_connect_callback cb _).
  destruct (call_connect_callback_same h p start s1) as ([Hw Ha Hm Hx Hr] & Hcl & Hcf).
  assert (same_work s s1) as Hw1 by (subst s1; by split).
  revert Hw Ha Hm Hx Hr Hcl Hcf. generalize (call_connect_callback h p start s1). intros s2 Hw Ha Hm Hx Hr Hcl Hcf.
  destruct (connection_connect_spec h p ms true true (m_client s2)) as (o & conn & -> & Ho).
  assert (same_work s (set_m_client conn s2)) as Hw2 by (transitivity s1; [done|]; by transitivity s2; [|split]).
  destruct o as [[]|e| |]; [|..]; try done.
  - destruct (notify_same connect_ok (set_m_client conn s2)) as ([Hw3 Ha3 Hm3 Hx3 Hr3] & Hcl3 & Hcf3).
    eexists _, _. split; [done|]. split_and!.
    + by rewrite is_connected_notify.
    + by transitivity (set_m_client conn s2).
    + by rewrite Hx3; simpl; rewrite Hx.
    + by rewrite Hr3; simpl; rewrite Hr.
    + by rewrite Ha3; simpl; rewrite Ha.
    + by rewrite Hm3; simpl; rewrite Hm.
  - eexists _, _. split; [done|]. simpl. rewrite Hx, Hr, Ha, Hm. by split_and!.
Qed.

(** ** Committing *)

Lemma try_commit_connected s :
  is_connected s = true ->
  exists c, try_commit s =
      (Ret tt, set_m_client (Connection.set_tcp c (Connection.set_buffer "" (m_client s))) s) /\
    tc_is_connected c = true /\
    tc_output c = tc_output (Connection.m_client (m_client s)) +:+ Connection.m_buffer (m_client s).
Proof.
  unfold is_connected, Connection.is_connected, try_commit, Connection.commit. intros Hc.
  cbn [Connection.set_buffer Connection.m_client].
  destruct (tc_write_connected (Connection.m_buffer (m_client s)) _ Hc) as (c & -> & Hcc & Ho & _).
  exists c. by split_and!.
Qed.

Lemma try_commit_disconnected s :
  is_connected s = false ->
  exists w, try_commit s = (Throw (redis_error w), clear_callbacks
    (set_m_client (Connection.set_buffer "" (m_client s)) s)).
Proof.
  unfold is_connected, Connection.is_connected, try_commit, Connection.commit. intros Hc.
  cbn [Connection.set_buffer Connection.m_client].
  destruct (tc_write_disconnected (Connection.m_buffer (m_client s)) _ Hc) as (e & ->).
  by exists (what e).
Qed.

(** ** Moving the queue to a detached thread *)

(** The counter of running callbacks is exact between two operations. *)
Definition counter_ok s : Prop :=
  m_callbacks_running s = wrap_u32 (Z.of_nat (length (concat (threads s)))).

Lemma wrap_u32_add a b : wrap_u32 (wrap_u32 a + b) = wrap_u32 (a + b).
Proof. unfold wrap_u32. by rewrite Zplus_mod_idemp_l. Qed.

Lemma wrap_u32_cancel n : wrap_u32 (wrap_u32 (wrap_u32 n + 1) - 1) = wrap_u32 n.
Proof.
  unfold wrap_u32. rewrite Zminus_mod_idemp_l.
  replace (n mod 2 ^ 32 + 1 - 1)%Z with (n mod 2 ^ 32)%Z by lia. apply Zmod_mod.
Qed.

Lemma clear_callbacks_fields s :
  m_commands (clear_callbacks s) = [] /\ m_client (clear_callbacks s) = m_client s /\
  concat (threads (clear_callbacks s)) = concat (threads s) ++ m_commands s /\
  trace (clear_callbacks s) = trace s.
Proof.
  unfold clear_callbacks. destruct (m_commands s) as [|r q] eqn:E.
  - rewrite app_nil_r. by split_and!.
  - simpl. split_and!; try done. by rewrite concat_app; simpl; rewrite app_nil_r.
Qed.

Lemma clear_callbacks_owed s : owed (clear_callbacks s) ≡ₚ owed s.
Proof.
  destruct (clear_callbacks_fields s) as (Hc & _ & Ht & Htr).
  unfold owed, calls. rewrite Hc, Ht, Htr, pending_app. simpl. f_equiv. apply Permutation_app_comm.
Qed.

Lemma clear_callbacks_counter s : counter_ok s -> counter_ok (clear_callbacks s).
Proof.
  unfold counter_ok, clear_callbacks. destruct (m_commands s) as [|r q] eqn:E; [done|].
  intros Hk. simpl threads. cbn [m_callbacks_running set_threads set_m_callbacks_running set_m_commands].
  rewrite Hk, wrap_u32_add. rewrite concat_app, length_app. simpl concat. rewrite app_nil_r.
  f_equal. lia.
Qed.

(** ** The reconnection *)

(** The test of the loop reads the member, which the move has emptied. *)
Lemma resend_failed_commands_eq s : resend_failed_commands s = (Ret tt, set_m_commands [] s).
Proof.
  unfold resend_failed_commands. destruct (m_commands s) as [|r q] eqn:E; [|done].
  destruct s; simpl in *. by subst.
Qed.

Lemma unprotected_send_fields cmd cb s :
  m_client (unprotected_send cmd cb s) = Connection.send cmd (m_client s) /\
  m_config (unprotected_send cmd cb s) = m_config s /\
  m_current_reconnect_attempts (unprotected_send cmd cb s) = m_current_reconnect_attempts s /\
  m_cancel (unprotected_send cmd cb s) = m_cancel s /\
  m_reconnecting (unprotected_send cmd cb s) = m_reconnecting s /\
  m_callbacks_running (unprotected_send cmd cb s) = m_callbacks_running s /\
  threads (unprotected_send cmd cb s) = threads s /\
  trace (unprotected_send cmd cb s) = trace s.
Proof. done. Qed.

(** What the two commands issued after a reconnection change. *)
Lemma re_auth_select_fields s :
  let s' := re_select (re_auth s) in
  is_connected s' = is_connected s /\
  m_current_reconnect_attempts s' = m_current_reconnect_attempts s /\
  m_max_reconnects (m_config s') = m_max_reconnects (m_config s) /\
  m_cancel s' = m_cancel s /\ m_reconnecting s' = m_reconnecting s /\
  m_callbacks_running s' = m_callbacks_running s /\
  threads s' = threads s /\ trace s' = trace s.
Proof.
  intros s'; subst s'. unfold re_select, re_auth.
  by destruct (String.length _ =? 0)%nat; destruct (_ <=? 0)%Z.
Qed.

(** The outcome of one attempt or of the loop: nothing touched but the
    connection, or connected again with the queue emptied. *)
Inductive reconnection s s' : Prop :=
| not_reconnected : is_connected s' = is_connected s -> same_work s s' -> reconnection s s'
| was_reconnected :
    is_connected s = false -> is_connected s' = true -> m_commands s' = [] ->
    threads s' = threads s -> m_callbacks_running s' = m_callbacks_running s ->
    calls s' = calls s -> reconnection s s'.

Lemma reconnected_spec s :
  is_connected s = true ->
  exists s', reconnected s = (Ret tt, s') /\ is_connected s' = true /\ m_commands s' = [] /\
    threads s' = threads s /\ m_callbacks_running s' = m_callbacks_running s /\
    calls s' = calls s /\ m_current_reconnect_attempts s' = m_current_reconnect_attempts s /\
    m_max_reconnects (m_config s') = m_max_reconnects (m_config s) /\ m_cancel s' = m_cancel s.
Proof.
  intros Hc. unfold reconnected.
  destruct (notify_same connect_ok s) as ([[Hq Ht Hk Hl] Ha Hm Hx Hr] & Hcl & Hcf).
  assert (is_connected (notify connect_ok s) = true) as Hc1 by by rewrite is_connected_notify.
  revert Hq Ht Hk Hl Ha Hm Hx Hr Hc1. generalize (notify connect_ok s). intros s1 Hq Ht Hk Hl Ha Hm Hx Hr Hc1.
  destruct (re_auth_select_fields s1) as (Fc & Fa & Fm & Fx & Fr & Fk & Ft & Ftr).
  rewrite resend_failed_commands_eq.
  destruct (try_commit_connected (set_m_commands [] (re_select (re_auth s1)))) as (conn & -> & Hcc & _).
  { unfold is_connected in *. cbn [m_client set_m_commands]. congruence. }
  eexists. split; [done|]. unfold calls, is_connected in *.
  cbn [m_client m_commands threads m_callbacks_running trace m_current_reconnect_attempts m_config m_cancel
       set_m_client set_m_commands].
  split_and!; first [exact Hcc|congruence].
Qed.

Lemma reconnect_attempt_spec s :
  exists s', reconnect_attempt s = (Ret tt, s') /\ same_attempt s s'.
Proof.
  unfold reconnect_attempt.
  destruct (connect_spec (m_redis_server (m_config s)) (m_redis_port (m_config s)) (m_connect_callback s)
    (m_connect_timeout_msecs (m_config s)) (m_max_reconnects (m_config s))
    (m_reconnect_interval_msecs (m_config s)) s) as (o & s' & -> & Ho & Hw & Hx & Hr & Ha & Hm).
  destruct o as [[]|e| |]; try done; by eexists.
Qed.

(** From the sentinels [I] describes, every lookup returns (it neither throws nor
    waits for ever) and leaves such a sentinel. *)
Definition lookups_return (I : S -> Prop) : Prop :=
  forall name sen, I sen ->
    (exists b, (get_master_addr_by_name name sen).1.1 = Ret b) /\ I (get_master_addr_by_name name sen).2.

(** Nothing but the lookup touches the sentinel. *)
Lemma notify_sentinel st s : m_sentinel (notify st s) = m_sentinel s.
Proof. unfold notify, call_connect_callback. by destruct (m_connect_callback s). Qed.

Lemma reconnect_attempt_sentinel s : m_sentinel (reconnect_attempt s).2 = m_sentinel s.
Proof.
  unfold reconnect_attempt, connect.
  set (s1 := set_m_connect_callback _ _).
  assert (m_sentinel (call_connect_callback (m_redis_server (m_config s)) (m_redis_port (m_config s)) start s1)
          = m_sentinel s) as <- by (unfold call_connect_callback; by destruct (m_connect_callback s1)).
  destruct (Connection.connect _ _ _ _ _ _) as [[[]|e| |] conn]; cbn [snd]; [|done..].
  by rewrite notify_sentinel.
Qed.

Lemma reconnected_sentinel s : m_sentinel (reconnected s).2 = m_sentinel s.
Proof.
  unfold reconnected. rewrite resend_failed_commands_eq.
  rewrite <- (notify_sentinel connect_ok s). generalize (notify connect_ok s). intros s1.
  assert (m_sentinel (re_select (re_auth s1)) = m_sentinel s1) as <-.
  { unfold re_select, re_auth. by destruct (String.length _ =? 0)%nat; destruct (_ <=? 0)%Z. }
  unfold try_commit, clear_callbacks. cbn [m_commands set_m_client set_m_commands].
  by destruct (Connection.commit _) as [[[]|[]| |] conn].
Qed.

Lemma lookup_server_same s :
  same_attempt s (lookup_server s).2 /\ is_connected (lookup_server s).2 = is_connected s /\
  forall I, lookups_return I -> I (m_sentinel s) ->
    (exists b, (lookup_server s).1 = Ret b) /\ I (m_sentinel (lookup_server s).2).
Proof.
  unfold lookup_server, lookup_master, lookups_return. destruct (String.length _ =? 0)%nat.
  { split_and!; [done|done|]. intros I _ Hs. split; [by exists true|done]. }
  destruct (get_master_addr_by_name _ (m_sentinel s)) as [[o [h p]] sen] eqn:E.
  split_and!; [done|done|]. intros I Hr Hs.
  destruct (Hr (m_master_name (m_config s)) (m_sentinel s) Hs) as [[b Hb] Hs']. rewrite E in Hb, Hs'.
  split; [by exists b|done].
Qed.

Lemma reconnect_spec s :
  is_connected s = false ->
  exists o s', reconnect s = (o, s') /\
    (forall I, lookups_return I -> I (m_sentinel s) -> o = Ret tt /\ I (m_sentinel s')) /\
    reconnection s s' /\
    m_current_reconnect_attempts s' = (m_current_reconnect_attempts s + 1)%Z /\
    m_max_reconnects (m_config s') = m_max_reconnects (m_config s) /\ m_cancel s' = m_cancel s.
Proof.
  intros Hc. unfold reconnect.
  set (s1 := set_m_current_reconnect_attempts _ s).
  destruct (lookup_server_same s1) as ([Hw Ha Hm Hx Hr] & Hlc & Hret).
  assert (is_connected s1 = false) as Hc1 by done.
  assert (same_work s s1) as Hw1 by by split.
  destruct (lookup_server s1) as [found s2]; cbn [fst snd] in *.
  assert (same_work s s2) as Hw2 by by transitivity s1.
  assert (forall o : outcome unit,
    (forall I, lookups_return I -> I (m_sentinel s) -> o = Ret tt /\ I (m_sentinel s2)) ->
    exists o' s', (o, s2) = (o', s') /\
    (forall I, lookups_return I -> I (m_sentinel s) -> o' = Ret tt /\ I (m_sentinel s')) /\
    reconnection s s' /\
    m_current_reconnect_attempts s' = (m_current_reconnect_attempts s + 1)%Z /\
    m_max_reconnects (m_config s') = m_max_reconnects (m_config s) /\ m_cancel s' = m_cancel s) as Hstuck.
  { intros o Ho. exists o, s2. split_and!; [done|done| |simpl in *; congruence..].
    apply not_reconnected; [congruence|done]. }
  destruct found as [[]|e| |].
  - pose proof (reconnect_attempt_sentinel s2) as Hs3.
    destruct (reconnect_attempt_spec s2) as (s3 & E3 & [Hw3 Ha3 Hm3 Hx3 Hr3]).
    rewrite E3 in *. cbn [snd] in Hs3.
    assert (same_work s s3) as Hw3' by by transitivity s2.
    destruct (is_connected s3) eqn:Hc3; simpl negb; cbn match.
    + pose proof (reconnected_sentinel s3) as Hs4.
      destruct (reconnected_spec s3 Hc3) as (s4 & E4 & Hc4 & Hq & Ht & Hk & Hl & Ha4 & Hm4 & Hx4).
      rewrite E4 in *. cbn [snd] in Hs4.
      destruct Hw3' as [_ Ht' Hk' Hl'].
      exists (Ret tt), s4. split_and!; [done| | |simpl in *; congruence..].
      { intros I HI Hs. rewrite Hs4, Hs3. split; [done|by apply (Hret I)]. }
      apply was_reconnected; congruence.
    + destruct (notify_same connect_failed s3) as ([Hw4 Ha4 Hm4 Hx4 Hr4] & _).
      do 2 eexists. split_and!; [done| | |simpl in *; congruence..].
      { intros I HI Hs. rewrite notify_sentinel, Hs3. split; [done|by apply (Hret I)]. }
      apply not_reconnected; [rewrite is_connected_notify; congruence|by transitivity s3].
  - destruct (notify_same lookup_failed s2) as ([Hw4 Ha4 Hm4 Hx4 Hr4] & _).
    do 2 eexists. split_and!; [done| | |simpl in *; congruence..].
    { intros I HI Hs. rewrite notify_sentinel. split; [done|by apply (Hret I)]. }
    apply not_reconnected; [rewrite is_connected_notify; congruence|by transitivity s2].
  - apply Hstuck. intros I HI Hs. by destruct (Hret I HI Hs) as [[] _].
  - apply Hstuck. intros I HI Hs. by destruct (Hret I HI Hs) as [[] _].
  - apply Hstuck. intros I HI Hs. by destruct (Hret I HI Hs) as [[] _].
Qed.

Lemma should_reconnect_connected s : is_connected s = true -> should_reconnect s = false.
Proof. unfold should_reconnect. by intros ->. Qed.

Lemma sleep_same s :
  same_attempt s (sleep_before_next_reconnect_attempt s) /\
  is_connected (sleep_before_next_reconnect_attempt s) = is_connected s.
Proof.
  unfold sleep_before_next_reconnect_attempt. destruct (_ <=? 0)%Z; [done|].
  split; [apply notify_same|apply is_connected_notify].
Qed.

Lemma reconnect_loop_stop n s : should_reconnect s = false -> reconnect_loop n s = (Ret tt, s).
Proof. intros Hs. destruct n; cbn [reconnect_loop]; by rewrite Hs. Qed.

(** One turn of the loop. *)
Lemma reconnect_loop_turn n s :
  should_reconnect s = true ->
  exists o s', reconnect_loop (Datatypes.S n) s =
      match o with Ret _ => reconnect_loop n s' | r => (r, s') end /\
    (forall I, lookups_return I -> I (m_sentinel s) -> o = Ret tt /\ I (m_sentinel s')) /\
    reconnection s s' /\
    m_current_reconnect_attempts s' = (m_current_reconnect_attempts s + 1)%Z /\
    m_max_reconnects (m_config s') = m_max_reconnects (m_config s) /\ m_cancel s' = m_cancel s.
Proof.
  intros Hs. cbn [reconnect_loop]. rewrite Hs.
  destruct (sleep_same s) as ([Hw1 Ha1 Hm1 Hx1 Hr1] & Hc1).
  assert (is_connected s = false) as Hc.
  { unfold should_reconnect in Hs. by destruct (is_connected s). }
  destruct (reconnect_spec (sleep_before_next_reconnect_attempt s)) as (o & s2 & -> & Ho & Hrec & Ha2 & Hm2 & Hx2);
    [congruence|].
  exists o, s2. split_and!; [by destruct o| | |congruence..].
  { intros I HI Hs'. apply Ho; [done|]. unfold sleep_before_next_reconnect_attempt.
    destruct (_ <=? 0)%Z; [done|by rewrite notify_sentinel]. }
  destruct Hrec as [Hcc Hw2|? ? ? Ht ? ?].
  - apply not_reconnected; [congruence|by etrans].
  - destruct Hw1 as [? ? ? ?]. apply was_reconnected; congruence.
Qed.

(** What the loop has done when it returns, and when it does not. *)
Lemma reconnect_loop_spec n s :
  exists o s', reconnect_loop n s = (o, s') /\ reconnection s s' /\
    (o = Ret tt -> should_reconnect s' = false) /\
    m_max_reconnects (m_config s') = m_max_reconnects (m_config s) /\ m_cancel s' = m_cancel s /\
    (m_current_reconnect_attempts s <= m_current_reconnect_attempts s')%Z.
Proof.
  revert s. induction n as [|n IH]; intros s; destruct (should_reconnect s) eqn:Hs.
  - cbn [reconnect_loop]. rewrite Hs. eexists _, _. split_and!; eauto; [|done..].
    by apply not_reconnected.
  - rewrite reconnect_loop_stop by done. eexists _, _. split_and!; eauto; [|done..]. by apply not_reconnected.
  - destruct (reconnect_loop_turn n s Hs) as (o1 & s1 & -> & _ & Hr & Ha & Hm & Hx).
    destruct (decide (o1 = Ret tt)) as [->|Ho1].
    2:{ exists o1, s1. split_and!; [by destruct o1 as [[]| | |]|done|done|congruence|congruence|lia]. }
    destruct Hr as [Hc Hw|Hc Hc' Hq Ht Hk Hl].
    + destruct (IH s1) as (o & s2 & -> & Hr2 & Hstop & Hm2 & Hx2 & Ha2).
      exists o, s2. split_and!; [done| |done|congruence|congruence|lia].
      destruct Hr2 as [Hc2 Hw2|? ? ? ? ? ?].
      * apply not_reconnected; [congruence|by etrans].
      * destruct Hw as [? ? ? ?]. apply was_reconnected; congruence.
    + rewrite reconnect_loop_stop by by apply should_reconnect_connected.
      exists (Ret tt), s1. split_and!; [done|by apply was_reconnected| |done|done|lia].
      intros _. by apply should_reconnect_connected.
  - rewrite reconnect_loop_stop by done. eexists _, _. split_and!; eauto; [|done..]. by apply not_reconnected.
Qed.

(** Fuel for as many attempts as are left is enough. *)
Lemma reconnect_loop_total (I : S -> Prop) n s :
  lookups_return I -> I (m_sentinel s) ->
  (m_max_reconnects (m_config s) <> -1)%Z ->
  (m_max_reconnects (m_config s) - m_current_reconnect_attempts s <= Z.of_nat n)%Z ->
  exists s', reconnect_loop n s = (Ret tt, s') /\
    (m_current_reconnect_attempts s' <=
       Z.max (m_current_reconnect_attempts s) (m_max_reconnects (m_config s)))%Z /\
    I (m_sentinel s').
Proof.
  intros Hret. revert s. induction n as [|n IH]; intros s Hsen Hm Hn; destruct (should_reconnect s) eqn:Hs;
    try (rewrite reconnect_loop_stop by done; eexists; split_and!; [done|lia|done]).
  - unfold should_reconnect in Hs. apply andb_true_iff in Hs as [_ Hs].
    apply orb_true_iff in Hs as [Hs|Hs]; [apply Z.eqb_eq in Hs|apply Z.ltb_lt in Hs]; lia.
  - destruct (reconnect_loop_turn n s Hs) as (o & s1 & -> & Ho & Hr & Ha & Hm1 & Hx).
    destruct (Ho I Hret Hsen) as [-> Hsen1].
    destruct (IH s1) as (s' & -> & Hle & HI); [done|lia..|]. exists s'. split_and!; [done| |done].
    unfold should_reconnect in Hs. apply andb_true_iff in Hs as [_ Hs].
    apply orb_true_iff in Hs as [Hs|Hs]; [apply Z.eqb_eq in Hs|apply Z.ltb_lt in Hs]; lia.
Qed.

(** ** The disconnection handler *)

Definition begin_reconnection s : client :=
  notify dropped (set_m_current_reconnect_attempts 0 (set_m_reconnecting true s)).

Definition end_reconnection s : client :=
  set_m_reconnecting false
    (if negb (is_connected s) then notify stopped (clear_callbacks s) else s).

Lemma disconnection_handler_eq n s :
  is_reconnecting s = false ->
  connection_disconnection_handler n s =
  match reconnect_loop n (begin_reconnection s) with
  | (Ret _, s) => (Ret tt, end_reconnection s)
  | r => r
  end.
Proof. unfold connection_disconnection_handler. by intros ->. Qed.

Lemma begin_reconnection_same s :
  same_work s (begin_reconnection s) /\ is_connected (begin_reconnection s) = is_connected s /\
  m_config (begin_reconnection s) = m_config s /\ m_cancel (begin_reconnection s) = m_cancel s /\
  m_current_reconnect_attempts (begin_reconnection s) = 0%Z.
Proof.
  unfold begin_reconnection. set (s1 := set_m_current_reconnect_attempts 0 _).
  destruct (notify_same dropped s1) as ([[? ? ? ?] Ha ? Hx ?] & ? & Hf).
  split_and!; [by split|by rewrite is_connected_notify|done..].
Qed.

Lemma begin_sentinel s : m_sentinel (begin_reconnection s) = m_sentinel s.
Proof. unfold begin_reconnection. by rewrite notify_sentinel. Qed.

Lemma end_sentinel s : m_sentinel (end_reconnection s) = m_sentinel s.
Proof.
  unfold end_reconnection. destruct (negb _); [|done].
  change (m_sentinel (notify stopped (clear_callbacks s)) = m_sentinel s).
  rewrite notify_sentinel. unfold clear_callbacks. by destruct (m_commands s).
Qed.

Lemma end_attempts s :
  m_current_reconnect_attempts (end_reconnection s) = m_current_reconnect_attempts s.
Proof.
  unfold end_reconnection. destruct (negb _); [|done]. cbn [m_current_reconnect_attempts set_m_reconnecting].
  rewrite (same_attempts _ _ (proj1 (notify_same stopped (clear_callbacks s)))).
  unfold clear_callbacks. by destruct (m_commands s).
Qed.

(** The whole flow, with a limit on attempts. *)
Lemma reconnection_flow (I : S -> Prop) n s :
  lookups_return I -> I (m_sentinel s) -> is_reconnecting s = false ->
  (0 <= m_max_reconnects (m_config s) <= Z.of_nat n)%Z ->
  exists s1, reconnect_loop n (begin_reconnection s) = (Ret tt, s1) /\
    connection_disconnection_handler n s = (Ret tt, end_reconnection s1) /\
    (m_current_reconnect_attempts (end_reconnection s1) = m_current_reconnect_attempts s1)%Z /\
    (m_current_reconnect_attempts s1 <= m_max_reconnects (m_config s))%Z /\
    I (m_sentinel (end_reconnection s1)).
Proof.
  intros Hret Hsen Hr Hm. rewrite disconnection_handler_eq by done.
  destruct (begin_reconnection_same s) as (_ & _ & Bm & _ & Ba).
  destruct (reconnect_loop_total I n (begin_reconnection s) Hret) as (s1 & E & Hle & HI);
    [by rewrite begin_sentinel|rewrite Bm; lia|rewrite Bm, Ba; lia|].
  rewrite Bm, Ba in Hle. exists s1. rewrite E, end_sentinel. split_and!; [done..|apply end_attempts|lia|done].
Qed.

Lemma end_reconnection_connected s :
  is_connected s = true -> end_reconnection s = set_m_reconnecting false s.
Proof. unfold end_reconnection. by intros ->. Qed.

Lemma end_reconnection_lost s :
  is_connected s = false ->
  owed (end_reconnection s) ≡ₚ owed s /\ m_commands (end_reconnection s) = [] /\
  concat (threads (end_reconnection s)) = concat (threads s) ++ m_commands s /\
  calls (end_reconnection s) = calls s /\
  is_connected (end_reconnection s) = false /\ is_reconnecting (end_reconnection s) = false /\
  (counter_ok s -> counter_ok (end_reconnection s)).
Proof.
  intros Hc. unfold end_reconnection. rewrite Hc. simpl negb. cbn match.
  destruct (clear_callbacks_fields s) as (Hq & Hcl & Ht & Htr).
  pose proof (clear_callbacks_owed s) as Ho. pose proof (clear_callbacks_counter s) as Hk.
  destruct (notify_same stopped (clear_callbacks s)) as ([[Nq Nt Nk Nl] Na Nm Nx Nr] & Ncl & _).
  assert (calls (clear_callbacks s) = calls s) as Hl by (unfold calls; by rewrite Htr).
  split_and!.
  - rewrite <- Ho. unfold owed. change (calls (set_m_reconnecting false ?x)) with (calls x).
    cbn [m_commands threads set_m_reconnecting]. by rewrite Nq, Nt, Nl.
  - cbn [m_commands set_m_reconnecting]. congruence.
  - cbn [threads set_m_reconnecting]. congruence.
  - change (calls (set_m_reconnecting false ?x)) with (calls x). congruence.
  - unfold is_connected in *. cbn [m_client set_m_reconnecting]. congruence.
  - done.
  - intros Hok. specialize (Hk Hok). unfold counter_ok in *.
    cbn [m_callbacks_running threads set_m_reconnecting]. by rewrite Nk, Nt.
Qed.

(** ** Replies and failures given to callbacks *)

Lemma run_callback_user c r s : run_callback (UserCallback c) r s = (Ret tt, emit (Called c r) s).
Proof. done. Qed.

(** One reply, for the request at the front. *)
Lemma receive_front q req r s :
  m_commands s = req :: q -> (0 <= m_callbacks_running s < 2 ^ 32)%Z ->
  (callback req = None \/ exists c, callback req = Some (UserCallback c)) ->
  connection_receive_handler r s =
  (Ret tt, set_trace (trace s ++ from_option (fun c => [Called c r]) [] (user_callback req))
             (set_m_commands q s)).
Proof.
  intros Hq Hk Hcb. unfold connection_receive_handler, user_callback.
  cbn [m_commands set_m_callbacks_running]. rewrite Hq.
  assert (wrap_u32 (wrap_u32 (m_callbacks_running s + 1) - 1) = m_callbacks_running s) as Hw.
  { unfold wrap_u32. rewrite Zminus_mod_idemp_l, Z.mod_small; lia. }
  destruct Hcb as [Hn|[c Hcb]]; [rewrite Hn|rewrite Hcb]; cbn [from_option].
  - f_equal. destruct s; cbn in *. by rewrite Hw, app_nil_r.
  - rewrite run_callback_user. f_equal. destruct s; cbn in *. by rewrite Hw.
Qed.

Lemma receive_none r s :
  m_commands s = [] -> (0 <= m_callbacks_running s < 2 ^ 32)%Z ->
  connection_receive_handler r s = (Ret tt, s).
Proof.
  intros Hq Hk. unfold connection_receive_handler.
  cbn [m_commands set_m_callbacks_running]. rewrite Hq. f_equal.
  assert (wrap_u32 (wrap_u32 (m_callbacks_running s + 1) - 1) = m_callbacks_running s) as Hw.
  { unfold wrap_u32. rewrite Zminus_mod_idemp_l, Z.mod_small; lia. }
  destruct s; cbn in *. by rewrite Hw.
Qed.

(** Several replies at once. *)
Definition user_requests (q : list (command_request C)) : Prop :=
  Forall (fun req => callback req = None \/ exists c, callback req = Some (UserCallback c)) q.

Lemma pair_replies n rs q1 q2 s :
  length rs = length q1 -> m_commands s = q1 ++ q2 -> user_requests q1 ->
  (0 <= m_callbacks_running s < 2 ^ 32)%Z ->
  handle_events n (ReplyReceived <$> rs) s =
  (Ret tt, set_trace (trace s ++ omap (fun p => (fun c => Called c p.2) <$> user_callback p.1) (zip q1 rs))
             (set_m_commands q2 s)).
Proof.
  revert q1 s. induction rs as [|r rs IH]; intros [|req q1] s Hl Hq Hu Hk; try done.
  - cbn. rewrite app_nil_r. f_equal. destruct s; simpl in *; by subst.
  - cbn [fmap list_fmap handle_events handle_event].
    apply Forall_cons in Hu as [Hu1 Hu].
    rewrite (receive_front (q1 ++ q2) req r s Hq Hk Hu1). cbn match.
    rewrite (IH q1); [|simpl in *; lia|done..].
    f_equal. destruct s; cbn -[zip user_callback]. unfold set_trace, set_m_commands; cbn -[user_callback].
    f_equal. rewrite <- app_assoc. f_equal.
    by destruct (user_callback req).
Qed.

(** ** Accounting *)

(** An operation neither loses nor repeats a callback: those issued by it,
    [cs], are added to those owed, and the counter stays exact. *)
Definition accounts (cs : list C) s s' : Prop :=
  owed s' ≡ₚ owed s ++ cs /\ (counter_ok s -> counter_ok s').

Lemma accounts_same s s' : same_work s s' -> accounts [] s s'.
Proof.
  intros Hw. split; [by rewrite app_nil_r, (same_work_owed _ _ Hw)|].
  destruct Hw as [_ Ht Hk _]. unfold counter_ok. by rewrite Ht, Hk.
Qed.

Lemma accounts_trans cs1 cs2 s1 s2 s3 :
  accounts cs1 s1 s2 -> accounts cs2 s2 s3 -> accounts (cs1 ++ cs2) s1 s3.
Proof. intros [Ho1 Hk1] [Ho2 Hk2]. split; [by rewrite Ho2, Ho1, app_assoc|by eauto]. Qed.

Lemma accounts_clear s : accounts [] s (clear_callbacks s).
Proof.
  split; [rewrite app_nil_r; apply clear_callbacks_owed|apply clear_callbacks_counter].
Qed.

Lemma accounts_send cmd cb s :
  accounts (pending [mk_request cmd cb]) s (unprotected_send cmd cb s).
Proof.
  split; [|done]. unfold owed. change (calls (unprotected_send cmd cb s)) with (calls s).
  cbn [m_commands threads unprotected_send set_m_commands set_m_client].
  rewrite pending_app. by solve_Permutation.
Qed.

(** The counter is raised while the callback runs and lowered again. *)
Lemma accounts_receive r s s' :
  connection_receive_handler r s = (Ret tt, s') ->
  accounts [] s s' /\ m_client s' = m_client s.
Proof.
  unfold connection_receive_handler. set (s1 := set_m_callbacks_running _ s).
  assert (forall k, counter_ok s -> k = wrap_u32 (m_callbacks_running s1 - 1) ->
          k = wrap_u32 (Z.of_nat (length (concat (threads s))))) as Hk.
  { intros k Hk ->. subst s1. cbn [m_callbacks_running set_m_callbacks_running].
    unfold counter_ok in Hk. rewrite Hk. apply wrap_u32_cancel. }
  change (m_commands s1) with (m_commands s).
  destruct (m_commands s) as [|req q] eqn:Hq.
  - intros Heq. simplify_eq. split; [|done]. split.
    + rewrite app_nil_r. unfold owed, calls. subst s1. done.
    + intros Hok. unfold counter_ok. by apply Hk.
  - intros Heq. unfold accounts. rewrite app_nil_r.
    assert (owed s = (calls s).*1 ++ from_option (fun c => [c]) [] (user_callback req) ++ pending q ++ pending (concat (threads s))) as Hs.
    { unfold owed. rewrite Hq. unfold pending. cbn [omap list_omap].
      by destruct (user_callback req). }
    rewrite Hs. clear Hs. unfold owed, user_callback.
    destruct (callback req) as [[c| |]|] eqn:Hcb; cbn in Heq;
      [|destruct (if is_string r && _ then _ else _) as [[]| | |]; try done..|];
      simplify_eq; (split; [|done]); split; try (intros Hok; unfold counter_ok; by apply Hk);
      cbn [m_commands threads set_m_callbacks_running set_m_commands emit set_trace from_option].
    + unfold calls. cbn [trace set_m_callbacks_running emit set_trace]. rewrite omap_app, fmap_app.
      cbn. by solve_Permutation.
    + done.
    + done.
    + done.
Qed.

(** Removing the first request of one thread. *)
Lemma concat_insert_tail {A} (l : list (list A)) i x q :
  l !! i = Some (x :: q) -> concat l ≡ₚ x :: concat (<[i := q]> l).
Proof.
  revert i; induction l as [|a l IH]; intros [|i] Hi; simplify_eq/=; [done|].
  rewrite (IH i) by done. by rewrite Permutation_middle.
Qed.

Lemma network_failure_string : is_string network_failure = true.
Proof. done. Qed.

Lemma run_failure cb s :
  run_callback cb network_failure s =
  (Ret tt, match cb with UserCallback c => emit (Called c network_failure) s | _ => s end).
Proof. by destruct cb. Qed.

Lemma accounts_thread i s o s' : thread_step i s = (o, s') -> o = Ret tt /\ accounts [] s s'.
Proof.
  unfold thread_step. destruct (threads s !! i) as [[|req q]|] eqn:Hi;
    try (intros Heq; simplify_eq; split; [done|by apply accounts_same]).
  pose proof (concat_insert_tail _ _ _ _ Hi) as Hp.
  assert (forall k, counter_ok s -> k = wrap_u32 (m_callbacks_running s - 1) ->
            k = wrap_u32 (Z.of_nat (length (concat (<[i := q]> (threads s)))))) as Hk.
  { unfold counter_ok. intros k -> ->. apply Permutation_length in Hp. rewrite Hp. simpl length.
    unfold wrap_u32. rewrite Zminus_mod_idemp_l. f_equal. lia. }
  assert (pending (concat (threads s)) ≡ₚ
          from_option (fun c => [c]) [] (user_callback req) ++ pending (concat (<[i := q]> (threads s)))) as Hpend.
  { unfold pending. rewrite Hp. cbn [omap list_omap]. by destruct (user_callback req). }
  unfold user_callback in Hpend.
  destruct (callback req) as [cb|] eqn:Hcb.
  - rewrite run_failure. intros Heq. simplify_eq. split; [done|].
    split; [|destruct cb; intros Hok; unfold counter_ok; by apply Hk].
    rewrite app_nil_r. unfold owed. rewrite Hpend.
    destruct cb as [c| |]; cbn [m_commands threads set_threads set_m_callbacks_running emit set_trace from_option];
      [|done..].
    unfold calls. cbn [trace emit set_trace set_threads set_m_callbacks_running].
    rewrite omap_app, fmap_app. cbn. by solve_Permutation.
  - intros Heq. simplify_eq. split; [done|].
    split; [|intros Hok; unfold counter_ok; by apply Hk].
    rewrite app_nil_r. unfold owed. by rewrite Hpend.
Qed.

(** ** Events on a live connection *)

Lemma handler_spurious n s :
  is_connected s = true -> is_reconnecting s = false ->
  connection_disconnection_handler n s = (Ret tt, set_m_reconnecting false (begin_reconnection s)).
Proof.
  intros Hc Hr. rewrite disconnection_handler_eq by done.
  destruct (begin_reconnection_same s) as (_ & Hbc & _).
  rewrite reconnect_loop_stop by (apply should_reconnect_connected; congruence).
  by rewrite end_reconnection_connected by congruence.
Qed.

Lemma handle_event_connected n e s s' :
  is_connected s = true -> handle_event n e s = (Ret tt, s') ->
  accounts [] s s' /\ is_connected s' = true.
Proof.
  intros Hc. destruct e as [r|]; cbn [handle_event].
  - intros He. apply accounts_receive in He as [Ha Hcl]. split; [done|]. unfold is_connected. by rewrite Hcl.
  - destruct (is_reconnecting s) eqn:Hr.
    + unfold connection_disconnection_handler. rewrite Hr. intros He. simplify_eq.
      split; [by apply accounts_same|done].
    + rewrite handler_spurious by done. intros He. simplify_eq.
      destruct (begin_reconnection_same s) as (Hw & Hbc & _). split.
      * apply accounts_same. transitivity (begin_reconnection s); [done|by split].
      * change (is_connected (begin_reconnection s) = true). congruence.
Qed.

Lemma handle_events_connected n es s s' :
  is_connected s = true -> handle_events n es s = (Ret tt, s') ->
  accounts [] s s' /\ is_connected s' = true.
Proof.
  revert s. induction es as [|e es IH]; intros s Hc He; cbn [handle_events] in He.
  - simplify_eq. split; [by apply accounts_same|done].
  - destruct (handle_event n e s) as [[[]| | |] s1] eqn:E; try done.
    apply handle_event_connected in E as [Ha Hc1]; [|done].
    apply IH in He as [Ha2 Hc2]; [|done]. split; [|done].
    by apply (accounts_trans [] [] s s1 s').
Qed.

Lemma deliver_client m (conn : redis_connection T) :
  Connection.m_client (deliver m conn).1 = Connection.m_client conn.
Proof.
  revert conn; induction m as [|m IH]; intros conn; cbn [deliver]; [done|].
  destruct (reply_available _); [|done].
  destruct (get_front _) as [r| | |]; [|done..].
  destruct (pop_front _) as [b| | |]; [|done..].
  specialize (IH (set_builder b conn)). by destruct (deliver m (set_builder b conn)).
Qed.

Lemma receive_handler_connected ok data (conn conn' : redis_connection T) o ev :
  Connection.is_connected conn = true ->
  tcp_client_receive_handler ok data conn = (o, conn', ev) -> Connection.is_connected conn' = true.
Proof.
  unfold Connection.is_connected, tcp_client_receive_handler. intros Hc.
  destruct ok; cbn [negb]; [|intros He; by simplify_eq].
  destruct (feed data _) as [b [[]|[]| |]]; try (intros He; by simplify_eq).
  pose proof (deliver_client (length (m_available_replies b)) (set_builder b conn)) as Hd.
  destruct (deliver _ _) as [conn1 ev1]. cbn [fst] in Hd.
  destruct (tc_read_connected READ_SIZE (Connection.m_client conn1)) as (c & -> & Hcc & _).
  { by rewrite Hd. }
  intros He. by simplify_eq.
Qed.

Lemma accounts_read n ok data s s' :
  is_connected s = true -> on_read n ok data s = (Ret tt, s') -> accounts [] s s'.
Proof.
  intros Hc. unfold on_read.
  destruct (tcp_client_receive_handler ok data (m_client s)) as [[o conn] ev] eqn:E.
  apply receive_handler_connected in E; [|done].
  destruct o as [[]| | |]; try done. intros He.
  apply handle_events_connected in He as [Ha _]; [|done].
  apply (accounts_trans [] [] s (set_m_client conn s) s'); [|done]. by apply accounts_same.
Qed.

(** ** A lost connection *)

Lemma accounts_lost n s s' :
  connection_disconnection_handler n s = (Ret tt, s') ->
  is_connected s' = is_connected s -> accounts [] s s'.
Proof.
  intros He Hc. destruct (is_reconnecting s) eqn:Hr.
  { unfold connection_disconnection_handler in He. rewrite Hr in He. simplify_eq. by apply accounts_same. }
  rewrite disconnection_handler_eq in He by done.
  destruct (begin_reconnection_same s) as (Hw & Hbc & _).
  destruct (reconnect_loop_spec n (begin_reconnection s)) as (o & s1 & E & Hrec & _).
  rewrite E in He. destruct o; simplify_eq.
  destruct (is_connected s1) eqn:Hc1.
  - rewrite end_reconnection_connected in Hc |- * by done.
    change (is_connected s1 = is_connected s) in Hc.
    destruct Hrec as [_ Hw1|]; [|congruence].
    apply accounts_same. transitivity (begin_reconnection s); [done|]. transitivity s1; [done|by split].
  - destruct (end_reconnection_lost s1 Hc1) as (Hp & _ & _ & _ & _ & _ & Hk).
    destruct Hrec as [_ Hw1|]; [|congruence].
    apply (accounts_trans [] [] s s1); [apply accounts_same; by etrans|].
    split; [by rewrite app_nil_r|done].
Qed.

(** ** Pipelining *)

Definition send_all (reqs : list (list string * C)) s : client :=
  fold_left (fun s rq => send rq.1 (Some (UserCallback rq.2)) s) reqs s.

Fixpoint read_all (n : nat) (packets : list string) s : outcome unit * client :=
  match packets with
  | [] => (Ret tt, s)
  | p :: packets' =>
    match on_read n true p s with
    | (Ret _, s') => read_all n packets' s'
    | r => r
    end
  end.

Definition request_of (rq : list string * C) : command_request C :=
  mk_request rq.1 (Some (UserCallback rq.2)).

Lemma send_all_eq reqs s :
  send_all reqs s =
  set_m_commands (m_commands s ++ (request_of <$> reqs))
    (set_m_client (Connection.set_buffer
       (Connection.m_buffer (m_client s) +:+ concat_packets (build_command <$> reqs.*1)) (m_client s)) s).
Proof.
  revert s; induction reqs as [|rq reqs IH]; intros s.
  - cbn. rewrite app_nil_r, s_app_nil_r. by destruct s as [? []].
  - unfold send_all in *. cbn [fold_left]. rewrite IH. clear IH.
    destruct s as [cf [tc rc dh b buf] sen at_ rec cn q cc k th tr].
    unfold send, unprotected_send, Connection.send, Connection.set_buffer, set_m_commands, set_m_client,
      request_of; cbn [Client.m_commands Client.m_client Connection.m_buffer Connection.m_client
      Connection.m_reply_callback Connection.m_disconnection_handler Connection.m_builder fmap list_fmap fst snd].
    rewrite <- app_assoc. cbn [app].
    change (concat_packets (build_command rq.1 :: (build_command <$> reqs.*1))) with
      (build_command rq.1 +:+ concat_packets (build_command <$> reqs.*1)).
    by rewrite s_app_assoc.
Qed.

Lemma pending_requests reqs : pending (request_of <$> reqs) = reqs.*2.
Proof. induction reqs as [|rq reqs IH]; [done|]. cbn. by f_equal. Qed.

Lemma request_of_users reqs : user_requests (request_of <$> reqs).
Proof. apply Forall_forall. intros r (rq & -> & _)%list_elem_of_fmap. right. by eexists. Qed.

(** The calls made when [rs] answer the requests of [q]. *)
Definition answers (q : list (command_request C)) (rs : list reply) : list (client_event C) :=
  omap (fun p => (fun c => Called c p.2) <$> user_callback p.1) (zip q rs).

Lemma answers_app q1 q2 rs1 rs2 :
  length rs1 = length q1 -> answers (q1 ++ q2) (rs1 ++ rs2) = answers q1 rs1 ++ answers q2 rs2.
Proof.
  intros Hl. unfold answers. rewrite zip_with_app by done. apply omap_app.
Qed.

Lemma answers_requests reqs rs :
  length rs = length reqs -> answers (request_of <$> reqs) rs = zip_with Called reqs.*2 rs.
Proof.
  unfold answers. revert rs; induction reqs as [|rq reqs IH]; intros [|r rs] Hl; try done.
  cbn. f_equal. apply IH. by simpl in Hl; lia.
Qed.

Lemma read_all_ok n packets q1 q2 s b :
  Connection.m_reply_callback (m_client s) = true -> is_connected s = true ->
  no_replies (Connection.m_builder (m_client s)) ->
  feed_all packets (Connection.m_builder (m_client s)) = (b, Ret tt) ->
  m_commands s = q1 ++ q2 -> user_requests q1 ->
  length (m_available_replies b) = length q1 ->
  (0 <= m_callbacks_running s < 2 ^ 32)%Z ->
  exists c, Connection.is_connected (Connection.set_tcp c (m_client s)) = true /\
    read_all n packets s =
    (Ret tt, set_trace (trace s ++ answers q1 (m_available_replies b))
       (set_m_commands q2
         (set_m_client (Connection.set_tcp c (set_builder (clear_replies b) (m_client s))) s))).
Proof.
  revert s q1 b; induction packets as [|p packets IH]; intros s q1 b Hr Hc Hn Hf Hq Hu Hl Hk; cbn [feed_all] in Hf.
  - simplify_eq. rewrite Hn in Hl |- *. destruct q1; [|done]. simpl in Hq.
    exists (Connection.m_client (m_client s)). split; [by destruct s as [? []]|].
    cbn [read_all]. f_equal. unfold answers; simpl. rewrite app_nil_r.
    destruct s as [? [? ? ? [? ? ?] ?]]; unfold no_replies in *; simpl in *. by subst.
  - destruct (feed p (Connection.m_builder (m_client s))) as [b1 o1] eqn:E1.
    destruct o1 as [[]| | |]; try by simplify_eq.
    destruct (receive_ok (m_client s) p b1 Hr Hc E1) as (c1 & Hrec & Hcc & _ & _).
    destruct b1 as [bf bl av1].
    unfold clear_replies in Hrec; cbn [Builders.m_buffer Builders.m_builder m_available_replies] in Hrec.
    rewrite feed_all_with_available in Hf. unfold add_replies in Hf.
    destruct (feed_all packets (mk_reply_builder bf bl [])) as [b2 o2] eqn:E2. simplify_eq/=.
    rewrite length_app in Hl.
    destruct (app_eq_inv_length q1 av1) as (qa & qb & -> & Ha); [lia|].
    rewrite length_app in Hl. unfold user_requests in Hu. apply Forall_app in Hu as [Hua Hub].
    unfold on_read. rewrite Hrec. cbn [m_available_replies].
    rewrite (pair_replies n av1 qa (qb ++ q2)); [|lia|cbn; by rewrite Hq, <- app_assoc|done|done].
    cbn match.
    match goal with |- context [read_all n packets ?x] => set (s1 := x) end.
    destruct (IH s1 qb b2) as (c2 & Hcc2 & ->); try done; [lia|].
    exists c2. split; [done|]. f_equal. subst s1.
    rewrite answers_app by lia. unfold answers.
    by rewrite app_assoc.
Qed.

(** ** Idle clients

    Between two rounds of commands: connected, nothing pending, nothing in the
    buffers.  [awaiting reqs] is the client that has just committed [reqs]. *)
Record ready s : Prop := {
  ready_connected : is_connected s = true;
  ready_reconnecting : is_reconnecting s = false;
  ready_running : m_callbacks_running s = 0%Z;
  ready_callback : Connection.m_reply_callback (m_client s) = true;
  ready_buffer : Connection.m_buffer (m_client s) = "";
  ready_builder : Connection.m_builder (m_client s) = reply_builder_init }.

Definition awaiting (reqs : list (list string * C)) s : Prop :=
  ready s /\ m_commands s = request_of <$> reqs.

Definition idle s : Prop := ready s /\ m_commands s = [].

Lemma idle_sync_done s : idle s -> sync_done s = true.
Proof. intros [[] Hq]. unfold sync_done. by rewrite Hq, ready_running0. Qed.

Lemma commit_idle reqs s :
  idle s ->
  exists s1, commit (send_all reqs s) = (Ret tt, s1) /\
    tc_output (Connection.m_client (m_client s1)) =
      tc_output (Connection.m_client (m_client s)) +:+ concat_packets (build_command <$> reqs.*1) /\
    awaiting reqs s1 /\ trace s1 = trace s /\ m_config s1 = m_config s.
Proof.
  intros [[Hc Hrec Hk Hr Hb Hbl] Hq]. unfold commit. rewrite send_all_eq, Hq, Hb.
  change (is_reconnecting (set_m_commands _ _)) with (is_reconnecting s). rewrite Hrec. simpl negb. cbn match.
  match goal with |- context [try_commit ?x] => set (s0 := x) end.
  destruct (try_commit_connected s0 Hc) as (c & -> & Hcc & Ho). eexists. by split_and!.
Qed.

Lemma answer_awaiting n reqs vs packets s :
  awaiting reqs s -> length vs = length reqs -> forallb wire_ok vs = true ->
  concat_packets packets = encode_all vs ->
  exists s', read_all n packets s = (Ret tt, s') /\
    trace s' = trace s ++ zip_with Called reqs.*2 (reply_of <$> vs) /\ idle s' /\
    m_config s' = m_config s.
Proof.
  intros [[Hc Hrec Hk Hr Hb Hbl] Hq] Hlen Hok Hp.
  destruct (read_all_ok n packets (request_of <$> reqs) [] s (mk_reply_builder "" None (reply_of <$> vs)))
    as (c & Hcc & Hread); try done.
  - by rewrite Hbl.
  - rewrite Hbl. by apply (feed_all_encode packets vs []).
  - by rewrite app_nil_r.
  - apply request_of_users.
  - cbn. by rewrite !length_fmap.
  - rewrite Hk. lia.
  - eexists. split; [exact Hread|]. split_and!; [|split; [split|]|]; try done.
    cbn [trace set_trace m_available_replies]. by rewrite answers_requests by by rewrite length_fmap.
Qed.

(** ** A detached thread that runs to its end *)

Fixpoint run_thread (i k : nat) s : outcome unit * client :=
  match k with
  | O => (Ret tt, s)
  | Datatypes.S k =>
    match thread_step i s with
    | (Ret _, s') => run_thread i k s'
    | r => r
    end
  end.

Lemma run_thread_all i q s :
  threads s !! i = Some q ->
  exists s', run_thread i (length q) s = (Ret tt, s') /\ threads s' = <[i := []]> (threads s) /\
    m_commands s' = m_commands s /\
    trace s' = trace s ++ ((fun c => Called c network_failure) <$> pending q).
Proof.
  revert s; induction q as [|req q IH]; intros s Hi; cbn [length run_thread].
  - exists s. split_and!; [done|by rewrite list_insert_id|done|by rewrite app_nil_r].
  - unfold thread_step. rewrite Hi.
    assert (i < length (threads s)) as Hlt by (apply lookup_lt_is_Some; eauto).
    destruct (callback req) as [cb|] eqn:Hcb; [rewrite run_failure|]; cbn match;
      match goal with |- context [run_thread i (length q) ?x] => set (s1 := x) end;
      (destruct (IH s1) as (s' & -> & Ht & Hq & Htr);
       [subst s1; cbn [threads set_threads]; try destruct cb; by apply list_lookup_insert_eq|]);
      exists s'; rewrite Ht, Hq, Htr, pending_cons; subst s1; unfold user_callback; rewrite Hcb;
      (split_and!; [done|try destruct cb; by apply list_insert_insert_eq|by try destruct cb|]);
      try destruct cb; cbn; by rewrite <- ?app_assoc.
Qed.

(** ** Sequences of operations

    The operations of a client whose reconnections all fail: [cs] are the
    callbacks the operation hands over.  The TCP client below may change by
    itself at any time. *)
Inductive client_step : list C -> client -> client -> Prop :=
| step_send cmd c s : client_step [c] s (send cmd (Some (UserCallback c)) s)
| step_send_silent cmd s : client_step [] s (send cmd None s)
| step_commit o s s' : commit s = (o, s') -> client_step [] s s'
| step_disconnect w s : client_step [] s (disconnect w s)
| step_cancel s : client_step [] s (cancel_reconnect s)
| step_connect h p cb ms max itv o s s' :
    connect h p cb ms max itv s = (o, s') -> client_step [] s s'
| step_tcp t s : client_step [] s (set_m_client (set_tcp t (m_client s)) s)
| step_read n ok data s s' :
    is_connected s = true -> on_read n ok data s = (Ret tt, s') -> client_step [] s s'
| step_thread i o s s' : thread_step i s = (o, s') -> client_step [] s s'
| step_lost n s s' :
    on_disconnected n s = (Ret tt, s') -> is_connected s' = is_connected s -> client_step [] s s'.

Inductive client_steps : list C -> client -> client -> Prop :=
| steps_nil s : client_steps [] s s
| steps_cons cs1 cs2 s1 s2 s3 :
    client_step cs1 s1 s2 -> client_steps cs2 s2 s3 -> client_steps (cs1 ++ cs2) s1 s3.

Lemma client_step_accounts cs s s' : client_step cs s s' -> accounts cs s s'.
Proof.
  intros Hs. destruct Hs as [cmd c s|cmd s|o s s' He|w s|s|h p cb ms max itv o s s' He|t s|n ok data s s' Hc He
    |i o s s' He|n s s' He Hc].
  - apply (accounts_send cmd (Some (UserCallback c)) s).
  - apply (accounts_send cmd None s).
  - unfold commit in He. destruct (negb _); [|simplify_eq; by apply accounts_same].
    unfold try_commit in He. destruct (Connection.commit (m_client s)) as [[[]|[]| |] conn];
      simplify_eq; try (by apply accounts_same).
    apply (accounts_trans [] [] s (set_m_client conn s)); [by apply accounts_same|apply accounts_clear].
  - unfold disconnect.
    apply (accounts_trans [] [] s (set_m_client (Connection.disconnect w (m_client s)) s));
      [by apply accounts_same|apply accounts_clear].
  - by apply accounts_same.
  - destruct (connect_spec h p cb ms max itv s) as (o' & s1 & E & _ & Hw & _).
    rewrite E in He. simplify_eq. by apply accounts_same.
  - by apply accounts_same.
  - by eapply accounts_read.
  - by apply (accounts_thread i s o s').
  - unfold on_disconnected, tcp_client_disconnection_handler, call_disconnection_handler in He.
    assert (forall conn, is_connected (set_m_client (set_buffer "" conn) s) =
                         Connection.is_connected conn) as Hcn by done.
    destruct (Connection.m_disconnection_handler _); cbn [handle_events handle_event] in He.
    + destruct (connection_disconnection_handler _ _) as [[[]| | |] s1] eqn:E; try done.
      simplify_eq.
      apply (accounts_trans [] [] s (set_m_client (set_buffer "" (m_client s)) s)); [by apply accounts_same|].
      eapply accounts_lost; [exact E|]. by rewrite Hc.
    + simplify_eq. by apply accounts_same.
Qed.
End client_facts.

(** ** Properties *)

(** C8: Pipelining: commands sent and committed on an idle client go out as
    one stream in order, and whatever packets their replies come in, each
    callback runs exactly once, in order, with the reply to its own command;
    afterwards [sync_commit] is done and the client is idle again. *)
Theorem pipelining_fifo {T S C} `{TcpClientLaws T} `{SentinelLookup S} n (s : client_state T S C) reqs vs packets :
  idle s -> length vs = length reqs -> forallb wire_ok vs = true -> concat_packets packets = encode_all vs ->
  exists s1 s2,
    commit (send_all reqs s) = (Ret tt, s1) /\
    tc_output (Connection.m_client (m_client s1)) =
      tc_output (Connection.m_client (m_client s)) +:+ concat_packets (build_command <$> reqs.*1) /\
    read_all n packets s1 = (Ret tt, s2) /\
    trace s2 = trace s ++ zip_with Called reqs.*2 (reply_of <$> vs) /\
    sync_done s2 = true /\ idle s2.
Proof.
  intros Hi Hlen Hok Hp.
  destruct (commit_idle reqs s Hi) as (s1 & Hc & Ho & Hw & Htr & _).
  destruct (answer_awaiting n reqs vs packets s1 Hw Hlen Hok Hp) as (s2 & Hread & Htr2 & Hi2 & _).
  exists s1, s2. rewrite <- Htr. split_and!; try done. by apply idle_sync_done.
Qed.

(** C9: No callback is lost or repeated: after any sequence of sends, commits
    (also failed ones), connections, disconnections, reads, runs of the
    detached threads and lost connections that are not re-established, the
    callbacks run so far together with those still owed are exactly the
    callbacks issued; and when the condition of [sync_commit] holds, every one
    of them has run. *)
Theorem callbacks_accounted {T S C} `{TcpClientLaws T} `{SentinelLookup S} tcp (sen : S) cs (s : client_state T S C) :
  client_steps cs (init tcp sen) s ->
  owed s ≡ₚ cs /\
  (sync_done s = true -> (Z.of_nat (length (concat (threads s))) < 2 ^ 32)%Z -> (calls s).*1 ≡ₚ cs).
Proof.
  intros Hs.
  assert (accounts cs (init tcp sen) s) as [Ho Hk].
  { induction Hs as [s|cs1 cs2 s1 s2 s3 Hs1 _ IH].
    - by apply accounts_same.
    - eapply accounts_trans; [by apply client_step_accounts|done]. }
  change (owed (init tcp sen)) with (@nil C) in Ho. split; [done|].
  intros Hd Hlt. unfold sync_done in Hd. apply andb_true_iff in Hd as [Hr Hq].
  specialize (Hk eq_refl). unfold counter_ok, wrap_u32 in Hk. rewrite Z.mod_small in Hk by lia.
  apply Z.eqb_eq in Hr. destruct (m_commands s) eqn:Eq; [|done].
  assert (concat (threads s) = []) as Ht by (apply length_zero_iff_nil; lia).
  rewrite <- Ho. unfold owed. by rewrite Eq, Ht, app_nil_r.
Qed.

(** C31: A failed commit throws, unsends everything and, once the detached
    thread has run, has given each pending callback the "network failure"
    error, in order. *)
Theorem failed_commit_fails_callbacks {T S C} `{TcpClientLaws T} `{SentinelLookup S} (s : client_state T S C) :
  is_connected s = false -> is_reconnecting s = false ->
  exists w s1 s2,
    commit s = (Throw (redis_error w), s1) /\
    m_commands s1 = [] /\ Connection.m_buffer (m_client s1) = "" /\
    run_thread (length (threads s)) (length (m_commands s)) s1 = (Ret tt, s2) /\
    calls s2 = calls s ++ ((fun c => (c, network_failure)) <$> pending (m_commands s)).
Proof.
  intros Hc Hr. unfold commit. rewrite Hr. simpl negb. cbn match.
  destruct (try_commit_disconnected s Hc) as (w & ->).
  set (s0 := set_m_client _ s). exists w, (clear_callbacks s0).
  destruct (clear_callbacks_fields s0) as (Hq & Hcl & _ & Htr).
  destruct (m_commands s) as [|r q] eqn:E.
  - exists (clear_callbacks s0). rewrite Hcl. split_and!; [done..|].
    cbn. rewrite app_nil_r. unfold calls. by rewrite Htr.
  - destruct (run_thread_all (length (threads s)) (r :: q) (clear_callbacks s0)) as (s2 & Hrun & _ & _ & Htr2).
    { unfold clear_callbacks. change (m_commands s0) with (m_commands s). rewrite E.
      cbn [threads set_threads]. by apply list_lookup_middle. }
    exists s2. rewrite Hcl. split_and!; [done..|].
    unfold calls. rewrite Htr2, Htr, omap_app. f_equal.
    generalize (pending (r :: q)). intros l. induction l as [|c l IH]; [done|]. cbn. by f_equal.
Qed.

(** C28: With a limit on attempts, and a sentinel whose lookups return, the
    reconnection flow always ends, after at most that many attempts: reconnected, cancelled, or with every attempt
    used up, and then every pending command has been handed to a thread that
    fails its callback. *)
Theorem reconnection_ends {T S C} `{TcpClientLaws T} `{SentinelLookup S}
    (I : S -> Prop) n (s : client_state T S C) :
  lookups_return I -> I (m_sentinel s) -> is_reconnecting s = false -> is_connected s = false ->
  (0 <= m_max_reconnects (m_config s) <= Z.of_nat n)%Z ->
  exists s', connection_disconnection_handler n s = (Ret tt, s') /\
    is_reconnecting s' = false /\
    (m_current_reconnect_attempts s' <= m_max_reconnects (m_config s))%Z /\
    (is_connected s' = false ->
       (m_cancel s = true \/ m_current_reconnect_attempts s' = m_max_reconnects (m_config s)) /\
       m_commands s' = [] /\ calls s' = calls s /\
       concat (threads s') = concat (threads s) ++ m_commands s).
Proof.
  intros Hret Hsen Hr Hc Hm.
  destruct (reconnection_flow I n s Hret Hsen Hr Hm) as (s1' & E & -> & Hat & Hle & _).
  destruct (begin_reconnection_same s) as ([Bq Bt _ Bl] & Bc & Bm & Bx & Ba).
  destruct (reconnect_loop_spec n (begin_reconnection s)) as (o & s1 & E' & Hrec & Hstop & Hmm & Hx & _).
  rewrite E in E'. injection E' as <- <-. exists (end_reconnection s1').
  rewrite Bm in Hmm.
  split_and!; [done|done|by rewrite Hat|].
  intros Hc'. destruct (is_connected s1') eqn:Hc1.
  { rewrite end_reconnection_connected in Hc' by done. change (is_connected s1' = false) in Hc'. congruence. }
  destruct (end_reconnection_lost s1' Hc1) as (_ & Eq & Et & El & _).
  destruct Hrec as [_ [Rq Rt _ Rl]|]; [|congruence].
  split_and!; [|congruence..].
  specialize (Hstop eq_refl). unfold should_reconnect in Hstop. rewrite Hc1, Hx, Bx in Hstop.
  destruct (m_cancel s); [by left|right]. simpl in Hstop. apply orb_false_iff in Hstop as [_ Hstop].
  apply Z.ltb_ge in Hstop. rewrite Hat. lia.
Qed.

(** A successful reconnection drops the commands that were pending: the
    queue ends up empty, no thread has received them and none of their
    callbacks has run, so a promise waiting for one of them is never
    fulfilled. *)
Theorem reconnection_drops_pending {T S C} `{TcpClientLaws T} `{SentinelLookup S} n (s s' : client_state T S C) :
  is_reconnecting s = false -> is_connected s = false ->
  connection_disconnection_handler n s = (Ret tt, s') -> is_connected s' = true ->
  m_commands s' = [] /\ threads s' = threads s /\ calls s' = calls s.
Proof.
  intros Hr Hc He Hc'. rewrite disconnection_handler_eq in He by done.
  destruct (begin_reconnection_same s) as ([Bq Bt _ Bl] & Bc & _).
  destruct (reconnect_loop_spec n (begin_reconnection s)) as (o & s1 & E & Hrec & _).
  rewrite E in He. destruct o; simplify_eq.
  destruct (is_connected s1) eqn:Hc1.
  - rewrite end_reconnection_connected by done.
    change (calls (set_m_reconnecting false s1)) with (calls s1). cbn [m_commands threads set_m_reconnecting].
    destruct Hrec as [? ?|]; [congruence|]. split_and!; congruence.
  - destruct (end_reconnection_lost s1 Hc1) as (_ & _ & _ & _ & Hf & _). congruence.
Qed.

(** After a reconnection with a password, replies answer the wrong
    commands: AUTH is on the wire but its request is not in the queue, so the
    next command's callback receives the reply to AUTH, and its own reply is
    thrown away. *)
Theorem reconnection_misaligns_replies {T S C} `{TcpClientLaws T} `{SentinelLookup S}
    n (s : client_state T S C) cmd c auth_reply cmd_reply :
  is_connected s = true -> m_password (m_config s) <> "" -> (m_database_index (m_config s) <= 0)%Z ->
  (0 <= m_callbacks_running s < 2 ^ 32)%Z ->
  exists s1 s2,
    reconnected s = (Ret tt, s1) /\
    tc_output (Connection.m_client (m_client s1)) =
      tc_output (Connection.m_client (m_client s)) +:+ Connection.m_buffer (m_client s) +:+
      build_command ["AUTH"; m_password (m_config s)] /\
    handle_events n [ReplyReceived auth_reply; ReplyReceived cmd_reply]
      (send cmd (Some (UserCallback c)) s1) = (Ret tt, s2) /\
    calls s2 = calls s ++ [(c, auth_reply)] /\ m_commands s2 = [].
Proof.
  intros Hc Hp Hdb Hk. unfold reconnected.
  destruct (call_connect_callback_eq (m_redis_server (m_config s)) (m_redis_port (m_config s)) connect_ok s)
    as (t & Hn & Ht).
  unfold notify. rewrite Hn. unfold re_auth, re_select. cbn [m_config set_trace].
  destruct (String.length (m_password (m_config s)) =? 0)%nat eqn:El.
  { apply Nat.eqb_eq in El. by destruct (m_password (m_config s)). }
  unfold unprotected_auth. cbn [m_config unprotected_send set_m_commands set_m_client set_m_config set_password
    m_database_index set_trace].
  destruct (m_database_index (m_config s) <=? 0)%Z eqn:Ed; [|apply Z.leb_gt in Ed; lia].
  rewrite resend_failed_commands_eq.
  match goal with |- context [try_commit ?x] => set (s0 := x) end.
  destruct (try_commit_connected s0 Hc) as (c0 & -> & _ & Ho).
  pose (s1 := set_m_client (Connection.set_tcp c0 (Connection.set_buffer "" (m_client s0))) s0).
  pose proof (receive_front [] (mk_request cmd (Some (UserCallback c))) auth_reply
    (send cmd (Some (UserCallback c)) s1) eq_refl Hk (or_intror (ex_intro _ c eq_refl))) as Hf.
  exists s1. eexists. split_and!; [done|exact Ho| |..].
  - cbn [handle_events handle_event]. rewrite Hf. cbn match. by rewrite receive_none.
  - unfold calls at 1. cbn [trace set_trace]. rewrite omap_app. f_equal. exact Ht.
  - done.
Qed.

(** A packet with an unknown type byte stalls the client for good: it
    reports itself connected, starts no reconnection, arms no read, and
    whatever arrives later, the pending commands are never answered. *)
Theorem invalid_packet_stalls_client {T S C} `{TcpClientLaws T} `{SentinelLookup S}
    n (s : client_state T S C) c rest w packets :
  create_builder c = Throw (redis_error w) ->
  Connection.m_builder (m_client s) = reply_builder_init ->
  is_connected s = true -> is_reconnecting s = false ->
  exists s', read_all n (String c rest :: packets) s = (Ret tt, s') /\
    is_connected s' = true /\ is_reconnecting s' = false /\
    tc_reads (Connection.m_client (m_client s')) = tc_reads (Connection.m_client (m_client s)) /\
    m_commands s' = m_commands s /\ calls s' = calls s.
Proof.
  intros Hcb Hbl Hc Hr.
  assert (forall data (s : client_state T S C), (exists rest, Builders.m_buffer (Connection.m_builder (m_client s)) +:+ data = String c rest) ->
    Builders.m_builder (Connection.m_builder (m_client s)) = None ->
    is_connected s = true -> is_reconnecting s = false ->
    exists s' : client_state T S C, on_read n true data s = (Ret tt, s') /\
      (exists rest, Builders.m_buffer (Connection.m_builder (m_client s')) = String c rest) /\
      Builders.m_builder (Connection.m_builder (m_client s')) = None /\
      is_connected s' = true /\ is_reconnecting s' = false /\
      Connection.m_client (m_client s') = Connection.m_client (m_client s) /\
      m_commands s' = m_commands s /\ calls s' = calls s) as Hstep.
  { clear -Hcb H0. intros data s [rest Hb] Hbl Hc Hr. unfold on_read, tcp_client_receive_handler. cbn [negb].
    rewrite feed_drain. unfold append_data. rewrite Hb, Hbl, (drain_invalid _ _ _ _ Hcb).
    match goal with |- context [set_m_client ?x s] => set (conn := x) end.
    unfold call_disconnection_handler. destruct (m_disconnection_handler (m_client s)); cbn [handle_events handle_event].
    - rewrite handler_spurious by done. cbn match. eexists. split; [done|].
      destruct (begin_reconnection_same (set_m_client conn s)) as ([Bq Bt _ Bl] & Bc & _).
      assert (m_client (begin_reconnection (set_m_client conn s)) = conn) as Hcl.
      { unfold begin_reconnection. by rewrite (proj1 (proj2 (notify_same _ _))). }
      cbn [m_client m_commands set_m_reconnecting]. rewrite Hcl.
      split_and!; [by eexists|done|unfold is_connected; cbn [m_client set_m_reconnecting]; by rewrite Hcl|done..].
    - eexists. split; [done|]. split_and!; [by eexists|done..]. }
  destruct (Hstep (String c rest) s) as (s1 & E1 & Hb1 & Hbl1 & Hc1 & Hr1 & Hcl1 & Hq1 & Hca1);
    [rewrite Hbl; by eexists|by rewrite Hbl|done..|].
  cbn [read_all]. rewrite E1. rewrite <- Hq1, <- Hca1, <- Hcl1. clear -Hstep Hb1 Hbl1 Hc1 Hr1 H0.
  revert s1 Hb1 Hbl1 Hc1 Hr1. induction packets as [|p packets IH]; intros s1 [rest1 Hb1] Hbl1 Hc1 Hr1; [by exists s1|].
  destruct (Hstep p s1) as (s2 & E2 & Hb2 & Hbl2 & Hc2 & Hr2 & Hcl2 & Hq2 & Hca2);
    [rewrite Hb1; by eexists|done..|].
  cbn [read_all]. rewrite E2, <- Hq2, <- Hca2, <- Hcl2. by apply IH.
Qed.

(** ** Witnesses *)

(** Sentinels that are never reached: no master is ever found. *)
#[local] Instance no_sentinel : SentinelLookup unit := {|
  get_master_addr_by_name _ s := (Ret false, (EmptyString, 0%Z), s) |}.

Definition sample_client (connects : list bool) : client_state tacopie.tcp_client unit nat :=
  (connect "127.0.0.1" 6379 true 0 2 100 (init (tacopie.init connects []) tt)).2.

(** The peer has closed the connection. *)
Definition dropped_client (connects : list bool) : client_state tacopie.tcp_client unit nat :=
  let s := send ["GET"; "k"] (Some (UserCallback 7)) (sample_client connects) in
  set_m_client (set_tcp (tc_disconnect false (Connection.m_client (m_client s))) (m_client s)) s.

Lemma pipelining_fifo_witness :
  exists s1 s2,
    commit (send_all [(["GET"; "a"], 1); (["INCR"; "b"], 2)] (sample_client [true])) = (Ret tt, s1) /\
    tc_output (Connection.m_client (m_client s1)) =
      tc_output (Connection.m_client (m_client (sample_client [true]))) +:+
      concat_packets (build_command <$> [(["GET"; "a"], 1); (["INCR"; "b"], 2)].*1) /\
    read_all 0 ["+O"; "K" +:+ crlf +:+ ":4"; "2" +:+ crlf] s1 = (Ret tt, s2) /\
    trace s2 = trace (sample_client [true]) ++
      zip_with Called [(["GET"; "a"], 1); (["INCR"; "b"], 2)].*2 (reply_of <$> [VSimple "OK"; VInt 42]) /\
    sync_done s2 = true /\ idle s2.
Proof.
  apply pipelining_fifo; [split; [split|]; vm_compute; reflexivity|vm_compute; reflexivity..].
Defined.

Lemma failed_commit_fails_callbacks_witness :
  exists w s1 s2,
    commit (dropped_client [true]) = (Throw (redis_error w), s1) /\
    m_commands s1 = [] /\ Connection.m_buffer (m_client s1) = "" /\
    run_thread (length (threads (dropped_client [true]))) (length (m_commands (dropped_client [true]))) s1 =
      (Ret tt, s2) /\
    calls s2 = calls (dropped_client [true]) ++
      ((fun c => (c, network_failure)) <$> pending (m_commands (dropped_client [true]))).
Proof. apply failed_commit_fails_callbacks; vm_compute; reflexivity. Defined.

Lemma reconnection_ends_witness :
  exists s', connection_disconnection_handler 2 (dropped_client [true; false; false]) = (Ret tt, s') /\
    is_reconnecting s' = false /\
    (m_current_reconnect_attempts s' <= m_max_reconnects (m_config (dropped_client [true; false; false])))%Z /\
    (is_connected s' = false ->
       (m_cancel (dropped_client [true; false; false]) = true \/
        m_current_reconnect_attempts s' = m_max_reconnects (m_config (dropped_client [true; false; false]))) /\
       m_commands s' = [] /\ calls s' = calls (dropped_client [true; false; false]) /\
       concat (threads s') = concat (threads (dropped_client [true; false; false])) ++
         m_commands (dropped_client [true; false; false])).
Proof.
  apply (reconnection_ends (fun _ => True));
    [intros name sen _; split; [by exists false|done]|done|vm_compute; reflexivity..|vm_compute; split; discriminate].
Defined.

Lemma reconnection_drops_pending_witness :
  m_commands (connection_disconnection_handler 2 (dropped_client [true; true])).2 = [] /\
  threads (connection_disconnection_handler 2 (dropped_client [true; true])).2 =
    threads (dropped_client [true; true]) /\
  calls (connection_disconnection_handler 2 (dropped_client [true; true])).2 = calls (dropped_client [true; true]).
Proof. apply (reconnection_drops_pending 2); vm_compute; reflexivity. Defined.

Lemma reconnection_misaligns_replies_witness :
  exists s1 s2,
    reconnected (auth "pw" None (sample_client [true])) = (Ret tt, s1) /\
    tc_output (Connection.m_client (m_client s1)) =
      tc_output (Connection.m_client (m_client (auth "pw" None (sample_client [true])))) +:+
      Connection.m_buffer (m_client (auth "pw" None (sample_client [true]))) +:+
      build_command ["AUTH"; m_password (m_config (auth "pw" None (sample_client [true])))] /\
    handle_events 0 [ReplyReceived (reply_string "OK" st_simple_string); ReplyReceived reply_null]
      (send ["GET"; "k"] (Some (UserCallback 3)) s1) = (Ret tt, s2) /\
    calls s2 = calls (auth "pw" None (sample_client [true])) ++ [(3, reply_string "OK" st_simple_string)] /\
    m_commands s2 = [].
Proof.
  apply reconnection_misaligns_replies;
    [vm_compute; reflexivity|vm_compute; discriminate|vm_compute; discriminate|
     vm_compute; split; [discriminate|reflexivity]].
Defined.

Lemma invalid_packet_stalls_client_witness :
  exists s', read_all 5 ["?"; "+OK" +:+ crlf] (sample_client [true; true]) = (Ret tt, s') /\
    is_connected s' = true /\ is_reconnecting s' = false /\
    tc_reads (Connection.m_client (m_client s')) =
      tc_reads (Connection.m_client (m_client (sample_client [true; true]))) /\
    m_commands s' = m_commands (sample_client [true; true]) /\ calls s' = calls (sample_client [true; true]).
Proof. apply (invalid_packet_stalls_client 5 _ "?" "" "Invalid data"); vm_compute; reflexivity. Defined.

(** A command is sent, the connection lost, the attempts fail, and the
    detached thread runs. *)
Definition lost_state : client_state tacopie.tcp_client unit nat :=
  (on_disconnected 2 (dropped_client [true; false; false])).2.

Lemma callbacks_accounted_witness :
  owed (thread_step 0 lost_state).2 ≡ₚ [7] /\
  (sync_done (thread_step 0 lost_state).2 = true ->
   (Z.of_nat (length (concat (threads (thread_step 0 lost_state).2))) < 2 ^ 32)%Z ->
   (calls (thread_step 0 lost_state).2).*1 ≡ₚ [7]).
Proof.
  apply (callbacks_accounted (tacopie.init [true; false; false] []) tt).
  refine (steps_cons [] [7] _ (sample_client [true; false; false]) _ _ _).
  { eapply (step_connect "127.0.0.1" 6379 true 0 2 100). apply surjective_pairing. }
  refine (steps_cons [7] [] _ _ _ (step_send ["GET"; "k"] 7 _) _).
  refine (steps_cons [] [] _ (dropped_client [true; false; false]) _ _ _).
  { apply (step_tcp (tc_disconnect false (Connection.m_client (m_client (send ["GET"; "k"] (Some (UserCallback 7))
      (sample_client [true; false; false])))))). }
  refine (steps_cons [] [] _ lost_state _ _ _).
  { apply (step_lost 2); vm_compute; reflexivity. }
  refine (steps_cons [] [] _ _ _ _ (steps_nil _)).
  apply (step_thread 0 (thread_step 0 lost_state).1). apply surjective_pairing.
Defined.
