(* ===== verification/Sentinel.v ===== *)
(** [cpp_redis::sentinel] (sources/core/sentinel.cpp and
    includes/cpp_redis/core/sentinel.hpp): the list of sentinels, the connection
    to one of them, the queue of callbacks, and the lookup of a master's address,
    which is what [Client] asks of it.  Generic in the TCP client.

    The lookup waits for its answer: [SentinelPeer] is what is at the other end,
    as the processes that connections reach and what they do with what they are
    sent.  [host] and [port], which the callback of the lookup captures by
    reference, are part of the state. *)

From S2P Require Import Prelude Text Reply Builders TcpClient Connection Client.

(** What the other end does once it has been sent something. *)
Inductive reaction : Type :=
| answers (data : string)
| hangs_up
| stays_silent.

Class SentinelPeer (R : Type) : Type := {
  peer_connected : string -> Z -> R -> R;
  peer_reaction : string -> R -> reaction * R }.

(** ** [std::stoi(s, nullptr, 10)] *)

Definition isspace (c : ascii) : bool :=
  let n := N_of_ascii c in ((n =? 32) || ((9 <=? n) && (n <=? 13)))%N.
Fixpoint skip_spaces (s : string) : string :=
  match s with
  | String c r => if isspace c then skip_spaces r else s
  | EmptyString => EmptyString
  end.
Fixpoint leading_digits (s : string) : string :=
  match s with
  | String c r => if isdigit c then String c (leading_digits r) else EmptyString
  | EmptyString => EmptyString
  end.
Definition stoi_unsigned (sign : Z) (s : string) : outcome Z :=
  match leading_digits s with
  | EmptyString => Throw (std_exception "stoi: invalid argument")
  | ds =>
    let v := (sign * dec_value 0 ds)%Z in
    if ((v <? INT32_MIN) || (INT32_MAX <? v))%Z then Throw (std_exception "stoi: out of range")
    else Ret v
  end.
Definition stoi (s : string) : outcome Z :=
  match skip_spaces s with
  | String c r =>
    if Ascii.eqb c "-" then stoi_unsigned (-1) r
    else if Ascii.eqb c "+" then stoi_unsigned 1 r
    else stoi_unsigned 1 (String c r)
  | EmptyString => stoi_unsigned 1 EmptyString
  end.

(** ** The class *)

Record sentinel_def : Type := mk_sentinel_def {
  get_host : string;
  get_port : Z;
  get_timeout_msecs : Z }.

(** A callback: one of the user's, or the lambda of the lookup. *)
Inductive sentinel_callback (C : Type) : Type :=
| UserReply (c : C)
| MasterReply.
Arguments UserReply {C}.
Arguments MasterReply {C}.

(** Calls of user code. *)
Inductive sentinel_event (C : Type) : Type :=
| SentinelCalled (c : C) (r : reply)
| DisconnectHandlerCalled.
Arguments SentinelCalled {C}.
Arguments DisconnectHandlerCalled {C}.

Record sentinel_state (T R C : Type) : Type := mk_sentinel {
  m_sentinels : list sentinel_def;
  m_client : redis_connection T;
  m_callbacks : list (option (sentinel_callback C));
  m_disconnect_handler : bool;
  m_callbacks_running : Z;
  lookup_host : string;
  lookup_port : Z;
  s_trace : list (sentinel_event C);
  peer : R }.
Arguments mk_sentinel {T R C}.
Arguments m_sentinels {T R C}.
Arguments m_client {T R C}.
Arguments m_callbacks {T R C}.
Arguments m_disconnect_handler {T R C}.
Arguments m_callbacks_running {T R C}.
Arguments lookup_host {T R C}.
Arguments lookup_port {T R C}.
Arguments s_trace {T R C}.
Arguments peer {T R C}.

Section sentinel.
Context {T R C : Type} `{TcpClient T} `{SentinelPeer R}.

Abbreviation sentinel := (sentinel_state T R C).

Definition with_sentinels (l : list sentinel_def) (s : sentinel) : sentinel :=
  mk_sentinel l (m_client s) (m_callbacks s) (m_disconnect_handler s) (m_callbacks_running s)
    (lookup_host s) (lookup_port s) (s_trace s) (peer s).
Definition with_client (c : redis_connection T) (s : sentinel) : sentinel :=
  mk_sentinel (m_sentinels s) c (m_callbacks s) (m_disconnect_handler s) (m_callbacks_running s)
    (lookup_host s) (lookup_port s) (s_trace s) (peer s).
Definition with_callbacks (l : list (option (sentinel_callback C))) (s : sentinel) : sentinel :=
  mk_sentinel (m_sentinels s) (m_client s) l (m_disconnect_handler s) (m_callbacks_running s)
    (lookup_host s) (lookup_port s) (s_trace s) (peer s).
Definition with_handler (h : bool) (s : sentinel) : sentinel :=
  mk_sentinel (m_sentinels s) (m_client s) (m_callbacks s) h (m_callbacks_running s)
    (lookup_host s) (lookup_port s) (s_trace s) (peer s).
Definition with_running (k : Z) (s : sentinel) : sentinel :=
  mk_sentinel (m_sentinels s) (m_client s) (m_callbacks s) (m_disconnect_handler s) k
    (lookup_host s) (lookup_port s) (s_trace s) (peer s).
Definition with_address (host : string) (port : Z) (s : sentinel) : sentinel :=
  mk_sentinel (m_sentinels s) (m_client s) (m_callbacks s) (m_disconnect_handler s)
    (m_callbacks_running s) host port (s_trace s) (peer s).
Definition with_peer (r : R) (s : sentinel) : sentinel :=
  mk_sentinel (m_sentinels s) (m_client s) (m_callbacks s) (m_disconnect_handler s)
    (m_callbacks_running s) (lookup_host s) (lookup_port s) (s_trace s) r.
Definition record (e : sentinel_event C) (s : sentinel) : sentinel :=
  mk_sentinel (m_sentinels s) (m_client s) (m_callbacks s) (m_disconnect_handler s)
    (m_callbacks_running s) (lookup_host s) (lookup_port s) (s_trace s ++ [e]) (peer s).

(** The constructor with a TCP client. *)
Definition init (tcp : T) (r : R) : sentinel :=
  mk_sentinel [] (Connection.init tcp) [] false 0 "" 0 [] r.

Definition add_sentinel (host : string) (port timeout_msecs : Z) (s : sentinel) : sentinel :=
  with_sentinels (m_sentinels s ++ [mk_sentinel_def host port timeout_msecs]) s.
Definition clear_sentinels (s : sentinel) : sentinel := with_sentinels [] s.

Definition is_connected (s : sentinel) : bool := Connection.is_connected (m_client s).
Definition disconnect (wait_for_removal : bool) (s : sentinel) : sentinel :=
  with_client (Connection.disconnect wait_for_removal (m_client s)) s.

(** The destructor *)
Definition destroy (s : sentinel) : sentinel :=
  let s := clear_sentinels s in if is_connected s then disconnect true s else s.

Definition clear_callbacks (s : sentinel) : sentinel := with_callbacks [] s.

Definition send (redis_cmd : list string) (cb : option (sentinel_callback C)) (s : sentinel) : sentinel :=
  with_callbacks (m_callbacks s ++ [cb]) (with_client (Connection.send redis_cmd (m_client s)) s).

Definition try_commit (s : sentinel) : outcome unit * sentinel :=
  match Connection.commit (m_client s) with
  | (Throw (redis_error w), conn) => (Throw (redis_error w), clear_callbacks (with_client conn s))
  | (o, conn) => (o, with_client conn s)
  end.
Definition commit (s : sentinel) : outcome unit * sentinel := try_commit s.

(** The predicate of the wait on [m_sync_condvar]. *)
Definition sync_done (s : sentinel) : bool :=
  (m_callbacks_running s =? 0)%Z && match m_callbacks s with [] => true | _ => false end.

(** The lambda of [get_master_addr_by_name]: [host] is assigned before the port
    is read; an array that is too short is read out of bounds. *)
Definition master_reply (r : reply) (s : sentinel) : outcome unit * sentinel :=
  if is_array r then
    match as_array r with
    | Ret (a0 :: arr) =>
      match as_string a0 with
      | Ret host =>
        let s := with_address host (lookup_port s) s in
        match arr with
        | a1 :: _ =>
          match obind stoi (as_string a1) with
          | Ret port => (Ret tt, with_address host (wrap_u64 port) s)
          | Throw e => (Throw e, s)
          | Undef => (Undef, s)
          | Timeout => (Timeout, s)
          end
        | [] => (Undef, s)
        end
      | Throw e => (Throw e, s)
      | _ => (Undef, s)
      end
    | _ => (Undef, s)
    end
  else (Ret tt, s).

Definition run_callback (cb : sentinel_callback C) (r : reply) (s : sentinel) : outcome unit * sentinel :=
  match cb with
  | UserReply c => (Ret tt, record (SentinelCalled c r) s)
  | MasterReply => master_reply r s
  end.

(** ** Handlers of the connection *)

Definition connection_receive_handler (r : reply) (s : sentinel) : outcome unit * sentinel :=
  let s1 := with_running (wrap_u32 (m_callbacks_running s + 1)) s in
  let '(cb, s2) :=
    match m_callbacks s1 with
    | [] => (None, s1)
    | cb :: cbs => (cb, with_callbacks cbs s1)
    end in
  let '(o, s3) :=
    match cb with
    | Some cb => run_callback cb r s2
    | None => (Ret tt, s2)
    end in
  match o with
  | Ret _ => (Ret tt, with_running (wrap_u32 (m_callbacks_running s3 - 1)) s3)
  | _ => (o, s3)
  end.

Definition call_disconnect_handler (s : sentinel) : sentinel :=
  if m_disconnect_handler s then record DisconnectHandlerCalled s else s.
Definition connection_disconnect_handler (s : sentinel) : sentinel :=
  call_disconnect_handler (clear_callbacks s).

Fixpoint handle_events (es : list connection_event) (s : sentinel) : outcome unit * sentinel :=
  match es with
  | [] => (Ret tt, s)
  | ReplyReceived r :: es =>
    match connection_receive_handler r s with
    | (Ret _, s) => handle_events es s
    | res => res
    end
  | Disconnected :: es => handle_events es (connection_disconnect_handler s)
  end.

(** A read of the TCP client completes; the TCP client sees the connection
    closed, and reports it. *)
Definition on_read (success : bool) (data : string) (s : sentinel) : outcome unit * sentinel :=
  match tcp_client_receive_handler success data (m_client s) with
  | (Ret _, conn, events) => handle_events events (with_client conn s)
  | (o, conn, _) => (o, with_client conn s)
  end.
Definition on_closed (s : sentinel) : outcome unit * sentinel :=
  let conn := set_tcp (tc_disconnect false (Connection.m_client (m_client s))) (m_client s) in
  let '(conn, events) := tcp_client_disconnection_handler conn in
  handle_events events (with_client conn s).

(** ** Connecting *)

Definition connect_to (host : string) (port timeout_msecs : Z) (s : sentinel) : outcome unit * sentinel :=
  match Connection.connect host port timeout_msecs true true (m_client s) with
  | (Ret _, conn) => (Ret tt, with_peer (peer_connected host port (peer s)) (with_client conn s))
  | (o, conn) => (o, with_client conn s)
  end.

Definition connect (host : string) (port : Z) (sentinel_disconnect_handler : bool) (timeout_msecs : Z)
    (s : sentinel) : outcome unit * sentinel :=
  match connect_to host port timeout_msecs s with
  | (Ret _, s) => (Ret tt, with_handler sentinel_disconnect_handler s)
  | r => r
  end.

(** The loop of [connect_sentinel] over the definitions from [it] on; the result
    is [not_connected].  A [redis_error] of the connection is caught. *)
Fixpoint connect_loop (it : list sentinel_def) (s : sentinel) : outcome bool * sentinel :=
  match it with
  | [] => (Ret true, s)
  | d :: it =>
    match connect_to (get_host d) (get_port d) (get_timeout_msecs d) s with
    | (Ret _, s) | (Throw (redis_error _), s) =>
      if is_connected s then (Ret false, s) else connect_loop it (disconnect true s)
    | (Throw e, s) => (Throw e, s)
    | (Undef, s) => (Undef, s)
    | (Timeout, s) => (Timeout, s)
    end
  end.

Definition connect_sentinel (sentinel_disconnect_handler : bool) (s : sentinel) : outcome unit * sentinel :=
  match m_sentinels s with
  | [] => (Throw (redis_error "No sentinels available. Call add_sentinel() before connect_sentinel()"), s)
  | defs =>
    match connect_loop defs s with
    | (Ret false, s) => (Ret tt, with_handler sentinel_disconnect_handler s)
    | (Ret true, s) => (Throw (redis_error "Unable to connect to any sentinels"), s)
    | (Throw e, s) => (Throw e, s)
    | (Undef, s) => (Undef, s)
    | (Timeout, s) => (Timeout, s)
    end
  end.

(** ** The lookup *)

(** What the TCP client was given to write since [s]. *)
Definition new_output (s s' : sentinel) : string :=
  let out := fun s : sentinel => tc_output (Connection.m_client (m_client s)) in
  s_drop (String.length (out s)) (out s').

(** [sync_commit]: the wait ends when [sync_done]; when the other end does
    nothing more before that, it lasts for ever. *)
Definition sync_commit (s : sentinel) : outcome unit * sentinel :=
  match try_commit s with
  | (Ret _, s1) =>
    let '(what, r) := peer_reaction (new_output s s1) (peer s1) in
    let s1 := with_peer r s1 in
    match match what with
          | answers data => on_read true data s1
          | hangs_up => on_closed s1
          | stays_silent => (Ret tt, s1)
          end with
    | (Ret _, s2) => (if sync_done s2 then Ret tt else Timeout, s2)
    | res => res
    end
  | res => res
  end.

Definition lookup_command (name : string) : list string :=
  ["SENTINEL"; "get-master-addr-by-name"; name].

(** From the [send] on. *)
Definition ask_master (name : string) (autoconnect : bool) (s : sentinel) : outcome bool * sentinel :=
  match sync_commit (send (lookup_command name) (Some MasterReply) s) with
  | (Ret _, s) =>
    let s := if autoconnect then disconnect true s else s in
    (Ret (negb (lookup_port s =? 0)%Z), s)
  | (Throw e, s) => (Throw e, s)
  | (Undef, s) => (Undef, s)
  | (Timeout, s) => (Timeout, s)
  end.

Definition get_master_addr (name : string) (autoconnect : bool) (s : sentinel) : outcome bool * sentinel :=
  let s := with_address "" 0 s in
  if autoconnect && (length (m_sentinels s) =? 0)%nat then
    (Throw (redis_error "No sentinels available. Call add_sentinel() before get_master_addr_by_name()"), s)
  else if negb autoconnect && negb (is_connected s) then
    (Throw (redis_error "No sentinel connected. Call connect() first or enable autoconnect."), s)
  else if autoconnect then
    match connect_sentinel false s with
    | (Ret _, s) | (Throw (redis_error _), s) =>
      if negb (is_connected s) then (Ret false, s) else ask_master name autoconnect s
    | (Throw e, s) => (Throw e, s)
    | (Undef, s) => (Undef, s)
    | (Timeout, s) => (Timeout, s)
    end
  else ask_master name autoconnect s.

(** ** Commands *)

Definition ping (cb : option (sentinel_callback C)) : sentinel -> sentinel := send ["PING"] cb.
Definition masters (cb : option (sentinel_callback C)) : sentinel -> sentinel :=
  send ["SENTINEL"; "MASTERS"] cb.
Definition master (name : string) (cb : option (sentinel_callback C)) : sentinel -> sentinel :=
  send ["SENTINEL"; "MASTER"; name] cb.
Definition slaves (name : string) (cb : option (sentinel_callback C)) : sentinel -> sentinel :=
  send ["SENTINEL"; "SLAVES"; name] cb.
Definition sentinels (name : string) (cb : option (sentinel_callback C)) : sentinel -> sentinel :=
  send ["SENTINEL"; "SENTINELS"; name] cb.
Definition ckquorum (name : string) (cb : option (sentinel_callback C)) : sentinel -> sentinel :=
  send ["SENTINEL"; "CKQUORUM"; name] cb.
Definition failover (name : string) (cb : option (sentinel_callback C)) : sentinel -> sentinel :=
  send ["SENTINEL"; "FAILOVER"; name] cb.
Definition reset (pattern : string) (cb : option (sentinel_callback C)) : sentinel -> sentinel :=
  send ["SENTINEL"; "RESET"; pattern] cb.
Definition flushconfig (cb : option (sentinel_callback C)) : sentinel -> sentinel :=
  send ["SENTINEL"; "FLUSHCONFIG"] cb.
Definition monitor (name ip : string) (port quorum : Z) (cb : option (sentinel_callback C))
  : sentinel -> sentinel :=
  send ["SENTINEL"; "MONITOR"; name; ip; to_string port; to_string quorum] cb.
Definition remove (name : string) (cb : option (sentinel_callback C)) : sentinel -> sentinel :=
  send ["SENTINEL"; "REMOVE"; name] cb.
Definition set (name option_name value : string) (cb : option (sentinel_callback C)) : sentinel -> sentinel :=
  send ["SENTINEL"; "SET"; name; option_name; value] cb.
End sentinel.

(** What the client asks: [autoconnect] is set, and the addresses are the
    variables the lookup was given. *)
#[export] Instance sentinel_lookup {T R C} `{TcpClient T} `{SentinelPeer R} :
  SentinelLookup (sentinel_state T R C) := {|
  Client.get_master_addr_by_name name s :=
    let '(o, s') := get_master_addr name true s in (o, (lookup_host s', lookup_port s'), s') |}.
