(* ===== verification/SentinelFacts.v ===== *)
(** The lookup of a master's address: the sentinels are tried in order, and the
    result is what the first one that accepts the connection answers. *)

From S2P Require Import Prelude Text Reply Builders BuilderFacts ReplyStream TcpClient Connection ConnectionFacts Client ClientFacts Sentinel.

(** ** [std::stoi] *)

Lemma leading_digits_all s : all_digits s = true -> leading_digits s = s.
Proof.
  induction s as [|c s IH]; [done|]. cbn. intros H. destruct (isdigit c); [|done]. by rewrite IH.
Qed.

Lemma digit_no_sign c : isdigit c = true ->
  isspace c = false /\ Ascii.eqb c "-" = false /\ Ascii.eqb c "+" = false.
Proof. destruct c as [[] [] [] [] [] [] [] []]; done. Qed.

Lemma stoi_to_string n : (0 <= n <= INT32_MAX)%Z -> stoi (to_string n) = Ret n.
Proof.
  intros Hn. destruct (to_string_digits n) as [Hd Hv]; [lia|].
  assert (to_string n <> "") as Hne.
  { rewrite to_string_nonneg by lia. apply pretty_N_nonempty. }
  unfold stoi. destruct (to_string n) as [|c s] eqn:E; [done|].
  assert (isdigit c = true) as Hc by (cbn in Hd; by destruct (isdigit c)).
  destruct (digit_no_sign c Hc) as (Hs & Hm & Hp). cbn [skip_spaces]. rewrite Hs, Hm, Hp.
  unfold stoi_unsigned. rewrite leading_digits_all by done. rewrite Hv, Z.mul_1_l.
  unfold INT32_MIN in *. destruct (Z.ltb_spec n (-2147483648)); [lia|].
  destruct (Z.ltb_spec INT32_MAX n); [lia|]. done.
Qed.

(** ** What a sentinel answers *)

Definition answer_value (a : option (string * Z)) : rvalue :=
  match a with
  | Some (host, port) => VArray [VBulk host; VBulk (to_string port)]
  | None => VNull
  end.
Definition answer_ok (a : option (string * Z)) : Prop :=
  match a with
  | Some (host, port) => (slen host + 2 <= INT32_MAX /\ 0 < port < 65536)%Z
  | None => True
  end.

Lemma answer_wire_ok a : answer_ok a -> wire_ok (answer_value a) = true.
Proof.
  destruct a as [[host port]|]; [|done]. intros [Hh Hp]. cbn.
  pose proof (to_string_length port) as Hl. unfold INT64_MIN, INT64_MAX, INT32_MAX in *.
  specialize (Hl ltac:(lia)). rewrite !bool_decide_eq_true_2 by lia. done.
Qed.

Section sentinel_facts.
Context {T R C : Type} `{TcpClientLaws T} `{SentinelPeer R}.

Abbreviation sentinel := (sentinel_state T R C).
Implicit Types s : sentinel.

(** Nothing is pending, in the queue or in the connection. *)
Record quiet s : Prop := {
  quiet_callbacks : m_callbacks s = [];
  quiet_running : m_callbacks_running s = 0%Z;
  quiet_builder : Connection.m_builder (m_client s) = reply_builder_init;
  quiet_buffer : Connection.m_buffer (m_client s) = "" }.

(** What connecting does not touch. *)
Record same_session s s' : Prop := {
  session_callbacks : m_callbacks s' = m_callbacks s;
  session_running : m_callbacks_running s' = m_callbacks_running s;
  session_builder : Connection.m_builder (m_client s') = Connection.m_builder (m_client s);
  session_address : (lookup_host s', lookup_port s') = (lookup_host s, lookup_port s);
  session_sentinels : m_sentinels s' = m_sentinels s;
  session_buffer : Connection.m_buffer (m_client s) = "" -> Connection.m_buffer (m_client s') = "" }.

#[export] Instance same_session_preorder : PreOrder same_session.
Proof.
  split; [by intros s; split|]. intros s1 s2 s3 [] []. split; try congruence. auto.
Qed.

Lemma quiet_session s s' : quiet s -> same_session s s' -> quiet s'.
Proof. intros [] []. split; try congruence. auto. Qed.

Lemma connect_to_spec h p ms s :
  exists o s', connect_to h p ms s = (o, s') /\ same_session s s' /\
    match o with
    | Ret _ => is_connected s' = true /\ Connection.m_reply_callback (m_client s') = true /\
               Connection.m_disconnection_handler (m_client s') = true /\
               peer s' = peer_connected h p (peer s)
    | Throw (redis_error _) => is_connected s' = is_connected s /\ peer s' = peer s
    | _ => False
    end.
Proof.
  unfold connect_to, Connection.connect, is_connected, Connection.is_connected.
  destruct (tc_connect h (wrap_u32 p) ms (Connection.m_client (m_client s))) as [o1 c1] eqn:E1.
  pose proof (tc_connect_outcome h (wrap_u32 p) ms (Connection.m_client (m_client s))) as Ho. rewrite E1 in Ho.
  destruct o1 as [[]|e| |].
  2: { eexists _, _. split_and!; [done|by split|]. cbn. by apply tc_connect_fail in E1 as ->. }
  2,3: by destruct Ho as [|[]].
  apply tc_connect_ok in E1.
  rewrite <- (tc_handler_connected c1) in E1.
  destruct (tc_read_connected READ_SIZE _ E1) as (c2 & -> & Hc2 & _).
  eexists _, _. split_and!; [done|by split|done].
Qed.

Lemma disconnect_spec w s : is_connected (disconnect w s) = false /\ same_session s (disconnect w s).
Proof. split; [apply tc_disconnected|by split]. Qed.

(** The connection the loop ends with, and to whom. *)
Definition connected_to (it : list sentinel_def) s s' : Prop :=
  same_session s s' /\
  if is_connected s' then
    Connection.m_reply_callback (m_client s') = true /\
    Connection.m_disconnection_handler (m_client s') = true /\
    exists d, d ∈ it /\ peer s' = peer_connected (get_host d) (get_port d) (peer s)
  else peer s' = peer s.

(** The loop always says whether it ended connected. *)
Lemma connect_loop_spec it s :
  is_connected s = false ->
  exists s', connect_loop it s = (Ret (negb (is_connected s')), s') /\ connected_to it s s'.
Proof.
  revert s. induction it as [|d it IH]; intros s Hc; cbn [connect_loop].
  { exists s. unfold connected_to. by rewrite Hc. }
  destruct (connect_to_spec (get_host d) (get_port d) (get_timeout_msecs d) s) as (o & s1 & -> & Hs & Ho).
  destruct o as [[]|[w|w|w|w]| |]; try done.
  - destruct Ho as (Hc1 & Hcb & Hdh & Hp). exists s1. unfold connected_to. rewrite Hc1.
    split_and!; [done..|]. exists d. split; [by left|done].
  - destruct Ho as [-> Hp]. rewrite Hc.
    destruct (disconnect_spec true s1) as [Hd Hds].
    destruct (IH _ Hd) as (s' & -> & Hs' & Hto). exists s'. split; [done|split].
    { transitivity s1; [done|]. by transitivity (disconnect true s1). }
    change (peer (disconnect true s1)) with (peer s1) in Hto. rewrite Hp in Hto.
    destruct (is_connected s'); [|done].
    destruct Hto as (? & ? & d' & Hd' & Hp'). split_and!; [done..|]. exists d'. split; [by right|done].
Qed.

(** Sending the question on a quiet connection. *)
Lemma ask_commit name s :
  quiet s -> is_connected s = true ->
  exists s1, try_commit (send (lookup_command name) (Some MasterReply) s) = (Ret tt, s1) /\
    new_output (send (lookup_command name) (Some MasterReply) s) s1 = build_command (lookup_command name) /\
    is_connected s1 = true /\ m_callbacks s1 = [Some MasterReply] /\ m_callbacks_running s1 = 0%Z /\
    Connection.m_builder (m_client s1) = reply_builder_init /\
    Connection.m_buffer (m_client s1) = "" /\
    Connection.m_reply_callback (m_client s1) = Connection.m_reply_callback (m_client s) /\
    Connection.m_disconnection_handler (m_client s1) = Connection.m_disconnection_handler (m_client s) /\
    lookup_host s1 = lookup_host s /\ lookup_port s1 = lookup_port s /\ peer s1 = peer s /\
    m_sentinels s1 = m_sentinels s.
Proof.
  intros [Hq Hk Hb Hbuf] Hc. unfold try_commit, Connection.commit, new_output.
  set (s0 := send _ _ s).
  assert (tc_is_connected (Connection.m_client (Connection.set_buffer "" (m_client s0))) = true) as Hc0 by exact Hc.
  destruct (tc_write_connected (Connection.m_buffer (m_client s0)) _ Hc0) as (c & -> & Hcc & Ho & _).
  eexists. split; [done|]. cbn. rewrite Ho. cbn. rewrite s_drop_app, Hbuf, Hq.
  split_and!; done.
Qed.

(** The callback of the lookup, on an answer. *)
Lemma master_reply_answer a s :
  answer_ok a -> (lookup_host s, lookup_port s) = ("", 0%Z) ->
  exists s', master_reply (reply_of (answer_value a)) s = (Ret tt, s') /\
    s' = with_address (default ("", 0%Z) a).1 (default ("", 0%Z) a).2 s.
Proof.
  intros Ha Hs. injection Hs as Eh Ep. destruct a as [[host port]|]; cbn [answer_value reply_of fmap list_fmap].
  - destruct Ha as [Hh Hp]. unfold master_reply.
    change (is_array (reply_array _)) with true.
    change (as_array (reply_array ?l)) with (Ret l). cbv iota beta.
    change (as_string (reply_string ?x st_bulk_string)) with (Ret x). cbn [obind].
    rewrite stoi_to_string by (unfold INT32_MAX; lia). cbn [default fst snd].
    eexists. split; [done|]. by rewrite wrap_u64_id by lia.
  - eexists. split; [done|]. cbn. destruct s; cbn in *. by subst.
Qed.

(** How a lookup leaves its result and the sentinel. *)
Definition looked_up (a : option (string * Z)) (connected : bool) s s' : Prop :=
  (lookup_host s', lookup_port s') = default ("", 0%Z) a /\ quiet s' /\
  is_connected s' = connected /\ m_sentinels s' = m_sentinels s.

(** The lookup on an open connection, by what the other end does. *)
Lemma ask_master_spec name (autoconnect : bool) s :
  quiet s -> is_connected s = true -> Connection.m_reply_callback (m_client s) = true ->
  Connection.m_disconnection_handler (m_client s) = true ->
  (lookup_host s, lookup_port s) = ("", 0%Z) ->
  match (peer_reaction (build_command (lookup_command name)) (peer s)).1 with
  | answers data => forall a, answer_ok a -> data = encode (answer_value a) ->
      exists s', ask_master name autoconnect s = (Ret (bool_decide (a <> None)), s') /\
        looked_up a (negb autoconnect) s s'
  | hangs_up =>
      exists s', ask_master name autoconnect s = (Ret false, s') /\ looked_up None false s s'
  | stays_silent => (ask_master name autoconnect s).1 = Timeout
  end.
Proof.
  intros Hq Hc Hrc Hdh Hs. unfold ask_master, sync_commit.
  destruct (ask_commit name s Hq Hc) as (s1 & -> & Ho & Hc1 & Hq1 & Hk1 & Hb1 & Hbuf1 & Hrc1 & Hdh1 & Eh & Ep & Er & El).
  rewrite Ho, Er. destruct (peer_reaction (build_command (lookup_command name)) (peer s)) as [[data| |] r]; cbn [fst].
  - intros a Ha ->. unfold on_read.
    set (s2 := with_peer r s1).
    destruct (receive_ok (m_client s2) (encode (answer_value a))
      (mk_reply_builder "" None [reply_of (answer_value a)])) as (c & -> & Hcc & _).
    + by rewrite <- Hrc, <- Hrc1.
    + exact Hc1.
    + change (Connection.m_builder (m_client s2)) with (Connection.m_builder (m_client s1)). rewrite Hb1.
      pose proof (feed_encode [answer_value a] []) as Hf. cbn [encode_all foldr fmap list_fmap app] in Hf.
      rewrite s_app_nil_r in Hf. apply Hf. cbn. by rewrite answer_wire_ok.
    + cbn [m_available_replies fmap list_fmap handle_events].
      set (s3 := with_client _ s2). unfold connection_receive_handler.
      change (m_callbacks (with_running ?k s3)) with (m_callbacks s1). rewrite Hq1. cbn [run_callback].
      match goal with |- context [master_reply ?r ?x] => destruct (master_reply_answer a x Ha) as (s4 & -> & ->) end.
      { rewrite <- Hs, <- Eh, <- Ep. done. }
      cbn [m_callbacks_running with_address with_callbacks with_running].
      change (m_callbacks_running s3) with (m_callbacks_running s1). rewrite Hk1.
      assert (wrap_u32 (wrap_u32 (0 + 1) - 1) = 0%Z) as -> by done.
      unfold sync_done. cbn [m_callbacks_running m_callbacks with_running with_address with_callbacks].
      cbn [Z.eqb andb].
      eexists. split; [f_equal; f_equal|].
      { destruct autoconnect; cbn; destruct a as [[h p]|]; cbn; try done; destruct Ha as [_ Hp];
          destruct (Z.eqb_spec p 0); by try lia. }
      destruct autoconnect; (split_and!; [by destruct a as [[h p]|]|split; try done; by cbn| |exact El]).
      * apply tc_disconnected.
      * exact Hcc.
  - unfold on_closed, tcp_client_disconnection_handler, call_disconnection_handler.
    set (s2 := with_peer r s1).
    set (conn := Connection.set_buffer "" _).
    change (Connection.m_disconnection_handler conn) with (Connection.m_disconnection_handler (m_client s1)).
    rewrite Hdh1, Hdh. cbn [handle_events].
    set (s3 := connection_disconnect_handler (with_client conn s2)).
    assert (m_callbacks s3 = [] /\ m_callbacks_running s3 = 0%Z /\ m_client s3 = conn /\
            lookup_host s3 = lookup_host s /\ lookup_port s3 = lookup_port s /\
            m_sentinels s3 = m_sentinels s) as (E1 & E2 & E3 & E4 & E5 & E6).
    { subst s3. unfold connection_disconnect_handler, call_disconnect_handler.
      destruct (m_disconnect_handler _); by split_and!. }
    unfold sync_done. rewrite E1, E2. cbn [Z.eqb andb].
    injection Hs as Hh Hp.
    assert (quiet s3) as Hq3 by (split; [done|done|by rewrite E3|by rewrite E3]).
    destruct autoconnect.
    + eexists. split; [f_equal; cbn; by rewrite E5, Hp|].
      destruct (disconnect_spec true s3) as [Hd Hds]. split_and!; [|by eapply quiet_session|done|exact E6].
      rewrite (session_address _ _ Hds), E4, E5, Hh, Hp. done.
    + exists s3. unfold looked_up. rewrite E4, E5, E6, Hh, Hp. split_and!; [done..| |done].
      unfold is_connected, Connection.is_connected. rewrite E3. apply tc_disconnected.
  - unfold sync_done. cbn. by rewrite Hq1, andb_false_r.
Qed.

(** The lookup with [autoconnect], from the beginning. *)
Lemma get_master_spec name s :
  quiet s -> is_connected s = false -> m_sentinels s <> [] ->
  exists s1, connect_loop (m_sentinels s) (with_address "" 0 s) = (Ret (negb (is_connected s1)), s1) /\
    connected_to (m_sentinels s) (with_address "" 0 s) s1 /\
    if is_connected s1 then
      match (peer_reaction (build_command (lookup_command name)) (peer s1)).1 with
      | answers data => forall a, answer_ok a -> data = encode (answer_value a) ->
          exists s', get_master_addr name true s = (Ret (bool_decide (a <> None)), s') /\
            looked_up a false s s'
      | hangs_up =>
          exists s', get_master_addr name true s = (Ret false, s') /\ looked_up None false s s'
      | stays_silent => (get_master_addr name true s).1 = Timeout
      end
    else get_master_addr name true s = (Ret false, s1) /\ looked_up None false s s1.
Proof.
  intros Hq Hc Hn.
  destruct (connect_loop_spec (m_sentinels s) (with_address "" 0 s) Hc) as (s1 & El & Hto).
  exists s1. split; [done|]. split; [done|]. destruct Hto as [Hs Hto].
  assert (quiet s1) as Hq1.
  { eapply quiet_session; [|exact Hs]. destruct Hq. by split. }
  assert ((lookup_host s1, lookup_port s1) = ("", 0%Z)) as Ha1 by apply (session_address _ _ Hs).
  pose proof (session_sentinels _ _ Hs) as Hl. cbn in Hl.
  unfold get_master_addr. cbn [andb negb].
  change (m_sentinels (with_address "" 0 s)) with (m_sentinels s).
  assert ((length (m_sentinels s) =? 0)%nat = false) as -> by (by destruct (m_sentinels s)).
  unfold connect_sentinel. change (m_sentinels (with_address "" 0 s)) with (m_sentinels s).
  destruct (m_sentinels s) as [|d defs] eqn:Es; [done|]. rewrite El.
  destruct (is_connected s1) eqn:Hc1; cbn [negb].
  - destruct Hto as (Hrc & Hdh & _).
    change (is_connected (with_handler false s1)) with (is_connected s1). rewrite Hc1. cbn [negb].
    assert (quiet (with_handler false s1)) as Hqh by (destruct Hq1; by split).
    pose proof (ask_master_spec name true (with_handler false s1) Hqh Hc1 Hrc Hdh Ha1) as Hask.
    change (peer (with_handler false s1)) with (peer s1) in Hask.
    unfold looked_up in *. change (m_sentinels (with_handler false s1)) with (m_sentinels s1) in Hask.
    rewrite Hl in Hask. by rewrite Es.
  - rewrite Hc1. unfold looked_up. by rewrite Hl, Es.
Qed.
End sentinel_facts.

(** ** What the client relies on *)

(** Between lookups: nothing pending, no connection, some sentinel to ask. *)
Record ready {T R C} `{TcpClient T} (s : sentinel_state T R C) : Prop := {
  ready_quiet : quiet s;
  ready_disconnected : is_connected s = false;
  ready_sentinels : m_sentinels s <> [] }.

(** Processes that, asked for a master, answer it or hang up. *)
Class PoliteSentinels (R : Type) `{SentinelPeer R} : Prop :=
  polite name (r : R) :
    match (peer_reaction (build_command (lookup_command name)) r).1 with
    | answers data => exists a, answer_ok a /\ data = encode (answer_value a)
    | hangs_up => True
    | stays_silent => False
    end.

Section lookups.
Context {T R C : Type} `{TcpClientLaws T} `{SentinelPeer R}.
Implicit Types s : sentinel_state T R C.

Lemma looked_up_ready a s s' : looked_up a false s s' -> m_sentinels s <> [] -> ready s'.
Proof. intros (_ & Hq & Hc & Hl) Hn. split; [done..|by rewrite Hl]. Qed.

(** A lookup, by its answer. *)
Lemma lookup_eq name b a s s' :
  get_master_addr name true s = (Ret b, s') -> looked_up a false s s' ->
  get_master_addr_by_name name s = (Ret b, default ("", 0%Z) a, s').
Proof. intros E [Ha _]. cbn. by rewrite E, Ha. Qed.

Lemma lookups_return_polite `{!PoliteSentinels R} : lookups_return (S := sentinel_state T R C) ready.
Proof.
  intros name s [Hq Hc Hn].
  destruct (get_master_spec name s Hq Hc Hn) as (s1 & _ & _ & Hs).
  assert (forall b a s', get_master_addr name true s = (Ret b, s') -> looked_up a false s s' ->
    (exists b, (get_master_addr_by_name name s).1.1 = Ret b) /\ ready (get_master_addr_by_name name s).2) as Hdone.
  { intros b a s' E Hl. rewrite (lookup_eq _ _ _ _ _ E Hl). split; [by exists b|by eapply looked_up_ready]. }
  destruct (is_connected s1); [|destruct Hs; by eapply Hdone].
  pose proof (polite name (peer s1)) as Hp.
  destruct (peer_reaction _ _).1 as [data| |]; [|by destruct Hs as (s' & ? & ?); eapply Hdone|done].
  destruct Hp as (a & Ha & Hd). destruct (Hs a Ha Hd) as (s' & ? & ?). by eapply Hdone.
Qed.

(** Where every sentinel stays silent, the lookup waits for ever. *)
Lemma silent_lookup name s :
  ready s ->
  (forall d, d ∈ m_sentinels s ->
     (peer_reaction (build_command (lookup_command name))
        (peer_connected (get_host d) (get_port d) (peer s))).1 = stays_silent) ->
  is_connected (connect_loop (m_sentinels s) (with_address "" 0 s)).2 = true ->
  (get_master_addr_by_name name s).1.1 = Timeout.
Proof.
  intros [Hq Hc Hn] Hsil Hcon.
  destruct (get_master_spec name s Hq Hc Hn) as (s1 & E & [_ Hto] & Hs).
  rewrite E in Hcon. cbn [snd] in Hcon. rewrite Hcon in *.
  destruct Hto as (_ & _ & d & Hd & Hp). cbn [peer with_address] in Hp. rewrite Hp, (Hsil d Hd) in Hs.
  cbn. by destruct (get_master_addr name true s) as [o s'].
Qed.
End lookups.

(** ** The client on these sentinels *)

Section client.
Context {T S C : Type} `{TcpClientLaws T} `{SentinelLookup S}.
Implicit Types s : client_state T S C.

(** What an attempt finds when it starts: the sentinel and the configuration of
    the client at the time it was disconnected. *)
Lemma first_attempt n s :
  is_reconnecting s = false -> should_reconnect (set_m_current_reconnect_attempts 0 s) = true ->
  exists s1, connection_disconnection_handler (Datatypes.S n) s =
      match reconnect s1 with
      | (Ret _, s2) =>
        match reconnect_loop n s2 with
        | (Ret _, s3) => (Ret tt, end_reconnection s3)
        | r => r
        end
      | r => r
      end /\
    m_sentinel s1 = m_sentinel s /\ m_config s1 = m_config s.
Proof.
  intros Hr Hs. rewrite disconnection_handler_eq by done.
  destruct (begin_reconnection_same s) as (_ & Bc & Bm & Bx & Ba).
  cbn [reconnect_loop].
  assert (should_reconnect (begin_reconnection s) = true) as ->.
  { rewrite <- Hs. unfold should_reconnect. rewrite Bc, Bm, Bx, Ba. done. }
  exists (sleep_before_next_reconnect_attempt (begin_reconnection s)).
  split; [by destruct (reconnect _) as [[[]| | |] s2]|].
  unfold sleep_before_next_reconnect_attempt. destruct (_ <=? 0)%Z.
  - by rewrite begin_sentinel, Bm.
  - rewrite notify_sentinel, begin_sentinel. split; [done|].
    by rewrite (proj2 (proj2 (notify_same sleeping _))), Bm.
Qed.

Lemma reconnect_stuck s :
  m_master_name (m_config s) <> "" ->
  (get_master_addr_by_name (m_master_name (m_config s)) (m_sentinel s)).1.1 = Timeout ->
  (reconnect s).1 = Timeout.
Proof.
  intros Hn Ht. unfold reconnect, lookup_server, lookup_master.
  cbn [m_config m_sentinel set_m_current_reconnect_attempts].
  destruct (Nat.eqb_spec (String.length (m_master_name (m_config s))) 0) as [E|_].
  { by destruct (m_master_name (m_config s)). }
  destruct (get_master_addr_by_name _ _) as [[o [h p]] sen]. cbn in Ht. by subst.
Qed.
End client.

(** ** The properties *)


(** On sentinels that answer or hang up, the reconnection of a client, with a
    limit on attempts, ends within that many, and leaves the client's sentinel
    disconnected, with nothing pending and ready for the next lookup. *)
Theorem sentinel_reconnection_ends {T R C D} `{TcpClientLaws T} `{PoliteSentinels R} n
    (s : client_state T (sentinel_state T R D) C) :
  ready (m_sentinel s) -> is_reconnecting s = false ->
  (0 <= m_max_reconnects (m_config s) <= Z.of_nat n)%Z ->
  exists s', connection_disconnection_handler n s = (Ret tt, s') /\ is_reconnecting s' = false /\
    (m_current_reconnect_attempts s' <= m_max_reconnects (m_config s))%Z /\ ready (m_sentinel s').
Proof.
  intros Hs Hr Hm.
  destruct (reconnection_flow ready n s lookups_return_polite Hs Hr Hm) as (s1 & _ & E & Ha & Hle & HI).
  eexists. split; [exact E|]. split_and!; [done|by rewrite Ha|done].
Qed.

(** A sentinel that accepts the connection and never answers blocks the client:
    the disconnection handler never returns, whatever the limit on attempts. *)
Theorem silent_sentinel_blocks_reconnection {T R C D} `{TcpClientLaws T} `{SentinelPeer R} n
    (s : client_state T (sentinel_state T R D) C) :
  ready (m_sentinel s) -> is_reconnecting s = false ->
  should_reconnect (set_m_current_reconnect_attempts 0 s) = true ->
  m_master_name (m_config s) <> "" ->
  (forall d, d ∈ m_sentinels (m_sentinel s) ->
     (peer_reaction (build_command (lookup_command (m_master_name (m_config s))))
        (peer_connected (get_host d) (get_port d) (peer (m_sentinel s)))).1 = stays_silent) ->
  is_connected (connect_loop (m_sentinels (m_sentinel s)) (with_address "" 0 (m_sentinel s))).2 = true ->
  (connection_disconnection_handler n s).1 = Timeout.
Proof.
  intros Hready Hr Hs Hname Hsil Hcon. destruct n as [|n].
  { rewrite disconnection_handler_eq by done. cbn [reconnect_loop].
    destruct (begin_reconnection_same s) as (_ & Bc & Bm & Bx & Ba).
    assert (should_reconnect (begin_reconnection s) = true) as ->; [|done].
    rewrite <- Hs. unfold should_reconnect. rewrite Bc, Bm, Bx, Ba. done. }
  destruct (first_attempt n s Hr Hs) as (s1 & -> & Es & Em).
  pose proof (reconnect_stuck s1) as Hstuck. rewrite Es, Em in Hstuck.
  specialize (Hstuck Hname (silent_lookup _ _ Hready Hsil Hcon)).
  destruct (reconnect s1) as [o s2]. cbn in Hstuck. by subst.
Qed.

(** ** Witnesses *)

(** Sentinels by the master they know; the one that was reached answers, the
    others hang up. *)
Record directory : Type := mk_directory { reached : string; masters_of : list (string * (string * Z)) }.

Definition answer_valid (a : string * Z) : bool :=
  ((slen a.1 + 2 <=? INT32_MAX) && (0 <? a.2) && (a.2 <? 65536))%Z.

Definition directory_reaction (d : directory) : reaction :=
  match list_find (fun e => e.1 = reached d) (masters_of d) with
  | Some (_, (_, a)) => if answer_valid a then answers (encode (answer_value (Some a))) else hangs_up
  | None => hangs_up
  end.

#[local] Instance directory_peer : SentinelPeer directory := {|
  peer_connected host _ d := mk_directory host (masters_of d);
  peer_reaction _ d := (directory_reaction d, d) |}.

#[local] Instance directory_polite : PoliteSentinels directory.
Proof.
  intros name d. cbn. unfold directory_reaction. destruct (list_find _ _) as [[i [h a]]|]; [|done].
  destruct (answer_valid a) eqn:E; [|done]. exists (Some a). split; [|done].
  destruct a as [host port]. unfold answer_valid in E. cbn in *.
  apply andb_true_iff in E as [E E3]. apply andb_true_iff in E as [E1 E2].
  apply Z.leb_le in E1. apply Z.ltb_lt in E2. apply Z.ltb_lt in E3. lia.
Qed.

#[local] Instance silent_peer : SentinelPeer unit := {|
  peer_connected _ _ r := r;
  peer_reaction _ r := (stays_silent, r) |}.

Definition two_sentinels {R} (connects : list bool) (r : R) : sentinel_state tacopie.tcp_client R nat :=
  add_sentinel "s2" 26379 0 (add_sentinel "s1" 26379 0 (init (tacopie.init connects []) r)).


Definition two_masters : directory :=
  mk_directory "" [("s1", ("10.0.0.4", 6379%Z)); ("s2", ("10.0.0.5", 6380%Z))].


(** A client whose master is found through these sentinels, and which the master
    has disconnected. *)
Definition sentinel_client {R} `{SentinelPeer R} (s : sentinel_state tacopie.tcp_client R nat)
    (connects : list bool) : client_state tacopie.tcp_client (sentinel_state tacopie.tcp_client R nat) nat :=
  let c := (Client.connect "127.0.0.1" 6379 true 0 2 100 (Client.init (tacopie.init connects []) s)).2 in
  let c := set_m_config (set_master_name "mymaster" (m_config c)) c in
  set_m_client (set_tcp (tc_disconnect false (Connection.m_client (Client.m_client c))) (Client.m_client c)) c.

Lemma sentinel_reconnection_ends_witness :
  exists s', connection_disconnection_handler 2 (sentinel_client (two_sentinels [false; true] two_masters) [true; false; false])
      = (Ret tt, s') /\ is_reconnecting s' = false /\
    (m_current_reconnect_attempts s' <=
       m_max_reconnects (m_config (sentinel_client (two_sentinels [false; true] two_masters) [true; false; false])))%Z /\
    ready (m_sentinel s').
Proof.
  apply (sentinel_reconnection_ends 2); [split; [split| |]; done|done|vm_compute; split; discriminate].
Defined.

Lemma silent_sentinel_blocks_reconnection_witness :
  (connection_disconnection_handler 2 (sentinel_client (two_sentinels [true] tt) [true])).1 = Timeout.
Proof.
  apply silent_sentinel_blocks_reconnection;
    [split; [split| |]; done|done|vm_compute; reflexivity|done|intros d _; reflexivity|vm_compute; reflexivity].
Defined.
