(* ===== verification/Subscriber.v ===== *)
(** [cpp_redis::subscriber] (sources/core/subscriber.cpp and
    includes/cpp_redis/core/subscriber.hpp): the tables of subscribed channels and
    patterns, the dispatch of what the server publishes, and the reconnection that
    subscribes again.  Generic in the TCP client, the sentinel and the user's
    callbacks; each call of user code is recorded in the trace.

    The tables are [std::map]s: finite maps, and [in_order] is their iteration.
    [connect_state] is the client's, whose enumerators subscriber's has. *)

From stdpp Require Import sorting.
From S2P Require Import Prelude Text Reply Builders TcpClient Connection Client.

(** ** Data *)

(** A [subscribe_callback] may be an empty function, which throws when called. *)
Record callback_holder (C : Type) : Type := mk_holder {
  subscribe_callback : option C;
  acknowledgement_callback : option C }.
Arguments mk_holder {C}.
Arguments subscribe_callback {C}.
Arguments acknowledgement_callback {C}.

(** [m_auth_reply_callback]: the user's, or the lambda of [re_auth]. *)
Inductive auth_callback (C : Type) : Type :=
| UserAuth (c : C)
| ReAuth.
Arguments UserAuth {C}.
Arguments ReAuth {C}.

(** Calls of user code. *)
Inductive subscriber_event (C : Type) : Type :=
| MessageReceived (c : C) (channel message : string)
| Acknowledged (c : C) (nb_chans : Z)
| AuthReplied (c : C) (r : reply)
| ConnectionState (host : string) (port : Z) (st : connect_state).
Arguments MessageReceived {C}.
Arguments Acknowledged {C}.
Arguments AuthReplied {C}.
Arguments ConnectionState {C}.

(** The fields kept for reconnections. *)
Record subscriber_config : Type := mk_subscriber_config {
  m_redis_server : string;
  m_redis_port : Z;
  m_master_name : string;
  m_password : string;
  m_connect_timeout_msecs : Z;
  m_max_reconnects : Z;
  m_reconnect_interval_msecs : Z }.

Definition with_server (host : string) (port : Z) (c : subscriber_config) : subscriber_config :=
  mk_subscriber_config host port (m_master_name c) (m_password c) (m_connect_timeout_msecs c)
    (m_max_reconnects c) (m_reconnect_interval_msecs c).
Definition with_reconnects (max interval : Z) (c : subscriber_config) : subscriber_config :=
  mk_subscriber_config (m_redis_server c) (m_redis_port c) (m_master_name c) (m_password c)
    (m_connect_timeout_msecs c) max interval.
Definition with_master_name (name : string) (c : subscriber_config) : subscriber_config :=
  mk_subscriber_config (m_redis_server c) (m_redis_port c) name (m_password c)
    (m_connect_timeout_msecs c) (m_max_reconnects c) (m_reconnect_interval_msecs c).
Definition with_password (password : string) (c : subscriber_config) : subscriber_config :=
  mk_subscriber_config (m_redis_server c) (m_redis_port c) (m_master_name c) password
    (m_connect_timeout_msecs c) (m_max_reconnects c) (m_reconnect_interval_msecs c).

(** The order of [std::map]'s keys. *)
Definition key_le {A} (x y : string * A) : Prop := String.leb x.1 y.1 = true.
#[export] Instance key_le_dec {A} : RelDecision (@key_le A) := fun x y => decide (String.leb x.1 y.1 = true).
Definition in_order {A} (m : gmap string A) : list (string * A) := merge_sort key_le (map_to_list m).

Record subscriber_state (T S C : Type) : Type := mk_subscriber {
  m_config : subscriber_config;
  m_client : redis_connection T;
  m_sentinel : S;
  m_current_reconnect_attempts : Z;
  m_reconnecting : bool;
  m_cancel : bool;
  m_subscribed_channels : gmap string (callback_holder C);
  m_psubscribed_channels : gmap string (callback_holder C);
  m_connect_callback : bool;
  m_auth_reply_callback : option (auth_callback C);
  s_trace : list (subscriber_event C) }.
Arguments mk_subscriber {T S C}.
Arguments m_config {T S C}.
Arguments m_client {T S C}.
Arguments m_sentinel {T S C}.
Arguments m_current_reconnect_attempts {T S C}.
Arguments m_reconnecting {T S C}.
Arguments m_cancel {T S C}.
Arguments m_subscribed_channels {T S C}.
Arguments m_psubscribed_channels {T S C}.
Arguments m_connect_callback {T S C}.
Arguments m_auth_reply_callback {T S C}.
Arguments s_trace {T S C}.

Section subscriber.
Context {T S C : Type} `{TcpClient T} `{SentinelLookup S}.

Abbreviation subscriber := (subscriber_state T S C).
Abbreviation holder := (callback_holder C).

Definition with_config (x : subscriber_config) (s : subscriber) : subscriber :=
  mk_subscriber x (m_client s) (m_sentinel s) (m_current_reconnect_attempts s) (m_reconnecting s)
    (m_cancel s) (m_subscribed_channels s) (m_psubscribed_channels s) (m_connect_callback s)
    (m_auth_reply_callback s) (s_trace s).
Definition with_client (x : redis_connection T) (s : subscriber) : subscriber :=
  mk_subscriber (m_config s) x (m_sentinel s) (m_current_reconnect_attempts s) (m_reconnecting s)
    (m_cancel s) (m_subscribed_channels s) (m_psubscribed_channels s) (m_connect_callback s)
    (m_auth_reply_callback s) (s_trace s).
Definition with_sentinel (x : S) (s : subscriber) : subscriber :=
  mk_subscriber (m_config s) (m_client s) x (m_current_reconnect_attempts s) (m_reconnecting s)
    (m_cancel s) (m_subscribed_channels s) (m_psubscribed_channels s) (m_connect_callback s)
    (m_auth_reply_callback s) (s_trace s).
Definition with_attempts (x : Z) (s : subscriber) : subscriber :=
  mk_subscriber (m_config s) (m_client s) (m_sentinel s) x (m_reconnecting s) (m_cancel s)
    (m_subscribed_channels s) (m_psubscribed_channels s) (m_connect_callback s)
    (m_auth_reply_callback s) (s_trace s).
Definition with_reconnecting (x : bool) (s : subscriber) : subscriber :=
  mk_subscriber (m_config s) (m_client s) (m_sentinel s) (m_current_reconnect_attempts s) x
    (m_cancel s) (m_subscribed_channels s) (m_psubscribed_channels s) (m_connect_callback s)
    (m_auth_reply_callback s) (s_trace s).
Definition with_cancel (x : bool) (s : subscriber) : subscriber :=
  mk_subscriber (m_config s) (m_client s) (m_sentinel s) (m_current_reconnect_attempts s)
    (m_reconnecting s) x (m_subscribed_channels s) (m_psubscribed_channels s) (m_connect_callback s)
    (m_auth_reply_callback s) (s_trace s).
Definition with_channels (x : gmap string holder) (s : subscriber) : subscriber :=
  mk_subscriber (m_config s) (m_client s) (m_sentinel s) (m_current_reconnect_attempts s)
    (m_reconnecting s) (m_cancel s) x (m_psubscribed_channels s) (m_connect_callback s)
    (m_auth_reply_callback s) (s_trace s).
Definition with_patterns (x : gmap string holder) (s : subscriber) : subscriber :=
  mk_subscriber (m_config s) (m_client s) (m_sentinel s) (m_current_reconnect_attempts s)
    (m_reconnecting s) (m_cancel s) (m_subscribed_channels s) x (m_connect_callback s)
    (m_auth_reply_callback s) (s_trace s).
Definition with_connect_callback (x : bool) (s : subscriber) : subscriber :=
  mk_subscriber (m_config s) (m_client s) (m_sentinel s) (m_current_reconnect_attempts s)
    (m_reconnecting s) (m_cancel s) (m_subscribed_channels s) (m_psubscribed_channels s) x
    (m_auth_reply_callback s) (s_trace s).
Definition with_auth_callback (x : option (auth_callback C)) (s : subscriber) : subscriber :=
  mk_subscriber (m_config s) (m_client s) (m_sentinel s) (m_current_reconnect_attempts s)
    (m_reconnecting s) (m_cancel s) (m_subscribed_channels s) (m_psubscribed_channels s)
    (m_connect_callback s) x (s_trace s).
Definition with_trace (x : list (subscriber_event C)) (s : subscriber) : subscriber :=
  mk_subscriber (m_config s) (m_client s) (m_sentinel s) (m_current_reconnect_attempts s)
    (m_reconnecting s) (m_cancel s) (m_subscribed_channels s) (m_psubscribed_channels s)
    (m_connect_callback s) (m_auth_reply_callback s) x.

(** The constructor with a TCP client. *)
Definition init (tcp : T) (sentinel : S) : subscriber :=
  mk_subscriber (mk_subscriber_config "" 0 "" "" 0 0 0) (Connection.init tcp) sentinel 0 false false
    ∅ ∅ false None [].

Definition emit (e : subscriber_event C) (s : subscriber) : subscriber := with_trace (s_trace s ++ [e]) s.

Definition call_connect_callback (host : string) (port : Z) (st : connect_state) (s : subscriber) : subscriber :=
  if m_connect_callback s then emit (ConnectionState host port st) s else s.
Definition notify (st : connect_state) (s : subscriber) : subscriber :=
  call_connect_callback (m_redis_server (m_config s)) (m_redis_port (m_config s)) st s.

Definition is_connected (s : subscriber) : bool := Connection.is_connected (m_client s).
Definition is_reconnecting (s : subscriber) : bool := m_reconnecting s.
Definition cancel_reconnect (s : subscriber) : subscriber := with_cancel true s.
Definition disconnect (wait_for_removal : bool) (s : subscriber) : subscriber :=
  with_client (Connection.disconnect wait_for_removal (m_client s)) s.

(** ** Commands *)

Definition send (redis_cmd : list string) (s : subscriber) : subscriber :=
  with_client (Connection.send redis_cmd (m_client s)) s.

(** [auth] with either kind of callback. *)
Definition auth_with (password : string) (cb : option (auth_callback C)) (s : subscriber) : subscriber :=
  send ["AUTH"; password]
    (with_auth_callback cb (with_config (with_password password (m_config s)) s)).
Definition auth (password : string) (reply_callback : option C) (s : subscriber) : subscriber :=
  auth_with password (UserAuth <$> reply_callback) s.

Definition unprotected_subscribe (channel : string) (h : holder) (s : subscriber) : subscriber :=
  send ["SUBSCRIBE"; channel] (with_channels (<[channel := h]> (m_subscribed_channels s)) s).
Definition subscribe (channel : string) (callback acknowledgement_callback : option C) (s : subscriber) : subscriber :=
  unprotected_subscribe channel (mk_holder callback acknowledgement_callback) s.

Definition unprotected_psubscribe (pattern : string) (h : holder) (s : subscriber) : subscriber :=
  send ["PSUBSCRIBE"; pattern] (with_patterns (<[pattern := h]> (m_psubscribed_channels s)) s).
Definition psubscribe (pattern : string) (callback acknowledgement_callback : option C) (s : subscriber) : subscriber :=
  unprotected_psubscribe pattern (mk_holder callback acknowledgement_callback) s.

Definition unsubscribe (channel : string) (s : subscriber) : subscriber :=
  match m_subscribed_channels s !! channel with
  | None => s
  | Some _ => let s := send ["UNSUBSCRIBE"; channel] s in
              with_channels (delete channel (m_subscribed_channels s)) s
  end.
Definition punsubscribe (pattern : string) (s : subscriber) : subscriber :=
  match m_psubscribed_channels s !! pattern with
  | None => s
  | Some _ => let s := send ["PUNSUBSCRIBE"; pattern] s in
              with_patterns (delete pattern (m_psubscribed_channels s)) s
  end.

(** What cannot be sent is not taken back. *)
Definition commit (s : subscriber) : outcome unit * subscriber :=
  let '(o, conn) := Connection.commit (m_client s) in (o, with_client conn s).

(** ** Replies *)

(** Calling a [std::function] that may be empty. *)
Definition call_function (f : option C) (e : C -> subscriber_event C) (s : subscriber)
    : outcome unit * subscriber :=
  match f with
  | Some c => (Ret tt, emit (e c) s)
  | None => (Throw (std_exception "bad_function_call"), s)
  end.

Definition call_acknowledgement_callback (channel : string) (channels : gmap string holder)
    (nb_chans : Z) (s : subscriber) : subscriber :=
  match channels !! channel with
  | None => s
  | Some h =>
    match acknowledgement_callback h with
    | Some c => emit (Acknowledged c nb_chans) s
    | None => s
    end
  end.

(** An accessor of reply, whose exception propagates. *)
Definition with_value {A} (o : outcome A) (s : subscriber) (f : A -> outcome unit * subscriber)
    : outcome unit * subscriber :=
  match o with
  | Ret a => f a
  | Throw e => (Throw e, s)
  | Undef => (Undef, s)
  | Timeout => (Timeout, s)
  end.

Definition handle_acknowledgement_reply (l : list reply) (s : subscriber) : outcome unit * subscriber :=
  match l with
  | [title; channel; nb_chans] =>
    if negb (is_string title) || negb (is_string channel) || negb (is_integer nb_chans) then (Ret tt, s)
    else
      let call (channels : gmap string holder) :=
        with_value (as_string channel) s (fun channel =>
        with_value (as_integer nb_chans) s (fun nb_chans =>
        (Ret tt, call_acknowledgement_callback channel channels nb_chans s))) in
      with_value (as_string title) s (fun title =>
      if String.eqb title "subscribe" then call (m_subscribed_channels s)
      else if String.eqb title "psubscribe" then call (m_psubscribed_channels s)
      else (Ret tt, s))
  | _ => (Ret tt, s)
  end.

(** The user's callback of an entry of a table. *)
Definition call_subscribe_callback (key : string) (channels : gmap string holder)
    (channel message : reply) (s : subscriber) : outcome unit * subscriber :=
  match channels !! key with
  | None => (Ret tt, s)
  | Some h =>
    with_value (as_string channel) s (fun channel =>
    with_value (as_string message) s (fun message =>
    call_function (subscribe_callback h) (fun c => MessageReceived c channel message) s))
  end.

Definition handle_subscribe_reply (l : list reply) (s : subscriber) : outcome unit * subscriber :=
  match l with
  | [title; channel; message] =>
    if negb (is_string title) || negb (is_string channel) || negb (is_string message) then (Ret tt, s)
    else
      with_value (as_string title) s (fun title =>
      if negb (String.eqb title "message") then (Ret tt, s)
      else
        with_value (as_string channel) s (fun key =>
        call_subscribe_callback key (m_subscribed_channels s) channel message s))
  | _ => (Ret tt, s)
  end.

Definition handle_psubscribe_reply (l : list reply) (s : subscriber) : outcome unit * subscriber :=
  match l with
  | [title; pchannel; channel; message] =>
    if negb (is_string title) || negb (is_string pchannel) || negb (is_string channel) || negb (is_string message)
    then (Ret tt, s)
    else
      with_value (as_string title) s (fun title =>
      if negb (String.eqb title "pmessage") then (Ret tt, s)
      else
        with_value (as_string pchannel) s (fun key =>
        call_subscribe_callback key (m_psubscribed_channels s) channel message s))
  | _ => (Ret tt, s)
  end.

(** The lambda of [re_auth] logs the reply, which throws when it is no string;
    the callback is then kept. *)
Definition run_auth_callback (cb : auth_callback C) (r : reply) (s : subscriber) : outcome unit * subscriber :=
  match cb with
  | UserAuth c => (Ret tt, emit (AuthReplied c r) s)
  | ReAuth =>
    (if is_string r && bool_decide (as_string r = Ret "OK") then Ret tt
     else omap_outcome (fun _ => tt) (as_string r), s)
  end.

Definition connection_receive_handler (r : reply) (s : subscriber) : outcome unit * subscriber :=
  if negb (is_array r) then
    match m_auth_reply_callback s with
    | Some cb =>
      match run_auth_callback cb r s with
      | (Ret _, s) => (Ret tt, with_auth_callback None s)
      | res => res
      end
    | None => (Ret tt, s)
    end
  else
    with_value (as_array r) s (fun array =>
    match array with
    | [_; _; x] =>
      if is_integer x then handle_acknowledgement_reply array s
      else if is_string x then handle_subscribe_reply array s
      else (Ret tt, s)
    | [_; _; _; _] => handle_psubscribe_reply array s
    | _ => (Ret tt, s)
    end).

(** ** Connecting and reconnecting *)

(** [timeout_msecs] is used for this attempt and not stored. *)
Definition connect (host : string) (port : Z) (connect_callback : bool)
    (timeout_msecs max_reconnects reconnect_interval_msecs : Z) (s : subscriber)
    : outcome unit * subscriber :=
  let s := with_config (with_reconnects max_reconnects reconnect_interval_msecs
                          (with_server host port (m_config s))) s in
  let s := with_connect_callback connect_callback s in
  let s := call_connect_callback host port start s in
  match Connection.connect host port timeout_msecs true true (m_client s) with
  | (Ret _, conn) => (Ret tt, notify connect_ok (with_client conn s))
  | (o, conn) => (o, with_client conn s)
  end.

(** [m_sentinel.get_master_addr_by_name(name, m_redis_server, m_redis_port, true)] *)
Definition lookup_master (name : string) (s : subscriber) : outcome bool * subscriber :=
  let '(o, (host, port), sen) := get_master_addr_by_name name (m_sentinel s) in
  (o, with_config (with_server host port (m_config s)) (with_sentinel sen s)).

(** [connect] to a named master. *)
Definition connect_master (name : string) (connect_callback : bool)
    (timeout_msecs max_reconnects reconnect_interval_msecs : Z) (s : subscriber)
    : outcome unit * subscriber :=
  match lookup_master name (with_config (with_master_name name (m_config s)) s) with
  | (Ret true, s) =>
    connect (m_redis_server (m_config s)) (m_redis_port (m_config s)) connect_callback
      timeout_msecs max_reconnects reconnect_interval_msecs s
  | (Ret false, s) =>
    (Throw (redis_error ("cpp_redis::subscriber::connect() could not find master for name " +:+ name)), s)
  | (Throw e, s) => (Throw e, s)
  | (Undef, s) => (Undef, s)
  | (Timeout, s) => (Timeout, s)
  end.

Definition sleep_before_next_reconnect_attempt (s : subscriber) : subscriber :=
  if (m_reconnect_interval_msecs (m_config s) <=? 0)%Z then s else notify sleeping s.

Definition should_reconnect (s : subscriber) : bool :=
  negb (is_connected s) && negb (m_cancel s) &&
  ((m_max_reconnects (m_config s) =? -1)%Z ||
   (m_current_reconnect_attempts s <? m_max_reconnects (m_config s))%Z).

Definition re_auth (s : subscriber) : subscriber :=
  if (String.length (m_password (m_config s)) =? 0)%nat then s
  else auth_with (m_password (m_config s)) (Some ReAuth) s.

(** A table is moved away, and its entries subscribed again in order. *)
Definition re_subscribe (s : subscriber) : subscriber :=
  let sub_chans := in_order (m_subscribed_channels s) in
  let s := fold_left (fun s chan => unprotected_subscribe chan.1 chan.2 s) sub_chans (with_channels ∅ s) in
  let psub_chans := in_order (m_psubscribed_channels s) in
  fold_left (fun s chan => unprotected_psubscribe chan.1 chan.2 s) psub_chans (with_patterns ∅ s).

Definition clear_subscriptions (s : subscriber) : subscriber := with_patterns ∅ (with_channels ∅ s).

(** The attempt of [reconnect], whose exceptions are swallowed. *)
Definition reconnect_attempt (s : subscriber) : outcome unit * subscriber :=
  let cfg := m_config s in
  match connect (m_redis_server cfg) (m_redis_port cfg) (m_connect_callback s)
          (m_connect_timeout_msecs cfg) (m_max_reconnects cfg) (m_reconnect_interval_msecs cfg) s with
  | (Throw _, s) => (Ret tt, s)
  | r => r
  end.

(** The condition of [reconnect]. *)
Definition lookup_server (s : subscriber) : outcome bool * subscriber :=
  if (String.length (m_master_name (m_config s)) =? 0)%nat then (Ret true, s)
  else lookup_master (m_master_name (m_config s)) s.

(** The end of [reconnect], once the connection is up again. *)
Definition reconnected (s : subscriber) : outcome unit * subscriber :=
  commit (re_subscribe (re_auth (notify connect_ok s))).

Definition reconnect (s : subscriber) : outcome unit * subscriber :=
  match lookup_server (with_attempts (m_current_reconnect_attempts s + 1) s) with
  | (Ret false, s) => (Ret tt, notify lookup_failed s)
  | (Ret true, s) =>
    match reconnect_attempt s with
    | (Ret _, s) => if negb (is_connected s) then (Ret tt, notify connect_failed s) else reconnected s
    | r => r
    end
  | (Throw e, s) => (Throw e, s)
  | (Undef, s) => (Undef, s)
  | (Timeout, s) => (Timeout, s)
  end.

(** [while (should_reconnect())]; [n] is the fuel. *)
Fixpoint reconnect_loop (n : nat) (s : subscriber) : outcome unit * subscriber :=
  if should_reconnect s then
    match n with
    | O => (Timeout, s)
    | Datatypes.S n =>
      match reconnect (sleep_before_next_reconnect_attempt s) with
      | (Ret _, s) => reconnect_loop n s
      | r => r
      end
    end
  else (Ret tt, s).

Definition connection_disconnection_handler (n : nat) (s : subscriber) : outcome unit * subscriber :=
  if is_reconnecting s then (Ret tt, s)
  else
    let s := with_attempts 0 (with_reconnecting true s) in
    let s := notify dropped s in
    match reconnect_loop n s with
    | (Ret _, s) =>
      let s := if negb (is_connected s) then notify stopped (clear_subscriptions s) else s in
      (Ret tt, with_reconnecting false s)
    | r => r
    end.

(** ** Handlers of the connection *)

Fixpoint handle_events (n : nat) (es : list connection_event) (s : subscriber) : outcome unit * subscriber :=
  match es with
  | [] => (Ret tt, s)
  | e :: es =>
    match match e with
          | ReplyReceived r => connection_receive_handler r s
          | Disconnected => connection_disconnection_handler n s
          end with
    | (Ret _, s) => handle_events n es s
    | res => res
    end
  end.

(** A read of the TCP client completes. *)
Definition on_read (n : nat) (success : bool) (data : string) (s : subscriber) : outcome unit * subscriber :=
  match tcp_client_receive_handler success data (m_client s) with
  | (Ret _, conn, events) => handle_events n events (with_client conn s)
  | (o, conn, _) => (o, with_client conn s)
  end.

(** The TCP client reports that it was disconnected. *)
Definition on_disconnected (n : nat) (s : subscriber) : outcome unit * subscriber :=
  let '(conn, events) := tcp_client_disconnection_handler (m_client s) in
  handle_events n events (with_client conn s).

(** The destructor, up to the destruction of the members; [disconnect_sentinel]
    is what it does to the sentinel. *)
Definition destroy (disconnect_sentinel : S -> S) (s : subscriber) : subscriber :=
  let s := if negb (m_cancel s) then cancel_reconnect s else s in
  let s := with_sentinel (disconnect_sentinel (m_sentinel s)) s in
  if is_connected s then disconnect true s else s.
End subscriber.
