(* ===== verification/SubscriberFacts.v ===== *)
(** What the subscriber promises: what the server publishes reaches the callbacks
    registered for it, once each and in order; a reconnection subscribes to
    everything again, or ends with empty tables. *)

From stdpp Require Import sorting.
From S2P Require Import Prelude Text Reply Builders BuilderFacts ReplyStream TcpClient Connection ConnectionFacts Client ClientFacts Subscriber.

(** ** What the server sends to a subscriber *)

Inductive push : Type :=
| PMessage (channel message : string)
| PPMessage (pattern channel message : string)
| PAck (title channel : string) (nb_chans : Z).

Definition push_value (p : push) : rvalue :=
  match p with
  | PMessage channel message => VArray [VBulk "message"; VBulk channel; VBulk message]
  | PPMessage pattern channel message => VArray [VBulk "pmessage"; VBulk pattern; VBulk channel; VBulk message]
  | PAck title channel nb_chans => VArray [VBulk title; VBulk channel; VInt nb_chans]
  end.

Section dispatch.
Context {C : Type}.
Implicit Types channels patterns : gmap string (callback_holder C).

(** The calls a push is to make. *)
Definition push_events channels patterns (p : push) : list (subscriber_event C) :=
  match p with
  | PMessage channel message =>
    match channels !! channel ≫= subscribe_callback with
    | Some c => [MessageReceived c channel message]
    | None => []
    end
  | PPMessage pattern channel message =>
    match patterns !! pattern ≫= subscribe_callback with
    | Some c => [MessageReceived c channel message]
    | None => []
    end
  | PAck title channel nb_chans =>
    match (if decide (title = "subscribe") then channels !! channel
           else if decide (title = "psubscribe") then patterns !! channel else None) ≫= acknowledgement_callback with
    | Some c => [Acknowledged c nb_chans]
    | None => []
    end
  end.

(** Every entry has a callback to call. *)
Definition callable channels : Prop := map_Forall (fun _ h => is_Some (subscribe_callback h)) channels.
End dispatch.

Section subscriber_facts.
Context {T S C : Type} `{TcpClientLaws T} `{SentinelLookup S}.
Implicit Types s : subscriber_state T S C.

Lemma with_trace_id s : with_trace (s_trace s) s = s.
Proof. by destruct s. Qed.

Definition add_events (es : list (subscriber_event C)) s : subscriber_state T S C := with_trace (s_trace s ++ es) s.

Lemma call_ack_eq channel channels nb s :
  call_acknowledgement_callback channel channels nb s =
  add_events (match channels !! channel ≫= acknowledgement_callback with
              | Some c => [Acknowledged c nb] | None => [] end) s.
Proof.
  unfold call_acknowledgement_callback, add_events.
  destruct (channels !! channel) as [[sc [c|]]|]; cbn; by rewrite ?app_nil_r, ?with_trace_id.
Qed.

Lemma call_subscribe_eq key channels channel message s :
  callable channels ->
  call_subscribe_callback key channels (reply_string channel st_bulk_string) (reply_string message st_bulk_string) s =
  (Ret tt, add_events (match channels !! key ≫= subscribe_callback with
                       | Some c => [MessageReceived c channel message] | None => [] end) s).
Proof.
  intros Hc. unfold call_subscribe_callback, add_events.
  destruct (channels !! key) as [h|] eqn:E; cbn.
  - destruct (Hc key h E) as [c Hh]. by rewrite Hh.
  - by rewrite app_nil_r, with_trace_id.
Qed.

(** One push. *)
Lemma dispatch_push p s :
  callable (m_subscribed_channels s) -> callable (m_psubscribed_channels s) ->
  connection_receive_handler (reply_of (push_value p)) s =
  (Ret tt, add_events (push_events (m_subscribed_channels s) (m_psubscribed_channels s) p) s).
Proof.
  intros Hc Hp. destruct p as [channel message|pattern channel message|title channel nb].
  - by apply call_subscribe_eq.
  - by apply call_subscribe_eq.
  - change (connection_receive_handler _ s) with
      (if String.eqb title "subscribe" then
         (Ret tt, call_acknowledgement_callback channel (m_subscribed_channels s) nb s)
       else if String.eqb title "psubscribe" then
         (Ret tt, call_acknowledgement_callback channel (m_psubscribed_channels s) nb s)
       else (Ret tt, s)).
    cbn [push_events].
    destruct (String.eqb_spec title "subscribe"); [by rewrite call_ack_eq, decide_True|].
    destruct (String.eqb_spec title "psubscribe"); [by rewrite call_ack_eq, decide_False, decide_True|].
    rewrite !decide_False by done. unfold add_events. cbn. by rewrite app_nil_r, with_trace_id.
Qed.

Definition pushes_events s (ps : list push) : list (subscriber_event C) :=
  concat (push_events (m_subscribed_channels s) (m_psubscribed_channels s) <$> ps).

Lemma dispatch_pushes n ps s :
  callable (m_subscribed_channels s) -> callable (m_psubscribed_channels s) ->
  handle_events n (ReplyReceived <$> ((fun p => reply_of (push_value p)) <$> ps)) s =
  (Ret tt, add_events (pushes_events s ps) s).
Proof.
  unfold pushes_events. revert s. induction ps as [|p ps IH]; intros s Hc Hp; cbn [fmap list_fmap handle_events].
  - unfold add_events. cbn. by rewrite app_nil_r, with_trace_id.
  - rewrite dispatch_push by done. rewrite IH by done.
    unfold add_events. cbn [concat m_subscribed_channels m_psubscribed_channels s_trace with_trace].
    by rewrite app_assoc.
Qed.

Fixpoint read_all (n : nat) (packets : list string) s : outcome unit * subscriber_state T S C :=
  match packets with
  | [] => (Ret tt, s)
  | p :: packets' =>
    match on_read n true p s with
    | (Ret _, s') => read_all n packets' s'
    | r => r
    end
  end.

(** The state after packets that end with parser [b], [es] having been called. *)
Definition after_reads (c : T) (b : reply_builder) (es : list (subscriber_event C)) s : subscriber_state T S C :=
  add_events es (with_client (Connection.set_tcp c (set_builder (clear_replies b) (m_client s))) s).

Lemma read_pushes n packets ps s b :
  Connection.m_reply_callback (m_client s) = true -> is_connected s = true ->
  no_replies (Connection.m_builder (m_client s)) ->
  callable (m_subscribed_channels s) -> callable (m_psubscribed_channels s) ->
  feed_all packets (Connection.m_builder (m_client s)) = (b, Ret tt) ->
  m_available_replies b = (fun p => reply_of (push_value p)) <$> ps ->
  exists c, tc_is_connected c = true /\ read_all n packets s = (Ret tt, after_reads c b (pushes_events s ps) s).
Proof.
  revert s ps b; induction packets as [|p packets IH]; intros s ps b Hr Hc Hn Hcs Hps Hf Ha; cbn [feed_all] in Hf.
  - simplify_eq. rewrite Hn in Ha. symmetry in Ha. apply fmap_nil_inv in Ha. subst ps.
    exists (Connection.m_client (m_client s)). split; [done|].
    cbn [read_all]. f_equal. unfold after_reads, pushes_events, add_events. cbn. rewrite app_nil_r.
    destruct s as [? [? ? ? [? ? ?] ?]]; unfold no_replies in *; simpl in *. by subst.
  - destruct (feed p (Connection.m_builder (m_client s))) as [b1 o1] eqn:E1.
    destruct o1 as [[]| | |]; try by simplify_eq.
    destruct (receive_ok (m_client s) p b1 Hr Hc E1) as (c1 & Hrec & Hcc & _ & _).
    destruct b1 as [bf bl av1].
    unfold clear_replies in Hrec; cbn [Builders.m_buffer Builders.m_builder m_available_replies] in Hrec.
    rewrite feed_all_with_available in Hf. unfold add_replies in Hf.
    destruct (feed_all packets (mk_reply_builder bf bl [])) as [b2 o2] eqn:E2. simplify_eq/=.
    symmetry in Ha. apply fmap_app_inv in Ha as (ps1 & ps2 & -> & Ha2 & ->).
    cbn [read_all]. unfold on_read. rewrite Hrec. cbn [m_available_replies].
    rewrite dispatch_pushes by done.
    match goal with |- context [read_all n packets ?x] => set (s1 := x) end.
    destruct (IH s1 ps2 b2) as (c2 & Hcc2 & ->); try done.
    exists c2. split; [done|]. f_equal. subst s1. unfold after_reads, add_events, pushes_events.
    cbn [m_subscribed_channels m_psubscribed_channels with_trace with_client s_trace].
    by rewrite fmap_app, concat_app, app_assoc.
Qed.

(** ** Subscribing again *)

Definition subscriptions (channels : gmap string (callback_holder C)) : list (list string) :=
  (fun kv => ["SUBSCRIBE"; kv.1]) <$> in_order channels.
Definition psubscriptions (patterns : gmap string (callback_holder C)) : list (list string) :=
  (fun kv => ["PSUBSCRIBE"; kv.1]) <$> in_order patterns.

(** The session a subscriber opens. *)
Definition session_commands s : list (list string) :=
  (if decide (m_password (m_config s) = "") then [] else [["AUTH"; m_password (m_config s)]]) ++
  subscriptions (m_subscribed_channels s) ++ psubscriptions (m_psubscribed_channels s).

Definition buffered (cmds : list (list string)) s : subscriber_state T S C :=
  with_client (Connection.set_buffer
    (Connection.m_buffer (m_client s) +:+ concat_packets (build_command <$> cmds)) (m_client s)) s.

Lemma buffered_nil s : buffered [] s = s.
Proof. unfold buffered. cbn. rewrite s_app_nil_r. by destruct s as [? []]. Qed.

Lemma buffered_app c1 c2 s : buffered c2 (buffered c1 s) = buffered (c1 ++ c2) s.
Proof.
  unfold buffered, Connection.set_buffer. cbn. by rewrite fmap_app, concat_packets_app, s_app_assoc.
Qed.

Lemma send_buffered cmd s : send cmd s = buffered [cmd] s.
Proof. unfold send, buffered, Connection.send. cbn. by rewrite s_app_nil_r. Qed.

Lemma iteration_perm {A} (m : gmap string A) : in_order m ≡ₚ map_to_list m.
Proof. apply merge_sort_Permutation. Qed.

Lemma in_order_sorted {A} (m : gmap string A) : Sorted key_le (in_order m).
Proof.
  apply Sorted_merge_sort. intros x y. unfold key_le.
  destruct (String.leb_total x.1 y.1); [by left|by right].
Qed.

Lemma in_order_map {A} (m : gmap string A) : list_to_map (in_order m) = m.
Proof.
  rewrite (list_to_map_proper (in_order m) (map_to_list m)).
  - apply list_to_map_to_list.
  - rewrite iteration_perm. apply NoDup_fst_map_to_list.
  - apply iteration_perm.
Qed.

Lemma in_order_nodup {A} (m : gmap string A) : NoDup (in_order m).*1.
Proof. rewrite iteration_perm. apply NoDup_fst_map_to_list. Qed.

Lemma insert_union_not_in {A} (l : list (string * A)) k x (m : gmap string A) :
  k ∉ l.*1 -> list_to_map l ∪ <[k := x]> m = <[k := x]> (list_to_map l ∪ m).
Proof. intros Hk. symmetry. apply insert_union_r. by apply not_elem_of_list_to_map_1. Qed.

Lemma subscribe_fold l s :
  NoDup l.*1 ->
  fold_left (fun s chan => unprotected_subscribe chan.1 chan.2 s) l s =
  buffered ((fun kv => ["SUBSCRIBE"; kv.1]) <$> l)
    (with_channels (list_to_map l ∪ m_subscribed_channels s) s).
Proof.
  revert s. induction l as [|[k h] l IH]; intros s Hn; cbn [fold_left fmap list_fmap].
  - rewrite buffered_nil. cbn. rewrite (left_id_L ∅ (∪)). by destruct s.
  - cbn in Hn. apply NoDup_cons in Hn as [Hk Hn]. rewrite IH by done.
    cbn [fst snd]. unfold unprotected_subscribe. rewrite send_buffered.
    cbn [m_subscribed_channels buffered with_client with_channels].
    rewrite insert_union_not_in by done.
    change (list_to_map ((k, h) :: l)) with (<[k := h]> (list_to_map l : gmap string (callback_holder C))).
    rewrite <- insert_union_l.
    change (["SUBSCRIBE"; k] :: ?x) with ([["SUBSCRIBE"; k]] ++ x). by rewrite <- (buffered_app _ (_ <$> l)).
Qed.

Lemma psubscribe_fold l s :
  NoDup l.*1 ->
  fold_left (fun s chan => unprotected_psubscribe chan.1 chan.2 s) l s =
  buffered ((fun kv => ["PSUBSCRIBE"; kv.1]) <$> l)
    (with_patterns (list_to_map l ∪ m_psubscribed_channels s) s).
Proof.
  revert s. induction l as [|[k h] l IH]; intros s Hn; cbn [fold_left fmap list_fmap].
  - rewrite buffered_nil. cbn. rewrite (left_id_L ∅ (∪)). by destruct s.
  - cbn in Hn. apply NoDup_cons in Hn as [Hk Hn]. rewrite IH by done.
    cbn [fst snd]. unfold unprotected_psubscribe. rewrite send_buffered.
    cbn [m_psubscribed_channels buffered with_client with_patterns].
    rewrite insert_union_not_in by done.
    change (list_to_map ((k, h) :: l)) with (<[k := h]> (list_to_map l : gmap string (callback_holder C))).
    rewrite <- insert_union_l.
    change (["PSUBSCRIBE"; k] :: ?x) with ([["PSUBSCRIBE"; k]] ++ x). by rewrite <- (buffered_app _ (_ <$> l)).
Qed.

(** The tables come back as they were, and every entry is asked for again, in
    the order of its key. *)
Lemma re_subscribe_eq s :
  re_subscribe s = buffered (subscriptions (m_subscribed_channels s) ++ psubscriptions (m_psubscribed_channels s)) s.
Proof.
  unfold re_subscribe. rewrite subscribe_fold by apply in_order_nodup.
  rewrite psubscribe_fold by apply in_order_nodup.
  cbn [m_subscribed_channels m_psubscribed_channels buffered with_client with_channels with_patterns].
  rewrite !(right_id_L ∅ (∪)), !in_order_map. fold (subscriptions (m_subscribed_channels s)).
  fold (psubscriptions (m_psubscribed_channels s)). rewrite <- buffered_app.
  by destruct s.
Qed.

(** What [re_auth] and [re_subscribe] leave. *)
Lemma re_open_eq s :
  exists cb, re_subscribe (re_auth s) = buffered (session_commands s) (with_auth_callback cb s).
Proof.
  rewrite re_subscribe_eq. unfold re_auth, session_commands.
  destruct (Nat.eqb_spec (String.length (m_password (m_config s))) 0) as [E|E].
  - exists (m_auth_reply_callback s). rewrite decide_True by by destruct (m_password (m_config s)).
    cbn [app]. by destruct s.
  - exists (Some ReAuth). rewrite decide_False by by destruct (m_password (m_config s)).
    unfold auth_with. rewrite send_buffered, buffered_app.
    cbn [m_subscribed_channels m_psubscribed_channels buffered with_client with_auth_callback with_config].
    unfold buffered. f_equal. by destruct s as [[]].
Qed.

(** ** Reconnecting *)

Definition output s : string := tc_output (Connection.m_client (m_client s)).

(** What a failed attempt leaves alone. *)
Record kept s s' : Prop := {
  kept_channels : m_subscribed_channels s' = m_subscribed_channels s;
  kept_patterns : m_psubscribed_channels s' = m_psubscribed_channels s;
  kept_password : m_password (m_config s') = m_password (m_config s);
  kept_max : m_max_reconnects (m_config s') = m_max_reconnects (m_config s);
  kept_cancel : m_cancel s' = m_cancel s;
  kept_buffer : Connection.m_buffer (m_client s') = Connection.m_buffer (m_client s);
  kept_output : output s' = output s }.

#[export] Instance kept_preorder : PreOrder kept.
Proof. split; [by split|]. intros s1 s2 s3 [] []. split; congruence. Qed.

(** What a successful one does. *)
Record resubscribed s s' : Prop := {
  resub_channels : m_subscribed_channels s' = m_subscribed_channels s;
  resub_patterns : m_psubscribed_channels s' = m_psubscribed_channels s;
  resub_buffer : Connection.m_buffer (m_client s') = "";
  resub_output : output s' = output s +:+ Connection.m_buffer (m_client s) +:+
                             concat_packets (build_command <$> session_commands s) }.

Lemma session_kept s s' : kept s s' -> session_commands s' = session_commands s.
Proof.
  intros [Hc Hp Hw _ _ _ _]. unfold session_commands. by rewrite Hc, Hp, Hw.
Qed.

Lemma kept_resubscribed s1 s2 s3 : kept s1 s2 -> resubscribed s2 s3 -> resubscribed s1 s3.
Proof.
  intros Hk [? ? ? Ho]. rewrite (session_kept _ _ Hk) in Ho. destruct Hk. split; try congruence.
Qed.

(** The fields of an attempt besides those of [kept]. *)
Definition same_step s s' : Prop :=
  kept s s' /\ m_sentinel s' = m_sentinel s /\
  m_current_reconnect_attempts s' = m_current_reconnect_attempts s.

Lemma callback_same h p st s :
  same_step s (call_connect_callback h p st s) /\
  is_connected (call_connect_callback h p st s) = is_connected s.
Proof. unfold call_connect_callback, same_step. destruct (m_connect_callback s); by split_and!. Qed.

Lemma notify_step st s : same_step s (notify st s) /\ is_connected (notify st s) = is_connected s.
Proof. apply callback_same. Qed.

#[export] Instance same_step_preorder : PreOrder same_step.
Proof.
  split; [by intros s; split_and!|]. intros s1 s2 s3 (? & ? & ?) (? & ? & ?).
  split_and!; [by etrans|congruence..].
Qed.

(** Opening a connection touches neither buffer nor output. *)
Lemma connection_connect_output h p ms b1 b2 (conn : redis_connection T) :
  let conn' := (Connection.connect h p ms b1 b2 conn).2 in
  Connection.m_buffer conn' = Connection.m_buffer conn /\
  tc_output (Connection.m_client conn') = tc_output (Connection.m_client conn).
Proof.
  unfold Connection.connect.
  pose proof (tc_connect_output h (wrap_u32 p) ms (Connection.m_client conn)) as Ho.
  destruct (tc_connect h (wrap_u32 p) ms (Connection.m_client conn)) as [[[]|e| |] c1] eqn:E; cbn in Ho |- *; try done.
  apply tc_connect_ok in E. rewrite <- (tc_handler_connected c1) in E.
  destruct (tc_read_connected READ_SIZE _ E) as (c2 & -> & _ & Ho2 & _). cbn.
  by rewrite Ho2, tc_handler_output.
Qed.

Lemma attempt_spec s :
  exists s', reconnect_attempt s = (Ret tt, s') /\ same_step s s'.
Proof.
  unfold reconnect_attempt, connect.
  set (s1 := with_connect_callback _ _).
  destruct (callback_same (m_redis_server (m_config s)) (m_redis_port (m_config s)) start s1) as [Hs _].
  assert (same_step s s1) as Hs1 by (by repeat split).
  revert Hs. generalize (call_connect_callback (m_redis_server (m_config s)) (m_redis_port (m_config s)) start s1).
  intros s2 Hs2.
  pose proof (connection_connect_output (m_redis_server (m_config s)) (m_redis_port (m_config s))
    (m_connect_timeout_msecs (m_config s)) true true (m_client s2)) as Hout.
  destruct (connection_connect_spec (m_redis_server (m_config s)) (m_redis_port (m_config s))
    (m_connect_timeout_msecs (m_config s)) true true (m_client s2)) as (o & conn & E & Ho).
  rewrite E in *. cbn in Hout.
  assert (same_step s (with_client conn s2)) as Hs3.
  { transitivity s1; [done|]. transitivity s2; [done|]. destruct Hout as [Hb Ho'].
    split_and!; [split|..]; done. }
  destruct o as [[]|[]| |]; try done.
  2: { eexists. split; [done|exact Hs3]. }
  eexists. split; [done|]. etransitivity; [exact Hs3|apply notify_step].
Qed.

Lemma lookup_server_kept s :
  kept s (lookup_server s).2 /\ is_connected (lookup_server s).2 = is_connected s /\
  m_current_reconnect_attempts (lookup_server s).2 = m_current_reconnect_attempts s /\
  forall I, lookups_return I -> I (m_sentinel s) ->
    (exists b, (lookup_server s).1 = Ret b) /\ I (m_sentinel (lookup_server s).2).
Proof.
  unfold lookup_server, lookup_master, lookups_return. destruct (String.length _ =? 0)%nat.
  { split_and!; [done..|]. intros I _ Hs. split; [by exists true|done]. }
  destruct (get_master_addr_by_name _ (m_sentinel s)) as [[o [h p]] sen] eqn:E.
  split_and!; [by split|done..|]. intros I Hr Hs.
  destruct (Hr (m_master_name (m_config s)) (m_sentinel s) Hs) as [[b Hb] Hs']. rewrite E in Hb, Hs'.
  split; [by exists b|done].
Qed.

Lemma reopened_spec s :
  is_connected s = true ->
  exists s', reconnected s = (Ret tt, s') /\ is_connected s' = true /\ resubscribed s s' /\
    m_sentinel s' = m_sentinel s /\ m_current_reconnect_attempts s' = m_current_reconnect_attempts s /\
    m_max_reconnects (m_config s') = m_max_reconnects (m_config s) /\ m_cancel s' = m_cancel s.
Proof.
  intros Hc. unfold reconnected.
  destruct (notify_step connect_ok s) as [(Hk & Hs & Ha) Hc'].
  rewrite <- Hs, <- Ha, <- (kept_max _ _ Hk), <- (kept_cancel _ _ Hk). rewrite <- Hc' in Hc.
  assert (forall s', resubscribed (notify connect_ok s) s' -> resubscribed s s') as Hres
    by (intros s'; by apply kept_resubscribed).
  revert Hc Hres. clear Hk Hs Ha Hc'. generalize (notify connect_ok s). intros s1 Hc Hres.
  destruct (re_open_eq s1) as [cb ->].
  unfold commit, Connection.commit.
  set (s2 := buffered _ _).
  assert (tc_is_connected (Connection.m_client (Connection.set_buffer "" (m_client s2))) = true) as Hc2 by exact Hc.
  destruct (tc_write_connected (Connection.m_buffer (m_client s2)) _ Hc2) as (c & -> & Hcc & Ho & _).
  eexists. split; [done|]. split_and!; [exact Hcc| |done..].
  apply Hres. split; [done..|]. unfold output. cbn. rewrite Ho. done.
Qed.

Lemma resubscribe_attempt_spec s :
  is_connected s = false ->
  exists o s', reconnect s = (o, s') /\
    (forall I, lookups_return I -> I (m_sentinel s) -> o = Ret tt /\ I (m_sentinel s')) /\
    m_current_reconnect_attempts s' = (m_current_reconnect_attempts s + 1)%Z /\
    m_max_reconnects (m_config s') = m_max_reconnects (m_config s) /\ m_cancel s' = m_cancel s /\
    if is_connected s' then resubscribed s s' else kept s s'.
Proof.
  intros Hc. unfold reconnect.
  set (s1 := with_attempts _ s).
  destruct (lookup_server_kept s1) as (Hk & Hlc & Hla & Hret).
  assert (kept s s1) as Hk1 by by split.
  destruct (lookup_server s1) as [found s2]; cbn [fst snd] in *.
  assert (kept s s2) as Hk2 by by transitivity s1.
  change (is_connected s1) with (is_connected s) in Hlc. rewrite Hc in Hlc.
  (** an outcome that leaves the sentinel as the lookup did, and no connection *)
  assert (forall (o : outcome unit) s',
    (forall I, lookups_return I -> I (m_sentinel s) -> o = Ret tt) ->
    same_step s2 s' -> is_connected s' = false ->
    exists o' s'', (o, s') = (o', s'') /\
    (forall I, lookups_return I -> I (m_sentinel s) -> o' = Ret tt /\ I (m_sentinel s'')) /\
    m_current_reconnect_attempts s'' = (m_current_reconnect_attempts s + 1)%Z /\
    m_max_reconnects (m_config s'') = m_max_reconnects (m_config s) /\ m_cancel s'' = m_cancel s /\
    if is_connected s'' then resubscribed s s'' else kept s s'') as Hdown.
  { intros o s' Ho (Hk' & Hs' & Ha') Hc'. exists o, s'. rewrite Hc'.
    assert (kept s s') as Hks by by transitivity s2.
    split_and!; [done| |by rewrite Ha', Hla|apply Hks..|done].
    intros I HI Hs. split; [by apply (Ho I)|]. rewrite Hs'. by apply Hret. }
  destruct found as [[]|e| |].
  - destruct (attempt_spec s2) as (s3 & E3 & Hs3). rewrite E3. cbn match.
    destruct (is_connected s3) eqn:Hc3; simpl negb; cbn match.
    + destruct (reopened_spec s3 Hc3) as (s4 & -> & Hc4 & Hr4 & Hs4 & Ha4 & Hm4 & Hx4).
      destruct Hs3 as (Hk3 & Hsen3 & Ha3).
      assert (kept s s3) as Hks by by transitivity s2.
      exists (Ret tt), s4. rewrite Hc4, Ha4, Ha3, Hla, Hm4, Hx4, Hs4, Hsen3.
      split_and!; [done| |done|apply Hks..|by eapply kept_resubscribed].
      intros I HI Hs. split; [done|by apply Hret].
    + apply Hdown; [done| |].
      * transitivity s3; [done|apply notify_step].
      * by rewrite (proj2 (notify_step _ _)).
  - apply Hdown; [done|apply notify_step|by rewrite (proj2 (notify_step _ _))].
  - apply Hdown; [|done..]. intros I HI Hs. by destruct (Hret I HI Hs) as [[] _].
  - apply Hdown; [|done..]. intros I HI Hs. by destruct (Hret I HI Hs) as [[] _].
  - apply Hdown; [|done..]. intros I HI Hs. by destruct (Hret I HI Hs) as [[] _].
Qed.

Lemma sleep_step s :
  same_step s (sleep_before_next_reconnect_attempt s) /\
  is_connected (sleep_before_next_reconnect_attempt s) = is_connected s.
Proof.
  unfold sleep_before_next_reconnect_attempt. destruct (_ <=? 0)%Z; [by split|apply notify_step].
Qed.

Lemma should_reconnect_down s : should_reconnect s = true -> is_connected s = false.
Proof. unfold should_reconnect. by destruct (is_connected s). Qed.

Lemma should_reconnect_attempts s :
  should_reconnect s = true -> (m_max_reconnects (m_config s) <> -1)%Z ->
  (m_current_reconnect_attempts s < m_max_reconnects (m_config s))%Z.
Proof.
  unfold should_reconnect. intros Hs Hm. apply andb_true_iff in Hs as [_ Hs].
  apply orb_true_iff in Hs as [Hs|Hs]; [by apply Z.eqb_eq in Hs|by apply Z.ltb_lt in Hs].
Qed.

Lemma loop_stop n s : should_reconnect s = false -> reconnect_loop n s = (Ret tt, s).
Proof. intros Hs. destruct n; cbn [reconnect_loop]; by rewrite Hs. Qed.

(** With fuel for the attempts that are left, the loop ends. *)
Lemma loop_spec (I : S -> Prop) n s :
  lookups_return I -> I (m_sentinel s) -> (m_max_reconnects (m_config s) <> -1)%Z ->
  (m_max_reconnects (m_config s) - m_current_reconnect_attempts s <= Z.of_nat n)%Z ->
  exists s', reconnect_loop n s = (Ret tt, s') /\ I (m_sentinel s') /\ should_reconnect s' = false /\
    (m_current_reconnect_attempts s' <=
       Z.max (m_current_reconnect_attempts s) (m_max_reconnects (m_config s)))%Z /\
    m_max_reconnects (m_config s') = m_max_reconnects (m_config s) /\ m_cancel s' = m_cancel s /\
    if is_connected s' then is_connected s = false -> resubscribed s s' else kept s s'.
Proof.
  intros Hret. revert s. induction n as [|n IH]; intros s HI Hm Hn; destruct (should_reconnect s) eqn:Hs.
  2,4: rewrite loop_stop by done; exists s; split_and!; try done; [lia|]; by destruct (is_connected s).
  - apply should_reconnect_attempts in Hs; lia.
  - cbn [reconnect_loop]. rewrite Hs.
    pose proof (should_reconnect_down s Hs) as Hc. apply should_reconnect_attempts in Hs; [|done].
    destruct (sleep_step s) as [(Hk1 & Hs1 & Ha1) Hc1].
    destruct (resubscribe_attempt_spec (sleep_before_next_reconnect_attempt s)) as (o & s2 & -> & Ho & Ha2 & Hm2 & Hx2 & Hr2);
      [congruence|].
    destruct (Ho I Hret) as [-> HI2]; [by rewrite Hs1|].
    pose proof (kept_max _ _ Hk1) as Hm1. pose proof (kept_cancel _ _ Hk1) as Hx1.
    destruct (is_connected s2) eqn:Hc2.
    + assert (should_reconnect s2 = false) as Hstop by (unfold should_reconnect; by rewrite Hc2).
      rewrite loop_stop by done. exists s2. rewrite Hc2.
      split_and!; [done|done|done|lia|congruence|congruence|]. intros _. by eapply kept_resubscribed.
    + destruct (IH s2) as (s3 & -> & HI3 & Hs3 & Ha3 & Hm3 & Hx3 & Hr3); [done|congruence|lia|].
      exists s3. split_and!; [done|done|done|lia|congruence|congruence|].
      assert (kept s s2) as Hk by by transitivity (sleep_before_next_reconnect_attempt s).
      destruct (is_connected s3).
      * intros _. eapply kept_resubscribed; [exact Hk|by apply Hr3].
      * by transitivity s2.
Qed.
End subscriber_facts.

(** ** Properties *)

(** C29: While a subscriber is connected, a stream of messages, pattern messages and
    acknowledgements, cut into packets anywhere, calls for each the callback that
    is registered for its channel or pattern, if any, with the channel and the
    message it carries, once each and in the order of the stream; nothing else is
    called, and the tables stay as they are. *)
Theorem pushes_reach_callbacks {T S C} `{TcpClientLaws T} `{SentinelLookup S} n packets ps
    (s : subscriber_state T S C) :
  is_connected s = true -> Connection.m_reply_callback (m_client s) = true ->
  Connection.m_builder (m_client s) = reply_builder_init ->
  callable (m_subscribed_channels s) -> callable (m_psubscribed_channels s) ->
  forallb wire_ok (push_value <$> ps) = true ->
  concat_packets packets = encode_all (push_value <$> ps) ->
  exists s', read_all n packets s = (Ret tt, s') /\
    s_trace s' = s_trace s ++
      concat (push_events (m_subscribed_channels s) (m_psubscribed_channels s) <$> ps) /\
    m_subscribed_channels s' = m_subscribed_channels s /\
    m_psubscribed_channels s' = m_psubscribed_channels s /\
    is_connected s' = true /\ Connection.m_builder (m_client s') = reply_builder_init.
Proof.
  intros Hc Hr Hb Hcs Hps Hok Hp.
  destruct (read_pushes n packets ps s (mk_reply_builder "" None (reply_of <$> (push_value <$> ps)))) as (c & Hcc & E);
    try done.
  - by rewrite Hb.
  - rewrite Hb. by apply (feed_all_encode packets _ []).
  - cbn. by rewrite <- list_fmap_compose.
  - eexists. split; [exact E|]. by split_and!.
Qed.

(** C30: The reconnection of a subscriber, with a limit on attempts and a sentinel
    whose lookups return, always ends.  If it ends connected, the tables are what
    they were, and what was written is AUTH when there is a password, then a
    SUBSCRIBE for every channel and a PSUBSCRIBE for every pattern, after what was
    still in the buffer.  If not, it was cancelled or used every attempt, and both
    tables are empty. *)
Theorem subscriptions_restored {T S C} `{TcpClientLaws T} `{SentinelLookup S} (I : S -> Prop) n
    (s : subscriber_state T S C) :
  lookups_return I -> I (m_sentinel s) -> is_reconnecting s = false -> is_connected s = false ->
  (0 <= m_max_reconnects (m_config s) <= Z.of_nat n)%Z ->
  exists s', connection_disconnection_handler n s = (Ret tt, s') /\
    is_reconnecting s' = false /\ I (m_sentinel s') /\
    if is_connected s' then resubscribed s s'
    else m_subscribed_channels s' = ∅ /\ m_psubscribed_channels s' = ∅ /\
         (m_cancel s = true \/ m_current_reconnect_attempts s' = m_max_reconnects (m_config s)).
Proof.
  intros Hret HI Hr Hc Hm. unfold connection_disconnection_handler. rewrite Hr.
  set (s1 := with_attempts 0 _).
  destruct (notify_step dropped s1) as [(Hk & Hs & Ha) Hc1].
  assert (kept s (notify dropped s1)) as Hk0 by (transitivity s1; [by split|done]).
  pose proof (kept_max _ _ Hk0) as Hm0. pose proof (kept_cancel _ _ Hk0) as Hx0.
  destruct (loop_spec I n (notify dropped s1)) as (s2 & -> & HI2 & Hstop & Hle & Hm2 & Hx2 & Hend);
    [done|by rewrite Hs|lia|rewrite Ha, Hm0; cbn; lia|].
  rewrite Ha, Hm0 in Hle. cbn in Hle. cbn match. eexists. split; [done|]. split; [done|].
  destruct (is_connected s2) eqn:Hc2; simpl negb; cbn match.
  - split; [done|]. change (is_connected (with_reconnecting false s2)) with (is_connected s2). rewrite Hc2.
    apply (kept_resubscribed _ _ _ Hk0). destruct Hend as [? ? ? ?]; [by rewrite Hc1|by split].
  - destruct (notify_step stopped (clear_subscriptions s2)) as [(Hk3 & Hs3 & Ha3) Hc3].
    split; [exact (eq_ind_r I HI2 Hs3)|].
    change (is_connected (with_reconnecting false ?x)) with (is_connected x). rewrite Hc3.
    change (is_connected (clear_subscriptions s2)) with (is_connected s2). rewrite Hc2.
    split; [exact (kept_channels _ _ Hk3)|]. split; [exact (kept_patterns _ _ Hk3)|].
    change (m_current_reconnect_attempts (with_reconnecting false ?x)) with (m_current_reconnect_attempts x).
    rewrite Ha3. change (m_current_reconnect_attempts (clear_subscriptions s2)) with (m_current_reconnect_attempts s2).
    unfold should_reconnect in Hstop. rewrite Hc2, Hx2, Hx0, Hm2, Hm0 in Hstop.
    destruct (m_cancel s); [by left|right]. cbn in Hstop. apply orb_false_iff in Hstop as [_ Hstop].
    apply Z.ltb_ge in Hstop. lia.
Qed.

(** ** Witnesses *)

#[local] Instance no_sentinel : SentinelLookup unit := {|
  get_master_addr_by_name _ s := (Ret false, (EmptyString, 0%Z), s) |}.

(** Two channels and a pattern; callbacks are numbers. *)
Definition sample_subscriber (connects : list bool) : subscriber_state tacopie.tcp_client unit nat :=
  let s := (connect "127.0.0.1" 6379 true 0 2 100 (init (tacopie.init connects []) tt)).2 in
  let s := psubscribe "news.*" (Some 3) None
             (subscribe "b" (Some 2) (Some 20) (subscribe "a" (Some 1) None (auth "pw" None s))) in
  (commit s).2.

(** The server has closed the connection. *)
Definition dropped_subscriber (connects : list bool) : subscriber_state tacopie.tcp_client unit nat :=
  let s := sample_subscriber connects in
  with_client (set_tcp (tc_disconnect false (Connection.m_client (m_client s))) (m_client s)) s.

Definition sample_pushes : list push :=
  [PAck "subscribe" "b" 2; PMessage "a" "hello"; PPMessage "news.*" "news.it" "ciao"; PMessage "c" "lost"].

Lemma pushes_reach_callbacks_witness :
  exists s', read_all 0 [s_take 40 (encode_all (push_value <$> sample_pushes));
                         s_drop 40 (encode_all (push_value <$> sample_pushes))] (sample_subscriber [true]) = (Ret tt, s') /\
    s_trace s' = s_trace (sample_subscriber [true]) ++
      concat (push_events (m_subscribed_channels (sample_subscriber [true]))
                (m_psubscribed_channels (sample_subscriber [true])) <$> sample_pushes) /\
    m_subscribed_channels s' = m_subscribed_channels (sample_subscriber [true]) /\
    m_psubscribed_channels s' = m_psubscribed_channels (sample_subscriber [true]) /\
    is_connected s' = true /\ Connection.m_builder (m_client s') = reply_builder_init.
Proof.
  apply pushes_reach_callbacks; [vm_compute; reflexivity..| | | |]; try (vm_compute; reflexivity).
  - apply map_Forall_to_list. vm_compute. repeat constructor; by eexists.
  - apply map_Forall_to_list. vm_compute. repeat constructor; by eexists.
Defined.

Example sample_events :
  concat (push_events (m_subscribed_channels (sample_subscriber [true]))
            (m_psubscribed_channels (sample_subscriber [true])) <$> sample_pushes) =
  [Acknowledged 20 2; MessageReceived 1 "a" "hello"; MessageReceived 3 "news.it" "ciao"].
Proof. vm_compute. reflexivity. Qed.

Example sample_session :
  session_commands (sample_subscriber [true]) =
  [["AUTH"; "pw"]; ["SUBSCRIBE"; "a"]; ["SUBSCRIBE"; "b"]; ["PSUBSCRIBE"; "news.*"]].
Proof. vm_compute. reflexivity. Qed.

(** The second attempt succeeds. *)
Lemma subscriptions_restored_witness :
  exists s', connection_disconnection_handler 2 (dropped_subscriber [true; false; true]) = (Ret tt, s') /\
    is_reconnecting s' = false /\ True /\
    if is_connected s' then resubscribed (dropped_subscriber [true; false; true]) s'
    else m_subscribed_channels s' = ∅ /\ m_psubscribed_channels s' = ∅ /\
         (m_cancel (dropped_subscriber [true; false; true]) = true \/
          m_current_reconnect_attempts s' = m_max_reconnects (m_config (dropped_subscriber [true; false; true]))).
Proof.
  apply (subscriptions_restored (fun _ => True));
    [intros name sen _; split; [by exists false|done]|done|vm_compute; reflexivity..|vm_compute; split; discriminate].
Defined.
