(* ===== verification/CommandTypes.v ===== *)
(** The argument types of the client's commands (includes/cpp_redis/core/client.hpp)
    and their conversions to strings (sources/core/client.cpp, lines 427 to
    482), with [std::to_string] on floating point numbers. *)

From S2P Require Import Prelude Text.

(** ** Enumerations *)

Inductive aggregate_method : Type := agg_sum | agg_min | agg_max | agg_server_default.
Inductive geo_unit : Type := unit_m | unit_km | unit_ft | unit_mi.
Inductive overflow_type : Type := overflow_wrap | overflow_sat | overflow_fail | overflow_server_default.
Inductive bitfield_operation_type : Type := op_get | op_set | op_incrby.
Inductive client_type : Type := client_normal | client_master | client_pubsub | client_slave.

#[export] Instance aggregate_method_eq_dec : EqDecision aggregate_method.
Proof. solve_decision. Defined.
#[export] Instance geo_unit_eq_dec : EqDecision geo_unit.
Proof. solve_decision. Defined.
#[export] Instance overflow_type_eq_dec : EqDecision overflow_type.
Proof. solve_decision. Defined.
#[export] Instance bitfield_operation_type_eq_dec : EqDecision bitfield_operation_type.
Proof. solve_decision. Defined.
#[export] Instance client_type_eq_dec : EqDecision client_type.
Proof. solve_decision. Defined.

Definition aggregate_method_to_string (method : aggregate_method) : string :=
  match method with
  | agg_sum => "SUM"
  | agg_min => "MIN"
  | agg_max => "MAX"
  | agg_server_default => ""
  end.

Definition geo_unit_to_string (unit : geo_unit) : string :=
  match unit with
  | unit_m => "m"
  | unit_km => "km"
  | unit_ft => "ft"
  | unit_mi => "mi"
  end.

Definition bitfield_operation_type_to_string (operation : bitfield_operation_type) : string :=
  match operation with
  | op_get => "GET"
  | op_set => "SET"
  | op_incrby => "INCRBY"
  end.

Definition overflow_type_to_string (type : overflow_type) : string :=
  match type with
  | overflow_wrap => "WRAP"
  | overflow_sat => "SAT"
  | overflow_fail => "FAIL"
  | overflow_server_default => ""
  end.

(** ** client::bitfield_operation *)

Record bitfield_operation : Type := mk_bitfield_operation {
  operation_type : bitfield_operation_type;
  bf_type : string;
  bf_offset : Z;
  bf_value : Z;
  bf_overflow : overflow_type }.

Definition bitfield_get (type : string) (offset : Z) (overflow : overflow_type) : bitfield_operation :=
  mk_bitfield_operation op_get type offset 0 overflow.
Definition bitfield_set (type : string) (offset value : Z) (overflow : overflow_type) : bitfield_operation :=
  mk_bitfield_operation op_set type offset value overflow.
Definition bitfield_incrby (type : string) (offset increment : Z) (overflow : overflow_type) : bitfield_operation :=
  mk_bitfield_operation op_incrby type offset increment overflow.

(** ** Floating point numbers

    A finite number is [mantissa * 2 ^ exponent], with its sign bit apart.
    [std::to_string] prints it as [%f] does: six decimals, the exact value
    rounded to nearest, ties to even.  A [float] is promoted to [double]
    exactly. *)

Inductive double : Type :=
| d_finite (negative : bool) (mantissa : N) (exponent : Z)
| d_infinite (negative : bool)
| d_nan (negative : bool).

(** The nearest integer to [n / d]. *)
Definition round_div (n d : Z) : Z :=
  let q := (n / d)%Z in
  let r := (n mod d)%Z in
  if (2 * r <? d)%Z then q
  else if (d <? 2 * r)%Z then (q + 1)%Z
  else if Z.even q then q else (q + 1)%Z.

(** The magnitude in millionths. *)
Definition millionths (mantissa : N) (exponent : Z) : Z :=
  if (0 <=? exponent)%Z then (Z.of_N mantissa * 2 ^ exponent * 1000000)%Z
  else round_div (Z.of_N mantissa * 1000000) (2 ^ (- exponent)).

Definition pad6 (s : string) : string :=
  String.concat "" (repeat "0" (6 - String.length s)) +:+ s.

Definition sign (negative : bool) : string := if negative then "-" else "".

Definition to_string_double (d : double) : string :=
  match d with
  | d_finite negative mantissa exponent =>
    let v := millionths mantissa exponent in
    sign negative +:+ to_string (v / 1000000)%Z +:+ "." +:+ pad6 (to_string (v mod 1000000)%Z)
  | d_infinite negative => sign negative +:+ "inf"
  | d_nan negative => sign negative +:+ "nan"
  end.

Lemma round_div_near n d : (0 < d)%Z -> (Z.abs (d * round_div n d - n) * 2 <= d)%Z.
Proof.
  intros Hd. unfold round_div. pose proof (Z.div_mod n d ltac:(lia)) as He.
  pose proof (Z.mod_pos_bound n d Hd) as Hb.
  set (q := (n / d)%Z) in *. set (r := (n mod d)%Z) in *.
  destruct (2 * r <? d)%Z eqn:E1; [apply Z.ltb_lt in E1; nia|].
  apply Z.ltb_ge in E1. destruct (d <? 2 * r)%Z eqn:E2.
  - apply Z.ltb_lt in E2. nia.
  - apply Z.ltb_ge in E2. destruct (Z.even q); nia.
Qed.
