(* ===== verification/Commands.v ===== *)
(** The Redis commands of [cpp_redis::client] (sources/core/client.cpp, lines
    488 to 2710): each function builds its command and stores it with its
    callback.  An overload is named after the parameters that tell it apart. *)

From S2P Require Import Prelude Text TcpClient Connection Client CommandTypes.

(** [empty()] of a string and of a vector *)
Definition str_empty (s : string) : bool := (String.length s =? 0)%nat.
Definition vec_empty {A} (l : list A) : bool := match l with [] => true | _ => false end.

Section commands.
Context {T S C : Type}.

Abbreviation client := (client_state T S C).
Abbreviation callback_arg := (option (reply_callback C)).


Definition append (key value : string) (cb : callback_arg) (s : client) : client :=
  send ["APPEND"; key; value] cb s.

Definition bgrewriteaof (cb : callback_arg) (s : client) : client :=
  send ["BGREWRITEAOF"] cb s.

Definition bgsave (cb : callback_arg) (s : client) : client :=
  send ["BGSAVE"] cb s.

Definition bitcount (key : string) (cb : callback_arg) (s : client) : client :=
  send ["BITCOUNT"; key] cb s.

Definition bitcount_start_end (key : string) (start end_ : Z) (cb : callback_arg) (s : client)
    : client :=
  send ["BITCOUNT"; key; to_string start; to_string end_] cb s.

Definition bitfield (key : string) (operations : list bitfield_operation) (cb : callback_arg)
    (s : client) : client :=
  let cmd := ["BITFIELD"; key] in
  let cmd :=
    fold_left (fun cmd operation =>
      let cmd :=
        cmd ++ [bitfield_operation_type_to_string (operation_type operation); bf_type operation;
          to_string (bf_offset operation)] in
      let cmd :=
        if bool_decide (operation_type operation = op_set) || bool_decide (operation_type operation =
          op_incrby) then
          cmd ++ [to_string (bf_value operation)]
        else cmd in
      if negb (bool_decide (bf_overflow operation = overflow_server_default)) then
        cmd ++ ["OVERFLOW"; overflow_type_to_string (bf_overflow operation)]
      else cmd) operations cmd in
  send cmd cb s.

Definition bitop (operation destkey : string) (keys : list string) (cb : callback_arg) (s : client)
    : client :=
  let cmd := ["BITOP"; operation; destkey] in
  let cmd := cmd ++ keys in
  send cmd cb s.

Definition bitpos (key : string) (bit : Z) (cb : callback_arg) (s : client) : client :=
  send ["BITPOS"; key; to_string bit] cb s.

Definition bitpos_start (key : string) (bit start : Z) (cb : callback_arg) (s : client) : client :=
  send ["BITPOS"; key; to_string bit; to_string start] cb s.

Definition bitpos_start_end (key : string) (bit start end_ : Z) (cb : callback_arg) (s : client)
    : client :=
  send ["BITPOS"; key; to_string bit; to_string start; to_string end_] cb s.

Definition blpop (keys : list string) (timeout : Z) (cb : callback_arg) (s : client) : client :=
  let cmd := ["BLPOP"] in
  let cmd := cmd ++ keys in
  let cmd := cmd ++ [to_string timeout] in
  send cmd cb s.

Definition brpop (keys : list string) (timeout : Z) (cb : callback_arg) (s : client) : client :=
  let cmd := ["BRPOP"] in
  let cmd := cmd ++ keys in
  let cmd := cmd ++ [to_string timeout] in
  send cmd cb s.

Definition brpoplpush (src dst : string) (timeout : Z) (cb : callback_arg) (s : client) : client :=
  send ["BRPOPLPUSH"; src; dst; to_string timeout] cb s.

Definition client_list (cb : callback_arg) (s : client) : client :=
  send ["CLIENT"; "LIST"] cb s.

Definition client_getname (cb : callback_arg) (s : client) : client :=
  send ["CLIENT"; "GETNAME"] cb s.

Definition client_pause (timeout : Z) (cb : callback_arg) (s : client) : client :=
  send ["CLIENT"; "PAUSE"; to_string timeout] cb s.

Definition client_reply (mode : string) (cb : callback_arg) (s : client) : client :=
  send ["CLIENT"; "REPLY"; mode] cb s.

Definition client_setname (name : string) (cb : callback_arg) (s : client) : client :=
  send ["CLIENT"; "SETNAME"; name] cb s.

Definition cluster_addslots (p_slots : list string) (cb : callback_arg) (s : client) : client :=
  let cmd := ["CLUSTER"; "ADDSLOTS"] in
  let cmd := cmd ++ p_slots in
  send cmd cb s.

Definition cluster_count_failure_reports (node_id : string) (cb : callback_arg) (s : client)
    : client :=
  send ["CLUSTER"; "COUNT-FAILURE-REPORTS"; node_id] cb s.

Definition cluster_countkeysinslot (slot : string) (cb : callback_arg) (s : client) : client :=
  send ["CLUSTER"; "COUNTKEYSINSLOT"; slot] cb s.

Definition cluster_delslots (p_slots : list string) (cb : callback_arg) (s : client) : client :=
  let cmd := ["CLUSTER"; "DELSLOTS"] in
  let cmd := cmd ++ p_slots in
  send cmd cb s.

Definition cluster_failover (cb : callback_arg) (s : client) : client :=
  send ["CLUSTER"; "FAILOVER"] cb s.

Definition cluster_failover_mode (mode : string) (cb : callback_arg) (s : client) : client :=
  send ["CLUSTER"; "FAILOVER"; mode] cb s.

Definition cluster_forget (node_id : string) (cb : callback_arg) (s : client) : client :=
  send ["CLUSTER"; "FORGET"; node_id] cb s.

Definition cluster_getkeysinslot (slot : string) (count : Z) (cb : callback_arg) (s : client)
    : client :=
  send ["CLUSTER"; "GETKEYSINSLOT"; slot; to_string count] cb s.

Definition cluster_info (cb : callback_arg) (s : client) : client :=
  send ["CLUSTER"; "INFO"] cb s.

Definition cluster_keyslot (key : string) (cb : callback_arg) (s : client) : client :=
  send ["CLUSTER"; "KEYSLOT"; key] cb s.

Definition cluster_meet (ip : string) (port : Z) (cb : callback_arg) (s : client) : client :=
  send ["CLUSTER"; "MEET"; ip; to_string port] cb s.

Definition cluster_nodes (cb : callback_arg) (s : client) : client :=
  send ["CLUSTER"; "NODES"] cb s.

Definition cluster_replicate (node_id : string) (cb : callback_arg) (s : client) : client :=
  send ["CLUSTER"; "REPLICATE"; node_id] cb s.

Definition cluster_reset (cb : callback_arg) (s : client) : client :=
  send ["CLUSTER"; "RESET"] cb s.

Definition cluster_reset_mode (mode : string) (cb : callback_arg) (s : client) : client :=
  send ["CLUSTER"; "RESET"; mode] cb s.

Definition cluster_saveconfig (cb : callback_arg) (s : client) : client :=
  send ["CLUSTER"; "SAVECONFIG"] cb s.

Definition cluster_set_config_epoch (epoch : string) (cb : callback_arg) (s : client) : client :=
  send ["CLUSTER"; "SET-CONFIG-EPOCH"; epoch] cb s.

Definition cluster_setslot (slot mode : string) (cb : callback_arg) (s : client) : client :=
  send ["CLUSTER"; "SETSLOT"; slot; mode] cb s.

Definition cluster_setslot_node_id (slot mode node_id : string) (cb : callback_arg) (s : client)
    : client :=
  send ["CLUSTER"; "SETSLOT"; slot; mode; node_id] cb s.

Definition cluster_slaves (node_id : string) (cb : callback_arg) (s : client) : client :=
  send ["CLUSTER"; "SLAVES"; node_id] cb s.

Definition cluster_slots (cb : callback_arg) (s : client) : client :=
  send ["CLUSTER"; "SLOTS"] cb s.

Definition command (cb : callback_arg) (s : client) : client :=
  send ["COMMAND"] cb s.

Definition command_count (cb : callback_arg) (s : client) : client :=
  send ["COMMAND"; "COUNT"] cb s.

Definition command_getkeys (cb : callback_arg) (s : client) : client :=
  send ["COMMAND"; "GETKEYS"] cb s.

Definition command_info (command_name : list string) (cb : callback_arg) (s : client) : client :=
  let cmd := ["COMMAND"; "COUNT"] in
  let cmd := cmd ++ command_name in
  send cmd cb s.

Definition config_get (param : string) (cb : callback_arg) (s : client) : client :=
  send ["CONFIG"; "GET"; param] cb s.

Definition config_rewrite (cb : callback_arg) (s : client) : client :=
  send ["CONFIG"; "REWRITE"] cb s.

Definition config_set (param val : string) (cb : callback_arg) (s : client) : client :=
  send ["CONFIG"; "SET"; param; val] cb s.

Definition config_resetstat (cb : callback_arg) (s : client) : client :=
  send ["CONFIG"; "RESETSTAT"] cb s.

Definition dbsize (cb : callback_arg) (s : client) : client :=
  send ["DBSIZE"] cb s.

Definition debug_object (key : string) (cb : callback_arg) (s : client) : client :=
  send ["DEBUG"; "OBJECT"; key] cb s.

Definition debug_segfault (cb : callback_arg) (s : client) : client :=
  send ["DEBUG"; "SEGFAULT"] cb s.

Definition decr (key : string) (cb : callback_arg) (s : client) : client :=
  send ["DECR"; key] cb s.

Definition decrby (key : string) (val : Z) (cb : callback_arg) (s : client) : client :=
  send ["DECRBY"; key; to_string val] cb s.

Definition del (key : list string) (cb : callback_arg) (s : client) : client :=
  let cmd := ["DEL"] in
  let cmd := cmd ++ key in
  send cmd cb s.

Definition discard (cb : callback_arg) (s : client) : client :=
  send ["DISCARD"] cb s.

Definition dump (key : string) (cb : callback_arg) (s : client) : client :=
  send ["DUMP"; key] cb s.

Definition echo (msg : string) (cb : callback_arg) (s : client) : client :=
  send ["ECHO"; msg] cb s.

Definition eval (script : string) (numkeys : Z) (keys args : list string) (cb : callback_arg)
    (s : client) : client :=
  let cmd := ["EVAL"; script; to_string numkeys] in
  let cmd := cmd ++ keys in
  let cmd := cmd ++ args in
  send cmd cb s.

Definition evalsha (sha1 : string) (numkeys : Z) (keys args : list string) (cb : callback_arg)
    (s : client) : client :=
  let cmd := ["EVALSHA"; sha1; to_string numkeys] in
  let cmd := cmd ++ keys in
  let cmd := cmd ++ args in
  send cmd cb s.

Definition exec (cb : callback_arg) (s : client) : client :=
  send ["EXEC"] cb s.

Definition exists_ (keys : list string) (cb : callback_arg) (s : client) : client :=
  let cmd := ["EXISTS"] in
  let cmd := cmd ++ keys in
  send cmd cb s.

Definition expire (key : string) (seconds : Z) (cb : callback_arg) (s : client) : client :=
  send ["EXPIRE"; key; to_string seconds] cb s.

Definition expireat (key : string) (timestamp : Z) (cb : callback_arg) (s : client) : client :=
  send ["EXPIREAT"; key; to_string timestamp] cb s.

Definition flushall (cb : callback_arg) (s : client) : client :=
  send ["FLUSHALL"] cb s.

Definition flushdb (cb : callback_arg) (s : client) : client :=
  send ["FLUSHDB"] cb s.

Definition geoadd (key : string) (long_lat_memb : list (string * string * string))
    (cb : callback_arg) (s : client) : client :=
  let cmd := ["GEOADD"; key] in
  let cmd := fold_left (fun cmd obj => cmd ++ [obj.1.1; obj.1.2; obj.2]) long_lat_memb cmd in
  send cmd cb s.

Definition geohash (key : string) (members : list string) (cb : callback_arg) (s : client)
    : client :=
  let cmd := ["GEOHASH"; key] in
  let cmd := cmd ++ members in
  send cmd cb s.

Definition geopos (key : string) (members : list string) (cb : callback_arg) (s : client)
    : client :=
  let cmd := ["GEOPOS"; key] in
  let cmd := cmd ++ members in
  send cmd cb s.

Definition geodist (key member_1 member_2 : string) (cb : callback_arg) (s : client) : client :=
  send ["GEODIST"; key; member_1; member_2] cb s.

Definition geodist_unit (key member_1 member_2 unit : string) (cb : callback_arg) (s : client)
    : client :=
  send ["GEODIST"; key; member_1; member_2; unit] cb s.

Definition georadius_all (key : string) (longitude latitude radius : double) (unit : geo_unit)
    (with_coord with_dist with_hash asc_order : bool) (count : Z) (store_key storedist_key : string)
    (cb : callback_arg) (s : client) : client :=
  let cmd := ["GEORADIUS"; key; to_string_double longitude; to_string_double latitude;
    to_string_double radius; geo_unit_to_string unit] in
  let cmd := if with_coord then cmd ++ ["WITHCOORD"] else cmd in
  let cmd := if with_dist then cmd ++ ["WITHDIST"] else cmd in
  let cmd := if with_hash then cmd ++ ["WITHHASH"] else cmd in
  let cmd := cmd ++ [if asc_order then "ASC" else "DESC"] in
  let cmd := if (0 <? count)%Z then cmd ++ ["COUNT"; to_string count] else cmd in
  let cmd := if negb (str_empty store_key) then cmd ++ ["STOREDIST"; storedist_key] else cmd in
  let cmd :=
    if negb (str_empty storedist_key) then cmd ++ ["STOREDIST"; storedist_key] else cmd in
  send cmd cb s.

Definition georadius (key : string) (longitude latitude radius : double) (unit : geo_unit)
    (with_coord with_dist with_hash asc_order : bool) (cb : callback_arg) (s : client) : client :=
  georadius_all key longitude latitude radius unit with_coord with_dist with_hash asc_order 0 "" ""
    cb s.

Definition georadius_count (key : string) (longitude latitude radius : double) (unit : geo_unit)
    (with_coord with_dist with_hash asc_order : bool) (count : Z) (cb : callback_arg) (s : client)
    : client :=
  georadius_all key longitude latitude radius unit with_coord with_dist with_hash asc_order count ""
    "" cb s.

Definition georadius_store_key (key : string) (longitude latitude radius : double) (unit : geo_unit)
    (with_coord with_dist with_hash asc_order : bool) (store_key : string) (cb : callback_arg)
    (s : client) : client :=
  georadius_all key longitude latitude radius unit with_coord with_dist with_hash asc_order 0
    store_key "" cb s.

Definition georadius_store_key_storedist_key (key : string) (longitude latitude radius : double)
    (unit : geo_unit) (with_coord with_dist with_hash asc_order : bool)
    (store_key storedist_key : string) (cb : callback_arg) (s : client) : client :=
  georadius_all key longitude latitude radius unit with_coord with_dist with_hash asc_order 0
    store_key storedist_key cb s.

Definition georadius_count_store_key (key : string) (longitude latitude radius : double)
    (unit : geo_unit) (with_coord with_dist with_hash asc_order : bool) (count : Z)
    (store_key : string) (cb : callback_arg) (s : client) : client :=
  georadius_all key longitude latitude radius unit with_coord with_dist with_hash asc_order count
    store_key "" cb s.

Definition georadiusbymember_all (key member : string) (radius : double) (unit : geo_unit)
    (with_coord with_dist with_hash asc_order : bool) (count : Z) (store_key storedist_key : string)
    (cb : callback_arg) (s : client) : client :=
  let cmd := ["GEORADIUSBYMEMBER"; key; member; to_string_double radius; geo_unit_to_string unit] in
  let cmd := if with_coord then cmd ++ ["WITHCOORD"] else cmd in
  let cmd := if with_dist then cmd ++ ["WITHDIST"] else cmd in
  let cmd := if with_hash then cmd ++ ["WITHHASH"] else cmd in
  let cmd := cmd ++ [if asc_order then "ASC" else "DESC"] in
  let cmd := if (0 <? count)%Z then cmd ++ ["COUNT"; to_string count] else cmd in
  let cmd := if negb (str_empty store_key) then cmd ++ ["STOREDIST"; storedist_key] else cmd in
  let cmd :=
    if negb (str_empty storedist_key) then cmd ++ ["STOREDIST"; storedist_key] else cmd in
  send cmd cb s.

Definition georadiusbymember (key member : string) (radius : double) (unit : geo_unit)
    (with_coord with_dist with_hash asc_order : bool) (cb : callback_arg) (s : client) : client :=
  georadiusbymember_all key member radius unit with_coord with_dist with_hash asc_order 0 "" "" cb
    s.

Definition georadiusbymember_count (key member : string) (radius : double) (unit : geo_unit)
    (with_coord with_dist with_hash asc_order : bool) (count : Z) (cb : callback_arg) (s : client)
    : client :=
  georadiusbymember_all key member radius unit with_coord with_dist with_hash asc_order count "" ""
    cb s.

Definition georadiusbymember_store_key (key member : string) (radius : double) (unit : geo_unit)
    (with_coord with_dist with_hash asc_order : bool) (store_key : string) (cb : callback_arg)
    (s : client) : client :=
  georadiusbymember_all key member radius unit with_coord with_dist with_hash asc_order 0 store_key
    "" cb s.

Definition georadiusbymember_store_key_storedist_key (key member : string) (radius : double)
    (unit : geo_unit) (with_coord with_dist with_hash asc_order : bool)
    (store_key storedist_key : string) (cb : callback_arg) (s : client) : client :=
  georadiusbymember_all key member radius unit with_coord with_dist with_hash asc_order 0 store_key
    storedist_key cb s.

Definition georadiusbymember_count_store_key (key member : string) (radius : double)
    (unit : geo_unit) (with_coord with_dist with_hash asc_order : bool) (count : Z)
    (store_key : string) (cb : callback_arg) (s : client) : client :=
  georadiusbymember_all key member radius unit with_coord with_dist with_hash asc_order count
    store_key "" cb s.

Definition get (key : string) (cb : callback_arg) (s : client) : client :=
  send ["GET"; key] cb s.

Definition getbit (key : string) (offset : Z) (cb : callback_arg) (s : client) : client :=
  send ["GETBIT"; key; to_string offset] cb s.

Definition getrange (key : string) (start end_ : Z) (cb : callback_arg) (s : client) : client :=
  send ["GETRANGE"; key; to_string start; to_string end_] cb s.

Definition getset (key val : string) (cb : callback_arg) (s : client) : client :=
  send ["GETSET"; key; val] cb s.

Definition hdel (key : string) (fields : list string) (cb : callback_arg) (s : client) : client :=
  let cmd := ["HDEL"; key] in
  let cmd := cmd ++ fields in
  send cmd cb s.

Definition hexists (key field : string) (cb : callback_arg) (s : client) : client :=
  send ["HEXISTS"; key; field] cb s.

Definition hget (key field : string) (cb : callback_arg) (s : client) : client :=
  send ["HGET"; key; field] cb s.

Definition hgetall (key : string) (cb : callback_arg) (s : client) : client :=
  send ["HGETALL"; key] cb s.

Definition hincrby (key field : string) (incr : Z) (cb : callback_arg) (s : client) : client :=
  send ["HINCRBY"; key; field; to_string incr] cb s.

Definition hincrbyfloat (key field : string) (incr : double) (cb : callback_arg) (s : client)
    : client :=
  send ["HINCRBYFLOAT"; key; field; to_string_double incr] cb s.

Definition hkeys (key : string) (cb : callback_arg) (s : client) : client :=
  send ["HKEYS"; key] cb s.

Definition hlen (key : string) (cb : callback_arg) (s : client) : client :=
  send ["HLEN"; key] cb s.

Definition hmget (key : string) (fields : list string) (cb : callback_arg) (s : client) : client :=
  let cmd := ["HMGET"; key] in
  let cmd := cmd ++ fields in
  send cmd cb s.

Definition hmset (key : string) (field_val : list (string * string)) (cb : callback_arg)
    (s : client) : client :=
  let cmd := ["HMSET"; key] in
  let cmd := fold_left (fun cmd obj => cmd ++ [obj.1; obj.2]) field_val cmd in
  send cmd cb s.

Definition hscan_pattern_count (key : string) (cursor : Z) (pattern : string) (count : Z)
    (cb : callback_arg) (s : client) : client :=
  let cmd := ["HSCAN"; key; to_string cursor] in
  let cmd := if negb (str_empty pattern) then cmd ++ ["MATCH"; pattern] else cmd in
  let cmd := if (0 <? count)%Z then cmd ++ ["COUNT"; to_string count] else cmd in
  send cmd cb s.

Definition hscan (key : string) (cursor : Z) (cb : callback_arg) (s : client) : client :=
  hscan_pattern_count key cursor "" 0 cb s.

Definition hscan_pattern (key : string) (cursor : Z) (pattern : string) (cb : callback_arg)
    (s : client) : client :=
  hscan_pattern_count key cursor pattern 0 cb s.

Definition hscan_count (key : string) (cursor count : Z) (cb : callback_arg) (s : client)
    : client :=
  hscan_pattern_count key cursor "" count cb s.

Definition hset (key field value : string) (cb : callback_arg) (s : client) : client :=
  send ["HSET"; key; field; value] cb s.

Definition hsetnx (key field value : string) (cb : callback_arg) (s : client) : client :=
  send ["HSETNX"; key; field; value] cb s.

Definition hstrlen (key field : string) (cb : callback_arg) (s : client) : client :=
  send ["HSTRLEN"; key; field] cb s.

Definition hvals (key : string) (cb : callback_arg) (s : client) : client :=
  send ["HVALS"; key] cb s.

Definition incr (key : string) (cb : callback_arg) (s : client) : client :=
  send ["INCR"; key] cb s.

Definition incrby (key : string) (incr : Z) (cb : callback_arg) (s : client) : client :=
  send ["INCRBY"; key; to_string incr] cb s.

Definition incrbyfloat (key : string) (incr : double) (cb : callback_arg) (s : client) : client :=
  send ["INCRBYFLOAT"; key; to_string_double incr] cb s.

Definition info (cb : callback_arg) (s : client) : client :=
  send ["INFO"] cb s.

Definition info_section (section : string) (cb : callback_arg) (s : client) : client :=
  send ["INFO"; section] cb s.

Definition keys (pattern : string) (cb : callback_arg) (s : client) : client :=
  send ["KEYS"; pattern] cb s.

Definition lastsave (cb : callback_arg) (s : client) : client :=
  send ["LASTSAVE"] cb s.

Definition lindex (key : string) (index : Z) (cb : callback_arg) (s : client) : client :=
  send ["LINDEX"; key; to_string index] cb s.

Definition linsert (key before_after pivot value : string) (cb : callback_arg) (s : client)
    : client :=
  send ["LINSERT"; key; before_after; pivot; value] cb s.

Definition llen (key : string) (cb : callback_arg) (s : client) : client :=
  send ["LLEN"; key] cb s.

Definition lpop (key : string) (cb : callback_arg) (s : client) : client :=
  send ["LPOP"; key] cb s.

Definition lpush (key : string) (values : list string) (cb : callback_arg) (s : client) : client :=
  let cmd := ["LPUSH"; key] in
  let cmd := cmd ++ values in
  send cmd cb s.

Definition lpushx (key value : string) (cb : callback_arg) (s : client) : client :=
  send ["LPUSHX"; key; value] cb s.

Definition lrange (key : string) (start stop : Z) (cb : callback_arg) (s : client) : client :=
  send ["LRANGE"; key; to_string start; to_string stop] cb s.

Definition lrem (key : string) (count : Z) (value : string) (cb : callback_arg) (s : client)
    : client :=
  send ["LREM"; key; to_string count; value] cb s.

Definition lset (key : string) (index : Z) (value : string) (cb : callback_arg) (s : client)
    : client :=
  send ["LSET"; key; to_string index; value] cb s.

Definition ltrim (key : string) (start stop : Z) (cb : callback_arg) (s : client) : client :=
  send ["LTRIM"; key; to_string start; to_string stop] cb s.

Definition mget (keys : list string) (cb : callback_arg) (s : client) : client :=
  let cmd := ["MGET"] in
  let cmd := cmd ++ keys in
  send cmd cb s.

Definition migrate (host : string) (port : Z) (key dest_db : string) (timeout : Z)
    (cb : callback_arg) (s : client) : client :=
  send ["MIGRATE"; host; to_string port; key; dest_db; to_string timeout] cb s.

Definition migrate_copy_replace_keys (host : string) (port : Z) (key dest_db : string) (timeout : Z)
    (copy replace : bool) (keys : list string) (cb : callback_arg) (s : client) : client :=
  let cmd := ["MIGRATE"; host; to_string port; key; dest_db; to_string timeout] in
  let cmd := if copy then cmd ++ ["COPY"] else cmd in
  let cmd := if replace then cmd ++ ["REPLACE"] else cmd in
  let cmd :=
    if negb (vec_empty keys) then
      let cmd := cmd ++ ["KEYS"] in
      cmd ++ keys
    else cmd in
  send cmd cb s.

Definition monitor (cb : callback_arg) (s : client) : client :=
  send ["MONITOR"] cb s.

Definition move (key db : string) (cb : callback_arg) (s : client) : client :=
  send ["MOVE"; key; db] cb s.

Definition mset (key_vals : list (string * string)) (cb : callback_arg) (s : client) : client :=
  let cmd := ["MSET"] in
  let cmd := fold_left (fun cmd obj => cmd ++ [obj.1; obj.2]) key_vals cmd in
  send cmd cb s.

Definition msetnx (key_vals : list (string * string)) (cb : callback_arg) (s : client) : client :=
  let cmd := ["MSETNX"] in
  let cmd := fold_left (fun cmd obj => cmd ++ [obj.1; obj.2]) key_vals cmd in
  send cmd cb s.

Definition multi (cb : callback_arg) (s : client) : client :=
  send ["MULTI"] cb s.

Definition object (subcommand : string) (args : list string) (cb : callback_arg) (s : client)
    : client :=
  let cmd := ["OBJECT"; subcommand] in
  let cmd := cmd ++ args in
  send cmd cb s.

Definition persist (key : string) (cb : callback_arg) (s : client) : client :=
  send ["PERSIST"; key] cb s.

Definition pexpire (key : string) (milliseconds : Z) (cb : callback_arg) (s : client) : client :=
  send ["PEXPIRE"; key; to_string milliseconds] cb s.

Definition pexpireat (key : string) (milliseconds_timestamp : Z) (cb : callback_arg) (s : client)
    : client :=
  send ["PEXPIREAT"; key; to_string milliseconds_timestamp] cb s.

Definition pfadd (key : string) (elements : list string) (cb : callback_arg) (s : client)
    : client :=
  let cmd := ["PFADD"; key] in
  let cmd := cmd ++ elements in
  send cmd cb s.

Definition pfcount (keys : list string) (cb : callback_arg) (s : client) : client :=
  let cmd := ["PFCOUNT"] in
  let cmd := cmd ++ keys in
  send cmd cb s.

Definition pfmerge (destkey : string) (sourcekeys : list string) (cb : callback_arg) (s : client)
    : client :=
  let cmd := ["PFMERGE"; destkey] in
  let cmd := cmd ++ sourcekeys in
  send cmd cb s.

Definition ping (cb : callback_arg) (s : client) : client :=
  send ["PING"] cb s.

Definition ping_message (message : string) (cb : callback_arg) (s : client) : client :=
  send ["PING"; message] cb s.

Definition psetex (key : string) (milliseconds : Z) (val : string) (cb : callback_arg) (s : client)
    : client :=
  send ["PSETEX"; key; to_string milliseconds; val] cb s.

Definition publish (channel message : string) (cb : callback_arg) (s : client) : client :=
  send ["PUBLISH"; channel; message] cb s.

Definition pubsub (subcommand : string) (args : list string) (cb : callback_arg) (s : client)
    : client :=
  let cmd := ["PUBSUB"; subcommand] in
  let cmd := cmd ++ args in
  send cmd cb s.

Definition pttl (key : string) (cb : callback_arg) (s : client) : client :=
  send ["PTTL"; key] cb s.

Definition quit (cb : callback_arg) (s : client) : client :=
  send ["QUIT"] cb s.

Definition randomkey (cb : callback_arg) (s : client) : client :=
  send ["RANDOMKEY"] cb s.

Definition readonly (cb : callback_arg) (s : client) : client :=
  send ["READONLY"] cb s.

Definition readwrite (cb : callback_arg) (s : client) : client :=
  send ["READWRITE"] cb s.

Definition rename (key newkey : string) (cb : callback_arg) (s : client) : client :=
  send ["RENAME"; key; newkey] cb s.

Definition renamenx (key newkey : string) (cb : callback_arg) (s : client) : client :=
  send ["RENAMENX"; key; newkey] cb s.

Definition restore (key : string) (ttl : Z) (serialized_value : string) (cb : callback_arg)
    (s : client) : client :=
  send ["RESTORE"; key; to_string ttl; serialized_value] cb s.

Definition restore_replace (key : string) (ttl : Z) (serialized_value replace : string)
    (cb : callback_arg) (s : client) : client :=
  send ["RESTORE"; key; to_string ttl; serialized_value; replace] cb s.

Definition role (cb : callback_arg) (s : client) : client :=
  send ["ROLE"] cb s.

Definition rpop (key : string) (cb : callback_arg) (s : client) : client :=
  send ["RPOP"; key] cb s.

Definition rpoplpush (source destination : string) (cb : callback_arg) (s : client) : client :=
  send ["RPOPLPUSH"; source; destination] cb s.

Definition rpush (key : string) (values : list string) (cb : callback_arg) (s : client) : client :=
  let cmd := ["RPUSH"; key] in
  let cmd := cmd ++ values in
  send cmd cb s.

Definition rpushx (key value : string) (cb : callback_arg) (s : client) : client :=
  send ["RPUSHX"; key; value] cb s.

Definition sadd (key : string) (members : list string) (cb : callback_arg) (s : client) : client :=
  let cmd := ["SADD"; key] in
  let cmd := cmd ++ members in
  send cmd cb s.

Definition save (cb : callback_arg) (s : client) : client :=
  send ["SAVE"] cb s.

Definition scan_pattern_count (cursor : Z) (pattern : string) (count : Z) (cb : callback_arg)
    (s : client) : client :=
  let cmd := ["SCAN"; to_string cursor] in
  let cmd := if negb (str_empty pattern) then cmd ++ ["MATCH"; pattern] else cmd in
  let cmd := if (0 <? count)%Z then cmd ++ ["COUNT"; to_string count] else cmd in
  send cmd cb s.

Definition scan (cursor : Z) (cb : callback_arg) (s : client) : client :=
  scan_pattern_count cursor "" 0 cb s.

Definition scan_pattern (cursor : Z) (pattern : string) (cb : callback_arg) (s : client) : client :=
  scan_pattern_count cursor pattern 0 cb s.

Definition scan_count (cursor count : Z) (cb : callback_arg) (s : client) : client :=
  scan_pattern_count cursor "" count cb s.

Definition scard (key : string) (cb : callback_arg) (s : client) : client :=
  send ["SCARD"; key] cb s.

Definition script_debug (mode : string) (cb : callback_arg) (s : client) : client :=
  send ["SCRIPT"; "DEBUG"; mode] cb s.

Definition script_exists (scripts : list string) (cb : callback_arg) (s : client) : client :=
  let cmd := ["SCRIPT"; "EXISTS"] in
  let cmd := cmd ++ scripts in
  send cmd cb s.

Definition script_flush (cb : callback_arg) (s : client) : client :=
  send ["SCRIPT"; "FLUSH"] cb s.

Definition script_kill (cb : callback_arg) (s : client) : client :=
  send ["SCRIPT"; "KILL"] cb s.

Definition script_load (script : string) (cb : callback_arg) (s : client) : client :=
  send ["SCRIPT"; "LOAD"; script] cb s.

Definition sdiff (keys : list string) (cb : callback_arg) (s : client) : client :=
  let cmd := ["SDIFF"] in
  let cmd := cmd ++ keys in
  send cmd cb s.

Definition sdiffstore (destination : string) (keys : list string) (cb : callback_arg) (s : client)
    : client :=
  let cmd := ["SDIFFSTORE"; destination] in
  let cmd := cmd ++ keys in
  send cmd cb s.

Definition set (key value : string) (cb : callback_arg) (s : client) : client :=
  send ["SET"; key; value] cb s.

Definition set_advanced (key value : string) (cb : callback_arg) (s : client) : client :=
  send ["SET"; key; value] cb s.

Definition set_advanced_options (key value : string) (ex : bool) (ex_sec : Z) (px : bool)
    (px_milli : Z) (nx xx : bool) (cb : callback_arg) (s : client) : client :=
  let cmd := ["SET"; key; value] in
  let cmd := if ex then cmd ++ ["EX"; to_string ex_sec] else cmd in
  let cmd := if px then cmd ++ ["PX"; to_string px_milli] else cmd in
  let cmd := if nx then cmd ++ ["NX"] else cmd in
  let cmd := if xx then cmd ++ ["XX"] else cmd in
  send cmd cb s.

Definition setbit_ (key : string) (offset : Z) (value : string) (cb : callback_arg) (s : client)
    : client :=
  send ["SETBIT"; key; to_string offset; value] cb s.

Definition setex (key : string) (seconds : Z) (value : string) (cb : callback_arg) (s : client)
    : client :=
  send ["SETEX"; key; to_string seconds; value] cb s.

Definition setnx (key value : string) (cb : callback_arg) (s : client) : client :=
  send ["SETNX"; key; value] cb s.

Definition setrange (key : string) (offset : Z) (value : string) (cb : callback_arg) (s : client)
    : client :=
  send ["SETRANGE"; key; to_string offset; value] cb s.

Definition shutdown (cb : callback_arg) (s : client) : client :=
  send ["SHUTDOWN"] cb s.

Definition shutdown_save (save : string) (cb : callback_arg) (s : client) : client :=
  send ["SHUTDOWN"; save] cb s.

Definition sinter (keys : list string) (cb : callback_arg) (s : client) : client :=
  let cmd := ["SINTER"] in
  let cmd := cmd ++ keys in
  send cmd cb s.

Definition sinterstore (destination : string) (keys : list string) (cb : callback_arg) (s : client)
    : client :=
  let cmd := ["SINTERSTORE"; destination] in
  let cmd := cmd ++ keys in
  send cmd cb s.

Definition sismember (key member : string) (cb : callback_arg) (s : client) : client :=
  send ["SISMEMBER"; key; member] cb s.

Definition slaveof (host : string) (port : Z) (cb : callback_arg) (s : client) : client :=
  send ["SLAVEOF"; host; to_string port] cb s.

Definition slowlog (subcommand : string) (cb : callback_arg) (s : client) : client :=
  send ["SLOWLOG"; subcommand] cb s.

Definition slowlog_argument (subcommand argument : string) (cb : callback_arg) (s : client)
    : client :=
  send ["SLOWLOG"; subcommand; argument] cb s.

Definition smembers (key : string) (cb : callback_arg) (s : client) : client :=
  send ["SMEMBERS"; key] cb s.

Definition smove (source destination member : string) (cb : callback_arg) (s : client) : client :=
  send ["SMOVE"; source; destination; member] cb s.

Definition sort (key : string) (cb : callback_arg) (s : client) : client :=
  send ["SORT"; key] cb s.

Definition sort_all (key by_pattern : string) (limit : bool) (offset count : Z)
    (get_patterns : list string) (asc_order alpha : bool) (store_dest : string) (cb : callback_arg)
    (s : client) : client :=
  let cmd := ["SORT"; key] in
  let cmd := if negb (str_empty by_pattern) then cmd ++ ["BY"; by_pattern] else cmd in
  let cmd := if limit then cmd ++ ["LIMIT"; to_string offset; to_string count] else cmd in
  let cmd :=
    fold_left (fun cmd get_pattern =>
      if str_empty get_pattern then cmd
      else
        cmd ++ ["GET"; get_pattern]) get_patterns cmd in
  let cmd := cmd ++ [if asc_order then "ASC" else "DESC"] in
  let cmd := if alpha then cmd ++ ["ALPHA"] else cmd in
  let cmd := if negb (str_empty store_dest) then cmd ++ ["STORE"; store_dest] else cmd in
  send cmd cb s.

Definition sort_get_patterns_asc_order_alpha (key : string) (get_patterns : list string)
    (asc_order alpha : bool) (cb : callback_arg) (s : client) : client :=
  sort_all key "" false 0 0 get_patterns asc_order alpha "" cb s.

Definition sort_offset_count_get_patterns_asc_order_alpha (key : string) (offset count : Z)
    (get_patterns : list string) (asc_order alpha : bool) (cb : callback_arg) (s : client)
    : client :=
  sort_all key "" true offset count get_patterns asc_order alpha "" cb s.

Definition sort_by_pattern_get_patterns_asc_order_alpha (key by_pattern : string)
    (get_patterns : list string) (asc_order alpha : bool) (cb : callback_arg) (s : client)
    : client :=
  sort_all key by_pattern false 0 0 get_patterns asc_order alpha "" cb s.

Definition sort_get_patterns_asc_order_alpha_store_dest (key : string) (get_patterns : list string)
    (asc_order alpha : bool) (store_dest : string) (cb : callback_arg) (s : client) : client :=
  sort_all key "" false 0 0 get_patterns asc_order alpha store_dest cb s.

Definition sort_offset_count_get_patterns_asc_order_alpha_store_dest (key : string)
    (offset count : Z) (get_patterns : list string) (asc_order alpha : bool) (store_dest : string)
    (cb : callback_arg) (s : client) : client :=
  sort_all key "" true offset count get_patterns asc_order alpha store_dest cb s.

Definition sort_by_pattern_get_patterns_asc_order_alpha_store_dest (key by_pattern : string)
    (get_patterns : list string) (asc_order alpha : bool) (store_dest : string) (cb : callback_arg)
    (s : client) : client :=
  sort_all key by_pattern false 0 0 get_patterns asc_order alpha store_dest cb s.

Definition sort_by_pattern_offset_count_get_patterns_asc_order_alpha (key by_pattern : string)
    (offset count : Z) (get_patterns : list string) (asc_order alpha : bool) (cb : callback_arg)
    (s : client) : client :=
  sort_all key by_pattern true offset count get_patterns asc_order alpha "" cb s.

Definition sort_by_pattern_offset_count_get_patterns_asc_order_alpha_store_dest
    (key by_pattern : string) (offset count : Z) (get_patterns : list string)
    (asc_order alpha : bool) (store_dest : string) (cb : callback_arg) (s : client) : client :=
  sort_all key by_pattern true offset count get_patterns asc_order alpha store_dest cb s.

Definition spop (key : string) (cb : callback_arg) (s : client) : client :=
  send ["SPOP"; key] cb s.

Definition spop_count (key : string) (count : Z) (cb : callback_arg) (s : client) : client :=
  send ["SPOP"; key; to_string count] cb s.

Definition srandmember (key : string) (cb : callback_arg) (s : client) : client :=
  send ["SRANDMEMBER"; key] cb s.

Definition srandmember_count (key : string) (count : Z) (cb : callback_arg) (s : client) : client :=
  send ["SRANDMEMBER"; key; to_string count] cb s.

Definition srem (key : string) (members : list string) (cb : callback_arg) (s : client) : client :=
  let cmd := ["SREM"; key] in
  let cmd := cmd ++ members in
  send cmd cb s.

Definition sscan_pattern_count (key : string) (cursor : Z) (pattern : string) (count : Z)
    (cb : callback_arg) (s : client) : client :=
  let cmd := ["SSCAN"; key; to_string cursor] in
  let cmd := if negb (str_empty pattern) then cmd ++ ["MATCH"; pattern] else cmd in
  let cmd := if (0 <? count)%Z then cmd ++ ["COUNT"; to_string count] else cmd in
  send cmd cb s.

Definition sscan (key : string) (cursor : Z) (cb : callback_arg) (s : client) : client :=
  sscan_pattern_count key cursor "" 0 cb s.

Definition sscan_pattern (key : string) (cursor : Z) (pattern : string) (cb : callback_arg)
    (s : client) : client :=
  sscan_pattern_count key cursor pattern 0 cb s.

Definition sscan_count (key : string) (cursor count : Z) (cb : callback_arg) (s : client)
    : client :=
  sscan_pattern_count key cursor "" count cb s.

Definition strlen (key : string) (cb : callback_arg) (s : client) : client :=
  send ["STRLEN"; key] cb s.

Definition sunion (keys : list string) (cb : callback_arg) (s : client) : client :=
  let cmd := ["SUNION"] in
  let cmd := cmd ++ keys in
  send cmd cb s.

Definition sunionstore (destination : string) (keys : list string) (cb : callback_arg) (s : client)
    : client :=
  let cmd := ["SUNIONSTORE"; destination] in
  let cmd := cmd ++ keys in
  send cmd cb s.

Definition sync (cb : callback_arg) (s : client) : client :=
  send ["SYNC"] cb s.

Definition time (cb : callback_arg) (s : client) : client :=
  send ["TIME"] cb s.

Definition ttl (key : string) (cb : callback_arg) (s : client) : client :=
  send ["TTL"; key] cb s.

Definition type (key : string) (cb : callback_arg) (s : client) : client :=
  send ["TYPE"; key] cb s.

Definition unwatch (cb : callback_arg) (s : client) : client :=
  send ["UNWATCH"] cb s.

Definition wait (numslaves timeout : Z) (cb : callback_arg) (s : client) : client :=
  send ["WAIT"; to_string numslaves; to_string timeout] cb s.

Definition watch (keys : list string) (cb : callback_arg) (s : client) : client :=
  let cmd := ["WATCH"] in
  let cmd := cmd ++ keys in
  send cmd cb s.

Definition zadd (key : string) (options : list string) (score_members : list (string * string))
    (cb : callback_arg) (s : client) : client :=
  let cmd := ["ZADD"; key] in
  let cmd := cmd ++ options in
  let cmd := fold_left (fun cmd sm => cmd ++ [sm.1; sm.2]) score_members cmd in
  send cmd cb s.

Definition zcard (key : string) (cb : callback_arg) (s : client) : client :=
  send ["ZCARD"; key] cb s.

Definition zcount (key : string) (min max : Z) (cb : callback_arg) (s : client) : client :=
  send ["ZCOUNT"; key; to_string min; to_string max] cb s.

Definition zcount_double (key : string) (min max : double) (cb : callback_arg) (s : client)
    : client :=
  send ["ZCOUNT"; key; to_string_double min; to_string_double max] cb s.

Definition zcount_string (key min max : string) (cb : callback_arg) (s : client) : client :=
  send ["ZCOUNT"; key; min; max] cb s.

Definition zincrby (key : string) (incr : Z) (member : string) (cb : callback_arg) (s : client)
    : client :=
  send ["ZINCRBY"; key; to_string incr; member] cb s.

Definition zincrby_double (key : string) (incr : double) (member : string) (cb : callback_arg)
    (s : client) : client :=
  send ["ZINCRBY"; key; to_string_double incr; member] cb s.

Definition zincrby_string (key incr member : string) (cb : callback_arg) (s : client) : client :=
  send ["ZINCRBY"; key; incr; member] cb s.

Definition zinterstore (destination : string) (numkeys : Z) (keys : list string) (weights : list Z)
    (method : aggregate_method) (cb : callback_arg) (s : client) : client :=
  let cmd := ["ZINTERSTORE"; destination; to_string numkeys] in
  let cmd := fold_left (fun cmd key => cmd ++ [key]) keys cmd in
  let cmd :=
    if negb (vec_empty weights) then
      let cmd := cmd ++ ["WEIGHTS"] in
      fold_left (fun cmd weight => cmd ++ [to_string weight]) weights cmd
    else cmd in
  let cmd :=
    if negb (bool_decide (method = agg_server_default)) then
      cmd ++ ["AGGREGATE"; aggregate_method_to_string method]
    else cmd in
  send cmd cb s.

Definition zlexcount (key : string) (min max : Z) (cb : callback_arg) (s : client) : client :=
  send ["ZLEXCOUNT"; key; to_string min; to_string max] cb s.

Definition zlexcount_double (key : string) (min max : double) (cb : callback_arg) (s : client)
    : client :=
  send ["ZLEXCOUNT"; key; to_string_double min; to_string_double max] cb s.

Definition zlexcount_string (key min max : string) (cb : callback_arg) (s : client) : client :=
  send ["ZLEXCOUNT"; key; min; max] cb s.

Definition zrange (key : string) (start stop : Z) (cb : callback_arg) (s : client) : client :=
  send ["ZRANGE"; key; to_string start; to_string stop] cb s.

Definition zrange_withscores (key : string) (start stop : Z) (withscores : bool) (cb : callback_arg)
    (s : client) : client :=
  if withscores then
    send ["ZRANGE"; key; to_string start; to_string stop; "WITHSCORES"] cb s
  else
    send ["ZRANGE"; key; to_string start; to_string stop] cb s.

Definition zrange_double (key : string) (start stop : double) (cb : callback_arg) (s : client)
    : client :=
  send ["ZRANGE"; key; to_string_double start; to_string_double stop] cb s.

Definition zrange_double_withscores (key : string) (start stop : double) (withscores : bool)
    (cb : callback_arg) (s : client) : client :=
  if withscores then
    send ["ZRANGE"; key; to_string_double start; to_string_double stop; "WITHSCORES"] cb s
  else
    send ["ZRANGE"; key; to_string_double start; to_string_double stop] cb s.

Definition zrange_string (key start stop : string) (cb : callback_arg) (s : client) : client :=
  send ["ZRANGE"; key; start; stop] cb s.

Definition zrange_string_withscores (key start stop : string) (withscores : bool)
    (cb : callback_arg) (s : client) : client :=
  if withscores then
    send ["ZRANGE"; key; start; stop; "WITHSCORES"] cb s
  else
    send ["ZRANGE"; key; start; stop] cb s.

Definition zrangebylex_limit_offset_count_withscores (key min max : string) (limit : bool)
    (offset count : Z) (withscores : bool) (cb : callback_arg) (s : client) : client :=
  let cmd := ["ZRANGEBYLEX"; key; min; max] in
  let cmd := if withscores then cmd ++ ["WITHSCORES"] else cmd in
  let cmd := if limit then cmd ++ ["LIMIT"; to_string offset; to_string count] else cmd in
  send cmd cb s.

Definition zrangebylex (key : string) (min max : Z) (cb : callback_arg) (s : client) : client :=
  zrangebylex_limit_offset_count_withscores key (to_string min) (to_string max) false 0 0 false cb
    s.

Definition zrangebylex_withscores (key : string) (min max : Z) (withscores : bool)
    (cb : callback_arg) (s : client) : client :=
  zrangebylex_limit_offset_count_withscores key (to_string min) (to_string max) false 0 0 withscores
    cb s.

Definition zrangebylex_double (key : string) (min max : double) (cb : callback_arg) (s : client)
    : client :=
  zrangebylex_limit_offset_count_withscores key (to_string_double min) (to_string_double max) false
    0 0 false cb s.

Definition zrangebylex_double_withscores (key : string) (min max : double) (withscores : bool)
    (cb : callback_arg) (s : client) : client :=
  zrangebylex_limit_offset_count_withscores key (to_string_double min) (to_string_double max) false
    0 0 withscores cb s.

Definition zrangebylex_string (key min max : string) (cb : callback_arg) (s : client) : client :=
  zrangebylex_limit_offset_count_withscores key min max false 0 0 false cb s.

Definition zrangebylex_string_withscores (key min max : string) (withscores : bool)
    (cb : callback_arg) (s : client) : client :=
  zrangebylex_limit_offset_count_withscores key min max false 0 0 withscores cb s.

Definition zrangebylex_offset_count (key : string) (min max offset count : Z) (cb : callback_arg)
    (s : client) : client :=
  zrangebylex_limit_offset_count_withscores key (to_string min) (to_string max) true offset count
    false cb s.

Definition zrangebylex_offset_count_withscores (key : string) (min max offset count : Z)
    (withscores : bool) (cb : callback_arg) (s : client) : client :=
  zrangebylex_limit_offset_count_withscores key (to_string min) (to_string max) true offset count
    withscores cb s.

Definition zrangebylex_double_offset_count (key : string) (min max : double) (offset count : Z)
    (cb : callback_arg) (s : client) : client :=
  zrangebylex_limit_offset_count_withscores key (to_string_double min) (to_string_double max) true
    offset count false cb s.

Definition zrangebylex_double_offset_count_withscores (key : string) (min max : double)
    (offset count : Z) (withscores : bool) (cb : callback_arg) (s : client) : client :=
  zrangebylex_limit_offset_count_withscores key (to_string_double min) (to_string_double max) true
    offset count withscores cb s.

Definition zrangebylex_string_offset_count (key min max : string) (offset count : Z)
    (cb : callback_arg) (s : client) : client :=
  zrangebylex_limit_offset_count_withscores key min max true offset count false cb s.

Definition zrangebylex_string_offset_count_withscores (key min max : string) (offset count : Z)
    (withscores : bool) (cb : callback_arg) (s : client) : client :=
  zrangebylex_limit_offset_count_withscores key min max true offset count withscores cb s.

Definition zrangebyscore_limit_offset_count_withscores (key min max : string) (limit : bool)
    (offset count : Z) (withscores : bool) (cb : callback_arg) (s : client) : client :=
  let cmd := ["ZRANGEBYSCORE"; key; min; max] in
  let cmd := if withscores then cmd ++ ["WITHSCORES"] else cmd in
  let cmd := if limit then cmd ++ ["LIMIT"; to_string offset; to_string count] else cmd in
  send cmd cb s.

Definition zrangebyscore (key : string) (min max : Z) (cb : callback_arg) (s : client) : client :=
  zrangebyscore_limit_offset_count_withscores key (to_string min) (to_string max) false 0 0 false cb
    s.

Definition zrangebyscore_withscores (key : string) (min max : Z) (withscores : bool)
    (cb : callback_arg) (s : client) : client :=
  zrangebyscore_limit_offset_count_withscores key (to_string min) (to_string max) false 0 0
    withscores cb s.

Definition zrangebyscore_double (key : string) (min max : double) (cb : callback_arg) (s : client)
    : client :=
  zrangebyscore_limit_offset_count_withscores key (to_string_double min) (to_string_double max)
    false 0 0 false cb s.

Definition zrangebyscore_double_withscores (key : string) (min max : double) (withscores : bool)
    (cb : callback_arg) (s : client) : client :=
  zrangebyscore_limit_offset_count_withscores key (to_string_double min) (to_string_double max)
    false 0 0 withscores cb s.

Definition zrangebyscore_string (key min max : string) (cb : callback_arg) (s : client) : client :=
  zrangebyscore_limit_offset_count_withscores key min max false 0 0 false cb s.

Definition zrangebyscore_string_withscores (key min max : string) (withscores : bool)
    (cb : callback_arg) (s : client) : client :=
  zrangebyscore_limit_offset_count_withscores key min max false 0 0 withscores cb s.

Definition zrangebyscore_offset_count (key : string) (min max offset count : Z) (cb : callback_arg)
    (s : client) : client :=
  zrangebyscore_limit_offset_count_withscores key (to_string min) (to_string max) true offset count
    false cb s.

Definition zrangebyscore_offset_count_withscores (key : string) (min max offset count : Z)
    (withscores : bool) (cb : callback_arg) (s : client) : client :=
  zrangebyscore_limit_offset_count_withscores key (to_string min) (to_string max) true offset count
    withscores cb s.

Definition zrangebyscore_double_offset_count (key : string) (min max : double) (offset count : Z)
    (cb : callback_arg) (s : client) : client :=
  zrangebyscore_limit_offset_count_withscores key (to_string_double min) (to_string_double max) true
    offset count false cb s.

Definition zrangebyscore_double_offset_count_withscores (key : string) (min max : double)
    (offset count : Z) (withscores : bool) (cb : callback_arg) (s : client) : client :=
  zrangebyscore_limit_offset_count_withscores key (to_string_double min) (to_string_double max) true
    offset count withscores cb s.

Definition zrangebyscore_string_offset_count (key min max : string) (offset count : Z)
    (cb : callback_arg) (s : client) : client :=
  zrangebyscore_limit_offset_count_withscores key min max true offset count false cb s.

Definition zrangebyscore_string_offset_count_withscores (key min max : string) (offset count : Z)
    (withscores : bool) (cb : callback_arg) (s : client) : client :=
  zrangebyscore_limit_offset_count_withscores key min max true offset count withscores cb s.

Definition zrank (key member : string) (cb : callback_arg) (s : client) : client :=
  send ["ZRANK"; key; member] cb s.

Definition zrem (key : string) (members : list string) (cb : callback_arg) (s : client) : client :=
  let cmd := ["ZREM"; key] in
  let cmd := cmd ++ members in
  send cmd cb s.

Definition zremrangebylex (key : string) (min max : Z) (cb : callback_arg) (s : client) : client :=
  send ["ZREMRANGEBYLEX"; key; to_string min; to_string max] cb s.

Definition zremrangebylex_double (key : string) (min max : double) (cb : callback_arg) (s : client)
    : client :=
  send ["ZREMRANGEBYLEX"; key; to_string_double min; to_string_double max] cb s.

Definition zremrangebylex_string (key min max : string) (cb : callback_arg) (s : client) : client :=
  send ["ZREMRANGEBYLEX"; key; min; max] cb s.

Definition zremrangebyrank (key : string) (start stop : Z) (cb : callback_arg) (s : client)
    : client :=
  send ["ZREMRANGEBYRANK"; key; to_string start; to_string stop] cb s.

Definition zremrangebyrank_double (key : string) (start stop : double) (cb : callback_arg)
    (s : client) : client :=
  send ["ZREMRANGEBYRANK"; key; to_string_double start; to_string_double stop] cb s.

Definition zremrangebyrank_string (key start stop : string) (cb : callback_arg) (s : client)
    : client :=
  send ["ZREMRANGEBYRANK"; key; start; stop] cb s.

Definition zremrangebyscore (key : string) (min max : Z) (cb : callback_arg) (s : client)
    : client :=
  send ["ZREMRANGEBYSCORE"; key; to_string min; to_string max] cb s.

Definition zremrangebyscore_double (key : string) (min max : double) (cb : callback_arg)
    (s : client) : client :=
  send ["ZREMRANGEBYSCORE"; key; to_string_double min; to_string_double max] cb s.

Definition zremrangebyscore_string (key min max : string) (cb : callback_arg) (s : client)
    : client :=
  send ["ZREMRANGEBYSCORE"; key; min; max] cb s.

Definition zrevrange (key : string) (start stop : Z) (cb : callback_arg) (s : client) : client :=
  send ["ZREVRANGE"; key; to_string start; to_string stop] cb s.

Definition zrevrange_withscores (key : string) (start stop : Z) (withscores : bool)
    (cb : callback_arg) (s : client) : client :=
  if withscores then
    send ["ZREVRANGE"; key; to_string start; to_string stop; "WITHSCORES"] cb s
  else
    send ["ZREVRANGE"; key; to_string start; to_string stop] cb s.

Definition zrevrange_double (key : string) (start stop : double) (cb : callback_arg) (s : client)
    : client :=
  send ["ZREVRANGE"; key; to_string_double start; to_string_double stop] cb s.

Definition zrevrange_double_withscores (key : string) (start stop : double) (withscores : bool)
    (cb : callback_arg) (s : client) : client :=
  if withscores then
    send ["ZREVRANGE"; key; to_string_double start; to_string_double stop; "WITHSCORES"] cb s
  else
    send ["ZREVRANGE"; key; to_string_double start; to_string_double stop] cb s.

Definition zrevrange_string (key start stop : string) (cb : callback_arg) (s : client) : client :=
  send ["ZREVRANGE"; key; start; stop] cb s.

Definition zrevrange_string_withscores (key start stop : string) (withscores : bool)
    (cb : callback_arg) (s : client) : client :=
  if withscores then
    send ["ZREVRANGE"; key; start; stop; "WITHSCORES"] cb s
  else
    send ["ZREVRANGE"; key; start; stop] cb s.

Definition zrevrangebylex_limit_offset_count_withscores (key max min : string) (limit : bool)
    (offset count : Z) (withscores : bool) (cb : callback_arg) (s : client) : client :=
  let cmd := ["ZREVRANGEBYLEX"; key; max; min] in
  let cmd := if withscores then cmd ++ ["WITHSCORES"] else cmd in
  let cmd := if limit then cmd ++ ["LIMIT"; to_string offset; to_string count] else cmd in
  send cmd cb s.

Definition zrevrangebylex (key : string) (max min : Z) (cb : callback_arg) (s : client) : client :=
  zrevrangebylex_limit_offset_count_withscores key (to_string max) (to_string min) false 0 0 false
    cb s.

Definition zrevrangebylex_withscores (key : string) (max min : Z) (withscores : bool)
    (cb : callback_arg) (s : client) : client :=
  zrevrangebylex_limit_offset_count_withscores key (to_string max) (to_string min) false 0 0
    withscores cb s.

Definition zrevrangebylex_double (key : string) (max min : double) (cb : callback_arg) (s : client)
    : client :=
  zrevrangebylex_limit_offset_count_withscores key (to_string_double max) (to_string_double min)
    false 0 0 false cb s.

Definition zrevrangebylex_double_withscores (key : string) (max min : double) (withscores : bool)
    (cb : callback_arg) (s : client) : client :=
  zrevrangebylex_limit_offset_count_withscores key (to_string_double max) (to_string_double min)
    false 0 0 withscores cb s.

Definition zrevrangebylex_string (key max min : string) (cb : callback_arg) (s : client) : client :=
  zrevrangebylex_limit_offset_count_withscores key max min false 0 0 false cb s.

Definition zrevrangebylex_string_withscores (key max min : string) (withscores : bool)
    (cb : callback_arg) (s : client) : client :=
  zrevrangebylex_limit_offset_count_withscores key max min false 0 0 withscores cb s.

Definition zrevrangebylex_offset_count (key : string) (max min offset count : Z) (cb : callback_arg)
    (s : client) : client :=
  zrevrangebylex_limit_offset_count_withscores key (to_string max) (to_string min) true offset count
    false cb s.

Definition zrevrangebylex_offset_count_withscores (key : string) (max min offset count : Z)
    (withscores : bool) (cb : callback_arg) (s : client) : client :=
  zrevrangebylex_limit_offset_count_withscores key (to_string max) (to_string min) true offset count
    withscores cb s.

Definition zrevrangebylex_double_offset_count (key : string) (max min : double) (offset count : Z)
    (cb : callback_arg) (s : client) : client :=
  zrevrangebylex_limit_offset_count_withscores key (to_string_double max) (to_string_double min)
    true offset count false cb s.

Definition zrevrangebylex_double_offset_count_withscores (key : string) (max min : double)
    (offset count : Z) (withscores : bool) (cb : callback_arg) (s : client) : client :=
  zrevrangebylex_limit_offset_count_withscores key (to_string_double max) (to_string_double min)
    true offset count withscores cb s.

Definition zrevrangebylex_string_offset_count (key max min : string) (offset count : Z)
    (cb : callback_arg) (s : client) : client :=
  zrevrangebylex_limit_offset_count_withscores key max min true offset count false cb s.

Definition zrevrangebylex_string_offset_count_withscores (key max min : string) (offset count : Z)
    (withscores : bool) (cb : callback_arg) (s : client) : client :=
  zrevrangebylex_limit_offset_count_withscores key max min true offset count withscores cb s.

Definition zrevrangebyscore_limit_offset_count_withscores (key max min : string) (limit : bool)
    (offset count : Z) (withscores : bool) (cb : callback_arg) (s : client) : client :=
  let cmd := ["ZREVRANGEBYSCORE"; key; max; min] in
  let cmd := if withscores then cmd ++ ["WITHSCORES"] else cmd in
  let cmd := if limit then cmd ++ ["LIMIT"; to_string offset; to_string count] else cmd in
  send cmd cb s.

Definition zrevrangebyscore (key : string) (max min : Z) (cb : callback_arg) (s : client)
    : client :=
  zrevrangebyscore_limit_offset_count_withscores key (to_string max) (to_string min) false 0 0 false
    cb s.

Definition zrevrangebyscore_withscores (key : string) (max min : Z) (withscores : bool)
    (cb : callback_arg) (s : client) : client :=
  zrevrangebyscore_limit_offset_count_withscores key (to_string max) (to_string min) false 0 0
    withscores cb s.

Definition zrevrangebyscore_double (key : string) (max min : double) (cb : callback_arg)
    (s : client) : client :=
  zrevrangebyscore_limit_offset_count_withscores key (to_string_double max) (to_string_double min)
    false 0 0 false cb s.

Definition zrevrangebyscore_double_withscores (key : string) (max min : double) (withscores : bool)
    (cb : callback_arg) (s : client) : client :=
  zrevrangebyscore_limit_offset_count_withscores key (to_string_double max) (to_string_double min)
    false 0 0 withscores cb s.

Definition zrevrangebyscore_string (key max min : string) (cb : callback_arg) (s : client)
    : client :=
  zrevrangebyscore_limit_offset_count_withscores key max min false 0 0 false cb s.

Definition zrevrangebyscore_string_withscores (key max min : string) (withscores : bool)
    (cb : callback_arg) (s : client) : client :=
  zrevrangebyscore_limit_offset_count_withscores key max min false 0 0 withscores cb s.

Definition zrevrangebyscore_offset_count (key : string) (max min offset count : Z)
    (cb : callback_arg) (s : client) : client :=
  zrevrangebyscore_limit_offset_count_withscores key (to_string max) (to_string min) true offset
    count false cb s.

Definition zrevrangebyscore_offset_count_withscores (key : string) (max min offset count : Z)
    (withscores : bool) (cb : callback_arg) (s : client) : client :=
  zrevrangebyscore_limit_offset_count_withscores key (to_string max) (to_string min) true offset
    count withscores cb s.

Definition zrevrangebyscore_double_offset_count (key : string) (max min : double) (offset count : Z)
    (cb : callback_arg) (s : client) : client :=
  zrevrangebyscore_limit_offset_count_withscores key (to_string_double max) (to_string_double min)
    true offset count false cb s.

Definition zrevrangebyscore_double_offset_count_withscores (key : string) (max min : double)
    (offset count : Z) (withscores : bool) (cb : callback_arg) (s : client) : client :=
  zrevrangebyscore_limit_offset_count_withscores key (to_string_double max) (to_string_double min)
    true offset count withscores cb s.

Definition zrevrangebyscore_string_offset_count (key max min : string) (offset count : Z)
    (cb : callback_arg) (s : client) : client :=
  zrevrangebyscore_limit_offset_count_withscores key max min true offset count false cb s.

Definition zrevrangebyscore_string_offset_count_withscores (key max min : string) (offset count : Z)
    (withscores : bool) (cb : callback_arg) (s : client) : client :=
  zrevrangebyscore_limit_offset_count_withscores key max min true offset count withscores cb s.

Definition zrevrank (key member : string) (cb : callback_arg) (s : client) : client :=
  send ["ZREVRANK"; key; member] cb s.

Definition zscan_pattern_count (key : string) (cursor : Z) (pattern : string) (count : Z)
    (cb : callback_arg) (s : client) : client :=
  let cmd := ["ZSCAN"; key; to_string cursor] in
  let cmd := if negb (str_empty pattern) then cmd ++ ["MATCH"; pattern] else cmd in
  let cmd := if (0 <? count)%Z then cmd ++ ["COUNT"; to_string count] else cmd in
  send cmd cb s.

Definition zscan (key : string) (cursor : Z) (cb : callback_arg) (s : client) : client :=
  zscan_pattern_count key cursor "" 0 cb s.

Definition zscan_pattern (key : string) (cursor : Z) (pattern : string) (cb : callback_arg)
    (s : client) : client :=
  zscan_pattern_count key cursor pattern 0 cb s.

Definition zscan_count (key : string) (cursor count : Z) (cb : callback_arg) (s : client)
    : client :=
  zscan_pattern_count key cursor "" count cb s.

Definition zscore (key member : string) (cb : callback_arg) (s : client) : client :=
  send ["ZSCORE"; key; member] cb s.

Definition zunionstore (destination : string) (numkeys : Z) (keys : list string) (weights : list Z)
    (method : aggregate_method) (cb : callback_arg) (s : client) : client :=
  let cmd := ["ZUNIONSTORE"; destination; to_string numkeys] in
  let cmd := fold_left (fun cmd key => cmd ++ [key]) keys cmd in
  let cmd :=
    if negb (vec_empty weights) then
      let cmd := cmd ++ ["WEIGHTS"] in
      fold_left (fun cmd weight => cmd ++ [to_string weight]) weights cmd
    else cmd in
  let cmd :=
    if negb (bool_decide (method = agg_server_default)) then
      cmd ++ ["AGGREGATE"; aggregate_method_to_string method]
    else cmd in
  send cmd cb s.

(** ** CLIENT KILL (includes/cpp_redis/impl/client.ipp)

    The variadic arguments are a list of filters; the callback, when there is
    one, comes last. *)
Inductive kill_filter : Type :=
| KillType (type : client_type)
| KillSkip (skip : bool)
| KillId (id : Z).

Definition client_type_to_string (type : client_type) : string :=
  match type with
  | client_normal => "normal"
  | client_master => "master"
  | client_pubsub => "pubsub"
  | client_slave => "slave"
  end.

Definition client_kill_unpack_arg (redis_cmd : list string) (arg : kill_filter) : list string :=
  match arg with
  | KillType type => redis_cmd ++ ["TYPE"; client_type_to_string type]
  | KillSkip skip => redis_cmd ++ ["SKIPME"; if skip then "yes" else "no"]
  | KillId id => redis_cmd ++ ["ID"; to_string id]
  end.

Definition client_kill_impl (redis_cmd : list string) (args : list kill_filter) : list string :=
  fold_left client_kill_unpack_arg args redis_cmd.

Definition client_kill (args : list kill_filter) (cb : callback_arg) (s : client) : client :=
  send (client_kill_impl ["CLIENT"; "KILL"] args) cb s.

(** A first argument that is no filter is the callback: then the address
    stands alone, in the old form of the command. *)
Definition client_kill_host_port (host : string) (port : Z) (args : list kill_filter)
    (cb : callback_arg) (s : client) : client :=
  let redis_cmd := ["CLIENT"; "KILL"] in
  let redis_cmd := match args with [] => redis_cmd | _ => redis_cmd ++ ["ADDR"] end in
  let redis_cmd := redis_cmd ++ [host +:+ ":" +:+ to_string port] in
  send (client_kill_impl redis_cmd args) cb s.

End commands.
