(* ===== verification/CommandFutures.v ===== *)
(** The commands of [cpp_redis::client] that return a future
    (sources/core/client.cpp, lines 2732 to 4032): each issues the command of
    the same name through [exec_cmd]; [p] is the promise of the future. *)

From S2P Require Import Prelude Text TcpClient Connection Client CommandTypes Commands.

Section futures.
Context {T S C : Type}.

Abbreviation client := (client_state T S C).


Definition append_future (key value : string) (p : C) (s : client) : client :=
  exec_cmd (Commands.append key value) p s.

Definition auth_future (password : string) (p : C) (s : client) : client :=
  exec_cmd (Client.auth password) p s.

Definition bgrewriteaof_future (p : C) (s : client) : client :=
  exec_cmd (Commands.bgrewriteaof) p s.

Definition bgsave_future (p : C) (s : client) : client :=
  exec_cmd (Commands.bgsave) p s.

Definition bitcount_future (key : string) (p : C) (s : client) : client :=
  exec_cmd (Commands.bitcount key) p s.

Definition bitcount_start_end_future (key : string) (start end_ : Z) (p : C) (s : client)
    : client :=
  exec_cmd (Commands.bitcount_start_end key start end_) p s.

Definition bitfield_future (key : string) (operations : list bitfield_operation) (p : C)
    (s : client) : client :=
  exec_cmd (Commands.bitfield key operations) p s.

Definition bitop_future (operation destkey : string) (keys : list string) (p : C) (s : client)
    : client :=
  exec_cmd (Commands.bitop operation destkey keys) p s.

Definition bitpos_future (key : string) (bit : Z) (p : C) (s : client) : client :=
  exec_cmd (Commands.bitpos key bit) p s.

Definition bitpos_start_future (key : string) (bit start : Z) (p : C) (s : client) : client :=
  exec_cmd (Commands.bitpos_start key bit start) p s.

Definition bitpos_start_end_future (key : string) (bit start end_ : Z) (p : C) (s : client)
    : client :=
  exec_cmd (Commands.bitpos_start_end key bit start end_) p s.

Definition blpop_future (keys : list string) (timeout : Z) (p : C) (s : client) : client :=
  exec_cmd (Commands.blpop keys timeout) p s.

Definition brpop_future (keys : list string) (timeout : Z) (p : C) (s : client) : client :=
  exec_cmd (Commands.brpop keys timeout) p s.

Definition brpoplpush_future (src dst : string) (timeout : Z) (p : C) (s : client) : client :=
  exec_cmd (Commands.brpoplpush src dst timeout) p s.

Definition client_list_future (p : C) (s : client) : client :=
  exec_cmd (Commands.client_list) p s.

Definition client_getname_future (p : C) (s : client) : client :=
  exec_cmd (Commands.client_getname) p s.

Definition client_pause_future (timeout : Z) (p : C) (s : client) : client :=
  exec_cmd (Commands.client_pause timeout) p s.

Definition client_reply_future (mode : string) (p : C) (s : client) : client :=
  exec_cmd (Commands.client_reply mode) p s.

Definition client_setname_future (name : string) (p : C) (s : client) : client :=
  exec_cmd (Commands.client_setname name) p s.

Definition cluster_addslots_future (p_slots : list string) (p : C) (s : client) : client :=
  exec_cmd (Commands.cluster_addslots p_slots) p s.

Definition cluster_count_failure_reports_future (node_id : string) (p : C) (s : client) : client :=
  exec_cmd (Commands.cluster_count_failure_reports node_id) p s.

Definition cluster_countkeysinslot_future (slot : string) (p : C) (s : client) : client :=
  exec_cmd (Commands.cluster_countkeysinslot slot) p s.

Definition cluster_delslots_future (p_slots : list string) (p : C) (s : client) : client :=
  exec_cmd (Commands.cluster_delslots p_slots) p s.

Definition cluster_failover_future (p : C) (s : client) : client :=
  exec_cmd (Commands.cluster_failover) p s.

Definition cluster_failover_mode_future (mode : string) (p : C) (s : client) : client :=
  exec_cmd (Commands.cluster_failover_mode mode) p s.

Definition cluster_forget_future (node_id : string) (p : C) (s : client) : client :=
  exec_cmd (Commands.cluster_forget node_id) p s.

Definition cluster_getkeysinslot_future (slot : string) (count : Z) (p : C) (s : client) : client :=
  exec_cmd (Commands.cluster_getkeysinslot slot count) p s.

Definition cluster_info_future (p : C) (s : client) : client :=
  exec_cmd (Commands.cluster_info) p s.

Definition cluster_keyslot_future (key : string) (p : C) (s : client) : client :=
  exec_cmd (Commands.cluster_keyslot key) p s.

Definition cluster_meet_future (ip : string) (port : Z) (p : C) (s : client) : client :=
  exec_cmd (Commands.cluster_meet ip port) p s.

Definition cluster_nodes_future (p : C) (s : client) : client :=
  exec_cmd (Commands.cluster_nodes) p s.

Definition cluster_replicate_future (node_id : string) (p : C) (s : client) : client :=
  exec_cmd (Commands.cluster_replicate node_id) p s.

Definition cluster_reset_future (mode : string) (p : C) (s : client) : client :=
  exec_cmd (Commands.cluster_reset_mode mode) p s.

Definition cluster_saveconfig_future (p : C) (s : client) : client :=
  exec_cmd (Commands.cluster_saveconfig) p s.

Definition cluster_set_config_epoch_future (epoch : string) (p : C) (s : client) : client :=
  exec_cmd (Commands.cluster_set_config_epoch epoch) p s.

Definition cluster_setslot_future (slot mode : string) (p : C) (s : client) : client :=
  exec_cmd (Commands.cluster_setslot slot mode) p s.

Definition cluster_setslot_node_id_future (slot mode node_id : string) (p : C) (s : client)
    : client :=
  exec_cmd (Commands.cluster_setslot_node_id slot mode node_id) p s.

Definition cluster_slaves_future (node_id : string) (p : C) (s : client) : client :=
  exec_cmd (Commands.cluster_slaves node_id) p s.

Definition cluster_slots_future (p : C) (s : client) : client :=
  exec_cmd (Commands.cluster_slots) p s.

Definition command_future (p : C) (s : client) : client :=
  exec_cmd (Commands.command) p s.

Definition command_count_future (p : C) (s : client) : client :=
  exec_cmd (Commands.command_count) p s.

Definition command_getkeys_future (p : C) (s : client) : client :=
  exec_cmd (Commands.command_getkeys) p s.

Definition command_info_future (command_name : list string) (p : C) (s : client) : client :=
  exec_cmd (Commands.command_info command_name) p s.

Definition config_get_future (param : string) (p : C) (s : client) : client :=
  exec_cmd (Commands.config_get param) p s.

Definition config_rewrite_future (p : C) (s : client) : client :=
  exec_cmd (Commands.config_rewrite) p s.

Definition config_set_future (param val : string) (p : C) (s : client) : client :=
  exec_cmd (Commands.config_set param val) p s.

Definition config_resetstat_future (p : C) (s : client) : client :=
  exec_cmd (Commands.config_resetstat) p s.

Definition dbsize_future (p : C) (s : client) : client :=
  exec_cmd (Commands.dbsize) p s.

Definition debug_object_future (key : string) (p : C) (s : client) : client :=
  exec_cmd (Commands.debug_object key) p s.

Definition debug_segfault_future (p : C) (s : client) : client :=
  exec_cmd (Commands.debug_segfault) p s.

Definition decr_future (key : string) (p : C) (s : client) : client :=
  exec_cmd (Commands.decr key) p s.

Definition decrby_future (key : string) (val : Z) (p : C) (s : client) : client :=
  exec_cmd (Commands.decrby key val) p s.

Definition del_future (key : list string) (p : C) (s : client) : client :=
  exec_cmd (Commands.del key) p s.

Definition discard_future (p : C) (s : client) : client :=
  exec_cmd (Commands.discard) p s.

Definition dump_future (key : string) (p : C) (s : client) : client :=
  exec_cmd (Commands.dump key) p s.

Definition echo_future (msg : string) (p : C) (s : client) : client :=
  exec_cmd (Commands.echo msg) p s.

Definition eval_future (script : string) (numkeys : Z) (keys args : list string) (p : C)
    (s : client) : client :=
  exec_cmd (Commands.eval script numkeys keys args) p s.

Definition evalsha_future (sha1 : string) (numkeys : Z) (keys args : list string) (p : C)
    (s : client) : client :=
  exec_cmd (Commands.evalsha sha1 numkeys keys args) p s.

Definition exec_future (p : C) (s : client) : client :=
  exec_cmd (Commands.exec) p s.

Definition exists_future (keys : list string) (p : C) (s : client) : client :=
  exec_cmd (Commands.exists_ keys) p s.

Definition expire_future (key : string) (seconds : Z) (p : C) (s : client) : client :=
  exec_cmd (Commands.expire key seconds) p s.

Definition expireat_future (key : string) (timestamp : Z) (p : C) (s : client) : client :=
  exec_cmd (Commands.expireat key timestamp) p s.

Definition flushall_future (p : C) (s : client) : client :=
  exec_cmd (Commands.flushall) p s.

Definition flushdb_future (p : C) (s : client) : client :=
  exec_cmd (Commands.flushdb) p s.

Definition geoadd_future (key : string) (long_lat_memb : list (string * string * string)) (p : C)
    (s : client) : client :=
  exec_cmd (Commands.geoadd key long_lat_memb) p s.

Definition geohash_future (key : string) (members : list string) (p : C) (s : client) : client :=
  exec_cmd (Commands.geohash key members) p s.

Definition geopos_future (key : string) (members : list string) (p : C) (s : client) : client :=
  exec_cmd (Commands.geopos key members) p s.

Definition geodist_future (key member_1 member_2 unit : string) (p : C) (s : client) : client :=
  exec_cmd (Commands.geodist_unit key member_1 member_2 unit) p s.

Definition georadius_future (key : string) (longitude latitude radius : double) (unit : geo_unit)
    (with_coord with_dist with_hash asc_order : bool) (count : Z) (store_key storedist_key : string)
    (p : C) (s : client) : client :=
  exec_cmd (Commands.georadius_all key longitude latitude radius unit with_coord with_dist with_hash
    asc_order count store_key storedist_key) p s.

Definition georadiusbymember_future (key member : string) (radius : double) (unit : geo_unit)
    (with_coord with_dist with_hash asc_order : bool) (count : Z) (store_key storedist_key : string)
    (p : C) (s : client) : client :=
  exec_cmd (Commands.georadiusbymember_all key member radius unit with_coord with_dist with_hash
    asc_order count store_key storedist_key) p s.

Definition get_future (key : string) (p : C) (s : client) : client :=
  exec_cmd (Commands.get key) p s.

Definition getbit_future (key : string) (offset : Z) (p : C) (s : client) : client :=
  exec_cmd (Commands.getbit key offset) p s.

Definition getrange_future (key : string) (start end_ : Z) (p : C) (s : client) : client :=
  exec_cmd (Commands.getrange key start end_) p s.

Definition getset_future (key val : string) (p : C) (s : client) : client :=
  exec_cmd (Commands.getset key val) p s.

Definition hdel_future (key : string) (fields : list string) (p : C) (s : client) : client :=
  exec_cmd (Commands.hdel key fields) p s.

Definition hexists_future (key field : string) (p : C) (s : client) : client :=
  exec_cmd (Commands.hexists key field) p s.

Definition hget_future (key field : string) (p : C) (s : client) : client :=
  exec_cmd (Commands.hget key field) p s.

Definition hgetall_future (key : string) (p : C) (s : client) : client :=
  exec_cmd (Commands.hgetall key) p s.

Definition hincrby_future (key field : string) (incr : Z) (p : C) (s : client) : client :=
  exec_cmd (Commands.hincrby key field incr) p s.

Definition hincrbyfloat_future (key field : string) (incr : double) (p : C) (s : client) : client :=
  exec_cmd (Commands.hincrbyfloat key field incr) p s.

Definition hkeys_future (key : string) (p : C) (s : client) : client :=
  exec_cmd (Commands.hkeys key) p s.

Definition hlen_future (key : string) (p : C) (s : client) : client :=
  exec_cmd (Commands.hlen key) p s.

Definition hmget_future (key : string) (fields : list string) (p : C) (s : client) : client :=
  exec_cmd (Commands.hmget key fields) p s.

Definition hmset_future (key : string) (field_val : list (string * string)) (p : C) (s : client)
    : client :=
  exec_cmd (Commands.hmset key field_val) p s.

Definition hscan_future (key : string) (cursor : Z) (p : C) (s : client) : client :=
  exec_cmd (Commands.hscan key cursor) p s.

Definition hscan_pattern_future (key : string) (cursor : Z) (pattern : string) (p : C) (s : client)
    : client :=
  exec_cmd (Commands.hscan_pattern key cursor pattern) p s.

Definition hscan_count_future (key : string) (cursor count : Z) (p : C) (s : client) : client :=
  exec_cmd (Commands.hscan_count key cursor count) p s.

Definition hscan_pattern_count_future (key : string) (cursor : Z) (pattern : string) (count : Z)
    (p : C) (s : client) : client :=
  exec_cmd (Commands.hscan_pattern_count key cursor pattern count) p s.

Definition hset_future (key field value : string) (p : C) (s : client) : client :=
  exec_cmd (Commands.hset key field value) p s.

Definition hsetnx_future (key field value : string) (p : C) (s : client) : client :=
  exec_cmd (Commands.hsetnx key field value) p s.

Definition hstrlen_future (key field : string) (p : C) (s : client) : client :=
  exec_cmd (Commands.hstrlen key field) p s.

Definition hvals_future (key : string) (p : C) (s : client) : client :=
  exec_cmd (Commands.hvals key) p s.

Definition incr_future (key : string) (p : C) (s : client) : client :=
  exec_cmd (Commands.incr key) p s.

Definition incrby_future (key : string) (incr : Z) (p : C) (s : client) : client :=
  exec_cmd (Commands.incrby key incr) p s.

Definition incrbyfloat_future (key : string) (incr : double) (p : C) (s : client) : client :=
  exec_cmd (Commands.incrbyfloat key incr) p s.

Definition info_future (section : string) (p : C) (s : client) : client :=
  exec_cmd (Commands.info_section section) p s.

Definition keys_future (pattern : string) (p : C) (s : client) : client :=
  exec_cmd (Commands.keys pattern) p s.

Definition lastsave_future (p : C) (s : client) : client :=
  exec_cmd (Commands.lastsave) p s.

Definition lindex_future (key : string) (index : Z) (p : C) (s : client) : client :=
  exec_cmd (Commands.lindex key index) p s.

Definition linsert_future (key before_after pivot value : string) (p : C) (s : client) : client :=
  exec_cmd (Commands.linsert key before_after pivot value) p s.

Definition llen_future (key : string) (p : C) (s : client) : client :=
  exec_cmd (Commands.llen key) p s.

Definition lpop_future (key : string) (p : C) (s : client) : client :=
  exec_cmd (Commands.lpop key) p s.

Definition lpush_future (key : string) (values : list string) (p : C) (s : client) : client :=
  exec_cmd (Commands.lpush key values) p s.

Definition lpushx_future (key value : string) (p : C) (s : client) : client :=
  exec_cmd (Commands.lpushx key value) p s.

Definition lrange_future (key : string) (start stop : Z) (p : C) (s : client) : client :=
  exec_cmd (Commands.lrange key start stop) p s.

Definition lrem_future (key : string) (count : Z) (value : string) (p : C) (s : client) : client :=
  exec_cmd (Commands.lrem key count value) p s.

Definition lset_future (key : string) (index : Z) (value : string) (p : C) (s : client) : client :=
  exec_cmd (Commands.lset key index value) p s.

Definition ltrim_future (key : string) (start stop : Z) (p : C) (s : client) : client :=
  exec_cmd (Commands.ltrim key start stop) p s.

Definition mget_future (keys : list string) (p : C) (s : client) : client :=
  exec_cmd (Commands.mget keys) p s.

Definition migrate_future (host : string) (port : Z) (key dest_db : string) (timeout : Z)
    (copy replace : bool) (keys : list string) (p : C) (s : client) : client :=
  exec_cmd (Commands.migrate_copy_replace_keys host port key dest_db timeout copy replace keys) p s.

Definition monitor_future (p : C) (s : client) : client :=
  exec_cmd (Commands.monitor) p s.

Definition move_future (key db : string) (p : C) (s : client) : client :=
  exec_cmd (Commands.move key db) p s.

Definition mset_future (key_vals : list (string * string)) (p : C) (s : client) : client :=
  exec_cmd (Commands.mset key_vals) p s.

Definition msetnx_future (key_vals : list (string * string)) (p : C) (s : client) : client :=
  exec_cmd (Commands.msetnx key_vals) p s.

Definition multi_future (p : C) (s : client) : client :=
  exec_cmd (Commands.multi) p s.

Definition object_future (subcommand : string) (args : list string) (p : C) (s : client) : client :=
  exec_cmd (Commands.object subcommand args) p s.

Definition persist_future (key : string) (p : C) (s : client) : client :=
  exec_cmd (Commands.persist key) p s.

Definition pexpire_future (key : string) (milliseconds : Z) (p : C) (s : client) : client :=
  exec_cmd (Commands.pexpire key milliseconds) p s.

Definition pexpireat_future (key : string) (milliseconds_timestamp : Z) (p : C) (s : client)
    : client :=
  exec_cmd (Commands.pexpireat key milliseconds_timestamp) p s.

Definition pfadd_future (key : string) (elements : list string) (p : C) (s : client) : client :=
  exec_cmd (Commands.pfadd key elements) p s.

Definition pfcount_future (keys : list string) (p : C) (s : client) : client :=
  exec_cmd (Commands.pfcount keys) p s.

Definition pfmerge_future (destkey : string) (sourcekeys : list string) (p : C) (s : client)
    : client :=
  exec_cmd (Commands.pfmerge destkey sourcekeys) p s.

Definition ping_future (p : C) (s : client) : client :=
  exec_cmd (Commands.ping) p s.

Definition ping_message_future (message : string) (p : C) (s : client) : client :=
  exec_cmd (Commands.ping_message message) p s.

Definition psetex_future (key : string) (milliseconds : Z) (val : string) (p : C) (s : client)
    : client :=
  exec_cmd (Commands.psetex key milliseconds val) p s.

Definition publish_future (channel message : string) (p : C) (s : client) : client :=
  exec_cmd (Commands.publish channel message) p s.

Definition pubsub_future (subcommand : string) (args : list string) (p : C) (s : client) : client :=
  exec_cmd (Commands.pubsub subcommand args) p s.

Definition pttl_future (key : string) (p : C) (s : client) : client :=
  exec_cmd (Commands.pttl key) p s.

Definition quit_future (p : C) (s : client) : client :=
  exec_cmd (Commands.quit) p s.

Definition randomkey_future (p : C) (s : client) : client :=
  exec_cmd (Commands.randomkey) p s.

Definition readonly_future (p : C) (s : client) : client :=
  exec_cmd (Commands.readonly) p s.

Definition readwrite_future (p : C) (s : client) : client :=
  exec_cmd (Commands.readwrite) p s.

Definition rename_future (key newkey : string) (p : C) (s : client) : client :=
  exec_cmd (Commands.rename key newkey) p s.

Definition renamenx_future (key newkey : string) (p : C) (s : client) : client :=
  exec_cmd (Commands.renamenx key newkey) p s.

Definition restore_future (key : string) (ttl : Z) (serialized_value : string) (p : C) (s : client)
    : client :=
  exec_cmd (Commands.restore key ttl serialized_value) p s.

Definition restore_replace_future (key : string) (ttl : Z) (serialized_value replace : string)
    (p : C) (s : client) : client :=
  exec_cmd (Commands.restore_replace key ttl serialized_value replace) p s.

Definition role_future (p : C) (s : client) : client :=
  exec_cmd (Commands.role) p s.

Definition rpop_future (key : string) (p : C) (s : client) : client :=
  exec_cmd (Commands.rpop key) p s.

Definition rpoplpush_future (src dst : string) (p : C) (s : client) : client :=
  exec_cmd (Commands.rpoplpush src dst) p s.

Definition rpush_future (key : string) (values : list string) (p : C) (s : client) : client :=
  exec_cmd (Commands.rpush key values) p s.

Definition rpushx_future (key value : string) (p : C) (s : client) : client :=
  exec_cmd (Commands.rpushx key value) p s.

Definition sadd_future (key : string) (members : list string) (p : C) (s : client) : client :=
  exec_cmd (Commands.sadd key members) p s.

Definition scan_future (cursor : Z) (p : C) (s : client) : client :=
  exec_cmd (Commands.scan cursor) p s.

Definition scan_pattern_future (cursor : Z) (pattern : string) (p : C) (s : client) : client :=
  exec_cmd (Commands.scan_pattern cursor pattern) p s.

Definition scan_count_future (cursor count : Z) (p : C) (s : client) : client :=
  exec_cmd (Commands.scan_count cursor count) p s.

Definition scan_pattern_count_future (cursor : Z) (pattern : string) (count : Z) (p : C)
    (s : client) : client :=
  exec_cmd (Commands.scan_pattern_count cursor pattern count) p s.

Definition save_future (p : C) (s : client) : client :=
  exec_cmd (Commands.save) p s.

Definition scard_future (key : string) (p : C) (s : client) : client :=
  exec_cmd (Commands.scard key) p s.

Definition script_debug_future (mode : string) (p : C) (s : client) : client :=
  exec_cmd (Commands.script_debug mode) p s.

Definition script_exists_future (scripts : list string) (p : C) (s : client) : client :=
  exec_cmd (Commands.script_exists scripts) p s.

Definition script_flush_future (p : C) (s : client) : client :=
  exec_cmd (Commands.script_flush) p s.

Definition script_kill_future (p : C) (s : client) : client :=
  exec_cmd (Commands.script_kill) p s.

Definition script_load_future (script : string) (p : C) (s : client) : client :=
  exec_cmd (Commands.script_load script) p s.

Definition sdiff_future (keys : list string) (p : C) (s : client) : client :=
  exec_cmd (Commands.sdiff keys) p s.

Definition sdiffstore_future (dst : string) (keys : list string) (p : C) (s : client) : client :=
  exec_cmd (Commands.sdiffstore dst keys) p s.

Definition select_future (index : Z) (p : C) (s : client) : client :=
  exec_cmd (Client.select index) p s.

Definition set_future (key value : string) (p : C) (s : client) : client :=
  exec_cmd (Commands.set key value) p s.

Definition set_advanced_future (key value : string) (ex : bool) (ex_sec : Z) (px : bool)
    (px_milli : Z) (nx xx : bool) (p : C) (s : client) : client :=
  exec_cmd (Commands.set_advanced_options key value ex ex_sec px px_milli nx xx) p s.

Definition setbit_future (key : string) (offset : Z) (value : string) (p : C) (s : client)
    : client :=
  exec_cmd (Commands.setbit_ key offset value) p s.

Definition setex_future (key : string) (seconds : Z) (value : string) (p : C) (s : client)
    : client :=
  exec_cmd (Commands.setex key seconds value) p s.

Definition setnx_future (key value : string) (p : C) (s : client) : client :=
  exec_cmd (Commands.setnx key value) p s.

Definition setrange_future (key : string) (offset : Z) (value : string) (p : C) (s : client)
    : client :=
  exec_cmd (Commands.setrange key offset value) p s.

Definition shutdown_future (p : C) (s : client) : client :=
  exec_cmd (Commands.shutdown) p s.

Definition shutdown_save_future (save : string) (p : C) (s : client) : client :=
  exec_cmd (Commands.shutdown_save save) p s.

Definition sinter_future (keys : list string) (p : C) (s : client) : client :=
  exec_cmd (Commands.sinter keys) p s.

Definition sinterstore_future (dst : string) (keys : list string) (p : C) (s : client) : client :=
  exec_cmd (Commands.sinterstore dst keys) p s.

Definition sismember_future (key member : string) (p : C) (s : client) : client :=
  exec_cmd (Commands.sismember key member) p s.

Definition slaveof_future (host : string) (port : Z) (p : C) (s : client) : client :=
  exec_cmd (Commands.slaveof host port) p s.

Definition slowlog_future (subcommand : string) (p : C) (s : client) : client :=
  exec_cmd (Commands.slowlog subcommand) p s.

Definition slowlog_argument_future (subcommand argument : string) (p : C) (s : client) : client :=
  exec_cmd (Commands.slowlog_argument subcommand argument) p s.

Definition smembers_future (key : string) (p : C) (s : client) : client :=
  exec_cmd (Commands.smembers key) p s.

Definition smove_future (src dst member : string) (p : C) (s : client) : client :=
  exec_cmd (Commands.smove src dst member) p s.

Definition sort_future (key : string) (p : C) (s : client) : client :=
  exec_cmd (Commands.sort key) p s.

Definition sort_get_patterns_asc_order_alpha_future (key : string) (get_patterns : list string)
    (asc_order alpha : bool) (p : C) (s : client) : client :=
  exec_cmd (Commands.sort_get_patterns_asc_order_alpha key get_patterns asc_order alpha) p s.

Definition sort_offset_count_get_patterns_asc_order_alpha_future (key : string) (offset count : Z)
    (get_patterns : list string) (asc_order alpha : bool) (p : C) (s : client) : client :=
  exec_cmd (Commands.sort_offset_count_get_patterns_asc_order_alpha key offset count get_patterns
    asc_order alpha) p s.

Definition sort_by_pattern_get_patterns_asc_order_alpha_future (key by_pattern : string)
    (get_patterns : list string) (asc_order alpha : bool) (p : C) (s : client) : client :=
  exec_cmd (Commands.sort_by_pattern_get_patterns_asc_order_alpha key by_pattern get_patterns
    asc_order alpha) p s.

Definition sort_get_patterns_asc_order_alpha_store_dest_future (key : string)
    (get_patterns : list string) (asc_order alpha : bool) (store_dest : string) (p : C) (s : client)
    : client :=
  exec_cmd (Commands.sort_get_patterns_asc_order_alpha_store_dest key get_patterns asc_order alpha
    store_dest) p s.

Definition sort_offset_count_get_patterns_asc_order_alpha_store_dest_future (key : string)
    (offset count : Z) (get_patterns : list string) (asc_order alpha : bool) (store_dest : string)
    (p : C) (s : client) : client :=
  exec_cmd (Commands.sort_offset_count_get_patterns_asc_order_alpha_store_dest key offset count
    get_patterns asc_order alpha store_dest) p s.

Definition sort_by_pattern_get_patterns_asc_order_alpha_store_dest_future (key by_pattern : string)
    (get_patterns : list string) (asc_order alpha : bool) (store_dest : string) (p : C) (s : client)
    : client :=
  exec_cmd (Commands.sort_by_pattern_get_patterns_asc_order_alpha_store_dest key by_pattern
    get_patterns asc_order alpha store_dest) p s.

Definition sort_by_pattern_offset_count_get_patterns_asc_order_alpha_future
    (key by_pattern : string) (offset count : Z) (get_patterns : list string)
    (asc_order alpha : bool) (p : C) (s : client) : client :=
  exec_cmd (Commands.sort_by_pattern_offset_count_get_patterns_asc_order_alpha key by_pattern offset
    count get_patterns asc_order alpha) p s.

Definition sort_by_pattern_offset_count_get_patterns_asc_order_alpha_store_dest_future
    (key by_pattern : string) (offset count : Z) (get_patterns : list string)
    (asc_order alpha : bool) (store_dest : string) (p : C) (s : client) : client :=
  exec_cmd (Commands.sort_by_pattern_offset_count_get_patterns_asc_order_alpha_store_dest key
    by_pattern offset count get_patterns asc_order alpha store_dest) p s.

Definition spop_future (key : string) (p : C) (s : client) : client :=
  exec_cmd (Commands.spop key) p s.

Definition spop_count_future (key : string) (count : Z) (p : C) (s : client) : client :=
  exec_cmd (Commands.spop_count key count) p s.

Definition srandmember_future (key : string) (p : C) (s : client) : client :=
  exec_cmd (Commands.srandmember key) p s.

Definition srandmember_count_future (key : string) (count : Z) (p : C) (s : client) : client :=
  exec_cmd (Commands.srandmember_count key count) p s.

Definition srem_future (key : string) (members : list string) (p : C) (s : client) : client :=
  exec_cmd (Commands.srem key members) p s.

Definition sscan_future (key : string) (cursor : Z) (p : C) (s : client) : client :=
  exec_cmd (Commands.sscan key cursor) p s.

Definition sscan_pattern_future (key : string) (cursor : Z) (pattern : string) (p : C) (s : client)
    : client :=
  exec_cmd (Commands.sscan_pattern key cursor pattern) p s.

Definition sscan_count_future (key : string) (cursor count : Z) (p : C) (s : client) : client :=
  exec_cmd (Commands.sscan_count key cursor count) p s.

Definition sscan_pattern_count_future (key : string) (cursor : Z) (pattern : string) (count : Z)
    (p : C) (s : client) : client :=
  exec_cmd (Commands.sscan_pattern_count key cursor pattern count) p s.

Definition strlen_future (key : string) (p : C) (s : client) : client :=
  exec_cmd (Commands.strlen key) p s.

Definition sunion_future (keys : list string) (p : C) (s : client) : client :=
  exec_cmd (Commands.sunion keys) p s.

Definition sunionstore_future (dst : string) (keys : list string) (p : C) (s : client) : client :=
  exec_cmd (Commands.sunionstore dst keys) p s.

Definition sync_future (p : C) (s : client) : client :=
  exec_cmd (Commands.sync) p s.

Definition time_future (p : C) (s : client) : client :=
  exec_cmd (Commands.time) p s.

Definition ttl_future (key : string) (p : C) (s : client) : client :=
  exec_cmd (Commands.ttl key) p s.

Definition type_future (key : string) (p : C) (s : client) : client :=
  exec_cmd (Commands.type key) p s.

Definition unwatch_future (p : C) (s : client) : client :=
  exec_cmd (Commands.unwatch) p s.

Definition wait_future (numslaves timeout : Z) (p : C) (s : client) : client :=
  exec_cmd (Commands.wait numslaves timeout) p s.

Definition watch_future (keys : list string) (p : C) (s : client) : client :=
  exec_cmd (Commands.watch keys) p s.

Definition zadd_future (key : string) (options : list string)
    (score_members : list (string * string)) (p : C) (s : client) : client :=
  exec_cmd (Commands.zadd key options score_members) p s.

Definition zcard_future (key : string) (p : C) (s : client) : client :=
  exec_cmd (Commands.zcard key) p s.

Definition zcount_future (key : string) (min max : Z) (p : C) (s : client) : client :=
  exec_cmd (Commands.zcount key min max) p s.

Definition zcount_double_future (key : string) (min max : double) (p : C) (s : client) : client :=
  exec_cmd (Commands.zcount_double key min max) p s.

Definition zcount_string_future (key min max : string) (p : C) (s : client) : client :=
  exec_cmd (Commands.zcount_string key min max) p s.

Definition zincrby_future (key : string) (incr : Z) (member : string) (p : C) (s : client)
    : client :=
  exec_cmd (Commands.zincrby key incr member) p s.

Definition zincrby_double_future (key : string) (incr : double) (member : string) (p : C)
    (s : client) : client :=
  exec_cmd (Commands.zincrby_double key incr member) p s.

Definition zincrby_string_future (key incr member : string) (p : C) (s : client) : client :=
  exec_cmd (Commands.zincrby_string key incr member) p s.

Definition zinterstore_future (destination : string) (numkeys : Z) (keys : list string)
    (weights : list Z) (method : aggregate_method) (p : C) (s : client) : client :=
  exec_cmd (Commands.zinterstore destination numkeys keys weights method) p s.

Definition zlexcount_future (key : string) (min max : Z) (p : C) (s : client) : client :=
  exec_cmd (Commands.zlexcount key min max) p s.

Definition zlexcount_double_future (key : string) (min max : double) (p : C) (s : client)
    : client :=
  exec_cmd (Commands.zlexcount_double key min max) p s.

Definition zlexcount_string_future (key min max : string) (p : C) (s : client) : client :=
  exec_cmd (Commands.zlexcount_string key min max) p s.

Definition zrange_future (key : string) (start stop : Z) (withscores : bool) (p : C) (s : client)
    : client :=
  exec_cmd (Commands.zrange_withscores key start stop withscores) p s.

Definition zrange_double_future (key : string) (start stop : double) (withscores : bool) (p : C)
    (s : client) : client :=
  exec_cmd (Commands.zrange_double_withscores key start stop withscores) p s.

Definition zrange_string_future (key start stop : string) (withscores : bool) (p : C) (s : client)
    : client :=
  exec_cmd (Commands.zrange_string_withscores key start stop withscores) p s.

Definition zrangebylex_future (key : string) (min max : Z) (withscores : bool) (p : C) (s : client)
    : client :=
  exec_cmd (Commands.zrangebylex_withscores key min max withscores) p s.

Definition zrangebylex_double_future (key : string) (min max : double) (withscores : bool) (p : C)
    (s : client) : client :=
  exec_cmd (Commands.zrangebylex_double_withscores key min max withscores) p s.

Definition zrangebylex_string_future (key min max : string) (withscores : bool) (p : C) (s : client)
    : client :=
  exec_cmd (Commands.zrangebylex_string_withscores key min max withscores) p s.

Definition zrangebylex_offset_count_future (key : string) (min max offset count : Z)
    (withscores : bool) (p : C) (s : client) : client :=
  exec_cmd (Commands.zrangebylex_offset_count_withscores key min max offset count withscores) p s.

Definition zrangebylex_double_offset_count_future (key : string) (min max : double)
    (offset count : Z) (withscores : bool) (p : C) (s : client) : client :=
  exec_cmd (Commands.zrangebylex_double_offset_count_withscores key min max offset count withscores)
    p s.

Definition zrangebylex_string_offset_count_future (key min max : string) (offset count : Z)
    (withscores : bool) (p : C) (s : client) : client :=
  exec_cmd (Commands.zrangebylex_string_offset_count_withscores key min max offset count withscores)
    p s.

Definition zrangebyscore_future (key : string) (min max : Z) (withscores : bool) (p : C)
    (s : client) : client :=
  exec_cmd (Commands.zrangebyscore_withscores key min max withscores) p s.

Definition zrangebyscore_double_future (key : string) (min max : double) (withscores : bool) (p : C)
    (s : client) : client :=
  exec_cmd (Commands.zrangebyscore_double_withscores key min max withscores) p s.

Definition zrangebyscore_string_future (key min max : string) (withscores : bool) (p : C)
    (s : client) : client :=
  exec_cmd (Commands.zrangebyscore_string_withscores key min max withscores) p s.

Definition zrangebyscore_offset_count_future (key : string) (min max offset count : Z)
    (withscores : bool) (p : C) (s : client) : client :=
  exec_cmd (Commands.zrangebyscore_offset_count_withscores key min max offset count withscores) p s.

Definition zrangebyscore_double_offset_count_future (key : string) (min max : double)
    (offset count : Z) (withscores : bool) (p : C) (s : client) : client :=
  exec_cmd (Commands.zrangebyscore_double_offset_count_withscores key min max offset count
    withscores) p s.

Definition zrangebyscore_string_offset_count_future (key min max : string) (offset count : Z)
    (withscores : bool) (p : C) (s : client) : client :=
  exec_cmd (Commands.zrangebyscore_string_offset_count_withscores key min max offset count
    withscores) p s.

Definition zrank_future (key member : string) (p : C) (s : client) : client :=
  exec_cmd (Commands.zrank key member) p s.

Definition zrem_future (key : string) (members : list string) (p : C) (s : client) : client :=
  exec_cmd (Commands.zrem key members) p s.

Definition zremrangebylex_future (key : string) (min max : Z) (p : C) (s : client) : client :=
  exec_cmd (Commands.zremrangebylex key min max) p s.

Definition zremrangebylex_double_future (key : string) (min max : double) (p : C) (s : client)
    : client :=
  exec_cmd (Commands.zremrangebylex_double key min max) p s.

Definition zremrangebylex_string_future (key min max : string) (p : C) (s : client) : client :=
  exec_cmd (Commands.zremrangebylex_string key min max) p s.

Definition zremrangebyrank_future (key : string) (start stop : Z) (p : C) (s : client) : client :=
  exec_cmd (Commands.zremrangebyrank key start stop) p s.

Definition zremrangebyrank_double_future (key : string) (start stop : double) (p : C) (s : client)
    : client :=
  exec_cmd (Commands.zremrangebyrank_double key start stop) p s.

Definition zremrangebyrank_string_future (key start stop : string) (p : C) (s : client) : client :=
  exec_cmd (Commands.zremrangebyrank_string key start stop) p s.

Definition zremrangebyscore_future (key : string) (min max : Z) (p : C) (s : client) : client :=
  exec_cmd (Commands.zremrangebyscore key min max) p s.

Definition zremrangebyscore_double_future (key : string) (min max : double) (p : C) (s : client)
    : client :=
  exec_cmd (Commands.zremrangebyscore_double key min max) p s.

Definition zremrangebyscore_string_future (key min max : string) (p : C) (s : client) : client :=
  exec_cmd (Commands.zremrangebyscore_string key min max) p s.

Definition zrevrange_future (key : string) (start stop : Z) (withscores : bool) (p : C) (s : client)
    : client :=
  exec_cmd (Commands.zrevrange_withscores key start stop withscores) p s.

Definition zrevrange_double_future (key : string) (start stop : double) (withscores : bool) (p : C)
    (s : client) : client :=
  exec_cmd (Commands.zrevrange_double_withscores key start stop withscores) p s.

Definition zrevrange_string_future (key start stop : string) (withscores : bool) (p : C)
    (s : client) : client :=
  exec_cmd (Commands.zrevrange_string_withscores key start stop withscores) p s.

Definition zrevrangebylex_future (key : string) (max min : Z) (withscores : bool) (p : C)
    (s : client) : client :=
  exec_cmd (Commands.zrevrangebylex_withscores key max min withscores) p s.

Definition zrevrangebylex_double_future (key : string) (max min : double) (withscores : bool)
    (p : C) (s : client) : client :=
  exec_cmd (Commands.zrevrangebylex_double_withscores key max min withscores) p s.

Definition zrevrangebylex_string_future (key max min : string) (withscores : bool) (p : C)
    (s : client) : client :=
  exec_cmd (Commands.zrevrangebylex_string_withscores key max min withscores) p s.

Definition zrevrangebylex_offset_count_future (key : string) (max min offset count : Z)
    (withscores : bool) (p : C) (s : client) : client :=
  exec_cmd (Commands.zrevrangebylex_offset_count_withscores key max min offset count withscores) p
    s.

Definition zrevrangebylex_double_offset_count_future (key : string) (max min : double)
    (offset count : Z) (withscores : bool) (p : C) (s : client) : client :=
  exec_cmd (Commands.zrevrangebylex_double_offset_count_withscores key max min offset count
    withscores) p s.

Definition zrevrangebylex_string_offset_count_future (key max min : string) (offset count : Z)
    (withscores : bool) (p : C) (s : client) : client :=
  exec_cmd (Commands.zrevrangebylex_string_offset_count_withscores key max min offset count
    withscores) p s.

Definition zrevrangebyscore_future (key : string) (max min : Z) (withscores : bool) (p : C)
    (s : client) : client :=
  exec_cmd (Commands.zrevrangebyscore_withscores key max min withscores) p s.

Definition zrevrangebyscore_double_future (key : string) (max min : double) (withscores : bool)
    (p : C) (s : client) : client :=
  exec_cmd (Commands.zrevrangebyscore_double_withscores key max min withscores) p s.

Definition zrevrangebyscore_string_future (key max min : string) (withscores : bool) (p : C)
    (s : client) : client :=
  exec_cmd (Commands.zrevrangebyscore_string_withscores key max min withscores) p s.

Definition zrevrangebyscore_offset_count_future (key : string) (max min offset count : Z)
    (withscores : bool) (p : C) (s : client) : client :=
  exec_cmd (Commands.zrevrangebyscore_offset_count_withscores key max min offset count withscores) p
    s.

Definition zrevrangebyscore_double_offset_count_future (key : string) (max min : double)
    (offset count : Z) (withscores : bool) (p : C) (s : client) : client :=
  exec_cmd (Commands.zrevrangebyscore_double_offset_count_withscores key max min offset count
    withscores) p s.

Definition zrevrangebyscore_string_offset_count_future (key max min : string) (offset count : Z)
    (withscores : bool) (p : C) (s : client) : client :=
  exec_cmd (Commands.zrevrangebyscore_string_offset_count_withscores key max min offset count
    withscores) p s.

Definition zrevrank_future (key member : string) (p : C) (s : client) : client :=
  exec_cmd (Commands.zrevrank key member) p s.

Definition zscan_future (key : string) (cursor : Z) (p : C) (s : client) : client :=
  exec_cmd (Commands.zscan key cursor) p s.

Definition zscan_pattern_future (key : string) (cursor : Z) (pattern : string) (p : C) (s : client)
    : client :=
  exec_cmd (Commands.zscan_pattern key cursor pattern) p s.

Definition zscan_count_future (key : string) (cursor count : Z) (p : C) (s : client) : client :=
  exec_cmd (Commands.zscan_count key cursor count) p s.

Definition zscan_pattern_count_future (key : string) (cursor : Z) (pattern : string) (count : Z)
    (p : C) (s : client) : client :=
  exec_cmd (Commands.zscan_pattern_count key cursor pattern count) p s.

Definition zscore_future (key member : string) (p : C) (s : client) : client :=
  exec_cmd (Commands.zscore key member) p s.

Definition zunionstore_future (destination : string) (numkeys : Z) (keys : list string)
    (weights : list Z) (method : aggregate_method) (p : C) (s : client) : client :=
  exec_cmd (Commands.zunionstore destination numkeys keys weights method) p s.

End futures.
