(* ===== verification/CommandFacts.v ===== *)
(** Facts about the commands: every one of them stores exactly one request,
    named after the function; what a server reads from the commands with
    options; and what some of them fail to say. *)

From S2P Require Import Prelude Text TcpClient Connection Client CommandTypes Commands CommandFutures.

(** ** Every command issues one request *)

(** The command begins with the word [name]. *)
Definition starts (name : string) (cmd : list string) : Prop := exists args, cmd = name :: args.

Create HintDb starts.

Lemma starts_cons name args : starts name (name :: args).
Proof. by exists args. Qed.

Lemma starts_app name cmd args : starts name cmd -> starts name (cmd ++ args).
Proof. intros [args' ->]. by exists (args' ++ args). Qed.

Lemma starts_if name (b : bool) cmd1 cmd2 :
  starts name cmd1 -> starts name cmd2 -> starts name (if b then cmd1 else cmd2).
Proof. by destruct b. Qed.

Lemma starts_fold_left {A} name (f : list string -> A -> list string) l cmd :
  (forall cmd x, starts name cmd -> starts name (f cmd x)) ->
  starts name cmd -> starts name (fold_left f l cmd).
Proof. intros Hf. revert cmd; induction l as [|x l IH]; intros cmd Hc; [done|]. apply IH. by apply Hf. Qed.

Lemma starts_unpack name cmd arg : starts name cmd -> starts name (client_kill_unpack_arg cmd arg).
Proof. destruct arg; apply starts_app. Qed.

Lemma starts_kill name cmd args : starts name cmd -> starts name (client_kill_impl cmd args).
Proof. apply starts_fold_left. intros; by apply starts_unpack. Qed.

#[export] Hint Resolve starts_cons starts_app starts_if starts_fold_left starts_kill : starts.

Section issues.
Context {T S C : Type}.

(** A function of any number of arguments, then a callback (or a promise) and
    the client, that stores one request beginning with [name]. *)
Inductive issues (name : string) : forall {A : Type}, A -> Prop :=
| issues_send (cmd : list string) (f : option (reply_callback C) -> client_state T S C -> client_state T S C) :
    starts name cmd -> (forall cb s, f cb s = send cmd cb s) -> issues name f
| issues_exec (cmd : list string) (f : C -> client_state T S C -> client_state T S C) :
    starts name cmd -> (forall p s, f p s = exec_cmd (send cmd) p s) -> issues name f
| issues_arg {A B : Type} (f : A -> B) : (forall a, issues name (f a)) -> issues name f.

Inductive any_command : Type := AnyCommand (name : string) {A : Type} (f : A).

Definition issued (c : any_command) : Prop := match c with AnyCommand name f => issues name f end.

Abbreviation any := AnyCommand.

Definition callback_commands : list any_command :=
  [any "APPEND" (@Commands.append T S C); any "BGREWRITEAOF" (@Commands.bgrewriteaof T S C);
   any "BGSAVE" (@Commands.bgsave T S C); any "BITCOUNT" (@Commands.bitcount T S C);
   any "BITCOUNT" (@Commands.bitcount_start_end T S C); any "BITFIELD" (@Commands.bitfield T S C);
   any "BITOP" (@Commands.bitop T S C); any "BITPOS" (@Commands.bitpos T S C);
   any "BITPOS" (@Commands.bitpos_start T S C); any "BITPOS" (@Commands.bitpos_start_end T S C);
   any "BLPOP" (@Commands.blpop T S C); any "BRPOP" (@Commands.brpop T S C);
   any "BRPOPLPUSH" (@Commands.brpoplpush T S C); any "CLIENT" (@Commands.client_list T S C);
   any "CLIENT" (@Commands.client_getname T S C); any "CLIENT" (@Commands.client_pause T S C);
   any "CLIENT" (@Commands.client_reply T S C); any "CLIENT" (@Commands.client_setname T S C);
   any "CLUSTER" (@Commands.cluster_addslots T S C);
   any "CLUSTER" (@Commands.cluster_count_failure_reports T S C);
   any "CLUSTER" (@Commands.cluster_countkeysinslot T S C);
   any "CLUSTER" (@Commands.cluster_delslots T S C);
   any "CLUSTER" (@Commands.cluster_failover T S C);
   any "CLUSTER" (@Commands.cluster_failover_mode T S C);
   any "CLUSTER" (@Commands.cluster_forget T S C);
   any "CLUSTER" (@Commands.cluster_getkeysinslot T S C);
   any "CLUSTER" (@Commands.cluster_info T S C); any "CLUSTER" (@Commands.cluster_keyslot T S C);
   any "CLUSTER" (@Commands.cluster_meet T S C); any "CLUSTER" (@Commands.cluster_nodes T S C);
   any "CLUSTER" (@Commands.cluster_replicate T S C);
   any "CLUSTER" (@Commands.cluster_reset T S C);
   any "CLUSTER" (@Commands.cluster_reset_mode T S C);
   any "CLUSTER" (@Commands.cluster_saveconfig T S C);
   any "CLUSTER" (@Commands.cluster_set_config_epoch T S C);
   any "CLUSTER" (@Commands.cluster_setslot T S C);
   any "CLUSTER" (@Commands.cluster_setslot_node_id T S C);
   any "CLUSTER" (@Commands.cluster_slaves T S C); any "CLUSTER" (@Commands.cluster_slots T S C);
   any "COMMAND" (@Commands.command T S C); any "COMMAND" (@Commands.command_count T S C);
   any "COMMAND" (@Commands.command_getkeys T S C); any "COMMAND" (@Commands.command_info T S C);
   any "CONFIG" (@Commands.config_get T S C); any "CONFIG" (@Commands.config_rewrite T S C);
   any "CONFIG" (@Commands.config_set T S C); any "CONFIG" (@Commands.config_resetstat T S C);
   any "DBSIZE" (@Commands.dbsize T S C); any "DEBUG" (@Commands.debug_object T S C);
   any "DEBUG" (@Commands.debug_segfault T S C); any "DECR" (@Commands.decr T S C);
   any "DECRBY" (@Commands.decrby T S C); any "DEL" (@Commands.del T S C);
   any "DISCARD" (@Commands.discard T S C); any "DUMP" (@Commands.dump T S C);
   any "ECHO" (@Commands.echo T S C); any "EVAL" (@Commands.eval T S C);
   any "EVALSHA" (@Commands.evalsha T S C); any "EXEC" (@Commands.exec T S C);
   any "EXISTS" (@Commands.exists_ T S C); any "EXPIRE" (@Commands.expire T S C);
   any "EXPIREAT" (@Commands.expireat T S C); any "FLUSHALL" (@Commands.flushall T S C);
   any "FLUSHDB" (@Commands.flushdb T S C); any "GEOADD" (@Commands.geoadd T S C);
   any "GEOHASH" (@Commands.geohash T S C); any "GEOPOS" (@Commands.geopos T S C);
   any "GEODIST" (@Commands.geodist T S C); any "GEODIST" (@Commands.geodist_unit T S C);
   any "GEORADIUS" (@Commands.georadius_all T S C); any "GEORADIUS" (@Commands.georadius T S C);
   any "GEORADIUS" (@Commands.georadius_count T S C);
   any "GEORADIUS" (@Commands.georadius_store_key T S C);
   any "GEORADIUS" (@Commands.georadius_store_key_storedist_key T S C);
   any "GEORADIUS" (@Commands.georadius_count_store_key T S C);
   any "GEORADIUSBYMEMBER" (@Commands.georadiusbymember_all T S C);
   any "GEORADIUSBYMEMBER" (@Commands.georadiusbymember T S C);
   any "GEORADIUSBYMEMBER" (@Commands.georadiusbymember_count T S C);
   any "GEORADIUSBYMEMBER" (@Commands.georadiusbymember_store_key T S C);
   any "GEORADIUSBYMEMBER" (@Commands.georadiusbymember_store_key_storedist_key T S C);
   any "GEORADIUSBYMEMBER" (@Commands.georadiusbymember_count_store_key T S C);
   any "GET" (@Commands.get T S C); any "GETBIT" (@Commands.getbit T S C);
   any "GETRANGE" (@Commands.getrange T S C); any "GETSET" (@Commands.getset T S C);
   any "HDEL" (@Commands.hdel T S C); any "HEXISTS" (@Commands.hexists T S C);
   any "HGET" (@Commands.hget T S C); any "HGETALL" (@Commands.hgetall T S C);
   any "HINCRBY" (@Commands.hincrby T S C); any "HINCRBYFLOAT" (@Commands.hincrbyfloat T S C);
   any "HKEYS" (@Commands.hkeys T S C); any "HLEN" (@Commands.hlen T S C);
   any "HMGET" (@Commands.hmget T S C); any "HMSET" (@Commands.hmset T S C);
   any "HSCAN" (@Commands.hscan_pattern_count T S C); any "HSCAN" (@Commands.hscan T S C);
   any "HSCAN" (@Commands.hscan_pattern T S C); any "HSCAN" (@Commands.hscan_count T S C);
   any "HSET" (@Commands.hset T S C); any "HSETNX" (@Commands.hsetnx T S C);
   any "HSTRLEN" (@Commands.hstrlen T S C); any "HVALS" (@Commands.hvals T S C);
   any "INCR" (@Commands.incr T S C); any "INCRBY" (@Commands.incrby T S C);
   any "INCRBYFLOAT" (@Commands.incrbyfloat T S C); any "INFO" (@Commands.info T S C);
   any "INFO" (@Commands.info_section T S C); any "KEYS" (@Commands.keys T S C);
   any "LASTSAVE" (@Commands.lastsave T S C); any "LINDEX" (@Commands.lindex T S C);
   any "LINSERT" (@Commands.linsert T S C); any "LLEN" (@Commands.llen T S C);
   any "LPOP" (@Commands.lpop T S C); any "LPUSH" (@Commands.lpush T S C);
   any "LPUSHX" (@Commands.lpushx T S C); any "LRANGE" (@Commands.lrange T S C);
   any "LREM" (@Commands.lrem T S C); any "LSET" (@Commands.lset T S C);
   any "LTRIM" (@Commands.ltrim T S C); any "MGET" (@Commands.mget T S C);
   any "MIGRATE" (@Commands.migrate T S C);
   any "MIGRATE" (@Commands.migrate_copy_replace_keys T S C);
   any "MONITOR" (@Commands.monitor T S C); any "MOVE" (@Commands.move T S C);
   any "MSET" (@Commands.mset T S C); any "MSETNX" (@Commands.msetnx T S C);
   any "MULTI" (@Commands.multi T S C); any "OBJECT" (@Commands.object T S C);
   any "PERSIST" (@Commands.persist T S C); any "PEXPIRE" (@Commands.pexpire T S C);
   any "PEXPIREAT" (@Commands.pexpireat T S C); any "PFADD" (@Commands.pfadd T S C);
   any "PFCOUNT" (@Commands.pfcount T S C); any "PFMERGE" (@Commands.pfmerge T S C);
   any "PING" (@Commands.ping T S C); any "PING" (@Commands.ping_message T S C);
   any "PSETEX" (@Commands.psetex T S C); any "PUBLISH" (@Commands.publish T S C);
   any "PUBSUB" (@Commands.pubsub T S C); any "PTTL" (@Commands.pttl T S C);
   any "QUIT" (@Commands.quit T S C); any "RANDOMKEY" (@Commands.randomkey T S C);
   any "READONLY" (@Commands.readonly T S C); any "READWRITE" (@Commands.readwrite T S C);
   any "RENAME" (@Commands.rename T S C); any "RENAMENX" (@Commands.renamenx T S C);
   any "RESTORE" (@Commands.restore T S C); any "RESTORE" (@Commands.restore_replace T S C);
   any "ROLE" (@Commands.role T S C); any "RPOP" (@Commands.rpop T S C);
   any "RPOPLPUSH" (@Commands.rpoplpush T S C); any "RPUSH" (@Commands.rpush T S C);
   any "RPUSHX" (@Commands.rpushx T S C); any "SADD" (@Commands.sadd T S C);
   any "SAVE" (@Commands.save T S C); any "SCAN" (@Commands.scan_pattern_count T S C);
   any "SCAN" (@Commands.scan T S C); any "SCAN" (@Commands.scan_pattern T S C);
   any "SCAN" (@Commands.scan_count T S C); any "SCARD" (@Commands.scard T S C);
   any "SCRIPT" (@Commands.script_debug T S C); any "SCRIPT" (@Commands.script_exists T S C);
   any "SCRIPT" (@Commands.script_flush T S C); any "SCRIPT" (@Commands.script_kill T S C);
   any "SCRIPT" (@Commands.script_load T S C); any "SDIFF" (@Commands.sdiff T S C);
   any "SDIFFSTORE" (@Commands.sdiffstore T S C); any "SET" (@Commands.set T S C);
   any "SET" (@Commands.set_advanced T S C); any "SET" (@Commands.set_advanced_options T S C);
   any "SETBIT" (@Commands.setbit_ T S C); any "SETEX" (@Commands.setex T S C);
   any "SETNX" (@Commands.setnx T S C); any "SETRANGE" (@Commands.setrange T S C);
   any "SHUTDOWN" (@Commands.shutdown T S C); any "SHUTDOWN" (@Commands.shutdown_save T S C);
   any "SINTER" (@Commands.sinter T S C); any "SINTERSTORE" (@Commands.sinterstore T S C);
   any "SISMEMBER" (@Commands.sismember T S C); any "SLAVEOF" (@Commands.slaveof T S C);
   any "SLOWLOG" (@Commands.slowlog T S C); any "SLOWLOG" (@Commands.slowlog_argument T S C);
   any "SMEMBERS" (@Commands.smembers T S C); any "SMOVE" (@Commands.smove T S C);
   any "SORT" (@Commands.sort T S C); any "SORT" (@Commands.sort_all T S C);
   any "SORT" (@Commands.sort_get_patterns_asc_order_alpha T S C);
   any "SORT" (@Commands.sort_offset_count_get_patterns_asc_order_alpha T S C);
   any "SORT" (@Commands.sort_by_pattern_get_patterns_asc_order_alpha T S C);
   any "SORT" (@Commands.sort_get_patterns_asc_order_alpha_store_dest T S C);
   any "SORT" (@Commands.sort_offset_count_get_patterns_asc_order_alpha_store_dest T S C);
   any "SORT" (@Commands.sort_by_pattern_get_patterns_asc_order_alpha_store_dest T S C);
   any "SORT" (@Commands.sort_by_pattern_offset_count_get_patterns_asc_order_alpha T S C);
   any "SORT" (@Commands.sort_by_pattern_offset_count_get_patterns_asc_order_alpha_store_dest T S C);
   any "SPOP" (@Commands.spop T S C); any "SPOP" (@Commands.spop_count T S C);
   any "SRANDMEMBER" (@Commands.srandmember T S C);
   any "SRANDMEMBER" (@Commands.srandmember_count T S C); any "SREM" (@Commands.srem T S C);
   any "SSCAN" (@Commands.sscan_pattern_count T S C); any "SSCAN" (@Commands.sscan T S C);
   any "SSCAN" (@Commands.sscan_pattern T S C); any "SSCAN" (@Commands.sscan_count T S C);
   any "STRLEN" (@Commands.strlen T S C); any "SUNION" (@Commands.sunion T S C);
   any "SUNIONSTORE" (@Commands.sunionstore T S C); any "SYNC" (@Commands.sync T S C);
   any "TIME" (@Commands.time T S C); any "TTL" (@Commands.ttl T S C);
   any "TYPE" (@Commands.type T S C); any "UNWATCH" (@Commands.unwatch T S C);
   any "WAIT" (@Commands.wait T S C); any "WATCH" (@Commands.watch T S C);
   any "ZADD" (@Commands.zadd T S C); any "ZCARD" (@Commands.zcard T S C);
   any "ZCOUNT" (@Commands.zcount T S C); any "ZCOUNT" (@Commands.zcount_double T S C);
   any "ZCOUNT" (@Commands.zcount_string T S C); any "ZINCRBY" (@Commands.zincrby T S C);
   any "ZINCRBY" (@Commands.zincrby_double T S C); any "ZINCRBY" (@Commands.zincrby_string T S C);
   any "ZINTERSTORE" (@Commands.zinterstore T S C); any "ZLEXCOUNT" (@Commands.zlexcount T S C);
   any "ZLEXCOUNT" (@Commands.zlexcount_double T S C);
   any "ZLEXCOUNT" (@Commands.zlexcount_string T S C); any "ZRANGE" (@Commands.zrange T S C);
   any "ZRANGE" (@Commands.zrange_withscores T S C); any "ZRANGE" (@Commands.zrange_double T S C);
   any "ZRANGE" (@Commands.zrange_double_withscores T S C);
   any "ZRANGE" (@Commands.zrange_string T S C);
   any "ZRANGE" (@Commands.zrange_string_withscores T S C);
   any "ZRANGEBYLEX" (@Commands.zrangebylex_limit_offset_count_withscores T S C);
   any "ZRANGEBYLEX" (@Commands.zrangebylex T S C);
   any "ZRANGEBYLEX" (@Commands.zrangebylex_withscores T S C);
   any "ZRANGEBYLEX" (@Commands.zrangebylex_double T S C);
   any "ZRANGEBYLEX" (@Commands.zrangebylex_double_withscores T S C);
   any "ZRANGEBYLEX" (@Commands.zrangebylex_string T S C);
   any "ZRANGEBYLEX" (@Commands.zrangebylex_string_withscores T S C);
   any "ZRANGEBYLEX" (@Commands.zrangebylex_offset_count T S C);
   any "ZRANGEBYLEX" (@Commands.zrangebylex_offset_count_withscores T S C);
   any "ZRANGEBYLEX" (@Commands.zrangebylex_double_offset_count T S C);
   any "ZRANGEBYLEX" (@Commands.zrangebylex_double_offset_count_withscores T S C);
   any "ZRANGEBYLEX" (@Commands.zrangebylex_string_offset_count T S C);
   any "ZRANGEBYLEX" (@Commands.zrangebylex_string_offset_count_withscores T S C);
   any "ZRANGEBYSCORE" (@Commands.zrangebyscore_limit_offset_count_withscores T S C);
   any "ZRANGEBYSCORE" (@Commands.zrangebyscore T S C);
   any "ZRANGEBYSCORE" (@Commands.zrangebyscore_withscores T S C);
   any "ZRANGEBYSCORE" (@Commands.zrangebyscore_double T S C);
   any "ZRANGEBYSCORE" (@Commands.zrangebyscore_double_withscores T S C);
   any "ZRANGEBYSCORE" (@Commands.zrangebyscore_string T S C);
   any "ZRANGEBYSCORE" (@Commands.zrangebyscore_string_withscores T S C);
   any "ZRANGEBYSCORE" (@Commands.zrangebyscore_offset_count T S C);
   any "ZRANGEBYSCORE" (@Commands.zrangebyscore_offset_count_withscores T S C);
   any "ZRANGEBYSCORE" (@Commands.zrangebyscore_double_offset_count T S C);
   any "ZRANGEBYSCORE" (@Commands.zrangebyscore_double_offset_count_withscores T S C);
   any "ZRANGEBYSCORE" (@Commands.zrangebyscore_string_offset_count T S C);
   any "ZRANGEBYSCORE" (@Commands.zrangebyscore_string_offset_count_withscores T S C);
   any "ZRANK" (@Commands.zrank T S C); any "ZREM" (@Commands.zrem T S C);
   any "ZREMRANGEBYLEX" (@Commands.zremrangebylex T S C);
   any "ZREMRANGEBYLEX" (@Commands.zremrangebylex_double T S C);
   any "ZREMRANGEBYLEX" (@Commands.zremrangebylex_string T S C);
   any "ZREMRANGEBYRANK" (@Commands.zremrangebyrank T S C);
   any "ZREMRANGEBYRANK" (@Commands.zremrangebyrank_double T S C);
   any "ZREMRANGEBYRANK" (@Commands.zremrangebyrank_string T S C);
   any "ZREMRANGEBYSCORE" (@Commands.zremrangebyscore T S C);
   any "ZREMRANGEBYSCORE" (@Commands.zremrangebyscore_double T S C);
   any "ZREMRANGEBYSCORE" (@Commands.zremrangebyscore_string T S C);
   any "ZREVRANGE" (@Commands.zrevrange T S C);
   any "ZREVRANGE" (@Commands.zrevrange_withscores T S C);
   any "ZREVRANGE" (@Commands.zrevrange_double T S C);
   any "ZREVRANGE" (@Commands.zrevrange_double_withscores T S C);
   any "ZREVRANGE" (@Commands.zrevrange_string T S C);
   any "ZREVRANGE" (@Commands.zrevrange_string_withscores T S C);
   any "ZREVRANGEBYLEX" (@Commands.zrevrangebylex_limit_offset_count_withscores T S C);
   any "ZREVRANGEBYLEX" (@Commands.zrevrangebylex T S C);
   any "ZREVRANGEBYLEX" (@Commands.zrevrangebylex_withscores T S C);
   any "ZREVRANGEBYLEX" (@Commands.zrevrangebylex_double T S C);
   any "ZREVRANGEBYLEX" (@Commands.zrevrangebylex_double_withscores T S C);
   any "ZREVRANGEBYLEX" (@Commands.zrevrangebylex_string T S C);
   any "ZREVRANGEBYLEX" (@Commands.zrevrangebylex_string_withscores T S C);
   any "ZREVRANGEBYLEX" (@Commands.zrevrangebylex_offset_count T S C);
   any "ZREVRANGEBYLEX" (@Commands.zrevrangebylex_offset_count_withscores T S C);
   any "ZREVRANGEBYLEX" (@Commands.zrevrangebylex_double_offset_count T S C);
   any "ZREVRANGEBYLEX" (@Commands.zrevrangebylex_double_offset_count_withscores T S C);
   any "ZREVRANGEBYLEX" (@Commands.zrevrangebylex_string_offset_count T S C);
   any "ZREVRANGEBYLEX" (@Commands.zrevrangebylex_string_offset_count_withscores T S C);
   any "ZREVRANGEBYSCORE" (@Commands.zrevrangebyscore_limit_offset_count_withscores T S C);
   any "ZREVRANGEBYSCORE" (@Commands.zrevrangebyscore T S C);
   any "ZREVRANGEBYSCORE" (@Commands.zrevrangebyscore_withscores T S C);
   any "ZREVRANGEBYSCORE" (@Commands.zrevrangebyscore_double T S C);
   any "ZREVRANGEBYSCORE" (@Commands.zrevrangebyscore_double_withscores T S C);
   any "ZREVRANGEBYSCORE" (@Commands.zrevrangebyscore_string T S C);
   any "ZREVRANGEBYSCORE" (@Commands.zrevrangebyscore_string_withscores T S C);
   any "ZREVRANGEBYSCORE" (@Commands.zrevrangebyscore_offset_count T S C);
   any "ZREVRANGEBYSCORE" (@Commands.zrevrangebyscore_offset_count_withscores T S C);
   any "ZREVRANGEBYSCORE" (@Commands.zrevrangebyscore_double_offset_count T S C);
   any "ZREVRANGEBYSCORE" (@Commands.zrevrangebyscore_double_offset_count_withscores T S C);
   any "ZREVRANGEBYSCORE" (@Commands.zrevrangebyscore_string_offset_count T S C);
   any "ZREVRANGEBYSCORE" (@Commands.zrevrangebyscore_string_offset_count_withscores T S C);
   any "ZREVRANK" (@Commands.zrevrank T S C); any "ZSCAN" (@Commands.zscan_pattern_count T S C);
   any "ZSCAN" (@Commands.zscan T S C); any "ZSCAN" (@Commands.zscan_pattern T S C);
   any "ZSCAN" (@Commands.zscan_count T S C); any "ZSCORE" (@Commands.zscore T S C);
   any "ZUNIONSTORE" (@Commands.zunionstore T S C); any "CLIENT" (@Commands.client_kill T S C);
   any "CLIENT" (@Commands.client_kill_host_port T S C)].

Definition future_commands : list any_command :=
  [any "APPEND" (@append_future T S C); any "BGREWRITEAOF" (@bgrewriteaof_future T S C);
   any "BGSAVE" (@bgsave_future T S C); any "BITCOUNT" (@bitcount_future T S C);
   any "BITCOUNT" (@bitcount_start_end_future T S C); any "BITFIELD" (@bitfield_future T S C);
   any "BITOP" (@bitop_future T S C); any "BITPOS" (@bitpos_future T S C);
   any "BITPOS" (@bitpos_start_future T S C); any "BITPOS" (@bitpos_start_end_future T S C);
   any "BLPOP" (@blpop_future T S C); any "BRPOP" (@brpop_future T S C);
   any "BRPOPLPUSH" (@brpoplpush_future T S C); any "CLIENT" (@client_list_future T S C);
   any "CLIENT" (@client_getname_future T S C); any "CLIENT" (@client_pause_future T S C);
   any "CLIENT" (@client_reply_future T S C); any "CLIENT" (@client_setname_future T S C);
   any "CLUSTER" (@cluster_addslots_future T S C);
   any "CLUSTER" (@cluster_count_failure_reports_future T S C);
   any "CLUSTER" (@cluster_countkeysinslot_future T S C);
   any "CLUSTER" (@cluster_delslots_future T S C); any "CLUSTER" (@cluster_failover_future T S C);
   any "CLUSTER" (@cluster_failover_mode_future T S C);
   any "CLUSTER" (@cluster_forget_future T S C);
   any "CLUSTER" (@cluster_getkeysinslot_future T S C); any "CLUSTER" (@cluster_info_future T S C);
   any "CLUSTER" (@cluster_keyslot_future T S C); any "CLUSTER" (@cluster_meet_future T S C);
   any "CLUSTER" (@cluster_nodes_future T S C); any "CLUSTER" (@cluster_replicate_future T S C);
   any "CLUSTER" (@cluster_reset_future T S C); any "CLUSTER" (@cluster_saveconfig_future T S C);
   any "CLUSTER" (@cluster_set_config_epoch_future T S C);
   any "CLUSTER" (@cluster_setslot_future T S C);
   any "CLUSTER" (@cluster_setslot_node_id_future T S C);
   any "CLUSTER" (@cluster_slaves_future T S C); any "CLUSTER" (@cluster_slots_future T S C);
   any "COMMAND" (@command_future T S C); any "COMMAND" (@command_count_future T S C);
   any "COMMAND" (@command_getkeys_future T S C); any "COMMAND" (@command_info_future T S C);
   any "CONFIG" (@config_get_future T S C); any "CONFIG" (@config_rewrite_future T S C);
   any "CONFIG" (@config_set_future T S C); any "CONFIG" (@config_resetstat_future T S C);
   any "DBSIZE" (@dbsize_future T S C); any "DEBUG" (@debug_object_future T S C);
   any "DEBUG" (@debug_segfault_future T S C); any "DECR" (@decr_future T S C);
   any "DECRBY" (@decrby_future T S C); any "DEL" (@del_future T S C);
   any "DISCARD" (@discard_future T S C); any "DUMP" (@dump_future T S C);
   any "ECHO" (@echo_future T S C); any "EVAL" (@eval_future T S C);
   any "EVALSHA" (@evalsha_future T S C); any "EXEC" (@exec_future T S C);
   any "EXISTS" (@exists_future T S C); any "EXPIRE" (@expire_future T S C);
   any "EXPIREAT" (@expireat_future T S C); any "FLUSHALL" (@flushall_future T S C);
   any "FLUSHDB" (@flushdb_future T S C); any "GEOADD" (@geoadd_future T S C);
   any "GEOHASH" (@geohash_future T S C); any "GEOPOS" (@geopos_future T S C);
   any "GEODIST" (@geodist_future T S C); any "GEORADIUS" (@georadius_future T S C);
   any "GEORADIUSBYMEMBER" (@georadiusbymember_future T S C); any "GET" (@get_future T S C);
   any "GETBIT" (@getbit_future T S C); any "GETRANGE" (@getrange_future T S C);
   any "GETSET" (@getset_future T S C); any "HDEL" (@hdel_future T S C);
   any "HEXISTS" (@hexists_future T S C); any "HGET" (@hget_future T S C);
   any "HGETALL" (@hgetall_future T S C); any "HINCRBY" (@hincrby_future T S C);
   any "HINCRBYFLOAT" (@hincrbyfloat_future T S C); any "HKEYS" (@hkeys_future T S C);
   any "HLEN" (@hlen_future T S C); any "HMGET" (@hmget_future T S C);
   any "HMSET" (@hmset_future T S C); any "HSCAN" (@hscan_future T S C);
   any "HSCAN" (@hscan_pattern_future T S C); any "HSCAN" (@hscan_count_future T S C);
   any "HSCAN" (@hscan_pattern_count_future T S C); any "HSET" (@hset_future T S C);
   any "HSETNX" (@hsetnx_future T S C); any "HSTRLEN" (@hstrlen_future T S C);
   any "HVALS" (@hvals_future T S C); any "INCR" (@incr_future T S C);
   any "INCRBY" (@incrby_future T S C); any "INCRBYFLOAT" (@incrbyfloat_future T S C);
   any "INFO" (@info_future T S C); any "KEYS" (@keys_future T S C);
   any "LASTSAVE" (@lastsave_future T S C); any "LINDEX" (@lindex_future T S C);
   any "LINSERT" (@linsert_future T S C); any "LLEN" (@llen_future T S C);
   any "LPOP" (@lpop_future T S C); any "LPUSH" (@lpush_future T S C);
   any "LPUSHX" (@lpushx_future T S C); any "LRANGE" (@lrange_future T S C);
   any "LREM" (@lrem_future T S C); any "LSET" (@lset_future T S C);
   any "LTRIM" (@ltrim_future T S C); any "MGET" (@mget_future T S C);
   any "MIGRATE" (@migrate_future T S C); any "MONITOR" (@monitor_future T S C);
   any "MOVE" (@move_future T S C); any "MSET" (@mset_future T S C);
   any "MSETNX" (@msetnx_future T S C); any "MULTI" (@multi_future T S C);
   any "OBJECT" (@object_future T S C); any "PERSIST" (@persist_future T S C);
   any "PEXPIRE" (@pexpire_future T S C); any "PEXPIREAT" (@pexpireat_future T S C);
   any "PFADD" (@pfadd_future T S C); any "PFCOUNT" (@pfcount_future T S C);
   any "PFMERGE" (@pfmerge_future T S C); any "PING" (@ping_future T S C);
   any "PING" (@ping_message_future T S C); any "PSETEX" (@psetex_future T S C);
   any "PUBLISH" (@publish_future T S C); any "PUBSUB" (@pubsub_future T S C);
   any "PTTL" (@pttl_future T S C); any "QUIT" (@quit_future T S C);
   any "RANDOMKEY" (@randomkey_future T S C); any "READONLY" (@readonly_future T S C);
   any "READWRITE" (@readwrite_future T S C); any "RENAME" (@rename_future T S C);
   any "RENAMENX" (@renamenx_future T S C); any "RESTORE" (@restore_future T S C);
   any "RESTORE" (@restore_replace_future T S C); any "ROLE" (@role_future T S C);
   any "RPOP" (@rpop_future T S C); any "RPOPLPUSH" (@rpoplpush_future T S C);
   any "RPUSH" (@rpush_future T S C); any "RPUSHX" (@rpushx_future T S C);
   any "SADD" (@sadd_future T S C); any "SCAN" (@scan_future T S C);
   any "SCAN" (@scan_pattern_future T S C); any "SCAN" (@scan_count_future T S C);
   any "SCAN" (@scan_pattern_count_future T S C); any "SAVE" (@save_future T S C);
   any "SCARD" (@scard_future T S C); any "SCRIPT" (@script_debug_future T S C);
   any "SCRIPT" (@script_exists_future T S C); any "SCRIPT" (@script_flush_future T S C);
   any "SCRIPT" (@script_kill_future T S C); any "SCRIPT" (@script_load_future T S C);
   any "SDIFF" (@sdiff_future T S C); any "SDIFFSTORE" (@sdiffstore_future T S C);
   any "SET" (@set_future T S C); any "SET" (@set_advanced_future T S C);
   any "SETBIT" (@setbit_future T S C); any "SETEX" (@setex_future T S C);
   any "SETNX" (@setnx_future T S C); any "SETRANGE" (@setrange_future T S C);
   any "SHUTDOWN" (@shutdown_future T S C); any "SHUTDOWN" (@shutdown_save_future T S C);
   any "SINTER" (@sinter_future T S C); any "SINTERSTORE" (@sinterstore_future T S C);
   any "SISMEMBER" (@sismember_future T S C); any "SLAVEOF" (@slaveof_future T S C);
   any "SLOWLOG" (@slowlog_future T S C); any "SLOWLOG" (@slowlog_argument_future T S C);
   any "SMEMBERS" (@smembers_future T S C); any "SMOVE" (@smove_future T S C);
   any "SORT" (@sort_future T S C); any "SORT" (@sort_get_patterns_asc_order_alpha_future T S C);
   any "SORT" (@sort_offset_count_get_patterns_asc_order_alpha_future T S C);
   any "SORT" (@sort_by_pattern_get_patterns_asc_order_alpha_future T S C);
   any "SORT" (@sort_get_patterns_asc_order_alpha_store_dest_future T S C);
   any "SORT" (@sort_offset_count_get_patterns_asc_order_alpha_store_dest_future T S C);
   any "SORT" (@sort_by_pattern_get_patterns_asc_order_alpha_store_dest_future T S C);
   any "SORT" (@sort_by_pattern_offset_count_get_patterns_asc_order_alpha_future T S C);
   any "SORT" (@sort_by_pattern_offset_count_get_patterns_asc_order_alpha_store_dest_future T S C);
   any "SPOP" (@spop_future T S C); any "SPOP" (@spop_count_future T S C);
   any "SRANDMEMBER" (@srandmember_future T S C);
   any "SRANDMEMBER" (@srandmember_count_future T S C); any "SREM" (@srem_future T S C);
   any "SSCAN" (@sscan_future T S C); any "SSCAN" (@sscan_pattern_future T S C);
   any "SSCAN" (@sscan_count_future T S C); any "SSCAN" (@sscan_pattern_count_future T S C);
   any "STRLEN" (@strlen_future T S C); any "SUNION" (@sunion_future T S C);
   any "SUNIONSTORE" (@sunionstore_future T S C); any "SYNC" (@sync_future T S C);
   any "TIME" (@time_future T S C); any "TTL" (@ttl_future T S C); any "TYPE" (@type_future T S C);
   any "UNWATCH" (@unwatch_future T S C); any "WAIT" (@wait_future T S C);
   any "WATCH" (@watch_future T S C); any "ZADD" (@zadd_future T S C);
   any "ZCARD" (@zcard_future T S C); any "ZCOUNT" (@zcount_future T S C);
   any "ZCOUNT" (@zcount_double_future T S C); any "ZCOUNT" (@zcount_string_future T S C);
   any "ZINCRBY" (@zincrby_future T S C); any "ZINCRBY" (@zincrby_double_future T S C);
   any "ZINCRBY" (@zincrby_string_future T S C); any "ZINTERSTORE" (@zinterstore_future T S C);
   any "ZLEXCOUNT" (@zlexcount_future T S C); any "ZLEXCOUNT" (@zlexcount_double_future T S C);
   any "ZLEXCOUNT" (@zlexcount_string_future T S C); any "ZRANGE" (@zrange_future T S C);
   any "ZRANGE" (@zrange_double_future T S C); any "ZRANGE" (@zrange_string_future T S C);
   any "ZRANGEBYLEX" (@zrangebylex_future T S C);
   any "ZRANGEBYLEX" (@zrangebylex_double_future T S C);
   any "ZRANGEBYLEX" (@zrangebylex_string_future T S C);
   any "ZRANGEBYLEX" (@zrangebylex_offset_count_future T S C);
   any "ZRANGEBYLEX" (@zrangebylex_double_offset_count_future T S C);
   any "ZRANGEBYLEX" (@zrangebylex_string_offset_count_future T S C);
   any "ZRANGEBYSCORE" (@zrangebyscore_future T S C);
   any "ZRANGEBYSCORE" (@zrangebyscore_double_future T S C);
   any "ZRANGEBYSCORE" (@zrangebyscore_string_future T S C);
   any "ZRANGEBYSCORE" (@zrangebyscore_offset_count_future T S C);
   any "ZRANGEBYSCORE" (@zrangebyscore_double_offset_count_future T S C);
   any "ZRANGEBYSCORE" (@zrangebyscore_string_offset_count_future T S C);
   any "ZRANK" (@zrank_future T S C); any "ZREM" (@zrem_future T S C);
   any "ZREMRANGEBYLEX" (@zremrangebylex_future T S C);
   any "ZREMRANGEBYLEX" (@zremrangebylex_double_future T S C);
   any "ZREMRANGEBYLEX" (@zremrangebylex_string_future T S C);
   any "ZREMRANGEBYRANK" (@zremrangebyrank_future T S C);
   any "ZREMRANGEBYRANK" (@zremrangebyrank_double_future T S C);
   any "ZREMRANGEBYRANK" (@zremrangebyrank_string_future T S C);
   any "ZREMRANGEBYSCORE" (@zremrangebyscore_future T S C);
   any "ZREMRANGEBYSCORE" (@zremrangebyscore_double_future T S C);
   any "ZREMRANGEBYSCORE" (@zremrangebyscore_string_future T S C);
   any "ZREVRANGE" (@zrevrange_future T S C); any "ZREVRANGE" (@zrevrange_double_future T S C);
   any "ZREVRANGE" (@zrevrange_string_future T S C);
   any "ZREVRANGEBYLEX" (@zrevrangebylex_future T S C);
   any "ZREVRANGEBYLEX" (@zrevrangebylex_double_future T S C);
   any "ZREVRANGEBYLEX" (@zrevrangebylex_string_future T S C);
   any "ZREVRANGEBYLEX" (@zrevrangebylex_offset_count_future T S C);
   any "ZREVRANGEBYLEX" (@zrevrangebylex_double_offset_count_future T S C);
   any "ZREVRANGEBYLEX" (@zrevrangebylex_string_offset_count_future T S C);
   any "ZREVRANGEBYSCORE" (@zrevrangebyscore_future T S C);
   any "ZREVRANGEBYSCORE" (@zrevrangebyscore_double_future T S C);
   any "ZREVRANGEBYSCORE" (@zrevrangebyscore_string_future T S C);
   any "ZREVRANGEBYSCORE" (@zrevrangebyscore_offset_count_future T S C);
   any "ZREVRANGEBYSCORE" (@zrevrangebyscore_double_offset_count_future T S C);
   any "ZREVRANGEBYSCORE" (@zrevrangebyscore_string_offset_count_future T S C);
   any "ZREVRANK" (@zrevrank_future T S C); any "ZSCAN" (@zscan_future T S C);
   any "ZSCAN" (@zscan_pattern_future T S C); any "ZSCAN" (@zscan_count_future T S C);
   any "ZSCAN" (@zscan_pattern_count_future T S C); any "ZSCORE" (@zscore_future T S C);
   any "ZUNIONSTORE" (@zunionstore_future T S C)].
End issues.

Ltac issue :=
  first [ eapply issues_send; [|intros; reflexivity]
        | eapply issues_exec; [|intros; reflexivity]
        | apply issues_arg; intros; issue ].

(** For a body that branches on its last argument, or its only list. *)
Ltac issue_cases :=
  first [ eapply issues_send; [|intros; reflexivity]
        | eapply issues_exec; [|intros; reflexivity]
        | apply issues_arg; let x := fresh in intros x;
          lazymatch type of x with bool => destruct x | list _ => destruct x | _ => idtac end;
          issue_cases ].

Ltac issue_auto :=
  cbn [issued]; first [ issue; auto 20 with starts; fail | issue_cases; auto 20 with starts; fail ].

(** Each of the commands, callback or future, whatever its arguments,
    stores exactly one request with its own callback, and the request begins
    with the command's name. *)
Theorem commands_issue_one_request T S C :
  Forall (@issued T S C) (@callback_commands T S C) /\ Forall (@issued T S C) (@future_commands T S C).
Proof.
  split; unfold callback_commands, future_commands.
  - repeat apply List.Forall_cons; [issue_auto..|apply List.Forall_nil].
  - repeat apply List.Forall_cons; [issue_auto..|apply List.Forall_nil].
Qed.

(** ** SET with options *)

(** The options of SET, as the server reads them. *)
Record set_options : Type := mk_set_options {
  set_ex : option string;
  set_px : option string;
  set_nx : bool;
  set_xx : bool }.

Fixpoint read_set_options (words : list string) (o : set_options) : option set_options :=
  match words with
  | [] => Some o
  | w :: rest =>
    if bool_decide (w = "NX") then read_set_options rest (mk_set_options (set_ex o) (set_px o) true (set_xx o))
    else if bool_decide (w = "XX") then read_set_options rest (mk_set_options (set_ex o) (set_px o) (set_nx o) true)
    else
      match rest with
      | n :: rest' =>
        if bool_decide (w = "EX") then read_set_options rest' (mk_set_options (Some n) (set_px o) (set_nx o) (set_xx o))
        else if bool_decide (w = "PX") then read_set_options rest' (mk_set_options (set_ex o) (Some n) (set_nx o) (set_xx o))
        else None
      | [] => None
      end
  end.

Definition read_set (cmd : list string) : option (string * string * set_options) :=
  match cmd with
  | name :: key :: value :: words =>
    if bool_decide (name = "SET") then
      (fun o => (key, value, o)) <$> read_set_options words (mk_set_options None None false false)
    else None
  | _ => None
  end.

(** SET with options round-trips: the command [set_advanced] sends is read
    back as exactly the key, the value, the two expiries and the two
    conditions it was given. *)
Theorem set_advanced_roundtrip {T S C} key value ex ex_sec px px_milli nx xx :
  exists cmd,
    (forall cb (s : client_state T S C),
       set_advanced_options key value ex ex_sec px px_milli nx xx cb s = send cmd cb s) /\
    read_set cmd = Some (key, value, mk_set_options
      (if ex then Some (to_string ex_sec) else None)
      (if px then Some (to_string px_milli) else None) nx xx).
Proof.
  eexists. split; [intros; reflexivity|].
  by destruct ex, px, nx, xx.
Qed.

(** ** BITFIELD *)

(** A subcommand of BITFIELD and the overflow behaviour in force for it. *)
Record bitfield_reading : Type := mk_reading {
  read_op : string;
  read_type : string;
  read_offset : string;
  read_value : option string;
  read_overflow : string }.

(** OVERFLOW changes the behaviour of the subcommands that follow it. *)
Fixpoint read_bitfield (n : nat) (words : list string) (overflow : string) : option (list bitfield_reading) :=
  match n, words with
  | _, [] => Some []
  | S n, w :: rest =>
    if bool_decide (w = "OVERFLOW") then
      match rest with o :: rest => read_bitfield n rest o | [] => None end
    else if bool_decide (w = "GET") then
      match rest with
      | t :: off :: rest => cons (mk_reading w t off None overflow) <$> read_bitfield n rest overflow
      | _ => None
      end
    else if bool_decide (w = "SET") || bool_decide (w = "INCRBY") then
      match rest with
      | t :: off :: v :: rest => cons (mk_reading w t off (Some v) overflow) <$> read_bitfield n rest overflow
      | _ => None
      end
    else None
  | O, _ => None
  end.

(** What one operation adds to the command. *)
Definition bitfield_words (o : bitfield_operation) : list string :=
  [bitfield_operation_type_to_string (operation_type o); bf_type o; to_string (bf_offset o)] ++
  (if bool_decide (operation_type o = op_get) then [] else [to_string (bf_value o)]) ++
  (if bool_decide (bf_overflow o = overflow_server_default) then []
   else ["OVERFLOW"; overflow_type_to_string (bf_overflow o)]).

Definition reading_of (overflow : string) (o : bitfield_operation) : bitfield_reading :=
  mk_reading (bitfield_operation_type_to_string (operation_type o)) (bf_type o) (to_string (bf_offset o))
    (if bool_decide (operation_type o = op_get) then None else Some (to_string (bf_value o))) overflow.

Definition next_overflow (overflow : string) (o : bitfield_operation) : string :=
  if bool_decide (bf_overflow o = overflow_server_default) then overflow
  else overflow_type_to_string (bf_overflow o).

Fixpoint shifted_readings (overflow : string) (ops : list bitfield_operation) : list bitfield_reading :=
  match ops with
  | [] => []
  | o :: ops => reading_of overflow o :: shifted_readings (next_overflow overflow o) ops
  end.

Lemma read_bitfield_operation n o words overflow :
  read_bitfield (S (S n)) (bitfield_words o ++ words) overflow =
  cons (reading_of overflow o) <$>
    read_bitfield (if bool_decide (bf_overflow o = overflow_server_default) then S n else n) words
      (next_overflow overflow o).
Proof. by destruct o as [[] t off v []]. Qed.

Lemma read_bitfield_fuel n m words overflow :
  length words <= n -> length words <= m -> read_bitfield n words overflow = read_bitfield m words overflow.
Proof.
  revert m words overflow; induction n as [|n IH]; intros [|m] [|w rest] overflow Hn Hm; try done;
    simpl in Hn, Hm; try lia. cbn [read_bitfield].
  destruct (bool_decide (w = "OVERFLOW")).
  { destruct rest as [|o rest]; [done|]. apply IH; simpl in *; lia. }
  destruct (bool_decide (w = "GET")).
  { destruct rest as [|t [|off rest]]; [done..|]. f_equal. apply IH; simpl in *; lia. }
  destruct (_ || _); [|done].
  destruct rest as [|t [|off [|v rest]]]; [done..|]. f_equal. apply IH; simpl in *; lia.
Qed.

Lemma read_bitfield_words ops overflow n :
  length (concat (bitfield_words <$> ops)) <= n ->
  read_bitfield n (concat (bitfield_words <$> ops)) overflow = Some (shifted_readings overflow ops).
Proof.
  revert overflow n; induction ops as [|o ops IH]; intros overflow n Hn; [by destruct n|].
  cbn [fmap list_fmap concat] in *. fold (bitfield_words <$> ops) in *.
  rewrite length_app in Hn.
  assert (2 <= length (bitfield_words o)) as Hl by by destruct o as [[] t off v []]; simpl; lia.
  destruct n as [|[|n]]; [lia..|]. rewrite read_bitfield_operation. cbn [shifted_readings].
  rewrite IH; [done|]. destruct o as [[] t off v []]; simpl in *; lia.
Qed.

(** BITFIELD shifts the overflow behaviours: a server that applies
    OVERFLOW to the subcommands after it, as documented, reads each operation
    with the behaviour requested by the operations before it, never its own. *)
Theorem bitfield_overflow_shifted {T S C} key ops :
  exists words,
    (forall cb (s : client_state T S C),
       bitfield key ops cb s = send ("BITFIELD" :: key :: words) cb s) /\
    read_bitfield (length words) words "WRAP" = Some (shifted_readings "WRAP" ops).
Proof.
  exists (concat (bitfield_words <$> ops)). split; [|by apply read_bitfield_words].
  intros cb s. unfold bitfield. cbv zeta.
  match goal with |- context [fold_left ?f ops _] =>
    assert (forall cmd, fold_left f ops cmd = cmd ++ concat (bitfield_words <$> ops)) as Hf end.
  { induction ops as [|o ops IH]; intros cmd; simpl; [by rewrite app_nil_r|].
    rewrite IH. destruct o as [[] t off v []]; simpl; by rewrite <- ?app_assoc. }
  by rewrite Hf.
Qed.

(** ** GEORADIUS *)

(** The destination of GEORADIUS is lost: every non-empty [store_key]
    gives the same command, so the key the result should be stored at never
    reaches the server. *)
Theorem georadius_store_key_lost {T S C} key long lat radius unit wc wd wh asc count k1 k2 storedist cb
    (s : client_state T S C) :
  k1 <> "" -> k2 <> "" ->
  georadius_all key long lat radius unit wc wd wh asc count k1 storedist cb s =
  georadius_all key long lat radius unit wc wd wh asc count k2 storedist cb s.
Proof.
  intros H1 H2. unfold georadius_all.
  assert (str_empty k1 = false /\ str_empty k2 = false) as [-> ->] by by destruct k1, k2.
  done.
Qed.

(** ** Floating point arguments *)

(** Small increments vanish: a finite increment below half a millionth
    sends the same INCRBYFLOAT as an increment by zero of the same sign. *)
Theorem incrbyfloat_small_increment {T S C} key negative mantissa exponent cb (s : client_state T S C) :
  (exponent < 0)%Z -> (2 * 1000000 * Z.of_N mantissa < 2 ^ (- exponent))%Z ->
  incrbyfloat key (d_finite negative mantissa exponent) cb s =
  incrbyfloat key (d_finite negative 0 0) cb s.
Proof.
  intros He Hm. unfold incrbyfloat. do 3 f_equal.
  assert (millionths mantissa exponent = 0%Z) as Hz.
  { unfold millionths. destruct (0 <=? exponent)%Z eqn:E; [apply Z.leb_le in E; lia|].
    pose proof (round_div_near (Z.of_N mantissa * 1000000) (2 ^ (- exponent)) ltac:(apply Z.pow_pos_nonneg; lia)) as Hn.
    assert (0 < 2 ^ (- exponent))%Z by (apply Z.pow_pos_nonneg; lia).
    nia. }
  unfold to_string_double. by rewrite Hz.
Qed.

(** ** Witnesses *)

Lemma georadius_store_key_lost_witness :
  georadius_all "k" (d_finite false 1 0) (d_finite false 1 0) (d_finite false 5 0) unit_km
    false false false true 0 "dest" "" None (@Client.init unit unit unit tt tt) =
  georadius_all "k" (d_finite false 1 0) (d_finite false 1 0) (d_finite false 5 0) unit_km
    false false false true 0 "other" "" None (@Client.init unit unit unit tt tt).
Proof. apply georadius_store_key_lost; discriminate. Defined.

Lemma incrbyfloat_small_increment_witness :
  incrbyfloat "k" (d_finite true 3 (-24)) None (@Client.init unit unit unit tt tt) =
  incrbyfloat "k" (d_finite true 0 0) None (@Client.init unit unit unit tt tt).
Proof. apply incrbyfloat_small_increment; vm_compute; reflexivity. Defined.
