(* ===== verification/DB.v ===== *)
(** The database interface of the lock manager (src/include/db-interface.h):
    the results, the operations as a class, and the laws a lock relies on,
    stated on an abstract store of keys with their deadlines. *)

From S2P Require Import Prelude Text.

Inductive DBResult : Type :=
| kKeyExist
| kSetKeySucceed
| kSetKeyFailed
| kSetKeyFunFailed
| kKeyDoesNotExist
| kKeyValueWrong
| kUpdateKeySucceed
| kUpdateKeyFailed
| kUpdateKeyFunFailed
| kDelKeySucceed
| kDelKeyFailed
| kDelKeyFunFailed
| kSelectDBSucceed
| kSelectDBFailed
| kSelectFunFailed.

#[export] Instance DBResult_eq_dec : EqDecision DBResult.
Proof. solve_decision. Defined.

(** DBInterface: the operations over a world [W]; durations in milliseconds. *)
Class DBInterface (W : Type) : Type := {
  SetKeyValue : string -> string -> Z -> M W DBResult;
  UpdateExpire : string -> string -> Z -> M W DBResult;
  DelKeyValue : string -> string -> M W DBResult;
  SelectDB : Z -> M W DBResult }.

(** The clock of the machine, [system_clock] in milliseconds, and sleeping. *)
Class SystemClock (W : Type) : Type := {
  clock : W -> Z;
  now : W -> Z * W;
  sleep_for : Z -> W -> W }.

(** What is stored: for a database and a key, the value and its deadline. *)
Class DBStore (W : Type) : Type := {
  selected : W -> Z;
  stored : W -> Z -> string -> option (string * Z) }.

(** A value is safe from one state to a later one: time does not go back, and
    a key that holds it keeps it until its deadline, whatever the other
    clients do; they only store and delete values of their own. *)
Record keeps {W} `{SystemClock W} `{DBStore W} (v : string) (w w' : W) : Prop := {
  keeps_clock : (clock w <= clock w')%Z;
  keeps_stored : forall i k d, stored w i k = Some (v, d) -> (clock w' <= d)%Z -> stored w' i k = Some (v, d) }.

(** The laws, for the clients under study: [ours] are their values, each used
    by one client only.  They say what an operation that returns ensures;
    nothing is promised of one that throws. *)
Class DBLaws (W : Type) `{DBInterface W} `{SystemClock W} `{DBStore W} (ours : string -> Prop) : Prop := {
  now_keeps : forall v w, ours v -> keeps v w (now w).2;
  now_reads : forall w, (clock w <= (now w).1 <= clock (now w).2)%Z;
  now_selected : forall w, selected (now w).2 = selected w;
  sleep_keeps : forall v t w, ours v -> keeps v w (sleep_for t w);
  select_keeps : forall v i w r w', ours v -> SelectDB i w = (Ret r, w') -> keeps v w w';
  select_selects : forall i w w', SelectDB i w = (Ret kSelectDBSucceed, w') -> selected w' = i;
  select_spares : forall v i w r w' j k d, ours v -> SelectDB i w = (Ret r, w') ->
    stored w' j k = Some (v, d) -> stored w j k = Some (v, d);
  set_keeps : forall v v' k e w r w', ours v -> SetKeyValue k v' e w = (Ret r, w') -> keeps v w w';
  set_selected : forall v k e w r w', SetKeyValue k v e w = (Ret r, w') -> selected w' = selected w;
  set_stores : forall v k e w w', ours v -> (e <= INT32_MAX)%Z ->
    SetKeyValue k v e w = (Ret kSetKeySucceed, w') ->
    exists d, (clock w + e <= d)%Z /\ ((clock w' <= d)%Z -> stored w' (selected w) k = Some (v, d));
  del_keeps : forall v v' k w r w', ours v -> v <> v' -> DelKeyValue k v' w = (Ret r, w') -> keeps v w w';
  del_clock : forall v k w r w', DelKeyValue k v w = (Ret r, w') -> (clock w <= clock w')%Z;
  del_selected : forall v k w r w', DelKeyValue k v w = (Ret r, w') -> selected w' = selected w;
  del_deletes : forall v k w r w', ours v -> DelKeyValue k v w = (Ret r, w') ->
    forall d, stored w' (selected w) k <> Some (v, d);
  del_spares : forall v k w r w' j k' d, ours v -> DelKeyValue k v w = (Ret r, w') ->
    stored w' j k' = Some (v, d) -> stored w j k' = Some (v, d) }.

Section keeps.
Context {W} `{SystemClock W} `{DBStore W}.

#[export] Instance keeps_preorder v : PreOrder (keeps v).
Proof.
  split.
  - intros w. split; [lia|done].
  - intros w1 w2 w3 [Hc1 Hs1] [Hc2 Hs2]. split; [lia|].
    intros i k d Hd Hle. apply Hs2; [|done]. apply Hs1; [done|lia].
Qed.
End keeps.
