(* ===== verification/RedisServer.v ===== *)
(** The server at the other end of a connection.  [RedisServer] is any server
    that answers commands in order; [serve] is its side of the wire.
    [redis_exec] is the documented behaviour of the six commands the lock
    manager sends, on databases of keys with deadlines, and [RedisSpec] says
    that a server behaves so, between the actions of its other clients. *)

From S2P Require Import Prelude Text Reply Builders BuilderFacts ReplyStream Connection ConnectionFacts CommandFacts.

(** ** The wire *)

Class RedisServer (R : Type) : Type := {
  execute : list string -> R -> rvalue * R }.

(** An array of bulk strings is a command. *)
Definition command_of_reply (r : reply) : list string := m_strval <$> m_rows r.

Fixpoint execute_all {R} `{RedisServer R} (cmds : list (list string)) (r : R) : list rvalue * R :=
  match cmds with
  | [] => ([], r)
  | cmd :: cmds =>
    let '(v, r) := execute cmd r in
    let '(vs, r) := execute_all cmds r in
    (v :: vs, r)
  end.

(** The bytes received, parsed and executed; the bytes answered. *)
Definition serve {R} `{RedisServer R} (bytes : string) (r : R) : string * R :=
  let '(vs, r) := execute_all (command_of_reply <$> m_available_replies (feed bytes reply_builder_init).1) r in
  (encode_all vs, r).

Lemma command_of_command_value cmd : command_of_reply (reply_of (command_value cmd)) = cmd.
Proof.
  unfold command_of_reply, command_value. cbn [reply_of m_rows].
  induction cmd as [|w cmd IH]; [done|]. cbn. by f_equal.
Qed.

(** A server receives the commands that were sent. *)
Lemma serve_commands {R} `{RedisServer R} cmds (r : R) :
  forallb sendable cmds = true ->
  serve (concat_packets (build_command <$> cmds)) r =
  (encode_all (execute_all cmds r).1, (execute_all cmds r).2).
Proof.
  intros Hs. unfold serve. rewrite build_commands_parse by done. cbn [fst m_available_replies].
  rewrite <- list_fmap_compose. rewrite (list_fmap_ext _ id) by (intros; apply command_of_command_value).
  rewrite list_fmap_id. by destruct (execute_all cmds r).
Qed.

(** ** Documented behaviour *)

Record redis_db : Type := mk_redis_db {
  r_selected : Z;
  r_now : Z;
  r_keys : gmap (Z * string) (string * option Z) }.

(** A key whose deadline has passed does not exist. *)
Definition r_live (k : string) (db : redis_db) : option string :=
  match r_keys db !! (r_selected db, k) with
  | Some (v, None) => Some v
  | Some (v, Some d) => if (r_now db <=? d)%Z then Some v else None
  | None => None
  end.

Definition r_put (k v : string) (deadline : option Z) (db : redis_db) : redis_db :=
  mk_redis_db (r_selected db) (r_now db) (<[(r_selected db, k) := (v, deadline)]> (r_keys db)).

Definition r_delete (k : string) (db : redis_db) : redis_db :=
  mk_redis_db (r_selected db) (r_now db) (delete (r_selected db, k) (r_keys db)).

(** The decimal integers a server accepts. *)
Definition parse_int (s : string) : option Z :=
  match s with
  | EmptyString => None
  | String "-" r => if all_digits r && negb (String.length r =? 0)%nat then Some (- dec_value 0 r)%Z else None
  | _ => if all_digits s then Some (dec_value 0 s) else None
  end.

Lemma parse_int_to_string z : parse_int (to_string z) = Some z.
Proof.
  assert (forall n, (0 <= n)%Z -> parse_int (to_string n) = Some n) as Hpos.
  { intros n Hn. destruct (to_string_digits n Hn) as [Hd Hv].
    assert (to_string n <> "") as Hne by (rewrite to_string_nonneg by done; apply pretty_N_nonempty).
    destruct (to_string n) as [|c s] eqn:E; [done|]. unfold parse_int.
    assert (c <> "-"%char) as Hc.
    { intros ->. simpl in Hd. done. }
    rewrite Hd, Hv. by destruct c as [[] [] [] [] [] [] [] []]. }
  destruct (decide (0 <= z)%Z) as [Hz|Hz]; [by apply Hpos|].
  rewrite to_string_neg by lia.
  destruct (to_string_digits (- z) ltac:(lia)) as [Hd Hv].
  assert (to_string (- z) <> "") as Hne by (rewrite to_string_nonneg by lia; apply pretty_N_nonempty).
  unfold parse_int. rewrite Hd, Hv. destruct (to_string (- z)); [done|]. simpl. f_equal. lia.
Qed.

Definition err_syntax : rvalue := VError "ERR syntax error".
Definition err_not_integer : rvalue := VError "ERR value is not an integer or out of range".
Definition err_expire : rvalue := VError "ERR invalid expire time in set".
Definition err_db_index : rvalue := VError "ERR DB index is out of range".

(** The deadline SET is asked for: none, one, or an error. *)
Definition set_deadline (o : set_options) (db : redis_db) : rvalue + option Z :=
  match set_ex o, set_px o with
  | None, None => inr None
  | Some n, None | None, Some n =>
    match parse_int n with
    | None => inl err_not_integer
    | Some t =>
      if (t <=? 0)%Z then inl err_expire
      else inr (Some (r_now db + t * (match set_ex o with Some _ => 1000 | None => 1 end))%Z)
    end
  | Some _, Some _ => inl err_syntax
  end.

Definition exec_set (k v : string) (o : set_options) (db : redis_db) : rvalue * redis_db :=
  if set_nx o && set_xx o then (err_syntax, db)
  else
    match set_deadline o db with
    | inl e => (e, db)
    | inr deadline =>
      match r_live k db with
      | Some _ => if set_nx o then (VNull, db) else (VSimple "OK", r_put k v deadline db)
      | None => if set_xx o then (VNull, db) else (VSimple "OK", r_put k v deadline db)
      end
    end.

Definition exec_pexpire (k n : string) (db : redis_db) : rvalue * redis_db :=
  match parse_int n with
  | None => (err_not_integer, db)
  | Some t =>
    match r_live k db with
    | None => (VInt 0, db)
    | Some v =>
      (VInt 1, if (t <=? 0)%Z then r_delete k db else r_put k v (Some (r_now db + t)%Z) db)
    end
  end.

Definition exec_select (n : string) (db : redis_db) : rvalue * redis_db :=
  match parse_int n with
  | None => (err_not_integer, db)
  | Some i =>
    if (0 <=? i)%Z && (i <? 16)%Z then (VSimple "OK", mk_redis_db i (r_now db) (r_keys db))
    else (err_db_index, db)
  end.

Definition redis_exec (cmd : list string) (db : redis_db) : rvalue * redis_db :=
  match cmd with
  | name :: args =>
    if bool_decide (name = "SET") then
      match read_set cmd with
      | Some (k, v, o) => exec_set k v o db
      | None => (err_syntax, db)
      end
    else
      match args with
      | [k] =>
        if bool_decide (name = "EXISTS") then (VInt (match r_live k db with Some _ => 1 | None => 0 end), db)
        else if bool_decide (name = "GET") then (match r_live k db with Some v => VBulk v | None => VNull end, db)
        else if bool_decide (name = "DEL") then
          (match r_live k db with Some _ => (VInt 1, r_delete k db) | None => (VInt 0, db) end)
        else if bool_decide (name = "SELECT") then exec_select k db
        else (err_syntax, db)
      | [k; n] => if bool_decide (name = "PEXPIRE") then exec_pexpire k n db else (err_syntax, db)
      | _ => (err_syntax, db)
      end
  | [] => (err_syntax, db)
  end.

(** [db_view]: the databases after the last command of ours; [db_next]: when
    the next one executes, after what time and the other clients did. *)
Class RedisSpec (R : Type) `{RedisServer R} : Type := {
  db_view : R -> redis_db;
  db_next : R -> redis_db;
  exec_reply : forall cmd r, (execute cmd r).1 = (redis_exec cmd (db_next r)).1;
  exec_view : forall cmd r, db_view (execute cmd r).2 = (redis_exec cmd (db_next r)).2 }.

(** A server with one client, whose time passes: a delay before each command, and
    before each reading of the clock.  A run has finitely many of them; those beyond
    the list are zero. *)
Record timed : Type := mk_timed { t_db : redis_db; delays : list N }.

Definition pass (t : Z) (db : redis_db) : redis_db := mk_redis_db (r_selected db) (r_now db + t) (r_keys db).

Definition tick (w : timed) : timed :=
  match delays w with
  | [] => w
  | d :: ds => mk_timed (pass (Z.of_N d) (t_db w)) ds
  end.

#[export] Instance timed_server : RedisServer timed := {|
  execute cmd w :=
    let '(v, db) := redis_exec cmd (t_db (tick w)) in (v, mk_timed db (delays (tick w))) |}.

#[export, refine] Instance timed_spec : RedisSpec timed := {| db_view := t_db; db_next w := t_db (tick w) |}.
Proof. all: intros cmd w; simpl; by destruct (redis_exec cmd (t_db (tick w))). Defined.

(** A server whose other clients act between the commands: the list holds what they
    do before each coming command. *)
Record busy_server : Type := mk_busy { busy_db : redis_db; others : list (redis_db -> redis_db) }.

Definition busy_next (r : busy_server) : redis_db :=
  match others r with [] => busy_db r | f :: _ => f (busy_db r) end.

#[export] Instance busy_redis : RedisServer busy_server := {|
  execute cmd r :=
    let '(v, db) := redis_exec cmd (busy_next r) in (v, mk_busy db (tail (others r))) |}.

#[export, refine] Instance busy_spec : RedisSpec busy_server := {| db_view := busy_db; db_next := busy_next |}.
Proof.
  - intros cmd r. simpl. by destruct (redis_exec cmd (busy_next r)).
  - intros cmd r. simpl. by destruct (redis_exec cmd (busy_next r)).
Defined.
