(* ===== verification/ClientKill.v ===== *)
(** The variadic [client_kill] of [cpp_redis::client]
    (includes/cpp_redis/impl/client.ipp) with the type traits of
    includes/cpp_redis/helpers/variadic_template.hpp: what the templates make of the
    arguments of a call, and which calls their assertions let through.

    A pack of types is a list, and a call that does not compile is [None].  The
    commands that come out are those of [Commands]. *)

From S2P Require Import Prelude Text TcpClient Connection Client CommandTypes Commands RedisServer.

(** The types a call may have among its arguments: [is_integral] without [bool], which
    has an overload of its own, and the classes, the type of each lambda among them. *)
Inductive integral_type : Type :=
| T_char | T_short | T_int | T_long | T_long_long
| T_unsigned_char | T_unsigned_short | T_unsigned | T_unsigned_long | T_unsigned_long_long.

Inductive cpp_type : Type :=
| T_client_type
| T_bool
| T_integral (t : integral_type)
| T_class (n : nat).

#[export] Instance integral_type_eq_dec : EqDecision integral_type.
Proof. solve_decision. Defined.
#[export] Instance cpp_type_eq_dec : EqDecision cpp_type.
Proof. solve_decision. Defined.

Definition is_class (T : cpp_type) : bool := match T with T_class _ => true | _ => false end.

(** ** The type traits *)

Fixpoint back (T : cpp_type) (Args : list cpp_type) : cpp_type :=
  match Args with [] => T | A :: Args => back A Args end.

Definition front (T : cpp_type) (Ts : list cpp_type) : cpp_type := T.

Fixpoint is_type_present (T1 T2 : cpp_type) (Ts : list cpp_type) : bool :=
  match Ts with
  | [] => bool_decide (T1 = T2)
  | T3 :: Ts => if bool_decide (T1 = T2) then true else is_type_present T1 T3 Ts
  end.

Fixpoint is_different_types (T : cpp_type) (Args : list cpp_type) : bool :=
  match Args with
  | [] => true
  | A :: Args => if is_type_present T A Args then false else is_different_types A Args
  end.

(** ** The calls *)

Section kill.
Context {T S C : Type}.

Abbreviation client := (client_state T S C).
Abbreviation callback_arg := (option (reply_callback C)).

Inductive kill_arg : Type :=
| ArgType (type : client_type)
| ArgBool (skip : bool)
| ArgIntegral (t : integral_type) (id : Z)
| ArgClass (n : nat) (cb : callback_arg).

Definition type_of (arg : kill_arg) : cpp_type :=
  match arg with
  | ArgType _ => T_client_type
  | ArgBool _ => T_bool
  | ArgIntegral t _ => T_integral t
  | ArgClass n _ => T_class n
  end.

(** [client_kill_unpack_arg]: an integer is converted to [uint64_t]. *)
Definition unpack_arg (redis_cmd : list string) (reply_callback : callback_arg) (arg : kill_arg)
    : list string * callback_arg :=
  match arg with
  | ArgType type => (client_kill_unpack_arg redis_cmd (KillType type), reply_callback)
  | ArgBool skip => (client_kill_unpack_arg redis_cmd (KillSkip skip), reply_callback)
  | ArgIntegral _ id => (client_kill_unpack_arg redis_cmd (KillId (wrap_u64 id)), reply_callback)
  | ArgClass _ cb => (redis_cmd, cb)
  end.

(** [client_kill_impl], whose assertion wants a callback at the end. *)
Fixpoint kill_impl (redis_cmd : list string) (reply : callback_arg) (arg : kill_arg) (args : list kill_arg)
    : option (list string * callback_arg) :=
  match args with
  | [] => Some (unpack_arg redis_cmd reply arg)
  | arg' :: args =>
    if is_class (type_of arg) then None
    else let '(redis_cmd, reply) := unpack_arg redis_cmd reply arg in kill_impl redis_cmd reply arg' args
  end.

(** [client_kill(arg, args...)] *)
Definition kill (arg : kill_arg) (args : list kill_arg) (s : client) : option client :=
  if is_different_types (type_of arg) (type_of <$> args)
     && negb (is_class (type_of arg) && bool_decide (type_of arg = back (type_of arg) (type_of <$> args))) then
    '(redis_cmd, reply_cb) ← kill_impl ["CLIENT"; "KILL"] None arg args;
    Some (send redis_cmd reply_cb s)
  else None.

(** [client_kill(host, port, arg, args...)], and without arguments *)
Definition kill_host_port (host : string) (port : Z) (arg : kill_arg) (args : list kill_arg) (s : client) : option client :=
  if is_different_types (type_of arg) (type_of <$> args) then
    let redis_cmd := ["CLIENT"; "KILL"] in
    let redis_cmd := if negb (is_class (type_of arg)) then redis_cmd ++ ["ADDR"] else redis_cmd in
    let redis_cmd := redis_cmd ++ [host +:+ ":" +:+ to_string port] in
    '(redis_cmd, reply_cb) ← kill_impl redis_cmd None arg args;
    Some (send redis_cmd reply_cb s)
  else None.

(** The type [reply_callback_t] among the classes *)
Definition reply_callback_t : nat := 0.

Definition kill_address (host : string) (port : Z) (s : client) : option client :=
  kill_host_port host port (ArgClass reply_callback_t None) [] s.

(** [client_kill_future(arg, args...)]: the callback [exec_cmd] gives comes last. *)
Definition kill_future (arg : kill_arg) (args : list kill_arg) (p : C) (s : client) : option client :=
  let call cb := kill arg (args ++ [ArgClass reply_callback_t cb]) in
  match call None s with
  | Some _ => Some (exec_cmd (fun cb s => default s (call cb s)) p s)
  | None => None
  end.

(** ** What the traits decide *)

Lemma is_type_present_spec T1 T2 Ts : is_type_present T1 T2 Ts = true <-> T1 ∈ T2 :: Ts.
Proof.
  revert T2. induction Ts as [|T3 Ts IH]; intros T2; cbn [is_type_present].
  - rewrite bool_decide_eq_true, list_elem_of_singleton. done.
  - rewrite elem_of_cons, <- IH. case_bool_decide; [by split; [left|]|]. split; [by right|]. by intros [?|?].
Qed.

Lemma is_different_types_spec T0 Args : is_different_types T0 Args = true <-> NoDup (T0 :: Args).
Proof.
  revert T0. induction Args as [|A Args IH]; intros T0; cbn [is_different_types].
  - split; [intros _; apply NoDup_singleton|done].
  - rewrite NoDup_cons, <- IH, <- is_type_present_spec. destruct (is_type_present T0 A Args); [|by intuition].
    split; [done|]. by intros [? _].
Qed.

(** The filter of an argument, and the callback of the last. *)
Definition filter_of (arg : kill_arg) : option kill_filter :=
  match arg with
  | ArgType type => Some (KillType type)
  | ArgBool skip => Some (KillSkip skip)
  | ArgIntegral _ id => Some (KillId (wrap_u64 id))
  | ArgClass _ _ => None
  end.

Definition callback_of (args : list kill_arg) : callback_arg :=
  match last args with Some (ArgClass _ cb) => cb | _ => None end.

(** [client_kill_impl]: when it compiles, only the last argument is a callback. *)
Lemma kill_impl_spec arg args redis_cmd cmd cb :
  kill_impl redis_cmd None arg args = Some (cmd, cb) ->
  cmd = client_kill_impl redis_cmd (omap filter_of (arg :: args)) /\ cb = callback_of (arg :: args) /\
  length args <= length (omap filter_of (arg :: args)).
Proof.
  revert arg redis_cmd. induction args as [|arg' args IH]; intros arg redis_cmd; cbn [kill_impl].
  - intros [= Hu]. destruct arg; cbn [unpack_arg] in Hu; injection Hu as <- <-; cbn; repeat split; lia.
  - destruct arg as [t|b|t n|n cb0]; cbn [type_of is_class]; [..|done]; cbn [unpack_arg];
      intros (-> & -> & Hl)%IH; (split_and!; [done|done|]); revert Hl; cbn; lia.
Qed.

(** ** What the server reads

    The filters of CLIENT KILL with its address; the old form is an address alone. *)
Definition read_type (value : string) : option client_type :=
  if decide (value = "normal") then Some client_normal
  else if decide (value = "master") then Some client_master
  else if decide (value = "pubsub") then Some client_pubsub
  else if decide (value = "slave") then Some client_slave else None.

Definition read_filter (name value : string) : option kill_filter :=
  if decide (name = "TYPE") then KillType <$> read_type value
  else if decide (name = "SKIPME") then
    (if decide (value = "yes") then Some (KillSkip true)
     else if decide (value = "no") then Some (KillSkip false) else None)
  else if decide (name = "ID") then KillId <$> parse_int value
  else None.

Fixpoint read_filters (words : list string) : option (list kill_filter) :=
  match words with
  | [] => Some []
  | name :: value :: words => f ← read_filter name value; fs ← read_filters words; Some (f :: fs)
  | _ => None
  end.

Definition read_kill (cmd : list string) : option (option string * list kill_filter) :=
  match cmd with
  | "CLIENT" :: "KILL" :: words =>
    match words with
    | [addr] => Some (Some addr, [])
    | name :: value :: words =>
      if decide (name = "ADDR") then fs ← read_filters words; Some (Some value, fs)
      else fs ← read_filters (name :: value :: words); Some (None, fs)
    | [] => None
    end
  | _ => None
  end.

Definition filter_words (f : kill_filter) : list string := client_kill_unpack_arg [] f.

Lemma kill_impl_words cmd fs : client_kill_impl cmd fs = cmd ++ concat (filter_words <$> fs).
Proof.
  revert cmd. induction fs as [|f fs IH]; intros cmd; [by rewrite app_nil_r|].
  change (client_kill_impl cmd (f :: fs)) with (client_kill_impl (client_kill_unpack_arg cmd f) fs).
  rewrite IH. cbn [fmap list_fmap concat]. rewrite app_assoc. f_equal. by destruct f.
Qed.

Lemma read_filters_words fs : read_filters (concat (filter_words <$> fs)) = Some fs.
Proof.
  induction fs as [|f fs IH]; [done|]. cbn [fmap list_fmap concat].
  destruct f as [t|b|n]; cbn [filter_words client_kill_unpack_arg app read_filters]; rewrite IH.
  - by destruct t.
  - by destruct b.
  - unfold read_filter. rewrite parse_int_to_string. done.
Qed.

(** Filters of one kind *)
Definition is_type (f : kill_filter) : bool := match f with KillType _ => true | _ => false end.
Definition is_skip (f : kill_filter) : bool := match f with KillSkip _ => true | _ => false end.

(** Arguments of a type that is there once are there once. *)
Lemma filters_once (P : kill_filter -> bool) T0 args :
  (forall arg f, filter_of arg = Some f -> P f = true -> type_of arg = T0) ->
  NoDup (type_of <$> args) -> length (filter (fun f => P f = true) (omap filter_of args)) <= 1.
Proof.
  intros HP. induction args as [|arg args IH]; intros Hnd; [cbn; lia|].
  cbn [fmap list_fmap] in Hnd. apply NoDup_cons in Hnd as [Hnot Hnd]. specialize (IH Hnd). cbn [omap list_omap].
  destruct (filter_of arg) as [f|] eqn:Ef; [|done]. rewrite filter_cons. case_decide as Hf; [|done].
  destruct (filter (fun f => P f = true) (omap filter_of args)) as [|g k] eqn:E; [done|exfalso].
  assert (g ∈ filter (fun f => P f = true) (omap filter_of args)) as [Pg Hg]%list_elem_of_filter by (rewrite E; by left).
  apply list_elem_of_omap in Hg as (arg' & Hin & Eg). apply Hnot.
  rewrite (HP arg f Ef Hf), <- (HP arg' g Eg Pg). by apply list_elem_of_fmap_2.
Qed.

Lemma read_kill_filters fs :
  fs <> [] -> read_kill (client_kill_impl ["CLIENT"; "KILL"] fs) = Some (None, fs).
Proof.
  intros Hne. rewrite kill_impl_words. pose proof (read_filters_words fs) as Hr.
  destruct fs as [|f fs]; [done|]. cbn [fmap list_fmap concat] in *.
  destruct f; cbn [filter_words client_kill_unpack_arg app] in *; cbn [read_kill]; by rewrite Hr.
Qed.

(** What a call that compiles does. *)
Lemma kill_spec arg args (s s' : client) :
  kill arg args s = Some s' ->
  let fs := omap filter_of (arg :: args) in
  s' = send (client_kill_impl ["CLIENT"; "KILL"] fs) (callback_of (arg :: args)) s /\ fs <> [] /\ NoDup (type_of <$> arg :: args).
Proof.
  unfold kill. destruct (is_different_types _ _ && _) eqn:E; [|done]. apply andb_true_iff in E as [Hd Hc].
  apply is_different_types_spec in Hd. destruct (kill_impl _ _ arg args) as [[cmd cb]|] eqn:E; [|done]. cbn [mbind option_bind].
  intros [= <-]. apply kill_impl_spec in E as (-> & -> & Hl). split; [done|]. split; [|exact Hd].
  intros Hfs. rewrite Hfs in Hl. destruct args; [|cbn in Hl; lia]. revert Hc Hfs. cbn.
  rewrite bool_decide_true by done. by destruct arg.
Qed.

(** The types say whether a call compiles; the callback is only stored. *)
Lemma kill_impl_callback cmd reply arg args n cb :
  kill_impl cmd reply arg (args ++ [ArgClass n cb]) =
  (fun r => (r.1, cb)) <$> kill_impl cmd reply arg (args ++ [ArgClass n None]).
Proof.
  revert cmd reply arg. induction args as [|arg' args IH]; intros cmd reply arg; cbn [app kill_impl].
  - destruct (is_class _); [done|]. by destruct (unpack_arg _ _ _).
  - destruct (is_class _); [done|]. destruct (unpack_arg cmd reply arg). apply IH.
Qed.

Lemma kill_compiles arg args n cb (s : client) :
  is_Some (kill arg (args ++ [ArgClass n None]) s) -> is_Some (kill arg (args ++ [ArgClass n cb]) s).
Proof.
  unfold kill. rewrite (kill_impl_callback _ _ _ _ _ cb), !fmap_app. cbn [fmap list_fmap type_of].
  destruct (is_different_types _ _ && _); [|done].
  destruct (kill_impl _ _ _ _) as [[cmd cb0]|]; [intros _; by eexists|by intros [? [=]]].
Qed.

(** ** Properties *)

(** A call of [client_kill] that compiles issues one request whose words the server
    reads as exactly the filters of the arguments, in order, at least one of them, and
    the types of clients and SKIPME at most once; the callback is the last argument,
    or there is none.  The types of the arguments are then distinct. *)
Theorem kill_carries_filters arg args (s s' : client) :
  kill arg args s = Some s' ->
  exists cmd, s' = send cmd (callback_of (arg :: args)) s /\
    let fs := omap filter_of (arg :: args) in
    read_kill cmd = Some (None, fs) /\ fs <> [] /\ NoDup (type_of <$> arg :: args) /\
    length (filter (fun f => is_type f = true) fs) <= 1 /\ length (filter (fun f => is_skip f = true) fs) <= 1.
Proof.
  intros (-> & Hne & Hnd)%kill_spec. eexists. split; [done|]. split_and!; [by apply read_kill_filters|done|done|..].
  - by apply (filters_once is_type T_client_type); [intros [] [] [=]|].
  - by apply (filters_once is_skip T_bool); [intros [] [] [=]|].
Qed.

(** A call with an address that compiles: the address stands alone exactly when no
    filter is given. *)
Theorem kill_host_port_reads host port arg args (s s' : client) :
  kill_host_port host port arg args s = Some s' ->
  exists cmd, s' = send cmd (callback_of (arg :: args)) s /\
    read_kill cmd = Some (Some (host +:+ ":" +:+ to_string port), omap filter_of (arg :: args)).
Proof.
  unfold kill_host_port. destruct (is_different_types _ _); [|done].
  set (words := _ ++ [_]). destruct (kill_impl words _ arg args) as [[cmd cb]|] eqn:E; [|done]. cbn [mbind option_bind].
  intros [= <-]. exists cmd. pose proof E as (Hcmd & -> & _)%kill_impl_spec. split; [done|].
  rewrite Hcmd, kill_impl_words. subst words. pose proof (read_filters_words (omap filter_of (arg :: args))) as Hr.
  destruct arg as [t|b|t n|n cb0]; [..|by destruct args];
    cbn [type_of is_class negb app]; cbn [read_kill]; rewrite decide_True by done; by rewrite Hr.
Qed.

(** A future's call is that of its arguments, with the promise for callback. *)
Theorem kill_future_issues arg args p (s s' : client) :
  kill_future arg args p s = Some s' ->
  exists cmd, s' = exec_cmd (send cmd) p s /\ read_kill cmd = Some (None, omap filter_of (arg :: args)).
Proof.
  unfold kill_future. cbv zeta. destruct (kill _ _ s) as [s1|] eqn:E; [|done]. intros [= <-]. unfold exec_cmd.
  destruct (kill_compiles arg args reply_callback_t (Some (UserCallback p)) s) as [s2 E2]; [by rewrite E|].
  rewrite E2. apply kill_spec in E2 as (-> & Hne & _).
  assert (omap filter_of (arg :: args ++ [ArgClass reply_callback_t (Some (UserCallback p))]) = omap filter_of (arg :: args)) as Ho.
  { rewrite app_comm_cons, omap_app. cbn [omap list_omap filter_of]. by rewrite app_nil_r. }
  assert (callback_of (arg :: args ++ [ArgClass reply_callback_t (Some (UserCallback p))]) = Some (UserCallback p)) as ->
    by (unfold callback_of; by rewrite app_comm_cons, last_snoc).
  rewrite Ho in *. eexists. split; [reflexivity|]. by apply read_kill_filters.
Qed.
End kill.

(** ** Calls *)

(** Two integers of different types pass the assertion of one value per filter, and
    the command has two IDs; a negative one is another client's. *)
Theorem two_ids_compile (s : client_state unit unit nat) :
  kill (ArgIntegral T_int (-1)) [ArgIntegral T_unsigned 2] s =
  Some (send ["CLIENT"; "KILL"; "ID"; "18446744073709551615"; "ID"; "2"] None s).
Proof. reflexivity. Qed.

(** Two of the same type, a callback that is not the last, and no filter are refused. *)
Lemma refused_calls (s : client_state unit unit nat) :
  kill (ArgIntegral T_int 1) [ArgIntegral T_int 2] s = None /\
  kill (ArgClass 1 None) [ArgBool true] s = None /\ kill (ArgClass 1 None) [] s = None.
Proof. done. Qed.

Definition kill_client : client_state unit unit nat := Client.init tt tt.

Lemma kill_carries_filters_witness :
  exists cmd, kill (ArgType client_slave) [ArgBool false; ArgIntegral T_long 7; ArgClass 3 (Some (UserCallback 5))] kill_client =
      Some (send cmd (Some (UserCallback 5)) kill_client) /\
    read_kill cmd = Some (None, [KillType client_slave; KillSkip false; KillId 7]).
Proof.
  destruct (kill_carries_filters (ArgType client_slave) [ArgBool false; ArgIntegral T_long 7; ArgClass 3 (Some (UserCallback 5))] kill_client
    (default kill_client (kill (ArgType client_slave) [ArgBool false; ArgIntegral T_long 7; ArgClass 3 (Some (UserCallback 5))] kill_client)))
    as (cmd & Hs & Hr & _); [vm_compute; reflexivity|].
  exists cmd. split; [|exact Hr]. cbn [callback_of last] in Hs. rewrite <- Hs. vm_compute. reflexivity.
Defined.
