(* ===== verification/DBRedis.v ===== *)
(** [dlm::DBRedis] (src/src/db-redis.cpp) on the whole stack: the client, its
    connection over any TCP client, and a server at the other end.

    [sync_commit] waits until [sync_done]: meanwhile the server reads what the
    client sent and its answers come back as one packet.  A promise is a
    number; the callback that fulfils it is the call the client records. *)

From S2P Require Import Prelude Text Reply TcpClient Connection Client CommandTypes Commands CommandFutures DB ConnectionFacts RedisServer.

Record db_redis (T S R : Type) : Type := mk_db_redis {
  client : client_state T S nat;
  server : R;
  next_promise : nat }.
Arguments mk_db_redis {T S R}.
Arguments client {T S R}.
Arguments server {T S R}.
Arguments next_promise {T S R}.

Section db_redis.
Context {T S R : Type} `{TcpClient T} `{SentinelLookup S} `{RedisServer R}.

Abbreviation dbr := (db_redis T S R).

Definition set_client (c : client_state T S nat) (s : dbr) : dbr :=
  mk_db_redis c (server s) (next_promise s).

(** A command that returns a future: the promise is the future. *)
Definition issue (f : nat -> client_state T S nat -> client_state T S nat) : M dbr nat := fun s =>
  let p := next_promise s in
  (Ret p, mk_db_redis (f p (client s)) (server s) (Datatypes.S p)).

(** What the TCP client was given to write since [c]. *)
Definition new_output (c c' : client_state T S nat) : string :=
  let out := fun c : client_state T S nat => tc_output (Connection.m_client (Client.m_client c)) in
  s_drop (String.length (out c)) (out c').

(** [client.sync_commit()]: the wait ends when [sync_done]; when nothing more
    can arrive before that, it lasts for ever. *)
Definition sync_commit_wait : M dbr unit := fun s =>
  match Client.sync_commit (client s) with
  | (Ret _, c1) =>
    let '(answers, r) := serve (new_output (client s) c1) (server s) in
    match on_read 0 true answers c1 with
    | (Ret _, c2) =>
      (if sync_done c2 then Ret tt else Timeout, mk_db_redis c2 r (next_promise s))
    | (o, c2) => (o, mk_db_redis c2 r (next_promise s))
    end
  | (o, c1) => (o, set_client c1 s)
  end.

Fixpoint find_call (p : nat) (es : list (client_event nat)) : option reply :=
  match es with
  | [] => None
  | Called q r :: es => if (p =? q)%nat then Some r else find_call p es
  | _ :: es => find_call p es
  end.

(** [future.get()]: a promise destroyed before it was fulfilled is broken. *)
Definition future_get (p : nat) : M dbr reply := fun s =>
  match find_call p (trace (client s)) with
  | Some r => (Ret r, s)
  | None => (if sync_done (client s) then Throw (future_error "Broken promise") else Timeout, s)
  end.

(** The three lines every operation repeats. *)
Definition call (f : nat -> client_state T S nat -> client_state T S nat) : M dbr reply :=
  future ← issue f;
  _ ← sync_commit_wait;
  future_get future.

(** [get().as_integer()] into a uint64_t, [get().as_string()] *)
Definition get_integer (r : reply) : M dbr Z := mlift (omap_outcome wrap_u64 (as_integer r)).
Definition get_string (r : reply) : M dbr string := mlift (as_string r).

Definition SetKeyValue (key value : string) (expire : Z) : M dbr DBResult :=
  tempRes ← call (set_advanced_future key value false 0 true (wrap_s32 expire) true false);
  if is_null tempRes then mret kKeyExist
  else if ok tempRes then mret kSetKeySucceed
  else mret kSetKeyFailed.

Definition UpdateExpire (key value : string) (expire : Z) : M dbr DBResult :=
  haveKey ← call (exists_future [key]);
  tempExistFlag ← get_integer haveKey;
  if (tempExistFlag =? 0)%Z then SetKeyValue key value expire
  else
    haveValue ← call (get_future key);
    tempValue ← get_string haveValue;
    if bool_decide (tempValue = value) then
      setPexpire ← call (pexpire_future key (wrap_s32 expire));
      tempSetPexpireFlag ← get_integer setPexpire;
      if (tempSetPexpireFlag =? 0)%Z then mret kUpdateKeyFailed
      else if (tempSetPexpireFlag =? 1)%Z then mret kUpdateKeySucceed
      else mret kUpdateKeyFunFailed
    else mret kKeyValueWrong.

Definition DelKeyValue (key value : string) : M dbr DBResult :=
  haveKey ← call (exists_future [key]);
  tempExistFlag ← get_integer haveKey;
  if (tempExistFlag =? 0)%Z then mret kKeyDoesNotExist
  else
    haveValue ← call (get_future key);
    tempValue ← get_string haveValue;
    if bool_decide (tempValue = value) then
      delKey ← call (del_future [key]);
      tempDelFlag ← get_integer delKey;
      if (tempDelFlag =? 0)%Z then mret kDelKeyFailed
      else if (tempDelFlag =? 1)%Z then mret kDelKeySucceed
      else mret kDelKeyFunFailed
    else mret kKeyValueWrong.

Definition SelectDB (index : Z) : M dbr DBResult :=
  selectFlag ← call (select_future index);
  tempSelectFlag ← get_string selectFlag;
  if bool_decide (tempSelectFlag = "OK") then mret kSelectDBSucceed
  else if bool_decide (tempSelectFlag = "ERR invalid DB index") then mret kSelectDBFailed
  else mret kSelectFunFailed.

(** The destructor *)
Definition DBRedis_destroy (s : dbr) : dbr :=
  set_client (Client.disconnect true (Client.cancel_reconnect (client s))) s.
End db_redis.

(** The constructor: [connect] with a callback and the default timeout and
    reconnection parameters. *)
Definition DBRedis {T S R} `{TcpClient T} `{SentinelLookup S} (ip : string) (port : Z)
    (tcp : T) (sen : S) (r : R) : outcome unit * db_redis T S R :=
  let '(o, c) := Client.connect ip port true 0 0 0 (Client.init tcp sen) in
  (o, mk_db_redis c r 0).

#[export] Instance redis_interface {T S R} `{TcpClient T} `{SentinelLookup S} `{RedisServer R} :
  DBInterface (db_redis T S R) := {|
  DB.SetKeyValue := SetKeyValue;
  DB.UpdateExpire := UpdateExpire;
  DB.DelKeyValue := DelKeyValue;
  DB.SelectDB := SelectDB |}.
