(* ===== verification/DBRedisFacts.v ===== *)
(** The database operations of the lock manager on the whole stack: each call
    returns what the server answered, [SetKeyValue] is a conditional store, and
    [DelKeyValue] is not atomic.  [DBCommands] has the other operations. *)

From S2P Require Import Prelude Text Reply Builders BuilderFacts ReplyStream TcpClient Connection ConnectionFacts Client ClientFacts CommandTypes Commands CommandFutures CommandFacts DB RedisServer DBRedis.

Section facts.
Context {T S R : Type} `{TcpClientLaws T} `{SentinelLookup S} {HR : RedisServer R}.

Abbreviation dbr := (db_redis T S R).
Implicit Types s : dbr.

(** Between two operations: the client is idle, and the next promise is new. *)
Record settled_db s : Prop := {
  settled_idle : idle (client s);
  settled_fresh : forall q, q ∈ (calls (client s)).*1 -> q < next_promise s }.

Lemma find_call_fresh p es es' :
  p ∉ (omap called es).*1 -> find_call p (es ++ es') = find_call p es'.
Proof.
  induction es as [|[q r|h o st] es IH]; intros Hp; [done| |by apply IH].
  cbn in Hp. apply not_elem_of_cons in Hp as [Hne Hp]. cbn [app find_call].
  destruct (Nat.eqb_spec p q); [done|]. by apply IH.
Qed.

(** The wait of [sync_commit], for one command just issued. *)
Lemma sync_commit_wait_spec cmd p g s v :
  idle (client s) -> sendable cmd = true -> wire_ok v = true ->
  (execute cmd (server s)).1 = v ->
  client s = g -> forall s1, s1 = mk_db_redis (send cmd (Some (UserCallback p)) g) (server s) (next_promise s) ->
  exists c, sync_commit_wait s1 = (Ret tt, mk_db_redis c (execute cmd (server s)).2 (next_promise s)) /\
    idle c /\ trace c = trace (client s) ++ [Called p (reply_of v)].
Proof.
  intros Hi Hs Hv He Hg s1 ->. subst g. unfold sync_commit_wait. cbn [client server next_promise].
  change (Client.sync_commit (send cmd (Some (UserCallback p)) (client s))) with
    (Client.commit (send_all [(cmd, p)] (client s))).
  destruct (commit_idle [(cmd, p)] (client s) Hi) as (c1 & -> & Ho & Hw & Htr & _).
  assert (new_output (send cmd (Some (UserCallback p)) (client s)) c1 = concat_packets (build_command <$> [cmd])) as ->.
  { unfold new_output. rewrite Ho. apply s_drop_app. }
  rewrite serve_commands by (cbn [forallb]; by rewrite Hs).
  cbn [execute_all]. destruct (execute cmd (server s)) as [v' r'] eqn:E. cbn [fst snd] in *. subst v'.
  destruct (answer_awaiting 0 [(cmd, p)] [v] [encode_all [v]] c1 Hw eq_refl) as (c2 & Hread & Htr2 & Hi2 & _);
    [cbn [forallb]; by rewrite Hv|by apply s_app_nil_r|].
  cbn [read_all] in Hread. destruct (on_read 0 true (encode_all [v]) c1) as [[[]| | |] c3]; try done.
  simplify_eq. exists c2. rewrite (idle_sync_done _ Hi2). split_and!; [done|done|].
  by rewrite Htr2, Htr.
Qed.

(** A function that sends [cmd], after setting the configuration only. *)
Definition sends (cmd : list string) (f : nat -> client_state T S nat -> client_state T S nat) : Prop :=
  exists g : client_config -> client_config, forall p c,
    f p c = send cmd (Some (UserCallback p)) (set_m_config (g (m_config c)) c).

Lemma idle_config x (c : client_state T S nat) : idle c -> idle (set_m_config x c).
Proof. intros [[] Hq]. by split; [split|]. Qed.

(** The issue, the commit and the wait for one command. *)
Lemma call_spec cmd f s :
  sends cmd f -> settled_db s -> sendable cmd = true -> wire_ok (execute cmd (server s)).1 = true ->
  exists s', call f s = (Ret (reply_of (execute cmd (server s)).1), s') /\
    server s' = (execute cmd (server s)).2 /\ settled_db s'.
Proof.
  intros [g Hf] [Hi Hfr] Hs Hv. unfold call, issue.
  rewrite (mbind_Ret (fun s => _) _ _ _ _ eq_refl).
  set (c0 := set_m_config (g (m_config (client s))) (client s)).
  destruct (sync_commit_wait_spec cmd (next_promise s) c0
    (mk_db_redis c0 (server s) (Datatypes.S (next_promise s))) _ (idle_config _ _ Hi) Hs Hv eq_refl eq_refl _ eq_refl)
    as (c & Hw & Hic & Htr).
  cbn [server next_promise client] in Hw, Htr. rewrite Hf. fold c0.
  rewrite (mbind_Ret _ _ _ _ _ Hw). unfold future_get. cbn [client]. rewrite Htr.
  change (trace c0) with (trace (client s)).
  assert (next_promise s ∉ (omap called (trace (client s))).*1) as Hnew.
  { intros Hin. apply Hfr in Hin. lia. }
  rewrite find_call_fresh by done. cbn [find_call]. rewrite Nat.eqb_refl.
  eexists. split; [done|]. split; [done|]. split; [done|]. cbn [client next_promise].
  intros q Hq. unfold calls in Hq. rewrite Htr, omap_app, fmap_app in Hq. apply elem_of_app in Hq as [Hq|Hq].
  - apply Hfr in Hq. lia.
  - cbn in Hq. apply list_elem_of_singleton in Hq. lia.
Qed.

Lemma sends_send cmd f : (forall p c, f p c = exec_cmd (send cmd) p c) -> sends cmd f.
Proof. intros Hf. exists id. intros p c. rewrite Hf. by destruct c. Qed.

Lemma sends_set key value px : sends ["SET"; key; value; "PX"; to_string px; "NX"]
  (set_advanced_future key value false 0 true px true false).
Proof. by apply sends_send. Qed.
Lemma sends_exists key : sends ["EXISTS"; key] (exists_future [key]).
Proof. by apply sends_send. Qed.
Lemma sends_get key : sends ["GET"; key] (get_future key).
Proof. by apply sends_send. Qed.
Lemma sends_del key : sends ["DEL"; key] (del_future [key]).
Proof. by apply sends_send. Qed.
Lemma sends_pexpire key ms : sends ["PEXPIRE"; key; to_string ms] (pexpire_future key ms).
Proof. by apply sends_send. Qed.
Lemma sends_select i : sends ["SELECT"; to_string i] (select_future i).
Proof. by exists (set_database_index i). Qed.

Lemma get_integer_int z s : get_integer (reply_of (VInt z)) s = (Ret (wrap_u64 z), s).
Proof. done. Qed.

Lemma get_string_bulk v s : get_string (reply_of (VBulk v)) s = (Ret v, s).
Proof. done. Qed.

(** ** Words that fit *)

Definition short (s : string) : Prop := (slen s + 2 <= INT32_MAX)%Z.

Lemma short_number z : (INT64_MIN <= z <= INT64_MAX)%Z -> short (to_string z).
Proof. intros Hz. pose proof (to_string_length z Hz). unfold short, INT32_MAX. lia. Qed.

Lemma wrap_s32_range z : (INT32_MIN <= wrap_s32 z <= INT32_MAX)%Z.
Proof.
  unfold wrap_s32, INT32_MIN, INT32_MAX. pose proof (Z.mod_pos_bound (z + 2 ^ 31) (2 ^ 32)). lia.
Qed.

Lemma short_s32 z : short (to_string (wrap_s32 z)).
Proof. apply short_number. pose proof (wrap_s32_range z). unfold INT32_MIN, INT32_MAX, INT64_MIN, INT64_MAX in *. lia. Qed.

Lemma sendable_short cmd : Forall short cmd -> length cmd <= 100 -> sendable cmd = true.
Proof.
  intros Hs Hl. unfold sendable, command_value. cbn [wire_ok]. apply andb_true_iff. split.
  - apply bool_decide_eq_true. rewrite length_fmap. unfold INT64_MAX. lia.
  - apply forallb_forall. intros v Hv%list_elem_of_In. apply list_elem_of_fmap in Hv as (w & -> & Hw).
    cbn [wire_ok]. apply bool_decide_eq_true. rewrite Forall_forall in Hs. by apply Hs.
Qed.
End facts.

Create HintDb wire.
#[export] Hint Resolve short_s32 : wire.
#[export] Hint Extern 1 (short (String _ _)) => (vm_compute; discriminate) : wire.
Ltac sendable := apply sendable_short; [repeat (apply List.Forall_cons; [auto with wire|]); apply List.Forall_nil|simpl; lia].

(** ** Specification of [SetKeyValue], on the databases of the server *)

Definition spec_set (key value : string) (expire : Z) (db : redis_db) : DBResult * redis_db :=
  if (wrap_s32 expire <=? 0)%Z then (kSetKeyFailed, db)
  else
    match r_live key db with
    | Some _ => (kKeyExist, db)
    | None => (kSetKeySucceed, r_put key value (Some (r_now db + wrap_s32 expire)%Z) db)
    end.

(** ** What the server answers *)

Lemma exec_set_command key value px db :
  redis_exec ["SET"; key; value; "PX"; to_string px; "NX"] db =
  exec_set key value (mk_set_options None (Some (to_string px)) true false) db.
Proof. done. Qed.

Lemma exec_set_px key value px db :
  exec_set key value (mk_set_options None (Some (to_string px)) true false) db =
  if (px <=? 0)%Z then (err_expire, db)
  else match r_live key db with
       | Some _ => (VNull, db)
       | None => (VSimple "OK", r_put key value (Some (r_now db + px)%Z) db)
       end.
Proof.
  unfold exec_set, set_deadline. cbn [set_nx set_xx set_ex set_px andb].
  rewrite parse_int_to_string. rewrite Z.mul_1_r. destruct (px <=? 0)%Z; [done|].
  by destruct (r_live key db).
Qed.

Lemma exec_exists_command key db :
  redis_exec ["EXISTS"; key] db = (VInt (match r_live key db with Some _ => 1 | None => 0 end), db).
Proof. done. Qed.

Lemma exec_get_command key db :
  redis_exec ["GET"; key] db = (match r_live key db with Some v => VBulk v | None => VNull end, db).
Proof. done. Qed.

Lemma exec_del_command key db :
  redis_exec ["DEL"; key] db =
  match r_live key db with Some _ => (VInt 1, r_delete key db) | None => (VInt 0, db) end.
Proof. done. Qed.

Lemma exec_pexpire_command key ms db :
  redis_exec ["PEXPIRE"; key; to_string ms] db =
  match r_live key db with
  | None => (VInt 0, db)
  | Some v => (VInt 1, if (ms <=? 0)%Z then r_delete key db else r_put key v (Some (r_now db + ms)%Z) db)
  end.
Proof.
  change (redis_exec ["PEXPIRE"; key; to_string ms] db) with (exec_pexpire key (to_string ms) db).
  unfold exec_pexpire. by rewrite parse_int_to_string.
Qed.

Lemma exec_select_command index db :
  redis_exec ["SELECT"; to_string index] db =
  if (0 <=? index)%Z && (index <? 16)%Z then (VSimple "OK", mk_redis_db index (r_now db) (r_keys db))
  else (err_db_index, db).
Proof.
  change (redis_exec ["SELECT"; to_string index] db) with (exec_select (to_string index) db).
  unfold exec_select. by rewrite parse_int_to_string.
Qed.

(** ** The operations *)

Section operations.
Context {T S R : Type} `{TcpClientLaws T} `{SentinelLookup S} {HR : RedisServer R} {HSpec : RedisSpec R}.

Abbreviation dbr := (db_redis T S R).
Implicit Types s : dbr.

(** One command against a server that follows the documentation. *)
Lemma call_redis cmd f s :
  sends cmd f -> settled_db s -> sendable cmd = true ->
  wire_ok (redis_exec cmd (db_next (server s))).1 = true ->
  exists s', call f s = (Ret (reply_of (redis_exec cmd (db_next (server s))).1), s') /\
    server s' = (execute cmd (server s)).2 /\
    db_view (server s') = (redis_exec cmd (db_next (server s))).2 /\ settled_db s'.
Proof.
  intros Hf Hs Hc Hw. destruct (call_spec cmd f s Hf Hs Hc) as (s' & Hcall & Hr & Hs').
  { by rewrite exec_reply. }
  exists s'. rewrite <- exec_reply. split_and!; [done|done| |done]. by rewrite Hr, exec_view.
Qed.

Lemma set_key_value_run key value expire s :
  settled_db s -> short key -> short value ->
  exists s', SetKeyValue key value expire s = (Ret (spec_set key value expire (db_next (server s))).1, s') /\
    db_view (server s') = (spec_set key value expire (db_next (server s))).2 /\ settled_db s'.
Proof.
  intros Hs Hk Hv. unfold SetKeyValue.
  destruct (call_redis _ _ s (sends_set key value (wrap_s32 expire)) Hs) as (s' & Hcall & _ & Hview & Hs').
  { sendable. }
  { rewrite exec_set_command, exec_set_px. destruct (_ <=? 0)%Z; [done|]. by destruct (r_live _ _). }
  exists s'. rewrite (mbind_Ret _ _ _ _ _ Hcall). rewrite exec_set_command, exec_set_px in Hview |- *.
  unfold spec_set. destruct (wrap_s32 expire <=? 0)%Z; [by split_and!|].
  destruct (r_live key (db_next (server s))); by split_and!.
Qed.

End operations.

(** ** Properties *)

(** C12: End to end: a command issued for a future on an idle client, committed
    and waited for returns exactly the server's answer; the server has
    executed that command once, word for word, and nothing else, and the
    client is idle again. *)
Theorem future_returns_answer {T S R} `{TcpClientLaws T} `{SentinelLookup S} `{RedisServer R}
    cmd (s : db_redis T S R) :
  settled_db s -> sendable cmd = true -> wire_ok (execute cmd (server s)).1 = true ->
  exists s', call (send_future cmd) s = (Ret (reply_of (execute cmd (server s)).1), s') /\
    server s' = (execute cmd (server s)).2 /\ settled_db s'.
Proof. intros Hs Hc Hv. apply (call_spec cmd (send_future cmd) s); [|done..]. apply sends_send. reflexivity. Qed.

(** [SetKeyValue] refines an atomic conditional store, against any server
    that follows the documentation and whatever its other clients do between
    commands: it stores the value with its deadline and reports success when
    the key is free, reports [kKeyExist] and changes nothing when it is taken,
    and fails when the period does not fit a positive [int]. *)
Theorem set_key_value_refines {T S R} `{TcpClientLaws T} `{SentinelLookup S} `{RedisSpec R}
    key value expire (s : db_redis T S R) :
  settled_db s -> short key -> short value ->
  exists s', SetKeyValue key value expire s = (Ret (spec_set key value expire (db_next (server s))).1, s') /\
    db_view (server s') = (spec_set key value expire (db_next (server s))).2 /\ settled_db s'.
Proof. intros. by apply set_key_value_run. Qed.

(** [DelKeyValue] is not atomic: when between its GET and its DEL the key
    expires and another client stores its own value, the other client's key is
    deleted, and success reported. *)
Theorem del_key_value_steals {T S} `{TcpClientLaws T} `{SentinelLookup S} key value other steal rest db
    (s : db_redis T S busy_server) :
  settled_db s -> short key -> short value ->
  server s = mk_busy db (id :: id :: steal :: rest) ->
  r_live key db = Some value -> r_live key (steal db) = Some other ->
  exists s', DelKeyValue key value s = (Ret kDelKeySucceed, s') /\
    busy_db (server s') = r_delete key (steal db).
Proof.
  intros Hs Hk Hval Hr Hl Hsteal. unfold DelKeyValue.
  destruct (call_redis _ _ s (sends_exists key) Hs) as (s1 & E1 & Hr1 & _ & Hs1).
  { sendable. }
  { rewrite exec_exists_command. cbn [fst]. destruct (r_live key (db_next (server s))); reflexivity. }
  rewrite Hr in E1, Hr1. cbn [db_next busy_spec busy_next others busy_db execute busy_redis id tail] in E1, Hr1.
  rewrite exec_exists_command, Hl in E1, Hr1. cbn [fst snd] in E1, Hr1.
  rewrite (mbind_Ret _ _ _ _ _ E1), (mbind_Ret _ _ _ _ _ (get_integer_int _ s1)). change (wrap_u64 1 =? 0)%Z with false. cbn match.
  destruct (call_redis _ _ s1 (sends_get key) Hs1) as (s2 & E2 & Hr2 & _ & Hs2).
  { sendable. }
  { rewrite exec_get_command, Hr1. cbn [db_next busy_spec busy_next others busy_db id]. rewrite Hl.
    cbn [fst wire_ok]. by apply bool_decide_eq_true. }
  rewrite Hr1 in E2, Hr2. cbn [db_next busy_spec busy_next others busy_db execute busy_redis id tail] in E2, Hr2.
  rewrite exec_get_command, Hl in E2, Hr2. cbn [fst snd] in E2, Hr2.
  rewrite (mbind_Ret _ _ _ _ _ E2), (mbind_Ret _ _ _ _ _ (get_string_bulk _ s2)). rewrite bool_decide_eq_true_2 by done.
  destruct (call_redis _ _ s2 (sends_del key) Hs2) as (s3 & E3 & Hr3 & _ & _).
  { sendable. }
  { rewrite exec_del_command. destruct (r_live key (db_next (server s2))); reflexivity. }
  rewrite Hr2 in E3, Hr3. cbn [db_next busy_spec busy_next others busy_db execute busy_redis id tail] in E3, Hr3.
  rewrite exec_del_command, Hsteal in E3, Hr3. cbn [fst snd] in E3, Hr3.
  rewrite (mbind_Ret _ _ _ _ _ E3), (mbind_Ret _ _ _ _ _ (get_integer_int _ s3)).
  exists s3. split; [done|]. by rewrite Hr3.
Qed.

(** ** Witnesses *)

#[local] Instance no_sentinel : SentinelLookup unit := {| get_master_addr_by_name _ s := (Ret false, (EmptyString, 0%Z), s) |}.

(** The manager, connected to a server in a given state. *)
Definition manager {R} (r : R) : db_redis tacopie.tcp_client unit R :=
  (DBRedis "127.0.0.1" 6379 (tacopie.init [true] []) tt r).2.

Lemma manager_settled {R} (r : R) : settled_db (manager r).
Proof.
  split; [split; [split|]; reflexivity|].
  intros q Hq. change (calls (client (manager r))) with (@nil (nat * reply)) in Hq. inversion Hq.
Qed.

Definition one_key (v : string) : redis_db := mk_redis_db 0 5000 {[ (0%Z, "k") := (v, Some 9000%Z) ]}.

(** The same on a server that takes 3 milliseconds. *)
Definition one_key_server (v : string) : timed := mk_timed (one_key v) [3%N].

Lemma future_returns_answer_witness :
  exists s', call (send_future ["GET"; "k"]) (manager (one_key_server "v1")) =
      (Ret (reply_of (execute ["GET"; "k"] (server (manager (one_key_server "v1")))).1), s') /\
    server s' = (execute ["GET"; "k"] (server (manager (one_key_server "v1")))).2 /\ settled_db s'.
Proof.
  apply future_returns_answer; [apply manager_settled|vm_compute; reflexivity|vm_compute; reflexivity].
Defined.

Lemma set_key_value_refines_witness :
  exists s', SetKeyValue "k" "v1" 30000 (manager (mk_busy (mk_redis_db 0 5000 ∅) [fun _ => one_key "v2"])) =
      (Ret kKeyExist, s') /\
    db_view (server s') = one_key "v2" /\ settled_db s'.
Proof.
  destruct (set_key_value_refines "k" "v1" 30000 (manager (mk_busy (mk_redis_db 0 5000 ∅) [fun _ => one_key "v2"]))) as (s' & E & Hv & Hs);
    [apply manager_settled|vm_compute; discriminate|vm_compute; discriminate|].
  exists s'. split; [rewrite E; f_equal; vm_compute; reflexivity|].
  split; [rewrite Hv; vm_compute; reflexivity|exact Hs].
Defined.

Lemma del_key_value_steals_witness :
  exists s', DelKeyValue "k" "v1" (manager (mk_busy (one_key "v1") [id; id; fun _ => one_key "v2"])) =
      (Ret kDelKeySucceed, s') /\
    busy_db (server s') = r_delete "k" (one_key "v2").
Proof.
  apply (del_key_value_steals "k" "v1" "v2" (fun _ => one_key "v2") [] (one_key "v1"));
    [apply manager_settled|vm_compute; discriminate|vm_compute; discriminate|reflexivity|
     vm_compute; reflexivity|vm_compute; reflexivity].
Defined.
