(* ===== verification/LocalDB.v ===== *)
(** A database in memory that satisfies the laws of [DB]: sixteen databases,
    keys with deadlines on the machine's clock.  The properties of the lock
    are evaluated on it. *)

From S2P Require Import Prelude Text DB.

Record local_db : Type := mk_local_db {
  l_selected : Z;
  l_clock : Z;
  l_keys : gmap (Z * string) (string * Z) }.

(** A 64-bit clock: it stops at the last instant. *)
Definition l_time (w : local_db) : Z := Z.max 0 (Z.min INT64_MAX (l_clock w)).

Definition l_stored (w : local_db) (i : Z) (k : string) : option (string * Z) :=
  match l_keys w !! (i, k) with
  | Some (v, d) => if (l_time w <=? d)%Z then Some (v, d) else None
  | None => None
  end.

Definition l_put (k : string) (x : string * Z) (w : local_db) : local_db :=
  mk_local_db (l_selected w) (l_clock w) (<[(l_selected w, k) := x]> (l_keys w)).

Definition l_set (k v : string) (e : Z) : M local_db DBResult := fun w =>
  match l_stored w (l_selected w) k with
  | Some _ => (Ret kKeyExist, w)
  | None =>
    if (wrap_s32 e <=? 0)%Z then (Ret kSetKeyFailed, w)
    else (Ret kSetKeySucceed, l_put k (v, l_time w + wrap_s32 e)%Z w)
  end.

Definition l_update (k v : string) (e : Z) : M local_db DBResult := fun w =>
  match l_stored w (l_selected w) k with
  | Some (v', _) =>
    if bool_decide (v' = v) then (Ret kUpdateKeySucceed, l_put k (v, l_time w + wrap_s32 e)%Z w)
    else (Ret kKeyValueWrong, w)
  | None => l_set k v e w
  end.

Definition l_del (k v : string) : M local_db DBResult := fun w =>
  match l_stored w (l_selected w) k with
  | Some (v', _) =>
    if bool_decide (v' = v) then
      (Ret kDelKeySucceed, mk_local_db (l_selected w) (l_clock w) (delete (l_selected w, k) (l_keys w)))
    else (Ret kKeyValueWrong, w)
  | None => (Ret kKeyDoesNotExist, w)
  end.

Definition l_select (i : Z) : M local_db DBResult := fun w =>
  if (0 <=? i)%Z && (i <? 16)%Z then (Ret kSelectDBSucceed, mk_local_db i (l_clock w) (l_keys w))
  else (Ret kSelectFunFailed, w).

#[export] Instance local_interface : DBInterface local_db := {|
  SetKeyValue := l_set; UpdateExpire := l_update; DelKeyValue := l_del; SelectDB := l_select |}.

#[export] Instance local_clock : SystemClock local_db := {|
  clock := l_time;
  now w := (l_time w, w);
  sleep_for t w := mk_local_db (l_selected w) (l_clock w + Z.max 0 t) (l_keys w) |}.

#[export] Instance local_store : DBStore local_db := {| selected := l_selected; stored := l_stored |}.

Lemma stored_put k x w i k' :
  l_stored (l_put k x w) i k' =
  if bool_decide ((l_selected w, k) = (i, k')) then (if (l_time w <=? x.2)%Z then Some x else None)
  else l_stored w i k'.
Proof.
  unfold l_stored, l_put. unfold l_time; cbn [l_keys l_clock]. case_bool_decide as Hk.
  - simplify_eq. rewrite lookup_insert_eq. by destruct x.
  - by rewrite lookup_insert_ne.
Qed.

Lemma stored_del w k i k' :
  l_stored (mk_local_db (l_selected w) (l_clock w) (delete (l_selected w, k) (l_keys w))) i k' =
  if bool_decide ((l_selected w, k) = (i, k')) then None else l_stored w i k'.
Proof.
  unfold l_stored. unfold l_time; cbn [l_keys l_clock]. case_bool_decide as Hk.
  - simplify_eq. by rewrite lookup_delete_eq.
  - by rewrite lookup_delete_ne.
Qed.

Lemma l_set_cases k v e w r w' :
  l_set k v e w = (Ret r, w') ->
  (w' = w /\ r <> kSetKeySucceed) \/
  (r = kSetKeySucceed /\ l_stored w (l_selected w) k = None /\ (0 < wrap_s32 e)%Z /\
   w' = l_put k (v, l_time w + wrap_s32 e)%Z w).
Proof.
  unfold l_set. destruct (l_stored _ _ _) eqn:E; [intros; simplify_eq; by left|].
  destruct (wrap_s32 e <=? 0)%Z eqn:El; intros; simplify_eq; [by left|].
  right. apply Z.leb_gt in El. done.
Qed.

#[export] Instance local_laws : DBLaws local_db (fun _ => True).
Proof.
  split.
  - intros v w _. simpl. reflexivity.
  - intros w. simpl. lia.
  - done.
  - intros v t w _. split; cbn [clock local_clock sleep_for stored local_store]; [unfold l_time; cbn [l_clock]; lia|].
    unfold l_stored; cbn [l_keys].
    intros i k d Hd Hle. destruct (l_keys w !! (i, k)) as [[v' d']|]; [|done].
    destruct (l_time w <=? d')%Z; [|done]. simplify_eq. by rewrite (proj2 (Z.leb_le _ _)) by lia.
  - intros v i w r w' _ Hr. unfold SelectDB, local_interface, l_select in Hr.
    destruct (_ && _); simplify_eq; (split; [apply Z.le_refl|done]).
  - intros i w w' Hr. simpl in Hr. unfold l_select in Hr. by destruct (_ && _); simplify_eq.
  - intros v i w r w' j k d _ Hr. simpl in Hr. unfold l_select in Hr. by destruct (_ && _); simplify_eq.
  - intros v v' k e w r w' _ Hr. destruct (l_set_cases _ _ _ _ _ _ Hr) as [[-> _]|(_ & Hn & _ & ->)]; [reflexivity|].
    split; [apply Z.le_refl|]; simpl. intros i k' d Hd _. rewrite stored_put. case_bool_decide as Hk; [|done].
    by simplify_eq.
  - intros v k e w r w' Hr. by destruct (l_set_cases _ _ _ _ _ _ Hr) as [[-> _]|(_ & _ & _ & ->)].
  - intros v k e w w' _ He Hr. destruct (l_set_cases _ _ _ _ _ _ Hr) as [[_ ?]|(_ & Hn & Hp & ->)]; [done|].
    exists (l_time w + wrap_s32 e)%Z. simpl. split.
    + pose proof (wrap_s32_le e He). lia.
    + intros _. rewrite stored_put, bool_decide_eq_true_2 by done. simpl.
      by rewrite (proj2 (Z.leb_le _ _)) by lia.
  - intros v v' k w r w' _ Hne Hr. simpl in Hr. unfold l_del in Hr.
    destruct (l_stored w (l_selected w) k) as [[v1 d1]|] eqn:E; [case_bool_decide|]; simplify_eq; try reflexivity.
    split; [apply Z.le_refl|]; simpl. intros i k' d Hd _. rewrite stored_del. case_bool_decide; [|done]. congruence.
  - intros v k w r w' Hr. simpl in Hr. unfold l_del in Hr.
    destruct (l_stored w (l_selected w) k) as [[v1 d1]|]; [case_bool_decide|]; simplify_eq; apply Z.le_refl.
  - intros v k w r w' Hr. simpl in Hr. unfold l_del in Hr.
    destruct (l_stored w (l_selected w) k) as [[v1 d1]|]; [case_bool_decide|]; by simplify_eq/=.
  - intros v k w r w' _ Hr d. simpl in Hr |- *. unfold l_del in Hr.
    destruct (l_stored w (l_selected w) k) as [[v1 d1]|] eqn:E; [case_bool_decide|]; simplify_eq/=.
    + by rewrite stored_del, bool_decide_eq_true_2.
    + rewrite E. congruence.
    + by rewrite E.
  - intros v k w r w' j k' d _ Hr. simpl in Hr |- *. unfold l_del in Hr.
    destruct (l_stored w (l_selected w) k) as [[v1 d1]|] eqn:E; [case_bool_decide|]; simplify_eq/=; try done.
    rewrite stored_del. by case_bool_decide.
Qed.
