(* ===== verification/DMutex.v ===== *)
(** [dlm::DMutexImpl] and [dlm::DMutex] (src/src/dmutex.cpp): the distributed
    lock over several databases.  Generic in the database, the clock and the
    shuffle of the standard library.

    The state of a call is the world below, the fields of the object, the
    static mutex [mtx_] and the [std::unique_lock] of the running function:
    [lck] tells whether it owns the mutex.  [mtx_] is seen from one thread:
    held means held by this thread, so that locking it again is undefined
    behaviour.  [events] holds what was pushed to the timeout queue, the
    timeouts in milliseconds. *)

From S2P Require Import Prelude Text DB.

Record dmutex_config : Type := mk_dmutex_config {
  hosts_ : list Z;
  key_ : string;
  value_ : string;
  lock_validity_time_ : Z;
  run_time_ : Z;
  time_out_limit_ : Z }.

Record dmutex_state (W : Type) : Type := mk_dmutex {
  world : W;
  have_lock_num_ : list Z;
  lock_status_ : bool;
  lock_continue_ : bool;
  mtx_ : bool;
  lck : bool;
  events : list Z }.
Arguments mk_dmutex {W}.
Arguments world {W}.
Arguments have_lock_num_ {W}.
Arguments lock_status_ {W}.
Arguments lock_continue_ {W}.
Arguments mtx_ {W}.
Arguments lck {W}.
Arguments events {W}.

(** The constructor: [seed] is the text hashed for the random generator of
    the standard library, [generate] that generator's first number. *)
Definition DMutexImpl (generate : string -> Z) (key : string) (hosts : list Z)
    (temp_lock_validity_time_ temp_run_time_ time_since_epoch : Z) : dmutex_config :=
  let temp_str := key +:+ to_string time_since_epoch in
  mk_dmutex_config hosts key (to_string (generate temp_str)) temp_lock_validity_time_ temp_run_time_ 50.

Definition dmutex_init {W} (w : W) : dmutex_state W := mk_dmutex w [] false true false false [].

Section dmutex.
Context {W : Type} `{DBInterface W} `{SystemClock W}.
Context (shuffle : Z -> list Z -> list Z) (c : dmutex_config).

Abbreviation dmutex := (dmutex_state W).

Definition set_world (w : W) (s : dmutex) : dmutex :=
  mk_dmutex w (have_lock_num_ s) (lock_status_ s) (lock_continue_ s) (mtx_ s) (lck s) (events s).
Definition set_have_lock_num (l : list Z) (s : dmutex) : dmutex :=
  mk_dmutex (world s) l (lock_status_ s) (lock_continue_ s) (mtx_ s) (lck s) (events s).
Definition set_status (status continue : bool) (s : dmutex) : dmutex :=
  mk_dmutex (world s) (have_lock_num_ s) status continue (mtx_ s) (lck s) (events s).
Definition set_mutex (mtx own : bool) (s : dmutex) : dmutex :=
  mk_dmutex (world s) (have_lock_num_ s) (lock_status_ s) (lock_continue_ s) mtx own (events s).
Definition push_event (timeout : Z) (s : dmutex) : dmutex :=
  mk_dmutex (world s) (have_lock_num_ s) (lock_status_ s) (lock_continue_ s) (mtx_ s) (lck s)
    (events s ++ [timeout]).

(** A database operation. *)
Definition db {A} (op : M W A) : M dmutex A :=
  fun s => let '(o, w) := op (world s) in (o, set_world w s).

Definition GetCurrentMilliseconds : M dmutex Z :=
  fun s => let '(t, w) := now (world s) in (Ret t, set_world w s).

Definition WaitUntil (limited_time : Z) : M dmutex unit :=
  mmodify (fun s => set_world (sleep_for limited_time (world s)) s).

(** [lck.lock()] and [lck.unlock()] *)
Definition lck_lock : M dmutex unit := fun s =>
  if lck s then (Throw (system_error "Resource deadlock avoided"), s)
  else if mtx_ s then (Undef, s)
  else (Ret tt, set_mutex true true s).

Definition lck_unlock : M dmutex unit := fun s =>
  if lck s then (Ret tt, set_mutex false false s)
  else (Throw (system_error "Operation not permitted"), s).

(** [std::unique_lock<std::mutex> lck(mtx_, std::defer_lock)]: the scope of
    the lock; its destructor releases the mutex if it owns it. *)
Definition with_lck {A} (body : M dmutex A) : M dmutex A := fun s =>
  let '(o, s') := body (set_mutex (mtx_ s) false s) in
  (o, set_mutex (if lck s' then false else mtx_ s') (lck s) s').

Definition is_result (r r' : DBResult) : bool := bool_decide (r = r').

(** ** UnlockAll *)

Fixpoint unlock_loop (hosts : list Z) (temp_lock_size : Z) : M dmutex Z :=
  match hosts with
  | [] => mret temp_lock_size
  | lock_index :: hosts =>
    temp_sele_res ← db (SelectDB lock_index);
    if is_result temp_sele_res kSelectDBSucceed then
      temp_del_res ← db (DelKeyValue (key_ c) (value_ c));
      if is_result temp_del_res kDelKeySucceed then unlock_loop hosts (temp_lock_size + 1)
      else unlock_loop hosts temp_lock_size
    else unlock_loop hosts temp_lock_size
  end.

Definition UnlockAll : M dmutex bool :=
  with_lck (
    _ ← lck_lock;
    _ ← mmodify (set_status false false);
    temp_lock_size ← unlock_loop (hosts_ c) 0;
    s ← mget;
    mret (temp_lock_size =? Z.of_nat (length (have_lock_num_ s)))%Z).

(** ** MainLockFunction

    One turn of the loop for each database still to visit; a turn that fails
    within [time_out_limit_] is taken again.  [n] is the fuel. *)
Fixpoint lock_loop (n : nat) (start_time_milliseconds : Z) (temp_vec : list Z) : M dmutex unit :=
  match temp_vec with
  | [] => mret tt
  | db_index :: rest =>
    match n with
    | O => mtimeout
    | S n =>
      _ ← lck_lock;
      temp_res ← db (SelectDB db_index);
      if is_result temp_res kSelectDBSucceed then
        temp_set_res ← db (SetKeyValue (key_ c) (value_ c) (lock_validity_time_ c));
        _ ← lck_unlock;
        if is_result temp_set_res kSetKeySucceed then
          _ ← mmodify (fun s => set_have_lock_num (have_lock_num_ s ++ [db_index]) s);
          lock_loop n start_time_milliseconds rest
        else if is_result temp_set_res kKeyExist then lock_loop n start_time_milliseconds rest
        else
          t ← GetCurrentMilliseconds;
          if (wrap_u64 (time_out_limit_ c) <=? wrap_u64 (t - start_time_milliseconds))%Z
          then lock_loop n start_time_milliseconds rest
          else lock_loop n start_time_milliseconds temp_vec
      else lock_loop n start_time_milliseconds rest
    end
  end.

Definition majority (have : list Z) : bool := (length (hosts_ c) / 2 + 1 <=? length have)%nat.

(** [have_lock_num_.size() >= hosts_.size() / 2 + 1 && elapsed <= validity]:
    the clock is read only when the first test holds. *)
Definition enough_locks (start_time_milliseconds : Z) : M dmutex bool :=
  s ← mget;
  if majority (have_lock_num_ s) then
    t ← GetCurrentMilliseconds;
    mret (wrap_u64 (t - start_time_milliseconds) <=? wrap_u64 (lock_validity_time_ c))%Z
  else mret false.

Definition MainLockFunction (n : nat) : M dmutex bool :=
  with_lck (
    t ← GetCurrentMilliseconds;
    let start_time_milliseconds := wrap_u64 t in
    let temp_vec := shuffle start_time_milliseconds (hosts_ c) in
    _ ← lock_loop n start_time_milliseconds temp_vec;
    enough ← enough_locks start_time_milliseconds;
    if (enough : bool) then
      _ ← lck_lock;
      _ ← mmodify (set_status true true);
      _ ← mmodify (push_event (Z.quot (run_time_ c) 3 * 2));
      _ ← lck_unlock;
      mret true
    else
      _ ← UnlockAll;
      mret false).

(** ** Lock, TryLock *)

(** [while (true)]; [k] is the fuel. *)
Fixpoint Lock (k n : nat) : M dmutex bool :=
  match k with
  | O => mtimeout
  | S k =>
    _ ← mmodify (set_have_lock_num []);
    locked ← MainLockFunction n;
    if (locked : bool) then mret true
    else
      _ ← WaitUntil (Z.quot (lock_validity_time_ c) 3 * 2);
      Lock k n
  end.

Definition TryLock (n : nat) : M dmutex bool := MainLockFunction n.

Fixpoint try_lock_loop (k n : nat) (start_time_milliseconds expire : Z) : M dmutex bool :=
  match k with
  | O => mtimeout
  | S k =>
    _ ← mmodify (set_have_lock_num []);
    locked ← MainLockFunction n;
    if (locked : bool) then mret true
    else
      _ ← WaitUntil 2000;
      t ← GetCurrentMilliseconds;
      if (wrap_u64 (t - start_time_milliseconds) <? wrap_u64 expire)%Z
      then try_lock_loop k n start_time_milliseconds expire
      else mret false
  end.

Definition TryLock_expire (k n : nat) (expire : Z) : M dmutex bool :=
  t ← GetCurrentMilliseconds;
  try_lock_loop k n (wrap_u64 t) expire.

(** ** KeepLock *)

Fixpoint keep_loop (n : nat) (have : list Z) : M dmutex unit :=
  match have with
  | [] => mret tt
  | db_index :: rest =>
    match n with
    | O => mtimeout
    | S n =>
      _ ← lck_lock;
      temp_res ← db (SelectDB db_index);
      if is_result temp_res kSelectDBSucceed then
        temp_set_res ← db (UpdateExpire (key_ c) (value_ c) (lock_validity_time_ c));
        _ ← lck_unlock;
        if is_result temp_set_res kUpdateKeySucceed then keep_loop n rest
        else keep_loop n have
      else keep_loop n rest
    end
  end.

Definition KeepLock (n : nat) : M dmutex bool :=
  with_lck (
    _ ← lck_lock;
    s ← mget;
    if negb (lock_continue_ s) then mret false
    else if negb (lock_status_ s) then mret true
    else
      _ ← lck_unlock;
      _ ← keep_loop n (have_lock_num_ s);
      mret true).

(** ** DMutex *)

Definition lock (k n : nat) : M dmutex unit := _ ← Lock k n; mret tt.
Definition unlock : M dmutex unit := _ ← UnlockAll; mret tt.
Definition try_lock (n : nat) : M dmutex bool := TryLock n.
Definition try_lock_expire (k n : nat) (expire : Z) : M dmutex bool := TryLock_expire k n expire.
End dmutex.
