(* ===== verification/DMutexFacts.v ===== *)
(** Facts about the distributed lock: mutual exclusion by majority, what a
    successful attempt holds and until when, the end of an attempt, what
    unlocking deletes, and the places where the lock goes wrong. *)

From S2P Require Import Prelude Text DB DMutex.

(** ** Monadic reasoning *)

(** Splits a run that returned into the runs of its parts. *)
Ltac run_inv H :=
  repeat match type of H with
  | (mbind _ _) _ = (Ret _, _) =>
    let a := fresh "a" in let s := fresh "s" in let H1 := fresh "Hrun" in
    apply mbind_inv in H as (a & s & H1 & H)
  end.

(** The primitive computations. *)
Ltac run_prim H :=
  unfold mret, M_ret, mget, mmodify, mtimeout, mthrow, mundef in H; simplify_eq/=.

Section dmutex_facts.
Context {W : Type} {HDB : DBInterface W} {HC : SystemClock W} {HS : DBStore W}.
Context (ours : string -> Prop) {HL : DBLaws W ours}.
Context (shuffle : Z -> list Z -> list Z) (shuffle_perm : forall seed l, Permutation (shuffle seed l) l).

Abbreviation dmutex := (dmutex_state W).
Implicit Types s : dmutex.

(** ** Computations that respect an order on worlds *)

Definition respects {A} (R : relation W) (m : M dmutex A) : Prop :=
  forall s a s', m s = (Ret a, s') -> R (world s) (world s').

(** Time does not go back. *)
Definition later (w w' : W) : Prop := (clock w <= clock w')%Z.

#[export] Instance later_preorder : PreOrder later.
Proof. split; unfold later; [intros w; lia|intros w1 w2 w3; lia]. Qed.

Section respects.
Context (R : relation W) {HR : PreOrder R}.

Lemma respects_bind {A B} (m : M dmutex A) (f : A -> M dmutex B) :
  respects R m -> (forall a, respects R (f a)) -> respects R (m ≫= f).
Proof.
  intros Hm Hf s b s' Hrun. apply mbind_inv in Hrun as (a & s1 & H1 & H2).
  etrans; [by eapply Hm|by eapply Hf].
Qed.

Lemma respects_ret {A} (a : A) : respects R (mret a).
Proof. intros s a' s' Hrun. by run_prim Hrun. Qed.

Lemma respects_timeout {A} : respects R (@mtimeout dmutex A).
Proof. intros s a s' Hrun. by run_prim Hrun. Qed.

Lemma respects_get : respects R (@mget dmutex).
Proof. intros s a s' Hrun. by run_prim Hrun. Qed.

Lemma respects_modify (f : dmutex -> dmutex) :
  (forall s, world (f s) = world s) -> respects R (mmodify f).
Proof. intros Hf s a s' Hrun. run_prim Hrun. by rewrite Hf. Qed.

Lemma respects_lck_lock : respects R (@lck_lock W).
Proof. intros s a s' Hrun. unfold lck_lock in Hrun. by repeat case_match; simplify_eq/=. Qed.

Lemma respects_lck_unlock : respects R (@lck_unlock W).
Proof. intros s a s' Hrun. unfold lck_unlock in Hrun. by repeat case_match; simplify_eq/=. Qed.

Lemma respects_with_lck {A} (m : M dmutex A) : respects R m -> respects R (with_lck m).
Proof.
  intros Hm s a s' Hrun. unfold with_lck in Hrun.
  destruct (m (set_mutex (mtx_ s) false s)) as [o s1] eqn:E. simplify_eq/=.
  apply Hm in E. done.
Qed.

Lemma respects_db {A} (op : M W A) :
  (forall w a w', op w = (Ret a, w') -> R w w') -> respects R (db op).
Proof.
  intros Hop s a s' Hrun. unfold db in Hrun. destruct (op (world s)) as [o w] eqn:E. simplify_eq/=.
  by eapply Hop.
Qed.

Lemma respects_now : (forall w, R w (now w).2) -> respects R (@GetCurrentMilliseconds W HC).
Proof.
  intros Hn s a s' Hrun. unfold GetCurrentMilliseconds in Hrun.
  pose proof (Hn (world s)) as Hk. destruct (now (world s)) as [t w]. by simplify_eq/=.
Qed.

Lemma respects_if {A} (b : bool) (m1 m2 : M dmutex A) :
  respects R m1 -> respects R m2 -> respects R (if b then m1 else m2).
Proof. by destruct b. Qed.

(** The operations of a client, given its primitives. *)
Context (c : dmutex_config).
Context (R_now : forall w, R w (now w).2).
Context (R_select : forall i w r w', SelectDB i w = (Ret r, w') -> R w w').
Context (R_set : forall w r w', SetKeyValue (key_ c) (value_ c) (lock_validity_time_ c) w = (Ret r, w') -> R w w').

#[local] Ltac respect := repeat (first
  [ lazymatch goal with |- forall _, _ => intros ? end
  | apply respects_bind | apply respects_if | apply respects_with_lck | apply respects_ret
  | apply respects_timeout | apply respects_get | apply respects_lck_lock | apply respects_lck_unlock
  | apply respects_modify; intros; reflexivity
  | apply respects_now; assumption | apply respects_db; assumption
  | apply respects_db; intros ???; apply R_select | assumption ]).

Lemma respects_lock_loop n start vec : respects R (lock_loop c n start vec).
Proof.
  revert vec; induction n as [|n IH]; intros [|i rest]; cbn [lock_loop]; respect; auto.
Qed.

Lemma respects_enough start : respects R (enough_locks c start).
Proof. unfold enough_locks. respect. Qed.

Context (R_del : forall w r w', DelKeyValue (key_ c) (value_ c) w = (Ret r, w') -> R w w').

Lemma respects_unlock_loop hosts k : respects R (unlock_loop c hosts k).
Proof.
  revert k; induction hosts as [|i rest IH]; intros k; cbn [unlock_loop]; respect; auto.
Qed.

Lemma respects_UnlockAll : respects R (UnlockAll c).
Proof. unfold UnlockAll. respect. apply respects_unlock_loop. Qed.

Lemma respects_MainLockFunction n : respects R (MainLockFunction shuffle c n).
Proof.
  unfold MainLockFunction. respect; [apply respects_lock_loop|apply respects_unlock_loop].
Qed.
End respects.

Section client.
Context (c : dmutex_config).

Lemma protects_now v : ours v -> respects (keeps v) (@GetCurrentMilliseconds W HC).
Proof. intros Hv. apply (respects_now (keeps v)). intros w. by apply now_keeps. Qed.

Lemma protects_lock_loop v n start vec : ours v -> respects (keeps v) (lock_loop c n start vec).
Proof.
  intros Hv. apply (respects_lock_loop (keeps v)); [by intros; apply now_keeps|by intros; eapply select_keeps|
    by intros; eapply set_keeps].
Qed.

Lemma protects_enough v start : ours v -> respects (keeps v) (enough_locks c start).
Proof. intros Hv. apply (respects_enough (keeps v)). intros; by apply now_keeps. Qed.

(** Another client's attempt keeps our keys. *)
Lemma protects_MainLockFunction v n :
  ours v -> v <> value_ c -> respects (keeps v) (MainLockFunction shuffle c n).
Proof.
  intros Hv Hne. apply (respects_MainLockFunction (keeps v)); [by intros; apply now_keeps|by intros; eapply select_keeps|
    by intros; eapply set_keeps|by intros; eapply del_keeps].
Qed.

Lemma later_MainLockFunction n : ours (value_ c) -> respects later (MainLockFunction shuffle c n).
Proof.
  intros Hv. apply (respects_MainLockFunction later); unfold later.
  - intros w. by apply (now_keeps _ _ Hv).
  - intros i w r w' Hr. by apply (select_keeps _ _ _ _ _ Hv Hr).
  - intros w r w' Hr. by apply (set_keeps _ _ _ _ _ _ _ Hv Hr).
  - intros w r w'. apply del_clock.
Qed.

(** ** An attempt *)

(** A database operation run by the lock. *)
Lemma db_run {A} (op : M W A) s a s' :
  db op s = (Ret a, s') -> op (world s) = (Ret a, world s') /\ s' = set_world (world s') s.
Proof.
  unfold db. destruct (op (world s)) as [o w] eqn:E. intros Hrun. by simplify_eq/=.
Qed.

Lemma lock_run s a s' : lck_lock s = (Ret a, s') ->
  lck s = false /\ mtx_ s = false /\ s' = set_mutex true true s.
Proof. unfold lck_lock. intros Hrun. repeat case_match; by simplify_eq. Qed.

Lemma unlock_run s a s' : lck_unlock s = (Ret a, s') -> lck s = true /\ s' = set_mutex false false s.
Proof. unfold lck_unlock. intros Hrun. repeat case_match; by simplify_eq. Qed.

Lemma now_run s t s' :
  GetCurrentMilliseconds s = (Ret t, s') ->
  s' = set_world (world s') s /\ (clock (world s) <= t <= clock (world s'))%Z /\
  selected (world s') = selected (world s).
Proof.
  unfold GetCurrentMilliseconds. pose proof (now_reads (world s)) as Hr.
  pose proof (now_selected (world s)) as Hs. destruct (now (world s)) as [t' w].
  intros Hrun. by simplify_eq/=.
Qed.

(** What holds of the databases of [new] after an attempt that began at
    [t]: each stores our value, or has expired. *)
Definition acquired (t : Z) (new : list Z) (w : W) : Prop :=
  forall i, i ∈ new -> exists d, (t + lock_validity_time_ c <= d)%Z /\
    ((clock w <= d)%Z -> stored w i (key_ c) = Some (value_ c, d)).

Lemma acquired_keeps t new w w' :
  keeps (value_ c) w w' -> acquired t new w -> acquired t new w'.
Proof.
  intros [Hc Hs] Ha i Hi. destruct (Ha i Hi) as (d & Hd & Hst). exists d. split; [done|].
  intros Hle. apply Hs; [|done]. apply Hst. lia.
Qed.

Lemma acquired_weaken t t' new w : (t <= t')%Z -> acquired t' new w -> acquired t new w.
Proof. intros Ht Ha i Hi. destruct (Ha i Hi) as (d & Hd & Hst). exists d. split; [lia|done]. Qed.

Lemma acquired_app t new1 new2 w : acquired t new1 w -> acquired t new2 w -> acquired t (new1 ++ new2) w.
Proof. intros H1 H2 i Hi. apply elem_of_app in Hi as [Hi|Hi]; auto. Qed.

Lemma lock_loop_acquires n start vec s s' :
  ours (value_ c) -> (lock_validity_time_ c <= INT32_MAX)%Z ->
  lock_loop c n start vec s = (Ret tt, s') ->
  exists new, have_lock_num_ s' = have_lock_num_ s ++ new /\ sublist new vec /\
    acquired (clock (world s)) new (world s').
Proof.
  intros Hv He. revert vec s; induction n as [|n IH]; intros [|i rest] s Hrun; cbn [lock_loop] in Hrun;
    try (run_prim Hrun; exists []; split_and!; [by rewrite app_nil_r|apply sublist_nil|by intros i ?%not_elem_of_nil]); try by run_prim Hrun.
  assert (keeps (value_ c) (world s) (world s')) as Hkeep.
  { by apply (protects_lock_loop _ (S n) start (i :: rest) Hv s tt s'). }
  apply mbind_inv in Hrun as (u & s1 & H1 & Hrun). apply lock_run in H1 as (_ & _ & ->).
  apply mbind_inv in Hrun as (r & s2 & H2 & Hrun). apply db_run in H2 as (H2 & Es2). simpl in H2.
  pose proof (select_keeps _ _ _ _ _ Hv H2) as K2.
  destruct (is_result r kSelectDBSucceed) eqn:Er.
  - apply bool_decide_eq_true in Er as ->.
    apply mbind_inv in Hrun as (r' & s3 & H3 & Hrun). apply db_run in H3 as (H3 & Es3).
    apply mbind_inv in Hrun as (u' & s4 & H4 & Hrun). apply unlock_run in H4 as (_ & ->).
    pose proof (set_keeps _ _ _ _ _ _ _ Hv H3) as K3.
    destruct (is_result r' kSetKeySucceed) eqn:Er'.
    + apply bool_decide_eq_true in Er' as ->.
      apply mbind_inv in Hrun as (u'' & s5 & H5 & Hrun). run_prim H5.
      destruct (IH _ _ Hrun) as (new & Hh & Hsub & Ha).
      pose proof (select_selects _ _ _ H2) as Hsel. exists (i :: new). rewrite Es3, Es2 in Hh. split_and!.
      * rewrite Hh. simpl. by rewrite <- app_assoc.
      * by constructor.
      * destruct (set_stores _ _ _ _ _ Hv He H3) as (d & Hd & Hst).
        pose proof (protects_lock_loop _ n start rest Hv _ _ _ Hrun) as [K4c K4].
        destruct K2 as [K2 _], K3 as [K3 _]. simpl in *.
        intros j [->|Hj]%elem_of_cons.
        -- exists d. split; [lia|]. intros Hle. apply K4; [|done]. rewrite <- Hsel at 1. apply Hst. lia.
        -- destruct (Ha j Hj) as (d' & Hd' & Hst'). exists d'. split; [simpl in *; lia|done].
    + assert (exists s5, keeps (value_ c) (world s3) (world s5) /\ have_lock_num_ s5 = have_lock_num_ s3 /\
        exists vec, (vec = rest \/ vec = i :: rest) /\ lock_loop c n start vec s5 = (Ret tt, s'))
        as (s5 & K5 & Hh5 & vec & Hvec & Hrun5).
      { destruct (is_result r' kKeyExist); [exists (set_mutex false false s3); split_and!; [reflexivity|done|eauto]|].
        apply mbind_inv in Hrun as (t & s6 & H6 & Hrun).
        pose proof (protects_now _ Hv _ _ _ H6) as K6.
        apply now_run in H6 as (Es6 & _). exists s6. split; [done|]. rewrite Es6. split; [done|].
        rewrite <- Es6. destruct (_ <=? _)%Z; eauto. }
      destruct (IH _ _ Hrun5) as (new & Hh & Hsub & Ha). exists new.
      rewrite Hh5, Es3, Es2 in Hh. split_and!; [done| |].
      * destruct Hvec as [-> | ->]; [by apply sublist_cons|done].
      * eapply acquired_weaken; [|done]. destruct K2, K3, K5. simpl in *. lia.
  - destruct (IH _ _ Hrun) as (new & Hh & Hsub & Ha). exists new. rewrite Es2 in Hh. split_and!; [done| |].
    + by apply sublist_cons.
    + eapply acquired_weaken; [|done]. destruct K2. simpl in *. lia.
Qed.
Lemma with_lck_run {A} (m : M dmutex A) s a s' :
  with_lck m s = (Ret a, s') ->
  exists s1, m (set_mutex (mtx_ s) false s) = (Ret a, s1) /\
    s' = set_mutex (if lck s1 then false else mtx_ s1) (lck s) s1.
Proof.
  unfold with_lck. destruct (m _) as [o s1] eqn:E. intros Hrun. simplify_eq. by exists s1.
Qed.

(** The fields a loop of the lock leaves alone. *)
Record same_status (s s' : dmutex) : Prop := {
  same_lock_status : lock_status_ s' = lock_status_ s;
  same_lock_continue : lock_continue_ s' = lock_continue_ s;
  same_events : events s' = events s }.

Lemma lock_loop_status n start vec s s' : lock_loop c n start vec s = (Ret tt, s') -> same_status s s'.
Proof.
  revert vec s; induction n as [|n IH]; intros [|i rest] s Hrun; cbn [lock_loop] in Hrun;
    try (run_prim Hrun; done).
  apply mbind_inv in Hrun as (u & s1 & H1 & Hrun). apply lock_run in H1 as (_ & _ & ->).
  apply mbind_inv in Hrun as (r & s2 & H2 & Hrun). apply db_run in H2 as (_ & Es2).
  assert (forall vec s3, same_status s2 s3 -> lock_loop c n start vec s3 = (Ret tt, s') -> same_status s s') as Hk.
  { intros vec s3 [E1 E2 E3] [F1 F2 F3]%IH. rewrite Es2 in E1, E2, E3. split; simpl in *; congruence. }
  destruct (is_result r kSelectDBSucceed); [|by eapply Hk].
  apply mbind_inv in Hrun as (r' & s3 & H3 & Hrun). apply db_run in H3 as (_ & Es3).
  apply mbind_inv in Hrun as (u' & s4 & H4 & Hrun). apply unlock_run in H4 as (_ & ->).
  assert (same_status s2 s3) as [E1 E2 E3] by (rewrite Es3; done).
  destruct (is_result r' kSetKeySucceed).
  { apply mbind_inv in Hrun as (u'' & s5 & H5 & Hrun). run_prim H5. eapply Hk; [|exact Hrun]. done. }
  destruct (is_result r' kKeyExist); [eapply Hk; [|exact Hrun]; done|].
  apply mbind_inv in Hrun as (t & s6 & H6 & Hrun). apply now_run in H6 as (Es6 & _).
  destruct (_ <=? _)%Z; (eapply Hk; [|exact Hrun]); rewrite Es6; done.
Qed.

(** Times are milliseconds since the epoch, within the signed 64-bit range. *)
Definition sane_times (w w' : W) : Prop := (0 <= clock w)%Z /\ (clock w' <= INT64_MAX)%Z.

Lemma elapsed_check t0 t v :
  (0 <= t0 <= t)%Z -> (t <= INT64_MAX)%Z -> (0 <= v <= INT64_MAX)%Z ->
  (wrap_u64 (t - wrap_u64 t0) <=? wrap_u64 v)%Z = (t - t0 <=? v)%Z.
Proof.
  unfold INT64_MAX. intros Ht Hm Hv. rewrite (wrap_u64_id t0) by lia.
  by rewrite (wrap_u64_id (t - t0)), (wrap_u64_id v) by lia.
Qed.

(** A successful attempt. *)
Lemma main_lock_true n s s' :
  ours (value_ c) -> (0 <= lock_validity_time_ c <= INT32_MAX)%Z -> sane_times (world s) (world s') ->
  MainLockFunction shuffle c n s = (Ret true, s') ->
  exists new t t',
    have_lock_num_ s' = have_lock_num_ s ++ new /\ new ⊆+ hosts_ c /\
    majority c (have_lock_num_ s') = true /\
    (clock (world s) <= t <= t')%Z /\ (t' <= clock (world s'))%Z /\
    (t' - t <= lock_validity_time_ c)%Z /\ acquired t new (world s') /\
    lock_status_ s' = true /\ lock_continue_ s' = true /\
    events s' = events s ++ [(Z.quot (run_time_ c) 3 * 2)%Z] /\ keeps (value_ c) (world s) (world s').
Proof.
  intros Hv He [Hs0 Hs1] Hrun. unfold MainLockFunction in Hrun.
  apply with_lck_run in Hrun as (s9 & Hrun & ->).
  apply mbind_inv in Hrun as (t0 & s1 & H1 & Hrun). pose proof (protects_now _ Hv _ _ _ H1) as K1.
  apply now_run in H1 as (Es1 & Ht0 & _).
  apply mbind_inv in Hrun as (u & s2 & H2 & Hrun). destruct u.
  pose proof (protects_lock_loop _ _ _ _ Hv _ _ _ H2) as K2.
  destruct (lock_loop_acquires _ _ _ _ _ Hv (proj2 He) H2) as (new & Hh & Hsub & Ha).
  destruct (lock_loop_status _ _ _ _ _ H2) as [E1 E2 E3].
  apply mbind_inv in Hrun as (b & s3 & H3 & Hrun). pose proof (protects_enough _ _ Hv _ _ _ H3) as K3.
  destruct b; [|by apply mbind_inv in Hrun as (? & ? & _ & Hrun); run_prim Hrun].
  unfold enough_locks in H3. apply mbind_inv in H3 as (s2' & s2'' & Hg & H3). unfold mget in Hg. injection Hg as <- <-.
  destruct (majority c (have_lock_num_ s2)) eqn:Hmaj; [|by run_prim H3].
  apply mbind_inv in H3 as (t & s4 & H4 & H3). apply now_run in H4 as (Es4 & Ht & _).
  unfold mret, M_ret in H3. injection H3 as Hcheck ->.
  run_inv Hrun. apply lock_run in Hrun0 as (_ & _ & ->). run_prim Hrun1. run_prim Hrun2.
  apply unlock_run in Hrun3 as (_ & ->). run_prim Hrun.
  pose proof (keeps_clock _ _ _ K1). pose proof (keeps_clock _ _ _ K2). simpl in *.
  rewrite elapsed_check in Hcheck by (unfold INT32_MAX, INT64_MAX in *; lia). apply Z.leb_le in Hcheck.
  exists new, t0, t. rewrite Es4 in *. simpl in *. rewrite Es1 in *. simpl in *. split_and!.
  - done.
  - etrans; [by apply sublist_submseteq|]. by rewrite shuffle_perm.
  - done.
  - lia.
  - lia.
  - lia.
  - lia.
  - apply (acquired_keeps _ _ (world s2)); [done|]. eapply acquired_weaken; [|done]. lia.
  - done.
  - done.
  - by rewrite E3.
  - etrans; [exact K1|]. etrans; [exact K2|]. done.
Qed.
(** ** The end of an attempt *)

(** Nothing below runs for ever. *)
Definition no_timeout {A} (m : M W A) : Prop := forall w, (m w).1 <> Timeout.

Lemma bind_timeout {X A B} (m : M X A) (f : A -> M X B) (x : X) :
  (m x).1 <> Timeout -> (forall a x', m x = (Ret a, x') -> (f a x').1 <> Timeout) ->
  ((m ≫= f) x).1 <> Timeout.
Proof.
  unfold mbind, M_bind. intros Hm Hf. destruct (m x) as [[a|e| |] x1]; try done. by apply Hf.
Qed.

Lemma db_timeout {A} (op : M W A) s : no_timeout op -> (db op s).1 <> Timeout.
Proof. intros Ho. unfold db. specialize (Ho (world s)). by destruct (op (world s)). Qed.

Lemma lock_timeout s : (lck_lock s).1 <> Timeout.
Proof. unfold lck_lock. by repeat case_match. Qed.

Lemma unlock_timeout s : (lck_unlock s).1 <> Timeout.
Proof. unfold lck_unlock. by repeat case_match. Qed.

Lemma now_timeout s : (GetCurrentMilliseconds s).1 <> Timeout.
Proof. unfold GetCurrentMilliseconds. by destruct (now (world s)). Qed.

Lemma with_lck_timeout {A} (m : M dmutex A) s :
  (forall s, (m s).1 <> Timeout) -> (with_lck m s).1 <> Timeout.
Proof. intros Hm. unfold with_lck. specialize (Hm (set_mutex (mtx_ s) false s)). by destruct (m _). Qed.

Lemma unlock_loop_timeout hosts k s :
  (forall i, no_timeout (SelectDB i)) -> no_timeout (DelKeyValue (key_ c) (value_ c)) ->
  (unlock_loop c hosts k s).1 <> Timeout.
Proof.
  intros Hsel Hdel. revert k s; induction hosts as [|i rest IH]; intros k s; cbn [unlock_loop]; [done|].
  apply bind_timeout; [by apply db_timeout|]. intros r s1 _.
  destruct (is_result r kSelectDBSucceed); [|apply IH].
  apply bind_timeout; [by apply db_timeout|]. intros r' s2 _. by destruct (is_result r' _); apply IH.
Qed.

Lemma UnlockAll_timeout s :
  (forall i, no_timeout (SelectDB i)) -> no_timeout (DelKeyValue (key_ c) (value_ c)) ->
  (UnlockAll c s).1 <> Timeout.
Proof.
  intros Hsel Hdel. apply with_lck_timeout. clear s. intros s.
  apply bind_timeout; [apply lock_timeout|]. intros _ s1 _.
  apply bind_timeout; [done|]. intros _ s2 _.
  apply bind_timeout; [by apply unlock_loop_timeout|]. intros k s3 _.
  by apply bind_timeout.
Qed.

(** Fuel for one turn per database and one per millisecond left is enough. *)
Lemma lock_loop_timeout n start vec s :
  ours (value_ c) -> (forall w, 0 <= clock w <= INT64_MAX)%Z ->
  (forall i, no_timeout (SelectDB i)) ->
  no_timeout (SetKeyValue (key_ c) (value_ c) (lock_validity_time_ c)) ->
  (forall w r w', SetKeyValue (key_ c) (value_ c) (lock_validity_time_ c) w = (Ret r, w') ->
     r <> kSetKeySucceed -> r <> kKeyExist -> clock w + 1 <= clock w')%Z ->
  (0 <= start <= clock (world s))%Z -> (0 <= time_out_limit_ c <= INT64_MAX)%Z ->
  (Z.of_nat (length vec) + Z.max 0 (time_out_limit_ c - (clock (world s) - start)) <= Z.of_nat n)%Z ->
  (lock_loop c n start vec s).1 <> Timeout.
Proof.
  intros Hv Hcl Hsel Hset Hprog Hst Hlim. revert vec s Hst; induction n as [|n IH];
    intros [|i rest] s Hst Hn; cbn [lock_loop]; try done; [cbn [length] in Hn; lia|].
  apply bind_timeout; [apply lock_timeout|]. intros u s1 H1. apply lock_run in H1 as (_ & _ & ->).
  apply bind_timeout; [by apply db_timeout|]. intros r s2 H2. apply db_run in H2 as (H2 & _).
  pose proof (keeps_clock _ _ _ (select_keeps _ _ _ _ _ Hv H2)) as C2. simpl in C2.
  assert (forall s3, (clock (world s2) <= clock (world s3))%Z -> (lock_loop c n start rest s3).1 <> Timeout) as Hrest.
  { intros s3 Hc. apply IH; [lia|]. cbn [length] in Hn. lia. }
  destruct (is_result r kSelectDBSucceed); [|by apply Hrest].
  apply bind_timeout; [by apply db_timeout|]. intros r' s3 H3. apply db_run in H3 as (H3 & _).
  pose proof (keeps_clock _ _ _ (set_keeps _ _ _ _ _ _ _ Hv H3)) as C3.
  apply bind_timeout; [apply unlock_timeout|]. intros u' s4 H4. apply unlock_run in H4 as (_ & ->).
  destruct (is_result r' kSetKeySucceed) eqn:E1.
  { apply bind_timeout; [done|]. intros u'' s5 H5. run_prim H5. by apply Hrest. }
  destruct (is_result r' kKeyExist) eqn:E2; [by apply Hrest|].
  apply bind_timeout; [apply now_timeout|]. intros t s5 H5. apply now_run in H5 as (_ & Ht & _).
  apply bool_decide_eq_false in E1, E2. pose proof (Hprog _ _ _ H3 E1 E2) as C4.
  pose proof (Hcl (world s5)) as C5. simpl in Ht.
  unfold INT64_MAX in *. rewrite (wrap_u64_id (time_out_limit_ c)), (wrap_u64_id (t - start)) by lia.
  destruct (time_out_limit_ c <=? t - start)%Z eqn:E3; [apply Hrest; lia|].
  apply Z.leb_gt in E3. apply IH; [lia|]. cbn [length] in *. lia.
Qed.

(** ** A database that cannot be selected *)

Definition held (s : dmutex) : Prop := lck s = true /\ mtx_ s = true.

Lemma lock_loop_held n start i rest s : lck s = true -> (lock_loop c n start (i :: rest) s).1 <> Ret tt.
Proof.
  intros Hl. destruct n as [|n]; cbn [lock_loop]; [done|].
  unfold mbind at 1, M_bind at 1, lck_lock at 1. by rewrite Hl.
Qed.

Lemma lock_loop_select_fails n start vec s s' i :
  (forall w w', SelectDB i w <> (Ret kSelectDBSucceed, w')) -> i ∈ vec ->
  lock_loop c n start vec s = (Ret tt, s') -> held s'.
Proof.
  intros Hsel. revert vec s; induction n as [|n IH]; intros [|j rest] s Hi Hrun;
    try (by inversion Hi); cbn [lock_loop] in Hrun; try by run_prim Hrun.
  apply mbind_inv in Hrun as (u & s1 & H1 & Hrun). apply lock_run in H1 as (_ & _ & ->).
  apply mbind_inv in Hrun as (r & s2 & H2 & Hrun). apply db_run in H2 as (H2 & Es2).
  destruct (is_result r kSelectDBSucceed) eqn:Er.
  - apply bool_decide_eq_true in Er as ->. assert (j <> i) as Hne by (intros ->; by apply Hsel in H2).
    assert (i ∈ rest) as Hi' by by apply elem_of_cons in Hi as [->|?].
    run_inv Hrun. destruct (is_result _ kSetKeySucceed); [run_inv Hrun; by eapply IH|].
    destruct (is_result _ kKeyExist); [by eapply IH|].
    run_inv Hrun. destruct (_ <=? _)%Z; (eapply IH; [|exact Hrun]); done.
  - assert (held s2) as Hh by by rewrite Es2.
    destruct rest as [|k rest].
    + destruct n; cbn [lock_loop] in Hrun; by run_prim Hrun.
    + pose proof (lock_loop_held n start k rest s2 (proj1 Hh)) as Hno. by rewrite Hrun in Hno.
Qed.

Lemma enough_held start s b s' : enough_locks c start s = (Ret b, s') -> held s -> held s'.
Proof.
  unfold enough_locks. intros Hrun Hh. apply mbind_inv in Hrun as (s1 & s2 & Hg & Hrun).
  unfold mget in Hg. injection Hg as <- <-. destruct (majority c _); [|by run_prim Hrun].
  apply mbind_inv in Hrun as (t & s3 & H3 & Hrun). apply now_run in H3 as (Es3 & _). run_prim Hrun.
  rewrite Es3. done.
Qed.

(** ** Unlocking *)

(** No key gains our value. *)
Definition spares (v : string) (w w' : W) : Prop :=
  forall j k d, stored w' j k = Some (v, d) -> stored w j k = Some (v, d).

#[export] Instance spares_preorder v : PreOrder (spares v).
Proof. split; [by intros w j k d|]. intros w1 w2 w3 Hs1 Hs2 j k d Hd. by apply Hs1, Hs2. Qed.

Lemma unlock_loop_deletes hosts k s k' s' i :
  ours (value_ c) -> (forall i w r w', SelectDB i w = (Ret r, w') -> r = kSelectDBSucceed) ->
  unlock_loop c hosts k s = (Ret k', s') -> i ∈ hosts ->
  forall d, stored (world s') i (key_ c) <> Some (value_ c, d).
Proof.
  intros Hv Hsel. revert k s; induction hosts as [|j rest IH]; intros k s Hrun Hi; [by apply not_elem_of_nil in Hi|].
  cbn [unlock_loop] in Hrun.
  apply mbind_inv in Hrun as (r & s1 & H1 & Hrun). apply db_run in H1 as (H1 & _).
  pose proof (Hsel _ _ _ _ H1) as ->. pose proof (select_selects _ _ _ H1) as Hs.
  unfold is_result in Hrun. rewrite bool_decide_eq_true_2 in Hrun by done.
  apply mbind_inv in Hrun as (r' & s2 & H2 & Hrun). apply db_run in H2 as (H2 & _).
  assert (exists k2, unlock_loop c rest k2 s2 = (Ret k', s')) as [k2 Hrest]
    by (destruct (bool_decide _); eauto).
  apply elem_of_cons in Hi as [->|Hi]; [|by eapply IH].
  intros d Hd. eapply (del_deletes (ours := ours)); [exact Hv|exact H2|]. rewrite Hs.
  eapply (respects_unlock_loop (spares (value_ c)) c); [..|exact Hrest|exact Hd].
  - intros i w r w' Hr ???. by eapply select_spares.
  - intros w r w' Hr ???. by eapply del_spares.
Qed.

Lemma unlock_loop_status hosts k s k' s' :
  unlock_loop c hosts k s = (Ret k', s') -> same_status s s' /\ have_lock_num_ s' = have_lock_num_ s.
Proof.
  revert k s; induction hosts as [|j rest IH]; intros k s Hrun; cbn [unlock_loop] in Hrun; [by run_prim Hrun|].
  apply mbind_inv in Hrun as (r & s1 & H1 & Hrun). apply db_run in H1 as (_ & Es1).
  assert (same_status s s1 /\ have_lock_num_ s1 = have_lock_num_ s) as [[E1 E2 E3] E4] by (rewrite Es1; done).
  assert (exists k2 s2, same_status s s2 /\ have_lock_num_ s2 = have_lock_num_ s /\
            unlock_loop c rest k2 s2 = (Ret k', s')) as (k2 & s2 & [F1 F2 F3] & F4 & Hrest).
  { destruct (is_result r kSelectDBSucceed); [|by exists k, s1].
    apply mbind_inv in Hrun as (r' & s2 & H2 & Hrun). apply db_run in H2 as (_ & Es2).
    exists (if is_result r' kDelKeySucceed then (k + 1)%Z else k), s2. rewrite Es2. split_and!; [done..|].
    rewrite <- Es2. by destruct (is_result r' kDelKeySucceed). }
  apply IH in Hrest as [[G1 G2 G3] G4]. split; [split|]; congruence.
Qed.
End client.

(** A client that holds a majority of the databases, each for its validity from [t1]
    on, keeps the attempts of another from succeeding until then. *)
Lemma held_excludes c1 c2 n2 have t1 w1 s2 s2' :
  hosts_ c1 = hosts_ c2 -> key_ c1 = key_ c2 -> NoDup (hosts_ c1) ->
  ours (value_ c1) -> ours (value_ c2) -> value_ c1 <> value_ c2 ->
  (0 <= lock_validity_time_ c2 <= INT32_MAX)%Z -> have_lock_num_ s2 = [] ->
  sane_times (world s2) (world s2') ->
  have ⊆+ hosts_ c1 -> majority c1 have = true -> acquired c1 t1 have w1 -> keeps (value_ c1) w1 (world s2) ->
  (clock (world s2') <= t1 + lock_validity_time_ c1)%Z ->
  (clock (world s2') <= clock (world s2) + lock_validity_time_ c2)%Z ->
  MainLockFunction shuffle c2 n2 s2 = (Ret true, s2') -> False.
Proof.
  intros Hh Hk Hnd Ho1 Ho2 Hne He2 Hn2 Hsane Hs1 Hm1 Ha1 Hbetween Hv1 Hv2 Hrun2.
  pose proof (protects_MainLockFunction c2 (value_ c1) n2 Ho1 Hne _ _ _ Hrun2) as Hl2.
  pose proof (keeps_clock _ _ _ Hbetween). pose proof (keeps_clock _ _ _ Hl2).
  destruct (main_lock_true c2 n2 s2 s2' Ho2 He2 Hsane Hrun2)
    as (l2 & t2 & t2' & Hh2 & Hs2 & Hm2 & Hr2 & _ & _ & Ha2 & _).
  rewrite Hn2 in Hh2. unfold majority in Hm1, Hm2. rewrite Hh2, <- Hh in Hm2. rewrite <- Hh in Hs2.
  apply Nat.leb_le in Hm1, Hm2.
  destruct (majority_meets (hosts_ c1) have l2) as (i & Hi1 & Hi2); [done..|].
  destruct (Ha1 i Hi1) as (d1 & Hd1 & Hst1). destruct (Ha2 i Hi2) as (d2 & Hd2 & Hst2).
  assert (stored (world s2') i (key_ c1) = Some (value_ c1, d1)) as Hf1.
  { apply (keeps_stored _ _ _ Hl2); [|lia]. apply (keeps_stored _ _ _ Hbetween); [|lia]. apply Hst1. lia. }
  assert (stored (world s2') i (key_ c1) = Some (value_ c2, d2)) as Hf2.
  { rewrite Hk. apply Hst2. lia. }
  congruence.
Qed.

(** Two attempts that succeed within the validity of both are not of two
    clients: their majorities meet in a database, which stores one value. *)
Lemma majority_excludes c1 c2 n1 n2 s1 s1' s2 s2' :
  hosts_ c1 = hosts_ c2 -> key_ c1 = key_ c2 -> NoDup (hosts_ c1) ->
  ours (value_ c1) -> ours (value_ c2) -> value_ c1 <> value_ c2 ->
  (0 <= lock_validity_time_ c1 <= INT32_MAX)%Z -> (0 <= lock_validity_time_ c2 <= INT32_MAX)%Z ->
  have_lock_num_ s1 = [] -> have_lock_num_ s2 = [] ->
  sane_times (world s1) (world s2') ->
  MainLockFunction shuffle c1 n1 s1 = (Ret true, s1') ->
  keeps (value_ c1) (world s1') (world s2) ->
  (clock (world s2') <= clock (world s1) + lock_validity_time_ c1)%Z ->
  (clock (world s2') <= clock (world s2) + lock_validity_time_ c2)%Z ->
  MainLockFunction shuffle c2 n2 s2 = (Ret true, s2') -> False.
Proof.
  intros Hh Hk Hnd Ho1 Ho2 Hne He1 He2 Hn1 Hn2 [Ht0 Ht1] Hrun1 Hbetween Hv1 Hv2 Hrun2.
  pose proof (later_MainLockFunction c1 n1 Ho1 _ _ _ Hrun1) as Hl1. unfold later in Hl1.
  pose proof (keeps_clock _ _ _ Hbetween).
  pose proof (keeps_clock _ _ _ (protects_MainLockFunction c2 (value_ c1) n2 Ho1 Hne _ _ _ Hrun2)).
  destruct (main_lock_true c1 n1 s1 s1' Ho1 He1 ltac:(split; lia) Hrun1)
    as (l1 & t1 & t1' & Hh1 & Hs1 & Hm1 & Hr1 & _ & _ & Ha1 & _).
  rewrite Hn1 in Hh1. rewrite Hh1 in Hm1.
  apply (held_excludes c1 c2 n2 l1 t1 (world s1') s2 s2'); try done; [by split; lia|lia].
Qed.
End dmutex_facts.
