(* ===== verification/DMutexRenewal.v ===== *)
(** The renewal of the distributed lock: what the database promises of
    [UpdateExpire], what a renewal that returns leaves, and mutual exclusion for as
    long as a lock is renewed. *)

From S2P Require Import Prelude Text DB LocalDB DMutex DMutexFacts.

(** The laws of [UpdateExpire], beside those of [DBLaws]. *)
Class DBRenewLaws (W : Type) `{DBInterface W} `{SystemClock W} `{DBStore W} (ours : string -> Prop) : Prop := {
  update_clock : forall v k e w r w', UpdateExpire k v e w = (Ret r, w') -> (clock w <= clock w')%Z;
  update_selected : forall v k e w r w', UpdateExpire k v e w = (Ret r, w') -> selected w' = selected w;
  update_spares : forall v v' k e w r w', ours v -> v <> v' -> UpdateExpire k v' e w = (Ret r, w') -> keeps v w w';
  update_stores : forall v k e w w', ours v -> (0 < e <= INT32_MAX)%Z ->
    UpdateExpire k v e w = (Ret kUpdateKeySucceed, w') ->
    exists d, (clock w + e <= d)%Z /\ ((clock w' <= d)%Z -> stored w' (selected w) k = Some (v, d));
  update_keeps : forall v k e w r w' i k' d, ours v -> UpdateExpire k v e w = (Ret r, w') ->
    r <> kUpdateKeySucceed \/ (i, k') <> (selected w, k) ->
    stored w i k' = Some (v, d) -> (clock w' <= d)%Z -> stored w' i k' = Some (v, d) }.

(** ** A renewal that returns *)

Section renewal.
Context {W : Type} {HDB : DBInterface W} {HC : SystemClock W} {HS : DBStore W}.
Context (ours : string -> Prop) {HL : DBLaws W ours} {HR : DBRenewLaws W ours}.
Context (c : dmutex_config) (Hours : ours (value_ c)) (Hval : (0 < lock_validity_time_ c <= INT32_MAX)%Z).

(** A database we hold from [t] on is held still. *)
Definition still_held (t i : Z) (w w' : W) : Prop :=
  (clock w <= clock w')%Z /\ ((t <= clock w)%Z -> acquired c t [i] w -> acquired c t [i] w').

#[export] Instance still_held_preorder t i : PreOrder (still_held t i).
Proof.
  split; [intros w; split; [lia|done]|]. intros w1 w2 w3 [C1 H1] [C2 H2]. split; [lia|].
  intros Ht Ha. apply H2; [lia|]. by apply H1.
Qed.

Lemma acquired_one t i w : acquired c t [i] w <->
  exists d, (t + lock_validity_time_ c <= d)%Z /\ ((clock w <= d)%Z -> stored w i (key_ c) = Some (value_ c, d)).
Proof.
  split; [intros Ha; apply Ha, list_elem_of_singleton; done|]. intros Hd j ->%list_elem_of_singleton. exact Hd.
Qed.

Lemma keeps_still t i w w' : keeps (value_ c) w w' -> still_held t i w w'.
Proof. intros Hk. split; [by apply (keeps_clock _ _ _ Hk)|]. intros _. by apply (acquired_keeps c). Qed.

Lemma update_still t i w r w' :
  UpdateExpire (key_ c) (value_ c) (lock_validity_time_ c) w = (Ret r, w') -> still_held t i w w'.
Proof.
  intros Hu. pose proof (update_clock _ _ _ _ _ _ Hu) as Hcl. split; [done|]. rewrite !acquired_one. intros Ht (d & Hd & Hst).
  destruct (decide (r = kUpdateKeySucceed /\ selected w = i)) as [[-> <-]|Hne].
  - destruct (update_stores _ _ _ _ _ Hours Hval Hu) as (d' & Hd' & Hst'). exists d'. split; [lia|done].
  - exists d. split; [done|]. intros Hle. eapply (update_keeps _ _ _ _ _ _ i (key_ c) d Hours Hu); [|by apply Hst; lia|done].
    destruct (decide (r = kUpdateKeySucceed)) as [Hr|Hr]; [right|by left]. intros [= Hi]. by apply Hne.
Qed.

Lemma respects_keep_loop t i n have : respects (still_held t i) (keep_loop c n have).
Proof.
  revert have. induction n as [|n IH]; intros [|j rest]; cbn [keep_loop]; [by apply respects_ret, _|apply respects_timeout|by apply respects_ret, _|].
  apply respects_bind; [apply _|apply respects_lck_lock, _|]. intros _.
  apply respects_bind; [apply _|apply respects_db; intros w r w' Hr; apply keeps_still; by eapply select_keeps|]. intros r.
  apply respects_if; [|apply IH]. apply respects_bind; [apply _|apply respects_db; intros w r' w'; apply update_still|]. intros r'.
  apply respects_bind; [apply _|apply respects_lck_unlock, _|]. intros _. by apply respects_if.
Qed.

(** The databases of the list can be selected. *)
Definition selectable (have : list Z) : Prop :=
  forall i w r w', i ∈ have -> SelectDB i w = (Ret r, w') -> r = kSelectDBSucceed.

(** One turn of the loop that returned: the database is renewed, or tried again. *)
Lemma keep_loop_turn n i rest s s' :
  selectable (i :: rest) -> keep_loop c (S n) (i :: rest) s = (Ret tt, s') ->
  exists s1, (clock (world s) <= clock (world s1))%Z /\ same_status s s1 /\ have_lock_num_ s1 = have_lock_num_ s /\
    (acquired c (clock (world s)) [i] (world s1) /\ keep_loop c n rest s1 = (Ret tt, s') \/
     keep_loop c n (i :: rest) s1 = (Ret tt, s')).
Proof.
  intros Hsel Hrun. cbn [keep_loop] in Hrun.
  apply mbind_inv in Hrun as (u & s0 & H0 & Hrun). apply lock_run in H0 as (_ & _ & ->).
  apply mbind_inv in Hrun as (r & s1 & H1 & Hrun). apply db_run in H1 as (H1 & Es1). cbn [world set_mutex] in H1.
  pose proof (Hsel i _ _ _ (list_elem_of_here i rest) H1) as ->. pose proof (keeps_clock _ _ _ (select_keeps _ _ _ _ _ Hours H1)) as C1.
  change (is_result kSelectDBSucceed kSelectDBSucceed) with true in Hrun. cbv iota in Hrun.
  apply mbind_inv in Hrun as (r' & s2 & H2 & Hrun). apply db_run in H2 as (H2 & Es2).
  pose proof (update_clock _ _ _ _ _ _ H2) as C2.
  apply mbind_inv in Hrun as (u' & s3 & H3 & Hrun). apply unlock_run in H3 as (_ & ->).
  exists (set_mutex false false s2). split_and!; [cbn; lia|rewrite Es2, Es1; done|rewrite Es2, Es1; done|].
  destruct (is_result r' kUpdateKeySucceed) eqn:Er; [left|by right]. apply bool_decide_eq_true in Er as ->. split; [|done].
  apply acquired_one. cbn [world set_mutex]. destruct (update_stores _ _ _ _ _ Hours Hval H2) as (d & Hd & Hst).
  exists d. split; [lia|]. intros Hle. rewrite <- (select_selects _ _ _ H1). by apply Hst.
Qed.

Lemma keep_loop_renews n have s s' :
  selectable have -> keep_loop c n have s = (Ret tt, s') ->
  acquired c (clock (world s)) have (world s') /\ (clock (world s) <= clock (world s'))%Z /\
  same_status s s' /\ have_lock_num_ s' = have_lock_num_ s.
Proof.
  revert have s. induction n as [|n IH]; intros [|i rest] s Hsel Hrun; try by (cbn [keep_loop] in Hrun; run_prim Hrun).
  - cbn [keep_loop] in Hrun. run_prim Hrun. split_and!; [by intros i ?%not_elem_of_nil|lia|done..].
  - cbn [keep_loop] in Hrun. run_prim Hrun. split_and!; [by intros i ?%not_elem_of_nil|lia|done..].
  - apply keep_loop_turn in Hrun as (s1 & C1 & [E1 E2 E3] & E4 & [[Ha Hrun]|Hrun]); [| |done].
    + pose proof (respects_keep_loop (clock (world s)) i n rest _ _ _ Hrun) as [C2 Hst].
      destruct (IH rest s1) as (Hrest & _ & [F1 F2 F3] & F4); [intros j w r w' Hj; apply Hsel; by right|done|].
      split_and!; [|lia|split; congruence|congruence]. apply (acquired_app c _ [i] rest).
      * apply Hst; [done|exact Ha].
      * by apply (acquired_weaken c _ (clock (world s1))).
    + destruct (IH (i :: rest) s1 Hsel Hrun) as (Hrest & C2 & [F1 F2 F3] & F4).
      split_and!; [|lia|split; congruence|congruence]. by apply (acquired_weaken c _ (clock (world s1))).
Qed.

(** A renewal of a lock that is held, and that returns. *)
Lemma KeepLock_renews n s s' b :
  selectable (have_lock_num_ s) -> lock_continue_ s = true -> lock_status_ s = true -> KeepLock c n s = (Ret b, s') ->
  b = true /\ acquired c (clock (world s)) (have_lock_num_ s) (world s') /\
  same_status s s' /\ have_lock_num_ s' = have_lock_num_ s /\ (clock (world s) <= clock (world s'))%Z.
Proof.
  intros Hsel Hcont Hstat Hrun. unfold KeepLock in Hrun. apply with_lck_run in Hrun as (s1 & Hrun & ->).
  apply mbind_inv in Hrun as (u & s2 & H2 & Hrun). apply lock_run in H2 as (_ & _ & ->).
  apply mbind_inv in Hrun as (s3 & s4 & H3 & Hrun). unfold mget in H3. injection H3 as <- <-.
  cbn [lock_continue_ lock_status_ set_mutex have_lock_num_] in Hrun. rewrite Hcont, Hstat in Hrun. cbn [negb] in Hrun.
  apply mbind_inv in Hrun as (u4 & s5 & H5 & Hrun). apply unlock_run in H5 as (_ & ->).
  apply mbind_inv in Hrun as (u6 & s6 & H6 & Hrun). destruct u6. run_prim Hrun.
  apply keep_loop_renews in H6 as (Ha & C & [F1 F2 F3] & F4); [|done]. cbn in *. by split_and!.
Qed.
End renewal.

(** ** A lock that is renewed *)

Section lease.
Context {W : Type} {HDB : DBInterface W} {HC : SystemClock W} {HS : DBStore W}.
Context (ours : string -> Prop) {HL : DBLaws W ours} {HR : DBRenewLaws W ours}.
Context (shuffle : Z -> list Z -> list Z) (shuffle_perm : forall seed l, Permutation (shuffle seed l) l).

(** A lock whose last attempt or renewal began at [t]: it was taken, and the timeout
    queue has run [KeepLock] on it any number of times, whatever happened to the
    databases in between. *)
Inductive renewed (c : dmutex_config) : Z -> dmutex_state W -> Prop :=
| renewed_locked n s s' :
    have_lock_num_ s = [] -> sane_times (world s) (world s') -> MainLockFunction shuffle c n s = (Ret true, s') ->
    renewed c (clock (world s)) s'
| renewed_again t n s w s' :
    renewed c t s -> KeepLock c n (set_world w s) = (Ret true, s') -> renewed c (clock w) s'.

Section client.
Context (c : dmutex_config) (Hours : ours (value_ c)) (Hval : (0 < lock_validity_time_ c <= INT32_MAX)%Z).
Context (Hsel : selectable (hosts_ c)).

Lemma renewed_holds t s :
  renewed c t s ->
  have_lock_num_ s ⊆+ hosts_ c /\ majority c (have_lock_num_ s) = true /\ acquired c t (have_lock_num_ s) (world s) /\
  lock_status_ s = true /\ lock_continue_ s = true /\ (t <= clock (world s))%Z.
Proof.
  induction 1 as [n s s' Hn Hsane Hrun|t n s w s' _ (Hsub & Hm & _ & Hst & Hco & _) Hrun].
  - destruct (main_lock_true ours shuffle shuffle_perm c n s s' Hours ltac:(lia) Hsane Hrun)
      as (new & t & t' & Hh & Hsub & Hm & Ht & Ht' & _ & Ha & Hls & Hlc & _). rewrite Hn in Hh. cbn [app] in Hh. rewrite Hh in *.
    split_and!; try done; [|lia]. by apply (acquired_weaken c _ t); [lia|].
  - apply (KeepLock_renews ours c Hours Hval) in Hrun as (_ & Ha & [E1 E2 E3] & E4 & C); [|..|done|done].
    + rewrite E1, E2, E4. cbn in *. by split_and!.
    + intros i w0 r w1 Hi. apply Hsel. by eapply elem_of_submseteq.
Qed.
End client.

(** C1: Mutual exclusion for as long as the lock is renewed.  When the databases of the
    configuration can be selected, a lock that held nothing, was taken, and was then
    renewed any number of times ([KeepLock] returned true), whatever happened in
    between, holds a majority of the databases, each storing its value for the validity
    period counted from the start of the last renewal.  Until this period has run out,
    and within its own validity, no attempt of another client succeeds that uses the
    same databases and key and a value of its own, and that starts with an empty list
    ([stale_majority_breaks_trylock] is about one that does not), when what the lock
    stored is kept from the last renewal to the start of that attempt: the lock has not
    been released. *)
Theorem renewed_lock_excludes c1 c2 n2 t s1 s2 s2' :
  hosts_ c1 = hosts_ c2 -> key_ c1 = key_ c2 -> NoDup (hosts_ c1) ->
  ours (value_ c1) -> ours (value_ c2) -> value_ c1 <> value_ c2 ->
  (0 < lock_validity_time_ c1 <= INT32_MAX)%Z -> (0 <= lock_validity_time_ c2 <= INT32_MAX)%Z ->
  selectable (hosts_ c1) -> renewed c1 t s1 ->
  (lock_status_ s1 = true /\ majority c1 (have_lock_num_ s1) = true /\
   forall i, i ∈ have_lock_num_ s1 -> exists d, (t + lock_validity_time_ c1 <= d)%Z /\
     ((clock (world s1) <= d)%Z -> stored (world s1) i (key_ c1) = Some (value_ c1, d))) /\
  (have_lock_num_ s2 = [] -> sane_times (world s2) (world s2') -> keeps (value_ c1) (world s1) (world s2) ->
   (clock (world s2') <= t + lock_validity_time_ c1)%Z -> (clock (world s2') <= clock (world s2) + lock_validity_time_ c2)%Z ->
   MainLockFunction shuffle c2 n2 s2 <> (Ret true, s2')).
Proof.
  intros Hh Hk Hnd Ho1 Ho2 Hne Hv1 Hv2 Hsel Hren.
  destruct (renewed_holds c1 Ho1 Hv1 Hsel t s1 Hren) as (Hsub & Hm & Ha & Hst & _ & _).
  split; [by split_and!|]. intros Hn2 Hsane Hkeep Ht1 Ht2 Hrun2.
  by apply (held_excludes ours shuffle shuffle_perm c1 c2 n2 (have_lock_num_ s1) t (world s1) s2 s2').
Qed.
End lease.

(** ** The database in memory *)

Lemma l_update_cases k v e w r w' :
  l_update k v e w = (Ret r, w') ->
  (exists d, r = kUpdateKeySucceed /\ l_stored w (l_selected w) k = Some (v, d) /\ w' = l_put k (v, l_time w + wrap_s32 e)%Z w) \/
  (r <> kUpdateKeySucceed /\ (w' = w \/ l_stored w (l_selected w) k = None /\ w' = l_put k (v, l_time w + wrap_s32 e)%Z w)).
Proof.
  unfold l_update. destruct (l_stored w (l_selected w) k) as [[v' d]|] eqn:E.
  - case_bool_decide as Hv; intros; simplify_eq; [left; by exists d|right]. split; [done|by left].
  - unfold l_set. rewrite E. destruct (_ <=? 0)%Z; intros; simplify_eq; right; (split; [done|]); [by left|by right].
Qed.

#[export] Instance local_renew_laws : DBRenewLaws local_db (fun _ => True).
Proof.
  split.
  - intros v k e w r w' [(d & _ & _ & ->)|[_ [->|[_ ->]]]]%l_update_cases; apply Z.le_refl.
  - intros v k e w r w' [(d & _ & _ & ->)|[_ [->|[_ ->]]]]%l_update_cases; done.
  - intros v v' k e w r w' _ Hne Hu. apply l_update_cases in Hu as [(d & _ & Hd & ->)|[_ [->|[Hd ->]]]]; [|done|];
      (split; [apply Z.le_refl|]); cbn [stored local_store]; intros i k' d' Hi _; rewrite stored_put;
      (case_bool_decide as Hk; [|done]); injection Hk as <- <-; congruence.
  - intros v k e w w' _ [He1 He2] [(d & _ & _ & ->)|[? _]]%l_update_cases; [|done].
    exists (l_time w + wrap_s32 e)%Z. rewrite wrap_s32_id by (unfold INT32_MIN in *; lia). split; [cbn; lia|]. intros Hle.
    cbn [stored local_store selected] in *. rewrite stored_put, bool_decide_eq_true_2 by done. cbn [snd]. by rewrite (proj2 (Z.leb_le _ _)) by (cbn in *; lia).
  - intros v k e w r w' i k' d _ Hu Hor Hi Hle. cbn [stored local_store selected] in *.
    apply l_update_cases in Hu as [(d' & -> & Hd & ->)|[_ [->|[Hd ->]]]]; [|done|];
      rewrite stored_put; (case_bool_decide as Hk; [|done]).
    + destruct Hor as [?|Hne]; [done|]. by destruct Hne.
    + injection Hk as <- <-. congruence.
Qed.

(** Three databases and two clients: the first takes the lock, loses no time, and is
    renewed after 20 seconds; the second tries when the first validity is over. *)
Definition renewal_config (v : string) : dmutex_config := mk_dmutex_config [0; 1; 2]%Z "k" v 30000 20000 50.
Definition unshuffled (_ : Z) (l : list Z) : list Z := l.
Definition renewal_start : dmutex_state local_db := dmutex_init (mk_local_db 0 1000 ∅).
Definition renewal_taken : dmutex_state local_db := (MainLockFunction unshuffled (renewal_config "v1") 60 renewal_start).2.
Definition renewal_later : local_db := sleep_for 20000 (world renewal_taken).
Definition renewal_done : dmutex_state local_db := (KeepLock (renewal_config "v1") 60 (set_world renewal_later renewal_taken)).2.
Definition renewal_other : dmutex_state local_db := dmutex_init (sleep_for 15000 (world renewal_done)).

Lemma renewal_selectable : selectable [0; 1; 2]%Z.
Proof.
  intros i w r w' Hi Hs. cbn [SelectDB local_interface] in Hs. unfold l_select in Hs.
  apply list_elem_of_In in Hi. destruct Hi as [<-|[<-|[<-|[]]]]; by simplify_eq/=.
Qed.

Lemma renewal_is_renewed : renewed unshuffled (renewal_config "v1") 21000 renewal_done.
Proof.
  replace 21000%Z with (clock renewal_later) by (vm_compute; reflexivity).
  apply (renewed_again unshuffled (renewal_config "v1") 1000 60 renewal_taken renewal_later renewal_done).
  - replace 1000%Z with (clock (world renewal_start)) by (vm_compute; reflexivity).
    apply (renewed_locked unshuffled (renewal_config "v1") 60); [done|by vm_compute|vm_compute; reflexivity].
  - vm_compute. reflexivity.
Qed.

Definition renewal_refused : dmutex_state local_db := (MainLockFunction unshuffled (renewal_config "v2") 60 renewal_other).2.

Lemma renewed_lock_excludes_witness :
  (clock (world renewal_start) + 30000 < clock (world renewal_other))%Z /\
  stored (world renewal_done) 2 "k" = Some ("v1", 51000%Z) /\
  MainLockFunction unshuffled (renewal_config "v2") 60 renewal_other <> (Ret true, renewal_refused).
Proof.
  split; [vm_compute; reflexivity|]. split; [vm_compute; reflexivity|].
  destruct (renewed_lock_excludes (fun _ => True) unshuffled (fun _ _ => reflexivity _) (renewal_config "v1") (renewal_config "v2")
    60 21000 renewal_done renewal_other renewal_refused) as [_ Hex].
  - reflexivity.
  - reflexivity.
  - apply (bool_decide_unpack _). vm_compute. exact I.
  - exact I.
  - exact I.
  - discriminate.
  - vm_compute. split; [reflexivity|discriminate].
  - vm_compute. split; discriminate.
  - exact renewal_selectable.
  - exact renewal_is_renewed.
  - apply Hex.
    + reflexivity.
    + vm_compute. split; discriminate.
    + apply sleep_keeps. exact I.
    + vm_compute. discriminate.
    + vm_compute. discriminate.
Defined.
