(* ===== verification/DMutexTheorems.v ===== *)
(** The properties of the distributed lock, with their witnesses on the
    database in memory. *)

From S2P Require Import Prelude Text DB LocalDB DMutex DMutexFacts.

Section properties.
Context {W : Type} {HDB : DBInterface W} {HC : SystemClock W} {HS : DBStore W}.
Context (ours : string -> Prop) {HL : DBLaws W ours}.
Context (shuffle : Z -> list Z -> list Z) (shuffle_perm : forall seed l, Permutation (shuffle seed l) l).
Implicit Types s : dmutex_state W.

(** Mutual exclusion: once an attempt of one client has succeeded, no
    attempt of another client on the same databases and key succeeds before
    the validity period of either has run out. *)
Theorem mutual_exclusion c1 c2 n1 n2 s1 s1' s2 s2' :
  hosts_ c1 = hosts_ c2 -> key_ c1 = key_ c2 -> NoDup (hosts_ c1) ->
  ours (value_ c1) -> ours (value_ c2) -> value_ c1 <> value_ c2 ->
  (0 <= lock_validity_time_ c1 <= INT32_MAX)%Z -> (0 <= lock_validity_time_ c2 <= INT32_MAX)%Z ->
  have_lock_num_ s1 = [] -> have_lock_num_ s2 = [] ->
  sane_times (world s1) (world s2') ->
  MainLockFunction shuffle c1 n1 s1 = (Ret true, s1') ->
  keeps (value_ c1) (world s1') (world s2) ->
  (clock (world s2') <= clock (world s1) + lock_validity_time_ c1)%Z ->
  (clock (world s2') <= clock (world s2) + lock_validity_time_ c2)%Z ->
  MainLockFunction shuffle c2 n2 s2 <> (Ret true, s2').
Proof.
  intros Hh Hk Hnd Ho1 Ho2 Hne He1 He2 Hn1 Hn2 Ht Hrun1 Hbetween Hv1 Hv2 Hrun2.
  by apply (majority_excludes ours shuffle shuffle_perm c1 c2 n1 n2 s1 s1' s2 s2').
Qed.

(** C7: A successful attempt of a lock that held nothing holds a majority: the
    databases in its list are distinct entries of the configuration, more than half
    of it, each stores the lock's value until a deadline not before the end of the
    validity period counted from the start, and the renewal is scheduled.  ([Lock] and
    [TryLock] with a limit empty the list before an attempt; [TryLock] does not.) *)
Theorem lock_success_holds_majority c n s s' :
  ours (value_ c) -> (0 <= lock_validity_time_ c <= INT32_MAX)%Z -> sane_times (world s) (world s') ->
  have_lock_num_ s = [] -> MainLockFunction shuffle c n s = (Ret true, s') ->
  have_lock_num_ s' ⊆+ hosts_ c /\ length (hosts_ c) < 2 * length (have_lock_num_ s') /\
  (exists t t', (clock (world s) <= t <= t')%Z /\ (t' <= clock (world s'))%Z /\ (t' - t <= lock_validity_time_ c)%Z /\
    forall i, i ∈ have_lock_num_ s' -> exists d, (t + lock_validity_time_ c <= d)%Z /\
       ((clock (world s') <= d)%Z -> stored (world s') i (key_ c) = Some (value_ c, d))) /\
  lock_status_ s' = true /\ events s' = events s ++ [(Z.quot (run_time_ c) 3 * 2)%Z].
Proof.
  intros Ho He Hs Hn Hrun.
  destruct (main_lock_true ours shuffle shuffle_perm c n s s' Ho He Hs Hrun)
    as (new & t & t' & Hh & Hsub & Hm & Hr & Hr' & Hel & Ha & Hls & _ & Hev & _).
  rewrite Hn in Hh. cbn [app] in Hh. rewrite <- Hh in *.
  split; [done|]. split; [|split; [by exists t, t'|done]].
  unfold majority in Hm. apply Nat.leb_le in Hm.
  pose proof (Nat.div_mod_eq (length (hosts_ c)) 2).
  pose proof (Nat.mod_upper_bound (length (hosts_ c)) 2). lia.
Qed.

(** C22: An attempt ends: whatever the databases answer, one turn for each of
    them and one for each millisecond of [time_out_limit_] are enough, when a
    failed SET takes at least a millisecond. *)
Theorem main_lock_terminates c n s :
  ours (value_ c) -> (forall w, 0 <= clock w <= INT64_MAX)%Z -> (0 <= time_out_limit_ c <= INT64_MAX)%Z ->
  (forall i, no_timeout (SelectDB i)) ->
  no_timeout (SetKeyValue (key_ c) (value_ c) (lock_validity_time_ c)) ->
  no_timeout (DelKeyValue (key_ c) (value_ c)) ->
  (forall w r w', SetKeyValue (key_ c) (value_ c) (lock_validity_time_ c) w = (Ret r, w') ->
     r <> kSetKeySucceed -> r <> kKeyExist -> clock w + 1 <= clock w')%Z ->
  (Z.of_nat (length (hosts_ c)) + time_out_limit_ c <= Z.of_nat n)%Z ->
  (MainLockFunction shuffle c n s).1 <> Timeout.
Proof.
  intros Ho Hcl Hlim Hsel Hset Hdel Hprog Hn. apply with_lck_timeout. clear s. intros s.
  apply bind_timeout; [apply now_timeout|]. intros t s1 H1. apply (now_run ours) in H1 as (_ & Ht & _).
  pose proof (Hcl (world s)) as C0. pose proof (Hcl (world s1)) as C1. unfold INT64_MAX in *.
  rewrite (wrap_u64_id t) by lia.
  apply bind_timeout.
  { apply (lock_loop_timeout ours); try done; [lia|].
    rewrite (Permutation_length (shuffle_perm t (hosts_ c))). lia. }
  intros u s2 _. apply bind_timeout.
  { unfold enough_locks. apply bind_timeout; [done|]. intros s3 s4 _.
    destruct (majority c _); [|done]. by apply bind_timeout; [apply now_timeout|]. }
  intros b s3 _. destruct b.
  - apply bind_timeout; [apply lock_timeout|]. intros _ s4 _.
    apply bind_timeout; [done|]. intros _ s5 _. apply bind_timeout; [done|]. intros _ s6 _.
    by apply bind_timeout; [apply unlock_timeout|].
  - by apply bind_timeout; [apply UnlockAll_timeout|].
Qed.


(** C24: [TryLock] trusts locks of the past: when the list left by an earlier
    success is a majority, any attempt that returns within the validity
    period returns true, whatever the databases answered and whoever holds
    the keys now. *)
Theorem stale_majority_breaks_trylock c n s b s' :
  ours (value_ c) -> (0 <= lock_validity_time_ c <= INT32_MAX)%Z -> sane_times (world s) (world s') ->
  majority c (have_lock_num_ s) = true ->
  TryLock shuffle c n s = (Ret b, s') ->
  (clock (world s') - clock (world s) <= lock_validity_time_ c)%Z ->
  b = true.
Proof.
  intros Ho He [Hs0 Hs1] Hm Hrun Hv. destruct b; [done|exfalso].
  unfold TryLock, MainLockFunction in Hrun. apply with_lck_run in Hrun as (s9 & Hrun & ->).
  apply mbind_inv in Hrun as (t0 & s1 & H1 & Hrun). apply (now_run ours) in H1 as (Es1 & Ht0 & _).
  apply mbind_inv in Hrun as (u & s2 & H2 & Hrun). destruct u.
  pose proof (protects_lock_loop ours c _ _ _ _ Ho _ _ _ H2) as [K2 _].
  destruct (lock_loop_acquires ours c _ _ _ _ _ Ho (proj2 He) H2) as (new & Hh & _ & _).
  apply mbind_inv in Hrun as (b & s3 & H3 & Hrun).
  unfold enough_locks in H3. apply mbind_inv in H3 as (s2' & s2'' & Hg & H3). unfold mget in Hg. injection Hg as <- <-.
  assert (majority c (have_lock_num_ s2) = true) as Hm2.
  { assert (have_lock_num_ s1 = have_lock_num_ s) as Eh by by rewrite Es1.
    unfold majority in *. apply Nat.leb_le in Hm. apply Nat.leb_le. rewrite Hh, Eh, length_app. lia. }
  rewrite Hm2 in H3. apply mbind_inv in H3 as (t & s4 & H4 & H3). apply (now_run ours) in H4 as (Es4 & Ht & _).
  unfold mret, M_ret in H3. injection H3 as Hcheck <-.
  destruct b.
  { run_inv Hrun. run_prim Hrun. }
  assert (clock (world s4) <= clock (world s9))%Z as K4.
  { apply mbind_inv in Hrun as (b' & s5 & H5 & Hrun). run_prim Hrun.
    eapply (respects_UnlockAll later c) in H5; [exact H5|..]; unfold later.
    - intros i w r w' Hr. by apply (select_keeps _ _ _ _ _ Ho Hr).
    - intros w r w'. apply del_clock. }
  simpl in *. rewrite elapsed_check in Hcheck by (unfold INT32_MAX, INT64_MAX in *; lia).
  apply Z.leb_gt in Hcheck. lia.
Qed.

(** A database that cannot be selected is fatal: an attempt that has one
    in its list never returns, neither true nor false; the function's lock is
    left owned, so that the next [lock()] throws or deadlocks. *)
Theorem unselectable_database_is_fatal c n s i b s' :
  (forall w w', SelectDB i w <> (Ret kSelectDBSucceed, w')) -> i ∈ hosts_ c ->
  MainLockFunction shuffle c n s <> (Ret b, s').
Proof.
  intros Hsel Hi Hrun. unfold MainLockFunction in Hrun. apply with_lck_run in Hrun as (s9 & Hrun & ->).
  apply mbind_inv in Hrun as (t0 & s1 & H1 & Hrun).
  apply mbind_inv in Hrun as (u & s2 & H2 & Hrun). destruct u.
  apply lock_loop_select_fails with (i := i) in H2; [|done|by rewrite shuffle_perm].
  apply mbind_inv in Hrun as (enough & s3 & H3 & Hrun). apply (enough_held ours) in H3 as [Hl Hm]; [|done].
  destruct enough.
  - apply mbind_inv in Hrun as (u & s4 & H4 & _). apply lock_run in H4 as (Hf & _). congruence.
  - apply mbind_inv in Hrun as (u & s4 & H4 & _). unfold UnlockAll in H4.
    apply with_lck_run in H4 as (s5 & H4 & _). apply mbind_inv in H4 as (u' & s6 & H6 & _).
    apply lock_run in H6 as (_ & Hf & _). simpl in Hf. congruence.
Qed.
End properties.

(** The renewal spins when a key has been taken over: if the databases can
    be selected but one of the locks cannot be renewed any more, [KeepLock]
    runs for ever. *)
Theorem keep_lock_spins {W} {HDB : DBInterface W} c n (s : dmutex_state W) i rest :
  mtx_ s = false -> lock_continue_ s = true -> lock_status_ s = true -> have_lock_num_ s = i :: rest ->
  (forall w, exists w', SelectDB i w = (Ret kSelectDBSucceed, w')) ->
  (forall w, exists w', UpdateExpire (key_ c) (value_ c) (lock_validity_time_ c) w = (Ret kKeyValueWrong, w')) ->
  (KeepLock c n s).1 = Timeout.
Proof.
  intros Hm Hc Hs Hh Hsel Hupd.
  assert (forall s : dmutex_state W, lck s = false -> mtx_ s = false ->
            (keep_loop c n (i :: rest) s).1 = Timeout) as Hloop.
  { induction n as [|n IH]; intros s1 Hl1 Hm1; cbn [keep_loop]; [done|].
    destruct (Hsel (world s1)) as [w1 E1]. destruct (Hupd w1) as [w2 E2].
    unfold mbind, M_bind, lck_lock, db. rewrite Hl1, Hm1. cbn [world set_mutex]. rewrite E1.
    change (is_result kSelectDBSucceed kSelectDBSucceed) with true. cbn match. cbn [world set_world]. rewrite E2.
    cbn [lck set_world set_mutex]. change (is_result kKeyValueWrong kUpdateKeySucceed) with false. cbn match.
    by apply IH. }
  unfold KeepLock, with_lck, mbind at 1, M_bind at 1, lck_lock at 1. cbn [lck mtx_ set_mutex]. rewrite Hm.
  unfold mbind, M_bind, mget, lck_unlock. cbn [lock_continue_ lock_status_ set_mutex negb have_lock_num_ lck].
  rewrite Hc, Hs. cbn [negb lck set_mutex]. rewrite Hh.
  match goal with |- context [keep_loop c n (i :: rest) ?x] =>
    pose proof (Hloop x eq_refl eq_refl) as Hx; destruct (keep_loop c n (i :: rest) x) as [o s2] end.
  simpl in Hx. by subst.
Qed.

(** ** Witnesses

    Two clients of three databases in memory, which visit them in order. *)

Definition config_of (v : string) : dmutex_config := mk_dmutex_config [0; 1; 2]%Z "k" v 30000 20000 50.

Definition in_order (seed : Z) (l : list Z) : list Z := l.

Lemma in_order_perm seed l : Permutation (in_order seed l) l.
Proof. done. Qed.

Definition empty_db : local_db := mk_local_db 0 1000 ∅.

Definition first_attempt : outcome bool * dmutex_state local_db :=
  MainLockFunction in_order (config_of "v1") 60 (dmutex_init empty_db).

Definition second_attempt : outcome bool * dmutex_state local_db :=
  MainLockFunction in_order (config_of "v2") 60 (dmutex_init (world first_attempt.2)).

Lemma mutual_exclusion_witness :
  first_attempt.1 = Ret true /\
  MainLockFunction in_order (config_of "v2") 60 (dmutex_init (world first_attempt.2)) <>
    (Ret true, second_attempt.2).
Proof.
  split; [vm_compute; reflexivity|].
  apply (mutual_exclusion (fun _ => True) in_order in_order_perm (config_of "v1") (config_of "v2") 60 60
    (dmutex_init empty_db) first_attempt.2).
  - reflexivity.
  - reflexivity.
  - apply (bool_decide_unpack _). vm_compute. exact I.
  - exact I.
  - exact I.
  - discriminate.
  - vm_compute. split; discriminate.
  - vm_compute. split; discriminate.
  - reflexivity.
  - reflexivity.
  - vm_compute. split; discriminate.
  - vm_compute. reflexivity.
  - reflexivity.
  - vm_compute. discriminate.
  - vm_compute. discriminate.
Defined.

Lemma lock_success_holds_majority_witness :
  have_lock_num_ first_attempt.2 ⊆+ [0; 1; 2]%Z /\ length [0; 1; 2]%Z < 2 * length (have_lock_num_ first_attempt.2) /\
  (exists t t', (clock empty_db <= t <= t')%Z /\ (t' <= clock (world first_attempt.2))%Z /\ (t' - t <= 30000)%Z /\
    forall i, i ∈ have_lock_num_ first_attempt.2 -> exists d, (t + 30000 <= d)%Z /\
       ((clock (world first_attempt.2) <= d)%Z -> stored (world first_attempt.2) i "k" = Some ("v1", d))) /\
  lock_status_ first_attempt.2 = true /\ events first_attempt.2 = [] ++ [(Z.quot 20000 3 * 2)%Z].
Proof.
  apply (lock_success_holds_majority (fun _ => True) in_order in_order_perm (config_of "v1") 60 (dmutex_init empty_db)).
  - exact I.
  - vm_compute. split; discriminate.
  - vm_compute. split; discriminate.
  - reflexivity.
  - vm_compute. reflexivity.
Defined.

Lemma l_time_bound w : (0 <= l_time w <= INT64_MAX)%Z.
Proof. unfold l_time, INT64_MAX. lia. Qed.

(** A database that always fails to store, after 20 milliseconds (at the end of time it
    throws): the second one. *)
Definition f_set (k v : string) (e : Z) : M local_db DBResult := fun w =>
  if decide (l_selected w = 1%Z) then
    if (l_time w + 20 <=? INT64_MAX)%Z
    then (Ret kSetKeyFailed, mk_local_db (l_selected w) (l_time w + 20) (l_keys w))
    else (Throw (redis_error "timeout"), w)
  else l_set k v e w.

#[local] Instance failing_interface : DBInterface local_db := {|
  SetKeyValue := f_set; UpdateExpire := l_update; DelKeyValue := l_del; SelectDB := l_select |}.

Lemma f_set_cases k v e w r w' :
  f_set k v e w = (Ret r, w') ->
  r = kSetKeyFailed /\ w' = mk_local_db (l_selected w) (l_time w + 20) (l_keys w) /\ l_time w' = (l_time w + 20)%Z \/
  l_set k v e w = (Ret r, w').
Proof.
  unfold f_set. destruct (decide _); [|by right]. destruct (Z.leb_spec (l_time w + 20) INT64_MAX); [|done].
  intros [= <- <-]. left. split_and!; [done..|]. unfold l_time in *. cbn [l_clock]. lia.
Qed.

#[local] Instance failing_laws : @DBLaws local_db failing_interface _ _ (fun _ => True).
Proof.
  destruct local_laws. split; try assumption.
  - intros v v' k e w r w' Ho [(_ & -> & Ht)|Hr]%f_set_cases; [|by eapply set_keeps].
    split; cbn [clock local_clock stored local_store]; [lia|]. unfold l_stored. cbn [l_keys]. intros i k' d Hd Hle.
    destruct (l_keys w !! (i, k')) as [[v1 d1]|]; [|done]. destruct (l_time w <=? d1)%Z; [|done]. simplify_eq.
    by rewrite (proj2 (Z.leb_le _ _)).
  - intros v k e w r w' [(_ & -> & _)|Hr]%f_set_cases; [done|]. by eapply set_selected.
  - intros v k e w w' Ho He [(? & _)|Hr]%f_set_cases; [done|]. by eapply set_stores.
Qed.

(** Three attempts at the second database take more than the limit of 50 milliseconds;
    the other two are a majority. *)
Definition failing_attempt : outcome bool * dmutex_state local_db :=
  @MainLockFunction local_db failing_interface _ in_order (config_of "v1") 53 (dmutex_init empty_db).

Lemma main_lock_terminates_witness :
  failing_attempt.1 = Ret true /\ have_lock_num_ failing_attempt.2 = [0; 2]%Z /\ clock (world failing_attempt.2) = 1060%Z /\
  (@MainLockFunction local_db failing_interface _ in_order (config_of "v1") 53 (dmutex_init empty_db)).1 <> Timeout.
Proof.
  split; [vm_compute; reflexivity|]. split; [vm_compute; reflexivity|]. split; [vm_compute; reflexivity|].
  apply (@main_lock_terminates local_db failing_interface _ _ (fun _ => True) failing_laws in_order in_order_perm).
  - exact I.
  - exact l_time_bound.
  - vm_compute. split; discriminate.
  - intros i w. simpl. unfold l_select. destruct (_ && _); discriminate.
  - intros w. simpl. unfold f_set. destruct (decide _); [destruct (_ <=? _)%Z; discriminate|].
    unfold l_set. destruct (l_stored _ _ _); [discriminate|]. destruct (_ <=? _)%Z; discriminate.
  - intros w. simpl. unfold l_del. destruct (l_stored _ _ _) as [[v d]|]; [destruct (bool_decide _)|]; discriminate.
  - intros w r w' Hr Hs He. cbn [SetKeyValue failing_interface] in Hr.
    apply f_set_cases in Hr as [(_ & _ & Ht)|Hr]; [cbn [clock local_clock]; lia|]. unfold l_set in Hr.
    destruct (l_stored _ _ _); [congruence|]. change (wrap_s32 _ <=? 0)%Z with false in Hr. congruence.
  - vm_compute. discriminate.
Defined.




(** A lock was held, released, and taken by the other client; then the first
    tries again. *)
Definition after_release : dmutex_state local_db :=
  (@UnlockAll local_db local_interface (config_of "v1") first_attempt.2).2.

Definition taken_over : dmutex_state local_db :=
  set_world (world (@MainLockFunction local_db local_interface _ in_order (config_of "v2") 60
    (dmutex_init (world after_release))).2) after_release.

Lemma stale_majority_breaks_trylock_witness :
  stored (world taken_over) 0 "k" = Some ("v2", 31000%Z) /\
  (@TryLock local_db local_interface _ in_order (config_of "v1") 60 taken_over).1 = Ret true /\ true = true.
Proof.
  split; [vm_compute; reflexivity|]. split; [vm_compute; reflexivity|].
  apply (@stale_majority_breaks_trylock local_db local_interface _ _ (fun _ => True) local_laws in_order
    (config_of "v1") 60 taken_over true
    (@TryLock local_db local_interface _ in_order (config_of "v1") 60 taken_over).2).
  - exact I.
  - vm_compute. split; discriminate.
  - vm_compute. split; discriminate.
  - vm_compute. reflexivity.
  - vm_compute. reflexivity.
  - vm_compute. discriminate.
Defined.

Definition bad_config : dmutex_config := mk_dmutex_config [0; 99; 2]%Z "k" "v1" 30000 20000 50.

Lemma unselectable_database_is_fatal_witness :
  @MainLockFunction local_db local_interface _ in_order bad_config 60 (dmutex_init empty_db) <>
    (Ret true, dmutex_init empty_db).
Proof.
  apply (@unselectable_database_is_fatal local_db local_interface _ _ (fun _ => True) local_laws in_order in_order_perm
    bad_config 60 (dmutex_init empty_db) 99).
  - intros w w'. simpl. discriminate.
  - apply (bool_decide_unpack _). vm_compute. exact I.
Defined.

(** A database whose keys have all been taken by others. *)
Definition taken_interface : DBInterface unit := {|
  SetKeyValue k v e w := (Ret kKeyExist, w);
  UpdateExpire k v e w := (Ret kKeyValueWrong, w);
  DelKeyValue k v w := (Ret kKeyValueWrong, w);
  SelectDB i w := (Ret kSelectDBSucceed, w) |}.

Lemma keep_lock_spins_witness :
  (@KeepLock unit taken_interface (config_of "v1") 1000 (mk_dmutex tt [0; 1]%Z true true false false [])).1 = Timeout.
Proof.
  apply (@keep_lock_spins unit taken_interface (config_of "v1") 1000 _ 0%Z [1]%Z);
    [reflexivity..|intros w; exists w; reflexivity|intros w; exists w; reflexivity].
Defined.
