(* ===== verification/DMutexSim.v ===== *)
(** Simulation between lock objects.  The lock ([DMutex]) is generic in its
    databases and its clock: over two worlds that are related, and whose operations
    keep them so, every operation of the lock does the same.  [DMutexStack] uses it
    to bring the lock on the whole stack down to the specifications of its database
    operations. *)

From S2P Require Import Prelude Text DB DMutex.

(** ** Simulation *)

(** Code over two kinds of states that does the same from related ones. *)
Definition simulates {X Y A} (R : X -> Y -> Prop) (a : M X A) (b : M Y A) : Prop :=
  forall x y, R x y -> exists o x' y', a x = (o, x') /\ b y = (o, y') /\ R x' y'.

Section simulates.
Context {X Y : Type} (R : X -> Y -> Prop).

Lemma simulates_ret {A} (a : A) : simulates R (mret a) (mret a).
Proof. intros x y H. by eexists _, _, _. Qed.

Lemma simulates_timeout {A} : simulates R (@mtimeout X A) (@mtimeout Y A).
Proof. intros x y H. by eexists _, _, _. Qed.

Lemma simulates_bind {A B} (a : M X A) (b : M Y A) (f : A -> M X B) (g : A -> M Y B) :
  simulates R a b -> (forall v, simulates R (f v) (g v)) -> simulates R (a ≫= f) (b ≫= g).
Proof.
  intros Ha Hf x y H. destruct (Ha x y H) as (o & x' & y' & E1 & E2 & H').
  unfold mbind, M_bind. rewrite E1, E2. destruct o; [by apply Hf|by eexists _, _, _..].
Qed.

Lemma simulates_get {A} (f : X -> M X A) (g : Y -> M Y A) :
  (forall x y, R x y -> exists o x' y', f x x = (o, x') /\ g y y = (o, y') /\ R x' y') ->
  simulates R (mget ≫= f) (mget ≫= g).
Proof. intros Hf x y H. by apply Hf. Qed.

Lemma simulates_modify (f : X -> X) (g : Y -> Y) :
  (forall x y, R x y -> R (f x) (g y)) -> simulates R (mmodify f) (mmodify g).
Proof. intros Hf x y H. eexists _, _, _. by split_and!; [..|by apply Hf]. Qed.

Lemma simulates_if {A} (c : bool) (a1 a2 : M X A) (b1 b2 : M Y A) :
  simulates R a1 b1 -> simulates R a2 b2 ->
  simulates R (if c then a1 else a2) (if c then b1 else b2).
Proof. by destruct c. Qed.
End simulates.

(** ** The lock over related worlds *)

Create HintDb lock_sim discriminated.

Section lock.
Context {WA WB : Type} {IA : DBInterface WA} {IB : DBInterface WB} {CA : SystemClock WA} {CB : SystemClock WB}.
Context (R : WA -> WB -> Prop) (shuffle : Z -> list Z -> list Z) (c : dmutex_config) (good : Z -> Prop).
Context (shuffle_perm : forall seed l, Permutation (shuffle seed l) l).
Context (good_hosts : Forall good (hosts_ c)).
Context (sim_select : forall i, good i -> simulates R (SelectDB i) (SelectDB i)).
Context (sim_set : simulates R (SetKeyValue (key_ c) (value_ c) (lock_validity_time_ c))
                     (SetKeyValue (key_ c) (value_ c) (lock_validity_time_ c))).
Context (sim_update : simulates R (UpdateExpire (key_ c) (value_ c) (lock_validity_time_ c))
                        (UpdateExpire (key_ c) (value_ c) (lock_validity_time_ c))).
Context (sim_del : simulates R (DelKeyValue (key_ c) (value_ c)) (DelKeyValue (key_ c) (value_ c))).
Context (sim_now : forall a b, R a b -> (now a).1 = (now b).1 /\ R (now a).2 (now b).2).
Context (sim_sleep : forall t a b, R a b -> R (sleep_for t a) (sleep_for t b)).

(** The same fields, related worlds; the databases of the lock are good. *)
Record same_lock (sa : dmutex_state WA) (sb : dmutex_state WB) : Prop := {
  same_world : R (world sa) (world sb);
  same_have : have_lock_num_ sa = have_lock_num_ sb;
  same_lock_status : lock_status_ sa = lock_status_ sb;
  same_continue : lock_continue_ sa = lock_continue_ sb;
  same_mtx : mtx_ sa = mtx_ sb;
  same_lck : lck sa = lck sb;
  same_events : events sa = events sb;
  same_good : Forall good (have_lock_num_ sa) }.

Abbreviation sim := (simulates same_lock).

Lemma sim_db {A} (a : M WA A) (b : M WB A) : simulates R a b -> sim (db a) (db b).
Proof.
  intros H sa sb []. destruct (H _ _ same_world0) as (o & wa & wb & E1 & E2 & HR).
  unfold db. rewrite E1, E2. eexists _, _, _. by split_and!.
Qed.

Lemma sim_clock : sim GetCurrentMilliseconds GetCurrentMilliseconds.
Proof.
  intros sa sb []. destruct (sim_now _ _ same_world0) as [Ht HR]. unfold GetCurrentMilliseconds.
  destruct (now (world sa)) as [t wa], (now (world sb)) as [t' wb]. cbn in Ht, HR. subst.
  eexists _, _, _. by split_and!.
Qed.

Lemma same_set_mutex b1 b2 sa sb : same_lock sa sb -> same_lock (set_mutex b1 b2 sa) (set_mutex b1 b2 sb).
Proof. by intros []. Qed.

Lemma sim_lock : sim lck_lock lck_lock.
Proof.
  intros sa sb Hs. unfold lck_lock. rewrite (same_lck _ _ Hs), (same_mtx _ _ Hs).
  destruct (lck sb); [|destruct (mtx_ sb)]; eexists _, _, _; split_and!; eauto using same_set_mutex.
Qed.

Lemma sim_unlock : sim lck_unlock lck_unlock.
Proof.
  intros sa sb Hs. unfold lck_unlock. rewrite (same_lck _ _ Hs).
  destruct (lck sb); eexists _, _, _; split_and!; eauto using same_set_mutex.
Qed.

Lemma sim_with_lck {A} (a : M (dmutex_state WA) A) (b : M (dmutex_state WB) A) :
  sim a b -> sim (with_lck a) (with_lck b).
Proof.
  intros H sa sb Hs. unfold with_lck. rewrite (same_mtx _ _ Hs), (same_lck _ _ Hs).
  destruct (H _ _ (same_set_mutex (mtx_ sb) false _ _ Hs)) as (o & sa' & sb' & -> & -> & Hs').
  rewrite (same_mtx _ _ Hs'), (same_lck _ _ Hs'). eexists _, _, _. by split_and!; [..|apply same_set_mutex].
Qed.

Lemma sim_set_status b1 b2 : sim (mmodify (set_status b1 b2)) (mmodify (set_status b1 b2)).
Proof. apply simulates_modify. by intros sa sb []. Qed.

Lemma sim_clear : sim (mmodify (set_have_lock_num [])) (mmodify (set_have_lock_num [])).
Proof. apply simulates_modify. intros sa sb []. by split. Qed.

Lemma sim_push t : sim (mmodify (push_event t)) (mmodify (push_event t)).
Proof. apply simulates_modify. intros sa sb []. split; try done. cbn. by rewrite same_events0. Qed.

Lemma sim_add i : good i ->
  sim (mmodify (fun s => set_have_lock_num (have_lock_num_ s ++ [i]) s))
      (mmodify (fun s => set_have_lock_num (have_lock_num_ s ++ [i]) s)).
Proof.
  intros Hi. apply simulates_modify. intros sa sb []. split; try done; cbn.
  - by rewrite same_have0.
  - apply Forall_app. by split; [|constructor].
Qed.

Lemma sim_wait t : sim (WaitUntil t) (WaitUntil t).
Proof. apply simulates_modify. intros sa sb []. split; try done. by apply sim_sleep. Qed.

#[local] Hint Resolve simulates_ret simulates_timeout sim_lock sim_unlock sim_set_status sim_clear sim_push
  sim_clock sim_wait sim_add sim_db sim_select sim_set sim_update sim_del : lock_sim.

(** Follows the code: what is left are the loops. *)
#[local] Ltac simulate := repeat first
  [ lazymatch goal with |- forall _, _ => intros ? end | solve [auto with lock_sim]
  | apply simulates_bind | apply simulates_if | apply sim_with_lck ].

Lemma sim_unlock_loop hosts k : Forall good hosts -> sim (unlock_loop c hosts k) (unlock_loop c hosts k).
Proof.
  intros Hg. revert k. induction Hg as [|i hosts Hi _ IH]; intros k; cbn [unlock_loop]; simulate; apply IH.
Qed.

Lemma sim_UnlockAll : sim (UnlockAll c) (UnlockAll c).
Proof.
  unfold UnlockAll. simulate; [by apply sim_unlock_loop|].
  apply simulates_get. intros sa sb Hs. destruct Hs as [? E ? ? ? ? ? ?].
  eexists _, _, _. split_and!; [done| |by split]. by rewrite E.
Qed.

#[local] Hint Resolve sim_UnlockAll : lock_sim.

Lemma sim_lock_loop n start vec : Forall good vec -> sim (lock_loop c n start vec) (lock_loop c n start vec).
Proof.
  revert vec. induction n as [|n IH]; intros vec Hg; destruct Hg as [|i rest Hi Hg]; cbn [lock_loop]; simulate;
    apply IH; try done; by constructor.
Qed.

Lemma sim_enough start : sim (enough_locks c start) (enough_locks c start).
Proof.
  unfold enough_locks. apply simulates_get. intros sa sb Hs. rewrite <- (same_have _ _ Hs).
  destruct (majority c (have_lock_num_ sa)).
  - apply simulates_bind; [apply sim_clock|simulate|done].
  - apply simulates_ret, Hs.
Qed.

#[local] Hint Resolve sim_enough : lock_sim.

Lemma sim_MainLockFunction n : sim (MainLockFunction shuffle c n) (MainLockFunction shuffle c n).
Proof.
  unfold MainLockFunction. simulate.
  apply sim_lock_loop. by rewrite shuffle_perm.
Qed.

#[local] Hint Resolve sim_MainLockFunction : lock_sim.

Lemma sim_Lock k n : sim (Lock shuffle c k n) (Lock shuffle c k n).
Proof. induction k as [|k IH]; cbn [Lock]; simulate. Qed.

Lemma sim_TryLock_expire k n expire : sim (TryLock_expire shuffle c k n expire) (TryLock_expire shuffle c k n expire).
Proof.
  unfold TryLock_expire. apply simulates_bind; [apply sim_clock|]. intros t. generalize (wrap_u64 t) as start.
  intros start. induction k as [|k IH]; cbn [try_lock_loop]; simulate.
Qed.

Lemma sim_keep_loop n have : Forall good have -> sim (keep_loop c n have) (keep_loop c n have).
Proof.
  revert have. induction n as [|n IH]; intros have Hg; destruct Hg as [|i rest Hi Hg]; cbn [keep_loop]; simulate;
    apply IH; try done; by constructor.
Qed.

Lemma sim_KeepLock n : sim (KeepLock c n) (KeepLock c n).
Proof.
  unfold KeepLock. simulate. intros sa sb Hs.
  assert (forall b, simulates same_lock
    (if negb (lock_continue_ sa) then mret false else if negb (lock_status_ sa) then mret true
     else _ ← lck_unlock; _ ← keep_loop c n (have_lock_num_ sa); mret b)
    (if negb (lock_continue_ sb) then mret false else if negb (lock_status_ sb) then mret true
     else _ ← lck_unlock; _ ← keep_loop c n (have_lock_num_ sb); mret b)) as Hbody.
  { intros b. rewrite <- (same_continue _ _ Hs), <- (same_lock_status _ _ Hs), <- (same_have _ _ Hs).
    simulate. apply sim_keep_loop, Hs. }
  by apply (Hbody true).
Qed.
End lock.
