(* ===== verification/DBCommands.v ===== *)
(** The database operations as the commands they send: [DBRedis] with each command
    executed by the server at once, in place of the client, the connection and the
    wire.  The operations on the stack do exactly this, on any server, whatever its
    time and its other clients do between two commands; and what the operations of
    several commands do when the key lapses between two of them. *)

From S2P Require Import Prelude Text Reply Builders BuilderFacts ReplyStream TcpClient Connection Client CommandTypes Commands CommandFutures CommandFacts ConnectionFacts DB RedisServer DBRedis DBRedisFacts DMutexSim.

(** ** The operations *)

Section commands.
Context {R : Type} `{RedisServer R}.

(** A command sent, executed and answered. *)
Definition ask (cmd : list string) : M R reply := fun r =>
  let '(v, r) := execute cmd r in (Ret (reply_of v), r).

Definition ask_integer (r : reply) : M R Z := mlift (omap_outcome wrap_u64 (as_integer r)).
Definition ask_string (r : reply) : M R string := mlift (as_string r).

Definition ask_set (key value : string) (expire : Z) : M R DBResult :=
  r ← ask ["SET"; key; value; "PX"; to_string (wrap_s32 expire); "NX"];
  if is_null r then mret kKeyExist else if ok r then mret kSetKeySucceed else mret kSetKeyFailed.

Definition ask_update (key value : string) (expire : Z) : M R DBResult :=
  r ← ask ["EXISTS"; key];
  present ← ask_integer r;
  if (present =? 0)%Z then ask_set key value expire
  else
    r ← ask ["GET"; key];
    found ← ask_string r;
    if bool_decide (found = value) then
      r ← ask ["PEXPIRE"; key; to_string (wrap_s32 expire)];
      n ← ask_integer r;
      if (n =? 0)%Z then mret kUpdateKeyFailed
      else if (n =? 1)%Z then mret kUpdateKeySucceed
      else mret kUpdateKeyFunFailed
    else mret kKeyValueWrong.

Definition ask_del (key value : string) : M R DBResult :=
  r ← ask ["EXISTS"; key];
  present ← ask_integer r;
  if (present =? 0)%Z then mret kKeyDoesNotExist
  else
    r ← ask ["GET"; key];
    found ← ask_string r;
    if bool_decide (found = value) then
      r ← ask ["DEL"; key];
      n ← ask_integer r;
      if (n =? 0)%Z then mret kDelKeyFailed
      else if (n =? 1)%Z then mret kDelKeySucceed
      else mret kDelKeyFunFailed
    else mret kKeyValueWrong.

Definition ask_select (index : Z) : M R DBResult :=
  r ← ask ["SELECT"; to_string index];
  answer ← ask_string r;
  if bool_decide (answer = "OK") then mret kSelectDBSucceed
  else if bool_decide (answer = "ERR invalid DB index") then mret kSelectDBFailed
  else mret kSelectFunFailed.

#[export] Instance command_interface : DBInterface R := {|
  DB.SetKeyValue := ask_set; DB.UpdateExpire := ask_update; DB.DelKeyValue := ask_del; DB.SelectDB := ask_select |}.
End commands.

(** ** Answers that fit the wire *)

(** The index of a database is an [int]. *)
Definition index_ok (i : Z) : Prop := (INT32_MIN <= i <= INT32_MAX)%Z.

(** The commands of the operations. *)
Inductive lock_command : list string -> Prop :=
| command_set key value px : short key -> short value ->
    lock_command ["SET"; key; value; "PX"; to_string (wrap_s32 px); "NX"]
| command_exists key : short key -> lock_command ["EXISTS"; key]
| command_get key : short key -> lock_command ["GET"; key]
| command_del key : short key -> lock_command ["DEL"; key]
| command_pexpire key px : short key -> lock_command ["PEXPIRE"; key; to_string (wrap_s32 px)]
| command_select i : index_ok i -> lock_command ["SELECT"; to_string i].

Create HintDb lock_command.
#[export] Hint Constructors lock_command : lock_command.

Lemma short_index i : index_ok i -> short (to_string i).
Proof. intros Hi. apply short_number. unfold index_ok, INT32_MIN, INT32_MAX, INT64_MIN, INT64_MAX in *. lia. Qed.
#[export] Hint Resolve short_index : wire.

Lemma lock_command_sendable cmd : lock_command cmd -> sendable cmd = true.
Proof. intros []; sendable. Qed.

(** A server in a state that [fit] describes answers the commands of the lock with
    replies that fit the wire, and stays so, also while the client waits. *)
Class AnswersFit (R : Type) `{RedisServer R} `{SystemClock R} (fit : R -> Prop) : Prop := {
  fit_answer : forall cmd r, lock_command cmd -> fit r -> wire_ok (execute cmd r).1 = true;
  fit_execute : forall cmd r, lock_command cmd -> fit r -> fit (execute cmd r).2;
  fit_now : forall r, fit r -> fit (now r).2;
  fit_sleep : forall t r, fit r -> fit (sleep_for t r) }.

(** ** The stack *)

(** The machines of the clients have the clock of the server. *)
#[export] Instance stack_clock {T S R} `{SystemClock R} : SystemClock (db_redis T S R) := {|
  clock s := clock (server s);
  now s := let '(t, r) := now (server s) in (t, mk_db_redis (client s) r (next_promise s));
  sleep_for t s := mk_db_redis (client s) (sleep_for t (server s)) (next_promise s) |}.

Create HintDb stack_sim.

Section stack.
Context {T S R : Type} `{TcpClientLaws T} `{SentinelLookup S} {HR : RedisServer R} {HC : SystemClock R}.
Context (fit : R -> Prop) {HF : AnswersFit R fit}.

(** An idle client, connected to the server [r]. *)
Record stack_over (w : db_redis T S R) (r : R) : Prop := {
  over_settled : settled_db w;
  over_server : server w = r;
  over_fit : fit r }.

Abbreviation refines := (simulates stack_over).

Lemma call_simulates cmd f : sends cmd f -> lock_command cmd -> refines (call f) (ask cmd).
Proof.
  intros Hf Hc w r [Hs <- Hfit].
  destruct (call_spec cmd f w Hf Hs (lock_command_sendable cmd Hc) (fit_answer _ _ Hc Hfit)) as (w' & E & Hr & Hs').
  pose proof (fit_execute _ _ Hc Hfit) as Hfit'. unfold ask. destruct (execute cmd (server w)) as [v r']. cbn in *.
  eexists _, _, _. by split_and!.
Qed.

Lemma simulates_lift {A} (o : outcome A) : refines (mlift o) (mlift o).
Proof. intros w r Hw. by eexists _, _, _. Qed.

Lemma integer_simulates r : refines (get_integer r) (ask_integer r).
Proof. apply simulates_lift. Qed.
Lemma string_simulates r : refines (get_string r) (ask_string r).
Proof. apply simulates_lift. Qed.

#[local] Hint Resolve simulates_ret integer_simulates string_simulates sends_set sends_exists sends_get sends_del sends_pexpire sends_select
  call_simulates : stack_sim.
#[local] Hint Constructors lock_command : stack_sim.
#[local] Ltac simulate := repeat first
  [ lazymatch goal with |- forall _, _ => intros ? end | solve [eauto with stack_sim]
  | apply simulates_bind | apply simulates_if ].

Lemma set_simulates key value e :
  short key -> short value -> refines (SetKeyValue key value e) (ask_set key value e).
Proof. intros. unfold SetKeyValue, ask_set. simulate. Qed.
#[local] Hint Resolve set_simulates : stack_sim.

Lemma update_simulates key value e :
  short key -> short value -> refines (UpdateExpire key value e) (ask_update key value e).
Proof. intros. unfold UpdateExpire, ask_update. simulate. Qed.

Lemma del_simulates key value : short key -> refines (DelKeyValue key value) (ask_del key value).
Proof. intros. unfold DelKeyValue, ask_del. simulate. Qed.

Lemma select_simulates i : index_ok i -> refines (SelectDB i) (ask_select i).
Proof. intros. unfold SelectDB, ask_select. simulate. Qed.

Lemma now_simulates (w : db_redis T S R) (r : R) : stack_over w r -> (now w).1 = (now r).1 /\ stack_over (now w).2 (now r).2.
Proof.
  intros [[Hi Hf] <- Hfit]. cbn [now stack_clock]. pose proof (fit_now _ Hfit) as Hn.
  destruct (now (server w)) as [t r]. cbn. split; [done|]. by split; [split|..].
Qed.

Lemma sleep_simulates t (w : db_redis T S R) (r : R) : stack_over w r -> stack_over (sleep_for t w) (sleep_for t r).
Proof. intros [[Hi Hf] <- Hfit]. split; [by split|done|by apply fit_sleep]. Qed.
End stack.

(** ** A key that lapses *)

Section lapse.
Context {T S R : Type} `{TcpClientLaws T} `{SentinelLookup S} {HR : RedisServer R} {HSpec : RedisSpec R}.

(** EXISTS finds the key and GET does not: its reply is no string. *)
Lemma presence_lapses {A} key v (s : db_redis T S R) (absent : M (db_redis T S R) A) (found : string -> M (db_redis T S R) A) :
  settled_db s -> short key -> r_live key (db_next (server s)) = Some v ->
  r_live key (db_next (execute ["EXISTS"; key] (server s)).2) = None ->
  exists s', (haveKey ← call (exists_future [key]);
              tempExistFlag ← get_integer haveKey;
              if (tempExistFlag =? 0)%Z then absent
              else haveValue ← call (get_future key); tempValue ← get_string haveValue; found tempValue) s =
      (Throw (redis_error "Reply is not a string"), s') /\
    server s' = (execute ["GET"; key] (execute ["EXISTS"; key] (server s)).2).2 /\ settled_db s'.
Proof.
  intros Hs Hk Hv Hn.
  destruct (call_redis _ _ s (sends_exists key) Hs) as (s1 & E1 & Hr1 & _ & Hs1).
  { sendable. }
  { rewrite exec_exists_command. by destruct (r_live _ _). }
  rewrite exec_exists_command, Hv in E1. cbn [fst] in E1.
  rewrite (mbind_Ret _ _ _ _ _ E1), (mbind_Ret _ _ _ _ _ (get_integer_int _ s1)).
  change (wrap_u64 1 =? 0)%Z with false. cbn match. rewrite <- Hr1 in Hn |- *.
  destruct (call_redis _ _ s1 (sends_get key) Hs1) as (s2 & E2 & Hr2 & _ & Hs2).
  { sendable. }
  { by rewrite exec_get_command, Hn. }
  rewrite exec_get_command, Hn in E2. cbn [fst] in E2.
  rewrite (mbind_Ret _ _ _ _ _ E2). exists s2. by split_and!.
Qed.

(** An operation of several commands throws when the key lapses after EXISTS, with no
    other client involved; nothing is stored or deleted. *)
Lemma update_lapses key value e v (s : db_redis T S R) :
  settled_db s -> short key -> r_live key (db_next (server s)) = Some v ->
  r_live key (db_next (execute ["EXISTS"; key] (server s)).2) = None ->
  exists s', UpdateExpire key value e s = (Throw (redis_error "Reply is not a string"), s') /\
    server s' = (execute ["GET"; key] (execute ["EXISTS"; key] (server s)).2).2 /\ settled_db s'.
Proof. apply presence_lapses. Qed.

Lemma del_lapses key value v (s : db_redis T S R) :
  settled_db s -> short key -> r_live key (db_next (server s)) = Some v ->
  r_live key (db_next (execute ["EXISTS"; key] (server s)).2) = None ->
  exists s', DelKeyValue key value s = (Throw (redis_error "Reply is not a string"), s') /\
    server s' = (execute ["GET"; key] (execute ["EXISTS"; key] (server s)).2).2 /\ settled_db s'.
Proof. apply presence_lapses. Qed.
End lapse.
