(* ===== verification/DMutexStack.v ===== *)
(** The lock on the whole stack: [DMutex] over [DBRedis], over the client, the
    connection and the wire, with a server at the other end.  The stack simulates
    ([DMutexSim]) the lock over the commands it sends ([DBCommands]), on any server;
    and on a server whose time passes ([timed]) these satisfy the laws of [DB], so
    that the properties of the lock hold of the stack.

    The clock of the client's machine is the server's. *)

From S2P Require Import Prelude Text Reply Builders BuilderFacts ReplyStream TcpClient Connection ConnectionFacts Client ClientFacts DB RedisServer DBRedis DBRedisFacts DMutex DMutexFacts DMutexRenewal DMutexSim DBCommands.

(** ** Time and storage of the server *)

(** Reading the clock takes time, and sleeping takes at least what was asked for. *)
#[export] Instance timed_clock : SystemClock timed := {|
  clock w := r_now (t_db w);
  now w := (r_now (t_db (tick w)), tick w);
  sleep_for t w := tick (mk_timed (pass (Z.max 0 t) (t_db w)) (delays w)) |}.

(** A key without a deadline is not a lock. *)
Definition r_stored (db : redis_db) (i : Z) (k : string) : option (string * Z) :=
  match r_keys db !! (i, k) with
  | Some (v, Some d) => if (r_now db <=? d)%Z then Some (v, d) else None
  | _ => None
  end.

#[export] Instance timed_store : DBStore timed := {| selected w := r_selected (t_db w); stored w := r_stored (t_db w) |}.

Lemma r_stored_live db k v d : r_stored db (r_selected db) k = Some (v, d) -> r_live k db = Some v.
Proof. unfold r_stored, r_live. intros H. repeat case_match; by simplify_eq. Qed.

Lemma r_stored_put k v d db i k' :
  r_stored (r_put k v (Some d) db) i k' =
  if bool_decide ((r_selected db, k) = (i, k')) then (if (r_now db <=? d)%Z then Some (v, d) else None)
  else r_stored db i k'.
Proof.
  unfold r_stored, r_put. cbn [r_keys r_now]. case_bool_decide as Hk.
  - simplify_eq. by rewrite lookup_insert_eq.
  - by rewrite lookup_insert_ne.
Qed.

Lemma r_stored_delete k db i k' :
  r_stored (r_delete k db) i k' =
  if bool_decide ((r_selected db, k) = (i, k')) then None else r_stored db i k'.
Proof.
  unfold r_stored, r_delete. cbn [r_keys r_now]. case_bool_decide as Hk.
  - simplify_eq. by rewrite lookup_delete_eq.
  - by rewrite lookup_delete_ne.
Qed.

(** ** What the commands do, while time passes *)

(** Nothing but time passes. *)
Record idles (db db' : redis_db) : Prop := {
  idles_selected : r_selected db' = r_selected db;
  idles_keys : r_keys db' = r_keys db;
  idles_now : (r_now db <= r_now db')%Z }.

#[export] Instance idles_preorder : PreOrder idles.
Proof.
  split; [intros db; split; [done..|lia]|]. intros db1 db2 db3 [S1 K1 N1] [S2 K2 N2]. split; [congruence..|lia].
Qed.

Lemma tick_idles w : idles (t_db w) (t_db (tick w)).
Proof. unfold tick. destruct (delays w) as [|d ds]; [reflexivity|]. split; [done..|]. cbn. lia. Qed.

(** What is stored later was stored before. *)
Lemma idles_stored db db' i k x : idles db db' -> r_stored db' i k = Some x -> r_stored db i k = Some x.
Proof.
  intros [_ Hk Hn]. unfold r_stored. rewrite Hk. destruct (r_keys db !! (i, k)) as [[v [d|]]|]; [|done..].
  destruct (Z.leb_spec (r_now db') d); [|done]. by rewrite (proj2 (Z.leb_le _ _)) by lia.
Qed.

Lemma idles_live db db' k v : idles db db' -> r_live k db' = Some v -> r_live k db = Some v.
Proof.
  intros [Hs Hk Hn]. unfold r_live. rewrite Hs, Hk. destruct (r_keys db !! _) as [[v' [d|]]|]; [|done..].
  destruct (Z.leb_spec (r_now db') d); [|done]. by rewrite (proj2 (Z.leb_le _ _)) by lia.
Qed.

(** The same keys, as the laws of [DB] see them. *)
Lemma idles_keeps v (w w' : timed) : idles (t_db w) (t_db w') -> keeps v w w'.
Proof.
  intros [Hs Hk Hn]. split; [done|]. cbn [stored timed_store clock timed_clock]. unfold r_stored. rewrite Hk.
  intros i k d Hd Hle. destruct (r_keys (t_db w) !! (i, k)) as [[v' [d'|]]|]; [|done..].
  destruct (Z.leb_spec (r_now (t_db w)) d'); [|done]. simplify_eq. by rewrite (proj2 (Z.leb_le _ _)) by lia.
Qed.

Definition with_db (db : redis_db) (w : timed) : timed := mk_timed db (delays w).

Lemma with_db_same w : with_db (t_db w) w = w.
Proof. by destruct w. Qed.

Lemma ask_eq cmd w : ask cmd w =
  (Ret (reply_of (redis_exec cmd (t_db (tick w))).1), with_db (redis_exec cmd (t_db (tick w))).2 (tick w)).
Proof. unfold ask. cbn. by destruct (redis_exec cmd (t_db (tick w))). Qed.

Lemma ask_bind {A} cmd (f : reply -> M timed A) w :
  (ask cmd ≫= f) w = f (reply_of (redis_exec cmd (t_db (tick w))).1) (with_db (redis_exec cmd (t_db (tick w))).2 (tick w)).
Proof. by rewrite (mbind_Ret _ _ _ _ _ (ask_eq cmd w)). Qed.

(** [live k w]: what the key holds when the next command is executed. *)
Definition live (k : string) (w : timed) : option string := r_live k (t_db (tick w)).

Lemma ask_set_eq k v e w :
  ask_set k v e w =
  if (wrap_s32 e <=? 0)%Z then (Ret kSetKeyFailed, tick w)
  else match live k w with
       | Some _ => (Ret kKeyExist, tick w)
       | None => (Ret kSetKeySucceed, with_db (r_put k v (Some (r_now (t_db (tick w)) + wrap_s32 e)%Z) (t_db (tick w))) (tick w))
       end.
Proof.
  unfold ask_set. rewrite ask_bind, exec_set_command, exec_set_px. unfold live.
  destruct (wrap_s32 e <=? 0)%Z; [|destruct (r_live k _)]; by cbn; rewrite ?with_db_same.
Qed.

Lemma ask_get_eq {A} k (found : string -> M timed A) w :
  (r ← ask ["GET"; k]; v ← ask_string r; found v) w =
  match live k w with
  | Some v => found v (tick w)
  | None => (Throw (redis_error "Reply is not a string"), tick w)
  end.
Proof.
  rewrite ask_bind, exec_get_command. cbn [fst snd]. rewrite with_db_same. unfold live. by destruct (r_live k _).
Qed.

Lemma ask_update_eq k v e w :
  ask_update k v e w =
  match live k w with
  | None => ask_set k v e (tick w)
  | Some _ =>
    match live k (tick w) with
    | None => (Throw (redis_error "Reply is not a string"), tick (tick w))
    | Some v' =>
      if bool_decide (v' = v) then
        match live k (tick (tick w)) with
        | None => (Ret kUpdateKeyFailed, tick (tick (tick w)))
        | Some v'' =>
          let w := tick (tick (tick w)) in
          (Ret kUpdateKeySucceed,
           with_db (if (wrap_s32 e <=? 0)%Z then r_delete k (t_db w)
                    else r_put k v'' (Some (r_now (t_db w) + wrap_s32 e)%Z) (t_db w)) w)
        end
      else (Ret kKeyValueWrong, tick (tick w))
    end
  end.
Proof.
  unfold ask_update. rewrite ask_bind, exec_exists_command. cbn [fst snd]. rewrite with_db_same. fold (live k w).
  destruct (live k w) as [v0|]; [|done]. rewrite (mbind_Ret _ _ _ 1%Z (tick w)) by done.
  change (1 =? 0)%Z with false. cbv iota. rewrite ask_get_eq. destruct (live k (tick w)) as [v'|]; [|done].
  destruct (bool_decide (v' = v)); [|done]. rewrite ask_bind, exec_pexpire_command. unfold live.
  destruct (r_live k _); cbn [fst snd]; [done|]. by rewrite with_db_same.
Qed.

Lemma ask_del_eq k v w :
  ask_del k v w =
  match live k w with
  | None => (Ret kKeyDoesNotExist, tick w)
  | Some _ =>
    match live k (tick w) with
    | None => (Throw (redis_error "Reply is not a string"), tick (tick w))
    | Some v' =>
      if bool_decide (v' = v) then
        match live k (tick (tick w)) with
        | None => (Ret kDelKeyFailed, tick (tick (tick w)))
        | Some _ => let w := tick (tick (tick w)) in (Ret kDelKeySucceed, with_db (r_delete k (t_db w)) w)
        end
      else (Ret kKeyValueWrong, tick (tick w))
    end
  end.
Proof.
  unfold ask_del. rewrite ask_bind, exec_exists_command. cbn [fst snd]. rewrite with_db_same. fold (live k w).
  destruct (live k w) as [v0|]; [|done]. rewrite (mbind_Ret _ _ _ 1%Z (tick w)) by done.
  change (1 =? 0)%Z with false. cbv iota. rewrite ask_get_eq. destruct (live k (tick w)) as [v'|]; [|done].
  destruct (bool_decide (v' = v)); [|done]. rewrite ask_bind, exec_del_command. unfold live.
  destruct (r_live k _); cbn [fst snd]; [done|]. by rewrite with_db_same.
Qed.

Lemma ask_select_eq i w :
  ask_select i w =
  if (0 <=? i)%Z && (i <? 16)%Z
  then (Ret kSelectDBSucceed, with_db (mk_redis_db i (r_now (t_db (tick w))) (r_keys (t_db (tick w)))) (tick w))
  else (Ret kSelectFunFailed, tick w).
Proof.
  unfold ask_select. rewrite ask_bind, exec_select_command. destruct (_ && _); cbn [fst snd]; [done|].
  by rewrite with_db_same.
Qed.

(** ** The laws *)

Definition idle (w w' : timed) : Prop := idles (t_db w) (t_db w').

#[export] Instance idle_preorder : PreOrder idle.
Proof. split; [by intros w|]. intros w1 w2 w3. apply (transitivity (R:=idles)). Qed.

Lemma tick_idle w : idle w (tick w).
Proof. apply tick_idles. Qed.

Lemma tick2_idle w : idle w (tick (tick w)).
Proof. transitivity (tick w); apply tick_idle. Qed.

Lemma tick3_idle w : idle w (tick (tick (tick w))).
Proof. transitivity (tick w); [apply tick_idle|apply tick2_idle]. Qed.
#[local] Hint Resolve tick_idle tick2_idle tick3_idle : core.

Lemma ask_set_cases k v e (w : timed) r w' :
  ask_set k v e w = (Ret r, w') ->
  exists w1, idle w w1 /\
    (w' = w1 /\ r <> kSetKeySucceed /\ r <> kUpdateKeySucceed \/
     r = kSetKeySucceed /\ r_live k (t_db w1) = None /\ (0 < wrap_s32 e)%Z /\
       w' = with_db (r_put k v (Some (r_now (t_db w1) + wrap_s32 e)%Z) (t_db w1)) w1).
Proof.
  rewrite ask_set_eq. intros Hr. exists (tick w). split; [done|]. unfold live in Hr.
  destruct (Z.leb_spec (wrap_s32 e) 0); [injection Hr as <- <-; by left|].
  destruct (r_live k _) eqn:El; injection Hr as <- <-; [by left|by right].
Qed.

Lemma ask_del_cases k v (w : timed) r w' :
  ask_del k v w = (Ret r, w') ->
  exists w0 w1, idle w w0 /\ idle w0 w1 /\
    (w' = w1 /\ r_live k (t_db w1) <> Some v \/ r_live k (t_db w0) = Some v /\ w' = with_db (r_delete k (t_db w1)) w1).
Proof.
  rewrite ask_del_eq. unfold live. intros Hr. destruct (r_live k (t_db (tick w))) eqn:E1.
  2:{ injection Hr as <- <-. exists w, (tick w). split_and!; [done|done|]. left. split; congruence. }
  destruct (r_live k (t_db (tick (tick w)))) as [v'|] eqn:E2; [|done]. case_bool_decide as Hv.
  2:{ injection Hr as <- <-. exists w, (tick (tick w)). split_and!; [done|done|]. left. split; congruence. }
  exists (tick (tick w)), (tick (tick (tick w))). split_and!; [done..|].
  destruct (r_live k (t_db (tick (tick (tick w))))) eqn:E3; injection Hr as <- <-; [right|left]; split; congruence.
Qed.

Lemma ask_update_cases k v e (w : timed) r w' :
  ask_update k v e w = (Ret r, w') ->
  exists w1, idle w w1 /\
    (w' = w1 /\ r <> kUpdateKeySucceed \/
     r_live k (t_db w1) = None /\ r <> kUpdateKeySucceed /\
       w' = with_db (r_put k v (Some (r_now (t_db w1) + wrap_s32 e)%Z) (t_db w1)) w1 \/
     r_live k (t_db w1) = Some v /\ r = kUpdateKeySucceed /\
       w' = with_db (if (wrap_s32 e <=? 0)%Z then r_delete k (t_db w1)
                     else r_put k v (Some (r_now (t_db w1) + wrap_s32 e)%Z) (t_db w1)) w1).
Proof.
  rewrite ask_update_eq. unfold live. intros Hr. destruct (r_live k (t_db (tick w))) eqn:E1.
  2:{ apply ask_set_cases in Hr as (w1 & Hi & [(-> & _ & Hn)|(-> & Hl & _ & ->)]); exists w1; (split; [by transitivity (tick w)|]).
      - by left.
      - right; left. done. }
  destruct (r_live k (t_db (tick (tick w)))) as [v'|] eqn:E2; [|done]. case_bool_decide as Hv.
  2:{ injection Hr as <- <-. exists (tick (tick w)). split; [done|]. by left. }
  exists (tick (tick (tick w))). split; [done|]. subst v'.
  destruct (r_live k (t_db (tick (tick (tick w))))) as [v''|] eqn:E3; injection Hr as <- <-; [right; right|by left].
  apply (idles_live _ _ _ _ (tick_idles _)) in E3 as E4. rewrite E2 in E4. simplify_eq. done.
Qed.

Lemma ask_select_cases i (w : timed) r w' :
  ask_select i w = (Ret r, w') ->
  exists w1, idle w w1 /\
    (w' = w1 /\ r <> kSelectDBSucceed \/ w' = with_db (mk_redis_db i (r_now (t_db w1)) (r_keys (t_db w1))) w1).
Proof.
  rewrite ask_select_eq. intros Hr. exists (tick w). split; [done|]. destruct (_ && _); injection Hr as <- <-; [by right|by left].
Qed.

Lemma idle_keeps v w w' : idle w w' -> keeps v w w'.
Proof. apply idles_keeps. Qed.

(** Storing and deleting, seen by a value. *)
Lemma put_keeps v k v' d w : r_live k (t_db w) <> Some v -> keeps v w (with_db (r_put k v' (Some d) (t_db w)) w).
Proof.
  intros Hl. split; [apply Z.le_refl|]. cbn [stored timed_store with_db t_db]. intros i k' d' Hd _. rewrite r_stored_put.
  case_bool_decide as Hk; [|done]. simplify_eq. by apply r_stored_live in Hd.
Qed.

Lemma delete_keeps v k w : r_live k (t_db w) <> Some v -> keeps v w (with_db (r_delete k (t_db w)) w).
Proof.
  intros Hl. split; [apply Z.le_refl|]. cbn [stored timed_store with_db t_db]. intros i k' d' Hd _. rewrite r_stored_delete.
  case_bool_decide as Hk; [|done]. simplify_eq. by apply r_stored_live in Hd.
Qed.

Lemma put_stored v k e w : (0 <= e)%Z ->
  r_stored (r_put k v (Some (r_now (t_db w) + e)%Z) (t_db w)) (r_selected (t_db w)) k = Some (v, (r_now (t_db w) + e)%Z).
Proof. intros He. rewrite r_stored_put, bool_decide_eq_true_2 by done. by rewrite (proj2 (Z.leb_le _ _)) by lia. Qed.

#[export] Instance timed_laws : DBLaws timed (fun _ => True).
Proof.
  split.
  - intros v w _. apply idle_keeps, tick_idle.
  - intros w. cbn. pose proof (idles_now _ _ (tick_idle w)). lia.
  - intros w. apply (idles_selected _ _ (tick_idle w)).
  - intros v t w _. apply idles_keeps. cbn [sleep_for timed_clock]. transitivity (pass (Z.max 0 t) (t_db w)); [|apply (tick_idles (mk_timed _ _))].
    split; [done..|]. cbn. lia.
  - intros v i w r w' _ (w1 & Hi & [[-> _]| ->])%ask_select_cases; [by apply idle_keeps|].
    transitivity w1; [by apply idle_keeps|]. by split; [apply Z.le_refl|].
  - intros i w w' (w1 & _ & [[_ ?]| ->])%ask_select_cases; done.
  - intros v i w r w' j k d _ (w1 & Hi & [[-> _]| ->])%ask_select_cases Hd; by apply (idles_stored _ _ _ _ _ Hi).
  - intros v v' k e w r w' _ (w1 & Hi & [[-> _]|(_ & Hl & _ & ->)])%ask_set_cases; [by apply idle_keeps|].
    transitivity w1; [by apply idle_keeps|]. apply put_keeps. congruence.
  - intros v k e w r w' (w1 & Hi & [[-> _]|(_ & Hl & _ & ->)])%ask_set_cases; apply (idles_selected _ _ Hi).
  - intros v k e w w' _ He (w1 & Hi & [[_ [? _]]|(_ & Hl & Hp & ->)])%ask_set_cases; [done|].
    exists (r_now (t_db w1) + wrap_s32 e)%Z. pose proof (wrap_s32_le e He). pose proof (idles_now _ _ Hi).
    split; [cbn; lia|]. intros _. cbn [stored timed_store selected with_db t_db]. rewrite <- (idles_selected _ _ Hi).
    apply put_stored. lia.
  - intros v v' k w r w' _ Hne (w0 & w1 & Hi0 & Hi1 & [[-> _]|[Hl ->]])%ask_del_cases.
    { apply idle_keeps. by transitivity w0. }
    transitivity w1; [apply idle_keeps; by transitivity w0|]. apply delete_keeps. intros Hv.
    apply (idles_live _ _ _ _ Hi1) in Hv. congruence.
  - intros v k w r w' (w0 & w1 & Hi0 & Hi1 & [[-> _]|[Hl ->]])%ask_del_cases;
      apply (idles_now _ _ (transitivity (R:=idle) Hi0 Hi1)).
  - intros v k w r w' (w0 & w1 & Hi0 & Hi1 & [[-> _]|[Hl ->]])%ask_del_cases;
      apply (idles_selected _ _ (transitivity (R:=idle) Hi0 Hi1)).
  - intros v k w r w' _ (w0 & w1 & Hi0 & Hi1 & Hc)%ask_del_cases d. cbn [stored timed_store selected].
    rewrite <- (idles_selected _ _ (transitivity (R:=idle) Hi0 Hi1)). destruct Hc as [[-> Hl]|[_ ->]].
    + by intros Hd%r_stored_live.
    + cbn [with_db t_db]. by rewrite r_stored_delete, bool_decide_eq_true_2.
  - intros v k w r w' j k' d _ (w0 & w1 & Hi0 & Hi1 & Hc)%ask_del_cases. cbn [stored timed_store].
    intros Hd. apply (idles_stored _ _ _ _ _ (transitivity (R:=idle) Hi0 Hi1)).
    destruct Hc as [[-> _]|[_ ->]]; [done|]. cbn [with_db t_db] in Hd. rewrite r_stored_delete in Hd. by case_bool_decide.
Qed.

#[export] Instance timed_renew_laws : DBRenewLaws timed (fun _ => True).
Proof.
  split.
  - intros v k e w r w' (w1 & Hi & [[-> _]|[(_ & _ & ->)|(_ & _ & ->)]])%ask_update_cases; [..|case_match]; apply (idles_now _ _ Hi).
  - intros v k e w r w' (w1 & Hi & [[-> _]|[(_ & _ & ->)|(_ & _ & ->)]])%ask_update_cases; [..|case_match]; apply (idles_selected _ _ Hi).
  - intros v v' k e w r w' _ Hne (w1 & Hi & Hc)%ask_update_cases. transitivity w1; [by apply idle_keeps|].
    destruct Hc as [[-> _]|[(Hl & _ & ->)|(Hl & _ & ->)]]; [reflexivity|apply put_keeps; congruence|].
    case_match; [apply delete_keeps|apply put_keeps]; congruence.
  - intros v k e w w' _ He (w1 & Hi & [[_ ?]|[(_ & ? & _)|(_ & _ & ->)]])%ask_update_cases; [done..|].
    rewrite wrap_s32_id by (unfold INT32_MIN; lia). rewrite (proj2 (Z.leb_gt _ _)) by lia.
    pose proof (idles_now _ _ Hi). exists (r_now (t_db w1) + e)%Z. split; [cbn; lia|]. intros _.
    cbn [stored timed_store selected with_db t_db]. rewrite <- (idles_selected _ _ Hi). apply put_stored. lia.
  - intros v k e w r w' i k' d _ (w1 & Hi & Hc)%ask_update_cases Hor Hst Hle.
    apply (keeps_stored _ _ _ (idle_keeps v _ _ Hi)) in Hst.
    2:{ revert Hle. destruct Hc as [[-> _]|[(_ & _ & ->)|(_ & _ & ->)]]; [done..|]. by case_match. }
    destruct Hc as [[-> _]|[(Hl & _ & ->)|(_ & -> & ->)]]; [done|..]; cbn [stored timed_store with_db t_db selected] in *.
    + rewrite r_stored_put. case_bool_decide as Hk; [|done]. simplify_eq. apply r_stored_live in Hst. congruence.
    + destruct Hor as [?|Hne]; [done|]. rewrite <- (idles_selected _ _ Hi) in Hne.
      case_match; rewrite ?r_stored_put, ?r_stored_delete, bool_decide_eq_false_2 by congruence; done.
Qed.

(** ** Answers *)

(** What is stored fits a bulk string. *)
Definition values_fit (w : timed) : Prop := map_Forall (fun _ x => short x.1) (r_keys (t_db w)).

Lemma fit_idle w w' : idle w w' -> values_fit w -> values_fit w'.
Proof. intros [_ Hk _]. unfold values_fit. by rewrite Hk. Qed.

Lemma fit_live k w v : values_fit w -> r_live k (t_db w) = Some v -> short v.
Proof.
  intros Hw Hv. unfold r_live in Hv. destruct (r_keys (t_db w) !! _) as [[v' d]|] eqn:E; [|done].
  apply Hw in E. cbn in E. repeat case_match; by simplify_eq.
Qed.

Lemma fit_put k v d w : short v -> values_fit w -> values_fit (with_db (r_put k v d (t_db w)) w).
Proof. intros Hv Hw. by apply map_Forall_insert_2. Qed.

Lemma fit_delete k w : values_fit w -> values_fit (with_db (r_delete k (t_db w)) w).
Proof. intros Hw. by apply map_Forall_delete. Qed.
#[local] Hint Resolve fit_put fit_delete fit_live : core.

Lemma timed_answers cmd w :
  lock_command cmd -> values_fit w ->
  wire_ok (redis_exec cmd (t_db w)).1 = true /\ values_fit (with_db (redis_exec cmd (t_db w)).2 w).
Proof.
  intros Hc Hw. pose proof Hw as Hw'. rewrite <- with_db_same in Hw'.
  destruct Hc as [k v px _ Hv|k _|k _|k _|k px _|i _];
    rewrite ?exec_set_command, ?exec_set_px, ?exec_exists_command, ?exec_get_command, ?exec_del_command,
      ?exec_pexpire_command, ?exec_select_command.
  - destruct (_ <=? 0)%Z; [done|]. destruct (r_live k (t_db w)); split; cbn [fst snd]; auto.
  - destruct (r_live k (t_db w)); done.
  - destruct (r_live k (t_db w)) eqn:E; [|done]. split; [|done]. apply bool_decide_eq_true. by eapply fit_live.
  - destruct (r_live k (t_db w)); split; cbn [fst snd]; auto.
  - destruct (r_live k (t_db w)) eqn:E; [|done]. split; [done|]. cbn [snd]. destruct (_ <=? 0)%Z; [by apply fit_delete|]. apply fit_put; [|done]. by eapply fit_live.
  - destruct (_ && _); done.
Qed.

#[export] Instance timed_fit : AnswersFit timed values_fit.
Proof.
  split.
  - intros cmd w Hc Hw. rewrite exec_reply. apply (timed_answers cmd (tick w) Hc). by apply (fit_idle w).
  - intros cmd w Hc Hw. pose proof (proj2 (timed_answers cmd (tick w) Hc (fit_idle _ _ (tick_idle w) Hw))) as Hf.
    cbn [execute timed_server]. by destruct (redis_exec cmd (t_db (tick w))).
  - intros w. by apply fit_idle.
  - intros t w Hw. eapply (fit_idle (mk_timed _ _)); [apply tick_idle|exact Hw].
Qed.

#[export] Instance stack_store {T S R} `{DBStore R} : DBStore (db_redis T S R) := {|
  selected s := selected (server s);
  stored s := stored (server s) |}.
