(* ===== verification/DMutexLease.v ===== *)
(** What the lock does on the databases of a server, exactly, when no other client
    acts and every command and every reading of the clock takes some time, at most
    [delta]: an attempt acquires the databases whose key is free, a failed one leaves
    no key of its own, an operation that finds a key lapse under it throws, and
    waiting takes the lock once the deadlines of the others have passed. *)

From S2P Require Import Prelude Hoare Text DB RedisServer DBRedisFacts DMutex DMutexFacts DMutexSim DBCommands DMutexStack.

Abbreviation dmutex := (dmutex_state timed).
Abbreviation keymap := (gmap (Z * string) (string * option Z)).

(** ** Keys and time *)

Definition keys (w : timed) : keymap := r_keys (t_db w).

(** The value of a key at a time. *)
Definition alive (m : keymap) (t : Z) (x : Z * string) : option string :=
  match m !! x with
  | Some (v, None) => Some v
  | Some (v, Some d) => if (t <=? d)%Z then Some v else None
  | None => None
  end.

Lemma live_alive k w : r_live k (t_db w) = alive (keys w) (clock w) (r_selected (t_db w), k).
Proof. done. Qed.

Lemma alive_later m t t' x : (t <= t')%Z -> alive m t x = None -> alive m t' x = None.
Proof.
  intros Ht. unfold alive. destruct (m !! x) as [[v [d|]]|]; [|done..].
  destruct (Z.leb_spec t d); [done|]. by rewrite (proj2 (Z.leb_gt _ _)) by lia.
Qed.

Lemma alive_earlier m t t' x v : (t <= t')%Z -> alive m t' x = Some v -> alive m t x = Some v.
Proof.
  intros Ht. unfold alive. destruct (m !! x) as [[v' [d|]]|]; [|done..].
  destruct (Z.leb_spec t' d); [|done]. by rewrite (proj2 (Z.leb_le _ _)) by lia.
Qed.

(** A key that is there at a time and not at a later one has lapsed in between. *)
Lemma alive_lapses m t t' x v :
  alive m t x = Some v -> alive m t' x = None -> exists d, m !! x = Some (v, Some d) /\ (t <= d < t')%Z.
Proof.
  unfold alive. destruct (m !! x) as [[v' [d|]]|]; [|by intros ? [=]|done].
  destruct (Z.leb_spec t d); [|done]. destruct (Z.leb_spec t' d); [done|]. intros [= ->] _. exists d. split; [done|lia].
Qed.

Section time.
Context (delta : Z) (delta_pos : (0 <= delta)%Z).

(** No delay above [delta]. *)
Definition slow (w : timed) : Prop := Forall (fun d => Z.of_N d <= delta)%Z (delays w).

Record within (a : Z) (w w' : timed) : Prop := {
  within_now : (clock w <= clock w' <= clock w + a)%Z;
  within_slow : slow w' }.

Lemma within_refl w : slow w -> within 0 w w.
Proof. intros Hw. split; [lia|done]. Qed.

Lemma within_trans a b w1 w2 w3 : within a w1 w2 -> within b w2 w3 -> within (a + b) w1 w3.
Proof. intros [H1 _] [H2 Hs]. split; [lia|done]. Qed.

Lemma within_le a b w w' : (a <= b)%Z -> within a w w' -> within b w w'.
Proof. intros Hab [H Hs]. split; [lia|done]. Qed.

Lemma tick_within w : slow w -> within delta w (tick w).
Proof.
  intros Hw. pose proof Hw as Hw'. unfold slow, tick in *. destruct (delays w) as [|d ds] eqn:E.
  - split; [lia|]. unfold slow. by rewrite E.
  - apply Forall_cons in Hw as [Hd Hds]. split; [cbn; lia|done].
Qed.

Lemma within_with_db a w w1 db : within a w w1 -> r_now db = r_now (t_db w1) -> within a w (with_db db w1).
Proof. intros [H Hs] E. split; [|done]. cbn in *. lia. Qed.

(** The next two and three commands. *)
Lemma tick2_within w : slow w -> within (2 * delta) w (tick (tick w)).
Proof.
  intros Hw. pose proof (tick_within w Hw) as H1. pose proof (tick_within _ (within_slow _ _ _ H1)) as H2.
  eapply within_le; [|by eapply within_trans]. lia.
Qed.

Lemma tick3_within w : slow w -> within (3 * delta) w (tick (tick (tick w))).
Proof.
  intros Hw. pose proof (tick2_within w Hw) as H1. pose proof (tick_within _ (within_slow _ _ _ H1)) as H2.
  eapply within_le; [|by eapply within_trans]. lia.
Qed.
End time.

Lemma tick_keys w : keys (tick w) = keys w.
Proof. apply (idles_keys _ _ (tick_idle w)). Qed.
Lemma tick_selected w : r_selected (t_db (tick w)) = r_selected (t_db w).
Proof. apply (idles_selected _ _ (tick_idle w)). Qed.
Lemma live_eq k w : live k w = alive (keys w) (clock (tick w)) (r_selected (t_db w), k).
Proof. unfold live. by rewrite live_alive, tick_keys, tick_selected. Qed.

Section lease.
Context (shuffle : Z -> list Z -> list Z) (c : dmutex_config) (delta : Z) (delta_pos : (0 <= delta)%Z).
Context (shuffle_perm : forall seed l, Permutation (shuffle seed l) l).
Context (hosts_distinct : NoDup (hosts_ c)) (hosts_exist : Forall (fun i => 0 <= i < 16)%Z (hosts_ c)).
Context (period : (0 < lock_validity_time_ c <= INT32_MAX)%Z).
Abbreviation slow := (slow delta).
Abbreviation within := (within delta).
Abbreviation validity := (lock_validity_time_ c).

Lemma wrap_validity : wrap_s32 validity = validity.
Proof. apply wrap_s32_id. unfold INT32_MIN. lia. Qed.

(** ** Keys of the lock *)

(** The databases of [l] store the lock's value with deadlines in a range; nothing
    else is changed. *)
Definition written (l : list Z) (lo hi : Z) (m m' : keymap) : Prop :=
  forall i k, if decide (i ∈ l /\ k = key_ c)
    then exists d, m' !! (i, k) = Some (value_ c, Some d) /\ (lo <= d <= hi)%Z
    else m' !! (i, k) = m !! (i, k).

Lemma written_nil lo hi m : written [] lo hi m m.
Proof. intros i k. rewrite decide_False; [done|]. by intros [?%not_elem_of_nil _]. Qed.

Lemma written_le l lo hi lo' hi' m m' : (lo' <= lo)%Z -> (hi <= hi')%Z -> written l lo hi m m' -> written l lo' hi' m m'.
Proof.
  intros Hlo Hhi Hw i k. specialize (Hw i k). case_decide; [|done]. destruct Hw as (d & Hd & Hr). exists d. split; [done|lia].
Qed.

Lemma written_cons i l lo hi m1 m2 m3 : written [i] lo hi m1 m2 -> written l lo hi m2 m3 -> written (i :: l) lo hi m1 m3.
Proof.
  intros H1 H2 j k. specialize (H1 j k). specialize (H2 j k).
  destruct (decide (j ∈ l /\ k = key_ c)) as [[Hj Hk]|Hn].
  { rewrite decide_True; [done|]. split; [by right|done]. }
  destruct (decide (j ∈ [i] /\ k = key_ c)) as [[Hj Hk]|Hn'].
  - rewrite decide_True, H2; [done|]. split; [|done]. apply list_elem_of_singleton in Hj as ->. by left.
  - rewrite decide_False; [by rewrite H2, H1|]. intros [[->|Hj]%elem_of_cons Hk]; [|by apply Hn].
    apply Hn'. split; [by apply list_elem_of_singleton|done].
Qed.

Lemma written_put i d lo hi m : (lo <= d <= hi)%Z -> written [i] lo hi m (<[(i, key_ c) := (value_ c, Some d)]> m).
Proof.
  intros Hd j k. case_decide as Hj.
  - destruct Hj as [->%list_elem_of_singleton ->]. exists d. by rewrite lookup_insert_eq.
  - apply lookup_insert_ne. intros [= <- <-]. apply Hj. split; [by apply list_elem_of_singleton|done].
Qed.

Lemma written_in l lo hi m m' i : written l lo hi m m' -> i ∈ l ->
  exists d, m' !! (i, key_ c) = Some (value_ c, Some d) /\ (lo <= d <= hi)%Z.
Proof. intros Hw Hi. specialize (Hw i (key_ c)). by rewrite decide_True in Hw. Qed.

Lemma written_out l lo hi m m' i k : written l lo hi m m' -> ~ (i ∈ l /\ k = key_ c) -> m' !! (i, k) = m !! (i, k).
Proof. intros Hw Hi. specialize (Hw i k). by rewrite decide_False in Hw. Qed.

(** Keys may go, and nothing else changes. *)
Definition fewer (m m' : keymap) : Prop := forall x, m' !! x = m !! x \/ m' !! x = None.

#[export] Instance fewer_preorder : PreOrder fewer.
Proof.
  split; [by left|]. intros m1 m2 m3 H1 H2 x. destruct (H2 x) as [-> | ->]; [apply H1|by right].
Qed.

Lemma fewer_lookup m m' x y : fewer m m' -> m' !! x = Some y -> m !! x = Some y.
Proof. intros Hf E. destruct (Hf x) as [E'|E']; congruence. Qed.

Lemma fewer_alive m m' t x v : fewer m m' -> alive m' t x = Some v -> alive m t x = Some v.
Proof. intros Hf. unfold alive. by destruct (Hf x) as [-> | ->]. Qed.

(** ** The steps *)

Lemma lease_select i (s : dmutex) Q :
  (0 <= i < 16)%Z -> slow (world s) ->
  (forall w, within delta (world s) w -> r_selected (t_db w) = i -> keys w = keys (world s) ->
     Q (Ret kSelectDBSucceed) (set_world w s)) ->
  ends (db (SelectDB i)) s Q.
Proof.
  intros Hi Hs HQ. unfold ends, db. cbn [SelectDB command_interface]. rewrite ask_select_eq.
  rewrite (proj2 (Z.leb_le _ _)), (proj2 (Z.ltb_lt _ _)) by lia. apply HQ; [|done|apply (tick_keys (world s))].
  apply within_with_db; [by apply tick_within|done].
Qed.

(** SET: the key is taken at the instant the command is executed, or is not free. *)
Lemma lease_set (s : dmutex) Q :
  slow (world s) ->
  (forall w, within delta (world s) w -> r_selected (t_db w) = r_selected (t_db (world s)) ->
     alive (keys (world s)) (clock w) (r_selected (t_db w), key_ c) = None ->
     keys w = <[(r_selected (t_db w), key_ c) := (value_ c, Some (clock w + validity)%Z)]> (keys (world s)) ->
     Q (Ret kSetKeySucceed) (set_world w s)) ->
  (forall w, within delta (world s) w -> r_selected (t_db w) = r_selected (t_db (world s)) ->
     alive (keys (world s)) (clock w) (r_selected (t_db w), key_ c) <> None -> keys w = keys (world s) ->
     Q (Ret kKeyExist) (set_world w s)) ->
  ends (db (SetKeyValue (key_ c) (value_ c) validity)) s Q.
Proof.
  intros Hs HQ1 HQ2. unfold ends, db. cbn [SetKeyValue command_interface]. rewrite ask_set_eq, wrap_validity.
  rewrite (proj2 (Z.leb_gt _ _)) by lia. pose proof (tick_within delta delta_pos _ Hs) as Hw.
  pose proof (tick_selected (world s)) as Hsel. pose proof (tick_keys (world s)) as Hk.
  destruct (live (key_ c) (world s)) as [v|] eqn:El; rewrite live_eq in El; cbn [fst snd].
  - apply HQ2; [done|done| |done]. rewrite Hsel. congruence.
  - apply HQ1; [by apply within_with_db|done|by cbn; rewrite Hsel|].
    change (<[(r_selected (t_db (tick (world s))), key_ c):=(value_ c, Some (r_now (t_db (tick (world s))) + validity)%Z)]> (keys (tick (world s))) =
      <[(r_selected (t_db (tick (world s))), key_ c):=(value_ c, Some (r_now (t_db (tick (world s))) + validity)%Z)]> (keys (world s))).
    by rewrite Hk.
Qed.

(** A key of the databases [hosts] that lapses between two times *)
Definition lapses (hosts : list Z) (m : keymap) (t t' : Z) : Prop :=
  exists i v d, i ∈ hosts /\ m !! (i, key_ c) = Some (v, Some d) /\ (t <= d < t')%Z.

Definition no_string : exn := redis_error "Reply is not a string".

(** EXISTS, GET and DEL: a key with the lock's value is deleted; one that lapses
    between the first two makes the operation throw. *)
Lemma lease_del (s : dmutex) Q :
  slow (world s) ->
  (forall r w, within (3 * delta) (world s) w -> r_selected (t_db w) = r_selected (t_db (world s)) ->
     alive (keys (world s)) (clock w) (r_selected (t_db w), key_ c) <> Some (value_ c) -> keys w = keys (world s) ->
     Q (Ret r) (set_world w s)) ->
  (forall w, within (3 * delta) (world s) w -> r_selected (t_db w) = r_selected (t_db (world s)) ->
     keys w = delete (r_selected (t_db w), key_ c) (keys (world s)) -> Q (Ret kDelKeySucceed) (set_world w s)) ->
  (forall w, within (3 * delta) (world s) w -> keys w = keys (world s) ->
     lapses [r_selected (t_db (world s))] (keys (world s)) (clock (world s)) (clock w) ->
     Q (Throw no_string) (set_world w s)) ->
  ends (db (DelKeyValue (key_ c) (value_ c))) s Q.
Proof.
  intros Hs HQ1 HQ2 HQ3. unfold ends, db. cbn [DelKeyValue command_interface]. rewrite ask_del_eq.
  pose proof (tick_within delta delta_pos _ Hs) as W1. pose proof (tick2_within delta delta_pos _ Hs) as W2.
  pose proof (tick3_within delta delta_pos _ Hs) as W3. set (w := world s) in *.
  pose proof (within_now _ _ _ _ W1) as N1. pose proof (within_now _ _ _ _ (tick_within delta delta_pos _ (within_slow _ _ _ _ W1))) as N2.
  apply (within_le delta delta (3 * delta)) in W1; [|lia]. apply (within_le delta (2 * delta) (3 * delta)) in W2; [|lia].
  rewrite !live_eq, !tick_keys, !tick_selected. set (x := (r_selected (t_db w), key_ c)).
  destruct (alive (keys w) (clock (tick w)) x) as [v|] eqn:E1; cbn [fst snd].
  2:{ apply HQ1; rewrite ?tick_selected, ?tick_keys; try done. fold x. congruence. }
  destruct (alive (keys w) (clock (tick (tick w))) x) as [v'|] eqn:E2; cbn [fst snd].
  2:{ apply HQ3; rewrite ?tick_keys; try done. destruct (alive_lapses _ _ _ _ _ E1 E2) as (d & Hd & Hr).
      exists (r_selected (t_db w)), v, d. split; [by left|]. split; [done|]. cbn [clock timed_clock] in *. lia. }
  case_bool_decide as Hv; cbn [fst snd].
  2:{ apply HQ1; rewrite ?tick_selected, ?tick_keys; try done. fold x. congruence. }
  destruct (alive (keys w) (clock (tick (tick (tick w)))) x) eqn:E3; cbn [fst snd].
  - apply HQ2; [by apply within_with_db|by cbn; rewrite !tick_selected|].
    change (delete (r_selected (t_db (tick (tick (tick w)))), key_ c) (keys (tick (tick (tick w)))) = delete (r_selected (t_db (tick (tick (tick w)))), key_ c) (keys w)).
    by rewrite !tick_keys.
  - apply HQ1; rewrite ?tick_selected, ?tick_keys; try done. fold x. congruence.
Qed.

Lemma lease_clock (s : dmutex) Q :
  slow (world s) ->
  (forall w, within delta (world s) w -> keys w = keys (world s) -> Q (Ret (clock w)) (set_world w s)) ->
  ends GetCurrentMilliseconds s Q.
Proof. intros Hs HQ. unfold ends, GetCurrentMilliseconds. cbn. apply HQ; [by apply tick_within|apply tick_keys]. Qed.

Lemma lease_lock (s : dmutex) Q : lck s = false -> mtx_ s = false -> Q (Ret tt) (set_mutex true true s) -> ends lck_lock s Q.
Proof. intros Hl Hm HQ. unfold ends, lck_lock. by rewrite Hl, Hm. Qed.

Lemma lease_unlock (s : dmutex) Q : lck s = true -> Q (Ret tt) (set_mutex false false s) -> ends lck_unlock s Q.
Proof. intros Hl HQ. unfold ends, lck_unlock. by rewrite Hl. Qed.

Lemma lease_with_lck {A} (body : M dmutex A) (s : dmutex) Q :
  ends body (set_mutex (mtx_ s) false s) (fun o s1 => Q o (set_mutex (if lck s1 then false else mtx_ s1) (lck s) s1)) ->
  ends (with_lck body) s Q.
Proof. unfold ends, with_lck. by destruct (body _). Qed.

(** ** An attempt *)

(** Unowned, for a function about to lock. *)
Definition unlocked (s : dmutex) : Prop := lck s = false /\ mtx_ s = false.

Abbreviation now_of s := (clock (world s)).
Abbreviation keys_of s := (keys (world s)).

(** The databases of [vec] from [s] to [s']: those of [new] were acquired, and with
    them all that were free at the start. *)
Definition acquires (vec new : list Z) (s s' : dmutex) : Prop :=
  have_lock_num_ s' = have_lock_num_ s ++ new /\ sublist new vec /\
  written new (now_of s + validity) (now_of s' + validity) (keys_of s) (keys_of s') /\
  forall i, i ∈ vec -> alive (keys_of s) (now_of s) (i, key_ c) = None -> i ∈ new.

Definition spent (n : Z) (vec : list Z) : Z := (n * Z.of_nat (length vec) * delta)%Z.

Lemma spent_cons n i l : spent n (i :: l) = (n * delta + spent n l)%Z.
Proof. unfold spent. cbn [length]. lia. Qed.

Lemma lease_lock_loop n start vec (s : dmutex) :
  NoDup vec -> Forall (fun i => 0 <= i < 16)%Z vec -> length vec <= n -> unlocked s -> slow (world s) ->
  ends (lock_loop c n start vec) s (fun o s' =>
    o = Ret tt /\ unlocked s' /\ within (spent 2 vec) (world s) (world s') /\ exists new, acquires vec new s s').
Proof.
  revert vec s. induction n as [|n IH]; intros [|i rest] s Hnd Hex Hn Hu Hs; cbn [length] in Hn; try lia; cbn [lock_loop].
  1,2: apply ends_ret; split_and!; [done|exact Hu|by apply within_refl|]; exists []; split_and!;
    [by rewrite app_nil_r|done|apply written_nil|by intros i ?%not_elem_of_nil].
  destruct (NoDup_cons_1_1 _ _ Hnd, NoDup_cons_1_2 _ _ Hnd) as [Hi Hnd']. apply Forall_cons in Hex as [Hb Hex].
  destruct Hu as [Hl Hm]. apply ends_bind, lease_lock; [done..|]. cbn [continues].
  apply ends_bind, lease_select; [done|done|]. intros w1 W1 S1 K1. cbn [continues world set_mutex] in *.
  change (is_result kSelectDBSucceed kSelectDBSucceed) with true. cbv iota.
  apply ends_bind, lease_set; [apply W1|..]; intros w2 W2 S2 A2 K2; cbn [continues world set_mutex set_world] in *;
    rewrite ?S2, ?S1, ?K1 in A2; rewrite ?S2, ?S1, ?K1 in K2; (apply ends_bind, lease_unlock; [done|]); cbn [continues];
    pose proof (within_trans _ _ _ _ _ _ W1 W2) as W; pose proof (within_now _ _ _ _ W) as N.
  - change (is_result kSetKeySucceed kSetKeySucceed) with true. cbv iota. apply ends_bind. unfold ends at 1. cbn [mmodify fst snd continues].
    eapply ends_weaken; [apply IH; [done|done|lia|done|by apply W2]|]. cbn [world set_mutex set_world set_have_lock_num].
    intros o s' (-> & Hu' & W' & new & Hh & Hsub & Hwr & Hfree). split; [done|]. split; [done|].
    pose proof (within_now _ _ _ _ W') as N'. cbn [world set_mutex set_world set_have_lock_num have_lock_num_] in *.
    split. { eapply within_le; [|by eapply within_trans]. rewrite spent_cons. lia. }
    exists (i :: new). split_and!; [by rewrite Hh, <- app_assoc|by constructor| |].
    + apply written_cons with (keys w2); [rewrite K2; apply written_put; lia|]. eapply written_le; [..|exact Hwr]; lia.
    + intros j [->|Hj]%elem_of_cons Hfr; [by left|]. right. apply Hfree; [done|].
      eapply (alive_later _ (now_of s)); [lia|]. rewrite K2. unfold alive in *.
      rewrite lookup_insert_ne by (intros [= ->]; done). exact Hfr.
  - change (is_result kKeyExist kSetKeySucceed) with false. change (is_result kKeyExist kKeyExist) with true. cbv iota.
    eapply ends_weaken; [apply IH; [done|done|lia|done|by apply W2]|]. cbn [world set_mutex set_world].
    intros o s' (-> & Hu' & W' & new & Hh & Hsub & Hwr & Hfree). split; [done|]. split; [done|].
    pose proof (within_now _ _ _ _ W') as N'. cbn [world set_mutex set_world have_lock_num_] in *. rewrite K2 in Hwr, Hfree.
    split. { eapply within_le; [|by eapply within_trans]. rewrite spent_cons. lia. }
    exists new. split_and!; [done|by constructor| |].
    + eapply written_le; [..|exact Hwr]; lia.
    + intros j [->|Hj]%elem_of_cons Hfr.
      * exfalso. apply A2. eapply alive_later; [|exact Hfr]. lia.
      * apply Hfree; [done|]. eapply alive_later; [|exact Hfr]. lia.
Qed.

(** What unlocking does: every key of the lock goes, or a key lapses under it. *)
Definition frees (hosts : list Z) (s : dmutex) {A} (o : outcome A) (s' : dmutex) : Prop :=
  within (spent 4 hosts) (world s) (world s') /\ fewer (keys_of s) (keys_of s') /\
  match o with
  | Ret _ => forall i, i ∈ hosts -> alive (keys_of s') (now_of s') (i, key_ c) <> Some (value_ c)
  | Throw e => e = no_string /\ lapses hosts (keys_of s) (now_of s) (now_of s')
  | _ => False
  end.

Lemma lapses_cons i hosts m t t' : lapses hosts m t t' -> lapses (i :: hosts) m t t'.
Proof. intros (j & v & d & Hj & Hd & Ht). exists j, v, d. split; [by right|done]. Qed.

Lemma lapses_sub hosts m m' t t' t0 t1 :
  fewer m m' -> (t0 <= t)%Z -> (t' <= t1)%Z -> lapses hosts m' t t' -> lapses hosts m t0 t1.
Proof.
  intros Hf H0 H1 (i & v & d & Hi & Hd & Ht). exists i, v, d. split; [done|]. split; [by eapply fewer_lookup|lia].
Qed.

Lemma lease_unlock_loop hosts k (s : dmutex) :
  Forall (fun i => 0 <= i < 16)%Z hosts -> slow (world s) ->
  ends (unlock_loop c hosts k) s (fun o s' => frees hosts s o s' /\ lck s' = lck s /\ mtx_ s' = mtx_ s).
Proof.
  intros Hex. revert k s. induction Hex as [|i rest Hi _ IH]; intros k s Hs; cbn [unlock_loop].
  { apply ends_ret. split; [|done]. split; [by apply within_refl|]. split; [reflexivity|]. by intros i ?%not_elem_of_nil. }
  apply ends_bind, lease_select; [done|done|]. intros w1 W1 S1 K1. cbn [continues].
  change (is_result kSelectDBSucceed kSelectDBSucceed) with true. cbv iota.
  assert (forall k w2, within (3 * delta) w1 w2 -> fewer (keys_of s) (keys w2) ->
    alive (keys w2) (clock w2) (i, key_ c) <> Some (value_ c) ->
    ends (unlock_loop c rest k) (set_world w2 (set_world w1 s))
      (fun o s' => frees (i :: rest) s o s' /\ lck s' = lck s /\ mtx_ s' = mtx_ s)) as Hrest.
  { intros k' w2 W2 Hf Hd. pose proof (within_now _ _ _ _ W1) as N1. pose proof (within_now _ _ _ _ W2) as N2.
    eapply ends_weaken; [apply IH; apply W2|]. cbn [world set_world lck mtx_].
    intros o s' ((W' & Hf' & Ho) & Hl & Hm). split; [|done]. cbn [world set_world] in *. pose proof (within_now _ _ _ _ W') as N'.
    split. { eapply within_le; [|eapply within_trans; [exact W1|by eapply within_trans]]. rewrite spent_cons. lia. }
    split; [by etrans|]. destruct o as [k''|e| |]; [|destruct Ho as [-> Ho]; split; [done|]|done..].
    - intros j [->|Hj]%elem_of_cons; [|by apply Ho]. intros Ha. apply (fewer_alive _ _ _ _ _ Hf') in Ha.
      apply Hd. eapply alive_earlier; [|exact Ha]. cbn in *; lia.
    - apply lapses_cons. eapply lapses_sub; [exact Hf| | |exact Ho]; cbn in *; lia. }
  apply ends_bind, lease_del; [apply W1|..]; cbn [world set_world continues] in *; rewrite S1, K1.
  - intros r w2 W2 S2 A2 K2. destruct (is_result r kDelKeySucceed); apply Hrest; rewrite ?K2; try done; by rewrite <- S2.
  - intros w2 W2 S2 K2. change (is_result kDelKeySucceed kDelKeySucceed) with true. cbv iota. rewrite S2 in K2.
    apply Hrest; [done| |].
    + intros x. rewrite K2. destruct (decide (x = (i, key_ c))) as [->|Hne]; [right; apply lookup_delete_eq|left].
      by apply lookup_delete_ne.
    + unfold alive. by rewrite K2, lookup_delete_eq.
  - intros w2 W2 K2 (j & v & d & ->%list_elem_of_singleton & Hd & Ht). pose proof (within_now _ _ _ _ W1).
    split; [|done]. split. { eapply within_le; [|by eapply within_trans]. rewrite spent_cons. unfold spent. cbn. lia. }
    cbn [world set_world]. rewrite K2. split; [reflexivity|]. split; [done|]. exists i, v, d. split; [by left|]. split; [done|].
    cbn [world set_world clock timed_clock] in *. lia.
Qed.

Lemma lease_UnlockAll (s : dmutex) :
  unlocked s -> slow (world s) ->
  ends (UnlockAll c) s (fun o s' => unlocked s' /\ frees (hosts_ c) s o s').
Proof.
  intros [Hl Hm] Hs. apply lease_with_lck. apply ends_bind, lease_lock; [done..|]. cbn [continues].
  apply ends_bind. unfold ends at 1. cbn [mmodify fst snd continues]. apply ends_bind.
  eapply ends_weaken; [apply lease_unlock_loop; done|]. cbn [world set_mutex set_status lck mtx_].
  intros o s' ((W & Hf & Ho) & El & Em). cbn [world set_mutex set_status] in *.
  assert (forall A (o' : outcome A), (match o' with Ret _ => forall i, i ∈ hosts_ c -> alive (keys_of s') (now_of s') (i, key_ c) <> Some (value_ c)
    | Throw e => e = no_string /\ lapses (hosts_ c) (keys_of s) (now_of s) (now_of s') | _ => False end) ->
    unlocked (set_mutex (if lck s' then false else mtx_ s') (lck s) s') /\
    frees (hosts_ c) s o' (set_mutex (if lck s' then false else mtx_ s') (lck s) s')) as Hend.
  { intros A o' Ho'. rewrite El, Hl. split; [done|]. by split_and!. }
  destruct o as [k|e| |]; cbn [continues]; [|by apply Hend|done..].
  unfold ends at 1. cbn [mget mbind M_bind fst snd]. by apply Hend.
Qed.

Definition attempt_time : Z := (spent 6 (hosts_ c) + 2 * delta)%Z.

(** The key is free in every database. *)
Definition all_free (s : dmutex) : Prop := forall i, i ∈ hosts_ c -> alive (keys_of s) (now_of s) (i, key_ c) = None.

Lemma majority_all have : length (hosts_ c) <= length have -> hosts_ c <> [] -> majority c have = true.
Proof.
  intros Hp Hne. unfold majority. apply Nat.leb_le.
  destruct (hosts_ c) as [|i l]; [done|]. cbn [length] in *.
  pose proof (Nat.div_mod_eq (S (length l)) 2). lia.
Qed.

Lemma acquires_all vec new s s' :
  Permutation vec (hosts_ c) -> acquires vec new s s' -> all_free s -> length (hosts_ c) <= length new.
Proof.
  intros Hp (_ & _ & _ & Hall) Hfree. apply submseteq_length, NoDup_submseteq; [done|].
  intros i Hi. apply Hall; [by rewrite Hp|by apply Hfree].
Qed.

(** What the keys of a failed attempt become. *)
Lemma acquires_freed vec new s s1 s2 :
  Permutation vec (hosts_ c) -> acquires vec new s s1 -> fewer (keys_of s1) (keys_of s2) ->
  (now_of s2 <= now_of s + validity)%Z ->
  (forall i, i ∈ hosts_ c -> alive (keys_of s2) (now_of s2) (i, key_ c) <> Some (value_ c)) -> fewer (keys_of s) (keys_of s2).
Proof.
  intros Hp (_ & Hsub & Hw & _) Hf Ht Hd [i k]. destruct (decide (i ∈ new /\ k = key_ c)) as [[Hi ->]|Hn].
  - right. destruct (written_in _ _ _ _ _ _ Hw Hi) as (d & Hk & Hr). destruct (Hf (i, key_ c)) as [E|]; [|done].
    exfalso. apply (Hd i).
    + rewrite <- Hp. eapply elem_of_submseteq; [exact Hi|by apply sublist_submseteq].
    + unfold alive. rewrite E, Hk. by rewrite (proj2 (Z.leb_le _ _)) by lia.
  - destruct (Hf (i, k)) as [E|]; [left|by right]. rewrite E. by eapply written_out.
Qed.

Lemma acquires_lapse vec new s s1 t2 :
  acquires vec new s s1 -> (now_of s <= now_of s1)%Z -> (t2 <= now_of s + validity)%Z ->
  lapses (hosts_ c) (keys_of s1) (now_of s1) t2 -> lapses (hosts_ c) (keys_of s) (now_of s) t2.
Proof.
  intros (_ & _ & Hw & _) Ht Ht2 (i & v & d & Hi & Hd & Hr). exists i, v, d. split; [done|].
  destruct (decide (i ∈ new)) as [Hin|Hn].
  - destruct (written_in _ _ _ _ _ _ Hw Hin) as (d' & Hk & Hr'). rewrite Hd in Hk. simplify_eq. lia.
  - split; [|lia]. rewrite <- Hd. symmetry. eapply written_out; [exact Hw|]. by intros [? _].
Qed.

(** What an attempt leaves, outcome by outcome. *)
Definition attempted (s : dmutex) (o : outcome bool) (s' : dmutex) : Prop :=
  mtx_ s' = false /\ within attempt_time (world s) (world s') /\
  match o with
  | Ret true =>
      majority c (have_lock_num_ s') = true /\ lock_status_ s' = true /\ have_lock_num_ s' ⊆+ hosts_ c /\
      written (have_lock_num_ s') (now_of s + validity) (now_of s' + validity) (keys_of s) (keys_of s')
  | Ret false => fewer (keys_of s) (keys_of s') /\ ~ all_free s
  | Throw e => e = no_string /\ lapses (hosts_ c) (keys_of s) (now_of s) (now_of s') /\ ~ all_free s
  | _ => False
  end.

(** The time check of an attempt that is quick enough. *)
Lemma lease_enough t0 (s : dmutex) Q :
  slow (world s) -> (t0 <= now_of s)%Z -> (now_of s + delta <= t0 + validity)%Z ->
  (forall w, within delta (world s) w -> keys w = keys_of s -> majority c (have_lock_num_ s) = true -> Q (Ret true) (set_world w s)) ->
  (majority c (have_lock_num_ s) = false -> Q (Ret false) s) ->
  ends (enough_locks c (wrap_u64 t0)) s Q.
Proof.
  intros Hs Ht0 Ht HQ1 HQ2. unfold enough_locks. apply ends_bind. unfold ends at 1. cbn [mget fst snd continues].
  destruct (majority c (have_lock_num_ s)); [|by apply ends_ret, HQ2].
  apply ends_bind, lease_clock; [done|]. intros w W K. cbn [continues]. pose proof (within_now _ _ _ _ W) as N.
  assert ((wrap_u64 (clock w - wrap_u64 t0) <=? wrap_u64 validity)%Z = true) as ->.
  { unfold wrap_u64. rewrite Zminus_mod_idemp_r, !Z.mod_small by (unfold INT32_MAX in *; lia). apply Z.leb_le. lia. }
  by apply ends_ret, HQ1.
Qed.

(** An attempt of a lock that has nothing. *)
Lemma lease_attempt n (s : dmutex) :
  hosts_ c <> [] -> length (hosts_ c) <= n -> mtx_ s = false -> slow (world s) -> have_lock_num_ s = [] -> (attempt_time <= validity)%Z ->
  ends (MainLockFunction shuffle c n) s (attempted s).
Proof.
  intros Hne Hn Hm Hs Hh Hfit. apply lease_with_lck, ends_bind, lease_clock; [done|]. intros w0 W0 K0.
  cbn [continues world set_mutex] in *. set (start := wrap_u64 (clock w0)).
  pose proof (shuffle_perm start (hosts_ c)) as Hperm. pose proof (within_now _ _ _ _ W0) as N0.
  set (s0 := set_world w0 (set_mutex (mtx_ s) false s)). assert (all_free s -> all_free s0) as Hfree0.
  { intros Hf i Hi. cbn [s0 world set_world]. rewrite K0. eapply alive_later; [|by apply Hf]. lia. }
  apply ends_bind. eapply ends_weaken; [apply lease_lock_loop|].
  { by rewrite Hperm. } { by rewrite Hperm. } { by rewrite Hperm. } { done. } { apply W0. }
  intros o s1 (-> & [Hl1 Hm1] & W1 & new & Hacq). cbn [continues]. fold s0 in Hacq. cbn [world set_world] in W1.
  assert (spent 2 (shuffle start (hosts_ c)) = spent 2 (hosts_ c)) as Hsp by (unfold spent; by rewrite Hperm). rewrite Hsp in W1.
  change (world s0) with w0 in W1.
  pose proof (within_now _ _ _ _ W1) as N1. pose proof Hacq as (Hh1 & Hsub & Hwr & Hall). cbn [s0 have_lock_num_ set_world set_mutex] in Hh1.
  rewrite Hh in Hh1. cbn [app] in Hh1. assert (0 <= spent 1 (hosts_ c))%Z as Hpos by (unfold spent; lia).
  assert (spent 2 (hosts_ c) = 2 * spent 1 (hosts_ c) /\ spent 4 (hosts_ c) = 4 * spent 1 (hosts_ c) /\ spent 6 (hosts_ c) = 6 * spent 1 (hosts_ c))%Z
    as (P2 & P4 & P6) by (unfold spent; lia). unfold attempted, attempt_time in *.
  apply ends_bind, lease_enough; [apply W1|lia|lia| |].
  - intros w2 W2 K2 Hmaj. cbn [continues]. pose proof (within_now _ _ _ _ W2) as N2.
    apply ends_bind, lease_lock; [done..|]. cbn [continues].
    apply ends_bind. unfold ends at 1. cbn [mmodify fst snd continues]. apply ends_bind. unfold ends at 1. cbn [mmodify fst snd continues].
    apply ends_bind, lease_unlock; [done|]. cbn [continues]. apply ends_ret.
    cbn [set_mutex push_event set_status set_world mtx_ lck have_lock_num_ lock_status_ world].
    split; [done|]. split. { eapply within_le; [|eapply within_trans; [exact W0|eapply within_trans; [exact W1|exact W2]]]. lia. }
    split_and!; [done|done| |].
    + rewrite Hh1, <- Hperm. by apply sublist_submseteq.
    + rewrite Hh1, K2. cbn [s0 world set_world] in Hwr. rewrite K0 in Hwr. eapply written_le; [..|exact Hwr]; lia.
  - intros Hmaj. cbn [continues].
    assert (~ all_free s) as Hnf.
    { intros Hf. rewrite majority_all in Hmaj; [done| |done]. rewrite Hh1. eapply acquires_all; [exact Hperm|exact Hacq|by apply Hfree0]. }
    apply ends_bind. eapply ends_weaken; [apply lease_UnlockAll; [done|apply W1]|].
    intros o s2 ([Hl2 Hm2] & W2 & Hf & Ho). pose proof (within_now _ _ _ _ W2) as N2.
    assert (within (spent 6 (hosts_ c) + 2 * delta) (world s) (world s2)) as W.
    { eapply within_le; [|eapply within_trans; [exact W0|eapply within_trans; [exact W1|exact W2]]]. lia. }
    destruct o as [b|e| |]; cbn [continues]; [|destruct Ho as [-> Ho]|done..].
    + apply ends_ret. cbn [set_mutex mtx_ world]. rewrite Hl2. split; [done|]. split; [done|]. split; [|done].
      rewrite <- K0. eapply (acquires_freed _ new s0 s1 s2); [exact Hperm|exact Hacq|exact Hf| |exact Ho]. cbn [s0 world set_world]. lia.
    + cbn [set_mutex mtx_ world]. rewrite Hl2. split; [done|]. split; [done|]. split; [done|]. split; [|done].
      rewrite <- K0. eapply (lapses_sub _ (keys_of s0) (keys_of s0) (now_of s0) (now_of s2)); [reflexivity|cbn [s0 world set_world]; lia|lia|].
      eapply (acquires_lapse _ new s0 s1); [exact Hacq|cbn [s0 world set_world]; lia|cbn [s0 world set_world]; lia|exact Ho].
Qed.

(** ** Waiting *)

(** The lock's key, where it is stored, has a deadline, none later than [d]. *)
Definition leased_until (d : Z) (m : keymap) : Prop :=
  forall i v t, i ∈ hosts_ c -> m !! (i, key_ c) = Some (v, t) -> exists d', t = Some d' /\ (d' <= d)%Z.

Lemma leased_fewer d m m' : fewer m m' -> leased_until d m -> leased_until d m'.
Proof. intros Hf Hd i v t Hi E. eapply Hd; [done|by eapply fewer_lookup]. Qed.

Lemma leased_free d (s : dmutex) : leased_until d (keys_of s) -> (d < now_of s)%Z -> all_free s.
Proof.
  intros Hd Hlt i Hi. unfold alive. destruct (keys_of s !! (i, key_ c)) as [[v t]|] eqn:E; [|done].
  destruct (Hd i v t Hi E) as (d' & -> & Hle). by rewrite (proj2 (Z.leb_gt _ _)) by lia.
Qed.

(** Milliseconds between two attempts of Lock *)
Definition pause : Z := (Z.quot validity 3 * 2)%Z.

Lemma pause_pos : (3 <= validity)%Z -> (0 < pause)%Z.
Proof. intros Hv. unfold pause. pose proof (Z.quot_le_lower_bound validity 3 1). lia. Qed.

Lemma sleep_within w : slow w -> within (pause + delta) w (sleep_for pause w) /\ keys (sleep_for pause w) = keys w.
Proof.
  intros Hw. split; [|cbn [sleep_for timed_clock]; by rewrite tick_keys].
  assert (slow (mk_timed (pass (Z.max 0 pause) (t_db w)) (delays w))) as Hw' by exact Hw.
  pose proof (tick_within delta delta_pos _ Hw') as [Hn Hsl]. split; [|exact Hsl].
  assert (0 <= pause)%Z by (unfold pause; pose proof (Z.quot_pos validity 3); lia).
  cbn [sleep_for timed_clock clock pass t_db r_now] in *. lia.
Qed.

(** When a lock is taken at the latest: the last attempt that fails begins by [d]. *)
Definition latest (d : Z) (s : dmutex) : Z := (Z.max (now_of s) (d + attempt_time + pause + delta) + attempt_time)%Z.

Definition locked (d : Z) (s : dmutex) (o : outcome bool) (s' : dmutex) : Prop :=
  mtx_ s' = false /\ (now_of s <= now_of s' <= latest d s)%Z /\
  match o with
  | Ret b =>
      b = true /\ lock_status_ s' = true /\ majority c (have_lock_num_ s') = true /\ have_lock_num_ s' ⊆+ hosts_ c /\
      forall i, i ∈ have_lock_num_ s' -> exists t, keys_of s' !! (i, key_ c) = Some (value_ c, Some t) /\
        (now_of s' + validity - attempt_time <= t)%Z
  | Throw e => e = no_string /\ lapses (hosts_ c) (keys_of s) (now_of s) (now_of s') /\ (now_of s <= d)%Z
  | _ => False
  end.

Lemma attempt_time_nonneg : (0 <= attempt_time)%Z.
Proof. unfold attempt_time, spent. lia. Qed.

Lemma not_free_early d (s : dmutex) : leased_until d (keys_of s) -> ~ all_free s -> (now_of s <= d)%Z.
Proof. intros Hd Hnf. destruct (Z.le_gt_cases (now_of s) d) as [|Hgt]; [done|]. destruct Hnf. by eapply leased_free. Qed.

(** One turn of [Lock]: it ends the loop, or leaves the keys of the others. *)
Lemma lease_turn d n (s : dmutex) :
  hosts_ c <> [] -> length (hosts_ c) <= n -> (0 < pause)%Z -> (attempt_time <= validity)%Z ->
  mtx_ s = false -> slow (world s) -> leased_until d (keys_of s) ->
  ends (MainLockFunction shuffle c n) (set_have_lock_num [] s) (fun o s1 =>
    match o with
    | Ret false => mtx_ s1 = false /\ within attempt_time (world s) (world s1) /\ leased_until d (keys_of s1) /\
        fewer (keys_of s) (keys_of s1) /\ (now_of s <= d)%Z
    | _ => locked d s o s1
    end).
Proof.
  intros Hne Hn Hp Hfit Hm Hs Hd. pose proof attempt_time_nonneg as Hat.
  eapply ends_weaken; [by apply lease_attempt|]. intros o s1 (Hm1 & W1 & Ho). cbn [world set_have_lock_num] in *.
  pose proof (within_now _ _ _ _ W1) as N1. assert (now_of s <= now_of s1 <= latest d s)%Z as Hlate by (unfold latest; lia).
  destruct o as [[]|e| |]; [..|done|done].
  - destruct Ho as (Hmaj & Hst & Hsub & Hwr). split_and!; try done; try lia. intros i Hi.
    destruct (written_in _ _ _ _ _ _ Hwr Hi) as (t & Ht & Hr). exists t. split; [done|]. cbn [world set_have_lock_num] in *. lia.
  - destruct Ho as [Hf Hnf]. split_and!; try done; [by eapply leased_fewer|by apply (not_free_early d s)].
  - destruct Ho as (-> & Hl & Hnf). split_and!; try done; try lia. by apply (not_free_early d s).
Qed.

Lemma lease_Lock d k n (s : dmutex) :
  hosts_ c <> [] -> length (hosts_ c) <= n -> (3 <= validity)%Z -> (attempt_time <= validity)%Z ->
  mtx_ s = false -> slow (world s) -> leased_until d (keys_of s) -> (d < now_of s + pause * Z.of_nat k)%Z ->
  ends (Lock shuffle c (S k) n) s (locked d s).
Proof.
  intros Hne Hn Hv Hfit. pose proof (pause_pos Hv) as Hp. pose proof attempt_time_nonneg as Hat.
  revert s. induction k as [|k IH]; intros s Hm Hs Hd Hk; cbn [Lock];
    apply ends_bind; unfold ends at 1; cbn [mmodify fst snd continues]; apply ends_bind;
    (eapply ends_weaken; [by apply (lease_turn d)|]); intros [[]|e| |] s1 Ho; cbn [continues]; try exact Ho; try by apply ends_ret.
  { destruct Ho as (_ & _ & _ & _ & Hle). lia. }
  destruct Ho as (Hm1 & W1 & Hd1 & Hf & Hle). pose proof (within_now _ _ _ _ W1) as N1.
  apply ends_bind. unfold WaitUntil, ends at 1. cbn [mmodify fst snd continues]. fold pause.
  destruct (sleep_within (world s1) (within_slow _ _ _ _ W1)) as [Wp Kp]. pose proof (within_now _ _ _ _ Wp) as Np.
  eapply ends_weaken; [apply IH; cbn [world set_world mtx_]; [done|apply Wp|by rewrite Kp|]|].
  { assert (now_of s1 + pause <= clock (sleep_for pause (world s1)))%Z.
    { pose proof (idles_now _ _ (tick_idle (mk_timed (pass (Z.max 0 pause) (t_db (world s1))) (delays (world s1))))) as Hx.
      cbn [t_db pass r_now] in Hx. cbn [clock timed_clock sleep_for]. lia. } lia. }
  intros o s2 (Hm2 & Ht & Ho). cbn [world set_world mtx_] in *. rewrite Kp in Ho. split; [done|].
  assert (now_of s <= now_of s2 <= latest d s)%Z as Hlate by (unfold latest in *; cbn [world set_world] in *; lia).
  split; [done|]. destruct o as [b|e| |]; [exact Ho| |done..]. destruct Ho as (-> & Hl & Hle'). split; [done|]. split; [|done].
  eapply lapses_sub; [exact Hf| |reflexivity|exact Hl]. lia.
Qed.
End lease.
