(* ===== verification/DMutexStackTheorems.v ===== *)
(** The properties of the lock on the whole stack, from [Lock] down to the bytes
    exchanged with the server, with their witnesses. *)

From S2P Require Import Prelude Hoare Text TcpClient Connection Client ClientFacts DB RedisServer DBRedis DBRedisFacts DMutex DMutexFacts DMutexTheorems DMutexSim DBCommands DMutexStack DMutexLease.

(** The same lock object, on its server. *)
Definition on_server {T S R} (s : dmutex_state (db_redis T S R)) : dmutex_state R :=
  mk_dmutex (server (world s)) (have_lock_num_ s) (lock_status_ s) (lock_continue_ s) (mtx_ s) (lck s) (events s).

(** A lock object on an idle connection to a server whose answers fit the wire. *)
Record ready {T S R} `{TcpClient T} (fit : R -> Prop) (s : dmutex_state (db_redis T S R)) : Prop := {
  ready_world : stack_over fit (world s) (server (world s));
  ready_have : Forall index_ok (have_lock_num_ s) }.

(** A lock whose words fit the wire. *)
Record fits (c : dmutex_config) : Prop := {
  fits_key : short (key_ c);
  fits_value : short (value_ c);
  fits_hosts : Forall index_ok (hosts_ c) }.

Section stack.
Context {T S R : Type} `{TcpClientLaws T} `{SentinelLookup S} {HR : RedisServer R} {HC : SystemClock R}.
Context (fit : R -> Prop) {HF : AnswersFit R fit}.
Context (shuffle : Z -> list Z -> list Z) (shuffle_perm : forall seed l, Permutation (shuffle seed l) l).

(** Two computations of the lock do the same, on the stack and on the server. *)
Abbreviation refines := (simulates (same_lock (stack_over (T:=T) (S:=S) fit) index_ok)).

Lemma ready_same (s : dmutex_state (db_redis T S R)) : ready fit s -> same_lock (stack_over fit) index_ok s (on_server s).
Proof. intros []. by split. Qed.

Section config.
Context (c : dmutex_config) (Hfit : fits c).

(** The operations of the databases. *)
Abbreviation refines_db := (simulates (stack_over (T:=T) (S:=S) fit)).
Lemma stack_select i : index_ok i -> refines_db (DB.SelectDB i) (DB.SelectDB i).
Proof. apply (select_simulates fit). Qed.
Lemma stack_set e : refines_db (DB.SetKeyValue (key_ c) (value_ c) e) (DB.SetKeyValue (key_ c) (value_ c) e).
Proof. apply (set_simulates fit); apply Hfit. Qed.
Lemma stack_update e : refines_db (DB.UpdateExpire (key_ c) (value_ c) e) (DB.UpdateExpire (key_ c) (value_ c) e).
Proof. apply (update_simulates fit); apply Hfit. Qed.
Lemma stack_del : refines_db (DB.DelKeyValue (key_ c) (value_ c)) (DB.DelKeyValue (key_ c) (value_ c)).
Proof. apply (del_simulates fit). apply Hfit. Qed.
Lemma stack_now (w : db_redis T S R) (r : R) : stack_over fit w r -> (now w).1 = (now r).1 /\ stack_over fit (now w).2 (now r).2.
Proof. apply (now_simulates fit). Qed.
Lemma stack_sleep t (w : db_redis T S R) (r : R) : stack_over fit w r -> stack_over fit (sleep_for t w) (sleep_for t r).
Proof. apply (sleep_simulates fit). Qed.
#[local] Hint Resolve fits_hosts stack_select stack_set stack_update stack_del stack_now stack_sleep : core.

Lemma stack_MainLockFunction n : refines (MainLockFunction shuffle c n) (MainLockFunction shuffle c n).
Proof. apply sim_MainLockFunction; auto. Qed.

Lemma stack_Lock k n : refines (Lock shuffle c k n) (Lock shuffle c k n).
Proof. apply sim_Lock; auto. Qed.

Lemma stack_TryLock_expire k n expire :
  refines (TryLock_expire shuffle c k n expire) (TryLock_expire shuffle c k n expire).
Proof. apply sim_TryLock_expire; auto. Qed.

Lemma stack_KeepLock n : refines (KeepLock c n) (KeepLock c n).
Proof. apply sim_KeepLock; auto. Qed.

Lemma stack_UnlockAll : refines (UnlockAll c) (UnlockAll c).
Proof. apply sim_UnlockAll; auto. Qed.
End config.

(** A run on the stack is a run on the server. *)
Lemma refines_run {A} (a : M (dmutex_state (db_redis T S R)) A) (b : M (dmutex_state R) A) s o s' :
  refines a b -> ready fit s -> a s = (o, s') -> b (on_server s) = (o, on_server s') /\ ready fit s'.
Proof.
  intros Hsim Hr Ha. destruct (Hsim _ _ (ready_same s Hr)) as (o' & x & y & Ea & Eb & []).
  rewrite Ha in Ea. simplify_eq. destruct same_world as [Hs Hy Hsh]. rewrite Eb. split.
  - destruct y; unfold on_server; cbn in *; by subst.
  - split; [|done]. split; [done..|]. by rewrite Hy.
Qed.

(** What the run on the server leaves is what the run on the stack leaves. *)
Lemma refines_ends {A} (a : M (dmutex_state (db_redis T S R)) A) (b : M (dmutex_state R) A) s (Q : outcome A -> dmutex_state R -> Prop) :
  refines a b -> ready fit s -> ends b (on_server s) Q -> ends a s (fun o s' => Q o (on_server s') /\ ready fit s').
Proof.
  intros Hsim Hr He. unfold ends in *. destruct (a s) as [o s'] eqn:Ea.
  destruct (refines_run a b s o s' Hsim Hr Ea) as [Eb Hr']. by rewrite Eb in He.
Qed.
End stack.

(** C2: Refinement of the whole stack, on any server: every operation of a lock object
    that reaches its databases through the client, the connection and the bytes on the
    wire has the outcome, leaves the fields and leaves the server that the same
    operation has and leaves when each of its commands is executed by the server at
    once, whatever time passes and whatever the server's other clients do between two
    commands; and the connection is idle again.  The words of the lock, and what the
    server answers to its commands, have to fit the wire. *)
Theorem stack_refines {T S R} `{TcpClientLaws T} `{SentinelLookup S} `{RedisServer R} `{SystemClock R}
    (fit : R -> Prop) `{!AnswersFit R fit} shuffle c k n expire :
  (forall seed l, Permutation (shuffle seed l) l) -> fits c ->
  let refines {A} (a : M (dmutex_state (db_redis T S R)) A) (b : M (dmutex_state R) A) :=
    forall s, ready fit s -> exists o s', a s = (o, s') /\ b (on_server s) = (o, on_server s') /\ ready fit s' in
  refines (Lock shuffle c k n) (Lock shuffle c k n) /\
  refines (TryLock shuffle c n) (TryLock shuffle c n) /\
  refines (TryLock_expire shuffle c k n expire) (TryLock_expire shuffle c k n expire) /\
  refines (KeepLock c n) (KeepLock c n) /\
  refines (UnlockAll c) (UnlockAll c).
Proof.
  intros Hperm Hfit refines.
  assert (forall A a b, simulates (same_lock (stack_over fit) index_ok) a b -> refines A a b) as Hrun.
  { intros A a b Hsim s Hs. destruct (a s) as [o s'] eqn:E. exists o, s'. split; [done|].
    by eapply refines_run. }
  split_and!; apply Hrun;
    [by apply stack_Lock|by apply stack_MainLockFunction|by apply stack_TryLock_expire|by apply stack_KeepLock|by apply stack_UnlockAll].
Qed.

Abbreviation timed_stack T S := (dmutex_state (db_redis T S timed)).
Abbreviation ready_timed := (ready values_fit).

(** C3: Mutual exclusion, end to end, on a server whose time passes: two lock objects
    with values of their own and no databases held, each with its own connection, do
    not both succeed on the same databases and key within the validity periods of both,
    when what the first has stored is kept, until its deadlines, from its success to
    the start of the second's attempt (the first does not unlock in between). *)
Theorem stack_mutual_exclusion {T1 S1 T2 S2} `{TcpClientLaws T1} `{SentinelLookup S1} `{TcpClientLaws T2} `{SentinelLookup S2}
    shuffle c1 c2 n1 n2 (s1 s1' : timed_stack T1 S1) (s2 s2' : timed_stack T2 S2) :
  (forall seed l, Permutation (shuffle seed l) l) -> fits c1 -> fits c2 -> ready_timed s1 -> ready_timed s2 ->
  hosts_ c1 = hosts_ c2 -> key_ c1 = key_ c2 -> NoDup (hosts_ c1) -> value_ c1 <> value_ c2 ->
  (0 <= lock_validity_time_ c1 <= INT32_MAX)%Z -> (0 <= lock_validity_time_ c2 <= INT32_MAX)%Z ->
  have_lock_num_ s1 = [] -> have_lock_num_ s2 = [] ->
  (0 <= clock (world s1))%Z -> (clock (world s2') <= INT64_MAX)%Z ->
  MainLockFunction shuffle c1 n1 s1 = (Ret true, s1') ->
  keeps (value_ c1) (server (world s1')) (server (world s2)) ->
  (clock (world s2') <= clock (world s1) + lock_validity_time_ c1)%Z ->
  (clock (world s2') <= clock (world s2) + lock_validity_time_ c2)%Z ->
  MainLockFunction shuffle c2 n2 s2 <> (Ret true, s2').
Proof.
  intros Hperm Hf1 Hf2 Hr1 Hr2 Hh Hk Hnd Hne He1 He2 Hn1 Hn2 Ht0 Ht1 Hrun1 Hkeep Hv1 Hv2 Hrun2.
  apply (refines_run _ _ _ _ _ _ (stack_MainLockFunction _ shuffle Hperm c1 Hf1 n1) Hr1) in Hrun1 as [Hrun1 _].
  apply (refines_run _ _ _ _ _ _ (stack_MainLockFunction _ shuffle Hperm c2 Hf2 n2) Hr2) in Hrun2 as [Hrun2 _].
  by apply (majority_excludes (fun _ => True) shuffle Hperm c1 c2 n1 n2 (on_server s1) (on_server s1') (on_server s2) (on_server s2')).
Qed.

(** C4: Recovery, on a server whose time passes: a lock whose holders are gone is taken
    in time.  When the lock's key is stored only with deadlines up to [d], and no
    command, reading of the clock or end of a pause takes longer than [delta], of
    which an attempt, counted at six a database and two more, fits the validity:
    [Lock] on the whole stack does not go on after as many attempts as there are pauses
    until [d], nor past one attempt, one pause and one attempt after [d].  It returns
    true, with a majority of the databases storing the lock's value for the validity
    less one attempt from then; or it throws, and this only when one of those deadlines
    passes during the call: UnlockAll's EXISTS finds the key, and its GET does not. *)
Theorem stack_lock_recovers {T S} `{TcpClientLaws T} `{SentinelLookup S} shuffle c delta d k n (s : timed_stack T S) :
  (forall seed l, Permutation (shuffle seed l) l) -> fits c -> ready_timed s ->
  hosts_ c <> [] -> NoDup (hosts_ c) -> Forall (fun i => 0 <= i < 16)%Z (hosts_ c) ->
  (3 <= lock_validity_time_ c <= INT32_MAX)%Z -> mtx_ s = false -> length (hosts_ c) <= n ->
  (0 <= delta)%Z -> slow delta (server (world s)) -> (attempt_time c delta <= lock_validity_time_ c)%Z ->
  leased_until c d (keys (server (world s))) -> (d < clock (world s) + pause c * Z.of_nat k)%Z ->
  exists o s', Lock shuffle c (Datatypes.S k) n s = (o, s') /\ ready_timed s' /\ mtx_ s' = false /\
    (clock (world s') <= Z.max (clock (world s)) (d + attempt_time c delta + pause c + delta) + attempt_time c delta)%Z /\
    (o = Ret true /\ lock_status_ s' = true /\ majority c (have_lock_num_ s') = true /\ have_lock_num_ s' ⊆+ hosts_ c /\
       (forall i, i ∈ have_lock_num_ s' -> exists t, keys (server (world s')) !! (i, key_ c) = Some (value_ c, Some t) /\
          (clock (world s') + lock_validity_time_ c - attempt_time c delta <= t)%Z) \/
     o = Throw (redis_error "Reply is not a string") /\
       exists i v t, i ∈ hosts_ c /\ keys (server (world s)) !! (i, key_ c) = Some (v, Some t) /\
         (clock (world s) <= t < clock (world s'))%Z).
Proof.
  intros Hperm Hfit Hr Hne Hnd Hex Hval Hm Hn Hdelta Hslow Hat Hd Hk.
  pose proof (refines_ends _ _ _ s _ (stack_Lock values_fit shuffle Hperm c Hfit (Datatypes.S k) n) Hr
    (lease_Lock shuffle c delta Hdelta Hperm Hnd Hex ltac:(lia) d k n (on_server s) Hne Hn (proj1 Hval) Hat Hm Hslow Hd Hk)) as He.
  unfold ends in He. destruct (Lock shuffle c (Datatypes.S k) n s) as [o s']. cbn [fst snd] in He.
  destruct He as ((Hm' & Ht & Ho) & Hr'). exists o, s'. split; [done|]. split; [done|]. split; [done|]. split; [exact (proj2 Ht)|].
  destruct o as [b|e| |]; [left|right|done..]; [by destruct Ho as (-> & ?)|]. destruct Ho as (-> & Hl & _). split; [done|exact Hl].
Qed.

(** ** A key that lapses *)

Section lapse.
Context {T S : Type} `{TcpClientLaws T} `{SentinelLookup S}.
Context (c : dmutex_config) (s : timed_stack T S) (i : Z) (v : string) (d : Z) (d1 d2 d3 : N) (ds : list N).
Context (Hi : (0 <= i < 16)%Z) (Hm : mtx_ s = false) (Hd : delays (server (world s)) = d1 :: d2 :: d3 :: ds).
Context (Hk : keys (server (world s)) !! (i, key_ c) = Some (v, Some d)).
Context (Ht : (clock (world s) + Z.of_N d1 + Z.of_N d2 <= d < clock (world s) + Z.of_N d1 + Z.of_N d2 + Z.of_N d3)%Z).

(** After SELECT, and after the three commands. *)
Definition selected_then (w : timed) : timed := with_db (mk_redis_db i (r_now (t_db (tick w))) (r_keys (t_db (tick w)))) (tick w).
Abbreviation w1 := (selected_then (server (world s))).

Lemma select_now : DB.SelectDB i (server (world s)) = (Ret kSelectDBSucceed, w1).
Proof. cbn [DB.SelectDB command_interface]. rewrite ask_select_eq. by rewrite (proj2 (Z.leb_le _ _)), (proj2 (Z.ltb_lt _ _)) by lia. Qed.

Lemma lapse_live : live (key_ c) w1 = Some v /\ live (key_ c) (tick w1) = None.
Proof.
  revert Hd Hk Ht. cbn [clock stack_clock timed_clock]. destruct (server (world s)) as [[sel t m] dl]. cbn [delays keys t_db r_keys r_now].
  intros -> Hk' Ht'. unfold live, r_live. cbn. rewrite Hk'.
  by rewrite (proj2 (Z.leb_le _ _)), (proj2 (Z.leb_gt _ _)) by lia.
Qed.

Lemma lapse_keys : keys (tick (tick w1)) = keys (server (world s)).
Proof. rewrite !tick_keys. apply (tick_keys (server (world s))). Qed.

Lemma update_throws e : DB.UpdateExpire (key_ c) (value_ c) e w1 = (Throw no_string, tick (tick w1)).
Proof. cbn [DB.UpdateExpire command_interface]. rewrite ask_update_eq. destruct lapse_live as [-> ->]. done. Qed.

Lemma del_throws : DB.DelKeyValue (key_ c) (value_ c) w1 = (Throw no_string, tick (tick w1)).
Proof. cbn [DB.DelKeyValue command_interface]. rewrite ask_del_eq. destruct lapse_live as [-> ->]. done. Qed.

(** The same from the lock object, once it has locked its mutex. *)
Lemma select_step (x : dmutex) : world x = server (world s) -> db (DB.SelectDB i) x = (Ret kSelectDBSucceed, set_world w1 x).
Proof. unfold db. intros ->. by rewrite select_now. Qed.
Lemma update_step e x : db (DB.UpdateExpire (key_ c) (value_ c) e) (set_world w1 x) = (Throw no_string, set_world (tick (tick w1)) x).
Proof. unfold db. cbn [world set_world]. by rewrite update_throws. Qed.
Lemma del_step x : db (DB.DelKeyValue (key_ c) (value_ c)) (set_world w1 x) = (Throw no_string, set_world (tick (tick w1)) x).
Proof. unfold db. cbn [world set_world]. by rewrite del_throws. Qed.

Lemma keep_lapses n rest :
  lock_status_ s = true -> lock_continue_ s = true -> have_lock_num_ s = i :: rest ->
  ends (KeepLock c (1 + n)) (on_server s) (fun o x =>
    o = Throw no_string /\ x = set_mutex false (lck s) (set_world (tick (tick w1)) (on_server s))).
Proof.
  intros Hst Hco Hh. apply lease_with_lck, ends_bind, lease_lock; [done|exact Hm|]. cbn [continues].
  apply ends_bind. unfold ends at 1. cbn [mget fst snd continues lock_continue_ lock_status_ have_lock_num_ set_mutex on_server].
  rewrite Hst, Hco, Hh. cbn [negb]. apply ends_bind, lease_unlock; [done|]. cbn [continues].
  apply ends_bind. cbn [Nat.add keep_loop]. apply ends_bind, lease_lock; [done..|]. cbn [continues].
  eapply ends_step; [by apply select_step|]. change (is_result kSelectDBSucceed kSelectDBSucceed) with true. cbv iota.
  eapply ends_fail; [apply update_step|]. by split.
Qed.

Lemma unlock_lapses rest :
  hosts_ c = i :: rest ->
  ends (UnlockAll c) (on_server s) (fun o x =>
    o = Throw no_string /\ x = set_mutex false (lck s) (set_status false false (set_world (tick (tick w1)) (on_server s)))).
Proof.
  intros Hh. apply lease_with_lck, ends_bind, lease_lock; [done|exact Hm|]. cbn [continues].
  apply ends_bind. unfold ends at 1. cbn [mmodify fst snd continues]. apply ends_bind. rewrite Hh. cbn [unlock_loop].
  eapply ends_step; [by apply select_step|]. change (is_result kSelectDBSucceed kSelectDBSucceed) with true. cbv iota.
  eapply ends_fail; [apply del_step|]. by split.
Qed.
End lapse.

(** C6: A key that lapses at the wrong moment, with no other client involved: when the
    deadline of the first database's key passes between EXISTS and GET, KeepLock and
    UnlockAll on the whole stack throw the reply's error.  The keys are as before: a
    renewal has renewed nothing and still counts as held, and an unlocking has deleted
    nothing in any database, while the lock counts as released.  The mutex is free. *)
Theorem lapse_escapes {T S} `{TcpClientLaws T} `{SentinelLookup S} c (s : timed_stack T S) i v d d1 d2 d3 ds n rest :
  fits c -> ready_timed s -> (0 <= i < 16)%Z -> mtx_ s = false ->
  delays (server (world s)) = d1 :: d2 :: d3 :: ds ->
  keys (server (world s)) !! (i, key_ c) = Some (v, Some d) ->
  (clock (world s) + Z.of_N d1 + Z.of_N d2 <= d < clock (world s) + Z.of_N d1 + Z.of_N d2 + Z.of_N d3)%Z ->
  let throws (a : M (timed_stack T S) bool) status continue :=
    exists s', a s = (Throw (redis_error "Reply is not a string"), s') /\
      keys (server (world s')) = keys (server (world s)) /\ mtx_ s' = false /\
      lock_status_ s' = status /\ lock_continue_ s' = continue /\ have_lock_num_ s' = have_lock_num_ s in
  (lock_status_ s = true -> lock_continue_ s = true -> have_lock_num_ s = i :: rest -> throws (KeepLock c (1 + n)) true true) /\
  (hosts_ c = i :: rest -> throws (UnlockAll c) false false).
Proof.
  intros Hfit Hr Hi Hm Hd Hk Ht throws. split.
  - intros Hst Hco Hh. pose proof (refines_ends _ _ _ s _ (stack_KeepLock values_fit c Hfit (1 + n)) Hr
      (keep_lapses c s i v d d1 d2 d3 ds Hi Hm Hd Hk Ht n rest Hst Hco Hh)) as He.
    unfold ends in He. destruct (KeepLock c (1 + n) s) as [o s'] eqn:E. cbn [fst snd] in He. destruct He as ((-> & Ex) & _).
    exists s'. injection Ex as Ew Eh Es Ec Em _ _. rewrite Es, Ec, Em, Eh, Ew, lapse_keys. by split_and!.
  - intros Hh. pose proof (refines_ends _ _ _ s _ (stack_UnlockAll values_fit c Hfit) Hr
      (unlock_lapses c s i v d d1 d2 d3 ds Hi Hm Hd Hk Ht rest Hh)) as He.
    unfold ends in He. destruct (UnlockAll c s) as [o s'] eqn:E. cbn [fst snd] in He. destruct He as ((-> & Ex) & _).
    exists s'. injection Ex as Ew Eh Es Ec Em _ _. rewrite Es, Ec, Em, Eh, Ew, lapse_keys. by split_and!.
Qed.

(** ** Witnesses

    Managers on tacopie's client, connected to one server, whose commands take some
    milliseconds. *)

#[local] Existing Instance no_sentinel.

Abbreviation manager_of := (db_redis tacopie.tcp_client unit timed).

(** A lock object on a new connection. *)
Definition lock_on (w : timed) : dmutex_state manager_of := dmutex_init (manager w).

Lemma lock_on_ready w : values_fit w -> ready_timed (lock_on w).
Proof. intros Hw. split; [split; [apply manager_settled|done|exact Hw]|constructor]. Qed.

Lemma config_fits v : short v -> fits (config_of v).
Proof. intros Hv. split; [done|done|]. by repeat constructor. Qed.

Definition some_delays : list N := [3; 2; 5; 4; 2; 6; 3; 3; 4; 5; 1; 2; 6; 4; 3; 5; 2; 2; 4; 3; 6; 1; 5; 2; 3; 4; 6; 2; 5; 3]%N.
Definition empty_server : timed := mk_timed (mk_redis_db 0 1000 ∅) some_delays.

Lemma empty_fits : values_fit empty_server.
Proof. apply map_Forall_empty. Qed.

Definition first_stack : outcome bool * dmutex_state manager_of :=
  MainLockFunction in_order (config_of "v1") 60 (lock_on empty_server).

Definition second_stack : outcome bool * dmutex_state manager_of :=
  MainLockFunction in_order (config_of "v2") 60 (lock_on (server (world first_stack.2))).

Lemma stack_refines_witness :
  exists s', Lock in_order (config_of "v1") 1 3 (lock_on empty_server) = (Ret true, s') /\
    Lock in_order (config_of "v1") 1 3 (on_server (lock_on empty_server)) = (Ret true, on_server s') /\ ready_timed s'.
Proof.
  destruct (stack_refines (T:=tacopie.tcp_client) (S:=unit) (R:=timed) values_fit in_order (config_of "v1") 1 3 1000 in_order_perm
    (config_fits "v1" ltac:(vm_compute; discriminate))) as [Hlock _].
  destruct (Hlock (lock_on empty_server) (lock_on_ready _ empty_fits)) as (o & s' & E & E' & Hr).
  exists s'. assert (o = Ret true) as ->; [|exact (conj E (conj E' Hr))].
  assert ((Lock in_order (config_of "v1") 1 3 (on_server (lock_on empty_server))).1 = Ret true) as Ho by (vm_compute; reflexivity).
  rewrite E' in Ho. exact Ho.
Defined.

Lemma stack_mutual_exclusion_witness :
  first_stack.1 = Ret true /\
  MainLockFunction in_order (config_of "v2") 60 (lock_on (server (world first_stack.2))) <> (Ret true, second_stack.2).
Proof.
  split; [vm_compute; reflexivity|].
  apply (stack_mutual_exclusion in_order (config_of "v1") (config_of "v2") 60 60 (lock_on empty_server) first_stack.2).
  - exact in_order_perm.
  - apply config_fits. vm_compute. discriminate.
  - apply config_fits. vm_compute. discriminate.
  - apply lock_on_ready, empty_fits.
  - apply lock_on_ready. apply (bool_decide_unpack _). vm_compute. exact I.
  - reflexivity.
  - reflexivity.
  - apply (bool_decide_unpack _). vm_compute. exact I.
  - discriminate.
  - vm_compute. split; discriminate.
  - vm_compute. split; discriminate.
  - reflexivity.
  - reflexivity.
  - vm_compute. discriminate.
  - vm_compute. discriminate.
  - vm_compute. reflexivity.
  - reflexivity.
  - vm_compute. discriminate.
  - vm_compute. discriminate.
Defined.

(** A client that is gone holds two of the three databases until 9000; the other
    tries at 1000, and again 20 seconds later. *)
Definition abandoned : timed :=
  mk_timed (mk_redis_db 0 1000 {[ (0%Z, "k") := ("v9", Some 9000%Z); (2%Z, "k") := ("v9", Some 8000%Z) ]}) some_delays.

Lemma abandoned_leased : leased_until (config_of "v1") 9000 (keys abandoned).
Proof.
  intros i v t Hi E. unfold abandoned, keys in E. cbn [t_db r_keys] in E.
  apply lookup_insert_Some in E as [[_ E]|[_ E]]; [simplify_eq; by exists 9000%Z|].
  apply lookup_singleton_Some in E as [_ E]. simplify_eq. exists 8000%Z. split; [done|lia].
Qed.

Lemma abandoned_taken : (Lock in_order (config_of "v1") 2 3 (lock_on abandoned)).1 = Ret true.
Proof. vm_compute. reflexivity. Qed.

(** The other end of the call: a deadline that passes between EXISTS and GET. *)
Definition abandoned_until (d : Z) : timed :=
  mk_timed (mk_redis_db 0 1000 {[ (0%Z, "k") := ("v9", Some d); (2%Z, "k") := ("v9", Some d) ]}) some_delays.

Example lock_throws : (Lock in_order (config_of "v1") 2 3 (lock_on (abandoned_until 1033))).1 = Throw (redis_error "Reply is not a string").
Proof. vm_compute. reflexivity. Qed.

Lemma stack_lock_recovers_witness :
  exists s', Lock in_order (config_of "v1") 2 3 (lock_on abandoned) = (Ret true, s') /\ ready_timed s' /\
    majority (config_of "v1") (have_lock_num_ s') = true /\ (clock (world s') <= 29246)%Z.
Proof.
  destruct (stack_lock_recovers in_order (config_of "v1") 6 9000 1 3 (lock_on abandoned))
    as (o & s' & E & Hr & _ & Ht & [(-> & _ & Hm & _)|(-> & _)]).
  - exact in_order_perm.
  - apply config_fits. vm_compute. discriminate.
  - apply lock_on_ready. apply (bool_decide_unpack _). vm_compute. exact I.
  - discriminate.
  - apply (bool_decide_unpack _). vm_compute. exact I.
  - repeat constructor; discriminate.
  - vm_compute. split; discriminate.
  - reflexivity.
  - apply le_n.
  - discriminate.
  - repeat constructor; discriminate.
  - vm_compute. discriminate.
  - exact abandoned_leased.
  - vm_compute. reflexivity.
  - exists s'. split; [exact E|]. split; [exact Hr|]. split; [exact Hm|]. exact Ht.
  - pose proof abandoned_taken as Ho. rewrite E in Ho. discriminate Ho.
Defined.

(** A lock whose first key lapses at 1005, between an EXISTS at 1004 and a GET at 1007. *)
Definition lapsing : dmutex_state manager_of :=
  mk_dmutex (manager (mk_timed (mk_redis_db 0 1000 {[ (0%Z, "k") := ("v1", Some 1005%Z); (1%Z, "k") := ("v1", Some 1900%Z) ]}) [2; 2; 3]%N))
    [0; 1]%Z true true false false [].

Lemma lapsing_ready : ready_timed lapsing.
Proof. split; [split; [apply manager_settled|done|]|]; apply (bool_decide_unpack _); vm_compute; exact I. Qed.

Lemma lapse_escapes_witness :
  (exists s', KeepLock (config_of "v1") 4 lapsing = (Throw (redis_error "Reply is not a string"), s') /\ lock_status_ s' = true) /\
  (exists s', UnlockAll (config_of "v1") lapsing = (Throw (redis_error "Reply is not a string"), s') /\
     lock_status_ s' = false /\ keys (server (world s')) !! (1%Z, "k") = Some ("v1", Some 1900%Z)).
Proof.
  destruct (lapse_escapes (config_of "v1") lapsing 0 "v1" 1005 2 2 3 [] 3 [1]%Z) as [Hkeep _].
  - apply config_fits. vm_compute. discriminate.
  - exact lapsing_ready.
  - split; [discriminate|reflexivity].
  - reflexivity.
  - reflexivity.
  - vm_compute. reflexivity.
  - vm_compute. split; [discriminate|reflexivity].
  - destruct (lapse_escapes (config_of "v1") lapsing 0 "v1" 1005 2 2 3 [] 3 [1; 2]%Z) as [_ Hun].
    + apply config_fits. vm_compute. discriminate.
    + exact lapsing_ready.
    + split; [discriminate|reflexivity].
    + reflexivity.
    + reflexivity.
    + vm_compute. reflexivity.
    + vm_compute. split; [discriminate|reflexivity].
    + split.
      * destruct (Hkeep eq_refl eq_refl eq_refl) as (s' & E & _ & _ & Hst & _). exists s'. split; [exact E|exact Hst].
      * destruct (Hun eq_refl) as (s' & E & Hk & _ & Hst & _). exists s'. split; [exact E|]. split; [exact Hst|].
        rewrite Hk. vm_compute. reflexivity.
Defined.
