(* ===== verification/DMutexStackRenewal.v ===== *)
(** Renewal, down to the server: [KeepLock] on the databases of a server whose time
    passes, exactly, when no other client acts and no key lapses under it, and the same
    on the whole stack. *)

From S2P Require Import Prelude Hoare Text TcpClient Connection Client ClientFacts DB RedisServer DBRedis DBRedisFacts DMutex DMutexFacts DMutexTheorems DMutexSim DBCommands DMutexStack DMutexLease DMutexStackTheorems.

Section renewal.
Context (c : dmutex_config) (delta : Z) (delta_pos : (0 <= delta)%Z) (period : (0 < lock_validity_time_ c <= INT32_MAX)%Z).
Abbreviation slow := (slow delta).
Abbreviation within := (within delta).
Abbreviation validity := (lock_validity_time_ c).
Abbreviation now_of s := (clock (world s)).
Abbreviation keys_of s := (keys (world s)).

(** Nothing is stored there, or the lock's value, which stays for [budget]
    milliseconds at least. *)
Definition renewable (m : keymap) (t budget i : Z) : Prop :=
  alive m t (i, key_ c) = None \/
  exists o, m !! (i, key_ c) = Some (value_ c, o) /\ forall d, o = Some d -> (t + budget <= d)%Z.

(** ** One database *)

Lemma held_alive m t budget i o t' :
  m !! (i, key_ c) = Some (value_ c, o) -> (forall d, o = Some d -> (t + budget <= d)%Z) -> (t' <= t + budget)%Z ->
  alive m t' (i, key_ c) = Some (value_ c).
Proof.
  intros Hk Ho Ht. unfold alive. rewrite Hk. destruct o as [d|]; [|done]. specialize (Ho d eq_refl).
  by rewrite (proj2 (Z.leb_le _ _)) by lia.
Qed.

(** The key is stored with the lock's value, at the instant the last command is executed. *)
Definition stores (i : Z) (w w' : timed) : Prop :=
  r_selected (t_db w') = i /\ keys w' = <[(i, key_ c) := (value_ c, Some (clock w' + validity)%Z)]> (keys w).

Lemma update_lapsed (s : dmutex) Q :
  slow (world s) -> alive (keys_of s) (now_of s) (r_selected (t_db (world s)), key_ c) = None ->
  (forall w, within (2 * delta) (world s) w -> stores (r_selected (t_db (world s))) (world s) w -> Q (Ret kSetKeySucceed) (set_world w s)) ->
  ends (db (DB.UpdateExpire (key_ c) (value_ c) validity)) s Q.
Proof.
  intros Hs Ha HQ. unfold ends, db. cbn [DB.UpdateExpire command_interface]. rewrite ask_update_eq.
  pose proof (tick2_within delta delta_pos _ Hs) as W2. pose proof (tick_within delta delta_pos _ Hs) as W1.
  pose proof (within_now _ _ _ _ W1) as N1. pose proof (within_now _ _ _ _ (tick_within delta delta_pos _ (within_slow _ _ _ _ W1))) as N2.
  rewrite live_eq, (alive_later _ (now_of s)) by done || lia. rewrite ask_set_eq, (wrap_validity c period).
  rewrite (proj2 (Z.leb_gt _ _)) by lia. rewrite live_eq, tick_keys, tick_selected, (alive_later _ (now_of s)) by done || lia.
  cbn [fst snd]. apply HQ; [by apply within_with_db|]. split; [by cbn; rewrite !tick_selected|].
  unfold keys. cbn [with_db t_db r_put r_keys]. rewrite !tick_selected. f_equal.
  change (keys (tick (tick (world s))) = keys (world s)). by rewrite !tick_keys.
Qed.

Lemma update_held o (s : dmutex) Q :
  slow (world s) -> keys_of s !! (r_selected (t_db (world s)), key_ c) = Some (value_ c, o) ->
  (forall d, o = Some d -> (now_of s + 3 * delta <= d)%Z) ->
  (forall w, within (3 * delta) (world s) w -> stores (r_selected (t_db (world s))) (world s) w -> Q (Ret kUpdateKeySucceed) (set_world w s)) ->
  ends (db (DB.UpdateExpire (key_ c) (value_ c) validity)) s Q.
Proof.
  intros Hs Hk Ho HQ. unfold ends, db. cbn [DB.UpdateExpire command_interface]. rewrite ask_update_eq.
  pose proof (tick3_within delta delta_pos _ Hs) as W3. pose proof (tick2_within delta delta_pos _ Hs) as W2.
  pose proof (tick_within delta delta_pos _ Hs) as W1.
  pose proof (within_now _ _ _ _ W1). pose proof (within_now _ _ _ _ W2). pose proof (within_now _ _ _ _ W3).
  rewrite !live_eq, !tick_keys, !tick_selected, !(held_alive _ (now_of s) (3 * delta) _ o) by done || lia.
  rewrite bool_decide_eq_true_2 by done. rewrite (wrap_validity c period), (proj2 (Z.leb_gt _ _)) by lia.
  cbn [fst snd]. apply HQ; [by apply within_with_db|]. split; [by cbn; rewrite !tick_selected|].
  unfold keys. cbn [with_db t_db r_put r_keys]. rewrite !tick_selected. f_equal.
  change (keys (tick (tick (tick (world s)))) = keys (world s)). by rewrite !tick_keys.
Qed.

(** What a turn leaves. *)
Record renewed_at (i : Z) (budget : Z) (s s' : dmutex) : Prop := {
  at_unlocked : unlocked s';
  at_have : have_lock_num_ s' = have_lock_num_ s;
  at_status : same_status s s';
  at_within : within budget (world s) (world s');
  at_written : written c [i] (now_of s + validity) (now_of s' + validity) (keys_of s) (keys_of s') }.

(** One turn: SELECT and UpdateExpire, and on to the next database or the same. *)
Lemma lease_update n i rest (s : dmutex) Q :
  (0 <= i < 16)%Z -> unlocked s -> slow (world s) -> renewable (keys_of s) (now_of s) (4 * delta) i ->
  (forall s1, renewed_at i (4 * delta) s s1 -> ends (keep_loop c n rest) s1 Q) ->
  (forall s1, alive (keys_of s) (now_of s) (i, key_ c) = None -> renewed_at i (3 * delta) s s1 -> ends (keep_loop c n (i :: rest)) s1 Q) ->
  ends (keep_loop c (1 + n) (i :: rest)) s Q.
Proof.
  intros Hi [Hl Hm] Hs Hren HQ1 HQ2. cbn [Nat.add keep_loop]. apply ends_bind, lease_lock; [done..|]. cbn [continues].
  apply ends_bind, (lease_select delta delta_pos); [done|done|]. intros w1 W1 S1 K1. cbn [continues world set_mutex] in *.
  change (is_result kSelectDBSucceed kSelectDBSucceed) with true. cbv iota. pose proof (within_now _ _ _ _ W1) as N1. apply ends_bind.
  assert (forall w2 b, within b w1 w2 -> stores i w1 w2 ->
    renewed_at i (delta + b) s (set_mutex false false (set_world w2 (set_world w1 (set_mutex true true s))))) as Hat.
  { intros w2 b W2 [S2 K2]. pose proof (within_now _ _ _ _ W2). split; [done..| |]; cbn [world set_mutex set_world].
    - by eapply within_trans.
    - rewrite K2, K1. apply written_put. lia. }
  destruct Hren as [Hn|(o & Hk & Ho)].
  - apply update_lapsed; cbn [world set_world]; rewrite ?S1, ?K1; [apply W1|eapply alive_later; [|exact Hn]; lia|].
    intros w2 W2 St. cbn [continues]. apply ends_bind, lease_unlock; [done|]. cbn [continues].
    change (is_result kSetKeySucceed kUpdateKeySucceed) with false. cbv iota. apply HQ2; [done|].
    apply (Hat w2 _ W2) in St. destruct St. split; [done..| |done]. eapply within_le; [|done]. lia.
  - apply (update_held o); cbn [world set_world]; rewrite ?S1, ?K1; [apply W1|done|intros d Hd; specialize (Ho d Hd); lia|].
    intros w2 W2 St. cbn [continues]. apply ends_bind, lease_unlock; [done|]. cbn [continues].
    change (is_result kUpdateKeySucceed kUpdateKeySucceed) with true. cbv iota. apply HQ1.
    apply (Hat w2 _ W2) in St. destruct St. split; [done..| |done]. eapply within_le; [|done]. lia.
Qed.

Lemma renewed_at_trans i b1 b2 s1 s2 s3 :
  renewed_at i b1 s1 s2 -> renewed_at i b2 s2 s3 -> renewed_at i (b1 + b2) s1 s3.
Proof.
  intros [U1 H1 [A1 B1 C1] W1 K1] [U2 H2 [A2 B2 C2] W2 K2]. pose proof (within_now _ _ _ _ W1). pose proof (within_now _ _ _ _ W2).
  split; [done|congruence|split; congruence|by eapply within_trans|]. intros j k. specialize (K1 j k). specialize (K2 j k).
  case_decide; [|congruence]. destruct K2 as (d & Hd & Hr). exists d. split; [done|lia].
Qed.

(** A database that has been renewed can be renewed again. *)
Lemma renewed_renewable i j b budget b' s s' :
  renewed_at i b s s' -> (b + b' <= budget)%Z -> (0 <= b)%Z -> (budget <= validity)%Z ->
  renewable (keys_of s) (now_of s) budget j -> renewable (keys_of s') (now_of s') b' j.
Proof.
  intros [_ _ _ W Hw] Hb Hb0 Hv Hren. pose proof (within_now _ _ _ _ W).
  destruct (decide (i = j)) as [->|Hne].
  - right. destruct (written_in _ _ _ _ _ _ j Hw) as (d & Hd & Hr); [by apply list_elem_of_singleton|].
    exists (Some d). split; [done|]. intros ? [= <-]. lia.
  - assert (keys_of s' !! (j, key_ c) = keys_of s !! (j, key_ c)) as E.
    { eapply written_out; [exact Hw|]. intros [Hj%list_elem_of_singleton _]. by subst. }
    destruct Hren as [Hn|(o & Hk & Ho)]; [left|right].
    + eapply alive_later; [|unfold alive in *; rewrite E; exact Hn]. lia.
    + exists o. rewrite E. split; [done|]. intros d Hd. specialize (Ho d Hd). lia.
Qed.

(** ** The renewal *)

Lemma lease_keep_loop n have (s : dmutex) :
  Forall (fun i => 0 <= i < 16)%Z have -> 2 * length have <= n -> unlocked s -> slow (world s) ->
  (spent delta 7 have <= validity)%Z -> Forall (renewable (keys_of s) (now_of s) (spent delta 7 have)) have ->
  ends (keep_loop c n have) s (fun o s' => o = Ret tt /\ unlocked s' /\ have_lock_num_ s' = have_lock_num_ s /\ same_status s s' /\
    within (spent delta 7 have) (world s) (world s') /\
    written c have (now_of s + validity) (now_of s' + validity) (keys_of s) (keys_of s')).
Proof.
  revert n s. induction have as [|i rest IH]; intros n s Hex Hn Hu Hs Hfit Hren.
  { destruct n; cbn [keep_loop]; apply ends_ret; (split_and!; [done|exact Hu|done|done|by apply within_refl|apply written_nil]). }
  cbn [length] in Hn. destruct n as [|[|n]]; [lia..|]. rewrite spent_cons in *.
  apply Forall_cons in Hex as [Hi Hex]. apply Forall_cons in Hren as [Hri Hren].
  assert (0 <= spent delta 7 rest)%Z as Hpos by (unfold spent; lia).
  assert (forall n s1, 2 * length rest <= n -> renewed_at i (7 * delta) s s1 ->
    ends (keep_loop c n rest) s1 (fun o s' => o = Ret tt /\ unlocked s' /\ have_lock_num_ s' = have_lock_num_ s /\ same_status s s' /\
      within (7 * delta + spent delta 7 rest) (world s) (world s') /\
      written c (i :: rest) (now_of s + validity) (now_of s' + validity) (keys_of s) (keys_of s'))) as Hrest.
  { intros n' s1 Hn' Hat. pose proof Hat as [U1 H1 [A1 B1 C1] W1 K1]. pose proof (within_now _ _ _ _ W1).
    eapply ends_weaken; [apply IH; [done|done|done|apply W1|lia|]|].
    - eapply Forall_impl; [exact Hren|]. intros j. eapply (renewed_renewable i j (7 * delta)); [exact Hat|lia..].
    - intros o s' (-> & Hu' & Hh' & [A2 B2 C2] & W2 & K2). pose proof (within_now _ _ _ _ W2).
      split_and!; [done|exact Hu'|congruence|split; congruence|by eapply within_trans|].
      apply written_cons with (keys_of s1); (eapply written_le; [| |eassumption]; lia). }
  apply (lease_update (1 + n)); [done..| | |].
  { destruct Hri as [Hn0|(o & Hk & Ho)]; [by left|right]. exists o. split; [done|]. intros d Hd. specialize (Ho d Hd). lia. }
  - intros s1 Hat. apply Hrest; [lia|]. destruct Hat. split; [done..| |done]. eapply within_le; [|done]. lia.
  - intros s1 _ Hat. assert (renewable (keys_of s1) (now_of s1) (4 * delta) i) as Hri1
      by (eapply (renewed_renewable i i (3 * delta) (7 * delta)); [exact Hat|lia|lia|lia|];
          destruct Hri as [?|(o & Hk & Ho)]; [by left|right]; exists o; (split; [done|]); intros d Hd; specialize (Ho d Hd); lia).
    apply lease_update; [done|apply Hat|apply (within_slow _ _ _ _ (at_within _ _ _ _ Hat))|exact Hri1| |].
    + intros s2 Hat2. apply Hrest; [lia|]. pose proof (renewed_at_trans _ _ _ _ _ _ Hat Hat2) as H7.
      replace (3 * delta + 4 * delta)%Z with (7 * delta)%Z in H7 by lia. exact H7.
    + intros s2 Hn0 _. exfalso. pose proof (within_now _ _ _ _ (at_within _ _ _ _ Hat)).
      destruct (written_in _ _ _ _ _ _ i (at_written _ _ _ _ Hat)) as (d & Hd & Hr); [by apply list_elem_of_singleton|].
      unfold alive in Hn0. rewrite Hd in Hn0. by rewrite (proj2 (Z.leb_le _ _)) in Hn0 by lia.
Qed.

(** A renewal, exactly. *)
Lemma lease_KeepLock n (s : dmutex) :
  Forall (fun i => 0 <= i < 16)%Z (have_lock_num_ s) -> 2 * length (have_lock_num_ s) <= n -> mtx_ s = false -> slow (world s) ->
  (spent delta 7 (have_lock_num_ s) <= validity)%Z ->
  Forall (renewable (keys_of s) (now_of s) (spent delta 7 (have_lock_num_ s))) (have_lock_num_ s) ->
  lock_status_ s = true -> lock_continue_ s = true ->
  ends (KeepLock c n) s (fun o s' => o = Ret true /\ mtx_ s' = false /\ have_lock_num_ s' = have_lock_num_ s /\ same_status s s' /\
    within (spent delta 7 (have_lock_num_ s)) (world s) (world s') /\
    written c (have_lock_num_ s) (now_of s + validity) (now_of s' + validity) (keys_of s) (keys_of s')).
Proof.
  intros Hex Hn Hm Hs Hfit Hren Hst Hco. apply lease_with_lck, ends_bind, lease_lock; [done..|]. cbn [continues].
  apply ends_bind. unfold ends at 1. cbn [mget fst snd continues lock_continue_ lock_status_ have_lock_num_ set_mutex].
  rewrite Hst, Hco. cbn [negb]. apply ends_bind, lease_unlock; [done|]. cbn [continues]. apply ends_bind.
  eapply ends_weaken; [apply lease_keep_loop; done|]. cbn [world set_mutex have_lock_num_].
  intros o s' (-> & [Hl' Hm'] & Hh & [A B C] & W & K). cbn [continues]. apply ends_ret.
  cbn [set_mutex mtx_ world have_lock_num_] in *. rewrite Hl'. by split_and!.
Qed.
End renewal.

(** ** The whole stack *)

(** C5: Renewal, end to end, on a server whose time passes and without other clients.
    When every database the lock was taken on stores nothing under its key, or the
    lock's value for as long as the renewal may take (seven commands of at most [delta]
    a database, which together fit the validity), [KeepLock] on the whole stack returns
    true, after no longer than that.  Each of these databases then stores the lock's
    value for one validity from an instant of the renewal, whether the value was still
    there or had lapsed before; and nothing else has changed: neither another key, nor
    the lock's list and status, nor the idle connection. *)
Theorem stack_renews {T S} `{TcpClientLaws T} `{SentinelLookup S} c delta n (s : timed_stack T S) :
  fits c -> ready_timed s -> (0 < lock_validity_time_ c <= INT32_MAX)%Z -> mtx_ s = false ->
  lock_status_ s = true -> lock_continue_ s = true ->
  Forall (fun i => 0 <= i < 16)%Z (have_lock_num_ s) -> 2 * length (have_lock_num_ s) <= n ->
  (0 <= delta)%Z -> slow delta (server (world s)) ->
  let time := (7 * Z.of_nat (length (have_lock_num_ s)) * delta)%Z in
  (time <= lock_validity_time_ c)%Z ->
  Forall (renewable c (keys (server (world s))) (clock (world s)) time) (have_lock_num_ s) ->
  exists s', KeepLock c n s = (Ret true, s') /\ ready_timed s' /\ same_status s s' /\ have_lock_num_ s' = have_lock_num_ s /\
    (clock (world s) <= clock (world s') <= clock (world s) + time)%Z /\
    forall i k, if decide (i ∈ have_lock_num_ s /\ k = key_ c)
      then exists d, keys (server (world s')) !! (i, k) = Some (value_ c, Some d) /\
        (clock (world s) + lock_validity_time_ c <= d <= clock (world s') + lock_validity_time_ c)%Z
      else keys (server (world s')) !! (i, k) = keys (server (world s)) !! (i, k).
Proof.
  intros Hfit Hr Hval Hm Hst Hco Hex Hn Hdelta Hslow time Htime Hren.
  pose proof (refines_ends _ _ _ s _ (stack_KeepLock values_fit c Hfit n) Hr
    (lease_KeepLock c delta Hdelta Hval n (on_server s) Hex Hn Hm Hslow Htime Hren Hst Hco)) as He.
  unfold ends in He. destruct (KeepLock c n s) as [o s']. cbn [fst snd] in He.
  destruct He as ((-> & _ & Hh & [A B C] & W & K) & Hr'). exists s'. split_and!; try done; apply W.
Qed.

#[local] Existing Instance no_sentinel.

(** The first key is there for another 25 seconds, the second has lapsed, and the third
    was deleted; every command takes some milliseconds. *)
Definition renewing : dmutex_state manager_of :=
  mk_dmutex (manager (mk_timed (mk_redis_db 0 6000 {[ (0%Z, "k") := ("v1", Some 31000%Z); (1%Z, "k") := ("v1", Some 5000%Z) ]}) some_delays))
    [0; 1; 2]%Z true true false false [].

Lemma renewing_ready : ready_timed renewing.
Proof. split; [split; [apply manager_settled|done|]|]; apply (bool_decide_unpack _); vm_compute; exact I. Qed.

Lemma stack_renews_witness :
  exists s' d, KeepLock (config_of "v1") 6 renewing = (Ret true, s') /\ ready_timed s' /\
    keys (server (world s')) !! (1%Z, "k") = Some ("v1", Some d) /\ (36000 <= d)%Z.
Proof.
  destruct (stack_renews (config_of "v1") 6 6 renewing) as (s' & E & Hr & _ & _ & _ & Hk).
  - apply config_fits. vm_compute. discriminate.
  - exact renewing_ready.
  - vm_compute. split; [reflexivity|discriminate].
  - reflexivity.
  - reflexivity.
  - reflexivity.
  - repeat constructor; discriminate.
  - apply le_n.
  - discriminate.
  - repeat constructor; discriminate.
  - vm_compute. discriminate.
  - apply List.Forall_cons; [|apply List.Forall_cons; [|apply List.Forall_cons; [|apply List.Forall_nil]]].
    + right. exists (Some 31000%Z). split; [vm_compute; reflexivity|]. intros d [= <-]. vm_compute. discriminate.
    + left. vm_compute. reflexivity.
    + left. vm_compute. reflexivity.
  - specialize (Hk 1%Z "k"). rewrite decide_True in Hk.
    + destruct Hk as (d & Hd & Hlo & _). exists s', d. split; [exact E|]. split; [exact Hr|]. split; [exact Hd|]. exact Hlo.
    + split; [apply (bool_decide_unpack _); vm_compute; exact I|reflexivity].
Defined.
