(* ===== verification/TimeoutQueue.v ===== *)
(** [TimeoutQueue] (src/include/timeout-queue.h and src/src/timeout-queue.cc):
    the queue of timed events and its worker threads.

    A step is one critical section of a worker (a stretch of [Worker] under
    [mtx_], between two places where the mutex is given up), the end of an
    event's function, an operation of a client, or the passing of time.
    Waits may wake at any time, as condition variables do: a step is enabled
    when the wait's predicate, or its timeout, lets the worker go on. *)

From Stdlib Require Import Sorted.
From S2P Require Import Prelude.

(** An event: its function, by name, and its period. *)
Record Event : Type := mk_event { function : nat; period : Z }.

#[export] Instance Event_eq_dec : EqDecision Event.
Proof. solve_decision. Defined.

(** A node of the multimap: deadline and event. *)
Abbreviation node := (Z * Event)%type.

(** Where a worker is. *)
Inductive worker : Type :=
| Looping               (* at the test of the loop *)
| WaitingNew            (* in new_event_.wait *)
| WaitingUntil (n : node) (* in new_event_.wait_until, the node extracted *)
| Running (n : node)    (* in the event's function *)
| Exited.

Record timeout_queue : Type := mk_queue {
  time_out_queue_ : list node;
  events_out_of_queue_ : Z;
  quit_ : bool;
  workers : list worker;
  now : Z }.

(** The constructor with [n] workers. *)
Definition TimeoutQueue (n : nat) (t : Z) : timeout_queue :=
  mk_queue [] 0 false (repeat Looping n) t.

(** [multimap::insert]: after the nodes with the same key. *)
Fixpoint insert_node (x : node) (q : list node) : list node :=
  match q with
  | [] => [x]
  | y :: q' => if (x.1 <? y.1)%Z then x :: q else y :: insert_node x q'
  end.

Definition set_worker (i : nat) (w : worker) (s : timeout_queue) : timeout_queue :=
  mk_queue (time_out_queue_ s) (events_out_of_queue_ s) (quit_ s) (<[i := w]> (workers s)) (now s).

Definition set_queue (q : list node) (s : timeout_queue) : timeout_queue :=
  mk_queue q (events_out_of_queue_ s) (quit_ s) (workers s) (now s).

Definition add_out (k : Z) (s : timeout_queue) : timeout_queue :=
  mk_queue (time_out_queue_ s) (events_out_of_queue_ s + k) (quit_ s) (workers s) (now s).

(** ** Operations *)

Definition PushEvent (fn : nat) (timeout_duration : Z) (s : timeout_queue) : timeout_queue :=
  set_queue (insert_node (now s + timeout_duration, mk_event fn timeout_duration)%Z (time_out_queue_ s)) s.

Definition Quit (s : timeout_queue) : timeout_queue :=
  mk_queue (time_out_queue_ s) (events_out_of_queue_ s) true (workers s) (now s).

(** The condition [WaitUntilAllDone] waits for. *)
Definition all_done (s : timeout_queue) : bool :=
  match time_out_queue_ s with [] => true | _ => false end && (events_out_of_queue_ s =? 0)%Z.

Definition AsyncRun (s : timeout_queue) : timeout_queue :=
  mk_queue (time_out_queue_ s) (events_out_of_queue_ s) (quit_ s) (workers s ++ [Looping]) (now s).

(** ** The worker *)

(** From the second test of [quit_] to [wait_until]: the first node is
    extracted and counted as out of the queue. *)
Definition take_first (i : nat) (s : timeout_queue) : option timeout_queue :=
  if quit_ s then Some (set_worker i Exited s)
  else
    match time_out_queue_ s with
    | [] => None
    | n :: q => Some (set_worker i (WaitingUntil n) (set_queue q (add_out 1 s)))
    end.

(** The predicate of [wait_until]: an earlier event has come. *)
Definition earlier (next_timeout : Z) (q : list node) : bool :=
  match q with [] => false | n :: _ => (n.1 <? next_timeout)%Z end.

(** The insertion, then the end of [at_exit] and of the lock. *)
Definition put_back (i : nat) (n : node) (s : timeout_queue) : timeout_queue :=
  set_worker i Looping (add_out (-1) (set_queue (insert_node n (time_out_queue_ s)) s)).

(** One critical section of worker [i]; [None] when it has to wait. *)
Definition worker_step (i : nat) (s : timeout_queue) : option timeout_queue :=
  match workers s !! i with
  | Some Looping =>
    if quit_ s then Some (set_worker i Exited s)
    else
      match time_out_queue_ s with
      | [] => Some (set_worker i WaitingNew s)
      | _ => take_first i s
      end
  | Some WaitingNew => take_first i s
  | Some (WaitingUntil n) =>
    if negb (quit_ s) && (n.1 <=? now s)%Z then Some (set_worker i (Running n) s)
    else if quit_ s || earlier n.1 (time_out_queue_ s) then Some (put_back i n s)
    else None
  | _ => None
  end.

(** The function of worker [i]'s event returns [is_repeat]. *)
Definition function_returns (i : nat) (is_repeat : bool) (s : timeout_queue) : option timeout_queue :=
  match workers s !! i with
  | Some (Running (next_timeout, e)) =>
    Some (if is_repeat then put_back i (next_timeout + period e, e)%Z s
          else set_worker i Looping (add_out (-1) s))
  | _ => None
  end.

(** ** Runs *)

Inductive label : Type :=
| LWorker (i : nat)
| LReturn (i : nat) (is_repeat : bool)
| LPush (fn : nat) (timeout : Z)
| LQuit
| LSpawn
| LTick (d : N).

Definition step (l : label) (s : timeout_queue) : option timeout_queue :=
  match l with
  | LWorker i => worker_step i s
  | LReturn i b => function_returns i b s
  | LPush fn t => Some (PushEvent fn t s)
  | LQuit => Some (Quit s)
  | LSpawn => Some (AsyncRun s)
  | LTick d => Some (mk_queue (time_out_queue_ s) (events_out_of_queue_ s) (quit_ s) (workers s) (now s + Z.of_N d)%Z)
  end.

Fixpoint run (ls : list label) (s : timeout_queue) : option timeout_queue :=
  match ls with
  | [] => Some s
  | l :: ls => match step l s with Some s' => run ls s' | None => None end
  end.

(** ** Observations *)

Definition held_by (w : worker) : list Event :=
  match w with WaitingUntil n | Running n => [n.2] | _ => [] end.

Definition held (s : timeout_queue) : list Event := concat (held_by <$> workers s).

(** Every event in the queue or in the hands of a worker. *)
Definition live_events (s : timeout_queue) : list Event := (time_out_queue_ s).*2 ++ held s.

(** The events a step adds, and those it ends. *)
Definition pushed (l : label) : list Event :=
  match l with LPush fn t => [mk_event fn t] | _ => [] end.

Definition ended (l : label) (s : timeout_queue) : list Event :=
  match l with
  | LReturn i false => match workers s !! i with Some w => held_by w | None => [] end
  | _ => []
  end.

Fixpoint ended_all (ls : list label) (s : timeout_queue) : list Event :=
  match ls with
  | [] => []
  | l :: ls => ended l s ++ match step l s with Some s' => ended_all ls s' | None => [] end
  end.

(** ** Lemmas *)

Lemma insert_node_perm x q : Permutation (insert_node x q) (x :: q).
Proof.
  induction q as [|y q IH]; [done|]. cbn [insert_node]. destruct (x.1 <? y.1)%Z; [done|].
  rewrite IH. apply Permutation_swap.
Qed.

Definition before (x y : node) : Prop := (x.1 <= y.1)%Z.

Lemma insert_node_sorted x q : Sorted before q -> Sorted before (insert_node x q).
Proof.
  induction q as [|y q IH]; intros Hs; cbn [insert_node]; [by repeat constructor|].
  destruct (x.1 <? y.1)%Z eqn:E.
  - apply Z.ltb_lt in E. constructor; [done|]. constructor. unfold before. lia.
  - apply Z.ltb_ge in E. inversion Hs as [|? ? Hq Hhd]; subst. constructor; [by apply IH|].
    destruct q as [|z q]; cbn [insert_node]; [by constructor|].
    inversion Hhd; subst. destruct (x.1 <? z.1)%Z; by constructor.
Qed.

Lemma held_insert i w w' s :
  workers s !! i = Some w ->
  Permutation (held_by w ++ held (set_worker i w' s)) (held_by w' ++ held s).
Proof.
  unfold held, set_worker; cbn [workers]. generalize (workers s). clear s. intros l.
  revert i; induction l as [|x l IH]; intros [|i] Hi; simplify_eq/=.
  - by rewrite !app_assoc, (Permutation_app_comm (held_by w)).
  - rewrite !app_assoc, (Permutation_app_comm (held_by w)), (Permutation_app_comm (held_by w')).
    rewrite <- !app_assoc. f_equiv. by apply IH.
Qed.

Lemma held_length_insert i w w' s :
  workers s !! i = Some w ->
  length (held_by w) + length (held (set_worker i w' s)) = length (held_by w') + length (held s).
Proof.
  intros Hi. rewrite <- !length_app. by apply Permutation_length, held_insert.
Qed.

(** The invariant: the counter is exact, and the queue in order. *)
Record queue_ok (s : timeout_queue) : Prop := {
  ok_out : events_out_of_queue_ s = Z.of_nat (length (held s));
  ok_sorted : Sorted before (time_out_queue_ s) }.

Lemma live_split s : live_events s = (time_out_queue_ s).*2 ++ held s.
Proof. done. Qed.

(** What each change of a worker does to the events and to the counter. *)
Lemma change_worker i w w' s :
  workers s !! i = Some w -> held_by w' = held_by w -> queue_ok s ->
  live_events (set_worker i w' s) ≡ₚ live_events s /\ queue_ok (set_worker i w' s).
Proof.
  intros Hi Hw [Ho Hs]. pose proof (held_insert i w w' s Hi) as Hp. rewrite Hw in Hp.
  apply Permutation_app_inv_l in Hp. split; [unfold live_events; by rewrite Hp|].
  split; [|done]. cbn [events_out_of_queue_ set_worker]. by rewrite Ho, Hp.
Qed.

Lemma take_worker i w n q s :
  workers s !! i = Some w -> held_by w = [] -> time_out_queue_ s = n :: q -> queue_ok s ->
  live_events (set_worker i (WaitingUntil n) (set_queue q (add_out 1 s))) ≡ₚ live_events s /\
  queue_ok (set_worker i (WaitingUntil n) (set_queue q (add_out 1 s))).
Proof.
  intros Hi Hw Hq [Ho Hs].
  pose proof (held_insert i w (WaitingUntil n) (set_queue q (add_out 1 s)) Hi) as Hp.
  rewrite Hw in Hp. cbn [held_by app] in Hp. change (held (set_queue q (add_out 1 s))) with (held s) in Hp.
  rewrite Hq in Hs. split.
  - unfold live_events. rewrite Hp, Hq. cbn. by rewrite Permutation_middle.
  - split; [|by inversion Hs]. cbn [events_out_of_queue_ set_worker set_queue add_out].
    rewrite Ho, Hp. simpl length. lia.
Qed.

(** A worker gives back its node, perhaps with a new deadline, or drops it. *)
Lemma put_back_worker i w (n n' : node) s :
  workers s !! i = Some w -> held_by w = [n.2] -> n'.2 = n.2 -> queue_ok s ->
  live_events (put_back i n' s) ≡ₚ live_events s /\ queue_ok (put_back i n' s).
Proof.
  intros Hi Hw Hn [Ho Hs]. unfold put_back.
  set (s1 := add_out (-1) (set_queue (insert_node n' (time_out_queue_ s)) s)).
  pose proof (held_insert i w Looping s1 Hi) as Hp. rewrite Hw in Hp. cbn [held_by app] in Hp.
  change (held s1) with (held s) in Hp. split.
  - unfold live_events. rewrite <- Hp. cbn [time_out_queue_ set_worker s1 add_out set_queue].
    rewrite insert_node_perm. cbn [fmap list_fmap app]. rewrite Hn. apply Permutation_middle.
  - split; [|by apply insert_node_sorted]. cbn [events_out_of_queue_ set_worker s1 add_out set_queue].
    rewrite Ho, <- Hp. simpl length. lia.
Qed.

Lemma drop_worker i w (n : Event) s :
  workers s !! i = Some w -> held_by w = [n] -> queue_ok s ->
  live_events (set_worker i Looping (add_out (-1) s)) ++ [n] ≡ₚ live_events s /\
  queue_ok (set_worker i Looping (add_out (-1) s)).
Proof.
  intros Hi Hw [Ho Hs].
  pose proof (held_insert i w Looping (add_out (-1) s) Hi) as Hp. rewrite Hw in Hp. cbn [held_by app] in Hp.
  change (held (add_out (-1) s)) with (held s) in Hp. split.
  - unfold live_events. cbn [time_out_queue_ set_worker add_out]. rewrite <- Hp, <- app_assoc.
    f_equiv. symmetry. apply Permutation_cons_append.
  - split; [|done]. cbn [events_out_of_queue_ set_worker add_out]. rewrite Ho, <- Hp. simpl length. lia.
Qed.

Lemma take_first_spec i w s s' :
  workers s !! i = Some w -> held_by w = [] -> queue_ok s -> take_first i s = Some s' ->
  live_events s' ≡ₚ live_events s /\ queue_ok s'.
Proof.
  intros Hi Hw Hok. unfold take_first. destruct (quit_ s).
  - intros. simplify_eq. by apply (change_worker i w).
  - destruct (time_out_queue_ s) as [|n q] eqn:Hq; [done|]. intros. simplify_eq. by apply (take_worker i w).
Qed.

Lemma worker_step_spec i s s' :
  queue_ok s -> worker_step i s = Some s' -> live_events s' ≡ₚ live_events s /\ queue_ok s'.
Proof.
  intros Hok. unfold worker_step. destruct (workers s !! i) as [w|] eqn:Hi; [|done].
  destruct w as [| |n|n|]; [| | |done..].
  - destruct (quit_ s); [intros; simplify_eq; by apply (change_worker i Looping)|].
    destruct (time_out_queue_ s); [intros; simplify_eq; by apply (change_worker i Looping)|].
    by apply (take_first_spec i Looping).
  - by apply (take_first_spec i WaitingNew).
  - destruct (negb (quit_ s) && _); [intros; simplify_eq; by apply (change_worker i (WaitingUntil n))|].
    destruct (quit_ s || _); [|done]. intros. simplify_eq. by apply (put_back_worker i (WaitingUntil n) n n).
Qed.

Lemma step_spec l s s' :
  queue_ok s -> step l s = Some s' -> live_events s' ++ ended l s ≡ₚ live_events s ++ pushed l /\ queue_ok s'.
Proof.
  intros Hok. destruct l as [i|i b|fn t| | |d]; cbn [step ended pushed].
  - intros Hs. apply worker_step_spec in Hs as [Hp ?]; [|done]. split; [|done]. by rewrite Hp.
  - unfold function_returns. destruct (workers s !! i) as [[| |n|[t e]|]|] eqn:Hi; try done.
    destruct b; intros; simplify_eq.
    + destruct (put_back_worker i (Running (t, e)) (t, e) (t + period e, e)%Z s) as [Hp ?]; try done.
      split; [|done]. by rewrite Hp.
    + cbn [held_by snd]. destruct (drop_worker i (Running (t, e)) e s) as [Hp ?]; try done.
      split; [|done]. by rewrite Hp, app_nil_r.
  - intros. simplify_eq. destruct Hok as [Ho Hs]. split.
    + rewrite app_nil_r. unfold live_events, PushEvent. cbn [time_out_queue_ set_queue].
      change (held (set_queue ?q s)) with (held s). rewrite insert_node_perm. cbn [fmap list_fmap app snd].
      apply Permutation_cons_append.
    + split; [done|by apply insert_node_sorted].
  - intros. simplify_eq. destruct Hok. split; [done|by split].
  - intros. simplify_eq. destruct Hok as [Ho Hs].
    assert (held (AsyncRun s) = held s) as Hh.
    { unfold held, AsyncRun. cbn [workers]. rewrite fmap_app, concat_app. cbn. by rewrite app_nil_r. }
    split; [unfold live_events; by rewrite Hh|]. split; [by rewrite Hh|done].
  - intros. simplify_eq. destruct Hok. split; [done|by split].
Qed.

Lemma run_spec ls s s' :
  queue_ok s -> run ls s = Some s' ->
  live_events s' ++ ended_all ls s ≡ₚ live_events s ++ concat (pushed <$> ls) /\ queue_ok s'.
Proof.
  revert s; induction ls as [|l ls IH]; intros s Hok Hrun; cbn [run] in Hrun.
  - simplify_eq. by rewrite !app_nil_r.
  - destruct (step l s) as [s1|] eqn:E; [|done]. destruct (step_spec l s s1 Hok E) as [Hp Hok1].
    destruct (IH s1 Hok1 Hrun) as [Hp2 Hok2]. split; [|done]. cbn [ended_all fmap list_fmap concat]. rewrite E.
    rewrite (Permutation_app_comm (ended l s)), app_assoc, Hp2, <- app_assoc.
    rewrite (Permutation_app_comm _ (ended l s)), app_assoc, Hp, <- app_assoc. done.
Qed.

Lemma queue_ok_init n t : queue_ok (TimeoutQueue n t) /\ live_events (TimeoutQueue n t) = [].
Proof.
  assert (held (TimeoutQueue n t) = []) as Hh.
  { unfold held, TimeoutQueue. cbn [workers]. induction n as [|n IH]; [done|]. cbn. exact IH. }
  split; [split|]; [by rewrite Hh|constructor|]. unfold live_events. by rewrite Hh.
Qed.

(** ** Properties *)

(** C13: No event is lost or duplicated: at every point of every run, whatever
    the schedule, the events pushed so far are exactly those whose function
    has returned false, those in the queue and those in the hands of a worker;
    the counter tells how many are in hand, the queue is in the order of the
    deadlines, and when [WaitUntilAllDone] may return, every event pushed has
    ended. *)
Theorem events_conserved n t ls s :
  run ls (TimeoutQueue n t) = Some s ->
  live_events s ++ ended_all ls (TimeoutQueue n t) ≡ₚ concat (pushed <$> ls) /\
  events_out_of_queue_ s = Z.of_nat (length (held s)) /\ Sorted before (time_out_queue_ s) /\
  (all_done s = true -> ended_all ls (TimeoutQueue n t) ≡ₚ concat (pushed <$> ls)).
Proof.
  intros Hrun. destruct (queue_ok_init n t) as [Hok Hl].
  destruct (run_spec ls _ s Hok Hrun) as [Hp [Ho Hs]]. rewrite Hl in Hp. split_and!; [done..|].
  unfold all_done. intros [Hq Hz]%andb_true_iff. apply Z.eqb_eq in Hz. rewrite Ho in Hz.
  assert (held s = []) as Hh by (apply length_zero_iff_nil; lia).
  rewrite <- Hp. unfold live_events. rewrite Hh. by destruct (time_out_queue_ s).
Qed.

(** The critical sections of one worker, up to [k] of them. *)
Fixpoint worker_steps (k i : nat) (s : timeout_queue) : timeout_queue :=
  match k with
  | O => s
  | S k => match worker_step i s with Some s' => worker_steps k i s' | None => s end
  end.

Lemma worker_steps_live k i s :
  queue_ok s -> live_events (worker_steps k i s) ≡ₚ live_events s.
Proof.
  revert s; induction k as [|k IH]; intros s Hok; [done|]. cbn [worker_steps].
  destruct (worker_step i s) as [s'|] eqn:E; [|done].
  destruct (worker_step_spec i s s' Hok E) as [Hp Hok']. by rewrite IH.
Qed.

Lemma quit_step i s w :
  quit_ s = true -> workers s !! i = Some w ->
  match w with
  | Looping | WaitingNew => worker_step i s = Some (set_worker i Exited s)
  | WaitingUntil n => worker_step i s = Some (put_back i n s)
  | Running _ | Exited => worker_step i s = None
  end.
Proof. intros Hq Hi. unfold worker_step. rewrite Hi. by destruct w; unfold take_first; rewrite ?Hq. Qed.

(** Quitting: after [Quit] a worker starts no function, and one that is
    not in a function leaves the loop within two critical sections, its event
    put back in the queue; so joining the workers ends once the functions
    that are running return. *)
Theorem quit_stops_worker s i w :
  quit_ s = true -> queue_ok s -> workers s !! i = Some w -> (forall n, w <> Running n) ->
  workers (worker_steps 2 i s) !! i = Some Exited /\
  live_events (worker_steps 2 i s) ≡ₚ live_events s /\ quit_ (worker_steps 2 i s) = true.
Proof.
  intros Hq Hok Hi Hw. assert (i < length (workers s)) as Hlt by (apply lookup_lt_is_Some; eauto).
  assert (forall w' s0, workers s0 = workers s -> workers (set_worker i w' s0) !! i = Some w') as Hset.
  { intros w' s0 Hs0. apply list_lookup_insert_eq. by rewrite Hs0. }
  assert (workers (worker_steps 2 i s) !! i = Some Exited /\ quit_ (worker_steps 2 i s) = true) as [? ?];
    [|split_and!; [done|by apply worker_steps_live|done]].
  pose proof (quit_step i s w Hq Hi) as Hst. cbn [worker_steps].
  destruct w as [| |n|n|]; rewrite ?Hst.
  - rewrite (quit_step i (set_worker i Exited s) Exited Hq) by by apply Hset. split; [by apply Hset|done].
  - rewrite (quit_step i (set_worker i Exited s) Exited Hq) by by apply Hset. split; [by apply Hset|done].
  - rewrite (quit_step i (put_back i n s) Looping Hq) by by apply Hset. split; [|done].
    apply list_lookup_insert_eq. cbn. by rewrite length_insert.
  - by destruct (Hw n).
  - done.
Qed.

(** ** Witnesses *)

(** Two workers; an event is pushed, waits, gives way to an earlier one, which
    runs and ends; then it runs itself and is repeated. *)
Definition sample_run : list label :=
  [LWorker 0; LPush 1 10; LWorker 0; LPush 2 5; LWorker 0; LWorker 0; LTick 6; LWorker 0; LReturn 0 false;
   LWorker 1; LTick 5; LWorker 1; LReturn 1 true].

Definition sample_state : timeout_queue :=
  mk_queue [(20%Z, mk_event 1 10)] 0 false [Looping; Looping] 11.

Lemma events_conserved_witness :
  live_events sample_state ++ ended_all sample_run (TimeoutQueue 2 0) ≡ₚ concat (pushed <$> sample_run) /\
  events_out_of_queue_ sample_state = Z.of_nat (length (held sample_state)) /\
  Sorted before (time_out_queue_ sample_state) /\
  (all_done sample_state = true -> ended_all sample_run (TimeoutQueue 2 0) ≡ₚ concat (pushed <$> sample_run)).
Proof. apply (events_conserved 2 0). vm_compute. reflexivity. Defined.

Definition quitting_state : timeout_queue :=
  mk_queue [] 1 true [Looping; WaitingUntil (20%Z, mk_event 1 10)] 11.

Lemma quit_stops_worker_witness :
  workers (worker_steps 2 1 quitting_state) !! 1 = Some Exited /\
  live_events (worker_steps 2 1 quitting_state) ≡ₚ live_events quitting_state /\
  quit_ (worker_steps 2 1 quitting_state) = true.
Proof.
  apply (quit_stops_worker quitting_state 1 (WaitingUntil (20%Z, mk_event 1 10))).
  - reflexivity.
  - split; [reflexivity|apply Sorted_nil].
  - reflexivity.
  - discriminate.
Defined.
