(* ===== verification/TimeoutQueueWake.v ===== *)
(** The timeout queue with its notifications: [TimeoutQueue] lets a waiting worker
    look again at any time; here it does so when it is notified, when its deadline
    is reached, or when it wakes up by itself, and [notify_one] wakes one worker,
    whichever the label says.  Every run is a run of [TimeoutQueue]; and a
    notification can reach a worker that has no use for it. *)

From S2P Require Import Prelude TimeoutQueue.

(** The queue, and for each worker whether it has been woken from a wait. *)
Record woken_queue : Type := mk_woken { queue : timeout_queue; woken : list bool }.

Definition woken_init (n : nat) (t : Z) : woken_queue := mk_woken (TimeoutQueue n t) (repeat false n).

(** In [new_event_.wait] or [wait_until], not woken *)
Definition sleeps (i : nat) (s : woken_queue) : bool :=
  match workers (queue s) !! i, woken s !! i with
  | Some (WaitingNew | WaitingUntil _), Some false => true
  | _, _ => false
  end.

Definition on_queue (f : timeout_queue -> timeout_queue) (s : woken_queue) : woken_queue :=
  mk_woken (f (queue s)) (woken s).

Definition set_woken (i : nat) (b : bool) (s : woken_queue) : woken_queue :=
  mk_woken (queue s) (<[i := b]> (woken s)).

(** [new_event_.notify_one()]: it reaches a worker that sleeps, if there is one. *)
Definition notify_one (target : option nat) (s : woken_queue) : option woken_queue :=
  match target with
  | Some i => if sleeps i s then Some (set_woken i true s) else None
  | None => if existsb (fun i => sleeps i s) (seq 0 (length (workers (queue s)))) then None else Some s
  end.

(** Whether worker [i] goes on: it does not wait, has been woken, or its deadline
    has come. *)
Definition awake (i : nat) (s : woken_queue) : bool :=
  negb (sleeps i s) ||
  match workers (queue s) !! i with Some (WaitingUntil n) => (n.1 <=? now (queue s))%Z | _ => false end.

(** A worker whose predicate does not hold sleeps again. *)
Definition woken_worker_step (i : nat) (s : woken_queue) : option woken_queue :=
  if awake i s then
    match worker_step i (queue s) with
    | Some q => Some (set_woken i false (mk_woken q (woken s)))
    | None =>
      match workers (queue s) !! i with
      | Some (WaitingNew | WaitingUntil _) => Some (set_woken i false s)
      | _ => None
      end
    end
  else None.

Definition woken_push (fn : nat) (timeout : Z) (target : option nat) (s : woken_queue) : option woken_queue :=
  notify_one target (on_queue (PushEvent fn timeout) s).

(** The end of a function: a repeated event is put back with a notification. *)
Definition woken_return (i : nat) (is_repeat : bool) (target : option nat) (s : woken_queue) : option woken_queue :=
  q ← function_returns i is_repeat (queue s);
  if is_repeat then notify_one target (mk_woken q (woken s)) else Some (mk_woken q (woken s)).

Inductive woken_label : Type :=
| WWorker (i : nat)
| WReturn (i : nat) (is_repeat : bool) (target : option nat)
| WPush (fn : nat) (timeout : Z) (target : option nat)
| WSpurious (i : nat)
| WQuit                      (* the flag of Quit *)
| WQuitNotify                (* its notify_all *)
| WSpawn
| WTick (d : N).

Definition woken_step (l : woken_label) (s : woken_queue) : option woken_queue :=
  match l with
  | WWorker i => woken_worker_step i s
  | WReturn i b target => woken_return i b target s
  | WPush fn t target => woken_push fn t target s
  | WSpurious i => if sleeps i s then Some (set_woken i true s) else None
  | WQuit => Some (on_queue Quit s)
  | WQuitNotify => Some (mk_woken (queue s) ((fun _ => true) <$> woken s))
  | WSpawn => Some (mk_woken (AsyncRun (queue s)) (woken s ++ [false]))
  | WTick d => q ← step (LTick d) (queue s); Some (mk_woken q (woken s))
  end.

Fixpoint woken_run (ls : list woken_label) (s : woken_queue) : option woken_queue :=
  match ls with
  | [] => Some s
  | l :: ls => s' ← woken_step l s; woken_run ls s'
  end.

(** ** Every run is a run of the queue *)

Lemma notify_one_queue target s s' : notify_one target s = Some s' -> queue s' = queue s.
Proof. unfold notify_one. destruct target; case_match; by intros [= <-]. Qed.

Lemma woken_step_refines l s s' :
  woken_step l s = Some s' -> exists ls, run ls (queue s) = Some (queue s') /\ concat (pushed <$> ls) =
    match l with WPush fn t _ => [mk_event fn t] | _ => [] end.
Proof.
  intros Hs. destruct l as [i|i b target|fn t target|i| | | |d]; cbn [woken_step] in Hs.
  - unfold woken_worker_step in Hs. destruct (awake i s); [|done]. destruct (worker_step i (queue s)) as [q|] eqn:E.
    + injection Hs as <-. exists [LWorker i]. split; [|done]. cbn. by rewrite E.
    + exists []. split; [|done]. by repeat case_match; simplify_eq.
  - unfold woken_return in Hs. destruct (function_returns i b (queue s)) as [q|] eqn:E; [|done]. cbn [mbind option_bind] in Hs.
    exists [LReturn i b]. split; [|done]. cbn. rewrite E. destruct b; [by apply notify_one_queue in Hs as ->|by simplify_eq].
  - apply notify_one_queue in Hs as ->. by exists [LPush fn t].
  - destruct (sleeps i s); simplify_eq. by exists [].
  - simplify_eq. by exists [LQuit].
  - simplify_eq. by exists [].
  - simplify_eq. by exists [LSpawn].
  - injection Hs as <-. by exists [LTick d].
Qed.

Lemma run_app ls1 ls2 s : run (ls1 ++ ls2) s = match run ls1 s with Some s' => run ls2 s' | None => None end.
Proof. revert s. induction ls1 as [|l ls IH]; intros s; [done|]. cbn [app run]. by destruct (step l s). Qed.

Definition woken_pushed (l : woken_label) : list Event := match l with WPush fn t _ => [mk_event fn t] | _ => [] end.

Lemma woken_run_refines ls s s' :
  woken_run ls s = Some s' ->
  exists ls', run ls' (queue s) = Some (queue s') /\ concat (pushed <$> ls') = concat (woken_pushed <$> ls).
Proof.
  revert s. induction ls as [|l ls IH]; intros s Hrun; cbn [woken_run] in Hrun; [simplify_eq; by exists []|].
  destruct (woken_step l s) as [s1|] eqn:E; [|done]. destruct (woken_step_refines _ _ _ E) as (ls1 & H1 & P1).
  destruct (IH s1 Hrun) as (ls2 & H2 & P2). exists (ls1 ++ ls2). rewrite run_app, H1. split; [done|].
  rewrite fmap_app, concat_app, P1, P2. done.
Qed.

(** ** Properties *)

(** Steps that neither wake a sleeper nor end the function of the second worker *)
Definition undisturbed (l : woken_label) : Prop :=
  match l with WWorker _ | WTick _ => True | _ => False end.

(** A worker sleeps until [na]; the second has been woken for an event that is not
    due before its own. *)
Record neglected (na nb x : Z * Event) (s : woken_queue) : Prop := {
  neglected_quit : quit_ (queue s) = false;
  neglected_queue : time_out_queue_ (queue s) = [x];
  neglected_workers : workers (queue s) = [WaitingUntil na; WaitingUntil nb] \/ workers (queue s) = [WaitingUntil na; Running nb];
  neglected_woken : exists b, woken s = [false; b] }.

Lemma neglected_step na nb x l s s' :
  (nb.1 <= x.1)%Z -> undisturbed l -> ((now (queue s) < na.1)%Z -> neglected na nb x s) -> woken_step l s = Some s' ->
  (now (queue s) <= now (queue s'))%Z /\ ((now (queue s') < na.1)%Z -> neglected na nb x s').
Proof.
  intros Hx Hl HJ Hs. destruct l as [i| | | | | | |dt]; try done; cbn [woken_step] in Hs.
  - assert (now (queue s') = now (queue s)) as Hnow.
    { unfold woken_worker_step, worker_step, take_first in Hs. repeat case_match; by simplify_eq/=. }
    split; [lia|]. intros Hlt. rewrite Hnow in Hlt. destruct (HJ Hlt) as [Hq Hqu Hw [b Hb]].
    unfold woken_worker_step, awake, sleeps in Hs. rewrite Hb in Hs.
    destruct i as [|[|i]].
    + assert (workers (queue s) !! 0 = Some (WaitingUntil na)) as E by (by destruct Hw as [-> | ->]). rewrite E in Hs. cbn in Hs.
      by rewrite (proj2 (Z.leb_gt _ _)) in Hs.
    + unfold worker_step in Hs. destruct Hw as [Hw|Hw]; rewrite Hw in Hs; cbn in Hs; [|by destruct b].
      rewrite Hq, Hqu in Hs. cbn in Hs. rewrite (proj2 (Z.ltb_ge _ _) Hx) in Hs.
      assert (forall s', s' = set_woken 1 false s \/ s' = set_woken 1 false (mk_woken (set_worker 1 (Running nb) (queue s)) (woken s)) ->
        neglected na nb x s') as Hkeep.
      { intros s'' [-> | ->]; split; cbn; rewrite ?Hb; eauto. right. by rewrite Hw. }
      apply Hkeep. destruct b; cbn in Hs; destruct (nb.1 <=? now (queue s))%Z; rewrite <- ?Hb in Hs; simplify_eq; auto.
    + exfalso. assert (workers (queue s) !! S (S i) = None) as E by (by destruct Hw as [-> | ->]).
      unfold worker_step in Hs. rewrite E in Hs. by destruct (negb _ || _).
  - injection Hs as <-. cbn. split; [lia|]. intros Hlt. destruct HJ as [Hq Hqu Hw Hb]; [lia|]. by split.
Qed.

(** A notification can reach the wrong worker: of two workers that wait for
    their events, the one with the later deadline is not woken when the
    notification of a new event goes to the other, which has no use for it.  The
    new event is then left in the queue past its deadline, while a worker sleeps,
    until that worker's own deadline, the end of the other's function, or another
    operation. *)
Theorem push_wakes_wrong_worker s na nb fn t :
  workers (queue s) = [WaitingUntil na; WaitingUntil nb] -> woken s = [false; false] ->
  time_out_queue_ (queue s) = [] -> quit_ (queue s) = false ->
  (nb.1 <= now (queue s) + t)%Z ->
  exists s1, woken_step (WPush fn t (Some 1)) s = Some s1 /\
    forall ls s2, Forall undisturbed ls -> woken_run ls s1 = Some s2 -> (now (queue s2) < na.1)%Z ->
      time_out_queue_ (queue s2) = [(now (queue s) + t, mk_event fn t)%Z] /\
      workers (queue s2) !! 0 = Some (WaitingUntil na) /\ sleeps 0 s2 = true.
Proof.
  intros Hw Hwk Hqu Hq Hd. set (x := (now (queue s) + t, mk_event fn t)%Z).
  cbn [woken_step]. unfold woken_push, notify_one, sleeps. cbn [on_queue queue PushEvent set_queue workers woken]. rewrite Hw, Hwk.
  cbn [lookup list_lookup]. eexists. split; [done|]. intros ls s2 Hall Hrun Hlt.
  assert (neglected na nb x s2) as [E1 E2 E3 [b E4]].
  { revert Hrun Hlt. set (s1 := set_woken _ _ _).
    assert ((now (queue s1) < na.1)%Z -> neglected na nb x s1) as HJ.
    { intros _. split; cbn; [done|by rewrite Hqu|by left|exists true; by rewrite Hwk]. }
    clearbody s1. revert s1 HJ. induction Hall as [|l ls Hl _ IH]; intros s1 HJ Hrun Hlt; cbn [woken_run] in Hrun; [simplify_eq; by apply HJ|].
    destruct (woken_step l s1) as [s3|] eqn:E; [|done]. destruct (neglected_step na nb x l s1 s3 Hd Hl HJ E) as [_ HJ'].
    by apply (IH s3). }
  assert (workers (queue s2) !! 0 = Some (WaitingUntil na)) as E by (by destruct E3 as [-> | ->]).
  split_and!; [done|done|]. unfold sleeps. by rewrite E, E4.
Qed.

(** ** Witnesses *)

(** The second worker's event is due at 10 and runs for long; one due at 50 is
    pushed at 0; the first worker sleeps until 100. *)
Definition two_waiting : woken_queue :=
  mk_woken (mk_queue [] 2 false [WaitingUntil (100%Z, mk_event 1 100); WaitingUntil (10%Z, mk_event 2 10)] 0) [false; false].

Lemma push_wakes_wrong_worker_witness :
  exists s1, woken_step (WPush 3 50 (Some 1)) two_waiting = Some s1 /\
    forall ls s2, Forall undisturbed ls -> woken_run ls s1 = Some s2 -> (now (queue s2) < 100)%Z ->
      time_out_queue_ (queue s2) = [(50%Z, mk_event 3 50)] /\
      workers (queue s2) !! 0 = Some (WaitingUntil (100%Z, mk_event 1 100)) /\ sleeps 0 s2 = true.
Proof.
  apply (push_wakes_wrong_worker two_waiting (100%Z, mk_event 1 100) (10%Z, mk_event 2 10) 3 50); try reflexivity.
  vm_compute. discriminate.
Defined.
