(* ===== verification/JsString.v ===== *)
(** Strings of the documentation's scripts.

    A JavaScript string whose code units are below 0x100 is a [String.string]
    (a unit is an [ascii]); the members of [String.prototype] and the global
    functions [escape] and [unescape] that [search.js] uses are written out for
    these strings.  [convertToId] of [search.js] is here too, because the
    index tables and the search both go through it. *)

From S2P Require Import Prelude Text.
From Stdlib Require Import HexadecimalString.

(** [c.charCodeAt(0)] *)
Definition charCode (c : ascii) : N := N_of_ascii c.

Fixpoint s_map (f : ascii -> ascii) (s : string) : string :=
  match s with
  | EmptyString => EmptyString
  | String c r => String (f c) (s_map f r)
  end.

Fixpoint s_all (p : ascii -> bool) (s : string) : bool :=
  match s with
  | EmptyString => true
  | String c r => p c && s_all p r
  end.

(** [s.toLowerCase()], on units below 0x100: the Latin capitals move by 32. *)
Definition lower_unit (c : ascii) : ascii :=
  let n := charCode c in
  if (((65 <=? n) && (n <=? 90)) || ((192 <=? n) && (n <=? 222) && negb (n =? 215)))%N
  then ascii_of_N (n + 32) else c.
Definition toLowerCase (s : string) : string := s_map lower_unit s.

(** [n.toString(16)] *)
Definition toString16 (n : N) : string := NilEmpty.string_of_uint (N.to_hex_uint n).

Definition space : ascii := " "%char.

(** [s.replace(/^ +/, "")] *)
Fixpoint strip_leading (s : string) : string :=
  match s with
  | String c r => if Ascii.eqb c space then strip_leading r else s
  | EmptyString => EmptyString
  end.

(** [s.replace(/ +$/, "")] *)
Fixpoint strip_trailing (s : string) : string :=
  match s with
  | String c r =>
    match strip_trailing r with
    | EmptyString => if Ascii.eqb c space then EmptyString else String c EmptyString
    | r' => String c r'
    end
  | EmptyString => EmptyString
  end.

(** [s.replace(/ +/g, "")] *)
Fixpoint strip_spaces (s : string) : string :=
  match s with
  | String c r => if Ascii.eqb c space then strip_spaces r else String c (strip_spaces r)
  | EmptyString => EmptyString
  end.

(** [s.replace(/^sr\d*_/, '')] *)
Fixpoint skip_digits (s : string) : string :=
  match s with
  | String c r => if isdigit c then skip_digits r else s
  | EmptyString => EmptyString
  end.
Definition strip_sr (s : string) : string :=
  match s with
  | String c (String d r) =>
    match skip_digits r with
    | String u r' => if Ascii.eqb c "s" && Ascii.eqb d "r" && Ascii.eqb u "_" then r' else s
    | EmptyString => s
    end
  | _ => s
  end.

(** [s.indexOf(c)] for a string of one unit, [-1] when it does not occur; the
    empty string occurs at 0 in every string. *)
Fixpoint index_of_unit (c : ascii) (s : string) : option N :=
  match s with
  | EmptyString => None
  | String d r => if Ascii.eqb d c then Some 0%N else N.succ <$> index_of_unit c r
  end.
Definition indexOf (s c : string) : Z :=
  match c with
  | EmptyString => 0%Z
  | String a _ => from_option Z.of_N (-1)%Z (index_of_unit a s)
  end.

(** ** [escape] and [unescape] *)

(** The units [escape] keeps: letters, digits and [@*_+-./]. *)
Definition unescaped (c : ascii) : bool :=
  let n := charCode c in
  (((65 <=? n) && (n <=? 90)) || ((97 <=? n) && (n <=? 122)) || ((48 <=? n) && (n <=? 57))
   || (n =? 64) || (n =? 42) || (n =? 95) || (n =? 43) || (n =? 45) || (n =? 46) || (n =? 47))%N.

(** An upper-case hexadecimal digit and its reading. *)
Definition HEX (n : N) : ascii := ascii_of_N (if (n <? 10)%N then 48 + n else 55 + n).
Definition unHEX (c : ascii) : option N :=
  let n := charCode c in
  if ((48 <=? n) && (n <=? 57))%N then Some (n - 48)%N
  else if ((65 <=? n) && (n <=? 70))%N then Some (n - 55)%N
  else if ((97 <=? n) && (n <=? 102))%N then Some (n - 87)%N
  else None.

Fixpoint escape (s : string) : string :=
  match s with
  | EmptyString => EmptyString
  | String c r =>
    if unescaped c then String c (escape r)
    else String "%" (String (HEX (charCode c / 16)) (String (HEX (charCode c mod 16)) (escape r)))
  end.

(** A [%XX] and a [%u00XX] are the unit; a [%] with anything else stays as it
    is.  (A [%uXXXX] of a larger unit, which [escape] never makes of these
    strings, is outside the strings modelled.) *)
Definition unit_of_hex (a b : ascii) : option ascii :=
  x ← unHEX a; y ← unHEX b; Some (ascii_of_N (16 * x + y)).
Fixpoint unescape (s : string) : string :=
  match s with
  | EmptyString => EmptyString
  | String c r =>
    if negb (Ascii.eqb c "%") then String c (unescape r) else
    match r with
    | String a (String b r2) =>
      match unit_of_hex a b, r2 with
      | Some u, _ => String u (unescape r2)
      | None, String z (String a' (String b' r4)) =>
        match (if Ascii.eqb a "u" && Ascii.eqb b "0" && Ascii.eqb z "0"
               then unit_of_hex a' b' else None) with
        | Some u => String u (unescape r4)
        | None => String c (unescape r)
        end
      | None, _ => String c (unescape r)
      end
    | _ => String c (unescape r)
    end
  end.

(** ** [convertToId] *)

(** [c.match(/[a-z0-9\u0080-\uFFFF]/)] *)
Definition id_unit (c : ascii) : bool :=
  let n := charCode c in
  (((97 <=? n) && (n <=? 122)) || ((48 <=? n) && (n <=? 57)) || (128 <=? n))%N.

Definition convertUnit (c : ascii) : string :=
  if id_unit c then String c EmptyString
  else if (charCode c <? 16)%N then "_0" +:+ toString16 (charCode c)
  else "_" +:+ toString16 (charCode c).

Fixpoint convertToId (search : string) : string :=
  match search with
  | EmptyString => EmptyString
  | String c r => convertUnit c +:+ convertToId r
  end.

(** ** Facts *)

(** A property of all 256 units, decided by trying them. *)
Definition all_units (p : ascii -> bool) : bool :=
  forallb (fun n => p (ascii_of_nat n)) (seq 0 256).
Lemma all_units_spec p : all_units p = true -> forall c, p c = true.
Proof.
  unfold all_units. rewrite forallb_forall. intros H c.
  rewrite <- (ascii_nat_embedding c). apply H, in_seq.
  pose proof (nat_ascii_bounded c). lia.
Qed.

Lemma unit_prop (p : ascii -> bool) (P : ascii -> Prop) c :
  all_units p = true -> (forall d, p d = true -> P d) -> P c.
Proof. intros H HP. by apply HP, all_units_spec. Qed.

(** Proves the goal about the unit [c] by trying [p] on every unit. *)
Ltac by_units c p := pattern c; apply (unit_prop p); [by vm_compute|].

Lemma lower_unit_idem c : lower_unit (lower_unit c) = lower_unit c.
Proof.
  by_units c (fun c => Ascii.eqb (lower_unit (lower_unit c)) (lower_unit c)).
  intros d H. by apply Ascii.eqb_eq in H.
Qed.

Lemma s_map_app f s t : s_map f (s +:+ t) = s_map f s +:+ s_map f t.
Proof. induction s; simpl; congruence. Qed.
Lemma s_length_map f s : String.length (s_map f s) = String.length s.
Proof. induction s; simpl; congruence. Qed.

Lemma toLowerCase_app s t : toLowerCase (s +:+ t) = toLowerCase s +:+ toLowerCase t.
Proof. apply s_map_app. Qed.
Lemma toLowerCase_idem s : toLowerCase (toLowerCase s) = toLowerCase s.
Proof.
  unfold toLowerCase. induction s; cbn [s_map]; [done|]. by rewrite lower_unit_idem, IHs.
Qed.

Lemma convertToId_app s t : convertToId (s +:+ t) = convertToId s +:+ convertToId t.
Proof. induction s; simpl; [done|]. by rewrite IHs, s_app_assoc. Qed.

Lemma convertUnit_lower c : toLowerCase (convertUnit (lower_unit c)) = convertUnit (lower_unit c).
Proof.
  by_units c (fun c => String.eqb (toLowerCase (convertUnit (lower_unit c)))
                                  (convertUnit (lower_unit c))).
  intros d H. by apply String.eqb_eq in H.
Qed.

(** What is made of a lower-case text is lower-case. *)
Lemma convertToId_lower s :
  toLowerCase (convertToId (toLowerCase s)) = convertToId (toLowerCase s).
Proof.
  induction s as [|c s IH]; [done|].
  change (convertToId (toLowerCase (String c s)))
    with (convertUnit (lower_unit c) +:+ convertToId (toLowerCase s)).
  by rewrite toLowerCase_app, convertUnit_lower, IH.
Qed.

Lemma convertUnit_nonempty c : convertUnit c <> "".
Proof.
  by_units c (fun c => negb (String.eqb (convertUnit c) EmptyString)).
  intros d H E. by rewrite E in H.
Qed.

Lemma escape_unit c :
  unescaped c = false ->
  unit_of_hex (HEX (charCode c / 16)) (HEX (charCode c mod 16)) = Some c.
Proof.
  by_units c (fun c => unescaped c ||
    bool_decide (unit_of_hex (HEX (charCode c / 16)) (HEX (charCode c mod 16)) = Some c)).
  intros d H Hd. rewrite Hd in H. by apply bool_decide_eq_true in H.
Qed.

Lemma unescaped_percent c : unescaped c = true -> Ascii.eqb c "%" = false.
Proof. intros H. by destruct (Ascii.eqb_spec c "%") as [->|]. Qed.

(** The query a results page reads is the text that was typed. *)
Lemma unescape_escape s : unescape (escape s) = s.
Proof.
  induction s as [|c s IH]; [done|]. cbn [escape]. destruct (unescaped c) eqn:E.
  - cbn [unescape]. by rewrite unescaped_percent, IH.
  - cbn [unescape]. rewrite (escape_unit c E). cbn. by rewrite IH.
Qed.

Lemma strip_trailing_prefix s : exists t, s = strip_trailing s +:+ t.
Proof.
  induction s as [|c s [t IH]]; [by exists ""|]. cbn [strip_trailing].
  destruct (strip_trailing s) as [|d r] eqn:E.
  - destruct (Ascii.eqb c space); [by exists (String c s)|]. by exists s.
  - exists t. cbn in *. by rewrite IH.
Qed.

Lemma strip_leading_id c s : c <> space -> strip_leading (String c s) = String c s.
Proof. intros Hc. cbn. by destruct (Ascii.eqb_spec c space). Qed.

Lemma strip_trailing_nonspace c s :
  c <> space -> exists r, strip_trailing (String c s) = String c r.
Proof.
  intros Hc. cbn [strip_trailing]. destruct (strip_trailing s) as [|d r]; [|eauto].
  destruct (Ascii.eqb_spec c space); [done|eauto].
Qed.
