(* ===== verification/Dom.v ===== *)
(** The part of the document object model the documentation's scripts use: a
    document is a tree of elements, an element of it is named by its path from
    the root (deepest position first, so that [parentNode] is the tail of the
    path), and the properties the scripts read and write are functions of the
    document and a path. *)

From S2P Require Import Prelude Text JsString.

(** An element: [style.display] and the markup assigned to [innerHTML] are kept
    apart from the attributes. *)
Inductive node : Type := Elt {
  nodeName : string;
  attributes : list (string * string);
  display : string;
  innerHTML : string;
  childNodes : list node;
}.

Definition TypeError {A} : outcome A := Throw (std_exception "TypeError").

(** ** Elements by themselves *)

(** [document.createElement(tag)]: an HTML document names elements in capitals *)
Definition upper_unit (c : ascii) : ascii :=
  let n := charCode c in
  if ((97 <=? n) && (n <=? 122))%N then ascii_of_N (n - 32) else c.
Definition createElement (tag : string) : node :=
  Elt (s_map upper_unit tag) [] "" "" [].

Fixpoint assoc (k : string) (l : list (string * string)) : option string :=
  match l with
  | [] => None
  | (k', v) :: l' => if String.eqb k' k then Some v else assoc k l'
  end.
Fixpoint assoc_set (k v : string) (l : list (string * string)) : list (string * string) :=
  match l with
  | [] => [(k, v)]
  | (k', v') :: l' => if String.eqb k' k then (k, v) :: l' else (k', v') :: assoc_set k v l'
  end.

Definition getAttribute (k : string) (n : node) : option string := assoc k (attributes n).
Definition setAttribute (k v : string) (n : node) : node :=
  Elt (nodeName n) (assoc_set k v (attributes n)) (display n) (innerHTML n) (childNodes n).
(** [element.id] and [element.className]: empty when the attribute is absent *)
Definition id_of (n : node) : string := default "" (getAttribute "id" n).
Definition className (n : node) : string := default "" (getAttribute "class" n).
Definition set_display (d : string) (n : node) : node :=
  Elt (nodeName n) (attributes n) d (innerHTML n) (childNodes n).
Definition set_innerHTML (s : string) (n : node) : node :=
  Elt (nodeName n) (attributes n) (display n) s (childNodes n).
Definition set_childNodes (cs : list node) (n : node) : node :=
  Elt (nodeName n) (attributes n) (display n) (innerHTML n) cs.
Definition appendChild (c : node) (n : node) : node :=
  set_childNodes (childNodes n ++ [c]) n.

(** ** Positions in a document *)

Definition path : Type := list nat.

Fixpoint node_at (doc : node) (p : path) : option node :=
  match p with
  | [] => Some doc
  | i :: q => n ← node_at doc q; childNodes n !! i
  end.
Fixpoint update_at (f : node -> node) (p : path) (doc : node) : node :=
  match p with
  | [] => f doc
  | i :: q => update_at (fun n => set_childNodes (alter f i (childNodes n)) n) q doc
  end.

Definition parentNode (p : path) : option path := tail <$> (if decide (p = []) then None else Some p).
Definition firstChild (doc : node) (p : path) : option path :=
  n ← node_at doc p; _ ← childNodes n !! 0; Some (0 :: p).
Definition nextSibling (doc : node) (p : path) : option path :=
  match p with
  | [] => None
  | i :: q => _ ← node_at doc (S i :: q); Some (S i :: q)
  end.

(** Document order. *)
Definition forest_map {A} (f : nat -> node -> list A) : nat -> list node -> list A :=
  fix go i cs := match cs with [] => [] | c :: cs' => f i c ++ go (S i) cs' end.
Fixpoint preorder (n : node) (p : path) : list path :=
  p :: forest_map (fun i c => preorder c (i :: p)) 0 (childNodes n).

(** [document.getElementById(id)]: the first element in document order *)
Definition with_id (doc : node) (id : string) (p : path) : bool :=
  match node_at doc p with Some n => String.eqb (default "" (getAttribute "id" n)) id | None => false end.
Definition getElementById (doc : node) (id : string) : option path :=
  head (List.filter (with_id doc id) (preorder doc [])).
(** [document.getElementsByTagName(tag)], the tag in capitals *)
Definition with_tag (doc : node) (tag : string) (p : path) : bool :=
  match node_at doc p with Some n => String.eqb (nodeName n) tag | None => false end.
Definition getElementsByTagName (doc : node) (tag : string) : list path :=
  List.filter (with_tag doc tag) (preorder doc []).

(** * Facts *)

(** Induction on a document and its children. *)
Lemma node_tree_ind (P : node -> Prop) :
  (forall n, Forall P (childNodes n) -> P n) -> forall n, P n.
Proof.
  intros H. fix IH 1. intros [t a d h cs]. apply H. simpl.
  induction cs as [|c cs IHcs]; [constructor|]. constructor; [apply IH|apply IHcs].
Qed.

Fixpoint size (n : node) : nat := S (list_sum (map size (childNodes n))).
Abbreviation forest_size cs := (list_sum (map size cs)).
Abbreviation forest_order i p cs := (forest_map (fun j c => preorder c (j :: p)) i cs).

Lemma size_eq n : size n = S (forest_size (childNodes n)).
Proof. by destruct n. Qed.
Lemma preorder_eq n p : preorder n p = p :: forest_order 0 p (childNodes n).
Proof. by destruct n. Qed.

Lemma preorder_length n p : length (preorder n p) = size n.
Proof.
  revert p. induction n as [n IH] using node_tree_ind. intros p.
  rewrite preorder_eq, size_eq. cbn. f_equal. generalize 0 as i.
  induction IH as [|c cs Hc _ IHcs]; intros i; cbn; [done|].
  by rewrite length_app, Hc, IHcs.
Qed.

Lemma node_at_cons doc i p n :
  node_at doc p = Some n -> node_at doc (i :: p) = childNodes n !! i.
Proof. intros H. cbn. by rewrite H. Qed.

Lemma node_at_app doc p q n :
  node_at doc p = Some n -> node_at doc (q ++ p) = node_at n q.
Proof. intros H. induction q as [|i q IH]; cbn; [done|]. by rewrite IH. Qed.

(** The positions of a document in order are the positions of its elements. *)
Lemma elem_of_forest_order i p cs q :
  Forall (fun n => forall p q, q ∈ preorder n p <-> exists r, q = r ++ p /\ is_Some (node_at n r)) cs ->
  q ∈ forest_order i p cs <->
  exists r j c, q = r ++ (i + j) :: p /\ cs !! j = Some c /\ is_Some (node_at c r).
Proof.
  revert i. induction cs as [|c cs IH]; intros i HF; cbn.
  - split; [intros Hq; by apply not_elem_of_nil in Hq|intros (r & j & c & _ & Hj & _); done].
  - apply Forall_cons in HF as [Hc HF]. rewrite elem_of_app, Hc, (IH (S i) HF). split.
    + intros [(r & -> & Hr)|(r & j & d & -> & Hj & Hr)].
      * exists r, 0, c. by rewrite Nat.add_0_r.
      * exists r, (S j), d. by rewrite Nat.add_succ_r.
    + intros (r & [|j] & d & -> & Hj & Hr); cbn in Hj.
      * left. injection Hj as ->. exists r. by rewrite Nat.add_0_r.
      * right. exists r, j, d. by rewrite Nat.add_succ_r.
Qed.

Lemma node_at_snoc n r i c :
  childNodes n !! i = Some c -> node_at n (r ++ [i]) = node_at c r.
Proof. intros H. by apply node_at_app. Qed.

Lemma elem_of_preorder_at n p q :
  q ∈ preorder n p <-> exists r, q = r ++ p /\ is_Some (node_at n r).
Proof.
  revert p q. induction n as [n IH] using node_tree_ind. intros p q.
  rewrite preorder_eq, elem_of_cons, elem_of_forest_order by done. cbn. split.
  - intros [->|(r & j & c & -> & Hj & Hr)]; [by exists []|].
    exists (r ++ [j]). by rewrite (node_at_snoc n r j c), <- app_assoc.
  - intros (r & -> & Hr). induction r as [|i r' _] using rev_ind; [by left|right].
    destruct (childNodes n !! i) as [c|] eqn:Hi.
    + exists r', i, c. rewrite (node_at_snoc n r' i c Hi) in Hr.
      by rewrite <- app_assoc.
    + exfalso. destruct Hr as [m Hm]. revert m Hm.
      induction r' as [|k r' IHr]; cbn; intros m Hm; [by rewrite Hi in Hm|].
      destruct (node_at n (r' ++ [i])) eqn:E; [by eapply IHr|done].
Qed.

Lemma elem_of_preorder doc p : p ∈ preorder doc [] <-> is_Some (node_at doc p).
Proof.
  rewrite elem_of_preorder_at. split; [intros (r & -> & H)|intros H; exists p];
    by rewrite app_nil_r in *.
Qed.

(** ** Changing [style.display] *)

(** What is left of an element when its children are not looked at. *)
Definition label (n : node) : string * list (string * string) * string * string * nat :=
  (nodeName n, attributes n, display n, innerHTML n, length (childNodes n)).
Definition label_at (doc : node) (p : path) := label <$> node_at doc p.

Lemma node_at_update_below f p doc n r :
  node_at doc p = Some n -> node_at (update_at f p doc) (r ++ p) = node_at (f n) r.
Proof.
  revert f n r. induction p as [|i p IH]; intros f n r H.
  - injection H as <-. by rewrite app_nil_r.
  - cbn in H. destruct (node_at doc p) as [m|] eqn:Hm; [|done]. cbn in H.
    change (i :: p) with ([i] ++ p). rewrite app_assoc. cbn [update_at app].
    rewrite (IH _ m) by done. apply node_at_snoc. cbn.
    by rewrite list_lookup_alter, decide_True, H.
Qed.

Lemma label_at_update_other f p doc n q :
  node_at doc p = Some n -> ~ p `suffix_of` q ->
  label_at (update_at f p doc) q = label_at doc q.
Proof.
  revert f n q. induction p as [|i p IH]; intros f n q H Hq.
  - exfalso. apply Hq, suffix_nil.
  - cbn in H. destruct (node_at doc p) as [m|] eqn:Hm; [|done]. cbn in H. cbn [update_at].
    destruct (decide (p `suffix_of` q)) as [[r ->]|Hp]; [|by apply (IH _ m)].
    unfold label_at. rewrite (node_at_update_below _ p doc m) by done.
    rewrite (node_at_app doc p r m Hm).
    induction r as [|j r _] using rev_ind; cbn.
    + unfold label. cbn. by rewrite length_alter.
    + destruct (decide (i = j)) as [->|Hij].
      { exfalso. apply Hq. exists r. by rewrite <- app_assoc. }
      f_equal. destruct (childNodes m !! j) as [c|] eqn:Hj.
      * rewrite (node_at_snoc m r j c Hj). apply node_at_snoc. cbn.
        by rewrite list_lookup_alter_ne.
      * clear -Hj Hij. induction r as [|k r IHr]; cbn in *; [|by rewrite IHr].
        by rewrite list_lookup_alter_ne.
Qed.

Definition label_display (d : string) (l : string * list (string * string) * string * string * nat) :=
  let '(t, a, _, h, k) := l in (t, a, d, h, k).

(** Setting [style.display] changes that of one element. *)
Lemma label_at_set_display d p doc q :
  is_Some (node_at doc p) ->
  label_at (update_at (set_display d) p doc) q =
  if decide (q = p) then label_display d <$> label_at doc q else label_at doc q.
Proof.
  intros [n Hn]. destruct (decide (p `suffix_of` q)) as [[r ->]|Hp].
  - unfold label_at. rewrite (node_at_update_below _ p doc n) by done.
    rewrite (node_at_app doc p r n Hn). case_decide as E.
    + apply (f_equal length) in E. rewrite length_app in E.
      destruct r; [idtac|cbn in E; lia]. done.
    + destruct r as [|k r _] using rev_ind; [done|]. f_equal.
      destruct n as [t a d' h cs]. clear. induction r; cbn in *; [done|]. by rewrite IHr.
  - rewrite (label_at_update_other _ p doc n) by done.
    rewrite decide_False; [done|]. intros ->. by apply Hp.
Qed.

Lemma node_at_label doc p : is_Some (node_at doc p) <-> is_Some (label_at doc p).
Proof. unfold label_at. by rewrite fmap_is_Some. Qed.
