(* ===== verification/DocResults.v ===== *)
(** The search results page of the documentation ([createResults] and the
    class [SearchResults] of [search.js]): the page's document, built from an
    index table, and the operations on it.  The key handlers, which also act on
    the page around it, are in [DocPanel]. *)

From S2P Require Import Prelude Text JsString Dom.

(** * Index tables *)

(** One place a name is documented at: [[url, target, scope]]. *)
Record result : Type := Result { res_url : string; res_parent : Z; res_scope : string }.
(** A row of [searchData]: [[id, [name, result, ...]]]. *)
Record entry : Type := Entry { ent_id : string; ent_name : string; ent_results : list result }.
Abbreviation table := (list entry).

(** * Building the page *)

Definition setKeyActions (action : string) (elem : node) : node :=
  setAttribute "onkeyup" action (setAttribute "onkeypress" action (setAttribute "onkeydown" action elem)).
Definition setClassAttr (attr : string) (elem : node) : node :=
  setAttribute "className" attr (setAttribute "class" attr elem).

(** The double quote. *)
Definition quote : string := String (ascii_of_nat 34) EmptyString.

Definition num (n : nat) : string := to_string (Z.of_nat n).

(** [setAttribute('target','_parent')], when the table says so *)
Definition set_target (r : result) (n : node) : node :=
  if (res_parent r =? 0)%Z then n else setAttribute "target" "_parent" n.

Definition result_child (e c : nat) (r : result) : node :=
  let srChild := setAttribute "id" ("Item" +:+ num e +:+ "_c" +:+ num c) (createElement "a") in
  let srChild := setKeyActions
    ("return searchResults.NavChild(event," +:+ num e +:+ "," +:+ num c +:+ ")") srChild in
  let srChild := setClassAttr "SRScope" srChild in
  let srChild := setAttribute "href" (res_url r) srChild in
  set_innerHTML (res_scope r) (set_target r srChild).

(** The body of the loop of [createResults]. *)
Definition result_row (e : nat) (d : entry) : node :=
  let srResult := setAttribute "id" ("SR_" +:+ ent_id d) (createElement "div") in
  let srResult := setClassAttr "SRResult" srResult in
  let srEntry := setClassAttr "SREntry" (createElement "div") in
  let srLink := setAttribute "id" ("Item" +:+ num e) (createElement "a") in
  let srLink := setKeyActions ("return searchResults.Nav(event," +:+ num e +:+ ")") srLink in
  let srLink := set_innerHTML (ent_name d) (setClassAttr "SRSymbol" srLink) in
  let srEntry :=
    match ent_results d with
    | [r] =>
      let srLink := set_target r (setAttribute "href" (res_url r) srLink) in
      let srScope := set_innerHTML (res_scope r) (setClassAttr "SRScope" (createElement "span")) in
      appendChild srScope (appendChild srLink srEntry)
    | rs =>
      let srLink := setAttribute "href"
        ("javascript:searchResults.Toggle(" +:+ quote +:+ "SR_" +:+ ent_id d +:+ quote +:+ ")") srLink in
      let srChildren := set_childNodes (imap (result_child e) rs)
        (setClassAttr "SRChildren" (createElement "div")) in
      appendChild srChildren (appendChild srLink srEntry)
    end in
  appendChild srEntry srResult.

Definition createResults (searchData : table) (doc : node) : outcome node :=
  match getElementById doc "SRResults" with
  | None => TypeError
  | Some results =>
    Ret (update_at (fun n => set_childNodes (childNodes n ++ imap result_row searchData) n)
                   results doc)
  end.

(** * The class [SearchResults] *)

Record results_page : Type := ResultsPage {
  document : node;
  location_search : string;   (** [window.location.search] *)
  lastMatchCount : Z;
  lastKey : Z;
  repeatOn : bool;
}.

Definition SearchResults (doc : node) (location : string) : results_page :=
  ResultsPage doc location 0 0 false.
Definition with_document (doc : node) (w : results_page) : results_page :=
  ResultsPage doc (location_search w) (lastMatchCount w) (lastKey w) (repeatOn w).

(** ** [FindChildElement] *)

Definition is_children_div (n : node) : bool :=
  String.eqb (nodeName n) "DIV" && String.eqb (className n) "SRChildren".
Definition is_div_with_children (n : node) : bool :=
  String.eqb (nodeName n) "DIV" && negb (length (childNodes n) =? 0).

(** The inner loop and the [if] after it: up to the nearest ancestor with a next
    sibling, at most to [parentElement], and on to the sibling. *)
Fixpoint climb (doc : node) (parentElement element : path) : option path :=
  match element with
  | [] => None
  | _ :: up =>
    if decide (up = parentElement) then Some up
    else match nextSibling doc up with
         | Some s => Some s
         | None => climb doc parentElement up
         end
  end.

Fixpoint find_loop (fuel : nat) (doc : node) (parentElement : path) (element : option path)
  : outcome (option path) :=
  match fuel with
  | O => Timeout
  | S fuel =>
    match element with
    | None => Ret None
    | Some e =>
      if decide (e = parentElement) then Ret None else
      match node_at doc e with
      | None => TypeError
      | Some n =>
        if is_children_div n then Ret (Some e)
        else if is_div_with_children n then find_loop fuel doc parentElement (firstChild doc e)
        else match nextSibling doc e with
             | Some s => find_loop fuel doc parentElement (Some s)
             | None => find_loop fuel doc parentElement (climb doc parentElement e)
             end
      end
    end
  end.

Definition FindChildElement (doc : node) (id : string) : outcome (option path) :=
  match getElementById doc id with
  | None => TypeError
  | Some parentElement => find_loop (S (size doc)) doc parentElement (firstChild doc parentElement)
  end.

Definition display_at (doc : node) (p : path) : string :=
  from_option display EmptyString (node_at doc p).

Definition Toggle (id : string) : M results_page unit := fun w =>
  match FindChildElement (document w) id with
  | Ret (Some element) =>
    let d := if String.eqb (display_at (document w) element) "block" then "none" else "block" in
    (Ret tt, with_document (update_at (set_display d) element (document w)) w)
  | Ret None => (Ret tt, w)
  | Throw e => (Throw e, w)
  | Undef => (Undef, w)
  | Timeout => (Timeout, w)
  end.

(** ** [Search] *)

Definition normalise (search : string) : string :=
  convertToId (toLowerCase (strip_trailing (strip_leading search))).

(** The test of a row's name against the search term. *)
Definition row_name (row : node) : string := strip_sr (toLowerCase (id_of row)).
Definition name_matches (search rowMatchName : string) : bool :=
  (String.length search <=? String.length rowMatchName) &&
  String.eqb (s_take (String.length search) rowMatchName) search.
Definition is_result (row : node) : bool := String.eqb (className row) "SRResult".

(** The loop over the rows: the document, and [matches]. *)
Fixpoint search_rows (search : string) (resultRows : list path) (doc : node) (matches : Z) : node * Z :=
  match resultRows with
  | [] => (doc, matches)
  | i :: rest =>
    match node_at doc i with
    | Some row =>
      if is_result row then
        if name_matches search (row_name row)
        then search_rows search rest (update_at (set_display "block") i doc) (matches + 1)
        else search_rows search rest (update_at (set_display "none") i doc) matches
      else search_rows search rest doc matches
    | None => search_rows search rest doc matches
    end
  end.

Definition set_display_of (id d : string) (doc : node) : outcome node :=
  match getElementById doc id with
  | None => TypeError
  | Some p => Ret (update_at (set_display d) p doc)
  end.

(** The term: the argument or, when there is none, the query of the page's URL. *)
Definition search_term (search : option string) (w : results_page) : string :=
  match search with
  | Some (String _ _ as s) => s
  | _ => unescape (s_drop 1 (location_search w))
  end.

Definition Search (search : option string) : M results_page bool := fun w =>
  let search := normalise (search_term search w) in
  let '(doc, matches) :=
    search_rows search (getElementsByTagName (document w) "DIV") (document w) 0 in
  match set_display_of "Searching" "none" doc with
  | Ret doc =>
    match set_display_of "NoMatches" (if (matches =? 0)%Z then "block" else "none") doc with
    | Ret doc => (Ret true, ResultsPage doc (location_search w) matches (lastKey w) (repeatOn w))
    | _ => (TypeError, with_document doc w)
    end
  | _ => (TypeError, with_document doc w)
  end.

(** ** Moving between the visible rows *)

Definition item_name (index : Z) : string := "Item" +:+ to_string index.

(** [focusItem.parentNode.parentNode.style.display=='block'] *)
Definition row_visible (doc : node) (focusItem : path) : outcome bool :=
  match focusItem with
  | _ :: _ :: row => Ret (String.eqb (display_at doc row) "block")
  | _ => TypeError
  end.

Fixpoint nav_loop (fuel : nat) (step : Z) (doc : node) (index : Z) : outcome (option path) :=
  match fuel with
  | O => Timeout
  | S fuel =>
    match getElementById doc (item_name index) with
    | Some focusItem =>
      obind (fun visible : bool => if visible then Ret (Some focusItem)
                                   else nav_loop fuel step doc (index + step))
            (row_visible doc focusItem)
    | None => Ret None
    end
  end.

(** The first visible item from [index] up, and from [index] down. *)
Definition NavNext (doc : node) (index : Z) : outcome (option path) :=
  nav_loop (S (size doc)) 1 doc index.
Definition NavPrev (doc : node) (index : Z) : outcome (option path) :=
  nav_loop (S (size doc)) (-1) doc index.

(** ** Key repeat *)

Inductive key_type := keydown | keypress | keyup | other_event.
Record event : Type := Event { ev_type : key_type; keyCode : Z; shiftKey : bool }.

Definition ProcessKeys (e : event) : M results_page bool := fun w =>
  let set k r := ResultsPage (document w) (location_search w) (lastMatchCount w) k r in
  let done w' := (Ret (negb (lastKey w' =? 0)%Z), w') in
  match ev_type e with
  | keydown => done (set (keyCode e) false)
  | keypress =>
    if negb (repeatOn w) then
      (** the first keypress after a keydown is ignored *)
      (Ret false, if (lastKey w =? 0)%Z then w else set (lastKey w) true)
    else done w
  | keyup => done (set 0%Z false)
  | other_event => done w
  end.

(** * The page the generator writes around the rows *)

(** The body of a results page ([all_4.html] and the others), before its
    scripts run. *)
Definition status_div (id text : string) : node :=
  setAttribute "id" id (setAttribute "class" "SRStatus" (set_innerHTML text (createElement "div"))).
Definition results_body (rows : list node) : node :=
  appendChild (set_childNodes
    [ status_div "Loading" "Loading...";
      set_childNodes rows (setAttribute "id" "SRResults" (createElement "div"));
      createElement "script";
      status_div "Searching" "Searching...";
      status_div "NoMatches" "No Matches";
      createElement "script" ]
    (setAttribute "id" "SRIndex" (createElement "div")))
  (setAttribute "class" "SRPage" (createElement "body")).

(** Loading the page: [createResults()], then the second script of its body. *)
Definition load_results (searchData : table) (query : string) : outcome results_page :=
  obind (fun doc =>
  obind (fun doc =>
  obind (fun doc =>
    match Search None (SearchResults doc query) with
    | (Ret _, w) => Ret w
    | _ => TypeError
    end)
  (set_display_of "NoMatches" "none" doc))
  (set_display_of "Loading" "none" doc))
  (createResults searchData (results_body [])).
