(* ===== verification/DocResultsFacts.v ===== *)
(** The search results page: [FindChildElement] finds the first list of
    children in document order; looking elements up by id follows the structure
    of the document and does not depend on [style.display]. *)

From S2P Require Import Prelude Text JsString Dom DocResults.

(** * [FindChildElement]

    The reference: the descendants are looked at in document order, below
    [DIV]s only. *)

Definition first_in (f : nat -> node -> option path) : nat -> list node -> option path :=
  fix go i cs :=
    match cs with
    | [] => None
    | c :: cs' => match f i c with Some r => Some r | None => go (S i) cs' end
    end.

Fixpoint first_children (n : node) (p : path) : option path :=
  first_in (fun i c => if is_children_div c then Some (i :: p)
                       else if is_div_with_children c then first_children c (i :: p)
                       else None) 0 (childNodes n).

Abbreviation first_children_from i p cs :=
  (first_in (fun j c => if is_children_div c then Some (j :: p)
                        else if is_div_with_children c then first_children c (j :: p)
                        else None) i cs).

Lemma first_children_eq n p : first_children n p = first_children_from 0 p (childNodes n).
Proof. by destruct n. Qed.

(** Where the walk goes on when everything below [p] has been seen. *)
Definition after (doc : node) (parent p : path) : option path :=
  if decide (p = parent) then Some p
  else match nextSibling doc p with Some s => Some s | None => climb doc parent p end.

Lemma climb_after doc parent i p : climb doc parent (i :: p) = after doc parent p.
Proof. done. Qed.

Lemma not_above (parent r : path) i : i :: r ++ parent <> parent.
Proof. intros E. apply (f_equal length) in E. cbn in E. rewrite length_app in E. lia. Qed.

Lemma nextSibling_lookup doc p n i :
  node_at doc p = Some n ->
  nextSibling doc (i :: p) = (fun _ => S i :: p) <$> childNodes n !! S i.
Proof. intros H. cbn. rewrite H. cbn. by destruct (childNodes n !! S i). Qed.

Lemma find_loop_le doc parent f f' e r :
  find_loop f doc parent e = Ret r -> f <= f' -> find_loop f' doc parent e = Ret r.
Proof.
  revert f' e. induction f as [|f IH]; intros f' e H Hf; [done|].
  destruct f' as [|f']; [lia|]. cbn in *.
  repeat case_match; try done; (apply IH; [done|lia]).
Qed.

(** Walking the children of [p] from position [i] on: what the reference finds
    is found, and when it finds nothing the walk goes on after [p]. *)
Definition walks (doc : node) (parent p : path) (n : node) : Prop :=
  forall i c k res, childNodes n !! i = Some c ->
    match first_children_from i p (drop i (childNodes n)) with
    | Some r => res = Some r
    | None => find_loop k doc parent (after doc parent p) = Ret res
    end ->
    find_loop (forest_size (drop i (childNodes n)) + k) doc parent (Some (i :: p)) = Ret res.

(** The walk from an element that is not entered. *)
Lemma walk_next doc parent r n i c f k res :
  node_at doc (r ++ parent) = Some n -> childNodes n !! i = Some c ->
  (forall d, childNodes n !! S i = Some d ->
     find_loop f doc parent (Some (S i :: r ++ parent)) = Ret res) ->
  (childNodes n !! S i = None -> find_loop f doc parent (after doc parent (r ++ parent)) = Ret res) ->
  f <= k ->
  match nextSibling doc (i :: r ++ parent) with
  | Some s => find_loop k doc parent (Some s)
  | None => find_loop k doc parent (climb doc parent (i :: r ++ parent))
  end = Ret res.
Proof.
  intros Hn Hi Hs Ha Hf. rewrite (nextSibling_lookup _ _ _ _ Hn).
  destruct (childNodes n !! S i) as [d|] eqn:Hd; cbn [fmap option_fmap option_map].
  - eapply find_loop_le; [by eapply Hs|done].
  - rewrite climb_after. eapply find_loop_le; [by apply Ha|done].
Qed.

Lemma walks_children doc parent r n :
  node_at doc (r ++ parent) = Some n -> walks doc parent (r ++ parent) n.
Proof.
  revert r. induction n as [n IH] using node_tree_ind. intros r Hn i c k res.
  remember (drop i (childNodes n)) as cs eqn:Hcs.
  revert i c Hcs. induction cs as [|c' cs IHcs]; intros i c Hcs Hi Hres.
  { exfalso. apply (f_equal length) in Hcs. rewrite length_drop in Hcs.
    apply lookup_lt_Some in Hi. cbn in Hcs. lia. }
  rewrite (drop_S _ _ _ Hi) in Hcs. injection Hcs as -> Hcs.
  cbn [map list_sum foldr first_in] in *. rewrite size_eq.
  cbn [Nat.add find_loop]. rewrite decide_False by apply not_above.
  rewrite (node_at_cons _ _ _ _ Hn), Hi.
  change (foldr Nat.add 0 (map size cs)) with (forest_size cs) in *.
  destruct (is_children_div c) eqn:Ec; [by rewrite Hres|].
  assert (match first_children_from (S i) (r ++ parent) cs with
          | Some r => res = Some r
          | None => find_loop k doc parent (after doc parent (r ++ parent)) = Ret res
          end -> forall k', forest_size cs + k <= k' ->
          match nextSibling doc (i :: r ++ parent) with
          | Some s => find_loop k' doc parent (Some s)
          | None => find_loop k' doc parent (climb doc parent (i :: r ++ parent))
          end = Ret res) as Hrest.
  { intros Hr k' Hk. apply (walk_next _ _ _ n _ c (forest_size cs + k)); [done..| | |done].
    - intros d Hd. by apply (IHcs (S i) d).
    - intros Hd. apply lookup_ge_None in Hd. rewrite drop_ge in Hcs by done.
      subst cs. exact Hr. }
  destruct (is_div_with_children c) eqn:Ed; [|apply Hrest; [done|lia]].
  unfold is_div_with_children in Ed. apply andb_prop in Ed as [_ Ed].
  destruct (childNodes c) as [|d ds] eqn:Eds; [done|].
  assert (node_at doc (i :: r ++ parent) = Some c) as Hc by (by rewrite (node_at_cons _ _ _ _ Hn)).
  assert (firstChild doc (i :: r ++ parent) = Some (0 :: i :: r ++ parent)) as ->
    by (unfold firstChild; rewrite Hc; cbn; by rewrite Eds).
  rewrite Forall_lookup in IH. rewrite first_children_eq, Eds in Hres.
  pose proof (IH i c Hi (i :: r) Hc 0 d (forest_size cs + k) res) as Hw.
  rewrite Eds, drop_0 in Hw. rewrite <- Nat.add_assoc. apply Hw; [done|].
  change ((i :: r) ++ parent) with (i :: r ++ parent).
  destruct (first_children_from 0 (i :: r ++ parent) (d :: ds)); [done|].
  unfold after. rewrite decide_False by apply not_above. 
  specialize (Hrest Hres _ (le_n _)).
  by destruct (nextSibling doc (i :: r ++ parent)).
Qed.

Lemma forest_size_lookup cs i c : cs !! i = Some c -> size c <= forest_size cs.
Proof.
  revert i. induction cs as [|d cs IH]; intros [|i] H; cbn in *; try done.
  - injection H as ->. lia.
  - apply IH in H. change (foldr Nat.add 0 (map size cs)) with (forest_size cs). lia.
Qed.

Lemma size_node_at doc p n : node_at doc p = Some n -> size n <= size doc.
Proof.
  revert n. induction p as [|i p IH]; cbn; intros n H; [by injection H as ->|].
  destruct (node_at doc p) as [m|]; [|done]. specialize (IH m eq_refl).
  apply forest_size_lookup in H. rewrite size_eq in IH. lia.
Qed.

Lemma getElementById_Some doc id p :
  getElementById doc id = Some p -> exists n, node_at doc p = Some n /\ id_of n = id.
Proof.
  unfold getElementById. intros H.
  assert (In p (List.filter (with_id doc id) (preorder doc []))) as Hin
    by (apply head_Some in H as [l ->]; by left).
  apply filter_In in Hin as [_ Hp]. unfold with_id in Hp.
  destruct (node_at doc p) as [n|]; [|done]. exists n. split; [done|by apply String.eqb_eq in Hp].
Qed.

Lemma find_child_element doc id p n :
  getElementById doc id = Some p -> node_at doc p = Some n ->
  FindChildElement doc id = Ret (first_children n p).
Proof.
  intros Hp Hn. unfold FindChildElement. rewrite Hp, first_children_eq.
  pose proof (size_node_at _ _ _ Hn) as Hs. rewrite size_eq in Hs.
  unfold firstChild. rewrite Hn. cbn [mbind option_bind].
  destruct (childNodes n) as [|c cs] eqn:Ecs; [done|]. cbn [lookup list_lookup mbind option_bind].
  assert (walks doc p p n) as Hw by (by apply (walks_children doc p [])).
  apply (find_loop_le _ _ (forest_size (c :: cs) + 1)); [|lia].
  pose proof (Hw 0 c 1 (first_children_from 0 p (c :: cs))) as Hf. rewrite Ecs in Hf.
  apply Hf; [done|]. rewrite drop_0.
  destruct (first_children_from 0 p (c :: cs)); [done|].
  unfold after. rewrite decide_True by done. cbn. by rewrite decide_True.
Qed.

(** * Looking up elements by structure *)

Fixpoint find_id (id : string) (n : node) (p : path) : option path :=
  if String.eqb (id_of n) id then Some p
  else first_in (fun i c => find_id id c (i :: p)) 0 (childNodes n).

Lemma head_filter_app {A} (f : A -> bool) l k :
  head (List.filter f (l ++ k)) =
  match head (List.filter f l) with Some x => Some x | None => head (List.filter f k) end.
Proof. rewrite List.filter_app. by destruct (List.filter f l). Qed.

Lemma find_id_preorder doc id n p :
  node_at doc p = Some n ->
  head (List.filter (with_id doc id) (preorder n p)) = find_id id n p.
Proof.
  revert p. induction n as [n IH] using node_tree_ind. intros p Hn.
  rewrite preorder_eq. destruct n as [t a d h cs]. cbn [find_id childNodes List.filter].
  unfold with_id at 1. rewrite Hn.
  change (default "" (getAttribute "id" ?n)) with (id_of n).
  destruct (String.eqb _ id); [done|]. cbn [childNodes] in *.
  assert (forall i c, cs !! i = Some c -> node_at doc (i :: p) = Some c) as Hcs
    by (intros i c Hi; by rewrite (node_at_cons _ _ _ _ Hn)).
  clear Hn. assert (forall j c, cs !! j = Some c -> node_at doc (0 + j :: p) = Some c) as H0 by done.
  revert H0. generalize 0 as i. clear Hcs.
  induction IH as [|c cs Hc _ IHcs]; intros i Hi; [done|].
  cbn [forest_map first_in]. rewrite head_filter_app, Hc.
  2:{ specialize (Hi 0 c eq_refl). by rewrite Nat.add_0_r in Hi. }
  destruct (find_id id c (i :: p)); [done|]. apply IHcs.
  intros j e Hj. specialize (Hi (S j) e Hj). by rewrite Nat.add_succ_r in Hi.
Qed.

Lemma getElementById_find doc id : getElementById doc id = find_id id doc [].
Proof. by apply find_id_preorder. Qed.

(** Two documents that differ in [style.display] only. *)
Fixpoint erase (n : node) : node :=
  Elt (nodeName n) (attributes n) "" (innerHTML n) (map erase (childNodes n)).

Lemma find_id_erase id n p : find_id id (erase n) p = find_id id n p.
Proof.
  revert p. induction n as [[t a d h cs] IH] using node_tree_ind. intros p. cbn.
  change (id_of (Elt t a "" h (map erase cs))) with (id_of (Elt t a d h cs)).
  destruct (String.eqb _ id); [done|]. cbn in IH. generalize 0 as i.
  induction IH as [|c cs Hc _ IHcs]; intros i; cbn; [done|]. by rewrite Hc, IHcs.
Qed.

Lemma getElementById_erase doc doc' id :
  erase doc = erase doc' -> getElementById doc id = getElementById doc' id.
Proof.
  intros E. by rewrite !getElementById_find, <- (find_id_erase id doc), E, find_id_erase.
Qed.

Lemma erase_update f p doc :
  (forall n, erase (f n) = erase n) -> erase (update_at f p doc) = erase doc.
Proof.
  revert f. induction p as [|i p IH]; intros f Hf; cbn; [done|]. apply IH.
  intros [t a d h cs]. cbn. f_equal. apply list_eq. intros j.
  rewrite !list_lookup_fmap. destruct (decide (i = j)) as [->|Hij].
  - rewrite list_lookup_alter, decide_True by done. destruct (cs !! j); cbn; [by rewrite Hf|done].
  - by rewrite list_lookup_alter_ne.
Qed.

Lemma erase_set_display d p doc : erase (update_at (set_display d) p doc) = erase doc.
Proof. apply erase_update. by intros []. Qed.

Lemma size_erase n : size (erase n) = size n.
Proof.
  induction n as [[t a d h cs] IH] using node_tree_ind. cbn. f_equal. cbn in IH.
  induction IH as [|c cs Hc _ IHcs]; cbn; [done|]. by rewrite Hc, IHcs.
Qed.
