(* ===== verification/DocPageFacts.v ===== *)
(** A results page after it has loaded: which rows are shown, what the counter
    and the messages say, and where the navigation stops. *)

From S2P Require Import Prelude Text JsString Dom DocResults DocResultsFacts.

(** * The loop of [Search] over the rows of any document *)

(** A row whose name begins with the term. *)
Definition hit (search : string) (n : node) : bool :=
  is_result n && name_matches search (row_name n).

(** [style.display] of an element after the loop has passed it. *)
Definition shown (search : string) (n : node) : string :=
  if is_result n then (if name_matches search (row_name n) then "block" else "none")
  else display n.

Lemma row_name_set_display d n : row_name (set_display d n) = row_name n.
Proof. done. Qed.

Lemma node_at_set_display d p doc q n :
  node_at doc q = Some n -> is_Some (node_at doc p) ->
  exists n', node_at (update_at (set_display d) p doc) q = Some n' /\
    attributes n' = attributes n /\ nodeName n' = nodeName n /\
    display n' = if decide (q = p) then d else display n.
Proof.
  intros Hn Hp. pose proof (label_at_set_display d p doc q Hp) as H.
  unfold label_at in H. rewrite Hn in H.
  destruct (node_at (update_at (set_display d) p doc) q) as [n'|].
  - exists n'. split; [done|]. destruct n as [t a d0 h cs], n' as [t' a' d' h' cs'].
    case_decide; cbn in H; by injection H as -> -> -> _ _.
  - exfalso. by case_decide.
Qed.

Lemma search_rows_cons search p rest doc m n :
  node_at doc p = Some n ->
  search_rows search (p :: rest) doc m =
  search_rows search rest (if is_result n then update_at (set_display (shown search n)) p doc else doc)
              (if hit search n then m + 1 else m).
Proof.
  intros Hn. cbn. rewrite Hn. unfold hit, shown.
  destruct (is_result n); cbn; [|done]. by destruct (name_matches search (row_name n)).
Qed.

Lemma shown_attributes search n n' :
  attributes n' = attributes n -> is_result n' = is_result n /\ hit search n' = hit search n /\
  (is_result n = true -> shown search n' = shown search n).
Proof.
  intros Ha. unfold hit, shown, is_result, row_name, className, id_of, getAttribute. rewrite Ha.
  split_and!; [done..|]. by intros ->.
Qed.

(** The number of hits among some positions of a document. *)
Definition hits (search : string) (doc : node) (rows : list path) : Z :=
  Z.of_nat (length (List.filter (fun p => from_option (hit search) false (node_at doc p)) rows)).

Lemma search_rows_spec search rows doc m :
  Forall (fun p => is_Some (node_at doc p)) rows ->
  let '(doc', m') := search_rows search rows doc m in
  erase doc' = erase doc /\ m' = (m + hits search doc rows)%Z /\
  forall q n, node_at doc q = Some n ->
    exists n', node_at doc' q = Some n' /\ attributes n' = attributes n /\
      nodeName n' = nodeName n /\
      display n' = if bool_decide (q ∈ rows) then shown search n else display n.
Proof.
  revert doc m. induction rows as [|p rows IH]; intros doc m HF.
  { cbn. split_and!; [done|unfold hits; cbn; lia|]. intros q n Hn. exists n. by rewrite Hn. }
  apply Forall_cons in HF as [[n0 Hn0] HF]. rewrite (search_rows_cons _ _ _ _ _ _ Hn0).
  set (doc1 := if is_result n0 then _ else doc).
  assert (forall q n, node_at doc q = Some n -> exists n1, node_at doc1 q = Some n1 /\
            attributes n1 = attributes n /\ nodeName n1 = nodeName n /\
            display n1 = if decide (q = p) then shown search n else display n) as H1.
  { intros q n Hn. subst doc1. destruct (is_result n0) eqn:E.
    - destruct (node_at_set_display (shown search n0) p doc q n Hn) as (n1 & ? & ? & ? & Hd); [done|].
      exists n1. split_and!; [done..|]. rewrite Hd. case_decide as Hq; [|done].
      subst q. congruence.
    - exists n. split_and!; [done..|]. case_decide as Hq; [|done]. subst q.
      rewrite Hn in Hn0. injection Hn0 as ->. unfold shown. by rewrite E. }
  specialize (IH doc1 (if hit search n0 then m + 1 else m)%Z).
  destruct (search_rows search rows doc1 _) as [doc' m'] eqn:E2.
  destruct IH as (He & Hm & Hq).
  { apply (Forall_impl _ _ _ HF). intros q [n Hn]. destruct (H1 q n Hn) as (n1 & -> & _). done. }
  split_and!.
  - rewrite He. subst doc1. destruct (is_result n0); [apply erase_set_display|done].
  - rewrite Hm. unfold hits. cbn [List.filter]. rewrite Hn0. cbn [from_option].
    assert (List.filter (fun p => from_option (hit search) false (node_at doc1 p)) rows =
            List.filter (fun p => from_option (hit search) false (node_at doc p)) rows) as ->.
    { apply List.filter_ext_in. intros q Hin. apply list_elem_of_In in Hin.
      rewrite Forall_forall in HF. destruct (HF q Hin) as [n Hn].
      destruct (H1 q n Hn) as (n1 & -> & Ha & _). rewrite Hn. cbn.
      by apply shown_attributes. }
    destruct (hit search n0); cbn [length]; lia.
  - intros q n Hn. destruct (H1 q n Hn) as (n1 & Hn1 & Ha & Ht & Hd).
    destruct (Hq q n1 Hn1) as (n' & Hn' & Ha' & Ht' & Hd'). exists n'.
    split_and!; [done|congruence..|]. rewrite Hd'.
    destruct (shown_attributes search n n1 Ha) as (Hi & _ & Hs).
    assert (shown search n1 = shown search n) as ->.
    { destruct (is_result n) eqn:Ei; [by apply Hs|]. unfold shown in *. rewrite Hi, Ei in *.
      rewrite Hd. by case_decide. }
    rewrite Hd. rewrite (bool_decide_ext _ _ (elem_of_cons rows q p)).
    destruct (decide (q = p)) as [->|Hne].
    + rewrite (bool_decide_eq_true_2 (p = p \/ p ∈ rows)) by auto. by destruct (bool_decide _).
    + by rewrite (bool_decide_ext (q = p \/ q ∈ rows) (q ∈ rows)) by tauto.
Qed.

(** * The page the generator writes *)

Definition page_of (data : table) : node := results_body (imap result_row data).

Lemma createResults_page data : createResults data (results_body []) = Ret (page_of data).
Proof. reflexivity. Qed.

(** The positions of a row, of its link and of the messages. *)
Definition row_path (e : nat) : path := [e; 1; 0].
Definition item_path (e : nat) : path := [0; 0; e; 1; 0].

Lemma row_at data e : node_at (page_of data) (row_path e) = result_row e <$> data !! e.
Proof. cbn. apply list_lookup_imap. Qed.

Lemma first_in_spec (f : nat -> node -> option path) k r i cs :
  (forall j c, cs !! j = Some c -> f (i + j) c = if decide (i + j = k) then Some r else None) ->
  first_in f i cs = if decide (i <= k < i + length cs) then Some r else None.
Proof.
  revert i. induction cs as [|c cs IH]; intros i Hf; cbn.
  - by rewrite decide_False by lia.
  - pose proof (Hf 0 c eq_refl) as H0. rewrite Nat.add_0_r in H0. rewrite H0.
    destruct (decide (i = k)) as [->|Hk]; [by rewrite decide_True by lia|].
    rewrite (IH (S i)).
    + destruct (decide (S i <= k < S i + length cs));
        [by rewrite decide_True by lia|by rewrite decide_False by lia].
    + intros j d Hj. rewrite Nat.add_succ_comm. by apply (Hf (S j) d).
Qed.

Lemma first_in_none (f : nat -> node -> option path) i cs :
  (forall j c, cs !! j = Some c -> f (i + j) c = None) -> first_in f i cs = None.
Proof.
  revert i. induction cs as [|c cs IH]; intros i Hf; cbn; [done|].
  pose proof (Hf 0 c eq_refl) as H0. rewrite Nat.add_0_r in H0. rewrite H0.
  apply IH. intros j d Hj. rewrite Nat.add_succ_comm. by apply (Hf (S j) d).
Qed.

Lemma find_id_step id n p :
  find_id id n p = if String.eqb (id_of n) id then Some p
                   else first_in (fun i c => find_id id c (i :: p)) 0 (childNodes n).
Proof. by destruct n. Qed.

(** The element a row's link is, and the rest of the row. *)
Lemma row_children e d :
  exists srLink rest srEntry,
    childNodes (result_row e d) = [srEntry] /\ childNodes srEntry = srLink :: rest /\
    id_of srEntry = "" /\ is_result srEntry = false /\
    id_of srLink = "Item" +:+ num e /\ childNodes srLink = [] /\ nodeName srLink = "A" /\
    Forall (fun m => id_of m = "" /\ is_result m = false /\
      Forall (fun a => (exists c, id_of a = "Item" +:+ num e +:+ "_c" +:+ num c) /\
                       childNodes a = [] /\ nodeName a = "A") (childNodes m)) rest.
Proof.
  destruct d as [i nm rs]. unfold result_row. cbn [ent_results ent_id ent_name].
  assert (forall r n, id_of (set_target r n) = id_of n /\ childNodes (set_target r n) = childNodes n /\
                      nodeName (set_target r n) = nodeName n) as Ht.
  { intros r n. unfold set_target. case_match; [done|]. split_and!; [|done..].
    destruct n as [t a dd h cs]. unfold id_of, getAttribute. cbn. f_equal.
    induction a as [|[k v] a IH]; cbn; [done|]. destruct (String.eqb_spec k "target") as [->|Hk]; cbn.
    - done.
    - by rewrite IH. }
  assert (forall rs' : list result, Forall (fun a => (exists c, id_of a = "Item" +:+ num e +:+ "_c" +:+ num c) /\
            childNodes a = [] /\ nodeName a = "A") (imap (result_child e) rs')) as Hc.
  { intros rs'. apply Forall_lookup. intros c a Hc.
    rewrite list_lookup_imap in Hc. destruct (rs' !! c) as [r|]; [|done]. injection Hc as <-.
    unfold result_child. set (b := setAttribute "href" _ _). split_and!.
    - exists c. change (id_of (set_innerHTML ?x ?y)) with (id_of y). by rewrite (proj1 (Ht r b)).
    - cbn. by rewrite (proj1 (proj2 (Ht r b))).
    - cbn. by rewrite (proj2 (proj2 (Ht r b))). }
  destruct rs as [|r [|r2 rs]].
  - do 3 eexists. split_and!; try reflexivity. repeat constructor.
  - set (l := setAttribute "href" _ _). do 3 eexists. split_and!; try reflexivity.
    + by rewrite (proj1 (Ht r l)).
    + by rewrite (proj1 (proj2 (Ht r l))).
    + by rewrite (proj2 (proj2 (Ht r l))).
    + repeat constructor.
  - do 3 eexists. split_and!; try reflexivity. constructor; [|constructor].
    split_and!; [reflexivity..|apply Hc].
Qed.

Lemma find_id_row id e d p :
  id <> "" -> (forall x, "SR_" +:+ x <> id) ->
  (forall c, "Item" +:+ num e +:+ "_c" +:+ num c <> id) ->
  find_id id (result_row e d) p =
  if String.eqb ("Item" +:+ num e) id then Some (0 :: 0 :: p) else None.
Proof.
  intros H0 Hsr Hc.
  destruct (row_children e d) as (l & rest & en & Er & Ee & Ien & _ & Il & Cl & _ & Hrest).
  rewrite find_id_step. change (id_of (result_row e d)) with ("SR_" +:+ ent_id d).
  destruct (String.eqb_spec ("SR_" +:+ ent_id d) id) as [E|_]; [by apply Hsr in E|].
  rewrite Er. cbn [first_in]. rewrite find_id_step, Ien.
  destruct (String.eqb_spec "" id) as [E|_]; [done|]. rewrite Ee. cbn [first_in].
  rewrite find_id_step, Il, Cl. destruct (String.eqb ("Item" +:+ num e) id); [done|].
  cbn [first_in]. rewrite first_in_none; [done|]. intros j m Hm.
  rewrite Forall_lookup in Hrest. destruct (Hrest j m Hm) as (Im & _ & Ha).
  rewrite find_id_step, Im. destruct (String.eqb_spec "" id) as [E|_]; [done|].
  apply first_in_none. intros i a Hi. rewrite Forall_lookup in Ha.
  destruct (Ha i a Hi) as ([c Ia] & Ca & _). rewrite find_id_step, Ia, Ca.
  destruct (String.eqb_spec ("Item" +:+ num e +:+ "_c" +:+ num c) id) as [E|_]; [by apply Hc in E|done].
Qed.

Lemma all_digits_app s t : all_digits (s +:+ t) = all_digits s && all_digits t.
Proof. induction s as [|c s IH]; cbn; [done|]. rewrite IH. by destruct (isdigit c). Qed.

Lemma append_inj_l s t u : s +:+ t = s +:+ u -> t = u.
Proof. induction s as [|c s IH]; cbn; [done|]. intros H. injection H as H. by apply IH. Qed.

Lemma to_string_inj i j : (0 <= i)%Z -> (0 <= j)%Z -> to_string i = to_string j -> i = j.
Proof.
  intros Hi Hj E. destruct (to_string_digits i Hi) as [_ <-].
  destruct (to_string_digits j Hj) as [_ <-]. by rewrite E.
Qed.

Lemma to_string_minus i : (i < 0)%Z -> exists r, to_string i = String "-" r.
Proof. intros H. rewrite to_string_neg by done. eauto. Qed.

Lemma child_id_not_item e c i : "Item" +:+ num e +:+ "_c" +:+ num c <> item_name i.
Proof.
  intros E. unfold item_name in E. apply append_inj_l in E. unfold num in E.
  destruct (decide (0 <= i)%Z) as [Hi|Hi].
  - pose proof (proj1 (to_string_digits i Hi)) as H. rewrite <- E, !all_digits_app in H.
    apply andb_prop in H as [_ H]. done.
  - destruct (to_string_minus i) as [r Hr]; [lia|]. rewrite Hr in E.
    pose proof (proj1 (to_string_digits (Z.of_nat e) ltac:(lia))) as H.
    pose proof (proj2 (to_string_digits (Z.of_nat e) ltac:(lia))) as Hv.
    destruct (to_string (Z.of_nat e)) as [|d s]; cbn in E; [done|].
    by injection E as -> E.
Qed.

Lemma item_name_eqb e i :
  String.eqb ("Item" +:+ num e) (item_name i) = bool_decide (Z.of_nat e = i).
Proof.
  unfold item_name, num. case_bool_decide as H; [rewrite H; apply String.eqb_refl|].
  apply String.eqb_neq. intros E. apply append_inj_l in E.
  destruct (decide (0 <= i)%Z) as [Hi|Hi].
  - apply to_string_inj in E; lia.
  - destruct (to_string_minus i) as [r Hr]; [lia|]. rewrite Hr in E.
    pose proof (proj1 (to_string_digits (Z.of_nat e) ltac:(lia))) as Hd. by rewrite E in Hd.
Qed.

(** The rows hold none of the page's own ids, and the links in order. *)
Lemma rows_no_id id data p :
  id <> "" -> (forall x, "SR_" +:+ x <> id) -> (forall x, "Item" +:+ x <> id) ->
  first_in (fun i c => find_id id c (i :: p)) 0 (imap result_row data) = None.
Proof.
  intros H0 H1 H2. apply first_in_none. intros j c Hj. rewrite list_lookup_imap in Hj.
  destruct (data !! j) as [d|]; [|done]. injection Hj as <-.
  rewrite find_id_row by auto.
  destruct (String.eqb_spec ("Item" +:+ num j) id) as [E|_]; [by apply H2 in E|done].
Qed.

Lemma page_find id data :
  find_id id (page_of data) [] =
  if String.eqb "" id then Some [] else if String.eqb "SRIndex" id then Some [0]
  else if String.eqb "Loading" id then Some [0; 0]
  else if String.eqb "SRResults" id then Some [1; 0]
  else match first_in (fun i c => find_id id c (i :: [1; 0])) 0 (imap result_row data) with
       | Some r => Some r
       | None => if String.eqb "Searching" id then Some [3; 0]
                 else if String.eqb "NoMatches" id then Some [4; 0] else None
       end.
Proof.
  unfold page_of. generalize (imap result_row data) as rows. intros rows.
  repeat (rewrite find_id_step; cbn [results_body appendChild set_childNodes setAttribute childNodes createElement app first_in status_div set_innerHTML]).
  change (id_of (results_body rows)) with EmptyString.
  change (id_of (set_childNodes _ (setAttribute "id" "SRIndex" _))) with "SRIndex".
  change (id_of (set_childNodes _ (setAttribute "id" "SRResults" _))) with "SRResults".
  change (id_of (status_div ?i _)) with i. change (id_of (createElement _)) with EmptyString.
  repeat (case_match; simplify_eq; try done).
Qed.

Lemma page_Loading data : getElementById (page_of data) "Loading" = Some [0; 0].
Proof. by rewrite getElementById_find, page_find. Qed.
Lemma page_Searching data : getElementById (page_of data) "Searching" = Some [3; 0].
Proof. rewrite getElementById_find, page_find. cbn. by rewrite rows_no_id. Qed.
Lemma page_NoMatches data : getElementById (page_of data) "NoMatches" = Some [4; 0].
Proof. rewrite getElementById_find, page_find. cbn. by rewrite rows_no_id. Qed.

(** The links are found by their number, and there are no others. *)
Lemma page_Item data i :
  getElementById (page_of data) (item_name i) =
  if decide (0 <= i < Z.of_nat (length data))%Z then Some (item_path (Z.to_nat i)) else None.
Proof.
  rewrite getElementById_find, page_find.
  change (String.eqb "" (item_name i)) with false.
  change (String.eqb "SRIndex" (item_name i)) with false.
  change (String.eqb "Loading" (item_name i)) with false.
  change (String.eqb "SRResults" (item_name i)) with false.
  change (String.eqb "Searching" (item_name i)) with false.
  change (String.eqb "NoMatches" (item_name i)) with false. cbv iota.
  assert (forall j c, imap result_row data !! j = Some c ->
            find_id (item_name i) c [j; 1; 0] =
            if bool_decide (Z.of_nat j = i) then Some (item_path j) else None) as Hrow.
  { intros j c Hj. rewrite list_lookup_imap in Hj. destruct (data !! j) as [d|]; [|done].
    injection Hj as <-.
    rewrite find_id_row; [|by unfold item_name|by unfold item_name|intros c; apply child_id_not_item].
    rewrite item_name_eqb. by case_bool_decide. }
  case_decide as Hi.
  - erewrite (first_in_spec _ (Z.to_nat i) (item_path (Z.to_nat i))).
    + rewrite length_imap. by rewrite decide_True by lia.
    + intros j c Hj. rewrite Nat.add_0_l. rewrite (Hrow j c Hj).
      case_bool_decide; case_decide; try lia; [by subst j|done].
  - rewrite first_in_none; [done|]. intros j c Hj. rewrite Nat.add_0_l. rewrite (Hrow j c Hj).
    rewrite bool_decide_eq_false_2; [done|]. apply lookup_lt_Some in Hj.
    rewrite length_imap in Hj. lia.
Qed.

(** * Counting the rows *)

Fixpoint nodes (n : node) : list node := n :: flat_map nodes (childNodes n).

Lemma nodes_eq n : nodes n = n :: flat_map nodes (childNodes n).
Proof. by destruct n. Qed.

Lemma map_preorder doc n p :
  node_at doc p = Some n -> map (node_at doc) (preorder n p) = map Some (nodes n).
Proof.
  revert p. induction n as [n IH] using node_tree_ind. intros p Hn.
  rewrite preorder_eq, nodes_eq. cbn [map]. rewrite Hn. f_equal.
  assert (forall j c, childNodes n !! j = Some c -> node_at doc (0 + j :: p) = Some c) as Hi
    by (intros j c Hj; by rewrite Nat.add_0_l, (node_at_cons _ _ _ _ Hn)).
  revert Hi. generalize 0 as i. induction IH as [|c cs Hc _ IHcs]; intros i Hi; [done|].
  cbn [forest_map flat_map]. rewrite !map_app, Hc, IHcs; [done| |].
  - intros j d Hj. specialize (Hi (S j) d Hj). by rewrite Nat.add_succ_r in Hi.
  - specialize (Hi 0 c eq_refl). by rewrite Nat.add_0_r in Hi.
Qed.

Lemma filter_filter {A} (f g : A -> bool) l :
  List.filter f (List.filter g l) = List.filter (fun x => g x && f x) l.
Proof. induction l as [|x l IH]; cbn; [done|]. destruct (g x); cbn; [|done]. by rewrite IH. Qed.

Lemma length_filter_map {A B} (h : A -> B) (f : B -> bool) l :
  length (List.filter (fun x => f (h x)) l) = length (List.filter f (map h l)).
Proof. induction l as [|x l IH]; cbn; [done|]. destruct (f (h x)); cbn; by rewrite IH. Qed.

Definition div_hit (search : string) (n : node) : bool :=
  String.eqb (nodeName n) "DIV" && hit search n.

Lemma hits_nodes search doc :
  hits search doc (getElementsByTagName doc "DIV") =
  Z.of_nat (length (List.filter (div_hit search) (nodes doc))).
Proof.
  unfold hits, getElementsByTagName. rewrite filter_filter. f_equal.
  pose proof (map_preorder doc doc [] eq_refl) as Hm.
  pose proof (length_filter_map Some (from_option (div_hit search) false) (nodes doc)) as H1.
  cbn [from_option] in H1. transitivity
    (length (List.filter (fun n => div_hit search n) (nodes doc))); [|done].
  rewrite H1, <- Hm, <- length_filter_map. f_equal.
  apply List.filter_ext. intros p. unfold with_tag, div_hit. by destruct (node_at doc p).
Qed.

Lemma nodes_erase n : nodes (erase n) = map erase (nodes n).
Proof.
  induction n as [[t a d h cs] IH] using node_tree_ind. cbn. f_equal. cbn in IH.
  induction IH as [|c cs Hc _ IHcs]; cbn; [done|]. by rewrite map_app, Hc, IHcs.
Qed.

Lemma div_hit_erase search n : div_hit search (erase n) = div_hit search n.
Proof. by destruct n. Qed.

Lemma hits_erase search doc doc' :
  erase doc = erase doc' ->
  hits search doc (getElementsByTagName doc "DIV") = hits search doc' (getElementsByTagName doc' "DIV").
Proof.
  intros E. rewrite !hits_nodes. f_equal.
  assert (forall n, length (List.filter (div_hit search) (nodes n)) =
                    length (List.filter (div_hit search) (nodes (erase n)))) as H.
  { intros n. rewrite nodes_erase, <- length_filter_map. f_equal. apply List.filter_ext.
    intros m. by rewrite div_hit_erase. }
  by rewrite (H doc), (H doc'), E.
Qed.

(** A row matches when its id in the table begins with the term. *)
Definition entry_matches (search : string) (d : entry) : bool :=
  name_matches search (toLowerCase (ent_id d)).

Lemma row_name_row e d : row_name (result_row e d) = toLowerCase (ent_id d).
Proof. reflexivity. Qed.

Lemma row_hits search e d :
  List.filter (div_hit search) (nodes (result_row e d)) =
  if entry_matches search d then [result_row e d] else [].
Proof.
  destruct (row_children e d) as (l & rest & en & Er & Ee & _ & Ren & _ & Cl & Tl & Hrest).
  rewrite nodes_eq, Er. cbn [flat_map]. rewrite app_nil_r, nodes_eq, Ee. cbn [flat_map].
  rewrite (nodes_eq l), Cl. cbn [flat_map app].
  assert (List.filter (div_hit search) (flat_map nodes rest) = []) as Hr.
  { clear -Hrest. induction Hrest as [|m ms (_ & Rm & Hm) _ IH]; cbn; [done|].
    rewrite List.filter_app, IH, app_nil_r, nodes_eq. cbn [List.filter].
    unfold div_hit at 1, hit at 1. rewrite Rm, andb_false_r. clear IH.
    induction Hm as [|a al (_ & Ca & Ta) _ IHa]; cbn; [done|].
    rewrite nodes_eq, Ca. cbn. unfold div_hit at 1. by rewrite Ta. }
  assert (div_hit search en = false) as He by (unfold div_hit, hit; by rewrite Ren, andb_false_r).
  assert (div_hit search l = false) as Hl by (unfold div_hit; by rewrite Tl).
  cbn [List.filter]. by rewrite Hr, He, Hl.
Qed.

Lemma page_hits search data :
  hits search (page_of data) (getElementsByTagName (page_of data) "DIV") =
  Z.of_nat (length (List.filter (entry_matches search) data)).
Proof.
  rewrite hits_nodes. f_equal. unfold page_of.
  transitivity (length (List.filter (div_hit search) (flat_map nodes (imap result_row data)))).
  - generalize (imap result_row data) as rows. intros rows.
    assert (forall n, is_result n = false -> div_hit search n = false) as Hd
      by (intros n Hn; unfold div_hit, hit; by rewrite Hn, andb_false_r).
    cbn. rewrite !Hd by reflexivity. rewrite !List.filter_app. cbn.
    rewrite !Hd by reflexivity. cbn. by rewrite !app_nil_r.
  - set (r := result_row). assert (forall e d, List.filter (div_hit search) (nodes (r e d)) =
      if entry_matches search d then [r e d] else []) as Hr by apply row_hits.
    clearbody r. revert r Hr. induction data as [|d data IH]; intros r Hr; cbn; [done|].
    rewrite List.filter_app, length_app, Hr, (IH (r ∘ S)) by (intros; apply Hr).
    by destruct (entry_matches search d).
Qed.

(** * [Search] on a results page *)

(** The page's document is the generated one, up to [style.display]. *)
Definition page_for (data : table) (doc : node) : Prop := erase doc = erase (page_of data).

Lemma node_at_erase doc p : node_at (erase doc) p = erase <$> node_at doc p.
Proof.
  induction p as [|i p IH]; cbn; [done|]. rewrite IH.
  destruct (node_at doc p) as [[t a d h cs]|]; [|done]. cbn. by rewrite list_lookup_fmap.
Qed.

Lemma page_for_at data doc p n :
  page_for data doc -> node_at (page_of data) p = Some n ->
  exists n', node_at doc p = Some n' /\ attributes n' = attributes n /\ nodeName n' = nodeName n.
Proof.
  intros E Hn. pose proof (node_at_erase doc p) as H. rewrite E, node_at_erase, Hn in H.
  destruct (node_at doc p) as [n'|]; [|done]. exists n'. cbn in H.
  destruct n as [t a d h cs], n' as [t' a' d' h' cs']. by injection H as -> -> _ _.
Qed.

Lemma page_for_display data d p doc : page_for data doc -> page_for data (update_at (set_display d) p doc).
Proof. intros E. unfold page_for. by rewrite erase_set_display. Qed.

Lemma page_for_get data doc id : page_for data doc -> getElementById doc id = getElementById (page_of data) id.
Proof. intros E. by apply getElementById_erase. Qed.

Lemma display_at_update d p doc q :
  is_Some (node_at doc q) -> is_Some (node_at doc p) ->
  display_at (update_at (set_display d) p doc) q = if decide (q = p) then d else display_at doc q.
Proof.
  intros [n Hn] Hp. destruct (node_at_set_display d p doc q n Hn Hp) as (n' & Hn' & _ & _ & Hd).
  unfold display_at. by rewrite Hn', Hn.
Qed.

(** A message of the page is set, and nothing else. *)
Lemma set_message data doc id p d n :
  page_for data doc -> getElementById (page_of data) id = Some p -> node_at (page_of data) p = Some n ->
  exists doc', set_display_of id d doc = Ret doc' /\ page_for data doc' /\
    forall q, is_Some (node_at doc q) -> display_at doc' q = if decide (q = p) then d else display_at doc q.
Proof.
  intros E Hp Hn. exists (update_at (set_display d) p doc). unfold set_display_of.
  rewrite (page_for_get data) by done. rewrite Hp. split_and!; [done|by apply page_for_display|].
  intros q Hq. apply display_at_update; [done|].
  destruct (page_for_at data doc p n E Hn) as (n' & -> & _). done.
Qed.

Lemma page_for_is_Some data doc p :
  page_for data doc -> is_Some (node_at (page_of data) p) -> is_Some (node_at doc p).
Proof. intros E [n Hn]. destruct (page_for_at data doc p n E Hn) as (n' & -> & _). done. Qed.

Lemma in_divs doc p n :
  node_at doc p = Some n -> nodeName n = "DIV" -> p ∈ getElementsByTagName doc "DIV".
Proof.
  intros Hn Ht. apply list_elem_of_In, filter_In. split.
  - apply list_elem_of_In, elem_of_preorder. by rewrite Hn.
  - unfold with_tag. by rewrite Hn, Ht.
Qed.

Lemma divs_exist doc : Forall (fun p => is_Some (node_at doc p)) (getElementsByTagName doc "DIV").
Proof.
  apply Forall_forall. intros p Hp. apply list_elem_of_In, filter_In in Hp as [Hp _].
  by apply elem_of_preorder, list_elem_of_In.
Qed.

Definition shown_as (b : bool) : string := if b then "block" else "none".

(** What [Search] leaves on a results page. *)
Definition searched (data : table) (t : string) (w : results_page) : Prop :=
  page_for data (document w) /\
  lastMatchCount w = Z.of_nat (length (List.filter (entry_matches t) data)) /\
  (forall e d, data !! e = Some d ->
     display_at (document w) (row_path e) = shown_as (entry_matches t d)) /\
  display_at (document w) [4; 0] = shown_as (lastMatchCount w =? 0)%Z /\
  display_at (document w) [3; 0] = "none".

Lemma search_page data s w :
  page_for data (document w) ->
  exists w', Search s w = (Ret true, w') /\ searched data (normalise (search_term s w)) w' /\
    lastKey w' = lastKey w /\ repeatOn w' = repeatOn w /\ location_search w' = location_search w.
Proof.
  intros E. unfold Search. set (t := normalise (search_term s w)).
  pose proof (search_rows_spec t _ (document w) 0 (divs_exist (document w))) as H.
  destruct (search_rows t (getElementsByTagName (document w) "DIV") (document w) 0) as [doc1 m].
  destruct H as (He & Hm & Hq). rewrite Z.add_0_l in Hm.
  rewrite (hits_erase t (document w) (page_of data) E), page_hits in Hm.
  assert (page_for data doc1) as E1 by (unfold page_for in *; congruence).
  destruct (set_message data doc1 "Searching" [3; 0] "none" (status_div "Searching" "Searching..."))
    as (doc2 & -> & E2 & D2); [done|apply page_Searching|done|].
  destruct (set_message data doc2 "NoMatches" [4; 0] (if (m =? 0)%Z then "block" else "none")
              (status_div "NoMatches" "No Matches"))
    as (doc3 & -> & E3 & D3); [done|apply page_NoMatches|done|].
  eexists. split; [reflexivity|]. split; [|done]. cbn [document lastMatchCount].
  assert (forall p n, node_at (page_of data) p = Some n ->
            is_Some (node_at doc1 p) /\ is_Some (node_at doc2 p)) as Hex.
  { intros p n Hn. split; eapply page_for_is_Some; eauto. }
  split_and!; [done|done| | |].
  - intros e d Hd. assert (node_at (page_of data) (row_path e) = Some (result_row e d)) as Hr
      by (by rewrite row_at, Hd).
    destruct (Hex _ _ Hr). rewrite D3, decide_False, D2, decide_False by done.
    destruct (page_for_at data (document w) _ _ E Hr) as (n & Hn & Ha & Ht).
    destruct (Hq _ n Hn) as (n' & Hn' & _ & _ & Hd').
    unfold display_at. rewrite Hn'. cbn [from_option]. rewrite Hd', bool_decide_eq_true_2.
    + unfold shown, shown_as, entry_matches, row_name, is_result, className, id_of, getAttribute.
      by rewrite Ha.
    + apply (in_divs _ _ n); [done|by rewrite Ht].
  - destruct (Hex [4; 0] (status_div "NoMatches" "No Matches")) as [_ H2]; [done|].
    rewrite D3 by done. by rewrite decide_True.
  - destruct (Hex [3; 0] (status_div "Searching" "Searching...")) as [H1 H2]; [done|].
    rewrite D3, decide_False, D2 by done. by rewrite decide_True.
Qed.

(** Loading a page searches it for the query of its URL. *)
Lemma load_page data query :
  exists w, load_results data query = Ret w /\
    searched data (normalise (unescape (s_drop 1 query))) w /\
    lastKey w = 0%Z /\ repeatOn w = false.
Proof.
  unfold load_results. rewrite createResults_page. cbn [obind].
  destruct (set_message data (page_of data) "Loading" [0; 0] "none" (status_div "Loading" "Loading..."))
    as (doc1 & -> & E1 & _); [done|apply page_Loading|done|]. cbn [obind].
  destruct (set_message data doc1 "NoMatches" [4; 0] "none" (status_div "NoMatches" "No Matches"))
    as (doc2 & -> & E2 & _); [done|apply page_NoMatches|done|]. cbn [obind].
  destruct (search_page data None (SearchResults doc2 query) E2) as (w & -> & Hs & Hk & Hr & _).
  by exists w.
Qed.

(** * Navigation *)

(** The links [NavNext] and [NavPrev] stop at are those of the shown rows. *)
Definition visible_row (doc : node) (e : nat) : bool := String.eqb (display_at doc (row_path e)) "block".

Lemma nav_step data doc step fuel i :
  page_for data doc ->
  nav_loop (S fuel) step doc i =
  if decide (0 <= i < Z.of_nat (length data))%Z then
    if visible_row doc (Z.to_nat i) then Ret (Some (item_path (Z.to_nat i)))
    else nav_loop fuel step doc (i + step)
  else Ret None.
Proof. intros E. cbn [nav_loop]. rewrite (page_for_get data), page_Item by done. by case_decide. Qed.

Lemma page_size data doc : page_for data doc -> length data <= size doc.
Proof.
  intros E. rewrite <- (size_erase doc), E, size_erase.
  assert (exists n, node_at (page_of data) [1; 0] = Some n /\ childNodes n = imap result_row data)
    as (n & Hn & Hc) by (eexists; split; reflexivity).
  pose proof (size_node_at _ _ _ Hn) as Hs. rewrite size_eq, Hc in Hs.
  assert (length (imap result_row data) <= forest_size (imap result_row data)) as Hl.
  { clear. induction (imap result_row data) as [|c cs IH]; cbn; [lia|]. rewrite size_eq.
    change (foldr Nat.add 0 (map size cs)) with (forest_size cs). lia. }
  rewrite length_imap in Hl. lia.
Qed.

(** The first of [n] numbers from [i] up, and from [i] down, with a property. *)
Fixpoint first_up (f : nat -> bool) (i n : nat) : option nat :=
  match n with O => None | S n => if f i then Some i else first_up f (S i) n end.
Fixpoint first_down (f : nat -> bool) (n : nat) : option nat :=
  match n with O => None | S i => if f i then Some i else first_down f i end.

Lemma first_up_Some f i n j :
  first_up f i n = Some j <-> i <= j < i + n /\ f j = true /\ forall k, i <= k < j -> f k = false.
Proof.
  revert i. induction n as [|n IH]; intros i; cbn; [split; [done|lia]|].
  destruct (f i) eqn:E.
  - split.
    + intros H. injection H as <-. split_and!; [lia..|done|lia].
    + intros (Hr & Hj & Hk). f_equal. destruct (decide (i = j)); [done|].
      rewrite Hk in E by lia. done.
  - rewrite IH. split.
    + intros (? & ? & Hk). split_and!; [lia..|done|]. intros k Hk'.
      destruct (decide (k = i)) as [->|]; [done|]. apply Hk. lia.
    + intros (? & Hj & Hk). assert (i <> j) by congruence.
      split_and!; [lia..|done|]. intros k Hk'. apply Hk. lia.
Qed.

Lemma NavNext_page data doc i :
  page_for data doc ->
  NavNext doc (Z.of_nat i) = Ret (item_path <$> first_up (visible_row doc) i (length data - i)).
Proof.
  intros E. unfold NavNext. pose proof (page_size data doc E) as Hs.
  assert (forall n fuel i, n = length data - i -> n < fuel ->
            nav_loop fuel 1 doc (Z.of_nat i) = Ret (item_path <$> first_up (visible_row doc) i n)) as H.
  { clear Hs i. intros n. induction n as [|n IH]; intros [|fuel] i Hn Hf; try lia;
      rewrite (nav_step data) by done.
    - by rewrite decide_False by lia.
    - rewrite decide_True, Nat2Z.id by lia. cbn [first_up].
      destruct (visible_row doc i); [done|].
      replace (Z.of_nat i + 1)%Z with (Z.of_nat (S i)) by lia. apply IH; lia. }
  apply H; [done|lia].
Qed.

Lemma NavPrev_page data doc i :
  page_for data doc -> i <= length data ->
  NavPrev doc (Z.of_nat i - 1) = Ret (item_path <$> first_down (visible_row doc) i).
Proof.
  intros E Hi. unfold NavPrev. pose proof (page_size data doc E) as Hs.
  assert (forall fuel, i < fuel ->
    nav_loop fuel (-1) doc (Z.of_nat i - 1) = Ret (item_path <$> first_down (visible_row doc) i)) as H.
  { clear Hs. induction i as [|i IH]; intros [|fuel] Hf; try lia; rewrite (nav_step data) by done.
    - by rewrite decide_False by lia.
    - rewrite decide_True by lia. replace (Z.of_nat (S i) - 1)%Z with (Z.of_nat i) by lia.
      rewrite Nat2Z.id. cbn [first_down]. destruct (visible_row doc i); [done|].
      replace (Z.of_nat i + -1)%Z with (Z.of_nat i - 1)%Z by lia. apply IH; lia. }
  apply H. lia.
Qed.
