(* ===== verification/DocMenu.v ===== *)
(** The navigation menu of the documentation: [menudata] and [makeTree] of
    [menu.js], which writes the menu as nested lists of links. *)

From S2P Require Import Prelude Text JsString DocResults.

(** An entry of [menudata]; [children] is absent for a leaf. *)
Inductive menu : Type := Menu (text url : string) (children : option (list menu)).
(** [menudata] itself: only its [children] are read. *)
Definition menudata : Type := option (list menu).

Definition text_of (m : menu) : string := let 'Menu t _ _ := m in t.
Definition url_of (m : menu) : string := let 'Menu _ u _ := m in u.
Definition children_of (m : menu) : menudata := let 'Menu _ _ c := m in c.

Definition link (relPath : string) (m : menu) : string :=
  "<a href=" +:+ quote +:+ relPath +:+ url_of m +:+ quote +:+ ">" +:+ text_of m +:+ "</a>".

Definition join (l : list string) : string := foldr String.append EmptyString l.

(** One turn of the loop of [makeTree], with the recursive call. *)
Fixpoint menu_item (relPath : string) (m : menu) : string :=
  let 'Menu t u children := m in
  "<li>" +:+ link relPath (Menu t u children) +:+
  match children with
  | Some cs => "<ul>" +:+ join (map (menu_item relPath) cs) +:+ "</ul>"
  | None => EmptyString
  end +:+ "</li>".

Definition makeTree (data : menudata) (relPath : string) : string :=
  match data with
  | Some cs => "<ul>" +:+ join (map (menu_item relPath) cs) +:+ "</ul>"
  | None => EmptyString
  end.

(** * Facts *)

Lemma menu_item_eq relPath m :
  menu_item relPath m = "<li>" +:+ link relPath m +:+ makeTree (children_of m) relPath +:+ "</li>".
Proof. by destruct m as [t u [cs|]]. Qed.

(** Below a menu: its entries, theirs, and so on. *)
Inductive below : menu -> menudata -> Prop :=
| below_here m cs : In m cs -> below m (Some cs)
| below_deeper m m' cs : In m' cs -> below m (children_of m') -> below m (Some cs).

Definition occurs (s t : string) : Prop := exists a b, t = a +:+ s +:+ b.

Lemma occurs_within s t a b : occurs s t -> occurs s (a +:+ t +:+ b).
Proof.
  intros (x & y & ->). exists (a +:+ x), (y +:+ b).
  by rewrite !s_app_assoc.
Qed.

Lemma occurs_join s t l : In t l -> occurs s t -> occurs s (join l).
Proof.
  induction l as [|u l IH]; [done|]. intros [->|H] Hs; cbn.
  - by apply (occurs_within s t "" (join l)).
  - destruct (IH H Hs) as (x & y & E). exists (u +:+ x), y. unfold join in E. 
    rewrite E. by rewrite !s_app_assoc.
Qed.

(** Every entry of the menu, at any depth, is a link of the markup, to its URL
    relative to the page. *)
Lemma menu_links relPath m data : below m data -> occurs (link relPath m) (makeTree data relPath).
Proof.
  assert (forall m' cs, In m' cs -> occurs (link relPath m) (menu_item relPath m') ->
            occurs (link relPath m) (makeTree (Some cs) relPath)) as Hin.
  { intros m' cs Hm Ho. apply occurs_within, (occurs_join _ (menu_item relPath m')); [|done].
    by apply in_map. }
  induction 1 as [m cs Hm|m m' cs Hm _ IH].
  - apply (Hin m cs Hm). rewrite menu_item_eq. by exists "<li>", (makeTree (children_of m) relPath +:+ "</li>").
  - apply (Hin m' cs Hm). rewrite menu_item_eq.
    pose proof (occurs_within _ _ ("<li>" +:+ link relPath m') "</li>" (IH Hin)) as Ho.
    by rewrite s_app_assoc in Ho.
Qed.
