(* ===== verification/DocMenuInit.v ===== *)
(** [initMenu] of menu.js: the menu and the search box are put into the page.

    The page is a document of [Dom]; how the browser reads markup ([parse]) and the
    menu's plugin ([smartmenus], third-party code) are parameters.  The rest of
    jQuery is its documented behaviour: an operation on the elements a selector
    matches, of which an id has at most one, does nothing when there is none. *)

From S2P Require Import Prelude Text JsString Dom DocResults DocMenu.

(** [name="value"] *)
Definition attr (name value : string) : string := " " +:+ name +:+ "=" +:+ quote +:+ value +:+ quote.
Definition tag (name attributes : string) : string := "<" +:+ name +:+ attributes +:+ ">".

(** ** The markup of the search box *)

Definition focus_attrs : string :=
  attr "onfocus" "searchBox.OnSearchFieldFocus(true)" +:+ attr "onblur" "searchBox.OnSearchFieldFocus(false)".
Definition box_start : string :=
  tag "li" (attr "style" "float:right") +:+ tag "div" (attr "id" "MSearchBox" +:+ attr "class" "MSearchBoxInactive").

(** With a server: a form. *)
Definition server_box (relPath searchPage search : string) : string :=
  box_start +:+ tag "div" (attr "class" "left") +:+
  tag "form" (attr "id" "FSearchBox" +:+ attr "action" searchPage +:+ attr "method" "get") +:+
  tag "img" (attr "id" "MSearchSelect" +:+ attr "src" (relPath +:+ "search/mag.png") +:+ attr "alt" "" +:+ "/") +:+
  tag "input" (attr "type" "text" +:+ attr "id" "MSearchField" +:+ attr "name" "query" +:+ attr "value" search +:+
    attr "size" "20" +:+ attr "accesskey" "S" +:+ focus_attrs) +:+
  "</form></div>" +:+ tag "div" (attr "class" "right") +:+ "</div></div></li>".

(** Without: the elements the panel works on. *)
Definition client_box (relPath search : string) : string :=
  box_start +:+ tag "span" (attr "class" "left") +:+
  tag "img" (attr "id" "MSearchSelect" +:+ attr "src" (relPath +:+ "search/mag_sel.png") +:+
    attr "onmouseover" "return searchBox.OnSearchSelectShow()" +:+
    attr "onmouseout" "return searchBox.OnSearchSelectHide()" +:+ attr "alt" "" +:+ "/") +:+
  tag "input" (attr "type" "text" +:+ attr "id" "MSearchField" +:+ attr "value" search +:+ attr "accesskey" "S" +:+
    focus_attrs +:+ attr "onkeyup" "searchBox.OnSearchFieldChange(event)" +:+ "/") +:+
  "</span>" +:+ tag "span" (attr "class" "right") +:+
  tag "a" (attr "id" "MSearchClose" +:+ attr "href" "javascript:searchBox.CloseResultsWindow()") +:+
  tag "img" (attr "id" "MSearchCloseImg" +:+ attr "border" "0" +:+ attr "src" (relPath +:+ "search/close.png") +:+
    attr "alt" "" +:+ "/") +:+
  "</a></span></div></li>".

(** ** jQuery on the document *)

(** The class names of an attribute, and [addClass] of some *)
Fixpoint words_from (word : string) (s : string) : list string :=
  let put l := if String.eqb word "" then l else word :: l in
  match s with
  | EmptyString => put []
  | String c s => if Ascii.eqb c " " then put (words_from "" s) else words_from (word +:+ String c "") s
  end.
Definition classes (n : node) : list string := words_from "" (className n).
Fixpoint unwords (l : list string) : string :=
  match l with [] => "" | [w] => w | w :: l => w +:+ " " +:+ unwords l end.
Definition addClasses (names : list string) (n : node) : node :=
  setAttribute "class" (unwords (fold_left (fun l c => if decide (c ∈ l) then l else l ++ [c]) names (classes n))) n.

(** [$('#id')], then an operation *)
Definition at_id (id : string) (f : node -> node) (doc : node) : node :=
  match getElementById doc id with Some p => update_at f p doc | None => doc end.
(** [children(':first')], then an operation *)
Definition first_child (f : node -> node) (n : node) : node := set_childNodes (alter f 0 (childNodes n)) n.

Section init.
Context (parse : string -> list node) (smartmenus : node -> node).

Definition append (markup : string) (n : node) : node := set_childNodes (childNodes n ++ parse markup) n.

Definition initMenu (data : menudata) (relPath : string) (searchEnabled serverSide : bool) (searchPage search : string)
    (doc : node) : node :=
  let doc := at_id "main-nav" (append (makeTree data relPath)) doc in
  let doc := at_id "main-nav" (first_child (fun n => setAttribute "id" "main-menu" (addClasses ["sm"; "sm-dox"] n))) doc in
  let doc :=
    if searchEnabled then
      if serverSide then at_id "main-menu" (append (server_box relPath searchPage search)) doc
      else at_id "main-menu" (append (client_box relPath search)) doc
    else doc in
  at_id "main-menu" smartmenus doc.
End init.
