(* ===== verification/DocMenuFacts.v ===== *)
(** The menu and the search box in the page: where [initMenu] puts them. *)

From S2P Require Import Prelude Text JsString Dom DocResults DocMenu DocMenuInit.

(** ** Changing one element *)

Lemma update_at_ext f g p doc n :
  node_at doc p = Some n -> f n = g n -> update_at f p doc = update_at g p doc.
Proof.
  revert f g n. induction p as [|i p IH]; intros f g n Hn Hfg; cbn in *; [by injection Hn as <-|].
  destruct (node_at doc p) as [m|] eqn:Hm; [|done]. cbn in Hn. apply (IH _ _ m eq_refl). f_equal.
  apply list_alter_ext; [|done]. intros x Hx. congruence.
Qed.

Lemma update_at_comp f g p doc n :
  node_at doc p = Some n -> update_at f p (update_at g p doc) = update_at (fun n => f (g n)) p doc.
Proof.
  revert f g n. induction p as [|i p IH]; intros f g n Hn; cbn in *; [done|].
  destruct (node_at doc p) as [m|] eqn:Hm; [|done]. rewrite (IH _ _ m eq_refl).
  apply (update_at_ext _ _ _ _ m Hm). unfold set_childNodes. cbn. f_equal. apply (list_alter_alter_eq f g).
Qed.

(** The document around an element: what comes before it does not depend on it. *)
Lemma preorder_around doc p n :
  node_at doc p = Some n -> exists before after : list path,
    Forall (fun q : path => ~ p `suffix_of` q) before /\
    preorder doc [] = before ++ preorder n p ++ after /\
    forall f, preorder (update_at f p doc) [] = before ++ preorder (f n) p ++ after.
Proof.
  revert n. induction p as [|i p IH]; intros n Hn; cbn in Hn.
  { injection Hn as <-. exists [], []. split; [constructor|]. rewrite app_nil_r. split; [done|]. intros f. by rewrite app_nil_r. }
  destruct (node_at doc p) as [m|] eqn:Hm; [|done]. cbn in Hn.
  destruct (IH m eq_refl) as (before & after & Hb & Hd & Hf).
  assert (exists a b, childNodes m = a ++ n :: b /\ i = length a) as (a & b & Hcs & ->).
  { exists (take i (childNodes m)), (drop (S i) (childNodes m)). split; [by rewrite take_drop_middle|].
    apply lookup_lt_Some in Hn. rewrite length_take. lia. }
  assert (forall x, forest_order 0 p (a ++ x :: b) =
    forest_order 0 p a ++ preorder x (length a :: p) ++ forest_order (S (length a)) p b) as Happ.
  { intros x. assert (forall k, forest_order k p (a ++ x :: b) =
      forest_order k p a ++ preorder x (k + length a :: p) ++ forest_order (S (k + length a)) p b) as Hk; [|apply Hk].
    clear. induction a as [|y a IHa]; intros k; cbn; [by rewrite Nat.add_0_r|].
    rewrite IHa, <- app_assoc. by rewrite Nat.add_succ_r. }
  exists (before ++ p :: forest_order 0 p a), (forest_order (S (length a)) p b ++ after).
  split; [|split].
  - apply Forall_app. split; [|constructor].
    + apply (Forall_impl _ _ _ Hb). intros q Hq Hs. apply Hq. by apply suffix_cons_l in Hs.
    + by apply suffix_cons_not.
    + apply Forall_forall. intros q Hq Hs. apply elem_of_forest_order in Hq as (r & j & c & -> & Hj & _).
      2:{ apply Forall_forall. intros x _. apply elem_of_preorder_at. }
      destruct Hs as [r' Hr']. cbn in Hr'. apply lookup_lt_Some in Hj.
      change (r ++ [j] ++ p = r' ++ [length a] ++ p) in Hr'. rewrite !app_assoc in Hr'.
      apply app_inv_tail, app_inj_tail in Hr' as [_ ->]. lia.
  - rewrite Hd, (preorder_eq m), Hcs, Happ. cbn. by rewrite <- !app_assoc.
  - intros f. cbn [update_at]. rewrite Hf, preorder_eq. cbn [childNodes set_childNodes].
    rewrite Hcs. rewrite alter_app_r_alt, Nat.sub_diag by done. cbn [alter list_alter].
    rewrite Happ. cbn. by rewrite <- !app_assoc.
Qed.

Lemma with_id_label doc doc' id p : label_at doc p = label_at doc' p -> with_id doc id p = with_id doc' id p.
Proof.
  unfold label_at, with_id, getAttribute.
  destruct (node_at doc p) as [[]|], (node_at doc' p) as [[]|]; cbn; try done. by intros [= -> -> -> ->].
Qed.

Lemma filter_none {A} (f : A -> bool) l : Forall (fun x => f x = false) l -> List.filter f l = [].
Proof. induction 1 as [|x l Hx _ IH]; cbn; [done|]. by rewrite Hx. Qed.

Lemma filter_head_none {A} (f : A -> bool) l : head (List.filter f l) = None -> Forall (fun x => f x = false) l.
Proof. induction l as [|x l IH]; cbn; [constructor|]. destruct (f x) eqn:E; [done|]. constructor; auto. Qed.

Lemma head_filter_before {A} (f : A -> bool) (l : list A) x l' :
  x ∉ l -> head (List.filter f (l ++ x :: l')) = Some x -> Forall (fun x => f x = false) l.
Proof.
  induction l as [|y l IH]; [constructor|]. intros [Hy Hx]%not_elem_of_cons. cbn. destruct (f y) eqn:E; cbn.
  - by intros [= ->].
  - intros H. constructor; [done|by apply IH].
Qed.

Lemma with_id_at doc p n id : node_at doc p = Some n -> with_id doc id p = String.eqb (id_of n) id.
Proof. intros H. unfold with_id. by rewrite H. Qed.

(** The elements before one that is changed, when none has the id. *)
Lemma filter_before doc p f n id before :
  node_at doc p = Some n -> Forall (fun q : path => ~ p `suffix_of` q) before ->
  Forall (fun q : path => with_id doc id q = false) before -> List.filter (with_id (update_at f p doc) id) before = [].
Proof.
  intros Hn Hb Hid. apply filter_none, Forall_forall. intros q Hq.
  rewrite (with_id_label _ doc id q); [by apply (proj1 (Forall_forall _ _) Hid)|].
  apply (label_at_update_other f p doc n q Hn). by apply (proj1 (Forall_forall _ _) Hb).
Qed.

(** An element found by its id is found after a change that keeps the id. *)
Lemma found_again doc p f n id :
  getElementById doc id = Some p -> node_at doc p = Some n -> id_of (f n) = id ->
  getElementById (update_at f p doc) id = Some p.
Proof.
  intros Hp Hn Hid. destruct (preorder_around doc p n Hn) as (before & after & Hb & Hd & Hf).
  unfold getElementById in *. rewrite Hd, preorder_eq in Hp. cbn [app] in Hp.
  apply head_filter_before in Hp.
  2:{ intros Hin. apply (proj1 (Forall_forall _ _) Hb p Hin). done. }
  rewrite Hf, List.filter_app, (filter_before doc p f n id before Hn Hb Hp). cbn [app]. rewrite preorder_eq. cbn [app List.filter].
  rewrite (with_id_at _ p (f n)) by exact (node_at_update_below f p doc n [] Hn). by rewrite Hid, String.eqb_refl.
Qed.

(** An id that is new to the document, given to the first child of an element. *)
Lemma found_child doc p f n id c cs :
  getElementById doc id = None -> node_at doc p = Some n -> id_of (f n) <> id -> childNodes (f n) = c :: cs -> id_of c = id ->
  getElementById (update_at f p doc) id = Some (0 :: p).
Proof.
  intros Hp Hn Hne Hcs Hid. destruct (preorder_around doc p n Hn) as (before & after & Hb & Hd & Hf).
  unfold getElementById in *. apply filter_head_none in Hp. rewrite Hd in Hp. apply Forall_app in Hp as [Hp _].
  rewrite Hf, List.filter_app, (filter_before doc p f n id before Hn Hb Hp). cbn [app].
  rewrite preorder_eq, Hcs. cbn [app List.filter forest_map].
  pose proof (node_at_update_below f p doc n [] Hn) as Hp'. cbn [app node_at] in Hp'.
  rewrite (with_id_at _ p (f n)) by exact Hp'. apply String.eqb_neq in Hne. rewrite Hne, preorder_eq. cbn [app List.filter].
  rewrite (with_id_at _ (0 :: p) c) by (rewrite (node_at_cons _ 0 p _ Hp'), Hcs; done). by rewrite Hid, String.eqb_refl.
Qed.

Lemma id_of_set_id id n : id_of (setAttribute "id" id n) = id.
Proof.
  unfold id_of, getAttribute, setAttribute. cbn [attributes]. induction (attributes n) as [|[k v] l IH]; [done|].
  cbn [assoc_set]. destruct (String.eqb_spec k "id") as [->|Hk]; cbn [assoc]; [done|].
  apply String.eqb_neq in Hk. by rewrite Hk.
Qed.

(** ** The page with its menu *)

Section menu.
Context (parse : string -> list node) (smartmenus : node -> node).

(** The menu element: the first one of the markup, with its id and classes, and the
    search box as its last children. *)
Definition main_menu (relPath : string) (searchEnabled serverSide : bool) (searchPage search : string) (ul : node) : node :=
  let menu := setAttribute "id" "main-menu" (addClasses ["sm"; "sm-dox"] ul) in
  smartmenus
    (if searchEnabled then
       append parse (if serverSide then server_box relPath searchPage search else client_box relPath search) menu
     else menu).

(** The page gets its menu: when its element main-nav is empty and no element is
    called main-menu, [initMenu] makes the parsed menu the children of main-nav, the
    first of them called main-menu, with the menu's classes, and with the search box
    that was asked for behind its own children; nothing else of the page changes. *)
Theorem menu_built data relPath searchEnabled serverSide searchPage search doc p n ul rest :
  getElementById doc "main-nav" = Some p -> node_at doc p = Some n -> childNodes n = [] ->
  getElementById doc "main-menu" = None -> parse (makeTree data relPath) = ul :: rest ->
  initMenu parse smartmenus data relPath searchEnabled serverSide searchPage search doc =
  update_at (set_childNodes (main_menu relPath searchEnabled serverSide searchPage search ul :: rest)) p doc.
Proof.
  intros Hp Hn Hcs Hm Hul.
  assert (id_of n = "main-nav") as Hidn.
  { unfold getElementById in Hp. destruct (List.filter _ _) as [|q l] eqn:E; [done|]. injection Hp as ->.
    assert (In p (List.filter (with_id doc "main-nav") (preorder doc []))) as [_ H]%filter_In by (rewrite E; by left).
    rewrite (with_id_at doc p n) in H by done. by apply String.eqb_eq in H. }
  set (put m := set_childNodes (m :: rest)).
  assert (forall m, node_at (update_at (put m) p doc) p = Some (put m n)) as Hat.
  { intros m. exact (node_at_update_below (put m) p doc n [] Hn). }
  assert (forall m g, update_at g (0 :: p) (update_at (put m) p doc) = update_at (put (g m)) p doc) as Hchild.
  { intros m g. cbn [update_at]. rewrite (update_at_comp _ _ p doc n Hn). by apply (update_at_ext _ _ p doc n Hn). }
  assert (forall m, id_of m = "main-menu" -> getElementById (update_at (put m) p doc) "main-menu" = Some (0 :: p)) as Hmenu.
  { intros m Hid. apply (found_child doc p (put m) n _ m rest); try done. change (id_of n <> "main-menu"). by rewrite Hidn. }
  unfold initMenu, at_id. rewrite Hp.
  rewrite (update_at_ext (append parse (makeTree data relPath)) (put ul) p doc n Hn)
    by (unfold append; by rewrite Hcs, Hul).
  rewrite (found_again doc p (put ul) n) by done. rewrite (update_at_comp _ _ p doc n Hn).
  set (menu := setAttribute "id" "main-menu" (addClasses ["sm"; "sm-dox"] ul)).
  rewrite (update_at_ext _ (put menu) p doc n Hn) by done.
  assert (id_of menu = "main-menu") as Hid by apply id_of_set_id.
  assert (forall b, id_of (append parse b menu) = "main-menu") as Hid' by (intros b; exact Hid).
  unfold main_menu. fold menu. by destruct searchEnabled, serverSide; rewrite ?Hmenu, ?Hchild, ?Hmenu, ?Hchild by done.
Qed.
End menu.

(** A page like the documentation's, with a browser that reads the two markups. *)
Definition small_menu : menudata := Some [Menu "Main Page" "index.html" None].
Definition small_parse (s : string) : list node :=
  if String.eqb s (makeTree small_menu "") then [Elt "UL" [] "" "" [Elt "LI" [] "" "" []]]
  else if String.eqb s (client_box "" "Search") then [Elt "LI" [("style", "float:right")] "" "" []] else [].
Definition small_page : node :=
  Elt "BODY" [] "" "" [Elt "DIV" [("id", "top")] "" "" [Elt "DIV" [("id", "main-nav")] "" "" []]; Elt "DIV" [] "" "" []].

Lemma menu_built_witness :
  initMenu small_parse id small_menu "" true false "search.php" "Search" small_page =
  Elt "BODY" [] "" "" [Elt "DIV" [("id", "top")] "" "" [Elt "DIV" [("id", "main-nav")] "" ""
    [Elt "UL" [("class", "sm sm-dox"); ("id", "main-menu")] "" ""
       [Elt "LI" [] "" "" []; Elt "LI" [("style", "float:right")] "" "" []]]]; Elt "DIV" [] "" "" []].
Proof.
  rewrite (menu_built small_parse id small_menu "" true false "search.php" "Search" small_page [0; 0]
    (Elt "DIV" [("id", "main-nav")] "" "" []) (Elt "UL" [] "" "" [Elt "LI" [] "" "" []]) []);
    reflexivity.
Defined.
