(* ===== verification/DocIndex.v ===== *)
(** The search index of a documentation tree, and what the search relies on it
    for: every entry is on the page of its first character, under the id
    [convertToId] makes of its name. *)

From S2P Require Import Prelude Text JsString Dom DocResults.

(** The tables of [searchdata.js], a list for each object with keys 0, 1, ...,
    and the results pages by their URL. *)
Record doc_index : Type := DocIndex {
  indexSectionsWithContent : list string;
  indexSectionNames : list string;
  indexSectionLabels : list string;
  result_pages : list (string * table);
}.

Fixpoint find_page (url : string) (pages : list (string * table)) : option table :=
  match pages with
  | [] => None
  | (u, t) :: pages' => if String.eqb u url then Some t else find_page url pages'
  end.

(** The text a name in the tables stands for: its character references read. *)
Fixpoint html_text (s : string) : string :=
  match s with
  | EmptyString => EmptyString
  | String c r =>
    if Ascii.eqb c "&" then
      match r with
      | String "l" (String "t" (String ";" r')) => String "<" (html_text r')
      | String "g" (String "t" (String ";" r')) => String ">" (html_text r')
      | String "a" (String "m" (String "p" (String ";" r'))) => String "&" (html_text r')
      | _ => String c (html_text r)
      end
    else String c (html_text r)
  end.
Definition symbol (d : entry) : string := html_text (ent_name d).

(** The URL of page [k] of section [i], as [SearchBox] makes it. *)
Definition page_url (resultsPath name : string) (k : N) : string :=
  resultsPath +:+ "/" +:+ name +:+ "_" +:+ toString16 k +:+ ".html".

(** The page of position [k] of a section holds the symbols that begin with the
    section's [k]-th character, each under the id of its name. *)
Definition entry_ok (c : ascii) (d : entry) : bool :=
  match toLowerCase (symbol d) with
  | String c' _ as s => Ascii.eqb c' c && String.eqb (ent_id d) (convertToId s)
  | EmptyString => false
  end.
Definition page_ok (pages : list (string * table)) (name : string) (k : N) (c : ascii) : bool :=
  match find_page (page_url "search" name k) pages with
  | Some data => s_all (fun u => negb (Ascii.eqb u "?")) (page_url "search" name k) &&
                 forallb (entry_ok c) data
  | None => false
  end.
Fixpoint chars_ok (pages : list (string * table)) (name : string) (k : N) (s : string) : bool :=
  match s with
  | EmptyString => true
  | String c s' => page_ok pages name k c && negb (Ascii.eqb c space) && Ascii.eqb (lower_unit c) c &&
                   chars_ok pages name (k + 1) s'
  end.
Fixpoint no_repeat (s : string) : bool :=
  match s with
  | EmptyString => true
  | String c s' => match index_of_unit c s' with None => true | Some _ => false end && no_repeat s'
  end.
Definition index_ok (idx : doc_index) : bool :=
  (length (indexSectionsWithContent idx) =? length (indexSectionNames idx)) &&
  forallb (fun '(s, name) => chars_ok (result_pages idx) name 0 s && no_repeat s)
    (zip (indexSectionsWithContent idx) (indexSectionNames idx)).

(** * What [index_ok] gives *)

Lemma chars_ok_get pages name k s n c :
  chars_ok pages name k s = true -> String.get n s = Some c ->
  page_ok pages name (k + N.of_nat n) c = true /\ c <> space /\ lower_unit c = c.
Proof.
  revert k n. induction s as [|d s IH]; intros k n H Hn; [by destruct n|].
  cbn in H. repeat (apply andb_prop in H as [H ?]). destruct n as [|n]; cbn in Hn.
  - injection Hn as ->. rewrite N.add_0_r. split_and!; [done| |by apply Ascii.eqb_eq].
    intros ->. done.
  - replace (k + N.of_nat (S n))%N with (k + 1 + N.of_nat n)%N by lia. by apply IH.
Qed.

Lemma index_of_unit_get s n c :
  no_repeat s = true -> String.get n s = Some c -> index_of_unit c s = Some (N.of_nat n).
Proof.
  revert n. induction s as [|d s IH]; intros n H Hn; [by destruct n|].
  cbn in H. apply andb_prop in H as [Hd H]. destruct n as [|n]; cbn in *.
  - injection Hn as ->. by rewrite Ascii.eqb_refl.
  - rewrite (IH n H Hn) in *. destruct (Ascii.eqb_spec d c) as [->|_].
    + by rewrite (IH n H Hn) in Hd.
    + cbn. f_equal. lia.
Qed.

Lemma index_ok_section idx i content name :
  index_ok idx = true ->
  indexSectionsWithContent idx !! i = Some content -> indexSectionNames idx !! i = Some name ->
  chars_ok (result_pages idx) name 0 content = true /\ no_repeat content = true.
Proof.
  intros H Hc Hn. apply andb_prop in H as [_ H]. rewrite forallb_forall in H.
  apply andb_prop, (H (content, name)), list_elem_of_In, (list_elem_of_lookup_2 _ i).
  by apply lookup_zip_Some.
Qed.
