(* ===== verification/DocIndexRedis.v ===== *)
(** The search index and the menu of the cpp_redis documentation: the tables of
    src/cpp_redis/docs/html/search (searchdata.js, one table per results
    page) and menudata.js. *)

From S2P Require Import Prelude JsString DocResults DocMenu DocIndex.

#[local] Open Scope string_scope.

Definition redis_indexSectionsWithContent : list string :=
  ["abcdefgikloprstuvw~"; "abcefilrstw"; "abcdegikloprstuw~"; "abostv"; "acdrst"; "abcglost"].

Definition redis_indexSectionNames : list string :=
  ["all"; "classes"; "functions"; "variables"; "typedefs"; "enums"].

Definition redis_indexSectionLabels : list string :=
  ["All"; "Classes"; "Functions"; "Variables"; "Typedefs"; "Enumerations"].

Definition redis_all_0 : table :=
  [
    Entry "acknowledgement_5fcallback_5ft" "acknowledgement_callback_t" [Result "../classcpp__redis_1_1subscriber.html#a19ea39dfabeb19937a9ce4c8d21781b4" 1 "cpp_redis::subscriber"];
    Entry "add_5fsentinel" "add_sentinel" [Result "../classcpp__redis_1_1client.html#abd52019ee708559179c501892e6448dc" 1 "cpp_redis::client::add_sentinel()";
      Result "../classcpp__redis_1_1sentinel.html#a6c846b71478c330d2cad7aa662dfd681" 1 "cpp_redis::sentinel::add_sentinel()";
      Result "../classcpp__redis_1_1subscriber.html#a2faf9e9cc9c95e3c0fed148355af84f1" 1 "cpp_redis::subscriber::add_sentinel()"];
    Entry "aggregate_5fmethod" "aggregate_method" [Result "../classcpp__redis_1_1client.html#aa197ca5b36da793c701d3ba388ec4946" 1 "cpp_redis::client"];
    Entry "aggregate_5fmethod_5fto_5fstring" "aggregate_method_to_string" [Result "../classcpp__redis_1_1client.html#accc567df4dd23b30defdd9605719e0ca" 1 "cpp_redis::client"];
    Entry "array_5fbuilder" "array_builder" [Result "../classcpp__redis_1_1builders_1_1array__builder.html" 1 "cpp_redis::builders::array_builder";
      Result "../classcpp__redis_1_1builders_1_1array__builder.html#a4beae33a547d3d7efc112659411a23a3" 1 "cpp_redis::builders::array_builder::array_builder(void)";
      Result "../classcpp__redis_1_1builders_1_1array__builder.html#aa0e5fe9a587b277a473d66b7e6db9548" 1 "cpp_redis::builders::array_builder::array_builder(const array_builder &amp;)=delete"];
    Entry "as_5farray" "as_array" [Result "../classcpp__redis_1_1reply.html#af4ead6a79c9e531912c35267d5212776" 1 "cpp_redis::reply"];
    Entry "as_5finteger" "as_integer" [Result "../classcpp__redis_1_1reply.html#a5f54d0dada956bca564ff2d7bde866ea" 1 "cpp_redis::reply"];
    Entry "as_5fstring" "as_string" [Result "../classcpp__redis_1_1reply.html#a5fdd9c1d3bb3b9ece6098f8b83a32597" 1 "cpp_redis::reply"];
    Entry "async_5fread" "async_read" [Result "../classcpp__redis_1_1network_1_1tcp__client.html#a5eed4225fcd01e3108580d863c94c2cc" 1 "cpp_redis::network::tcp_client::async_read()";
      Result "../classcpp__redis_1_1network_1_1tcp__client__iface.html#ae1f9fa87002273a0caf340407bb68ade" 1 "cpp_redis::network::tcp_client_iface::async_read()"];
    Entry "async_5fread_5fcallback" "async_read_callback" [Result "../structcpp__redis_1_1network_1_1tcp__client__iface_1_1read__request.html#a0584269b3a021d588e38948c12fa5292" 1 "cpp_redis::network::tcp_client_iface::read_request"];
    Entry "async_5fread_5fcallback_5ft" "async_read_callback_t" [Result "../classcpp__redis_1_1network_1_1tcp__client__iface.html#ae8bf79e8e1f1d7e359ed1c7cdc4026fc" 1 "cpp_redis::network::tcp_client_iface"];
    Entry "async_5fwrite" "async_write" [Result "../classcpp__redis_1_1network_1_1tcp__client.html#a6d15785b71776cd85426c9634cb446f0" 1 "cpp_redis::network::tcp_client::async_write()";
      Result "../classcpp__redis_1_1network_1_1tcp__client__iface.html#a9cd01e8a68479456d15d6435ffad9b92" 1 "cpp_redis::network::tcp_client_iface::async_write()"];
    Entry "async_5fwrite_5fcallback" "async_write_callback" [Result "../structcpp__redis_1_1network_1_1tcp__client__iface_1_1write__request.html#ab2823d9836ec68d63c9799ee12d403a2" 1 "cpp_redis::network::tcp_client_iface::write_request"];
    Entry "async_5fwrite_5fcallback_5ft" "async_write_callback_t" [Result "../classcpp__redis_1_1network_1_1tcp__client__iface.html#a1dc52ccc70cf377c4fbb495a16adc658" 1 "cpp_redis::network::tcp_client_iface"];
    Entry "auth" "auth" [Result "../classcpp__redis_1_1subscriber.html#a7b4564fc4dfe356b95aeae4fdb8071c9" 1 "cpp_redis::subscriber"]].

Definition redis_all_1 : table :=
  [
    Entry "back" "back" [Result "../structcpp__redis_1_1helpers_1_1back.html" 1 "cpp_redis::helpers"];
    Entry "back_3c_20t_20_3e" "back&lt; T &gt;" [Result "../structcpp__redis_1_1helpers_1_1back_3_01_t_01_4.html" 1 "cpp_redis::helpers"];
    Entry "bitfield_5foperation" "bitfield_operation" [Result "../structcpp__redis_1_1client_1_1bitfield__operation.html" 1 "cpp_redis::client"];
    Entry "bitfield_5foperation_5ftype" "bitfield_operation_type" [Result "../classcpp__redis_1_1client.html#a2e2023534299541da0a659802e2f087d" 1 "cpp_redis::client"];
    Entry "bitfield_5foperation_5ftype_5fto_5fstring" "bitfield_operation_type_to_string" [Result "../classcpp__redis_1_1client.html#a11a73f30d14e6d27f6c8c8cee53a3a04" 1 "cpp_redis::client"];
    Entry "buffer" "buffer" [Result "../structcpp__redis_1_1network_1_1tcp__client__iface_1_1read__result.html#af8275097ebe558e7ce0f2aa29131cb05" 1 "cpp_redis::network::tcp_client_iface::read_result::buffer()";
      Result "../structcpp__redis_1_1network_1_1tcp__client__iface_1_1write__request.html#ad3567dac827f550b60491af530f0db2e" 1 "cpp_redis::network::tcp_client_iface::write_request::buffer()"];
    Entry "builder_5fiface" "builder_iface" [Result "../classcpp__redis_1_1builders_1_1builder__iface.html" 1 "cpp_redis::builders"];
    Entry "bulk_5fstring_5fbuilder" "bulk_string_builder" [Result "../classcpp__redis_1_1builders_1_1bulk__string__builder.html" 1 "cpp_redis::builders::bulk_string_builder";
      Result "../classcpp__redis_1_1builders_1_1bulk__string__builder.html#a1c0bee3cd6fbafc782cfe93c0b650451" 1 "cpp_redis::builders::bulk_string_builder::bulk_string_builder(void)";
      Result "../classcpp__redis_1_1builders_1_1bulk__string__builder.html#ac3bd10f8972fa1856b6e7b7262ecd98f" 1 "cpp_redis::builders::bulk_string_builder::bulk_string_builder(const bulk_string_builder &amp;)=delete"]].

Definition redis_all_2 : table :=
  [
    Entry "cancel_5freconnect" "cancel_reconnect" [Result "../classcpp__redis_1_1client.html#adb605a877f65b8f54725576b45aeeca6" 1 "cpp_redis::client::cancel_reconnect()";
      Result "../classcpp__redis_1_1subscriber.html#a6d5bdcf7c5a67d1b56b021bbd450a7c3" 1 "cpp_redis::subscriber::cancel_reconnect()"];
    Entry "clear_5fsentinels" "clear_sentinels" [Result "../classcpp__redis_1_1client.html#a68cd15d1cc30302237e3a400e2ac43f5" 1 "cpp_redis::client::clear_sentinels()";
      Result "../classcpp__redis_1_1sentinel.html#ac36640b3f392970c72f5a513a2d61ac7" 1 "cpp_redis::sentinel::clear_sentinels()";
      Result "../classcpp__redis_1_1subscriber.html#ac8f371c14866842cdda7cf1ee5eee2b8" 1 "cpp_redis::subscriber::clear_sentinels()"];
    Entry "client" "client" [Result "../classcpp__redis_1_1client.html" 1 "cpp_redis::client";
      Result "../classcpp__redis_1_1client.html#a80354f41d084dfc3a41df581c803b792" 1 "cpp_redis::client::client(void)";
      Result "../classcpp__redis_1_1client.html#ae879c3a6829a2da9d03f80c1ec4b8d9b" 1 "cpp_redis::client::client(const std::shared_ptr&lt; network::tcp_client_iface &gt; &amp;tcp_client)";
      Result "../classcpp__redis_1_1client.html#ab938aeb2a144629fd269594e4af08168" 1 "cpp_redis::client::client(const client &amp;)=delete"];
    Entry "client_5fkill" "client_kill" [Result "../classcpp__redis_1_1client.html#ae4090830d1710276c33ff5a74eba2e4b" 1 "cpp_redis::client"];
    Entry "client_5fkill_5ffuture" "client_kill_future" [Result "../classcpp__redis_1_1client.html#ae6f09b6c022c910b79fb90a47291f511" 1 "cpp_redis::client"];
    Entry "client_5ftype" "client_type" [Result "../classcpp__redis_1_1client.html#a388877b01b4e045cddb138e70a68e000" 1 "cpp_redis::client"];
    Entry "commit" "commit" [Result "../classcpp__redis_1_1client.html#a36a48d61a4900e88fd67795ca59cbea3" 1 "cpp_redis::client::commit()";
      Result "../classcpp__redis_1_1sentinel.html#ad4f85d486499f82225b244f85091b31e" 1 "cpp_redis::sentinel::commit()";
      Result "../classcpp__redis_1_1subscriber.html#abbf600802ed93b82323185eec5719ecb" 1 "cpp_redis::subscriber::commit()";
      Result "../classcpp__redis_1_1network_1_1redis__connection.html#a8e6980d40139877c16e995051b780d60" 1 "cpp_redis::network::redis_connection::commit()"];
    Entry "connect" "connect" [Result "../classcpp__redis_1_1client.html#adda8b3e7b4f9c80ac052753b39178dd5" 1 "cpp_redis::client::connect(const std::string &amp;host=&quot;127.0.0.1&quot;, std::size_t port=6379, const connect_callback_t &amp;connect_callback=nullptr, std::uint32_t timeout_msecs=0, std::int32_t max_reconnects=0, std::uint32_t reconnect_interval_msecs=0)";
      Result "../classcpp__redis_1_1client.html#a15bcb0885129480543482a7da52af892" 1 "cpp_redis::client::connect(const std::string &amp;name, const connect_callback_t &amp;connect_callback=nullptr, std::uint32_t timeout_msecs=0, std::int32_t max_reconnects=0, std::uint32_t reconnect_interval_msecs=0)";
      Result "../classcpp__redis_1_1sentinel.html#a1dfba8240daf7cfa7502f57957cffbda" 1 "cpp_redis::sentinel::connect()";
      Result "../classcpp__redis_1_1subscriber.html#a6ae8134a9a9b31d6f2434ec4f6e86d3a" 1 "cpp_redis::subscriber::connect(const std::string &amp;host=&quot;127.0.0.1&quot;, std::size_t port=6379, const connect_callback_t &amp;connect_callback=nullptr, std::uint32_t timeout_msecs=0, std::int32_t max_reconnects=0, std::uint32_t reconnect_interval_msecs=0)";
      Result "../classcpp__redis_1_1subscriber.html#a8fb77a44a1e1f0d99dec639658e2aa7e" 1 "cpp_redis::subscriber::connect(const std::string &amp;name, const connect_callback_t &amp;connect_callback=nullptr, std::uint32_t timeout_msecs=0, std::int32_t max_reconnects=0, std::uint32_t reconnect_interval_msecs=0)";
      Result "../classcpp__redis_1_1network_1_1redis__connection.html#af105573e46eadbc34a9f5907832df19f" 1 "cpp_redis::network::redis_connection::connect()";
      Result "../classcpp__redis_1_1network_1_1tcp__client.html#a5808c0569980d83479f755ac55a12dfb" 1 "cpp_redis::network::tcp_client::connect()";
      Result "../classcpp__redis_1_1network_1_1tcp__client__iface.html#a81ee982136e85b7c3401393341bc594c" 1 "cpp_redis::network::tcp_client_iface::connect()"];
    Entry "connect_5fcallback_5ft" "connect_callback_t" [Result "../classcpp__redis_1_1client.html#a4bb592b64ededde5a6fcf8111ca2548f" 1 "cpp_redis::client::connect_callback_t()";
      Result "../classcpp__redis_1_1subscriber.html#a90f2f7d4c748c3c2e89d1e977fa6dce1" 1 "cpp_redis::subscriber::connect_callback_t()"];
    Entry "connect_5fsentinel" "connect_sentinel" [Result "../classcpp__redis_1_1sentinel.html#a82c8cb23efab71ff00cf2277bba91e90" 1 "cpp_redis::sentinel"];
    Entry "connect_5fstate" "connect_state" [Result "../classcpp__redis_1_1client.html#a2512bd48dd45391249a69bd720c1e4da" 1 "cpp_redis::client::connect_state()";
      Result "../classcpp__redis_1_1subscriber.html#afc976757efd9d0ac4def6935546a2338" 1 "cpp_redis::subscriber::connect_state()"]].

Definition redis_all_3 : table :=
  [
    Entry "debug" "debug" [Result "../classcpp__redis_1_1logger__iface.html#aaace9e12cbb32d7bdd76c17180a30de7" 1 "cpp_redis::logger_iface::debug()";
      Result "../classcpp__redis_1_1logger.html#a36e0908e7b05850b663a4b8b9cdbc299" 1 "cpp_redis::logger::debug()"];
    Entry "disconnect" "disconnect" [Result "../classcpp__redis_1_1client.html#a292252b61bcfdf9ad3854b54b7fe2740" 1 "cpp_redis::client::disconnect()";
      Result "../classcpp__redis_1_1sentinel.html#af607d8c5a20ada35daad251f1b1b2f68" 1 "cpp_redis::sentinel::disconnect()";
      Result "../classcpp__redis_1_1subscriber.html#aad1d0c3c6edb1522eb7b1bdb64b4705d" 1 "cpp_redis::subscriber::disconnect()";
      Result "../classcpp__redis_1_1network_1_1redis__connection.html#a614a01ce8abd69b44f3d072423d2e696" 1 "cpp_redis::network::redis_connection::disconnect()";
      Result "../classcpp__redis_1_1network_1_1tcp__client.html#a88f49c4e32d59855a62296fb74136a44" 1 "cpp_redis::network::tcp_client::disconnect()";
      Result "../classcpp__redis_1_1network_1_1tcp__client__iface.html#a024073fb3436d8fa99de8cad63418f6c" 1 "cpp_redis::network::tcp_client_iface::disconnect()"];
    Entry "disconnection_5fhandler_5ft" "disconnection_handler_t" [Result "../classcpp__redis_1_1network_1_1redis__connection.html#aba1a229a3d36a5540a80776ed0cf9a44" 1 "cpp_redis::network::redis_connection::disconnection_handler_t()";
      Result "../classcpp__redis_1_1network_1_1tcp__client__iface.html#a9a7d5942205db8be03da581a848b8ec0" 1 "cpp_redis::network::tcp_client_iface::disconnection_handler_t()"]].

Definition redis_all_4 : table :=
  [
    Entry "error" "error" [Result "../classcpp__redis_1_1reply.html#a8e4d3fe1636627fdee6361705a2b1c1e" 1 "cpp_redis::reply::error()";
      Result "../classcpp__redis_1_1logger__iface.html#ac8353031252c80e69e35f5f131870ddf" 1 "cpp_redis::logger_iface::error()";
      Result "../classcpp__redis_1_1logger.html#aaf7f2837511f4414a4d7b7b923ebc15e" 1 "cpp_redis::logger::error()"];
    Entry "error_5fbuilder" "error_builder" [Result "../classcpp__redis_1_1builders_1_1error__builder.html" 1 "cpp_redis::builders::error_builder";
      Result "../classcpp__redis_1_1builders_1_1error__builder.html#abbc5e14b66702ec8b210fb1d288d2423" 1 "cpp_redis::builders::error_builder::error_builder(void)=default";
      Result "../classcpp__redis_1_1builders_1_1error__builder.html#a2aee65fdc05abfacda73987e2cf60609" 1 "cpp_redis::builders::error_builder::error_builder(const error_builder &amp;)=delete"]].

Definition redis_all_5 : table :=
  [
    Entry "front" "front" [Result "../structcpp__redis_1_1helpers_1_1front.html" 1 "cpp_redis::helpers"]].

Definition redis_all_6 : table :=
  [
    Entry "geo_5funit" "geo_unit" [Result "../classcpp__redis_1_1client.html#aa5998536fd32ff4387c89be514997620" 1 "cpp_redis::client"];
    Entry "geo_5funit_5fto_5fstring" "geo_unit_to_string" [Result "../classcpp__redis_1_1client.html#aa8a686097a5340eb50e838f14342e302" 1 "cpp_redis::client"];
    Entry "get" "get" [Result "../structcpp__redis_1_1client_1_1bitfield__operation.html#a93d3f7ab6b6bae82ac209bb49374d788" 1 "cpp_redis::client::bitfield_operation"];
    Entry "get_5fbulk_5fstring" "get_bulk_string" [Result "../classcpp__redis_1_1builders_1_1bulk__string__builder.html#a6b3e70acab5c115609db774becbcc571" 1 "cpp_redis::builders::bulk_string_builder"];
    Entry "get_5ferror" "get_error" [Result "../classcpp__redis_1_1builders_1_1error__builder.html#adeef989fb2f5e47e001783cfda48e341" 1 "cpp_redis::builders::error_builder"];
    Entry "get_5ffront" "get_front" [Result "../classcpp__redis_1_1builders_1_1reply__builder.html#ac37b532920ace20e24a40ea1c61940fe" 1 "cpp_redis::builders::reply_builder"];
    Entry "get_5fhost" "get_host" [Result "../classcpp__redis_1_1sentinel_1_1sentinel__def.html#af61b33ea2b5154735e4b804039771f19" 1 "cpp_redis::sentinel::sentinel_def"];
    Entry "get_5finteger" "get_integer" [Result "../classcpp__redis_1_1builders_1_1integer__builder.html#af68431c4c81242c1930b3b4feb2028e5" 1 "cpp_redis::builders::integer_builder"];
    Entry "get_5fmaster_5faddr_5fby_5fname" "get_master_addr_by_name" [Result "../classcpp__redis_1_1sentinel.html#a2886493b40b00dfafdd3b22dfe28e0c3" 1 "cpp_redis::sentinel"];
    Entry "get_5fport" "get_port" [Result "../classcpp__redis_1_1sentinel_1_1sentinel__def.html#a1994bec14cc8703d1198de96b66a0f30" 1 "cpp_redis::sentinel::sentinel_def"];
    Entry "get_5freply" "get_reply" [Result "../classcpp__redis_1_1builders_1_1array__builder.html#ac5c805ad87b357a9578c5a0d479109b3" 1 "cpp_redis::builders::array_builder::get_reply()";
      Result "../classcpp__redis_1_1builders_1_1builder__iface.html#afd2ff2c2371c2a486116543b638b9413" 1 "cpp_redis::builders::builder_iface::get_reply()";
      Result "../classcpp__redis_1_1builders_1_1bulk__string__builder.html#a56d6d3089107a1bccd63f6a5267c16cb" 1 "cpp_redis::builders::bulk_string_builder::get_reply()";
      Result "../classcpp__redis_1_1builders_1_1error__builder.html#ae2b68b7daad4d71b6780e47bdcc1e32b" 1 "cpp_redis::builders::error_builder::get_reply()";
      Result "../classcpp__redis_1_1builders_1_1integer__builder.html#a25221763ba6f8b740458c673945208e0" 1 "cpp_redis::builders::integer_builder::get_reply()";
      Result "../classcpp__redis_1_1builders_1_1simple__string__builder.html#a24ad0968d7d02172a65cf8982c540d51" 1 "cpp_redis::builders::simple_string_builder::get_reply()"];
    Entry "get_5fsentinel" "get_sentinel" [Result "../classcpp__redis_1_1client.html#a9f94860dad26bca4e860a56ca8aefe36" 1 "cpp_redis::client::get_sentinel(void) const";
      Result "../classcpp__redis_1_1client.html#a9457cea98f061ce6071f897ba8605813" 1 "cpp_redis::client::get_sentinel(void)";
      Result "../classcpp__redis_1_1subscriber.html#a55a8906106adceca1faf6ab26e040f8a" 1 "cpp_redis::subscriber::get_sentinel(void) const";
      Result "../classcpp__redis_1_1subscriber.html#ae883ef7e41753d5c1d819260d7574e4b" 1 "cpp_redis::subscriber::get_sentinel(void)"];
    Entry "get_5fsentinels" "get_sentinels" [Result "../classcpp__redis_1_1sentinel.html#adec98cdde0500e44b8fda26a44f14b49" 1 "cpp_redis::sentinel::get_sentinels(void) const";
      Result "../classcpp__redis_1_1sentinel.html#a62cc14b7795d746cc7d0053c1e0a3abd" 1 "cpp_redis::sentinel::get_sentinels(void)"];
    Entry "get_5fsimple_5fstring" "get_simple_string" [Result "../classcpp__redis_1_1builders_1_1simple__string__builder.html#a539ba8a9234269e57471f1973adc58c2" 1 "cpp_redis::builders::simple_string_builder"];
    Entry "get_5ftimeout_5fmsecs" "get_timeout_msecs" [Result "../classcpp__redis_1_1sentinel_1_1sentinel__def.html#af7aa53bdf7bd56becdad9205e82949c5" 1 "cpp_redis::sentinel::sentinel_def"];
    Entry "get_5ftype" "get_type" [Result "../classcpp__redis_1_1reply.html#ab196726881aea799186228d49a2283ba" 1 "cpp_redis::reply"]].

Definition redis_all_7 : table :=
  [
    Entry "incrby" "incrby" [Result "../structcpp__redis_1_1client_1_1bitfield__operation.html#a9e3ad296a689764917df9da1424f33d5" 1 "cpp_redis::client::bitfield_operation"];
    Entry "info" "info" [Result "../classcpp__redis_1_1logger__iface.html#a02e62f55d7da56efa3b47f2b05931b3b" 1 "cpp_redis::logger_iface::info()";
      Result "../classcpp__redis_1_1logger.html#a04c741b5110946e76bb23728da6fb2ac" 1 "cpp_redis::logger::info()"];
    Entry "integer_5fbuilder" "integer_builder" [Result "../classcpp__redis_1_1builders_1_1integer__builder.html" 1 "cpp_redis::builders::integer_builder";
      Result "../classcpp__redis_1_1builders_1_1integer__builder.html#a9ff2d3d27da0fb8b98fc4a0ea255fece" 1 "cpp_redis::builders::integer_builder::integer_builder(void)";
      Result "../classcpp__redis_1_1builders_1_1integer__builder.html#ab451b7fe5de8cf6f618cf9be1569aa41" 1 "cpp_redis::builders::integer_builder::integer_builder(const integer_builder &amp;)=delete"];
    Entry "is_5farray" "is_array" [Result "../classcpp__redis_1_1reply.html#a3a94881a46125d281cb36191c4b7d19a" 1 "cpp_redis::reply"];
    Entry "is_5fbulk_5fstring" "is_bulk_string" [Result "../classcpp__redis_1_1reply.html#ab1f4e57a33fb438ab165a65f2d31ca8d" 1 "cpp_redis::reply"];
    Entry "is_5fconnected" "is_connected" [Result "../classcpp__redis_1_1client.html#ad3608dec2c2bfabf2c621ce14f4db37a" 1 "cpp_redis::client::is_connected()";
      Result "../classcpp__redis_1_1sentinel.html#aa98a0593e6e7c04d8d0dd1f292cdce47" 1 "cpp_redis::sentinel::is_connected()";
      Result "../classcpp__redis_1_1subscriber.html#a13ff83c3944b33851dfcf364f53b146c" 1 "cpp_redis::subscriber::is_connected()";
      Result "../classcpp__redis_1_1network_1_1redis__connection.html#ad3d96826e2e67fb3fed23280237d4d9c" 1 "cpp_redis::network::redis_connection::is_connected()";
      Result "../classcpp__redis_1_1network_1_1tcp__client.html#a0a636ca6bd59425bf22416a1c7694f65" 1 "cpp_redis::network::tcp_client::is_connected()";
      Result "../classcpp__redis_1_1network_1_1tcp__client__iface.html#a41ad0b43e3ab172828a3d2ce55d23893" 1 "cpp_redis::network::tcp_client_iface::is_connected()"];
    Entry "is_5fdifferent_5ftypes" "is_different_types" [Result "../structcpp__redis_1_1helpers_1_1is__different__types.html" 1 "cpp_redis::helpers"];
    Entry "is_5fdifferent_5ftypes_3c_20t1_20_3e" "is_different_types&lt; T1 &gt;" [Result "../structcpp__redis_1_1helpers_1_1is__different__types_3_01_t1_01_4.html" 1 "cpp_redis::helpers"];
    Entry "is_5ferror" "is_error" [Result "../classcpp__redis_1_1reply.html#af61ba1b5a0617c0036fb69e7ad5ee159" 1 "cpp_redis::reply"];
    Entry "is_5finteger" "is_integer" [Result "../classcpp__redis_1_1reply.html#a75216234d6aafd8f81025b22bdbb4440" 1 "cpp_redis::reply"];
    Entry "is_5fnull" "is_null" [Result "../classcpp__redis_1_1builders_1_1bulk__string__builder.html#a2a6ab893dbe5ad2433df18ce62ca6211" 1 "cpp_redis::builders::bulk_string_builder::is_null()";
      Result "../classcpp__redis_1_1reply.html#ac9a967c09aad1cdc7ec3459a330ab274" 1 "cpp_redis::reply::is_null()"];
    Entry "is_5freconnecting" "is_reconnecting" [Result "../classcpp__redis_1_1client.html#af03ca1aec6416ab35e6aea93c74d89d1" 1 "cpp_redis::client::is_reconnecting()";
      Result "../classcpp__redis_1_1subscriber.html#a32eb4feb4858c972ebb9887d21cb62d7" 1 "cpp_redis::subscriber::is_reconnecting()"];
    Entry "is_5fsimple_5fstring" "is_simple_string" [Result "../classcpp__redis_1_1reply.html#aeb92f6f84d226239e9800893ab6062ca" 1 "cpp_redis::reply"];
    Entry "is_5fstring" "is_string" [Result "../classcpp__redis_1_1reply.html#a7072729490fdbad26ddeb02df8002147" 1 "cpp_redis::reply"];
    Entry "is_5ftype_5fpresent" "is_type_present" [Result "../structcpp__redis_1_1helpers_1_1is__type__present.html" 1 "cpp_redis::helpers"];
    Entry "is_5ftype_5fpresent_3c_20t1_2c_20t2_20_3e" "is_type_present&lt; T1, T2 &gt;" [Result "../structcpp__redis_1_1helpers_1_1is__type__present_3_01_t1_00_01_t2_01_4.html" 1 "cpp_redis::helpers"]].

Definition redis_all_8 : table :=
  [
    Entry "ko" "ko" [Result "../classcpp__redis_1_1reply.html#a17e261cc8e7686bb2126d7df9223611a" 1 "cpp_redis::reply"]].

Definition redis_all_9 : table :=
  [
    Entry "log_5flevel" "log_level" [Result "../classcpp__redis_1_1logger.html#a9493594d547e7abe71b8690be1946c7a" 1 "cpp_redis::logger"];
    Entry "logger" "logger" [Result "../classcpp__redis_1_1logger.html" 1 "cpp_redis::logger";
      Result "../classcpp__redis_1_1logger.html#a36b15a75690a087fca7d304852785512" 1 "cpp_redis::logger::logger(log_level level=log_level::info)";
      Result "../classcpp__redis_1_1logger.html#aec0854d47a13f91e09db25e745a3d722" 1 "cpp_redis::logger::logger(const logger &amp;)=default"];
    Entry "logger_5fiface" "logger_iface" [Result "../classcpp__redis_1_1logger__iface.html" 1 "cpp_redis::logger_iface";
      Result "../classcpp__redis_1_1logger__iface.html#a902e41bf0777b960b6575e7ac986147b" 1 "cpp_redis::logger_iface::logger_iface(void)=default";
      Result "../classcpp__redis_1_1logger__iface.html#a7f1cb271b18e40f2dde7e45028e69a84" 1 "cpp_redis::logger_iface::logger_iface(const logger_iface &amp;)=default"]].

Definition redis_all_a : table :=
  [
    Entry "offset" "offset" [Result "../structcpp__redis_1_1client_1_1bitfield__operation.html#a8a4e83ddbac5c3500c6960f54e736598" 1 "cpp_redis::client::bitfield_operation"];
    Entry "ok" "ok" [Result "../classcpp__redis_1_1reply.html#a1270c4197e0ce79df996565f44011ac0" 1 "cpp_redis::reply"];
    Entry "operation_5ftype" "operation_type" [Result "../structcpp__redis_1_1client_1_1bitfield__operation.html#a4f3462e48d5f01b6fcd1605d6de21a3e" 1 "cpp_redis::client::bitfield_operation"];
    Entry "operator_20bool" "operator bool" [Result "../classcpp__redis_1_1reply.html#a74ef4651c068bfc68436f7e3c7a9a2e6" 1 "cpp_redis::reply"];
    Entry "operator_3c_3c" "operator&lt;&lt;" [Result "../classcpp__redis_1_1builders_1_1array__builder.html#a043357d0ef70406adef4df78c8d5307f" 1 "cpp_redis::builders::array_builder::operator&lt;&lt;()";
      Result "../classcpp__redis_1_1builders_1_1builder__iface.html#a9892bbc9c887c31c2742dad4476e2fa6" 1 "cpp_redis::builders::builder_iface::operator&lt;&lt;()";
      Result "../classcpp__redis_1_1builders_1_1bulk__string__builder.html#a43000357f87212f657aafe279a92b541" 1 "cpp_redis::builders::bulk_string_builder::operator&lt;&lt;()";
      Result "../classcpp__redis_1_1builders_1_1error__builder.html#af5ac542be148d6f8500de79fa3164798" 1 "cpp_redis::builders::error_builder::operator&lt;&lt;()";
      Result "../classcpp__redis_1_1builders_1_1integer__builder.html#ae29f074134f7269db7f947b0fcbe312e" 1 "cpp_redis::builders::integer_builder::operator&lt;&lt;()";
      Result "../classcpp__redis_1_1builders_1_1reply__builder.html#a5f675e309a7a6002d582293c6410c967" 1 "cpp_redis::builders::reply_builder::operator&lt;&lt;()";
      Result "../classcpp__redis_1_1builders_1_1simple__string__builder.html#a159bb512f0427c4a988742f7cd01035e" 1 "cpp_redis::builders::simple_string_builder::operator&lt;&lt;()";
      Result "../classcpp__redis_1_1reply.html#a4f2a05711b5db6b53108cb9eec4e19be" 1 "cpp_redis::reply::operator&lt;&lt;()"];
    Entry "operator_3d" "operator=" [Result "../classcpp__redis_1_1builders_1_1array__builder.html#aaa1df845df7a007cf73f95f73e800c2c" 1 "cpp_redis::builders::array_builder::operator=()";
      Result "../classcpp__redis_1_1builders_1_1bulk__string__builder.html#a972355e0910faa9e3daf4f5c67c3e581" 1 "cpp_redis::builders::bulk_string_builder::operator=()";
      Result "../classcpp__redis_1_1builders_1_1error__builder.html#a0b1be51200ff84f17693ee888b03d505" 1 "cpp_redis::builders::error_builder::operator=()";
      Result "../classcpp__redis_1_1builders_1_1integer__builder.html#a259905e8a34765d6ff9d2dd64f444b54" 1 "cpp_redis::builders::integer_builder::operator=()";
      Result "../classcpp__redis_1_1builders_1_1reply__builder.html#a445ca388e241fe95b522890fee8c14ca" 1 "cpp_redis::builders::reply_builder::operator=()";
      Result "../classcpp__redis_1_1builders_1_1simple__string__builder.html#afc86dd3148ef0094d08b4282f7cb597d" 1 "cpp_redis::builders::simple_string_builder::operator=()";
      Result "../classcpp__redis_1_1client.html#afdab99b1752e759ab3ce9477f2cb092d" 1 "cpp_redis::client::operator=()";
      Result "../classcpp__redis_1_1reply.html#a3482157af73f4a60a6386f057e484e5b" 1 "cpp_redis::reply::operator=()";
      Result "../classcpp__redis_1_1sentinel.html#a06b8d049160e3990cdac3158aaf160a6" 1 "cpp_redis::sentinel::operator=()";
      Result "../classcpp__redis_1_1subscriber.html#ac60f83e6e915073bda6853baaeb39485" 1 "cpp_redis::subscriber::operator=()";
      Result "../classcpp__redis_1_1logger__iface.html#a04324701cb81ba6a23f73025b0b3eee0" 1 "cpp_redis::logger_iface::operator=()";
      Result "../classcpp__redis_1_1logger.html#a09d012d32f35421a16ec73143adc4415" 1 "cpp_redis::logger::operator=()";
      Result "../classcpp__redis_1_1network_1_1redis__connection.html#a54a4c28ad1b9e9f3bac2854fddf4e30d" 1 "cpp_redis::network::redis_connection::operator=()"];
    Entry "operator_3e_3e" "operator&gt;&gt;" [Result "../classcpp__redis_1_1builders_1_1reply__builder.html#a71c0c93754b0bffb9c84c86ac3096bc4" 1 "cpp_redis::builders::reply_builder"];
    Entry "overflow" "overflow" [Result "../structcpp__redis_1_1client_1_1bitfield__operation.html#a2f478e17655a249080178034faa0f6f2" 1 "cpp_redis::client::bitfield_operation"];
    Entry "overflow_5ftype" "overflow_type" [Result "../classcpp__redis_1_1client.html#a4119182ad3a01c1bb626a174375e114a" 1 "cpp_redis::client"];
    Entry "overflow_5ftype_5fto_5fstring" "overflow_type_to_string" [Result "../classcpp__redis_1_1client.html#a696a7fa2b06245323eca8c232d307585" 1 "cpp_redis::client"]].

Definition redis_all_b : table :=
  [
    Entry "pop_5ffront" "pop_front" [Result "../classcpp__redis_1_1builders_1_1reply__builder.html#a0b5fb8dd4fc87c508e0a45647bc86b16" 1 "cpp_redis::builders::reply_builder"];
    Entry "psubscribe" "psubscribe" [Result "../classcpp__redis_1_1subscriber.html#a52605edb2a85d370680c3c9e1b84fc3b" 1 "cpp_redis::subscriber"];
    Entry "punsubscribe" "punsubscribe" [Result "../classcpp__redis_1_1subscriber.html#a26edc7dcf87ddc8734fac04878ca307a" 1 "cpp_redis::subscriber"]].

Definition redis_all_c : table :=
  [
    Entry "read_5frequest" "read_request" [Result "../structcpp__redis_1_1network_1_1tcp__client__iface_1_1read__request.html" 1 "cpp_redis::network::tcp_client_iface"];
    Entry "read_5fresult" "read_result" [Result "../structcpp__redis_1_1network_1_1tcp__client__iface_1_1read__result.html" 1 "cpp_redis::network::tcp_client_iface"];
    Entry "redis_5fconnection" "redis_connection" [Result "../classcpp__redis_1_1network_1_1redis__connection.html" 1 "cpp_redis::network::redis_connection";
      Result "../classcpp__redis_1_1network_1_1redis__connection.html#aee0302e4ff9c9b5b2e7f467d869d45f7" 1 "cpp_redis::network::redis_connection::redis_connection(void)";
      Result "../classcpp__redis_1_1network_1_1redis__connection.html#a6880cfb2e1b037fcdaa5f0a6d515b375" 1 "cpp_redis::network::redis_connection::redis_connection(const std::shared_ptr&lt; tcp_client_iface &gt; &amp;tcp_client)";
      Result "../classcpp__redis_1_1network_1_1redis__connection.html#a2bdd38bbfd5d97aeca8e433465c4d621" 1 "cpp_redis::network::redis_connection::redis_connection(const redis_connection &amp;)=delete"];
    Entry "redis_5ferror" "redis_error" [Result "../classcpp__redis_1_1redis__error.html" 1 "cpp_redis::redis_error";
      Result "../classcpp__redis_1_1redis__error.html#a1445e654b3936c7f5aa1c298bcf24966" 1 "cpp_redis::redis_error::redis_error(const std::string &amp;err)";
      Result "../classcpp__redis_1_1redis__error.html#a0ced25483119c2318b1a5a69cac1919f" 1 "cpp_redis::redis_error::redis_error(const char *err)"];
    Entry "reply" "reply" [Result "../classcpp__redis_1_1reply.html" 1 "cpp_redis::reply";
      Result "../classcpp__redis_1_1reply.html#a8d0b1f8a18b5c7c3ce79784604dba6cc" 1 "cpp_redis::reply::reply(void)";
      Result "../classcpp__redis_1_1reply.html#a58fb2a051a001f1c3dcf2cd957441dbc" 1 "cpp_redis::reply::reply(const std::string &amp;value, string_type reply_type)";
      Result "../classcpp__redis_1_1reply.html#a6200b9fa76196e75fb18aa07e47391f0" 1 "cpp_redis::reply::reply(int64_t value)";
      Result "../classcpp__redis_1_1reply.html#af3e08b6b795978757a05a1ac4bb08c68" 1 "cpp_redis::reply::reply(const std::vector&lt; reply &gt; &amp;rows)";
      Result "../classcpp__redis_1_1reply.html#a247955712c519daffcf740ae163e69bb" 1 "cpp_redis::reply::reply(const reply &amp;)=default"];
    Entry "reply_5favailable" "reply_available" [Result "../classcpp__redis_1_1builders_1_1reply__builder.html#af7d8e764ab591390cd1eae8801cd691c" 1 "cpp_redis::builders::reply_builder"];
    Entry "reply_5fbuilder" "reply_builder" [Result "../classcpp__redis_1_1builders_1_1reply__builder.html" 1 "cpp_redis::builders::reply_builder";
      Result "../classcpp__redis_1_1builders_1_1reply__builder.html#accbe07b853ad26338abf18f7975f616f" 1 "cpp_redis::builders::reply_builder::reply_builder(void)";
      Result "../classcpp__redis_1_1builders_1_1reply__builder.html#acfffbe0b66c7f9da0f1772b2b7fbdc17" 1 "cpp_redis::builders::reply_builder::reply_builder(const reply_builder &amp;)=delete"];
    Entry "reply_5fcallback_5ft" "reply_callback_t" [Result "../classcpp__redis_1_1client.html#a061a1140d36d2eaeda82b09a0bb3f9f2" 1 "cpp_redis::client::reply_callback_t()";
      Result "../classcpp__redis_1_1sentinel.html#ae1a150ff8787208c47414397a061c9a7" 1 "cpp_redis::sentinel::reply_callback_t()";
      Result "../classcpp__redis_1_1subscriber.html#a99d220cc662664e2399b709f61ac9581" 1 "cpp_redis::subscriber::reply_callback_t()";
      Result "../classcpp__redis_1_1network_1_1redis__connection.html#a40f4b55a3103b7436e34211893377245" 1 "cpp_redis::network::redis_connection::reply_callback_t()"];
    Entry "reply_5fready" "reply_ready" [Result "../classcpp__redis_1_1builders_1_1array__builder.html#a524f2cb943dde1246dea1b7057e6351e" 1 "cpp_redis::builders::array_builder::reply_ready()";
      Result "../classcpp__redis_1_1builders_1_1builder__iface.html#a40db9a31d4ea1771777e74146d31e12d" 1 "cpp_redis::builders::builder_iface::reply_ready()";
      Result "../classcpp__redis_1_1builders_1_1bulk__string__builder.html#a4d80d8dfe305e35aca8b4ec84c56fbea" 1 "cpp_redis::builders::bulk_string_builder::reply_ready()";
      Result "../classcpp__redis_1_1builders_1_1error__builder.html#af3d67647f012d0a7378684e2f8258a6d" 1 "cpp_redis::builders::error_builder::reply_ready()";
      Result "../classcpp__redis_1_1builders_1_1integer__builder.html#a4893dc36d06d75094bb4fe3fbc826966" 1 "cpp_redis::builders::integer_builder::reply_ready()";
      Result "../classcpp__redis_1_1builders_1_1simple__string__builder.html#ad586164caf02b3022b91789cac23a72d" 1 "cpp_redis::builders::simple_string_builder::reply_ready()"]].

Definition redis_all_d : table :=
  [
    Entry "send" "send" [Result "../classcpp__redis_1_1client.html#a490ef812b666e6d845fcacc808b87bc1" 1 "cpp_redis::client::send(const std::vector&lt; std::string &gt; &amp;redis_cmd, const reply_callback_t &amp;callback)";
      Result "../classcpp__redis_1_1client.html#ad6216d6587d50694c16d68e8e182b0be" 1 "cpp_redis::client::send(const std::vector&lt; std::string &gt; &amp;redis_cmd)";
      Result "../classcpp__redis_1_1sentinel.html#a0df522dbd7debda4e73f616a62d6f5ee" 1 "cpp_redis::sentinel::send()";
      Result "../classcpp__redis_1_1network_1_1redis__connection.html#a98c163ce431e85e46e139211564b7b3f" 1 "cpp_redis::network::redis_connection::send()"];
    Entry "sentinel" "sentinel" [Result "../classcpp__redis_1_1sentinel.html" 1 "cpp_redis::sentinel";
      Result "../classcpp__redis_1_1sentinel.html#a2ea5a80a9139d5192706988521a2ae34" 1 "cpp_redis::sentinel::sentinel(void)";
      Result "../classcpp__redis_1_1sentinel.html#af53665f5834dfe5861a6310318ae5169" 1 "cpp_redis::sentinel::sentinel(const std::shared_ptr&lt; network::tcp_client_iface &gt; &amp;tcp_client)";
      Result "../classcpp__redis_1_1sentinel.html#a4c3b68f6e930b2e9723816bb8bed5a8f" 1 "cpp_redis::sentinel::sentinel(const sentinel &amp;)=delete"];
    Entry "sentinel_5fdef" "sentinel_def" [Result "../classcpp__redis_1_1sentinel_1_1sentinel__def.html" 1 "cpp_redis::sentinel::sentinel_def";
      Result "../classcpp__redis_1_1sentinel_1_1sentinel__def.html#a2d3116ce99ba2bd8c320ccc85901e5a1" 1 "cpp_redis::sentinel::sentinel_def::sentinel_def()"];
    Entry "sentinel_5fdisconnect_5fhandler_5ft" "sentinel_disconnect_handler_t" [Result "../classcpp__redis_1_1sentinel.html#a923e06b5b700c16dffec8a01d2fa9aa4" 1 "cpp_redis::sentinel"];
    Entry "set" "set" [Result "../structcpp__redis_1_1client_1_1bitfield__operation.html#a422fc09f99579cea5fcbcbc3464cdd4e" 1 "cpp_redis::client::bitfield_operation::set()";
      Result "../classcpp__redis_1_1reply.html#a2489d293128b2d567663a9d7fbbbc33e" 1 "cpp_redis::reply::set(void)";
      Result "../classcpp__redis_1_1reply.html#a9306dcc36a6a009a2b0f4923735f6349" 1 "cpp_redis::reply::set(const std::string &amp;value, string_type reply_type)";
      Result "../classcpp__redis_1_1reply.html#a2443bd6d4fb35279db198ba876e1ad34" 1 "cpp_redis::reply::set(int64_t value)";
      Result "../classcpp__redis_1_1reply.html#ab64ee3720832e60ed47b91fd5b3045bd" 1 "cpp_redis::reply::set(const std::vector&lt; reply &gt; &amp;rows)"];
    Entry "set_5fnb_5fworkers" "set_nb_workers" [Result "../classcpp__redis_1_1network_1_1tcp__client.html#aa56fc49540d67c5c05b3dda3aaff8a0f" 1 "cpp_redis::network::tcp_client"];
    Entry "set_5fon_5fdisconnection_5fhandler" "set_on_disconnection_handler" [Result "../classcpp__redis_1_1network_1_1tcp__client.html#a24ccdf6dc467aac13cb832a395adb38d" 1 "cpp_redis::network::tcp_client::set_on_disconnection_handler()";
      Result "../classcpp__redis_1_1network_1_1tcp__client__iface.html#acecf3b75c3849071d82478bc7a8c97a8" 1 "cpp_redis::network::tcp_client_iface::set_on_disconnection_handler()"];
    Entry "set_5ftimeout_5fmsecs" "set_timeout_msecs" [Result "../classcpp__redis_1_1sentinel_1_1sentinel__def.html#abc234e6c289f7b3d95868ae32343ff92" 1 "cpp_redis::sentinel::sentinel_def"];
    Entry "simple_5fstring_5fbuilder" "simple_string_builder" [Result "../classcpp__redis_1_1builders_1_1simple__string__builder.html" 1 "cpp_redis::builders::simple_string_builder";
      Result "../classcpp__redis_1_1builders_1_1simple__string__builder.html#a51fcb7777a78cbd3599aae8896e4d06a" 1 "cpp_redis::builders::simple_string_builder::simple_string_builder(void)";
      Result "../classcpp__redis_1_1builders_1_1simple__string__builder.html#a0a17d659e654ee1190c635d3b3093235" 1 "cpp_redis::builders::simple_string_builder::simple_string_builder(const simple_string_builder &amp;)=delete"];
    Entry "size" "size" [Result "../structcpp__redis_1_1network_1_1tcp__client__iface_1_1write__result.html#a580f3dbe5ea3f6f4b6b4ca0bfad2c06c" 1 "cpp_redis::network::tcp_client_iface::write_result::size()";
      Result "../structcpp__redis_1_1network_1_1tcp__client__iface_1_1read__request.html#a5ff8258391c9b3c8d2ce1a5c5a0304be" 1 "cpp_redis::network::tcp_client_iface::read_request::size()"];
    Entry "string_5ftype" "string_type" [Result "../classcpp__redis_1_1reply.html#ac192ba4cb8f2bb6e7cb465edf755328b" 1 "cpp_redis::reply"];
    Entry "subscribe" "subscribe" [Result "../classcpp__redis_1_1subscriber.html#afee579c702182041645a3d3c55de4b9e" 1 "cpp_redis::subscriber"];
    Entry "subscribe_5fcallback_5ft" "subscribe_callback_t" [Result "../classcpp__redis_1_1subscriber.html#ac6ab8ebc526d784e4b79a39bbd73dca8" 1 "cpp_redis::subscriber"];
    Entry "subscriber" "subscriber" [Result "../classcpp__redis_1_1subscriber.html" 1 "cpp_redis::subscriber";
      Result "../classcpp__redis_1_1subscriber.html#ab7feafca57399394e3a1a0d6daf52770" 1 "cpp_redis::subscriber::subscriber(void)";
      Result "../classcpp__redis_1_1subscriber.html#a66136601f44564842e2c67de2da199af" 1 "cpp_redis::subscriber::subscriber(const std::shared_ptr&lt; network::tcp_client_iface &gt; &amp;tcp_client)";
      Result "../classcpp__redis_1_1subscriber.html#af5f11532bf727eeb2d4a926bdc775cd7" 1 "cpp_redis::subscriber::subscriber(const subscriber &amp;)=delete"];
    Entry "success" "success" [Result "../structcpp__redis_1_1network_1_1tcp__client__iface_1_1read__result.html#ab9a3a54474c382a00323ed02f4239faa" 1 "cpp_redis::network::tcp_client_iface::read_result::success()";
      Result "../structcpp__redis_1_1network_1_1tcp__client__iface_1_1write__result.html#a677696941c9a7164bc0b93b5d8380d1a" 1 "cpp_redis::network::tcp_client_iface::write_result::success()"];
    Entry "sync_5fcommit" "sync_commit" [Result "../classcpp__redis_1_1client.html#a23c8a27ee691c52713411ae91e1391fb" 1 "cpp_redis::client::sync_commit(void)";
      Result "../classcpp__redis_1_1client.html#a79a24c8367cb1229fd2c4c38d0f82533" 1 "cpp_redis::client::sync_commit(const std::chrono::duration&lt; Rep, Period &gt; &amp;timeout)";
      Result "../classcpp__redis_1_1sentinel.html#a8e4d231ac89510c337fe97fe9e642785" 1 "cpp_redis::sentinel::sync_commit(void)";
      Result "../classcpp__redis_1_1sentinel.html#afbaa0b80266f70ad98c0bf8f28c533ab" 1 "cpp_redis::sentinel::sync_commit(const std::chrono::duration&lt; Rep, Period &gt; &amp;timeout)"]].

Definition redis_all_e : table :=
  [
    Entry "tcp_5fclient" "tcp_client" [Result "../classcpp__redis_1_1network_1_1tcp__client.html" 1 "cpp_redis::network::tcp_client";
      Result "../classcpp__redis_1_1network_1_1tcp__client.html#a8cbad07ca636e9d60dafc0e5cac8106d" 1 "cpp_redis::network::tcp_client::tcp_client()"];
    Entry "tcp_5fclient_5fiface" "tcp_client_iface" [Result "../classcpp__redis_1_1network_1_1tcp__client__iface.html" 1 "cpp_redis::network::tcp_client_iface";
      Result "../classcpp__redis_1_1network_1_1tcp__client__iface.html#a8504873049519bcebd626984e4087a90" 1 "cpp_redis::network::tcp_client_iface::tcp_client_iface()"];
    Entry "type" "type" [Result "../classcpp__redis_1_1reply.html#acc272b2a52164cac1d110c619a0b25bd" 1 "cpp_redis::reply::type()";
      Result "../structcpp__redis_1_1helpers_1_1back.html#a83f1d0c03ffc82ff8ab7243c3c858195" 1 "cpp_redis::helpers::back::type()";
      Result "../structcpp__redis_1_1helpers_1_1back_3_01_t_01_4.html#a87d10cfacd8ca29b083dc5688e77f87c" 1 "cpp_redis::helpers::back&lt; T &gt;::type()";
      Result "../structcpp__redis_1_1helpers_1_1front.html#a23178392c9417cc5ada75205931d1768" 1 "cpp_redis::helpers::front::type()";
      Result "../structcpp__redis_1_1client_1_1bitfield__operation.html#adbbf30e5138d0524940d536b2bc71480" 1 "cpp_redis::client::bitfield_operation::type()"]].

Definition redis_all_f : table :=
  [
    Entry "unsubscribe" "unsubscribe" [Result "../classcpp__redis_1_1subscriber.html#a08dffea41cfd5914adfa5a966e0ab292" 1 "cpp_redis::subscriber"]].

Definition redis_all_10 : table :=
  [
    Entry "value" "value" [Result "../structcpp__redis_1_1client_1_1bitfield__operation.html#a8104441f6b9ee7cbf5e6ee6c17c7445c" 1 "cpp_redis::client::bitfield_operation::value()";
      Result "../structcpp__redis_1_1helpers_1_1is__type__present.html#a7b5e8d970ba974a9b58cbc440983c25c" 1 "cpp_redis::helpers::is_type_present::value()";
      Result "../structcpp__redis_1_1helpers_1_1is__type__present_3_01_t1_00_01_t2_01_4.html#a1dbf43b76ba407caf9bfb35ffdbe55ad" 1 "cpp_redis::helpers::is_type_present&lt; T1, T2 &gt;::value()";
      Result "../structcpp__redis_1_1helpers_1_1is__different__types.html#a07dadd8ff3c8024734f231aaf1555626" 1 "cpp_redis::helpers::is_different_types::value()";
      Result "../structcpp__redis_1_1helpers_1_1is__different__types_3_01_t1_01_4.html#ae05b9b4af6846340ac66fcf64a622397" 1 "cpp_redis::helpers::is_different_types&lt; T1 &gt;::value()"]].

Definition redis_all_11 : table :=
  [
    Entry "warn" "warn" [Result "../classcpp__redis_1_1logger__iface.html#a0ea8e43a4f2118e77af56cd1cdb21cba" 1 "cpp_redis::logger_iface::warn()";
      Result "../classcpp__redis_1_1logger.html#ae9359429428786c7b5605a1109508ae5" 1 "cpp_redis::logger::warn()"];
    Entry "write_5frequest" "write_request" [Result "../structcpp__redis_1_1network_1_1tcp__client__iface_1_1write__request.html" 1 "cpp_redis::network::tcp_client_iface"];
    Entry "write_5fresult" "write_result" [Result "../structcpp__redis_1_1network_1_1tcp__client__iface_1_1write__result.html" 1 "cpp_redis::network::tcp_client_iface"]].

Definition redis_all_12 : table :=
  [
    Entry "_7earray_5fbuilder" "~array_builder" [Result "../classcpp__redis_1_1builders_1_1array__builder.html#ae6a0cd0743b6b0a21f9c3d44fd31ac17" 1 "cpp_redis::builders::array_builder"];
    Entry "_7ebulk_5fstring_5fbuilder" "~bulk_string_builder" [Result "../classcpp__redis_1_1builders_1_1bulk__string__builder.html#a88c7142bab456f70da9f9a6252e2affb" 1 "cpp_redis::builders::bulk_string_builder"];
    Entry "_7eclient" "~client" [Result "../classcpp__redis_1_1client.html#aca7030c8bd6856f10314b2862d1bae79" 1 "cpp_redis::client"];
    Entry "_7eerror_5fbuilder" "~error_builder" [Result "../classcpp__redis_1_1builders_1_1error__builder.html#a7650c178a457c57c2efb19e7ad256fe7" 1 "cpp_redis::builders::error_builder"];
    Entry "_7einteger_5fbuilder" "~integer_builder" [Result "../classcpp__redis_1_1builders_1_1integer__builder.html#ab2b797dd89b1bdec50f8ccf07633162f" 1 "cpp_redis::builders::integer_builder"];
    Entry "_7elogger" "~logger" [Result "../classcpp__redis_1_1logger.html#ab5eb02b26c96a6e5cba9a7d30669f625" 1 "cpp_redis::logger"];
    Entry "_7elogger_5fiface" "~logger_iface" [Result "../classcpp__redis_1_1logger__iface.html#ac7ed1b828afd2e6589fcdda167d34aa5" 1 "cpp_redis::logger_iface"];
    Entry "_7eredis_5fconnection" "~redis_connection" [Result "../classcpp__redis_1_1network_1_1redis__connection.html#a9d392191ce262eddd5570b57e07aa051" 1 "cpp_redis::network::redis_connection"];
    Entry "_7ereply" "~reply" [Result "../classcpp__redis_1_1reply.html#a1acfe6cbc763368cc2a9eef25afffe35" 1 "cpp_redis::reply"];
    Entry "_7ereply_5fbuilder" "~reply_builder" [Result "../classcpp__redis_1_1builders_1_1reply__builder.html#ac2df7e1ed2f67e01090ad45926c9af1e" 1 "cpp_redis::builders::reply_builder"];
    Entry "_7esentinel" "~sentinel" [Result "../classcpp__redis_1_1sentinel.html#af8535e89714db8ddcd7e74337ee5385a" 1 "cpp_redis::sentinel"];
    Entry "_7esentinel_5fdef" "~sentinel_def" [Result "../classcpp__redis_1_1sentinel_1_1sentinel__def.html#a5189d8016d9b385099e5ee0828ed7666" 1 "cpp_redis::sentinel::sentinel_def"];
    Entry "_7esimple_5fstring_5fbuilder" "~simple_string_builder" [Result "../classcpp__redis_1_1builders_1_1simple__string__builder.html#a7b4f012c532535801f9d5fddbb01d675" 1 "cpp_redis::builders::simple_string_builder"];
    Entry "_7esubscriber" "~subscriber" [Result "../classcpp__redis_1_1subscriber.html#a878caeb144b11de30466a380b09abc30" 1 "cpp_redis::subscriber"];
    Entry "_7etcp_5fclient" "~tcp_client" [Result "../classcpp__redis_1_1network_1_1tcp__client.html#af859036bbc7e5ec9149c1410a1a66f09" 1 "cpp_redis::network::tcp_client"];
    Entry "_7etcp_5fclient_5fiface" "~tcp_client_iface" [Result "../classcpp__redis_1_1network_1_1tcp__client__iface.html#a7381e8921118a13b5994101864906122" 1 "cpp_redis::network::tcp_client_iface"]].

Definition redis_classes_0 : table :=
  [
    Entry "array_5fbuilder" "array_builder" [Result "../classcpp__redis_1_1builders_1_1array__builder.html" 1 "cpp_redis::builders"]].

Definition redis_classes_1 : table :=
  [
    Entry "back" "back" [Result "../structcpp__redis_1_1helpers_1_1back.html" 1 "cpp_redis::helpers"];
    Entry "back_3c_20t_20_3e" "back&lt; T &gt;" [Result "../structcpp__redis_1_1helpers_1_1back_3_01_t_01_4.html" 1 "cpp_redis::helpers"];
    Entry "bitfield_5foperation" "bitfield_operation" [Result "../structcpp__redis_1_1client_1_1bitfield__operation.html" 1 "cpp_redis::client"];
    Entry "builder_5fiface" "builder_iface" [Result "../classcpp__redis_1_1builders_1_1builder__iface.html" 1 "cpp_redis::builders"];
    Entry "bulk_5fstring_5fbuilder" "bulk_string_builder" [Result "../classcpp__redis_1_1builders_1_1bulk__string__builder.html" 1 "cpp_redis::builders"]].

Definition redis_classes_2 : table :=
  [
    Entry "client" "client" [Result "../classcpp__redis_1_1client.html" 1 "cpp_redis"]].

Definition redis_classes_3 : table :=
  [
    Entry "error_5fbuilder" "error_builder" [Result "../classcpp__redis_1_1builders_1_1error__builder.html" 1 "cpp_redis::builders"]].

Definition redis_classes_4 : table :=
  [
    Entry "front" "front" [Result "../structcpp__redis_1_1helpers_1_1front.html" 1 "cpp_redis::helpers"]].

Definition redis_classes_5 : table :=
  [
    Entry "integer_5fbuilder" "integer_builder" [Result "../classcpp__redis_1_1builders_1_1integer__builder.html" 1 "cpp_redis::builders"];
    Entry "is_5fdifferent_5ftypes" "is_different_types" [Result "../structcpp__redis_1_1helpers_1_1is__different__types.html" 1 "cpp_redis::helpers"];
    Entry "is_5fdifferent_5ftypes_3c_20t1_20_3e" "is_different_types&lt; T1 &gt;" [Result "../structcpp__redis_1_1helpers_1_1is__different__types_3_01_t1_01_4.html" 1 "cpp_redis::helpers"];
    Entry "is_5ftype_5fpresent" "is_type_present" [Result "../structcpp__redis_1_1helpers_1_1is__type__present.html" 1 "cpp_redis::helpers"];
    Entry "is_5ftype_5fpresent_3c_20t1_2c_20t2_20_3e" "is_type_present&lt; T1, T2 &gt;" [Result "../structcpp__redis_1_1helpers_1_1is__type__present_3_01_t1_00_01_t2_01_4.html" 1 "cpp_redis::helpers"]].

Definition redis_classes_6 : table :=
  [
    Entry "logger" "logger" [Result "../classcpp__redis_1_1logger.html" 1 "cpp_redis"];
    Entry "logger_5fiface" "logger_iface" [Result "../classcpp__redis_1_1logger__iface.html" 1 "cpp_redis"]].

Definition redis_classes_7 : table :=
  [
    Entry "read_5frequest" "read_request" [Result "../structcpp__redis_1_1network_1_1tcp__client__iface_1_1read__request.html" 1 "cpp_redis::network::tcp_client_iface"];
    Entry "read_5fresult" "read_result" [Result "../structcpp__redis_1_1network_1_1tcp__client__iface_1_1read__result.html" 1 "cpp_redis::network::tcp_client_iface"];
    Entry "redis_5fconnection" "redis_connection" [Result "../classcpp__redis_1_1network_1_1redis__connection.html" 1 "cpp_redis::network"];
    Entry "redis_5ferror" "redis_error" [Result "../classcpp__redis_1_1redis__error.html" 1 "cpp_redis"];
    Entry "reply" "reply" [Result "../classcpp__redis_1_1reply.html" 1 "cpp_redis"];
    Entry "reply_5fbuilder" "reply_builder" [Result "../classcpp__redis_1_1builders_1_1reply__builder.html" 1 "cpp_redis::builders"]].

Definition redis_classes_8 : table :=
  [
    Entry "sentinel" "sentinel" [Result "../classcpp__redis_1_1sentinel.html" 1 "cpp_redis"];
    Entry "sentinel_5fdef" "sentinel_def" [Result "../classcpp__redis_1_1sentinel_1_1sentinel__def.html" 1 "cpp_redis::sentinel"];
    Entry "simple_5fstring_5fbuilder" "simple_string_builder" [Result "../classcpp__redis_1_1builders_1_1simple__string__builder.html" 1 "cpp_redis::builders"];
    Entry "subscriber" "subscriber" [Result "../classcpp__redis_1_1subscriber.html" 1 "cpp_redis"]].

Definition redis_classes_9 : table :=
  [
    Entry "tcp_5fclient" "tcp_client" [Result "../classcpp__redis_1_1network_1_1tcp__client.html" 1 "cpp_redis::network"];
    Entry "tcp_5fclient_5fiface" "tcp_client_iface" [Result "../classcpp__redis_1_1network_1_1tcp__client__iface.html" 1 "cpp_redis::network"]].

Definition redis_classes_a : table :=
  [
    Entry "write_5frequest" "write_request" [Result "../structcpp__redis_1_1network_1_1tcp__client__iface_1_1write__request.html" 1 "cpp_redis::network::tcp_client_iface"];
    Entry "write_5fresult" "write_result" [Result "../structcpp__redis_1_1network_1_1tcp__client__iface_1_1write__result.html" 1 "cpp_redis::network::tcp_client_iface"]].

Definition redis_functions_0 : table :=
  [
    Entry "add_5fsentinel" "add_sentinel" [Result "../classcpp__redis_1_1client.html#abd52019ee708559179c501892e6448dc" 1 "cpp_redis::client::add_sentinel()";
      Result "../classcpp__redis_1_1sentinel.html#a6c846b71478c330d2cad7aa662dfd681" 1 "cpp_redis::sentinel::add_sentinel()";
      Result "../classcpp__redis_1_1subscriber.html#a2faf9e9cc9c95e3c0fed148355af84f1" 1 "cpp_redis::subscriber::add_sentinel()"];
    Entry "aggregate_5fmethod_5fto_5fstring" "aggregate_method_to_string" [Result "../classcpp__redis_1_1client.html#accc567df4dd23b30defdd9605719e0ca" 1 "cpp_redis::client"];
    Entry "array_5fbuilder" "array_builder" [Result "../classcpp__redis_1_1builders_1_1array__builder.html#a4beae33a547d3d7efc112659411a23a3" 1 "cpp_redis::builders::array_builder::array_builder(void)";
      Result "../classcpp__redis_1_1builders_1_1array__builder.html#aa0e5fe9a587b277a473d66b7e6db9548" 1 "cpp_redis::builders::array_builder::array_builder(const array_builder &amp;)=delete"];
    Entry "as_5farray" "as_array" [Result "../classcpp__redis_1_1reply.html#af4ead6a79c9e531912c35267d5212776" 1 "cpp_redis::reply"];
    Entry "as_5finteger" "as_integer" [Result "../classcpp__redis_1_1reply.html#a5f54d0dada956bca564ff2d7bde866ea" 1 "cpp_redis::reply"];
    Entry "as_5fstring" "as_string" [Result "../classcpp__redis_1_1reply.html#a5fdd9c1d3bb3b9ece6098f8b83a32597" 1 "cpp_redis::reply"];
    Entry "async_5fread" "async_read" [Result "../classcpp__redis_1_1network_1_1tcp__client.html#a5eed4225fcd01e3108580d863c94c2cc" 1 "cpp_redis::network::tcp_client::async_read()";
      Result "../classcpp__redis_1_1network_1_1tcp__client__iface.html#ae1f9fa87002273a0caf340407bb68ade" 1 "cpp_redis::network::tcp_client_iface::async_read()"];
    Entry "async_5fwrite" "async_write" [Result "../classcpp__redis_1_1network_1_1tcp__client.html#a6d15785b71776cd85426c9634cb446f0" 1 "cpp_redis::network::tcp_client::async_write()";
      Result "../classcpp__redis_1_1network_1_1tcp__client__iface.html#a9cd01e8a68479456d15d6435ffad9b92" 1 "cpp_redis::network::tcp_client_iface::async_write()"];
    Entry "auth" "auth" [Result "../classcpp__redis_1_1subscriber.html#a7b4564fc4dfe356b95aeae4fdb8071c9" 1 "cpp_redis::subscriber"]].

Definition redis_functions_1 : table :=
  [
    Entry "bitfield_5foperation_5ftype_5fto_5fstring" "bitfield_operation_type_to_string" [Result "../classcpp__redis_1_1client.html#a11a73f30d14e6d27f6c8c8cee53a3a04" 1 "cpp_redis::client"];
    Entry "bulk_5fstring_5fbuilder" "bulk_string_builder" [Result "../classcpp__redis_1_1builders_1_1bulk__string__builder.html#a1c0bee3cd6fbafc782cfe93c0b650451" 1 "cpp_redis::builders::bulk_string_builder::bulk_string_builder(void)";
      Result "../classcpp__redis_1_1builders_1_1bulk__string__builder.html#ac3bd10f8972fa1856b6e7b7262ecd98f" 1 "cpp_redis::builders::bulk_string_builder::bulk_string_builder(const bulk_string_builder &amp;)=delete"]].

Definition redis_functions_2 : table :=
  [
    Entry "cancel_5freconnect" "cancel_reconnect" [Result "../classcpp__redis_1_1client.html#adb605a877f65b8f54725576b45aeeca6" 1 "cpp_redis::client::cancel_reconnect()";
      Result "../classcpp__redis_1_1subscriber.html#a6d5bdcf7c5a67d1b56b021bbd450a7c3" 1 "cpp_redis::subscriber::cancel_reconnect()"];
    Entry "clear_5fsentinels" "clear_sentinels" [Result "../classcpp__redis_1_1client.html#a68cd15d1cc30302237e3a400e2ac43f5" 1 "cpp_redis::client::clear_sentinels()";
      Result "../classcpp__redis_1_1sentinel.html#ac36640b3f392970c72f5a513a2d61ac7" 1 "cpp_redis::sentinel::clear_sentinels()";
      Result "../classcpp__redis_1_1subscriber.html#ac8f371c14866842cdda7cf1ee5eee2b8" 1 "cpp_redis::subscriber::clear_sentinels()"];
    Entry "client" "client" [Result "../classcpp__redis_1_1client.html#a80354f41d084dfc3a41df581c803b792" 1 "cpp_redis::client::client(void)";
      Result "../classcpp__redis_1_1client.html#ae879c3a6829a2da9d03f80c1ec4b8d9b" 1 "cpp_redis::client::client(const std::shared_ptr&lt; network::tcp_client_iface &gt; &amp;tcp_client)";
      Result "../classcpp__redis_1_1client.html#ab938aeb2a144629fd269594e4af08168" 1 "cpp_redis::client::client(const client &amp;)=delete"];
    Entry "client_5fkill" "client_kill" [Result "../classcpp__redis_1_1client.html#ae4090830d1710276c33ff5a74eba2e4b" 1 "cpp_redis::client"];
    Entry "client_5fkill_5ffuture" "client_kill_future" [Result "../classcpp__redis_1_1client.html#ae6f09b6c022c910b79fb90a47291f511" 1 "cpp_redis::client"];
    Entry "commit" "commit" [Result "../classcpp__redis_1_1client.html#a36a48d61a4900e88fd67795ca59cbea3" 1 "cpp_redis::client::commit()";
      Result "../classcpp__redis_1_1sentinel.html#ad4f85d486499f82225b244f85091b31e" 1 "cpp_redis::sentinel::commit()";
      Result "../classcpp__redis_1_1subscriber.html#abbf600802ed93b82323185eec5719ecb" 1 "cpp_redis::subscriber::commit()";
      Result "../classcpp__redis_1_1network_1_1redis__connection.html#a8e6980d40139877c16e995051b780d60" 1 "cpp_redis::network::redis_connection::commit()"];
    Entry "connect" "connect" [Result "../classcpp__redis_1_1client.html#adda8b3e7b4f9c80ac052753b39178dd5" 1 "cpp_redis::client::connect(const std::string &amp;host=&quot;127.0.0.1&quot;, std::size_t port=6379, const connect_callback_t &amp;connect_callback=nullptr, std::uint32_t timeout_msecs=0, std::int32_t max_reconnects=0, std::uint32_t reconnect_interval_msecs=0)";
      Result "../classcpp__redis_1_1client.html#a15bcb0885129480543482a7da52af892" 1 "cpp_redis::client::connect(const std::string &amp;name, const connect_callback_t &amp;connect_callback=nullptr, std::uint32_t timeout_msecs=0, std::int32_t max_reconnects=0, std::uint32_t reconnect_interval_msecs=0)";
      Result "../classcpp__redis_1_1sentinel.html#a1dfba8240daf7cfa7502f57957cffbda" 1 "cpp_redis::sentinel::connect()";
      Result "../classcpp__redis_1_1subscriber.html#a6ae8134a9a9b31d6f2434ec4f6e86d3a" 1 "cpp_redis::subscriber::connect(const std::string &amp;host=&quot;127.0.0.1&quot;, std::size_t port=6379, const connect_callback_t &amp;connect_callback=nullptr, std::uint32_t timeout_msecs=0, std::int32_t max_reconnects=0, std::uint32_t reconnect_interval_msecs=0)";
      Result "../classcpp__redis_1_1subscriber.html#a8fb77a44a1e1f0d99dec639658e2aa7e" 1 "cpp_redis::subscriber::connect(const std::string &amp;name, const connect_callback_t &amp;connect_callback=nullptr, std::uint32_t timeout_msecs=0, std::int32_t max_reconnects=0, std::uint32_t reconnect_interval_msecs=0)";
      Result "../classcpp__redis_1_1network_1_1redis__connection.html#af105573e46eadbc34a9f5907832df19f" 1 "cpp_redis::network::redis_connection::connect()";
      Result "../classcpp__redis_1_1network_1_1tcp__client.html#a5808c0569980d83479f755ac55a12dfb" 1 "cpp_redis::network::tcp_client::connect()";
      Result "../classcpp__redis_1_1network_1_1tcp__client__iface.html#a81ee982136e85b7c3401393341bc594c" 1 "cpp_redis::network::tcp_client_iface::connect()"];
    Entry "connect_5fsentinel" "connect_sentinel" [Result "../classcpp__redis_1_1sentinel.html#a82c8cb23efab71ff00cf2277bba91e90" 1 "cpp_redis::sentinel"]].

Definition redis_functions_3 : table :=
  [
    Entry "debug" "debug" [Result "../classcpp__redis_1_1logger__iface.html#aaace9e12cbb32d7bdd76c17180a30de7" 1 "cpp_redis::logger_iface::debug()";
      Result "../classcpp__redis_1_1logger.html#a36e0908e7b05850b663a4b8b9cdbc299" 1 "cpp_redis::logger::debug()"];
    Entry "disconnect" "disconnect" [Result "../classcpp__redis_1_1client.html#a292252b61bcfdf9ad3854b54b7fe2740" 1 "cpp_redis::client::disconnect()";
      Result "../classcpp__redis_1_1sentinel.html#af607d8c5a20ada35daad251f1b1b2f68" 1 "cpp_redis::sentinel::disconnect()";
      Result "../classcpp__redis_1_1subscriber.html#aad1d0c3c6edb1522eb7b1bdb64b4705d" 1 "cpp_redis::subscriber::disconnect()";
      Result "../classcpp__redis_1_1network_1_1redis__connection.html#a614a01ce8abd69b44f3d072423d2e696" 1 "cpp_redis::network::redis_connection::disconnect()";
      Result "../classcpp__redis_1_1network_1_1tcp__client.html#a88f49c4e32d59855a62296fb74136a44" 1 "cpp_redis::network::tcp_client::disconnect()";
      Result "../classcpp__redis_1_1network_1_1tcp__client__iface.html#a024073fb3436d8fa99de8cad63418f6c" 1 "cpp_redis::network::tcp_client_iface::disconnect()"]].

Definition redis_functions_4 : table :=
  [
    Entry "error" "error" [Result "../classcpp__redis_1_1reply.html#a8e4d3fe1636627fdee6361705a2b1c1e" 1 "cpp_redis::reply::error()";
      Result "../classcpp__redis_1_1logger__iface.html#ac8353031252c80e69e35f5f131870ddf" 1 "cpp_redis::logger_iface::error()";
      Result "../classcpp__redis_1_1logger.html#aaf7f2837511f4414a4d7b7b923ebc15e" 1 "cpp_redis::logger::error()"];
    Entry "error_5fbuilder" "error_builder" [Result "../classcpp__redis_1_1builders_1_1error__builder.html#abbc5e14b66702ec8b210fb1d288d2423" 1 "cpp_redis::builders::error_builder::error_builder(void)=default";
      Result "../classcpp__redis_1_1builders_1_1error__builder.html#a2aee65fdc05abfacda73987e2cf60609" 1 "cpp_redis::builders::error_builder::error_builder(const error_builder &amp;)=delete"]].

Definition redis_functions_5 : table :=
  [
    Entry "geo_5funit_5fto_5fstring" "geo_unit_to_string" [Result "../classcpp__redis_1_1client.html#aa8a686097a5340eb50e838f14342e302" 1 "cpp_redis::client"];
    Entry "get" "get" [Result "../structcpp__redis_1_1client_1_1bitfield__operation.html#a93d3f7ab6b6bae82ac209bb49374d788" 1 "cpp_redis::client::bitfield_operation"];
    Entry "get_5fbulk_5fstring" "get_bulk_string" [Result "../classcpp__redis_1_1builders_1_1bulk__string__builder.html#a6b3e70acab5c115609db774becbcc571" 1 "cpp_redis::builders::bulk_string_builder"];
    Entry "get_5ferror" "get_error" [Result "../classcpp__redis_1_1builders_1_1error__builder.html#adeef989fb2f5e47e001783cfda48e341" 1 "cpp_redis::builders::error_builder"];
    Entry "get_5ffront" "get_front" [Result "../classcpp__redis_1_1builders_1_1reply__builder.html#ac37b532920ace20e24a40ea1c61940fe" 1 "cpp_redis::builders::reply_builder"];
    Entry "get_5fhost" "get_host" [Result "../classcpp__redis_1_1sentinel_1_1sentinel__def.html#af61b33ea2b5154735e4b804039771f19" 1 "cpp_redis::sentinel::sentinel_def"];
    Entry "get_5finteger" "get_integer" [Result "../classcpp__redis_1_1builders_1_1integer__builder.html#af68431c4c81242c1930b3b4feb2028e5" 1 "cpp_redis::builders::integer_builder"];
    Entry "get_5fmaster_5faddr_5fby_5fname" "get_master_addr_by_name" [Result "../classcpp__redis_1_1sentinel.html#a2886493b40b00dfafdd3b22dfe28e0c3" 1 "cpp_redis::sentinel"];
    Entry "get_5fport" "get_port" [Result "../classcpp__redis_1_1sentinel_1_1sentinel__def.html#a1994bec14cc8703d1198de96b66a0f30" 1 "cpp_redis::sentinel::sentinel_def"];
    Entry "get_5freply" "get_reply" [Result "../classcpp__redis_1_1builders_1_1array__builder.html#ac5c805ad87b357a9578c5a0d479109b3" 1 "cpp_redis::builders::array_builder::get_reply()";
      Result "../classcpp__redis_1_1builders_1_1builder__iface.html#afd2ff2c2371c2a486116543b638b9413" 1 "cpp_redis::builders::builder_iface::get_reply()";
      Result "../classcpp__redis_1_1builders_1_1bulk__string__builder.html#a56d6d3089107a1bccd63f6a5267c16cb" 1 "cpp_redis::builders::bulk_string_builder::get_reply()";
      Result "../classcpp__redis_1_1builders_1_1error__builder.html#ae2b68b7daad4d71b6780e47bdcc1e32b" 1 "cpp_redis::builders::error_builder::get_reply()";
      Result "../classcpp__redis_1_1builders_1_1integer__builder.html#a25221763ba6f8b740458c673945208e0" 1 "cpp_redis::builders::integer_builder::get_reply()";
      Result "../classcpp__redis_1_1builders_1_1simple__string__builder.html#a24ad0968d7d02172a65cf8982c540d51" 1 "cpp_redis::builders::simple_string_builder::get_reply()"];
    Entry "get_5fsentinel" "get_sentinel" [Result "../classcpp__redis_1_1client.html#a9f94860dad26bca4e860a56ca8aefe36" 1 "cpp_redis::client::get_sentinel(void) const";
      Result "../classcpp__redis_1_1client.html#a9457cea98f061ce6071f897ba8605813" 1 "cpp_redis::client::get_sentinel(void)";
      Result "../classcpp__redis_1_1subscriber.html#a55a8906106adceca1faf6ab26e040f8a" 1 "cpp_redis::subscriber::get_sentinel(void) const";
      Result "../classcpp__redis_1_1subscriber.html#ae883ef7e41753d5c1d819260d7574e4b" 1 "cpp_redis::subscriber::get_sentinel(void)"];
    Entry "get_5fsentinels" "get_sentinels" [Result "../classcpp__redis_1_1sentinel.html#adec98cdde0500e44b8fda26a44f14b49" 1 "cpp_redis::sentinel::get_sentinels(void) const";
      Result "../classcpp__redis_1_1sentinel.html#a62cc14b7795d746cc7d0053c1e0a3abd" 1 "cpp_redis::sentinel::get_sentinels(void)"];
    Entry "get_5fsimple_5fstring" "get_simple_string" [Result "../classcpp__redis_1_1builders_1_1simple__string__builder.html#a539ba8a9234269e57471f1973adc58c2" 1 "cpp_redis::builders::simple_string_builder"];
    Entry "get_5ftimeout_5fmsecs" "get_timeout_msecs" [Result "../classcpp__redis_1_1sentinel_1_1sentinel__def.html#af7aa53bdf7bd56becdad9205e82949c5" 1 "cpp_redis::sentinel::sentinel_def"];
    Entry "get_5ftype" "get_type" [Result "../classcpp__redis_1_1reply.html#ab196726881aea799186228d49a2283ba" 1 "cpp_redis::reply"]].

Definition redis_functions_6 : table :=
  [
    Entry "incrby" "incrby" [Result "../structcpp__redis_1_1client_1_1bitfield__operation.html#a9e3ad296a689764917df9da1424f33d5" 1 "cpp_redis::client::bitfield_operation"];
    Entry "info" "info" [Result "../classcpp__redis_1_1logger__iface.html#a02e62f55d7da56efa3b47f2b05931b3b" 1 "cpp_redis::logger_iface::info()";
      Result "../classcpp__redis_1_1logger.html#a04c741b5110946e76bb23728da6fb2ac" 1 "cpp_redis::logger::info()"];
    Entry "integer_5fbuilder" "integer_builder" [Result "../classcpp__redis_1_1builders_1_1integer__builder.html#a9ff2d3d27da0fb8b98fc4a0ea255fece" 1 "cpp_redis::builders::integer_builder::integer_builder(void)";
      Result "../classcpp__redis_1_1builders_1_1integer__builder.html#ab451b7fe5de8cf6f618cf9be1569aa41" 1 "cpp_redis::builders::integer_builder::integer_builder(const integer_builder &amp;)=delete"];
    Entry "is_5farray" "is_array" [Result "../classcpp__redis_1_1reply.html#a3a94881a46125d281cb36191c4b7d19a" 1 "cpp_redis::reply"];
    Entry "is_5fbulk_5fstring" "is_bulk_string" [Result "../classcpp__redis_1_1reply.html#ab1f4e57a33fb438ab165a65f2d31ca8d" 1 "cpp_redis::reply"];
    Entry "is_5fconnected" "is_connected" [Result "../classcpp__redis_1_1client.html#ad3608dec2c2bfabf2c621ce14f4db37a" 1 "cpp_redis::client::is_connected()";
      Result "../classcpp__redis_1_1sentinel.html#aa98a0593e6e7c04d8d0dd1f292cdce47" 1 "cpp_redis::sentinel::is_connected()";
      Result "../classcpp__redis_1_1subscriber.html#a13ff83c3944b33851dfcf364f53b146c" 1 "cpp_redis::subscriber::is_connected()";
      Result "../classcpp__redis_1_1network_1_1redis__connection.html#ad3d96826e2e67fb3fed23280237d4d9c" 1 "cpp_redis::network::redis_connection::is_connected()";
      Result "../classcpp__redis_1_1network_1_1tcp__client.html#a0a636ca6bd59425bf22416a1c7694f65" 1 "cpp_redis::network::tcp_client::is_connected()";
      Result "../classcpp__redis_1_1network_1_1tcp__client__iface.html#a41ad0b43e3ab172828a3d2ce55d23893" 1 "cpp_redis::network::tcp_client_iface::is_connected()"];
    Entry "is_5ferror" "is_error" [Result "../classcpp__redis_1_1reply.html#af61ba1b5a0617c0036fb69e7ad5ee159" 1 "cpp_redis::reply"];
    Entry "is_5finteger" "is_integer" [Result "../classcpp__redis_1_1reply.html#a75216234d6aafd8f81025b22bdbb4440" 1 "cpp_redis::reply"];
    Entry "is_5fnull" "is_null" [Result "../classcpp__redis_1_1builders_1_1bulk__string__builder.html#a2a6ab893dbe5ad2433df18ce62ca6211" 1 "cpp_redis::builders::bulk_string_builder::is_null()";
      Result "../classcpp__redis_1_1reply.html#ac9a967c09aad1cdc7ec3459a330ab274" 1 "cpp_redis::reply::is_null()"];
    Entry "is_5freconnecting" "is_reconnecting" [Result "../classcpp__redis_1_1client.html#af03ca1aec6416ab35e6aea93c74d89d1" 1 "cpp_redis::client::is_reconnecting()";
      Result "../classcpp__redis_1_1subscriber.html#a32eb4feb4858c972ebb9887d21cb62d7" 1 "cpp_redis::subscriber::is_reconnecting()"];
    Entry "is_5fsimple_5fstring" "is_simple_string" [Result "../classcpp__redis_1_1reply.html#aeb92f6f84d226239e9800893ab6062ca" 1 "cpp_redis::reply"];
    Entry "is_5fstring" "is_string" [Result "../classcpp__redis_1_1reply.html#a7072729490fdbad26ddeb02df8002147" 1 "cpp_redis::reply"]].

Definition redis_functions_7 : table :=
  [
    Entry "ko" "ko" [Result "../classcpp__redis_1_1reply.html#a17e261cc8e7686bb2126d7df9223611a" 1 "cpp_redis::reply"]].

Definition redis_functions_8 : table :=
  [
    Entry "logger" "logger" [Result "../classcpp__redis_1_1logger.html#a36b15a75690a087fca7d304852785512" 1 "cpp_redis::logger::logger(log_level level=log_level::info)";
      Result "../classcpp__redis_1_1logger.html#aec0854d47a13f91e09db25e745a3d722" 1 "cpp_redis::logger::logger(const logger &amp;)=default"];
    Entry "logger_5fiface" "logger_iface" [Result "../classcpp__redis_1_1logger__iface.html#a902e41bf0777b960b6575e7ac986147b" 1 "cpp_redis::logger_iface::logger_iface(void)=default";
      Result "../classcpp__redis_1_1logger__iface.html#a7f1cb271b18e40f2dde7e45028e69a84" 1 "cpp_redis::logger_iface::logger_iface(const logger_iface &amp;)=default"]].

Definition redis_functions_9 : table :=
  [
    Entry "ok" "ok" [Result "../classcpp__redis_1_1reply.html#a1270c4197e0ce79df996565f44011ac0" 1 "cpp_redis::reply"];
    Entry "operator_20bool" "operator bool" [Result "../classcpp__redis_1_1reply.html#a74ef4651c068bfc68436f7e3c7a9a2e6" 1 "cpp_redis::reply"];
    Entry "operator_3c_3c" "operator&lt;&lt;" [Result "../classcpp__redis_1_1builders_1_1array__builder.html#a043357d0ef70406adef4df78c8d5307f" 1 "cpp_redis::builders::array_builder::operator&lt;&lt;()";
      Result "../classcpp__redis_1_1builders_1_1builder__iface.html#a9892bbc9c887c31c2742dad4476e2fa6" 1 "cpp_redis::builders::builder_iface::operator&lt;&lt;()";
      Result "../classcpp__redis_1_1builders_1_1bulk__string__builder.html#a43000357f87212f657aafe279a92b541" 1 "cpp_redis::builders::bulk_string_builder::operator&lt;&lt;()";
      Result "../classcpp__redis_1_1builders_1_1error__builder.html#af5ac542be148d6f8500de79fa3164798" 1 "cpp_redis::builders::error_builder::operator&lt;&lt;()";
      Result "../classcpp__redis_1_1builders_1_1integer__builder.html#ae29f074134f7269db7f947b0fcbe312e" 1 "cpp_redis::builders::integer_builder::operator&lt;&lt;()";
      Result "../classcpp__redis_1_1builders_1_1reply__builder.html#a5f675e309a7a6002d582293c6410c967" 1 "cpp_redis::builders::reply_builder::operator&lt;&lt;()";
      Result "../classcpp__redis_1_1builders_1_1simple__string__builder.html#a159bb512f0427c4a988742f7cd01035e" 1 "cpp_redis::builders::simple_string_builder::operator&lt;&lt;()";
      Result "../classcpp__redis_1_1reply.html#a4f2a05711b5db6b53108cb9eec4e19be" 1 "cpp_redis::reply::operator&lt;&lt;()"];
    Entry "operator_3d" "operator=" [Result "../classcpp__redis_1_1builders_1_1array__builder.html#aaa1df845df7a007cf73f95f73e800c2c" 1 "cpp_redis::builders::array_builder::operator=()";
      Result "../classcpp__redis_1_1builders_1_1bulk__string__builder.html#a972355e0910faa9e3daf4f5c67c3e581" 1 "cpp_redis::builders::bulk_string_builder::operator=()";
      Result "../classcpp__redis_1_1builders_1_1error__builder.html#a0b1be51200ff84f17693ee888b03d505" 1 "cpp_redis::builders::error_builder::operator=()";
      Result "../classcpp__redis_1_1builders_1_1integer__builder.html#a259905e8a34765d6ff9d2dd64f444b54" 1 "cpp_redis::builders::integer_builder::operator=()";
      Result "../classcpp__redis_1_1builders_1_1reply__builder.html#a445ca388e241fe95b522890fee8c14ca" 1 "cpp_redis::builders::reply_builder::operator=()";
      Result "../classcpp__redis_1_1builders_1_1simple__string__builder.html#afc86dd3148ef0094d08b4282f7cb597d" 1 "cpp_redis::builders::simple_string_builder::operator=()";
      Result "../classcpp__redis_1_1client.html#afdab99b1752e759ab3ce9477f2cb092d" 1 "cpp_redis::client::operator=()";
      Result "../classcpp__redis_1_1reply.html#a3482157af73f4a60a6386f057e484e5b" 1 "cpp_redis::reply::operator=()";
      Result "../classcpp__redis_1_1sentinel.html#a06b8d049160e3990cdac3158aaf160a6" 1 "cpp_redis::sentinel::operator=()";
      Result "../classcpp__redis_1_1subscriber.html#ac60f83e6e915073bda6853baaeb39485" 1 "cpp_redis::subscriber::operator=()";
      Result "../classcpp__redis_1_1logger__iface.html#a04324701cb81ba6a23f73025b0b3eee0" 1 "cpp_redis::logger_iface::operator=()";
      Result "../classcpp__redis_1_1logger.html#a09d012d32f35421a16ec73143adc4415" 1 "cpp_redis::logger::operator=()";
      Result "../classcpp__redis_1_1network_1_1redis__connection.html#a54a4c28ad1b9e9f3bac2854fddf4e30d" 1 "cpp_redis::network::redis_connection::operator=()"];
    Entry "operator_3e_3e" "operator&gt;&gt;" [Result "../classcpp__redis_1_1builders_1_1reply__builder.html#a71c0c93754b0bffb9c84c86ac3096bc4" 1 "cpp_redis::builders::reply_builder"];
    Entry "overflow_5ftype_5fto_5fstring" "overflow_type_to_string" [Result "../classcpp__redis_1_1client.html#a696a7fa2b06245323eca8c232d307585" 1 "cpp_redis::client"]].

Definition redis_functions_a : table :=
  [
    Entry "pop_5ffront" "pop_front" [Result "../classcpp__redis_1_1builders_1_1reply__builder.html#a0b5fb8dd4fc87c508e0a45647bc86b16" 1 "cpp_redis::builders::reply_builder"];
    Entry "psubscribe" "psubscribe" [Result "../classcpp__redis_1_1subscriber.html#a52605edb2a85d370680c3c9e1b84fc3b" 1 "cpp_redis::subscriber"];
    Entry "punsubscribe" "punsubscribe" [Result "../classcpp__redis_1_1subscriber.html#a26edc7dcf87ddc8734fac04878ca307a" 1 "cpp_redis::subscriber"]].

Definition redis_functions_b : table :=
  [
    Entry "redis_5fconnection" "redis_connection" [Result "../classcpp__redis_1_1network_1_1redis__connection.html#aee0302e4ff9c9b5b2e7f467d869d45f7" 1 "cpp_redis::network::redis_connection::redis_connection(void)";
      Result "../classcpp__redis_1_1network_1_1redis__connection.html#a6880cfb2e1b037fcdaa5f0a6d515b375" 1 "cpp_redis::network::redis_connection::redis_connection(const std::shared_ptr&lt; tcp_client_iface &gt; &amp;tcp_client)";
      Result "../classcpp__redis_1_1network_1_1redis__connection.html#a2bdd38bbfd5d97aeca8e433465c4d621" 1 "cpp_redis::network::redis_connection::redis_connection(const redis_connection &amp;)=delete"];
    Entry "redis_5ferror" "redis_error" [Result "../classcpp__redis_1_1redis__error.html#a1445e654b3936c7f5aa1c298bcf24966" 1 "cpp_redis::redis_error::redis_error(const std::string &amp;err)";
      Result "../classcpp__redis_1_1redis__error.html#a0ced25483119c2318b1a5a69cac1919f" 1 "cpp_redis::redis_error::redis_error(const char *err)"];
    Entry "reply" "reply" [Result "../classcpp__redis_1_1reply.html#a8d0b1f8a18b5c7c3ce79784604dba6cc" 1 "cpp_redis::reply::reply(void)";
      Result "../classcpp__redis_1_1reply.html#a58fb2a051a001f1c3dcf2cd957441dbc" 1 "cpp_redis::reply::reply(const std::string &amp;value, string_type reply_type)";
      Result "../classcpp__redis_1_1reply.html#a6200b9fa76196e75fb18aa07e47391f0" 1 "cpp_redis::reply::reply(int64_t value)";
      Result "../classcpp__redis_1_1reply.html#af3e08b6b795978757a05a1ac4bb08c68" 1 "cpp_redis::reply::reply(const std::vector&lt; reply &gt; &amp;rows)";
      Result "../classcpp__redis_1_1reply.html#a247955712c519daffcf740ae163e69bb" 1 "cpp_redis::reply::reply(const reply &amp;)=default"];
    Entry "reply_5favailable" "reply_available" [Result "../classcpp__redis_1_1builders_1_1reply__builder.html#af7d8e764ab591390cd1eae8801cd691c" 1 "cpp_redis::builders::reply_builder"];
    Entry "reply_5fbuilder" "reply_builder" [Result "../classcpp__redis_1_1builders_1_1reply__builder.html#accbe07b853ad26338abf18f7975f616f" 1 "cpp_redis::builders::reply_builder::reply_builder(void)";
      Result "../classcpp__redis_1_1builders_1_1reply__builder.html#acfffbe0b66c7f9da0f1772b2b7fbdc17" 1 "cpp_redis::builders::reply_builder::reply_builder(const reply_builder &amp;)=delete"];
    Entry "reply_5fready" "reply_ready" [Result "../classcpp__redis_1_1builders_1_1array__builder.html#a524f2cb943dde1246dea1b7057e6351e" 1 "cpp_redis::builders::array_builder::reply_ready()";
      Result "../classcpp__redis_1_1builders_1_1builder__iface.html#a40db9a31d4ea1771777e74146d31e12d" 1 "cpp_redis::builders::builder_iface::reply_ready()";
      Result "../classcpp__redis_1_1builders_1_1bulk__string__builder.html#a4d80d8dfe305e35aca8b4ec84c56fbea" 1 "cpp_redis::builders::bulk_string_builder::reply_ready()";
      Result "../classcpp__redis_1_1builders_1_1error__builder.html#af3d67647f012d0a7378684e2f8258a6d" 1 "cpp_redis::builders::error_builder::reply_ready()";
      Result "../classcpp__redis_1_1builders_1_1integer__builder.html#a4893dc36d06d75094bb4fe3fbc826966" 1 "cpp_redis::builders::integer_builder::reply_ready()";
      Result "../classcpp__redis_1_1builders_1_1simple__string__builder.html#ad586164caf02b3022b91789cac23a72d" 1 "cpp_redis::builders::simple_string_builder::reply_ready()"]].

Definition redis_functions_c : table :=
  [
    Entry "send" "send" [Result "../classcpp__redis_1_1client.html#a490ef812b666e6d845fcacc808b87bc1" 1 "cpp_redis::client::send(const std::vector&lt; std::string &gt; &amp;redis_cmd, const reply_callback_t &amp;callback)";
      Result "../classcpp__redis_1_1client.html#ad6216d6587d50694c16d68e8e182b0be" 1 "cpp_redis::client::send(const std::vector&lt; std::string &gt; &amp;redis_cmd)";
      Result "../classcpp__redis_1_1sentinel.html#a0df522dbd7debda4e73f616a62d6f5ee" 1 "cpp_redis::sentinel::send()";
      Result "../classcpp__redis_1_1network_1_1redis__connection.html#a98c163ce431e85e46e139211564b7b3f" 1 "cpp_redis::network::redis_connection::send()"];
    Entry "sentinel" "sentinel" [Result "../classcpp__redis_1_1sentinel.html#a2ea5a80a9139d5192706988521a2ae34" 1 "cpp_redis::sentinel::sentinel(void)";
      Result "../classcpp__redis_1_1sentinel.html#af53665f5834dfe5861a6310318ae5169" 1 "cpp_redis::sentinel::sentinel(const std::shared_ptr&lt; network::tcp_client_iface &gt; &amp;tcp_client)";
      Result "../classcpp__redis_1_1sentinel.html#a4c3b68f6e930b2e9723816bb8bed5a8f" 1 "cpp_redis::sentinel::sentinel(const sentinel &amp;)=delete"];
    Entry "sentinel_5fdef" "sentinel_def" [Result "../classcpp__redis_1_1sentinel_1_1sentinel__def.html#a2d3116ce99ba2bd8c320ccc85901e5a1" 1 "cpp_redis::sentinel::sentinel_def"];
    Entry "set" "set" [Result "../structcpp__redis_1_1client_1_1bitfield__operation.html#a422fc09f99579cea5fcbcbc3464cdd4e" 1 "cpp_redis::client::bitfield_operation::set()";
      Result "../classcpp__redis_1_1reply.html#a2489d293128b2d567663a9d7fbbbc33e" 1 "cpp_redis::reply::set(void)";
      Result "../classcpp__redis_1_1reply.html#a9306dcc36a6a009a2b0f4923735f6349" 1 "cpp_redis::reply::set(const std::string &amp;value, string_type reply_type)";
      Result "../classcpp__redis_1_1reply.html#a2443bd6d4fb35279db198ba876e1ad34" 1 "cpp_redis::reply::set(int64_t value)";
      Result "../classcpp__redis_1_1reply.html#ab64ee3720832e60ed47b91fd5b3045bd" 1 "cpp_redis::reply::set(const std::vector&lt; reply &gt; &amp;rows)"];
    Entry "set_5fnb_5fworkers" "set_nb_workers" [Result "../classcpp__redis_1_1network_1_1tcp__client.html#aa56fc49540d67c5c05b3dda3aaff8a0f" 1 "cpp_redis::network::tcp_client"];
    Entry "set_5fon_5fdisconnection_5fhandler" "set_on_disconnection_handler" [Result "../classcpp__redis_1_1network_1_1tcp__client.html#a24ccdf6dc467aac13cb832a395adb38d" 1 "cpp_redis::network::tcp_client::set_on_disconnection_handler()";
      Result "../classcpp__redis_1_1network_1_1tcp__client__iface.html#acecf3b75c3849071d82478bc7a8c97a8" 1 "cpp_redis::network::tcp_client_iface::set_on_disconnection_handler()"];
    Entry "set_5ftimeout_5fmsecs" "set_timeout_msecs" [Result "../classcpp__redis_1_1sentinel_1_1sentinel__def.html#abc234e6c289f7b3d95868ae32343ff92" 1 "cpp_redis::sentinel::sentinel_def"];
    Entry "simple_5fstring_5fbuilder" "simple_string_builder" [Result "../classcpp__redis_1_1builders_1_1simple__string__builder.html#a51fcb7777a78cbd3599aae8896e4d06a" 1 "cpp_redis::builders::simple_string_builder::simple_string_builder(void)";
      Result "../classcpp__redis_1_1builders_1_1simple__string__builder.html#a0a17d659e654ee1190c635d3b3093235" 1 "cpp_redis::builders::simple_string_builder::simple_string_builder(const simple_string_builder &amp;)=delete"];
    Entry "subscribe" "subscribe" [Result "../classcpp__redis_1_1subscriber.html#afee579c702182041645a3d3c55de4b9e" 1 "cpp_redis::subscriber"];
    Entry "subscriber" "subscriber" [Result "../classcpp__redis_1_1subscriber.html#ab7feafca57399394e3a1a0d6daf52770" 1 "cpp_redis::subscriber::subscriber(void)";
      Result "../classcpp__redis_1_1subscriber.html#a66136601f44564842e2c67de2da199af" 1 "cpp_redis::subscriber::subscriber(const std::shared_ptr&lt; network::tcp_client_iface &gt; &amp;tcp_client)";
      Result "../classcpp__redis_1_1subscriber.html#af5f11532bf727eeb2d4a926bdc775cd7" 1 "cpp_redis::subscriber::subscriber(const subscriber &amp;)=delete"];
    Entry "sync_5fcommit" "sync_commit" [Result "../classcpp__redis_1_1client.html#a23c8a27ee691c52713411ae91e1391fb" 1 "cpp_redis::client::sync_commit(void)";
      Result "../classcpp__redis_1_1client.html#a79a24c8367cb1229fd2c4c38d0f82533" 1 "cpp_redis::client::sync_commit(const std::chrono::duration&lt; Rep, Period &gt; &amp;timeout)";
      Result "../classcpp__redis_1_1sentinel.html#a8e4d231ac89510c337fe97fe9e642785" 1 "cpp_redis::sentinel::sync_commit(void)";
      Result "../classcpp__redis_1_1sentinel.html#afbaa0b80266f70ad98c0bf8f28c533ab" 1 "cpp_redis::sentinel::sync_commit(const std::chrono::duration&lt; Rep, Period &gt; &amp;timeout)"]].

Definition redis_functions_d : table :=
  [
    Entry "tcp_5fclient" "tcp_client" [Result "../classcpp__redis_1_1network_1_1tcp__client.html#a8cbad07ca636e9d60dafc0e5cac8106d" 1 "cpp_redis::network::tcp_client"];
    Entry "tcp_5fclient_5fiface" "tcp_client_iface" [Result "../classcpp__redis_1_1network_1_1tcp__client__iface.html#a8504873049519bcebd626984e4087a90" 1 "cpp_redis::network::tcp_client_iface"]].

Definition redis_functions_e : table :=
  [
    Entry "unsubscribe" "unsubscribe" [Result "../classcpp__redis_1_1subscriber.html#a08dffea41cfd5914adfa5a966e0ab292" 1 "cpp_redis::subscriber"]].

Definition redis_functions_f : table :=
  [
    Entry "warn" "warn" [Result "../classcpp__redis_1_1logger__iface.html#a0ea8e43a4f2118e77af56cd1cdb21cba" 1 "cpp_redis::logger_iface::warn()";
      Result "../classcpp__redis_1_1logger.html#ae9359429428786c7b5605a1109508ae5" 1 "cpp_redis::logger::warn()"]].

Definition redis_functions_10 : table :=
  [
    Entry "_7earray_5fbuilder" "~array_builder" [Result "../classcpp__redis_1_1builders_1_1array__builder.html#ae6a0cd0743b6b0a21f9c3d44fd31ac17" 1 "cpp_redis::builders::array_builder"];
    Entry "_7ebulk_5fstring_5fbuilder" "~bulk_string_builder" [Result "../classcpp__redis_1_1builders_1_1bulk__string__builder.html#a88c7142bab456f70da9f9a6252e2affb" 1 "cpp_redis::builders::bulk_string_builder"];
    Entry "_7eclient" "~client" [Result "../classcpp__redis_1_1client.html#aca7030c8bd6856f10314b2862d1bae79" 1 "cpp_redis::client"];
    Entry "_7eerror_5fbuilder" "~error_builder" [Result "../classcpp__redis_1_1builders_1_1error__builder.html#a7650c178a457c57c2efb19e7ad256fe7" 1 "cpp_redis::builders::error_builder"];
    Entry "_7einteger_5fbuilder" "~integer_builder" [Result "../classcpp__redis_1_1builders_1_1integer__builder.html#ab2b797dd89b1bdec50f8ccf07633162f" 1 "cpp_redis::builders::integer_builder"];
    Entry "_7elogger" "~logger" [Result "../classcpp__redis_1_1logger.html#ab5eb02b26c96a6e5cba9a7d30669f625" 1 "cpp_redis::logger"];
    Entry "_7elogger_5fiface" "~logger_iface" [Result "../classcpp__redis_1_1logger__iface.html#ac7ed1b828afd2e6589fcdda167d34aa5" 1 "cpp_redis::logger_iface"];
    Entry "_7eredis_5fconnection" "~redis_connection" [Result "../classcpp__redis_1_1network_1_1redis__connection.html#a9d392191ce262eddd5570b57e07aa051" 1 "cpp_redis::network::redis_connection"];
    Entry "_7ereply" "~reply" [Result "../classcpp__redis_1_1reply.html#a1acfe6cbc763368cc2a9eef25afffe35" 1 "cpp_redis::reply"];
    Entry "_7ereply_5fbuilder" "~reply_builder" [Result "../classcpp__redis_1_1builders_1_1reply__builder.html#ac2df7e1ed2f67e01090ad45926c9af1e" 1 "cpp_redis::builders::reply_builder"];
    Entry "_7esentinel" "~sentinel" [Result "../classcpp__redis_1_1sentinel.html#af8535e89714db8ddcd7e74337ee5385a" 1 "cpp_redis::sentinel"];
    Entry "_7esentinel_5fdef" "~sentinel_def" [Result "../classcpp__redis_1_1sentinel_1_1sentinel__def.html#a5189d8016d9b385099e5ee0828ed7666" 1 "cpp_redis::sentinel::sentinel_def"];
    Entry "_7esimple_5fstring_5fbuilder" "~simple_string_builder" [Result "../classcpp__redis_1_1builders_1_1simple__string__builder.html#a7b4f012c532535801f9d5fddbb01d675" 1 "cpp_redis::builders::simple_string_builder"];
    Entry "_7esubscriber" "~subscriber" [Result "../classcpp__redis_1_1subscriber.html#a878caeb144b11de30466a380b09abc30" 1 "cpp_redis::subscriber"];
    Entry "_7etcp_5fclient" "~tcp_client" [Result "../classcpp__redis_1_1network_1_1tcp__client.html#af859036bbc7e5ec9149c1410a1a66f09" 1 "cpp_redis::network::tcp_client"];
    Entry "_7etcp_5fclient_5fiface" "~tcp_client_iface" [Result "../classcpp__redis_1_1network_1_1tcp__client__iface.html#a7381e8921118a13b5994101864906122" 1 "cpp_redis::network::tcp_client_iface"]].

Definition redis_variables_0 : table :=
  [
    Entry "async_5fread_5fcallback" "async_read_callback" [Result "../structcpp__redis_1_1network_1_1tcp__client__iface_1_1read__request.html#a0584269b3a021d588e38948c12fa5292" 1 "cpp_redis::network::tcp_client_iface::read_request"];
    Entry "async_5fwrite_5fcallback" "async_write_callback" [Result "../structcpp__redis_1_1network_1_1tcp__client__iface_1_1write__request.html#ab2823d9836ec68d63c9799ee12d403a2" 1 "cpp_redis::network::tcp_client_iface::write_request"]].

Definition redis_variables_1 : table :=
  [
    Entry "buffer" "buffer" [Result "../structcpp__redis_1_1network_1_1tcp__client__iface_1_1read__result.html#af8275097ebe558e7ce0f2aa29131cb05" 1 "cpp_redis::network::tcp_client_iface::read_result::buffer()";
      Result "../structcpp__redis_1_1network_1_1tcp__client__iface_1_1write__request.html#ad3567dac827f550b60491af530f0db2e" 1 "cpp_redis::network::tcp_client_iface::write_request::buffer()"]].

Definition redis_variables_2 : table :=
  [
    Entry "offset" "offset" [Result "../structcpp__redis_1_1client_1_1bitfield__operation.html#a8a4e83ddbac5c3500c6960f54e736598" 1 "cpp_redis::client::bitfield_operation"];
    Entry "operation_5ftype" "operation_type" [Result "../structcpp__redis_1_1client_1_1bitfield__operation.html#a4f3462e48d5f01b6fcd1605d6de21a3e" 1 "cpp_redis::client::bitfield_operation"];
    Entry "overflow" "overflow" [Result "../structcpp__redis_1_1client_1_1bitfield__operation.html#a2f478e17655a249080178034faa0f6f2" 1 "cpp_redis::client::bitfield_operation"]].

Definition redis_variables_3 : table :=
  [
    Entry "size" "size" [Result "../structcpp__redis_1_1network_1_1tcp__client__iface_1_1write__result.html#a580f3dbe5ea3f6f4b6b4ca0bfad2c06c" 1 "cpp_redis::network::tcp_client_iface::write_result::size()";
      Result "../structcpp__redis_1_1network_1_1tcp__client__iface_1_1read__request.html#a5ff8258391c9b3c8d2ce1a5c5a0304be" 1 "cpp_redis::network::tcp_client_iface::read_request::size()"];
    Entry "success" "success" [Result "../structcpp__redis_1_1network_1_1tcp__client__iface_1_1read__result.html#ab9a3a54474c382a00323ed02f4239faa" 1 "cpp_redis::network::tcp_client_iface::read_result::success()";
      Result "../structcpp__redis_1_1network_1_1tcp__client__iface_1_1write__result.html#a677696941c9a7164bc0b93b5d8380d1a" 1 "cpp_redis::network::tcp_client_iface::write_result::success()"]].

Definition redis_variables_4 : table :=
  [
    Entry "type" "type" [Result "../structcpp__redis_1_1client_1_1bitfield__operation.html#adbbf30e5138d0524940d536b2bc71480" 1 "cpp_redis::client::bitfield_operation"]].

Definition redis_variables_5 : table :=
  [
    Entry "value" "value" [Result "../structcpp__redis_1_1client_1_1bitfield__operation.html#a8104441f6b9ee7cbf5e6ee6c17c7445c" 1 "cpp_redis::client::bitfield_operation::value()";
      Result "../structcpp__redis_1_1helpers_1_1is__type__present.html#a7b5e8d970ba974a9b58cbc440983c25c" 1 "cpp_redis::helpers::is_type_present::value()";
      Result "../structcpp__redis_1_1helpers_1_1is__type__present_3_01_t1_00_01_t2_01_4.html#a1dbf43b76ba407caf9bfb35ffdbe55ad" 1 "cpp_redis::helpers::is_type_present&lt; T1, T2 &gt;::value()";
      Result "../structcpp__redis_1_1helpers_1_1is__different__types.html#a07dadd8ff3c8024734f231aaf1555626" 1 "cpp_redis::helpers::is_different_types::value()";
      Result "../structcpp__redis_1_1helpers_1_1is__different__types_3_01_t1_01_4.html#ae05b9b4af6846340ac66fcf64a622397" 1 "cpp_redis::helpers::is_different_types&lt; T1 &gt;::value()"]].

Definition redis_typedefs_0 : table :=
  [
    Entry "acknowledgement_5fcallback_5ft" "acknowledgement_callback_t" [Result "../classcpp__redis_1_1subscriber.html#a19ea39dfabeb19937a9ce4c8d21781b4" 1 "cpp_redis::subscriber"];
    Entry "async_5fread_5fcallback_5ft" "async_read_callback_t" [Result "../classcpp__redis_1_1network_1_1tcp__client__iface.html#ae8bf79e8e1f1d7e359ed1c7cdc4026fc" 1 "cpp_redis::network::tcp_client_iface"];
    Entry "async_5fwrite_5fcallback_5ft" "async_write_callback_t" [Result "../classcpp__redis_1_1network_1_1tcp__client__iface.html#a1dc52ccc70cf377c4fbb495a16adc658" 1 "cpp_redis::network::tcp_client_iface"]].

Definition redis_typedefs_1 : table :=
  [
    Entry "connect_5fcallback_5ft" "connect_callback_t" [Result "../classcpp__redis_1_1client.html#a4bb592b64ededde5a6fcf8111ca2548f" 1 "cpp_redis::client::connect_callback_t()";
      Result "../classcpp__redis_1_1subscriber.html#a90f2f7d4c748c3c2e89d1e977fa6dce1" 1 "cpp_redis::subscriber::connect_callback_t()"]].

Definition redis_typedefs_2 : table :=
  [
    Entry "disconnection_5fhandler_5ft" "disconnection_handler_t" [Result "../classcpp__redis_1_1network_1_1redis__connection.html#aba1a229a3d36a5540a80776ed0cf9a44" 1 "cpp_redis::network::redis_connection::disconnection_handler_t()";
      Result "../classcpp__redis_1_1network_1_1tcp__client__iface.html#a9a7d5942205db8be03da581a848b8ec0" 1 "cpp_redis::network::tcp_client_iface::disconnection_handler_t()"]].

Definition redis_typedefs_3 : table :=
  [
    Entry "reply_5fcallback_5ft" "reply_callback_t" [Result "../classcpp__redis_1_1client.html#a061a1140d36d2eaeda82b09a0bb3f9f2" 1 "cpp_redis::client::reply_callback_t()";
      Result "../classcpp__redis_1_1sentinel.html#ae1a150ff8787208c47414397a061c9a7" 1 "cpp_redis::sentinel::reply_callback_t()";
      Result "../classcpp__redis_1_1subscriber.html#a99d220cc662664e2399b709f61ac9581" 1 "cpp_redis::subscriber::reply_callback_t()";
      Result "../classcpp__redis_1_1network_1_1redis__connection.html#a40f4b55a3103b7436e34211893377245" 1 "cpp_redis::network::redis_connection::reply_callback_t()"]].

Definition redis_typedefs_4 : table :=
  [
    Entry "sentinel_5fdisconnect_5fhandler_5ft" "sentinel_disconnect_handler_t" [Result "../classcpp__redis_1_1sentinel.html#a923e06b5b700c16dffec8a01d2fa9aa4" 1 "cpp_redis::sentinel"];
    Entry "subscribe_5fcallback_5ft" "subscribe_callback_t" [Result "../classcpp__redis_1_1subscriber.html#ac6ab8ebc526d784e4b79a39bbd73dca8" 1 "cpp_redis::subscriber"]].

Definition redis_typedefs_5 : table :=
  [
    Entry "type" "type" [Result "../structcpp__redis_1_1helpers_1_1back.html#a83f1d0c03ffc82ff8ab7243c3c858195" 1 "cpp_redis::helpers::back::type()";
      Result "../structcpp__redis_1_1helpers_1_1back_3_01_t_01_4.html#a87d10cfacd8ca29b083dc5688e77f87c" 1 "cpp_redis::helpers::back&lt; T &gt;::type()";
      Result "../structcpp__redis_1_1helpers_1_1front.html#a23178392c9417cc5ada75205931d1768" 1 "cpp_redis::helpers::front::type()"]].

Definition redis_enums_0 : table :=
  [
    Entry "aggregate_5fmethod" "aggregate_method" [Result "../classcpp__redis_1_1client.html#aa197ca5b36da793c701d3ba388ec4946" 1 "cpp_redis::client"]].

Definition redis_enums_1 : table :=
  [
    Entry "bitfield_5foperation_5ftype" "bitfield_operation_type" [Result "../classcpp__redis_1_1client.html#a2e2023534299541da0a659802e2f087d" 1 "cpp_redis::client"]].

Definition redis_enums_2 : table :=
  [
    Entry "client_5ftype" "client_type" [Result "../classcpp__redis_1_1client.html#a388877b01b4e045cddb138e70a68e000" 1 "cpp_redis::client"];
    Entry "connect_5fstate" "connect_state" [Result "../classcpp__redis_1_1client.html#a2512bd48dd45391249a69bd720c1e4da" 1 "cpp_redis::client::connect_state()";
      Result "../classcpp__redis_1_1subscriber.html#afc976757efd9d0ac4def6935546a2338" 1 "cpp_redis::subscriber::connect_state()"]].

Definition redis_enums_3 : table :=
  [
    Entry "geo_5funit" "geo_unit" [Result "../classcpp__redis_1_1client.html#aa5998536fd32ff4387c89be514997620" 1 "cpp_redis::client"]].

Definition redis_enums_4 : table :=
  [
    Entry "log_5flevel" "log_level" [Result "../classcpp__redis_1_1logger.html#a9493594d547e7abe71b8690be1946c7a" 1 "cpp_redis::logger"]].

Definition redis_enums_5 : table :=
  [
    Entry "overflow_5ftype" "overflow_type" [Result "../classcpp__redis_1_1client.html#a4119182ad3a01c1bb626a174375e114a" 1 "cpp_redis::client"]].

Definition redis_enums_6 : table :=
  [
    Entry "string_5ftype" "string_type" [Result "../classcpp__redis_1_1reply.html#ac192ba4cb8f2bb6e7cb465edf755328b" 1 "cpp_redis::reply"]].

Definition redis_enums_7 : table :=
  [
    Entry "type" "type" [Result "../classcpp__redis_1_1reply.html#acc272b2a52164cac1d110c619a0b25bd" 1 "cpp_redis::reply"]].

(** The results pages, by their URL: each loads the table of its name. *)
Definition redis_pages : list (string * table) :=
  [("search/all_0.html", redis_all_0);
   ("search/all_1.html", redis_all_1);
   ("search/all_2.html", redis_all_2);
   ("search/all_3.html", redis_all_3);
   ("search/all_4.html", redis_all_4);
   ("search/all_5.html", redis_all_5);
   ("search/all_6.html", redis_all_6);
   ("search/all_7.html", redis_all_7);
   ("search/all_8.html", redis_all_8);
   ("search/all_9.html", redis_all_9);
   ("search/all_a.html", redis_all_a);
   ("search/all_b.html", redis_all_b);
   ("search/all_c.html", redis_all_c);
   ("search/all_d.html", redis_all_d);
   ("search/all_e.html", redis_all_e);
   ("search/all_f.html", redis_all_f);
   ("search/all_10.html", redis_all_10);
   ("search/all_11.html", redis_all_11);
   ("search/all_12.html", redis_all_12);
   ("search/classes_0.html", redis_classes_0);
   ("search/classes_1.html", redis_classes_1);
   ("search/classes_2.html", redis_classes_2);
   ("search/classes_3.html", redis_classes_3);
   ("search/classes_4.html", redis_classes_4);
   ("search/classes_5.html", redis_classes_5);
   ("search/classes_6.html", redis_classes_6);
   ("search/classes_7.html", redis_classes_7);
   ("search/classes_8.html", redis_classes_8);
   ("search/classes_9.html", redis_classes_9);
   ("search/classes_a.html", redis_classes_a);
   ("search/functions_0.html", redis_functions_0);
   ("search/functions_1.html", redis_functions_1);
   ("search/functions_2.html", redis_functions_2);
   ("search/functions_3.html", redis_functions_3);
   ("search/functions_4.html", redis_functions_4);
   ("search/functions_5.html", redis_functions_5);
   ("search/functions_6.html", redis_functions_6);
   ("search/functions_7.html", redis_functions_7);
   ("search/functions_8.html", redis_functions_8);
   ("search/functions_9.html", redis_functions_9);
   ("search/functions_a.html", redis_functions_a);
   ("search/functions_b.html", redis_functions_b);
   ("search/functions_c.html", redis_functions_c);
   ("search/functions_d.html", redis_functions_d);
   ("search/functions_e.html", redis_functions_e);
   ("search/functions_f.html", redis_functions_f);
   ("search/functions_10.html", redis_functions_10);
   ("search/variables_0.html", redis_variables_0);
   ("search/variables_1.html", redis_variables_1);
   ("search/variables_2.html", redis_variables_2);
   ("search/variables_3.html", redis_variables_3);
   ("search/variables_4.html", redis_variables_4);
   ("search/variables_5.html", redis_variables_5);
   ("search/typedefs_0.html", redis_typedefs_0);
   ("search/typedefs_1.html", redis_typedefs_1);
   ("search/typedefs_2.html", redis_typedefs_2);
   ("search/typedefs_3.html", redis_typedefs_3);
   ("search/typedefs_4.html", redis_typedefs_4);
   ("search/typedefs_5.html", redis_typedefs_5);
   ("search/enums_0.html", redis_enums_0);
   ("search/enums_1.html", redis_enums_1);
   ("search/enums_2.html", redis_enums_2);
   ("search/enums_3.html", redis_enums_3);
   ("search/enums_4.html", redis_enums_4);
   ("search/enums_5.html", redis_enums_5);
   ("search/enums_6.html", redis_enums_6);
   ("search/enums_7.html", redis_enums_7)].

Definition redis_index : doc_index :=
  DocIndex redis_indexSectionsWithContent redis_indexSectionNames
           redis_indexSectionLabels redis_pages.

Definition redis_menudata : menudata :=
  (Some [
   Menu "Main Page" "index.html" None;
   Menu "Classes" "annotated.html" (Some [
    Menu "Class List" "annotated.html" None;
    Menu "Class Index" "classes.html" None;
    Menu "Class Hierarchy" "hierarchy.html" None;
    Menu "Class Members" "functions.html" (Some [
     Menu "All" "functions.html" (Some [
      Menu "a" "functions.html#index_a" None;
      Menu "b" "functions_b.html#index_b" None;
      Menu "c" "functions_c.html#index_c" None;
      Menu "d" "functions_d.html#index_d" None;
      Menu "e" "functions_e.html#index_e" None;
      Menu "g" "functions_g.html#index_g" None;
      Menu "i" "functions_i.html#index_i" None;
      Menu "k" "functions_k.html#index_k" None;
      Menu "l" "functions_l.html#index_l" None;
      Menu "o" "functions_o.html#index_o" None;
      Menu "p" "functions_p.html#index_p" None;
      Menu "r" "functions_r.html#index_r" None;
      Menu "s" "functions_s.html#index_s" None;
      Menu "t" "functions_t.html#index_t" None;
      Menu "u" "functions_u.html#index_u" None;
      Menu "v" "functions_v.html#index_v" None;
      Menu "w" "functions_w.html#index_w" None;
      Menu "~" "functions_0x7e.html#index_0x7e" None]);
     Menu "Functions" "functions_func.html" (Some [
      Menu "a" "functions_func.html#index_a" None;
      Menu "b" "functions_func.html#index_b" None;
      Menu "c" "functions_func.html#index_c" None;
      Menu "d" "functions_func.html#index_d" None;
      Menu "e" "functions_func.html#index_e" None;
      Menu "g" "functions_func.html#index_g" None;
      Menu "i" "functions_func.html#index_i" None;
      Menu "k" "functions_func.html#index_k" None;
      Menu "l" "functions_func.html#index_l" None;
      Menu "o" "functions_func.html#index_o" None;
      Menu "p" "functions_func.html#index_p" None;
      Menu "r" "functions_func.html#index_r" None;
      Menu "s" "functions_func.html#index_s" None;
      Menu "t" "functions_func.html#index_t" None;
      Menu "u" "functions_func.html#index_u" None;
      Menu "w" "functions_func.html#index_w" None;
      Menu "~" "functions_func.html#index_0x7e" None]);
     Menu "Variables" "functions_vars.html" None;
     Menu "Typedefs" "functions_type.html" None;
     Menu "Enumerations" "functions_enum.html" None])]);
   Menu "Files" "files.html" (Some [
    Menu "File List" "files.html" None])]).
