(* ===== verification/DocIndexTacopie.v ===== *)
(** The search index and the menu of the tacopie documentation: the tables of
    src/cpp_redis/tacopie/docs/html/search (searchdata.js, one table per results
    page) and menudata.js. *)

From S2P Require Import Prelude JsString DocResults DocMenu DocIndex.

#[local] Open Scope string_scope.

Definition tacopie_indexSectionsWithContent : list string :=
  ["abcdegilnorstuw~"; "ilrstw"; "abcdegilnorstuw~"; "abs"; "adeot"; "lt"].

Definition tacopie_indexSectionNames : list string :=
  ["all"; "classes"; "functions"; "variables"; "typedefs"; "enums"].

Definition tacopie_indexSectionLabels : list string :=
  ["All"; "Classes"; "Functions"; "Variables"; "Typedefs"; "Enumerations"].

Definition tacopie_all_0 : table :=
  [
    Entry "accept" "accept" [Result "../classtacopie_1_1tcp__socket.html#af5113c9332f83643cdaaf15c3f137760" 1 "tacopie::tcp_socket"];
    Entry "add_5ftask" "add_task" [Result "../classtacopie_1_1utils_1_1thread__pool.html#a450bee2b7b2cd0aa0bc3935c8adc9ace" 1 "tacopie::utils::thread_pool"];
    Entry "async_5fread" "async_read" [Result "../classtacopie_1_1tcp__client.html#a120e3ec2902acc902f7a0b27074bda6b" 1 "tacopie::tcp_client"];
    Entry "async_5fread_5fcallback" "async_read_callback" [Result "../structtacopie_1_1tcp__client_1_1read__request.html#a3d495e82e38efebf763f595392b0db46" 1 "tacopie::tcp_client::read_request"];
    Entry "async_5fread_5fcallback_5ft" "async_read_callback_t" [Result "../classtacopie_1_1tcp__client.html#acdf9dea8bac6c56f7b04ce38b9432322" 1 "tacopie::tcp_client"];
    Entry "async_5fwrite" "async_write" [Result "../classtacopie_1_1tcp__client.html#a2304ed6d4ca0cbc74e6aa72d3e92b76a" 1 "tacopie::tcp_client"];
    Entry "async_5fwrite_5fcallback" "async_write_callback" [Result "../structtacopie_1_1tcp__client_1_1write__request.html#a04fd3e5484ba322d0112024bf8823623" 1 "tacopie::tcp_client::write_request"];
    Entry "async_5fwrite_5fcallback_5ft" "async_write_callback_t" [Result "../classtacopie_1_1tcp__client.html#ad48b8c8dff8a77490eb2e3e802c82b97" 1 "tacopie::tcp_client"]].

Definition tacopie_all_1 : table :=
  [
    Entry "bind" "bind" [Result "../classtacopie_1_1tcp__socket.html#a910a183d7c45483f1cdacd10a1896155" 1 "tacopie::tcp_socket"];
    Entry "buffer" "buffer" [Result "../structtacopie_1_1tcp__client_1_1read__result.html#a50d22ea3a43d085d88d54bbf59a357dc" 1 "tacopie::tcp_client::read_result::buffer()";
      Result "../structtacopie_1_1tcp__client_1_1write__request.html#a4ee0c159b630c14f81d6b6d7d4b4e826" 1 "tacopie::tcp_client::write_request::buffer()"]].

Definition tacopie_all_2 : table :=
  [
    Entry "close" "close" [Result "../classtacopie_1_1tcp__socket.html#ad5a30b17b1dad9f0ff40305e246a9213" 1 "tacopie::tcp_socket"];
    Entry "clr_5fbuffer" "clr_buffer" [Result "../classtacopie_1_1self__pipe.html#a4f55a34bd882d59bdcc73b87222ba3d8" 1 "tacopie::self_pipe"];
    Entry "connect" "connect" [Result "../classtacopie_1_1tcp__client.html#a0cfbb18cb72aa3b6a41921f61cacc425" 1 "tacopie::tcp_client::connect()";
      Result "../classtacopie_1_1tcp__socket.html#a6748c78312763dca6b8be05c4c8c3419" 1 "tacopie::tcp_socket::connect()"]].

Definition tacopie_all_3 : table :=
  [
    Entry "debug" "debug" [Result "../classtacopie_1_1logger__iface.html#a156abb02ab852ea4033fc13f4902ee7a" 1 "tacopie::logger_iface::debug()";
      Result "../classtacopie_1_1logger.html#aff31bbc7d3fdbbe60a2331fe24ec76ff" 1 "tacopie::logger::debug()"];
    Entry "disconnect" "disconnect" [Result "../classtacopie_1_1tcp__client.html#a7562e0bfa24912595d6f695f848b9e51" 1 "tacopie::tcp_client"];
    Entry "disconnection_5fhandler_5ft" "disconnection_handler_t" [Result "../classtacopie_1_1tcp__client.html#aca5df52e5ee6fa673cf212532ada1453" 1 "tacopie::tcp_client"]].

Definition tacopie_all_4 : table :=
  [
    Entry "error" "error" [Result "../classtacopie_1_1logger__iface.html#a18f9c02fc19be4b9900ac9fb1a361624" 1 "tacopie::logger_iface::error()";
      Result "../classtacopie_1_1logger.html#a3fe1be02ac2f4e4fe44a0bdaf8359546" 1 "tacopie::logger::error()"];
    Entry "event_5fcallback_5ft" "event_callback_t" [Result "../classtacopie_1_1io__service.html#abb66850c32d9c724f4418d77bd04bcfd" 1 "tacopie::io_service"]].

Definition tacopie_all_5 : table :=
  [
    Entry "get_5fclients" "get_clients" [Result "../classtacopie_1_1tcp__server.html#a0df81b943243ad51102c37d4944be8d7" 1 "tacopie::tcp_server"];
    Entry "get_5ffd" "get_fd" [Result "../classtacopie_1_1tcp__socket.html#a4fd367a1802ed6ae7fa0e33fc07ed255" 1 "tacopie::tcp_socket"];
    Entry "get_5ffile" "get_file" [Result "../classtacopie_1_1tacopie__error.html#a10360163c780a1bd9c95fcecca5aa6da" 1 "tacopie::tacopie_error"];
    Entry "get_5fhost" "get_host" [Result "../classtacopie_1_1tcp__client.html#ad38ab710c5eca64de2f887abc455b15d" 1 "tacopie::tcp_client::get_host()";
      Result "../classtacopie_1_1tcp__socket.html#ad294565f9a0fa52639ecfbf133eecd59" 1 "tacopie::tcp_socket::get_host()"];
    Entry "get_5fio_5fservice" "get_io_service" [Result "../classtacopie_1_1tcp__client.html#aafbf0aa37cd0472778d09fb163362314" 1 "tacopie::tcp_client::get_io_service()";
      Result "../classtacopie_1_1tcp__server.html#aace4796627b6abccccce1a541908414f" 1 "tacopie::tcp_server::get_io_service()"];
    Entry "get_5fline" "get_line" [Result "../classtacopie_1_1tacopie__error.html#a39704d2cb6f076aa47d45f53f174b257" 1 "tacopie::tacopie_error"];
    Entry "get_5fport" "get_port" [Result "../classtacopie_1_1tcp__client.html#a3b42ae2afe6d5ee5f2f16b8bd7846f37" 1 "tacopie::tcp_client::get_port()";
      Result "../classtacopie_1_1tcp__socket.html#a5276fdc687ac3c5089a05e3e2d9de4fb" 1 "tacopie::tcp_socket::get_port()"];
    Entry "get_5fread_5ffd" "get_read_fd" [Result "../classtacopie_1_1self__pipe.html#a301b416f5f8236a383065b381385b88c" 1 "tacopie::self_pipe"];
    Entry "get_5fsocket" "get_socket" [Result "../classtacopie_1_1tcp__client.html#a1a3834deb1d263ec5816066f74286298" 1 "tacopie::tcp_client::get_socket(void)";
      Result "../classtacopie_1_1tcp__client.html#a9cf1f3ccf43f9a0a883a17b15e3668d6" 1 "tacopie::tcp_client::get_socket(void) const";
      Result "../classtacopie_1_1tcp__server.html#a39a51b9203d42babfd9c4c1a0f4cc340" 1 "tacopie::tcp_server::get_socket(void)";
      Result "../classtacopie_1_1tcp__server.html#a373aec294e24a52c3ef6c44920af36e2" 1 "tacopie::tcp_server::get_socket(void) const"];
    Entry "get_5ftype" "get_type" [Result "../classtacopie_1_1tcp__socket.html#a4f663be51b845520505bc20a88b411ee" 1 "tacopie::tcp_socket"];
    Entry "get_5fwrite_5ffd" "get_write_fd" [Result "../classtacopie_1_1self__pipe.html#ab36a4deb45bb408988f26315aedc0d74" 1 "tacopie::self_pipe"]].

Definition tacopie_all_6 : table :=
  [
    Entry "info" "info" [Result "../classtacopie_1_1logger__iface.html#af176525bca036944f75bad6469860929" 1 "tacopie::logger_iface::info()";
      Result "../classtacopie_1_1logger.html#a5089c5a6127586d4f2ea3a69a0bf6570" 1 "tacopie::logger::info()"];
    Entry "io_5fservice" "io_service" [Result "../classtacopie_1_1io__service.html" 1 "tacopie::io_service";
      Result "../classtacopie_1_1io__service.html#a62edde9b62571610413d99d075df8102" 1 "tacopie::io_service::io_service(std::size_t nb_threads=__TACOPIE_IO_SERVICE_NB_WORKERS)";
      Result "../classtacopie_1_1io__service.html#ad5da7503d8fec083c6d28455ec9e21c7" 1 "tacopie::io_service::io_service(const io_service &amp;)=delete"];
    Entry "is_5fconnected" "is_connected" [Result "../classtacopie_1_1tcp__client.html#a9bf568812c8350260843842e7952c8c3" 1 "tacopie::tcp_client"];
    Entry "is_5fipv6" "is_ipv6" [Result "../classtacopie_1_1tcp__socket.html#a6d9933c767572b03fbb4b5ced4bd1fc4" 1 "tacopie::tcp_socket"];
    Entry "is_5frunning" "is_running" [Result "../classtacopie_1_1tcp__server.html#a76162141e6443953f3ad8e11c4e4d3d7" 1 "tacopie::tcp_server::is_running()";
      Result "../classtacopie_1_1utils_1_1thread__pool.html#a77a647a75be188a5c5f83b922c061107" 1 "tacopie::utils::thread_pool::is_running()"]].

Definition tacopie_all_7 : table :=
  [
    Entry "listen" "listen" [Result "../classtacopie_1_1tcp__socket.html#af0957ded2a84fb06d940cba98df477fb" 1 "tacopie::tcp_socket"];
    Entry "log_5flevel" "log_level" [Result "../classtacopie_1_1logger.html#ae7dd235972bbf86a017fc39b3af80efe" 1 "tacopie::logger"];
    Entry "logger" "logger" [Result "../classtacopie_1_1logger.html" 1 "tacopie::logger";
      Result "../classtacopie_1_1logger.html#af863301c0ef7f646469eb944285cb280" 1 "tacopie::logger::logger(log_level level=log_level::info)";
      Result "../classtacopie_1_1logger.html#af22e5c126a0e0dbd4c82dc1c40b2d16f" 1 "tacopie::logger::logger(const logger &amp;)=default"];
    Entry "logger_5fiface" "logger_iface" [Result "../classtacopie_1_1logger__iface.html" 1 "tacopie::logger_iface";
      Result "../classtacopie_1_1logger__iface.html#afccf838f815d168e82e4722e2c4d0d90" 1 "tacopie::logger_iface::logger_iface(void)=default";
      Result "../classtacopie_1_1logger__iface.html#a34fb7873b2c5e908afd2d4a0d4965ec1" 1 "tacopie::logger_iface::logger_iface(const logger_iface &amp;)=default"]].

Definition tacopie_all_8 : table :=
  [
    Entry "notify" "notify" [Result "../classtacopie_1_1self__pipe.html#ade9e0e3d19b8d4d22977935a578d508e" 1 "tacopie::self_pipe"]].

Definition tacopie_all_9 : table :=
  [
    Entry "on_5fnew_5fconnection_5fcallback_5ft" "on_new_connection_callback_t" [Result "../classtacopie_1_1tcp__server.html#a103cb4e6fcab00f88a708aabd38b66ff" 1 "tacopie::tcp_server"];
    Entry "operator_21_3d" "operator!=" [Result "../classtacopie_1_1tcp__client.html#af352b6b1e939c919aec2761517051eb9" 1 "tacopie::tcp_client::operator!=()";
      Result "../classtacopie_1_1tcp__server.html#aa45611b77d60b536aeaf626d1724342d" 1 "tacopie::tcp_server::operator!=()";
      Result "../classtacopie_1_1tcp__socket.html#a76f69612969374b5aa542378d37ee398" 1 "tacopie::tcp_socket::operator!=()"];
    Entry "operator_3c_3c" "operator&lt;&lt;" [Result "../classtacopie_1_1utils_1_1thread__pool.html#afb7befd9fa5f1fbd44423fddc8cbc5d3" 1 "tacopie::utils::thread_pool"];
    Entry "operator_3d" "operator=" [Result "../classtacopie_1_1io__service.html#a980652008516b38357d405c16eda07fa" 1 "tacopie::io_service::operator=()";
      Result "../classtacopie_1_1self__pipe.html#a14e0fa3a880b6c9559c087eac480c518" 1 "tacopie::self_pipe::operator=()";
      Result "../classtacopie_1_1tcp__client.html#aeadcfb8cd727b2917ebcd357311d0a6b" 1 "tacopie::tcp_client::operator=()";
      Result "../classtacopie_1_1tcp__server.html#a7e7da4352e2e016f8d40d19bf9fee54b" 1 "tacopie::tcp_server::operator=()";
      Result "../classtacopie_1_1tcp__socket.html#aae3234c92bd36d5a614e44472d42bbf4" 1 "tacopie::tcp_socket::operator=()";
      Result "../classtacopie_1_1tacopie__error.html#ad30ae4932d33b460f75570f5f3a6e3f3" 1 "tacopie::tacopie_error::operator=()";
      Result "../classtacopie_1_1logger__iface.html#ac3ca89b7c5d227b8ed3a5adaa5b72527" 1 "tacopie::logger_iface::operator=()";
      Result "../classtacopie_1_1logger.html#a4ee4e53fa0857ee404ddfd5b40759162" 1 "tacopie::logger::operator=()";
      Result "../classtacopie_1_1utils_1_1thread__pool.html#aa0077461da4da6ba3f4dcac029351234" 1 "tacopie::utils::thread_pool::operator=()"];
    Entry "operator_3d_3d" "operator==" [Result "../classtacopie_1_1tcp__client.html#af7a1796c04efd00542349ecab692e073" 1 "tacopie::tcp_client::operator==()";
      Result "../classtacopie_1_1tcp__server.html#ab9b95a27afb405668bb4d5b1a312ceae" 1 "tacopie::tcp_server::operator==()";
      Result "../classtacopie_1_1tcp__socket.html#a69fde61058ab72d88ce48f557d8216cf" 1 "tacopie::tcp_socket::operator==()"]].

Definition tacopie_all_a : table :=
  [
    Entry "read_5frequest" "read_request" [Result "../structtacopie_1_1tcp__client_1_1read__request.html" 1 "tacopie::tcp_client"];
    Entry "read_5fresult" "read_result" [Result "../structtacopie_1_1tcp__client_1_1read__result.html" 1 "tacopie::tcp_client"];
    Entry "recv" "recv" [Result "../classtacopie_1_1tcp__socket.html#a0d6d30258a902d12b3c2c62644756685" 1 "tacopie::tcp_socket"]].

Definition tacopie_all_b : table :=
  [
    Entry "self_5fpipe" "self_pipe" [Result "../classtacopie_1_1self__pipe.html" 1 "tacopie::self_pipe";
      Result "../classtacopie_1_1self__pipe.html#add8d2c43863d1505e6851789ab5d9b97" 1 "tacopie::self_pipe::self_pipe(void)";
      Result "../classtacopie_1_1self__pipe.html#a09ffc77b89ad48bc8db6635108c68b6b" 1 "tacopie::self_pipe::self_pipe(const self_pipe &amp;)=delete"];
    Entry "send" "send" [Result "../classtacopie_1_1tcp__socket.html#a36521a8f502adc665ad0fb1c53583d04" 1 "tacopie::tcp_socket"];
    Entry "set_5fnb_5fthreads" "set_nb_threads" [Result "../classtacopie_1_1utils_1_1thread__pool.html#a7c7ae922cedff8fa323828ebb6dea829" 1 "tacopie::utils::thread_pool"];
    Entry "set_5fnb_5fworkers" "set_nb_workers" [Result "../classtacopie_1_1io__service.html#a7e2b0700c0a4591f86c344df8748b3a5" 1 "tacopie::io_service"];
    Entry "set_5fon_5fdisconnection_5fhandler" "set_on_disconnection_handler" [Result "../classtacopie_1_1tcp__client.html#a8c290d681186edb0578051c04f3c0762" 1 "tacopie::tcp_client"];
    Entry "set_5frd_5fcallback" "set_rd_callback" [Result "../classtacopie_1_1io__service.html#a8094c1fec76c6821cc0c008fe524c89a" 1 "tacopie::io_service"];
    Entry "set_5ftype" "set_type" [Result "../classtacopie_1_1tcp__socket.html#a89be86ab254eec3fc16eedfba8b16fb2" 1 "tacopie::tcp_socket"];
    Entry "set_5fwr_5fcallback" "set_wr_callback" [Result "../classtacopie_1_1io__service.html#a7c4f56c7790c7ba52b09837a42aaffb1" 1 "tacopie::io_service"];
    Entry "size" "size" [Result "../structtacopie_1_1tcp__client_1_1write__result.html#acee9eca954a6f1b6283c6188eead2ab1" 1 "tacopie::tcp_client::write_result::size()";
      Result "../structtacopie_1_1tcp__client_1_1read__request.html#ad8b69f61884c60596aface363ca947a3" 1 "tacopie::tcp_client::read_request::size()"];
    Entry "start" "start" [Result "../classtacopie_1_1tcp__server.html#a6cb98b50d865b32dba497273a0eca1e9" 1 "tacopie::tcp_server"];
    Entry "stop" "stop" [Result "../classtacopie_1_1tcp__server.html#abc099e162432e2218faed93fc84180fd" 1 "tacopie::tcp_server::stop()";
      Result "../classtacopie_1_1utils_1_1thread__pool.html#a8874d7040d12fbe446519bc9f2bcff37" 1 "tacopie::utils::thread_pool::stop()"];
    Entry "success" "success" [Result "../structtacopie_1_1tcp__client_1_1read__result.html#a9bb917b8d210159a95655a6f8da8e96e" 1 "tacopie::tcp_client::read_result::success()";
      Result "../structtacopie_1_1tcp__client_1_1write__result.html#a4a8d5706c83068a97c10e63c6080e6a3" 1 "tacopie::tcp_client::write_result::success()"]].

Definition tacopie_all_c : table :=
  [
    Entry "tacopie_5ferror" "tacopie_error" [Result "../classtacopie_1_1tacopie__error.html" 1 "tacopie::tacopie_error";
      Result "../classtacopie_1_1tacopie__error.html#a524fb8e9ac1825a57664421a3f32b9ce" 1 "tacopie::tacopie_error::tacopie_error(const std::string &amp;what, const std::string &amp;file, std::size_t line)";
      Result "../classtacopie_1_1tacopie__error.html#a0cb2a911165e08818ca03308891633e1" 1 "tacopie::tacopie_error::tacopie_error(const tacopie_error &amp;)=default"];
    Entry "task_5ft" "task_t" [Result "../classtacopie_1_1utils_1_1thread__pool.html#a8ae8886fdeaa8e5c0abad12626a47296" 1 "tacopie::utils::thread_pool"];
    Entry "tcp_5fclient" "tcp_client" [Result "../classtacopie_1_1tcp__client.html" 1 "tacopie::tcp_client";
      Result "../classtacopie_1_1tcp__client.html#a0125e1cf017b0ba0370d682d4382d37b" 1 "tacopie::tcp_client::tcp_client(std::uint32_t num_io_workers=1)";
      Result "../classtacopie_1_1tcp__client.html#a773fbcbb5b79324c8d065e363de73282" 1 "tacopie::tcp_client::tcp_client(tcp_socket &amp;&amp;socket)";
      Result "../classtacopie_1_1tcp__client.html#a5e326782c52f63814cc8f42a901ffaf6" 1 "tacopie::tcp_client::tcp_client(const tcp_client &amp;)=delete"];
    Entry "tcp_5fserver" "tcp_server" [Result "../classtacopie_1_1tcp__server.html" 1 "tacopie::tcp_server";
      Result "../classtacopie_1_1tcp__server.html#a4f67a38a0764924768cbcc7cf68527bf" 1 "tacopie::tcp_server::tcp_server(void)";
      Result "../classtacopie_1_1tcp__server.html#a2d9c6a2dea95a3c6a919c655d6e8e0ba" 1 "tacopie::tcp_server::tcp_server(const tcp_server &amp;)=delete"];
    Entry "tcp_5fsocket" "tcp_socket" [Result "../classtacopie_1_1tcp__socket.html" 1 "tacopie::tcp_socket";
      Result "../classtacopie_1_1tcp__socket.html#a88ed1cadb0263591c4d31805e0a1a001" 1 "tacopie::tcp_socket::tcp_socket(void)";
      Result "../classtacopie_1_1tcp__socket.html#a191ffa48e0753ad4ec87d4d3a4a97822" 1 "tacopie::tcp_socket::tcp_socket(fd_t fd, const std::string &amp;host, std::uint32_t port, type t)";
      Result "../classtacopie_1_1tcp__socket.html#a64f69cd1c185b523b543d4ea53cee1a2" 1 "tacopie::tcp_socket::tcp_socket(tcp_socket &amp;&amp;)";
      Result "../classtacopie_1_1tcp__socket.html#a5ae1a5b0f9713ef256164afdbeb1c193" 1 "tacopie::tcp_socket::tcp_socket(const tcp_socket &amp;)=delete"];
    Entry "thread_5fpool" "thread_pool" [Result "../classtacopie_1_1utils_1_1thread__pool.html" 1 "tacopie::utils::thread_pool";
      Result "../classtacopie_1_1utils_1_1thread__pool.html#aa0068f000b8ecb21b2b0a0c50f77877c" 1 "tacopie::utils::thread_pool::thread_pool(std::size_t nb_threads)";
      Result "../classtacopie_1_1utils_1_1thread__pool.html#a63a850c39d21058eda9d655bb7eff452" 1 "tacopie::utils::thread_pool::thread_pool(const thread_pool &amp;)=delete"];
    Entry "track" "track" [Result "../classtacopie_1_1io__service.html#a9f4c8bce3c0f6d660515b0b5eb109df8" 1 "tacopie::io_service"];
    Entry "type" "type" [Result "../classtacopie_1_1tcp__socket.html#ad8376e85df96ab9523f5d079ed7172ab" 1 "tacopie::tcp_socket"]].

Definition tacopie_all_d : table :=
  [
    Entry "untrack" "untrack" [Result "../classtacopie_1_1io__service.html#a9a7672f0894a0fc1a3e6c593ca6df22c" 1 "tacopie::io_service"]].

Definition tacopie_all_e : table :=
  [
    Entry "wait_5ffor_5fremoval" "wait_for_removal" [Result "../classtacopie_1_1io__service.html#aa57db619baeaa6db0aeb22e67b895cd7" 1 "tacopie::io_service"];
    Entry "warn" "warn" [Result "../classtacopie_1_1logger__iface.html#ab96d8f6bc2e2b514c7ceec4c856f8921" 1 "tacopie::logger_iface::warn()";
      Result "../classtacopie_1_1logger.html#aa4cd2ffc3f4b9d096a35c5c2aa8e0970" 1 "tacopie::logger::warn()"];
    Entry "write_5frequest" "write_request" [Result "../structtacopie_1_1tcp__client_1_1write__request.html" 1 "tacopie::tcp_client"];
    Entry "write_5fresult" "write_result" [Result "../structtacopie_1_1tcp__client_1_1write__result.html" 1 "tacopie::tcp_client"]].

Definition tacopie_all_f : table :=
  [
    Entry "_7eio_5fservice" "~io_service" [Result "../classtacopie_1_1io__service.html#ae423d7e4b13f07fe41fb051345ffbf8d" 1 "tacopie::io_service"];
    Entry "_7elogger" "~logger" [Result "../classtacopie_1_1logger.html#af5c89b85935dbe3b4da3199247d50398" 1 "tacopie::logger"];
    Entry "_7elogger_5fiface" "~logger_iface" [Result "../classtacopie_1_1logger__iface.html#a562dcc605198ca90904ba21fa98eb6ea" 1 "tacopie::logger_iface"];
    Entry "_7eself_5fpipe" "~self_pipe" [Result "../classtacopie_1_1self__pipe.html#a10a6c4b0d67a4a14abea397a05cee54c" 1 "tacopie::self_pipe"];
    Entry "_7etacopie_5ferror" "~tacopie_error" [Result "../classtacopie_1_1tacopie__error.html#a5bf6b0967f7f4cf2b8f8d0a2ef0912b2" 1 "tacopie::tacopie_error"];
    Entry "_7etcp_5fserver" "~tcp_server" [Result "../classtacopie_1_1tcp__server.html#a7841dc528e2d3dfc94fbe9b93824da50" 1 "tacopie::tcp_server"];
    Entry "_7etcp_5fsocket" "~tcp_socket" [Result "../classtacopie_1_1tcp__socket.html#a4bd737a76a2a326be03d704f79a35282" 1 "tacopie::tcp_socket"];
    Entry "_7ethread_5fpool" "~thread_pool" [Result "../classtacopie_1_1utils_1_1thread__pool.html#accddfc6fad613b0c6d407028799abfc5" 1 "tacopie::utils::thread_pool"]].

Definition tacopie_classes_0 : table :=
  [
    Entry "io_5fservice" "io_service" [Result "../classtacopie_1_1io__service.html" 1 "tacopie"]].

Definition tacopie_classes_1 : table :=
  [
    Entry "logger" "logger" [Result "../classtacopie_1_1logger.html" 1 "tacopie"];
    Entry "logger_5fiface" "logger_iface" [Result "../classtacopie_1_1logger__iface.html" 1 "tacopie"]].

Definition tacopie_classes_2 : table :=
  [
    Entry "read_5frequest" "read_request" [Result "../structtacopie_1_1tcp__client_1_1read__request.html" 1 "tacopie::tcp_client"];
    Entry "read_5fresult" "read_result" [Result "../structtacopie_1_1tcp__client_1_1read__result.html" 1 "tacopie::tcp_client"]].

Definition tacopie_classes_3 : table :=
  [
    Entry "self_5fpipe" "self_pipe" [Result "../classtacopie_1_1self__pipe.html" 1 "tacopie"]].

Definition tacopie_classes_4 : table :=
  [
    Entry "tacopie_5ferror" "tacopie_error" [Result "../classtacopie_1_1tacopie__error.html" 1 "tacopie"];
    Entry "tcp_5fclient" "tcp_client" [Result "../classtacopie_1_1tcp__client.html" 1 "tacopie"];
    Entry "tcp_5fserver" "tcp_server" [Result "../classtacopie_1_1tcp__server.html" 1 "tacopie"];
    Entry "tcp_5fsocket" "tcp_socket" [Result "../classtacopie_1_1tcp__socket.html" 1 "tacopie"];
    Entry "thread_5fpool" "thread_pool" [Result "../classtacopie_1_1utils_1_1thread__pool.html" 1 "tacopie::utils"]].

Definition tacopie_classes_5 : table :=
  [
    Entry "write_5frequest" "write_request" [Result "../structtacopie_1_1tcp__client_1_1write__request.html" 1 "tacopie::tcp_client"];
    Entry "write_5fresult" "write_result" [Result "../structtacopie_1_1tcp__client_1_1write__result.html" 1 "tacopie::tcp_client"]].

Definition tacopie_functions_0 : table :=
  [
    Entry "accept" "accept" [Result "../classtacopie_1_1tcp__socket.html#af5113c9332f83643cdaaf15c3f137760" 1 "tacopie::tcp_socket"];
    Entry "add_5ftask" "add_task" [Result "../classtacopie_1_1utils_1_1thread__pool.html#a450bee2b7b2cd0aa0bc3935c8adc9ace" 1 "tacopie::utils::thread_pool"];
    Entry "async_5fread" "async_read" [Result "../classtacopie_1_1tcp__client.html#a120e3ec2902acc902f7a0b27074bda6b" 1 "tacopie::tcp_client"];
    Entry "async_5fwrite" "async_write" [Result "../classtacopie_1_1tcp__client.html#a2304ed6d4ca0cbc74e6aa72d3e92b76a" 1 "tacopie::tcp_client"]].

Definition tacopie_functions_1 : table :=
  [
    Entry "bind" "bind" [Result "../classtacopie_1_1tcp__socket.html#a910a183d7c45483f1cdacd10a1896155" 1 "tacopie::tcp_socket"]].

Definition tacopie_functions_2 : table :=
  [
    Entry "close" "close" [Result "../classtacopie_1_1tcp__socket.html#ad5a30b17b1dad9f0ff40305e246a9213" 1 "tacopie::tcp_socket"];
    Entry "clr_5fbuffer" "clr_buffer" [Result "../classtacopie_1_1self__pipe.html#a4f55a34bd882d59bdcc73b87222ba3d8" 1 "tacopie::self_pipe"];
    Entry "connect" "connect" [Result "../classtacopie_1_1tcp__client.html#a0cfbb18cb72aa3b6a41921f61cacc425" 1 "tacopie::tcp_client::connect()";
      Result "../classtacopie_1_1tcp__socket.html#a6748c78312763dca6b8be05c4c8c3419" 1 "tacopie::tcp_socket::connect()"]].

Definition tacopie_functions_3 : table :=
  [
    Entry "debug" "debug" [Result "../classtacopie_1_1logger__iface.html#a156abb02ab852ea4033fc13f4902ee7a" 1 "tacopie::logger_iface::debug()";
      Result "../classtacopie_1_1logger.html#aff31bbc7d3fdbbe60a2331fe24ec76ff" 1 "tacopie::logger::debug()"];
    Entry "disconnect" "disconnect" [Result "../classtacopie_1_1tcp__client.html#a7562e0bfa24912595d6f695f848b9e51" 1 "tacopie::tcp_client"]].

Definition tacopie_functions_4 : table :=
  [
    Entry "error" "error" [Result "../classtacopie_1_1logger__iface.html#a18f9c02fc19be4b9900ac9fb1a361624" 1 "tacopie::logger_iface::error()";
      Result "../classtacopie_1_1logger.html#a3fe1be02ac2f4e4fe44a0bdaf8359546" 1 "tacopie::logger::error()"]].

Definition tacopie_functions_5 : table :=
  [
    Entry "get_5fclients" "get_clients" [Result "../classtacopie_1_1tcp__server.html#a0df81b943243ad51102c37d4944be8d7" 1 "tacopie::tcp_server"];
    Entry "get_5ffd" "get_fd" [Result "../classtacopie_1_1tcp__socket.html#a4fd367a1802ed6ae7fa0e33fc07ed255" 1 "tacopie::tcp_socket"];
    Entry "get_5ffile" "get_file" [Result "../classtacopie_1_1tacopie__error.html#a10360163c780a1bd9c95fcecca5aa6da" 1 "tacopie::tacopie_error"];
    Entry "get_5fhost" "get_host" [Result "../classtacopie_1_1tcp__client.html#ad38ab710c5eca64de2f887abc455b15d" 1 "tacopie::tcp_client::get_host()";
      Result "../classtacopie_1_1tcp__socket.html#ad294565f9a0fa52639ecfbf133eecd59" 1 "tacopie::tcp_socket::get_host()"];
    Entry "get_5fio_5fservice" "get_io_service" [Result "../classtacopie_1_1tcp__client.html#aafbf0aa37cd0472778d09fb163362314" 1 "tacopie::tcp_client::get_io_service()";
      Result "../classtacopie_1_1tcp__server.html#aace4796627b6abccccce1a541908414f" 1 "tacopie::tcp_server::get_io_service()"];
    Entry "get_5fline" "get_line" [Result "../classtacopie_1_1tacopie__error.html#a39704d2cb6f076aa47d45f53f174b257" 1 "tacopie::tacopie_error"];
    Entry "get_5fport" "get_port" [Result "../classtacopie_1_1tcp__client.html#a3b42ae2afe6d5ee5f2f16b8bd7846f37" 1 "tacopie::tcp_client::get_port()";
      Result "../classtacopie_1_1tcp__socket.html#a5276fdc687ac3c5089a05e3e2d9de4fb" 1 "tacopie::tcp_socket::get_port()"];
    Entry "get_5fread_5ffd" "get_read_fd" [Result "../classtacopie_1_1self__pipe.html#a301b416f5f8236a383065b381385b88c" 1 "tacopie::self_pipe"];
    Entry "get_5fsocket" "get_socket" [Result "../classtacopie_1_1tcp__client.html#a1a3834deb1d263ec5816066f74286298" 1 "tacopie::tcp_client::get_socket(void)";
      Result "../classtacopie_1_1tcp__client.html#a9cf1f3ccf43f9a0a883a17b15e3668d6" 1 "tacopie::tcp_client::get_socket(void) const";
      Result "../classtacopie_1_1tcp__server.html#a39a51b9203d42babfd9c4c1a0f4cc340" 1 "tacopie::tcp_server::get_socket(void)";
      Result "../classtacopie_1_1tcp__server.html#a373aec294e24a52c3ef6c44920af36e2" 1 "tacopie::tcp_server::get_socket(void) const"];
    Entry "get_5ftype" "get_type" [Result "../classtacopie_1_1tcp__socket.html#a4f663be51b845520505bc20a88b411ee" 1 "tacopie::tcp_socket"];
    Entry "get_5fwrite_5ffd" "get_write_fd" [Result "../classtacopie_1_1self__pipe.html#ab36a4deb45bb408988f26315aedc0d74" 1 "tacopie::self_pipe"]].

Definition tacopie_functions_6 : table :=
  [
    Entry "info" "info" [Result "../classtacopie_1_1logger__iface.html#af176525bca036944f75bad6469860929" 1 "tacopie::logger_iface::info()";
      Result "../classtacopie_1_1logger.html#a5089c5a6127586d4f2ea3a69a0bf6570" 1 "tacopie::logger::info()"];
    Entry "io_5fservice" "io_service" [Result "../classtacopie_1_1io__service.html#a62edde9b62571610413d99d075df8102" 1 "tacopie::io_service::io_service(std::size_t nb_threads=__TACOPIE_IO_SERVICE_NB_WORKERS)";
      Result "../classtacopie_1_1io__service.html#ad5da7503d8fec083c6d28455ec9e21c7" 1 "tacopie::io_service::io_service(const io_service &amp;)=delete"];
    Entry "is_5fconnected" "is_connected" [Result "../classtacopie_1_1tcp__client.html#a9bf568812c8350260843842e7952c8c3" 1 "tacopie::tcp_client"];
    Entry "is_5fipv6" "is_ipv6" [Result "../classtacopie_1_1tcp__socket.html#a6d9933c767572b03fbb4b5ced4bd1fc4" 1 "tacopie::tcp_socket"];
    Entry "is_5frunning" "is_running" [Result "../classtacopie_1_1tcp__server.html#a76162141e6443953f3ad8e11c4e4d3d7" 1 "tacopie::tcp_server::is_running()";
      Result "../classtacopie_1_1utils_1_1thread__pool.html#a77a647a75be188a5c5f83b922c061107" 1 "tacopie::utils::thread_pool::is_running()"]].

Definition tacopie_functions_7 : table :=
  [
    Entry "listen" "listen" [Result "../classtacopie_1_1tcp__socket.html#af0957ded2a84fb06d940cba98df477fb" 1 "tacopie::tcp_socket"];
    Entry "logger" "logger" [Result "../classtacopie_1_1logger.html#af863301c0ef7f646469eb944285cb280" 1 "tacopie::logger::logger(log_level level=log_level::info)";
      Result "../classtacopie_1_1logger.html#af22e5c126a0e0dbd4c82dc1c40b2d16f" 1 "tacopie::logger::logger(const logger &amp;)=default"];
    Entry "logger_5fiface" "logger_iface" [Result "../classtacopie_1_1logger__iface.html#afccf838f815d168e82e4722e2c4d0d90" 1 "tacopie::logger_iface::logger_iface(void)=default";
      Result "../classtacopie_1_1logger__iface.html#a34fb7873b2c5e908afd2d4a0d4965ec1" 1 "tacopie::logger_iface::logger_iface(const logger_iface &amp;)=default"]].

Definition tacopie_functions_8 : table :=
  [
    Entry "notify" "notify" [Result "../classtacopie_1_1self__pipe.html#ade9e0e3d19b8d4d22977935a578d508e" 1 "tacopie::self_pipe"]].

Definition tacopie_functions_9 : table :=
  [
    Entry "operator_21_3d" "operator!=" [Result "../classtacopie_1_1tcp__client.html#af352b6b1e939c919aec2761517051eb9" 1 "tacopie::tcp_client::operator!=()";
      Result "../classtacopie_1_1tcp__server.html#aa45611b77d60b536aeaf626d1724342d" 1 "tacopie::tcp_server::operator!=()";
      Result "../classtacopie_1_1tcp__socket.html#a76f69612969374b5aa542378d37ee398" 1 "tacopie::tcp_socket::operator!=()"];
    Entry "operator_3c_3c" "operator&lt;&lt;" [Result "../classtacopie_1_1utils_1_1thread__pool.html#afb7befd9fa5f1fbd44423fddc8cbc5d3" 1 "tacopie::utils::thread_pool"];
    Entry "operator_3d" "operator=" [Result "../classtacopie_1_1io__service.html#a980652008516b38357d405c16eda07fa" 1 "tacopie::io_service::operator=()";
      Result "../classtacopie_1_1self__pipe.html#a14e0fa3a880b6c9559c087eac480c518" 1 "tacopie::self_pipe::operator=()";
      Result "../classtacopie_1_1tcp__client.html#aeadcfb8cd727b2917ebcd357311d0a6b" 1 "tacopie::tcp_client::operator=()";
      Result "../classtacopie_1_1tcp__server.html#a7e7da4352e2e016f8d40d19bf9fee54b" 1 "tacopie::tcp_server::operator=()";
      Result "../classtacopie_1_1tcp__socket.html#aae3234c92bd36d5a614e44472d42bbf4" 1 "tacopie::tcp_socket::operator=()";
      Result "../classtacopie_1_1tacopie__error.html#ad30ae4932d33b460f75570f5f3a6e3f3" 1 "tacopie::tacopie_error::operator=()";
      Result "../classtacopie_1_1logger__iface.html#ac3ca89b7c5d227b8ed3a5adaa5b72527" 1 "tacopie::logger_iface::operator=()";
      Result "../classtacopie_1_1logger.html#a4ee4e53fa0857ee404ddfd5b40759162" 1 "tacopie::logger::operator=()";
      Result "../classtacopie_1_1utils_1_1thread__pool.html#aa0077461da4da6ba3f4dcac029351234" 1 "tacopie::utils::thread_pool::operator=()"];
    Entry "operator_3d_3d" "operator==" [Result "../classtacopie_1_1tcp__client.html#af7a1796c04efd00542349ecab692e073" 1 "tacopie::tcp_client::operator==()";
      Result "../classtacopie_1_1tcp__server.html#ab9b95a27afb405668bb4d5b1a312ceae" 1 "tacopie::tcp_server::operator==()";
      Result "../classtacopie_1_1tcp__socket.html#a69fde61058ab72d88ce48f557d8216cf" 1 "tacopie::tcp_socket::operator==()"]].

Definition tacopie_functions_a : table :=
  [
    Entry "recv" "recv" [Result "../classtacopie_1_1tcp__socket.html#a0d6d30258a902d12b3c2c62644756685" 1 "tacopie::tcp_socket"]].

Definition tacopie_functions_b : table :=
  [
    Entry "self_5fpipe" "self_pipe" [Result "../classtacopie_1_1self__pipe.html#add8d2c43863d1505e6851789ab5d9b97" 1 "tacopie::self_pipe::self_pipe(void)";
      Result "../classtacopie_1_1self__pipe.html#a09ffc77b89ad48bc8db6635108c68b6b" 1 "tacopie::self_pipe::self_pipe(const self_pipe &amp;)=delete"];
    Entry "send" "send" [Result "../classtacopie_1_1tcp__socket.html#a36521a8f502adc665ad0fb1c53583d04" 1 "tacopie::tcp_socket"];
    Entry "set_5fnb_5fthreads" "set_nb_threads" [Result "../classtacopie_1_1utils_1_1thread__pool.html#a7c7ae922cedff8fa323828ebb6dea829" 1 "tacopie::utils::thread_pool"];
    Entry "set_5fnb_5fworkers" "set_nb_workers" [Result "../classtacopie_1_1io__service.html#a7e2b0700c0a4591f86c344df8748b3a5" 1 "tacopie::io_service"];
    Entry "set_5fon_5fdisconnection_5fhandler" "set_on_disconnection_handler" [Result "../classtacopie_1_1tcp__client.html#a8c290d681186edb0578051c04f3c0762" 1 "tacopie::tcp_client"];
    Entry "set_5frd_5fcallback" "set_rd_callback" [Result "../classtacopie_1_1io__service.html#a8094c1fec76c6821cc0c008fe524c89a" 1 "tacopie::io_service"];
    Entry "set_5ftype" "set_type" [Result "../classtacopie_1_1tcp__socket.html#a89be86ab254eec3fc16eedfba8b16fb2" 1 "tacopie::tcp_socket"];
    Entry "set_5fwr_5fcallback" "set_wr_callback" [Result "../classtacopie_1_1io__service.html#a7c4f56c7790c7ba52b09837a42aaffb1" 1 "tacopie::io_service"];
    Entry "start" "start" [Result "../classtacopie_1_1tcp__server.html#a6cb98b50d865b32dba497273a0eca1e9" 1 "tacopie::tcp_server"];
    Entry "stop" "stop" [Result "../classtacopie_1_1tcp__server.html#abc099e162432e2218faed93fc84180fd" 1 "tacopie::tcp_server::stop()";
      Result "../classtacopie_1_1utils_1_1thread__pool.html#a8874d7040d12fbe446519bc9f2bcff37" 1 "tacopie::utils::thread_pool::stop()"]].

Definition tacopie_functions_c : table :=
  [
    Entry "tacopie_5ferror" "tacopie_error" [Result "../classtacopie_1_1tacopie__error.html#a524fb8e9ac1825a57664421a3f32b9ce" 1 "tacopie::tacopie_error::tacopie_error(const std::string &amp;what, const std::string &amp;file, std::size_t line)";
      Result "../classtacopie_1_1tacopie__error.html#a0cb2a911165e08818ca03308891633e1" 1 "tacopie::tacopie_error::tacopie_error(const tacopie_error &amp;)=default"];
    Entry "tcp_5fclient" "tcp_client" [Result "../classtacopie_1_1tcp__client.html#a0125e1cf017b0ba0370d682d4382d37b" 1 "tacopie::tcp_client::tcp_client(std::uint32_t num_io_workers=1)";
      Result "../classtacopie_1_1tcp__client.html#a773fbcbb5b79324c8d065e363de73282" 1 "tacopie::tcp_client::tcp_client(tcp_socket &amp;&amp;socket)";
      Result "../classtacopie_1_1tcp__client.html#a5e326782c52f63814cc8f42a901ffaf6" 1 "tacopie::tcp_client::tcp_client(const tcp_client &amp;)=delete"];
    Entry "tcp_5fserver" "tcp_server" [Result "../classtacopie_1_1tcp__server.html#a4f67a38a0764924768cbcc7cf68527bf" 1 "tacopie::tcp_server::tcp_server(void)";
      Result "../classtacopie_1_1tcp__server.html#a2d9c6a2dea95a3c6a919c655d6e8e0ba" 1 "tacopie::tcp_server::tcp_server(const tcp_server &amp;)=delete"];
    Entry "tcp_5fsocket" "tcp_socket" [Result "../classtacopie_1_1tcp__socket.html#a88ed1cadb0263591c4d31805e0a1a001" 1 "tacopie::tcp_socket::tcp_socket(void)";
      Result "../classtacopie_1_1tcp__socket.html#a191ffa48e0753ad4ec87d4d3a4a97822" 1 "tacopie::tcp_socket::tcp_socket(fd_t fd, const std::string &amp;host, std::uint32_t port, type t)";
      Result "../classtacopie_1_1tcp__socket.html#a64f69cd1c185b523b543d4ea53cee1a2" 1 "tacopie::tcp_socket::tcp_socket(tcp_socket &amp;&amp;)";
      Result "../classtacopie_1_1tcp__socket.html#a5ae1a5b0f9713ef256164afdbeb1c193" 1 "tacopie::tcp_socket::tcp_socket(const tcp_socket &amp;)=delete"];
    Entry "thread_5fpool" "thread_pool" [Result "../classtacopie_1_1utils_1_1thread__pool.html#aa0068f000b8ecb21b2b0a0c50f77877c" 1 "tacopie::utils::thread_pool::thread_pool(std::size_t nb_threads)";
      Result "../classtacopie_1_1utils_1_1thread__pool.html#a63a850c39d21058eda9d655bb7eff452" 1 "tacopie::utils::thread_pool::thread_pool(const thread_pool &amp;)=delete"];
    Entry "track" "track" [Result "../classtacopie_1_1io__service.html#a9f4c8bce3c0f6d660515b0b5eb109df8" 1 "tacopie::io_service"]].

Definition tacopie_functions_d : table :=
  [
    Entry "untrack" "untrack" [Result "../classtacopie_1_1io__service.html#a9a7672f0894a0fc1a3e6c593ca6df22c" 1 "tacopie::io_service"]].

Definition tacopie_functions_e : table :=
  [
    Entry "wait_5ffor_5fremoval" "wait_for_removal" [Result "../classtacopie_1_1io__service.html#aa57db619baeaa6db0aeb22e67b895cd7" 1 "tacopie::io_service"];
    Entry "warn" "warn" [Result "../classtacopie_1_1logger__iface.html#ab96d8f6bc2e2b514c7ceec4c856f8921" 1 "tacopie::logger_iface::warn()";
      Result "../classtacopie_1_1logger.html#aa4cd2ffc3f4b9d096a35c5c2aa8e0970" 1 "tacopie::logger::warn()"]].

Definition tacopie_functions_f : table :=
  [
    Entry "_7eio_5fservice" "~io_service" [Result "../classtacopie_1_1io__service.html#ae423d7e4b13f07fe41fb051345ffbf8d" 1 "tacopie::io_service"];
    Entry "_7elogger" "~logger" [Result "../classtacopie_1_1logger.html#af5c89b85935dbe3b4da3199247d50398" 1 "tacopie::logger"];
    Entry "_7elogger_5fiface" "~logger_iface" [Result "../classtacopie_1_1logger__iface.html#a562dcc605198ca90904ba21fa98eb6ea" 1 "tacopie::logger_iface"];
    Entry "_7eself_5fpipe" "~self_pipe" [Result "../classtacopie_1_1self__pipe.html#a10a6c4b0d67a4a14abea397a05cee54c" 1 "tacopie::self_pipe"];
    Entry "_7etacopie_5ferror" "~tacopie_error" [Result "../classtacopie_1_1tacopie__error.html#a5bf6b0967f7f4cf2b8f8d0a2ef0912b2" 1 "tacopie::tacopie_error"];
    Entry "_7etcp_5fserver" "~tcp_server" [Result "../classtacopie_1_1tcp__server.html#a7841dc528e2d3dfc94fbe9b93824da50" 1 "tacopie::tcp_server"];
    Entry "_7etcp_5fsocket" "~tcp_socket" [Result "../classtacopie_1_1tcp__socket.html#a4bd737a76a2a326be03d704f79a35282" 1 "tacopie::tcp_socket"];
    Entry "_7ethread_5fpool" "~thread_pool" [Result "../classtacopie_1_1utils_1_1thread__pool.html#accddfc6fad613b0c6d407028799abfc5" 1 "tacopie::utils::thread_pool"]].

Definition tacopie_variables_0 : table :=
  [
    Entry "async_5fread_5fcallback" "async_read_callback" [Result "../structtacopie_1_1tcp__client_1_1read__request.html#a3d495e82e38efebf763f595392b0db46" 1 "tacopie::tcp_client::read_request"];
    Entry "async_5fwrite_5fcallback" "async_write_callback" [Result "../structtacopie_1_1tcp__client_1_1write__request.html#a04fd3e5484ba322d0112024bf8823623" 1 "tacopie::tcp_client::write_request"]].

Definition tacopie_variables_1 : table :=
  [
    Entry "buffer" "buffer" [Result "../structtacopie_1_1tcp__client_1_1read__result.html#a50d22ea3a43d085d88d54bbf59a357dc" 1 "tacopie::tcp_client::read_result::buffer()";
      Result "../structtacopie_1_1tcp__client_1_1write__request.html#a4ee0c159b630c14f81d6b6d7d4b4e826" 1 "tacopie::tcp_client::write_request::buffer()"]].

Definition tacopie_variables_2 : table :=
  [
    Entry "size" "size" [Result "../structtacopie_1_1tcp__client_1_1write__result.html#acee9eca954a6f1b6283c6188eead2ab1" 1 "tacopie::tcp_client::write_result::size()";
      Result "../structtacopie_1_1tcp__client_1_1read__request.html#ad8b69f61884c60596aface363ca947a3" 1 "tacopie::tcp_client::read_request::size()"];
    Entry "success" "success" [Result "../structtacopie_1_1tcp__client_1_1read__result.html#a9bb917b8d210159a95655a6f8da8e96e" 1 "tacopie::tcp_client::read_result::success()";
      Result "../structtacopie_1_1tcp__client_1_1write__result.html#a4a8d5706c83068a97c10e63c6080e6a3" 1 "tacopie::tcp_client::write_result::success()"]].

Definition tacopie_typedefs_0 : table :=
  [
    Entry "async_5fread_5fcallback_5ft" "async_read_callback_t" [Result "../classtacopie_1_1tcp__client.html#acdf9dea8bac6c56f7b04ce38b9432322" 1 "tacopie::tcp_client"];
    Entry "async_5fwrite_5fcallback_5ft" "async_write_callback_t" [Result "../classtacopie_1_1tcp__client.html#ad48b8c8dff8a77490eb2e3e802c82b97" 1 "tacopie::tcp_client"]].

Definition tacopie_typedefs_1 : table :=
  [
    Entry "disconnection_5fhandler_5ft" "disconnection_handler_t" [Result "../classtacopie_1_1tcp__client.html#aca5df52e5ee6fa673cf212532ada1453" 1 "tacopie::tcp_client"]].

Definition tacopie_typedefs_2 : table :=
  [
    Entry "event_5fcallback_5ft" "event_callback_t" [Result "../classtacopie_1_1io__service.html#abb66850c32d9c724f4418d77bd04bcfd" 1 "tacopie::io_service"]].

Definition tacopie_typedefs_3 : table :=
  [
    Entry "on_5fnew_5fconnection_5fcallback_5ft" "on_new_connection_callback_t" [Result "../classtacopie_1_1tcp__server.html#a103cb4e6fcab00f88a708aabd38b66ff" 1 "tacopie::tcp_server"]].

Definition tacopie_typedefs_4 : table :=
  [
    Entry "task_5ft" "task_t" [Result "../classtacopie_1_1utils_1_1thread__pool.html#a8ae8886fdeaa8e5c0abad12626a47296" 1 "tacopie::utils::thread_pool"]].

Definition tacopie_enums_0 : table :=
  [
    Entry "log_5flevel" "log_level" [Result "../classtacopie_1_1logger.html#ae7dd235972bbf86a017fc39b3af80efe" 1 "tacopie::logger"]].

Definition tacopie_enums_1 : table :=
  [
    Entry "type" "type" [Result "../classtacopie_1_1tcp__socket.html#ad8376e85df96ab9523f5d079ed7172ab" 1 "tacopie::tcp_socket"]].

(** The results pages, by their URL: each loads the table of its name. *)
Definition tacopie_pages : list (string * table) :=
  [("search/all_0.html", tacopie_all_0);
   ("search/all_1.html", tacopie_all_1);
   ("search/all_2.html", tacopie_all_2);
   ("search/all_3.html", tacopie_all_3);
   ("search/all_4.html", tacopie_all_4);
   ("search/all_5.html", tacopie_all_5);
   ("search/all_6.html", tacopie_all_6);
   ("search/all_7.html", tacopie_all_7);
   ("search/all_8.html", tacopie_all_8);
   ("search/all_9.html", tacopie_all_9);
   ("search/all_a.html", tacopie_all_a);
   ("search/all_b.html", tacopie_all_b);
   ("search/all_c.html", tacopie_all_c);
   ("search/all_d.html", tacopie_all_d);
   ("search/all_e.html", tacopie_all_e);
   ("search/all_f.html", tacopie_all_f);
   ("search/classes_0.html", tacopie_classes_0);
   ("search/classes_1.html", tacopie_classes_1);
   ("search/classes_2.html", tacopie_classes_2);
   ("search/classes_3.html", tacopie_classes_3);
   ("search/classes_4.html", tacopie_classes_4);
   ("search/classes_5.html", tacopie_classes_5);
   ("search/functions_0.html", tacopie_functions_0);
   ("search/functions_1.html", tacopie_functions_1);
   ("search/functions_2.html", tacopie_functions_2);
   ("search/functions_3.html", tacopie_functions_3);
   ("search/functions_4.html", tacopie_functions_4);
   ("search/functions_5.html", tacopie_functions_5);
   ("search/functions_6.html", tacopie_functions_6);
   ("search/functions_7.html", tacopie_functions_7);
   ("search/functions_8.html", tacopie_functions_8);
   ("search/functions_9.html", tacopie_functions_9);
   ("search/functions_a.html", tacopie_functions_a);
   ("search/functions_b.html", tacopie_functions_b);
   ("search/functions_c.html", tacopie_functions_c);
   ("search/functions_d.html", tacopie_functions_d);
   ("search/functions_e.html", tacopie_functions_e);
   ("search/functions_f.html", tacopie_functions_f);
   ("search/variables_0.html", tacopie_variables_0);
   ("search/variables_1.html", tacopie_variables_1);
   ("search/variables_2.html", tacopie_variables_2);
   ("search/typedefs_0.html", tacopie_typedefs_0);
   ("search/typedefs_1.html", tacopie_typedefs_1);
   ("search/typedefs_2.html", tacopie_typedefs_2);
   ("search/typedefs_3.html", tacopie_typedefs_3);
   ("search/typedefs_4.html", tacopie_typedefs_4);
   ("search/enums_0.html", tacopie_enums_0);
   ("search/enums_1.html", tacopie_enums_1)].

Definition tacopie_index : doc_index :=
  DocIndex tacopie_indexSectionsWithContent tacopie_indexSectionNames
           tacopie_indexSectionLabels tacopie_pages.

Definition tacopie_menudata : menudata :=
  (Some [
   Menu "Main Page" "index.html" None;
   Menu "Classes" "annotated.html" (Some [
    Menu "Class List" "annotated.html" None;
    Menu "Class Index" "classes.html" None;
    Menu "Class Hierarchy" "hierarchy.html" None;
    Menu "Class Members" "functions.html" (Some [
     Menu "All" "functions.html" (Some [
      Menu "a" "functions.html#index_a" None;
      Menu "b" "functions.html#index_b" None;
      Menu "c" "functions.html#index_c" None;
      Menu "d" "functions.html#index_d" None;
      Menu "e" "functions.html#index_e" None;
      Menu "g" "functions.html#index_g" None;
      Menu "i" "functions.html#index_i" None;
      Menu "l" "functions.html#index_l" None;
      Menu "n" "functions.html#index_n" None;
      Menu "o" "functions.html#index_o" None;
      Menu "r" "functions.html#index_r" None;
      Menu "s" "functions.html#index_s" None;
      Menu "t" "functions.html#index_t" None;
      Menu "u" "functions.html#index_u" None;
      Menu "w" "functions.html#index_w" None;
      Menu "~" "functions.html#index_0x7e" None]);
     Menu "Functions" "functions_func.html" (Some [
      Menu "a" "functions_func.html#index_a" None;
      Menu "b" "functions_func.html#index_b" None;
      Menu "c" "functions_func.html#index_c" None;
      Menu "d" "functions_func.html#index_d" None;
      Menu "e" "functions_func.html#index_e" None;
      Menu "g" "functions_func.html#index_g" None;
      Menu "i" "functions_func.html#index_i" None;
      Menu "l" "functions_func.html#index_l" None;
      Menu "n" "functions_func.html#index_n" None;
      Menu "o" "functions_func.html#index_o" None;
      Menu "r" "functions_func.html#index_r" None;
      Menu "s" "functions_func.html#index_s" None;
      Menu "t" "functions_func.html#index_t" None;
      Menu "u" "functions_func.html#index_u" None;
      Menu "w" "functions_func.html#index_w" None;
      Menu "~" "functions_func.html#index_0x7e" None]);
     Menu "Variables" "functions_vars.html" None;
     Menu "Typedefs" "functions_type.html" None;
     Menu "Enumerations" "functions_enum.html" None])]);
   Menu "Files" "files.html" (Some [
    Menu "File List" "files.html" None])]).
