(* ===== verification/DocIndexOrphans.v ===== *)
(** The results pages that are in the two search directories and that no section
    of searchdata.js leads to: a section has one page for each of its characters,
    and these pages are of sections it does not name, or past the last character
    of one. *)

From S2P Require Import Prelude JsString DocResults.

#[local] Open Scope string_scope.

Definition redis_all_13 : table :=
  [
    Entry "tcp_5fclient" "tcp_client" [Result "../classcpp__redis_1_1network_1_1tcp__client.html" 1 "cpp_redis::network::tcp_client";
      Result "../classcpp__redis_1_1network_1_1tcp__client.html#a8cbad07ca636e9d60dafc0e5cac8106d" 1 "cpp_redis::network::tcp_client::tcp_client()"];
    Entry "tcp_5fclient_2ehpp" "tcp_client.hpp" [Result "../tcp__client_8hpp.html" 1 ""];
    Entry "tcp_5fclient_5fdisconnection_5fhandler" "tcp_client_disconnection_handler" [Result "../classcpp__redis_1_1network_1_1redis__connection.html#a9d504600a38af881fdc0757e19a8e753" 1 "cpp_redis::network::redis_connection"];
    Entry "tcp_5fclient_5fiface" "tcp_client_iface" [Result "../classcpp__redis_1_1network_1_1tcp__client__iface.html" 1 "cpp_redis::network::tcp_client_iface";
      Result "../classcpp__redis_1_1network_1_1tcp__client__iface.html#a8504873049519bcebd626984e4087a90" 1 "cpp_redis::network::tcp_client_iface::tcp_client_iface()"];
    Entry "tcp_5fclient_5fiface_2ehpp" "tcp_client_iface.hpp" [Result "../tcp__client__iface_8hpp.html" 1 ""];
    Entry "tcp_5fclient_5freceive_5fhandler" "tcp_client_receive_handler" [Result "../classcpp__redis_1_1network_1_1redis__connection.html#a6382aa1f13a25bcccf927476d41968c8" 1 "cpp_redis::network::redis_connection"];
    Entry "time" "time" [Result "../classcpp__redis_1_1client.html#aa98df57ae17365aaf0405b60f4711e92" 1 "cpp_redis::client::time(const reply_callback_t &amp;reply_callback)";
      Result "../classcpp__redis_1_1client.html#a7d0d5e0a02e97ad6d8733430489df321" 1 "cpp_redis::client::time()"];
    Entry "try_5fcommit" "try_commit" [Result "../classcpp__redis_1_1client.html#a6c7aff2567b5ca7f527faa4f2ebca405" 1 "cpp_redis::client::try_commit()";
      Result "../classcpp__redis_1_1sentinel.html#ad27b6a3558e6d3a634df11dca80154df" 1 "cpp_redis::sentinel::try_commit()"];
    Entry "ttl" "ttl" [Result "../classcpp__redis_1_1client.html#a667bb7a6ead9c8cdaba534033a467367" 1 "cpp_redis::client::ttl(const std::string &amp;key, const reply_callback_t &amp;reply_callback)";
      Result "../classcpp__redis_1_1client.html#afc4697ccb77bb16ff13c425b93ef7c1d" 1 "cpp_redis::client::ttl(const std::string &amp;key)"];
    Entry "type" "type" [Result "../classcpp__redis_1_1reply.html#acc272b2a52164cac1d110c619a0b25bd" 1 "cpp_redis::reply::type()";
      Result "../structcpp__redis_1_1helpers_1_1back.html#a83f1d0c03ffc82ff8ab7243c3c858195" 1 "cpp_redis::helpers::back::type()";
      Result "../structcpp__redis_1_1helpers_1_1back_3_01_t_01_4.html#a87d10cfacd8ca29b083dc5688e77f87c" 1 "cpp_redis::helpers::back&lt; T &gt;::type()";
      Result "../structcpp__redis_1_1helpers_1_1front.html#a23178392c9417cc5ada75205931d1768" 1 "cpp_redis::helpers::front::type()";
      Result "../classcpp__redis_1_1client.html#ac284ea9a5c0e95d49a675403aaf4847c" 1 "cpp_redis::client::type(const std::string &amp;key, const reply_callback_t &amp;reply_callback)";
      Result "../classcpp__redis_1_1client.html#a143f362032218fef03b3408a761b8851" 1 "cpp_redis::client::type(const std::string &amp;key)"]].

Definition redis_all_14 : table :=
  [
    Entry "unprotected_5fauth" "unprotected_auth" [Result "../classcpp__redis_1_1client.html#a0bb20d17620ff63219f7e932d3baa0c6" 1 "cpp_redis::client"];
    Entry "unprotected_5fpsubscribe" "unprotected_psubscribe" [Result "../classcpp__redis_1_1subscriber.html#a4c711c3fda605cb286f14bb25b205b7d" 1 "cpp_redis::subscriber"];
    Entry "unprotected_5fselect" "unprotected_select" [Result "../classcpp__redis_1_1client.html#ae2ac4b582d4d656b3c76450ea88c7b58" 1 "cpp_redis::client"];
    Entry "unprotected_5fsend" "unprotected_send" [Result "../classcpp__redis_1_1client.html#a89e9857149094a693abb2e4015779231" 1 "cpp_redis::client"];
    Entry "unprotected_5fsubscribe" "unprotected_subscribe" [Result "../classcpp__redis_1_1subscriber.html#adc7f57c1c2cba9b213ce251b2b736550" 1 "cpp_redis::subscriber"];
    Entry "unsubscribe" "unsubscribe" [Result "../classcpp__redis_1_1subscriber.html#a08dffea41cfd5914adfa5a966e0ab292" 1 "cpp_redis::subscriber"];
    Entry "unwatch" "unwatch" [Result "../classcpp__redis_1_1client.html#aaf19c28495b74c8c22a8d86e80a1557e" 1 "cpp_redis::client::unwatch(const reply_callback_t &amp;reply_callback)";
      Result "../classcpp__redis_1_1client.html#a006e1258d7857f2d83bd9be48945f79a" 1 "cpp_redis::client::unwatch()"]].

Definition redis_all_15 : table :=
  [
    Entry "value" "value" [Result "../structcpp__redis_1_1helpers_1_1is__type__present.html#a7b5e8d970ba974a9b58cbc440983c25c" 1 "cpp_redis::helpers::is_type_present::value()";
      Result "../structcpp__redis_1_1helpers_1_1is__type__present_3_01_t1_00_01_t2_01_4.html#a1dbf43b76ba407caf9bfb35ffdbe55ad" 1 "cpp_redis::helpers::is_type_present&lt; T1, T2 &gt;::value()";
      Result "../structcpp__redis_1_1helpers_1_1is__different__types.html#a07dadd8ff3c8024734f231aaf1555626" 1 "cpp_redis::helpers::is_different_types::value()";
      Result "../structcpp__redis_1_1helpers_1_1is__different__types_3_01_t1_01_4.html#ae05b9b4af6846340ac66fcf64a622397" 1 "cpp_redis::helpers::is_different_types&lt; T1 &gt;::value()"];
    Entry "variadic_5ftemplate_2ehpp" "variadic_template.hpp" [Result "../variadic__template_8hpp.html" 1 ""]].

Definition redis_all_16 : table :=
  [
    Entry "wait" "wait" [Result "../classcpp__redis_1_1client.html#ab7e11ccc1fb07ae3dce860042b96f4d9" 1 "cpp_redis::client::wait(int numslaves, int timeout, const reply_callback_t &amp;reply_callback)";
      Result "../classcpp__redis_1_1client.html#a4ef6f516a3dcdea1b317bb4e5e96e680" 1 "cpp_redis::client::wait(int numslaves, int timeout)"];
    Entry "warn" "warn" [Result "../classcpp__redis_1_1logger__iface.html#a0ea8e43a4f2118e77af56cd1cdb21cba" 1 "cpp_redis::logger_iface::warn()";
      Result "../classcpp__redis_1_1logger.html#ae9359429428786c7b5605a1109508ae5" 1 "cpp_redis::logger::warn(const std::string &amp;msg, const std::string &amp;file, std::size_t line)";
      Result "../classcpp__redis_1_1logger.html#a9493594d547e7abe71b8690be1946c7aa1ea4c3ab05ee0c6d4de30740443769cb" 1 "cpp_redis::logger::warn()";
      Result "../namespacecpp__redis.html#a8316739706654d185aed3966fad3ec89" 1 "cpp_redis::warn()"];
    Entry "watch" "watch" [Result "../classcpp__redis_1_1client.html#a7faae4f59e4b7f5b5003dcfbbf04af89" 1 "cpp_redis::client::watch(const std::vector&lt; std::string &gt; &amp;keys, const reply_callback_t &amp;reply_callback)";
      Result "../classcpp__redis_1_1client.html#a437606353878a903033ced5cb56ed07c" 1 "cpp_redis::client::watch(const std::vector&lt; std::string &gt; &amp;keys)"];
    Entry "write_5frequest" "write_request" [Result "../structcpp__redis_1_1network_1_1tcp__client__iface_1_1write__request.html" 1 "cpp_redis::network::tcp_client_iface"];
    Entry "write_5fresult" "write_result" [Result "../structcpp__redis_1_1network_1_1tcp__client__iface_1_1write__result.html" 1 "cpp_redis::network::tcp_client_iface"]].

Definition redis_all_17 : table :=
  [
    Entry "zadd" "zadd" [Result "../classcpp__redis_1_1client.html#aaea3a3c79956cabb6709fb6cd3e01739" 1 "cpp_redis::client::zadd(const std::string &amp;key, const std::vector&lt; std::string &gt; &amp;options, const std::map&lt; std::string, std::string &gt; &amp;score_members, const reply_callback_t &amp;reply_callback)";
      Result "../classcpp__redis_1_1client.html#a9c6ec329f626304b629c6ff17ea9bc6b" 1 "cpp_redis::client::zadd(const std::string &amp;key, const std::vector&lt; std::string &gt; &amp;options, const std::map&lt; std::string, std::string &gt; &amp;score_members)"];
    Entry "zcard" "zcard" [Result "../classcpp__redis_1_1client.html#a54259186a650211cc8b5fb70af1384ba" 1 "cpp_redis::client::zcard(const std::string &amp;key, const reply_callback_t &amp;reply_callback)";
      Result "../classcpp__redis_1_1client.html#a9cfeae7394f3fa2b3ff7ec1f1c56ca1b" 1 "cpp_redis::client::zcard(const std::string &amp;key)"];
    Entry "zcount" "zcount" [Result "../classcpp__redis_1_1client.html#a405463c110eb39e66163f0d936e42815" 1 "cpp_redis::client::zcount(const std::string &amp;key, int min, int max, const reply_callback_t &amp;reply_callback)";
      Result "../classcpp__redis_1_1client.html#a7965bc6ab1198ca3bb5b31c10da95c34" 1 "cpp_redis::client::zcount(const std::string &amp;key, int min, int max)";
      Result "../classcpp__redis_1_1client.html#a648afc3a38da6413e6b735d2708c3fe3" 1 "cpp_redis::client::zcount(const std::string &amp;key, double min, double max, const reply_callback_t &amp;reply_callback)";
      Result "../classcpp__redis_1_1client.html#a7d3ddea81b718564c060a51575d8c127" 1 "cpp_redis::client::zcount(const std::string &amp;key, double min, double max)";
      Result "../classcpp__redis_1_1client.html#a4638b70036c17ddd87dc204392ea7718" 1 "cpp_redis::client::zcount(const std::string &amp;key, const std::string &amp;min, const std::string &amp;max, const reply_callback_t &amp;reply_callback)";
      Result "../classcpp__redis_1_1client.html#a94416b729f3ecd32d41450725e773590" 1 "cpp_redis::client::zcount(const std::string &amp;key, const std::string &amp;min, const std::string &amp;max)"];
    Entry "zincrby" "zincrby" [Result "../classcpp__redis_1_1client.html#a7852309fc3054c1bce760e4e2189205b" 1 "cpp_redis::client::zincrby(const std::string &amp;key, int incr, const std::string &amp;member, const reply_callback_t &amp;reply_callback)";
      Result "../classcpp__redis_1_1client.html#ada07e0534d23fd0247cdc1b9a8008fe9" 1 "cpp_redis::client::zincrby(const std::string &amp;key, int incr, const std::string &amp;member)";
      Result "../classcpp__redis_1_1client.html#abeb105281afc762ed57afce5619ef73f" 1 "cpp_redis::client::zincrby(const std::string &amp;key, double incr, const std::string &amp;member, const reply_callback_t &amp;reply_callback)";
      Result "../classcpp__redis_1_1client.html#a59164f47b17261f1a82cef5da072aa4c" 1 "cpp_redis::client::zincrby(const std::string &amp;key, double incr, const std::string &amp;member)";
      Result "../classcpp__redis_1_1client.html#a6f0b61b420ebc8e054c766c6f5034096" 1 "cpp_redis::client::zincrby(const std::string &amp;key, const std::string &amp;incr, const std::string &amp;member, const reply_callback_t &amp;reply_callback)";
      Result "../classcpp__redis_1_1client.html#a202a2adbf6e0d127ad1c5cc301754e5b" 1 "cpp_redis::client::zincrby(const std::string &amp;key, const std::string &amp;incr, const std::string &amp;member)"];
    Entry "zlexcount" "zlexcount" [Result "../classcpp__redis_1_1client.html#ad4a8fef29a047724ad4e97eedfb53c62" 1 "cpp_redis::client::zlexcount(const std::string &amp;key, int min, int max, const reply_callback_t &amp;reply_callback)";
      Result "../classcpp__redis_1_1client.html#aff60a1181d93d961f6ca1903522ce899" 1 "cpp_redis::client::zlexcount(const std::string &amp;key, int min, int max)";
      Result "../classcpp__redis_1_1client.html#aba1b2a6c750b13b1a632ebc8ca90cf60" 1 "cpp_redis::client::zlexcount(const std::string &amp;key, double min, double max, const reply_callback_t &amp;reply_callback)";
      Result "../classcpp__redis_1_1client.html#ab492b901c49f913d0120b87afee9458c" 1 "cpp_redis::client::zlexcount(const std::string &amp;key, double min, double max)";
      Result "../classcpp__redis_1_1client.html#a90bd86c8348ca8bfec29d66d9e5bdfc3" 1 "cpp_redis::client::zlexcount(const std::string &amp;key, const std::string &amp;min, const std::string &amp;max, const reply_callback_t &amp;reply_callback)";
      Result "../classcpp__redis_1_1client.html#ace7bbf92a0ea2cac775e5bc66a0d1ea8" 1 "cpp_redis::client::zlexcount(const std::string &amp;key, const std::string &amp;min, const std::string &amp;max)"];
    Entry "zrange" "zrange" [Result "../classcpp__redis_1_1client.html#a70025f24f20e81397868467651c804a9" 1 "cpp_redis::client::zrange(const std::string &amp;key, int start, int stop, const reply_callback_t &amp;reply_callback)";
      Result "../classcpp__redis_1_1client.html#a7a86805d2495c3866df9095ea71ab842" 1 "cpp_redis::client::zrange(const std::string &amp;key, int start, int stop, bool withscores, const reply_callback_t &amp;reply_callback)";
      Result "../classcpp__redis_1_1client.html#a75f0e330b851c7bfcf373a7ef9f30cb8" 1 "cpp_redis::client::zrange(const std::string &amp;key, int start, int stop, bool withscores=false)";
      Result "../classcpp__redis_1_1client.html#a24f15cede24bdb482167b1ea00db3160" 1 "cpp_redis::client::zrange(const std::string &amp;key, double start, double stop, const reply_callback_t &amp;reply_callback)";
      Result "../classcpp__redis_1_1client.html#ab37fd922b733c5fa64f7a0dc4be22efe" 1 "cpp_redis::client::zrange(const std::string &amp;key, double start, double stop, bool withscores, const reply_callback_t &amp;reply_callback)";
      Result "../classcpp__redis_1_1client.html#a0286a2953aeaec8c23d0e292fe2fccc2" 1 "cpp_redis::client::zrange(const std::string &amp;key, double start, double stop, bool withscores=false)";
      Result "../classcpp__redis_1_1client.html#ad24c21a0344652d821d0628c68057ecb" 1 "cpp_redis::client::zrange(const std::string &amp;key, const std::string &amp;start, const std::string &amp;stop, const reply_callback_t &amp;reply_callback)";
      Result "../classcpp__redis_1_1client.html#a3768026508c4c2e28c600bf7be54b4a1" 1 "cpp_redis::client::zrange(const std::string &amp;key, const std::string &amp;start, const std::string &amp;stop, bool withscores, const reply_callback_t &amp;reply_callback)";
      Result "../classcpp__redis_1_1client.html#aaaaf7f2d11f02bc7709be1b2a654894d" 1 "cpp_redis::client::zrange(const std::string &amp;key, const std::string &amp;start, const std::string &amp;stop, bool withscores=false)"];
    Entry "zrank" "zrank" [Result "../classcpp__redis_1_1client.html#a5563d5240de4bbdbf6ed5dd8cc92a67a" 1 "cpp_redis::client::zrank(const std::string &amp;key, const std::string &amp;member, const reply_callback_t &amp;reply_callback)";
      Result "../classcpp__redis_1_1client.html#acf680674a3944a3baaa36f888250610e" 1 "cpp_redis::client::zrank(const std::string &amp;key, const std::string &amp;member)"];
    Entry "zrem" "zrem" [Result "../classcpp__redis_1_1client.html#ae33a0ea1127a5da870db4354fad2bd10" 1 "cpp_redis::client::zrem(const std::string &amp;key, const std::vector&lt; std::string &gt; &amp;members, const reply_callback_t &amp;reply_callback)";
      Result "../classcpp__redis_1_1client.html#aff2e5ec7005f76869fad79c4e8bd68c8" 1 "cpp_redis::client::zrem(const std::string &amp;key, const std::vector&lt; std::string &gt; &amp;members)"];
    Entry "zremrangebylex" "zremrangebylex" [Result "../classcpp__redis_1_1client.html#aff3c4f11d504ba64a98b6bce9bf319a0" 1 "cpp_redis::client::zremrangebylex(const std::string &amp;key, int min, int max, const reply_callback_t &amp;reply_callback)";
      Result "../classcpp__redis_1_1client.html#a9277ebc759190ce6f085a60a98ad3a7c" 1 "cpp_redis::client::zremrangebylex(const std::string &amp;key, int min, int max)";
      Result "../classcpp__redis_1_1client.html#ae03899c0520352eb6a800b9d6c12f2ae" 1 "cpp_redis::client::zremrangebylex(const std::string &amp;key, double min, double max, const reply_callback_t &amp;reply_callback)";
      Result "../classcpp__redis_1_1client.html#a6ed8333a10d5c4390f3e52f91c436264" 1 "cpp_redis::client::zremrangebylex(const std::string &amp;key, double min, double max)";
      Result "../classcpp__redis_1_1client.html#a8fe114da4df2dfd2ab5240554444a294" 1 "cpp_redis::client::zremrangebylex(const std::string &amp;key, const std::string &amp;min, const std::string &amp;max, const reply_callback_t &amp;reply_callback)";
      Result "../classcpp__redis_1_1client.html#a1350d0df45d5b41c940d782682b41bd9" 1 "cpp_redis::client::zremrangebylex(const std::string &amp;key, const std::string &amp;min, const std::string &amp;max)"];
    Entry "zremrangebyrank" "zremrangebyrank" [Result "../classcpp__redis_1_1client.html#af40c1e6895312c13636db9dd610ce753" 1 "cpp_redis::client::zremrangebyrank(const std::string &amp;key, int start, int stop, const reply_callback_t &amp;reply_callback)";
      Result "../classcpp__redis_1_1client.html#acc4f3b77c38c948658505ce04bbbde6d" 1 "cpp_redis::client::zremrangebyrank(const std::string &amp;key, int start, int stop)";
      Result "../classcpp__redis_1_1client.html#a727a7eeae900fc82525544618deaa70b" 1 "cpp_redis::client::zremrangebyrank(const std::string &amp;key, double start, double stop, const reply_callback_t &amp;reply_callback)";
      Result "../classcpp__redis_1_1client.html#a7ad8503cfe002efb2caa36a09791125f" 1 "cpp_redis::client::zremrangebyrank(const std::string &amp;key, double start, double stop)";
      Result "../classcpp__redis_1_1client.html#aafca4e3ca703fff85b1b6a1c9476c958" 1 "cpp_redis::client::zremrangebyrank(const std::string &amp;key, const std::string &amp;start, const std::string &amp;stop, const reply_callback_t &amp;reply_callback)";
      Result "../classcpp__redis_1_1client.html#a2215c127cf351c43b69f62d871e7acb7" 1 "cpp_redis::client::zremrangebyrank(const std::string &amp;key, const std::string &amp;start, const std::string &amp;stop)"];
    Entry "zremrangebyscore" "zremrangebyscore" [Result "../classcpp__redis_1_1client.html#a8de95c0d340cc58d81fe5ca9b576d5b8" 1 "cpp_redis::client::zremrangebyscore(const std::string &amp;key, int min, int max, const reply_callback_t &amp;reply_callback)";
      Result "../classcpp__redis_1_1client.html#a1317e67f2993b71bce596d28bce009b9" 1 "cpp_redis::client::zremrangebyscore(const std::string &amp;key, int min, int max)";
      Result "../classcpp__redis_1_1client.html#a62354f918bcc9fd99562f1fe25dadec7" 1 "cpp_redis::client::zremrangebyscore(const std::string &amp;key, double min, double max, const reply_callback_t &amp;reply_callback)";
      Result "../classcpp__redis_1_1client.html#ab40737e3dd44d39d708ab9e545f1d068" 1 "cpp_redis::client::zremrangebyscore(const std::string &amp;key, double min, double max)";
      Result "../classcpp__redis_1_1client.html#a4a9c526f56dc158345f359961c9f9a7d" 1 "cpp_redis::client::zremrangebyscore(const std::string &amp;key, const std::string &amp;min, const std::string &amp;max, const reply_callback_t &amp;reply_callback)";
      Result "../classcpp__redis_1_1client.html#afdef5244240e2c54c9738be66807e8f6" 1 "cpp_redis::client::zremrangebyscore(const std::string &amp;key, const std::string &amp;min, const std::string &amp;max)"];
    Entry "zrevrange" "zrevrange" [Result "../classcpp__redis_1_1client.html#ad408a62269d10de02605de9acec1ddc0" 1 "cpp_redis::client::zrevrange(const std::string &amp;key, int start, int stop, const reply_callback_t &amp;reply_callback)";
      Result "../classcpp__redis_1_1client.html#a37bfbe4848350144e7899c6d1e63653b" 1 "cpp_redis::client::zrevrange(const std::string &amp;key, int start, int stop, bool withscores, const reply_callback_t &amp;reply_callback)";
      Result "../classcpp__redis_1_1client.html#a001bdf0f597d386202b0aab116657055" 1 "cpp_redis::client::zrevrange(const std::string &amp;key, int start, int stop, bool withscores=false)";
      Result "../classcpp__redis_1_1client.html#a7b20d0dc47cf4fb40220e51408876d6d" 1 "cpp_redis::client::zrevrange(const std::string &amp;key, double start, double stop, const reply_callback_t &amp;reply_callback)";
      Result "../classcpp__redis_1_1client.html#ac03871ced545f10c9f277fd5fc20f0a0" 1 "cpp_redis::client::zrevrange(const std::string &amp;key, double start, double stop, bool withscores, const reply_callback_t &amp;reply_callback)";
      Result "../classcpp__redis_1_1client.html#a85aa18b29763edd1d93c4b463b6b3a51" 1 "cpp_redis::client::zrevrange(const std::string &amp;key, double start, double stop, bool withscores=false)";
      Result "../classcpp__redis_1_1client.html#ab72a94b6f16cb23cf39275bfc9e35385" 1 "cpp_redis::client::zrevrange(const std::string &amp;key, const std::string &amp;start, const std::string &amp;stop, const reply_callback_t &amp;reply_callback)";
      Result "../classcpp__redis_1_1client.html#ae4cef5e8cba4196287bf89375889a2e4" 1 "cpp_redis::client::zrevrange(const std::string &amp;key, const std::string &amp;start, const std::string &amp;stop, bool withscores, const reply_callback_t &amp;reply_callback)";
      Result "../classcpp__redis_1_1client.html#a973fb4632a18f70bec092f3c9659045e" 1 "cpp_redis::client::zrevrange(const std::string &amp;key, const std::string &amp;start, const std::string &amp;stop, bool withscores=false)"];
    Entry "zrevrank" "zrevrank" [Result "../classcpp__redis_1_1client.html#a459f90ba39d9f9e90df5b756ec25db8b" 1 "cpp_redis::client::zrevrank(const std::string &amp;key, const std::string &amp;member, const reply_callback_t &amp;reply_callback)";
      Result "../classcpp__redis_1_1client.html#a9870e21048277805b5eac2ce710089a0" 1 "cpp_redis::client::zrevrank(const std::string &amp;key, const std::string &amp;member)"];
    Entry "zscore" "zscore" [Result "../classcpp__redis_1_1client.html#a5e0a18243dee60595c82fc4a630f6d86" 1 "cpp_redis::client::zscore(const std::string &amp;key, const std::string &amp;member, const reply_callback_t &amp;reply_callback)";
      Result "../classcpp__redis_1_1client.html#a72b20e861696db3e4dd5a4af96a1b427" 1 "cpp_redis::client::zscore(const std::string &amp;key, const std::string &amp;member)"]].

Definition redis_all_18 : table :=
  [
    Entry "_7earray_5fbuilder" "~array_builder" [Result "../classcpp__redis_1_1builders_1_1array__builder.html#ae6a0cd0743b6b0a21f9c3d44fd31ac17" 1 "cpp_redis::builders::array_builder"];
    Entry "_7ebuilder_5fiface" "~builder_iface" [Result "../classcpp__redis_1_1builders_1_1builder__iface.html#afaf3d6cdb3b67b62ed88477dc3d4d1b6" 1 "cpp_redis::builders::builder_iface"];
    Entry "_7ebulk_5fstring_5fbuilder" "~bulk_string_builder" [Result "../classcpp__redis_1_1builders_1_1bulk__string__builder.html#a88c7142bab456f70da9f9a6252e2affb" 1 "cpp_redis::builders::bulk_string_builder"];
    Entry "_7eclient" "~client" [Result "../classcpp__redis_1_1client.html#aca7030c8bd6856f10314b2862d1bae79" 1 "cpp_redis::client"];
    Entry "_7eerror_5fbuilder" "~error_builder" [Result "../classcpp__redis_1_1builders_1_1error__builder.html#a7650c178a457c57c2efb19e7ad256fe7" 1 "cpp_redis::builders::error_builder"];
    Entry "_7einteger_5fbuilder" "~integer_builder" [Result "../classcpp__redis_1_1builders_1_1integer__builder.html#ab2b797dd89b1bdec50f8ccf07633162f" 1 "cpp_redis::builders::integer_builder"];
    Entry "_7elogger" "~logger" [Result "../classcpp__redis_1_1logger.html#ab5eb02b26c96a6e5cba9a7d30669f625" 1 "cpp_redis::logger"];
    Entry "_7elogger_5fiface" "~logger_iface" [Result "../classcpp__redis_1_1logger__iface.html#ac7ed1b828afd2e6589fcdda167d34aa5" 1 "cpp_redis::logger_iface"];
    Entry "_7eredis_5fconnection" "~redis_connection" [Result "../classcpp__redis_1_1network_1_1redis__connection.html#a9d392191ce262eddd5570b57e07aa051" 1 "cpp_redis::network::redis_connection"];
    Entry "_7ereply" "~reply" [Result "../classcpp__redis_1_1reply.html#a1acfe6cbc763368cc2a9eef25afffe35" 1 "cpp_redis::reply"];
    Entry "_7ereply_5fbuilder" "~reply_builder" [Result "../classcpp__redis_1_1builders_1_1reply__builder.html#ac2df7e1ed2f67e01090ad45926c9af1e" 1 "cpp_redis::builders::reply_builder"];
    Entry "_7esentinel" "~sentinel" [Result "../classcpp__redis_1_1sentinel.html#af8535e89714db8ddcd7e74337ee5385a" 1 "cpp_redis::sentinel"];
    Entry "_7esentinel_5fdef" "~sentinel_def" [Result "../classcpp__redis_1_1sentinel_1_1sentinel__def.html#a5189d8016d9b385099e5ee0828ed7666" 1 "cpp_redis::sentinel::sentinel_def"];
    Entry "_7esimple_5fstring_5fbuilder" "~simple_string_builder" [Result "../classcpp__redis_1_1builders_1_1simple__string__builder.html#a7b4f012c532535801f9d5fddbb01d675" 1 "cpp_redis::builders::simple_string_builder"];
    Entry "_7esubscriber" "~subscriber" [Result "../classcpp__redis_1_1subscriber.html#a878caeb144b11de30466a380b09abc30" 1 "cpp_redis::subscriber"];
    Entry "_7etcp_5fclient" "~tcp_client" [Result "../classcpp__redis_1_1network_1_1tcp__client.html#af859036bbc7e5ec9149c1410a1a66f09" 1 "cpp_redis::network::tcp_client"];
    Entry "_7etcp_5fclient_5fiface" "~tcp_client_iface" [Result "../classcpp__redis_1_1network_1_1tcp__client__iface.html#a7381e8921118a13b5994101864906122" 1 "cpp_redis::network::tcp_client_iface"]].

Definition redis_defines_0 : table :=
  [
    Entry "_5f_5fcpp_5fredis_5flog" "__CPP_REDIS_LOG" [Result "../logger_8hpp.html#ae1dfd21b93a604f74483da1dd75a4e40" 1 "logger.hpp"];
    Entry "_5f_5fcpp_5fredis_5fread_5fsize" "__CPP_REDIS_READ_SIZE" [Result "../redis__connection_8hpp.html#ad63576049c4df064af6cc2039311a883" 1 "redis_connection.hpp"];
    Entry "_5f_5fcpp_5fredis_5freply_5farray" "__CPP_REDIS_REPLY_ARRAY" [Result "../reply_8hpp.html#a65cb9c8012d1c6693a747fead3eb1cf5" 1 "reply.hpp"];
    Entry "_5f_5fcpp_5fredis_5freply_5fbulk" "__CPP_REDIS_REPLY_BULK" [Result "../reply_8hpp.html#a710d1ca228b15e3064a69e4639ce1e48" 1 "reply.hpp"];
    Entry "_5f_5fcpp_5fredis_5freply_5ferr" "__CPP_REDIS_REPLY_ERR" [Result "../reply_8hpp.html#a8c0282620a180394c46805f21d4f933a" 1 "reply.hpp"];
    Entry "_5f_5fcpp_5fredis_5freply_5fint" "__CPP_REDIS_REPLY_INT" [Result "../reply_8hpp.html#a1066a447e2a34527f77f3166aee5a69b" 1 "reply.hpp"];
    Entry "_5f_5fcpp_5fredis_5freply_5fnull" "__CPP_REDIS_REPLY_NULL" [Result "../reply_8hpp.html#ad5f9528eeba7a33d80fd95ad20878830" 1 "reply.hpp"];
    Entry "_5f_5fcpp_5fredis_5freply_5fsimple" "__CPP_REDIS_REPLY_SIMPLE" [Result "../reply_8hpp.html#abca06d36a5d3783ed2ffa70cc4de5fa0" 1 "reply.hpp"]].

Definition redis_enumvalues_0 : table :=
  [
    Entry "array" "array" [Result "../classcpp__redis_1_1reply.html#acc272b2a52164cac1d110c619a0b25bdaf1f713c9e000f5d3f280adbd124df4f5" 1 "cpp_redis::reply"]].

Definition redis_enumvalues_1 : table :=
  [
    Entry "bulk_5fstring" "bulk_string" [Result "../classcpp__redis_1_1reply.html#acc272b2a52164cac1d110c619a0b25bdaffdc5e3d4a1ba77345a59a89c9f70764" 1 "cpp_redis::reply::bulk_string()";
      Result "../classcpp__redis_1_1reply.html#ac192ba4cb8f2bb6e7cb465edf755328baffdc5e3d4a1ba77345a59a89c9f70764" 1 "cpp_redis::reply::bulk_string()"]].

Definition redis_enumvalues_2 : table :=
  [
    Entry "debug" "debug" [Result "../classcpp__redis_1_1logger.html#a9493594d547e7abe71b8690be1946c7aaad42f6697b035b7580e4fef93be20b4d" 1 "cpp_redis::logger"];
    Entry "dropped" "dropped" [Result "../classcpp__redis_1_1client.html#a2512bd48dd45391249a69bd720c1e4daa41d368a58ee26891a6a586ddaaa604f8" 1 "cpp_redis::client::dropped()";
      Result "../classcpp__redis_1_1subscriber.html#afc976757efd9d0ac4def6935546a2338a41d368a58ee26891a6a586ddaaa604f8" 1 "cpp_redis::subscriber::dropped()"]].

Definition redis_enumvalues_3 : table :=
  [
    Entry "error" "error" [Result "../classcpp__redis_1_1reply.html#acc272b2a52164cac1d110c619a0b25bdacb5e100e5a9a3e7f6d1fd97512215282" 1 "cpp_redis::reply::error()";
      Result "../classcpp__redis_1_1reply.html#ac192ba4cb8f2bb6e7cb465edf755328bacb5e100e5a9a3e7f6d1fd97512215282" 1 "cpp_redis::reply::error()";
      Result "../classcpp__redis_1_1logger.html#a9493594d547e7abe71b8690be1946c7aacb5e100e5a9a3e7f6d1fd97512215282" 1 "cpp_redis::logger::error()"]].

Definition redis_enumvalues_4 : table :=
  [
    Entry "failed" "failed" [Result "../classcpp__redis_1_1client.html#a2512bd48dd45391249a69bd720c1e4daa26934eb377001f66e37289a5c93fe284" 1 "cpp_redis::client::failed()";
      Result "../classcpp__redis_1_1subscriber.html#afc976757efd9d0ac4def6935546a2338a26934eb377001f66e37289a5c93fe284" 1 "cpp_redis::subscriber::failed()"]].

Definition redis_enumvalues_5 : table :=
  [
    Entry "info" "info" [Result "../classcpp__redis_1_1logger.html#a9493594d547e7abe71b8690be1946c7aacaf9b6b99962bf5c2264824231d7a40c" 1 "cpp_redis::logger"];
    Entry "integer" "integer" [Result "../classcpp__redis_1_1reply.html#acc272b2a52164cac1d110c619a0b25bda157db7df530023575515d366c9b672e8" 1 "cpp_redis::reply"]].

Definition redis_enumvalues_6 : table :=
  [
    Entry "lookup_5ffailed" "lookup_failed" [Result "../classcpp__redis_1_1client.html#a2512bd48dd45391249a69bd720c1e4daa1c35224aee766403970dfaa34880ccde" 1 "cpp_redis::client::lookup_failed()";
      Result "../classcpp__redis_1_1subscriber.html#afc976757efd9d0ac4def6935546a2338a1c35224aee766403970dfaa34880ccde" 1 "cpp_redis::subscriber::lookup_failed()"]].

Definition redis_enumvalues_7 : table :=
  [
    Entry "master" "master" [Result "../classcpp__redis_1_1client.html#a388877b01b4e045cddb138e70a68e000aeb0a191797624dd3a48fa681d3061212" 1 "cpp_redis::client"]].

Definition redis_enumvalues_8 : table :=
  [
    Entry "normal" "normal" [Result "../classcpp__redis_1_1client.html#a388877b01b4e045cddb138e70a68e000afea087517c26fadd409bd4b9dc642555" 1 "cpp_redis::client"];
    Entry "null" "null" [Result "../classcpp__redis_1_1reply.html#acc272b2a52164cac1d110c619a0b25bda37a6259cc0c1dae299a7866489dff0bd" 1 "cpp_redis::reply"]].

Definition redis_enumvalues_9 : table :=
  [
    Entry "ok" "ok" [Result "../classcpp__redis_1_1client.html#a2512bd48dd45391249a69bd720c1e4daa444bcb3a3fcf8389296c49467f27e1d6" 1 "cpp_redis::client::ok()";
      Result "../classcpp__redis_1_1subscriber.html#afc976757efd9d0ac4def6935546a2338a444bcb3a3fcf8389296c49467f27e1d6" 1 "cpp_redis::subscriber::ok()"]].

Definition redis_enumvalues_a : table :=
  [
    Entry "pubsub" "pubsub" [Result "../classcpp__redis_1_1client.html#a388877b01b4e045cddb138e70a68e000a040f8e6525bd0c62798afb41e6644f37" 1 "cpp_redis::client"]].

Definition redis_enumvalues_b : table :=
  [
    Entry "simple_5fstring" "simple_string" [Result "../classcpp__redis_1_1reply.html#acc272b2a52164cac1d110c619a0b25bda42e59301bab38b6e2a173baf105990dd" 1 "cpp_redis::reply::simple_string()";
      Result "../classcpp__redis_1_1reply.html#ac192ba4cb8f2bb6e7cb465edf755328ba42e59301bab38b6e2a173baf105990dd" 1 "cpp_redis::reply::simple_string()"];
    Entry "slave" "slave" [Result "../classcpp__redis_1_1client.html#a388877b01b4e045cddb138e70a68e000a03158cf39c6f316f9ce98a4e034cdc28" 1 "cpp_redis::client"];
    Entry "sleeping" "sleeping" [Result "../classcpp__redis_1_1client.html#a2512bd48dd45391249a69bd720c1e4daad98cb5df35fc9e0f42fb883d794ad12f" 1 "cpp_redis::client::sleeping()";
      Result "../classcpp__redis_1_1subscriber.html#afc976757efd9d0ac4def6935546a2338ad98cb5df35fc9e0f42fb883d794ad12f" 1 "cpp_redis::subscriber::sleeping()"];
    Entry "start" "start" [Result "../classcpp__redis_1_1client.html#a2512bd48dd45391249a69bd720c1e4daaea2b2676c28c0db26d39331a336c6b92" 1 "cpp_redis::client::start()";
      Result "../classcpp__redis_1_1subscriber.html#afc976757efd9d0ac4def6935546a2338aea2b2676c28c0db26d39331a336c6b92" 1 "cpp_redis::subscriber::start()"];
    Entry "stopped" "stopped" [Result "../classcpp__redis_1_1client.html#a2512bd48dd45391249a69bd720c1e4daaf0a0bfe6bc7d2c58d2989034f83183e0" 1 "cpp_redis::client::stopped()";
      Result "../classcpp__redis_1_1subscriber.html#afc976757efd9d0ac4def6935546a2338af0a0bfe6bc7d2c58d2989034f83183e0" 1 "cpp_redis::subscriber::stopped()"]].

Definition redis_enumvalues_c : table :=
  [
    Entry "warn" "warn" [Result "../classcpp__redis_1_1logger.html#a9493594d547e7abe71b8690be1946c7aa1ea4c3ab05ee0c6d4de30740443769cb" 1 "cpp_redis::logger"]].

Definition redis_files_0 : table :=
  [
    Entry "array_5fbuilder_2ehpp" "array_builder.hpp" [Result "../array__builder_8hpp.html" 1 ""]].

Definition redis_files_1 : table :=
  [
    Entry "builder_5fiface_2ehpp" "builder_iface.hpp" [Result "../builder__iface_8hpp.html" 1 ""];
    Entry "builders_5ffactory_2ehpp" "builders_factory.hpp" [Result "../builders__factory_8hpp.html" 1 ""];
    Entry "bulk_5fstring_5fbuilder_2ehpp" "bulk_string_builder.hpp" [Result "../bulk__string__builder_8hpp.html" 1 ""]].

Definition redis_files_2 : table :=
  [
    Entry "client_2ehpp" "client.hpp" [Result "../client_8hpp.html" 1 ""];
    Entry "client_2eipp" "client.ipp" [Result "../client_8ipp.html" 1 ""]].

Definition redis_files_3 : table :=
  [
    Entry "error_2ehpp" "error.hpp" [Result "../error_8hpp.html" 1 ""];
    Entry "error_5fbuilder_2ehpp" "error_builder.hpp" [Result "../error__builder_8hpp.html" 1 ""]].

Definition redis_files_4 : table :=
  [
    Entry "integer_5fbuilder_2ehpp" "integer_builder.hpp" [Result "../integer__builder_8hpp.html" 1 ""]].

Definition redis_files_5 : table :=
  [
    Entry "logger_2ehpp" "logger.hpp" [Result "../logger_8hpp.html" 1 ""]].

Definition redis_files_6 : table :=
  [
    Entry "redis_5fconnection_2ehpp" "redis_connection.hpp" [Result "../redis__connection_8hpp.html" 1 ""];
    Entry "reply_2ehpp" "reply.hpp" [Result "../reply_8hpp.html" 1 ""];
    Entry "reply_5fbuilder_2ehpp" "reply_builder.hpp" [Result "../reply__builder_8hpp.html" 1 ""]].

Definition redis_files_7 : table :=
  [
    Entry "sentinel_2ehpp" "sentinel.hpp" [Result "../sentinel_8hpp.html" 1 ""];
    Entry "simple_5fstring_5fbuilder_2ehpp" "simple_string_builder.hpp" [Result "../simple__string__builder_8hpp.html" 1 ""];
    Entry "subscriber_2ehpp" "subscriber.hpp" [Result "../subscriber_8hpp.html" 1 ""]].

Definition redis_files_8 : table :=
  [
    Entry "tcp_5fclient_2ehpp" "tcp_client.hpp" [Result "../tcp__client_8hpp.html" 1 ""];
    Entry "tcp_5fclient_5fiface_2ehpp" "tcp_client_iface.hpp" [Result "../tcp__client__iface_8hpp.html" 1 ""]].

Definition redis_files_9 : table :=
  [
    Entry "variadic_5ftemplate_2ehpp" "variadic_template.hpp" [Result "../variadic__template_8hpp.html" 1 ""]].

Definition redis_functions_11 : table :=
  [
    Entry "tcp_5fclient" "tcp_client" [Result "../classcpp__redis_1_1network_1_1tcp__client.html#a8cbad07ca636e9d60dafc0e5cac8106d" 1 "cpp_redis::network::tcp_client"];
    Entry "tcp_5fclient_5fdisconnection_5fhandler" "tcp_client_disconnection_handler" [Result "../classcpp__redis_1_1network_1_1redis__connection.html#a9d504600a38af881fdc0757e19a8e753" 1 "cpp_redis::network::redis_connection"];
    Entry "tcp_5fclient_5fiface" "tcp_client_iface" [Result "../classcpp__redis_1_1network_1_1tcp__client__iface.html#a8504873049519bcebd626984e4087a90" 1 "cpp_redis::network::tcp_client_iface"];
    Entry "tcp_5fclient_5freceive_5fhandler" "tcp_client_receive_handler" [Result "../classcpp__redis_1_1network_1_1redis__connection.html#a6382aa1f13a25bcccf927476d41968c8" 1 "cpp_redis::network::redis_connection"];
    Entry "time" "time" [Result "../classcpp__redis_1_1client.html#aa98df57ae17365aaf0405b60f4711e92" 1 "cpp_redis::client::time(const reply_callback_t &amp;reply_callback)";
      Result "../classcpp__redis_1_1client.html#a7d0d5e0a02e97ad6d8733430489df321" 1 "cpp_redis::client::time()"];
    Entry "try_5fcommit" "try_commit" [Result "../classcpp__redis_1_1client.html#a6c7aff2567b5ca7f527faa4f2ebca405" 1 "cpp_redis::client::try_commit()";
      Result "../classcpp__redis_1_1sentinel.html#ad27b6a3558e6d3a634df11dca80154df" 1 "cpp_redis::sentinel::try_commit()"];
    Entry "ttl" "ttl" [Result "../classcpp__redis_1_1client.html#a667bb7a6ead9c8cdaba534033a467367" 1 "cpp_redis::client::ttl(const std::string &amp;key, const reply_callback_t &amp;reply_callback)";
      Result "../classcpp__redis_1_1client.html#afc4697ccb77bb16ff13c425b93ef7c1d" 1 "cpp_redis::client::ttl(const std::string &amp;key)"];
    Entry "type" "type" [Result "../classcpp__redis_1_1client.html#ac284ea9a5c0e95d49a675403aaf4847c" 1 "cpp_redis::client::type(const std::string &amp;key, const reply_callback_t &amp;reply_callback)";
      Result "../classcpp__redis_1_1client.html#a143f362032218fef03b3408a761b8851" 1 "cpp_redis::client::type(const std::string &amp;key)"]].

Definition redis_functions_12 : table :=
  [
    Entry "unprotected_5fauth" "unprotected_auth" [Result "../classcpp__redis_1_1client.html#a0bb20d17620ff63219f7e932d3baa0c6" 1 "cpp_redis::client"];
    Entry "unprotected_5fpsubscribe" "unprotected_psubscribe" [Result "../classcpp__redis_1_1subscriber.html#a4c711c3fda605cb286f14bb25b205b7d" 1 "cpp_redis::subscriber"];
    Entry "unprotected_5fselect" "unprotected_select" [Result "../classcpp__redis_1_1client.html#ae2ac4b582d4d656b3c76450ea88c7b58" 1 "cpp_redis::client"];
    Entry "unprotected_5fsend" "unprotected_send" [Result "../classcpp__redis_1_1client.html#a89e9857149094a693abb2e4015779231" 1 "cpp_redis::client"];
    Entry "unprotected_5fsubscribe" "unprotected_subscribe" [Result "../classcpp__redis_1_1subscriber.html#adc7f57c1c2cba9b213ce251b2b736550" 1 "cpp_redis::subscriber"];
    Entry "unsubscribe" "unsubscribe" [Result "../classcpp__redis_1_1subscriber.html#a08dffea41cfd5914adfa5a966e0ab292" 1 "cpp_redis::subscriber"];
    Entry "unwatch" "unwatch" [Result "../classcpp__redis_1_1client.html#aaf19c28495b74c8c22a8d86e80a1557e" 1 "cpp_redis::client::unwatch(const reply_callback_t &amp;reply_callback)";
      Result "../classcpp__redis_1_1client.html#a006e1258d7857f2d83bd9be48945f79a" 1 "cpp_redis::client::unwatch()"]].

Definition redis_functions_13 : table :=
  [
    Entry "wait" "wait" [Result "../classcpp__redis_1_1client.html#ab7e11ccc1fb07ae3dce860042b96f4d9" 1 "cpp_redis::client::wait(int numslaves, int timeout, const reply_callback_t &amp;reply_callback)";
      Result "../classcpp__redis_1_1client.html#a4ef6f516a3dcdea1b317bb4e5e96e680" 1 "cpp_redis::client::wait(int numslaves, int timeout)"];
    Entry "warn" "warn" [Result "../classcpp__redis_1_1logger__iface.html#a0ea8e43a4f2118e77af56cd1cdb21cba" 1 "cpp_redis::logger_iface::warn()";
      Result "../classcpp__redis_1_1logger.html#ae9359429428786c7b5605a1109508ae5" 1 "cpp_redis::logger::warn()";
      Result "../namespacecpp__redis.html#a8316739706654d185aed3966fad3ec89" 1 "cpp_redis::warn()"];
    Entry "watch" "watch" [Result "../classcpp__redis_1_1client.html#a7faae4f59e4b7f5b5003dcfbbf04af89" 1 "cpp_redis::client::watch(const std::vector&lt; std::string &gt; &amp;keys, const reply_callback_t &amp;reply_callback)";
      Result "../classcpp__redis_1_1client.html#a437606353878a903033ced5cb56ed07c" 1 "cpp_redis::client::watch(const std::vector&lt; std::string &gt; &amp;keys)"]].

Definition redis_functions_14 : table :=
  [
    Entry "zadd" "zadd" [Result "../classcpp__redis_1_1client.html#aaea3a3c79956cabb6709fb6cd3e01739" 1 "cpp_redis::client::zadd(const std::string &amp;key, const std::vector&lt; std::string &gt; &amp;options, const std::map&lt; std::string, std::string &gt; &amp;score_members, const reply_callback_t &amp;reply_callback)";
      Result "../classcpp__redis_1_1client.html#a9c6ec329f626304b629c6ff17ea9bc6b" 1 "cpp_redis::client::zadd(const std::string &amp;key, const std::vector&lt; std::string &gt; &amp;options, const std::map&lt; std::string, std::string &gt; &amp;score_members)"];
    Entry "zcard" "zcard" [Result "../classcpp__redis_1_1client.html#a54259186a650211cc8b5fb70af1384ba" 1 "cpp_redis::client::zcard(const std::string &amp;key, const reply_callback_t &amp;reply_callback)";
      Result "../classcpp__redis_1_1client.html#a9cfeae7394f3fa2b3ff7ec1f1c56ca1b" 1 "cpp_redis::client::zcard(const std::string &amp;key)"];
    Entry "zcount" "zcount" [Result "../classcpp__redis_1_1client.html#a405463c110eb39e66163f0d936e42815" 1 "cpp_redis::client::zcount(const std::string &amp;key, int min, int max, const reply_callback_t &amp;reply_callback)";
      Result "../classcpp__redis_1_1client.html#a7965bc6ab1198ca3bb5b31c10da95c34" 1 "cpp_redis::client::zcount(const std::string &amp;key, int min, int max)";
      Result "../classcpp__redis_1_1client.html#a648afc3a38da6413e6b735d2708c3fe3" 1 "cpp_redis::client::zcount(const std::string &amp;key, double min, double max, const reply_callback_t &amp;reply_callback)";
      Result "../classcpp__redis_1_1client.html#a7d3ddea81b718564c060a51575d8c127" 1 "cpp_redis::client::zcount(const std::string &amp;key, double min, double max)";
      Result "../classcpp__redis_1_1client.html#a4638b70036c17ddd87dc204392ea7718" 1 "cpp_redis::client::zcount(const std::string &amp;key, const std::string &amp;min, const std::string &amp;max, const reply_callback_t &amp;reply_callback)";
      Result "../classcpp__redis_1_1client.html#a94416b729f3ecd32d41450725e773590" 1 "cpp_redis::client::zcount(const std::string &amp;key, const std::string &amp;min, const std::string &amp;max)"];
    Entry "zincrby" "zincrby" [Result "../classcpp__redis_1_1client.html#a7852309fc3054c1bce760e4e2189205b" 1 "cpp_redis::client::zincrby(const std::string &amp;key, int incr, const std::string &amp;member, const reply_callback_t &amp;reply_callback)";
      Result "../classcpp__redis_1_1client.html#ada07e0534d23fd0247cdc1b9a8008fe9" 1 "cpp_redis::client::zincrby(const std::string &amp;key, int incr, const std::string &amp;member)";
      Result "../classcpp__redis_1_1client.html#abeb105281afc762ed57afce5619ef73f" 1 "cpp_redis::client::zincrby(const std::string &amp;key, double incr, const std::string &amp;member, const reply_callback_t &amp;reply_callback)";
      Result "../classcpp__redis_1_1client.html#a59164f47b17261f1a82cef5da072aa4c" 1 "cpp_redis::client::zincrby(const std::string &amp;key, double incr, const std::string &amp;member)";
      Result "../classcpp__redis_1_1client.html#a6f0b61b420ebc8e054c766c6f5034096" 1 "cpp_redis::client::zincrby(const std::string &amp;key, const std::string &amp;incr, const std::string &amp;member, const reply_callback_t &amp;reply_callback)";
      Result "../classcpp__redis_1_1client.html#a202a2adbf6e0d127ad1c5cc301754e5b" 1 "cpp_redis::client::zincrby(const std::string &amp;key, const std::string &amp;incr, const std::string &amp;member)"];
    Entry "zlexcount" "zlexcount" [Result "../classcpp__redis_1_1client.html#ad4a8fef29a047724ad4e97eedfb53c62" 1 "cpp_redis::client::zlexcount(const std::string &amp;key, int min, int max, const reply_callback_t &amp;reply_callback)";
      Result "../classcpp__redis_1_1client.html#aff60a1181d93d961f6ca1903522ce899" 1 "cpp_redis::client::zlexcount(const std::string &amp;key, int min, int max)";
      Result "../classcpp__redis_1_1client.html#aba1b2a6c750b13b1a632ebc8ca90cf60" 1 "cpp_redis::client::zlexcount(const std::string &amp;key, double min, double max, const reply_callback_t &amp;reply_callback)";
      Result "../classcpp__redis_1_1client.html#ab492b901c49f913d0120b87afee9458c" 1 "cpp_redis::client::zlexcount(const std::string &amp;key, double min, double max)";
      Result "../classcpp__redis_1_1client.html#a90bd86c8348ca8bfec29d66d9e5bdfc3" 1 "cpp_redis::client::zlexcount(const std::string &amp;key, const std::string &amp;min, const std::string &amp;max, const reply_callback_t &amp;reply_callback)";
      Result "../classcpp__redis_1_1client.html#ace7bbf92a0ea2cac775e5bc66a0d1ea8" 1 "cpp_redis::client::zlexcount(const std::string &amp;key, const std::string &amp;min, const std::string &amp;max)"];
    Entry "zrange" "zrange" [Result "../classcpp__redis_1_1client.html#a70025f24f20e81397868467651c804a9" 1 "cpp_redis::client::zrange(const std::string &amp;key, int start, int stop, const reply_callback_t &amp;reply_callback)";
      Result "../classcpp__redis_1_1client.html#a7a86805d2495c3866df9095ea71ab842" 1 "cpp_redis::client::zrange(const std::string &amp;key, int start, int stop, bool withscores, const reply_callback_t &amp;reply_callback)";
      Result "../classcpp__redis_1_1client.html#a75f0e330b851c7bfcf373a7ef9f30cb8" 1 "cpp_redis::client::zrange(const std::string &amp;key, int start, int stop, bool withscores=false)";
      Result "../classcpp__redis_1_1client.html#a24f15cede24bdb482167b1ea00db3160" 1 "cpp_redis::client::zrange(const std::string &amp;key, double start, double stop, const reply_callback_t &amp;reply_callback)";
      Result "../classcpp__redis_1_1client.html#ab37fd922b733c5fa64f7a0dc4be22efe" 1 "cpp_redis::client::zrange(const std::string &amp;key, double start, double stop, bool withscores, const reply_callback_t &amp;reply_callback)";
      Result "../classcpp__redis_1_1client.html#a0286a2953aeaec8c23d0e292fe2fccc2" 1 "cpp_redis::client::zrange(const std::string &amp;key, double start, double stop, bool withscores=false)";
      Result "../classcpp__redis_1_1client.html#ad24c21a0344652d821d0628c68057ecb" 1 "cpp_redis::client::zrange(const std::string &amp;key, const std::string &amp;start, const std::string &amp;stop, const reply_callback_t &amp;reply_callback)";
      Result "../classcpp__redis_1_1client.html#a3768026508c4c2e28c600bf7be54b4a1" 1 "cpp_redis::client::zrange(const std::string &amp;key, const std::string &amp;start, const std::string &amp;stop, bool withscores, const reply_callback_t &amp;reply_callback)";
      Result "../classcpp__redis_1_1client.html#aaaaf7f2d11f02bc7709be1b2a654894d" 1 "cpp_redis::client::zrange(const std::string &amp;key, const std::string &amp;start, const std::string &amp;stop, bool withscores=false)"];
    Entry "zrank" "zrank" [Result "../classcpp__redis_1_1client.html#a5563d5240de4bbdbf6ed5dd8cc92a67a" 1 "cpp_redis::client::zrank(const std::string &amp;key, const std::string &amp;member, const reply_callback_t &amp;reply_callback)";
      Result "../classcpp__redis_1_1client.html#acf680674a3944a3baaa36f888250610e" 1 "cpp_redis::client::zrank(const std::string &amp;key, const std::string &amp;member)"];
    Entry "zrem" "zrem" [Result "../classcpp__redis_1_1client.html#ae33a0ea1127a5da870db4354fad2bd10" 1 "cpp_redis::client::zrem(const std::string &amp;key, const std::vector&lt; std::string &gt; &amp;members, const reply_callback_t &amp;reply_callback)";
      Result "../classcpp__redis_1_1client.html#aff2e5ec7005f76869fad79c4e8bd68c8" 1 "cpp_redis::client::zrem(const std::string &amp;key, const std::vector&lt; std::string &gt; &amp;members)"];
    Entry "zremrangebylex" "zremrangebylex" [Result "../classcpp__redis_1_1client.html#aff3c4f11d504ba64a98b6bce9bf319a0" 1 "cpp_redis::client::zremrangebylex(const std::string &amp;key, int min, int max, const reply_callback_t &amp;reply_callback)";
      Result "../classcpp__redis_1_1client.html#a9277ebc759190ce6f085a60a98ad3a7c" 1 "cpp_redis::client::zremrangebylex(const std::string &amp;key, int min, int max)";
      Result "../classcpp__redis_1_1client.html#ae03899c0520352eb6a800b9d6c12f2ae" 1 "cpp_redis::client::zremrangebylex(const std::string &amp;key, double min, double max, const reply_callback_t &amp;reply_callback)";
      Result "../classcpp__redis_1_1client.html#a6ed8333a10d5c4390f3e52f91c436264" 1 "cpp_redis::client::zremrangebylex(const std::string &amp;key, double min, double max)";
      Result "../classcpp__redis_1_1client.html#a8fe114da4df2dfd2ab5240554444a294" 1 "cpp_redis::client::zremrangebylex(const std::string &amp;key, const std::string &amp;min, const std::string &amp;max, const reply_callback_t &amp;reply_callback)";
      Result "../classcpp__redis_1_1client.html#a1350d0df45d5b41c940d782682b41bd9" 1 "cpp_redis::client::zremrangebylex(const std::string &amp;key, const std::string &amp;min, const std::string &amp;max)"];
    Entry "zremrangebyrank" "zremrangebyrank" [Result "../classcpp__redis_1_1client.html#af40c1e6895312c13636db9dd610ce753" 1 "cpp_redis::client::zremrangebyrank(const std::string &amp;key, int start, int stop, const reply_callback_t &amp;reply_callback)";
      Result "../classcpp__redis_1_1client.html#acc4f3b77c38c948658505ce04bbbde6d" 1 "cpp_redis::client::zremrangebyrank(const std::string &amp;key, int start, int stop)";
      Result "../classcpp__redis_1_1client.html#a727a7eeae900fc82525544618deaa70b" 1 "cpp_redis::client::zremrangebyrank(const std::string &amp;key, double start, double stop, const reply_callback_t &amp;reply_callback)";
      Result "../classcpp__redis_1_1client.html#a7ad8503cfe002efb2caa36a09791125f" 1 "cpp_redis::client::zremrangebyrank(const std::string &amp;key, double start, double stop)";
      Result "../classcpp__redis_1_1client.html#aafca4e3ca703fff85b1b6a1c9476c958" 1 "cpp_redis::client::zremrangebyrank(const std::string &amp;key, const std::string &amp;start, const std::string &amp;stop, const reply_callback_t &amp;reply_callback)";
      Result "../classcpp__redis_1_1client.html#a2215c127cf351c43b69f62d871e7acb7" 1 "cpp_redis::client::zremrangebyrank(const std::string &amp;key, const std::string &amp;start, const std::string &amp;stop)"];
    Entry "zremrangebyscore" "zremrangebyscore" [Result "../classcpp__redis_1_1client.html#a8de95c0d340cc58d81fe5ca9b576d5b8" 1 "cpp_redis::client::zremrangebyscore(const std::string &amp;key, int min, int max, const reply_callback_t &amp;reply_callback)";
      Result "../classcpp__redis_1_1client.html#a1317e67f2993b71bce596d28bce009b9" 1 "cpp_redis::client::zremrangebyscore(const std::string &amp;key, int min, int max)";
      Result "../classcpp__redis_1_1client.html#a62354f918bcc9fd99562f1fe25dadec7" 1 "cpp_redis::client::zremrangebyscore(const std::string &amp;key, double min, double max, const reply_callback_t &amp;reply_callback)";
      Result "../classcpp__redis_1_1client.html#ab40737e3dd44d39d708ab9e545f1d068" 1 "cpp_redis::client::zremrangebyscore(const std::string &amp;key, double min, double max)";
      Result "../classcpp__redis_1_1client.html#a4a9c526f56dc158345f359961c9f9a7d" 1 "cpp_redis::client::zremrangebyscore(const std::string &amp;key, const std::string &amp;min, const std::string &amp;max, const reply_callback_t &amp;reply_callback)";
      Result "../classcpp__redis_1_1client.html#afdef5244240e2c54c9738be66807e8f6" 1 "cpp_redis::client::zremrangebyscore(const std::string &amp;key, const std::string &amp;min, const std::string &amp;max)"];
    Entry "zrevrange" "zrevrange" [Result "../classcpp__redis_1_1client.html#ad408a62269d10de02605de9acec1ddc0" 1 "cpp_redis::client::zrevrange(const std::string &amp;key, int start, int stop, const reply_callback_t &amp;reply_callback)";
      Result "../classcpp__redis_1_1client.html#a37bfbe4848350144e7899c6d1e63653b" 1 "cpp_redis::client::zrevrange(const std::string &amp;key, int start, int stop, bool withscores, const reply_callback_t &amp;reply_callback)";
      Result "../classcpp__redis_1_1client.html#a001bdf0f597d386202b0aab116657055" 1 "cpp_redis::client::zrevrange(const std::string &amp;key, int start, int stop, bool withscores=false)";
      Result "../classcpp__redis_1_1client.html#a7b20d0dc47cf4fb40220e51408876d6d" 1 "cpp_redis::client::zrevrange(const std::string &amp;key, double start, double stop, const reply_callback_t &amp;reply_callback)";
      Result "../classcpp__redis_1_1client.html#ac03871ced545f10c9f277fd5fc20f0a0" 1 "cpp_redis::client::zrevrange(const std::string &amp;key, double start, double stop, bool withscores, const reply_callback_t &amp;reply_callback)";
      Result "../classcpp__redis_1_1client.html#a85aa18b29763edd1d93c4b463b6b3a51" 1 "cpp_redis::client::zrevrange(const std::string &amp;key, double start, double stop, bool withscores=false)";
      Result "../classcpp__redis_1_1client.html#ab72a94b6f16cb23cf39275bfc9e35385" 1 "cpp_redis::client::zrevrange(const std::string &amp;key, const std::string &amp;start, const std::string &amp;stop, const reply_callback_t &amp;reply_callback)";
      Result "../classcpp__redis_1_1client.html#ae4cef5e8cba4196287bf89375889a2e4" 1 "cpp_redis::client::zrevrange(const std::string &amp;key, const std::string &amp;start, const std::string &amp;stop, bool withscores, const reply_callback_t &amp;reply_callback)";
      Result "../classcpp__redis_1_1client.html#a973fb4632a18f70bec092f3c9659045e" 1 "cpp_redis::client::zrevrange(const std::string &amp;key, const std::string &amp;start, const std::string &amp;stop, bool withscores=false)"];
    Entry "zrevrank" "zrevrank" [Result "../classcpp__redis_1_1client.html#a459f90ba39d9f9e90df5b756ec25db8b" 1 "cpp_redis::client::zrevrank(const std::string &amp;key, const std::string &amp;member, const reply_callback_t &amp;reply_callback)";
      Result "../classcpp__redis_1_1client.html#a9870e21048277805b5eac2ce710089a0" 1 "cpp_redis::client::zrevrank(const std::string &amp;key, const std::string &amp;member)"];
    Entry "zscore" "zscore" [Result "../classcpp__redis_1_1client.html#a5e0a18243dee60595c82fc4a630f6d86" 1 "cpp_redis::client::zscore(const std::string &amp;key, const std::string &amp;member, const reply_callback_t &amp;reply_callback)";
      Result "../classcpp__redis_1_1client.html#a72b20e861696db3e4dd5a4af96a1b427" 1 "cpp_redis::client::zscore(const std::string &amp;key, const std::string &amp;member)"]].

Definition redis_functions_15 : table :=
  [
    Entry "_7earray_5fbuilder" "~array_builder" [Result "../classcpp__redis_1_1builders_1_1array__builder.html#ae6a0cd0743b6b0a21f9c3d44fd31ac17" 1 "cpp_redis::builders::array_builder"];
    Entry "_7ebuilder_5fiface" "~builder_iface" [Result "../classcpp__redis_1_1builders_1_1builder__iface.html#afaf3d6cdb3b67b62ed88477dc3d4d1b6" 1 "cpp_redis::builders::builder_iface"];
    Entry "_7ebulk_5fstring_5fbuilder" "~bulk_string_builder" [Result "../classcpp__redis_1_1builders_1_1bulk__string__builder.html#a88c7142bab456f70da9f9a6252e2affb" 1 "cpp_redis::builders::bulk_string_builder"];
    Entry "_7eclient" "~client" [Result "../classcpp__redis_1_1client.html#aca7030c8bd6856f10314b2862d1bae79" 1 "cpp_redis::client"];
    Entry "_7eerror_5fbuilder" "~error_builder" [Result "../classcpp__redis_1_1builders_1_1error__builder.html#a7650c178a457c57c2efb19e7ad256fe7" 1 "cpp_redis::builders::error_builder"];
    Entry "_7einteger_5fbuilder" "~integer_builder" [Result "../classcpp__redis_1_1builders_1_1integer__builder.html#ab2b797dd89b1bdec50f8ccf07633162f" 1 "cpp_redis::builders::integer_builder"];
    Entry "_7elogger" "~logger" [Result "../classcpp__redis_1_1logger.html#ab5eb02b26c96a6e5cba9a7d30669f625" 1 "cpp_redis::logger"];
    Entry "_7elogger_5fiface" "~logger_iface" [Result "../classcpp__redis_1_1logger__iface.html#ac7ed1b828afd2e6589fcdda167d34aa5" 1 "cpp_redis::logger_iface"];
    Entry "_7eredis_5fconnection" "~redis_connection" [Result "../classcpp__redis_1_1network_1_1redis__connection.html#a9d392191ce262eddd5570b57e07aa051" 1 "cpp_redis::network::redis_connection"];
    Entry "_7ereply" "~reply" [Result "../classcpp__redis_1_1reply.html#a1acfe6cbc763368cc2a9eef25afffe35" 1 "cpp_redis::reply"];
    Entry "_7ereply_5fbuilder" "~reply_builder" [Result "../classcpp__redis_1_1builders_1_1reply__builder.html#ac2df7e1ed2f67e01090ad45926c9af1e" 1 "cpp_redis::builders::reply_builder"];
    Entry "_7esentinel" "~sentinel" [Result "../classcpp__redis_1_1sentinel.html#af8535e89714db8ddcd7e74337ee5385a" 1 "cpp_redis::sentinel"];
    Entry "_7esentinel_5fdef" "~sentinel_def" [Result "../classcpp__redis_1_1sentinel_1_1sentinel__def.html#a5189d8016d9b385099e5ee0828ed7666" 1 "cpp_redis::sentinel::sentinel_def"];
    Entry "_7esimple_5fstring_5fbuilder" "~simple_string_builder" [Result "../classcpp__redis_1_1builders_1_1simple__string__builder.html#a7b4f012c532535801f9d5fddbb01d675" 1 "cpp_redis::builders::simple_string_builder"];
    Entry "_7esubscriber" "~subscriber" [Result "../classcpp__redis_1_1subscriber.html#a878caeb144b11de30466a380b09abc30" 1 "cpp_redis::subscriber"];
    Entry "_7etcp_5fclient" "~tcp_client" [Result "../classcpp__redis_1_1network_1_1tcp__client.html#af859036bbc7e5ec9149c1410a1a66f09" 1 "cpp_redis::network::tcp_client"];
    Entry "_7etcp_5fclient_5fiface" "~tcp_client_iface" [Result "../classcpp__redis_1_1network_1_1tcp__client__iface.html#a7381e8921118a13b5994101864906122" 1 "cpp_redis::network::tcp_client_iface"]].

Definition redis_namespaces_0 : table :=
  [
    Entry "builders" "builders" [Result "../namespacecpp__redis_1_1builders.html" 1 "cpp_redis"];
    Entry "cpp_5fredis" "cpp_redis" [Result "../namespacecpp__redis.html" 1 ""];
    Entry "helpers" "helpers" [Result "../namespacecpp__redis_1_1helpers.html" 1 "cpp_redis"];
    Entry "network" "network" [Result "../namespacecpp__redis_1_1network.html" 1 "cpp_redis"]].

(** The pages by their URL: each loads the table of its name. *)
Definition redis_orphans : list (string * table) :=
  [("search/all_13.html", redis_all_13);
   ("search/all_14.html", redis_all_14);
   ("search/all_15.html", redis_all_15);
   ("search/all_16.html", redis_all_16);
   ("search/all_17.html", redis_all_17);
   ("search/all_18.html", redis_all_18);
   ("search/defines_0.html", redis_defines_0);
   ("search/enumvalues_0.html", redis_enumvalues_0);
   ("search/enumvalues_1.html", redis_enumvalues_1);
   ("search/enumvalues_2.html", redis_enumvalues_2);
   ("search/enumvalues_3.html", redis_enumvalues_3);
   ("search/enumvalues_4.html", redis_enumvalues_4);
   ("search/enumvalues_5.html", redis_enumvalues_5);
   ("search/enumvalues_6.html", redis_enumvalues_6);
   ("search/enumvalues_7.html", redis_enumvalues_7);
   ("search/enumvalues_8.html", redis_enumvalues_8);
   ("search/enumvalues_9.html", redis_enumvalues_9);
   ("search/enumvalues_a.html", redis_enumvalues_a);
   ("search/enumvalues_b.html", redis_enumvalues_b);
   ("search/enumvalues_c.html", redis_enumvalues_c);
   ("search/files_0.html", redis_files_0);
   ("search/files_1.html", redis_files_1);
   ("search/files_2.html", redis_files_2);
   ("search/files_3.html", redis_files_3);
   ("search/files_4.html", redis_files_4);
   ("search/files_5.html", redis_files_5);
   ("search/files_6.html", redis_files_6);
   ("search/files_7.html", redis_files_7);
   ("search/files_8.html", redis_files_8);
   ("search/files_9.html", redis_files_9);
   ("search/functions_11.html", redis_functions_11);
   ("search/functions_12.html", redis_functions_12);
   ("search/functions_13.html", redis_functions_13);
   ("search/functions_14.html", redis_functions_14);
   ("search/functions_15.html", redis_functions_15);
   ("search/namespaces_0.html", redis_namespaces_0)].

Definition tacopie_all_10 : table :=
  [
    Entry "tacopie" "tacopie" [Result "../namespacetacopie.html" 1 ""];
    Entry "tacopie_5ferror" "tacopie_error" [Result "../classtacopie_1_1tacopie__error.html" 1 "tacopie::tacopie_error";
      Result "../classtacopie_1_1tacopie__error.html#a524fb8e9ac1825a57664421a3f32b9ce" 1 "tacopie::tacopie_error::tacopie_error(const std::string &amp;what, const std::string &amp;file, std::size_t line)";
      Result "../classtacopie_1_1tacopie__error.html#a0cb2a911165e08818ca03308891633e1" 1 "tacopie::tacopie_error::tacopie_error(const tacopie_error &amp;)=default"];
    Entry "task_5ft" "task_t" [Result "../classtacopie_1_1utils_1_1thread__pool.html#a8ae8886fdeaa8e5c0abad12626a47296" 1 "tacopie::utils::thread_pool"];
    Entry "tcp_5fclient" "tcp_client" [Result "../classtacopie_1_1tcp__client.html" 1 "tacopie::tcp_client";
      Result "../classtacopie_1_1tcp__client.html#a0125e1cf017b0ba0370d682d4382d37b" 1 "tacopie::tcp_client::tcp_client(std::uint32_t num_io_workers=1)";
      Result "../classtacopie_1_1tcp__client.html#a773fbcbb5b79324c8d065e363de73282" 1 "tacopie::tcp_client::tcp_client(tcp_socket &amp;&amp;socket)";
      Result "../classtacopie_1_1tcp__client.html#a5e326782c52f63814cc8f42a901ffaf6" 1 "tacopie::tcp_client::tcp_client(const tcp_client &amp;)=delete"];
    Entry "tcp_5fclient_2ehpp" "tcp_client.hpp" [Result "../tcp__client_8hpp.html" 1 ""];
    Entry "tcp_5fserver" "tcp_server" [Result "../classtacopie_1_1tcp__server.html" 1 "tacopie::tcp_server";
      Result "../classtacopie_1_1tcp__server.html#a4f67a38a0764924768cbcc7cf68527bf" 1 "tacopie::tcp_server::tcp_server(void)";
      Result "../classtacopie_1_1tcp__server.html#a2d9c6a2dea95a3c6a919c655d6e8e0ba" 1 "tacopie::tcp_server::tcp_server(const tcp_server &amp;)=delete"];
    Entry "tcp_5fserver_2ehpp" "tcp_server.hpp" [Result "../tcp__server_8hpp.html" 1 ""];
    Entry "tcp_5fsocket" "tcp_socket" [Result "../classtacopie_1_1tcp__socket.html" 1 "tacopie::tcp_socket";
      Result "../classtacopie_1_1tcp__socket.html#a88ed1cadb0263591c4d31805e0a1a001" 1 "tacopie::tcp_socket::tcp_socket(void)";
      Result "../classtacopie_1_1tcp__socket.html#a191ffa48e0753ad4ec87d4d3a4a97822" 1 "tacopie::tcp_socket::tcp_socket(fd_t fd, const std::string &amp;host, std::uint32_t port, type t)";
      Result "../classtacopie_1_1tcp__socket.html#a64f69cd1c185b523b543d4ea53cee1a2" 1 "tacopie::tcp_socket::tcp_socket(tcp_socket &amp;&amp;)";
      Result "../classtacopie_1_1tcp__socket.html#a5ae1a5b0f9713ef256164afdbeb1c193" 1 "tacopie::tcp_socket::tcp_socket(const tcp_socket &amp;)=delete"];
    Entry "tcp_5fsocket_2ehpp" "tcp_socket.hpp" [Result "../tcp__socket_8hpp.html" 1 ""];
    Entry "thread_5fpool" "thread_pool" [Result "../classtacopie_1_1utils_1_1thread__pool.html" 1 "tacopie::utils::thread_pool";
      Result "../classtacopie_1_1utils_1_1thread__pool.html#aa0068f000b8ecb21b2b0a0c50f77877c" 1 "tacopie::utils::thread_pool::thread_pool(std::size_t nb_threads)";
      Result "../classtacopie_1_1utils_1_1thread__pool.html#a63a850c39d21058eda9d655bb7eff452" 1 "tacopie::utils::thread_pool::thread_pool(const thread_pool &amp;)=delete"];
    Entry "thread_5fpool_2ehpp" "thread_pool.hpp" [Result "../thread__pool_8hpp.html" 1 ""];
    Entry "track" "track" [Result "../classtacopie_1_1io__service.html#a9f4c8bce3c0f6d660515b0b5eb109df8" 1 "tacopie::io_service"];
    Entry "tracked_5fsocket" "tracked_socket" [Result "../structtacopie_1_1io__service_1_1tracked__socket.html" 1 "tacopie::io_service::tracked_socket";
      Result "../structtacopie_1_1io__service_1_1tracked__socket.html#aa2bb26f180847ad15e09f303a2adc9ee" 1 "tacopie::io_service::tracked_socket::tracked_socket()"];
    Entry "type" "type" [Result "../classtacopie_1_1tcp__socket.html#ad8376e85df96ab9523f5d079ed7172ab" 1 "tacopie::tcp_socket"];
    Entry "typedefs_2ehpp" "typedefs.hpp" [Result "../typedefs_8hpp.html" 1 ""];
    Entry "utils" "utils" [Result "../namespacetacopie_1_1utils.html" 1 "tacopie"]].

Definition tacopie_all_11 : table :=
  [
    Entry "unknown" "UNKNOWN" [Result "../classtacopie_1_1tcp__socket.html#ad8376e85df96ab9523f5d079ed7172aba696b031073e74bf2cb98e5ef201d4aa3" 1 "tacopie::tcp_socket"];
    Entry "untrack" "untrack" [Result "../classtacopie_1_1io__service.html#a9a7672f0894a0fc1a3e6c593ca6df22c" 1 "tacopie::io_service"]].

Definition tacopie_all_12 : table :=
  [
    Entry "wait_5ffor_5fremoval" "wait_for_removal" [Result "../classtacopie_1_1io__service.html#aa57db619baeaa6db0aeb22e67b895cd7" 1 "tacopie::io_service"];
    Entry "warn" "warn" [Result "../classtacopie_1_1logger__iface.html#ab96d8f6bc2e2b514c7ceec4c856f8921" 1 "tacopie::logger_iface::warn()";
      Result "../classtacopie_1_1logger.html#aa4cd2ffc3f4b9d096a35c5c2aa8e0970" 1 "tacopie::logger::warn(const std::string &amp;msg, const std::string &amp;file, std::size_t line)";
      Result "../classtacopie_1_1logger.html#ae7dd235972bbf86a017fc39b3af80efea1ea4c3ab05ee0c6d4de30740443769cb" 1 "tacopie::logger::warn()";
      Result "../namespacetacopie.html#ac0a2f06f2f9fb6ded97b659d8573c25d" 1 "tacopie::warn()"];
    Entry "wr_5fcallback" "wr_callback" [Result "../structtacopie_1_1io__service_1_1tracked__socket.html#ae46fc6ee7102027316eceff64116ba9d" 1 "tacopie::io_service::tracked_socket"];
    Entry "write_5frequest" "write_request" [Result "../structtacopie_1_1tcp__client_1_1write__request.html" 1 "tacopie::tcp_client"];
    Entry "write_5fresult" "write_result" [Result "../structtacopie_1_1tcp__client_1_1write__result.html" 1 "tacopie::tcp_client"]].

Definition tacopie_all_13 : table :=
  [
    Entry "_7eio_5fservice" "~io_service" [Result "../classtacopie_1_1io__service.html#ae423d7e4b13f07fe41fb051345ffbf8d" 1 "tacopie::io_service"];
    Entry "_7elogger" "~logger" [Result "../classtacopie_1_1logger.html#af5c89b85935dbe3b4da3199247d50398" 1 "tacopie::logger"];
    Entry "_7elogger_5fiface" "~logger_iface" [Result "../classtacopie_1_1logger__iface.html#a562dcc605198ca90904ba21fa98eb6ea" 1 "tacopie::logger_iface"];
    Entry "_7eself_5fpipe" "~self_pipe" [Result "../classtacopie_1_1self__pipe.html#a10a6c4b0d67a4a14abea397a05cee54c" 1 "tacopie::self_pipe"];
    Entry "_7etacopie_5ferror" "~tacopie_error" [Result "../classtacopie_1_1tacopie__error.html#a5bf6b0967f7f4cf2b8f8d0a2ef0912b2" 1 "tacopie::tacopie_error"];
    Entry "_7etcp_5fclient" "~tcp_client" [Result "../classtacopie_1_1tcp__client.html#ae58e13ec11ab68e3b9e1af2f96933a64" 1 "tacopie::tcp_client"];
    Entry "_7etcp_5fserver" "~tcp_server" [Result "../classtacopie_1_1tcp__server.html#a7841dc528e2d3dfc94fbe9b93824da50" 1 "tacopie::tcp_server"];
    Entry "_7etcp_5fsocket" "~tcp_socket" [Result "../classtacopie_1_1tcp__socket.html#a4bd737a76a2a326be03d704f79a35282" 1 "tacopie::tcp_socket"];
    Entry "_7ethread_5fpool" "~thread_pool" [Result "../classtacopie_1_1utils_1_1thread__pool.html#accddfc6fad613b0c6d407028799abfc5" 1 "tacopie::utils::thread_pool"]].

Definition tacopie_defines_0 : table :=
  [
    Entry "_5f_5ftacopie_5fconnection_5fqueue_5fsize" "__TACOPIE_CONNECTION_QUEUE_SIZE" [Result "../tcp__server_8hpp.html#adebb9fdca4ff2a2f68e6177d77a5ce7b" 1 "tcp_server.hpp"];
    Entry "_5f_5ftacopie_5finvalid_5ffd" "__TACOPIE_INVALID_FD" [Result "../typedefs_8hpp.html#a0e879255fa9ca4ba90dfc6f91c5f592f" 1 "typedefs.hpp"];
    Entry "_5f_5ftacopie_5fio_5fservice_5fnb_5fworkers" "__TACOPIE_IO_SERVICE_NB_WORKERS" [Result "../io__service_8hpp.html#a822f465d034836ecbc765ad422eec064" 1 "io_service.hpp"];
    Entry "_5f_5ftacopie_5flog" "__TACOPIE_LOG" [Result "../logger_8hpp.html#a845e651e4529d5322a7cebc54a923bce" 1 "logger.hpp"];
    Entry "_5f_5ftacopie_5fthrow" "__TACOPIE_THROW" [Result "../error_8hpp.html#aacdfb7799f2e2e2f57d6f1392ff3220a" 1 "error.hpp"]].

Definition tacopie_enumvalues_0 : table :=
  [
    Entry "client" "CLIENT" [Result "../classtacopie_1_1tcp__socket.html#ad8376e85df96ab9523f5d079ed7172abaef10c650df47bffd6399e5e78da2a9b1" 1 "tacopie::tcp_socket"]].

Definition tacopie_enumvalues_1 : table :=
  [
    Entry "debug" "debug" [Result "../classtacopie_1_1logger.html#ae7dd235972bbf86a017fc39b3af80efeaad42f6697b035b7580e4fef93be20b4d" 1 "tacopie::logger"]].

Definition tacopie_enumvalues_2 : table :=
  [
    Entry "error" "error" [Result "../classtacopie_1_1logger.html#ae7dd235972bbf86a017fc39b3af80efeacb5e100e5a9a3e7f6d1fd97512215282" 1 "tacopie::logger"]].

Definition tacopie_enumvalues_3 : table :=
  [
    Entry "info" "info" [Result "../classtacopie_1_1logger.html#ae7dd235972bbf86a017fc39b3af80efeacaf9b6b99962bf5c2264824231d7a40c" 1 "tacopie::logger"]].

Definition tacopie_enumvalues_4 : table :=
  [
    Entry "server" "SERVER" [Result "../classtacopie_1_1tcp__socket.html#ad8376e85df96ab9523f5d079ed7172aba3d27c95bfdbea691b250894d96852844" 1 "tacopie::tcp_socket"]].

Definition tacopie_enumvalues_5 : table :=
  [
    Entry "unknown" "UNKNOWN" [Result "../classtacopie_1_1tcp__socket.html#ad8376e85df96ab9523f5d079ed7172aba696b031073e74bf2cb98e5ef201d4aa3" 1 "tacopie::tcp_socket"]].

Definition tacopie_enumvalues_6 : table :=
  [
    Entry "warn" "warn" [Result "../classtacopie_1_1logger.html#ae7dd235972bbf86a017fc39b3af80efea1ea4c3ab05ee0c6d4de30740443769cb" 1 "tacopie::logger"]].

Definition tacopie_files_0 : table :=
  [
    Entry "error_2ehpp" "error.hpp" [Result "../error_8hpp.html" 1 ""]].

Definition tacopie_files_1 : table :=
  [
    Entry "io_5fservice_2ehpp" "io_service.hpp" [Result "../io__service_8hpp.html" 1 ""]].

Definition tacopie_files_2 : table :=
  [
    Entry "logger_2ehpp" "logger.hpp" [Result "../logger_8hpp.html" 1 ""]].

Definition tacopie_files_3 : table :=
  [
    Entry "self_5fpipe_2ehpp" "self_pipe.hpp" [Result "../self__pipe_8hpp.html" 1 ""]].

Definition tacopie_files_4 : table :=
  [
    Entry "tcp_5fclient_2ehpp" "tcp_client.hpp" [Result "../tcp__client_8hpp.html" 1 ""];
    Entry "tcp_5fserver_2ehpp" "tcp_server.hpp" [Result "../tcp__server_8hpp.html" 1 ""];
    Entry "tcp_5fsocket_2ehpp" "tcp_socket.hpp" [Result "../tcp__socket_8hpp.html" 1 ""];
    Entry "thread_5fpool_2ehpp" "thread_pool.hpp" [Result "../thread__pool_8hpp.html" 1 ""];
    Entry "typedefs_2ehpp" "typedefs.hpp" [Result "../typedefs_8hpp.html" 1 ""]].

Definition tacopie_functions_10 : table :=
  [
    Entry "wait_5ffor_5fremoval" "wait_for_removal" [Result "../classtacopie_1_1io__service.html#aa57db619baeaa6db0aeb22e67b895cd7" 1 "tacopie::io_service"];
    Entry "warn" "warn" [Result "../classtacopie_1_1logger__iface.html#ab96d8f6bc2e2b514c7ceec4c856f8921" 1 "tacopie::logger_iface::warn()";
      Result "../classtacopie_1_1logger.html#aa4cd2ffc3f4b9d096a35c5c2aa8e0970" 1 "tacopie::logger::warn()";
      Result "../namespacetacopie.html#ac0a2f06f2f9fb6ded97b659d8573c25d" 1 "tacopie::warn()"]].

Definition tacopie_functions_11 : table :=
  [
    Entry "_7eio_5fservice" "~io_service" [Result "../classtacopie_1_1io__service.html#ae423d7e4b13f07fe41fb051345ffbf8d" 1 "tacopie::io_service"];
    Entry "_7elogger" "~logger" [Result "../classtacopie_1_1logger.html#af5c89b85935dbe3b4da3199247d50398" 1 "tacopie::logger"];
    Entry "_7elogger_5fiface" "~logger_iface" [Result "../classtacopie_1_1logger__iface.html#a562dcc605198ca90904ba21fa98eb6ea" 1 "tacopie::logger_iface"];
    Entry "_7eself_5fpipe" "~self_pipe" [Result "../classtacopie_1_1self__pipe.html#a10a6c4b0d67a4a14abea397a05cee54c" 1 "tacopie::self_pipe"];
    Entry "_7etacopie_5ferror" "~tacopie_error" [Result "../classtacopie_1_1tacopie__error.html#a5bf6b0967f7f4cf2b8f8d0a2ef0912b2" 1 "tacopie::tacopie_error"];
    Entry "_7etcp_5fclient" "~tcp_client" [Result "../classtacopie_1_1tcp__client.html#ae58e13ec11ab68e3b9e1af2f96933a64" 1 "tacopie::tcp_client"];
    Entry "_7etcp_5fserver" "~tcp_server" [Result "../classtacopie_1_1tcp__server.html#a7841dc528e2d3dfc94fbe9b93824da50" 1 "tacopie::tcp_server"];
    Entry "_7etcp_5fsocket" "~tcp_socket" [Result "../classtacopie_1_1tcp__socket.html#a4bd737a76a2a326be03d704f79a35282" 1 "tacopie::tcp_socket"];
    Entry "_7ethread_5fpool" "~thread_pool" [Result "../classtacopie_1_1utils_1_1thread__pool.html#accddfc6fad613b0c6d407028799abfc5" 1 "tacopie::utils::thread_pool"]].

Definition tacopie_namespaces_0 : table :=
  [
    Entry "tacopie" "tacopie" [Result "../namespacetacopie.html" 1 ""];
    Entry "utils" "utils" [Result "../namespacetacopie_1_1utils.html" 1 "tacopie"]].

Definition tacopie_typedefs_5 : table :=
  [
    Entry "task_5ft" "task_t" [Result "../classtacopie_1_1utils_1_1thread__pool.html#a8ae8886fdeaa8e5c0abad12626a47296" 1 "tacopie::utils::thread_pool"]].

Definition tacopie_variables_3 : table :=
  [
    Entry "m_5fcallback_5fworkers" "m_callback_workers" [Result "../classtacopie_1_1io__service.html#ace8ecb6c752a0adb3b2fec1c92cf1161" 1 "tacopie::io_service"];
    Entry "m_5fclients" "m_clients" [Result "../classtacopie_1_1tcp__server.html#ab3e475c59504150c4f3dc68bdb932670" 1 "tacopie::tcp_server"];
    Entry "m_5fclients_5fmtx" "m_clients_mtx" [Result "../classtacopie_1_1tcp__server.html#ad4ee31fe6e01a38bb2a3b11a0f29ab9a" 1 "tacopie::tcp_server"];
    Entry "m_5fdisconnection_5fhandler" "m_disconnection_handler" [Result "../classtacopie_1_1tcp__client.html#a5ee7259fe6a8258515162e1ed516de20" 1 "tacopie::tcp_client"];
    Entry "m_5ffd" "m_fd" [Result "../classtacopie_1_1tcp__socket.html#a4787aed286af0211f97fd4d1518f7b66" 1 "tacopie::tcp_socket"];
    Entry "m_5ffds" "m_fds" [Result "../classtacopie_1_1self__pipe.html#a3e562cfb5ffdd3a8bc6a7c28eca2b7af" 1 "tacopie::self_pipe"];
    Entry "m_5ffile" "m_file" [Result "../classtacopie_1_1tacopie__error.html#a34c06192d25e3c78b1aed8b0c2ead413" 1 "tacopie::tacopie_error"];
    Entry "m_5fhost" "m_host" [Result "../classtacopie_1_1tcp__socket.html#a739f43e1f58c67ae7551cfebbcc7394a" 1 "tacopie::tcp_socket"];
    Entry "m_5fio_5fservice" "m_io_service" [Result "../classtacopie_1_1tcp__client.html#a2a5e4ae0f4fbcd375df4cb1f8070b993" 1 "tacopie::tcp_client::m_io_service()";
      Result "../classtacopie_1_1tcp__server.html#a91d9aa88e0de045dc0bb54cddf02e786" 1 "tacopie::tcp_server::m_io_service()"];
    Entry "m_5fis_5fconnected" "m_is_connected" [Result "../classtacopie_1_1tcp__client.html#adf45ef6f910a7723fcfe543417f1feaf" 1 "tacopie::tcp_client"];
    Entry "m_5fis_5frunning" "m_is_running" [Result "../classtacopie_1_1tcp__server.html#a7b7651a482cbc5bb19145b77fe322ced" 1 "tacopie::tcp_server"];
    Entry "m_5flevel" "m_level" [Result "../classtacopie_1_1logger.html#ae694159c13994aa03bc578feca597c04" 1 "tacopie::logger"];
    Entry "m_5fline" "m_line" [Result "../classtacopie_1_1tacopie__error.html#a1631d3a1ba6d610e6c6ab0ddaf70b354" 1 "tacopie::tacopie_error"];
    Entry "m_5fmutex" "m_mutex" [Result "../classtacopie_1_1logger.html#ab04fda465e61bc7a84aa456bf2e399b0" 1 "tacopie::logger"];
    Entry "m_5fnb_5fthreads" "m_nb_threads" [Result "../classtacopie_1_1utils_1_1thread__pool.html#acb37b2e75b5b0ded2b3bc3174c7ba43f" 1 "tacopie::utils::thread_pool"];
    Entry "m_5fnotifier" "m_notifier" [Result "../classtacopie_1_1io__service.html#ae8a17523ba4719b0e799d1c5d665e69f" 1 "tacopie::io_service"];
    Entry "m_5fon_5fnew_5fconnection_5fcallback" "m_on_new_connection_callback" [Result "../classtacopie_1_1tcp__server.html#a779d20d286c32e5daff0012548afdfd0" 1 "tacopie::tcp_server"];
    Entry "m_5fpoll_5fworker" "m_poll_worker" [Result "../classtacopie_1_1io__service.html#a882b2211bae06c87cdf6e9c04d2cb783" 1 "tacopie::io_service"];
    Entry "m_5fpolled_5ffds" "m_polled_fds" [Result "../classtacopie_1_1io__service.html#a5a505f908c39c88e19f092c603f29261" 1 "tacopie::io_service"];
    Entry "m_5fport" "m_port" [Result "../classtacopie_1_1tcp__socket.html#ade0f7688a535423f1057b680bc131d1b" 1 "tacopie::tcp_socket"];
    Entry "m_5frd_5fset" "m_rd_set" [Result "../classtacopie_1_1io__service.html#a1d4388ceffa22976892ac5de95936f58" 1 "tacopie::io_service"];
    Entry "m_5fread_5frequests" "m_read_requests" [Result "../classtacopie_1_1tcp__client.html#a458754e266c0f41b42e17806cc59dc2a" 1 "tacopie::tcp_client"];
    Entry "m_5fread_5frequests_5fmtx" "m_read_requests_mtx" [Result "../classtacopie_1_1tcp__client.html#a792be0da277e372460fbe6977f03d27b" 1 "tacopie::tcp_client"];
    Entry "m_5fshould_5fstop" "m_should_stop" [Result "../classtacopie_1_1io__service.html#a8d73334fcd84e31ccaada49f326d3463" 1 "tacopie::io_service::m_should_stop()";
      Result "../classtacopie_1_1utils_1_1thread__pool.html#a1463eb81724978e4c694b8409528b00a" 1 "tacopie::utils::thread_pool::m_should_stop()"];
    Entry "m_5fsocket" "m_socket" [Result "../classtacopie_1_1tcp__client.html#ad256815911a745fce8f2aed00fb45b21" 1 "tacopie::tcp_client::m_socket()";
      Result "../classtacopie_1_1tcp__server.html#a2838c1b655a8c4f5ccb1e157afc17284" 1 "tacopie::tcp_server::m_socket()"];
    Entry "m_5ftasks" "m_tasks" [Result "../classtacopie_1_1utils_1_1thread__pool.html#ad00580e9ab77e128cffaf35d80223291" 1 "tacopie::utils::thread_pool"];
    Entry "m_5ftasks_5fcondvar" "m_tasks_condvar" [Result "../classtacopie_1_1utils_1_1thread__pool.html#a6f5122cc6ef6429fdb778a6e6c37216b" 1 "tacopie::utils::thread_pool"];
    Entry "m_5ftasks_5fmtx" "m_tasks_mtx" [Result "../classtacopie_1_1utils_1_1thread__pool.html#aeae956282edc4d2171ee2e408cb1189f" 1 "tacopie::utils::thread_pool"];
    Entry "m_5ftracked_5fsockets" "m_tracked_sockets" [Result "../classtacopie_1_1io__service.html#a49c9b0b992a1fe203975029f8557ad1a" 1 "tacopie::io_service"];
    Entry "m_5ftracked_5fsockets_5fmtx" "m_tracked_sockets_mtx" [Result "../classtacopie_1_1io__service.html#af73671e872d70c6e7d1c856185b5ddd6" 1 "tacopie::io_service"];
    Entry "m_5ftype" "m_type" [Result "../classtacopie_1_1tcp__socket.html#a26ee0857e7e640fa4296af1782bfef7f" 1 "tacopie::tcp_socket"];
    Entry "m_5fwait_5ffor_5fremoval_5fcondvar" "m_wait_for_removal_condvar" [Result "../classtacopie_1_1io__service.html#ab48cce92a369604bf3409ebbbd6d345d" 1 "tacopie::io_service"];
    Entry "m_5fworkers" "m_workers" [Result "../classtacopie_1_1utils_1_1thread__pool.html#a5250ed4fbe845c69e3e28cb7edf4d796" 1 "tacopie::utils::thread_pool"];
    Entry "m_5fwr_5fset" "m_wr_set" [Result "../classtacopie_1_1io__service.html#afca4de707285a1a373751e7e10b413ff" 1 "tacopie::io_service"];
    Entry "m_5fwrite_5frequests" "m_write_requests" [Result "../classtacopie_1_1tcp__client.html#aabf49a27ada2707f252b295dcec13969" 1 "tacopie::tcp_client"];
    Entry "m_5fwrite_5frequests_5fmtx" "m_write_requests_mtx" [Result "../classtacopie_1_1tcp__client.html#abc7c664a73d528c0b1c226d35f7bae2f" 1 "tacopie::tcp_client"];
    Entry "marked_5ffor_5funtrack" "marked_for_untrack" [Result "../structtacopie_1_1io__service_1_1tracked__socket.html#ac72d2fbf2c0e314c7ea02afd2c081dcd" 1 "tacopie::io_service::tracked_socket"]].

Definition tacopie_variables_4 : table :=
  [
    Entry "rd_5fcallback" "rd_callback" [Result "../structtacopie_1_1io__service_1_1tracked__socket.html#a4e44d4d8132f5272de80e83156d44fc6" 1 "tacopie::io_service::tracked_socket"]].

Definition tacopie_variables_5 : table :=
  [
    Entry "size" "size" [Result "../structtacopie_1_1tcp__client_1_1write__result.html#acee9eca954a6f1b6283c6188eead2ab1" 1 "tacopie::tcp_client::write_result::size()";
      Result "../structtacopie_1_1tcp__client_1_1read__request.html#ad8b69f61884c60596aface363ca947a3" 1 "tacopie::tcp_client::read_request::size()"];
    Entry "success" "success" [Result "../structtacopie_1_1tcp__client_1_1read__result.html#a9bb917b8d210159a95655a6f8da8e96e" 1 "tacopie::tcp_client::read_result::success()";
      Result "../structtacopie_1_1tcp__client_1_1write__result.html#a4a8d5706c83068a97c10e63c6080e6a3" 1 "tacopie::tcp_client::write_result::success()"]].

Definition tacopie_variables_6 : table :=
  [
    Entry "wr_5fcallback" "wr_callback" [Result "../structtacopie_1_1io__service_1_1tracked__socket.html#ae46fc6ee7102027316eceff64116ba9d" 1 "tacopie::io_service::tracked_socket"]].

(** The pages by their URL: each loads the table of its name. *)
Definition tacopie_orphans : list (string * table) :=
  [("search/all_10.html", tacopie_all_10);
   ("search/all_11.html", tacopie_all_11);
   ("search/all_12.html", tacopie_all_12);
   ("search/all_13.html", tacopie_all_13);
   ("search/defines_0.html", tacopie_defines_0);
   ("search/enumvalues_0.html", tacopie_enumvalues_0);
   ("search/enumvalues_1.html", tacopie_enumvalues_1);
   ("search/enumvalues_2.html", tacopie_enumvalues_2);
   ("search/enumvalues_3.html", tacopie_enumvalues_3);
   ("search/enumvalues_4.html", tacopie_enumvalues_4);
   ("search/enumvalues_5.html", tacopie_enumvalues_5);
   ("search/enumvalues_6.html", tacopie_enumvalues_6);
   ("search/files_0.html", tacopie_files_0);
   ("search/files_1.html", tacopie_files_1);
   ("search/files_2.html", tacopie_files_2);
   ("search/files_3.html", tacopie_files_3);
   ("search/files_4.html", tacopie_files_4);
   ("search/functions_10.html", tacopie_functions_10);
   ("search/functions_11.html", tacopie_functions_11);
   ("search/namespaces_0.html", tacopie_namespaces_0);
   ("search/typedefs_5.html", tacopie_typedefs_5);
   ("search/variables_3.html", tacopie_variables_3);
   ("search/variables_4.html", tacopie_variables_4);
   ("search/variables_5.html", tacopie_variables_5);
   ("search/variables_6.html", tacopie_variables_6)].
