(* ===== verification/DocIndexFacts.v ===== *)
(** The two search indexes of the repository are well formed. *)
From S2P Require Import Prelude JsString DocResults DocIndex DocIndexRedis DocIndexTacopie.
Lemma redis_index_ok : index_ok redis_index = true.
Proof. by vm_compute. Qed.
Lemma tacopie_index_ok : index_ok tacopie_index = true.
Proof. by vm_compute. Qed.
