(* ===== verification/DocPanel.v ===== *)
(** The search panel of the documentation (the class [SearchBox] and
    [init_search] of [search.js]) and the key handlers of the results page
    inside it ([SearchResults.Nav], [NavChild]).

    The state is the [SearchBox] object, what its methods read and write of the
    page, the timers that are set, and the frame the results are shown in.  The
    sizes and offsets of the elements are the browser's ([layout]). *)

From S2P Require Import Prelude Text JsString Dom DocResults DocIndex.

(** * State *)

(** An element's box: its size, its offset in [offsetParent], and that one. *)
Inductive offset_box : Type := Box {
  offsetWidth : Z; offsetHeight : Z; offsetLeft : Z; offsetTop : Z;
  is_body : bool; offsetParent : option offset_box;
}.

(** The loops of [getXPos] and [getYPos], up to [document.body]. *)
Fixpoint sum_offsets (f : offset_box -> Z) (item : offset_box) : Z :=
  if is_body item then 0
  else (f item + match offsetParent item with Some p => sum_offsets f p | None => 0 end)%Z.
Definition getXPos (item : offset_box) : Z :=
  if (offsetWidth item =? 0)%Z then 0 else sum_offsets offsetLeft item.
Definition getYPos (item : offset_box) : Z :=
  if (offsetWidth item =? 0)%Z then 0 else sum_offsets offsetTop item.

Record search_box : Type := SearchBoxObject {
  name : string;
  resultsPath : string;
  keyTimeout : Z;
  keyTimeoutLength : Z;
  closeSelectionTimeout : Z;
  lastSearchValue : string;
  lastResultsPage : string;
  hideTimeout : Z;
  searchIndex : Z;
  searchActive : bool;
  insideFrame : bool;
  searchLabel : string;
}.

(** The element that has the focus. *)
Inductive focus : Type :=
| no_focus
| focus_field
| focus_select (child : nat)
| focus_result (element : path).

(** The code of a timer: [name.Search()] or [name.CloseSelectionWindow()]. *)
Inductive timer_code : Type := call_Search | call_CloseSelectionWindow.

(** [element.style], by element id and property. *)
Abbreviation styles := (gmap (string * string) string).

Record browser : Type := Browser {
  box : search_box;
  fieldValue : string;                   (** [MSearchField.value] *)
  boxClass : string;                     (** [MSearchBox.className] *)
  style : styles;
  selectItems : list node;               (** the children of [MSearchSelectWindow] *)
  timers : list (Z * timer_code * Z);    (** number, code, delay *)
  next_timer : Z;
  focused : focus;
  frame_location : string;
  frame : option results_page;           (** [searchResults] of the page in the frame *)
}.

Definition with_box (f : search_box -> search_box) (s : browser) : browser :=
  Browser (f (box s)) (fieldValue s) (boxClass s) (style s) (selectItems s) (timers s)
          (next_timer s) (focused s) (frame_location s) (frame s).
Definition with_field (v : string) (s : browser) : browser :=
  Browser (box s) v (boxClass s) (style s) (selectItems s) (timers s)
          (next_timer s) (focused s) (frame_location s) (frame s).
Definition with_class (c : string) (s : browser) : browser :=
  Browser (box s) (fieldValue s) c (style s) (selectItems s) (timers s)
          (next_timer s) (focused s) (frame_location s) (frame s).
Definition with_style (id property v : string) (s : browser) : browser :=
  Browser (box s) (fieldValue s) (boxClass s) (<[(id, property) := v]> (style s)) (selectItems s)
          (timers s) (next_timer s) (focused s) (frame_location s) (frame s).
Definition with_items (l : list node) (s : browser) : browser :=
  Browser (box s) (fieldValue s) (boxClass s) (style s) l (timers s)
          (next_timer s) (focused s) (frame_location s) (frame s).
Definition with_timers (l : list (Z * timer_code * Z)) (n : Z) (s : browser) : browser :=
  Browser (box s) (fieldValue s) (boxClass s) (style s) (selectItems s) l n
          (focused s) (frame_location s) (frame s).
Definition with_focus (f : focus) (s : browser) : browser :=
  Browser (box s) (fieldValue s) (boxClass s) (style s) (selectItems s) (timers s)
          (next_timer s) f (frame_location s) (frame s).
Definition with_location (u : string) (s : browser) : browser :=
  Browser (box s) (fieldValue s) (boxClass s) (style s) (selectItems s) (timers s)
          (next_timer s) (focused s) u (frame s).
Definition with_frame (w : option results_page) (s : browser) : browser :=
  Browser (box s) (fieldValue s) (boxClass s) (style s) (selectItems s) (timers s)
          (next_timer s) (focused s) (frame_location s) w.

Definition set_keyTimeout (t : Z) (b : search_box) : search_box :=
  SearchBoxObject (name b) (resultsPath b) t (keyTimeoutLength b) (closeSelectionTimeout b)
    (lastSearchValue b) (lastResultsPage b) (hideTimeout b) (searchIndex b) (searchActive b)
    (insideFrame b) (searchLabel b).
Definition set_hideTimeout (t : Z) (b : search_box) : search_box :=
  SearchBoxObject (name b) (resultsPath b) (keyTimeout b) (keyTimeoutLength b) (closeSelectionTimeout b)
    (lastSearchValue b) (lastResultsPage b) t (searchIndex b) (searchActive b)
    (insideFrame b) (searchLabel b).
Definition set_lastSearchValue (v : string) (b : search_box) : search_box :=
  SearchBoxObject (name b) (resultsPath b) (keyTimeout b) (keyTimeoutLength b) (closeSelectionTimeout b)
    v (lastResultsPage b) (hideTimeout b) (searchIndex b) (searchActive b)
    (insideFrame b) (searchLabel b).
Definition set_lastResultsPage (v : string) (b : search_box) : search_box :=
  SearchBoxObject (name b) (resultsPath b) (keyTimeout b) (keyTimeoutLength b) (closeSelectionTimeout b)
    (lastSearchValue b) v (hideTimeout b) (searchIndex b) (searchActive b)
    (insideFrame b) (searchLabel b).
Definition set_searchIndex (i : Z) (b : search_box) : search_box :=
  SearchBoxObject (name b) (resultsPath b) (keyTimeout b) (keyTimeoutLength b) (closeSelectionTimeout b)
    (lastSearchValue b) (lastResultsPage b) (hideTimeout b) i (searchActive b)
    (insideFrame b) (searchLabel b).
Definition set_searchActive (a : bool) (b : search_box) : search_box :=
  SearchBoxObject (name b) (resultsPath b) (keyTimeout b) (keyTimeoutLength b) (closeSelectionTimeout b)
    (lastSearchValue b) (lastResultsPage b) (hideTimeout b) (searchIndex b) a
    (insideFrame b) (searchLabel b).

(** [new SearchBox(name, resultsPath, inFrame, label)] *)
Definition SearchBox (name resultsPath : string) (inFrame : bool) (label : string) : search_box :=
  SearchBoxObject name resultsPath 0 500 300 "" "" 0 0 false inFrame label.

(** * The methods of [SearchBox] *)

Section Panel.

(** The size and place of the element of an id, with the styles set. *)
Variable layout : styles -> string -> offset_box.
(** [document.body.clientWidth] *)
Variable clientWidth : Z.
Variable idx : doc_index.

Definition box_set (f : search_box -> search_box) : M browser unit := mmodify (with_box f).
Definition style_set (id property v : string) : M browser unit := mmodify (with_style id property v).
Definition display_of (s : browser) (id : string) : string :=
  default "" (style s !! (id, "display")).
Definition px (z : Z) : string := to_string z +:+ "px".

Definition setTimeout (code : timer_code) (delay : Z) : M browser Z :=
  s ← mget;
  _ ← mput (with_timers ((next_timer s, code, delay) :: timers s) (next_timer s + 1)%Z s);
  mret (next_timer s).
Definition clearTimeout (t : Z) : M browser unit :=
  mmodify (fun s => with_timers (List.filter (fun '(n, _, _) => negb (n =? t)%Z) (timers s)) (next_timer s) s).

(** [this.Activate] *)
Definition Activate (isActive : bool) : M browser unit :=
  s ← mget;
  if isActive || String.eqb (display_of s "MSearchResultsWindow") "block" then
    _ ← mmodify (with_class "MSearchBoxActive");
    if String.eqb (fieldValue s) (searchLabel (box s)) then
      _ ← mmodify (with_field ""); box_set (set_searchActive true)
    else mret tt
  else
    _ ← mmodify (with_class "MSearchBoxInactive");
    _ ← mmodify (with_field (searchLabel (box s)));
    _ ← box_set (set_searchActive false);
    _ ← box_set (set_lastSearchValue "");
    box_set (set_lastResultsPage "").

Definition OnSearchFieldFocus (isActive : bool) : M browser unit := Activate isActive.

Definition OnSearchSelectShow : M browser bool :=
  s ← mget;
  let searchField := layout (style s) "MSearchSelect" in
  let left := getXPos searchField in
  let top := (getYPos searchField + offsetHeight searchField)%Z in
  _ ← style_set "MSearchSelectWindow" "display" "block";
  s' ← mget;
  let left := if insideFrame (box s)
              then (left + (offsetWidth searchField + 6)
                    - offsetWidth (layout (style s') "MSearchSelectWindow"))%Z
              else left in
  _ ← style_set "MSearchSelectWindow" "left" (px left);
  _ ← style_set "MSearchSelectWindow" "top" (px top);
  _ ← (if (hideTimeout (box s) =? 0)%Z then mret tt
       else _ ← clearTimeout (hideTimeout (box s)); box_set (set_hideTimeout 0));
  mret false.

Definition OnSearchSelectHide : M browser unit :=
  s ← mget;
  t ← setTimeout call_CloseSelectionWindow (closeSelectionTimeout (box s));
  box_set (set_hideTimeout t).

Definition is_select_item (child : node) : bool := String.eqb (className child) "SelectItem".

(** The first child of the window that is an item. *)
Fixpoint first_select_item (k : nat) (children : list node) : option nat :=
  match children with
  | [] => None
  | c :: cs => if is_select_item c then Some k else first_select_item (S k) cs
  end.

(** The end of [OnSearchFieldChange]: a new text starts the timer of a search,
    an empty one hides the results. *)
Definition field_changed : M browser unit :=
  s ← mget;
  let searchValue := strip_spaces (fieldValue s) in
  if String.eqb searchValue (lastSearchValue (box s)) then mret tt
  else if String.eqb searchValue "" then
    _ ← style_set "MSearchResultsWindow" "display" "none";
    _ ← style_set "MSearchClose" "display" "none";
    box_set (set_lastSearchValue "")
  else
    t ← setTimeout call_Search (keyTimeoutLength (box s));
    box_set (set_keyTimeout t).

Definition OnSearchFieldChange (e : event) : M browser unit :=
  s ← mget;
  _ ← (if (keyTimeout (box s) =? 0)%Z then mret tt
       else _ ← clearTimeout (keyTimeout (box s)); box_set (set_keyTimeout 0));
  if ((keyCode e =? 40) || (keyCode e =? 13))%Z then
    if shiftKey e then
      _ ← OnSearchSelectShow;
      match first_select_item 0 (selectItems s) with
      | Some child => mmodify (with_focus (focus_select child))
      | None => mret tt
      end
    else
      match frame s with
      | Some searchResults =>
        elem ← mlift (NavNext (document searchResults) 0);
        _ ← (match elem with
             | Some element => mmodify (with_focus (focus_result element))
             | None => mret tt
             end);
        field_changed
      | None => field_changed
      end
  else if (keyCode e =? 27)%Z then
    _ ← mmodify (with_focus no_focus);
    _ ← style_set "MSearchResultsWindow" "display" "none";
    _ ← style_set "MSearchClose" "display" "none";
    _ ← box_set (set_lastSearchValue "");
    Activate false
  else field_changed.

Definition SelectItemCount (s : browser) : Z :=
  Z.of_nat (length (List.filter is_select_item (selectItems s))).

(** [node.innerHTML = ...] for the first child of an item *)
Definition set_mark (mark : string) (child : node) : option node :=
  match childNodes child with
  | [] => None
  | n :: ns => Some (set_childNodes (set_innerHTML mark n :: ns) child)
  end.

(** The loop of [SelectItemSet]: [None] when an item has no child to mark. *)
Fixpoint select_loop (id j : Z) (children : list node) : option (list node) :=
  match children with
  | [] => Some []
  | child :: cs =>
    if is_select_item child then
      child' ← set_mark (if (j =? id)%Z then "&#8226;" else "&#160;") child;
      cs' ← select_loop id (j + 1) cs;
      Some (child' :: cs')
    else
      cs' ← select_loop id j cs;
      Some (child :: cs')
  end.
Definition SelectItemSet (id : Z) : M browser unit :=
  s ← mget;
  match select_loop id 0 (selectItems s) with
  | Some l => mmodify (with_items l)
  | None => mlift TypeError
  end.

(** A property of an object with the keys 0, 1, ... *)
Definition property {A} (l : list A) (k : Z) : option A :=
  if (k <? 0)%Z then None else l !! Z.to_nat k.

(** The showing of the results window, at the end of [Search]. *)
Definition show_results_window : M browser unit :=
  s ← mget;
  if String.eqb (display_of s "MSearchResultsWindow") "block" then mret tt
  else
    _ ← style_set "MSearchClose" "display" "inline";
    if insideFrame (box s) then
      _ ← style_set "MSearchResultsWindow" "position" "relative";
      _ ← style_set "MSearchResultsWindow" "display" "block";
      let width := (clientWidth - 8)%Z in
      _ ← style_set "MSearchResultsWindow" "width" (px width);
      style_set "MSearchResults" "width" (px width)
    else
      s1 ← mget;
      let left := (getXPos (layout (style s1) "MSearchBox") + 150)%Z in
      let top := (getYPos (layout (style s1) "MSearchBox") + 20)%Z in
      _ ← style_set "MSearchResultsWindow" "display" "block";
      s2 ← mget;
      let left := (left - offsetWidth (layout (style s2) "MSearchResults"))%Z in
      _ ← style_set "MSearchResultsWindow" "top" (px top);
      style_set "MSearchResultsWindow" "left" (px left).

(** [this.Search].  The case of a surrogate pair does not arise: it needs a code
    unit of 0xD800 or more. *)
Definition Search : M browser unit :=
  _ ← box_set (set_keyTimeout 0);
  s ← mget;
  let searchValue := strip_leading (fieldValue s) in
  let idxChar := toLowerCase (s_take 1 searchValue) in
  match property (indexSectionsWithContent idx) (searchIndex (box s)) with
  | None => mlift TypeError
  | Some content =>
    let i := indexOf content idxChar in
    let sectionName := default "undefined" (property (indexSectionNames idx) (searchIndex (box s))) in
    let resultsPage :=
      if (i =? -1)%Z then resultsPath (box s) +:+ "/nomatches.html"
      else page_url (resultsPath (box s)) sectionName (Z.to_N i) in
    let resultsPageWithSearch :=
      if (i =? -1)%Z then resultsPage else resultsPage +:+ "?" +:+ escape searchValue in
    _ ← mmodify (with_location resultsPageWithSearch);
    _ ← show_results_window;
    _ ← box_set (set_lastSearchValue searchValue);
    box_set (set_lastResultsPage resultsPage)
  end.

Definition OnSelectItem (id : Z) : M browser unit :=
  _ ← box_set (set_searchIndex id);
  _ ← SelectItemSet id;
  s ← mget;
  if negb (String.eqb (strip_spaces (fieldValue s)) "") && searchActive (box s) then Search
  else mret tt.

Definition CloseResultsWindow : M browser unit :=
  _ ← style_set "MSearchResultsWindow" "display" "none";
  _ ← style_set "MSearchClose" "display" "none";
  Activate false.
Definition CloseSelectionWindow : M browser unit :=
  style_set "MSearchSelectWindow" "display" "none".

Definition OnSearchSelectKey (e : event) : M browser bool :=
  s ← mget;
  _ ← (if (keyCode e =? 40)%Z && (searchIndex (box s) <? SelectItemCount s)%Z then
         _ ← box_set (set_searchIndex (searchIndex (box s) + 1));
         OnSelectItem (searchIndex (box s) + 1)
       else if (keyCode e =? 38)%Z && (0 <? searchIndex (box s))%Z then
         _ ← box_set (set_searchIndex (searchIndex (box s) - 1));
         OnSelectItem (searchIndex (box s) - 1)
       else if ((keyCode e =? 13) || (keyCode e =? 27))%Z then
         _ ← OnSelectItem (searchIndex (box s));
         _ ← CloseSelectionWindow;
         mmodify (with_focus focus_field)
       else mret tt);
  mret false.

(** A timer that fires runs its code. *)
Definition timer_fires (code : timer_code) : M browser unit :=
  match code with call_Search => Search | call_CloseSelectionWindow => CloseSelectionWindow end.

(** ** [init_search] *)

(** The link of a section: its [innerHTML] is a [span] for the mark, then the
    label. *)
Definition select_link (key : nat) (label : string) : node :=
  let link := setAttribute "class" "SelectItem" (createElement "a") in
  let link := setAttribute "onclick" ("searchBox.OnSelectItem(" +:+ num key +:+ ")") link in
  let link := setAttribute "href" "javascript:void(0)" link in
  let mark := set_innerHTML "&#160;" (setAttribute "class" "SelectionMark" (createElement "span")) in
  set_childNodes [mark] (set_innerHTML label link).

Definition init_search : M browser unit :=
  _ ← mmodify (fun s => with_items (selectItems s ++ imap select_link (indexSectionLabels idx)) s);
  OnSelectItem 0.

(** ** The frame *)

(** A URL's path, and its [window.location.search]. *)
Fixpoint url_path (u : string) : string :=
  match u with
  | String c r => if Ascii.eqb c "?" then EmptyString else String c (url_path r)
  | EmptyString => EmptyString
  end.
Fixpoint url_query (u : string) : string :=
  match u with
  | String c r => if Ascii.eqb c "?" then (match r with EmptyString => EmptyString | _ => u end)
                  else url_query r
  | EmptyString => EmptyString
  end.

(** The frame has loaded the page of its location; a page that is not a results
    page has no [searchResults]. *)
Definition frame_loads : M browser unit :=
  s ← mget;
  match find_page (url_path (frame_location s)) (result_pages idx) with
  | Some searchData =>
    w ← mlift (load_results searchData (url_query (frame_location s)));
    mmodify (with_frame (Some w))
  | None => mmodify (with_frame None)
  end.

(** * The key handlers of the results page *)

(** Run a method of the page in the frame. *)
Definition in_frame {A} (m : M results_page A) : M browser A := fun s =>
  match frame s with
  | Some w => let '(r, w') := m w in (r, with_frame (Some w') s)
  | None => (TypeError, s)
  end.
Definition frame_page : M results_page results_page := mget.

(** The list of children of the row an item is in:
    [this.FindChildElement(item.parentNode.parentNode.id)]. *)
Definition children_of_item (doc : node) (item : path) : outcome (option path) :=
  match item with
  | _ :: _ :: row =>
    match node_at doc row with
    | Some n => FindChildElement doc (id_of n)
    | None => TypeError
    end
  | _ => TypeError
  end.

Definition child_item_name (itemIndex childIndex : Z) : string :=
  "Item" +:+ to_string itemIndex +:+ "_c" +:+ to_string childIndex.

(** The search for the last child of an item: the last of [focusItem] and the
    links numbered from [n]. *)
Fixpoint last_child (fuel : nat) (doc : node) (newIndex n : Z) (focusItem : path) : outcome path :=
  match fuel with
  | O => Timeout
  | S fuel =>
    match getElementById doc (child_item_name newIndex n) with
    | Some tmpElem => last_child fuel doc newIndex (n + 1) tmpElem
    | None => Ret focusItem
    end
  end.

Definition set_children_display (itemIndex : Z) (d : string) : M results_page unit :=
  w ← frame_page;
  match getElementById (document w) (item_name itemIndex) with
  | None => mlift TypeError
  | Some item =>
    elem ← mlift (children_of_item (document w) item);
    match elem with
    | Some e => mput (with_document (update_at (set_display d) e (document w)) w)
    | None => mret tt
    end
  end.

(** The element the Up key moves to, from item [itemIndex]; [None] is the search
    field. *)
Definition up_target (doc : node) (itemIndex : Z) : outcome (option path) :=
  let newIndex := (itemIndex - 1)%Z in
  obind (fun focusItem : option path =>
    match focusItem with
    | None => Ret None
    | Some item =>
      obind (fun child : option path =>
        match child with
        | Some c =>
          if String.eqb (display_at doc c) "block"
          then omap_outcome Some (last_child (S (size doc)) doc newIndex 0 item)
          else Ret (Some item)
        | None => Ret (Some item)
        end) (children_of_item doc item)
    end) (NavPrev doc newIndex).

(** The element the Down key moves to. *)
Definition down_target (doc : node) (itemIndex : Z) : outcome (option path) :=
  match getElementById doc (item_name itemIndex) with
  | None => TypeError
  | Some item =>
    obind (fun elem : option path =>
      let first := match elem with
                   | Some c => if String.eqb (display_at doc c) "block"
                               then getElementById doc (child_item_name itemIndex 0) else None
                   | None => None
                   end in
      match first with
      | Some p => Ret (Some p)
      | None => NavNext doc (itemIndex + 1)
      end) (children_of_item doc item)
  end.

Definition focus_result_or (other : M browser unit) (target : option path) : M browser unit :=
  match target with
  | Some p => mmodify (with_focus (focus_result p))
  | None => other
  end.

Definition leave_results : M browser unit :=
  _ ← CloseResultsWindow; mmodify (with_focus focus_field).

Definition Nav (e : event) (itemIndex : Z) : M browser bool :=
  if (keyCode e =? 13)%Z then mret true else
  process ← in_frame (ProcessKeys e);
  if negb process then mret false else
  w ← in_frame frame_page;
  if (lastKey w =? 38)%Z then
    target ← mlift (up_target (document w) itemIndex);
    _ ← focus_result_or (mmodify (with_focus focus_field)) target; mret false
  else if (lastKey w =? 40)%Z then
    target ← mlift (down_target (document w) itemIndex);
    _ ← focus_result_or (mret tt) target; mret false
  else if (lastKey w =? 39)%Z then
    _ ← in_frame (set_children_display itemIndex "block"); mret false
  else if (lastKey w =? 37)%Z then
    _ ← in_frame (set_children_display itemIndex "none"); mret false
  else if (lastKey w =? 27)%Z then _ ← leave_results; mret false
  else mret (lastKey w =? 13)%Z.

Definition NavChild (e : event) (itemIndex childIndex : Z) : M browser bool :=
  if (keyCode e =? 13)%Z then mret true else
  process ← in_frame (ProcessKeys e);
  if negb process then mret false else
  w ← in_frame frame_page;
  let doc := document w in
  if (lastKey w =? 38)%Z then
    let id := if (0 <? childIndex)%Z then child_item_name itemIndex (childIndex - 1)
              else item_name itemIndex in
    _ ← focus_result_or (mlift TypeError) (getElementById doc id); mret false
  else if (lastKey w =? 40)%Z then
    target ← match getElementById doc (child_item_name itemIndex (childIndex + 1)) with
             | Some p => mret (Some p)
             | None => mlift (NavNext doc (itemIndex + 1))
             end;
    _ ← focus_result_or (mret tt) target; mret false
  else if (lastKey w =? 27)%Z then _ ← leave_results; mret false
  else mret (lastKey w =? 13)%Z.

End Panel.
