(* ===== verification/DocPanelFacts.v ===== *)
(** The search panel: a search finds the symbols of the index, the choice of a
    section stays near its range, and the key handlers of the results page
    return. *)

From S2P Require Import Prelude Text JsString Dom DocResults DocResultsFacts DocPageFacts DocIndex.
From S2P Require Import DocPanel DocIndexRedis DocIndexTacopie DocIndexFacts.

(** * Searching for a symbol *)

Lemma name_matches_app t r : name_matches t (t +:+ r) = true.
Proof.
  unfold name_matches. rewrite s_length_app, s_take_app, String.eqb_refl, andb_true_r.
  apply Nat.leb_le. lia.
Qed.

(** A text typed from the beginning of a symbol matches the symbol's row. *)
Lemma typed_matches (a : ascii) v sym r :
  a <> space -> toLowerCase sym = toLowerCase (String a v) +:+ r ->
  name_matches (normalise (String a v)) (toLowerCase (convertToId (toLowerCase sym))) = true.
Proof.
  intros Ha Hs. unfold normalise. rewrite strip_leading_id by done.
  destruct (strip_trailing_prefix (String a v)) as [u Hu].
  set (t := strip_trailing (String a v)) in *.
  rewrite convertToId_lower, Hs, Hu, toLowerCase_app, s_app_assoc, convertToId_app.
  apply name_matches_app.
Qed.

Lemma url_path_query u q :
  s_all (fun c => negb (Ascii.eqb c "?")) u = true ->
  url_path (u +:+ "?" +:+ q) = u /\
  url_query (u +:+ "?" +:+ q) = match q with EmptyString => EmptyString | _ => "?" +:+ q end.
Proof.
  induction u as [|c u IH]; intros H; [done|]. cbn [s_all] in H. apply andb_prop in H as [Hc H].
  apply negb_true_iff in Hc. destruct (IH H) as [H1 H2].
  change (String c u +:+ "?" +:+ q) with (String c (u +:+ "?" +:+ q)).
  cbn [url_path url_query]. by rewrite Hc, H1, H2.
Qed.

Lemma escape_nonempty a v : exists b r, escape (String a v) = String b r.
Proof. cbn [escape]. destruct (unescaped a); eauto. Qed.

(** ** What the methods leave alone *)

Definition same_search (s s' : browser) : Prop :=
  searchIndex (box s') = searchIndex (box s) /\ selectItems s' = selectItems s /\
  fieldValue s' = fieldValue s /\ searchActive (box s') = searchActive (box s).

Lemma show_results_window_ok lay cw s :
  exists s', show_results_window lay cw s = (Ret tt, s') /\ box s' = box s /\
    frame_location s' = frame_location s /\ frame s' = frame s /\ selectItems s' = selectItems s /\
    fieldValue s' = fieldValue s.
Proof.
  unfold show_results_window, style_set, mmodify, mbind, M_bind, mget, mret, M_ret.
  destruct (String.eqb (display_of s _) _); [by eexists|].
  destruct (insideFrame (box s)); by eexists.
Qed.

(** Where a search leads: the page of the typed character, or none. *)
Definition results_url (idx : doc_index) (s : browser) (content : string) : string :=
  let v := strip_leading (fieldValue s) in
  let i := indexOf content (toLowerCase (s_take 1 v)) in
  if (i =? -1)%Z then resultsPath (box s) +:+ "/nomatches.html"
  else page_url (resultsPath (box s))
         (default "undefined" (property (indexSectionNames idx) (searchIndex (box s)))) (Z.to_N i)
       +:+ "?" +:+ escape v.

Lemma Search_panel lay cw idx s content :
  property (indexSectionsWithContent idx) (searchIndex (box s)) = Some content ->
  exists s', Search lay cw idx s = (Ret tt, s') /\ frame_location s' = results_url idx s content /\
    same_search s s' /\ resultsPath (box s') = resultsPath (box s).
Proof.
  intros Hc. unfold Search, box_set, mmodify, mbind, M_bind, mget.
  set (s1 := with_box (set_keyTimeout 0) s).
  change (searchIndex (box s1)) with (searchIndex (box s)). rewrite Hc.
  match goal with |- context [with_location ?u] => set (full := u) end.
  assert (full = results_url idx s content) as <-.
  { subst full. unfold results_url. change (fieldValue s1) with (fieldValue s).
    change (resultsPath (box s1)) with (resultsPath (box s)).
    change (searchIndex (box s1)) with (searchIndex (box s)).
    by destruct (indexOf content _ =? -1)%Z. }
  destruct (show_results_window_ok lay cw (with_location full s1)) as (s2 & -> & Hb & Hl & Hf & Hi & Hv).
  eexists. split; [reflexivity|]. cbn [frame_location with_box box].
  split; [exact Hl|]. unfold same_search. cbn. rewrite Hb, Hi, Hv. by split_and!.
Qed.

(** The search of a symbol, for any index that is well formed. *)
Lemma search_symbol lay cw idx i name content k c data e d a v r s :
  index_ok idx = true ->
  indexSectionsWithContent idx !! i = Some content ->
  indexSectionNames idx !! i = Some name ->
  String.get k content = Some c ->
  find_page (page_url "search" name (N.of_nat k)) (result_pages idx) = Some data ->
  data !! e = Some d ->
  toLowerCase (symbol d) = toLowerCase (String a v) +:+ r ->
  searchIndex (box s) = Z.of_nat i -> resultsPath (box s) = "search" ->
  fieldValue s = String a v ->
  exists s' w, (_ ← Search lay cw idx; frame_loads idx) s = (Ret tt, s') /\ frame s' = Some w /\
    searched data (normalise (String a v)) w /\ entry_matches (normalise (String a v)) d = true.
Proof.
  intros Hok Hc Hn Hk Hp He Hs Hi Hr Hv.
  destruct (index_ok_section idx i content name Hok Hc Hn) as [Hch Hnr].
  destruct (chars_ok_get _ _ _ _ _ _ Hch Hk) as (Hpage & Hsp & Hlc). rewrite N.add_0_l in Hpage.
  unfold page_ok in Hpage. rewrite Hp in Hpage. apply andb_prop in Hpage as [Hq Hall].
  rewrite forallb_forall in Hall.
  pose proof (Hall d ltac:(eapply list_elem_of_In, list_elem_of_lookup_2, He)) as Hd.
  unfold entry_ok in Hd. rewrite Hs in Hd.
  change (toLowerCase (String a v) +:+ r) with (String (lower_unit a) (toLowerCase v +:+ r)) in Hd.
  apply andb_prop in Hd as [Ha Hid]. apply Ascii.eqb_eq in Ha. apply String.eqb_eq in Hid.
  assert (a <> space) as Hasp by (intros ->; by apply Hsp).
  assert (property (indexSectionsWithContent idx) (searchIndex (box s)) = Some content) as Hprop.
  { unfold property. rewrite Hi, Nat2Z.id. destruct (Z.ltb_spec (Z.of_nat i) 0); [lia|done]. }
  destruct (Search_panel lay cw idx s content Hprop) as (s1 & HS & Hl & _).
  rewrite (mbind_Ret _ _ _ _ _ HS). unfold frame_loads, mbind, M_bind, mget.
  assert (frame_location s1 = page_url "search" name (N.of_nat k) +:+ "?" +:+ escape (String a v)) as Hloc.
  { rewrite Hl. unfold results_url. rewrite Hv, strip_leading_id by done.
    change (toLowerCase (s_take 1 (String a v))) with (String (lower_unit a) EmptyString).
    unfold indexOf. rewrite Ha, (index_of_unit_get _ _ _ Hnr Hk). cbn [from_option].
    destruct (Z.eqb_spec (Z.of_N (N.of_nat k)) (-1)); [lia|]. rewrite N2Z.id, Hr.
    unfold property. rewrite Hi, Nat2Z.id. destruct (Z.ltb_spec (Z.of_nat i) 0); [lia|].
    by rewrite Hn. }
  destruct (url_path_query (page_url "search" name (N.of_nat k)) (escape (String a v)) Hq) as [Hup Huq].
  rewrite Hloc, Hup, Huq, Hp.
  destruct (escape_nonempty a v) as (b & q & Hesc). rewrite Hesc.
  destruct (load_page data ("?" +:+ String b q)) as (w & Hw & Hsw & _). unfold mlift. rewrite Hw.
  exists (with_frame (Some w) s1), w. split_and!; [done..| |].
  - change (s_drop 1 ("?" +:+ String b q)) with (String b q) in Hsw.
    by rewrite <- Hesc, unescape_escape in Hsw.
  - unfold entry_matches. rewrite Hid.
    change (String (lower_unit a) (toLowerCase v +:+ r)) with (toLowerCase (String a v) +:+ r).
    rewrite <- Hs. by apply (typed_matches a v (symbol d) r).
Qed.

(** * Choosing a section *)

(** The link of a section with its mark. *)
Definition mark_of (selected : bool) : string := if selected then "&#8226;" else "&#160;".
Definition marked_link (id : Z) (key : nat) (label : string) : node :=
  let mark := set_innerHTML (mark_of (Z.of_nat key =? id)%Z)
                (setAttribute "class" "SelectionMark" (createElement "span")) in
  set_childNodes [mark] (select_link key label).
Definition marked_links (id : Z) (labels : list string) : list node := imap (marked_link id) labels.

Lemma select_loop_marked (g : nat -> string -> node) id k labels :
  (forall j l, exists m, childNodes (g j l) = [m] /\ set_childNodes [m] (g j l) = g j l /\
     is_select_item (g j l) = true /\
     set_childNodes [set_innerHTML (mark_of (Z.of_nat (k + j) =? id)%Z) m] (g j l) =
     marked_link id (k + j) l) ->
  select_loop id (Z.of_nat k) (imap g labels) = Some (imap (fun j => marked_link id (k + j)) labels).
Proof.
  revert g k. induction labels as [|l labels IH]; intros g k Hg; [done|].
  cbn [imap select_loop]. destruct (Hg 0 l) as (m & Hm & _ & Hs & Hset). rewrite Hs.
  unfold set_mark. rewrite Hm. cbn [mbind option_bind].
  replace (Z.of_nat k + 1)%Z with (Z.of_nat (S k)) by lia.
  rewrite (IH (g ∘ S) (S k)).
  - cbn. do 2 f_equal; [by rewrite <- Hset, Nat.add_0_r|].
    apply imap_ext. intros j x _. unfold compose. by rewrite Nat.add_succ_r.
  - intros j x. destruct (Hg (S j) x) as (m' & H1 & H2 & H3 & H4). exists m'.
    rewrite Nat.add_succ_r in H4. by split_and!.
Qed.

Lemma select_loop_links id id' labels :
  select_loop id 0 (marked_links id' labels) = Some (marked_links id labels).
Proof.
  apply (select_loop_marked (marked_link id') id 0). intros j l. eexists.
  split_and!; [reflexivity..|done].
Qed.

Lemma select_loop_fresh id labels :
  select_loop id 0 (imap select_link labels) = Some (marked_links id labels).
Proof.
  apply (select_loop_marked select_link id 0). intros j l. eexists.
  split_and!; [reflexivity..|done].
Qed.

(** The panel offers the sections of the index, marks the chosen one, and its
    choice is a section or the position after the last. *)
Definition panel_inv (idx : doc_index) (s : browser) : Prop :=
  selectItems s = marked_links (searchIndex (box s)) (indexSectionLabels idx) /\
  (0 <= searchIndex (box s) <= Z.of_nat (length (indexSectionLabels idx)))%Z.

(** A text is in the field and the search is active. *)
Definition searching (s : browser) : bool :=
  negb (String.eqb (strip_spaces (fieldValue s)) "") && searchActive (box s).

Lemma marked_count id labels :
  length (List.filter is_select_item (marked_links id labels)) = length labels.
Proof.
  assert (forall g : nat -> string -> node, (forall j l, is_select_item (g j l) = true) ->
            length (List.filter is_select_item (imap g labels)) = length labels) as H.
  { induction labels as [|l labels IH]; intros g Hg; cbn; [done|]. rewrite Hg. cbn.
    by rewrite (IH (g ∘ S)) by (intros; apply Hg). }
  by apply H.
Qed.

(** Selecting a section: the mark moves, and a search in progress is repeated;
    it throws when there is no such section. *)
Lemma OnSelectItem_spec lay cw idx s id id' :
  length (indexSectionsWithContent idx) = length (indexSectionLabels idx) ->
  selectItems s = marked_links id' (indexSectionLabels idx) ->
  (0 <= id <= Z.of_nat (length (indexSectionLabels idx)))%Z ->
  exists s', panel_inv idx s' /\ searchIndex (box s') = id /\ searching s' = searching s /\
    fieldValue s' = fieldValue s /\
    OnSelectItem lay cw idx id s =
      (if searching s && (id =? Z.of_nat (length (indexSectionLabels idx)))%Z
       then TypeError else Ret tt, s').
Proof.
  intros Hlen Hi Hid. unfold OnSelectItem, SelectItemSet, box_set, mmodify, mbind, M_bind, mget.
  cbn [selectItems with_box]. rewrite Hi, select_loop_links.
  set (s1 := with_items _ _).
  assert (panel_inv idx s1) as Hinv by (split; [done|exact Hid]).
  change (negb (String.eqb (strip_spaces (fieldValue s1)) "") && searchActive (box s1)) with (searching s).
  destruct (searching s) eqn:E; cbn [andb].
  - destruct (Z.eqb_spec id (Z.of_nat (length (indexSectionLabels idx)))) as [Hl|Hl].
    + exists (with_box (set_keyTimeout 0) s1). split_and!; [done..|exact E|done|].
      unfold Search, box_set, mmodify, mbind, M_bind, mget.
      assert (property (indexSectionsWithContent idx) id = None) as Hn.
      { unfold property. destruct (Z.ltb_spec id 0); [lia|]. apply lookup_ge_None. lia. }
      change (searchIndex (box (with_box (set_keyTimeout 0) s1))) with id. by rewrite Hn.
    + assert (exists content, property (indexSectionsWithContent idx) (searchIndex (box s1)) = Some content)
        as [content Hc].
      { cbn. unfold property. destruct (Z.ltb_spec id 0); [lia|]. apply lookup_lt_is_Some. lia. }
      destruct (Search_panel lay cw idx s1 content Hc) as (s2 & HS & _ & (H1 & H2 & H3 & H4) & _).
      exists s2. destruct Hinv as [Hm Hr]. split_and!.
      * split; [by rewrite H2, H1|by rewrite H1].
      * by rewrite H1.
      * unfold searching in *. rewrite H3, H4. exact E.
      * by rewrite H3.
      * exact HS.
  - exists s1. by split_and!.
Qed.


(** The section a key moves to among [n], from section [i]; whether the key
    selects a section at all. *)
Definition next_section (n key i : Z) : Z :=
  if (key =? 40)%Z && (i <? n)%Z then (i + 1)%Z
  else if (key =? 38)%Z && (0 <? i)%Z then (i - 1)%Z else i.
Definition key_selects (n key i : Z) : bool :=
  ((key =? 40)%Z && (i <? n)%Z) || ((key =? 38)%Z && (0 <? i)%Z) || (key =? 13)%Z || (key =? 27)%Z.

Lemma close_and_focus s :
  (_ ← CloseSelectionWindow; mmodify (with_focus focus_field)) s =
  (Ret tt, with_focus focus_field (with_style "MSearchSelectWindow" "display" "none" s)).
Proof. done. Qed.

Lemma select_key lay cw idx s e :
  length (indexSectionsWithContent idx) = length (indexSectionLabels idx) ->
  panel_inv idx s ->
  let n := Z.of_nat (length (indexSectionLabels idx)) in
  let i := searchIndex (box s) in
  exists s', panel_inv idx s' /\ searchIndex (box s') = next_section n (keyCode e) i /\
    searching s' = searching s /\
    OnSearchSelectKey lay cw idx e s =
      (if searching s && key_selects n (keyCode e) i && (next_section n (keyCode e) i =? n)%Z
       then TypeError else Ret false, s').
Proof.
  intros Hlen [Hm Hr] n i.
  assert (SelectItemCount s = n) as Hcount.
  { unfold SelectItemCount. by rewrite Hm, marked_count. }
  assert (forall id s0, selectItems s0 = marked_links i (indexSectionLabels idx) ->
     searching s0 = searching s -> (0 <= id <= n)%Z ->
     exists s', panel_inv idx s' /\ searchIndex (box s') = id /\ searching s' = searching s /\
       OnSelectItem lay cw idx id s0 =
         (if searching s && (id =? n)%Z then TypeError else Ret tt, s')) as Hsel.
  { intros id s0 H1 H2 H3.
    destruct (OnSelectItem_spec lay cw idx s0 id i Hlen H1 H3) as (s' & ? & ? & Hs & _ & E).
    exists s'. rewrite Hs, E, H2. by split_and!. }
  unfold OnSearchSelectKey, next_section, key_selects, mbind, M_bind, mget. rewrite Hcount.
  fold i. unfold panel_inv in Hr. fold i n in Hr.
  destruct ((keyCode e =? 40)%Z && (i <? n)%Z) eqn:E1; cbn [orb].
  { apply andb_prop in E1 as [_ E1]. apply Z.ltb_lt in E1.
    destruct (Hsel (i + 1)%Z (with_box (set_searchIndex (i + 1)) s)) as (s' & H1 & H2 & H3 & H4);
      [done..|lia|].
    exists s'. split_and!; [done..|]. unfold box_set, mmodify. rewrite H4, andb_true_r.
    by destruct (searching s && (i + 1 =? n)%Z). }
  destruct ((keyCode e =? 38)%Z && (0 <? i)%Z) eqn:E2; cbn [orb].
  { apply andb_prop in E2 as [_ E2]. apply Z.ltb_lt in E2.
    destruct (Hsel (i - 1)%Z (with_box (set_searchIndex (i - 1)) s)) as (s' & H1 & H2 & H3 & H4);
      [done..|lia|].
    exists s'. split_and!; [done..|]. unfold box_set, mmodify. rewrite H4, andb_true_r.
    by destruct (searching s && (i - 1 =? n)%Z). }
  destruct ((keyCode e =? 13)%Z || (keyCode e =? 27)%Z) eqn:E3.
  - destruct (Hsel i s) as (s' & H1 & H2 & H3 & H4); [done..|]. rewrite H4, andb_true_r.
    destruct (searching s && (i =? n)%Z).
    + by exists s'.
    + eexists. split; [|split; [|split; [|reflexivity]]]; done.
  - rewrite andb_false_r. exists s. by split_and!.
Qed.

(** * The key handlers return *)

(** A document has no more elements than its size under different names. *)
Lemma named_bound (doc : node) (f : nat -> string) (n : nat) :
  (forall i j, i < n -> j < n -> f i = f j -> i = j) ->
  (forall i, i < n -> is_Some (getElementById doc (f i))) -> n <= size doc.
Proof.
  intros Hinj Hex. rewrite <- (preorder_length doc []).
  assert (exists l, length l = n /\ NoDup l /\ l ⊆ preorder doc [] /\
            forall p, p ∈ l -> exists i, i < n /\ getElementById doc (f i) = Some p) as (l & <- & Hd & Hl & _).
  { assert (forall m, m <= n -> exists l, length l = m /\ NoDup l /\ l ⊆ preorder doc [] /\
            forall p, p ∈ l -> exists i, i < m /\ getElementById doc (f i) = Some p) as H;
      [|by apply H].
    induction m as [|m IH]; intros Hm.
    { exists []. split_and!; [done|constructor|set_solver|set_solver]. }
    destruct IH as (l & Hlen & Hd & Hl & Hp); [lia|]. destruct (Hex m) as [p Hpm]; [lia|].
    destruct (getElementById_Some _ _ _ Hpm) as (x & Hx & Hid).
    exists (p :: l). split_and!.
    - cbn. lia.
    - constructor; [|done]. intros Hin. destruct (Hp p Hin) as (i & Hi & E).
      destruct (getElementById_Some _ _ _ E) as (y & Hy & Hid').
      rewrite Hx in Hy. injection Hy as ->.
      assert (m = i) by (apply Hinj; [lia..|congruence]). lia.
    - intros q [->|Hq]%elem_of_cons; [|by apply Hl]. apply elem_of_preorder. by rewrite Hx.
    - intros q [->|Hq]%elem_of_cons; [by exists m; split; [lia|]|].
      destruct (Hp q Hq) as (i & Hi & E). exists i. split; [lia|done]. }
  by apply submseteq_length, NoDup_submseteq.
Qed.

Lemma item_name_inj i j : item_name i = item_name j -> i = j.
Proof. intros E. apply append_inj_l in E. unfold to_string in E. by apply (inj pretty) in E. Qed.

Lemma nav_loop_timeout fuel step doc i :
  nav_loop fuel step doc i = Timeout ->
  forall j, j < fuel -> is_Some (getElementById doc (item_name (i + step * Z.of_nat j))).
Proof.
  revert i. induction fuel as [|fuel IH]; intros i H j Hj; [lia|]. cbn [nav_loop] in H.
  destruct (getElementById doc (item_name i)) as [p|] eqn:E; [|done].
  destruct j as [|j]; [by rewrite Z.mul_0_r, Z.add_0_r, E|].
  destruct p as [|a [|b row]]; cbn in H; try done.
  destruct (String.eqb (display_at doc row) "block"); [done|].
  replace (i + step * Z.of_nat (S j))%Z with (i + step + step * Z.of_nat j)%Z by lia.
  apply IH; [done|lia].
Qed.

Lemma nav_returns step doc i : step <> 0%Z -> nav_loop (S (size doc)) step doc i <> Timeout.
Proof.
  intros Hs H. pose proof (nav_loop_timeout _ _ _ _ H) as Hex.
  pose proof (named_bound doc (fun j => item_name (i + step * Z.of_nat j)) (S (size doc))) as Hb.
  assert (S (size doc) <= size doc); [|lia]. apply Hb; [|done].
  intros j k _ _ E. apply item_name_inj in E. nia.
Qed.

Lemma last_child_timeout fuel doc i n p :
  last_child fuel doc i n p = Timeout ->
  forall j, j < fuel -> is_Some (getElementById doc (child_item_name i (n + Z.of_nat j))).
Proof.
  revert n p. induction fuel as [|fuel IH]; intros n p H j Hj; [lia|]. cbn [last_child] in H.
  destruct (getElementById doc (child_item_name i n)) as [q|] eqn:E; [|done].
  destruct j as [|j]; [by rewrite Z.add_0_r, E|].
  replace (n + Z.of_nat (S j))%Z with (n + 1 + Z.of_nat j)%Z by lia.
  apply (IH _ q); [done|lia].
Qed.

Lemma last_child_returns doc i n p : last_child (S (size doc)) doc i n p <> Timeout.
Proof.
  intros H. pose proof (last_child_timeout _ _ _ _ _ H) as Hex.
  pose proof (named_bound doc (fun j => child_item_name i (n + Z.of_nat j)) (S (size doc))) as Hb.
  assert (S (size doc) <= size doc); [|lia]. apply Hb; [|done].
  intros j k _ _ E. unfold child_item_name in E. apply append_inj_l, append_inj_l, append_inj_l in E.
  unfold to_string in E. apply (inj pretty) in E. lia.
Qed.

Lemma FindChildElement_returns doc id : FindChildElement doc id <> Timeout.
Proof.
  destruct (getElementById doc id) as [p|] eqn:E; [|unfold FindChildElement; by rewrite E].
  destruct (getElementById_Some _ _ _ E) as (n & Hn & _).
  by rewrite (find_child_element doc id p n).
Qed.

Lemma children_of_item_returns doc item : children_of_item doc item <> Timeout.
Proof.
  destruct item as [|a [|b row]]; cbn; [done..|].
  destruct (node_at doc row); [apply FindChildElement_returns|done].
Qed.

Lemma obind_returns {A B} (f : A -> outcome B) o :
  o <> Timeout -> (forall a, f a <> Timeout) -> obind f o <> Timeout.
Proof. destruct o; cbn; auto. Qed.

Lemma up_target_returns doc i : up_target doc i <> Timeout.
Proof.
  unfold up_target. apply obind_returns; [by apply nav_returns|]. intros [item|]; [|done].
  apply obind_returns; [apply children_of_item_returns|]. intros [c|]; [|done].
  destruct (String.eqb _ _); [|done]. apply obind_returns; [apply last_child_returns|done].
Qed.

Lemma down_target_returns doc i : down_target doc i <> Timeout.
Proof.
  unfold down_target. destruct (getElementById _ _); [|done].
  apply obind_returns; [apply children_of_item_returns|]. intros elem. case_match; [done|].
  by apply nav_returns.
Qed.

(** Code that returns or throws from every state. *)
Definition returns {S A} (m : M S A) : Prop := forall s, fst (m s) <> Timeout.

Lemma returns_bind {S A B} (m : M S A) (f : A -> M S B) :
  returns m -> (forall a, returns (f a)) -> returns (m ≫= f).
Proof.
  intros Hm Hf s. unfold mbind, M_bind. specialize (Hm s).
  destruct (m s) as [[a|e| |] s']; cbn in *; try done. apply Hf.
Qed.
Lemma returns_ret {S A} (a : A) : returns (mret a : M S A).
Proof. done. Qed.
Lemma returns_get {S} : returns (@mget S).
Proof. done. Qed.
Lemma returns_put {S} (s : S) : returns (mput s).
Proof. done. Qed.
Lemma returns_modify {S} (f : S -> S) : returns (mmodify f).
Proof. done. Qed.
Lemma returns_lift {S A} (o : outcome A) : o <> Timeout -> returns (mlift o : M S A).
Proof. intros H s. exact H. Qed.
Lemma returns_error {S A} : returns (mlift TypeError : M S A).
Proof. done. Qed.
Lemma returns_in_frame {A} (m : M results_page A) : returns m -> returns (in_frame m).
Proof.
  intros Hm s. unfold in_frame. destruct (frame s) as [w|]; [|done]. specialize (Hm w).
  by destruct (m w).
Qed.

Create HintDb returns discriminated.
#[export] Hint Resolve returns_ret returns_get returns_put returns_modify returns_error
  returns_in_frame : returns.

(** Goes through a method, branch by branch. *)
Ltac returns_tac :=
  repeat (first [solve [auto with returns] | apply returns_bind; [|intros ?] | case_match]).

Lemma Activate_returns b : returns (Activate b).
Proof. unfold Activate, box_set, style_set. returns_tac. Qed.
#[export] Hint Resolve Activate_returns : returns.
Lemma leave_results_returns : returns leave_results.
Proof.
  unfold leave_results, CloseResultsWindow, style_set. returns_tac.
Qed.
Lemma ProcessKeys_returns e : returns (ProcessKeys e).
Proof. intros w. unfold ProcessKeys. by repeat case_match. Qed.
Lemma set_children_display_returns i d : returns (set_children_display i d).
Proof.
  unfold set_children_display, frame_page. returns_tac.
  apply returns_lift, children_of_item_returns.
Qed.
Lemma focus_result_or_returns m t : returns m -> returns (focus_result_or m t).
Proof. intros Hm. destruct t; [|done]. apply returns_modify. Qed.
#[export] Hint Resolve leave_results_returns ProcessKeys_returns
  set_children_display_returns focus_result_or_returns : returns.

Lemma Nav_returns e i : returns (Nav e i).
Proof.
  unfold Nav, frame_page. returns_tac.
  - apply returns_lift, up_target_returns.
  - apply returns_lift, down_target_returns.
Qed.

Lemma NavChild_returns e i j : returns (NavChild e i j).
Proof. unfold NavChild, frame_page. returns_tac. apply returns_lift. by apply nav_returns. Qed.

Lemma OnSearchFieldChange_returns lay e : returns (OnSearchFieldChange lay e).
Proof.
  unfold OnSearchFieldChange, OnSearchSelectShow, field_changed, clearTimeout, setTimeout,
    box_set, style_set. returns_tac.
  all: apply returns_lift; by apply nav_returns.
Qed.
