(* ===== verification/DocTheorems.v ===== *)
(** The properties of the documentation's search. *)

From S2P Require Import Prelude Text JsString Dom DocResults DocResultsFacts DocPageFacts DocIndex.
From S2P Require Import DocPanel DocIndexRedis DocIndexTacopie DocIndexFacts DocPanelFacts.

(** C38: Typing the beginning of a symbol of either documentation, in any mixture
    of capitals, finds it: from a panel on section [i] whose field holds the
    typed text, [Search] leads the frame to the page of the text's first
    character, the page loads, the symbol's row is shown and the message that
    there are no matches is not. *)
Theorem symbol_found lay cw idx i name content k c data e d a v r s :
  idx = redis_index \/ idx = tacopie_index ->
  indexSectionsWithContent idx !! i = Some content ->
  indexSectionNames idx !! i = Some name ->
  String.get k content = Some c ->
  find_page (page_url "search" name (N.of_nat k)) (result_pages idx) = Some data ->
  data !! e = Some d ->
  toLowerCase (symbol d) = toLowerCase (String a v) +:+ r ->
  searchIndex (box s) = Z.of_nat i -> resultsPath (box s) = "search" ->
  fieldValue s = String a v ->
  exists s' w, (_ ← Search lay cw idx; frame_loads idx) s = (Ret tt, s') /\ frame s' = Some w /\
    display_at (document w) (row_path e) = "block" /\
    display_at (document w) [4; 0] = "none" /\ (0 < lastMatchCount w)%Z.
Proof.
  intros Hidx Hc Hn Hk Hp He Hs Hi Hr Hv.
  assert (index_ok idx = true) as Hok
    by (destruct Hidx as [-> | ->]; [apply redis_index_ok|apply tacopie_index_ok]).
  destruct (search_symbol lay cw idx i name content k c data e d a v r s) as (s' & w & H & Hf & Hw & Hm);
    [done..|].
  destruct Hw as (_ & Hcount & Hrow & Hno & _). exists s', w.
  assert (0 < lastMatchCount w)%Z as Hpos.
  { rewrite Hcount. assert (In d (List.filter (entry_matches (normalise (String a v))) data)) as Hin.
    { apply filter_In. split; [|done]. eapply list_elem_of_In, list_elem_of_lookup_2, He. }
    destruct (List.filter _ data); cbn; [done|lia]. }
  split_and!; [done..| | |done].
  - by rewrite (Hrow e d He), Hm.
  - rewrite Hno. destruct (Z.eqb_spec (lastMatchCount w) 0); [lia|done].
Qed.

(** A panel as the pages create it, with some text in the field. *)
Definition panel_with (v : string) (i : Z) (labels : list string) : browser :=
  Browser (set_searchActive true (set_searchIndex i (SearchBox "searchBox" "search" false "Search")))
          v "MSearchBoxActive" ∅ (marked_links i labels) [] 1 focus_field "" None.
Definition flat (_ : styles) (_ : string) : offset_box := Box 10 10 0 0 true None.

(** The client's [sync_commit], typed as [Sync_C] in the section of functions. *)
Lemma symbol_found_witness :
  exists s' w, (_ ← Search flat 800 redis_index; frame_loads redis_index) (panel_with "Sync_C" 2 []) = (Ret tt, s')
    /\ frame s' = Some w /\
    display_at (document w) (row_path 10) = "block" /\
    display_at (document w) [4; 0] = "none" /\ (0 < lastMatchCount w)%Z.
Proof.
  eapply (symbol_found flat 800 redis_index 2 "functions" _ 12 _ redis_functions_c 10 _ "S" "ync_C" "ommit");
    [by left|vm_compute; reflexivity..].
Defined.

(** A key in the list of sections moves the choice by one within the
    sections and the position after the last, the mark follows it, and the
    handler throws a [TypeError] exactly when the key selects that last position
    while a search is active. *)
Theorem section_keys lay cw idx s e :
  length (indexSectionsWithContent idx) = length (indexSectionLabels idx) ->
  panel_inv idx s ->
  let n := Z.of_nat (length (indexSectionLabels idx)) in
  let i := searchIndex (box s) in
  exists s', panel_inv idx s' /\ searchIndex (box s') = next_section n (keyCode e) i /\
    OnSearchSelectKey lay cw idx e s =
      (if searching s && key_selects n (keyCode e) i && (next_section n (keyCode e) i =? n)%Z
       then TypeError else Ret false, s').
Proof.
  intros Hlen Hinv n i. destruct (select_key lay cw idx s e Hlen Hinv) as (s' & H1 & H2 & _ & H3).
  by exists s'.
Qed.

(** The key Down on the last section of the documentation, with a search active. *)
Lemma section_keys_witness :
  exists s', panel_inv redis_index s' /\ searchIndex (box s') = 6%Z /\
    OnSearchSelectKey flat 800 redis_index (Event keydown 40 false)
      (panel_with "get" 5 (indexSectionLabels redis_index)) = (TypeError, s').
Proof.
  destruct (section_keys flat 800 redis_index (panel_with "get" 5 (indexSectionLabels redis_index))
              (Event keydown 40 false)) as (s' & H1 & H2 & H3).
  - reflexivity.
  - split; [reflexivity|split; vm_compute; discriminate].
  - exists s'. split; [exact H1|]. split; [exact H2|exact H3].
Defined.

(** [FindChildElement] returns, on every document, what the reference
    definition finds: the first list of children in document order, looked for
    below [DIV]s only; it throws when there is no element of the given id. *)
Theorem find_child_first doc id :
  FindChildElement doc id =
  match getElementById doc id with
  | None => TypeError
  | Some p => Ret (from_option (fun n => first_children n p) None (node_at doc p))
  end.
Proof.
  destruct (getElementById doc id) as [p|] eqn:E; [|unfold FindChildElement; by rewrite E].
  destruct (getElementById_Some _ _ _ E) as (n & Hn & _). rewrite Hn.
  by apply find_child_element.
Qed.

(** The loops of the navigation end on every document: no key in the search
    field, on a result or on one of its children leaves its handler looping. *)
Theorem keys_return lay e i j s :
  fst (OnSearchFieldChange lay e s) <> Timeout /\ fst (Nav e i s) <> Timeout /\
  fst (NavChild e i j s) <> Timeout.
Proof.
  split_and!; [apply OnSearchFieldChange_returns|apply Nav_returns|apply NavChild_returns].
Qed.
