(* ===== verification/DocReach.v ===== *)
(** The pages a search leads to: exactly those [searchdata.js] names and the page
    of no matches, so that none of the pages left in the search directories by an
    earlier run of the generator is ever opened. *)

From S2P Require Import Prelude Text JsString Dom DocResults DocPageFacts DocIndex.
From S2P Require Import DocPanel DocIndexRedis DocIndexTacopie DocIndexOrphans DocIndexFacts DocPanelFacts.

Definition nomatches_url : string := "search/nomatches.html".

(** ** Where one search leads *)

Lemma index_of_unit_some c s n : index_of_unit c s = Some n -> String.get (N.to_nat n) s = Some c.
Proof.
  revert n. induction s as [|d s IH]; intros n H; [done|]. cbn in H.
  destruct (Ascii.eqb_spec d c) as [->|_].
  - by injection H as <-.
  - destruct (index_of_unit c s) as [m|]; [|done]. injection H as <-.
    rewrite N2Nat.inj_succ. cbn. by apply IH.
Qed.

(** The index of a character in a list of characters is out of it only for -1. *)
Lemma indexOf_get content t :
  content <> "" -> indexOf content t <> (-1)%Z ->
  exists k c, indexOf content t = Z.of_nat k /\ String.get k content = Some c.
Proof.
  intros Hne Hi. destruct t as [|c t]; cbn in *.
  - destruct content as [|c s]; [done|]. by exists 0, c.
  - destruct (index_of_unit c content) as [n|] eqn:E; [|done]. cbn in *.
    exists (N.to_nat n), c. split; [lia|by apply index_of_unit_some].
Qed.

Lemma property_nat {A} (l : list A) (i : nat) : property l (Z.of_nat i) = l !! i.
Proof. unfold property. rewrite Nat2Z.id. destruct (Z.ltb_spec (Z.of_nat i) 0); [lia|done]. Qed.
Lemma property_lookup {A} (l : list A) k x :
  property l k = Some x -> exists i, k = Z.of_nat i /\ l !! i = Some x.
Proof.
  unfold property. destruct (Z.ltb_spec k 0) as [?|?]; [done|]. intros Hx. exists (Z.to_nat k). split; [lia|done].
Qed.

Lemma page_of_section idx i content name k c :
  index_ok idx = true ->
  indexSectionsWithContent idx !! i = Some content -> indexSectionNames idx !! i = Some name ->
  String.get k content = Some c ->
  s_all (fun u => negb (Ascii.eqb u "?")) (page_url "search" name (N.of_nat k)) = true /\
  is_Some (find_page (page_url "search" name (N.of_nat k)) (result_pages idx)).
Proof.
  intros Hok Hc Hn Hk. destruct (index_ok_section idx i content name Hok Hc Hn) as [Hch _].
  destruct (chars_ok_get _ _ _ _ _ _ Hch Hk) as [Hp _]. rewrite N.add_0_l in Hp. unfold page_ok in Hp.
  destruct (find_page _ _); [|done]. by apply andb_prop in Hp as [Hq _].
Qed.

Definition named_sections (idx : doc_index) : bool :=
  (length (indexSectionsWithContent idx) =? length (indexSectionNames idx)) &&
  forallb (fun s => negb (String.eqb s "")) (indexSectionsWithContent idx).

Lemma section_name idx i content :
  named_sections idx = true -> indexSectionsWithContent idx !! i = Some content ->
  content <> "" /\ exists name, indexSectionNames idx !! i = Some name.
Proof.
  intros H Hc. apply andb_prop in H as [Hl H]. apply Nat.eqb_eq in Hl. split.
  - rewrite forallb_forall in H. intros ->.
    by specialize (H "" ltac:(eapply list_elem_of_In, list_elem_of_lookup_2, Hc)).
  - apply lookup_lt_Some in Hc. rewrite Hl in Hc. by apply lookup_lt_is_Some_2.
Qed.

(** A search leads to the page of no matches or to a page of the index. *)
Lemma search_leads lay cw idx s content :
  index_ok idx = true -> named_sections idx = true -> resultsPath (box s) = "search" ->
  property (indexSectionsWithContent idx) (searchIndex (box s)) = Some content ->
  exists s', Search lay cw idx s = (Ret tt, s') /\
    (frame_location s' = nomatches_url \/
     is_Some (find_page (url_path (frame_location s')) (result_pages idx))).
Proof.
  intros Hok Hnamed Hr Hc. destruct (Search_panel lay cw idx s content Hc) as (s' & HS & Hl & _).
  exists s'. split; [done|]. rewrite Hl. unfold results_url. cbn zeta. rewrite Hr.
  destruct (property_lookup _ _ _ Hc) as (i & Hi & Hci).
  destruct (section_name idx i content Hnamed Hci) as (Hne & name & Hn).
  rewrite Hi, property_nat, Hn. change (default "undefined" (Some name)) with name.
  destruct (Z.eqb_spec (indexOf content (toLowerCase (s_take 1 (strip_leading (fieldValue s))))) (-1))
    as [_|Hx]; [by left|right].
  destruct (indexOf_get content _ Hne Hx) as (k & c & -> & Hk).
  destruct (page_of_section idx i content name k c Hok Hci Hn Hk) as [Hq Hp].
  replace (Z.to_N (Z.of_nat k)) with (N.of_nat k) by lia.
  by destruct (url_path_query _ (escape (strip_leading (fieldValue s))) Hq) as [-> _].
Qed.

(** ** Every page of the index is led to *)

(** A panel on section [i], with [v] in its field. *)
Definition panel_on (v : string) (i : Z) : browser :=
  Browser (set_searchActive true (set_searchIndex i (SearchBox "searchBox" "search" false "Search")))
          v "MSearchBoxActive" ∅ [] [] 1 focus_field "" None.

(** The page a panel's text and section lead to. *)
Definition leads_to (idx : doc_index) (i : nat) (content v : string) : string :=
  url_path (results_url idx (panel_on v (Z.of_nat i)) content).
Fixpoint units (s : string) : list string :=
  match s with EmptyString => [] | String c s' => String c "" :: units s' end.
Definition led_to (idx : doc_index) (url : string) : bool :=
  existsb (fun '(i, content) => existsb (fun v => String.eqb (leads_to idx i content v) url)
                                  ("0" :: units content))
    (imap (fun i content => (i, content)) (indexSectionsWithContent idx)).

Lemma led_to_search lay cw idx url :
  led_to idx url = true ->
  exists s s', resultsPath (box s) = "search" /\ Search lay cw idx s = (Ret tt, s') /\
    url_path (frame_location s') = url.
Proof.
  intros H. apply existsb_exists in H as ([i content] & Hin & H).
  apply existsb_exists in H as (v & _ & H). apply String.eqb_eq in H.
  apply list_elem_of_In, elem_of_lookup_imap in Hin as (j & x & [= -> ->] & Hj).
  destruct (Search_panel lay cw idx (panel_on v (Z.of_nat j)) x) as (s' & HS & Hl & _).
  { cbn [searchIndex box panel_on set_searchActive set_searchIndex]. by rewrite property_nat. }
  exists (panel_on v (Z.of_nat j)), s'. split_and!; [done..|]. by rewrite Hl.
Qed.

Lemma find_page_elem url pages : is_Some (find_page url pages) <-> url ∈ pages.*1.
Proof.
  induction pages as [|[u t] pages IH]; cbn [find_page fmap list_fmap fst].
  - split; [by intros []|by intros ?%elem_of_nil].
  - rewrite elem_of_cons, <- IH. destruct (String.eqb_spec u url) as [->|Hne]; [by split; eauto|].
    split; [by right|by intros [->|]].
Qed.

(** What the two indexes are checked for. *)
Definition reach_ok (idx : doc_index) (orphans : list (string * table)) : bool :=
  named_sections idx &&
  forallb (led_to idx) (nomatches_url :: (result_pages idx).*1) &&
  forallb (fun u => negb (existsb (String.eqb u) (nomatches_url :: (result_pages idx).*1))) orphans.*1.

Lemma redis_reach_ok : reach_ok redis_index redis_orphans = true.
Proof. by vm_compute. Qed.
Lemma tacopie_reach_ok : reach_ok tacopie_index tacopie_orphans = true.
Proof. by vm_compute. Qed.

(** C39: The search of either documentation leads to the pages of its searchdata.js
    and to the page of no matches, to each of them from some panel, and to no
    others: the pages of the search directory that searchdata.js does not name,
    with the symbols that are only on them, are never opened. *)
Theorem search_reaches_index lay cw idx orphans url :
  (idx, orphans) = (redis_index, redis_orphans) \/ (idx, orphans) = (tacopie_index, tacopie_orphans) ->
  (url ∈ nomatches_url :: (result_pages idx).*1 <->
   exists s s', resultsPath (box s) = "search" /\ Search lay cw idx s = (Ret tt, s') /\
     url_path (frame_location s') = url) /\
  (url ∈ orphans.*1 -> forall s s', resultsPath (box s) = "search" ->
     Search lay cw idx s = (Ret tt, s') -> url_path (frame_location s') <> url).
Proof.
  intros Hidx.
  assert (index_ok idx = true /\ reach_ok idx orphans = true) as [Hok Hreach].
  { destruct Hidx as [[= -> ->]|[= -> ->]].
    - split; [apply redis_index_ok|apply redis_reach_ok].
    - split; [apply tacopie_index_ok|apply tacopie_reach_ok]. }
  apply andb_prop in Hreach as [Hreach Horph]. apply andb_prop in Hreach as [Hnamed Hled].
  rewrite forallb_forall in Horph, Hled.
  assert (forall s s', resultsPath (box s) = "search" -> Search lay cw idx s = (Ret tt, s') ->
            url_path (frame_location s') ∈ nomatches_url :: (result_pages idx).*1) as Hin.
  { intros s s' Hr HS.
    destruct (property (indexSectionsWithContent idx) (searchIndex (box s))) as [content|] eqn:Hc.
    - destruct (search_leads lay cw idx s content Hok Hnamed Hr Hc) as (s1 & HS1 & H).
      rewrite HS in HS1. injection HS1 as <-. apply elem_of_cons.
      destruct H as [->|H]; [by left|right]. by apply find_page_elem.
    - revert HS. unfold Search, box_set, mmodify, mbind, M_bind, mget.
      change (searchIndex (box (with_box (set_keyTimeout 0) s))) with (searchIndex (box s)).
      by rewrite Hc. }
  split; [split|].
  - intros Hu. apply led_to_search, Hled, list_elem_of_In, Hu.
  - intros (s & s' & Hr & HS & <-). by eapply Hin.
  - intros Hu s s' Hr HS Heq. specialize (Hin s s' Hr HS). rewrite Heq in Hin.
    specialize (Horph url ltac:(by apply list_elem_of_In)). apply negb_true_iff in Horph.
    assert (existsb (String.eqb url) (nomatches_url :: (result_pages idx).*1) = true) as Hx; [|congruence].
    apply existsb_exists. exists url. split; [by apply list_elem_of_In|apply String.eqb_refl].
Qed.

(** The method [zadd] of the client is on a page left over: typing it among the
    functions leads to the page of no matches. *)
Lemma search_reaches_index_witness :
  find_page "search/functions_14.html" redis_orphans = Some redis_functions_14 /\
  In "zadd" (map symbol redis_functions_14) /\
  forall s', Search (fun _ _ => Box 10 10 0 0 true None) 800 redis_index (panel_on "zadd" 2) = (Ret tt, s') ->
    url_path (frame_location s') <> "search/functions_14.html".
Proof.
  split; [reflexivity|]. split; [vm_compute; tauto|]. intros s'.
  apply (search_reaches_index (fun _ _ => Box 10 10 0 0 true None) 800 redis_index redis_orphans);
    [by left|apply list_elem_of_In; vm_compute; tauto|reflexivity].
Defined.
