(* ===== verification/DocFolders.v ===== *)
(** The foldable parts of the documentation's pages (dynsections.js): the table of
    a directory, whose rows a folder or a level hides and shows; a section that can
    be opened; and the inherited members of a class.

    The script works through jQuery (jquery.js, third-party code), whose documented
    behaviour the operations on classes, attributes and visibility below are.  A
    table is the list of its rows, which are all siblings; a row holds its [span]s
    in document order.  An element is visible when it is shown: the tables
    themselves always are. *)

From S2P Require Import Prelude Text JsString.

(** [TypeError] of a member of [undefined] *)
Definition no_member {A} : outcome A := Throw (std_exception "TypeError").

(** ** Classes *)

Definition addClass (c : string) (l : list string) : list string := if decide (c ∈ l) then l else l ++ [c].
Definition removeClass (c : string) (l : list string) : list string := filter (.≠ c) l.

(** ** Rows *)

Record span : Type := mk_span {
  span_id : string;
  span_class : list string;
  span_html : string }.

Record row : Type := mk_row {
  row_id : string;
  row_class : list string;
  shown : bool;
  spans : list span }.

Definition with_class (f : list string -> list string) (s : span) : span :=
  mk_span (span_id s) (f (span_class s)) (span_html s).
Definition with_html (h : string) (s : span) : span := mk_span (span_id s) (span_class s) h.
Definition with_row_class (f : list string -> list string) (r : row) : row :=
  mk_row (row_id r) (f (row_class r)) (shown r) (spans r).
Definition show (r : row) : row := mk_row (row_id r) (row_class r) true (spans r).
Definition hide (r : row) : row := mk_row (row_id r) (row_class r) false (spans r).
Definition with_spans (f : list span -> list span) (r : row) : row :=
  mk_row (row_id r) (row_class r) (shown r) (f (spans r)).

(** [$('#id')], the first element with this id, here among the spans. *)
Fixpoint first_span (id : string) (f : span -> span) (l : list span) : option (list span) :=
  match l with
  | [] => None
  | s :: l => if String.eqb (span_id s) id then Some (f s :: l) else cons s <$> first_span id f l
  end.
Fixpoint update_span (id : string) (f : span -> span) (page : list row) : list row :=
  match page with
  | [] => []
  | r :: page =>
    match first_span id f (spans r) with
    | Some l => with_spans (fun _ => l) r :: page
    | None => r :: update_span id f page
    end
  end.

(** [$(spans).filter('.c')], then a change of each *)
Definition update_class (c : string) (f : span -> span) (r : row) : row :=
  with_spans (map (fun s => if decide (c ∈ span_class s) then f s else s)) r.

Definition down_arrow : string := "&#9660;".
Definition right_arrow : string := "&#9658;".

(** ** Stripes *)

(** [filter(':visible:even')]: the even ones among the visible ones. *)
Fixpoint stripe (even : bool) (page : list row) : list row :=
  match page with
  | [] => []
  | r :: page =>
    if shown r then (if even then with_row_class (addClass "even") r else r) :: stripe (negb even) page
    else r :: stripe even page
  end.
Definition updateStripes (page : list row) : list row :=
  stripe true (map (with_row_class (removeClass "even")) page).

(** ** Levels *)

(** [s.split('_').length - 1] *)
Fixpoint underscores (s : string) : nat :=
  match s with
  | EmptyString => 0
  | String c s => if Ascii.eqb c "_" then S (underscores s) else underscores s
  end.

(** The function given to [each], for row [i]. *)
Definition toggle_row (level : Z) (page : list row) (i : nat) : list row :=
  match page !! i with
  | None => page
  | Some this =>
    let l := Z.of_nat (underscores (row_id this)) in
    let img := "img" +:+ s_drop 3 (row_id this) in
    let arr := "arr" +:+ s_drop 3 (row_id this) in
    if (l <? level + 1)%Z then
      alter show i (update_span arr (with_html down_arrow)
        (update_span img (with_class (fun c => addClass "iconfopen" (removeClass "iconfclosed" (removeClass "iconfopen" c)))) page))
    else if (l =? level + 1)%Z then
      alter show i (update_span arr (with_html right_arrow)
        (update_span img (with_class (fun c => addClass "iconfclosed" (removeClass "iconfopen" (removeClass "iconfclosed" c)))) page))
    else alter hide i page
  end.

Definition toggleLevel (level : Z) (page : list row) : list row :=
  updateStripes (fold_left (toggle_row level) (seq 0 (length page)) page).

(** ** Folders *)

(** The end of the expression: digits, at least one, and an underscore. *)
Definition digits_end (s : string) : bool :=
  match s with
  | String c s => isdigit c && String.eqb (skip_digits s) "_"
  | EmptyString => false
  end.
(** [s.match(new RegExp('^row_'+id+'\\d+_$', "i"))], for an [id] of digits and
    underscores *)
Definition one_sub (id s : string) : bool :=
  let start := "row_" +:+ id in
  String.eqb (toLowerCase (s_take (String.length start) s)) (toLowerCase start) &&
  digits_end (s_drop (String.length start) s).
(** [[id^=row_id]] *)
Definition below_id (id s : string) : bool := String.prefix ("row_" +:+ id) s.

Definition close_icon (r : row) : row :=
  update_class "iconfopen" (with_class (fun c => addClass "iconfclosed" (removeClass "iconfopen" c))) r.
Definition open_icon (r : row) : row :=
  update_class "iconfclosed" (with_class (fun c => addClass "iconfopen" (removeClass "iconfclosed" c))) r.
Definition set_arrow (h : string) (r : row) : row := update_class "arrow" (with_html h) r.

(** The rows up to the clicked one, that one, and the rows after it. *)
Fixpoint split_at (id : string) (page : list row) : option (list row * row * list row) :=
  match page with
  | [] => None
  | r :: page =>
    if String.eqb (row_id r) id then Some ([], r, page)
    else (fun x : list row * row * list row => (r :: x.1.1, x.1.2, x.2)) <$> split_at id page
  end.

(** [filter(':first').is(':visible')] *)
Definition first_visible (rows : list row) : bool :=
  match rows with r :: _ => shown r | [] => false end.

Definition toggleFolder (id : string) (page : list row) : list row :=
  match split_at ("row_" +:+ id) page with
  | None => updateStripes page
  | Some (before, currentRow, rows) =>
    if first_visible (List.filter (fun r => one_sub id (row_id r)) rows) then
      updateStripes (before ++ set_arrow right_arrow (close_icon currentRow) ::
        map (fun r => if below_id id (row_id r) then hide r else r) rows)
    else
      updateStripes (before ++ set_arrow down_arrow (open_icon currentRow) ::
        map (fun r => if one_sub id (row_id r) then show (set_arrow right_arrow (close_icon r)) else r) rows)
  end.

(** ** Sections *)

Record section : Type := mk_section {
  link_class : list string;
  summary_shown : bool;
  content_shown : bool;
  trigger_src : option string }.

(** [src.substring(0, src.length - n)] *)
Definition without_end (n : nat) (src : string) : string := s_take (String.length src - n) src.

(** The handler has hidden or shown the content before it cuts the [src], which is
    undefined without a trigger. *)
Definition toggleVisibility (s : section) : outcome bool * section :=
  if content_shown s then
    let s := mk_section (removeClass "opened" (addClass "closed" (link_class s))) true false (trigger_src s) in
    match trigger_src s with
    | Some src =>
      (Ret false, mk_section (link_class s) true false (Some (without_end 8 src +:+ "closed.png")))
    | None => (no_member, s)
    end
  else
    let s := mk_section (addClass "opened" (removeClass "closed" (link_class s))) false true (trigger_src s) in
    match trigger_src s with
    | Some src =>
      (Ret false, mk_section (link_class s) false true (Some (without_end 10 src +:+ "open.png")))
    | None => (no_member, s)
    end.

(** ** Inherited members *)

(** The rows [tr.inherit.id], shown or not, and the [src] of the images of their
    headers. *)
Record inherited : Type := mk_inherited {
  inherit_rows : list bool;
  inherit_imgs : list string }.

(** [attr('src')] reads the first image and writes them all. *)
Definition toggleInherit (s : inherited) : outcome unit * inherited :=
  let first_shown := match inherit_rows s with b :: _ => b | [] => false end in
  let rows := map (fun _ => negb first_shown) (inherit_rows s) in
  match inherit_imgs s with
  | src :: _ =>
    let src := if first_shown then without_end 8 src +:+ "closed.png" else without_end 10 src +:+ "open.png" in
    (Ret tt, mk_inherited rows (map (fun _ => src) (inherit_imgs s)))
  | [] => (no_member, mk_inherited rows [])
  end.
