(* ===== verification/DocFoldersFacts.v ===== *)
(** What the foldable tables of the documentation show: the names of rows are
    paths in a tree, on which the tests of dynsections.js are those for children and
    descendants; levels and folders show subtrees closed upwards, with alternating
    stripes; a section and an inherited list toggled twice are as they were. *)

From S2P Require Import Prelude Text JsString DocFolders.

(** ** The names of rows *)

Fixpoint sub_id (p : list nat) : string :=
  match p with
  | [] => ""
  | i :: p => pretty i +:+ "_" +:+ sub_id p
  end.
Definition row_name (p : list nat) : string := "row_" +:+ sub_id p.

Lemma pretty_nat_digits (i : nat) : all_digits (pretty i) = true /\ pretty i <> "".
Proof. split; [apply pretty_N_digits|apply pretty_N_nonempty]. Qed.

Lemma skip_digits_app s t : all_digits s = true -> skip_digits (s +:+ t) = skip_digits t.
Proof.
  induction s as [|c s IH]; [done|]. cbn. intros H. destruct (isdigit c); [|done]. by apply IH.
Qed.

(** Digits, then an underscore: where the number ends is determined. *)
Lemma digits_split a b x y :
  all_digits a = true -> all_digits b = true -> a +:+ "_" +:+ x = b +:+ "_" +:+ y -> a = b /\ x = y.
Proof.
  revert b. induction a as [|c a IH]; intros [|d b] Ha Hb H; cbn in Ha, Hb, H.
  - by injection H as ->.
  - injection H as <- _. done.
  - injection H as -> _. done.
  - injection H as -> H. destruct (isdigit d); [|done].
    destruct (IH b Ha Hb H) as [-> ->]. done.
Qed.

Lemma sub_id_app p q : sub_id (p ++ q) = sub_id p +:+ sub_id q.
Proof. induction p as [|i p IH]; cbn; [done|]. by rewrite IH, !s_app_assoc. Qed.

Lemma sub_id_prefix p q rest : sub_id q = sub_id p +:+ rest -> exists r, q = p ++ r /\ rest = sub_id r.
Proof.
  revert q. induction p as [|i p IH]; intros q H; [by exists q|].
  destruct q as [|j q]; cbn [sub_id] in H.
  - exfalso. destruct (pretty_nat_digits i) as [_ Hi]. destruct (pretty i); [done|]. done.
  - rewrite !s_app_assoc in H. destruct (pretty_nat_digits i) as [Hi _], (pretty_nat_digits j) as [Hj _].
    destruct (digits_split _ _ _ _ Hj Hi H) as [Hij Hq]. apply (inj pretty) in Hij as ->.
    destruct (IH q Hq) as (r & -> & ->). by exists r.
Qed.

#[export] Instance row_name_inj : Inj (=) (=) row_name.
Proof.
  intros p q H. unfold row_name in H. apply (f_equal (s_drop 4)) in H. cbn in H.
  destruct (sub_id_prefix q p "") as (r & -> & Hr); [by rewrite s_app_nil_r|].
  destruct r as [|i r]; [by rewrite app_nil_r|].
  exfalso. cbn in Hr. destruct (pretty_nat_digits i) as [_ Hi]. by destruct (pretty i).
Qed.

(** ** The tests *)

Lemma underscores_app s t : underscores (s +:+ t) = underscores s + underscores t.
Proof. induction s as [|c s IH]; cbn; [done|]. rewrite IH. by destruct (Ascii.eqb c "_"). Qed.

Lemma underscores_digits s : all_digits s = true -> underscores s = 0.
Proof.
  induction s as [|c s IH]; [done|]. cbn. intros H. destruct (isdigit c) eqn:Hc; [|done].
  destruct (Ascii.eqb_spec c "_") as [->|_]; [done|by apply IH].
Qed.

(** The level of a row is its depth. *)
Lemma underscores_row_name p : underscores (row_name p) = S (length p).
Proof.
  unfold row_name. rewrite underscores_app. cbn [underscores Ascii.eqb Bool.eqb]. 
  change (underscores "row_") with 1. cbn. f_equal.
  induction p as [|i p IH]; [done|]. cbn [sub_id length]. rewrite !underscores_app.
  rewrite underscores_digits by apply pretty_nat_digits. change (underscores "_") with 1. by rewrite IH.
Qed.

Lemma s_take_drop n s : s_take n s +:+ s_drop n s = s.
Proof. revert n. induction s as [|c s IH]; intros [|n]; cbn; [done..|]. by rewrite IH. Qed.

Lemma s_prefix_spec s t : String.prefix s t = true <-> exists r, t = s +:+ r.
Proof.
  revert t. induction s as [|c s IH]; intros t; cbn.
  - split; [intros _; by exists t|by destruct t].
  - destruct t as [|d t]; [split; [done|by intros [r H]]|].
    cbn [String.prefix]. destruct (ascii_dec c d) as [->|Hc].
    + rewrite IH. split; intros [r H]; [exists r; by rewrite H|exists r; by injection H].
    + split; [done|]. intros [r H]. by injection H as -> _.
Qed.

(** Neither digits nor "row_" have capitals. *)
Definition no_capitals (s : string) : Prop := toLowerCase s = s.

Lemma digit_lower c : isdigit c = true -> lower_unit c = c.
Proof. destruct c as [[] [] [] [] [] [] [] []]; done. Qed.

Lemma no_capitals_digits s : all_digits s = true -> no_capitals s.
Proof.
  unfold no_capitals, toLowerCase. induction s as [|c s IH]; [done|]. cbn. intros H.
  destruct (isdigit c) eqn:Hc; [|done]. by rewrite digit_lower, IH.
Qed.

Lemma no_capitals_row_name p : no_capitals (row_name p).
Proof.
  unfold no_capitals, row_name. rewrite toLowerCase_app. f_equal.
  induction p as [|i p IH]; [done|]. cbn [sub_id]. rewrite !toLowerCase_app, IH.
  by rewrite (no_capitals_digits (pretty i)) by apply pretty_nat_digits.
Qed.

Lemma no_capitals_app_l s t : no_capitals (s +:+ t) -> no_capitals s.
Proof.
  unfold no_capitals, toLowerCase. rewrite s_map_app. revert t.
  induction s as [|c s IH]; intros t H; [done|]. cbn in *. injection H as Hc H.
  by rewrite Hc, (IH t).
Qed.

Lemma digits_end_sub_id r : digits_end (sub_id r) = bool_decide (length r = 1).
Proof.
  destruct r as [|i r]; [done|]. cbn [sub_id length].
  destruct (pretty_nat_digits i) as [Hd Hne]. destruct (pretty i) as [|c s]; [done|].
  cbn in Hd |- *. destruct (isdigit c); [|done]. rewrite skip_digits_app by done. cbn.
  destruct r as [|j r]; [done|]. cbn. destruct (pretty_nat_digits j) as [_ Hj].
  by destruct (pretty j).
Qed.

(** The regular expression of [toggleFolder] matches the children of a folder. *)
Lemma one_sub_child p q : one_sub (sub_id p) (row_name q) = true <-> exists i, q = p ++ [i].
Proof.
  unfold one_sub. fold (row_name p). rewrite andb_true_iff, String.eqb_eq. split.
  - intros [Hl Hd]. pose proof (s_take_drop (String.length (row_name p)) (row_name q)) as Hs.
    assert (s_take (String.length (row_name p)) (row_name q) = row_name p) as Ht.
    { assert (no_capitals (s_take (String.length (row_name p)) (row_name q))) as Hn.
      { eapply no_capitals_app_l. rewrite Hs. apply no_capitals_row_name. }
      rewrite no_capitals_row_name in Hl. by rewrite Hn in Hl. }
    rewrite Ht in Hs. revert Hs Hd. generalize (s_drop (String.length (row_name p)) (row_name q)).
    intros rest Hs Hd. unfold row_name in Hs. rewrite s_app_assoc in Hs. apply (f_equal (s_drop 4)) in Hs. cbn in Hs.
    symmetry in Hs. apply sub_id_prefix in Hs as (r & -> & ->).
    rewrite digits_end_sub_id in Hd. apply bool_decide_eq_true in Hd.
    destruct r as [|i [|]]; try done. by exists i.
  - intros [i ->]. unfold row_name at 2 5. rewrite sub_id_app, <- s_app_assoc. fold (row_name p).
    rewrite s_take_app, s_drop_app. split; [done|]. by rewrite digits_end_sub_id.
Qed.

(** The prefix selector matches the folder and its descendants. *)
Lemma below_id_prefix p q : below_id (sub_id p) (row_name q) = true <-> p `prefix_of` q.
Proof.
  unfold below_id. rewrite s_prefix_spec. unfold row_name. split.
  - intros [r H]. rewrite s_app_assoc in H. apply (f_equal (s_drop 4)) in H. cbn in H.
    apply sub_id_prefix in H as (r' & -> & _). by exists r'.
  - intros [r ->]. exists (sub_id r). by rewrite sub_id_app, s_app_assoc.
Qed.

(** ** What a page shows *)

Definition view (page : list row) : list (string * bool) := (fun r => (row_id r, shown r)) <$> page.

(** The row of [p] is shown. *)
Definition is_shown (page : list row) (p : list nat) : Prop := (row_name p, true) ∈ view page.

Lemma view_app a b : view (a ++ b) = view a ++ view b.
Proof. apply fmap_app. Qed.

Lemma view_stripe even page : view (stripe even page) = view page.
Proof.
  revert even. induction page as [|r page IH]; intros even; [done|]. cbn [stripe].
  destruct (shown r) eqn:Hs; [|unfold view in *; cbn; by rewrite IH].
  destruct even; unfold view in *; cbn; by rewrite IH.
Qed.

Lemma view_stripes page : view (updateStripes page) = view page.
Proof.
  unfold updateStripes. rewrite view_stripe. unfold view.
  rewrite <- list_fmap_compose. by apply list_fmap_ext.
Qed.

Lemma view_update_span id f page : view (update_span id f page) = view page.
Proof.
  induction page as [|r page IH]; [done|]. cbn. destruct (first_span id f (spans r)); unfold view in *; cbn; by rewrite ?IH.
Qed.

(** ** Stripes *)

(** The visible rows are alternately even, from the first; no hidden row is. *)
Definition striped (page : list row) : Prop :=
  (forall k r, filter shown page !! k = Some r -> "even" ∈ row_class r <-> Nat.even k = true) /\
  (forall r, r ∈ page -> shown r = false -> "even" ∉ row_class r).

Lemma elem_of_addClass c l : c ∈ addClass c l.
Proof. unfold addClass. case_decide; set_solver. Qed.

Lemma not_elem_of_removeClass c l : c ∉ removeClass c l.
Proof. unfold removeClass. rewrite list_elem_of_filter. by intros [H _]. Qed.

Lemma stripe_alternates (even : bool) page :
  Forall (fun r => "even" ∉ row_class r) page ->
  (forall k r, filter shown (stripe even page) !! k = Some r ->
     "even" ∈ row_class r <-> Nat.even (k + if even then 0 else 1) = true) /\
  (forall r, r ∈ stripe even page -> shown r = false -> "even" ∉ row_class r).
Proof.
  revert even. induction page as [|r page IH]; intros even Hf; [split; [done|by intros r Hr; apply not_elem_of_nil in Hr]|].
  apply Forall_cons in Hf as [Hr Hf]. cbn [stripe]. destruct (shown r) eqn:Hs.
  - destruct (IH (negb even) Hf) as [IHk IHh].
    set (r' := if even then _ else r).
    assert (shown r' = true) as Hs' by (subst r'; by destruct even).
    assert ("even" ∈ row_class r' <-> even = true) as He.
    { subst r'. destruct even; [|done]. split; [done|intros _; apply elem_of_addClass]. }
    rewrite filter_cons_True by by apply Is_true_eq_left. split.
    + intros [|k] x Hk; cbn in Hk.
      * injection Hk as <-. rewrite He. by destruct even.
      * rewrite (IHk k x Hk). destruct even; cbn [negb].
        -- by rewrite Nat.add_0_r, Nat.add_1_r.
        -- rewrite Nat.add_0_r, Nat.add_1_r. cbn [Nat.even]. done.
    + intros x Hx Hsx. apply elem_of_cons in Hx as [->|Hx]; [congruence|by apply IHh].
  - destruct (IH even Hf) as [IHk IHh]. rewrite filter_cons_False by (rewrite Hs; tauto). split; [done|].
    intros x Hx Hsx. apply elem_of_cons in Hx as [->|Hx]; [done|by apply IHh].
Qed.

Lemma updateStripes_striped page : striped (updateStripes page).
Proof.
  destruct (stripe_alternates true (map (with_row_class (removeClass "even")) page)) as [Hk Hh].
  - apply Forall_forall. intros r Hr. apply list_elem_of_In, in_map_iff in Hr as (x & <- & _).
    apply not_elem_of_removeClass.
  - split; [|done]. intros k r Hr. rewrite (Hk k r Hr). by rewrite Nat.add_0_r.
Qed.

(** ** Levels *)

Definition level_shows (level : Z) (id : string) : bool := (Z.of_nat (underscores id) <=? level + 1)%Z.

Lemma view_alter f i page :
  (forall r, row_id (f r) = row_id r) ->
  view (alter f i page) = alter (fun x => (x.1, match page !! i with Some r => shown (f r) | None => x.2 end)) i (view page).
Proof.
  intros Hf. revert i. induction page as [|r page IH]; intros [|i]; cbn; [done..| |].
  - unfold view. cbn. by rewrite Hf.
  - f_equal. apply IH.
Qed.

Lemma view_lookup page i : view page !! i = (fun r => (row_id r, shown r)) <$> page !! i.
Proof. apply list_lookup_fmap. Qed.

Lemma view_toggle_row level page i :
  view (toggle_row level page i) = alter (fun x => (x.1, level_shows level x.1)) i (view page).
Proof.
  assert (forall f p', (forall r, row_id (f r) = row_id r) -> view p' = view page ->
    (forall r, page !! i = Some r -> forall r', shown (f r') = level_shows level (row_id r)) ->
    view (alter f i p') = alter (fun x => (x.1, level_shows level x.1)) i (view page)) as Halter.
  { intros f p' Hf Hv Hs. rewrite view_alter, Hv by done. apply list_eq. intros j.
    destruct (decide (i = j)) as [<-|Hij]; [|by rewrite !list_lookup_alter_ne].
    rewrite !list_lookup_alter_eq, view_lookup.
    destruct (page !! i) as [r|] eqn:Er; cbn; [|done].
    pose proof (f_equal (.!! i) Hv) as Hi. cbn in Hi. rewrite !view_lookup, Er in Hi.
    destruct (p' !! i) as [r'|]; [|done]. by rewrite (Hs r eq_refl r'). }
  unfold toggle_row. destruct (page !! i) as [this|] eqn:E.
  - unfold level_shows in *.
    destruct (Z.ltb_spec (Z.of_nat (underscores (row_id this))) (level + 1)).
    { apply Halter; [done|by rewrite !view_update_span|]. intros r [= <-] r'. symmetry. apply Z.leb_le. lia. }
    destruct (Z.eqb_spec (Z.of_nat (underscores (row_id this))) (level + 1)).
    { apply Halter; [done|by rewrite !view_update_span|]. intros r [= <-] r'. symmetry. apply Z.leb_le. lia. }
    apply Halter; [done|done|]. intros r [= <-] r'. symmetry. apply Z.leb_gt. lia.
  - apply list_eq. intros j. destruct (decide (i = j)) as [<-|Hij]; [|by rewrite !list_lookup_alter_ne].
    by rewrite !list_lookup_alter_eq, view_lookup, E.
Qed.

Lemma view_toggle_rows level k n page :
  view (fold_left (toggle_row level) (seq k n) page) =
  imap (fun i x => if decide (k <= i < k + n) then (x.1, level_shows level x.1) else x) (view page).
Proof.
  revert k page. induction n as [|n IH]; intros k page; cbn [seq fold_left].
  - apply list_eq. intros i. rewrite list_lookup_imap. destruct (view page !! i); [|done]. cbn.
    by rewrite decide_False by lia.
  - rewrite IH, view_toggle_row. apply list_eq. intros i. rewrite !list_lookup_imap.
    destruct (decide (k = i)) as [<-|Hi].
    + rewrite list_lookup_alter_eq. destruct (view page !! k); [|done]. cbn.
      by rewrite decide_False, decide_True by lia.
    + rewrite list_lookup_alter_ne by done. destruct (view page !! i); [|done]. cbn.
      repeat case_decide; done || lia.
Qed.

Lemma view_toggleLevel level page :
  view (toggleLevel level page) = (fun x => (x.1, level_shows level x.1)) <$> view page.
Proof.
  unfold toggleLevel. rewrite view_stripes, view_toggle_rows. apply list_eq. intros i.
  rewrite list_lookup_imap, list_lookup_fmap.
  destruct (view page !! i) as [x|] eqn:E; [|done]. cbn.
  apply lookup_lt_Some in E. unfold view in E. rewrite length_fmap in E. by rewrite decide_True by lia.
Qed.

(** ** Tables that hold a tree *)

(** The rows are those of the tree's nodes, [ps], a folder before what it holds. *)
Record holds (ps : list (list nat)) (page : list row) : Prop := {
  holds_names : (view page).*1 = row_name <$> ps;
  holds_nodup : NoDup ps;
  holds_no_root : [] ∉ ps;
  holds_order : forall a p b, ps = a ++ p :: b -> Forall (fun q => ~ p `prefix_of` q) a }.

Lemma holds_view ps page page' : (view page').*1 = (view page).*1 -> holds ps page -> holds ps page'.
Proof. intros Hv [? ? ? ?]. split; [congruence|done..]. Qed.

(** Rows of the table and nodes of the tree correspond. *)
Lemma holds_row ps page x : holds ps page -> x ∈ view page -> exists q, q ∈ ps /\ x.1 = row_name q.
Proof.
  intros Hh Hx. assert (x.1 ∈ (view page).*1) as Hin by (apply list_elem_of_fmap; eauto).
  rewrite (holds_names _ _ Hh) in Hin. apply list_elem_of_fmap in Hin as (q & -> & Hq). eauto.
Qed.

(** A row's name has one visibility. *)
Lemma holds_unique ps page q b b' :
  holds ps page -> (row_name q, b) ∈ view page -> (row_name q, b') ∈ view page -> b = b'.
Proof.
  intros Hh Hb Hb'. assert (NoDup (view page).*1) as Hnd.
  { rewrite (holds_names _ _ Hh). apply NoDup_fmap; [apply _|apply Hh]. }
  revert Hnd Hb Hb'. generalize (view page). intros l. induction l as [|x l IH]; cbn; intros Hnd Hb Hb'.
  - by apply not_elem_of_nil in Hb.
  - apply NoDup_cons in Hnd as [Hx Hnd].
    apply elem_of_cons in Hb as [<-|Hb], Hb' as [E|Hb']; cbn in *.
    + congruence.
    + exfalso. apply Hx. apply list_elem_of_fmap. by exists (row_name q, b').
    + exfalso. apply Hx. apply list_elem_of_fmap. subst x. by exists (row_name q, b).
    + by apply IH.
Qed.

Lemma holds_shown_dec ps page q : holds ps page -> q ∈ ps ->
  (row_name q, true) ∈ view page \/ (row_name q, false) ∈ view page.
Proof.
  intros Hh Hq. assert (row_name q ∈ (view page).*1) as Hin.
  { rewrite (holds_names _ _ Hh). by apply list_elem_of_fmap_2. }
  apply list_elem_of_fmap in Hin as ([n b] & E & Hx). change (row_name q = n) in E. subst n. destruct b; [by left|by right].
Qed.

(** ** Folders *)

Lemma split_at_spec ps page p :
  holds ps page -> p ∈ ps ->
  exists before r rows pa pb, split_at (row_name p) page = Some (before, r, rows) /\
    page = before ++ r :: rows /\ row_id r = row_name p /\
    ps = pa ++ p :: pb /\ (view before).*1 = row_name <$> pa /\ (view rows).*1 = row_name <$> pb.
Proof.
  intros [Hn _ _ _]. revert ps Hn. induction page as [|r page IH]; intros [|q ps] Hn Hp; try done.
  - by apply not_elem_of_nil in Hp.
  - injection Hn as Hq Hn. cbn [split_at]. destruct (String.eqb_spec (row_id r) (row_name p)) as [E|E].
    + rewrite Hq in E. apply (inj row_name) in E as ->. by exists [], r, page, [], ps.
    + apply elem_of_cons in Hp as [->|Hp]; [done|].
      destruct (IH ps Hn Hp) as (before & r' & rows & pa & pb & -> & -> & Hr & -> & Ha & Hb).
      exists (r :: before), r', rows, (q :: pa), pb. split_and!; try done.
      unfold view in *. cbn. by rewrite Hq, Ha.
Qed.

(** Of the rows after a folder, whether the first child is shown. *)
Definition opened (page : list row) (p : list nat) : bool :=
  match split_at (row_name p) page with
  | Some (_, _, rows) => first_visible (List.filter (fun r => one_sub (sub_id p) (row_id r)) rows)
  | None => false
  end.

Lemma fmap_ext_in {A B} (f g : A -> B) (l : list A) : (forall x, x ∈ l -> f x = g x) -> f <$> l = g <$> l.
Proof. intros H. apply Forall_fmap_ext_1, Forall_forall. exact H. Qed.

(** Hiding or showing some rows. *)
Lemma view_map_if (c : string -> bool) (f : row -> row) (b : bool) rows :
  (forall r, row_id (f r) = row_id r /\ shown (f r) = b) ->
  view (map (fun r => if c (row_id r) then f r else r) rows) =
  (fun x => (x.1, if c x.1 then b else x.2)) <$> view rows.
Proof.
  intros Hf. unfold view. induction rows as [|r rows IH]; [done|]. cbn. f_equal; [|exact IH].
  destruct (c (row_id r)); [|done]. destruct (Hf r) as [-> ->]. done.
Qed.

(** What a click on a folder shows. *)
Lemma toggleFolder_view ps page p :
  holds ps page -> p ∈ ps ->
  view (toggleFolder (sub_id p) page) =
  (fun x => (x.1, if opened page p then x.2 && (negb (below_id (sub_id p) x.1) || String.eqb x.1 (row_name p))
                  else x.2 || one_sub (sub_id p) x.1)) <$> view page.
Proof.
  intros Hh Hp. destruct (split_at_spec ps page p Hh Hp) as (before & r & rows & pa & pb & E & -> & Hr & -> & Ha & Hb).
  unfold toggleFolder, opened. fold (row_name p). rewrite E.
  pose proof (holds_order _ _ Hh pa p pb eq_refl) as Horder.
  pose proof (holds_nodup _ _ Hh) as Hnd.
  assert (forall x, x ∈ view before -> below_id (sub_id p) x.1 = false) as Hbefore.
  { intros x Hx. assert (x.1 ∈ (view before).*1) as Hin by (apply list_elem_of_fmap; eauto).
    rewrite Ha in Hin. apply list_elem_of_fmap in Hin as (q & -> & Hq).
    apply not_true_is_false. rewrite below_id_prefix. rewrite Forall_forall in Horder. by apply Horder. }
  assert (forall x, one_sub (sub_id p) x.1 = true -> x ∈ view (before ++ r :: rows) -> below_id (sub_id p) x.1 = true) as Hsub.
  { intros x Hx Hin. destruct (holds_row _ _ _ Hh Hin) as (q & _ & Eq). rewrite Eq in *.
    apply one_sub_child in Hx as [i ->]. apply below_id_prefix. by exists [i]. }
  assert (forall x, x ∈ view rows -> String.eqb x.1 (row_name p) = false) as Hafter.
  { intros x Hx. assert (x.1 ∈ (view rows).*1) as Hin by (apply list_elem_of_fmap; eauto).
    rewrite Hb in Hin. apply list_elem_of_fmap in Hin as (q & -> & Hq).
    apply String.eqb_neq. intros Eq. apply (inj row_name) in Eq as ->.
    apply NoDup_app in Hnd as (_ & _ & Hnd). apply NoDup_cons in Hnd as [Hnd _]. done. }
  assert (one_sub (sub_id p) (row_name p) = false) as Hself.
  { apply not_true_is_false. rewrite one_sub_child. intros [i Hi].
    apply (f_equal length) in Hi. rewrite length_app in Hi. cbn in Hi. lia. }
  destruct (first_visible _); rewrite view_stripes, !view_app, fmap_app; f_equal.
  - rewrite <- (list_fmap_id (view before)) at 1. apply fmap_ext_in. intros x Hx.
    rewrite (Hbefore x Hx). cbn [negb orb]. rewrite andb_true_r. by destruct x.
  - change (view (?a :: ?l)) with ((row_id a, shown a) :: view l).
    rewrite (view_map_if (below_id (sub_id p)) hide false) by done. rewrite fmap_cons. f_equal.
    + cbn. by rewrite Hr, String.eqb_refl, orb_true_r, andb_true_r.
    + apply fmap_ext_in. intros x Hx. rewrite (Hafter x Hx), orb_false_r.
      by destruct (below_id _ _); rewrite ?andb_false_r, ?andb_true_r.
  - rewrite <- (list_fmap_id (view before)) at 1. apply fmap_ext_in. intros x Hx. 
    assert (one_sub (sub_id p) x.1 = false) as ->; [|rewrite orb_false_r; by destruct x].
    apply not_true_is_false. intros Ho. pose proof (Hbefore x Hx) as Hb'. rewrite Hsub in Hb'; [done..|].
    rewrite view_app. apply elem_of_app. by left.
  - change (view (?a :: ?l)) with ((row_id a, shown a) :: view l).
    rewrite (view_map_if (one_sub (sub_id p)) (fun r => show (set_arrow right_arrow (close_icon r))) true) by done.
    rewrite fmap_cons. f_equal.
    + cbn. by rewrite Hr, Hself, orb_false_r.
    + apply fmap_ext_in. intros x _. cbn beta.
      destruct (one_sub (sub_id p) x.1); by rewrite ?orb_true_r, ?orb_false_r.
Qed.

(** ** Trees that are shown from the top *)

(** A row is shown only if its folder is, and the rows of one folder are shown
    together. *)
Record unfolding (ps : list (list nat)) (page : list row) : Prop := {
  shown_parent p i : p ∈ ps -> p ++ [i] ∈ ps -> is_shown page (p ++ [i]) -> is_shown page p;
  shown_siblings p i j : p ++ [i] ∈ ps -> p ++ [j] ∈ ps -> is_shown page (p ++ [i]) -> is_shown page (p ++ [j]) }.

Lemma is_shown_map ps page page' (f : string -> bool -> bool) q :
  holds ps page -> q ∈ ps -> view page' = (fun x => (x.1, f x.1 x.2)) <$> view page ->
  is_shown page' q <->
  (is_shown page q /\ f (row_name q) true = true) \/ (~ is_shown page q /\ f (row_name q) false = true).
Proof.
  intros Hh Hq Hv. unfold is_shown. rewrite Hv, list_elem_of_fmap. split.
  - intros ([n b] & E & Hx). cbn [fst snd] in E. injection E as E1 E2. subst n. destruct b; [by left|right].
    split; [|done]. intros Ht. by pose proof (holds_unique _ _ _ _ _ Hh Hx Ht).
  - intros [[Hs Hf]|[Hs Hf]].
    + exists (row_name q, true). cbn [fst snd]. by rewrite Hf.
    + destruct (holds_shown_dec _ _ _ Hh Hq) as [Ht|Ht]; [done|].
      exists (row_name q, false). cbn [fst snd]. by rewrite Hf.
Qed.

Lemma below_not_self p q :
  negb (below_id (sub_id p) (row_name q)) || String.eqb (row_name q) (row_name p) = true <->
  ~ (p `prefix_of` q /\ q <> p).
Proof.
  rewrite orb_true_iff, negb_true_iff, String.eqb_eq. split.
  - intros [Hb|Hq] [Hp Hne]; [|by apply (inj row_name) in Hq].
    apply below_id_prefix in Hp. congruence.
  - intros H. destruct (decide (q = p)) as [->|Hne]; [by right|left].
    apply not_true_is_false. rewrite below_id_prefix. tauto.
Qed.

Lemma toggleFolder_shown ps page p q :
  holds ps page -> p ∈ ps -> q ∈ ps ->
  is_shown (toggleFolder (sub_id p) page) q <->
  if opened page p then is_shown page q /\ ~ (p `prefix_of` q /\ q <> p)
  else is_shown page q \/ exists i, q = p ++ [i].
Proof.
  intros Hh Hp Hq. pose proof (toggleFolder_view ps page p Hh Hp) as Hv.
  destruct (opened page p).
  - rewrite (is_shown_map ps page _
      (fun n b => b && (negb (below_id (sub_id p) n) || String.eqb n (row_name p))) q Hh Hq Hv).
    cbn [andb]. rewrite below_not_self.
    split; [intros [H|[_ H]]; [exact H|done]|by left].
  - rewrite (is_shown_map ps page _ (fun n b => b || one_sub (sub_id p) n) q Hh Hq Hv).
    cbn [orb]. rewrite one_sub_child. 
    destruct (holds_shown_dec _ _ _ Hh Hq) as [Ht|Ht]; [tauto|].
    assert (~ is_shown page q) as Hn by (intros Hs; by pose proof (holds_unique _ _ _ _ _ Hh Hs Ht)).
    tauto.
Qed.

Lemma holds_toggleFolder ps page p : holds ps page -> p ∈ ps -> holds ps (toggleFolder (sub_id p) page).
Proof.
  intros Hh Hp. apply (holds_view ps page); [|done]. rewrite (toggleFolder_view ps page p Hh Hp).
  rewrite <- list_fmap_compose. by apply fmap_ext_in.
Qed.

Lemma toggleLevel_shown ps page level q :
  holds ps page -> q ∈ ps -> is_shown (toggleLevel level page) q <-> (Z.of_nat (length q) <= level)%Z.
Proof.
  intros Hh Hq.
  rewrite (is_shown_map ps page _ (fun n _ => level_shows level n) q Hh Hq (view_toggleLevel level page)).
  unfold level_shows. rewrite underscores_row_name, Z.leb_le.
  destruct (holds_shown_dec _ _ _ Hh Hq) as [Ht|Ht].
  - unfold is_shown. split; [lia|]. left. split; [done|lia].
  - assert (~ is_shown page q) by (intros Hs; by pose proof (holds_unique _ _ _ _ _ Hh Hs Ht)).
    split; [lia|]. right. split; [done|lia].
Qed.

Lemma holds_toggleLevel ps page level : holds ps page -> holds ps (toggleLevel level page).
Proof.
  intros Hh. apply (holds_view ps page); [|done]. rewrite view_toggleLevel.
  rewrite <- list_fmap_compose. by apply fmap_ext_in.
Qed.

Lemma toggleFolder_striped id page : striped (toggleFolder id page).
Proof.
  unfold toggleFolder. destruct (split_at _ _) as [[[before r] rows]|]; [|apply updateStripes_striped].
  destruct (first_visible _); apply updateStripes_striped.
Qed.

(** A folder counts as open when one of its rows, and then each, is shown. *)
Lemma opened_spec ps page p :
  holds ps page -> unfolding ps page -> p ∈ ps ->
  opened page p = true <-> exists i, p ++ [i] ∈ ps /\ is_shown page (p ++ [i]).
Proof.
  intros Hh [_ Hsib] Hp.
  destruct (split_at_spec ps page p Hh Hp) as (before & r & rows & pa & pb & E & -> & Hr & -> & Ha & Hb).
  unfold opened. rewrite E. pose proof (holds_order _ _ Hh pa p pb eq_refl) as Horder.
  assert (forall x, x ∈ rows -> one_sub (sub_id p) (row_id x) = true ->
    exists i, p ++ [i] ∈ pa ++ p :: pb /\ row_id x = row_name (p ++ [i])) as Hchild.
  { intros x Hx Ho. assert (row_id x ∈ (view rows).*1) as Hin.
    { unfold view. rewrite <- list_fmap_compose. by apply (list_elem_of_fmap_2 row_id). }
    rewrite Hb in Hin. apply list_elem_of_fmap in Hin as (q & Eq & Hq). rewrite Eq in *.
    apply one_sub_child in Ho as [i ->]. exists i. split; [|done]. rewrite elem_of_app, elem_of_cons. tauto. }
  assert (forall x, x ∈ rows -> shown x = true -> forall q, row_id x = row_name q ->
    is_shown (before ++ r :: rows) q) as Hshown.
  { intros x Hx Hs q Hq. unfold is_shown, view. apply list_elem_of_fmap. exists x.
    rewrite Hq, Hs. split; [done|]. rewrite elem_of_app, elem_of_cons. tauto. }
  split.
  - destruct (List.filter _ rows) as [|x l] eqn:Ef; [done|]. cbn. intros Hs.
    assert (x ∈ rows /\ one_sub (sub_id p) (row_id x) = true) as [Hx Ho].
    { assert (In x (List.filter (fun r => one_sub (sub_id p) (row_id r)) rows)) as Hin by (rewrite Ef; by left).
      apply filter_In in Hin as [Hin ?]. split; [by apply list_elem_of_In|done]. }
    destruct (Hchild x Hx Ho) as (i & Hi & Eq). exists i. split; [done|]. by eapply Hshown.
  - intros (i & Hi & Hs).
    assert (exists x, x ∈ rows /\ row_id x = row_name (p ++ [i])) as (x & Hx & Eq).
    { apply elem_of_app in Hi as [Hi|Hi].
      - exfalso. rewrite Forall_forall in Horder. apply (Horder _ Hi). by exists [i].
      - apply elem_of_cons in Hi as [Hi|Hi].
        { apply (f_equal length) in Hi. rewrite length_app in Hi. cbn in Hi. lia. }
        assert (row_name (p ++ [i]) ∈ (view rows).*1) as Hin by (rewrite Hb; by apply list_elem_of_fmap_2).
        unfold view in Hin. rewrite <- list_fmap_compose in Hin.
        apply list_elem_of_fmap in Hin as (x & Eq & Hx). by exists x. }
    destruct (List.filter _ rows) as [|y l] eqn:Ef.
    { assert (In x (List.filter (fun r => one_sub (sub_id p) (row_id r)) rows)) as Hin.
      { apply filter_In. split; [by apply list_elem_of_In|]. rewrite Eq. apply one_sub_child. by exists i. }
      by rewrite Ef in Hin. }
    assert (y ∈ rows /\ one_sub (sub_id p) (row_id y) = true) as [Hy Ho].
    { assert (In y (List.filter (fun r => one_sub (sub_id p) (row_id r)) rows)) as Hin by (rewrite Ef; by left).
      apply filter_In in Hin as [Hin ?]. split; [by apply list_elem_of_In|done]. }
    destruct (Hchild y Hy Ho) as (j & Hj & Eqj). cbn.
    pose proof (Hsib p i j Hi Hj Hs) as Hsj.
    destruct (shown y) eqn:Hsy; [done|]. exfalso.
    assert ((row_name (p ++ [j]), false) ∈ view (before ++ r :: rows)) as Hf.
    { unfold view. apply list_elem_of_fmap. exists y. rewrite Eqj, Hsy. split; [done|]. rewrite elem_of_app, elem_of_cons. tauto. }
    by pose proof (holds_unique _ _ _ _ _ Hh Hsj Hf).
Qed.

Lemma below_snoc (p q : list nat) i : p `prefix_of` q ++ [i] /\ q ++ [i] <> p <-> p `prefix_of` q.
Proof.
  split.
  - intros [[k Hk] Hne]. destruct k as [|x k _] using rev_ind; [by rewrite app_nil_r in Hk|].
    rewrite app_assoc in Hk. apply app_inj_tail in Hk as [-> _]. by exists k.
  - intros [k ->]. rewrite <- app_assoc. split; [by eexists|]. intros Hk.
    apply (f_equal length) in Hk. rewrite !length_app in Hk. cbn in Hk. lia.
Qed.

(** ** Deciding that a table holds a tree *)

Fixpoint ordered (ps : list (list nat)) : bool :=
  match ps with
  | [] => true
  | p :: ps => forallb (fun q => negb (bool_decide (q `prefix_of` p))) ps && ordered ps
  end.

Lemma ordered_spec ps : ordered ps = true ->
  forall a p b, ps = a ++ p :: b -> Forall (fun q => ~ p `prefix_of` q) a.
Proof.
  induction ps as [|x ps IH]; intros Ho [|y a] p b E; [done..|constructor|].
  injection E as <- ->. cbn in Ho. apply andb_true_iff in Ho as [Hx Ho].
  constructor; [|by eapply IH]. rewrite forallb_forall in Hx.
  specialize (Hx p). apply negb_true_iff, bool_decide_eq_false in Hx; [done|].
  apply in_app_iff. right. by left.
Qed.

Lemma all_shown_unfolding ps page :
  (view page).*1 = row_name <$> ps -> forallb shown page = true -> unfolding ps page.
Proof.
  intros Hn Hs. assert (forall q, q ∈ ps -> is_shown page q) as Hall.
  { intros q Hq. assert (row_name q ∈ (view page).*1) as Hin by (rewrite Hn; by apply list_elem_of_fmap_2).
    unfold view in Hin. rewrite <- list_fmap_compose in Hin.
    apply list_elem_of_fmap in Hin as (r & Eq & Hr). apply list_elem_of_fmap. exists r.
    rewrite forallb_forall in Hs. rewrite (Hs r) by by apply list_elem_of_In.
    change (row_name q = row_id r) in Eq. by rewrite Eq. }
  split; auto.
Qed.

(** ** Toggling twice *)

Lemma without_end_app s t : without_end (String.length t) (s +:+ t) = s.
Proof.
  unfold without_end. rewrite s_length_app, Nat.add_sub. apply s_take_app.
Qed.

(** The trigger shows the state of the section. *)
Definition section_wf (s : section) : Prop :=
  (exists dir, trigger_src s = Some (dir +:+ if content_shown s then "open.png" else "closed.png")) /\
  summary_shown s = negb (content_shown s) /\
  ("opened" ∈ link_class s <-> content_shown s = true) /\ ("closed" ∈ link_class s <-> content_shown s = false).

Lemma elem_of_addClass_iff c d l : c ∈ addClass d l <-> c = d \/ c ∈ l.
Proof.
  unfold addClass. case_decide; [split; [tauto|by intros [->|?]]|].
  rewrite elem_of_app, list_elem_of_singleton. tauto.
Qed.

Lemma elem_of_removeClass_iff c d l : c ∈ removeClass d l <-> c <> d /\ c ∈ l.
Proof. unfold removeClass. by rewrite list_elem_of_filter. Qed.

(** One toggle swaps the content, the classes and the picture. *)
Lemma toggleVisibility_spec s :
  section_wf s ->
  exists s', toggleVisibility s = (Ret false, s') /\ section_wf s' /\
    content_shown s' = negb (content_shown s) /\
    (forall dir, trigger_src s = Some (dir +:+ if content_shown s then "open.png" else "closed.png") ->
       trigger_src s' = Some (dir +:+ if content_shown s then "closed.png" else "open.png")) /\
    forall c, c <> "opened" -> c <> "closed" -> c ∈ link_class s' <-> c ∈ link_class s.
Proof.
  intros ([dir Hd] & Hs & Ho & Hc). unfold toggleVisibility. cbn [trigger_src]. rewrite Hd.
  assert (forall d : string, Some (dir +:+ d) = Some (dir +:+ d)) as _ by done.
  destruct (content_shown s) eqn:E; eexists; (split; [reflexivity|]); cbn [trigger_src content_shown link_class].
  - change 8 with (String.length "open.png"). rewrite without_end_app. split_and!; [|done| |].
    + split_and!; [by exists dir|done|..]; cbn; rewrite elem_of_removeClass_iff, elem_of_addClass_iff; clear; intuition congruence.
    + intros dir' Hd'. injection Hd' as Hd'. apply (f_equal (without_end 8)) in Hd'.
      change 8 with (String.length "open.png") in Hd'. rewrite !without_end_app in Hd'. by subst.
    + intros c Hc1 Hc2. rewrite elem_of_removeClass_iff, elem_of_addClass_iff. tauto.
  - change 10 with (String.length "closed.png"). rewrite without_end_app. split_and!; [|done| |].
    + split_and!; [by exists dir|done|..]; cbn; rewrite elem_of_addClass_iff, elem_of_removeClass_iff; clear; intuition congruence.
    + intros dir' Hd'. injection Hd' as Hd'. apply (f_equal (without_end 10)) in Hd'.
      change 10 with (String.length "closed.png") in Hd'. rewrite !without_end_app in Hd'. by subst.
    + intros c Hc1 Hc2. rewrite elem_of_addClass_iff, elem_of_removeClass_iff. tauto.
Qed.

(** The picture of an inherited list shows whether its rows are shown. *)
Definition inherited_wf (s : inherited) (b : bool) (dir : string) : Prop :=
  inherit_rows s <> [] /\ Forall (eq b) (inherit_rows s) /\
  inherit_imgs s = [dir +:+ if b then "open.png" else "closed.png"].

Lemma Forall_eq_map (b : bool) l : Forall (eq b) l -> map (fun _ => b) l = l.
Proof. induction 1 as [|x l <- _ IH]; [done|]. cbn. by rewrite IH. Qed.

Lemma toggleInherit_twice s b dir :
  inherited_wf s b dir ->
  exists s', toggleInherit s = (Ret tt, s') /\ inherited_wf s' (negb b) dir /\ toggleInherit s' = (Ret tt, s).
Proof.
  destruct s as [rows imgs]. intros (Hne & Hall & Hi). cbn in Hne, Hall, Hi. subst imgs.
  destruct rows as [|x rows]; [done|]. apply Forall_cons in Hall as [<- Hall].
  exists (mk_inherited (map (fun _ => negb b) (b :: rows)) [dir +:+ if negb b then "open.png" else "closed.png"]).
  pose proof (without_end_app dir "open.png") as E1. pose proof (without_end_app dir "closed.png") as E2.
  cbn [String.length] in E1, E2.
  split; [|split; [split; [done|]; split; [|done]; constructor; [done|]; by apply Forall_map, Forall_true|]].
  - unfold toggleInherit. cbn [inherit_rows inherit_imgs map]. destruct b; by rewrite ?E1, ?E2.
  - unfold toggleInherit. cbn [inherit_rows inherit_imgs map]. rewrite List.map_map, negb_involutive.
    rewrite Forall_eq_map by done. destruct b; cbn [negb]; by rewrite ?E1, ?E2.
Qed.

(** ** Properties *)

(** What a user can do with the table of a tree: choose a level, or click on a
    folder that is shown. *)
Inductive click (ps : list (list nat)) (page : list row) : list row -> Prop :=
| click_level level : click ps page (toggleLevel level page)
| click_folder p : p ∈ ps -> is_shown page p -> click ps page (toggleFolder (sub_id p) page).

(** Whatever levels and folders are clicked, in any order, the table stays
    unfolded from the top: no row is shown whose folder is hidden, and the rows of
    a folder are shown all together or not at all; and the visible rows stay
    alternately striped. *)
Theorem clicks_keep_tree ps page page' :
  holds ps page -> unfolding ps page -> striped page -> rtc (click ps) page page' ->
  holds ps page' /\ unfolding ps page' /\ striped page'.
Proof.
  intros Hh Hu Hs Hc. induction Hc as [page|page page1 page2 Hc _ IH]; [done|].
  enough (holds ps page1 /\ unfolding ps page1 /\ striped page1) as (? & ? & ?) by by apply IH.
  destruct Hc as [level|p Hp Hsp].
  - split_and!; [by apply holds_toggleLevel| |apply updateStripes_striped].
    split.
    + intros q i Hq Hi. rewrite !(toggleLevel_shown ps page) by done. rewrite length_app. cbn. lia.
    + intros q i j Hi Hj. rewrite !(toggleLevel_shown ps page) by done. rewrite !length_app. done.
  - split_and!; [by apply holds_toggleFolder| |apply toggleFolder_striped].
    destruct Hu as [Hpar Hsib].
    split.
    + intros q i Hq Hi. rewrite !(toggleFolder_shown ps page p) by done.
      destruct (opened page p).
      * rewrite below_snoc. intros [Hs1 Hn]. split; [by eapply Hpar|]. tauto.
      * intros [Hs1|[j Hj]]; [left; by eapply Hpar|]. apply app_inj_tail in Hj as [-> _]. by left.
    + intros q i j Hi Hj. rewrite !(toggleFolder_shown ps page p) by done.
      destruct (opened page p).
      * rewrite !below_snoc. intros [Hs1 Hn]. split; [by apply (Hsib q i j)|done].
      * intros [Hs1|[k Hk]]; [left; by apply (Hsib q i j)|]. apply app_inj_tail in Hk as [-> _]. right. by eexists.
Qed.

(** C40: A click on a folder of such a table hides everything below the folder when
    its rows are shown, whatever was open there, and otherwise shows the rows of the
    folder and nothing else; no other row changes.  A level shows the rows down to
    its depth.  The script finds the rows by their names: by a regular expression,
    and by a prefix. *)
Theorem folder_click_shows ps page p q :
  holds ps page -> unfolding ps page -> p ∈ ps -> q ∈ ps ->
  ((exists i, p ++ [i] ∈ ps /\ is_shown page (p ++ [i])) ->
     is_shown (toggleFolder (sub_id p) page) q <-> is_shown page q /\ ~ (p `prefix_of` q /\ q <> p)) /\
  (~ (exists i, p ++ [i] ∈ ps /\ is_shown page (p ++ [i])) ->
     is_shown (toggleFolder (sub_id p) page) q <-> is_shown page q \/ exists i, q = p ++ [i]) /\
  (forall level, is_shown (toggleLevel level page) q <-> (Z.of_nat (length q) <= level)%Z).
Proof.
  intros Hh Hu Hp Hq. pose proof (opened_spec ps page p Hh Hu Hp) as Ho.
  split_and!; [intros Hx..|intros level; by apply (toggleLevel_shown ps)];
    rewrite (toggleFolder_shown ps page p q Hh Hp Hq).
  - by rewrite (proj2 Ho Hx).
  - destruct (opened page p); [|done]. exfalso. apply Hx. by apply Ho.
Qed.

(** A section toggled twice is as it was: content and summary, the classes of
    the link, and the picture of the trigger. *)
Theorem section_toggled_twice s :
  section_wf s ->
  exists s1 s2, toggleVisibility s = (Ret false, s1) /\ content_shown s1 = negb (content_shown s) /\
    toggleVisibility s1 = (Ret false, s2) /\ content_shown s2 = content_shown s /\
    summary_shown s2 = summary_shown s /\ trigger_src s2 = trigger_src s /\
    forall c, c ∈ link_class s2 <-> c ∈ link_class s.
Proof.
  intros Hw. destruct (toggleVisibility_spec s Hw) as (s1 & E1 & Hw1 & Hc1 & Ht1 & Hl1).
  destruct (toggleVisibility_spec s1 Hw1) as (s2 & E2 & Hw2 & Hc2 & Ht2 & Hl2).
  exists s1, s2. rewrite Hc1, negb_involutive in Hc2.
  destruct Hw as ([dir Hd] & Hs & Ho & Hcl), Hw2 as (_ & Hs2 & Ho2 & Hcl2).
  split_and!; [done..|congruence| |].
  - rewrite Hd. rewrite Hc1 in Ht2. rewrite (Ht2 dir); [by destruct (content_shown s)|].
    rewrite (Ht1 dir Hd). by destruct (content_shown s).
  - intros c. destruct (decide (c = "opened")) as [->|Hn1]; [by rewrite Ho2, Ho, Hc2|].
    destruct (decide (c = "closed")) as [->|Hn2]; [by rewrite Hcl2, Hcl, Hc2|].
    by rewrite Hl2, Hl1.
Qed.

(** ** Witnesses *)

(** The first folders of the list of files: a row with its arrow and its icon. *)
Definition folder_row (p : list nat) : row :=
  mk_row (row_name p) [] true
    [mk_span ("arr_" +:+ sub_id p) ["arrow"] down_arrow; mk_span ("img_" +:+ sub_id p) ["iconfopen"] "&#160;"].
Definition sample_tree : list (list nat) := [[0]; [0; 0]; [0; 0; 0]; [0; 0; 1]; [0; 1]; [0; 1; 0]; [1]].
Definition sample_table : list row := updateStripes (folder_row <$> sample_tree).

Lemma sample_holds : holds sample_tree sample_table.
Proof.
  split; [vm_compute; reflexivity| | |by apply ordered_spec].
  - apply (bool_decide_unpack _). vm_compute. exact I.
  - apply (bool_decide_unpack _). vm_compute. exact I.
Qed.

Lemma sample_unfolding : unfolding sample_tree sample_table.
Proof. by apply all_shown_unfolding. Qed.

(** The second level, then its first folder. *)
Lemma clicks_keep_tree_witness :
  holds sample_tree (toggleFolder (sub_id [0; 0]) (toggleLevel 2 sample_table)) /\
  unfolding sample_tree (toggleFolder (sub_id [0; 0]) (toggleLevel 2 sample_table)) /\
  striped (toggleFolder (sub_id [0; 0]) (toggleLevel 2 sample_table)).
Proof.
  apply (clicks_keep_tree sample_tree sample_table);
    [apply sample_holds|apply sample_unfolding|apply updateStripes_striped|].
  apply (rtc_l _ _ (toggleLevel 2 sample_table)); [apply click_level|].
  apply rtc_once, click_folder; [by right; left|]. apply (toggleLevel_shown sample_tree); [apply sample_holds|by right; left|done].
Defined.

Lemma folder_click_shows_witness :
  ((exists i, [0] ++ [i] ∈ sample_tree /\ is_shown sample_table ([0] ++ [i])) ->
     is_shown (toggleFolder (sub_id [0]) sample_table) [0; 0; 1] <->
     is_shown sample_table [0; 0; 1] /\ ~ ([0] `prefix_of` [0; 0; 1] /\ [0; 0; 1] <> [0])) /\
  (~ (exists i, [0] ++ [i] ∈ sample_tree /\ is_shown sample_table ([0] ++ [i])) ->
     is_shown (toggleFolder (sub_id [0]) sample_table) [0; 0; 1] <->
     is_shown sample_table [0; 0; 1] \/ exists i, [0; 0; 1] = [0] ++ [i]) /\
  (forall level, is_shown (toggleLevel level sample_table) [0; 0; 1] <-> (Z.of_nat (length [0; 0; 1]) <= level)%Z).
Proof.
  apply (folder_click_shows sample_tree);
    [apply sample_holds|apply sample_unfolding|by left|by do 3 right; left].
Defined.

Definition sample_section : section := mk_section ["dyncontent"; "closed"] true false (Some "closed.png").

Lemma section_toggled_twice_witness :
  exists s1 s2, toggleVisibility sample_section = (Ret false, s1) /\ content_shown s1 = negb (content_shown sample_section) /\
    toggleVisibility s1 = (Ret false, s2) /\ content_shown s2 = content_shown sample_section /\
    summary_shown s2 = summary_shown sample_section /\ trigger_src s2 = trigger_src sample_section /\
    forall c, c ∈ link_class s2 <-> c ∈ link_class sample_section.
Proof.
  apply section_toggled_twice. split; [by exists ""|]. split; [done|]. split.
  - split; [|done]. intros H. apply elem_of_cons in H as [H|H]; [done|].
    apply elem_of_cons in H as [H|H]; [done|]. by apply not_elem_of_nil in H.
  - split; [done|]. intros _. by right; left.
Defined.

(** What a sample click shows. *)
Example sample_click :
  (fun r => (row_id r, shown r)) <$> toggleFolder "0_" sample_table =
  [("row_0_", true); ("row_0_0_", false); ("row_0_0_0_", false); ("row_0_0_1_", false);
   ("row_0_1_", false); ("row_0_1_0_", false); ("row_1_", true)].
Proof. vm_compute. reflexivity. Qed.
